(* ===== verification/_CoqProject ===== *)
-Q . S2P
Prelude.v
LinkedList.v
LinkedListFacts.v
Queue.v
Metadata.v
Frame.v
Module.v
IPv4.v
UDP.v
Switch.v
Icmp.v
Double.v
Run.v
IcmpFacts.v
Ping.v
Unreachable.v
Arp.v
ArpFacts.v
ArpResolve.v
Interface.v
Neighbours.v
InterfaceFacts.v
Capturer.v
Ethernet.v
FirstPacket.v
TcpWindow.v
TcpQueue.v
TcpSeg.v
TcpRecord.v
TcpConn.v
TcpMain.v
TcpIn.v
TcpOut.v
TcpLogic.v
TcpDemo.v
TcpStates.v
TcpRun.v
TcpReceive.v
TcpHandshake.v
TcpOptions.v
Rtm.v
RtmFacts.v
Listeners.v
Console.v
Daemon.v
DaemonUdp.v
DaemonOut.v
DaemonTcp.v
DaemonTcpIn.v
DaemonFacts.v
DaemonPorts.v
DaemonQueue.v
DaemonIcmp.v
DaemonProtos.v
Wedge.v
Netlink.v
WedgeCalls.v
Sockets.v
EndToEnd.v
DaemonStream.v
DaemonConnect.v
