(* ===== verification/Prelude.v ===== *)
(** * FINS-Framework: a verification library

    FINS is a user-space network stack.  Each protocol (IPv4, UDP, TCP, ARP,
    ICMP, ...) is a module, a thread with an input and an output queue of
    frames; a module addresses frames by flows, which its link table maps to
    destination modules, and the switch moves frames from output to input
    queues.  The code lies under [src/trunk]: [libs/common] (lists, frames,
    metadata), [libs/data_structure] (queues, the module runtime) and
    [modules/*].  An application reaches the stack through the kernel module
    [execs/wedge], which turns its socket calls into netlink messages to the
    daemon module and wakes it with the answers.

    ** Files

    - [Prelude] (this file): outcomes of C code ([res]: [Ok], [Segv] for
      undefined behaviour, [Exit] for [exit(-1)], [NoFuel]), the state monad
      [M], machine integers, the hint database [fins], list lemmas.
    - [LinkedList], [LinkedListFacts]: the doubly linked list of
      [libs/common/finstypes.c] ([list_*]), at pointer level: a heap maps node
      addresses to records with [next], [prev] and [data]; an operation reads and
      writes that heap.  The facts relate a well-formed heap ([lrep]) to a
      mathematical list, and each operation to its counterpart there.
    - [Queue]: the circular queue of [libs/data_structure/queue.c] and
      [finsqueue.c], with the array, [Front], [Rear] and [Size] of the code;
      the class [BoundedFifo] states what a queue promises, [queue_fifo]
      discharges it, and all later files are proved against the class.
    - [Metadata]: the libconfig settings used for frame metadata and
      [libs/common/metadata.c], with the [secure_*] wrappers that exit.
    - [Frame]: [struct finsFrame] with its data/control union, cloning,
      release, serialization, and the address, interface and route records.
    - [Module]: [libs/data_structure/finsmodule.c]: sending on flows, replies,
      and the messages that replace flows and links, over a store of link
      records so that sharing and freeing are visible.  The state
      [mstate Q D] holds the module, its link table, its private data [D],
      the released frames (a ghost list) and the posts to the switch.
    - [IPv4]: the modules/ipv4 handlers ([ipv4_in.c], [ipv4_out.c],
      [ipv4_send.c], [ipv4_forward.c], [ipv4_receive.c], checksum and header
      construction), with packets as byte lists.
    - [UDP]: the modules/udp handlers and the list of sent datagrams.
    - [Switch]: [modules/switch/switch.c]: the forwarding loop over the module
      table, and the frames addressed to the switch itself.
    - [Run]: what a handler leaves unchanged ([rest]) and what it adds to the
      output queue and to the released frames, for the compositions.
    - [Icmp], [IcmpFacts], [Ping], [Unreachable]: [modules/icmp/icmp.c] with
      its list of sent messages; the facts on its message formats; an echo
      request carried to another node and back through both IPv4 modules; and
      the errors it passes between UDP and the sender of a datagram.
    - [Arp], [ArpFacts], [ArpResolve]: [modules/arp/arp.c] and
      [arp_in_out.c]: messages, the cache and its handlers; the address
      resolution of a request by two modules.
    - [Interface]: [modules/interface/interface.c]: the cache of hardware
      addresses with the packets that wait for one and the questions asked, as
      objects of a heap, the frames written to the capturer, and the thread
      that reads captured frames.  [Neighbours]: the abstract table of
      neighbours, how a heap represents it, and the triples of the handlers;
      [InterfaceFacts]: the theorems on sequences of frames.
    - [Capturer]: the two processes of [execs/capturer/wifistub.c];
      [Ethernet]: frames on their way from one interface module to another;
      [FirstPacket]: two hosts with their interface and ARP modules and
      capturers, of which the switch and the sockets move the frames on.
    - [Double]: the IEEE arithmetic of the TCP round-trip estimate and of
      [finstime.c], on the rationals that doubles are.
    - [TcpWindow], [TcpQueue], [TcpSeg], [TcpRecord], [TcpConn], [TcpMain],
      [TcpIn], [TcpOut]: [modules/tcp]: sequence windows, the queues of
      segments, segments and their options, the connection record and its
      congestion control, the connection list and the main loop body, the
      receive side by connection state and the send side by request.
      [TcpLogic], [TcpRun] hold the triples for these handlers, [TcpStates],
      [TcpReceive], [TcpHandshake], [TcpOptions] the theorems, [TcpDemo] the
      concrete connections the witnesses evaluate.
    - [Rtm]: [modules/rtm/rtm.c] and [rtm_process.c]: the consoles, their
      commands, the knobs of the modules, replies and alerts.  The sockets of
      the consoles, [poll], the conversion of floating point values and the
      32-bit counter of serial numbers, which the modules share, are operations
      of the class [RtmEnv].  [RtmFacts]: words
      and numbers as text, and the triples of the manager; [Listeners]: the
      registrations as a finite map; [Console]: a console, the manager and the
      TCP module composed, and the commands that stay in the table.
    - [Daemon], [DaemonUdp], [DaemonOut]: [modules/daemon]: the tables of
      sockets and calls ([daemon.c]) and the answers to the applications
      ([daemon_netlink.c]); the UDP handlers ([udpHandling.c]); the decoding
      of the calls ([daemon_out.c]) and the frames from the switch, over a
      table of protocol operations ([proto_ops], of which [udp_ops] is one).
      [DaemonFacts] holds the triples for these handlers, [DaemonPorts] the
      addresses that sockets are bound to and the choice of a socket for a
      datagram, [DaemonQueue] a socket as a queue of datagrams and readers.
    - [DaemonTcp], [DaemonTcpIn], [DaemonIcmp]: the handlers of TCP sockets
      ([tcpHandling.c]), the calls in the first file, the replies and data of
      the TCP module and the time-outs in the second; and of raw ICMP sockets
      ([icmpHandling.c]).  [DaemonProtos] is the daemon with the three
      protocols that it registers.  [DaemonStream] is a TCP socket as a byte stream,
      [DaemonConnect] the life of a connect call.
    - [Wedge]: [execs/wedge/fins_stack_wedge.c]: the tables of sockets and
      calls, each socket call as a first half up to its wait and a second half
      ([_woken]) behind it, and the replies of the daemon ([nl_data_ready]).
      [Netlink]: the parts a message is cut into and the thread of the daemon
      that puts them together.  [WedgeCalls]: the life of one call.
    - [Sockets], [EndToEnd]: the components composed: what the daemon, the UDP
      and the IPv4 module of two hosts do with a datagram of an application.

    ** What the theorems show

    - Data structures: any sequence of operations on the list and on the
      queue returns normally and agrees with a mathematical list and a bounded
      FIFO queue; ordered insertion, removal by a test, split/join, cloning and
      freeing have their functional specifications; the cases where the
      code leaves its domain (inserting behind the last node, [list_find_last]
      without a match, front insertion at index 0, a partial join) are stated
      exactly.
    - Frames and metadata: write/read and clone laws, merging of metadata,
      the round trip of control frames and what their format does not carry.
    - Module runtime: a send on a flow reaches every destination of its link
      once; any sequence of link-table messages, refused ones and the tables
      that the core ([execs/core/core.c]) builds included, keeps each flow in
      use NULL or pointing to the live record of the list with its identifier;
      requests get one reply.
    - IPv4 and UDP: header and checksum round trips, error detection by the
      checksum, which received packets are passed up, dropped or leaked, with
      every counter, the delivery of a payload from the sending to the
      receiving module, the window of sent datagrams over any sequence of
      sends, and the inputs that overrun buffers.
    - ICMP: an echo request that leaves one node comes back as the reply with
      its data, through two IPv4 modules; the quoted
      bytes of an error message report the first remembered datagram that they
      match, up to a zero byte; the quoted header that is trusted.
    - ARP: the message format round trip, and that a request resolves at the
      asker and fills the cache at the asked; a silent neighbour is asked for
      twice more, with the same request, and then given up.
    - Interface and capturer: the interface module refines a table of
      neighbours with the ages of their entries, each packet is framed,
      reported, waiting or, when a table is full, dropped, exactly once, and
      no frame has an address that ARP did not give; what one module writes
      comes out of the other unchanged through both capturers; the first
      packet to an unknown neighbour arrives, after the exchange of the ARP
      modules; the lengths that overrun their buffers.
    - TCP: the three-way handshake between two connection records, the
      received stream as the in-order concatenation of the segments, the
      reachable connection states, window arithmetic modulo 2^32, the ordered
      queue with the exception for segments that wrap around, and options,
      whose loop has a position of 8 bits.
    - Real-time manager: a parameter of the TCP module that a console sets is
      what it reads back, as text; an alert goes to exactly the consoles that
      listen to it; [exec] commands stay in the table until it is full.
    - Daemon: no sequence of calls, frames and timers, on sockets of any of the
      three protocols, binds two UDP sockets to the same address and port; a datagram goes to the socket that fits it
      best; the readers of a socket are answered with its datagrams in order
      (an empty datagram in the store is passed over by a waiting reader).
      A connected TCP socket is a byte stream: what the readers get, followed
      by what is stored, is what was delivered; a connect call is answered
      once, by the reply to its request; an ICMP message reaches every raw
      socket that it fits, its reader or its store.
    - Wedge and the whole stack: messages of any length reach the daemon as
      they were sent, and what a lost part does; a datagram goes from a
      [sendmsg] call on one host to a [recvmsg] call on another, and both calls
      return; the calls that the smaller table of the daemon ignores.
    - Switch: a round refines the one-step transfer of queue heads and
      conserves frames; with a post per waiting frame the loop empties every
      output queue and delivers in order; the destination that is one past
      the module table.

    ** Conventions, fuel and bounds

    List nodes are optional addresses in a heap ([NULL] is [None]); elsewhere
    [NULL] is [None] and an object that is not shared is its value; integers
    are [Z] with the wrap-around of their C type written out ([u8], [u16],
    [u32], [s32]).  Semaphores that only give mutual
    exclusion around one operation are left out: each operation runs with its
    semaphore held, so the model executes them one after the other.
    Loops over linked nodes take fuel from the number of cells of the heap,
    loops over buffers recurse on the bytes left, and the carry loop of the UDP
    checksum has fuel 2, the most rounds a 32-bit sum needs; the theorems
    state [Ok], so the fuel is enough.
    [switch_loop] takes the number of rounds and says whether the function has
    returned, waits for an event or goes on.  [_get_ff] loops take the number
    of posted events; [NoFuel] there means waiting for another event.
    Uninitialised memory is an argument ([junk], and the [junk] fields of the
    environment classes of ARP and ICMP), the clock and the random numbers are
    parameters or fields of such a class.  A frame is a value: a frame that is
    queued twice or released after it was queued shows as two entries of the
    output queue or of the ghost list of released frames.
    In the daemon the results of sending to an application, the random numbers
    and the clock are functions of a counter of such calls ([ticks]); the loop
    that draws a free port has the fuel [port_draws] and ends in [NoFuel] if
    all draws hit a used port.  The application process is the list [wedge] of
    the messages sent to it, and its calls are the events of [daemon_out].
    In the interface module and the capturer the results of [read], [write] and
    [pcap_inject] and the clock are such functions too; the loops over waiting
    packets have the length of their list as fuel.
    In the wedge the results of allocations, copies from and to user space and
    netlink sends are the function [kernel_ok] of a counter ([w_ticks]);
    [others_run] is what other threads do while one sleeps in [msleep], and
    [sleep_rounds] bounds such waiting loops.  The layout of the messages is the
    one of a 64-bit system, with the padding as a parameter.
    Output for debugging is left out, except where it dereferences.

    ** Not modelled

    Process start-up, libpcap, the socket objects of the kernel,
    thread creation, timers and the vendored libraries are operating system
    I/O or third-party code.  Module lifecycle functions (create, init, run,
    pause, release) allocate and start threads and are left out.  The
    interleaving of module threads is represented by the order of operations
    only: a handler runs to its end before the next one.  TCP timers and the
    sleep of its main loop are events of the model, not durations.
    The logger, which prints measurements, the template of a module, and the
    executables that read a configuration file and start the modules or
    forward the standard input to the manager are left out (except for the link
    tables), as are the drafts of fragmentation that no module calls. *)

From stdpp Require Import base list gmap strings.
From Stdlib Require Import ZArith Lia.

Declare Scope fins_scope.
Delimit Scope fins_scope with fins.
Open Scope Z_scope.

(** [x |> f |> g] applies updates in the order the statements stand. *)
Notation "x |> f" := (f x) (at level 61, left associativity, only parsing) : fins_scope.

(** ** Outcomes of C code

    A C function of the model returns normally, runs into undefined
    behaviour (NULL or dangling dereference, array index out of range),
    terminates the process with [exit(-1)], or, for the loops that are
    translated with fuel, runs out of fuel.  Theorems that state what a
    function returns state it as [Ok], which excludes the three others. *)

Inductive res (A : Type) : Type :=
| Ok (a : A)
| Segv
| Exit
| NoFuel.
Arguments Ok {A} a.
Arguments Segv {A}.
Arguments Exit {A}.
Arguments NoFuel {A}.

(** State-passing computations over a state [S]. *)
Definition M (S A : Type) : Type := S → res (A * S).

#[export] Instance M_ret {S} : MRet (M S) := λ A a s, Ok (a, s).

#[export] Instance M_bind {S} : MBind (M S) := λ A B f m s,
  match m s with
  | Ok (a, s') => f a s'
  | Segv => Segv
  | Exit => Exit
  | NoFuel => NoFuel
  end.

Definition segv {S A} : M S A := λ _, Segv.
Definition exit_ {S A} : M S A := λ _, Exit.
Definition nofuel {S A} : M S A := λ _, NoFuel.
Definition get {S} : M S S := λ s, Ok (s, s).
Definition put {S} (s : S) : M S unit := λ _, Ok (tt, s).
Definition modify {S} (f : S → S) : M S unit := λ s, Ok (tt, f s).

Lemma bind_ok {S A B} (m : M S A) (f : A → M S B) s a s' :
  m s = Ok (a, s') → (m ≫= f) s = f a s'.
Proof. intros H. unfold mbind, M_bind. by rewrite H. Qed.

Lemma ret_ok {S A} (a : A) (s : S) : (mret a : M S A) s = Ok (a, s).
Proof. done. Qed.

(** Total-correctness triples: started in a state of [P], [m] returns normally
    with a value and a state related by [R]. *)
Section Runs.
Context {S : Type}.

Definition runs {A} (P : S → Prop) (m : M S A) (R : A → S → Prop) : Prop :=
  ∀ s, P s → ∃ a s', m s = Ok (a, s') ∧ R a s'.

Lemma runs_ret {A} (a : A) P (R : A → S → Prop) : (∀ s, P s → R a s) → runs P (mret a) R.
Proof. intros HR s HP. exists a, s. auto. Qed.

Lemma runs_bind {A B} P (m : M S A) (k : A → M S B) R R' :
  runs P m R → (∀ a, runs (R a) (k a) R') → runs P (m ≫= k) R'.
Proof.
  intros Hm Hk s HP. destruct (Hm s HP) as (a & s1 & E1 & H1).
  destruct (Hk a s1 H1) as (b & s2 & E2 & H2). exists b, s2. by rewrite (bind_ok _ _ _ _ _ E1).
Qed.

Lemma runs_weaken {A} (P P' : S → Prop) (m : M S A) (R R' : A → S → Prop) :
  runs P m R → (∀ s, P' s → P s) → (∀ a s, R a s → R' a s) → runs P' m R'.
Proof. intros Hm HP HR s Hs. destruct (Hm s (HP s Hs)) as (a & s' & E & Ha). eauto. Qed.

Lemma runs_post {A} P (m : M S A) (R R' : A → S → Prop) :
  runs P m R → (∀ a s, R a s → R' a s) → runs P m R'.
Proof. intros Hm HR. by eapply runs_weaken. Qed.

Lemma runs_ex {A X} (P : X → S → Prop) (m : M S A) R :
  (∀ x, runs (P x) m R) → runs (λ s, ∃ x, P x s) m R.
Proof. intros Hm s [x HP]. by apply (Hm x). Qed.

Lemma runs_pure {A} (F : Prop) P (m : M S A) R : (F → runs P m R) → runs (λ s, F ∧ P s) m R.
Proof. intros Hm s [HF HP]. by apply Hm. Qed.

Lemma runs_assoc {A B C} P (m : M S A) (f : A → M S B) (k : B → M S C) R :
  runs P (m ≫= λ a, f a ≫= k) R → runs P ((m ≫= f) ≫= k) R.
Proof.
  intros Hm s Hs. destruct (Hm s Hs) as (b & s' & E & Hb). exists b, s'. split; [|exact Hb].
  revert E. unfold mbind, M_bind. by destruct (m s) as [[? ?]| | |].
Qed.

Lemma runs_ret_bind {A B} P (a : A) (k : A → M S B) R : runs P (k a) R → runs P (mret a ≫= k) R.
Proof. done. Qed.

Lemma runs_bind_r {A} P (m : M S A) R : runs P (m ≫= mret) R → runs P m R.
Proof.
  intros Hm s Hs. destruct (Hm s Hs) as (b & s' & E & Hb). exists b, s'. split; [|exact Hb].
  revert E. unfold mbind, M_bind. by destruct (m s) as [[? ?]| | |].
Qed.

End Runs.

(** ** Machine integers: [w]-bit unsigned values with wrap-around *)

Definition u8 (x : Z) : Z := x mod 256.
Definition u16 (x : Z) : Z := x mod 65536.
Definition u32 (x : Z) : Z := x mod 4294967296.
Definition u64 (x : Z) : Z := x mod 18446744073709551616.

Definition is_u8 (x : Z) : Prop := 0 ≤ x < 256.
Definition is_u16 (x : Z) : Prop := 0 ≤ x < 65536.
Definition is_u32 (x : Z) : Prop := 0 ≤ x < 4294967296.

Lemma u8_range x : is_u8 (u8 x).
Proof. unfold u8, is_u8. by apply Z.mod_pos_bound. Qed.
Lemma u16_range x : is_u16 (u16 x).
Proof. unfold u16, is_u16. by apply Z.mod_pos_bound. Qed.
Lemma u32_range x : is_u32 (u32 x).
Proof. unfold u32, is_u32. by apply Z.mod_pos_bound. Qed.

Lemma u8_small x : is_u8 x → u8 x = x.
Proof. unfold u8, is_u8. apply Z.mod_small. Qed.
Lemma u16_small x : is_u16 x → u16 x = x.
Proof. unfold u16, is_u16. apply Z.mod_small. Qed.
Lemma u32_small x : is_u32 x → u32 x = x.
Proof. unfold u32, is_u32. apply Z.mod_small. Qed.

(** Two's complement reading of a 32-bit pattern, as a cast to [int] does. *)
Definition s32 (x : Z) : Z := (x + 2147483648) mod 4294967296 - 2147483648.

Lemma u32_s32 x : u32 (s32 x) = u32 x.
Proof. unfold u32, s32. Z.div_mod_to_equations. lia. Qed.

Lemma s32_range x : -2147483648 ≤ s32 x < 2147483648.
Proof. unfold s32. Z.div_mod_to_equations. lia. Qed.

Lemma s32_u32_small x : is_u32 x → u32 (s32 x) = x.
Proof. intros. rewrite u32_s32. by apply u32_small. Qed.

Create HintDb fins discriminated.
#[export] Hint Resolve u8_range u16_range u32_range u8_small u16_small u32_small : fins.

(** Linear arithmetic that knows the defining equations of [/] and [mod]. *)
Ltac zlia := unfold u8, u16, u32, is_u8, is_u16, is_u32 in *;
  Z.div_mod_to_equations; lia.

(** Steps a monadic computation whose first action is known to succeed. *)
Ltac mstep H := erewrite bind_ok; [| by eapply H].

(** ** Generic lemmas on lists and options *)

(** Membership in a list that has been split around one element. *)
Lemma NoDup_middle {A} (x : A) l1 l2 :
  NoDup (l1 ++ x :: l2) ↔ x ∉ l1 ∧ x ∉ l2 ∧ NoDup (l1 ++ l2).
Proof.
  rewrite <-(Permutation_middle l1 l2 x), NoDup_cons, not_elem_of_app. tauto.
Qed.

(** The first element satisfying a boolean test ([NULL] is [None]). *)
Fixpoint find_first {A} (f : A → bool) (l : list A) : option A :=
  match l with
  | [] => None
  | x :: l => if f x then Some x else find_first f l
  end.

Lemma find_first_Some {A} (f : A → bool) l x :
  find_first f l = Some x →
  ∃ l1 l2, l = l1 ++ x :: l2 ∧ f x = true ∧ Forall (λ y, f y = false) l1.
Proof.
  induction l as [|y l IH]; simpl; [done|]. destruct (f y) eqn:E; intros H.
  - simplify_eq. exists [], l. auto.
  - destruct (IH H) as (l1 & l2 & -> & ? & ?). exists (y :: l1), l2. auto.
Qed.

Lemma find_first_None {A} (f : A → bool) l :
  find_first f l = None ↔ Forall (λ y, f y = false) l.
Proof.
  induction l as [|y l IH]; simpl; [done|].
  destruct (f y) eqn:E; rewrite Forall_cons; naive_solver congruence.
Qed.

Lemma find_first_app {A} (f : A → bool) l1 l2 :
  find_first f (l1 ++ l2) =
    match find_first f l1 with Some x => Some x | None => find_first f l2 end.
Proof. induction l1 as [|y l1 IH]; simpl; [done|]. by destruct (f y). Qed.
