(* ===== verification/LinkedList.v ===== *)
(** * The doubly linked list of [libs/common/finstypes.c]

    [list_node]s live in a heap of cells; a [struct linked_list] header is a
    value that the operations take and return.  Every operation is the
    pointer manipulation of the C code, in the order of the C code: a
    dereference of NULL or of a freed node is [Segv].  The loops take fuel
    from the number of cells of the heap, which bounds the length of every
    well-formed list. *)

From stdpp Require Import base list gmap.
From Stdlib Require Import ZArith Lia.
From S2P Require Import Prelude.
Open Scope Z_scope.

Definition ptr : Type := option positive.
Definition NULL : ptr := None.

(** [struct list_node]; [data] is an address, 0 being NULL. *)
Record list_node := Node { next : ptr; prev : ptr; data : Z }.

(** [struct linked_list]. *)
Record linked_list := LL { max : Z; len : Z; front : ptr; end_ : ptr }.

Record heap := Heap { cells : gmap positive list_node; brk : positive }.

#[export] Instance ptr_eq_dec : EqDecision ptr := _.

(** ** The heap *)

Definition load (p : ptr) : M heap list_node := λ h,
  match p with
  | Some a => match cells h !! a with Some n => Ok (n, h) | None => Segv end
  | None => Segv
  end.

Definition store (p : ptr) (n : list_node) : M heap unit := λ h,
  match p with
  | Some a => match cells h !! a with
              | Some _ => Ok (tt, Heap (<[a := n]> (cells h)) (brk h))
              | None => Segv
              end
  | None => Segv
  end.

(** [p->next = v] and [p->prev = v]. *)
Definition set_next (p v : ptr) : M heap unit :=
  n ← load p; store p (Node v (prev n) (data n)).
Definition set_prev (p v : ptr) : M heap unit :=
  n ← load p; store p (Node (next n) v (data n)).

(** [secure_malloc(sizeof(struct list_node))] followed by the assignment of
    the three fields: the model hands out a fresh address. *)
Definition malloc_node (n : list_node) : M heap ptr := λ h,
  Ok (Some (brk h), Heap (<[brk h := n]> (cells h)) (Pos.succ (brk h))).

Definition free_node (p : ptr) : M heap unit := λ h,
  match p with
  | Some a => match cells h !! a with
              | Some _ => Ok (tt, Heap (delete a (cells h)) (brk h))
              | None => Segv
              end
  | None => Ok (tt, h)
  end.

(** Fuel for a walk over a list: one more than the number of cells. *)
Definition walk_fuel (h : heap) : nat := S (size (cells h)).

(** ** The operations *)

Definition list_create (m : Z) : linked_list := LL m 0 NULL NULL.

Definition list_is_empty (l : linked_list) : bool := len l =? 0.
Definition list_is_full (l : linked_list) : bool := len l =? max l.
Definition list_has_space (l : linked_list) : bool := len l <? max l.
Definition list_space (l : linked_list) : Z := u32 (max l - len l).

Definition list_prepend (l : linked_list) (d : Z) : M heap linked_list :=
  node ← malloc_node (Node (front l) NULL d);
  e ← (if list_is_empty l then mret node
       else set_prev (front l) node ;; mret (end_ l));
  mret (LL (max l) (u32 (len l + 1)) node e).

Definition list_append (l : linked_list) (d : Z) : M heap linked_list :=
  if list_is_empty l then
    node ← malloc_node (Node NULL NULL d);
    mret (LL (max l) (u32 (len l + 1)) node node)
  else
    node ← malloc_node (Node NULL (end_ l) d);
    set_next (end_ l) node ;;
    mret (LL (max l) (u32 (len l + 1)) (front l) node).

(** The search loop of [list_insert]: link a new node behind the first node
    whose data is [p]. *)
Fixpoint list_insert_loop (fuel : nat) (l : linked_list) (d p : Z) (temp : ptr)
    : M heap linked_list :=
  match fuel with
  | O => nofuel
  | S fuel =>
      match temp with
      | None => mret l
      | Some _ =>
          t ← load temp;
          if data t =? p then
            node ← malloc_node (Node (next t) temp d);
            set_prev (next t) node ;;
            set_next temp node ;;
            mret (LL (max l) (u32 (len l + 1)) (front l) (end_ l))
          else list_insert_loop fuel l d p (next t)
      end
  end.

Definition list_insert (l : linked_list) (d p : Z) : M heap linked_list :=
  if list_is_empty l then mret l
  else
    e ← load (end_ l);
    if data e =? d then
      node ← malloc_node (Node NULL (end_ l) d);
      set_next (end_ l) node ;;
      mret (LL (max l) (u32 (len l + 1)) (front l) node)
    else
      h ← get;
      list_insert_loop (walk_fuel h) l d p (front l).

(** [list_check]: the walk that counts nodes and checks the [prev] links. *)
Fixpoint list_check_loop (fuel : nat) (l : linked_list) (count : Z) (pv temp : ptr)
    : M heap bool :=
  match fuel with
  | O => nofuel
  | S fuel =>
      match temp with
      | Some _ =>
          if count <=? max l then
            t ← load temp;
            if decide (pv = prev t)
            then list_check_loop fuel l (count + 1) temp (next t)
            else mret false
          else mret (count =? len l)
      | None => mret (count =? len l)
      end
  end.

Definition list_check (l : linked_list) : M heap bool :=
  h ← get; list_check_loop (walk_fuel h) l 0 NULL (front l).

Fixpoint list_look_loop (fuel : nat) (i index : Z) (comp : ptr) : M heap (option Z) :=
  match fuel with
  | O => nofuel
  | S fuel =>
      match comp with
      | None => mret None
      | Some _ =>
          c ← load comp;
          if i =? index then mret (Some (data c))
          else list_look_loop fuel (u32 (i + 1)) index (next c)
      end
  end.

Definition list_look (l : linked_list) (index : Z) : M heap (option Z) :=
  h ← get; list_look_loop (walk_fuel h) 0 index (front l).

Fixpoint list_contains_loop (fuel : nat) (d : Z) (node : ptr) : M heap bool :=
  match fuel with
  | O => nofuel
  | S fuel =>
      match node with
      | None => mret false
      | Some _ =>
          n ← load node;
          if data n =? d then mret true else list_contains_loop fuel d (next n)
      end
  end.

Definition list_contains (l : linked_list) (d : Z) : M heap bool :=
  if list_is_empty l then mret false
  else h ← get; list_contains_loop (walk_fuel h) d (front l).

Definition list_remove_front (l : linked_list) : M heap (option Z * linked_list) :=
  if list_is_empty l then mret (None, l)
  else
    let node := front l in
    n ← load node;
    fe ← (if decide (end_ l = node) then mret (NULL, NULL)
          else set_prev (next n) NULL ;; mret (next n, end_ l));
    free_node node ;;
    mret (Some (data n), LL (max l) (u32 (len l - 1)) fe.1 fe.2).

(** The unlinking of a node, shared by [list_remove] and the
    [list_remove_all] family. *)
Definition list_unlink (l : linked_list) (node : ptr) (n : list_node)
    : M heap linked_list :=
  if decide (front l = node) then
    if decide (end_ l = node) then
      mret (LL (max l) (u32 (len l - 1)) NULL NULL)
    else
      f ← load (front l);
      set_prev (next f) NULL ;;
      mret (LL (max l) (u32 (len l - 1)) (next f) (end_ l))
  else if decide (end_ l = node) then
    set_next (prev n) NULL ;;
    mret (LL (max l) (u32 (len l - 1)) (front l) (prev n))
  else
    set_prev (next n) (prev n) ;;
    set_next (prev n) (next n) ;;
    mret (LL (max l) (u32 (len l - 1)) (front l) (end_ l)).

Fixpoint list_remove_loop (fuel : nat) (l : linked_list) (d : Z) (node : ptr)
    : M heap linked_list :=
  match fuel with
  | O => nofuel
  | S fuel =>
      match node with
      | None => mret l
      | Some _ =>
          n ← load node;
          if data n =? d then
            l' ← list_unlink l node n;
            free_node node ;;
            mret l'
          else list_remove_loop fuel l d (next n)
      end
  end.

Definition list_remove (l : linked_list) (d : Z) : M heap linked_list :=
  if list_is_empty l then mret l
  else h ← get; list_remove_loop (walk_fuel h) l d (front l).

(** The appending of an unlinked node to the list that is returned. *)
Definition list_relink_end (lr : linked_list) (comp : ptr) : M heap linked_list :=
  set_next comp NULL ;;
  f ← (if list_is_empty lr then
         set_prev comp NULL ;; mret comp
       else
         set_prev comp (end_ lr) ;;
         set_next (end_ lr) comp ;;
         mret (front lr));
  mret (LL (max lr) (u32 (len lr + 1)) f comp).

Fixpoint list_remove_all_loop (fuel : nat) (equal : Z → bool) (l lr : linked_list)
    (comp : ptr) : M heap (linked_list * linked_list) :=
  match fuel with
  | O => nofuel
  | S fuel =>
      match comp with
      | None => mret (l, lr)
      | Some _ =>
          c ← load comp;
          if equal (data c) then
            l' ← list_unlink l comp c;
            lr' ← list_relink_end lr comp;
            list_remove_all_loop fuel equal l' lr' (next c)
          else list_remove_all_loop fuel equal l lr (next c)
      end
  end.

Definition list_remove_all (l : linked_list) (equal : Z → bool)
    : M heap (linked_list * linked_list) :=
  h ← get;
  list_remove_all_loop (walk_fuel h) equal l (list_create (max l)) (front l).
Definition list_remove_all1 (l : linked_list) (equal : Z → Z → bool) (param : Z) :=
  list_remove_all l (λ d, equal d param).
Definition list_remove_all2 (l : linked_list) (equal : Z → Z → Z → bool) (p1 p2 : Z) :=
  list_remove_all l (λ d, equal d p1 p2).

(** Walk [n] nodes forward ([while (comp) { if (i == n) break; ... }]). *)
Fixpoint walk_to (fuel : nat) (i n : Z) (comp : ptr) : M heap ptr :=
  match fuel with
  | O => nofuel
  | S fuel =>
      match comp with
      | None => mret None
      | Some _ =>
          if i =? n then mret comp
          else c ← load comp; walk_to fuel (u32 (i + 1)) n (next c)
      end
  end.

Definition list_join (l1 l2 : linked_list)
    : M heap (bool * linked_list * linked_list) :=
  if list_is_empty l2 then mret (true, l1, l2)
  else
    let space := list_space l1 in
    if len l2 <=? space then
      f ← (if list_is_empty l1 then mret (front l2)
           else
             set_next (end_ l1) (front l2) ;;
             set_prev (front l2) (end_ l1) ;;
             mret (front l1));
      mret (true, LL (max l1) (u32 (len l1 + len l2)) f (end_ l2),
            LL (max l2) 0 NULL NULL)
    else if 0 <? space then
      h ← get;
      comp ← walk_to (walk_fuel h) 0 space (front l2);
      f ← (if list_is_empty l1 then mret (front l2)
           else
             set_next (end_ l1) (front l2) ;;
             set_prev (front l2) (end_ l1) ;;
             mret (front l1));
      c ← load comp;
      set_next (prev c) NULL ;;
      set_prev comp NULL ;;
      mret (false, LL (max l1) (len l1) f (prev c),
            LL (max l2) (u32 (len l2 - space)) comp (end_ l2))
    else mret (false, l1, l2).

Definition list_split (l : linked_list) (index : Z)
    : M heap (linked_list * linked_list) :=
  if u32 (index + 1) <? len l then
    h ← get;
    comp ← walk_to (walk_fuel h) 0 index (front l);
    c ← load comp;
    set_prev (next c) NULL ;;
    set_next comp NULL ;;
    mret (LL (max l) (u32 (index + 1)) (front l) comp,
          LL (max l) (u32 (len l - u32 (index + 1))) (next c) (end_ l))
  else mret (l, list_create (max l)).

(** [list_add]: ordered insertion; [exit(-1)] when no place is found. *)
Fixpoint list_add_loop (fuel : nat) (cmp : Z → Z → Z) (l : linked_list) (d : Z)
    (temp : ptr) : M heap (bool * linked_list) :=
  match fuel with
  | O => nofuel
  | S fuel =>
      t ← load temp;
      match next t with
      | None => exit_
      | Some _ =>
          tn ← load (next t);
          let ret := cmp d (data tn) in
          if ret =? -1 then
            node ← malloc_node (Node (next t) temp d);
            set_prev (next t) node ;;
            set_next temp node ;;
            mret (true, LL (max l) (u32 (len l + 1)) (front l) (end_ l))
          else if ret =? 0 then mret (false, l)
          else list_add_loop fuel cmp l d (next t)
      end
  end.

Definition list_add (l : linked_list) (d : Z) (cmp : Z → Z → Z)
    : M heap (bool * linked_list) :=
  if list_is_empty l then
    node ← malloc_node (Node NULL NULL d);
    mret (true, LL (max l) (u32 (len l + 1)) node node)
  else
    f ← load (front l);
    let ret := cmp d (data f) in
    if ret =? -1 then
      node ← malloc_node (Node (front l) NULL d);
      set_prev (front l) node ;;
      mret (true, LL (max l) (u32 (len l + 1)) node (end_ l))
    else if ret =? 0 then mret (false, l)
    else
      e ← load (end_ l);
      let ret := cmp d (data e) in
      if ret =? 1 then
        node ← malloc_node (Node NULL (end_ l) d);
        set_next (end_ l) node ;;
        mret (true, LL (max l) (u32 (len l + 1)) (front l) node)
      else if ret =? 0 then mret (false, l)
      else
        h ← get;
        list_add_loop (walk_fuel h) cmp l d (front l).

Fixpoint list_find_loop (fuel : nat) (equal : Z → bool) (comp : ptr) : M heap (option Z) :=
  match fuel with
  | O => nofuel
  | S fuel =>
      match comp with
      | None => mret None
      | Some _ =>
          c ← load comp;
          if equal (data c) then mret (Some (data c))
          else list_find_loop fuel equal (next c)
      end
  end.

Definition list_find (l : linked_list) (equal : Z → bool) : M heap (option Z) :=
  h ← get; list_find_loop (walk_fuel h) equal (front l).
Definition list_find1 (l : linked_list) (equal : Z → Z → bool) (param : Z) :=
  list_find l (λ d, equal d param).
Definition list_find2 (l : linked_list) (equal : Z → Z → Z → bool) (p1 p2 : Z) :=
  list_find l (λ d, equal d p1 p2).
Definition list_find4 (l : linked_list) (equal : Z → Z → Z → Z → Z → bool)
    (p1 p2 p3 p4 : Z) :=
  list_find l (λ d, equal d p1 p2 p3 p4).

(** [list_find_last]: dereferences [ret] after the loop, NULL included. *)
Fixpoint list_find_last_loop (fuel : nat) (equal : Z → bool) (comp ret : ptr)
    : M heap ptr :=
  match fuel with
  | O => nofuel
  | S fuel =>
      match comp with
      | None => mret ret
      | Some _ =>
          c ← load comp;
          list_find_last_loop fuel equal (next c)
            (if equal (data c) then comp else ret)
      end
  end.

Definition list_find_last (l : linked_list) (equal : Z → bool) : M heap Z :=
  h ← get;
  ret ← list_find_last_loop (walk_fuel h) equal (front l) NULL;
  r ← load ret;
  mret (data r).
Definition list_find_last1 (l : linked_list) (equal : Z → Z → bool) (param : Z) :=
  list_find_last l (λ d, equal d param).
Definition list_find_last2 (l : linked_list) (equal : Z → Z → Z → bool) (p1 p2 : Z) :=
  list_find_last l (λ d, equal d p1 p2).

(** [list_filter], of which [list_clone] (test always true) and
    [list_find_all] (clone is the identity) repeat the loop. *)
Fixpoint list_filter_loop (fuel : nat) (equal : Z → bool) (clone : Z → Z)
    (lr : linked_list) (comp : ptr) : M heap linked_list :=
  match fuel with
  | O => nofuel
  | S fuel =>
      match comp with
      | None => mret lr
      | Some _ =>
          c ← load comp;
          lr' ← (if equal (data c) then list_append lr (clone (data c)) else mret lr);
          list_filter_loop fuel equal clone lr' (next c)
      end
  end.

Definition list_filter (l : linked_list) (equal : Z → bool) (clone : Z → Z)
    : M heap linked_list :=
  h ← get;
  list_filter_loop (walk_fuel h) equal clone (list_create (max l)) (front l).
Definition list_filter1 (l : linked_list) (equal : Z → Z → bool) (param : Z)
    (clone : Z → Z) := list_filter l (λ d, equal d param) clone.
Definition list_filter2 (l : linked_list) (equal : Z → Z → Z → bool) (p1 p2 : Z)
    (clone : Z → Z) := list_filter l (λ d, equal d p1 p2) clone.
Definition list_clone (l : linked_list) (clone : Z → Z) : M heap linked_list :=
  list_filter l (λ _, true) clone.
Definition list_find_all (l : linked_list) (equal : Z → bool) : M heap linked_list :=
  list_filter l equal (λ d, d).
Definition list_find_all1 (l : linked_list) (equal : Z → Z → bool) (param : Z) :=
  list_find_all l (λ d, equal d param).
Definition list_find_all2 (l : linked_list) (equal : Z → Z → Z → bool) (p1 p2 : Z) :=
  list_find_all l (λ d, equal d p1 p2).

(** [list_for_each]: [apply] acts on a state of the caller. *)
Fixpoint list_for_each_loop {St : Type} (fuel : nat) (apply : Z → St → St) (s : St)
    (comp : ptr) : M heap St :=
  match fuel with
  | O => nofuel
  | S fuel =>
      match comp with
      | None => mret s
      | Some _ =>
          c ← load comp;
          list_for_each_loop fuel apply (apply (data c) s) (next c)
      end
  end.

Definition list_for_each {St : Type} (l : linked_list) (apply : Z → St → St) (s : St)
    : M heap St :=
  h ← get; list_for_each_loop (walk_fuel h) apply s (front l).
Definition list_for_each1 {St : Type} (l : linked_list) (apply : Z → Z → St → St)
    (param : Z) (s : St) := list_for_each l (λ d, apply d param) s.
Definition list_for_each2 {St : Type} (l : linked_list) (apply : Z → Z → Z → St → St)
    (p1 p2 : Z) (s : St) := list_for_each l (λ d, apply d p1 p2) s.

(** [list_free]: frees every node; the data passed to [release] are
    recorded in order ([NULL] data are skipped). *)
Fixpoint list_free_loop (fuel : nat) (released : list Z) (node : ptr) : M heap (list Z) :=
  match fuel with
  | O => nofuel
  | S fuel =>
      match node with
      | None => mret released
      | Some _ =>
          n ← load node;
          free_node node ;;
          list_free_loop fuel
            (if data n =? 0 then released else released ++ [data n]) (next n)
      end
  end.

Definition list_free (l : linked_list) : M heap (list Z) :=
  h ← get; list_free_loop (walk_fuel h) [] (front l).

(** [list_free_all]: frees the nodes that satisfy the test, and leaves the
    header and the neighbours as they are. *)
Fixpoint list_free_all_loop (fuel : nat) (equal : Z → bool) (released : list Z)
    (node : ptr) : M heap (list Z) :=
  match fuel with
  | O => nofuel
  | S fuel =>
      match node with
      | None => mret released
      | Some _ =>
          n ← load node;
          if equal (data n) then
            free_node node ;;
            list_free_all_loop fuel equal (released ++ [data n]) (next n)
          else list_free_all_loop fuel equal released (next n)
      end
  end.

Definition list_free_all (l : linked_list) (equal : Z → bool) : M heap (list Z) :=
  h ← get; list_free_all_loop (walk_fuel h) equal [] (front l).
Definition list_free_all1 (l : linked_list) (equal : Z → Z → bool) (param : Z) :=
  list_free_all l (λ d, equal d param).
Definition list_free_all2 (l : linked_list) (equal : Z → Z → Z → bool) (p1 p2 : Z) :=
  list_free_all l (λ d, equal d p1 p2).
