(* ===== verification/LinkedListFacts.v ===== *)
(** * Correctness of the linked list

    The representation predicate that relates a list header and a heap to
    the sequence of its nodes, and for every operation of [LinkedList] the
    lemma that it terminates normally, refines the operation on
    mathematical sequences it stands for, and leaves the rest of the heap
    alone.  The theorems at the end of the file are the properties of the
    component. *)

From stdpp Require Import base list gmap sorting.
From Stdlib Require Import ZArith Lia Sorting.Sorted.
From S2P Require Import Prelude LinkedList.
Open Scope Z_scope.

(** ** Representation

    [dlseg h pv ns nx]: the nodes [ns] (address and data) form a doubly
    linked segment whose first node points back to [pv] and whose last node
    points forward to [nx]. *)

Abbreviation nodes := (list (positive * Z)) (only parsing).

Definition hd_ptr (ns : nodes) (nx : ptr) : ptr :=
  match ns with [] => nx | (a, _) :: _ => Some a end.

Fixpoint last_ptr (pv : ptr) (ns : nodes) : ptr :=
  match ns with [] => pv | (a, _) :: ns => last_ptr (Some a) ns end.

Fixpoint dlseg (h : heap) (pv : ptr) (ns : nodes) (nx : ptr) : Prop :=
  match ns with
  | [] => True
  | (a, d) :: ns' =>
      cells h !! a = Some (Node (hd_ptr ns' nx) pv d) ∧ dlseg h (Some a) ns' nx
  end.

(** Addresses at or above [brk] are free. *)
Definition heap_ok (h : heap) : Prop := ∀ a, (brk h ≤ a)%positive → cells h !! a = None.

(** The list [l] of heap [h] has the nodes [ns]. *)
Record rep (h : heap) (l : linked_list) (ns : nodes) : Prop := {
  rep_seg : dlseg h NULL ns NULL;
  rep_nodup : NoDup ns.*1;
  rep_len : len l = Z.of_nat (length ns);
  rep_bound : Z.of_nat (length ns) < 4294967296;
  rep_front : front l = hd_ptr ns NULL;
  rep_end : end_ l = last_ptr NULL ns
}.

(** [h'] is [h] outside the addresses [X]. *)
Definition same_except (X : list positive) (h h' : heap) : Prop :=
  ∀ a, a ∉ X → cells h' !! a = cells h !! a.

Lemma hd_ptr_app ns1 ns2 nx : hd_ptr (ns1 ++ ns2) nx = hd_ptr ns1 (hd_ptr ns2 nx).
Proof. by destruct ns1 as [|[??]?]. Qed.

Lemma last_ptr_app pv ns1 ns2 : last_ptr pv (ns1 ++ ns2) = last_ptr (last_ptr pv ns1) ns2.
Proof. revert pv. induction ns1 as [|[??] ? IH]; intros; simpl; auto. Qed.

Lemma dlseg_app h pv ns1 ns2 nx :
  dlseg h pv (ns1 ++ ns2) nx ↔
  dlseg h pv ns1 (hd_ptr ns2 nx) ∧ dlseg h (last_ptr pv ns1) ns2 nx.
Proof.
  revert pv. induction ns1 as [|[a d] ns1 IH]; intros pv; simpl; [tauto|].
  rewrite IH, hd_ptr_app. tauto.
Qed.

Lemma dlseg_lookup h pv ns nx a : dlseg h pv ns nx → a ∈ ns.*1 → is_Some (cells h !! a).
Proof.
  revert pv. induction ns as [|[b d] ns IH]; intros pv; simpl.
  - by rewrite elem_of_nil.
  - intros [Hb Hs]. rewrite elem_of_cons. intros [->|?]; eauto.
Qed.

Lemma dlseg_agree h h' pv ns nx :
  (∀ a, a ∈ ns.*1 → cells h' !! a = cells h !! a) → dlseg h pv ns nx → dlseg h' pv ns nx.
Proof.
  revert pv. induction ns as [|[b d] ns IH]; intros pv Hd; simpl; [done|].
  intros [Hb Hseg]. split.
  - rewrite Hd; [done|]. set_solver +.
  - apply IH; [|done]. intros a ?. apply Hd. set_solver.
Qed.

Lemma dlseg_frame h h' X pv ns nx :
  same_except X h h' → (∀ a, a ∈ ns.*1 → a ∉ X) → dlseg h pv ns nx → dlseg h' pv ns nx.
Proof. intros Hs Hd. apply dlseg_agree. auto. Qed.

Lemma load_ok h a n : cells h !! a = Some n → load (Some a) h = Ok (n, h).
Proof. intros H. unfold load. by rewrite H. Qed.

Lemma heap_ok_same h h' a :
  heap_ok h → brk h' = brk h → same_except [a] h h' → is_Some (cells h !! a) → heap_ok h'.
Proof.
  intros Hok Hb Hs [n Ha] b Hle. rewrite Hb in Hle.
  rewrite Hs; [by apply Hok|]. rewrite list_elem_of_singleton. intros ->.
  rewrite Hok in Ha; done.
Qed.

Lemma notin_singleton {A} (x : A) (X : list A) : x ∉ X → ∀ a, a ∈ X → a ∉ [x].
Proof. intros Hx a Ha Hb. apply list_elem_of_singleton in Hb as ->. done. Qed.

(** The head of a segment may be re-pointed backwards, its last node forwards. *)
Lemma dlseg_set_prev h pv a d ns nx v :
  dlseg h pv ((a, d) :: ns) nx → a ∉ ns.*1 →
  ∃ h', set_prev (Some a) v h = Ok (tt, h') ∧ dlseg h' v ((a, d) :: ns) nx ∧
        same_except [a] h h' ∧ (heap_ok h → heap_ok h') ∧ brk h' = brk h.
Proof.
  simpl. intros [Ha Hs] Hni.
  unfold set_prev. erewrite bind_ok by (unfold load; by rewrite Ha).
  unfold store; simpl. rewrite Ha. eexists. split; [done|]. simpl.
  assert (Hsame : same_except [a] h
    (Heap (<[a:=Node (hd_ptr ns nx) v d]> (cells h)) (brk h))).
  { intros b Hb. simpl. apply lookup_insert_ne. set_solver. }
  split_and!; [by simplify_map_eq| |done| |done].
  - eapply dlseg_frame; [done| |done]. set_solver.
  - intros Hok. eapply heap_ok_same; eauto.
Qed.

Lemma dlseg_set_next h pv a d ns nx v :
  dlseg h pv (ns ++ [(a, d)]) nx → a ∉ ns.*1 →
  ∃ h', set_next (Some a) v h = Ok (tt, h') ∧ dlseg h' pv (ns ++ [(a, d)]) v ∧
        same_except [a] h h' ∧ (heap_ok h → heap_ok h') ∧ brk h' = brk h.
Proof.
  rewrite dlseg_app. simpl. intros (Hs & Ha & _) Hni.
  unfold set_next. erewrite bind_ok by (unfold load; by rewrite Ha).
  unfold store; simpl. rewrite Ha. eexists. split; [done|]. simpl.
  assert (Hsame : same_except [a] h
    (Heap (<[a:=Node v (last_ptr pv ns) d]> (cells h)) (brk h))).
  { intros b Hb. simpl. apply lookup_insert_ne. set_solver. }
  rewrite dlseg_app. simpl. split_and!; [|by simplify_map_eq|done|done| |done].
  - eapply dlseg_frame; [done| |done]. set_solver.
  - intros Hok. eapply heap_ok_same; eauto.
Qed.

Lemma malloc_node_ok h n :
  heap_ok h →
  ∃ h', malloc_node n h = Ok (Some (brk h), h') ∧ cells h' !! brk h = Some n ∧
        same_except [brk h] h h' ∧ heap_ok h' ∧ cells h !! brk h = None.
Proof.
  intros Hok. eexists. split; [done|]. simpl. split_and!.
  - by simplify_map_eq.
  - intros b Hb. simpl. apply lookup_insert_ne. set_solver.
  - intros b Hb. simpl in *. rewrite lookup_insert_ne by lia. apply Hok. lia.
  - apply Hok. lia.
Qed.

Lemma dlseg_fresh h pv ns nx a : dlseg h pv ns nx → cells h !! a = None → a ∉ ns.*1.
Proof.
  intros Hs Hn Hin. destruct (dlseg_lookup _ _ _ _ _ Hs Hin) as [? ?]. congruence.
Qed.

(** A list is never longer than the heap: the fuel of the walks suffices. *)
Lemma dlseg_size h pv ns nx :
  dlseg h pv ns nx → NoDup ns.*1 → (length ns ≤ size (cells h))%nat.
Proof.
  intros Hs Hnd.
  assert (Hsub : list_to_set (C := gset positive) ns.*1 ⊆ dom (cells h)).
  { intros a Ha. apply elem_of_dom. eapply dlseg_lookup; [done|]. set_solver. }
  apply subseteq_size in Hsub. rewrite size_dom, size_list_to_set in Hsub by done.
  by rewrite length_fmap in Hsub.
Qed.

Lemma same_except_trans X Y Z' h1 h2 h3 :
  same_except X h1 h2 → same_except Y h2 h3 → X ⊆ Z' → Y ⊆ Z' → same_except Z' h1 h3.
Proof. intros H1 H2 HX HY a Ha. rewrite H2, H1; [done|set_solver|set_solver]. Qed.

Lemma same_except_refl X h : same_except X h h.
Proof. done. Qed.
#[export] Hint Resolve same_except_refl : fins.

Lemma rep_empty_iff h l ns : rep h l ns → list_is_empty l = true ↔ ns = [].
Proof.
  intros []. unfold list_is_empty. rewrite Z.eqb_eq, rep_len0.
  destruct ns; simpl; split; intros; done || lia.
Qed.

Lemma rep_nonempty h l ns : rep h l ns → list_is_empty l = false → ns ≠ [].
Proof. intros H He ->. by rewrite (proj2 (rep_empty_iff _ _ _ H)) in He. Qed.

Lemma rep_create h m : rep h (list_create m) [].
Proof. split; simpl; auto using NoDup_nil_2; lia. Qed.

Lemma rep_nil h m : rep h (LL m 0 NULL NULL) [].
Proof. apply (rep_create h m). Qed.
#[export] Hint Resolve rep_create rep_nil : fins.

(** Building the representation of a result from its segment. *)
Lemma rep_intro h m f e ns n :
  dlseg h NULL ns NULL → NoDup ns.*1 → n = Z.of_nat (length ns) → is_u32 n →
  f = hd_ptr ns NULL → e = last_ptr NULL ns → rep h (LL m n f e) ns.
Proof. unfold is_u32. intros ?? -> ? -> ->. split; simpl; try done; lia. Qed.

(** A list is untouched by a heap change outside its nodes. *)
Lemma rep_frame h h' X l ns :
  same_except X h h' → (∀ a, a ∈ ns.*1 → a ∉ X) → rep h l ns → rep h' l ns.
Proof. intros Hs Hd []. split; eauto using dlseg_frame. Qed.

(** Gluing two disjoint segments: the two pointer writes used by append,
    insert, join and relinking. *)
Lemma dlseg_link h pv ns1 a1 d1 a2 d2 ns2 x y nx :
  heap_ok h → NoDup (ns1 ++ [(a1, d1)] ++ (a2, d2) :: ns2).*1 →
  dlseg h pv (ns1 ++ [(a1, d1)]) x → dlseg h y ((a2, d2) :: ns2) nx →
  ∃ h1 h2, set_next (Some a1) (Some a2) h = Ok (tt, h1) ∧
    set_prev (Some a2) (Some a1) h1 = Ok (tt, h2) ∧
    dlseg h2 pv (ns1 ++ [(a1, d1)] ++ (a2, d2) :: ns2) nx ∧
    same_except [a1; a2] h h2 ∧ heap_ok h2 ∧ brk h2 = brk h.
Proof.
  intros Hok Hnd H1 H2. rewrite !fmap_app in Hnd. simpl in Hnd.
  apply NoDup_middle in Hnd as (Hn1 & Hn2 & Hnd).
  apply NoDup_middle in Hnd as (Hn3 & Hn4 & _).
  destruct (dlseg_set_next _ _ _ _ _ _ (Some a2) H1) as (h1 & E1 & S1 & F1 & O1 & B1);
    [done|].
  assert (D1 : dlseg h1 y ((a2, d2) :: ns2) nx).
  { eapply dlseg_frame; [exact F1| |exact H2]. set_solver +Hn2 Hn4. }
  destruct (dlseg_set_prev _ _ _ _ _ _ (Some a1) D1) as (h2 & E2 & S2 & F2 & O2 & B2);
    [done|].
  exists h1, h2. split_and!; auto.
  - rewrite app_assoc. apply dlseg_app. rewrite last_ptr_app. split; [|done].
    eapply dlseg_frame; [exact F2| |exact S1].
    rewrite fmap_app. set_solver +Hn2 Hn3.
  - eapply same_except_trans; [done..| |]; set_solver +.
  - congruence.
Qed.

(** ** Refinement of the constructors *)

Lemma list_append_rep h l ns d :
  heap_ok h → rep h l ns → Z.of_nat (length ns) + 1 < 4294967296 →
  ∃ h' l', list_append l d h = Ok (l', h') ∧ rep h' l' (ns ++ [(brk h, d)]) ∧
    max l' = max l ∧ same_except (brk h :: ns.*1) h h' ∧ heap_ok h' ∧
    cells h !! brk h = None.
Proof.
  intros Hok R Hlt. unfold list_append.
  assert (Hlen : u32 (len l + 1) = Z.of_nat (length (ns ++ [(brk h, d)]))).
  { rewrite (rep_len _ _ _ R), length_app. simpl. zlia. }
  destruct (list_is_empty l) eqn:E.
  - apply (rep_empty_iff _ _ _ R) in E as ->.
    destruct (malloc_node_ok h (Node NULL NULL d) Hok) as (h' & Em & Hc & Hs & Hok' & Hf).
    mstep Em. eexists _, _. split; [done|]. split_and!; auto.
    apply rep_intro; [done| |done| |done|done]; simpl; [apply NoDup_singleton|zlia].
  - apply (rep_nonempty _ _ _ R) in E. revert R Hlen Hlt.
    induction ns as [|[a1 d1] ns0 _] using rev_ind; [done|]. intros R Hlen Hlt.
    destruct R as [Sg Nd Ln Bd Fr En].
    destruct (malloc_node_ok h (Node NULL (end_ l) d) Hok) as (h1 & Em & Hc & Hs & Hok1 & Hf).
    assert (Hfr : brk h ∉ (ns0 ++ [(a1, d1)]).*1) by eauto using dlseg_fresh.
    mstep Em. rewrite last_ptr_app in En. simpl in En. rewrite En.
    assert (D1 : dlseg h1 NULL (ns0 ++ [(a1, d1)]) NULL).
    { eapply dlseg_frame; [exact Hs| |exact Sg]. by apply notin_singleton. }
    rewrite fmap_app in Nd, Hfr. simpl in Nd, Hfr.
    destruct (dlseg_set_next _ _ _ _ _ _ (Some (brk h)) D1) as (h2 & E2 & S2 & F2 & O2 & B2).
    { by apply NoDup_middle in Nd as (? & _). }
    mstep E2. eexists _, _. split; [done|]. split_and!; auto.
    + apply rep_intro; [| |done| | |].
      * apply dlseg_app. rewrite last_ptr_app. simpl. split_and!; [done| |done].
        rewrite F2, Hc, En; [done|]. set_solver +Hfr.
      * rewrite !fmap_app. simpl. rewrite (Permutation_app_comm _ [brk h]).
        simpl. by constructor.
      * rewrite Hlen, length_app. simpl. zlia.
      * rewrite Fr, !hd_ptr_app. by destruct ns0 as [|[??]?].
      * by rewrite last_ptr_app.
    + eapply same_except_trans; [exact Hs|exact F2| |]; rewrite ?fmap_app; set_solver +.
Qed.

Lemma list_prepend_rep h l ns d :
  heap_ok h → rep h l ns → Z.of_nat (length ns) + 1 < 4294967296 →
  ∃ h' l', list_prepend l d h = Ok (l', h') ∧ rep h' l' ((brk h, d) :: ns) ∧
    max l' = max l ∧ same_except (brk h :: ns.*1) h h' ∧ heap_ok h'.
Proof.
  intros Hok R Hlt. unfold list_prepend.
  assert (Hlen : u32 (len l + 1) = Z.of_nat (length ((brk h, d) :: ns))).
  { rewrite (rep_len _ _ _ R). simpl length. zlia. }
  destruct (malloc_node_ok h (Node (front l) NULL d) Hok) as (h1 & Em & Hc & Hs & Hok1 & Hf).
  mstep Em. pose proof R as [Sg Nd Ln Bd Fr En].
  assert (Hfr : brk h ∉ ns.*1) by eauto using dlseg_fresh.
  assert (D1 : dlseg h1 NULL ns NULL).
  { eapply dlseg_frame; [exact Hs| |exact Sg]. by apply notin_singleton. }
  destruct (list_is_empty l) eqn:E.
  - apply (rep_empty_iff _ _ _ R) in E as ->. simpl in Fr. rewrite Fr in Hc.
    eexists _, _. split; [done|]. split_and!; auto.
    apply rep_intro; [done| |done| |done|done]; simpl; [apply NoDup_singleton|zlia].
  - apply (rep_nonempty _ _ _ R) in E. destruct ns as [|[a1 d1] ns]; [done|].
    simpl in Fr. rewrite Fr in *. apply NoDup_cons in Nd as [Hni Nd].
    destruct (dlseg_set_prev _ _ _ _ _ _ (Some (brk h)) D1) as (h2 & E2 & S2 & F2 & O2 & B2);
      [done|].
    erewrite bind_ok; [|by erewrite bind_ok by exact E2].
    eexists _, _. split; [done|]. split_and!; auto.
    + apply rep_intro; try done.
      * split; [|done]. rewrite F2, Hc; [done|]. set_solver +Hfr.
      * constructor; [done|]. by constructor.
      * rewrite Hlen. simpl length in *. zlia.
    + eapply same_except_trans; [exact Hs|exact F2| |]; set_solver +.
Qed.

(** ** Refinement of the walks

    [walk_ok] states what a walk over the remaining nodes needs. *)

Lemma rep_walk_fuel h l ns : rep h l ns → (length ns < walk_fuel h)%nat.
Proof. intros []. pose proof (dlseg_size _ _ _ _ rep_seg0 rep_nodup0). unfold walk_fuel. lia. Qed.

Lemma list_find_loop_ok equal h fuel pv ns :
  dlseg h pv ns NULL → (length ns < fuel)%nat →
  list_find_loop fuel equal (hd_ptr ns NULL) h = Ok (find_first equal ns.*2, h).
Proof.
  revert fuel pv. induction ns as [|[a d] ns IH]; intros fuel pv Hs Hf;
    (destruct fuel as [|fuel]; [simpl in Hf; lia|]); [done|].
  destruct Hs as [Ha Hs]. simpl. erewrite bind_ok by exact (load_ok _ _ _ Ha). simpl.
  destruct (equal d); [done|]. eapply IH; [done|]. simpl in Hf. lia.
Qed.

Lemma list_find_rep h l ns equal :
  rep h l ns → list_find l equal h = Ok (find_first equal ns.*2, h).
Proof.
  intros R. pose proof (rep_walk_fuel _ _ _ R). destruct R. unfold list_find.
  erewrite bind_ok by done. rewrite rep_front0. by eapply list_find_loop_ok.
Qed.

Lemma list_contains_loop_ok d h fuel pv ns :
  dlseg h pv ns NULL → (length ns < fuel)%nat →
  list_contains_loop fuel d (hd_ptr ns NULL) h = Ok (bool_decide (d ∈ ns.*2), h).
Proof.
  revert fuel pv. induction ns as [|[a e] ns IH]; intros fuel pv Hs Hf;
    (destruct fuel as [|fuel]; [simpl in Hf; lia|]); [done|].
  destruct Hs as [Ha Hs]. simpl. erewrite bind_ok by exact (load_ok _ _ _ Ha). simpl.
  destruct (Z.eqb_spec e d) as [->|Hne].
  - rewrite bool_decide_true; [done|]. set_solver +.
  - erewrite IH; [|done|simpl in Hf; lia]. do 2 f_equal. apply bool_decide_ext. set_solver +Hne.
Qed.

Lemma list_contains_rep h l ns d :
  rep h l ns → list_contains l d h = Ok (bool_decide (d ∈ ns.*2), h).
Proof.
  intros R. pose proof (rep_walk_fuel _ _ _ R). unfold list_contains.
  destruct (list_is_empty l) eqn:E.
  - apply (rep_empty_iff _ _ _ R) in E as ->. done.
  - destruct R. erewrite bind_ok by done. rewrite rep_front0. by eapply list_contains_loop_ok.
Qed.

Lemma list_look_loop_ok i index h fuel pv ns :
  dlseg h pv ns NULL → (length ns < fuel)%nat →
  0 ≤ i ≤ index → i + Z.of_nat (length ns) < 4294967296 →
  list_look_loop fuel i index (hd_ptr ns NULL) h = Ok (ns.*2 !! Z.to_nat (index - i), h).
Proof.
  revert fuel pv i. induction ns as [|[a e] ns IH]; intros fuel pv i Hs Hf Hi Hb;
    (destruct fuel as [|fuel]; [simpl in Hf; lia|]); [done|].
  destruct Hs as [Ha Hs]. simpl. erewrite bind_ok by exact (load_ok _ _ _ Ha). simpl.
  simpl in Hf, Hb. destruct (Z.eqb_spec i index) as [->|Hne].
  - by rewrite Z.sub_diag.
  - rewrite u32_small by zlia. erewrite IH; [|done|lia|lia|lia].
    replace (Z.to_nat (index - i)) with (S (Z.to_nat (index - (i + 1)))) by lia. done.
Qed.

Lemma list_look_rep h l ns index :
  rep h l ns → 0 ≤ index → list_look l index h = Ok (ns.*2 !! Z.to_nat index, h).
Proof.
  intros R Hi. pose proof (rep_walk_fuel _ _ _ R). destruct R. unfold list_look.
  erewrite bind_ok by done. rewrite rep_front0.
  erewrite list_look_loop_ok; [|done..|lia|lia]. by rewrite Z.sub_0_r.
Qed.

Lemma list_for_each_loop_ok {St} apply (s : St) h fuel pv ns :
  dlseg h pv ns NULL → (length ns < fuel)%nat →
  list_for_each_loop fuel apply s (hd_ptr ns NULL) h =
    Ok (fold_left (λ s d, apply d s) ns.*2 s, h).
Proof.
  revert fuel pv s. induction ns as [|[a e] ns IH]; intros fuel pv s Hs Hf;
    (destruct fuel as [|fuel]; [simpl in Hf; lia|]); [done|].
  destruct Hs as [Ha Hs]. simpl. erewrite bind_ok by exact (load_ok _ _ _ Ha). simpl.
  eapply IH; [done|]. simpl in Hf. lia.
Qed.

Lemma list_for_each_rep {St} h l ns apply (s : St) :
  rep h l ns → list_for_each l apply s h = Ok (fold_left (λ s d, apply d s) ns.*2 s, h).
Proof.
  intros R. pose proof (rep_walk_fuel _ _ _ R). destruct R. unfold list_for_each.
  erewrite bind_ok by done. rewrite rep_front0. by eapply list_for_each_loop_ok.
Qed.

(** ** Refinement of the removals *)

(** The two ends of a list whose node [a] is given. *)
Lemma rep_front_is h l ns1 a d ns2 :
  rep h l (ns1 ++ (a, d) :: ns2) → front l = Some a ↔ ns1 = [].
Proof.
  intros [_ Nd _ _ Fr _]. rewrite Fr. destruct ns1 as [|[b e] ns1]; simpl; [done|].
  split; [|done]. intros [= ->]. simpl in Nd. rewrite fmap_app in Nd. simpl in Nd.
  apply NoDup_cons in Nd as [Hni _]. set_solver +Hni.
Qed.

Lemma rep_end_is h l ns1 a d ns2 :
  rep h l (ns1 ++ (a, d) :: ns2) → end_ l = Some a ↔ ns2 = [].
Proof.
  intros [_ Nd _ _ _ En]. rewrite En, last_ptr_app. simpl.
  induction ns2 as [|[b e] ns2 _] using rev_ind; [done|].
  rewrite last_ptr_app. simpl. split.
  - intros [= ->]. rewrite fmap_app, fmap_cons, fmap_app in Nd. simpl in Nd.
    apply NoDup_middle in Nd as (_ & Hni & _). set_solver +Hni.
  - by destruct ns2.
Qed.

Lemma rep_cell h l ns1 a d ns2 :
  rep h l (ns1 ++ (a, d) :: ns2) →
  cells h !! a = Some (Node (hd_ptr ns2 NULL) (last_ptr NULL ns1) d).
Proof. intros [Sg _ _ _ _ _]. apply dlseg_app in Sg as (_ & Ha & _). done. Qed.

(** Gluing two segments around a removed node, in the order of the code. *)
Lemma dlseg_bypass h pv ns1 b e c f ns2 x y nx :
  NoDup ((ns1 ++ [(b, e)]) ++ (c, f) :: ns2).*1 →
  dlseg h pv (ns1 ++ [(b, e)]) x → dlseg h y ((c, f) :: ns2) nx →
  ∃ h1 h2, set_prev (Some c) (Some b) h = Ok (tt, h1) ∧
    set_next (Some b) (Some c) h1 = Ok (tt, h2) ∧
    dlseg h2 pv ((ns1 ++ [(b, e)]) ++ (c, f) :: ns2) nx ∧
    same_except [b; c] h h2 ∧ (heap_ok h → heap_ok h2).
Proof.
  intros Nd S1 S2. rewrite fmap_app in Nd. simpl in Nd.
  apply NoDup_middle in Nd as (Hc1 & Hc2 & Nd).
  rewrite fmap_app, <-app_assoc in Nd. simpl in Nd.
  apply NoDup_middle in Nd as (Hb1 & Hb2 & _).
  destruct (dlseg_set_prev _ _ _ _ _ _ (Some b) S2) as (h1 & E1 & D1 & F1 & O1 & _); [done|].
  assert (D1' : dlseg h1 pv (ns1 ++ [(b, e)]) x).
  { eapply dlseg_frame; [exact F1| |exact S1]. by apply notin_singleton. }
  destruct (dlseg_set_next _ _ _ _ _ _ (Some c) D1') as (h2 & E2 & D2 & F2 & O2 & _); [done|].
  exists h1, h2. split_and!; auto.
  - apply dlseg_app. rewrite last_ptr_app. split; [done|].
    eapply dlseg_frame; [exact F2| |exact D1]. apply notin_singleton. simpl.
    rewrite fmap_app in Hc1. set_solver +Hb2 Hc1.
  - eapply same_except_trans; [exact F1|exact F2| |]; set_solver +.
Qed.

(** What the three links of a node removed from a list look like. *)
Lemma rep_around h l ns1 a d ns2 :
  rep h l (ns1 ++ (a, d) :: ns2) →
  dlseg h NULL ns1 (Some a) ∧ dlseg h (Some a) ns2 NULL ∧ NoDup (ns1 ++ ns2).*1 ∧
  a ∉ (ns1 ++ ns2).*1 ∧ u32 (len l - 1) = Z.of_nat (length (ns1 ++ ns2)).
Proof.
  intros [Sg Nd Ln Bd _ _]. apply dlseg_app in Sg as (S1 & _ & S2).
  rewrite fmap_app in Nd. simpl in Nd. apply NoDup_middle in Nd as (Hn1 & Hn2 & Nd).
  rewrite fmap_app, not_elem_of_app. split_and!; auto.
  rewrite Ln. rewrite !length_app in *. simpl length in *. zlia.
Qed.

Lemma list_unlink_rep h l ns1 a d ns2 n :
  heap_ok h → rep h l (ns1 ++ (a, d) :: ns2) → cells h !! a = Some n →
  ∃ h' l', list_unlink l (Some a) n h = Ok (l', h') ∧ rep h' l' (ns1 ++ ns2) ∧
    max l' = max l ∧ same_except (ns1 ++ ns2).*1 h h' ∧ heap_ok h' ∧
    cells h' !! a = Some n.
Proof.
  intros Hok R Ha. pose proof (rep_front_is _ _ _ _ _ _ R) as Hf.
  pose proof (rep_end_is _ _ _ _ _ _ R) as He.
  pose proof (rep_cell _ _ _ _ _ _ R) as Hc. rewrite Ha in Hc. injection Hc as ->.
  destruct (rep_around _ _ _ _ _ _ R) as (S1 & S2 & Nd & Hni & Hlen).
  destruct R as [_ _ _ _ Fr En]. assert (Hu := u32_range (len l - 1)).
  unfold list_unlink. destruct (decide (front l = Some a)) as [Hfa|Hfa].
  - apply Hf in Hfa as ->. simpl in *. destruct (decide (end_ l = Some a)) as [Hea|Hea].
    + apply He in Hea as ->. eexists _, _. split; [done|]. split_and!; auto with fins.
      by apply rep_intro.
    + destruct ns2 as [|[b e] ns2]; [by destruct Hea; apply He|].
      rewrite Fr. erewrite bind_ok by exact (load_ok _ _ _ Ha).
      destruct (dlseg_set_prev _ _ _ _ _ _ NULL S2) as (h2 & E2 & D2 & F2 & O2 & _);
        [by apply NoDup_cons in Nd as [? _]|].
      simpl. mstep E2. eexists _, _. split; [done|].
      assert (Fa : same_except ((b, e) :: ns2).*1 h h2) by (intros x Hx; apply F2; set_solver +Hx).
      split_and!; auto; [by apply rep_intro|by rewrite Fa].
  - induction ns1 as [|[b e] ns1 _] using rev_ind; [by destruct Hfa; apply Hf|].
    rewrite last_ptr_app in Ha |- *. simpl in Ha |- *.
    assert (Hfr' : front l = hd_ptr ((ns1 ++ [(b, e)]) ++ ns2) NULL).
    { rewrite Fr, !hd_ptr_app. by destruct ns1 as [|[??]?]. }
    destruct (decide (end_ l = Some a)) as [Hea|Hea].
    + apply He in Hea as ->. rewrite app_nil_r in *.
      destruct (dlseg_set_next _ _ _ _ _ _ NULL S1) as (h2 & E2 & D2 & F2 & O2 & _).
      { rewrite fmap_app in Nd. by apply NoDup_middle in Nd as (? & _). }
      mstep E2. eexists _, _. split; [done|].
      assert (Fa : same_except (ns1 ++ [(b, e)]).*1 h h2).
      { intros x Hx. apply F2. rewrite fmap_app in Hx. set_solver +Hx. }
      split_and!; auto; [|by rewrite Fa]. apply rep_intro; auto. by rewrite last_ptr_app.
    + destruct ns2 as [|[c f] ns2]; [by destruct Hea; apply He|]. simpl.
      destruct (dlseg_bypass _ _ _ _ _ _ _ _ _ _ _ Nd S1 S2) as (h2 & h3 & E2 & E3 & D3 & F3 & O3).
      mstep E2. mstep E3. eexists _, _. split; [done|].
      assert (Fa : same_except ((ns1 ++ [(b, e)]) ++ (c, f) :: ns2).*1 h h3).
      { intros x Hx. apply F3. rewrite !fmap_app in Hx. set_solver +Hx. }
      split_and!; auto; [|by rewrite Fa].
      apply rep_intro; auto. by rewrite En, !last_ptr_app.
Qed.

Lemma free_node_ok h a n :
  cells h !! a = Some n →
  ∃ h', free_node (Some a) h = Ok (tt, h') ∧ same_except [a] h h' ∧
        cells h' !! a = None ∧ (heap_ok h → heap_ok h').
Proof.
  intros Ha. unfold free_node. rewrite Ha. eexists. split; [done|]. simpl. split_and!.
  - intros b Hb. simpl. apply lookup_delete_ne. set_solver +Hb.
  - apply lookup_delete_eq.
  - intros Hok b Hb. simpl in *. rewrite lookup_delete. case_decide; [done|]. by apply Hok.
Qed.

Lemma list_remove_front_rep h l ns :
  heap_ok h → rep h l ns →
  ∃ h' l', list_remove_front l h = Ok ((head ns.*2, l'), h') ∧ rep h' l' (tail ns) ∧
    max l' = max l ∧ same_except ns.*1 h h' ∧ heap_ok h'.
Proof.
  intros Hok R. unfold list_remove_front. destruct (list_is_empty l) eqn:E.
  { apply (rep_empty_iff _ _ _ R) in E as ->. eexists _, _. split; [done|].
    split_and!; auto with fins. }
  apply (rep_nonempty _ _ _ R) in E. destruct ns as [|[a d] ns]; [done|]. simpl tail.
  pose proof (rep_end_is _ _ [] _ _ _ R) as He.
  pose proof (rep_cell _ _ [] _ _ _ R) as Ha.
  destruct (rep_around _ _ [] _ _ _ R) as (_ & S2 & Nd & Hni & Hlen). simpl in *.
  destruct R as [_ _ _ _ Fr En]. simpl in Fr, En. rewrite Fr.
  erewrite bind_ok by exact (load_ok _ _ _ Ha). simpl.
  assert (Hu := u32_range (len l - 1)).
  destruct (decide (end_ l = Some a)) as [Hea|Hea].
  - apply He in Hea as ->. erewrite bind_ok by done.
    destruct (free_node_ok _ _ _ Ha) as (h2 & E2 & F2 & _ & O2).
    mstep E2. eexists _, _. split; [done|]. split_and!; auto. by apply rep_intro.
  - destruct ns as [|[b e] ns]; [by destruct Hea; apply He|]. simpl in *.
    destruct (dlseg_set_prev _ _ _ _ _ _ NULL S2) as (h2 & E2 & D2 & F2 & O2 & _);
      [by apply NoDup_cons in Nd as [? _]|].
    erewrite bind_ok; [|erewrite bind_ok by exact E2; done].
    assert (Ha2 : cells h2 !! a = Some (Node (Some b) NULL d)).
    { rewrite F2; [done|]. set_solver +Hni. }
    destruct (free_node_ok _ _ _ Ha2) as (h3 & E3 & F3 & _ & O3).
    mstep E3. eexists _, _. split; [done|]. split_and!; auto.
    + apply rep_intro; auto. eapply dlseg_frame; [exact F3| |exact D2].
      apply notin_singleton. exact Hni.
    + eapply same_except_trans; [exact F2|exact F3| |]; set_solver +.
Qed.

(** Removal of the first occurrence. *)
Fixpoint remove_one (d : Z) (xs : list Z) : list Z :=
  match xs with
  | [] => []
  | x :: xs => if x =? d then xs else x :: remove_one d xs
  end.

Lemma list_remove_loop_rep h l ns1 ns2 d fuel :
  heap_ok h → rep h l (ns1 ++ ns2) → (length ns2 < fuel)%nat →
  ∃ h' l' ns', list_remove_loop fuel l d (hd_ptr ns2 NULL) h = Ok (l', h') ∧
    rep h' l' (ns1 ++ ns') ∧ ns'.*2 = remove_one d ns2.*2 ∧ max l' = max l ∧
    same_except (ns1 ++ ns2).*1 h h' ∧ heap_ok h'.
Proof.
  intros Hok. revert ns1 fuel. induction ns2 as [|[a e] ns2 IH]; intros ns1 fuel R Hf;
    (destruct fuel as [|fuel]; [simpl in Hf; lia|]).
  { eexists _, _, []. split; [done|]. split_and!; auto with fins. }
  pose proof (rep_cell _ _ _ _ _ _ R) as Ha. simpl.
  erewrite bind_ok by exact (load_ok _ _ _ Ha). simpl.
  destruct (Z.eqb_spec e d) as [->|Hne].
  - destruct (list_unlink_rep _ _ _ _ _ _ _ Hok R Ha) as (h1 & l1 & E1 & R1 & M1 & F1 & O1 & C1).
    mstep E1. destruct (free_node_ok _ _ _ C1) as (h2 & E2 & F2 & _ & O2). mstep E2.
    destruct (rep_around _ _ _ _ _ _ R) as (_ & _ & _ & Hni & _).
    eexists _, _, ns2. split; [done|]. split_and!; auto.
    + eapply rep_frame; [exact F2| |done]. by apply notin_singleton.
    + eapply same_except_trans; [exact F1|exact F2| |]; rewrite !fmap_app; set_solver +.
  - destruct (IH (ns1 ++ [(a, e)]) fuel) as (h' & l' & ns' & E1 & R1 & Hd & M1 & F1 & O1).
    { by rewrite <-app_assoc. } { simpl in Hf. lia. }
    rewrite <-app_assoc in R1. rewrite <-app_assoc in F1.
    eexists _, _, ((a, e) :: ns'). split; [exact E1|]. split_and!; auto.
    rewrite fmap_cons, Hd. done.
Qed.

Lemma list_remove_rep h l ns d :
  heap_ok h → rep h l ns →
  ∃ h' l' ns', list_remove l d h = Ok (l', h') ∧ rep h' l' ns' ∧
    ns'.*2 = remove_one d ns.*2 ∧ max l' = max l ∧ same_except ns.*1 h h' ∧ heap_ok h'.
Proof.
  intros Hok R. unfold list_remove. destruct (list_is_empty l) eqn:E.
  { apply (rep_empty_iff _ _ _ R) in E as ->. eexists _, _, []. split; [done|].
    split_and!; auto with fins. }
  erewrite bind_ok by done. rewrite (rep_front _ _ _ R).
  eapply (list_remove_loop_rep h l [] ns d); auto. by eapply rep_walk_fuel.
Qed.

Lemma list_relink_end_rep h lr r a n :
  heap_ok h → rep h lr r → cells h !! a = Some n → a ∉ r.*1 →
  Z.of_nat (length r) + 1 < 4294967296 →
  ∃ h' lr', list_relink_end lr (Some a) h = Ok (lr', h') ∧
    rep h' lr' (r ++ [(a, data n)]) ∧ max lr' = max lr ∧
    same_except (a :: r.*1) h h' ∧ heap_ok h'.
Proof.
  intros Hok R Ha Hni Hlt. unfold list_relink_end.
  assert (Hlen : u32 (len lr + 1) = Z.of_nat (length (r ++ [(a, data n)]))).
  { rewrite (rep_len _ _ _ R), length_app. simpl. zlia. }
  assert (S0 : dlseg h (prev n) [(a, data n)] (next n)) by (by destruct n).
  destruct (dlseg_set_next _ _ _ _ [] _ NULL S0) as (h1 & E1 & D1 & F1 & O1 & _);
    [set_solver +|]. mstep E1.
  assert (R1 : rep h1 lr r) by (eapply rep_frame; [exact F1|by apply notin_singleton|done]).
  assert (Hu := u32_range (len lr + 1)).
  destruct (list_is_empty lr) eqn:E.
  - apply (rep_empty_iff _ _ _ R) in E as ->.
    destruct (dlseg_set_prev _ _ _ _ [] _ NULL D1) as (h2 & E2 & D2 & F2 & O2 & _);
      [set_solver +|].
    erewrite bind_ok; [|erewrite bind_ok by exact E2; done].
    eexists _, _. split; [done|]. split_and!; auto.
    + apply rep_intro; auto. simpl. apply NoDup_singleton.
    + eapply same_except_trans; [exact F1|exact F2| |]; set_solver +.
  - apply (rep_nonempty _ _ _ R) in E.
    induction r as [|[b e] r _] using rev_ind; [done|]. destruct R1 as [Sg Nd _ _ Fr En].
    rewrite last_ptr_app in En. simpl in En. rewrite En.
    destruct (dlseg_set_prev _ _ _ _ [] _ (Some b) D1) as (h2 & E2 & D2 & F2 & O2 & _);
      [set_solver +|].
    assert (Sg2 : dlseg h2 NULL (r ++ [(b, e)]) NULL).
    { eapply dlseg_frame; [exact F2| |exact Sg]. by apply notin_singleton. }
    destruct (dlseg_set_next _ _ _ _ _ _ (Some a) Sg2) as (h3 & E3 & D3 & F3 & O3 & _).
    { rewrite fmap_app in Nd. by apply NoDup_middle in Nd as (? & _). }
    erewrite bind_ok; [|erewrite bind_ok by exact E2; erewrite bind_ok by exact E3; done].
    eexists _, _. split; [done|]. rewrite fmap_app in Hni. split_and!; auto.
    + apply rep_intro; auto.
      * apply dlseg_app. rewrite last_ptr_app. split; [done|].
        eapply dlseg_frame; [exact F3| |exact D2]. apply notin_singleton. set_solver +Hni.
      * rewrite fmap_app. simpl. apply NoDup_middle. rewrite app_nil_r, fmap_app.
        split_and!; [done|set_solver +|by rewrite fmap_app in Nd].
      * rewrite Fr, !hd_ptr_app. by destruct r as [|[??]?].
      * by rewrite last_ptr_app.
    + intros x Hx. rewrite fmap_app in Hx. rewrite F3, F2, F1; set_solver +Hx.
Qed.

Lemma list_remove_all_loop_rep equal h l lr k ns r fuel :
  heap_ok h → rep h l (k ++ ns) → rep h lr r →
  (∀ a, a ∈ (k ++ ns).*1 → a ∉ r.*1) →
  Z.of_nat (length r) + Z.of_nat (length ns) < 4294967296 → (length ns < fuel)%nat →
  ∃ h' l' lr', list_remove_all_loop fuel equal l lr (hd_ptr ns NULL) h = Ok ((l', lr'), h') ∧
    rep h' l' (k ++ filter (λ n, equal n.2 = false) ns) ∧
    rep h' lr' (r ++ filter (λ n, equal n.2 = true) ns) ∧
    max l' = max l ∧ max lr' = max lr ∧
    same_except ((k ++ ns).*1 ++ r.*1) h h' ∧ heap_ok h'.
Proof.
  revert h l lr k r fuel. induction ns as [|[a d] ns IH]; intros h l lr k r fuel Hok R Rr Hdj Hb Hf;
    (destruct fuel as [|fuel]; [simpl in Hf; lia|]).
  { eexists _, _, _. split; [done|]. rewrite !filter_nil, !app_nil_r in *.
    split_and!; auto with fins. }
  pose proof (rep_cell _ _ _ _ _ _ R) as Ha. simpl in Hf, Hb |- *.
  erewrite bind_ok by exact (load_ok _ _ _ Ha). cbn [data next].
  destruct (equal d) eqn:E.
  - destruct (list_unlink_rep _ _ _ _ _ _ _ Hok R Ha) as (h1 & l1 & E1 & R1 & M1 & F1 & O1 & C1).
    destruct (rep_around _ _ _ _ _ _ R) as (_ & _ & _ & Hni & _).
    assert (Hdj' : ∀ x, x ∈ r.*1 → x ∉ (k ++ ns).*1).
    { intros x Hx Hk. apply (Hdj x); [|done]. rewrite fmap_app in *. set_solver +Hk. }
    assert (Har : a ∉ r.*1) by (apply Hdj; rewrite fmap_app; set_solver +).
    assert (Rr1 : rep h1 lr r) by (by eapply rep_frame).
    mstep E1. destruct (list_relink_end_rep h1 lr r a _ O1 Rr1 C1)
      as (h2 & lr2 & E2 & R2 & M2 & F2 & O2); [done|lia|].
    mstep E2. cbn [data] in R2.
    destruct (IH h2 l1 lr2 k (r ++ [(a, d)]) fuel) as (h' & l' & lr' & E3 & R3 & R4 & M3 & M4 & F3 & O3);
      auto; try lia.
    + eapply rep_frame; [exact F2| |exact R1]. set_solver +Hni Hdj'.
    + intros x Hx. rewrite (fmap_app _ r). intros [Hr|Hr]%elem_of_app; [by eapply Hdj'|].
      apply list_elem_of_singleton in Hr as ->. done.
    + rewrite length_app. simpl. lia.
    + eexists _, _, _. split; [exact E3|].
      rewrite filter_cons_False, filter_cons_True by (simpl; congruence).
      rewrite <-app_assoc in R4. split_and!; auto; try congruence.
      intros x Hx. rewrite F3, F2, F1; rewrite ?fmap_app in *; set_solver +Hx.
  - destruct (IH h l lr (k ++ [(a, d)]) r fuel) as (h' & l' & lr' & E3 & R3 & R4 & M3 & M4 & F3 & O3);
      rewrite <-?app_assoc; auto; try lia.
    rewrite <-app_assoc in R3. rewrite <-app_assoc in F3.
    eexists _, _, _. split; [exact E3|].
    rewrite filter_cons_True, filter_cons_False by (simpl; congruence). split_and!; auto.
Qed.

Lemma list_remove_all_rep equal h l ns :
  heap_ok h → rep h l ns →
  ∃ h' l' lr, list_remove_all l equal h = Ok ((l', lr), h') ∧
    rep h' l' (filter (λ n, equal n.2 = false) ns) ∧
    rep h' lr (filter (λ n, equal n.2 = true) ns) ∧
    max l' = max l ∧ max lr = max l ∧ same_except ns.*1 h h' ∧ heap_ok h'.
Proof.
  intros Hok R. unfold list_remove_all. erewrite bind_ok by done. rewrite (rep_front _ _ _ R).
  destruct (list_remove_all_loop_rep equal h l (list_create (max l)) [] ns [] (walk_fuel h))
    as (h' & l' & lr & E & R1 & R2 & M1 & M2 & F & O); auto using rep_create.
  - set_solver +.
  - destruct R. simpl. lia.
  - by eapply rep_walk_fuel.
  - simpl in *. rewrite app_nil_r in F. eexists _, _, _. split_and!; eauto.
Qed.

(** ** Refinement of the list-level operations *)

Lemma list_join_fits h l1 l2 ns1 ns2 :
  heap_ok h → rep h l1 ns1 → rep h l2 ns2 → (∀ a, a ∈ ns1.*1 → a ∉ ns2.*1) →
  len l1 + len l2 ≤ max l1 < 4294967296 →
  ∃ h' l1' l2', list_join l1 l2 h = Ok ((true, l1', l2'), h') ∧
    rep h' l1' (ns1 ++ ns2) ∧ rep h' l2' [] ∧ max l1' = max l1 ∧ max l2' = max l2 ∧
    same_except (ns1 ++ ns2).*1 h h' ∧ heap_ok h'.
Proof.
  intros Hok R1 R2 Hdj Hmax. unfold list_join.
  destruct (list_is_empty l2) eqn:E2.
  { apply (rep_empty_iff _ _ _ R2) in E2 as ->. rewrite app_nil_r.
    eexists _, _, _. split; [done|]. split_and!; auto with fins. }
  assert (Hle : (len l2 <=? list_space l1) = true).
  { destruct R1, R2. unfold list_space. rewrite u32_small; zlia. }
  assert (Hlen : u32 (len l1 + len l2) = Z.of_nat (length (ns1 ++ ns2))).
  { destruct R1, R2. rewrite length_app, u32_small; zlia. }
  assert (Hu := u32_range (len l1 + len l2)).
  rewrite Hle. apply (rep_nonempty _ _ _ R2) in E2. destruct (list_is_empty l1) eqn:E1.
  - apply (rep_empty_iff _ _ _ R1) in E1 as ->. erewrite bind_ok by done.
    eexists _, _, _. split; [done|]. destruct R2. split_and!; auto with fins.
    by apply rep_intro.
  - apply (rep_nonempty _ _ _ R1) in E1.
    induction ns1 as [|[a1 d1] ns1 _] using rev_ind; [done|].
    destruct ns2 as [|[a2 d2] ns2]; [done|].
    destruct R1 as [S1 N1 _ _ F1 En1], R2 as [S2 N2 _ _ F2 En2].
    rewrite last_ptr_app in En1. simpl in En1, F2. rewrite En1, F2.
    assert (Nd : NoDup ((ns1 ++ [(a1, d1)]) ++ (a2, d2) :: ns2).*1).
    { rewrite fmap_app. apply NoDup_app. auto. }
    destruct (dlseg_link h NULL ns1 a1 d1 a2 d2 ns2 NULL NULL NULL Hok)
      as (h1 & h2 & X1 & X2 & D & F & O & _); [by rewrite app_assoc|done|done|].
    erewrite bind_ok; [|erewrite bind_ok by exact X1; erewrite bind_ok by exact X2; done].
    rewrite app_assoc in D. eexists _, _, _. split; [done|].
    split_and!; auto with fins.
    + apply rep_intro; auto.
      * rewrite F1, !hd_ptr_app. by destruct ns1 as [|[??]?].
      * rewrite En2, !last_ptr_app. done.
    + intros x Hx. apply F. rewrite !fmap_app in Hx. set_solver +Hx.
Qed.

Lemma walk_to_ok h fuel pv ns1 a d ns2 nx i n :
  dlseg h pv (ns1 ++ (a, d) :: ns2) nx → (length ns1 < fuel)%nat →
  0 ≤ i → n = i + Z.of_nat (length ns1) → n < 4294967296 →
  walk_to fuel i n (hd_ptr (ns1 ++ (a, d) :: ns2) nx) h = Ok (Some a, h).
Proof.
  revert fuel pv i. induction ns1 as [|[b e] ns1 IH]; intros fuel pv i Hs Hf Hi Hn Hb;
    (destruct fuel as [|fuel]; [simpl in Hf; lia|]); simpl in *.
  - rewrite Z.add_0_r in Hn. subst. by rewrite Z.eqb_refl.
  - destruct Hs as [Hb' Hs]. rewrite (proj2 (Z.eqb_neq i n)) by lia.
    erewrite bind_ok by exact (load_ok _ _ _ Hb'). simpl.
    rewrite u32_small by zlia. eapply IH; [done|lia|lia|lia|lia].
Qed.

Lemma list_split_cut h l ns1 a d b e ns2 index :
  heap_ok h → rep h l (ns1 ++ (a, d) :: (b, e) :: ns2) → index = Z.of_nat (length ns1) →
  ∃ h' l' lr, list_split l index h = Ok ((l', lr), h') ∧
    rep h' l' (ns1 ++ [(a, d)]) ∧ rep h' lr ((b, e) :: ns2) ∧
    max l' = max l ∧ max lr = max l ∧
    same_except (ns1 ++ (a, d) :: (b, e) :: ns2).*1 h h' ∧ heap_ok h'.
Proof.
  intros Hok R ->. pose proof (rep_walk_fuel _ _ _ R) as Hf.
  pose proof (rep_cell _ _ _ _ _ _ R) as Ha. pose proof R as [Sg Nd Ln Bd Fr En].
  rewrite length_app in Hf, Bd, Ln. simpl length in Hf, Bd, Ln.
  unfold list_split. rewrite (u32_small (Z.of_nat (length ns1) + 1)) by zlia.
  rewrite (proj2 (Z.ltb_lt _ _)) by lia. erewrite bind_ok by done. rewrite Fr.
  erewrite bind_ok by (eapply walk_to_ok; [exact Sg|lia|lia|lia|lia]).
  erewrite bind_ok by exact (load_ok _ _ _ Ha). simpl.
  change (ns1 ++ (a, d) :: (b, e) :: ns2) with (ns1 ++ [(a, d)] ++ ((b, e) :: ns2)) in *.
  rewrite app_assoc in Sg, Nd, En. apply dlseg_app in Sg as [S1 S2].
  rewrite fmap_app in Nd. apply NoDup_app in Nd as (N1 & Hd & N2).
  destruct (dlseg_set_prev _ _ _ _ _ _ NULL S2) as (h1 & E1 & D1 & F1 & O1 & _);
    [by apply NoDup_cons in N2 as [? _]|].
  assert (Hb : b ∉ (ns1 ++ [(a, d)]).*1) by (intros Hb; apply (Hd _ Hb); set_solver +).
  assert (Han : a ∉ ((b, e) :: ns2).*1) by (apply Hd; rewrite fmap_app; set_solver +).
  assert (S1' : dlseg h1 NULL (ns1 ++ [(a, d)]) (Some b)).
  { eapply dlseg_frame; [exact F1| |exact S1]. by apply notin_singleton. }
  destruct (dlseg_set_next _ _ _ _ _ _ NULL S1') as (h2 & E2 & D2 & F2 & O2 & _).
  { rewrite fmap_app in N1. by apply NoDup_middle in N1 as (? & _). }
  mstep E1. mstep E2. eexists _, _, _. split; [done|]. split_and!; auto.
  - apply rep_intro; auto; rewrite ?length_app, ?last_ptr_app; simpl; try done; try zlia.
    rewrite !hd_ptr_app. done.
  - apply rep_intro; auto.
    + eapply dlseg_frame; [exact F2| |exact D1]. by apply notin_singleton.
    + rewrite Ln, u32_small; simpl length; zlia.
    + rewrite Ln, u32_small; zlia.
    + rewrite En, !last_ptr_app. done.
  - intros x Hx. rewrite F2, F1; rewrite !fmap_app in *; set_solver +Hx.
Qed.

Lemma list_split_rep h l ns index :
  heap_ok h → rep h l ns → 0 ≤ index < 4294967295 →
  ∃ h' l' lr, list_split l index h = Ok ((l', lr), h') ∧
    rep h' l' (take (S (Z.to_nat index)) ns) ∧ rep h' lr (drop (S (Z.to_nat index)) ns) ∧
    max l' = max l ∧ max lr = max l ∧ same_except ns.*1 h h' ∧ heap_ok h'.
Proof.
  intros Hok R Hi. destruct (decide (index + 1 < len l)) as [Hlt|Hge].
  - assert (Hl : (S (Z.to_nat index) < length ns)%nat) by (destruct R; lia).
    destruct (lookup_lt_is_Some_2 ns (Z.to_nat index)) as [[a d] Ha]; [lia|].
    destruct (lookup_lt_is_Some_2 ns (S (Z.to_nat index))) as [[b e] Hb]; [lia|].
    pose proof (take_drop_middle _ _ _ Ha) as Hns.
    rewrite (drop_S _ _ _ Hb) in Hns. rewrite (take_S_r _ _ _ Ha), (drop_S _ _ _ Hb).
    rewrite <-Hns in R. destruct (list_split_cut h l _ _ _ _ _ _ index Hok R)
      as (h' & l' & lr & H); [rewrite length_take; lia|].
    rewrite Hns in H. eauto.
  - unfold list_split. rewrite (u32_small (index + 1)) by zlia.
    rewrite (proj2 (Z.ltb_ge _ _)) by lia. eexists _, _, _. split; [done|].
    assert (length ns ≤ S (Z.to_nat index))%nat by (destruct R; lia).
    rewrite take_ge, drop_ge by done. split_and!; auto with fins.
Qed.

(** *** Copies: [list_filter], [list_clone], [list_find_all] *)

Lemma list_filter_loop_rep equal clone h fuel pv ns nx lr r :
  heap_ok h → dlseg h pv ns nx → nx = NULL → rep h lr r →
  (∀ a, a ∈ ns.*1 → a ∉ r.*1) → (length ns < fuel)%nat →
  Z.of_nat (length r) + Z.of_nat (length ns) < 4294967296 →
  ∃ h' lr' r', list_filter_loop fuel equal clone lr (hd_ptr ns NULL) h = Ok (lr', h') ∧
    rep h' lr' r' ∧ r'.*2 = r.*2 ++ (clone <$> filter (λ d, equal d = true) ns.*2) ∧
    max lr' = max lr ∧ heap_ok h' ∧
    (∀ a, a ∉ r.*1 → is_Some (cells h !! a) → cells h' !! a = cells h !! a).
Proof.
  intros Hok Hs ->. revert h fuel pv lr r Hok Hs.
  induction ns as [|[a d] ns IH]; intros h fuel pv lr r Hok Hs R Hdj Hf Hb;
    (destruct fuel as [|fuel]; [simpl in Hf; lia|]).
  { eexists _, _, r. split; [done|]. split_and!; auto. by rewrite app_nil_r. }
  destruct Hs as [Ha Hs]. simpl in Hf, Hb |- *.
  erewrite bind_ok by exact (load_ok _ _ _ Ha). cbn [data next].
  change (((a, d) :: ns).*2) with (d :: ns.*2).
  destruct (equal d) eqn:E.
  - destruct (list_append_rep h lr r (clone d) Hok R) as (h1 & l1 & E1 & R1 & M1 & F1 & O1 & Fr);
      [lia|]. mstep E1.
    assert (Hfr : ∀ x, x ∈ ns.*1 → x ∉ brk h :: r.*1).
    { intros x Hx. apply not_elem_of_cons. split; [|apply Hdj; set_solver +Hx].
      intros ->. apply (dlseg_fresh _ _ _ _ _ Hs Fr Hx). }
    destruct (IH h1 fuel (Some a) l1 (r ++ [(brk h, clone d)]) O1)
      as (h' & lr' & r' & E2 & R2 & Hr & M2 & O2 & F2); auto; try lia.
    + by eapply dlseg_frame.
    + intros x Hx. rewrite fmap_app. specialize (Hfr x Hx). set_solver +Hfr.
    + rewrite length_app. simpl. lia.
    + eexists _, _, r'. split; [exact E2|]. split_and!; auto; [|congruence|].
      * rewrite Hr, filter_cons_True, fmap_app, <-app_assoc by done. done.
      * intros x Hx Hsome.
        assert (x ≠ brk h) by (intros ->; rewrite Fr in Hsome; by destruct Hsome).
        assert (Hx1 : cells h1 !! x = cells h !! x) by (apply F1; set_solver).
        rewrite F2, Hx1; [done| |by rewrite Hx1]. rewrite fmap_app. set_solver.
  - erewrite bind_ok by done.
    destruct (IH h fuel (Some a) lr r Hok Hs R) as (h' & lr' & r' & E2 & R2 & Hr & M2 & O2 & F2);
      try lia. { intros x Hx. apply Hdj. set_solver +Hx. }
    eexists _, _, r'. split; [exact E2|]. split_and!; auto.
    by rewrite Hr, filter_cons_False by congruence.
Qed.

Lemma list_filter_rep equal clone h l ns :
  heap_ok h → rep h l ns →
  ∃ h' lr r, list_filter l equal clone h = Ok (lr, h') ∧ rep h' lr r ∧
    r.*2 = clone <$> filter (λ d, equal d = true) ns.*2 ∧ rep h' l ns ∧
    max lr = max l ∧ heap_ok h' ∧
    (∀ a, is_Some (cells h !! a) → cells h' !! a = cells h !! a).
Proof.
  intros Hok R. unfold list_filter. erewrite bind_ok by done. rewrite (rep_front _ _ _ R).
  destruct (list_filter_loop_rep equal clone h (walk_fuel h) NULL ns NULL (list_create (max l)) [])
    as (h' & lr & r & E & R1 & Hr & Mx & O & F); auto with fins.
  - by destruct R.
  - set_solver +.
  - by eapply rep_walk_fuel.
  - destruct R. simpl. lia.
  - eexists _, _, _. split; [exact E|].
    assert (F' : ∀ a, is_Some (cells h !! a) → cells h' !! a = cells h !! a).
    { intros a. apply F. set_solver +. }
    split_and!; try exact Hr; auto. destruct R as [Sg Nd Ln Bd Fr En]. split; auto.
    eapply dlseg_agree; [|exact Sg]. intros a Ha. apply F'. by eapply dlseg_lookup.
Qed.

(** *** Ordered insertion *)

(** A fresh node linked between two adjacent nodes: the three writes of
    [list_insert] and [list_add]. *)
Lemma dlseg_splice h l ns1 t dt c dc ns2 d :
  heap_ok h → rep h l (ns1 ++ (t, dt) :: (c, dc) :: ns2) →
  Z.of_nat (length (ns1 ++ (t, dt) :: (c, dc) :: ns2)) + 1 < 4294967296 →
  ∃ h1 h2 h3, malloc_node (Node (Some c) (Some t) d) h = Ok (Some (brk h), h1) ∧
    set_prev (Some c) (Some (brk h)) h1 = Ok (tt, h2) ∧
    set_next (Some t) (Some (brk h)) h2 = Ok (tt, h3) ∧
    rep h3 (LL (max l) (u32 (len l + 1)) (front l) (end_ l))
      (ns1 ++ (t, dt) :: (brk h, d) :: (c, dc) :: ns2) ∧
    same_except (brk h :: (ns1 ++ (t, dt) :: (c, dc) :: ns2).*1) h h3 ∧ heap_ok h3.
Proof.
  intros Hok [Sg Nd Ln Bd Fr En] Hb.
  destruct (malloc_node_ok h (Node (Some c) (Some t) d) Hok) as (h1 & E1 & C1 & F1 & O1 & Hn).
  pose proof (dlseg_fresh _ _ _ _ _ Sg Hn) as Hfr.
  assert (Sg1 : dlseg h1 NULL (ns1 ++ (t, dt) :: (c, dc) :: ns2) NULL).
  { eapply dlseg_frame; [exact F1| |exact Sg]. by apply notin_singleton. }
  change (ns1 ++ (t, dt) :: (c, dc) :: ns2) with (ns1 ++ [(t, dt)] ++ ((c, dc) :: ns2)) in *.
  rewrite app_assoc in Sg1, Nd, Hfr. apply dlseg_app in Sg1 as [S1 S2].
  rewrite fmap_app in Nd, Hfr. apply NoDup_app in Nd as (N1 & Hd & N2).
  apply not_elem_of_app in Hfr as [Hf1 Hf2].
  destruct (dlseg_set_prev _ _ _ _ _ _ (Some (brk h)) S2) as (h2 & E2 & D2 & F2 & O2 & _);
    [by apply NoDup_cons in N2 as [? _]|].
  assert (Hc : c ∉ (ns1 ++ [(t, dt)]).*1) by (intros Hb'; apply (Hd _ Hb'); set_solver +).
  assert (Ht : t ∉ ((c, dc) :: ns2).*1) by (apply Hd; rewrite fmap_app; set_solver +).
  assert (S1' : dlseg h2 NULL (ns1 ++ [(t, dt)]) (Some c)).
  { eapply dlseg_frame; [exact F2| |exact S1]. by apply notin_singleton. }
  destruct (dlseg_set_next _ _ _ _ _ _ (Some (brk h)) S1') as (h3 & E3 & D3 & F3 & O3 & _).
  { rewrite fmap_app in N1. by apply NoDup_middle in N1 as (? & _). }
  rewrite fmap_app in Hf1.
  exists h1, h2, h3. split_and!; auto.
  - change (ns1 ++ (t, dt) :: (brk h, d) :: (c, dc) :: ns2)
      with (ns1 ++ [(t, dt)] ++ (brk h, d) :: (c, dc) :: ns2). rewrite app_assoc.
    apply rep_intro.
    + apply dlseg_app. rewrite last_ptr_app. split; [exact D3|]. split.
      * rewrite F3, F2, C1; [done|set_solver +Hf2|set_solver +Hf1].
      * eapply dlseg_frame; [exact F3| |exact D2]. by apply notin_singleton.
    + rewrite fmap_app. simpl. apply NoDup_middle. rewrite fmap_app. split_and!; auto.
      rewrite <-fmap_app. apply NoDup_app. auto.
    + rewrite Ln, u32_small; rewrite !length_app in *; simpl length in *; zlia.
    + auto with fins.
    + rewrite Fr, !hd_ptr_app. by destruct ns1 as [|[??]?].
    + rewrite En, !last_ptr_app. done.
  - intros x Hx. rewrite F3, F2, F1; rewrite ?fmap_app in *; set_solver +Hx.
Qed.

Lemma list_add_empty l d cmp h :
  list_is_empty l = true → list_add l d cmp h = (l' ← list_append l d; mret (true, l')) h.
Proof. intros E. unfold list_add, list_append. by rewrite E. Qed.

Lemma list_add_front l d cmp h a n :
  list_is_empty l = false → front l = Some a → cells h !! a = Some n → cmp d (data n) = -1 →
  list_add l d cmp h = (l' ← list_prepend l d; mret (true, l')) h.
Proof.
  intros E Hf Ha Hc. unfold list_add, list_prepend. rewrite E, Hf.
  erewrite bind_ok by exact (load_ok _ _ _ Ha). rewrite Hc. simpl.
  unfold mbind, M_bind. simpl. by destruct (set_prev _ _ _) as [[[] ?]| | |].
Qed.

Lemma list_add_end l d cmp h a n b m :
  list_is_empty l = false → front l = Some a → cells h !! a = Some n → cmp d (data n) = 1 →
  end_ l = Some b → cells h !! b = Some m → cmp d (data m) = 1 →
  list_add l d cmp h = (l' ← list_append l d; mret (true, l')) h.
Proof.
  intros E Hf Ha Hc He Hb Hc'. unfold list_add, list_append. rewrite E, Hf, He.
  erewrite bind_ok by exact (load_ok _ _ _ Ha). rewrite Hc. simpl.
  erewrite bind_ok by exact (load_ok _ _ _ Hb). rewrite Hc'. simpl.
  unfold mbind, M_bind. simpl. by destruct (set_next _ _ _) as [[[] ?]| | |].
Qed.

Lemma list_add_mid l d cmp h a n b m :
  list_is_empty l = false → front l = Some a → cells h !! a = Some n → cmp d (data n) = 1 →
  end_ l = Some b → cells h !! b = Some m → cmp d (data m) = -1 →
  list_add l d cmp h = list_add_loop (walk_fuel h) cmp l d (front l) h.
Proof.
  intros E Hf Ha Hc He Hb Hc'. unfold list_add. rewrite E, Hf, He.
  erewrite bind_ok by exact (load_ok _ _ _ Ha). rewrite Hc. simpl.
  erewrite bind_ok by exact (load_ok _ _ _ Hb). rewrite Hc'. done.
Qed.

Lemma list_add_no_front l d cmp h a n :
  list_is_empty l = false → front l = Some a → cells h !! a = Some n → cmp d (data n) = 0 →
  list_add l d cmp h = Ok ((false, l), h).
Proof.
  intros E Hf Ha Hc. unfold list_add. rewrite E, Hf.
  erewrite bind_ok by exact (load_ok _ _ _ Ha). by rewrite Hc.
Qed.

Lemma list_add_no_end l d cmp h a n b m :
  list_is_empty l = false → front l = Some a → cells h !! a = Some n → cmp d (data n) = 1 →
  end_ l = Some b → cells h !! b = Some m → cmp d (data m) = 0 →
  list_add l d cmp h = Ok ((false, l), h).
Proof.
  intros E Hf Ha Hc He Hb Hc'. unfold list_add. rewrite E, Hf, He.
  erewrite bind_ok by exact (load_ok _ _ _ Ha). rewrite Hc. simpl.
  erewrite bind_ok by exact (load_ok _ _ _ Hb). by rewrite Hc'.
Qed.

Lemma list_add_loop_between cmp h l k t dt ns1 ns2 d fuel :
  heap_ok h → rep h l (k ++ (t, dt) :: ns1 ++ ns2) → ns2 ≠ [] →
  Forall (λ x, cmp d x = 1) ns1.*2 → Forall (λ x, cmp d x = -1) ns2.*2 →
  Z.of_nat (length (k ++ (t, dt) :: ns1 ++ ns2)) + 1 < 4294967296 →
  (length ns1 < fuel)%nat →
  ∃ h' l', list_add_loop fuel cmp l d (Some t) h = Ok ((true, l'), h') ∧
    rep h' l' (k ++ (t, dt) :: ns1 ++ (brk h, d) :: ns2) ∧ max l' = max l ∧
    same_except (brk h :: (k ++ (t, dt) :: ns1 ++ ns2).*1) h h' ∧ heap_ok h'.
Proof.
  intros Hok. revert k t dt fuel.
  induction ns1 as [|[c dc] ns1 IH]; intros k t dt fuel R Hne H1 H2 Hb Hf;
    (destruct fuel as [|fuel]; [simpl in Hf; lia|]);
    pose proof (rep_cell _ _ _ _ _ _ R) as Ht; simpl;
    erewrite bind_ok by exact (load_ok _ _ _ Ht); cbn [next].
  - destruct ns2 as [|[c dc] ns2]; [done|]. simpl in *. apply Forall_cons in H2 as [Hc H2].
    assert (Hcc := R). rewrite (cons_middle (t, dt) k), app_assoc in Hcc.
    apply rep_cell in Hcc. erewrite bind_ok by exact (load_ok _ _ _ Hcc). cbn [data].
    simpl in Hc. rewrite Hc. simpl.
    destruct (dlseg_splice _ _ _ _ _ _ _ _ d Hok R Hb)
      as (h1 & h2 & h3 & E1 & E2 & E3 & R3 & F3 & O3).
    mstep E1. mstep E2. mstep E3. eexists _, _. split; [done|]. auto.
  - simpl in *. apply Forall_cons in H1 as [Hc H1]. simpl in Hc.
    assert (R' := R). rewrite (cons_middle (t, dt) k), app_assoc in R'.
    assert (Hcc := rep_cell _ _ _ _ _ _ R').
    erewrite bind_ok by exact (load_ok _ _ _ Hcc). cbn [data]. rewrite Hc. simpl.
    destruct (IH (k ++ [(t, dt)]) c dc fuel R' Hne H1 H2) as (h' & l' & E & R2 & Mx & F & O);
      [by rewrite <-app_assoc|lia|].
    rewrite <-!app_assoc in R2. rewrite <-!app_assoc in F. eauto 10.
Qed.

Lemma list_add_between cmp h l ns1 ns2 d :
  heap_ok h → rep h l (ns1 ++ ns2) → Z.of_nat (length (ns1 ++ ns2)) + 1 < 4294967296 →
  Forall (λ x, cmp d x = 1) ns1.*2 → Forall (λ x, cmp d x = -1) ns2.*2 →
  ∃ h' l', list_add l d cmp h = Ok ((true, l'), h') ∧
    rep h' l' (ns1 ++ (brk h, d) :: ns2) ∧ max l' = max l ∧
    same_except (brk h :: (ns1 ++ ns2).*1) h h' ∧ heap_ok h'.
Proof.
  intros Hok R Hb H1 H2. destruct (list_is_empty l) eqn:E.
  { pose proof E as E'. apply (rep_empty_iff _ _ _ R) in E' as [-> ->]%app_nil.
    rewrite list_add_empty by done.
    destruct (list_append_rep _ _ _ d Hok R Hb) as (h' & l' & Ea & Ra & Ma & Fa & Oa & _).
    mstep Ea. eexists _, _. split; [done|]. auto. }
  destruct ns1 as [|[a da] ns1].
  - pose proof (rep_nonempty _ _ _ R E). destruct ns2 as [|[b db] ns2]; [done|].
    apply Forall_cons in H2 as [Hb2 _].
    erewrite list_add_front; [|done|exact (rep_front _ _ _ R)|exact (rep_cell _ _ [] _ _ _ R)|done].
    destruct (list_prepend_rep _ _ _ d Hok R Hb) as (h' & l' & Ea & Ra & Ma & Fa & Oa).
    mstep Ea. eexists _, _. split; [done|]. auto.
  - pose proof H1 as [Ha H1']%Forall_cons.
    induction ns2 as [|[b db] ns2 _] using rev_ind.
    + rewrite app_nil_r in *. clear H1'. destruct (exists_last (l := (a, da) :: ns1)) as (ns & [b db] & Hns);
        [done|]. assert (Hla : end_ l = Some b ∧ cells h !! b = Some (Node NULL (last_ptr NULL ns) db)).
      { rewrite Hns in R. split; [|exact (rep_cell _ _ _ _ _ [] R)].
        by rewrite (rep_end _ _ _ R), last_ptr_app. }
      destruct Hla as [He Hcb].
      erewrite list_add_end; [|done|exact (rep_front _ _ _ R)|exact (rep_cell _ _ [] _ _ _ R)|
        exact Ha|exact He|exact Hcb|].
      2:{ rewrite Hns, fmap_app in H1. by apply Forall_app in H1 as [_ [? _]%Forall_cons]. }
      destruct (list_append_rep _ _ _ d Hok R Hb) as (h' & l' & Ea & Ra & Ma & Fa & Oa & _).
      mstep Ea. eexists _, _. split; [done|]. auto.
    + assert (R' := R). rewrite app_assoc in R'.
      pose proof (rep_cell _ _ _ _ _ [] R') as Hcb.
      pose proof (rep_end _ _ _ R') as He. rewrite last_ptr_app in He. simpl in He.
      assert (Hcmp : cmp d db = -1).
      { rewrite fmap_app in H2. by apply Forall_app in H2 as [_ [? _]%Forall_cons]. }
      erewrite list_add_mid; [|done|exact (rep_front _ _ _ R)|exact (rep_cell _ _ [] _ _ _ R)|
        exact Ha|exact He|exact Hcb|exact Hcmp].
      rewrite (rep_front _ _ _ R). cbn [hd_ptr app].
      eapply (list_add_loop_between cmp h l [] a da ns1); auto; [by destruct ns2|].
      pose proof (rep_walk_fuel _ _ _ R) as Hf. rewrite !length_app in Hf. simpl in Hf. lia.
Qed.

(** A clash ([cmp] answers 0) behind elements that go before [d], with none
    that goes before it afterwards, refuses the insertion. *)
Lemma list_add_loop_clash cmp h l k t dt ns1 z dz ns2 d fuel :
  rep h l (k ++ (t, dt) :: ns1 ++ (z, dz) :: ns2) →
  Forall (λ x, cmp d x = 1) ns1.*2 → cmp d dz = 0 → (length ns1 < fuel)%nat →
  list_add_loop fuel cmp l d (Some t) h = Ok ((false, l), h).
Proof.
  revert k t dt fuel. induction ns1 as [|[c dc] ns1 IH]; intros k t dt fuel R H1 Hz Hf;
    (destruct fuel as [|fuel]; [simpl in Hf; lia|]);
    pose proof (rep_cell _ _ _ _ _ _ R) as Ht; simpl;
    erewrite bind_ok by exact (load_ok _ _ _ Ht); cbn [next];
    rewrite (cons_middle (t, dt) k), app_assoc in R; simpl in *;
    pose proof (rep_cell _ _ _ _ _ _ R) as Hc;
    erewrite bind_ok by exact (load_ok _ _ _ Hc); cbn [data next].
  - by rewrite Hz.
  - apply Forall_cons in H1 as [Hcmp H1]. simpl in Hcmp. rewrite Hcmp. simpl.
    eapply (IH (k ++ [(t, dt)])); [done..|lia].
Qed.

Lemma list_add_clash cmp h l ns1 z dz ns2 d :
  rep h l (ns1 ++ (z, dz) :: ns2) → Forall (λ x, cmp d x = 1) ns1.*2 → cmp d dz = 0 →
  Forall (λ x, cmp d x = 0 ∨ cmp d x = -1) ns2.*2 →
  list_add l d cmp h = Ok ((false, l), h).
Proof.
  intros R H1 Hz H2. assert (E : list_is_empty l = false).
  { destruct (list_is_empty l) eqn:E; [|done].
    apply (rep_empty_iff _ _ _ R) in E. by destruct ns1. }
  pose proof (rep_cell _ _ _ _ _ _ R) as Hcz. destruct ns1 as [|[a da] ns1].
  { eapply list_add_no_front; [done|exact (rep_front _ _ _ R)|exact Hcz|done]. }
  pose proof (rep_cell _ _ [] _ _ _ R) as Hca. apply Forall_cons in H1 as [Ha H1].
  assert (Hloop : list_add_loop (walk_fuel h) cmp l d (Some a) h = Ok ((false, l), h)).
  { eapply (list_add_loop_clash cmp h l [] a da ns1); [done..|].
    pose proof (rep_walk_fuel _ _ _ R) as Hf. rewrite length_app in Hf. simpl in Hf. lia. }
  pose proof (rep_front _ _ _ R) as Hfr. simpl in Hfr.
  pose proof (rep_end _ _ _ R) as Hen.
  induction ns2 as [|[b db] ns2 _] using rev_ind.
  - rewrite last_ptr_app in Hen. by eapply list_add_no_end.
  - rewrite (app_comm_cons ns2), app_assoc in R, Hen. rewrite last_ptr_app in Hen.
    pose proof (rep_cell _ _ _ _ _ [] R) as Hcb.
    rewrite fmap_app in H2. apply Forall_app in H2 as [_ [[Hb|Hb] _]%Forall_cons].
    + by eapply list_add_no_end.
    + erewrite list_add_mid by done. by rewrite Hfr.
Qed.

(** *** Release, reverse search, consistency check *)

Lemma list_free_loop_rep h fuel pv ns rel :
  heap_ok h → dlseg h pv ns NULL → NoDup ns.*1 → (length ns < fuel)%nat →
  ∃ h', list_free_loop fuel rel (hd_ptr ns NULL) h =
      Ok (rel ++ filter (λ d, d ≠ 0) ns.*2, h') ∧
    (∀ a, a ∈ ns.*1 → cells h' !! a = None) ∧ same_except ns.*1 h h' ∧ heap_ok h'.
Proof.
  revert h fuel pv rel. induction ns as [|[a d] ns IH]; intros h fuel pv rel Hok Hs Nd Hf;
    (destruct fuel as [|fuel]; [simpl in Hf; lia|]).
  { eexists. split; [simpl; by rewrite app_nil_r|]. split_and!; auto with fins. set_solver +. }
  destruct Hs as [Ha Hs]. apply NoDup_cons in Nd as [Hni Nd]. simpl in Hf |- *.
  erewrite bind_ok by exact (load_ok _ _ _ Ha). cbn [data next].
  destruct (free_node_ok _ _ _ Ha) as (h1 & E1 & F1 & C1 & O1). mstep E1.
  destruct (IH h1 fuel (Some a) (if d =? 0 then rel else rel ++ [d])) as (h' & E & Hg & F & O);
    auto; [|lia|].
  { eapply dlseg_frame; [exact F1| |exact Hs]. by apply notin_singleton. }
  exists h'. split_and!; auto.
  - rewrite E. do 2 f_equal. change (((a, d) :: ns).*2) with (d :: ns.*2).
    destruct (Z.eqb_spec d 0).
    + by rewrite filter_cons_False by lia.
    + by rewrite filter_cons_True, <-app_assoc by done.
  - intros x [->|Hx]%elem_of_cons; [|by apply Hg]. rewrite F; done.
  - intros x Hx. rewrite F, F1; set_solver +Hx.
Qed.

Lemma list_find_last_loop_ok equal h fuel pv ns ret :
  dlseg h pv ns NULL → (length ns < fuel)%nat →
  list_find_last_loop fuel equal (hd_ptr ns NULL) ret h =
    Ok (match find_first (λ n, equal n.2) (reverse ns) with
        | Some n => Some n.1 | None => ret end, h).
Proof.
  revert fuel pv ret. induction ns as [|[a d] ns IH]; intros fuel pv ret Hs Hf;
    (destruct fuel as [|fuel]; [simpl in Hf; lia|]); [done|].
  destruct Hs as [Ha Hs]. simpl. erewrite bind_ok by exact (load_ok _ _ _ Ha). cbn [data next].
  erewrite IH; [|done|simpl in Hf; lia]. rewrite reverse_cons, find_first_app. simpl.
  destruct (find_first _ (reverse ns)); [done|]. by destruct (equal d).
Qed.

Lemma list_check_loop_ok h l fuel pv ns count :
  dlseg h pv ns NULL → (length ns < fuel)%nat →
  count + Z.of_nat (length ns) ≤ max l + 1 →
  list_check_loop fuel l count pv (hd_ptr ns NULL) h =
    Ok (count + Z.of_nat (length ns) =? len l, h).
Proof.
  revert fuel pv count. induction ns as [|[a d] ns IH]; intros fuel pv count Hs Hf Hm;
    (destruct fuel as [|fuel]; [simpl in Hf; lia|]).
  { simpl. by rewrite Z.add_0_r. }
  destruct Hs as [Ha Hs]. simpl in Hf, Hm |- *. rewrite (proj2 (Z.leb_le _ _)) by lia.
  erewrite bind_ok by exact (load_ok _ _ _ Ha). simpl. rewrite decide_True by done.
  erewrite IH; [|done|lia|lia]. do 2 f_equal. f_equal. lia.
Qed.

(** *** The partial join *)

(** Cutting a segment between two nodes, in the order of [list_join]. *)
Lemma dlseg_cut h pv ns1 b db c dc ns2 nx :
  dlseg h pv ((ns1 ++ [(b, db)]) ++ (c, dc) :: ns2) nx →
  NoDup ((ns1 ++ [(b, db)]) ++ (c, dc) :: ns2).*1 →
  ∃ h1 h2, set_next (Some b) NULL h = Ok (tt, h1) ∧ set_prev (Some c) NULL h1 = Ok (tt, h2) ∧
    dlseg h2 pv (ns1 ++ [(b, db)]) NULL ∧ dlseg h2 NULL ((c, dc) :: ns2) nx ∧
    same_except [b; c] h h2 ∧ (heap_ok h → heap_ok h2).
Proof.
  intros Sg Nd. apply dlseg_app in Sg as [S1 S2].
  rewrite fmap_app in Nd. apply NoDup_app in Nd as (N1 & Hd & N2).
  assert (Hc : c ∉ (ns1 ++ [(b, db)]).*1) by (intros Hb; apply (Hd _ Hb); set_solver +).
  assert (Hb : b ∉ ((c, dc) :: ns2).*1) by (apply Hd; rewrite fmap_app; set_solver +).
  destruct (dlseg_set_next _ _ _ _ _ _ NULL S1) as (h1 & E1 & D1 & F1 & O1 & _).
  { rewrite fmap_app in N1. by apply NoDup_middle in N1 as (? & _). }
  assert (S2' : dlseg h1 (last_ptr pv (ns1 ++ [(b, db)])) ((c, dc) :: ns2) nx).
  { eapply dlseg_frame; [exact F1| |exact S2]. by apply notin_singleton. }
  destruct (dlseg_set_prev _ _ _ _ _ _ NULL S2') as (h2 & E2 & D2 & F2 & O2 & _);
    [by apply NoDup_cons in N2 as [? _]|].
  exists h1, h2. split_and!; auto.
  - eapply dlseg_frame; [exact F2| |exact D1]. by apply notin_singleton.
  - eapply same_except_trans; [exact F1|exact F2| |]; set_solver +.
Qed.

(** The linking step common to the two branches of [list_join]. *)
Definition join_link (l1 l2 : linked_list) : M heap ptr :=
  if list_is_empty l1 then mret (front l2)
  else set_next (end_ l1) (front l2) ;; set_prev (front l2) (end_ l1) ;; mret (front l1).

Lemma join_link_ok h l1 l2 ns1 ns2 :
  heap_ok h → rep h l1 ns1 → rep h l2 ns2 → ns2 ≠ [] → NoDup (ns1 ++ ns2).*1 →
  ∃ h', join_link l1 l2 h = Ok (hd_ptr (ns1 ++ ns2) NULL, h') ∧
    dlseg h' NULL (ns1 ++ ns2) NULL ∧ heap_ok h'.
Proof.
  intros Hok R1 R2 Hne Nd. unfold join_link. destruct (list_is_empty l1) eqn:E.
  - apply (rep_empty_iff _ _ _ R1) in E as ->. destruct R2. eexists. split; [|done].
    by rewrite rep_front0.
  - apply (rep_nonempty _ _ _ R1) in E. destruct ns2 as [|[a2 d2] ns2]; [done|].
    induction ns1 as [|[a1 d1] ns1 _] using rev_ind; [done|].
    destruct R1 as [S1 _ _ _ F1 En1], R2 as [S2 _ _ _ F2 _].
    rewrite last_ptr_app in En1. simpl in En1, F2. rewrite En1, F2, F1.
    rewrite <-app_assoc in Nd |- *.
    destruct (dlseg_link h NULL ns1 a1 d1 a2 d2 ns2 NULL NULL NULL Hok Nd S1 S2)
      as (h1 & h2 & X1 & X2 & D & _ & O & _).
    mstep X1. mstep X2. exists h2. split_and!; auto.
    rewrite !hd_ptr_app. by destruct ns1 as [|[??]?].
Qed.

Lemma list_join_overflow h l1 l2 ns1 ns2 c dc ns3 :
  heap_ok h → rep h l1 ns1 → rep h l2 (ns2 ++ (c, dc) :: ns3) → ns2 ≠ [] →
  (∀ a, a ∈ ns1.*1 → a ∉ (ns2 ++ (c, dc) :: ns3).*1) →
  len l1 + Z.of_nat (length ns2) = max l1 → max l1 < 4294967296 →
  ∃ h' l1' l2', list_join l1 l2 h = Ok ((false, l1', l2'), h') ∧
    dlseg h' NULL (ns1 ++ ns2) NULL ∧ front l1' = hd_ptr (ns1 ++ ns2) NULL ∧
    end_ l1' = last_ptr NULL (ns1 ++ ns2) ∧ len l1' = len l1 ∧ max l1' = max l1 ∧
    rep h' l2' ((c, dc) :: ns3) ∧ heap_ok h'.
Proof.
  intros Hok R1 R2 Hne Hdj Hmax Hm.
  assert (Nd : NoDup (ns1 ++ ns2 ++ (c, dc) :: ns3).*1).
  { rewrite fmap_app. apply NoDup_app. destruct R1, R2. auto. }
  destruct (join_link_ok h l1 l2 ns1 _ Hok R1 R2) as (h1 & El & D1 & O1);
    [by destruct ns2|done|].
  assert (Hl2 : list_is_empty l2 = false).
  { destruct (list_is_empty l2) eqn:E; [|done].
    apply (rep_empty_iff _ _ _ R2) in E. by destruct ns2. }
  pose proof (rep_walk_fuel _ _ _ R2) as Hf. pose proof R2 as [S2 _ Ln2 B2 F2 E2].
  rewrite length_app in Hf, Ln2, B2. simpl length in Hf, Ln2, B2.
  assert (Hsp : list_space l1 = Z.of_nat (length ns2)).
  { unfold list_space. rewrite u32_small; zlia. }
  assert (Hpos : (0 < length ns2)%nat) by (destruct ns2; simpl; [done|lia]).
  unfold list_join. rewrite Hl2, Hsp.
  rewrite (proj2 (Z.leb_gt _ _)), (proj2 (Z.ltb_lt _ _)) by lia.
  erewrite bind_ok by done. rewrite F2.
  erewrite bind_ok by (eapply walk_to_ok; [exact S2|lia|lia|lia|lia]).
  unfold join_link in El. rewrite F2 in El. mstep El. clear El.
  induction ns2 as [|[b db] ns2 _] using rev_ind; [done|]. clear Hpos Hne.
  rewrite !app_assoc in D1, Nd. pose proof D1 as [_ [Hc _]]%dlseg_app.
  erewrite bind_ok by exact (load_ok _ _ _ Hc). cbn [prev]. rewrite last_ptr_app. simpl.
  destruct (dlseg_cut _ _ _ _ _ _ _ _ _ D1 Nd) as (h2 & h3 & E3 & E4 & D3 & D4 & _ & O3).
  mstep E3. mstep E4. rewrite <-app_assoc in D3. eexists _, _, _. split; [done|].
  split_and!; auto; simpl.
  - rewrite !hd_ptr_app. by destruct ns1 as [|[??]?], ns2 as [|[??]?].
  - by rewrite !last_ptr_app.
  - rewrite length_app in *. simpl length in *. apply rep_intro; auto.
    + rewrite fmap_app in Nd. by apply NoDup_app in Nd as (_ & _ & ?).
    + rewrite Ln2, u32_small; simpl length; zlia.
    + rewrite Ln2, u32_small; zlia.
    + rewrite E2, !last_ptr_app. done.
Qed.

(** ** Refinement of whole executions

    Any sequence of operations on one list behaves like the same sequence
    on a mathematical list of data. *)

Inductive list_op :=
| OPrepend (d : Z) | OAppend (d : Z) | ORemoveFront | ORemove (d : Z)
| ORemoveAll (equal : Z → bool) | OFind (equal : Z → bool) | OContains (d : Z) | OLook (i : nat).

Inductive list_obs := VUnit | VData (d : option Z) | VBool (b : bool) | VList (ds : list Z).

(** One operation on the heap; the list returned by [list_remove_all] is
    handed to [list_free]. *)
Definition run_op (l : linked_list) (op : list_op) : M heap (list_obs * linked_list) :=
  match op with
  | OPrepend d => l' ← list_prepend l d; mret (VUnit, l')
  | OAppend d => l' ← list_append l d; mret (VUnit, l')
  | ORemoveFront => r ← list_remove_front l; mret (VData r.1, r.2)
  | ORemove d => l' ← list_remove l d; mret (VUnit, l')
  | ORemoveAll equal =>
      r ← list_remove_all l equal; ds ← list_free r.2; mret (VList ds, r.1)
  | OFind equal => r ← list_find l equal; mret (VData r, l)
  | OContains d => b ← list_contains l d; mret (VBool b, l)
  | OLook i => r ← list_look l (Z.of_nat i); mret (VData r, l)
  end.

Fixpoint run_ops (l : linked_list) (ops : list list_op) : M heap (list list_obs * linked_list) :=
  match ops with
  | [] => mret ([], l)
  | op :: ops => r ← run_op l op; rs ← run_ops r.2 ops; mret (r.1 :: rs.1, rs.2)
  end.

Definition abs_op (xs : list Z) (op : list_op) : list_obs * list Z :=
  match op with
  | OPrepend d => (VUnit, d :: xs)
  | OAppend d => (VUnit, xs ++ [d])
  | ORemoveFront => (VData (head xs), tail xs)
  | ORemove d => (VUnit, remove_one d xs)
  | ORemoveAll equal =>
      (VList (filter (λ d, d ≠ 0) (filter (λ d, equal d = true) xs)),
       filter (λ d, equal d = false) xs)
  | OFind equal => (VData (find_first equal xs), xs)
  | OContains d => (VBool (bool_decide (d ∈ xs)), xs)
  | OLook i => (VData (xs !! i), xs)
  end.

Fixpoint abs_ops (xs : list Z) (ops : list list_op) : list list_obs * list Z :=
  match ops with
  | [] => ([], xs)
  | op :: ops => let r := abs_op xs op in
                 let rs := abs_ops r.2 ops in (r.1 :: rs.1, rs.2)
  end.

Lemma filter_snd (f : Z → bool) (b : bool) (ns : nodes) :
  (filter (λ n, f n.2 = b) ns).*2 = filter (λ d, f d = b) ns.*2.
Proof.
  induction ns as [|[a d] ns IH]; [done|]. rewrite fmap_cons, !filter_cons. simpl.
  case_decide; [rewrite fmap_cons|]; by rewrite IH.
Qed.

Lemma abs_op_length xs op : (length (abs_op xs op).2 ≤ S (length xs))%nat.
Proof.
  destruct op; simpl; rewrite ?length_app; simpl; try lia.
  - destruct xs; simpl; lia.
  - induction xs as [|x xs IH]; simpl; [lia|]. destruct (x =? d); simpl; lia.
  - etrans; [apply length_filter|lia].
Qed.

Lemma run_op_rep h l ns op :
  heap_ok h → rep h l ns → Z.of_nat (length ns) + 1 < 4294967296 →
  ∃ h' l' ns', run_op l op h = Ok (((abs_op ns.*2 op).1, l'), h') ∧ rep h' l' ns' ∧
    ns'.*2 = (abs_op ns.*2 op).2 ∧ heap_ok h'.
Proof.
  intros Hok R Hb. destruct op as [d|d| |d|equal|equal|d|i]; simpl run_op; simpl abs_op.
  - destruct (list_prepend_rep _ _ _ d Hok R Hb) as (h' & l' & E & R' & _ & _ & O).
    mstep E. eauto 10.
  - destruct (list_append_rep _ _ _ d Hok R Hb) as (h' & l' & E & R' & _ & _ & O & _).
    mstep E. eexists _, _, _. split_and!; eauto. by rewrite fmap_app.
  - destruct (list_remove_front_rep _ _ _ Hok R) as (h' & l' & E & R' & _ & _ & O).
    mstep E. eexists _, _, _. split_and!; eauto. by destruct ns.
  - destruct (list_remove_rep _ _ _ d Hok R) as (h' & l' & ns' & E & R' & Hn & _ & _ & O).
    mstep E. eauto 10.
  - destruct (list_remove_all_rep equal _ _ _ Hok R) as (h' & l' & lr & E & R1 & R2 & _ & _ & F & O).
    mstep E. unfold list_free. simpl. rewrite (rep_front _ _ _ R2).
    destruct (list_free_loop_rep h' (walk_fuel h') NULL _ [] O (rep_seg _ _ _ R2) (rep_nodup _ _ _ R2)
      (rep_walk_fuel _ _ _ R2)) as (h2 & E2 & _ & F2 & O2).
    rewrite filter_snd in E2. erewrite bind_ok; [|erewrite bind_ok by done; exact E2].
    eexists _, _, _. split_and!; eauto; [|apply filter_snd].
    eapply rep_frame; [exact F2| |exact R1].
    intros a (n & -> & [Hn Hin]%list_elem_of_filter)%list_elem_of_fmap
      (m & Hm & [Hm2 Hmin]%list_elem_of_filter)%list_elem_of_fmap.
    assert (n = m); [|congruence].
    destruct R as [_ Nd _ _ _ _]. eapply (NoDup_fmap_1 fst) in Nd as Nd'.
    apply list_elem_of_lookup in Hin as [i Hi], Hmin as [j Hj].
    assert (i = j).
    { eapply NoDup_lookup; [exact Nd|by rewrite list_lookup_fmap, Hi|].
      by rewrite list_lookup_fmap, Hj, Hm. }
    congruence.
  - pose proof (list_find_rep _ _ _ equal R) as E. mstep E. eauto 10.
  - pose proof (list_contains_rep _ _ _ d R) as E. mstep E. eauto 10.
  - pose proof (list_look_rep _ _ _ (Z.of_nat i) R (Nat2Z.is_nonneg i)) as E. mstep E.
    rewrite Nat2Z.id. eauto 10.
Qed.

(** C24: any sequence of list operations executed on the pointer structure
    returns normally (no dangling access, no lack of fuel) and yields the
    observations and the final contents of the same sequence on a
    mathematical list, and the structure stays well formed. *)
Theorem linked_list_refines h l ns ops :
  heap_ok h → rep h l ns →
  Z.of_nat (length ns) + Z.of_nat (length ops) < 4294967296 →
  ∃ h' l' ns', run_ops l ops h = Ok (((abs_ops ns.*2 ops).1, l'), h') ∧ rep h' l' ns' ∧
    ns'.*2 = (abs_ops ns.*2 ops).2 ∧ heap_ok h'.
Proof.
  revert h l ns. induction ops as [|op ops IH]; intros h l ns Hok R Hb.
  { eexists _, _, _. by split_and!. }
  simpl length in Hb. destruct (run_op_rep h l ns op Hok R) as (h1 & l1 & ns1 & E1 & R1 & Hn1 & O1);
    [lia|].
  assert (Hlen : (length ns1 ≤ S (length ns))%nat).
  { pose proof (abs_op_length ns.*2 op) as H. rewrite <-Hn1, !length_fmap in H. done. }
  destruct (IH h1 l1 ns1 O1 R1) as (h2 & l2 & ns2 & E2 & R2 & Hn2 & O2); [lia|].
  simpl. mstep E1. simpl. mstep E2. rewrite <-Hn1. eexists _, _, _. split_and!; eauto.
Qed.

(** An empty heap. *)
Definition heap0 : heap := Heap ∅ 1.

Lemma heap0_ok : heap_ok heap0.
Proof. intros a _. apply lookup_empty. Qed.

(** Witness of C24: a create, append, append, prepend, remove sequence. *)
Lemma linked_list_refines_witness :
  ∃ h' l' ns', run_ops (list_create 8) [OAppend 5; OAppend 7; OPrepend 3; ORemove 5; ORemoveFront] heap0
      = Ok (([VUnit; VUnit; VUnit; VUnit; VData (Some 3)], l'), h') ∧ rep h' l' ns' ∧
    ns'.*2 = [7] ∧ heap_ok h'.
Proof.
  exact (linked_list_refines heap0 (list_create 8) []
    [OAppend 5; OAppend 7; OPrepend 3; ORemove 5; ORemoveFront]
    heap0_ok (rep_create heap0 8) eq_refl).
Defined.

(** *** Ordered lists *)

(** The three-way comparer of a key, in the convention of [list_add]. *)
Definition key_cmp (key : Z → Z) (a b : Z) : Z :=
  if key a <? key b then -1 else if key a =? key b then 0 else 1.

(** A sorted list splits at [d] into smaller, equal and larger keys. *)
Lemma sorted_split (key : Z → Z) (d : Z) (ns : nodes) :
  StronglySorted (λ a b, key a < key b) ns.*2 →
  ∃ ns1 ns2, ns = ns1 ++ ns2 ∧ Forall (λ x, key x < key d) ns1.*2 ∧
             Forall (λ x, key d ≤ key x) ns2.*2.
Proof.
  induction ns as [|[a x] ns IH]; intros Hs.
  { exists [], []. auto. }
  apply StronglySorted_cons in Hs as [Hx Hs]. destruct (decide (key x < key d)) as [Hlt|Hge].
  - destruct (IH Hs) as (ns1 & ns2 & -> & H1 & H2). exists ((a, x) :: ns1), ns2.
    split_and!; auto. by constructor.
  - exists [], ((a, x) :: ns). split_and!; auto. constructor; [simpl; lia|].
    eapply Forall_impl; [exact Hx|]. simpl. lia.
Qed.

Lemma StronglySorted_insert (key : Z → Z) d xs ys :
  StronglySorted (λ a b, key a < key b) (xs ++ ys) →
  Forall (λ x, key x < key d) xs → Forall (λ y, key d < key y) ys →
  StronglySorted (λ a b, key a < key b) (xs ++ d :: ys).
Proof.
  induction xs as [|x xs IH]; simpl; intros Hs Hx Hy.
  - apply StronglySorted_cons. auto.
  - apply StronglySorted_cons in Hs as [Hf Hs]. apply Forall_cons in Hx as [Hxd Hx].
    apply Forall_app in Hf as [Hf1 Hf2].
    apply StronglySorted_cons. split; [|by apply IH].
    apply Forall_app. split; [done|]. by constructor.
Qed.

(** [list_add] with a comparer that orders by a key keeps the list
    strictly sorted: it inserts the datum at its place and answers true, or,
    when an element with the same key is present, answers false and changes
    nothing; it never takes its [exit(-1)] path. *)
Theorem list_add_sorted key h l ns d :
  heap_ok h → rep h l ns → Z.of_nat (length ns) + 1 < 4294967296 →
  StronglySorted (λ a b, key a < key b) ns.*2 →
  ∃ b h' l' ns', list_add l d (key_cmp key) h = Ok ((b, l'), h') ∧ rep h' l' ns' ∧ heap_ok h' ∧
    StronglySorted (λ a b, key a < key b) ns'.*2 ∧
    (b = true ∧ ns'.*2 ≡ₚ d :: ns.*2 ∨
     b = false ∧ ns' = ns ∧ h' = h ∧ ∃ x, x ∈ ns.*2 ∧ key x = key d).
Proof.
  intros Hok R Hb Hs. destruct (sorted_split key d ns Hs) as (ns1 & ns2 & -> & H1 & H2).
  assert (C1 : Forall (λ x, key_cmp key d x = 1) ns1.*2).
  { eapply Forall_impl; [exact H1|]. intros x Hx. unfold key_cmp.
    rewrite (proj2 (Z.ltb_ge _ _)), (proj2 (Z.eqb_neq _ _)) by (simpl in Hx; lia). done. }
  assert (Hgt : ∀ m : nodes, Forall (λ y, key d < key y) m.*2 →
                Forall (λ x, key_cmp key d x = -1) m.*2).
  { intros m Hm. eapply Forall_impl; [exact Hm|]. intros x Hx. unfold key_cmp.
    by rewrite (proj2 (Z.ltb_lt _ _)). }
  rewrite fmap_app in Hs. destruct ns2 as [|[z dz] ns2].
  - destruct (list_add_between (key_cmp key) h l ns1 [] d Hok R Hb C1)
      as (h' & l' & E & R' & _ & _ & O); [by constructor|].
    eexists true, h', l', _. split_and!; eauto.
    + rewrite fmap_app. simpl. apply StronglySorted_insert; auto.
    + left. split; [done|]. rewrite !fmap_app. simpl. rewrite app_nil_r. by rewrite Permutation_app_comm.
  - apply Forall_cons in H2 as [Hz H2]. simpl in Hz.
    assert (H2' : Forall (λ y, key dz < key y) ns2.*2).
    { apply StronglySorted_app in Hs as (_ & _ & Hs). by apply StronglySorted_cons in Hs as [? _]. }
    destruct (decide (key d = key dz)) as [He|He].
    + eexists false, h, l, _. split_and!; eauto; [|by rewrite fmap_app|].
      * eapply list_add_clash; [exact R|exact C1| |].
        -- unfold key_cmp. by rewrite He, Z.ltb_irrefl, Z.eqb_refl.
        -- eapply Forall_impl; [apply Hgt; by rewrite He|]. auto.
      * right. split_and!; auto. exists dz. rewrite fmap_app. split; [set_solver +|done].
    + assert (H3 : Forall (λ y, key d < key y) ((z, dz) :: ns2).*2).
      { constructor; [simpl; lia|]. eapply Forall_impl; [exact H2'|]. simpl. lia. }
      destruct (list_add_between (key_cmp key) h l ns1 _ d Hok R Hb C1 (Hgt _ H3))
        as (h' & l' & E & R' & _ & _ & O).
      eexists true, h', l', _. split_and!; eauto.
      * rewrite fmap_app. by apply StronglySorted_insert.
      * left. split; [done|]. rewrite !fmap_app. simpl. by rewrite Permutation_middle.
Qed.

(** The list [[3; 9]] of the witnesses. *)
Definition heap39 : heap :=
  Heap {[1%positive := Node (Some 2%positive) None 3;
         2%positive := Node None (Some 1%positive) 9]} 3.
Definition list39 (m : Z) : linked_list := LL m 2 (Some 1%positive) (Some 2%positive).
Definition nodes39 : nodes := [(1%positive, 3); (2%positive, 9)].

Lemma heap39_ok : heap_ok heap39.
Proof. intros a Ha. simpl in *. by rewrite lookup_insert_ne, lookup_singleton_ne by lia. Qed.

Lemma rep39 m : rep heap39 (list39 m) nodes39.
Proof. split; try done. apply (bool_decide_unpack _). by vm_compute. Qed.

(** An instance: inserting 5 into [[3; 9]]. *)
Lemma list_add_sorted_witness :
  ∃ b h' l' ns', list_add (list39 8) 5 (key_cmp (λ x, x)) heap39 = Ok ((b, l'), h') ∧
    rep h' l' ns' ∧ heap_ok h' ∧ StronglySorted (λ a b, a < b) ns'.*2 ∧
    (b = true ∧ ns'.*2 ≡ₚ [5; 3; 9] ∨
     b = false ∧ ns' = nodes39 ∧ h' = heap39 ∧ ∃ x, x ∈ nodes39.*2 ∧ x = 5).
Proof.
  apply (list_add_sorted (λ x, x) heap39 (list39 8) nodes39 5 heap39_ok (rep39 8));
    [done|]. repeat constructor; lia.
Defined.

(** *** Partition, split and join *)

Lemma filter_partition {A} (f : A → bool) (xs : list A) :
  filter (λ x, f x = false) xs ++ filter (λ x, f x = true) xs ≡ₚ xs.
Proof.
  induction xs as [|x xs IH]; [done|]. destruct (f x) eqn:E.
  - rewrite filter_cons_False, filter_cons_True by congruence.
    by rewrite <-Permutation_middle, IH.
  - rewrite filter_cons_True, filter_cons_False by congruence. simpl. by rewrite IH.
Qed.

(** [list_remove_all] splits a list into the elements that fail the test,
    which it keeps, and those that pass it, which it returns; both keep
    their order, every node ends up in exactly one of the two lists, and no
    node is allocated, freed or copied. *)
Theorem list_remove_all_partition equal h l ns :
  heap_ok h → rep h l ns →
  ∃ h' l' lr k r, list_remove_all l equal h = Ok ((l', lr), h') ∧
    rep h' l' k ∧ rep h' lr r ∧ k ++ r ≡ₚ ns ∧
    k.*2 = filter (λ d, equal d = false) ns.*2 ∧
    r.*2 = filter (λ d, equal d = true) ns.*2 ∧
    max lr = max l ∧ (∀ a, a ∉ ns.*1 → cells h' !! a = cells h !! a).
Proof.
  intros Hok R.
  destruct (list_remove_all_rep equal h l ns Hok R) as (h' & l' & lr & E & R1 & R2 & _ & M2 & F & _).
  eexists _, _, _, _, _. split_and!; eauto using filter_snd.
  apply (filter_partition (λ n, equal n.2)).
Qed.

(** An instance: removing the even data of [[3; 9]] after a test for 9. *)
Lemma list_remove_all_partition_witness :
  ∃ h' l' lr k r, list_remove_all (list39 8) (Z.eqb 9) heap39 = Ok ((l', lr), h') ∧
    rep h' l' k ∧ rep h' lr r ∧ k ++ r ≡ₚ nodes39 ∧ k.*2 = [3] ∧ r.*2 = [9] ∧
    max lr = 8 ∧ (∀ a, a ∉ nodes39.*1 → cells h' !! a = cells heap39 !! a).
Proof.
  exact (list_remove_all_partition (Z.eqb 9) heap39 (list39 8) nodes39 heap39_ok (rep39 8)).
Defined.

(** splitting a list at an index and joining the two halves again gives
    back the list, node for node, and empties the second half. *)
Theorem list_split_join h l ns index :
  heap_ok h → rep h l ns → 0 ≤ index < 4294967295 → len l ≤ max l < 4294967296 →
  ∃ h1 h2 l1 l2 l1' l2', list_split l index h = Ok ((l1, l2), h1) ∧
    rep h1 l1 (take (S (Z.to_nat index)) ns) ∧ rep h1 l2 (drop (S (Z.to_nat index)) ns) ∧
    list_join l1 l2 h1 = Ok ((true, l1', l2'), h2) ∧ rep h2 l1' ns ∧ rep h2 l2' [].
Proof.
  intros Hok R Hi Hm.
  destruct (list_split_rep h l ns index Hok R Hi) as (h1 & l1 & l2 & E & R1 & R2 & M1 & _ & _ & O).
  pose proof R as [_ Nd Ln _ _ _].
  rewrite <-(take_drop (S (Z.to_nat index)) ns), fmap_app in Nd.
  apply NoDup_app in Nd as (_ & Hd & _).
  destruct (list_join_fits h1 l1 l2 _ _ O R1 R2 Hd) as (h2 & l1' & l2' & E2 & R3 & R4 & _).
  { rewrite (rep_len _ _ _ R1), (rep_len _ _ _ R2), M1, length_take, length_drop. lia. }
  rewrite take_drop in R3. eexists h1, h2, l1, l2, l1', l2'. split_and!; auto.
Qed.

(** An instance. *)
Lemma list_split_join_witness :
  ∃ h1 h2 l1 l2 l1' l2', list_split (list39 8) 0 heap39 = Ok ((l1, l2), h1) ∧
    rep h1 l1 [(1%positive, 3)] ∧ rep h1 l2 [(2%positive, 9)] ∧
    list_join l1 l2 h1 = Ok ((true, l1', l2'), h2) ∧ rep h2 l1' nodes39 ∧ rep h2 l2' [].
Proof.
  refine (list_split_join heap39 (list39 8) nodes39 0 heap39_ok (rep39 8) _ _); simpl; lia.
Defined.

(** when the second list only partly fits, [list_join] moves the nodes
    that fit but leaves the length field of the first list at its old value:
    the pointers of the first list reach the nodes that were moved, its
    length does not count them, and [list_check] reports the list as broken. *)
Theorem list_join_stale_length h l1 l2 ns1 ns2 c dc ns3 :
  heap_ok h → rep h l1 ns1 → rep h l2 (ns2 ++ (c, dc) :: ns3) → ns2 ≠ [] →
  (∀ a, a ∈ ns1.*1 → a ∉ (ns2 ++ (c, dc) :: ns3).*1) →
  len l1 + Z.of_nat (length ns2) = max l1 → max l1 < 4294967296 →
  ∃ h' l1' l2', list_join l1 l2 h = Ok ((false, l1', l2'), h') ∧
    dlseg h' NULL (ns1 ++ ns2) NULL ∧ front l1' = hd_ptr (ns1 ++ ns2) NULL ∧
    rep h' l2' ((c, dc) :: ns3) ∧ len l1' = Z.of_nat (length ns1) ∧
    list_check l1' h' = Ok (false, h').
Proof.
  intros Hok R1 R2 Hne Hdj Hm Hb.
  destruct (list_join_overflow h l1 l2 ns1 ns2 c dc ns3 Hok R1 R2 Hne Hdj Hm Hb)
    as (h' & l1' & l2' & E & D & Hf & He & Hl & Hmx & R & O).
  assert (Nd : NoDup (ns1 ++ ns2).*1).
  { rewrite fmap_app. apply NoDup_app. destruct R1 as [_ N1 _ _ _ _], R2 as [_ N2 _ _ _ _].
    rewrite fmap_app in N2. apply NoDup_app in N2 as (N2 & _ & _).
    split_and!; auto. intros a Ha Ha2. apply (Hdj a Ha). rewrite fmap_app. set_solver +Ha2. }
  exists h', l1', l2'. split_and!; auto.
  { by rewrite Hl, (rep_len _ _ _ R1). }
  unfold list_check. erewrite bind_ok by done. rewrite Hf.
  erewrite list_check_loop_ok; [|exact D| |].
  - rewrite Hl, (rep_len _ _ _ R1), length_app.
    destruct ns2; [done|]. simpl. rewrite (proj2 (Z.eqb_neq _ _)) by lia. done.
  - pose proof (dlseg_size _ _ _ _ D Nd). unfold walk_fuel. lia.
  - rewrite Hmx, <-Hm, (rep_len _ _ _ R1), length_app. lia.
Qed.

(** An instance: joining [[3; 9]] to an empty list with room for one. *)
Lemma list_join_stale_length_witness :
  ∃ h' l1' l2', list_join (list_create 1) (list39 8) heap39 = Ok ((false, l1', l2'), h') ∧
    dlseg h' NULL [(1%positive, 3)] NULL ∧ front l1' = Some 1%positive ∧
    rep h' l2' [(2%positive, 9)] ∧ len l1' = 0 ∧ list_check l1' h' = Ok (false, h').
Proof.
  refine (list_join_stale_length heap39 (list_create 1) (list39 8) []
    [(1%positive, 3)] 2%positive 9 [] heap39_ok (rep_create _ _) (rep39 8) _ _ _ _);
    [done|intros a Ha; by apply elem_of_nil in Ha|done|simpl; lia].
Defined.

(** *** Copies and release *)

(** [list_clone] returns a list of the cloned data in the same order and
    leaves the source list and every other cell of the heap unchanged. *)
Theorem list_clone_copies clone h l ns :
  heap_ok h → rep h l ns →
  ∃ h' lr r, list_clone l clone h = Ok (lr, h') ∧ rep h' lr r ∧ r.*2 = clone <$> ns.*2 ∧
    rep h' l ns ∧ max lr = max l ∧
    (∀ a, is_Some (cells h !! a) → cells h' !! a = cells h !! a).
Proof.
  intros Hok R.
  destruct (list_filter_rep (λ _, true) clone h l ns Hok R) as (h' & lr & r & E & R1 & Hr & R2 & Mx & _ & F).
  exists h', lr, r. split_and!; auto. rewrite Hr. f_equal. clear.
  induction ns.*2; [done|]. rewrite filter_cons_True by done. by f_equal.
Qed.

(** An instance. *)
Lemma list_clone_copies_witness :
  ∃ h' lr r, list_clone (list39 8) Z.succ heap39 = Ok (lr, h') ∧ rep h' lr r ∧ r.*2 = [4; 10] ∧
    rep h' (list39 8) nodes39 ∧ max lr = 8 ∧
    (∀ a, is_Some (cells heap39 !! a) → cells h' !! a = cells heap39 !! a).
Proof.
  exact (list_clone_copies Z.succ heap39 (list39 8) nodes39 heap39_ok (rep39 8)).
Defined.

(** [list_free] releases every non-NULL datum exactly once, in order,
    frees every node of the list and no other cell. *)
Theorem list_free_releases h l ns :
  heap_ok h → rep h l ns →
  ∃ h', list_free l h = Ok (filter (λ d, d ≠ 0) ns.*2, h') ∧
    (∀ a, a ∈ ns.*1 → cells h' !! a = None) ∧
    (∀ a, a ∉ ns.*1 → cells h' !! a = cells h !! a).
Proof.
  intros Hok R. unfold list_free. erewrite bind_ok by done. rewrite (rep_front _ _ _ R).
  destruct (list_free_loop_rep h (walk_fuel h) NULL ns [] Hok (rep_seg _ _ _ R)
    (rep_nodup _ _ _ R) (rep_walk_fuel _ _ _ R)) as (h' & E & H1 & H2 & _).
  exists h'. auto.
Qed.

(** An instance. *)
Lemma list_free_releases_witness :
  ∃ h', list_free (list39 8) heap39 = Ok ([3; 9], h') ∧
    (∀ a, a ∈ nodes39.*1 → cells h' !! a = None) ∧
    (∀ a, a ∉ nodes39.*1 → cells h' !! a = cells heap39 !! a).
Proof. exact (list_free_releases heap39 (list39 8) nodes39 heap39_ok (rep39 8)). Defined.

(** [list_find_last] returns the last element that satisfies the test;
    when there is none it dereferences NULL. *)
Theorem list_find_last_total equal h l ns :
  rep h l ns →
  list_find_last l equal h =
    match find_first equal (reverse ns.*2) with Some d => Ok (d, h) | None => Segv end.
Proof.
  intros R. pose proof (rep_walk_fuel _ _ _ R) as Hf. unfold list_find_last.
  erewrite bind_ok by done. rewrite (rep_front _ _ _ R).
  erewrite bind_ok; [|by eapply list_find_last_loop_ok, Hf; apply R].
  assert (Hff : find_first equal (reverse ns.*2) = snd <$> find_first (λ n, equal n.2) (reverse ns)).
  { rewrite <-fmap_reverse. induction (reverse ns) as [|n m IH]; [done|].
    simpl. destruct (equal n.2); [done|]. exact IH. }
  rewrite Hff. destruct (find_first _ (reverse ns)) as [[a d]|] eqn:E; [|done].
  apply find_first_Some in E as (l1 & l2 & Hr & _ & _).
  apply (f_equal reverse) in Hr. rewrite reverse_involutive, reverse_app, reverse_cons, <-app_assoc in Hr.
  rewrite Hr in R. simpl. by erewrite bind_ok by exact (load_ok _ _ _ (rep_cell _ _ _ _ _ _ R)).
Qed.

(** An instance, both branches. *)
Lemma list_find_last_total_witness :
  list_find_last (list39 8) (Z.ltb 0) heap39 = Ok (9, heap39) ∧
  list_find_last (list39 8) (Z.ltb 50) heap39 = Segv.
Proof.
  split; [exact (list_find_last_total (Z.ltb 0) _ _ _ (rep39 8))|
          exact (list_find_last_total (Z.ltb 50) _ _ _ (rep39 8))].
Defined.

(** *** Insertion behind a node *)

Lemma list_insert_loop_walk h l d p fuel pv ns1 t ns2 :
  dlseg h pv (ns1 ++ (t, p) :: ns2) NULL → p ∉ ns1.*2 →
  list_insert_loop (length ns1 + fuel) l d p (hd_ptr (ns1 ++ (t, p) :: ns2) NULL) h =
  list_insert_loop fuel l d p (Some t) h.
Proof.
  revert pv. induction ns1 as [|[a e] ns1 IH]; intros pv Hs Hp; [done|].
  destruct Hs as [Ha Hs]. apply not_elem_of_cons in Hp as [Hne Hp]. simpl.
  erewrite bind_ok by exact (load_ok _ _ _ Ha). cbn [data next].
  rewrite (proj2 (Z.eqb_neq e p)) by (simpl in Hne; congruence). by eapply IH.
Qed.

(** [list_insert] links the new datum behind the first node that carries
    [p], except when that node is the last one: then it dereferences the
    NULL successor. *)
Theorem list_insert_behind h l ns1 t p ns2 d :
  heap_ok h → rep h l (ns1 ++ (t, p) :: ns2) → p ∉ ns1.*2 →
  last (ns1 ++ (t, p) :: ns2).*2 ≠ Some d →
  Z.of_nat (length (ns1 ++ (t, p) :: ns2)) + 1 < 4294967296 →
  match ns2 with
  | [] => list_insert l d p h = Segv
  | _ :: _ => ∃ h' l', list_insert l d p h = Ok (l', h') ∧
                rep h' l' (ns1 ++ (t, p) :: (brk h, d) :: ns2)
  end.
Proof.
  intros Hok R Hp Hlast Hb. unfold list_insert.
  assert (E : list_is_empty l = false).
  { destruct (list_is_empty l) eqn:E; [|done]. apply (rep_empty_iff _ _ _ R) in E. by destruct ns1. }
  rewrite E. destruct (exists_last (l := ns1 ++ (t, p) :: ns2)) as (ms & [b db] & Hms);
    [by destruct ns1|].
  assert (Hend : end_ l = Some b ∧ cells h !! b = Some (Node NULL (last_ptr NULL ms) db)).
  { rewrite Hms in R. split; [by rewrite (rep_end _ _ _ R), last_ptr_app|].
    exact (rep_cell _ _ _ _ _ [] R). }
  destruct Hend as [-> Hcb]. erewrite bind_ok by exact (load_ok _ _ _ Hcb). cbn [data].
  rewrite (proj2 (Z.eqb_neq db d)).
  2:{ intros ->. apply Hlast. by rewrite Hms, fmap_app, last_app. }
  erewrite bind_ok by done. rewrite (rep_front _ _ _ R).
  pose proof (rep_walk_fuel _ _ _ R) as Hf. rewrite length_app in Hf. simpl in Hf.
  replace (walk_fuel h) with (length ns1 + S (walk_fuel h - length ns1 - 1))%nat by lia.
  rewrite (list_insert_loop_walk _ _ _ _ _ _ _ _ _ (rep_seg _ _ _ R) Hp). simpl.
  pose proof (rep_cell _ _ _ _ _ _ R) as Ht.
  destruct ns2 as [|[c dc] ns2]; erewrite bind_ok by exact (load_ok _ _ _ Ht); cbn [data next];
    rewrite Z.eqb_refl.
  - done.
  - destruct (dlseg_splice _ _ _ _ _ _ _ _ d Hok R Hb)
      as (h1 & h2 & h3 & E1 & E2 & E3 & R3 & _ & _).
    simpl hd_ptr. mstep E1. mstep E2. mstep E3. eauto.
Qed.

(** An instance: behind the last and behind the first node of [[3; 9]]. *)
Lemma list_insert_behind_witness :
  list_insert (list39 8) 5 9 heap39 = Segv ∧
  ∃ h' l', list_insert (list39 8) 5 3 heap39 = Ok (l', h') ∧
    rep h' l' [(1%positive, 3); (3%positive, 5); (2%positive, 9)].
Proof.
  split.
  - refine (list_insert_behind heap39 (list39 8) [(1%positive, 3)] 2%positive 9 [] 5
      heap39_ok (rep39 8) _ _ _); [by apply (bool_decide_unpack _)|done|done].
  - refine (list_insert_behind heap39 (list39 8) [] 1%positive 3 [(2%positive, 9)] 5
      heap39_ok (rep39 8) _ _ _); [by apply (bool_decide_unpack _)|done|done].
Defined.
