(* ===== verification/Queue.v ===== *)
(** * The circular queue of [libs/data_structure/queue.c] and its frame
    wrapper [finsqueue.c]

    The record of the C code with its array of element pointers ([None] is
    NULL); an index outside the array is [Segv], C's [%] is [Z.rem].  The
    second half relates the record to the mathematical queue it implements. *)

From stdpp Require Import base list.
From Stdlib Require Import ZArith Lia.
From S2P Require Import Prelude.
Open Scope Z_scope.

Section Queue.
Context {A : Type}.
Abbreviation ElementType := (option A) (only parsing).

(** [struct QueueRecord]. *)
Record QueueRecord := MkQueue {
  Capacity : Z; Front : Z; Rear : Z; Size : Z; Array : list ElementType
}.

(** [Q->Array[i]] as a value and as the target of an assignment. *)
Definition array_get (i : Z) : M QueueRecord ElementType := λ q,
  if i <? 0 then Segv
  else match Array q !! Z.to_nat i with Some x => Ok (x, q) | None => Segv end.

Definition array_set (i : Z) (x : ElementType) : M QueueRecord unit := λ q,
  if (0 <=? i) && (i <? Z.of_nat (length (Array q)))
  then Ok (tt, MkQueue (Capacity q) (Front q) (Rear q) (Size q) (<[Z.to_nat i := x]> (Array q)))
  else Segv.

Definition set_front (f : Z) (q : QueueRecord) := MkQueue (Capacity q) f (Rear q) (Size q) (Array q).
Definition set_rear (r : Z) (q : QueueRecord) := MkQueue (Capacity q) (Front q) r (Size q) (Array q).
Definition set_size (s : Z) (q : QueueRecord) := MkQueue (Capacity q) (Front q) (Rear q) s (Array q).

Definition IsEmpty (q : QueueRecord) : bool := Size q =? 0.
Definition IsFull (q : QueueRecord) : bool := Size q =? Capacity q.

Definition MakeEmpty (q : QueueRecord) : QueueRecord :=
  MkQueue (Capacity q) 1 0 0 (Array q).

(** [secure_malloc] clears the array. *)
Definition CreateQueue (MaxElements : Z) : QueueRecord :=
  MakeEmpty (MkQueue MaxElements 0 0 0 (replicate (Z.to_nat MaxElements) None)).

Definition Succ (v : Z) (q : QueueRecord) : Z := Z.rem (v + 1) (Capacity q).
Definition Prev (v : Z) (q : QueueRecord) : Z := Z.rem (v - 1) (Capacity q).

Definition Enqueue (x : ElementType) : M QueueRecord Z :=
  q ← get;
  if IsFull q then mret 0
  else
    modify (set_size (Size q + 1)) ;;
    modify (set_rear (Succ (Rear q) q)) ;;
    array_set (Succ (Rear q) q) x ;;
    mret 1.

Definition EnqueueFront (x : ElementType) : M QueueRecord Z :=
  q ← get;
  if IsFull q then mret 0
  else
    modify (set_size (Size q + 1)) ;;
    modify (set_front (Prev (Front q) q)) ;;
    array_set (Prev (Front q) q) x ;;
    mret 1.

Definition Front_ : M QueueRecord ElementType :=
  q ← get; if negb (IsEmpty q) then array_get (Front q) else mret None.

Definition Dequeue : M QueueRecord unit :=
  q ← get;
  if IsEmpty q then mret tt
  else modify (set_size (Size q - 1)) ;; modify (set_front (Succ (Front q) q)).

Definition FrontAndDequeue : M QueueRecord ElementType :=
  q ← get;
  if IsEmpty q then mret None
  else
    modify (set_size (Size q - 1)) ;;
    x ← array_get (Front q);
    array_set (Front q) None ;;
    modify (set_front (Succ (Front q) q)) ;;
    mret x.

(** The loop [for (i = lo; i < lo + n; i++) if (Q->Array[i]) free...],
    recording the elements that are freed. *)
Fixpoint free_range (n : nat) (i : Z) : M QueueRecord (list A) :=
  match n with
  | O => mret []
  | S n =>
      x ← array_get i;
      rest ← free_range n (i + 1);
      mret (match x with Some a => a :: rest | None => rest end)
  end.

(** [TerminateQueue] walks [Array[0..Size)]. *)
Definition TerminateQueue : M QueueRecord (Z * list A) :=
  q ← get;
  fs ← free_range (Z.to_nat (Size q)) 0;
  modify (set_size 0) ;;
  mret (1, fs).

(** ** [finsqueue.c] *)

Definition init_queue (size : Z) : QueueRecord := CreateQueue size.
Definition write_queue (ff : A) : M QueueRecord Z := Enqueue (Some ff).
Definition write_queue_front (ff : A) : M QueueRecord Z := EnqueueFront (Some ff).
Definition read_queue : M QueueRecord ElementType := FrontAndDequeue.
Definition checkEmpty (q : QueueRecord) : bool := IsEmpty q.

(** [freeFinsFrame] answers 1 for every non-NULL frame, so the counter is
    the number of frames that are freed. *)
Definition TerminateFinsQueue : M QueueRecord (Z * list A) :=
  q ← get;
  fs ← (if Front q <=? Rear q then
          free_range (Z.to_nat (Rear q - Front q + 1)) (Front q)
        else
          fs1 ← free_range (Z.to_nat (Capacity q - Front q)) (Front q);
          fs2 ← free_range (Z.to_nat (Rear q + 1)) 0;
          mret (fs1 ++ fs2));
  modify (set_size 0) ;;
  mret (if Z.of_nat (length fs) =? Size q then 1 else 0, fs).

(** [term_queue]: the array and the record are freed ([DisposeFinsQueue])
    only when the first call answers 1. *)
Definition term_queue : M QueueRecord (Z * list A * bool) :=
  r ← TerminateFinsQueue;
  mret (if r.1 =? 0 then (0, r.2, false) else (1, r.2, true)).

(** ** Representation *)

(** The slot of the [i]-th element. *)
Definition slot (q : QueueRecord) (i : Z) : nat := Z.to_nat ((Front q + i) mod Capacity q).

(** The record holds the queue [xs] (first element first); [clean] adds
    that the slots outside the queue are NULL, which is what
    [TerminateFinsQueue] relies on and [Dequeue] does not maintain. *)
Record qrep (q : QueueRecord) (xs : list A) : Prop := {
  q_cap : 2 ≤ Capacity q;
  q_arr : Z.of_nat (length (Array q)) = Capacity q;
  q_front : 0 ≤ Front q < Capacity q;
  q_size : Size q = Z.of_nat (length xs);
  q_fits : Size q ≤ Capacity q;
  q_rear : Rear q = (Front q + Size q - 1) mod Capacity q;
  q_elems : ∀ i, (i < length xs)%nat → Array q !! slot q (Z.of_nat i) = Some (xs !! i)
}.

Definition clean (q : QueueRecord) : Prop :=
  ∀ j, Size q ≤ j < Capacity q → Array q !! slot q j = Some None.

Lemma slot_lt q xs i : qrep q xs → (slot q i < length (Array q))%nat.
Proof.
  intros []. unfold slot. pose proof (Z.mod_pos_bound (Front q + i) (Capacity q)). lia.
Qed.

Lemma slot_inj q xs i j :
  qrep q xs → 0 ≤ i < Capacity q → 0 ≤ j < Capacity q → slot q i = slot q j → i = j.
Proof.
  intros [] Hi Hj H. unfold slot in H.
  pose proof (Z.mod_pos_bound (Front q + i) (Capacity q)).
  pose proof (Z.mod_pos_bound (Front q + j) (Capacity q)).
  assert (E : (Front q + i) mod Capacity q = (Front q + j) mod Capacity q) by lia.
  pose proof (Z.div_mod (Front q + i) (Capacity q)).
  pose proof (Z.div_mod (Front q + j) (Capacity q)).
  assert ((Front q + i) / Capacity q = (Front q + j) / Capacity q ∨
          (Front q + i) / Capacity q < (Front q + j) / Capacity q ∨
          (Front q + j) / Capacity q < (Front q + i) / Capacity q) by lia.
  nia.
Qed.

Lemma succ_mod q v : 0 < Capacity q → 0 ≤ v → Succ v q = (v + 1) mod Capacity q.
Proof. intros. unfold Succ. apply Z.rem_mod_nonneg; lia. Qed.

Lemma succ_rear q xs : qrep q xs → Succ (Rear q) q = (Front q + Size q) mod Capacity q.
Proof.
  intros []. pose proof (Z.mod_pos_bound (Front q + Size q - 1) (Capacity q)).
  rewrite succ_mod by lia. rewrite q_rear0, Zplus_mod_idemp_l. f_equal. lia.
Qed.

Lemma create_qrep n : 2 ≤ n → qrep (CreateQueue n) [] ∧ clean (CreateQueue n).
Proof.
  intros Hn. split.
  - split; simpl; rewrite ?length_replicate; try lia. rewrite Z.mod_small; lia.
  - intros j Hj. unfold CreateQueue, MakeEmpty, slot in *. simpl in *.
    pose proof (Z.mod_pos_bound (1 + j) n). apply lookup_replicate_2. lia.
Qed.

Lemma qrep_empty q xs : qrep q xs → IsEmpty q = true ↔ xs = [].
Proof.
  intros []. unfold IsEmpty. rewrite Z.eqb_eq, q_size0. destruct xs; simpl; split; intros; done || lia.
Qed.

(** ** Refinement *)

Definition qinv (q : QueueRecord) (xs : list A) : Prop := qrep q xs ∧ clean q.

Lemma write_queue_full q xs a :
  qinv q xs → Z.of_nat (length xs) = Capacity q → write_queue a q = Ok (0, q).
Proof.
  intros [[] _] Hf. unfold write_queue, Enqueue. erewrite bind_ok by done. unfold IsFull.
  by rewrite (proj2 (Z.eqb_eq (Size q) (Capacity q))) by lia.
Qed.

Lemma write_queue_ok q xs a :
  qinv q xs → Z.of_nat (length xs) < Capacity q →
  ∃ q', write_queue a q = Ok (1, q') ∧ qinv q' (xs ++ [a]) ∧ Capacity q' = Capacity q.
Proof.
  intros [R Hcl] Hlt. pose proof R as [C Ar Fr Sz Ft Re El].
  set (k := slot q (Size q)).
  set (q' := MkQueue (Capacity q) (Front q) (Succ (Rear q) q) (Size q + 1)
               (<[k := Some a]> (Array q))).
  pose proof (Z.mod_pos_bound (Front q + Size q) (Capacity q)) as Hmod.
  assert (Hk : Z.to_nat (Succ (Rear q) q) = k) by (by rewrite (succ_rear q xs R)).
  exists q'. split.
  - unfold write_queue, Enqueue. erewrite bind_ok by done. unfold IsFull.
    rewrite (proj2 (Z.eqb_neq (Size q) (Capacity q))) by lia.
    erewrite bind_ok by done. erewrite bind_ok by done.
    erewrite bind_ok; [done|]. unfold array_set, set_rear, set_size. simpl.
    rewrite (proj2 (andb_true_iff _ _)).
    2:{ rewrite Z.leb_le, Z.ltb_lt, (succ_rear q xs R). lia. }
    by rewrite Hk.
  - assert (Hs : ∀ j, slot q' j = slot q j) by done.
    split; [split|done].
    + split; simpl; try done; rewrite ?length_insert, ?length_app; simpl; try lia.
      * rewrite (succ_rear q xs R). f_equal. lia.
      * intros i Hi. rewrite Hs. destruct (decide (i = length xs)) as [->|Hne].
        -- unfold k. rewrite <-Sz, list_lookup_insert_eq by by eapply slot_lt.
           by rewrite lookup_app_r, Nat.sub_diag.
        -- rewrite list_lookup_insert_ne, El, lookup_app_l by
             (lia || (intros Hc; apply (slot_inj q xs) in Hc; [lia|done|lia|lia])). done.
    + intros j Hj. simpl in Hj. rewrite Hs. simpl.
      rewrite list_lookup_insert_ne; [apply Hcl; lia|].
      intros Hc. apply (slot_inj q xs) in Hc; [lia|done|lia|lia].
Qed.

Lemma read_queue_empty q : qinv q [] → read_queue q = Ok (None, q).
Proof.
  intros [[] _]. unfold read_queue, FrontAndDequeue. erewrite bind_ok by done.
  unfold IsEmpty. by rewrite q_size0.
Qed.

Lemma read_queue_ok q a xs :
  qinv q (a :: xs) →
  ∃ q', read_queue q = Ok (Some a, q') ∧ qinv q' xs ∧ Capacity q' = Capacity q.
Proof.
  intros [R Hcl]. pose proof R as [C Ar Fr Sz Ft Re El]. simpl length in Sz.
  set (q' := MkQueue (Capacity q) (Succ (Front q) q) (Rear q) (Size q - 1)
               (<[Z.to_nat (Front q) := None]> (Array q))).
  assert (H0 : slot q 0 = Z.to_nat (Front q)).
  { unfold slot. rewrite Z.add_0_r, Z.mod_small by lia. done. }
  assert (Hhd : Array q !! slot q 0 = Some (Some a)) by exact (El 0%nat (Nat.lt_0_succ _)).
  assert (Hsl : ∀ j, slot q' j = slot q (j + 1)).
  { intros j. unfold slot, q'. simpl. rewrite succ_mod, Zplus_mod_idemp_l by lia.
    do 2 f_equal. lia. }
  exists q'. split.
  - unfold read_queue, FrontAndDequeue. erewrite bind_ok by done. unfold IsEmpty.
    rewrite (proj2 (Z.eqb_neq (Size q) 0)) by lia. erewrite bind_ok by done.
    erewrite bind_ok.
    2:{ unfold array_get, set_size. simpl. rewrite (proj2 (Z.ltb_ge _ _)) by lia.
        by rewrite <-H0, Hhd. }
    erewrite bind_ok.
    2:{ unfold array_set, set_size. simpl. rewrite (proj2 (andb_true_iff _ _)); [done|].
        rewrite Z.leb_le, Z.ltb_lt. lia. }
    done.
  - pose proof (Z.mod_pos_bound (Front q + 1) (Capacity q)).
    split; [split|done].
    + split; simpl; rewrite ?length_insert, ?succ_mod; try lia.
      * rewrite Re. replace (((Front q + 1) mod Capacity q) + (Size q - 1) - 1)
          with (((Front q + 1) mod Capacity q) + (Size q - 2)) by lia.
        rewrite Zplus_mod_idemp_l. f_equal. lia.
      * intros i Hi. rewrite Hsl.
        replace (Z.of_nat i + 1) with (Z.of_nat (S i)) by lia.
        rewrite list_lookup_insert_ne; [by rewrite El by (simpl; lia)|].
        rewrite <-H0. intros Hc. apply (slot_inj q (a :: xs)) in Hc; [lia|done|lia|lia].
    + intros j Hj. simpl in Hj. rewrite Hsl. simpl.
      destruct (decide (j + 1 = Capacity q)) as [He|Hne].
      * assert (Hz : slot q (j + 1) = Z.to_nat (Front q)).
        { unfold slot. rewrite He. replace (Front q + Capacity q) with (Front q + 1 * Capacity q) by lia.
          rewrite Z.mod_add, Z.mod_small by lia. done. }
        rewrite Hz. apply list_lookup_insert_eq. lia.
      * rewrite list_lookup_insert_ne; [apply Hcl; lia|].
        rewrite <-H0. intros Hc. apply (slot_inj q (a :: xs)) in Hc; [lia|done|lia|lia].
Qed.
(** *** Termination of a queue *)

Lemma free_range_ok q n i :
  0 ≤ i → (Z.to_nat i + n ≤ length (Array q))%nat →
  free_range n i q = Ok (omap id (take n (drop (Z.to_nat i) (Array q))), q).
Proof.
  revert i. induction n as [|n IH]; intros i Hi Hn; [done|]. simpl.
  destruct (lookup_lt_is_Some_2 (Array q) (Z.to_nat i)) as [x Hx]; [lia|].
  erewrite bind_ok.
  2:{ unfold array_get. rewrite (proj2 (Z.ltb_ge _ _)) by lia. by rewrite Hx. }
  erewrite bind_ok by (apply IH; lia).
  rewrite (drop_S _ _ _ Hx). replace (Z.to_nat (i + 1)) with (S (Z.to_nat i)) by lia.
  by destruct x.
Qed.

(** The array read from [Front] on. *)
Definition rot (q : QueueRecord) : list (option A) :=
  drop (Z.to_nat (Front q)) (Array q) ++ take (Z.to_nat (Front q)) (Array q).

Lemma rot_contents q xs :
  qinv q xs → rot q = (Some <$> xs) ++ replicate (Z.to_nat (Capacity q - Size q)) None.
Proof.
  intros [R Hcl]. pose proof R as [C Ar Fr Sz Ft Re El].
  assert (Hrot : ∀ i, (i < length (Array q))%nat → rot q !! i = Array q !! slot q (Z.of_nat i)).
  { intros i Hi. unfold rot, slot.
    destruct (decide (i < length (Array q) - Z.to_nat (Front q))%nat).
    - rewrite lookup_app_l by (rewrite length_drop; lia). rewrite lookup_drop, Z.mod_small by lia.
      f_equal. lia.
    - rewrite lookup_app_r by (rewrite length_drop; lia). rewrite length_drop, lookup_take_lt by lia.
      f_equal. rewrite <-(Z.mod_unique_pos _ _ 1 (Front q + Z.of_nat i - Capacity q)) by lia. lia. }
  assert (Hlen : length (rot q) = length (Array q)).
  { unfold rot. rewrite length_app, length_drop, length_take. lia. }
  apply list_eq. intros i. destruct (decide (i < length (Array q))%nat) as [Hi|Hi].
  - rewrite Hrot by done. destruct (decide (i < length xs)%nat) as [Hx|Hx].
    + rewrite El, lookup_app_l by (rewrite ?length_fmap; lia).
      rewrite list_lookup_fmap. destruct (lookup_lt_is_Some_2 xs i Hx) as [a Ha]. by rewrite Ha.
    + rewrite (Hcl (Z.of_nat i)), lookup_app_r by (rewrite ?length_fmap; lia).
      rewrite length_fmap. symmetry. apply lookup_replicate_2. lia.
  - rewrite !lookup_ge_None_2; [done| |lia]. rewrite length_app, length_fmap, length_replicate. lia.
Qed.

Lemma omap_id_somes (xs : list A) n : omap id ((Some <$> xs) ++ replicate n None) = xs.
Proof.
  induction xs as [|x xs IH]; simpl; [|by f_equal]. by induction n.
Qed.

Lemma take_rot q xs n :
  qinv q xs → (length xs ≤ n)%nat → omap id (take n (rot q)) = xs.
Proof.
  intros H Hn. rewrite (rot_contents q xs H), take_app_ge by (rewrite length_fmap; lia).
  rewrite take_replicate. apply omap_id_somes.
Qed.

Lemma TerminateFinsQueue_ok q xs :
  qinv q xs → TerminateFinsQueue q = Ok ((1, xs), set_size 0 q).
Proof.
  intros H. pose proof H as [[C Ar Fr Sz Ft Re El] _].
  unfold TerminateFinsQueue. erewrite bind_ok by done.
  assert (Hret : ∀ m : M QueueRecord (list A), m q = Ok (xs, q) →
    (fs ← m; modify (set_size 0) ;;
     mret (if Z.of_nat (length fs) =? Size q then 1 else 0, fs)) q = Ok ((1, xs), set_size 0 q)).
  { intros m Hm. mstep Hm. erewrite bind_ok by done. by rewrite <-Sz, Z.eqb_refl. }
  apply Hret. pose proof (Z.mod_pos_bound (Front q + Size q - 1) (Capacity q)) as Hm.
  assert (Hcase : Size q = 0 ∧ (Front q = 0 ∧ Rear q = Capacity q - 1 ∨ Rear q = Front q - 1 ∧ 0 < Front q)
    ∨ 0 < Size q ∧ (Front q + Size q ≤ Capacity q ∧ Rear q = Front q + Size q - 1 ∨
                    Capacity q < Front q + Size q ∧ Rear q = Front q + Size q - 1 - Capacity q)).
  { destruct (decide (Size q = 0)) as [Hs|Hs]; [left|right]; (split; [lia|]).
    - rewrite Re, Hs. destruct (decide (Front q = 0)) as [->|]; [left|right]; (split; [|lia]) || split; try lia.
      + rewrite <-(Z.mod_unique_pos _ _ (-1) (Capacity q - 1)); lia.
      + rewrite Z.mod_small; lia.
    - rewrite Re. destruct (decide (Front q + Size q ≤ Capacity q)); [left|right]; (split; [lia|]).
      + rewrite Z.mod_small; lia.
      + rewrite <-(Z.mod_unique_pos _ _ 1 (Front q + Size q - 1 - Capacity q)); lia. }
  assert (Hlo : Front q ≤ Rear q → free_range (Z.to_nat (Rear q - Front q + 1)) (Front q) q = Ok (xs, q)).
  { intros Hle. rewrite free_range_ok by lia. do 2 f_equal.
    rewrite <-(take_rot q xs (Z.to_nat (Rear q - Front q + 1)) H) at 1 by lia.
    unfold rot. rewrite take_app_le by (rewrite length_drop; lia). done. }
  destruct (Z.leb_spec (Front q) (Rear q)) as [Hle|Hgt]; [by apply Hlo|].
  erewrite bind_ok by (apply free_range_ok; lia). erewrite bind_ok by (apply free_range_ok; lia).
  unfold mret, M_ret. do 2 f_equal. rewrite <-omap_app, drop_0.
  rewrite <-(take_rot q xs (Z.to_nat (Capacity q - Front q) + Z.to_nat (Rear q + 1)) H) at 1 by lia.
  f_equal. unfold rot. rewrite !take_ge by (rewrite length_drop; lia).
  rewrite take_app_ge by (rewrite length_drop; lia). f_equal.
  rewrite take_take. f_equal. rewrite length_drop. lia.
Qed.
(** *** The front insertion and the unused [TerminateQueue] *)

Lemma EnqueueFront_at_zero q xs x :
  qrep q xs → Front q = 0 → Size q < Capacity q → EnqueueFront x q = Segv.
Proof.
  intros [] Hf Hs. unfold EnqueueFront. erewrite bind_ok by done. unfold IsFull.
  rewrite (proj2 (Z.eqb_neq (Size q) (Capacity q))) by lia.
  erewrite bind_ok by done. erewrite bind_ok by done.
  unfold Prev. rewrite Hf. change (0 - 1) with (- (1)).
  rewrite Z.rem_opp_l, Z.rem_small by lia. done.
Qed.

Lemma EnqueueFront_ok q xs a :
  qinv q xs → 0 < Front q → Size q < Capacity q →
  ∃ q', EnqueueFront (Some a) q = Ok (1, q') ∧ qinv q' (a :: xs).
Proof.
  intros [R Hcl] Hf Hs. pose proof R as [C Ar Fr Sz Ft Re El].
  set (q' := MkQueue (Capacity q) (Front q - 1) (Rear q) (Size q + 1)
               (<[Z.to_nat (Front q - 1) := Some a]> (Array q))).
  assert (Hp : Prev (Front q) q = Front q - 1) by (unfold Prev; rewrite Z.rem_small; lia).
  assert (Hsl : ∀ j, slot q' (j + 1) = slot q j).
  { intros j. unfold slot, q'. simpl. do 2 f_equal. lia. }
  assert (H0 : slot q' 0 = Z.to_nat (Front q - 1)).
  { unfold slot, q'. simpl. rewrite Z.add_0_r, Z.mod_small by lia. done. }
  assert (Hl : slot q (Capacity q - 1) = Z.to_nat (Front q - 1)).
  { unfold slot. rewrite <-(Z.mod_unique_pos _ _ 1 (Front q - 1)); lia. }
  exists q'. split.
  - unfold EnqueueFront. erewrite bind_ok by done. unfold IsFull.
    rewrite (proj2 (Z.eqb_neq (Size q) (Capacity q))) by lia.
    erewrite bind_ok by done. erewrite bind_ok by done. rewrite Hp.
    erewrite bind_ok; [done|]. unfold array_set, set_front, set_size. simpl.
    rewrite (proj2 (andb_true_iff _ _)); [done|]. rewrite Z.leb_le, Z.ltb_lt. lia.
  - split.
    + split; simpl; rewrite ?length_insert; try lia.
      * rewrite Re. f_equal. lia.
      * intros [|i] Hi; simpl.
        -- change (Z.of_nat 0) with 0. rewrite H0. apply list_lookup_insert_eq. lia.
        -- replace (Z.of_nat (S i)) with (Z.of_nat i + 1) by lia.
           rewrite Hsl, list_lookup_insert_ne, El by
             (lia || (rewrite <-Hl; intros Hc; apply (slot_inj q xs) in Hc; [lia|done|lia|lia])). done.
    + intros j Hj. simpl in Hj. replace j with (j - 1 + 1) by lia. rewrite Hsl. simpl.
      rewrite list_lookup_insert_ne; [apply Hcl; lia|].
      rewrite <-Hl. intros Hc. apply (slot_inj q xs) in Hc; [lia|done|lia|lia].
Qed.

(** The state after any reads and writes of a queue that has not wrapped:
    [TerminateQueue] starts at slot 0 although the queue starts at [Front]. *)
Lemma TerminateQueue_misses_last q xs x :
  qinv q (xs ++ [x]) → Front q = 1 → Size q < Capacity q →
  TerminateQueue q = Ok ((1, xs), set_size 0 q).
Proof.
  intros H Hf Hs. pose proof (rot_contents q _ H) as Hrot. destruct H as [[C Ar Fr Sz Ft Re El] Hcl].
  unfold TerminateQueue. erewrite bind_ok by done.
  rewrite length_app in Sz. simpl in Sz.
  erewrite bind_ok by (apply free_range_ok; lia). erewrite bind_ok by done.
  unfold mret, M_ret. do 3 f_equal. rewrite drop_0.
  unfold rot in Hrot. rewrite Hf in Hrot. change (Z.to_nat 1) with 1%nat in Hrot.
  destruct (Array q) as [|y ys] eqn:Ea; [simpl in Ar; lia|]. simpl in Hrot. rewrite drop_0 in Hrot.
  replace (Z.to_nat (Size q)) with (S (length xs)) by lia. simpl.
  assert (Hk : Z.to_nat (Capacity q - Size q) = S (Z.to_nat (Capacity q - Size q - 1))) by lia.
  rewrite Hk, replicate_S_end, app_assoc in Hrot. apply app_inj_tail in Hrot as [-> ->]. simpl.
  rewrite fmap_app, <-app_assoc, take_app_le by (rewrite length_fmap; lia).
  rewrite take_ge by (rewrite length_fmap; lia). rewrite <-(app_nil_r (Some <$> xs)).
  exact (omap_id_somes xs 0).
Qed.
End Queue.

Arguments QueueRecord : clear implicits.

(** ** The interface the modules rely on

    A bounded first-in first-out queue of frames. *)
Class BoundedFifo (Q A : Type) := {
  bf_write : A → M Q Z;
  bf_read : M Q (option A);
  bf_empty : Q → bool;
  bf_cap : Q → Z;
  bf_rep : Q → list A → Prop;
  bf_empty_ok : ∀ q xs, bf_rep q xs → bf_empty q = true ↔ xs = [];
  bf_write_ok : ∀ q xs a, bf_rep q xs → Z.of_nat (length xs) < bf_cap q →
    ∃ q', bf_write a q = Ok (1, q') ∧ bf_rep q' (xs ++ [a]) ∧ bf_cap q' = bf_cap q;
  bf_write_full : ∀ q xs a, bf_rep q xs → Z.of_nat (length xs) = bf_cap q →
    bf_write a q = Ok (0, q);
  bf_read_empty : ∀ q, bf_rep q [] → bf_read q = Ok (None, q);
  bf_read_ok : ∀ q a xs, bf_rep q (a :: xs) →
    ∃ q', bf_read q = Ok (Some a, q') ∧ bf_rep q' xs ∧ bf_cap q' = bf_cap q
}.

Lemma IsEmpty_ok {A} (q : QueueRecord A) xs : qinv q xs → IsEmpty q = true ↔ xs = [].
Proof. intros [R _]. by apply qrep_empty. Qed.

(** The circular queue of the framework implements it. *)
#[export] Instance queue_fifo (A : Type) : BoundedFifo (QueueRecord A) A := {
  bf_write := write_queue;
  bf_read := read_queue;
  bf_empty := IsEmpty;
  bf_cap := Capacity;
  bf_rep := qinv;
  bf_empty_ok := IsEmpty_ok;
  bf_write_ok := write_queue_ok;
  bf_write_full := write_queue_full;
  bf_read_empty := read_queue_empty;
  bf_read_ok := read_queue_ok
}.

(** ** Properties *)

Inductive queue_op (A : Type) := QWrite (a : A) | QRead.
Arguments QWrite {A} a.
Arguments QRead {A}.

Inductive queue_obs (A : Type) := ORet (r : Z) | OFrame (f : option A).
Arguments ORet {A} r.
Arguments OFrame {A} f.

Fixpoint run_queue {A} (ops : list (queue_op A)) : M (QueueRecord A) (list (queue_obs A)) :=
  match ops with
  | [] => mret []
  | QWrite a :: ops => r ← write_queue a; rs ← run_queue ops; mret (ORet r :: rs)
  | QRead :: ops => f ← read_queue; rs ← run_queue ops; mret (OFrame f :: rs)
  end.

(** The same operations on a bounded mathematical queue. *)
Fixpoint abs_queue {A} (cap : Z) (xs : list A) (ops : list (queue_op A))
    : list (queue_obs A) * list A :=
  match ops with
  | [] => ([], xs)
  | QWrite a :: ops =>
      if Z.of_nat (length xs) <? cap
      then let r := abs_queue cap (xs ++ [a]) ops in (ORet 1 :: r.1, r.2)
      else let r := abs_queue cap xs ops in (ORet 0 :: r.1, r.2)
  | QRead :: ops =>
      let r := abs_queue cap (tail xs) ops in (OFrame (head xs) :: r.1, r.2)
  end.

Lemma run_queue_inv {A} (ops : list (queue_op A)) q xs :
  qinv q xs →
  ∃ q', run_queue ops q = Ok ((abs_queue (Capacity q) xs ops).1, q') ∧
        qinv q' (abs_queue (Capacity q) xs ops).2 ∧ Capacity q' = Capacity q.
Proof.
  revert q xs. induction ops as [|[a|] ops IH]; intros q xs H; simpl.
  - eauto.
  - destruct (Z.ltb_spec (Z.of_nat (length xs)) (Capacity q)) as [Hlt|Hge].
    + destruct (write_queue_ok q xs a H Hlt) as (q1 & E1 & H1 & C1). mstep E1.
      destruct (IH q1 _ H1) as (q2 & E2 & H2 & C2). mstep E2. rewrite C1 in *. eauto.
    + assert (Hf : Z.of_nat (length xs) = Capacity q) by (destruct H as [[] _]; lia).
      pose proof (write_queue_full q xs a H Hf) as E1. mstep E1.
      destruct (IH q _ H) as (q2 & E2 & H2 & C2). mstep E2. eauto.
  - destruct xs as [|x xs]; simpl.
    + pose proof (read_queue_empty q H) as E1. mstep E1.
      destruct (IH q [] H) as (q2 & E2 & H2 & C2). mstep E2. eauto.
    + destruct (read_queue_ok q x xs H) as (q1 & E1 & H1 & C1). mstep E1.
      destruct (IH q1 _ H1) as (q2 & E2 & H2 & C2). mstep E2. rewrite C1 in *. eauto.
Qed.

(** C23: a queue of capacity at least 2 behaves, over any sequence of writes
    and reads, as a bounded first-in first-out queue: a write answers 1 and
    appends, or answers 0 and drops the frame exactly when the queue is full;
    a read returns the oldest frame, or NULL exactly when it is empty. *)
Theorem queue_refines {A} (n : Z) (ops : list (queue_op A)) :
  2 ≤ n →
  ∃ q', run_queue ops (init_queue n) = Ok ((abs_queue n [] ops).1, q') ∧
        qinv q' (abs_queue n [] ops).2.
Proof.
  intros Hn. destruct (run_queue_inv ops (init_queue n) [] (create_qrep n Hn)) as (q' & E & H & _).
  eauto.
Qed.

(** Witness of C23: the third write into a queue of two is refused. *)
Lemma queue_refines_witness :
  ∃ q', run_queue [QWrite 1; QWrite 2; QWrite 3; QRead; QWrite 4; QRead; QRead; QRead] (init_queue 2)
    = Ok ([ORet 1; ORet 1; ORet 0; OFrame (Some 1); ORet 1; OFrame (Some 2); OFrame (Some 4);
           OFrame None], q') ∧ qinv q' [].
Proof. apply (queue_refines 2 [QWrite 1; QWrite 2; QWrite 3; QRead; QWrite 4; QRead; QRead; QRead]). lia. Defined.

(** terminating a queue after any sequence of writes and reads frees
    exactly the frames that are still queued, each once and in order, and
    disposes of the array. *)
Theorem term_queue_frees_all {A} (n : Z) (ops : list (queue_op A)) q' obs :
  2 ≤ n → run_queue ops (init_queue n) = Ok (obs, q') →
  ∃ q'', term_queue q' = Ok ((1, (abs_queue n [] ops).2, true), q'').
Proof.
  intros Hn Hr. destruct (run_queue_inv ops (init_queue n) [] (create_qrep n Hn)) as (q2 & E & H & _).
  rewrite E in Hr. injection Hr as _ ->.
  unfold term_queue. erewrite bind_ok by (by apply TerminateFinsQueue_ok). eexists. done.
Qed.

(** An instance: a queue that has wrapped around. *)
Lemma term_queue_frees_all_witness :
  ∃ q'', term_queue (MkQueue 3 2 1 3 [Some 6; Some 7; Some 5]) = Ok ((1, [5; 6; 7], true), q'').
Proof.
  apply (term_queue_frees_all 3 [QWrite 4; QWrite 5; QRead; QWrite 6; QWrite 7] _
    [ORet 1; ORet 1; OFrame (Some 4); ORet 1; ORet 1]); [lia|reflexivity].
Defined.

(** inserting at the front of a queue that is not full works only while
    [Front] is positive; at [Front] = 0 the predecessor is computed as -1 and
    the write leaves the array. *)
Theorem EnqueueFront_cases {A} (q : QueueRecord A) xs a :
  qinv q xs → Size q < Capacity q →
  if Front q =? 0 then EnqueueFront (Some a) q = Segv
  else ∃ q', EnqueueFront (Some a) q = Ok (1, q') ∧ qinv q' (a :: xs).
Proof.
  intros H Hs. destruct (Z.eqb_spec (Front q) 0) as [Hf|Hf].
  - destruct H. by eapply EnqueueFront_at_zero.
  - apply EnqueueFront_ok; auto. destruct H as [[] _]. lia.
Qed.

(** An instance: two front insertions into an empty queue; the second fails. *)
Lemma EnqueueFront_cases_witness :
  (∃ q', EnqueueFront (Some 9) (init_queue 5) = Ok (1, q') ∧ qinv q' [9]) ∧
  EnqueueFront (Some 8) (MkQueue 5 0 0 1 [Some 9; None; None; None; None]) = Segv.
Proof.
  assert (H5 : qinv (init_queue (A := Z) 5) []) by (apply create_qrep; lia).
  assert (H0 : qinv (MkQueue 5 0 0 1 [Some 9; None; None; None; None]) [9]).
  { destruct (EnqueueFront_ok (init_queue 5) [] 9 H5) as (q' & E & H); [simpl; lia..|].
    vm_compute in E. by injection E as <-. }
  split.
  - exact (EnqueueFront_cases (init_queue 5) [] 9 H5 eq_refl).
  - exact (EnqueueFront_cases _ [9] 8 H0 eq_refl).
Defined.
