(* ===== verification/Metadata.v ===== *)
(** * Frame metadata: [libs/common/metadata.c] over [libs/config/lib/libconfig.c]

    A metadata object is a libconfig configuration whose root group holds
    named, typed settings in insertion order.  The first half translates the
    libconfig calls [metadata.c] makes (search by name, add, set, get), the
    second half [metadata.c] itself and the [secure_] wrappers of
    [finstypes.c]; then come the laws the protocol modules use. *)

From stdpp Require Import base list strings.
From Stdlib Require Import ZArith Lia Ascii.
From S2P Require Import Prelude.
Open Scope Z_scope.

(** ** libconfig settings *)

(** A setting with its type; a string setting just added holds NULL.  The
    members of nested groups, arrays and lists are not used by frame metadata
    and left out. *)
Inductive setting :=
| SNone
| SGroup
| SInt (v : Z)
| SInt64 (v : Z)
| SFloat (v : Z)
| SString (v : option string)
| SBool (v : Z)
| SArray
| SList.

#[export] Instance setting_eq_dec : EqDecision setting.
Proof. solve_decision. Defined.

Definition CONFIG_TYPE_NONE := 0.
Definition CONFIG_TYPE_INT := 2.
Definition CONFIG_TYPE_INT64 := 3.
Definition CONFIG_TYPE_FLOAT := 4.
Definition CONFIG_TYPE_STRING := 5.
Definition CONFIG_TYPE_LIST := 8.

Definition metadata := list (string * setting).

(** The zeroed setting [config_setting_create] allocates for a type. *)
Definition zero_setting (type : Z) : setting :=
  match type with
  | 1 => SGroup | 2 => SInt 0 | 3 => SInt64 0 | 4 => SFloat 0 | 5 => SString None
  | 6 => SBool 0 | 7 => SArray | 8 => SList | _ => SNone
  end.

(** [PATH_TOKENS] is ":./"; names are compared up to the first of them. *)
Definition path_token (c : ascii) : bool :=
  Ascii.eqb c ":" || Ascii.eqb c "." || Ascii.eqb c "/".

Fixpoint config_name_compare (a b : string) : bool :=
  match a, b with
  | String x a', String y b' =>
      if path_token x && path_token y then true
      else if path_token x || path_token y then false
      else Ascii.eqb x y && config_name_compare a' b'
  | EmptyString, EmptyString => true
  | EmptyString, String y _ => path_token y
  | String x _, EmptyString => path_token x
  end.

Definition isalpha (c : ascii) : bool :=
  let n := Z.of_nat (nat_of_ascii c) in
  ((65 <=? n) && (n <=? 90)) || ((97 <=? n) && (n <=? 122)).
Definition isdigit (c : ascii) : bool :=
  let n := Z.of_nat (nat_of_ascii c) in (48 <=? n) && (n <=? 57).

Fixpoint name_tail_ok (s : string) : bool :=
  match s with
  | EmptyString => true
  | String c s' =>
      (isalpha c || isdigit c || Ascii.eqb c "*" || Ascii.eqb c "_" || Ascii.eqb c "-")
      && name_tail_ok s'
  end.

Definition config_validate_name (s : string) : bool :=
  match s with
  | EmptyString => false
  | String c s' => (isalpha c || Ascii.eqb c "*") && name_tail_ok s'
  end.

Fixpoint config_setting_get_member (m : metadata) (name : string) : option setting :=
  match m with
  | [] => None
  | (k, v) :: m' =>
      if config_name_compare name k then Some v else config_setting_get_member m' name
  end.

(** Assignment through the pointer [config_setting_get_member] returned. *)
Fixpoint set_member (m : metadata) (name : string) (v : setting) : metadata :=
  match m with
  | [] => []
  | (k, w) :: m' =>
      if config_name_compare name k then (k, v) :: m' else (k, w) :: set_member m' name v
  end.

(** [NULL] (here [None]) on a type out of range, an invalid name or a name
    that exists; otherwise the new setting is appended. *)
Definition config_setting_add (m : metadata) (name : string) (type : Z) : option metadata :=
  if (type <? CONFIG_TYPE_NONE) || (CONFIG_TYPE_LIST <? type) then None
  else if negb (config_validate_name name) then None
  else match config_setting_get_member m name with
       | Some _ => None
       | None => Some (m ++ [(name, zero_setting type)])
       end.

Definition INT32_MAX := 2147483647.
Definition INT32_MIN := -2147483648.

(** The setters return the new contents, [None] for [CONFIG_FALSE]; frame
    metadata never sets the auto-convert option. *)
Definition config_setting_set_int (s : setting) (value : Z) : option setting :=
  match s with SNone | SInt _ => Some (SInt value) | _ => None end.

Definition config_setting_set_int64 (s : setting) (value : Z) : option setting :=
  match s with
  | SNone | SInt64 _ => Some (SInt64 value)
  | SInt _ => Some (SInt (if (INT32_MAX <? value) || (value <? INT32_MIN) then 0 else value))
  | _ => None
  end.

Definition config_setting_set_float (s : setting) (value : Z) : option setting :=
  match s with SNone | SFloat _ => Some (SFloat value) | _ => None end.

Definition config_setting_set_string (s : setting) (value : option string) : option setting :=
  match s with SNone | SString _ => Some (SString value) | _ => None end.

(** ** metadata.c *)

(** The typed values [metadata_readFromElement] stores through its pointer,
    and those passed to [metadata_writeToElement] together with a type. *)
Inductive mvalue :=
| VInt32 (v : Z)
| VInt64 (v : Z)
| VFloat (v : Z)
| VString (v : option string)
| VOther.

Definition metadata_create : metadata := [].

Definition metadata_readFromElement (m : metadata) (target : string) : option mvalue :=
  match config_setting_get_member m target with
  | None => None
  | Some (SInt v) => Some (VInt32 v)
  | Some (SInt64 v) => Some (VInt64 v)
  | Some (SString v) => Some (VString v)
  | Some _ => None
  end.

(** Get or add the member, then set it; a failed [config_setting_add] hands
    NULL to the setter. *)
Definition write_member (target : string) (type : Z) (set : setting → option setting)
    : M metadata bool := λ m,
  let add := match config_setting_get_member m target with
             | Some s => Some (m, s)
             | None =>
                 match config_setting_add m target type with
                 | Some m' => Some (m', zero_setting type)
                 | None => None
                 end
             end in
  match add with
  | None => Segv
  | Some (m', s) =>
      match set s with
      | Some s' => Ok (true, set_member m' target s')
      | None => Ok (false, m')
      end
  end.

Definition metadata_writeToElement (target : string) (v : mvalue) : M metadata bool :=
  match v with
  | VInt32 x => write_member target CONFIG_TYPE_INT (λ s, config_setting_set_int s (s32 x))
  | VInt64 x => write_member target CONFIG_TYPE_INT64 (λ s, config_setting_set_int64 s x)
  | VFloat x => write_member target CONFIG_TYPE_FLOAT (λ s, config_setting_set_float s x)
  | VString x => write_member target CONFIG_TYPE_STRING (λ s, config_setting_set_string s x)
  | VOther => mret false
  end.

(** [v32], [v64] and [vs] are what the untyped pointer denotes when read as an
    [int], an [int64_t] and a string; the element's type selects one. *)
Definition metadata_setElement (s : setting) (v32 v64 : Z) (vs : option string) : option setting :=
  match s with
  | SInt _ => config_setting_set_int s v32
  | SInt64 _ => config_setting_set_int64 s v64
  | SString _ => config_setting_set_string s vs
  | _ => None
  end.

Definition metadata_addElement (m : metadata) (name : string) (type : Z) : option metadata :=
  config_setting_add m name type.

(** One iteration of [metadata_copy] (the copied values are in range, so the
    stored integer is passed on as it is). *)
Definition copy_setting (name : string) (s : setting) : M metadata bool :=
  match s with
  | SInt v => write_member name CONFIG_TYPE_INT (λ t, config_setting_set_int t v)
  | SInt64 v => write_member name CONFIG_TYPE_INT64 (λ t, config_setting_set_int64 t v)
  | SString v => write_member name CONFIG_TYPE_STRING (λ t, config_setting_set_string t v)
  | _ => mret false
  end.

Fixpoint copy_settings (src : metadata) (total : Z) : M metadata Z :=
  match src with
  | [] => mret total
  | (name, s) :: src' =>
      status ← copy_setting name s;
      copy_settings src' (if (status : bool) then total + 1 else total)
  end.

Definition metadata_copy (src : metadata) : M metadata bool :=
  total ← copy_settings src 0;
  mret (total =? Z.of_nat (length src)).

Definition metadata_clone (m : metadata) : res metadata :=
  match metadata_copy m metadata_create with
  | Ok (_, m') => Ok m'
  | Segv => Segv
  | Exit => Exit
  | NoFuel => NoFuel
  end.

(** ** The wrappers of finstypes.c: a failure ends the process *)

(** Reads into a [uint32_t] variable; a setting of another type would be
    stored through a pointer of the wrong type. *)
Definition secure_metadata_readFromElement (m : metadata) (target : string) : res Z :=
  match metadata_readFromElement m target with
  | None => Exit
  | Some (VInt32 v) => Ok (u32 v)
  | Some _ => Segv
  end.

Definition secure_metadata_writeToElement (target : string) (v : mvalue) : M metadata unit :=
  status ← metadata_writeToElement target v;
  if (status : bool) then mret tt else exit_.

(** ** Laws *)

(** [target] as a metadata update that succeeds: the member holds [v]
    afterwards, at its old place or at the end. *)
Definition put_member (m : metadata) (target : string) (v : setting) : metadata :=
  match config_setting_get_member m target with
  | Some _ => set_member m target v
  | None => m ++ [(target, v)]
  end.

(** The member can be written as an [INT32] without failing. *)
Definition int_key (m : metadata) (k : string) : bool :=
  config_validate_name k &&
  match config_setting_get_member m k with
  | None => true
  | Some (SInt _) => true
  | _ => false
  end.

Lemma ncompare_sym a b : config_name_compare a b = config_name_compare b a.
Proof.
  revert b. induction a as [|x a IH]; intros [|y b]; simpl; try done.
  rewrite (andb_comm (path_token x)), (orb_comm (path_token x)), IH, Ascii.eqb_sym. done.
Qed.

Lemma ncompare_refl a : config_name_compare a a = true.
Proof.
  induction a as [|x a IH]; simpl; [done|].
  destruct (path_token x); simpl; [done|]. by rewrite Ascii.eqb_refl.
Qed.

(** Both names agree with a third one at the same time only if they agree. *)
Lemma ncompare_trans a b c :
  config_name_compare a b = true → config_name_compare b c = true →
  config_name_compare a c = true.
Proof.
  revert b c. induction a as [|x a IH]; intros [|y b] [|z c]; simpl; try done;
    repeat match goal with |- context [path_token ?x] => destruct (path_token x) eqn:? end;
    simpl; try done; try (intros ?%andb_true_iff; naive_solver congruence).
  all: try (intros [E1%Ascii.eqb_eq ?]%andb_true_iff [E2%Ascii.eqb_eq ?]%andb_true_iff; subst;
    rewrite Ascii.eqb_refl; simpl; eauto; congruence).
  all: try (intros [E1%Ascii.eqb_eq ?]%andb_true_iff; congruence).
  all: try (intros _ [E2%Ascii.eqb_eq ?]%andb_true_iff; congruence).
Qed.

(** Names that compare equal denote the same member. *)
Lemma get_cmp m k j :
  config_name_compare k j = true →
  config_setting_get_member m k = config_setting_get_member m j.
Proof.
  intros E. induction m as [|[i u] m IH]; simpl; [done|].
  destruct (config_name_compare k i) eqn:E1, (config_name_compare j i) eqn:E2; try done.
  - rewrite ncompare_sym in E. by rewrite (ncompare_trans _ _ _ E E1) in E2.
  - by rewrite (ncompare_trans _ _ _ E E2) in E1.
Qed.

Lemma get_app m1 m2 k :
  config_setting_get_member (m1 ++ m2) k =
    match config_setting_get_member m1 k with
    | Some v => Some v | None => config_setting_get_member m2 k end.
Proof.
  induction m1 as [|[j w] m1 IH]; simpl; [done|]. by destruct (config_name_compare k j).
Qed.

Lemma get_set_same m k v w :
  config_setting_get_member m k = Some w →
  config_setting_get_member (set_member m k v) k = Some v.
Proof.
  induction m as [|[j u] m IH]; simpl; [done|].
  destruct (config_name_compare k j) eqn:E; simpl; rewrite E; auto.
Qed.

Lemma get_set_other m k k' v :
  config_name_compare k' k = false →
  config_setting_get_member (set_member m k v) k' = config_setting_get_member m k'.
Proof.
  intros Hk. induction m as [|[j u] m IH]; simpl; [done|].
  destruct (config_name_compare k j) eqn:E; simpl.
  - destruct (config_name_compare k' j) eqn:E'; [|done].
    rewrite ncompare_sym in E. by rewrite (ncompare_trans _ _ _ E' E) in Hk.
  - by rewrite IH.
Qed.

Lemma get_put_same m k v : config_setting_get_member (put_member m k v) k = Some v.
Proof.
  unfold put_member. destruct (config_setting_get_member m k) eqn:E.
  - by eapply get_set_same.
  - rewrite get_app, E. simpl. by rewrite ncompare_refl.
Qed.

Lemma get_put_other m k k' v :
  config_name_compare k' k = false →
  config_setting_get_member (put_member m k v) k' = config_setting_get_member m k'.
Proof.
  intros Hk. unfold put_member. destruct (config_setting_get_member m k) eqn:E.
  - by apply get_set_other.
  - rewrite get_app. simpl. rewrite Hk. by destruct (config_setting_get_member m k').
Qed.

(** Setting the member that has just been added at the end. *)
Lemma set_fresh m k v w :
  config_setting_get_member m k = None →
  set_member (m ++ [(k, w)]) k v = m ++ [(k, v)].
Proof.
  induction m as [|[j u] m IH]; simpl; [by rewrite ncompare_refl|].
  destruct (config_name_compare k j); [done|]. intros. by rewrite IH.
Qed.

(** A write whose setter accepts the present setting, or the fresh one. *)
Lemma write_member_ok m k type set v :
  0 ≤ type ≤ 8 →
  config_validate_name k = true →
  set (default (zero_setting type) (config_setting_get_member m k)) = Some v →
  write_member k type set m = Ok (true, put_member m k v).
Proof.
  intros Ht Hk Hs. unfold write_member, put_member, config_setting_add.
  destruct (config_setting_get_member m k) eqn:E; simpl in Hs.
  - by rewrite Hs.
  - rewrite Hk. unfold CONFIG_TYPE_NONE, CONFIG_TYPE_LIST.
    destruct (Z.ltb_spec type 0); [lia|]. destruct (Z.ltb_spec 8 type); [lia|]. simpl.
    rewrite Hs, set_fresh; done.
Qed.

Lemma write_int_ok m k x :
  int_key m k = true →
  secure_metadata_writeToElement k (VInt32 x) m = Ok (tt, put_member m k (SInt (s32 x))).
Proof.
  intros [Hk Hm]%andb_true_iff. unfold secure_metadata_writeToElement. simpl.
  erewrite bind_ok; [|eapply write_member_ok; [unfold CONFIG_TYPE_INT; lia|done|]]; [done|].
  by destruct (config_setting_get_member m k) as [[]|].
Qed.

Lemma int_key_put m k k' v :
  int_key m k = true → int_key (put_member m k' (SInt v)) k = true.
Proof.
  unfold int_key. intros [-> Hm]%andb_true_iff. simpl.
  destruct (config_name_compare k k') eqn:E; [|by rewrite get_put_other].
  by rewrite (get_cmp _ _ _ E), get_put_same.
Qed.

(** 64-bit members. *)

Definition long_key (m : metadata) (k : string) : bool :=
  config_validate_name k &&
  match config_setting_get_member m k with None | Some (SInt64 _) => true | _ => false end.

Lemma write_long_ok m k x :
  long_key m k = true →
  secure_metadata_writeToElement k (VInt64 x) m = Ok (tt, put_member m k (SInt64 x)).
Proof.
  intros [Hk Hm]%andb_true_iff. unfold secure_metadata_writeToElement. simpl.
  erewrite bind_ok; [|eapply write_member_ok; [unfold CONFIG_TYPE_INT64; lia|done|]]; [done|].
  by destruct (config_setting_get_member m k) as [[]|].
Qed.

Lemma long_key_put m k k' v : long_key m k = true → long_key (put_member m k' (SInt64 v)) k = true.
Proof.
  unfold long_key. intros [-> Hm]%andb_true_iff. simpl.
  destruct (config_name_compare k k') eqn:E; [|by rewrite get_put_other].
  by rewrite (get_cmp _ _ _ E), get_put_same.
Qed.

Lemma read_put_same m k v :
  secure_metadata_readFromElement (put_member m k (SInt v)) k = Ok (u32 v).
Proof.
  unfold secure_metadata_readFromElement, metadata_readFromElement.
  by rewrite get_put_same.
Qed.

Lemma read_put_other m k k' v :
  config_name_compare k' k = false →
  metadata_readFromElement (put_member m k v) k' = metadata_readFromElement m k'.
Proof. intros. unfold metadata_readFromElement. by rewrite get_put_other. Qed.

Lemma sread_put_other m k k' v :
  config_name_compare k' k = false →
  secure_metadata_readFromElement (put_member m k v) k' = secure_metadata_readFromElement m k'.
Proof. intros. unfold secure_metadata_readFromElement. by rewrite read_put_other. Qed.

(** ** Copies *)

Definition copyable (s : setting) : bool :=
  match s with SInt _ | SInt64 _ | SString _ => true | _ => false end.

(** A metadata object as the modules build it: valid, distinct names. *)
Fixpoint names_ok (m : metadata) : bool :=
  match m with
  | [] => true
  | (k, _) :: m' =>
      config_validate_name k && negb (existsb (λ e, config_name_compare k e.1) m')
      && names_ok m'
  end.

(** The types of [m] and of a write of [s] under [k] agree. *)
Definition same_type (s t : setting) : bool :=
  match s, t with
  | SInt _, SInt _ | SInt64 _, SInt64 _ | SString _, SString _ => true
  | _, _ => false
  end.

Lemma copy_setting_ok m k s :
  copyable s = true → config_validate_name k = true →
  match config_setting_get_member m k with Some t => same_type s t = true | None => True end →
  copy_setting k s m = Ok (true, put_member m k s).
Proof.
  intros Hc Hk Hm. destruct s; try done; simpl;
    (eapply write_member_ok; [unfold CONFIG_TYPE_INT, CONFIG_TYPE_INT64, CONFIG_TYPE_STRING; lia|done|]);
    destruct (config_setting_get_member m k) as [[]|]; done.
Qed.

(** What a copy onto [m] gives: the settings of [src] in turn. *)
Definition put_all (src m : metadata) : metadata :=
  foldl (λ m e, put_member m e.1 e.2) m src.

Lemma copy_settings_ok src m t :
  Forall (λ e, copyable e.2 = true ∧
    match config_setting_get_member m e.1 with Some u => same_type e.2 u = true | None => True end) src →
  names_ok src = true →
  copy_settings src t m = Ok (t + Z.of_nat (length src), put_all src m).
Proof.
  revert m t. induction src as [|[k s] src IH]; intros m t Hall Hn.
  { simpl. by rewrite Z.add_0_r. }
  apply Forall_cons in Hall as [[Hc Hm] Hall]. simpl in Hn, Hm.
  apply andb_true_iff in Hn as [[Hk Hfresh]%andb_true_iff Hn].
  simpl copy_settings. erewrite bind_ok; [|by apply copy_setting_ok].
  rewrite IH; [|..|done].
  { cbn [length]. f_equal. f_equal. lia. }
  eapply Forall_impl; [apply Forall_and; split; [exact Hall|]|].
  { apply Forall_forall. intros e He. apply negb_true_iff, not_true_iff_false in Hfresh.
    instantiate (1 := λ e, config_name_compare e.1 k = false). simpl.
    apply not_true_iff_false. intros Hcmp. apply Hfresh, existsb_exists.
    exists e. rewrite ncompare_sym. split; [by apply list_elem_of_In|done]. }
  intros e [[Hc' He] Hcmp]. split; [done|]. by rewrite get_put_other.
Qed.

Lemma get_put_all_notin src m k :
  config_setting_get_member src k = None →
  config_setting_get_member (put_all src m) k = config_setting_get_member m k.
Proof.
  revert m. induction src as [|[j s] src IH]; intros m; simpl; [done|].
  destruct (config_name_compare k j) eqn:E; [done|]. intros H.
  unfold put_all in *. simpl. rewrite IH by done. by apply get_put_other.
Qed.

Lemma get_None_fresh m k :
  existsb (λ e, config_name_compare k e.1) m = false ↔ config_setting_get_member m k = None.
Proof.
  induction m as [|[j s] m IH]; simpl; [done|]. by destruct (config_name_compare k j); simpl.
Qed.

Lemma put_all_fresh src m :
  names_ok (m ++ src) = true → put_all src m = m ++ src.
Proof.
  revert m. induction src as [|[k s] src IH]; intros m Hn; [by rewrite app_nil_r|].
  unfold put_all. simpl. unfold put_member at 2.
  assert (config_setting_get_member m k = None) as ->.
  { clear IH. induction m as [|[j u] m IHm]; [done|]. simpl in *.
    apply andb_true_iff in Hn as [[? Hf%negb_true_iff]%andb_true_iff Hn].
    rewrite existsb_app in Hf. apply orb_false_iff in Hf as [_ Hf]. simpl in Hf.
    apply orb_false_iff in Hf as [Hf _]. rewrite ncompare_sym, Hf. auto. }
  fold (put_all src (m ++ [(k, s)])). rewrite IH; rewrite <-(assoc_L app); done.
Qed.

Lemma get_put_all_in src m k s :
  names_ok src = true → config_setting_get_member src k = Some s →
  config_setting_get_member (put_all src m) k = Some s.
Proof.
  revert m. induction src as [|[j u] src IH]; intros m; simpl; [done|].
  intros [[_ Hf%negb_true_iff%get_None_fresh]%andb_true_iff Hn]%andb_true_iff.
  unfold put_all in *. simpl. destruct (config_name_compare k j) eqn:E; [|by apply IH].
  intros [= ->]. rewrite (get_cmp _ _ _ E).
  pose proof (get_put_all_notin src (put_member m j s) j Hf) as H. unfold put_all in H.
  by rewrite H, get_put_same.
Qed.

(** ** Properties *)

(** a 32-bit value written to a metadata element is the value the next
    read of that element returns, and every other element reads as before;
    this holds whenever the element is absent (and its name valid) or already
    an integer. *)
Theorem metadata_write_read m k x :
  int_key m k = true → is_u32 x →
  ∃ m', secure_metadata_writeToElement k (VInt32 x) m = Ok (tt, m') ∧
    secure_metadata_readFromElement m' k = Ok x ∧
    ∀ k', config_name_compare k' k = false →
      metadata_readFromElement m' k' = metadata_readFromElement m k'.
Proof.
  intros Hk Hx. eexists. split; [by apply write_int_ok|]. split.
  - by rewrite read_put_same, s32_u32_small.
  - intros. by apply read_put_other.
Qed.

(** An instance: an address with the sign bit set survives. *)
Lemma metadata_write_read_witness :
  ∃ m', secure_metadata_writeToElement "send_src_ipv4" (VInt32 3232235777)
      [("send_ttl", SInt 64)] = Ok (tt, m') ∧
    secure_metadata_readFromElement m' "send_src_ipv4" = Ok 3232235777 ∧
    ∀ k', config_name_compare k' "send_src_ipv4" = false →
      metadata_readFromElement m' k' = metadata_readFromElement [("send_ttl", SInt 64)] k'.
Proof. apply (metadata_write_read _ _ _); [reflexivity|]. unfold is_u32. lia. Defined.

(** what the checked 32-bit write does in every case: it stores the value
    when the element is absent or an integer (or untyped), ends the process
    when the element has another type, and dereferences NULL when the element
    is absent and its name is not a valid libconfig name. *)
Theorem metadata_write_outcomes m k x :
  secure_metadata_writeToElement k (VInt32 x) m =
    match config_setting_get_member m k with
    | None => if config_validate_name k then Ok (tt, put_member m k (SInt (s32 x))) else Segv
    | Some (SInt _) | Some SNone => Ok (tt, put_member m k (SInt (s32 x)))
    | Some _ => Exit
    end.
Proof.
  unfold secure_metadata_writeToElement, mbind, M_bind, put_member. simpl.
  unfold write_member, config_setting_add.
  destruct (config_setting_get_member m k) as [[]|] eqn:E; simpl; try done.
  destruct (config_validate_name k); simpl; [|done]. by rewrite set_fresh.
Qed.

(** copying metadata onto other metadata succeeds when the types of
    shared elements agree, overrides the shared elements, adds the missing
    ones and keeps the rest; a clone is equal to its original. *)
Theorem metadata_copy_merges src m :
  names_ok src = true →
  Forall (λ e, copyable e.2 = true ∧
    match config_setting_get_member m e.1 with
    | Some u => same_type e.2 u = true | None => True end) src →
  metadata_clone src = Ok src ∧
  ∃ m', metadata_copy src m = Ok (true, m') ∧
    ∀ k, config_setting_get_member m' k =
      match config_setting_get_member src k with
      | Some s => Some s | None => config_setting_get_member m k end.
Proof.
  intros Hn Hall. split.
  - unfold metadata_clone, metadata_copy. erewrite bind_ok.
    2: { apply copy_settings_ok; [|done]. eapply Forall_impl; [exact Hall|]. naive_solver. }
    simpl. by rewrite put_all_fresh.
  - unfold metadata_copy. erewrite bind_ok; [|by apply copy_settings_ok].
    eexists. split; [by rewrite Z.add_0_l, Z.eqb_refl|].
    intros k. destruct (config_setting_get_member src k) eqn:E.
    + by apply get_put_all_in.
    + by apply get_put_all_notin.
Qed.

(** An instance. *)
Lemma metadata_copy_merges_witness :
  metadata_clone [("send_ttl", SInt 64)] = Ok [("send_ttl", SInt 64)] ∧
  ∃ m', metadata_copy [("send_ttl", SInt 64)] [("recv_stamp", SInt64 5); ("send_ttl", SInt 1)]
      = Ok (true, m') ∧
    ∀ k, config_setting_get_member m' k =
      match config_setting_get_member [("send_ttl", SInt 64)] k with
      | Some s => Some s
      | None => config_setting_get_member [("recv_stamp", SInt64 5); ("send_ttl", SInt 1)] k end.
Proof.
  apply metadata_copy_merges; [reflexivity|].
  constructor; [split; reflexivity|constructor].
Defined.
