(* ===== verification/Frame.v ===== *)
(** * Frames and address records: [libs/common/finstypes.c/.h]

    [struct finsFrame] with its union as a sum, the operations on whole
    frames (clone, free, copy, serialization of control frames), the bounded
    counters, and the address, interface and route records with their tests.
    Multi-byte fields are stored little-endian and pointers have 8 bytes. *)

From stdpp Require Import base list strings.
From Stdlib Require Import ZArith Lia.
From S2P Require Import Prelude Metadata.
Open Scope Z_scope.

(** ** Link table records of [finsmodule.h] that control frames carry *)

(** An address of a [struct link_record]; 0 is NULL. *)
Abbreviation loc := Z (only parsing).

Record fins_module_flow := MkFlow { link_id : Z; link : loc }.

Record fins_module_table := MkTable {
  link_list : option (list loc);   (** NULL or the list of link records *)
  flows_num : Z;
  flows : list fins_module_flow    (** the array, of fixed length *)
}.

(** ** Frames *)

Definition FF_NONE := 0.
Definition FF_DATA := 1.
Definition FF_CONTROL := 2.
Definition DIR_NONE := 0.
Definition DIR_UP := 1.
Definition DIR_DOWN := 2.

Definition CTRL_ALERT := 0.
Definition CTRL_ALERT_REPLY := 1.
Definition CTRL_READ_PARAM := 2.
Definition CTRL_READ_PARAM_REPLY := 3.
Definition CTRL_SET_PARAM := 4.
Definition CTRL_SET_PARAM_REPLY := 5.
Definition CTRL_EXEC := 6.
Definition CTRL_EXEC_REPLY := 7.
Definition CTRL_ERROR := 8.

Definition sizeof_linked_list := 24.
Definition sizeof_module_table := 4112.

(** What [ctrlFrame.data] points to: nothing, bytes, or one of the objects
    the link-table messages carry.  [CPartial] is an object of which only the
    first bytes were copied. *)
Inductive ctrl_data :=
| CNull
| CBytes (b : list Z)
| CFlows (fs : list fins_module_flow)
| CLinks (l : list loc)
| CTable (t : fins_module_table)
| CPartial.

Record finsDataFrame := MkData {
  directionFlag : Z; pduLength : Z; pdu : option (list Z)
}.

Record finsCtrlFrame := MkCtrl {
  sender_id : Z; serial_num : Z; opcode : Z; param_id : Z; ret_val : Z;
  data_len : Z; cdata : ctrl_data
}.

(** The union, by the value of [dataOrCtrl]. *)
Inductive frame_union :=
| Data (d : finsDataFrame)
| Ctrl (c : finsCtrlFrame)
| NoUnion (dataOrCtrl : Z).

Record finsFrame := MkFrame {
  destinationID : Z; metaData : option metadata; body : frame_union
}.

Definition dataOrCtrl (ff : finsFrame) : Z :=
  match body ff with Data _ => FF_DATA | Ctrl _ => FF_CONTROL | NoUnion n => n end.

Definition set_dest (d : Z) (ff : finsFrame) := MkFrame d (metaData ff) (body ff).
Definition set_meta (m : option metadata) (ff : finsFrame) := MkFrame (destinationID ff) m (body ff).
Definition set_body (b : frame_union) (ff : finsFrame) := MkFrame (destinationID ff) (metaData ff) b.

(** The first [n] bytes at a pointer: undefined when it is NULL or the object
    is shorter (and [n] is not 0). *)
Definition read_bytes (p : option (list Z)) (n : Z) : res (list Z) :=
  if n =? 0 then Ok []
  else match p with
       | Some b => if n <=? Z.of_nat (length b) then Ok (take (Z.to_nat n) b) else Segv
       | None => Segv
       end.

(** [memcpy] of [data_len] bytes of the control data into a fresh buffer. *)
Definition clone_data (n : Z) (d : ctrl_data) : res ctrl_data :=
  if n =? 0 then Ok CNull
  else match d with
       | CNull => Segv
       | CBytes b => match read_bytes (Some b) n with Ok b' => Ok (CBytes b') | _ => Segv end
       | CFlows _ => Ok CPartial
       | CLinks l => if n =? sizeof_linked_list then Ok (CLinks l) else Ok CPartial
       | CTable t => if n =? sizeof_module_table then Ok (CTable t) else Ok CPartial
       | CPartial => Ok CPartial
       end.

(** A failed metadata copy only warns; a NULL metadata is replaced by an
    empty one. *)
Definition cloneFinsFrame (ff : finsFrame) : res finsFrame :=
  let copied := match metaData ff with
                | Some m => metadata_copy m metadata_create
                | None => Ok (true, metadata_create)
                end in
  match copied with
  | Ok (_, m) =>
      match body ff with
      | Ctrl c =>
          match clone_data (data_len c) (cdata c) with
          | Ok d => Ok (MkFrame (destinationID ff) (Some m)
              (Ctrl (MkCtrl (sender_id c) (serial_num c) (opcode c) (param_id c) (ret_val c)
                            (data_len c) d)))
          | Segv => Segv | Exit => Exit | NoFuel => NoFuel
          end
      | Data d =>
          match read_bytes (pdu d) (pduLength d) with
          | Ok b => Ok (MkFrame (destinationID ff) (Some m)
              (Data (MkData (directionFlag d) (pduLength d)
                            (if pduLength d =? 0 then None else Some b))))
          | Segv => Segv | Exit => Exit | NoFuel => NoFuel
          end
      | NoUnion _ => Exit
      end
  | Segv => Segv | Exit => Exit | NoFuel => NoFuel
  end.

(** Releasing a frame: the metadata, the payload and the frame itself; NULL
    is accepted and an uninitialised frame ends the process.  The result is
    the return value. *)
Definition freeFinsFrame (ff : option finsFrame) : res Z :=
  match ff with
  | None => Ok 0
  | Some ff => match body ff with NoUnion _ => Exit | _ => Ok 1 end
  end.

(** [copy_fins_to_fins] copies neither [data_len] nor [ret_val] of a control
    frame; [junk] is what those fields of the destination's union hold. *)
Definition copy_fins_to_fins (dst src : finsFrame) (junk : finsCtrlFrame) : finsFrame :=
  match body src with
  | Data d => MkFrame (destinationID src) (metaData src)
      (Data (MkData (directionFlag d) (pduLength d) (pdu d)))
  | Ctrl c => MkFrame (destinationID src) (metaData dst)
      (Ctrl (MkCtrl (sender_id c) (serial_num c) (opcode c) (param_id c)
               (ret_val junk) (data_len junk) (cdata c)))
  | NoUnion _ => dst
  end.

(** ** Little-endian fields in byte buffers *)

Fixpoint le_bytes (n : nat) (x : Z) : list Z :=
  match n with
  | O => []
  | S n => x mod 256 :: le_bytes n (x / 256)
  end.

Fixpoint le_value (b : list Z) : Z :=
  match b with
  | [] => 0
  | x :: b => x + 256 * le_value b
  end.

(** [memcpy(&field, buffer + off, n)]. *)
Definition read_at (b : list Z) (off n : Z) : res Z :=
  if off <? 0 then Segv
  else match read_bytes (Some (drop (Z.to_nat off) b)) n with
       | Ok x => Ok (le_value x)
       | _ => Segv
       end.

(** [strlen]. *)
Fixpoint strlen (b : list Z) : Z :=
  match b with
  | [] => 0
  | x :: b => if x =? 0 then 0 else 1 + strlen b
  end.

(** ** Control frames as byte arrays *)

Definition known_opcode (op : Z) : bool :=
  (op =? CTRL_READ_PARAM) || (op =? CTRL_READ_PARAM_REPLY) || (op =? CTRL_ALERT)
  || (op =? CTRL_ERROR) || (op =? CTRL_SET_PARAM) || (op =? CTRL_EXEC).

(** The 17-byte buffer: type, destination, name length 0, opcode, sender and
    serial number, then 4 bytes that stay 0; for an opcode the switch does
    not know [*buffer] is left behind the written bytes and 0 returned. *)
Definition serializeCtrlFrame (ff : finsFrame) (c : finsCtrlFrame) : Z * list Z :=
  let buffer := le_bytes 1 (dataOrCtrl ff) ++ le_bytes 1 (destinationID ff) ++ le_bytes 4 0
                ++ le_bytes 2 (opcode c) ++ le_bytes 1 (sender_id c)
                ++ le_bytes 4 (serial_num c) ++ le_bytes 4 0 in
  if known_opcode (opcode c) then (strlen buffer, buffer) else (0, drop 13 buffer).

(** [None] is the NULL returned for an unknown opcode; the fields of a frame
    that is not marked as a control frame are not represented. *)
Definition unserializeCtrlFrame (buffer : list Z) : res (option finsFrame) :=
  match read_at buffer 0 1, read_at buffer 1 1, read_at buffer 2 4 with
  | Ok doc, Ok dst, Ok temp =>
      let p := 6 + s32 temp in
      match read_at buffer p 2, read_at buffer (p + 2) 1, read_at buffer (p + 3) 4 with
      | Ok op, Ok sender, Ok serial =>
          let u := if doc =? FF_CONTROL then Ctrl (MkCtrl sender serial op 0 0 0 CNull)
                   else NoUnion doc in
          if op =? CTRL_SET_PARAM then
            match read_at buffer (p + 7) 4 with
            | Ok _ => Ok (Some (MkFrame dst None u))
            | _ => Segv
            end
          else if known_opcode op then Ok (Some (MkFrame dst None u))
          else Ok None
      | _, _, _ => Segv
      end
  | _, _, _ => Segv
  end.

(** ** Bounded counters *)

Definition uint32_increase (data value max : Z) : Z :=
  if (u32 (data + value) <? data) || (max <? u32 (data + value)) then max
  else u32 (data + value).

Definition uint32_decrease (data value : Z) : Z :=
  if value <? data then u32 (data - value) else 0.

(** ** Address, interface and route records *)

Definition AF_INET := 2.
Definition AF_INET6 := 10.

(** The fields of [struct sockaddr_storage] used through [sockaddr_in]. *)
Record sockaddr := MkAddr { sin_family : Z; sin_port : Z; s_addr : Z }.

Record addr_record := MkAddrRecord {
  a_if_index : Z; a_family : Z;
  a_ip : sockaddr; a_mask : sockaddr; a_gw : sockaddr; a_bdc : sockaddr; a_dst : sockaddr
}.

Record if_record := MkIf {
  if_index : Z; if_name : string; if_mac : Z; if_mode : Z; if_mtu : Z; if_flags : Z;
  addr_list : option (list addr_record)
}.

Record route_record := MkRoute {
  r_if_index : Z; r_family : Z; r_dst : sockaddr; r_mask : sockaddr; r_gw : sockaddr;
  r_metric : Z; r_timeout : Z
}.

Definition addr_clone (a : addr_record) : addr_record := a.
Definition addr_is_v4 (a : addr_record) : bool := a_family a =? AF_INET.
Definition addr_is_v6 (a : addr_record) : bool := a_family a =? AF_INET6.
Definition addr_ipv4_test (ip : Z) (a : addr_record) : bool :=
  (sin_family (a_ip a) =? AF_INET) && (s_addr (a_ip a) =? ip).
Definition addr_bdcv4_test (ip : Z) (a : addr_record) : bool :=
  (sin_family (a_bdc a) =? AF_INET) && (s_addr (a_bdc a) =? ip).
Definition addr_ipv6_test (ip : Z) (a : addr_record) : bool := false.
Definition addr_bdcv6_test (ip : Z) (a : addr_record) : bool := false.

Definition addr4_set_ip (ip : Z) (a : sockaddr) : sockaddr := MkAddr AF_INET (sin_port a) ip.
Definition addr4_get_ip (a : sockaddr) : Z := s_addr a.
Definition addr4_set_port (port : Z) (a : sockaddr) : sockaddr := MkAddr AF_INET port (s_addr a).
Definition addr4_get_port (a : sockaddr) : Z := sin_port a.
Definition addr6_set_ip (ip : Z) (a : sockaddr) : sockaddr := MkAddr AF_INET6 0 0.

Definition IFF_RUNNING := 64.

Definition ifr_clone (i : if_record) : if_record :=
  MkIf (if_index i) (if_name i) (if_mac i) (if_mode i) (if_mtu i) (if_flags i)
    (match addr_list i with Some l => Some (map addr_clone l) | None => None end).
Definition ifr_running_test (i : if_record) : bool := negb (Z.land (if_flags i) IFF_RUNNING =? 0).
Definition ifr_index_test (index : Z) (i : if_record) : bool := if_index i =? index.
Definition ifr_name_test (name : string) (i : if_record) : bool := String.eqb (if_name i) name.
Definition ifr_total_test (i : if_record) (total : Z) : res Z :=
  match addr_list i with Some l => Ok (u32 (total + Z.of_nat (length l))) | None => Segv end.
Definition ifr_ipv4_test (ip : Z) (i : if_record) : bool :=
  match addr_list i with
  | Some l => match find_first (addr_ipv4_test ip) l with Some _ => true | None => false end
  | None => false
  end.
Definition ifr_ipv6_test (ip : Z) (i : if_record) : bool := false.

Definition route_is_addr4 (r : route_record) : bool := r_family r =? AF_INET.
Definition route_is_addr6 (r : route_record) : bool := r_family r =? AF_INET6.
Definition route_clone (r : route_record) : route_record := r.

(** ** Lemmas *)

Lemma le_value_bytes n x : 0 ≤ x < 256 ^ Z.of_nat n → le_value (le_bytes n x) = x.
Proof.
  revert x. induction n as [|n IH]; intros x; cbn [le_bytes le_value].
  - change (256 ^ Z.of_nat 0) with 1. lia.
  - rewrite Nat2Z.inj_succ, Z.pow_succ_r by lia. intros Hx.
    rewrite IH; [Z.div_mod_to_equations; lia|].
    split; [apply Z.div_pos; lia|]. apply Z.div_lt_upper_bound; lia.
Qed.

Lemma le_bytes_length n x : length (le_bytes n x) = n.
Proof. revert x. induction n; intros; simpl; auto. Qed.

Lemma read_bytes_all b n :
  n = Z.of_nat (length b) → read_bytes (Some b) n = Ok b.
Proof.
  intros ->. unfold read_bytes. destruct (Z.eqb_spec (Z.of_nat (length b)) 0) as [E|E].
  - by destruct b.
  - rewrite Z.leb_refl, Nat2Z.id. by rewrite take_ge.
Qed.

(** A field in the middle of a buffer. *)
Lemma read_at_mid b1 b2 off n x :
  off = Z.of_nat (length b1) → 0 ≤ x < 256 ^ Z.of_nat n →
  read_at (b1 ++ le_bytes n x ++ b2) off (Z.of_nat n) = Ok x.
Proof.
  intros -> Hx. unfold read_at, read_bytes.
  destruct (Z.ltb_spec (Z.of_nat (length b1)) 0); [lia|].
  rewrite Nat2Z.id, drop_app_length.
  destruct (Z.eqb_spec (Z.of_nat n) 0) as [E|E].
  - destruct n; [|lia]. simpl in *. f_equal. change (256 ^ 0) with 1 in Hx. lia.
  - rewrite length_app, le_bytes_length, Nat2Z.id.
    destruct (Z.leb_spec (Z.of_nat n) (Z.of_nat (n + length b2))); [|lia].
    rewrite take_app_length' by (by rewrite le_bytes_length). by rewrite le_value_bytes.
Qed.

(** ** Well-formed frames *)

Definition meta_ok (m : metadata) : bool :=
  names_ok m && forallb (λ e, copyable e.2) m.

Definition body_ok (b : frame_union) : Prop :=
  match b with
  | Data d =>
      match pdu d with
      | Some b => pduLength d = Z.of_nat (length b)
      | None => pduLength d = 0
      end
  | Ctrl c =>
      match cdata c with
      | CNull => data_len c = 0
      | CBytes b => data_len c = Z.of_nat (length b)
      | CLinks _ => data_len c = sizeof_linked_list
      | CTable _ => data_len c = sizeof_module_table
      | CFlows _ | CPartial => False
      end
  | NoUnion _ => False
  end.

Definition frame_ok (ff : finsFrame) : Prop :=
  body_ok (body ff) ∧ ∃ m, metaData ff = Some m ∧ meta_ok m = true.

Lemma meta_ok_copy m : meta_ok m = true → metadata_copy m metadata_create = Ok (true, m).
Proof.
  intros [Hn Hc]%andb_true_iff. unfold metadata_copy. erewrite bind_ok.
  2: { apply copy_settings_ok; [|done]. apply Forall_forall. intros e He. split; [|done].
       eapply forallb_forall in Hc; [exact Hc|by apply list_elem_of_In]. }
  rewrite Z.add_0_l, Z.eqb_refl. by rewrite put_all_fresh.
Qed.

(** Writing an integer element keeps metadata well formed. *)
Lemma names_ok_app m k v :
  names_ok m = true → config_validate_name k = true →
  config_setting_get_member m k = None → names_ok (m ++ [(k, v)]) = true.
Proof.
  intros Hm Hk Hf. induction m as [|[j w] m IH]; simpl in *; [by rewrite Hk|].
  apply andb_true_iff in Hm as [[Hj Hn]%andb_true_iff Hm].
  destruct (config_name_compare k j) eqn:E; [done|].
  rewrite Hj, existsb_app. apply negb_true_iff in Hn. rewrite Hn. simpl.
  rewrite ncompare_sym, E. simpl. auto.
Qed.

Lemma names_ok_set m k v : names_ok (set_member m k v) = names_ok m.
Proof.
  induction m as [|[j w] m IH]; simpl; [done|].
  destruct (config_name_compare k j); simpl; [done|]. rewrite IH. f_equal. f_equal. f_equal.
  clear IH. induction m as [|[i u] m IH]; simpl; [done|].
  destruct (config_name_compare k i); simpl; [done|]. by rewrite IH.
Qed.

Lemma copyable_set m k v :
  copyable v = true → forallb (λ e, copyable e.2) m = true →
  forallb (λ e, copyable e.2) (set_member m k v) = true.
Proof.
  intros Hv. induction m as [|[j w] m IH]; simpl; [done|].
  intros [? ?]%andb_true_iff. destruct (config_name_compare k j); simpl; apply andb_true_iff; auto.
Qed.

Lemma meta_ok_put m k v :
  meta_ok m = true → config_validate_name k = true → copyable v = true →
  meta_ok (put_member m k v) = true.
Proof.
  intros [Hn Hc]%andb_true_iff Hk Hv. unfold meta_ok, put_member. apply andb_true_iff.
  destruct (config_setting_get_member m k) eqn:E.
  - rewrite names_ok_set. split; [done|]. by apply copyable_set.
  - split; [by apply names_ok_app|]. rewrite forallb_app, Hc. simpl. by rewrite Hv.
Qed.

(** A clone has NULL where the original has an empty buffer. *)
Definition clone_frame (ff : finsFrame) : finsFrame :=
  set_body
    match body ff with
    | Data d => Data (MkData (directionFlag d) (pduLength d)
                        (if pduLength d =? 0 then None else pdu d))
    | Ctrl c => Ctrl (MkCtrl (sender_id c) (serial_num c) (opcode c) (param_id c) (ret_val c)
                        (data_len c) (if data_len c =? 0 then CNull else cdata c))
    | NoUnion n => NoUnion n
    end ff.

Lemma clone_ok ff : frame_ok ff → cloneFinsFrame ff = Ok (clone_frame ff).
Proof.
  destruct ff as [dst md b]. intros [Hb (m & Hm & Hok)]. simpl in *. subst.
  unfold cloneFinsFrame, clone_frame. simpl. rewrite (meta_ok_copy _ Hok).
  destruct b as [[dir l p]|[? ? ? ? ? dl cd]|]; simpl in *; [..|done].
  - destruct p as [p|]; [|by subst]. by rewrite (read_bytes_all p l).
  - destruct cd as [|p| |l|t|]; subst; try done.
    unfold clone_data. rewrite read_bytes_all by done.
    by destruct (Z.eqb_spec (Z.of_nat (length p)) 0).
Qed.

(** A frame with a payload is cloned as it is. *)
Lemma clone_frame_id ff :
  match body ff with
  | Data d => pduLength d ≠ 0 | Ctrl c => data_len c ≠ 0 | NoUnion _ => True end →
  clone_frame ff = ff.
Proof.
  destruct ff as [dst md [[]|[]|]]; unfold clone_frame, set_body; simpl; [..|done].
  - destruct (Z.eqb_spec pduLength0 0); done.
  - destruct (Z.eqb_spec data_len0 0); done.
Qed.

(** ** Properties *)

(** cloning a well-formed frame terminates and gives a frame equal to the
    original in every field, metadata and payload included (an empty payload
    becomes NULL); for a control
    frame that carries a flow table the copy is cut short, because its
    [data_len] counts flows and [cloneFinsFrame] copies that many bytes. *)
Theorem cloneFinsFrame_equal ff m c fs :
  frame_ok ff → meta_ok m = true → fs ≠ [] →
  cdata c = CFlows fs → data_len c = Z.of_nat (length fs) →
  cloneFinsFrame ff = Ok (clone_frame ff) ∧
  (match body ff with
   | Data d => pduLength d ≠ 0 | Ctrl c => data_len c ≠ 0 | NoUnion _ => True end →
   clone_frame ff = ff) ∧
  ∃ ff' c', cloneFinsFrame (MkFrame (destinationID ff) (Some m) (Ctrl c)) = Ok ff' ∧
    body ff' = Ctrl c' ∧ cdata c' = CPartial.
Proof.
  intros Hff Hm Hfs Hc Hl. split; [by apply clone_ok|]. split; [by apply clone_frame_id|].
  unfold cloneFinsFrame. simpl. rewrite (meta_ok_copy _ Hm), Hc, Hl. unfold clone_data.
  destruct (Z.eqb_spec (Z.of_nat (length fs)) 0); [destruct fs; done|]. by do 2 eexists.
Qed.

(** An instance. *)
Lemma cloneFinsFrame_equal_witness :
  let ff := MkFrame 5 (Some [("send_ttl", SInt 64)]) (Data (MkData DIR_UP 3 (Some [1;2;3]))) in
  cloneFinsFrame ff = Ok ff ∧ (3 ≠ 0 → ff = ff) ∧
  ∃ ff' c', cloneFinsFrame (MkFrame 5 (Some [])
      (Ctrl (MkCtrl 0 1 CTRL_SET_PARAM 0 0 2 (CFlows [MkFlow 1 8; MkFlow 2 16])))) = Ok ff' ∧
    body ff' = Ctrl c' ∧ cdata c' = CPartial.
Proof.
  apply (cloneFinsFrame_equal
    (MkFrame 5 (Some [("send_ttl", SInt 64)]) (Data (MkData DIR_UP 3 (Some [1;2;3]))))
    [] (MkCtrl 0 1 CTRL_SET_PARAM 0 0 2 (CFlows [MkFlow 1 8; MkFlow 2 16]))
    [MkFlow 1 8; MkFlow 2 16]); try reflexivity; [|done].
  split; [reflexivity|]. eexists. split; reflexivity.
Defined.

(** a control frame with a known opcode survives serialization up to what
    the format carries: type, destination (one byte), opcode, sender and
    serial number; the length returned is the [strlen] of the buffer, at most
    2 of the 17 bytes, because the name length that follows is 0. *)
Theorem ctrl_serialize_roundtrip ff c :
  body ff = Ctrl c → known_opcode (opcode c) = true →
  is_u16 (opcode c) → is_u8 (sender_id c) → is_u32 (serial_num c) →
  let '(len, buffer) := serializeCtrlFrame ff c in
  length buffer = 17%nat ∧ len ≤ 2 ∧
  unserializeCtrlFrame buffer =
    Ok (Some (MkFrame (u8 (destinationID ff)) None
      (Ctrl (MkCtrl (sender_id c) (serial_num c) (opcode c) 0 0 0 CNull)))).
Proof.
  intros Hb Hop Ho Hs Hn. unfold serializeCtrlFrame, dataOrCtrl. rewrite Hb, Hop.
  set (bs := (_ ++ _)). split; [|split].
  { unfold bs. rewrite !length_app, !le_bytes_length. done. }
  { unfold bs. simpl. destruct (destinationID ff mod 256 =? 0); lia. }
  assert (Hu : is_u8 (u8 (destinationID ff))) by auto with fins.
  assert (Hd : le_bytes 1 (destinationID ff) = le_bytes 1 (u8 (destinationID ff))).
  { simpl. f_equal. unfold u8. by rewrite Z.mod_mod. }
  unfold bs. rewrite Hd. clear bs Hd. revert Hu. generalize (u8 (destinationID ff)). intros d Hd.
  unfold unserializeCtrlFrame.
  assert (R : ∀ off n b1 x b2, off = Z.of_nat (length b1) → 0 ≤ x < 256 ^ Z.of_nat n →
    ∀ b, b = b1 ++ le_bytes n x ++ b2 → read_at b off (Z.of_nat n) = Ok x).
  { intros. subst b. by apply read_at_mid. }
  set (o := le_bytes 2 (opcode c)). set (se := le_bytes 1 (sender_id c)).
  set (sn := le_bytes 4 (serial_num c)). set (z4 := le_bytes 4 0).
  rewrite (R 0 1%nat [] FF_CONTROL (le_bytes 1 d ++ z4 ++ o ++ se ++ sn ++ z4)); [|done..].
  rewrite (R 1 1%nat (le_bytes 1 FF_CONTROL) d (z4 ++ o ++ se ++ sn ++ z4)); [|done..].
  rewrite (R 2 4%nat (le_bytes 1 FF_CONTROL ++ le_bytes 1 d) 0 (o ++ se ++ sn ++ z4)); [|done..].
  change (6 + s32 0) with 6.
  rewrite (R 6 2%nat (le_bytes 1 FF_CONTROL ++ le_bytes 1 d ++ z4) (opcode c) (se ++ sn ++ z4)); [|done..].
  change (6 + 2) with 8. change (6 + 3) with 9. change (6 + 7) with 13.
  rewrite (R 8 1%nat (le_bytes 1 FF_CONTROL ++ le_bytes 1 d ++ z4 ++ o) (sender_id c) (sn ++ z4)); [|done..].
  rewrite (R 9 4%nat (le_bytes 1 FF_CONTROL ++ le_bytes 1 d ++ z4 ++ o ++ se) (serial_num c) z4); [|done..].
  rewrite (R 13 4%nat (le_bytes 1 FF_CONTROL ++ le_bytes 1 d ++ z4 ++ o ++ se ++ sn) 0 []); [|done..].
  rewrite Hop. by destruct (opcode c =? CTRL_SET_PARAM).
Qed.

(** An instance. *)
Lemma ctrl_serialize_roundtrip_witness :
  let c := MkCtrl 9 7 CTRL_SET_PARAM 3 0 0 CNull in
  let '(len, buffer) := serializeCtrlFrame (MkFrame 5 (Some []) (Ctrl c)) c in
  length buffer = 17%nat ∧ len ≤ 2 ∧
  unserializeCtrlFrame buffer =
    Ok (Some (MkFrame (u8 5) None (Ctrl (MkCtrl 9 7 CTRL_SET_PARAM 0 0 0 CNull)))).
Proof.
  apply (ctrl_serialize_roundtrip (MkFrame 5 (Some []) (Ctrl (MkCtrl 9 7 CTRL_SET_PARAM 3 0 0 CNull)))
    (MkCtrl 9 7 CTRL_SET_PARAM 3 0 0 CNull)); try reflexivity;
    unfold is_u8, is_u16, is_u32; simpl; unfold CTRL_SET_PARAM; lia.
Defined.
