(* ===== verification/Module.v ===== *)
(** * The module runtime: [libs/data_structure/finsmodule.c]

    A module owns an input and an output queue, a link table and private
    data.  Handlers run in a state monad over that state; link records live
    in a store, so that freeing the link list and keeping pointers into it in
    the flow table are distinguished from values.  The queues are used through
    the [BoundedFifo] interface only.  Semaphore operations around the queues
    and debug output are left out. *)

From stdpp Require Import base list gmap strings.
From Stdlib Require Import ZArith Lia.
From S2P Require Import Prelude Queue Metadata Frame.
Open Scope Z_scope.

Definition MAX_MODULES := 32.
Definition LINK_NULL := 0.
Definition FCF_TRUE := 1.
Definition FCF_FALSE := 0.

Inductive fins_module_state := FMS_FREE | FMS_INIT | FMS_RUNNING | FMS_PAUSED | FMS_SHUTDOWN.

#[export] Instance fms_eq_dec : EqDecision fins_module_state.
Proof. solve_decision. Defined.

Record link_record := MkLink {
  l_id : Z; src_index : Z; dsts_num : Z; dsts_index : list Z
}.

Record fins_module (Q : Type) := MkMod {
  m_state : fins_module_state; flows_max : Z; m_index : Z; m_id : Z;
  input_queue : Q; output_queue : Q
}.
Arguments MkMod {Q}.
Arguments m_state {Q}.
Arguments flows_max {Q}.
Arguments m_index {Q}.
Arguments m_id {Q}.
Arguments input_queue {Q}.
Arguments output_queue {Q}.

(** Allocated link records; addresses from [lbrk] on are unused. *)
Record link_store := MkStore { lcells : gmap Z link_record; lbrk : Z }.

(** The state of a module with private data [D].  [freed] is the history of
    the frames released with [freeFinsFrame], [posts] the number of posts to
    the switch's event semaphore. *)
Record mstate (Q D : Type) := MkSt {
  fm : fins_module Q; mt : fins_module_table; md : D; store : link_store;
  freed : list finsFrame; posts : Z
}.
Arguments MkSt {Q D}.
Arguments fm {Q D}.
Arguments mt {Q D}.
Arguments md {Q D}.
Arguments store {Q D}.
Arguments freed {Q D}.
Arguments posts {Q D}.

Definition mod_id_test {Q} (id : Z) (m : fins_module Q) : bool := m_id m =? id.
Definition link_id_test (id : Z) (l : link_record) : bool := l_id l =? id.
Definition link_src_test (index : Z) (l : link_record) : bool := src_index l =? index.

(** [dsts_index] has [MAX_MODULES] entries; a larger [dsts_num] reads past it. *)
Fixpoint dsts_contains (n : nat) (dsts : list Z) (index : Z) : res bool :=
  match n, dsts with
  | O, _ => Ok false
  | S _, [] => Segv
  | S n, d :: dsts => if d =? index then Ok true else dsts_contains n dsts index
  end.

Definition link_involved_test (index : Z) (l : link_record) : res bool :=
  if src_index l =? index then Ok true
  else dsts_contains (Z.to_nat (dsts_num l)) (dsts_index l) index.

(** [list_find1(list, link_id_test, &id)]: the address of the first record
    with that identifier, 0 for NULL. *)
Fixpoint find_link (h : gmap Z link_record) (l : list loc) (id : Z) : res loc :=
  match l with
  | [] => Ok 0
  | p :: l =>
      match h !! p with
      | Some r => if link_id_test id r then Ok p else find_link h l id
      | None => Segv
      end
  end.

(** [link_clone]: a new record with the same contents. *)
Definition link_clone (p : loc) : M link_store loc := λ st,
  match lcells st !! p with
  | Some r => Ok (lbrk st, MkStore (<[lbrk st := r]> (lcells st)) (lbrk st + 1))
  | None => Segv
  end.

(** [list_clone(list, link_clone)] (see [LinkedListFacts.list_clone_copies]). *)
Fixpoint clone_links (l : list loc) : M link_store (list loc) :=
  match l with
  | [] => mret []
  | p :: l => q ← link_clone p; qs ← clone_links l; mret (q :: qs)
  end.

(** [list_free(list, free)]. *)
Fixpoint free_links (l : list loc) : M link_store unit := λ st,
  match l with
  | [] => Ok (tt, st)
  | p :: l =>
      match lcells st !! p with
      | Some _ => free_links l (MkStore (delete p (lcells st)) (lbrk st))
      | None => Segv
      end
  end.

Section Module.
Context {Q D : Type} `{BoundedFifo Q finsFrame}.
Abbreviation ST := (mstate Q D) (only parsing).

Definition set_outq (q : Q) (s : ST) : ST :=
  let m := fm s in
  MkSt (MkMod (m_state m) (flows_max m) (m_index m) (m_id m) (input_queue m) q)
    (mt s) (md s) (store s) (freed s) (posts s).
Definition set_mt (t : fins_module_table) (s : ST) : ST :=
  MkSt (fm s) t (md s) (store s) (freed s) (posts s).
Definition set_md (d : D) (s : ST) : ST := MkSt (fm s) (mt s) d (store s) (freed s) (posts s).
Definition set_store (st : link_store) (s : ST) : ST := MkSt (fm s) (mt s) (md s) st (freed s) (posts s).
Definition set_freed (f : list finsFrame) (s : ST) : ST := MkSt (fm s) (mt s) (md s) (store s) f (posts s).
Definition add_post (s : ST) : ST :=
  MkSt (fm s) (mt s) (md s) (store s) (freed s) (posts s + 1).

(** Running computations on a part of the state, and pure fallible ones. *)
Definition lift {A} (r : res A) : M ST A := λ s,
  match r with Ok a => Ok (a, s) | Segv => Segv | Exit => Exit | NoFuel => NoFuel end.
Definition on_store {A} (m : M link_store A) : M ST A := λ s,
  match m (store s) with
  | Ok (a, st) => Ok (a, set_store st s)
  | Segv => Segv | Exit => Exit | NoFuel => NoFuel
  end.

Definition free_ff (ff : finsFrame) : M ST unit :=
  lift (freeFinsFrame (Some ff)) ;; modify (λ s, set_freed (freed s ++ [ff]) s).

(** Access to the metadata of a frame; a NULL metadata is dereferenced. *)
Definition ff_meta (ff : finsFrame) : M ST metadata :=
  match metaData ff with Some m => mret m | None => segv end.
Definition ff_read (ff : finsFrame) (target : string) : M ST Z :=
  m ← ff_meta ff; lift (secure_metadata_readFromElement m target).
Definition ff_write (ff : finsFrame) (target : string) (v : mvalue) : M ST finsFrame :=
  m ← ff_meta ff;
  match secure_metadata_writeToElement target v m with
  | Ok (_, m') => mret (set_meta (Some m') ff)
  | Segv => segv | Exit => exit_ | NoFuel => nofuel
  end.

(** The union read as a control frame or as a data frame. *)
Definition ff_ctrl (ff : finsFrame) : M ST finsCtrlFrame :=
  match body ff with Ctrl c => mret c | _ => segv end.
Definition ff_data (ff : finsFrame) : M ST finsDataFrame :=
  match body ff with Data d => mret d | _ => segv end.

(** [read_queue(module->input_queue)]. *)
Definition read_input : M ST (option finsFrame) := λ s,
  let m := fm s in
  match bf_read (input_queue m) with
  | Ok (r, q) =>
      Ok (r, MkSt (MkMod (m_state m) (flows_max m) (m_index m) (m_id m) q (output_queue m))
               (mt s) (md s) (store s) (freed s) (posts s))
  | Segv => Segv | Exit => Exit | NoFuel => NoFuel
  end.

(** A successful write posts to the switch; a full output queue ends the
    process. *)
Definition module_to_switch (ff : finsFrame) : M ST unit := λ s,
  match bf_write ff (output_queue (fm s)) with
  | Ok (r, q) => if r =? 0 then Exit else Ok (tt, add_post (set_outq q s))
  | Segv => Segv | Exit => Exit | NoFuel => NoFuel
  end.

Definition reply_opcode (op : Z) : res Z :=
  if op =? CTRL_ALERT then Ok CTRL_ALERT_REPLY
  else if op =? CTRL_READ_PARAM then Ok CTRL_READ_PARAM_REPLY
  else if op =? CTRL_SET_PARAM then Ok CTRL_SET_PARAM_REPLY
  else if op =? CTRL_EXEC then Ok CTRL_EXEC_REPLY
  else Exit.

Definition module_reply_fcf (ff : finsFrame) (ret_val' ret_msg : Z) : M ST unit :=
  ff ← ff_write ff "ret_msg" (VInt32 ret_msg);
  c ← ff_ctrl ff;
  s ← get;
  op ← lift (reply_opcode (opcode c));
  module_to_switch
    (MkFrame (sender_id c) (metaData ff)
       (Ctrl (MkCtrl (u8 (m_index (fm s))) (serial_num c) op (param_id c) ret_val'
                (data_len c) (cdata c)))).

(** The clones for destinations [1 .. dsts_num - 1]. *)
Fixpoint send_clones (ff : finsFrame) (dsts : list Z) (n : nat) {struct n} : M ST unit :=
  match n with
  | O => mret tt
  | S n =>
      match dsts with
      | [] => segv
      | d :: dsts =>
          c ← lift (cloneFinsFrame ff);
          module_to_switch (set_dest d c) ;;
          send_clones ff dsts n
      end
  end.

Definition module_send_flow (ff : finsFrame) (flow : Z) : M ST Z :=
  s ← get;
  if flows_num (mt s) <=? flow then mret 0
  else match flows (mt s) !! Z.to_nat flow with
       | None => segv
       | Some f =>
           if link_id f =? LINK_NULL then mret 0
           else if link f =? 0 then mret 0
           else match lcells (store s) !! link f with
                | None => segv
                | Some l =>
                    if dsts_num l =? 0 then mret 0
                    else match dsts_index l with
                         | [] => segv
                         | d0 :: dsts =>
                             send_clones ff dsts (Z.to_nat (dsts_num l - 1)) ;;
                             module_to_switch (set_dest d0 ff) ;;
                             mret (dsts_num l)
                         end
                end
       end.

(** The idiom of all senders: [if (!module_send_flow(...)) freeFinsFrame(ff);] *)
Definition send_or_free (ff : finsFrame) (flow : Z) : M ST unit :=
  sent ← module_send_flow ff flow;
  if sent =? 0 then free_ff ff else mret tt.

(** ** Link table messages *)

Definition flow_entry (h : gmap Z link_record) (l : option (list loc)) (id : Z)
    : res fins_module_flow :=
  match l with
  | None => Segv
  | Some l => match find_link h l id with Ok p => Ok (MkFlow id p)
              | Segv => Segv | Exit => Exit | NoFuel => NoFuel end
  end.

(** Entries for the given identifiers stored from index [i] on. *)
Fixpoint store_flows (h : gmap Z link_record) (l : option (list loc)) (ids : list Z)
    (i : nat) (fs : list fins_module_flow) : res (list fins_module_flow) :=
  match ids with
  | [] => Ok fs
  | id :: ids =>
      match flow_entry h l id with
      | Ok f => if decide (i < length fs)%nat then store_flows h l ids (S i) (<[i := f]> fs)
                else Segv
      | Segv => Segv | Exit => Exit | NoFuel => NoFuel
      end
  end.

(** The first [n] identifiers of an array of flows. *)
Definition flow_ids (fs : list fins_module_flow) (n : Z) : res (list Z) :=
  if n <=? Z.of_nat (length fs) then Ok (link_id <$> take (Z.to_nat n) fs) else Segv.

Definition module_set_param_flows (ff : finsFrame) : M ST unit :=
  c ← ff_ctrl ff;
  s ← get;
  if flows_max (fm s) <? data_len c then free_ff ff
  else
    ids ← lift (match cdata c with
                | CFlows fs => flow_ids fs (data_len c)
                | _ => if data_len c =? 0 then Ok [] else Segv
                end);
    fs ← lift (store_flows (lcells (store s)) (link_list (mt s)) ids 0 (flows (mt s)));
    modify (set_mt (MkTable (link_list (mt s)) (data_len c) fs)) ;;
    free_ff ff.

Definition set_cdata (d : ctrl_data) (c : finsCtrlFrame) : finsCtrlFrame :=
  MkCtrl (sender_id c) (serial_num c) (opcode c) (param_id c) (ret_val c) (data_len c) d.

Definition module_set_param_links (ff : finsFrame) : M ST unit :=
  c ← ff_ctrl ff;
  s ← get;
  if negb (data_len c =? sizeof_linked_list) then free_ff ff
  else
    match link_list (mt s) with Some l => on_store (free_links l) | None => mret tt end ;;
    new ← lift (match cdata c with CLinks l => Ok (Some l) | CNull => Ok None | _ => Segv end);
    s ← get;
    ids ← lift (flow_ids (flows (mt s)) (flows_num (mt s)));
    fs ← lift (store_flows (lcells (store s)) new ids 0 (flows (mt s)));
    modify (set_mt (MkTable new (flows_num (mt s)) fs)) ;;
    free_ff (set_body (Ctrl (set_cdata CNull c)) ff).

Definition module_set_param_dual (ff : finsFrame) : M ST unit :=
  c ← ff_ctrl ff;
  s ← get;
  if negb (data_len c =? sizeof_module_table) then free_ff ff
  else
    match cdata c with
    | CTable t =>
        match link_list t with
        | None => free_ff ff
        | Some l =>
            if flows_max (fm s) <? flows_num t then free_ff ff
            else
              let n := Z.to_nat (flows_num t) in
              if decide (n ≤ length (flows t))%nat then
                if decide (n ≤ length (flows (mt s)))%nat then
                  modify (set_mt (MkTable (Some l) (flows_num t)
                                    (take n (flows t) ++ drop n (flows (mt s))))) ;;
                  free_ff ff
                else segv
              else segv
        end
    | _ => segv
    end.

(** [list_filter1(overall->link_list, link_src_test, &index, link_clone)]. *)
Fixpoint filter_links (index : Z) (l : list loc) : M link_store (list loc) := λ st,
  match l with
  | [] => Ok ([], st)
  | p :: l =>
      match lcells st !! p with
      | None => Segv
      | Some r =>
          if link_src_test index r
          then (q ← link_clone p; qs ← filter_links index l; mret (q :: qs)) st
          else filter_links index l st
      end
  end.

(** The table [core_main] sends to the module with the given index: copies of
    the links that start there, and the flows of its configuration resolved in
    them; [junk] is what the allocated array held. *)
Definition core_update (overall : list loc) (index : Z) (ids : list Z)
    (junk : list fins_module_flow) : M link_store fins_module_table := λ st,
  match filter_links index overall st with
  | Ok (l, st) =>
      match store_flows (lcells st) (Some l) ids 0 junk with
      | Ok fs => Ok (MkTable (Some l) (Z.of_nat (length ids)) fs, st)
      | Segv => Segv | Exit => Exit | NoFuel => NoFuel
      end
  | Segv => Segv | Exit => Exit | NoFuel => NoFuel
  end.

Definition module_read_param_flows (ff : finsFrame) : M ST unit :=
  c ← ff_ctrl ff;
  s ← get;
  let t := mt s in
  ids ← lift (flow_ids (flows t) (flows_num t));
  let d := if flows_num t =? 0 then CNull else CFlows (map (λ i, MkFlow i 0) ids) in
  module_reply_fcf
    (set_body (Ctrl (MkCtrl (sender_id c) (serial_num c) (opcode c) (param_id c) (ret_val c)
                       (flows_num t) d)) ff) FCF_TRUE 0.

Definition module_read_param_links (ff : finsFrame) : M ST unit :=
  c ← ff_ctrl ff;
  s ← get;
  d ← (match link_list (mt s) with
       | Some l => l' ← on_store (clone_links l); mret (sizeof_linked_list, CLinks l')
       | None => mret (0, CNull)
       end : M ST (Z * ctrl_data));
  module_reply_fcf
    (set_body (Ctrl (MkCtrl (sender_id c) (serial_num c) (opcode c) (param_id c) (ret_val c)
                       d.1 d.2)) ff) FCF_TRUE 0.

(** The reply's table is a fresh object of [MAX_MOD_FLOWS] zeroed flows. *)
Definition MAX_MOD_FLOWS := 256%nat.

Definition module_read_param_dual (ff : finsFrame) : M ST unit :=
  c ← ff_ctrl ff;
  s ← get;
  l ← (match link_list (mt s) with
       | Some l => l' ← on_store (clone_links l); mret (Some l')
       | None => mret None
       end : M ST (option (list loc)));
  s' ← get;
  ids ← lift (flow_ids (flows (mt s)) (flows_num (mt s)));
  fs ← lift (store_flows (lcells (store s')) l ids 0 (replicate MAX_MOD_FLOWS (MkFlow 0 0)));
  module_reply_fcf
    (set_body (Ctrl (MkCtrl (sender_id c) (serial_num c) (opcode c) (param_id c) (ret_val c)
                       sizeof_module_table (CTable (MkTable l (flows_num (mt s)) fs)))) ff)
    FCF_TRUE 0.

(** ** The main loop of a module *)

(** The dispatch the [_get_ff] functions share, on a frame read while the
    module runs. *)
Definition frame_dispatch (fcf in_fdf out_fdf : finsFrame → M ST unit) (ff : finsFrame) : M ST unit :=
  match metaData ff with
  | None => exit_
  | Some _ =>
      match body ff with
      | Ctrl _ => fcf ff
      | Data d =>
          if directionFlag d =? DIR_UP then in_fdf ff
          else if directionFlag d =? DIR_DOWN then out_fdf ff
          else exit_
      | NoUnion _ => exit_
      end
  end.

(** The loop of the [_get_ff] functions: each round waits for an event and
    tries the input queue; [events] is the number of events that are posted,
    and [NoFuel] means waiting for another one. *)
Fixpoint get_ff (dispatch : finsFrame → M ST unit) (events : nat) : M ST unit :=
  match events with
  | O => nofuel
  | S events =>
      r ← read_input;
      s ← get;
      if decide (m_state (fm s) = FMS_RUNNING) then
        match r with
        | None => get_ff dispatch events
        | Some ff => dispatch ff
        end
      else match r with Some ff => free_ff ff | None => mret tt end
  end.

(** ** What a handler did: frames queued for the switch and frames released *)

Definition outq (s : ST) : Q := output_queue (fm s).

(** The output queue holds [xs] and has room for [n] more frames. *)
Definition room (s : ST) (xs : list finsFrame) (n : nat) : Prop :=
  bf_rep (outq s) xs ∧ Z.of_nat (length xs + n) ≤ bf_cap (outq s).

(** From [s], whose output queue holds [xs], to [s']: [sent] was queued,
    [dropped] released, and nothing but the private data changed otherwise. *)
Record eff (s : ST) (xs : list finsFrame) (s' : ST) (sent dropped : list finsFrame) : Prop := {
  eff_q : bf_rep (outq s') (xs ++ sent);
  eff_cap : bf_cap (outq s') = bf_cap (outq s);
  eff_freed : freed s' = freed s ++ dropped;
  eff_state : m_state (fm s') = m_state (fm s);
  eff_index : m_index (fm s') = m_index (fm s);
  eff_fmax : flows_max (fm s') = flows_max (fm s);
  eff_inq : input_queue (fm s') = input_queue (fm s);
  eff_mt : mt s' = mt s;
  eff_store : store s' = store s;
  eff_posts : posts s' = posts s + Z.of_nat (length sent)
}.

Lemma eff_refl s xs : bf_rep (outq s) xs → eff s xs s [] [].
Proof. intros. split; rewrite ?app_nil_r, ?Z.add_0_r; done. Qed.

Lemma eff_set_md s xs d : bf_rep (outq s) xs → eff s xs (set_md d s) [] [].
Proof. intros. split; simpl; rewrite ?app_nil_r, ?Z.add_0_r; done. Qed.

Lemma eff_trans s xs s1 s2 a1 b1 a2 b2 :
  eff s xs s1 a1 b1 → eff s1 (xs ++ a1) s2 a2 b2 → eff s xs s2 (a1 ++ a2) (b1 ++ b2).
Proof.
  intros E1 E2. split.
  - rewrite (assoc_L app). apply E2.
  - by rewrite (eff_cap _ _ _ _ _ E2), (eff_cap _ _ _ _ _ E1).
  - by rewrite (eff_freed _ _ _ _ _ E2), (eff_freed _ _ _ _ _ E1), (assoc_L app).
  - by rewrite (eff_state _ _ _ _ _ E2), (eff_state _ _ _ _ _ E1).
  - by rewrite (eff_index _ _ _ _ _ E2), (eff_index _ _ _ _ _ E1).
  - by rewrite (eff_fmax _ _ _ _ _ E2), (eff_fmax _ _ _ _ _ E1).
  - by rewrite (eff_inq _ _ _ _ _ E2), (eff_inq _ _ _ _ _ E1).
  - by rewrite (eff_mt _ _ _ _ _ E2), (eff_mt _ _ _ _ _ E1).
  - by rewrite (eff_store _ _ _ _ _ E2), (eff_store _ _ _ _ _ E1).
  - rewrite (eff_posts _ _ _ _ _ E2), (eff_posts _ _ _ _ _ E1), length_app. lia.
Qed.

Lemma room_eff s xs s' sent dropped n :
  eff s xs s' sent dropped → room s xs (length sent + n) → room s' (xs ++ sent) n.
Proof.
  intros E [_ Hr]. split; [apply E|]. rewrite (eff_cap _ _ _ _ _ E), length_app. lia.
Qed.

Lemma room_le s xs n k : (k ≤ n)%nat → room s xs n → room s xs k.
Proof. intros Hk [? Hr]. split; [done|lia]. Qed.

Lemma free_ff_ok s xs ff :
  bf_rep (outq s) xs → (∀ n, body ff ≠ NoUnion n) →
  free_ff ff s = Ok (tt, set_freed (freed s ++ [ff]) s) ∧
  eff s xs (set_freed (freed s ++ [ff]) s) [] [ff].
Proof.
  intros Hq Hb. split.
  - unfold free_ff, lift, freeFinsFrame, mbind, M_bind, modify.
    destruct (body ff) as [| |n] eqn:E; try done. by destruct (Hb n).
  - split; simpl; rewrite ?app_nil_r, ?Z.add_0_r; done.
Qed.

Lemma module_to_switch_ok s xs ff :
  room s xs 1 →
  ∃ s', module_to_switch ff s = Ok (tt, s') ∧ eff s xs s' [ff] [] ∧ md s' = md s.
Proof.
  intros [Hq Hr]. destruct (bf_write_ok _ _ ff Hq) as (q' & E & Hq' & Hc); [lia|].
  exists (add_post (set_outq q' s)). unfold module_to_switch, outq in *. rewrite E. simpl.
  split; [done|]. split; [|done]. split; simpl; rewrite ?app_nil_r; done.
Qed.

Lemma module_to_switch_full s xs ff :
  bf_rep (outq s) xs → Z.of_nat (length xs) = bf_cap (outq s) →
  module_to_switch ff s = Exit.
Proof.
  intros Hq Hl. unfold module_to_switch, outq in *.
  by rewrite (bf_write_full _ _ ff Hq Hl).
Qed.

Lemma send_clones_ok ff dsts n s xs :
  frame_ok ff → (n ≤ length dsts)%nat → room s xs n →
  ∃ s', send_clones ff dsts n s = Ok (tt, s') ∧
    eff s xs s' (map (λ d, set_dest d (clone_frame ff)) (take n dsts)) [] ∧ md s' = md s.
Proof.
  intros Hff. revert dsts s xs. induction n as [|n IH]; intros dsts s xs Hn Hr.
  { exists s. split; [done|]. split; [apply eff_refl, Hr|done]. }
  destruct dsts as [|d dsts]; simpl in Hn; [lia|]. cbn [send_clones].
  erewrite bind_ok; [|unfold lift; by rewrite clone_ok].
  destruct (module_to_switch_ok s xs (set_dest d (clone_frame ff))) as (s1 & E1 & F1 & M1).
  { by eapply room_le; [|exact Hr]; lia. }
  erewrite bind_ok; [|exact E1].
  destruct (IH dsts s1 (xs ++ [set_dest d (clone_frame ff)])) as (s2 & E2 & F2 & M2); [lia|..].
  { eapply room_eff; [exact F1|]. done. }
  exists s2. split; [exact E2|]. split; [|by rewrite M2].
  apply (eff_trans _ _ _ _ _ _ _ _ F1 F2).
Qed.

(** The destinations a flow leads to, in the order of the link record. *)
Definition flow_dsts (s : ST) (flow : Z) : list Z :=
  if flows_num (mt s) <=? flow then []
  else match flows (mt s) !! Z.to_nat flow with
       | None => []
       | Some f =>
           if (link_id f =? LINK_NULL) || (link f =? 0) then []
           else match lcells (store s) !! link f with
                | Some l => take (Z.to_nat (dsts_num l)) (dsts_index l)
                | None => []
                end
       end.

(** The frames a send queues: copies for all destinations but the first,
    then the frame itself. *)
Definition sent_copies (ff : finsFrame) (dsts : list Z) : list finsFrame :=
  match dsts with
  | [] => []
  | d :: ds => map (λ x, set_dest x (clone_frame ff)) ds ++ [set_dest d ff]
  end.

(** ** The link table invariant *)

Definition link_ok (h : gmap Z link_record) (p : loc) : Prop :=
  0 < p ∧ ∃ r, h !! p = Some r ∧ 0 ≤ dsts_num r ≤ Z.of_nat (length (dsts_index r)).

(** Every record of the link list is allocated, and every flow in use points
    to the record of the list with its link identifier (or is NULL). *)
Record table_ok (h : gmap Z link_record) (t : fins_module_table) : Prop := {
  tok_num : 0 ≤ flows_num t ≤ Z.of_nat (length (flows t));
  tok_list : ∀ l, link_list t = Some l → NoDup l ∧ Forall (link_ok h) l;
  tok_flow : ∀ i f, Z.of_nat i < flows_num t → flows t !! i = Some f →
    ∃ l, link_list t = Some l ∧ find_link h l (link_id f) = Ok (link f)
}.

Lemma find_link_in h l id p :
  find_link h l id = Ok p → p = 0 ∨ p ∈ l ∧ ∃ r, h !! p = Some r ∧ l_id r = id.
Proof.
  induction l as [|q l IH]; simpl; [intros [= <-]; auto|].
  destruct (h !! q) as [r|] eqn:E; [|done]. destruct (link_id_test id r) eqn:E2.
  - intros [= <-]. right. split; [set_solver+|]. exists r. split; [done|]. by apply Z.eqb_eq.
  - intros Hf. destruct (IH Hf) as [?|[? ?]]; [auto|]. right. split; [set_solver|done].
Qed.

Lemma find_link_total h l id :
  Forall (link_ok h) l → ∃ p, find_link h l id = Ok p.
Proof.
  induction 1 as [|q l (? & r & E & ?) _ IH]; simpl; [eauto|].
  rewrite E. destruct (link_id_test id r); eauto.
Qed.

Lemma find_link_agree h h' l id :
  (∀ p, p ∈ l → h' !! p = h !! p) → find_link h' l id = find_link h l id.
Proof.
  induction l as [|q l IH]; intros Hp; simpl; [done|].
  rewrite Hp by set_solver+. rewrite IH; [done|]. intros. apply Hp. set_solver.
Qed.

(** A send on any flow of a module whose table is consistent. *)
Lemma send_flow_ok ff flow s xs :
  frame_ok ff → 0 ≤ flow → table_ok (lcells (store s)) (mt s) →
  room s xs (length (flow_dsts s flow)) →
  ∃ s', module_send_flow ff flow s = Ok (Z.of_nat (length (flow_dsts s flow)), s') ∧
    eff s xs s' (sent_copies ff (flow_dsts s flow)) [] ∧ md s' = md s.
Proof.
  intros Hff Hfl [Hnum Htl Htf] Hr. unfold module_send_flow.
  assert (Hnil : flow_dsts s flow = [] → ∀ m : M ST Z, m s = Ok (0, s) →
    ∃ s', m s = Ok (Z.of_nat (length (flow_dsts s flow)), s') ∧
      eff s xs s' (sent_copies ff (flow_dsts s flow)) [] ∧ md s' = md s).
  { intros E m Em. rewrite E, Em. exists s. split; [done|]. split; [apply eff_refl, Hr|done]. }
  erewrite bind_ok; [|done]. unfold flow_dsts in *.
  destruct (Z.leb_spec (flows_num (mt s)) flow) as [|Hlt]; [by apply Hnil|].
  destruct (flows (mt s) !! Z.to_nat flow) as [f|] eqn:Ef.
  2: { apply lookup_ge_None in Ef. lia. }
  destruct (Z.eqb_spec (link_id f) LINK_NULL) as [_|_]; [by apply Hnil|].
  destruct (Z.eqb_spec (link f) 0) as [_|Hnz]; [by apply Hnil|]. simpl in Hr, Hnil |- *.
  destruct (Htf (Z.to_nat flow) f) as (l & Hl & Hfind); [lia|done|].
  destruct (find_link_in _ _ _ _ Hfind) as [|[Hin _]]; [done|].
  destruct (Htl l Hl) as [_ Hall].
  eapply Forall_forall in Hall as (_ & r & Hr1 & Hr2); [|exact Hin].
  rewrite Hr1 in *. destruct (Z.eqb_spec (dsts_num r) 0) as [E0|E0].
  { rewrite E0 in *. by apply Hnil. }
  destruct (dsts_index r) as [|d0 dsts]; simpl in Hr2; [lia|].
  destruct (Z.to_nat (dsts_num r)) as [|n] eqn:En; [lia|]. cbn [take] in *.
  replace (Z.to_nat (dsts_num r - 1)) with n by lia.
  assert (Hn : (n ≤ length dsts)%nat) by lia.
  assert (Hln : length (take n dsts) = n) by (rewrite length_take; lia).
  simpl in Hr. rewrite Hln in Hr.
  destruct (send_clones_ok ff dsts n s xs Hff Hn) as (s1 & E1 & F1 & M1).
  { eapply room_le; [|exact Hr]. lia. }
  destruct (module_to_switch_ok s1 (xs ++ map (λ d, set_dest d (clone_frame ff)) (take n dsts)) (set_dest d0 ff))
    as (s2 & E2 & F2 & M2).
  { eapply room_eff; [exact F1|]. rewrite length_map, Hln. eapply room_le; [|exact Hr]. lia. }
  exists s2. erewrite bind_ok; [|exact E1]. erewrite bind_ok; [|exact E2].
  split; [unfold mret, M_ret; do 2 f_equal; simpl; rewrite Hln; lia|]. split; [|by rewrite M2].
  cbn [sent_copies]. apply (eff_trans _ _ _ _ _ _ _ _ F1 F2).
Qed.

Lemma frame_ok_union ff : frame_ok ff → ∀ n, body ff ≠ NoUnion n.
Proof. intros [Hb _] n E. by rewrite E in Hb. Qed.

Lemma send_or_free_ok ff flow s xs :
  frame_ok ff → 0 ≤ flow → table_ok (lcells (store s)) (mt s) →
  room s xs (length (flow_dsts s flow)) →
  ∃ s', send_or_free ff flow s = Ok (tt, s') ∧
    eff s xs s' (sent_copies ff (flow_dsts s flow))
      (if decide (flow_dsts s flow = []) then [ff] else []) ∧ md s' = md s.
Proof.
  intros Hff Hfl Ht Hr. unfold send_or_free.
  destruct (send_flow_ok ff flow s xs Hff Hfl Ht Hr) as (s1 & E & F & Hmd).
  erewrite bind_ok; [|exact E].
  destruct (Z.eqb_spec (Z.of_nat (length (flow_dsts s flow))) 0) as [E0|E0].
  - destruct (flow_dsts s flow) as [|? ?] eqn:Ed; [|done]. rewrite decide_True by done.
    destruct (free_ff_ok s1 (xs ++ []) ff) as [E1 F1]; [apply F|by apply frame_ok_union|].
    rewrite E1. eexists. split; [done|]. split; [|done].
    apply (eff_trans _ _ _ _ _ _ _ _ F F1).
  - rewrite decide_False; [|by intros Hd; rewrite Hd in E0].
    exists s1. done.
Qed.

Lemma ff_write_ok s ff m k x :
  metaData ff = Some m → int_key m k = true →
  ff_write ff k (VInt32 x) s = Ok (set_meta (Some (put_member m k (SInt (s32 x)))) ff, s).
Proof.
  intros Hm Hk. unfold ff_write, ff_meta. rewrite Hm. erewrite bind_ok; [|done].
  by rewrite (write_int_ok _ _ _ Hk).
Qed.

Lemma ff_read_ok s ff m k v :
  metaData ff = Some m → secure_metadata_readFromElement m k = Ok v →
  ff_read ff k s = Ok (v, s).
Proof.
  intros Hm Hk. unfold ff_read, ff_meta. rewrite Hm. erewrite bind_ok; [|done].
  unfold lift. by rewrite Hk.
Qed.

(** ** The link table messages keep the invariant *)

Lemma store_flows_ok h l ids i fs :
  Forall (link_ok h) l → (i + length ids ≤ length fs)%nat →
  ∃ fs', store_flows h (Some l) ids i fs = Ok fs' ∧ length fs' = length fs ∧
    (∀ j, (j < i)%nat → fs' !! j = fs !! j) ∧
    (∀ j id, ids !! j = Some id → ∃ f, fs' !! (i + j)%nat = Some f ∧ link_id f = id ∧
       find_link h l id = Ok (link f)).
Proof.
  intros Hl. revert i fs. induction ids as [|id ids IH]; intros i fs Hi.
  { exists fs. split_and!; [done..|]. intros j id Hj. done. }
  simpl in Hi. simpl. destruct (find_link_total h l id Hl) as [p Hp]. rewrite Hp.
  destruct (decide (i < length fs)%nat); [|lia].
  destruct (IH (S i) (<[i := MkFlow id p]> fs)) as (fs' & -> & Hlen & Hlow & Hids).
  { rewrite length_insert. lia. }
  rewrite length_insert in Hlen. exists fs'. split_and!; [done..| |].
  - intros j Hj. rewrite Hlow by lia. by rewrite list_lookup_insert_ne by lia.
  - intros [|j] id' Hj; simpl in Hj.
    + simplify_eq. exists (MkFlow id' p). rewrite Nat.add_0_r, Hlow by lia.
      by rewrite list_lookup_insert_eq.
    + replace (i + S j)%nat with (S i + j)%nat by lia. by apply Hids.
Qed.

Lemma flow_ids_ok fs n :
  0 ≤ n ≤ Z.of_nat (length fs) → flow_ids fs n = Ok (link_id <$> take (Z.to_nat n) fs).
Proof. intros. unfold flow_ids. destruct (Z.leb_spec n (Z.of_nat (length fs))); [done|lia]. Qed.

(** A table whose entries have just been looked up is consistent. *)
Lemma table_ok_stored h l ids fs fs' :
  NoDup l → Forall (link_ok h) l →
  store_flows h (Some l) ids 0 fs = Ok fs' → (length ids ≤ length fs)%nat →
  table_ok h (MkTable (Some l) (Z.of_nat (length ids)) fs').
Proof.
  intros Hn Hl E Hlen. destruct (store_flows_ok h l ids 0 fs Hl) as (fs2 & E2 & L2 & _ & Hids); [lia|].
  rewrite E in E2. injection E2 as <-. split; simpl.
  - lia.
  - by intros ? [= <-].
  - intros i f Hi Hf. exists l. split; [done|].
    destruct (lookup_lt_is_Some_2 ids i) as [id Hid]; [lia|].
    destruct (Hids _ _ Hid) as (f' & Hf' & <- & Hfind). simpl in Hf'. by simplify_eq.
Qed.

Lemma free_links_ok l st :
  NoDup l → Forall (link_ok (lcells st)) l →
  ∃ st', free_links l st = Ok (tt, st') ∧
    (∀ p, p ∈ l → lcells st' !! p = None) ∧
    (∀ p, p ∉ l → lcells st' !! p = lcells st !! p).
Proof.
  revert st. induction l as [|p l IH]; intros st Hn Hl.
  { exists st. split; [done|]. split; [set_solver|done]. }
  apply NoDup_cons in Hn as [Hp Hn]. apply Forall_cons in Hl as [(_ & r & Hr & _) Hl].
  simpl. rewrite Hr.
  destruct (IH (MkStore (delete p (lcells st)) (lbrk st)) Hn) as (st' & E & H1 & H2).
  { eapply Forall_impl; [apply Forall_and; split; [exact Hl|]|].
    - apply Forall_forall. intros q Hq. instantiate (1 := λ q, q ≠ p). intros ->. done.
    - intros q [(? & r' & ? & ?) ?]. split; [done|]. exists r'. simpl.
      by rewrite lookup_delete_ne. }
  exists st'. split; [exact E|]. split.
  - intros q [->|Hq]%elem_of_cons; [|auto]. rewrite H2 by done. simpl. apply lookup_delete_eq.
  - intros q Hq. apply not_elem_of_cons in Hq as [? ?]. rewrite H2 by done. simpl.
    by rewrite lookup_delete_ne.
Qed.

Definition store_ok (st : link_store) : Prop :=
  0 < lbrk st ∧ ∀ p r, lcells st !! p = Some r → p < lbrk st.

(** The messages the guards of the three handlers refuse. *)
Definition refused (s : ST) (c : finsCtrlFrame) : bool :=
  if param_id c =? 0 then flows_max (fm s) <? data_len c
  else if param_id c =? 1 then negb (data_len c =? sizeof_linked_list)
  else negb (data_len c =? sizeof_module_table) ||
       match cdata c with
       | CTable t => (flows_max (fm s) <? flows_num t)
                     || match link_list t with Some _ => false | None => true end
       | _ => false
       end.

(** The messages a module receives: one that is refused; the flows, once the
    module has links; a list of newly allocated links; or a table the core has
    built, all links it has being intact. *)
Inductive table_msg (s : ST) (c : finsCtrlFrame) : Prop :=
| TRefused :
    0 ≤ param_id c ≤ 2 → refused s c = true → table_msg s c
| TFlows fs l :
    param_id c = 0 → refused s c = false → cdata c = CFlows fs →
    data_len c = Z.of_nat (length fs) → link_list (mt s) = Some l →
    table_msg s c
| TLinks l :
    param_id c = 1 → refused s c = false → cdata c = CLinks l →
    NoDup l → Forall (link_ok (lcells (store s))) l →
    (∀ l', link_list (mt s) = Some l' → ∀ p, p ∈ l → p ∉ l') →
    table_msg s c
| TDual t overall index ids junk st st' :
    param_id c = 2 → refused s c = false → cdata c = CTable t →
    core_update overall index ids junk st = Ok (t, st') → store_ok st →
    Forall (link_ok (lcells st)) overall → (length ids ≤ length junk)%nat →
    lcells st' ⊆ lcells (store s) →
    table_msg s c.

(** What a message that is not refused makes of the table. *)
Definition applied (s : ST) (c : finsCtrlFrame) (s' : ST) : Prop :=
  match cdata c with
  | CFlows fs =>
      link_list (mt s') = link_list (mt s) ∧ flows_num (mt s') = Z.of_nat (length fs) ∧
      ∀ i f, fs !! i = Some f → ∃ f', flows (mt s') !! i = Some f' ∧ link_id f' = link_id f
  | CLinks l => link_list (mt s') = Some l ∧ flows_num (mt s') = flows_num (mt s)
  | CTable t => link_list (mt s') = link_list t ∧ flows_num (mt s') = flows_num t
  | _ => False
  end.

(** The dispatch on [param_id] that the [_set_param] functions share; other
    parameters are answered with a refusal. *)
Definition set_param (ff : finsFrame) : M ST unit :=
  c ← ff_ctrl ff;
  if param_id c =? 0 then module_set_param_flows ff
  else if param_id c =? 1 then module_set_param_links ff
  else if param_id c =? 2 then module_set_param_dual ff
  else module_reply_fcf ff FCF_FALSE 0.

Definition mod_ok (s : ST) : Prop :=
  table_ok (lcells (store s)) (mt s) ∧ Z.of_nat (length (flows (mt s))) = flows_max (fm s).

Lemma free_ff_ctrl s ff c :
  body ff = Ctrl c → free_ff ff s = Ok (tt, set_freed (freed s ++ [ff]) s).
Proof. intros Hb. unfold free_ff, lift, freeFinsFrame, mbind, M_bind, modify. by rewrite Hb. Qed.

Lemma set_flows_ok s ff c fs l :
  mod_ok s → body ff = Ctrl c → cdata c = CFlows fs → data_len c = Z.of_nat (length fs) →
  data_len c ≤ flows_max (fm s) → link_list (mt s) = Some l →
  ∃ fs', module_set_param_flows ff s =
      Ok (tt, set_freed (freed s ++ [ff]) (set_mt (MkTable (Some l) (data_len c) fs') s)) ∧
    table_ok (lcells (store s)) (MkTable (Some l) (data_len c) fs') ∧
    length fs' = length (flows (mt s)) ∧
    ∀ i f, fs !! i = Some f → ∃ f', fs' !! i = Some f' ∧ link_id f' = link_id f.
Proof.
  intros [[Hnum Htl Htf] Hmax] Hb Hd Hlen Hle Hl. destruct (Htl _ Hl) as [Hnd Hall].
  assert (Hids : (length (link_id <$> fs) ≤ length (flows (mt s)))%nat) by (rewrite length_fmap; lia).
  destruct (store_flows_ok _ l (link_id <$> fs) 0 (flows (mt s)) Hall Hids)
    as (fs' & E & Hl' & _ & Hids').
  exists fs'. split; [|split; [|split; [done|]]].
  - unfold module_set_param_flows, ff_ctrl. rewrite Hb.
    erewrite bind_ok; [|done]. erewrite bind_ok; [|done].
    destruct (Z.ltb_spec (flows_max (fm s)) (data_len c)); [lia|].
    rewrite Hd. erewrite bind_ok; [|unfold lift; rewrite flow_ids_ok by lia; done].
    rewrite Hlen, Nat2Z.id, take_ge by done. rewrite Hl.
    erewrite bind_ok; [|unfold lift; rewrite E; done].
    erewrite bind_ok; [|done]. by erewrite free_ff_ctrl.
  - rewrite Hlen. pose proof (table_ok_stored _ _ _ _ _ Hnd Hall E Hids) as Ht.
    by rewrite length_fmap in Ht.
  - intros i f Hf. destruct (Hids' i (link_id f)) as (f' & ? & ? & _).
    { rewrite list_lookup_fmap, Hf. done. }
    eauto.
Qed.

Lemma set_links_ok s ff c l :
  mod_ok s → body ff = Ctrl c → cdata c = CLinks l → data_len c = sizeof_linked_list →
  NoDup l → Forall (link_ok (lcells (store s))) l →
  (∀ l', link_list (mt s) = Some l' → ∀ p, p ∈ l → p ∉ l') →
  ∃ s', module_set_param_links ff s = Ok (tt, s') ∧ mod_ok s' ∧
    link_list (mt s') = Some l ∧ flows_num (mt s') = flows_num (mt s) ∧ fm s' = fm s ∧
    (∀ p, lcells (store s') !! p =
       if decide (p ∈ default [] (link_list (mt s))) then None else lcells (store s) !! p).
Proof.
  intros [[Hnum Htl Htf] Hmax] Hb Hd Hlen Hnd Hall Hdisj.
  unfold module_set_param_links, ff_ctrl. rewrite Hb.
  erewrite bind_ok; [|done]. erewrite bind_ok; [|done]. rewrite Hlen, Z.eqb_refl. cbn [negb].
  assert (Hfree : ∃ st', (match link_list (mt s) with
      | Some l => on_store (free_links l) | None => mret tt end : M ST unit) s
      = Ok (tt, set_store st' s) ∧ ∀ p, lcells st' !! p =
       if decide (p ∈ default [] (link_list (mt s))) then None else lcells (store s) !! p).
  { destruct (link_list (mt s)) as [l'|] eqn:El; simpl.
    - destruct (Htl l' eq_refl) as [Hnd' Hall'].
      destruct (free_links_ok l' (store s) Hnd' Hall') as (st' & E & H1 & H2).
      exists st'. unfold on_store. rewrite E. split; [done|].
      intros p. destruct (decide (p ∈ l')); auto.
    - exists (store s). split; [by destruct s|]. intros p. destruct (decide (p ∈ [])) as [Hp|]; [by apply not_elem_of_nil in Hp|done]. }
  destruct Hfree as (st' & E & Hst'). erewrite bind_ok; [|exact E].
  rewrite Hd. erewrite bind_ok; [|done]. erewrite bind_ok; [|done]. cbn [mt set_store store].
  erewrite bind_ok; [|unfold lift; rewrite flow_ids_ok by lia; done].
  assert (Hall2 : Forall (link_ok (lcells st')) l).
  { apply Forall_forall. intros p Hp. rewrite Forall_forall in Hall.
    destruct (Hall p Hp) as (? & r & ? & ?). split; [done|]. exists r. rewrite Hst'.
    destruct (decide (p ∈ default [] (link_list (mt s)))) as [Hin|]; [|done].
    destruct (link_list (mt s)) as [l'|]; simpl in Hin.
    - by destruct (Hdisj l' eq_refl p Hp).
    - by apply not_elem_of_nil in Hin. }
  set (ids := link_id <$> take (Z.to_nat (flows_num (mt s))) (flows (mt s))).
  assert (Hidl : length ids = Z.to_nat (flows_num (mt s))).
  { unfold ids. rewrite length_fmap, length_take. lia. }
  destruct (store_flows_ok _ l ids 0 (flows (mt s)) Hall2) as (fs' & E2 & L2 & _); [lia|].
  erewrite bind_ok; [|unfold lift; rewrite E2; done].
  erewrite bind_ok; [|done]. erewrite free_ff_ctrl; [|done].
  eexists. split; [done|]. simpl. split; [|done]. split; [|simpl; by rewrite L2].
  simpl. pose proof (table_ok_stored _ _ _ _ _ Hnd Hall2 E2) as Ht.
  rewrite Hidl, Z2Nat.id in Ht by lia. apply Ht. lia.
Qed.

Lemma set_dual_ok s ff c t l :
  mod_ok s → body ff = Ctrl c → cdata c = CTable t → data_len c = sizeof_module_table →
  link_list t = Some l → table_ok (lcells (store s)) t → flows_num t ≤ flows_max (fm s) →
  ∃ s', module_set_param_dual ff s = Ok (tt, s') ∧ mod_ok s' ∧
    link_list (mt s') = Some l ∧ flows_num (mt s') = flows_num t ∧ fm s' = fm s ∧
    store s' = store s.
Proof.
  intros [[Hnum Htl Htf] Hmax] Hb Hd Hlen Hl [Tnum Ttl Ttf] Hle.
  unfold module_set_param_dual, ff_ctrl. rewrite Hb.
  erewrite bind_ok; [|done]. erewrite bind_ok; [|done]. rewrite Hlen, Z.eqb_refl, Hd, Hl.
  cbn [negb]. destruct (Z.ltb_spec (flows_max (fm s)) (flows_num t)); [lia|].
  do 2 (case_decide; [|lia]).
  erewrite bind_ok; [|done]. erewrite free_ff_ctrl; [|done].
  eexists. split; [done|]. simpl. split; [|done].
  split; simpl; [|rewrite length_app, length_take, length_drop; lia].
  split; simpl.
  - rewrite length_app, length_take. lia.
  - intros ? [= <-]. by apply Ttl.
  - intros i f Hi Hf. rewrite lookup_app_l in Hf by (rewrite length_take; lia).
    rewrite lookup_take_lt in Hf by lia. destruct (Ttf i f Hi Hf) as (l' & E' & ?).
    rewrite Hl in E'. injection E' as <-. eauto.
Qed.

(** Control messages arriving one after the other. *)
Inductive table_steps : ST → ST → Prop :=
| ts_refl s : table_steps s s
| ts_step s c ff s1 s2 :
    body ff = Ctrl c → table_msg s c → set_param ff s = Ok (tt, s1) →
    table_steps s1 s2 → table_steps s s2.

Lemma link_ok_mono h h' p : h ⊆ h' → link_ok h p → link_ok h' p.
Proof.
  intros Hs (? & r & ? & ?). split; [done|]. exists r. split; [|done]. by eapply lookup_weaken.
Qed.

Lemma table_ok_mono h h' t : h ⊆ h' → table_ok h t → table_ok h' t.
Proof.
  intros Hs [H1 H2 H3]. split; [done| |].
  - intros l Hl. destruct (H2 l Hl) as [Hn Hf]. split; [done|].
    eapply Forall_impl; [exact Hf|]. intros p. by apply link_ok_mono.
  - intros i f Hi Hf. destruct (H3 i f Hi Hf) as (l & Hl & E). exists l. split; [done|].
    rewrite <-E. apply find_link_agree. intros p Hp. destruct (H2 l Hl) as [_ Hall].
    rewrite Forall_forall in Hall. destruct (Hall p Hp) as (_ & r & Hr & _).
    rewrite Hr. by eapply lookup_weaken.
Qed.

(** The copies are new records with the contents of links from [index]. *)
Lemma filter_links_ok index l st :
  store_ok st → Forall (link_ok (lcells st)) l →
  ∃ l' st', filter_links index l st = Ok (l', st') ∧ store_ok st' ∧
    lcells st ⊆ lcells st' ∧ NoDup l' ∧ Forall (link_ok (lcells st')) l' ∧
    Forall (λ q, lbrk st ≤ q) l'.
Proof.
  revert st. induction l as [|p l IH]; intros st Hst Hl.
  { exists [], st. split_and!; auto. constructor. }
  apply Forall_cons in Hl as [(Hp & r & Hr & Hd) Hl]. cbn [filter_links]. rewrite Hr.
  destruct (link_src_test index r); [|by apply IH].
  destruct Hst as [Hpos Hlt].
  assert (Hfr : lcells st !! lbrk st = None).
  { destruct (lcells st !! lbrk st) eqn:E; [|done]. apply Hlt in E. lia. }
  set (st1 := MkStore (<[lbrk st := r]> (lcells st)) (lbrk st + 1)).
  assert (Hsub1 : lcells st ⊆ lcells st1) by (by apply insert_subseteq).
  destruct (IH st1) as (l' & st2 & E & Hst2 & Hsub & Hnd & Hok & Hge).
  { split; simpl; [lia|]. intros q r' [[<- _]|[_ Hq]]%lookup_insert_Some; [lia|].
    apply Hlt in Hq. lia. }
  { eapply Forall_impl; [exact Hl|]. intros x. by apply link_ok_mono. }
  assert (H1 : lcells st2 !! lbrk st = Some r).
  { eapply lookup_weaken; [|exact Hsub]. simpl. apply lookup_insert_eq. }
  exists (lbrk st :: l'), st2. split_and!.
  - erewrite bind_ok; [|unfold link_clone; by rewrite Hr].
    fold st1. erewrite bind_ok; [|exact E]. done.
  - done.
  - by etrans.
  - constructor; [|done]. intros Hin. eapply Forall_forall in Hge; [|exact Hin]. simpl in Hge. lia.
  - constructor; [|done]. split; [lia|]. eauto.
  - constructor; [lia|]. eapply Forall_impl; [exact Hge|]. simpl. lia.
Qed.

(** The tables the core sends are consistent. *)
Lemma core_update_ok overall index ids junk st :
  store_ok st → Forall (link_ok (lcells st)) overall → (length ids ≤ length junk)%nat →
  ∃ l fs st', let t := MkTable (Some l) (Z.of_nat (length ids)) fs in
    core_update overall index ids junk st = Ok (t, st') ∧ table_ok (lcells st') t ∧
    lcells st ⊆ lcells st'.
Proof.
  intros Hst Hov Hlen.
  destruct (filter_links_ok index overall st Hst Hov) as (l & st' & E & _ & Hsub & Hnd & Hok & _).
  destruct (store_flows_ok (lcells st') l ids 0 junk Hok) as (fs & Ef & _); [lia|].
  exists l, fs, st'. split; [unfold core_update; by rewrite E, Ef|].
  split; [by eapply table_ok_stored|done].
Qed.

Lemma set_param_refused s ff c :
  body ff = Ctrl c → 0 ≤ param_id c ≤ 2 → refused s c = true →
  set_param ff s = Ok (tt, set_freed (freed s ++ [ff]) s).
Proof.
  intros Hb Hp Hr. unfold set_param, refused in *.
  erewrite bind_ok; [|unfold ff_ctrl; by rewrite Hb].
  destruct (Z.eqb_spec (param_id c) 0).
  { unfold module_set_param_flows. erewrite bind_ok; [|unfold ff_ctrl; by rewrite Hb].
    erewrite bind_ok; [|done]. rewrite Hr. by erewrite free_ff_ctrl. }
  destruct (Z.eqb_spec (param_id c) 1).
  { unfold module_set_param_links. erewrite bind_ok; [|unfold ff_ctrl; by rewrite Hb].
    erewrite bind_ok; [|done]. rewrite Hr. by erewrite free_ff_ctrl. }
  destruct (Z.eqb_spec (param_id c) 2); [|exfalso; clear Hr; lia].
  unfold module_set_param_dual. erewrite bind_ok; [|unfold ff_ctrl; by rewrite Hb].
  erewrite bind_ok; [|done]. destruct (data_len c =? sizeof_module_table); cbn [negb orb] in *.
  2: { by erewrite free_ff_ctrl. }
  destruct (cdata c); try done. destruct (link_list _); [|by erewrite free_ff_ctrl].
  rewrite orb_false_r in Hr. rewrite Hr. by erewrite free_ff_ctrl.
Qed.

Lemma set_param_msg s ff c :
  mod_ok s → body ff = Ctrl c → table_msg s c →
  ∃ s', set_param ff s = Ok (tt, s') ∧ mod_ok s' ∧
    if refused s c then s' = set_freed (freed s ++ [ff]) s else applied s c s'.
Proof.
  intros Hok Hb Hmsg.
  destruct Hmsg as [Hp Hr|fs l Hp Hr Hd Hlen Hl|l Hp Hr Hd Hnd Hall Hdj
    |t ov ix ids junk st st' Hp Hr Hd Hcu Hst Hov Hids Hsub]; rewrite Hr.
  { eexists. split; [apply (set_param_refused s ff c); eauto|]. by split. }
  all: unfold set_param; erewrite bind_ok; [|unfold ff_ctrl; by rewrite Hb];
    unfold refused in Hr; rewrite Hp in Hr |- *; cbn [Z.eqb] in *; unfold applied; rewrite Hd.
  - apply Z.ltb_ge in Hr.
    destruct (set_flows_ok s ff c fs l) as (fs' & E & Ht & Hl' & Hids); [done..|].
    eexists. split; [exact E|]. split; [split; [done|]; simpl; rewrite Hl'; apply Hok|].
    simpl. by rewrite Hlen.
  - apply negb_false_iff, Z.eqb_eq in Hr.
    destruct (set_links_ok s ff c l) as (s' & E & Hok' & ? & ? & _); [done..|]. eauto 10.
  - change (2 =? 0) with false in Hr. change (2 =? 1) with false in Hr. cbv iota in Hr.
    apply orb_false_iff in Hr as [Hr Hr2]. apply negb_false_iff, Z.eqb_eq in Hr. rewrite Hd in Hr2.
    apply orb_false_iff in Hr2 as [Hle%Z.ltb_ge _].
    destruct (core_update_ok ov ix ids junk st Hst Hov Hids) as (l & fs & st2 & E & Ht & _).
    rewrite E in Hcu. injection Hcu as <- <-.
    destruct (set_dual_ok s ff c (MkTable (Some l) (Z.of_nat (length ids)) fs) l)
      as (s' & E' & Hok' & ? & ? & _); [done..|by eapply table_ok_mono|done|]. eauto 10.
Qed.

(** ** Reading the table back *)

Lemma clone_links_ok l st :
  store_ok st → Forall (link_ok (lcells st)) l →
  ∃ l' st', clone_links l st = Ok (l', st') ∧ store_ok st' ∧
    lcells st ⊆ lcells st' ∧ NoDup l' ∧ Forall (link_ok (lcells st')) l' ∧
    Forall (λ q, lbrk st ≤ q) l' ∧
    Forall2 (λ p q, lcells st' !! q = lcells st' !! p) l l'.
Proof.
  revert st. induction l as [|p l IH]; intros st Hst Hl.
  { exists [], st. split_and!; auto. constructor. }
  apply Forall_cons in Hl as [(Hp & r & Hr & Hd) Hl]. destruct Hst as [Hpos Hlt].
  assert (Hfr : lcells st !! lbrk st = None).
  { destruct (lcells st !! lbrk st) eqn:E; [|done]. apply Hlt in E. lia. }
  set (st1 := MkStore (<[lbrk st := r]> (lcells st)) (lbrk st + 1)).
  assert (Hsub1 : lcells st ⊆ lcells st1) by (by apply insert_subseteq).
  destruct (IH st1) as (l' & st2 & E & Hst2 & Hsub & Hnd & Hok & Hge & Heq).
  { split; simpl; [lia|]. intros q r' [[<- _]|[_ Hq]]%lookup_insert_Some; [lia|].
    apply Hlt in Hq. lia. }
  { eapply Forall_impl; [exact Hl|]. intros x. by apply link_ok_mono. }
  assert (H1 : lcells st2 !! lbrk st = Some r).
  { eapply lookup_weaken; [|exact Hsub]. simpl. apply lookup_insert_eq. }
  exists (lbrk st :: l'), st2. split_and!.
  - cbn [clone_links]. erewrite bind_ok; [|unfold link_clone; by rewrite Hr].
    fold st1. erewrite bind_ok; [|exact E]. done.
  - done.
  - by etrans.
  - constructor; [|done]. intros Hin. eapply Forall_forall in Hge; [|exact Hin]. simpl in Hge. lia.
  - constructor; [|done]. split; [lia|]. eauto.
  - constructor; [lia|]. eapply Forall_impl; [exact Hge|]. simpl. lia.
  - constructor; [|done]. rewrite H1. symmetry. eapply lookup_weaken; [exact Hr|]. by etrans.
Qed.

Lemma reply_fcf_ok s xs ff c m op rv msg :
  metaData ff = Some m → int_key m "ret_msg" = true → body ff = Ctrl c →
  reply_opcode (opcode c) = Ok op → room s xs 1 →
  ∃ s', module_reply_fcf ff rv msg s = Ok (tt, s') ∧ md s' = md s ∧
    eff s xs s' [MkFrame (sender_id c) (Some (put_member m "ret_msg" (SInt (s32 msg))))
       (Ctrl (MkCtrl (u8 (m_index (fm s))) (serial_num c) op (param_id c) rv
                (data_len c) (cdata c)))] [].
Proof.
  intros Hm Hk Hb Hop Hr. unfold module_reply_fcf.
  erewrite bind_ok.
  2: { unfold ff_write, ff_meta. rewrite Hm. erewrite bind_ok; [|done].
       by rewrite (write_int_ok _ _ _ Hk). }
  erewrite bind_ok; [|unfold ff_ctrl; simpl; by rewrite Hb]. erewrite bind_ok; [|done].
  erewrite bind_ok; [|unfold lift; by rewrite Hop].
  destruct (module_to_switch_ok s xs (MkFrame (sender_id c)
    (Some (put_member m "ret_msg" (SInt (s32 msg))))
    (Ctrl (MkCtrl (u8 (m_index (fm s))) (serial_num c) op (param_id c) rv
      (data_len c) (cdata c)))) Hr) as (s' & E & F & Hmd).
  exists s'. auto.
Qed.

End Module.

(** ** Properties *)

(** sending on a flow with a consistent link table delivers the frame to
    every destination of the flow's link exactly once: copies of the
    frame for the destinations after the first, in order, then the frame
    itself for the first; it returns their number, and 0 with nothing sent
    when the flow has no destination. *)
Theorem module_send_flow_multicast {Q D} `{BoundedFifo Q finsFrame} (s : mstate Q D) xs ff flow :
  frame_ok ff → 0 ≤ flow → table_ok (lcells (store s)) (mt s) →
  room s xs (length (flow_dsts s flow)) →
  ∃ s', module_send_flow ff flow s = Ok (Z.of_nat (length (flow_dsts s flow)), s') ∧
    eff s xs s' (sent_copies ff (flow_dsts s flow)) [] ∧ md s' = md s.
Proof. apply send_flow_ok. Qed.

(** A module with two links: flow 0 leads to modules 4 and 5, flow 1 nowhere. *)
Definition demo_store : link_store :=
  MkStore {[ 8 := MkLink 1 3 2 (4 :: 5 :: replicate 30 0);
             9 := MkLink 2 3 0 (replicate 32 0) ]} 10.
Definition demo_table : fins_module_table :=
  MkTable (Some [8; 9]) 2 [MkFlow 1 8; MkFlow 2 9; MkFlow 0 0].
Definition demo_state : mstate (QueueRecord finsFrame) unit :=
  MkSt (MkMod FMS_RUNNING 3 3 3 (init_queue 10) (init_queue 10)) demo_table tt demo_store [] 0.

Lemma demo_rep : qinv (init_queue (A := finsFrame) 10) [].
Proof. by apply create_qrep. Qed.

Lemma demo_mod_ok : mod_ok demo_state.
Proof.
  assert (Hl : Forall (link_ok (lcells demo_store)) [8; 9]).
  { repeat constructor; eexists; (split; [vm_compute; reflexivity|]); simpl; lia. }
  split; [|reflexivity]. split; simpl.
  - lia.
  - intros l [= <-]. split; [|done]. repeat constructor; set_solver.
  - intros [|[|[|i]]] f Hi Hf; simpl in *; simplify_eq; try lia; exists [8; 9]; split; reflexivity.
Qed.

(** An instance: one frame, two destinations. *)
Lemma module_send_flow_multicast_witness :
  let ff := MkFrame 0 (Some []) (Data (MkData DIR_UP 2 (Some [1;2]))) in
  ∃ s', module_send_flow ff 0 demo_state = Ok (2, s') ∧
    eff demo_state [] s' [set_dest 5 ff; set_dest 4 ff] [] ∧ md s' = tt.
Proof.
  apply (module_send_flow_multicast demo_state []
    (MkFrame 0 (Some []) (Data (MkData DIR_UP 2 (Some [1;2])))) 0); simpl.
  - split; [reflexivity|]. exists []. split; reflexivity.
  - lia.
  - apply demo_mod_ok.
  - split; [apply demo_rep|]. vm_compute. discriminate.
Defined.

(** C39: over any sequence of link-table messages (refused ones, flows, links,
    and tables as the core builds them) the module's table stays consistent:
    every flow in use is NULL or points to the record with its identifier, an
    allocated record of the module's own link list.  The next such message is
    again processed without fault: refused, with only the frame released, or
    applied. *)
Theorem link_table_invariant {Q D} `{BoundedFifo Q finsFrame} (s s' : mstate Q D) :
  mod_ok s → table_steps s s' →
  mod_ok s' ∧
  ∀ ff c, body ff = Ctrl c → table_msg s' c →
    ∃ s'', set_param ff s' = Ok (tt, s'') ∧ mod_ok s'' ∧
      if refused s' c then s'' = set_freed (freed s' ++ [ff]) s' else applied s' c s''.
Proof.
  intros Hok Hst. cut (mod_ok s').
  { intros Hok'. split; [done|]. intros. by eapply set_param_msg. }
  induction Hst as [|s c ff s1 s2 Hb Hmsg E _ IH]; [done|].
  apply IH. destruct (set_param_msg s ff c) as (s1' & E' & ? & _); [done..|].
  rewrite E in E'. by injection E' as <-.
Qed.

(** The core's table for module 3 with the flows 1, 2 and 7, built from the
    links of [demo_store], and the module when it arrives. *)
Definition demo_update : res (fins_module_table * link_store) :=
  core_update [8; 9] 3 [1; 2; 7] (replicate MAX_MOD_FLOWS (MkFlow 0 0)) demo_store.
Definition demo_state3 : mstate (QueueRecord finsFrame) unit :=
  set_store (match demo_update with Ok (_, st) => st | _ => demo_store end) demo_state.
Definition demo_too_many : finsFrame :=
  MkFrame 3 (Some []) (Ctrl (MkCtrl 8 1 CTRL_SET_PARAM 0 0 4 (CFlows (replicate 4 (MkFlow 1 0))))).

Lemma demo_store_ok : store_ok demo_store.
Proof.
  split; [done|]. intros p r Hp. simpl in Hp.
  apply lookup_insert_Some in Hp as [[<- _]|[_ Hp]]; [done|].
  apply lookup_singleton_Some in Hp as [<- _]. done.
Qed.

Lemma demo3_mod_ok : mod_ok demo_state3.
Proof.
  destruct demo_mod_ok as [Ht Hl]. split; [|done]. eapply table_ok_mono; [|exact Ht].
  destruct (core_update_ok [8; 9] 3 [1; 2; 7] (replicate MAX_MOD_FLOWS (MkFlow 0 0)) demo_store)
    as (l & fs & st' & E & _ & Hs).
  - apply demo_store_ok.
  - apply (tok_list _ _ Ht [8; 9]). done.
  - rewrite length_replicate. unfold MAX_MOD_FLOWS. simpl. lia.
  - unfold demo_state3, demo_update. by rewrite E.
Qed.

(** Witness of C39: four flows are too many for the module and refused, then
    the table of the core is applied; its flow 7 is NULL. *)
Lemma link_table_invariant_witness :
  ∃ t st s'', demo_update = Ok (t, st) ∧
    let c := MkCtrl 0 2 CTRL_SET_PARAM 2 0 sizeof_module_table (CTable t) in
    let s' := set_freed [demo_too_many] demo_state3 in
    set_param demo_too_many demo_state3 = Ok (tt, s') ∧
    set_param (MkFrame 3 (Some []) (Ctrl c)) s' = Ok (tt, s'') ∧ mod_ok s'' ∧
    link_list (mt s'') = Some [10; 11] ∧ flows_num (mt s'') = 3.
Proof.
  destruct demo_update as [[t st]| | |] eqn:E; [|vm_compute in E; discriminate..].
  set (c1 := MkCtrl 8 1 CTRL_SET_PARAM 0 0 4 (CFlows (replicate 4 (MkFlow 1 0)))).
  set (c := MkCtrl 0 2 CTRL_SET_PARAM 2 0 sizeof_module_table (CTable t)).
  set (s' := set_freed [demo_too_many] demo_state3).
  assert (E1 : set_param demo_too_many demo_state3 = Ok (tt, s')) by (vm_compute; reflexivity).
  destruct (link_table_invariant demo_state3 s') as [Hok Hnext].
  - apply demo3_mod_ok.
  - apply (ts_step demo_state3 c1 demo_too_many s' s'); [done| |exact E1|constructor].
    apply TRefused; [simpl; lia|reflexivity].
  - destruct (Hnext (MkFrame 3 (Some []) (Ctrl c)) c) as (s'' & E2 & Hok2 & Hap); [done| |].
    + assert (Et : t = match demo_update with Ok (t, _) => t | _ => demo_table end) by (by rewrite E).
      eapply (TDual s' c t [8; 9] 3 [1; 2; 7] (replicate MAX_MOD_FLOWS (MkFlow 0 0)) demo_store st);
        [done| |done|exact E| | | |].
      * unfold c. rewrite Et. vm_compute. reflexivity.
      * apply demo_store_ok.
      * apply (tok_list _ _ (proj1 demo_mod_ok) [8; 9]). done.
      * rewrite length_replicate. unfold MAX_MOD_FLOWS. simpl. lia.
      * unfold s', demo_state3. simpl. by rewrite E.
    + assert (Et : t = match demo_update with Ok (t, _) => t | _ => demo_table end) by (by rewrite E).
      assert (Hr : refused s' c = false) by (unfold c; rewrite Et; vm_compute; reflexivity).
      rewrite Hr in Hap. destruct Hap as [Hl Hn]. exists t, st, s''.
      split; [done|]. cbv zeta. split; [exact E1|]. split; [exact E2|]. split; [exact Hok2|].
      split; [rewrite Hl|rewrite Hn]; rewrite Et; vm_compute; reflexivity.
Defined.

(** replacing the link list frees exactly the records of the old list
    and re-resolves the flows in use against the new one, while the combined
    message leaves every old record allocated (they are leaked). *)
Theorem set_links_frees_old {Q D} `{BoundedFifo Q finsFrame} (s : mstate Q D) ff c l ffd cd t ld :
  mod_ok s →
  body ff = Ctrl c → cdata c = CLinks l → data_len c = sizeof_linked_list →
  NoDup l → Forall (link_ok (lcells (store s))) l →
  (∀ l', link_list (mt s) = Some l' → ∀ p, p ∈ l → p ∉ l') →
  body ffd = Ctrl cd → cdata cd = CTable t → data_len cd = sizeof_module_table →
  link_list t = Some ld → table_ok (lcells (store s)) t → flows_num t ≤ flows_max (fm s) →
  (∃ s', module_set_param_links ff s = Ok (tt, s') ∧ mod_ok s' ∧
     link_list (mt s') = Some l ∧ flows_num (mt s') = flows_num (mt s) ∧
     ∀ p, lcells (store s') !! p =
       if decide (p ∈ default [] (link_list (mt s))) then None else lcells (store s) !! p) ∧
  (∃ s', module_set_param_dual ffd s = Ok (tt, s') ∧ mod_ok s' ∧
     link_list (mt s') = Some ld ∧ flows_num (mt s') = flows_num t ∧ store s' = store s).
Proof.
  intros Hok Hb Hd Hl Hnd Hall Hdj Hbd Hdd Hld Hlt Htt Hle. split.
  - destruct (set_links_ok s ff c l) as (s' & ? & ? & ? & ? & ? & ?); [done..|]. eauto 10.
  - destruct (set_dual_ok s ffd cd t ld) as (s' & ? & ? & ? & ? & ? & ?); [done..|]. eauto 10.
Qed.

(** The demonstration module plus one more allocated record. *)
Definition demo_state2 : mstate (QueueRecord finsFrame) unit :=
  MkSt (fm demo_state) demo_table tt
    (MkStore (<[10 := MkLink 3 3 1 (6 :: replicate 31 0)]> (lcells demo_store)) 11) [] 0.

Lemma demo2_mod_ok : mod_ok demo_state2.
Proof.
  assert (Hl : Forall (link_ok (lcells (store demo_state2))) [8; 9]).
  { repeat constructor; eexists; (split; [vm_compute; reflexivity|]); simpl; lia. }
  split; [|reflexivity]. split; simpl.
  - lia.
  - intros l [= <-]. split; [|done]. repeat constructor; set_solver.
  - intros [|[|[|i]]] f Hi Hf; simpl in *; simplify_eq; try lia; exists [8; 9]; split; reflexivity.
Qed.

(** An instance. *)
Lemma set_links_frees_old_witness :
  let s := demo_state2 in
  let c := MkCtrl 8 1 CTRL_SET_PARAM 1 0 24 (CLinks [10]) in
  let cd := MkCtrl 8 2 CTRL_SET_PARAM 2 0 4112 (CTable demo_table) in
  (∃ s', module_set_param_links (MkFrame 3 (Some []) (Ctrl c)) s = Ok (tt, s') ∧ mod_ok s' ∧
     link_list (mt s') = Some [10] ∧ flows_num (mt s') = 2 ∧
     ∀ p, lcells (store s') !! p =
       if decide (p ∈ [8; 9]) then None else lcells (store s) !! p) ∧
  (∃ s', module_set_param_dual (MkFrame 3 (Some []) (Ctrl cd)) s = Ok (tt, s') ∧ mod_ok s' ∧
     link_list (mt s') = Some [8; 9] ∧ flows_num (mt s') = 2 ∧ store s' = store s).
Proof.
  apply (set_links_frees_old demo_state2
    (MkFrame 3 (Some []) (Ctrl (MkCtrl 8 1 CTRL_SET_PARAM 1 0 24 (CLinks [10]))))
    (MkCtrl 8 1 CTRL_SET_PARAM 1 0 24 (CLinks [10])) [10]
    (MkFrame 3 (Some []) (Ctrl (MkCtrl 8 2 CTRL_SET_PARAM 2 0 4112 (CTable demo_table))))
    (MkCtrl 8 2 CTRL_SET_PARAM 2 0 4112 (CTable demo_table)) demo_table [8; 9]);
    try reflexivity.
  - apply demo2_mod_ok.
  - repeat constructor. set_solver.
  - repeat constructor. eexists. split; [vm_compute; reflexivity|]. simpl. lia.
  - intros l' [= <-] p Hp. set_solver.
  - apply demo2_mod_ok.
  - simpl. lia.
Defined.

(** a request is answered by exactly one frame to its sender, with the
    reply opcode of the request, the module as sender, the given result and
    the result message in the metadata; any other opcode ends the process. *)
Theorem module_reply_once {Q D} `{BoundedFifo Q finsFrame} (s : mstate Q D) xs ff c m rv msg :
  metaData ff = Some m → int_key m "ret_msg" = true → body ff = Ctrl c → room s xs 1 →
  match reply_opcode (opcode c) with
  | Ok op =>
      ∃ s', module_reply_fcf ff rv msg s = Ok (tt, s') ∧ md s' = md s ∧
        eff s xs s' [MkFrame (sender_id c) (Some (put_member m "ret_msg" (SInt (s32 msg))))
          (Ctrl (MkCtrl (u8 (m_index (fm s))) (serial_num c) op (param_id c) rv
                   (data_len c) (cdata c)))] []
  | _ => module_reply_fcf ff rv msg s = Exit
  end ∧
  (reply_opcode (opcode c) = Exit ↔ opcode c ∉ [CTRL_ALERT; CTRL_READ_PARAM; CTRL_SET_PARAM; CTRL_EXEC]).
Proof.
  intros Hm Hk Hb Hr.
  assert (Hcases : reply_opcode (opcode c) = Exit ∨ ∃ op, reply_opcode (opcode c) = Ok op).
  { unfold reply_opcode. repeat case_match; eauto. }
  split.
  - destruct Hcases as [E|[op E]]; rewrite E; [|by eapply reply_fcf_ok].
    unfold module_reply_fcf. erewrite bind_ok.
    2: { unfold ff_write, ff_meta. rewrite Hm. erewrite bind_ok; [|done].
         by rewrite (write_int_ok _ _ _ Hk). }
    erewrite bind_ok; [|unfold ff_ctrl; simpl; by rewrite Hb]. erewrite bind_ok; [|done].
    unfold lift, mbind, M_bind. by rewrite E.
  - rewrite !not_elem_of_cons. unfold reply_opcode.
    repeat match goal with |- context [?a =? ?b] => destruct (Z.eqb_spec a b) end;
      (split; [intros Heq|intros (? & ? & ? & ? & _)]); try done.
    split_and!; try done. apply not_elem_of_nil.
Qed.

(** An instance. *)
Lemma module_reply_once_witness :
  let c := MkCtrl 8 41 CTRL_SET_PARAM 7 0 0 CNull in
  (∃ s', module_reply_fcf (MkFrame 3 (Some []) (Ctrl c)) FCF_FALSE 0 demo_state = Ok (tt, s') ∧
     md s' = tt ∧
     eff demo_state [] s' [MkFrame 8 (Some [("ret_msg", SInt 0)])
       (Ctrl (MkCtrl 3 41 CTRL_SET_PARAM_REPLY 7 FCF_FALSE 0 CNull))] []) ∧
  (reply_opcode CTRL_SET_PARAM = Exit ↔
   CTRL_SET_PARAM ∉ [CTRL_ALERT; CTRL_READ_PARAM; CTRL_SET_PARAM; CTRL_EXEC]).
Proof.
  apply (module_reply_once demo_state [] (MkFrame 3 (Some [])
    (Ctrl (MkCtrl 8 41 CTRL_SET_PARAM 7 0 0 CNull))) (MkCtrl 8 41 CTRL_SET_PARAM 7 0 0 CNull)
    [] FCF_FALSE 0); [reflexivity..|].
  split; [apply demo_rep|]. simpl. lia.
Defined.
