(* ===== verification/IPv4.v ===== *)
(** * The IPv4 module: [modules/ipv4]

    The functions compiled into the module: [ipv4_checksum.c],
    [ipv4_const_header.c], [ipv4_in.c], [ipv4_out.c], [ipv4_send.c],
    [ipv4_forward.c] and [ipv4_receive.c].  Packets are byte lists; fields are read
    and written as little-endian host words and converted with [htons],
    [htonl] as the code does.  Reading past the end of a packet is [Segv]. *)

From stdpp Require Import base list gmap strings.
From Stdlib Require Import ZArith Lia.
From S2P Require Import Prelude Queue Metadata Frame Module.
Open Scope Z_scope.

(** ** Byte order *)

Definition htons (x : Z) : Z := (x mod 256) * 256 + (x / 256) mod 256.
Definition ntohs := htons.
Definition htonl (x : Z) : Z :=
  (x mod 256) * 16777216 + ((x / 256) mod 256) * 65536
  + ((x / 65536) mod 256) * 256 + (x / 16777216) mod 256.
Definition ntohl := htonl.

(** ** Data *)

Definition IP4_VERSION := 4.
Definition IP4_MIN_HLEN := 20.
Definition IP4_INIT_TTL := 255.
Definition IP4_MF := 1.
Definition IP4_DF := 2.
Definition IP4_FRAGOFF := 8191.
Definition IP4_PT_ICMP := 1.
Definition IP4_PT_TCP := 6.
Definition IP4_PT_UDP := 17.
Definition IP4_ETH_TYPE := 2048.
Definition IPV4_ADDR_ANY_IP := 0.
Definition IPV4_ADDR_EVERY_IP := 4294967295.
Definition IPV4_FLOW_INTERFACE := 0.
Definition IPV4_FLOW_ICMP := 1.
Definition IPV4_FLOW_TCP := 2.
Definition IPV4_FLOW_UDP := 3.
Definition IPV4_ADDRESS_LIST_MAX := 512.
Definition IPV4_ROUTE_LIST_MAX := 512.
Definition IPV4_ERROR_GET_ADDR := 2.

(** [struct ip4_packet_header], fields as stored in memory. *)
Record ip4_packet := MkPacket {
  ip_verlen : Z; ip_dif : Z; ip_len : Z; ip_id : Z; ip_fragoff : Z;
  ip_ttl : Z; ip_proto : Z; ip_cksum : Z; ip_src : Z; ip_dst : Z
}.

(** [struct ip4_header], in host order. *)
Record ip4_header := MkHeader {
  source : Z; destination : Z; version : Z; header_length : Z;
  differentiated_service : Z; packet_length : Z; h_id : Z; h_flags : Z;
  fragmentation_offset : Z; ttl : Z; protocol : Z; checksum : Z
}.

(** The counters of [struct ipv4_statistics] that the code updates. *)
Record ipv4_statistics := MkStats {
  badhlen : Z; badlen : Z; badsum : Z; badver : Z; delivered : Z; forwarded : Z;
  fragerror : Z; reassembled : Z; receivedtotal : Z; droppedtotal : Z
}.

Record ipv4_data := MkIpv4 {
  ip_addr_list : list addr_record;
  addr_loopback : option addr_record;
  addr_main : option addr_record;
  route_list : list route_record;
  unique_id : Z;
  ip_stats : ipv4_statistics
}.

(** The 20 bytes of the header structure. *)
Definition packet_bytes (p : ip4_packet) : list Z :=
  [ip_verlen p; ip_dif p] ++ le_bytes 2 (ip_len p) ++ le_bytes 2 (ip_id p)
  ++ le_bytes 2 (ip_fragoff p) ++ [ip_ttl p; ip_proto p] ++ le_bytes 2 (ip_cksum p)
  ++ le_bytes 4 (ip_src p) ++ le_bytes 4 (ip_dst p).

(** The structure a packet buffer is cast to. *)
Definition read_packet (b : list Z) : res ip4_packet :=
  match b with
  | vl :: df :: l0 :: l1 :: i0 :: i1 :: f0 :: f1 :: t :: p :: c0 :: c1 ::
    s0 :: s1 :: s2 :: s3 :: d0 :: d1 :: d2 :: d3 :: _ =>
      Ok (MkPacket vl df (le_value [l0; l1]) (le_value [i0; i1]) (le_value [f0; f1])
            t p (le_value [c0; c1]) (le_value [s0; s1; s2; s3]) (le_value [d0; d1; d2; d3]))
  | _ => Segv
  end.

(** ** ipv4_checksum.c *)

Fixpoint cksum_loop (nleft : nat) (w : list Z) (sum : Z) {struct nleft} : res Z :=
  match nleft with
  | S (S nleft) =>
      match w with
      | b0 :: b1 :: w => cksum_loop nleft w (sum + (b0 + 256 * b1))
      | _ => Segv
      end
  | _ => Ok sum
  end.

Definition cksum_fold (sum : Z) : Z :=
  let sum := Z.shiftr sum 16 + Z.land sum 65535 in
  let sum := sum + Z.shiftr sum 16 in
  u16 (Z.lnot sum).

Definition ipv4_checksum (ptr : list Z) (length : Z) : res Z :=
  match cksum_loop (Z.to_nat length) ptr 0 with
  | Ok sum => Ok (cksum_fold sum)
  | Segv => Segv | Exit => Exit | NoFuel => NoFuel
  end.

(** The parsed header of [ipv4_in_fdf]. *)
Definition parse_header (p : ip4_packet) : ip4_header :=
  MkHeader (ntohl (ip_src p)) (ntohl (ip_dst p))
    (Z.shiftr (ip_verlen p) 4) (u8 (Z.shiftl (Z.land (ip_verlen p) 15) 2))
    (ip_dif p) (ntohs (ip_len p)) (ntohs (ip_id p))
    (Z.land (Z.shiftr (ntohs (ip_fragoff p)) 13) 7)
    (Z.land (ntohs (ip_fragoff p)) IP4_FRAGOFF)
    (ip_ttl p) (ip_proto p) (ntohs (ip_cksum p)).

Definition set_ip_stats (st : ipv4_statistics) (d : ipv4_data) : ipv4_data :=
  MkIpv4 (ip_addr_list d) (addr_loopback d) (addr_main d) (route_list d) (unique_id d) st.

Definition inc_received (t : ipv4_statistics) :=
  MkStats (badhlen t) (badlen t) (badsum t) (badver t) (delivered t) (forwarded t) (fragerror t)
    (reassembled t) (u32 (receivedtotal t + 1)) (droppedtotal t).
Definition inc_dropped (t : ipv4_statistics) :=
  MkStats (badhlen t) (badlen t) (badsum t) (badver t) (delivered t) (forwarded t) (fragerror t)
    (reassembled t) (receivedtotal t) (u32 (droppedtotal t + 1)).
Definition inc_badver (t : ipv4_statistics) :=
  MkStats (badhlen t) (badlen t) (badsum t) (u16 (badver t + 1)) (delivered t) (forwarded t)
    (fragerror t) (reassembled t) (receivedtotal t) (droppedtotal t).
Definition inc_badhlen (t : ipv4_statistics) :=
  MkStats (u16 (badhlen t + 1)) (badlen t) (badsum t) (badver t) (delivered t) (forwarded t)
    (fragerror t) (reassembled t) (receivedtotal t) (droppedtotal t).
Definition inc_badsum (t : ipv4_statistics) :=
  MkStats (badhlen t) (badlen t) (u16 (badsum t + 1)) (badver t) (delivered t) (forwarded t)
    (fragerror t) (reassembled t) (receivedtotal t) (droppedtotal t).
Definition inc_badlen (t : ipv4_statistics) :=
  MkStats (badhlen t) (u16 (badlen t + 1)) (badsum t) (badver t) (delivered t) (forwarded t)
    (fragerror t) (reassembled t) (receivedtotal t) (droppedtotal t).
Definition inc_fragerror (t : ipv4_statistics) :=
  MkStats (badhlen t) (badlen t) (badsum t) (badver t) (delivered t) (forwarded t)
    (u16 (fragerror t + 1)) (reassembled t) (receivedtotal t) (droppedtotal t).
Definition inc_forwarded (t : ipv4_statistics) :=
  MkStats (badhlen t) (badlen t) (badsum t) (badver t) (delivered t) (u16 (forwarded t + 1))
    (fragerror t) (reassembled t) (receivedtotal t) (droppedtotal t).
Definition inc_delivered (t : ipv4_statistics) :=
  MkStats (badhlen t) (badlen t) (badsum t) (badver t) (u16 (delivered t + 1)) (forwarded t)
    (fragerror t) (reassembled t) (receivedtotal t) (droppedtotal t).

Section IPv4.
Context {Q : Type} `{BoundedFifo Q finsFrame}.
Abbreviation ST := (mstate Q ipv4_data) (only parsing).

Definition stat (f : ipv4_statistics → ipv4_statistics) : M ST unit :=
  modify (λ s, set_md (set_ip_stats (f (ip_stats (md s))) (md s)) s).

(** Forwarding is disabled: the function returns 0 first thing. *)
Definition ipv4_forward (ff : finsFrame) (p : ip4_packet) (dest length : Z) : M ST Z := mret 0.

(** ** ipv4_send.c *)

Definition write_recv (ff : finsFrame) (protocol family src_ip dst_ip : Z) : M ST finsFrame :=
  ff ← ff_write ff "recv_protocol" (VInt32 protocol);
  ff ← ff_write ff "recv_family" (VInt32 family);
  ff ← ff_write ff "recv_src_ipv4" (VInt32 src_ip);
  ff_write ff "recv_dst_ipv4" (VInt32 dst_ip).

(** For TCP and UDP the payload is taken from [ip_data], which is always 20
    bytes into the packet; ICMP gets the whole packet. *)
Definition ipv4_send_fdf_in (ff : finsFrame) (h : ip4_header) (packet : list Z) : M ST unit :=
  if packet_length h <? header_length h then free_ff ff
  else
    d ← ff_data ff;
    let n := packet_length h - header_length h in
    let strip (flow : Z) : M ST (option (Z * finsFrame)) :=
      b ← lift (read_bytes (Some (drop 20 packet)) n);
      mret (Some (flow, set_body (Data (MkData (directionFlag d) n (Some b))) ff)) in
    r ← (if protocol h =? IP4_PT_ICMP then mret (Some (IPV4_FLOW_ICMP, ff))
         else if protocol h =? IP4_PT_TCP then strip IPV4_FLOW_TCP
         else if protocol h =? IP4_PT_UDP then strip IPV4_FLOW_UDP
         else mret None : M ST (option (Z * finsFrame)));
    match r with
    | None => free_ff ff
    | Some (flow, ff) =>
        ff ← write_recv ff (protocol h) AF_INET (source h) (destination h);
        ff ← ff_write ff "recv_ttl" (VInt32 (ttl h));
        send_or_free ff flow
    end.

(** The header is put in front of the payload. *)
Definition ipv4_send_fdf_out (ff : finsFrame) (pkt : ip4_packet) (address if_index : Z) : M ST unit :=
  d ← ff_data ff;
  b ← lift (read_bytes (pdu d) (pduLength d));
  let ff := set_body (Data (MkData (directionFlag d) (u32 (pduLength d + IP4_MIN_HLEN))
                              (Some (packet_bytes pkt ++ b)))) ff in
  ff ← ff_write ff "send_ether_type" (VInt32 IP4_ETH_TYPE);
  ff ← ff_write ff "send_if_index" (VInt32 if_index);
  ff ← ff_write ff "send_dst_ipv4" (VInt32 address);
  send_or_free ff IPV4_FLOW_INTERFACE.

(** ** ipv4_in.c *)

(** Is the destination one of our addresses, a broadcast or the wildcard? *)
Definition ours (d : ipv4_data) (dst : Z) : bool :=
  (dst =? IPV4_ADDR_ANY_IP) || (dst =? IPV4_ADDR_EVERY_IP)
  || match find_first (addr_ipv4_test dst) (ip_addr_list d) with
     | Some _ => true
     | None => match find_first (addr_bdcv4_test dst) (ip_addr_list d) with
               | Some _ => true | None => false end
     end.

(** The second half of [ipv4_in_fdf]: the checks on a packet whose header has
    been validated; a fragment is neither reassembled nor released. *)
Definition ipv4_in_checked (ff : finsFrame) (p : ip4_packet) (h : ip4_header)
    (packet : list Z) (len : Z) : M ST unit :=
  if ttl h =? 0 then free_ff ff
  else
    s ← get;
    if negb (ours (md s) (destination h)) then
      f ← ipv4_forward ff p (destination h) (u16 len);
      if negb (f =? 0) then stat inc_forwarded
      else stat inc_dropped ;; free_ff ff
    else if Z.land (h_flags h) (Z.lor IP4_DF IP4_MF) =? Z.lor IP4_DF IP4_MF then
      stat inc_fragerror ;; stat inc_dropped ;; free_ff ff
    else if Z.lor (Z.land (h_flags h) IP4_MF) (fragmentation_offset h) =? 0 then
      stat inc_delivered ;; ipv4_send_fdf_in ff h packet
    else mret tt.

(** The first half: version, header length, checksum and packet length.  A
    packet of another version is counted but not released. *)
Definition ipv4_in_fdf (ff : finsFrame) : M ST unit :=
  d ← ff_data ff;
  packet ← lift (match pdu d with Some b => Ok b | None => Segv end);
  let len := s32 (pduLength d) in
  stat inc_received ;;
  p ← lift (read_packet packet);
  let h := parse_header p in
  if negb (version h =? IP4_VERSION) then stat inc_badver ;; stat inc_dropped
  else if header_length h <? IP4_MIN_HLEN then
    stat inc_badhlen ;; stat inc_dropped ;; free_ff ff
  else
    ck ← lift (ipv4_checksum packet (header_length h));
    if negb (ck =? 0) then stat inc_badsum ;; stat inc_dropped ;; free_ff ff
    else
      (if negb (packet_length h =? len) then stat inc_badlen else mret tt) ;;
      if len <? packet_length h then stat inc_dropped ;; free_ff ff
      else ipv4_in_checked ff p h packet len.

(** ** ipv4_const_header.c and ipv4_out.c *)

(** The fields not assigned here keep what the local structure held ([junk]). *)
Definition ipv4_const_header (junk : ip4_packet) (src dst proto : Z) : M ST ip4_packet :=
  s ← get;
  let d := md s in
  modify (set_md (MkIpv4 (ip_addr_list d) (addr_loopback d) (addr_main d) (route_list d)
                    (u16 (unique_id d + 1)) (ip_stats d))) ;;
  mret (MkPacket (Z.lor (Z.shiftl IP4_VERSION 4) (IP4_MIN_HLEN / 4)) 0 (ip_len junk)
          (htons (unique_id d)) (ip_fragoff junk) IP4_INIT_TTL (u8 proto) (ip_cksum junk)
          (htonl src) (htonl dst)).

Definition ipv4_route_dst_test (dst : Z) (r : route_record) : bool :=
  (Z.land (addr4_get_ip (r_dst r)) (addr4_get_ip (r_mask r))
     =? Z.land dst (addr4_get_ip (r_mask r)))
  || (addr4_get_ip (r_dst r) =? IPV4_ADDR_ANY_IP).

(** The assignments that complete the header: offset and identifier 0, the
    length, and the checksum computed with the field cleared. *)
Definition finish_header (p : ip4_packet) (length : Z) : res ip4_packet :=
  let p0 := MkPacket (ip_verlen p) (ip_dif p) (htons (u16 (length + IP4_MIN_HLEN))) (htons 0)
              (htons 0) (ip_ttl p) (ip_proto p) 0 (ip_src p) (ip_dst p) in
  match ipv4_checksum (packet_bytes p0) IP4_MIN_HLEN with
  | Ok ck => Ok (MkPacket (ip_verlen p0) (ip_dif p0) (ip_len p0) (ip_id p0) (ip_fragoff p0)
                   (ip_ttl p0) (ip_proto p0) ck (ip_src p0) (ip_dst p0))
  | Segv => Segv | Exit => Exit | NoFuel => NoFuel
  end.

(** [metadata_readFromElement] into a variable initialised to 0; [None] when
    the element is missing (or not readable). *)
Definition opt_read (ff : finsFrame) (target : string) : M ST (option Z) :=
  m ← ff_meta ff;
  match metadata_readFromElement m target with
  | None => mret None
  | Some (VInt32 v) => mret (Some (u32 v))
  | Some _ => segv
  end.

Definition set_ttl (t : Z) (p : ip4_packet) : ip4_packet :=
  MkPacket (ip_verlen p) (ip_dif p) (ip_len p) (ip_id p) (ip_fragoff p) t (ip_proto p)
    (ip_cksum p) (ip_src p) (ip_dst p).

(** The local delivery branch; [now] is the time stamp of [gettimeofday]. *)
Definition ipv4_loop_back (ff : finsFrame) (pkt : ip4_packet)
    (proto family src_ip dst_ip send_ttl send_tos now : Z) : M ST unit :=
  d ← ff_data ff;
  r ← (if proto =? IP4_PT_ICMP then
         let length := u16 (pduLength d) in
         p ← lift (finish_header pkt length);
         b ← lift (read_bytes (pdu d) length);
         let n := u32 (pduLength d + IP4_MIN_HLEN) in
         mret (Some (IPV4_FLOW_ICMP, set_body (Data (MkData (directionFlag d) n
           (Some (packet_bytes p ++ b ++ replicate (Z.to_nat (n - IP4_MIN_HLEN - length)) 0)))) ff))
       else if proto =? IP4_PT_TCP then mret (Some (IPV4_FLOW_TCP, ff))
       else if proto =? IP4_PT_UDP then mret (Some (IPV4_FLOW_UDP, ff))
       else mret None : M ST (option (Z * finsFrame)));
  match r with
  | None => free_ff ff
  | Some (flow, ff) =>
      ff ← ff_write ff "recv_stamp" (VInt64 now);
      ff ← write_recv ff proto family src_ip dst_ip;
      ff ← (if negb (send_ttl =? 0) then ff_write ff "recv_ttl" (VInt32 send_ttl) else mret ff);
      ff ← (if negb (send_tos =? 0) then ff_write ff "recv_tos" (VInt32 send_tos) else mret ff);
      d ← ff_data ff;
      send_or_free (set_body (Data (MkData DIR_UP (pduLength d) (pdu d))) ff) flow
  end.

Definition loops_back (d : ipv4_data) (r : route_record) (address : Z) : bool :=
  match addr_loopback d with
  | Some a => a_if_index a =? r_if_index r
  | None => match find_first (addr_ipv4_test address) (ip_addr_list d) with
            | Some _ => true | None => false end
  end.

Definition next_hop (r : route_record) (dst_ip : Z) : Z :=
  if addr4_get_ip (r_gw r) =? IPV4_ADDR_ANY_IP then dst_ip else addr4_get_ip (r_gw r).

(** [junk] is the uninitialised local header, [now] the time of day.  Without
    a route the frame is neither sent nor freed. *)
Definition ipv4_out_fdf (junk : ip4_packet) (now : Z) (ff : finsFrame) : M ST unit :=
  proto ← ff_read ff "send_protocol";
  family ← ff_read ff "send_family";
  src_ip ← ff_read ff "send_src_ipv4";
  dst_ip ← ff_read ff "send_dst_ipv4";
  pkt ← ipv4_const_header junk src_ip dst_ip proto;
  ttl' ← opt_read ff "send_ttl";
  let pkt := match ttl' with Some t => set_ttl (u8 t) pkt | None => pkt end in
  tos ← opt_read ff "send_tos";
  s ← get;
  match find_first (ipv4_route_dst_test dst_ip) (route_list (md s)) with
  | None => mret tt
  | Some route =>
      let address := next_hop route dst_ip in
      if loops_back (md s) route address then
        ipv4_loop_back ff pkt proto family src_ip dst_ip (default 0 ttl') (default 0 tos) now
      else
        d ← ff_data ff;
        p ← lift (finish_header pkt (u16 (pduLength d)));
        ipv4_send_fdf_out ff p address (r_if_index route)
  end.

(** ** ipv4_receive.c *)

Definition ipv4_read_param (ff : finsFrame) : M ST unit := module_reply_fcf ff FCF_FALSE 0.
Definition ipv4_set_param (ff : finsFrame) : M ST unit := set_param ff.
Definition ipv4_exec (ff : finsFrame) : M ST unit := module_reply_fcf ff FCF_FALSE 0.
Definition ipv4_exec_reply (ff : finsFrame) : M ST unit := free_ff ff.

Definition ipv4_error (ff : finsFrame) : M ST unit :=
  c ← ff_ctrl ff;
  if param_id c =? IPV4_ERROR_GET_ADDR then
    s ← get;
    send_or_free
      (set_body (Ctrl (MkCtrl (u8 (m_index (fm s))) (serial_num c) (opcode c) IPV4_ERROR_GET_ADDR
                         (ret_val c) (data_len c) (cdata c))) ff) IPV4_FLOW_ICMP
  else free_ff ff.

Definition ipv4_fcf (ff : finsFrame) : M ST unit :=
  c ← ff_ctrl ff;
  if opcode c =? CTRL_ALERT then module_reply_fcf ff FCF_FALSE 0
  else if opcode c =? CTRL_ALERT_REPLY then free_ff ff
  else if opcode c =? CTRL_READ_PARAM then ipv4_read_param ff
  else if opcode c =? CTRL_READ_PARAM_REPLY then free_ff ff
  else if opcode c =? CTRL_SET_PARAM then ipv4_set_param ff
  else if opcode c =? CTRL_SET_PARAM_REPLY then free_ff ff
  else if opcode c =? CTRL_EXEC then ipv4_exec ff
  else if opcode c =? CTRL_EXEC_REPLY then ipv4_exec_reply ff
  else if opcode c =? CTRL_ERROR then ipv4_error ff
  else exit_.

Definition ipv4_get_ff (events : nat) (junk : ip4_packet) (now : Z) : M ST unit :=
  get_ff (frame_dispatch ipv4_fcf ipv4_in_fdf (ipv4_out_fdf junk now)) events.

End IPv4.

(** ** Byte order and checksum facts *)

Lemma htons_range x : is_u16 (htons x).
Proof. unfold htons. zlia. Qed.

Lemma htons_htons x : is_u16 x → ntohs (htons x) = x.
Proof. unfold ntohs, htons, is_u16. intros. Z.div_mod_to_equations. lia. Qed.

Lemma htonl_range x : is_u32 (htonl x).
Proof.
  unfold htonl, is_u32. pose proof (Z.mod_pos_bound x 256).
  pose proof (Z.mod_pos_bound (x / 256) 256). pose proof (Z.mod_pos_bound (x / 65536) 256).
  pose proof (Z.mod_pos_bound (x / 16777216) 256). lia.
Qed.

(** On a word given by its bytes, [htonl] reverses them. *)
Lemma htonl_bytes a b c d :
  is_u8 a → is_u8 b → is_u8 c → is_u8 d →
  htonl (a + 256 * b + 65536 * c + 16777216 * d) = d + 256 * c + 65536 * b + 16777216 * a.
Proof.
  unfold is_u8, htonl. intros. set (x := a + _ + _ + _).
  assert (E0 : x mod 256 = a)
    by (symmetry; apply (Z.mod_unique_pos _ _ (b + 256 * c + 65536 * d)); unfold x; lia).
  assert (E1 : x / 256 = b + 256 * c + 65536 * d)
    by (symmetry; apply (Z.div_unique_pos _ _ _ a); unfold x; lia).
  assert (E2 : x / 65536 = c + 256 * d)
    by (symmetry; apply (Z.div_unique_pos _ _ _ (a + 256 * b)); unfold x; lia).
  assert (E3 : x / 16777216 = d)
    by (symmetry; apply (Z.div_unique_pos _ _ _ (a + 256 * b + 65536 * c)); unfold x; lia).
  rewrite E0, E1, E2, E3.
  assert (F1 : (b + 256 * c + 65536 * d) mod 256 = b)
    by (symmetry; apply (Z.mod_unique_pos _ _ (c + 256 * d)); lia).
  assert (F2 : (c + 256 * d) mod 256 = c) by (symmetry; apply (Z.mod_unique_pos _ _ d); lia).
  rewrite F1, F2, (Z.mod_small d) by lia. lia.
Qed.

Lemma u32_bytes x : is_u32 x → ∃ a b c d, is_u8 a ∧ is_u8 b ∧ is_u8 c ∧ is_u8 d ∧
  x = a + 256 * b + 65536 * c + 16777216 * d.
Proof.
  unfold is_u32, is_u8. intros Hx.
  exists (x mod 256), (x / 256 mod 256), (x / 256 / 256 mod 256), (x / 256 / 256 / 256).
  pose proof (Z.mod_pos_bound x 256). pose proof (Z.mod_pos_bound (x / 256) 256).
  pose proof (Z.mod_pos_bound (x / 256 / 256) 256).
  pose proof (Z.div_mod x 256). pose proof (Z.div_mod (x / 256) 256).
  pose proof (Z.div_mod (x / 256 / 256) 256). lia.
Qed.

Lemma htonl_htonl x : is_u32 x → ntohl (htonl x) = x.
Proof.
  intros (a & b & c & d & Ha & Hb & Hc & Hd & ->)%u32_bytes. unfold ntohl.
  rewrite htonl_bytes by done. by rewrite htonl_bytes.
Qed.

(** The words of a byte list, as the little-endian host adds them up. *)
Fixpoint word_sum (b : list Z) : Z :=
  match b with
  | b0 :: b1 :: b => b0 + 256 * b1 + word_sum b
  | _ => 0
  end.

Lemma word_sum_app b1 b2 n :
  length b1 = (2 * n)%nat → word_sum (b1 ++ b2) = word_sum b1 + word_sum b2.
Proof.
  revert b1. induction n as [|n IH]; intros b1 Hl.
  { by destruct b1. }
  destruct b1 as [|x [|y b1]]; simpl in Hl; [lia..|].
  simpl. rewrite IH by lia. lia.
Qed.

Lemma cksum_loop_sum n b sum :
  (n ≤ length b)%nat → cksum_loop n b sum = Ok (sum + word_sum (take n b)).
Proof.
  revert b sum. induction n as [n IH] using lt_wf_ind. intros b sum Hl.
  destruct n as [|[|n]]; simpl; [by rewrite Z.add_0_r|destruct b; simpl; by rewrite Z.add_0_r|].
  destruct b as [|x [|y b]]; simpl in Hl; [lia..|].
  rewrite IH by lia. simpl. f_equal. lia.
Qed.

Lemma cksum_loop_short n b sum :
  (length b < n)%nat → (2 | Z.of_nat n) → cksum_loop n b sum = Segv.
Proof.
  revert b sum. induction n as [n IH] using lt_wf_ind. intros b sum Hl [k Hk].
  destruct n as [|[|n]]; [lia|lia|]. simpl.
  destruct b as [|x [|y b]]; [done..|]. simpl in Hl. apply IH; [lia..|].
  exists (k - 1). lia.
Qed.

Lemma ipv4_checksum_sum b n :
  0 ≤ n ≤ Z.of_nat (length b) →
  ipv4_checksum b n = Ok (cksum_fold (word_sum (take (Z.to_nat n) b))).
Proof. intros. unfold ipv4_checksum. by rewrite cksum_loop_sum by lia. Qed.

Definition is_bytes (b : list Z) : Prop := Forall is_u8 b.

Lemma word_sum_bound b :
  is_bytes b → 0 ≤ word_sum b ≤ 65535 * Z.of_nat (length b / 2).
Proof.
  induction b as [b IH] using (induction_ltof1 _ (@length Z)). unfold ltof in IH.
  destruct b as [|x [|y b]]; intros Hb; [simpl; lia..|].
  apply Forall_cons in Hb as [Hx Hb]. apply Forall_cons in Hb as [Hy Hb].
  specialize (IH b ltac:(simpl; lia) Hb). cbn [word_sum].
  change (length (x :: y :: b)) with (2 + length b)%nat.
  replace ((2 + length b) / 2)%nat with (S (length b / 2))%nat
    by (change 2%nat with (1 * 2)%nat at 2; rewrite Nat.div_add_l by lia; lia).
  unfold is_u8 in *. lia.
Qed.

(** The folded complement in closed form, and when it is 0. *)
Lemma cksum_fold_eq s :
  0 ≤ s < 4294901760 →
  cksum_fold s = (if s =? 0 then 65535 else 65534 - (s - 1) mod 65535).
Proof.
  intros Hs. unfold cksum_fold, u16, Z.lnot.
  rewrite !Z.shiftr_div_pow2 by lia. change 65535 with (Z.ones 16) at 1 2.
  rewrite !Z.land_ones by lia. change (2 ^ 16) with 65536.
  destruct (Z.eqb_spec s 0) as [->|]; [done|]. Z.div_mod_to_equations. lia.
Qed.

Lemma cksum_fold_zero s :
  0 ≤ s < 4294901760 → cksum_fold s = 0 ↔ 0 < s ∧ s mod 65535 = 0.
Proof.
  intros Hs. rewrite cksum_fold_eq by done.
  destruct (Z.eqb_spec s 0) as [->|]; [lia|]. Z.div_mod_to_equations. lia.
Qed.

(** Adding the complement of a sum to it gives a sum that verifies. *)
Lemma cksum_fold_complement s :
  0 ≤ s < 4294800000 → cksum_fold (s + cksum_fold s) = 0.
Proof.
  intros Hs. assert (Hr : 0 ≤ cksum_fold s < 65536).
  { unfold cksum_fold, u16. by apply Z.mod_pos_bound. }
  apply cksum_fold_zero; [lia|]. revert Hr. rewrite cksum_fold_eq by lia.
  destruct (Z.eqb_spec s 0) as [->|]; [done|]. intros _. Z.div_mod_to_equations. lia.
Qed.

(** ** Headers *)

Record packet_ok (p : ip4_packet) : Prop := {
  pk_verlen : is_u8 (ip_verlen p); pk_dif : is_u8 (ip_dif p); pk_len : is_u16 (ip_len p);
  pk_id : is_u16 (ip_id p); pk_off : is_u16 (ip_fragoff p); pk_ttl : is_u8 (ip_ttl p);
  pk_proto : is_u8 (ip_proto p); pk_ck : is_u16 (ip_cksum p);
  pk_src : is_u32 (ip_src p); pk_dst : is_u32 (ip_dst p)
}.

Lemma packet_bytes_length p : length (packet_bytes p) = 20%nat.
Proof. reflexivity. Qed.

Lemma le_bytes_u8 n x : is_bytes (le_bytes n x).
Proof.
  revert x. induction n as [|n IH]; intros x; constructor; [|apply IH].
  by apply Z.mod_pos_bound.
Qed.

Lemma packet_bytes_u8 p : packet_ok p → is_bytes (packet_bytes p).
Proof.
  intros []. unfold packet_bytes, is_bytes. rewrite !Forall_app, !Forall_cons, !Forall_nil.
  split_and!; try done; apply le_bytes_u8.
Qed.

Lemma read_packet_bytes p rest :
  packet_ok p → read_packet (packet_bytes p ++ rest) = Ok p.
Proof.
  intros []. destruct p. unfold packet_bytes. cbn [le_bytes app read_packet ip_verlen ip_dif
    ip_len ip_id ip_fragoff ip_ttl ip_proto ip_cksum ip_src ip_dst] in *.
  assert (W2 : ∀ x, is_u16 x → le_value [x mod 256; (x / 256) mod 256] = x).
  { intros x Hx. by apply (le_value_bytes 2 x). }
  assert (W4 : ∀ x, is_u32 x →
    le_value [x mod 256; (x / 256) mod 256; (x / 256 / 256) mod 256; (x / 256 / 256 / 256) mod 256] = x).
  { intros x Hx. by apply (le_value_bytes 4 x). }
  by rewrite !W2, !W4 by done.
Qed.

Lemma word_sum_le2 x : is_u16 x → word_sum (le_bytes 2 x) = x.
Proof. unfold is_u16. intros. cbn [le_bytes word_sum]. Z.div_mod_to_equations. lia. Qed.

(** The sum of a header's words, with the checksum word apart. *)
Definition header_sum (p : ip4_packet) : Z :=
  word_sum [ip_verlen p; ip_dif p] + ip_len p + ip_id p + ip_fragoff p
  + word_sum [ip_ttl p; ip_proto p] + word_sum (le_bytes 4 (ip_src p))
  + word_sum (le_bytes 4 (ip_dst p)).

Lemma word_sum_packet p :
  packet_ok p → word_sum (packet_bytes p) = header_sum p + ip_cksum p.
Proof.
  intros []. unfold packet_bytes, header_sum.
  rewrite (word_sum_app [_; _] _ 1), (word_sum_app (le_bytes 2 (ip_len p)) _ 1),
    (word_sum_app (le_bytes 2 (ip_id p)) _ 1), (word_sum_app (le_bytes 2 (ip_fragoff p)) _ 1),
    (word_sum_app [_; _] _ 1), (word_sum_app (le_bytes 2 (ip_cksum p)) _ 1),
    (word_sum_app (le_bytes 4 (ip_src p)) _ 2) by done.
  rewrite !word_sum_le2 by done. lia.
Qed.

Lemma header_sum_bound p : packet_ok p → 0 ≤ header_sum p ≤ 655350.
Proof.
  intros Hp.
  destruct Hp as [? ? Hl Hi Ho ? ? _ ? ?]. unfold header_sum.
  pose proof (word_sum_bound [ip_verlen p; ip_dif p]) as B1.
  pose proof (word_sum_bound [ip_ttl p; ip_proto p]) as B2.
  pose proof (word_sum_bound (le_bytes 4 (ip_src p)) (le_bytes_u8 _ _)) as B3.
  pose proof (word_sum_bound (le_bytes 4 (ip_dst p)) (le_bytes_u8 _ _)) as B4.
  rewrite le_bytes_length in B3, B4.
  assert (B1' := B1 ltac:(unfold is_bytes; rewrite !Forall_cons; auto)).
  assert (B2' := B2 ltac:(unfold is_bytes; rewrite !Forall_cons; auto)).
  change (Z.of_nat (4 / 2)) with 2 in *.
  change (Z.of_nat (length [ip_verlen p; ip_dif p] / 2)) with 1 in *.
  change (Z.of_nat (length [ip_ttl p; ip_proto p] / 2)) with 1 in *.
  unfold is_u16 in *. lia.
Qed.

(** The header [finish_header] sends: lengths, identifier 0, checksum. *)
Definition set_cksum (c : Z) (p : ip4_packet) : ip4_packet :=
  MkPacket (ip_verlen p) (ip_dif p) (ip_len p) (ip_id p) (ip_fragoff p) (ip_ttl p) (ip_proto p)
    c (ip_src p) (ip_dst p).
Definition blank_header (p : ip4_packet) (length : Z) : ip4_packet :=
  MkPacket (ip_verlen p) (ip_dif p) (htons (u16 (length + IP4_MIN_HLEN))) (htons 0)
    (htons 0) (ip_ttl p) (ip_proto p) 0 (ip_src p) (ip_dst p).

Lemma blank_header_ok p n :
  is_u8 (ip_verlen p) → is_u8 (ip_dif p) → is_u8 (ip_ttl p) → is_u8 (ip_proto p) →
  is_u32 (ip_src p) → is_u32 (ip_dst p) → packet_ok (blank_header p n).
Proof. intros. split; simpl; try done; apply htons_range. Qed.

Lemma finish_header_ok p n :
  packet_ok (blank_header p n) →
  finish_header p n =
    Ok (set_cksum (cksum_fold (header_sum (blank_header p n))) (blank_header p n)).
Proof.
  intros Hp. unfold finish_header. fold (blank_header p n).
  rewrite ipv4_checksum_sum by (rewrite packet_bytes_length; unfold IP4_MIN_HLEN; lia).
  rewrite take_ge by (rewrite packet_bytes_length; done).
  rewrite word_sum_packet by done. simpl ip_cksum. by rewrite Z.add_0_r.
Qed.

Lemma cksum_fold_range s : is_u16 (cksum_fold s).
Proof. unfold cksum_fold. auto with fins. Qed.

Lemma set_cksum_ok c p : packet_ok p → is_u16 c → packet_ok (set_cksum c p).
Proof. intros [] ?. by split. Qed.

(** A header that carries the complement of its sum verifies, whatever
    follows it in the packet. *)
Lemma checksum_verifies p rest :
  packet_ok p → ip_cksum p = cksum_fold (header_sum p) →
  ipv4_checksum (packet_bytes p ++ rest) IP4_MIN_HLEN = Ok 0.
Proof.
  intros Hp Hc. pose proof (header_sum_bound p Hp).
  rewrite ipv4_checksum_sum.
  2: { rewrite length_app, packet_bytes_length. unfold IP4_MIN_HLEN. lia. }
  rewrite take_app_length' by (by rewrite packet_bytes_length).
  rewrite word_sum_packet, Hc by done. f_equal. apply cksum_fold_complement. lia.
Qed.

(** ** What the handlers do with a frame *)

Section IPv4Facts.
Context {Q : Type} `{BoundedFifo Q finsFrame}.
Abbreviation ST := (mstate Q ipv4_data) (only parsing).

(** The metadata a delivered frame carries. *)
Definition recv_meta (m : metadata) (proto family src dst : Z) : metadata :=
  put_member (put_member (put_member (put_member m
    "recv_protocol" (SInt (s32 proto))) "recv_family" (SInt (s32 family)))
    "recv_src_ipv4" (SInt (s32 src))) "recv_dst_ipv4" (SInt (s32 dst)).

Definition recv_keys : list string :=
  ["recv_protocol"; "recv_family"; "recv_src_ipv4"; "recv_dst_ipv4"; "recv_ttl"].

Lemma keys_put m ks k v :
  forallb (int_key m) ks = true → forallb (int_key (put_member m k (SInt v))) ks = true.
Proof.
  intros Hk. apply forallb_forall. intros x Hx. eapply forallb_forall in Hk; [|exact Hx].
  by apply int_key_put.
Qed.

Lemma write_recv_ok ff m proto family src dst (s : ST) :
  metaData ff = Some m → forallb (int_key m) recv_keys = true →
  write_recv ff proto family src dst s =
    Ok (set_meta (Some (recv_meta m proto family src dst)) ff, s).
Proof.
  intros Hm Hk.
  assert (K : ∀ m k, forallb (int_key m) recv_keys = true → k ∈ recv_keys → int_key m k = true).
  { intros m' k Hk' Hin. eapply forallb_forall in Hk'; [exact Hk'|by apply list_elem_of_In]. }
  unfold write_recv. erewrite bind_ok; [|apply ff_write_ok; [exact Hm|apply K; [done|set_solver+]]].
  erewrite bind_ok; [|apply ff_write_ok; [done|apply K; [by apply keys_put|set_solver+]]].
  erewrite bind_ok; [|apply ff_write_ok; [done|apply K; [by do 2 apply keys_put|set_solver+]]].
  erewrite ff_write_ok; [done|done|]. apply K; [by do 3 apply keys_put|set_solver+].
Qed.

Lemma recv_meta_ok m proto family src dst :
  meta_ok m = true → meta_ok (recv_meta m proto family src dst) = true.
Proof. intros. unfold recv_meta. do 4 (apply meta_ok_put; [|reflexivity..]). done. Qed.

(** Where and as what a packet with header [h] goes up: [None] when its
    lengths contradict each other or the protocol is unknown. *)
Definition up_frame (ff : finsFrame) (m : metadata) (d : finsDataFrame) (h : ip4_header)
    (b : list Z) : option (Z * finsFrame) :=
  let m' := put_member (recv_meta m (protocol h) AF_INET (source h) (destination h))
              "recv_ttl" (SInt (s32 (ttl h))) in
  let n := packet_length h - header_length h in
  let body' := Data (MkData (directionFlag d) n (Some (take (Z.to_nat n) (drop 20 b)))) in
  if n <? 0 then None
  else if protocol h =? IP4_PT_ICMP then Some (IPV4_FLOW_ICMP, MkFrame (destinationID ff) (Some m') (body ff))
  else if protocol h =? IP4_PT_TCP then Some (IPV4_FLOW_TCP, MkFrame (destinationID ff) (Some m') body')
  else if protocol h =? IP4_PT_UDP then Some (IPV4_FLOW_UDP, MkFrame (destinationID ff) (Some m') body')
  else None.

(** The frames handed up and released for an accepted packet. *)
Definition up_sent (s : ST) (u : option (Z * finsFrame)) : list finsFrame :=
  match u with Some (flow, ff) => sent_copies ff (flow_dsts s flow) | None => [] end.
Definition up_dropped (s : ST) (ff0 : finsFrame) (u : option (Z * finsFrame)) : list finsFrame :=
  match u with
  | Some (flow, ff) => if decide (flow_dsts s flow = []) then [ff] else []
  | None => [ff0]
  end.

(** Room for a send on any of the module's flows. *)
Definition room_any (s : ST) (xs : list finsFrame) : Prop :=
  bf_rep (outq s) xs ∧ ∀ flow, room s xs (length (flow_dsts s flow)).

Lemma read_bytes_some b n :
  0 ≤ n ≤ Z.of_nat (length b) → read_bytes (Some b) n = Ok (take (Z.to_nat n) b).
Proof.
  intros Hn. unfold read_bytes. destruct (Z.eqb_spec n 0) as [->|]; [done|].
  destruct (Z.leb_spec n (Z.of_nat (length b))); [done|lia].
Qed.

Lemma send_fdf_in_ok ff m d b h s xs :
  metaData ff = Some m → meta_ok m = true → forallb (int_key m) recv_keys = true →
  body ff = Data d → pdu d = Some b → pduLength d = Z.of_nat (length b) →
  20 ≤ header_length h → packet_length h ≤ Z.of_nat (length b) →
  table_ok (lcells (store s)) (mt s) → room_any s xs →
  ∃ s', ipv4_send_fdf_in ff h b s = Ok (tt, s') ∧ md s' = md s ∧
    eff s xs s' (up_sent s (up_frame ff m d h b)) (up_dropped s ff (up_frame ff m d h b)).
Proof.
  intros Hm Hmok Hk Hb Hp Hlen Hh Hpl Ht [Hq Hroom].
  assert (Hkt : int_key m "recv_ttl" = true).
  { eapply forallb_forall in Hk; [exact Hk|]. do 4 right. by left. }
  assert (Hfree : ∃ s', free_ff ff s = Ok (tt, s') ∧ md s' = md s ∧ eff s xs s' [] [ff]).
  { destruct (free_ff_ok s xs ff Hq) as [E F]; [by rewrite Hb|]. eauto. }
  unfold ipv4_send_fdf_in, up_frame.
  destruct (Z.ltb_spec (packet_length h - header_length h) 0) as [Hneg|Hneg].
  { destruct (Z.ltb_spec (packet_length h) (header_length h)); [|lia]. exact Hfree. }
  destruct (Z.ltb_spec (packet_length h) (header_length h)); [lia|].
  erewrite bind_ok; [|unfold ff_data; by rewrite Hb].
  set (n := packet_length h - header_length h) in *.
  assert (Hn : 0 ≤ n ≤ Z.of_nat (length (drop 20 b))) by (rewrite length_drop; lia).
  set (m' := put_member (recv_meta m _ _ _ _) _ _).
  (* the common end: metadata, then the send *)
  assert (Hup : ∀ flow bd, 0 ≤ flow → body_ok bd →
    ∃ s', (ff ← write_recv (set_body bd ff) (protocol h) AF_INET (source h) (destination h);
           ff ← ff_write ff "recv_ttl" (VInt32 (ttl h)); send_or_free ff flow) s = Ok (tt, s') ∧
      md s' = md s ∧
      eff s xs s' (sent_copies (MkFrame (destinationID ff) (Some m') bd) (flow_dsts s flow))
        (if decide (flow_dsts s flow = []) then [MkFrame (destinationID ff) (Some m') bd] else [])).
  { intros flow bd Hfl Hbd.
    erewrite bind_ok; [|by apply write_recv_ok].
    erewrite bind_ok; [|apply ff_write_ok; [done|]].
    2: { by repeat apply int_key_put. }
    destruct (send_or_free_ok (MkFrame (destinationID ff) (Some m') bd) flow s xs)
      as (s' & E & F & Hmd); [|done..|].
    { split; [done|]. exists m'. split; [done|]. unfold m'. apply meta_ok_put; [|done..].
      by apply recv_meta_ok. }
    exists s'. split; [exact E|]. done. }
  assert (Hstrip : body_ok (Data (MkData (directionFlag d) n (Some (take (Z.to_nat n) (drop 20 b)))))).
  { simpl. rewrite length_take. lia. }
  destruct (protocol h =? IP4_PT_ICMP).
  { erewrite bind_ok; [|done].
    assert (Hsame : set_body (Data d) ff = ff) by (destruct ff; simpl in *; by subst).
    rewrite Hb. specialize (Hup IPV4_FLOW_ICMP (Data d)). rewrite Hsame in Hup.
    apply Hup; [done|]. simpl. by rewrite Hp. }
  destruct (protocol h =? IP4_PT_TCP).
  { erewrite bind_ok; [|erewrite bind_ok; [done|unfold lift; by rewrite read_bytes_some]].
    by apply Hup. }
  destruct (protocol h =? IP4_PT_UDP).
  { erewrite bind_ok; [|erewrite bind_ok; [done|unfold lift; by rewrite read_bytes_some]].
    by apply Hup. }
  erewrite bind_ok; [|done]. exact Hfree.
Qed.

(** ** Which packets are passed up *)

(** Not a fragment: no more fragments to come and offset 0. *)
Definition whole (h : ip4_header) : bool :=
  Z.lor (Z.land (h_flags h) IP4_MF) (fragmentation_offset h) =? 0.
Definition df_and_mf (h : ip4_header) : bool :=
  Z.land (h_flags h) (Z.lor IP4_DF IP4_MF) =? Z.lor IP4_DF IP4_MF.

(** The header is one of a valid packet for this host (fragment or not): the
    ones-complement sum of its words is 0 and the lengths fit. *)
Definition valid_here (d : ipv4_data) (b : list Z) (h : ip4_header) : bool :=
  (version h =? IP4_VERSION) && (IP4_MIN_HLEN <=? header_length h)
  && (word_sum (take (Z.to_nat (header_length h)) b) mod 65535 =? 0)
  && (packet_length h <=? Z.of_nat (length b)) && negb (ttl h =? 0)
  && ours d (destination h).

Definition accepts (d : ipv4_data) (b : list Z) (h : ip4_header) : bool :=
  valid_here d b h && whole h.

(** The frames that are neither sent nor released. *)
Definition leaks (d : ipv4_data) (b : list Z) (h : ip4_header) : bool :=
  negb (version h =? IP4_VERSION)
  || (valid_here d b h && negb (whole h) && negb (df_and_mf h)).

(** What the module makes of a packet whose header it can read, in the order
    of its tests, and the counters each verdict moves. *)
Inductive verdict :=
  | BadVersion | BadHlen | BadSum | Overlong | Expired | Elsewhere | FragError | Fragment | Deliver.

Definition judge_late (d : ipv4_data) (h : ip4_header) : verdict :=
  if ttl h =? 0 then Expired
  else if negb (ours d (destination h)) then Elsewhere
  else if df_and_mf h then FragError
  else if whole h then Deliver else Fragment.

Definition judge (d : ipv4_data) (b : list Z) (h : ip4_header) : verdict :=
  if negb (version h =? IP4_VERSION) then BadVersion
  else if header_length h <? IP4_MIN_HLEN then BadHlen
  else if negb (word_sum (take (Z.to_nat (header_length h)) b) mod 65535 =? 0) then BadSum
  else if Z.of_nat (length b) <? packet_length h then Overlong
  else judge_late d h.

Definition tally (v : verdict) (t : ipv4_statistics) : ipv4_statistics :=
  match v with
  | BadVersion => inc_dropped (inc_badver t)
  | BadHlen => inc_dropped (inc_badhlen t)
  | BadSum => inc_dropped (inc_badsum t)
  | Overlong | Elsewhere => inc_dropped t
  | FragError => inc_dropped (inc_fragerror t)
  | Deliver => inc_delivered t
  | Expired | Fragment => t
  end.

(** The length is compared only when the header has passed its tests. *)
Definition length_seen (v : verdict) : bool :=
  match v with BadVersion | BadHlen | BadSum => false | _ => true end.

Definition counted (d : ipv4_data) (b : list Z) (h : ip4_header) : ipv4_data :=
  let v := judge d b h in
  let t := inc_received (ip_stats d) in
  set_ip_stats (tally v (if length_seen v && negb (packet_length h =? Z.of_nat (length b))
                         then inc_badlen t else t)) d.

(** The header claims more bytes than the buffer has, and the checksum runs
    over all of them. *)
Definition overreads (b : list Z) (h : ip4_header) : bool :=
  (version h =? IP4_VERSION) && (IP4_MIN_HLEN <=? header_length h)
  && (Z.of_nat (length b) <? header_length h).

Definition upd (f : ipv4_statistics → ipv4_statistics) (s : ST) : ST :=
  set_md (set_ip_stats (f (ip_stats (md s))) (md s)) s.

Lemma stat_ok f s : stat f s = Ok (tt, upd f s).
Proof. reflexivity. Qed.

(** The sum over a valid header is positive: the version is in it. *)
Lemma version_sum b p n :
  is_bytes b → read_packet b = Ok p → version (parse_header p) = IP4_VERSION →
  20 ≤ n → 0 < word_sum (take (Z.to_nat n) b).
Proof.
  intros Hb Hp Hv Hn. destruct b as [|vl [|df b]]; [done..|].
  assert (Hvl : ip_verlen p = vl).
  { do 18 (destruct b as [|? b]; [done|]). simpl in Hp. by injection Hp as <-. }
  replace (Z.to_nat n) with (S (S (Z.to_nat (n - 2)))) by lia. cbn [take word_sum].
  apply Forall_cons in Hb as [H1 Hb]. apply Forall_cons in Hb as [H2 Hb].
  pose proof (word_sum_bound (take (Z.to_nat (n - 2)) b) (Forall_take _ _ _ Hb)).
  unfold parse_header, IP4_VERSION in Hv. simpl in Hv. rewrite Hvl, Z.shiftr_div_pow2 in Hv by lia.
  change (2 ^ 4) with 16 in Hv. unfold is_u8 in *. Z.div_mod_to_equations. lia.
Qed.

Lemma whole_not_both h : whole h = true → df_and_mf h = false.
Proof.
  unfold whole, df_and_mf. intros [E _]%Z.eqb_eq%Z.lor_eq_0_iff. apply Z.eqb_neq. intros E2.
  change (Z.lor IP4_DF IP4_MF) with 3 in E2. change IP4_MF with 1 in E.
  assert (E3 : Z.land (Z.land (h_flags h) 3) 1 = 1) by (by rewrite E2).
  rewrite <-Z.land_assoc in E3. change (Z.land 3 1) with 1 in E3. lia.
Qed.

(** Statistics updates are invisible to the rest of the module's state. *)
Record stat_only (s s1 : ST) : Prop := {
  so_fm : fm s1 = fm s; so_mt : mt s1 = mt s; so_store : store s1 = store s;
  so_freed : freed s1 = freed s; so_posts : posts s1 = posts s;
  so_routes : route_list (md s1) = route_list (md s);
  so_addrs : ip_addr_list (md s1) = ip_addr_list (md s)
}.

Lemma stat_only_refl s : stat_only s s.
Proof. by split. Qed.
Lemma stat_only_upd f s s1 : stat_only s s1 → stat_only s (upd f s1).
Proof. intros []. by split. Qed.

Lemma stat_only_eff s s1 xs s2 a b :
  stat_only s s1 → eff s1 xs s2 a b → eff s xs s2 a b.
Proof.
  intros [E1 E2 E3 E4 E5 _ _] []. unfold outq in *.
  rewrite E1, E2, E3, E4, E5 in *. by split.
Qed.

(** Releasing the frame after statistics updates. *)
Lemma free_after s s1 xs ff :
  stat_only s s1 → bf_rep (outq s) xs → (∀ n, body ff ≠ NoUnion n) →
  ∃ s2, free_ff ff s1 = Ok (tt, s2) ∧ eff s xs s2 [] [ff] ∧ md s2 = md s1.
Proof.
  intros Hs Hq Hb. destruct (free_ff_ok s1 xs ff) as [E F]; [|done|].
  { unfold outq. by rewrite (so_fm _ _ Hs). }
  eexists. split; [exact E|]. split; [|done]. by eapply stat_only_eff.
Qed.

Lemma room_any_stat s s1 xs : stat_only s s1 → room_any s xs → room_any s1 xs.
Proof.
  intros [E1 E2 E3 _ _ _ _] [Hq Hr]. unfold room_any, room, outq, flow_dsts in *.
  rewrite E1, E2, E3. done.
Qed.

Lemma up_stat s s1 ff u :
  stat_only s s1 → up_sent s1 u = up_sent s u ∧ up_dropped s1 ff u = up_dropped s ff u.
Proof. intros [_ E2 E3 _ _ _ _]. unfold up_sent, up_dropped, flow_dsts. by rewrite E2, E3. Qed.

(** What happens to a frame whose header is valid, from a state [s1] that
    differs from [s] in its statistics only. *)
Lemma in_checked_ok ff m d b p h len s s1 xs :
  metaData ff = Some m → meta_ok m = true → forallb (int_key m) recv_keys = true →
  body ff = Data d → pdu d = Some b → pduLength d = Z.of_nat (length b) →
  20 ≤ header_length h → packet_length h ≤ Z.of_nat (length b) →
  table_ok (lcells (store s)) (mt s) → room_any s xs → stat_only s s1 →
  let ok := negb (ttl h =? 0) && ours (md s) (destination h) in
  ∃ s', ipv4_in_checked ff p h b len s1 = Ok (tt, s') ∧
    eff s xs s'
      (if ok && whole h then up_sent s (up_frame ff m d h b) else [])
      (if ok && whole h then up_dropped s ff (up_frame ff m d h b)
       else if ok && negb (whole h) && negb (df_and_mf h) then [] else [ff]) ∧
    md s' = set_ip_stats (tally (judge_late (md s) h) (ip_stats (md s1))) (md s1).
Proof.
  intros Hm Hmok Hk Hb Hp Hlen Hhl Hpl Ht Hroom Hs1 ok.
  assert (Hnu : ∀ n, body ff ≠ NoUnion n) by (by rewrite Hb).
  assert (Hq : bf_rep (outq s) xs) by (by destruct Hroom).
  assert (Hmd : ∀ d' : ipv4_data, d' = set_ip_stats (ip_stats d') d') by (by intros []).
  unfold ipv4_in_checked, judge_late. unfold ok. destruct (ttl h =? 0); cbn [negb andb].
  { destruct (free_after s s1 xs ff) as (s2 & E & F & M); [done..|].
    exists s2. rewrite M. split_and!; [done..|apply Hmd]. }
  erewrite bind_ok; [|done].
  assert (Ho : ours (md s1) (destination h) = ours (md s) (destination h))
    by (unfold ours; by rewrite (so_addrs _ _ Hs1)).
  rewrite Ho. destruct (ours (md s) (destination h)); cbn [negb andb].
  2: { erewrite bind_ok; [|done]. cbn [Z.eqb negb]. erewrite bind_ok; [|apply stat_ok].
       destruct (free_after s (upd inc_dropped s1) xs ff) as (s2 & E & F & M);
         [by apply stat_only_upd|done..|]. exists s2. by rewrite M. }
  fold (df_and_mf h). fold (whole h). pose proof (whole_not_both h) as Hwb.
  destruct (whole h); cbn [negb andb].
  - rewrite Hwb by done. erewrite bind_ok; [|apply stat_ok].
    assert (Hs2 : stat_only s (upd inc_delivered s1)) by (by apply stat_only_upd).
    destruct (send_fdf_in_ok ff m d b h (upd inc_delivered s1) xs) as (s2 & E2 & M2 & F2);
      [done..| |by eapply room_any_stat|].
    { by rewrite (so_store _ _ Hs2), (so_mt _ _ Hs2). }
    destruct (up_stat _ _ ff (up_frame ff m d h b) Hs2) as [E1 E3]. rewrite E1, E3 in F2.
    exists s2. rewrite M2. split; [exact E2|]. split; [by eapply stat_only_eff|done].
  - destruct (df_and_mf h); cbn [negb].
    + do 2 (erewrite bind_ok; [|apply stat_ok]).
      destruct (free_after s (upd inc_dropped (upd inc_fragerror s1)) xs ff) as (s2 & E & F & M);
        [by do 2 apply stat_only_upd|done..|]. exists s2. by rewrite M.
    + exists s1. split; [done|]. split; [|apply Hmd]. eapply stat_only_eff; [done|].
      apply eff_refl. unfold outq. by rewrite (so_fm _ _ Hs1).
Qed.

(** The checksum test of the code is the ones-complement condition. *)
Lemma header_cksum_zero b p :
  let h := parse_header p in
  is_bytes b → read_packet b = Ok p → version h = IP4_VERSION →
  20 ≤ header_length h ≤ Z.of_nat (length b) →
  ∃ ck, ipv4_checksum b (header_length h) = Ok ck ∧
    (ck =? 0) = (word_sum (take (Z.to_nat (header_length h)) b) mod 65535 =? 0).
Proof.
  intros h Hb Hrd Hv Hh. rewrite ipv4_checksum_sum by lia. eexists. split; [done|].
  set (ws := word_sum _). assert (Hws : 0 < ws) by (eapply version_sum; done || lia).
  assert (Hws2 : ws < 4294901760).
  { pose proof (word_sum_bound (take (Z.to_nat (header_length h)) b) (Forall_take _ _ _ Hb)) as Hbd.
    fold ws in Hbd. rewrite length_take in Hbd.
    assert (Hh60 : header_length h < 256) by apply u8_range.
    assert ((Z.to_nat (header_length h) `min` length b) / 2 ≤ 255)%nat; [|lia].
    apply Nat.Div0.div_le_upper_bound. lia. }
  apply Bool.eq_true_iff_eq. rewrite !Z.eqb_eq, cksum_fold_zero by lia. tauto.
Qed.

Lemma in_fdf_cases ff m d b p s xs :
  let h := parse_header p in
  metaData ff = Some m → meta_ok m = true → forallb (int_key m) recv_keys = true →
  body ff = Data d → pdu d = Some b → pduLength d = Z.of_nat (length b) →
  Z.of_nat (length b) < 2147483648 → is_bytes b → read_packet b = Ok p →
  overreads b h = false →
  table_ok (lcells (store s)) (mt s) → room_any s xs →
  ∃ s', ipv4_in_fdf ff s = Ok (tt, s') ∧
    eff s xs s'
      (if accepts (md s) b h then up_sent s (up_frame ff m d h b) else [])
      (if accepts (md s) b h then up_dropped s ff (up_frame ff m d h b)
       else if leaks (md s) b h then [] else [ff]) ∧
    md s' = counted (md s) b h.
Proof.
  intros h Hm Hmok Hk Hb Hp Hlen Hsmall Hbytes Hrd Hhl Ht Hroom.
  assert (Hnu : ∀ n, body ff ≠ NoUnion n) by (by rewrite Hb).
  assert (Hq : bf_rep (outq s) xs) by (by destruct Hroom).
  assert (Hs32 : s32 (pduLength d) = Z.of_nat (length b))
    by (rewrite Hlen; unfold s32; rewrite Z.mod_small; lia).
  assert (So : ∀ f s1, stat_only s s1 → stat_only s (upd f s1)) by (intros; by apply stat_only_upd).
  pose proof (stat_only_refl s) as So0.
  assert (Hdrop : ∀ s1 : ST, stat_only s s1 →
    ∃ s2, free_ff ff s1 = Ok (tt, s2) ∧ eff s xs s2 [] [ff] ∧ md s2 = md s1)
    by (intros; by apply free_after).
  unfold ipv4_in_fdf. erewrite bind_ok; [|unfold ff_data; by rewrite Hb].
  erewrite bind_ok; [|rewrite Hp; done]. rewrite Hs32.
  erewrite bind_ok; [|apply stat_ok]. erewrite bind_ok; [|unfold lift; by rewrite Hrd].
  fold h. unfold accepts, leaks, valid_here, counted, judge.
  destruct (Z.eqb_spec (version h) IP4_VERSION) as [Hv|Hv]; cbn [negb andb orb].
  2: { erewrite bind_ok; [|apply stat_ok]. eexists. split; [apply stat_ok|]. split; [|done].
       eapply stat_only_eff; [by do 3 apply So|]. by apply eff_refl. }
  destruct (Z.leb_spec IP4_MIN_HLEN (header_length h)) as [Hmin|Hmin]; cbn [negb andb orb].
  2: { destruct (Z.ltb_spec (header_length h) IP4_MIN_HLEN); [|lia]. cbn [length_seen andb].
       do 2 (erewrite bind_ok; [|apply stat_ok]).
       destruct (Hdrop (upd inc_dropped (upd inc_badhlen (upd inc_received s)))) as (s2 & E & F & M);
         [by do 3 apply So|]. exists s2. by rewrite M. }
  destruct (Z.ltb_spec (header_length h) IP4_MIN_HLEN); [lia|].
  destruct (header_cksum_zero b p Hbytes Hrd Hv) as (ck & Eck & Hck).
  { apply andb_false_iff in Hhl as [[Hn%Z.eqb_neq|Hn%Z.leb_gt]%andb_false_iff|Hn%Z.ltb_ge];
      unfold h, IP4_MIN_HLEN in *; [done|lia..]. }
  erewrite bind_ok; [|unfold lift; unfold h; by rewrite Eck]. rewrite Hck. fold h.
  destruct (word_sum (take (Z.to_nat (header_length h)) b) mod 65535 =? 0); cbn [negb andb orb].
  2: { do 2 (erewrite bind_ok; [|apply stat_ok]).
       destruct (Hdrop (upd inc_dropped (upd inc_badsum (upd inc_received s)))) as (s2 & E & F & M);
         [by do 3 apply So|]. exists s2. by rewrite M. }
  set (t1 := if negb (packet_length h =? Z.of_nat (length b))
             then inc_badlen (inc_received (ip_stats (md s))) else inc_received (ip_stats (md s))).
  assert (Hbl : ∃ s1, (if negb (packet_length h =? Z.of_nat (length b)) then stat inc_badlen
      else mret tt) (upd inc_received s) = Ok (tt, s1) ∧ stat_only s s1 ∧
      md s1 = set_ip_stats t1 (md s)).
  { unfold t1. destruct (packet_length h =? Z.of_nat (length b)); eexists;
      (split; [apply stat_ok || done|]); split; [by repeat apply So|done|by repeat apply So|done]. }
  destruct Hbl as (s1 & E1 & Hs1 & Hm1). erewrite bind_ok; [|exact E1].
  destruct (Z.leb_spec (packet_length h) (Z.of_nat (length b))) as [Hpl|Hpl]; cbn [negb andb orb].
  2: { destruct (Z.ltb_spec (Z.of_nat (length b)) (packet_length h)); [|lia].
       erewrite bind_ok; [|apply stat_ok].
       destruct (Hdrop (upd inc_dropped s1)) as (s2 & E & F & M); [by apply So|].
       exists s2. rewrite M. cbn [md upd set_md]. by rewrite Hm1. }
  destruct (Z.ltb_spec (Z.of_nat (length b)) (packet_length h)); [lia|].
  assert (Hls : length_seen (judge_late (md s) h) = true)
    by (unfold judge_late; repeat case_match; done).
  rewrite Hls. cbn [andb]. fold t1.
  edestruct (in_checked_ok ff m d b p h (Z.of_nat (length b)) s s1 xs) as (s2 & E2 & F2 & M2);
    [done..|]. exists s2. split_and!; [done..|]. by rewrite M2, Hm1.
Qed.

Lemma bind_segv {A B} (c : M ST A) (k : A → M ST B) s : c s = Segv → (a ← c; k a) s = Segv.
Proof. intros E. unfold mbind, M_bind. by rewrite E. Qed.

(** The checksum of more bytes than there are. *)
Lemma cksum_loop_over n b sum :
  (length b < n)%nat → (n mod 2 = 0)%nat → cksum_loop n b sum = Segv.
Proof.
  revert b sum. induction n as [n IH] using lt_wf_ind. intros b sum Hl He.
  destruct n as [|[|n]]; [simpl in Hl; lia|done|]. cbn [cksum_loop].
  destruct b as [|x [|y b]]; [done..|]. apply IH; [lia|simpl in Hl; lia|].
  replace (S (S n)) with (n + 1 * 2)%nat in He by lia. by rewrite Nat.Div0.mod_add in He.
Qed.

Lemma hlen_even p : (Z.to_nat (header_length (parse_header p)) mod 2 = 0)%nat.
Proof.
  change (header_length (parse_header p)) with (u8 (Z.shiftl (Z.land (ip_verlen p) 15) 2)).
  unfold u8. rewrite Z.shiftl_mul_pow2 by lia. change (2 ^ 2) with 4.
  generalize (Z.land (ip_verlen p) 15) as x. intros x.
  apply Nat2Z.inj. rewrite Nat2Z.inj_mod, Z2Nat.id; Z.div_mod_to_equations; lia.
Qed.

Lemma in_fdf_over ff d b p (s : ST) :
  let h := parse_header p in
  body ff = Data d → pdu d = Some b → read_packet b = Ok p → overreads b h = true →
  ipv4_in_fdf ff s = Segv.
Proof.
  intros h Hb Hp Hrd [[Hv Hm]%andb_true_iff Hl]%andb_true_iff.
  unfold ipv4_in_fdf. erewrite bind_ok; [|unfold ff_data; by rewrite Hb].
  erewrite bind_ok; [|rewrite Hp; done].
  erewrite bind_ok; [|apply stat_ok]. erewrite bind_ok; [|unfold lift; by rewrite Hrd].
  fold h. rewrite Hv. cbn [negb]. apply Z.leb_le in Hm. apply Z.ltb_lt in Hl.
  destruct (Z.ltb_spec (header_length h) IP4_MIN_HLEN); [lia|].
  apply bind_segv. unfold lift, ipv4_checksum. rewrite cksum_loop_over; [done| |apply hlen_even].
  lia.
Qed.

Lemma in_fdf_tiny ff d b (s : ST) :
  body ff = Data d → pdu d = Some b → read_packet b = Segv → ipv4_in_fdf ff s = Segv.
Proof.
  intros Hb Hp Hrd. unfold ipv4_in_fdf. erewrite bind_ok; [|unfold ff_data; by rewrite Hb].
  erewrite bind_ok; [|rewrite Hp; done].
  erewrite bind_ok; [|apply stat_ok]. apply bind_segv. unfold lift. by rewrite Hrd.
Qed.

(** ** Outgoing packets *)

(** The header on the wire for a payload of [n] bytes. *)
Definition wire_blank (src dst proto t n : Z) : ip4_packet :=
  MkPacket 69 0 (htons (u16 (n + IP4_MIN_HLEN))) (htons 0) (htons 0) t proto 0
    (htonl src) (htonl dst).
Definition wire_header (src dst proto t n : Z) : ip4_packet :=
  set_cksum (cksum_fold (header_sum (wire_blank src dst proto t n))) (wire_blank src dst proto t n).

Lemma wire_blank_ok src dst proto t n :
  is_u8 proto → is_u8 t → packet_ok (wire_blank src dst proto t n).
Proof.
  intros. split; simpl; try done; try apply htons_range; try apply htonl_range;
    unfold is_u8; lia.
Qed.

Lemma wire_header_ok src dst proto t n :
  is_u8 proto → is_u8 t → packet_ok (wire_header src dst proto t n).
Proof. intros. apply set_cksum_ok; [by apply wire_blank_ok|apply cksum_fold_range]. Qed.

Lemma parse_wire_header src dst proto t n :
  is_u32 src → is_u32 dst → 0 ≤ n → n + 20 < 65536 →
  let h := parse_header (wire_header src dst proto t n) in
  source h = src ∧ destination h = dst ∧ version h = 4 ∧ header_length h = 20 ∧
  packet_length h = n + 20 ∧ h_flags h = 0 ∧ fragmentation_offset h = 0 ∧
  ttl h = t ∧ protocol h = proto.
Proof.
  intros Hs Hd Hn Hlt h. unfold h, parse_header. simpl.
  rewrite !htonl_htonl by done. unfold IP4_MIN_HLEN.
  rewrite (u16_small (n + 20)) by (unfold is_u16; lia).
  rewrite htons_htons by (unfold is_u16; lia). done.
Qed.

Lemma wire_header_verifies src dst proto t n rest :
  is_u8 proto → is_u8 t →
  ipv4_checksum (packet_bytes (wire_header src dst proto t n) ++ rest) IP4_MIN_HLEN = Ok 0.
Proof.
  intros. apply checksum_verifies; [by apply wire_header_ok|]. reflexivity.
Qed.

Lemma finish_wire p n src dst proto t :
  is_u8 proto → is_u8 t →
  ip_verlen p = 69 → ip_dif p = 0 → ip_ttl p = t → ip_proto p = proto →
  ip_src p = htonl src → ip_dst p = htonl dst →
  finish_header p n = Ok (wire_header src dst proto t n).
Proof.
  intros Hp Ht E1 E2 E3 E4 E5 E6.
  assert (E : blank_header p n = wire_blank src dst proto t n)
    by (unfold blank_header, wire_blank; congruence).
  rewrite finish_header_ok; rewrite E; [done|by apply wire_blank_ok].
Qed.

Definition set_uid (u : Z) (d : ipv4_data) : ipv4_data :=
  MkIpv4 (ip_addr_list d) (addr_loopback d) (addr_main d) (route_list d) u (ip_stats d).

Lemma const_header_ok junk src dst proto (s : ST) :
  ipv4_const_header junk src dst proto s =
    Ok (MkPacket 69 0 (ip_len junk) (htons (unique_id (md s))) (ip_fragoff junk) IP4_INIT_TTL
          (u8 proto) (ip_cksum junk) (htonl src) (htonl dst),
        set_md (set_uid (u16 (unique_id (md s) + 1)) (md s)) s).
Proof. reflexivity. Qed.

Definition send_meta (m : metadata) (if_index address : Z) : metadata :=
  put_member (put_member (put_member m
    "send_ether_type" (SInt (s32 IP4_ETH_TYPE))) "send_if_index" (SInt (s32 if_index)))
    "send_dst_ipv4" (SInt (s32 address)).

Definition send_keys : list string := ["send_ether_type"; "send_if_index"; "send_dst_ipv4"].

(** The frame sent to the interface module for a payload [b]. *)
Definition out_frame (ff : finsFrame) (m : metadata) (dir : Z) (p : ip4_packet) (b : list Z)
    (address if_index : Z) : finsFrame :=
  MkFrame (destinationID ff) (Some (send_meta m if_index address))
    (Data (MkData dir (Z.of_nat (length b) + 20) (Some (packet_bytes p ++ b)))).

Lemma send_fdf_out_ok ff m d b p address if_index (s : ST) xs :
  metaData ff = Some m → meta_ok m = true → forallb (int_key m) send_keys = true →
  body ff = Data d → read_bytes (pdu d) (pduLength d) = Ok b →
  pduLength d = Z.of_nat (length b) → Z.of_nat (length b) + 20 < 4294967296 →
  table_ok (lcells (store s)) (mt s) → room s xs (length (flow_dsts s IPV4_FLOW_INTERFACE)) →
  let out := out_frame ff m (directionFlag d) p b address if_index in
  ∃ s', ipv4_send_fdf_out ff p address if_index s = Ok (tt, s') ∧ md s' = md s ∧
    eff s xs s' (sent_copies out (flow_dsts s IPV4_FLOW_INTERFACE))
      (if decide (flow_dsts s IPV4_FLOW_INTERFACE = []) then [out] else []).
Proof.
  intros Hm Hmok Hk Hb Hrd Hlen Hsm Ht Hr out.
  assert (Hks : int_key m "send_ether_type" = true ∧ int_key m "send_if_index" = true ∧
    int_key m "send_dst_ipv4" = true).
  { cbn [forallb send_keys] in Hk. apply andb_true_iff in Hk as [? Hk].
    apply andb_true_iff in Hk as [? Hk]. apply andb_true_iff in Hk as [? _]. done. }
  destruct Hks as (K1 & K2 & K3).
  unfold ipv4_send_fdf_out. erewrite bind_ok; [|unfold ff_data; by rewrite Hb].
  erewrite bind_ok; [|unfold lift; by rewrite Hrd].
  rewrite Hlen, u32_small by (unfold is_u32, IP4_MIN_HLEN; lia).
  erewrite bind_ok; [|by apply ff_write_ok].
  erewrite bind_ok; [|apply ff_write_ok; [done|by apply int_key_put]].
  erewrite bind_ok; [|apply ff_write_ok; [done|by do 2 apply int_key_put]].
  destruct (send_or_free_ok out IPV4_FLOW_INTERFACE s xs) as (s' & E & F & M); [|done..|].
  { split.
    - unfold out, out_frame. cbn [body body_ok pdu pduLength].
      rewrite length_app, packet_bytes_length. lia.
    - eexists. split; [done|]. unfold send_meta. do 3 (apply meta_ok_put; [|reflexivity..]). done. }
  exists s'. split; [exact E|]. done.
Qed.

(** What [ipv4_out_fdf] reads from the metadata. *)
Record out_meta (m : metadata) (proto src dst : Z) (t : option Z) : Prop := {
  om_proto : secure_metadata_readFromElement m "send_protocol" = Ok proto;
  om_family : ∃ f, secure_metadata_readFromElement m "send_family" = Ok f;
  om_src : secure_metadata_readFromElement m "send_src_ipv4" = Ok src;
  om_dst : secure_metadata_readFromElement m "send_dst_ipv4" = Ok dst;
  om_ttl : match metadata_readFromElement m "send_ttl" with
           | Some (VInt32 v) => t = Some (u32 v) | None => t = None | _ => False end;
  om_tos : match metadata_readFromElement m "send_tos" with
           | Some (VInt32 _) | None => True | _ => False end
}.

Definition out_ttl (t : option Z) : Z := match t with Some t => u8 t | None => IP4_INIT_TTL end.

(** The route taken is the first of the list that matches the destination. *)
Lemma out_fdf_ok junk now ff m d b proto src dst t route s xs :
  metaData ff = Some m → meta_ok m = true → forallb (int_key m) send_keys = true →
  out_meta m proto src dst t →
  body ff = Data d → read_bytes (pdu d) (pduLength d) = Ok b →
  pduLength d = Z.of_nat (length b) → Z.of_nat (length b) < 65536 →
  find_first (ipv4_route_dst_test dst) (route_list (md s)) = Some route →
  loops_back (md s) route (next_hop route dst) = false →
  table_ok (lcells (store s)) (mt s) → room s xs (length (flow_dsts s IPV4_FLOW_INTERFACE)) →
  let out := out_frame ff m (directionFlag d)
    (wire_header src dst (u8 proto) (out_ttl t) (Z.of_nat (length b))) b
    (next_hop route dst) (r_if_index route) in
  ∃ s', ipv4_out_fdf junk now ff s = Ok (tt, s') ∧
    md s' = set_uid (u16 (unique_id (md s) + 1)) (md s) ∧
    eff s xs s' (sent_copies out (flow_dsts s IPV4_FLOW_INTERFACE))
      (if decide (flow_dsts s IPV4_FLOW_INTERFACE = []) then [out] else []).
Proof.
  intros Hm Hmok Hk [Hpr [f Hfam] Hs Hd Htl Htos] Hb Hrd Hlen Hsm Hroute Hlb Ht Hr out.
  unfold ipv4_out_fdf.
  do 4 (erewrite bind_ok; [|by eapply ff_read_ok]).
  erewrite bind_ok; [|apply const_header_ok].
  assert (Hopt : opt_read ff "send_ttl" (set_md (set_uid (u16 (unique_id (md s) + 1)) (md s)) s)
    = Ok (t, set_md (set_uid (u16 (unique_id (md s) + 1)) (md s)) s)).
  { unfold opt_read, ff_meta. rewrite Hm. erewrite bind_ok; [|done].
    destruct (metadata_readFromElement m "send_ttl") as [[]|]; try done; by subst. }
  erewrite bind_ok; [|exact Hopt].
  set (s1 := set_md _ s) in *.
  assert (Htos' : ∃ tos, opt_read ff "send_tos" s1 = Ok (tos, s1)).
  { unfold opt_read, ff_meta. rewrite Hm. erewrite bind_ok; [|done].
    destruct (metadata_readFromElement m "send_tos") as [[]|]; eauto; done. }
  destruct Htos' as [tos Etos]. erewrite bind_ok; [|exact Etos]. erewrite bind_ok; [|done].
  change (route_list (md s1)) with (route_list (md s)). rewrite Hroute.
  change (loops_back (md s1)) with (loops_back (md s)). rewrite Hlb.
  erewrite bind_ok; [|unfold ff_data; by rewrite Hb].
  erewrite bind_ok.
  2: { unfold lift.
       rewrite (finish_wire _ _ src dst (u8 proto) (out_ttl t)); [done|auto with fins|..].
       all: destruct t as [t|]; simpl; try done; auto with fins. }
  rewrite Hlen, (u16_small (Z.of_nat (length b))) by (unfold is_u16; lia).
  destruct (send_fdf_out_ok ff m d b
    (wire_header src dst (u8 proto) (out_ttl t) (Z.of_nat (length b)))
    (next_hop route dst) (r_if_index route) s1 xs) as (s' & E & M & F); [done..|lia|done|done|].
  exists s'. split; [exact E|]. split; [by rewrite M|].
  destruct F. by split.
Qed.

Lemma out_ttl_u8 t : is_u8 (out_ttl t).
Proof. destruct t; simpl; auto with fins. unfold is_u8, IP4_INIT_TTL. lia. Qed.

(** ** A packet from the wire *)

(** The header built by [ipv4_out_fdf] is accepted by the owner of the
    destination address. *)
Lemma wire_accepted d src dst proto t b :
  is_u32 src → is_u32 dst → is_u8 proto → is_u8 t → t ≠ 0 →
  Z.of_nat (length b) + 20 < 65536 → ours d dst = true →
  let p := wire_header src dst proto t (Z.of_nat (length b)) in
  accepts d (packet_bytes p ++ b) (parse_header p) = true.
Proof.
  intros Hsrc Hdst Hproto Httl8 Httl Hsm Hours p.
  destruct (parse_wire_header src dst proto t (Z.of_nat (length b)))
    as (_ & Hhd & Hhv & Hhh & Hhp & Hhf & Hho & Hht & _); [done..|lia|lia|].
  fold p in Hhd, Hhv, Hhh, Hhp, Hhf, Hho, Hht.
  unfold accepts, valid_here, whole. rewrite Hhv, Hhh, Hhp, Hht, Hhd, Hhf, Hho, Hours.
  pose (blank := wire_blank src dst proto t (Z.of_nat (length b))).
  assert (Hsum : word_sum (take (Z.to_nat 20) (packet_bytes p ++ b)) mod 65535 = 0).
  { rewrite take_app_length' by done.
    pose proof (header_sum_bound blank (wire_blank_ok _ _ _ _ _ Hproto Httl8)).
    rewrite word_sum_packet by (by apply wire_header_ok).
    change (header_sum p) with (header_sum blank).
    change (ip_cksum p) with (cksum_fold (header_sum blank)).
    apply cksum_fold_zero; [|apply cksum_fold_complement; lia].
    pose proof (cksum_fold_range (header_sum blank)). unfold is_u16 in *. lia. }
  rewrite Hsum, length_app, packet_bytes_length.
  destruct (Z.leb_spec (Z.of_nat (length b) + 20) (Z.of_nat (20 + length b))); [|lia].
  by destruct (Z.eqb_spec t 0).
Qed.

(** A packet with such a header goes up as [up_frame] says. *)
Lemma wire_up ff2 m2 dir2 b src dst proto t (s2 : ST) xs2 :
  metaData ff2 = Some m2 → meta_ok m2 = true → forallb (int_key m2) recv_keys = true →
  let p := wire_header src dst proto t (Z.of_nat (length b)) in
  let d2 := MkData dir2 (Z.of_nat (length b) + 20) (Some (packet_bytes p ++ b)) in
  body ff2 = Data d2 →
  is_bytes b → Z.of_nat (length b) + 20 < 65536 → ours (md s2) dst = true →
  is_u32 src → is_u32 dst → t ≠ 0 → is_u8 t → is_u8 proto →
  table_ok (lcells (store s2)) (mt s2) → room_any s2 xs2 →
  let up := up_frame ff2 m2 d2 (parse_header p) (packet_bytes p ++ b) in
  ∃ s2', ipv4_in_fdf ff2 s2 = Ok (tt, s2') ∧ eff s2 xs2 s2' (up_sent s2 up) (up_dropped s2 ff2 up).
Proof.
  intros Hm Hmok Hk p d2 Hb2 Hbytes Hsm Hours Hsrc Hdst Httl Httl8 Hproto Ht Hr up.
  pose proof (wire_accepted (md s2) src dst proto t b Hsrc Hdst Hproto Httl8 Httl Hsm Hours) as Hacc.
  destruct (parse_wire_header src dst proto t (Z.of_nat (length b)))
    as (Hhs & Hhd & _ & Hhh & Hhp & _ & _ & Hht & Hhpr); [done..|lia|lia|].
  cbv zeta in Hacc. fold p in Hacc, Hhs, Hhd, Hhh, Hhp, Hht, Hhpr.
  assert (Hpl : Z.of_nat (length (packet_bytes p ++ b)) = Z.of_nat (length b) + 20)
    by (rewrite length_app, packet_bytes_length; lia).
  destruct (in_fdf_cases ff2 m2 d2 (packet_bytes p ++ b) p s2 xs2)
    as (s2' & E2 & F2 & _); [done..| | | | | |done|done|].
  { simpl. lia. }
  { lia. }
  { apply Forall_app. split; [|done]. by apply packet_bytes_u8, wire_header_ok. }
  { by apply read_packet_bytes, wire_header_ok. }
  { apply andb_false_iff. right. apply Z.ltb_ge. rewrite Hhh. lia. }
  exists s2'. split; [exact E2|]. rewrite Hacc in F2. exact F2.
Qed.

Lemma wire_delivers ff2 m2 dir2 b src dst proto t (s2 : ST) xs2 :
  metaData ff2 = Some m2 → meta_ok m2 = true → forallb (int_key m2) recv_keys = true →
  body ff2 = Data (MkData dir2 (Z.of_nat (length b) + 20)
    (Some (packet_bytes (wire_header src dst proto t (Z.of_nat (length b))) ++ b))) →
  is_bytes b → Z.of_nat (length b) + 20 < 65536 → ours (md s2) dst = true →
  is_u32 src → is_u32 dst → t ≠ 0 → proto = IP4_PT_TCP ∨ proto = IP4_PT_UDP →
  is_u8 t → is_u8 proto →
  table_ok (lcells (store s2)) (mt s2) → room_any s2 xs2 →
  let up := MkFrame (destinationID ff2)
    (Some (put_member (recv_meta m2 proto AF_INET src dst) "recv_ttl" (SInt (s32 t))))
    (Data (MkData dir2 (Z.of_nat (length b)) (Some b))) in
  let flow := if proto =? IP4_PT_TCP then IPV4_FLOW_TCP else IPV4_FLOW_UDP in
  ∃ s2', ipv4_in_fdf ff2 s2 = Ok (tt, s2') ∧
    eff s2 xs2 s2' (sent_copies up (flow_dsts s2 flow))
      (if decide (flow_dsts s2 flow = []) then [up] else []).
Proof.
  intros Hm Hmok Hk Hb2 Hbytes Hsm Hours Hsrc Hdst Httl Hpr Httl8 Hproto Ht Hr up flow.
  destruct (wire_up ff2 m2 dir2 b src dst proto t s2 xs2) as (s2' & E2 & F2); [done..|].
  destruct (parse_wire_header src dst proto t (Z.of_nat (length b)))
    as (Hhs & Hhd & _ & Hhh & Hhp & _ & _ & Hht & Hhpr); [done..|lia|lia|].
  exists s2'. split; [exact E2|]. unfold up_frame in F2. rewrite Hhp, Hhh, Hhpr, Hhs, Hhd, Hht in F2.
  replace (Z.of_nat (length b) + 20 - 20) with (Z.of_nat (length b)) in F2 by lia.
  destruct (Z.ltb_spec (Z.of_nat (length b)) 0); [lia|].
  rewrite (drop_app_length' (packet_bytes _)), Nat2Z.id, firstn_all in F2 by done.
  unfold flow, up. destruct Hpr as [-> | ->]; exact F2.
Qed.

End IPv4Facts.

(** ** Properties *)

(** the header built for an outgoing packet passes the receiver's checksum
    test and parses back to the source, destination, protocol, time to live
    and total length it was built from, with no fragmentation, whatever
    payload follows it. *)
Theorem ipv4_header_roundtrip {Q} (s s1 : mstate Q ipv4_data) junk src dst proto n rest p :
  is_u32 src → is_u32 dst → 0 ≤ n → n + 20 < 65536 →
  ipv4_const_header junk src dst proto s = Ok (p, s1) →
  ∃ p', finish_header p n = Ok p' ∧
    let packet := packet_bytes p' ++ rest in
    read_packet packet = Ok p' ∧ ipv4_checksum packet IP4_MIN_HLEN = Ok 0 ∧
    let h := parse_header p' in
    source h = src ∧ destination h = dst ∧ version h = 4 ∧ header_length h = 20 ∧
    packet_length h = n + 20 ∧ h_flags h = 0 ∧ fragmentation_offset h = 0 ∧
    ttl h = 255 ∧ protocol h = u8 proto.
Proof.
  intros Hs Hd Hn Hlt E. rewrite const_header_ok in E. injection E as <- _.
  assert (Hu : is_u8 (u8 proto)) by auto with fins.
  assert (Ht : is_u8 255) by (unfold is_u8; lia).
  exists (wire_header src dst (u8 proto) 255 n). split; [by apply finish_wire|].
  split; [apply read_packet_bytes, wire_header_ok; done|].
  split; [by apply wire_header_verifies|]. by apply parse_wire_header.
Qed.

Definition junk_packet : ip4_packet := MkPacket 1 2 3 4 5 6 7 8 9 10.

(** A host with address 192.168.1.1 on interface 2 and a default gateway
    192.168.1.254; flow 0 leads to module 2, the others to module 5. *)
Definition demo_addr (ip : Z) : sockaddr := MkAddr AF_INET 0 ip.
Definition demo_ipv4 : ipv4_data :=
  MkIpv4
    [MkAddrRecord 2 AF_INET (demo_addr 3232235777) (demo_addr 4294967040) (demo_addr 0)
       (demo_addr 3232236031) (demo_addr 0)]
    None None
    [MkRoute 2 AF_INET (demo_addr 3232235776) (demo_addr 4294967040) (demo_addr 0) 0 0;
     MkRoute 2 AF_INET (demo_addr 0) (demo_addr 0) (demo_addr 3232236030) 0 0]
    7 (MkStats 0 0 0 0 0 0 0 0 0 0).
Definition demo_ip_store : link_store :=
  MkStore {[ 8 := MkLink 1 3 1 (2 :: replicate 31 0); 9 := MkLink 2 3 1 (5 :: replicate 31 0) ]} 10.
Definition demo_ip_table : fins_module_table :=
  MkTable (Some [8; 9]) 4 [MkFlow 1 8; MkFlow 2 9; MkFlow 2 9; MkFlow 2 9].
Definition demo_ip : mstate (QueueRecord finsFrame) ipv4_data :=
  MkSt (MkMod FMS_RUNNING 4 3 3 (init_queue 10) (init_queue 10)) demo_ip_table demo_ipv4
    demo_ip_store [] 0.

Lemma demo_ip_ok : table_ok (lcells (store demo_ip)) (mt demo_ip).
Proof.
  assert (Hl : Forall (link_ok (lcells demo_ip_store)) [8; 9]).
  { repeat constructor; eexists; (split; [vm_compute; reflexivity|]); simpl; lia. }
  split; simpl.
  - lia.
  - intros l [= <-]. split; [|done]. repeat constructor; set_solver.
  - intros [|[|[|[|i]]]] f Hi Hf; simpl in *; simplify_eq; try lia; exists [8; 9]; split; reflexivity.
Qed.

Lemma demo_ip_dsts flow : (length (flow_dsts demo_ip flow) ≤ 1)%nat.
Proof.
  unfold flow_dsts. destruct (Z.leb_spec (flows_num (mt demo_ip)) flow) as [|Hf]; [simpl; lia|].
  simpl in Hf. destruct (Z.to_nat flow) as [|[|[|[|i]]]] eqn:E; [vm_compute; lia..|].
  simpl. lia.
Qed.

Lemma demo_ip_room : room_any demo_ip [].
Proof.
  assert (Hq : bf_rep (outq demo_ip) []) by (by apply create_qrep).
  split; [exact Hq|]. intros flow. split; [exact Hq|].
  pose proof (demo_ip_dsts flow). change (bf_cap (outq demo_ip)) with 10. simpl. lia.
Qed.

(** An instance. *)
Lemma ipv4_header_roundtrip_witness :
  ∃ p p', (∃ s1, ipv4_const_header junk_packet 3232235777 167772161 17 demo_ip = Ok (p, s1)) ∧
    finish_header p 9 = Ok p' ∧
    let packet := packet_bytes p' ++ [1;2;3] in
    read_packet packet = Ok p' ∧ ipv4_checksum packet IP4_MIN_HLEN = Ok 0 ∧
    let h := parse_header p' in
    source h = 3232235777 ∧ destination h = 167772161 ∧ version h = 4 ∧ header_length h = 20 ∧
    packet_length h = 29 ∧ h_flags h = 0 ∧ fragmentation_offset h = 0 ∧
    ttl h = 255 ∧ protocol h = 17.
Proof.
  eexists.
  edestruct (ipv4_header_roundtrip demo_ip) with (src := 3232235777) (dst := 167772161)
    (proto := 17) (n := 9) (rest := [1;2;3]) (junk := junk_packet) as (p' & E & H);
    [unfold is_u32; lia..|lia|lia|apply const_header_ok|].
  exists p'. split; [eexists; apply const_header_ok|]. split; [exact E|exact H].
Defined.

(** a corrupted 16-bit word is detected: if a buffer of up to 65534 words
    verifies and one word of it is replaced by a different one, the new buffer
    does not verify - except for the two representations of zero, 0 and 65535,
    which the ones-complement sum cannot tell apart. *)
Theorem ipv4_checksum_detects b1 x y x' y' b2 k :
  let b := b1 ++ [x; y] ++ b2 in
  let b' := b1 ++ [x'; y'] ++ b2 in
  length b1 = (2 * k)%nat → Z.of_nat (length b) ≤ 131064 →
  is_bytes b → is_bytes b' →
  ipv4_checksum b (Z.of_nat (length b)) = Ok 0 →
  (x + 256 * y) mod 65535 ≠ (x' + 256 * y') mod 65535 →
  ∃ ck, ipv4_checksum b' (Z.of_nat (length b')) = Ok ck ∧ ck ≠ 0.
Proof.
  intros b b' Hk Hlen Hb Hb' H0 Hne.
  assert (Hl : length b' = length b) by (unfold b, b'; by rewrite !length_app).
  assert (Hbound : ∀ c, is_bytes c → Z.of_nat (length c) ≤ 131064 → 0 ≤ word_sum c < 4294901760).
  { intros c Hc Hcl. pose proof (word_sum_bound c Hc).
    rewrite Nat2Z.inj_div in *. change (Z.of_nat 2) with 2 in *. Z.div_mod_to_equations. lia. }
  rewrite ipv4_checksum_sum in H0 |- * by lia.
  rewrite Nat2Z.id, firstn_all in H0. rewrite Nat2Z.id, firstn_all.
  eexists. split; [done|]. injection H0 as H0. intros H0'.
  apply cksum_fold_zero in H0 as [_ H0]; [|apply Hbound; [done|lia]].
  apply cksum_fold_zero in H0' as [_ H0']; [|apply Hbound; [done|lia]].
  apply Hne. revert H0 H0'. unfold b, b'.
  rewrite !(word_sum_app b1 _ k), !(word_sum_app [_; _] _ 1) by done. cbn [word_sum].
  intros. Z.div_mod_to_equations. lia.
Qed.

(** An instance: a flipped bit in a three-word buffer. *)
Lemma ipv4_checksum_detects_witness :
  ∃ ck, ipv4_checksum ([0; 1] ++ [0; 2] ++ [255; 251]) 6 = Ok ck ∧ ck ≠ 0.
Proof.
  apply (ipv4_checksum_detects [0; 1] 0 3 0 2 [255; 251] 1); try (simpl; lia); try reflexivity;
    try (vm_compute; discriminate); repeat constructor; vm_compute; try discriminate.
Defined.


(** A UDP packet of 3 payload bytes from 10.0.0.1 to the host. *)
Definition demo_packet : list Z :=
  packet_bytes (wire_header 167772161 3232235777 17 64 3) ++ [7; 8; 9].
Definition demo_in_frame (b : list Z) : finsFrame :=
  MkFrame 3 (Some []) (Data (MkData DIR_UP (Z.of_nat (length b)) (Some b))).
(** The same for protocol 99, and 20 bytes that claim a header of 60. *)
Definition demo_unknown : list Z :=
  packet_bytes (wire_header 167772161 3232235777 99 64 3) ++ [7; 8; 9].
Definition demo_claims_60 : list Z := 79 :: replicate 19 0.

Lemma demo_in_hyps b :
  forallb (λ x, (0 <=? x) && (x <? 256)) b = true → is_bytes b.
Proof.
  intros Hf. apply Forall_forall. intros x Hx%list_elem_of_In.
  eapply forallb_forall in Hf; [|exact Hx]. apply andb_true_iff in Hf as [?%Z.leb_le ?%Z.ltb_lt].
  unfold is_u8. lia.
Qed.


(** C3: end to end.  A frame handed to the IPv4 module of one host is sent to
    the first matching route's next hop as a packet which the IPv4 module of
    any host owning the destination address delivers: same payload, source,
    destination, protocol and time to live. *)
Theorem ipv4_out_in_delivers {Q} `{BoundedFifo Q finsFrame} (s1 s2 : mstate Q ipv4_data) xs1 xs2
    junk now ff m d b proto src dst t route ff2 m2 dir2 :
  metaData ff = Some m → meta_ok m = true → forallb (int_key m) send_keys = true →
  out_meta m proto src dst t → is_u32 src → is_u32 dst →
  body ff = Data d → read_bytes (pdu d) (pduLength d) = Ok b → is_bytes b →
  pduLength d = Z.of_nat (length b) → Z.of_nat (length b) + 20 < 65536 →
  find_first (ipv4_route_dst_test dst) (route_list (md s1)) = Some route →
  loops_back (md s1) route (next_hop route dst) = false →
  table_ok (lcells (store s1)) (mt s1) → room_any s1 xs1 →
  ours (md s2) dst = true → out_ttl t ≠ 0 → u8 proto = IP4_PT_TCP ∨ u8 proto = IP4_PT_UDP →
  metaData ff2 = Some m2 → meta_ok m2 = true → forallb (int_key m2) recv_keys = true →
  table_ok (lcells (store s2)) (mt s2) → room_any s2 xs2 →
  let packet := packet_bytes (wire_header src dst (u8 proto) (out_ttl t) (Z.of_nat (length b))) ++ b in
  let n := Z.of_nat (length b) in
  body ff2 = Data (MkData dir2 (n + 20) (Some packet)) →
  ∃ s1' out s2' up flow,
    ipv4_out_fdf junk now ff s1 = Ok (tt, s1') ∧
    eff s1 xs1 s1' (sent_copies out (flow_dsts s1 IPV4_FLOW_INTERFACE))
      (if decide (flow_dsts s1 IPV4_FLOW_INTERFACE = []) then [out] else []) ∧
    body out = Data (MkData (directionFlag d) (n + 20) (Some packet)) ∧
    metaData out = Some (send_meta m (r_if_index route) (next_hop route dst)) ∧
    ipv4_in_fdf ff2 s2 = Ok (tt, s2') ∧
    eff s2 xs2 s2' (sent_copies up (flow_dsts s2 flow))
      (if decide (flow_dsts s2 flow = []) then [up] else []) ∧
    flow = (if u8 proto =? IP4_PT_TCP then IPV4_FLOW_TCP else IPV4_FLOW_UDP) ∧
    body up = Data (MkData dir2 n (Some b)) ∧
    metaData up = Some (put_member (recv_meta m2 (u8 proto) AF_INET src dst)
                          "recv_ttl" (SInt (s32 (out_ttl t)))).
Proof.
  intros Hm Hmok Hk Hom Hsrc Hdst Hb Hrd Hbytes Hlen Hsm Hroute Hlb Ht1 [Hq1 Hr1] Hours Httl Hpr
    Hm2 Hmok2 Hk2 Ht2 Hr2 packet n Hb2.
  destruct (out_fdf_ok junk now ff m d b proto src dst t route s1 xs1)
    as (s1' & E1 & _ & F1); [done..|lia|done|done|done|apply Hr1|].
  destruct (wire_delivers ff2 m2 dir2 b src dst (u8 proto) (out_ttl t) s2 xs2)
    as (s2' & E2 & F2); [done..|apply out_ttl_u8|auto with fins|done|done|].
  eexists s1', _, s2', _, _. split; [exact E1|]. split; [exact F1|]. split; [done|].
  split; [done|]. split; [exact E2|]. split; [exact F2|]. done.
Qed.

(** A sending host on the same network, with a loopback interface 1. *)
Definition demo_ip2 : mstate (QueueRecord finsFrame) ipv4_data :=
  set_md (MkIpv4 (ip_addr_list demo_ipv4)
    (Some (MkAddrRecord 1 AF_INET (demo_addr 2130706433) (demo_addr 0) (demo_addr 0)
      (demo_addr 0) (demo_addr 0))) None (route_list demo_ipv4) 7 (ip_stats demo_ipv4)) demo_ip.
Definition demo_out_meta : metadata :=
  [("send_protocol", SInt 17); ("send_family", SInt 2); ("send_src_ipv4", SInt (s32 3232235778));
   ("send_dst_ipv4", SInt (s32 3232235777))].

(** Witness of C3: three bytes from 192.168.1.2 to 192.168.1.1. *)
Lemma ipv4_out_in_delivers_witness :
  let packet := packet_bytes (wire_header 3232235778 3232235777 17 255 3) ++ [7; 8; 9] in
  ∃ s1' out s2' up flow,
    ipv4_out_fdf junk_packet 0 (MkFrame 3 (Some demo_out_meta)
      (Data (MkData DIR_DOWN 3 (Some [7; 8; 9])))) demo_ip2 = Ok (tt, s1') ∧
    eff demo_ip2 [] s1' (sent_copies out [2]) [] ∧
    body out = Data (MkData DIR_DOWN 23 (Some packet)) ∧
    metaData out = Some (send_meta demo_out_meta 2 3232235777) ∧
    ipv4_in_fdf (MkFrame 3 (Some []) (Data (MkData DIR_UP 23 (Some packet)))) demo_ip = Ok (tt, s2') ∧
    eff demo_ip [] s2' (sent_copies up (flow_dsts demo_ip flow))
      (if decide (flow_dsts demo_ip flow = []) then [up] else []) ∧
    flow = IPV4_FLOW_UDP ∧ body up = Data (MkData DIR_UP 3 (Some [7; 8; 9])) ∧
    metaData up = Some (put_member (recv_meta [] 17 AF_INET 3232235778 3232235777)
                          "recv_ttl" (SInt 255)).
Proof.
  apply (ipv4_out_in_delivers demo_ip2 demo_ip [] [] junk_packet 0
    (MkFrame 3 (Some demo_out_meta) (Data (MkData DIR_DOWN 3 (Some [7; 8; 9]))))
    demo_out_meta (MkData DIR_DOWN 3 (Some [7; 8; 9])) [7; 8; 9] 17 3232235778 3232235777 None
    (MkRoute 2 AF_INET (demo_addr 3232235776) (demo_addr 4294967040) (demo_addr 0) 0 0)
    (MkFrame 3 (Some []) (Data (MkData DIR_UP 23 (Some
      (packet_bytes (wire_header 3232235778 3232235777 17 255 3) ++ [7; 8; 9])))))
    [] DIR_UP); try reflexivity; try (unfold is_u32; lia).
  - split; try reflexivity; try done. eexists. reflexivity.
  - repeat constructor; vm_compute; discriminate.
  - apply demo_ip_ok.
  - apply demo_ip_room.
  - discriminate.
  - right. reflexivity.
  - apply demo_ip_ok.
  - apply demo_ip_room.
Defined.

(** the paths on which a frame is lost.  Without a matching route the
    outgoing frame is neither sent nor released; a received packet shorter
    than a header is read past its end. *)
Theorem ipv4_unowned_frames {Q} `{BoundedFifo Q finsFrame} (s : mstate Q ipv4_data) xs junk now
    ff m proto src dst t ff2 d2 b2 :
  metaData ff = Some m → out_meta m proto src dst t →
  find_first (ipv4_route_dst_test dst) (route_list (md s)) = None → bf_rep (outq s) xs →
  body ff2 = Data d2 → pdu d2 = Some b2 → (length b2 < 20)%nat →
  (∃ s', ipv4_out_fdf junk now ff s = Ok (tt, s') ∧ eff s xs s' [] []) ∧
  ipv4_in_fdf ff2 s = Segv.
Proof.
  intros Hm [Hpr [f Hfam] Hs Hd Htl Htos] Hroute Hq Hb Hp Hl. split.
  - unfold ipv4_out_fdf. do 4 (erewrite bind_ok; [|by eapply ff_read_ok]).
    erewrite bind_ok; [|apply const_header_ok]. set (s1 := set_md _ s).
    assert (Hopt : ∀ k, match metadata_readFromElement m k with
        | Some (VInt32 _) | None => True | _ => False end → ∃ v, opt_read ff k s1 = Ok (v, s1)).
    { intros k Hk. unfold opt_read, ff_meta. rewrite Hm. erewrite bind_ok; [|done].
      destruct (metadata_readFromElement m k) as [[]|]; eauto; done. }
    destruct (Hopt "send_ttl") as [v1 E1].
    { by destruct (metadata_readFromElement m "send_ttl") as [[]|]. }
    erewrite bind_ok; [|exact E1]. destruct (Hopt "send_tos" Htos) as [v2 E2].
    erewrite bind_ok; [|exact E2]. erewrite bind_ok; [|done].
    change (route_list (md s1)) with (route_list (md s)). rewrite Hroute.
    exists s1. split; [done|]. by apply eff_set_md.
  - unfold ipv4_in_fdf. erewrite bind_ok; [|unfold ff_data; by rewrite Hb].
    erewrite bind_ok; [|rewrite Hp; done]. erewrite bind_ok; [|apply stat_ok].
    assert (Hrd : read_packet b2 = Segv).
    { do 20 (destruct b2 as [|? b2]; [done|]). simpl in Hl. lia. }
    unfold lift, mbind, M_bind. by rewrite Hrd.
Qed.

(** An instance: a host without routes. *)
Lemma ipv4_unowned_frames_witness :
  let s := set_md (MkIpv4 [] None None [] 0 (ip_stats demo_ipv4)) demo_ip in
  (∃ s', ipv4_out_fdf junk_packet 0 (MkFrame 3 (Some demo_out_meta)
      (Data (MkData DIR_DOWN 3 (Some [7; 8; 9])))) s = Ok (tt, s') ∧ eff s [] s' [] []) ∧
  ipv4_in_fdf (MkFrame 3 (Some []) (Data (MkData DIR_UP 2 (Some [69; 0])))) s = Segv.
Proof.
  apply (ipv4_unowned_frames (set_md (MkIpv4 [] None None [] 0 (ip_stats demo_ipv4)) demo_ip) []
    junk_packet 0 (MkFrame 3 (Some demo_out_meta) (Data (MkData DIR_DOWN 3 (Some [7; 8; 9]))))
    demo_out_meta 17 3232235778 3232235777 None
    (MkFrame 3 (Some []) (Data (MkData DIR_UP 2 (Some [69; 0])))) (MkData DIR_UP 2 (Some [69; 0]))
    [69; 0]); try reflexivity.
  - split; try reflexivity; try done. eexists. reflexivity.
  - by apply create_qrep.
  - simpl. lia.
Defined.

(** for an accepted UDP or TCP packet whose header carries options (more
    than 20 bytes), the payload handed up starts at byte 20: it begins with
    the option bytes and lacks as many bytes at its end. *)
Theorem ipv4_options_misread {Q} `{BoundedFifo Q finsFrame} (s : mstate Q ipv4_data) xs ff m d
    opts payload p :
  let h := parse_header p in
  let b := packet_bytes p ++ opts ++ payload in
  metaData ff = Some m → meta_ok m = true → forallb (int_key m) recv_keys = true →
  body ff = Data d → pdu d = Some b → pduLength d = Z.of_nat (length b) →
  Z.of_nat (length b) < 2147483648 → is_bytes b → packet_ok p →
  header_length h = 20 + Z.of_nat (length opts) → packet_length h = Z.of_nat (length b) →
  accepts (md s) b h = true → protocol h = IP4_PT_UDP →
  table_ok (lcells (store s)) (mt s) → room_any s xs →
  ∃ s' up, ipv4_in_fdf ff s = Ok (tt, s') ∧
    eff s xs s' (sent_copies up (flow_dsts s IPV4_FLOW_UDP))
      (if decide (flow_dsts s IPV4_FLOW_UDP = []) then [up] else []) ∧
    body up = Data (MkData (directionFlag d) (Z.of_nat (length payload))
      (Some (take (length payload) (opts ++ payload)))).
Proof.
  intros h b Hm Hmok Hk Hb Hp Hlen Hsm Hbytes Hpok Hhl Hpl Hacc Hproto Ht Hr.
  assert (Hbl : Z.of_nat (length b) = 20 + Z.of_nat (length opts) + Z.of_nat (length payload))
    by (unfold b; rewrite !length_app, packet_bytes_length; lia).
  destruct (in_fdf_cases ff m d b p s xs) as (s' & E & F & _); [done..| | |done|done|].
  { by apply read_packet_bytes. }
  { apply andb_false_iff. right. apply Z.ltb_ge. fold h. lia. }
  fold h in F. rewrite Hacc in F. unfold up_frame in F. rewrite Hhl, Hpl, Hproto in F.
  replace (Z.of_nat (length b) - (20 + Z.of_nat (length opts))) with (Z.of_nat (length payload))
    in F by lia.
  destruct (Z.ltb_spec (Z.of_nat (length payload)) 0); [lia|].
  rewrite Nat2Z.id in F. unfold b in F. rewrite drop_app_length' in F by done.
  eexists s', _. split; [exact E|]. split; [exact F|]. done.
Qed.

(** A header of 24 bytes: one option word, then two payload bytes. *)
Definition demo_opt_header : ip4_packet :=
  let blank := MkPacket 70 0 (htons 26) 0 0 64 17 0 (htonl 167772161) (htonl 3232235777) in
  set_cksum (cksum_fold (header_sum blank + word_sum [1; 1; 1; 1])) blank.

(** An instance: the payload [7; 8] arrives as two option bytes. *)
Lemma ipv4_options_misread_witness :
  ∃ s' up, ipv4_in_fdf (MkFrame 3 (Some []) (Data (MkData DIR_UP 26
      (Some (packet_bytes demo_opt_header ++ [1; 1; 1; 1] ++ [7; 8]))))) demo_ip = Ok (tt, s') ∧
    eff demo_ip [] s' (sent_copies up [5]) [] ∧
    body up = Data (MkData DIR_UP 2 (Some [1; 1])).
Proof.
  apply (ipv4_options_misread demo_ip [] (MkFrame 3 (Some []) (Data (MkData DIR_UP 26
      (Some (packet_bytes demo_opt_header ++ [1; 1; 1; 1] ++ [7; 8]))))) []
    (MkData DIR_UP 26 (Some (packet_bytes demo_opt_header ++ [1; 1; 1; 1] ++ [7; 8])))
    [1; 1; 1; 1] [7; 8] demo_opt_header); try reflexivity.
  - repeat constructor; vm_compute; discriminate.
  - split; vm_compute; split; discriminate || reflexivity.
  - apply demo_ip_ok.
  - apply demo_ip_room.
Defined.
