(* ===== verification/UDP.v ===== *)
(** * The UDP module: [modules/udp]

    [UDP_checksum.c], [udp_in.c], [udp_out.c] and the control part of
    [udp.c], with the list of sent datagrams the module keeps to answer error
    messages.  That list is a mathematical list here; the pointer structure
    behind it is the subject of [LinkedListFacts]. *)

From stdpp Require Import base list gmap strings.
From Stdlib Require Import ZArith Lia.
From S2P Require Import Prelude Queue Metadata Frame Module IPv4.
Open Scope Z_scope.

Definition U_HEADER_LEN := 8.
Definition UDP_PT_UDP := 17.
Definition IGNORE_CHEKSUM := 0.
Definition UDP_SENT_LIST_MAX := 131072.
Definition UDP_FLOW_IPV4 := 0.
Definition UDP_FLOW_ICMP := 1.
Definition UDP_FLOW_DAEMON := 2.
Definition UDP_EXEC_CLEAR_SENT := 0.
Definition UDP_ERROR_TTL := 0.
Definition UDP_ERROR_DEST_UNREACH := 1.
Definition UDP_ERROR_GET_ADDR := 2.

(** ** Data *)

(** A datagram sent, with a copy of the frame (the time stamp is left out). *)
Record udp_sent := MkSent {
  sent_ff : finsFrame; host_ip : Z; host_port : Z; rem_ip : Z; rem_port : Z
}.

Record udp_statistics := MkUStats {
  badChecksum : Z; noChecksum : Z; mismatchingLengths : Z; wrongProtocol : Z;
  totalBadDatagrams : Z; totalRecieved : Z; totalSent : Z
}.

Record udp_data := MkUdp { udp_stats : udp_statistics; sent_packet_list : list udp_sent }.

(** [struct udp_header] at the start of a datagram, fields as in memory. *)
Record udp_header := MkUHdr { u_src : Z; u_dst : Z; u_len : Z; u_cksum : Z }.

Definition read_udp (b : list Z) : res udp_header :=
  match b with
  | s0 :: s1 :: d0 :: d1 :: l0 :: l1 :: c0 :: c1 :: _ =>
      Ok (MkUHdr (le_value [s0; s1]) (le_value [d0; d1]) (le_value [l0; l1]) (le_value [c0; c1]))
  | _ => Segv
  end.

Definition udp_bytes (h : udp_header) : list Z :=
  le_bytes 2 (u_src h) ++ le_bytes 2 (u_dst h) ++ le_bytes 2 (u_len h) ++ le_bytes 2 (u_cksum h).

(** ** UDP_checksum.c *)

(** The sum of [n] bytes as big-endian words, in a 32-bit variable. *)
Fixpoint be_loop (n : nat) (pt : list Z) (sum : Z) {struct n} : res Z :=
  match n with
  | S (S n) =>
      match pt with
      | b0 :: b1 :: pt => be_loop n pt (u32 (sum + (b0 * 256 + b1)))
      | _ => Segv
      end
  | _ => Ok sum
  end.

(** [while (sum >> 16) sum = (sum & 0xFFFF) + (sum >> 16);] *)
Fixpoint fold_carries (fuel : nat) (sum : Z) : res Z :=
  if Z.shiftr sum 16 =? 0 then Ok sum
  else match fuel with
       | O => NoFuel
       | S fuel => fold_carries fuel (u32 (Z.land sum 65535 + Z.shiftr sum 16))
       end.

(** Two rounds are enough for a 32-bit sum. *)
Definition UDP_checksum (packet : list Z) (src_ip_netw dst_ip_netw : Z) : res Z :=
  match read_at packet 4 2 with
  | Ok len_netw =>
      let hdr := le_bytes 4 src_ip_netw ++ le_bytes 4 dst_ip_netw ++ [0; UDP_PT_UDP]
                 ++ le_bytes 2 len_netw in
      let len := ntohs len_netw in
      match be_loop 12 hdr 0 with
      | Ok sum =>
          let odd := negb (Z.land len 1 =? 0) in
          let len' := if odd then len - 1 else len in
          let sum' := if odd then
                        match packet !! Z.to_nat len' with
                        | Some last => Ok (u32 (sum + last * 256))
                        | None => Segv
                        end
                      else Ok sum in
          match sum' with
          | Ok sum =>
              match be_loop (Z.to_nat len') packet sum with
              | Ok sum =>
                  match fold_carries 2 sum with
                  | Ok sum => Ok (u16 (Z.lnot sum))
                  | Segv => Segv | Exit => Exit | NoFuel => NoFuel
                  end
              | Segv => Segv | Exit => Exit | NoFuel => NoFuel
              end
          | Segv => Segv | Exit => Exit | NoFuel => NoFuel
          end
      | Segv => Segv | Exit => Exit | NoFuel => NoFuel
      end
  | Segv => Segv | Exit => Exit | NoFuel => NoFuel
  end.

(** ** Sent datagrams *)

Definition udp_sent_host_test (ip port : Z) (s : udp_sent) : bool :=
  (host_ip s =? ip) && (host_port s =? port).

(** [strncmp(a, b, n) == 0]: equality up to [n] characters or the first NUL,
    reading both buffers up to there. *)
Fixpoint strncmp_eq (n : nat) (a b : list Z) {struct n} : res bool :=
  match n, a, b with
  | O, _, _ => Ok true
  | S n, x :: a, y :: b =>
      if negb (x =? y) then Ok false else if x =? 0 then Ok true else strncmp_eq n a b
  | _, _, _ => Segv
  end.

Definition sent_pdu (s : udp_sent) : list Z :=
  match body (sent_ff s) with Data d => default [] (pdu d) | _ => [] end.
Definition sent_len (s : udp_sent) : Z :=
  match body (sent_ff s) with Data d => pduLength d | _ => 0 end.

Definition udp_sent_match_test (data_len : Z) (data : list Z) (s : udp_sent) : res bool :=
  if data_len <=? sent_len s then strncmp_eq (Z.to_nat data_len) (sent_pdu s) data
  else strncmp_eq (Z.to_nat (sent_len s)) (sent_pdu s) data.

(** [list_find2]: the first record that passes the test, with its place in
    the list, from which [list_remove] takes it out. *)
Fixpoint find_sent (test : udp_sent → res bool) (l : list udp_sent) : res (option (nat * udp_sent)) :=
  match l with
  | [] => Ok None
  | x :: l =>
      match test x with
      | Ok true => Ok (Some (0%nat, x))
      | Ok false =>
          match find_sent test l with
          | Ok r => Ok (prod_map S id <$> r)
          | Segv => Segv | Exit => Exit | NoFuel => NoFuel
          end
      | Segv => Segv | Exit => Exit | NoFuel => NoFuel
      end
  end.

Definition inc_ustat (f : udp_statistics → udp_statistics) (d : udp_data) : udp_data :=
  MkUdp (f (udp_stats d)) (sent_packet_list d).
Definition set_sent (l : list udp_sent) (d : udp_data) : udp_data := MkUdp (udp_stats d) l.

Definition st_wrong (t : udp_statistics) :=
  MkUStats (badChecksum t) (noChecksum t) (mismatchingLengths t) (u16 (wrongProtocol t + 1))
    (u32 (totalBadDatagrams t + 1)) (totalRecieved t) (totalSent t).
Definition st_mismatch (t : udp_statistics) :=
  MkUStats (badChecksum t) (noChecksum t) (u16 (mismatchingLengths t + 1)) (wrongProtocol t)
    (u32 (totalBadDatagrams t + 1)) (totalRecieved t) (totalSent t).
Definition st_badsum (t : udp_statistics) :=
  MkUStats (u16 (badChecksum t + 1)) (noChecksum t) (mismatchingLengths t) (wrongProtocol t)
    (u32 (totalBadDatagrams t + 1)) (totalRecieved t) (totalSent t).
Definition st_nosum (t : udp_statistics) :=
  MkUStats (badChecksum t) (u16 (noChecksum t + 1)) (mismatchingLengths t) (wrongProtocol t)
    (totalBadDatagrams t) (totalRecieved t) (totalSent t).
Definition st_recv (t : udp_statistics) :=
  MkUStats (badChecksum t) (noChecksum t) (mismatchingLengths t) (wrongProtocol t)
    (totalBadDatagrams t) (u32 (totalRecieved t + 1)) (totalSent t).
Definition st_sent (t : udp_statistics) :=
  MkUStats (badChecksum t) (noChecksum t) (mismatchingLengths t) (wrongProtocol t)
    (totalBadDatagrams t) (totalRecieved t) (u32 (totalSent t + 1)).

Section UDP.
Context {Q : Type} `{BoundedFifo Q finsFrame}.
Abbreviation ST := (mstate Q udp_data) (only parsing).

Definition ustat (f : udp_statistics → udp_statistics) : M ST unit :=
  modify (λ s, set_md (inc_ustat f (md s)) s).
Definition put_sent (l : list udp_sent) : M ST unit :=
  modify (λ s, set_md (set_sent l (md s)) s).

(** ** udp_in.c *)

Definition udp_in_fdf (ff : finsFrame) : M ST unit :=
  d ← ff_data ff;
  protocol ← ff_read ff "recv_protocol";
  family ← ff_read ff "recv_family";
  src_ip ← ff_read ff "recv_src_ipv4";
  dst_ip ← ff_read ff "recv_dst_ipv4";
  if negb (protocol =? UDP_PT_UDP) then ustat st_wrong ;; free_ff ff
  else
    packet ← lift (match pdu d with Some b => Ok b | None => Segv end);
    len ← lift (read_at packet 4 2);
    if negb (pduLength d =? ntohs len) then ustat st_mismatch ;; free_ff ff
    else
      ck ← lift (UDP_checksum packet (htonl src_ip) (htonl dst_ip));
      h ← lift (read_udp packet);
      let deliver : M ST unit :=
        ff ← ff_write ff "recv_src_port" (VInt32 (ntohs (u_src h)));
        ff ← ff_write ff "recv_dst_port" (VInt32 (ntohs (u_dst h)));
        let n := u32 (pduLength d - U_HEADER_LEN) in
        b ← lift (read_bytes (Some (drop 8 packet)) n);
        ustat st_recv ;;
        send_or_free (set_body (Data (MkData (directionFlag d) n (Some b))) ff) UDP_FLOW_DAEMON in
      if negb (u_cksum h =? IGNORE_CHEKSUM) then
        if negb (ck =? 0) then ustat st_badsum ;; free_ff ff else deliver
      else ustat st_nosum ;; deliver.

(** ** udp_out.c *)

(** The new datagram: a zeroed buffer of [packet_length] (16-bit) bytes, the
    header, and [pduLength] bytes copied behind it, which must fit. *)
Definition udp_datagram (d : finsDataFrame) (src_ip src_port dst_ip dst_port : Z) : res (list Z) :=
  let packet_length := u16 (pduLength d + U_HEADER_LEN) in
  if packet_length <? U_HEADER_LEN + pduLength d then Segv
  else
    match read_bytes (pdu d) (pduLength d) with
    | Ok b =>
        let h := MkUHdr (htons (u16 src_port)) (htons (u16 dst_port)) (htons packet_length) 0 in
        match UDP_checksum (udp_bytes h ++ b) (htonl src_ip) (htonl dst_ip) with
        | Ok ck => Ok (udp_bytes (MkUHdr (u_src h) (u_dst h) (u_len h) (htons ck)) ++ b)
        | Segv => Segv | Exit => Exit | NoFuel => NoFuel
        end
    | Segv => Segv | Exit => Exit | NoFuel => NoFuel
    end.

(** [udp_sent_create]: the ports are cut to 16 bits. *)
Definition udp_sent_create (ff : finsFrame) (hip hport rip rport : Z) : udp_sent :=
  MkSent ff hip (u16 hport) rip (u16 rport).

Definition udp_sent_free (s : udp_sent) : M ST unit := free_ff (sent_ff s).

(** Keep the sent datagram, dropping the oldest one when the list is full. *)
Definition keep_sent (sent : udp_sent) : M ST unit :=
  s ← get;
  let l := sent_packet_list (md s) in
  if Z.of_nat (length l) <? UDP_SENT_LIST_MAX then put_sent (l ++ [sent])
  else match l with
       | [] => segv
       | old :: l => put_sent l ;; udp_sent_free old ;; put_sent (l ++ [sent])
       end.

Definition udp_out_fdf (ff : finsFrame) : M ST unit :=
  d ← ff_data ff;
  family ← ff_read ff "send_family";
  src_ip ← ff_read ff "send_src_ipv4";
  src_port ← ff_read ff "send_src_port";
  dst_ip ← ff_read ff "send_dst_ipv4";
  dst_port ← ff_read ff "send_dst_port";
  ff ← ff_write ff "send_protocol" (VInt32 UDP_PT_UDP);
  b ← lift (udp_datagram d src_ip src_port dst_ip dst_port);
  let ff := set_body (Data (MkData (directionFlag d) (u16 (pduLength d + U_HEADER_LEN)) (Some b))) ff in
  ustat st_sent ;;
  ff_clone ← lift (cloneFinsFrame ff);
  send_or_free ff UDP_FLOW_IPV4 ;;
  keep_sent (udp_sent_create ff_clone src_ip src_port dst_ip dst_port).

(** ** udp.c: control frames *)

Definition udp_read_param (ff : finsFrame) : M ST unit := module_reply_fcf ff FCF_FALSE 0.
Definition udp_set_param (ff : finsFrame) : M ST unit := set_param ff.

Fixpoint free_all (l : list udp_sent) : M ST unit :=
  match l with
  | [] => mret tt
  | s :: l => udp_sent_free s ;; free_all l
  end.

(** [list_remove_all2] with the host test, then [list_free] of the result. *)
Definition udp_exec_clear_sent (ff : finsFrame) (hip hport : Z) : M ST unit :=
  s ← get;
  let l := sent_packet_list (md s) in
  (if decide (l = []) then mret tt
   else
     put_sent (filter (λ x, udp_sent_host_test hip hport x = false) l) ;;
     free_all (filter (λ x, udp_sent_host_test hip hport x = true) l)) ;;
  free_ff ff.

Definition udp_exec (ff : finsFrame) : M ST unit :=
  c ← ff_ctrl ff;
  if param_id c =? UDP_EXEC_CLEAR_SENT then
    hip ← ff_read ff "host_ip";
    hport ← ff_read ff "host_port";
    rip ← ff_read ff "rem_ip";
    rport ← ff_read ff "rem_port";
    udp_exec_clear_sent ff hip (u16 hport)
  else module_reply_fcf ff FCF_FALSE 0.

(** [metadata_copy(sent->ff->metaData, ff->metaData)], status ignored. *)
Definition merge_meta (src : option metadata) (ff : finsFrame) : M ST finsFrame :=
  m ← ff_meta ff;
  match src with
  | None => segv
  | Some sm =>
      match metadata_copy sm m with
      | Ok (_, m') => mret (set_meta (Some m') ff)
      | Segv => segv | Exit => exit_ | NoFuel => nofuel
      end
  end.

(** The common branch of [UDP_ERROR_TTL] and [UDP_ERROR_DEST_UNREACH]: the
    returned bytes select a sent datagram, whose payload and metadata go to
    the daemon with the error; the record is then forgotten. *)
Definition udp_error_return (ff : finsFrame) (c : finsCtrlFrame) : M ST unit :=
  s ← get;
  let l := sent_packet_list (md s) in
  match l, cdata c with
  | [], _ => free_ff ff
  | _, CNull => free_ff ff
  | _, CBytes data =>
      r ← lift (find_sent (udp_sent_match_test (data_len c) data) l);
      match r with
      | None => free_ff ff
      | Some (i, sent) =>
          ff ← merge_meta (metaData (sent_ff sent)) ff;
          d ← ff_data (sent_ff sent);
          send_or_free
            (set_body (Ctrl (MkCtrl (u8 (m_index (fm s))) (serial_num c) (opcode c) (param_id c)
               (ret_val c) (pduLength d)
               (match pdu d with Some b => CBytes b | None => CNull end))) ff) UDP_FLOW_DAEMON ;;
          put_sent (delete i l) ;;
          udp_sent_free (MkSent (set_body (Data (MkData (directionFlag d) (pduLength d) None))
                                   (sent_ff sent)) (host_ip sent) (host_port sent)
                           (rem_ip sent) (rem_port sent))
      end
  | _, _ => segv
  end.

(** [UDP_ERROR_GET_ADDR]: forget the datagram and pass the error on. *)
Definition udp_error_get_addr (ff : finsFrame) (c : finsCtrlFrame) : M ST unit :=
  s ← get;
  let l := sent_packet_list (md s) in
  match l, cdata c with
  | [], _ | _, CNull => mret tt
  | _, CBytes data =>
      r ← lift (find_sent (udp_sent_match_test (data_len c) data) l);
      match r with
      | None => mret tt
      | Some (i, sent) => put_sent (delete i l) ;; udp_sent_free sent
      end
  | _, _ => segv
  end ;;
  send_or_free
    (set_body (Ctrl (MkCtrl (u8 (m_index (fm s))) (serial_num c) (opcode c) (param_id c)
                       (ret_val c) (data_len c) (cdata c))) ff) UDP_FLOW_DAEMON.

Definition udp_error (ff : finsFrame) : M ST unit :=
  c ← ff_ctrl ff;
  if (param_id c =? UDP_ERROR_TTL) || (param_id c =? UDP_ERROR_DEST_UNREACH)
  then udp_error_return ff c
  else if param_id c =? UDP_ERROR_GET_ADDR then udp_error_get_addr ff c
  else free_ff ff.

Definition udp_fcf (ff : finsFrame) : M ST unit :=
  c ← ff_ctrl ff;
  if opcode c =? CTRL_ALERT then module_reply_fcf ff FCF_FALSE 0
  else if opcode c =? CTRL_ALERT_REPLY then free_ff ff
  else if opcode c =? CTRL_READ_PARAM then udp_read_param ff
  else if opcode c =? CTRL_READ_PARAM_REPLY then free_ff ff
  else if opcode c =? CTRL_SET_PARAM then udp_set_param ff
  else if opcode c =? CTRL_SET_PARAM_REPLY then free_ff ff
  else if opcode c =? CTRL_EXEC then udp_exec ff
  else if opcode c =? CTRL_EXEC_REPLY then free_ff ff
  else if opcode c =? CTRL_ERROR then udp_error ff
  else free_ff ff.

Definition udp_get_ff (events : nat) : M ST unit :=
  get_ff (frame_dispatch udp_fcf udp_in_fdf udp_out_fdf) events.

End UDP.

(** ** Checksum facts *)

(** Big-endian words, an odd last byte padded with 0. *)
Fixpoint be_words (b : list Z) : Z :=
  match b with
  | [] => 0
  | [x] => x * 256
  | x :: y :: b => x * 256 + y + be_words b
  end.

Lemma be_words_app b1 b2 n :
  length b1 = (2 * n)%nat → be_words (b1 ++ b2) = be_words b1 + be_words b2.
Proof.
  revert b1. induction n as [|n IH]; intros b1 Hl.
  { by destruct b1. }
  destruct b1 as [|x [|y b1]]; simpl in Hl; [lia..|].
  cbn [app be_words]. rewrite IH by lia. lia.
Qed.

Lemma be_words_bound b :
  is_bytes b → 0 ≤ be_words b ∧ 2 * be_words b ≤ 65535 * (Z.of_nat (length b) + 1).
Proof.
  induction b as [b IH] using (induction_ltof1 _ (@length Z)). unfold ltof in IH.
  unfold is_bytes, is_u8 in *.
  destruct b as [|x [|y b]]; intros Hb; [simpl; lia|..].
  - apply Forall_cons in Hb as [Hx _]. simpl. lia.
  - apply Forall_cons in Hb as [Hx Hb]. apply Forall_cons in Hb as [Hy Hb].
    specialize (IH b ltac:(simpl; lia) Hb). cbn [be_words length] in *. lia.
Qed.

Lemma be_loop_sum n k b sum :
  n = (2 * k)%nat → (n ≤ length b)%nat → is_bytes b → 0 ≤ sum →
  sum + be_words (take n b) < 4294967296 →
  be_loop n b sum = Ok (sum + be_words (take n b)).
Proof.
  intros ->. revert b sum. induction k as [|k IH]; intros b sum Hl Hb Hs Hlt.
  { simpl. by rewrite Z.add_0_r. }
  replace (2 * S k)%nat with (S (S (2 * k))) in * by lia.
  destruct b as [|x [|y b]]; simpl in Hl; [lia..|].
  apply Forall_cons in Hb as [Hx Hb]. apply Forall_cons in Hb as [Hy Hb].
  cbn [be_loop take be_words] in *.
  pose proof (be_words_bound (take (2 * k) b) (Forall_take _ _ _ Hb)). unfold is_u8 in *.
  rewrite u32_small by (unfold is_u32; lia). rewrite IH; [f_equal; lia|lia|done|lia|lia].
Qed.

(** The carry loop ends after at most two rounds with the folded sum. *)
Lemma fold_carries_ok s :
  0 ≤ s < 4294901760 → ∃ r, fold_carries 2 s = Ok r ∧ u16 (Z.lnot r) = cksum_fold s.
Proof.
  intros Hs. rewrite cksum_fold_eq by done.
  assert (Hstep : ∀ x, 0 ≤ x < 4294967296 →
    u32 (Z.land x 65535 + Z.shiftr x 16) = x mod 65536 + x / 65536).
  { intros x Hx. change 65535 with (Z.ones 16). rewrite Z.land_ones, Z.shiftr_div_pow2 by lia.
    change (2 ^ 16) with 65536. apply u32_small. unfold is_u32. Z.div_mod_to_equations. lia. }
  assert (Hsh : ∀ x, (Z.shiftr x 16 =? 0) = (x / 65536 =? 0)).
  { intros x. by rewrite Z.shiftr_div_pow2 by lia. }
  assert (Hfin : ∀ r, 0 ≤ r < 65536 → (r = 0 ↔ s = 0) → r mod 65535 = s mod 65535 →
    u16 (Z.lnot r) = if s =? 0 then 65535 else 65534 - (s - 1) mod 65535).
  { intros r Hr H0 Hm. unfold u16, Z.lnot. destruct (Z.eqb_spec s 0); [|].
    - assert (r = 0) as -> by tauto. done.
    - Z.div_mod_to_equations. lia. }
  cbn [fold_carries]. rewrite Hsh. destruct (Z.eqb_spec (s / 65536) 0) as [E|E].
  { exists s. split; [done|]. apply Hfin; [Z.div_mod_to_equations; lia|done|done]. }
  rewrite Hstep by lia. set (s1 := s mod 65536 + s / 65536).
  assert (H1 : 0 < s1 < 131071 ∧ s1 mod 65535 = s mod 65535).
  { unfold s1. Z.div_mod_to_equations. lia. }
  destruct H1 as [H1 H1m]. rewrite Hsh. destruct (Z.eqb_spec (s1 / 65536) 0) as [E1|E1].
  { exists s1. split; [done|]. apply Hfin; [Z.div_mod_to_equations; lia| |done].
    split; [lia|]. intros ->. done. }
  rewrite Hstep by lia. set (s2 := s1 mod 65536 + s1 / 65536).
  assert (H2 : 0 < s2 < 65536 ∧ s2 mod 65535 = s1 mod 65535).
  { unfold s2. clearbody s1. clear -H1 E1. Z.div_mod_to_equations. lia. }
  destruct H2 as [H2 H2m]. rewrite Hsh, Z.div_small by lia. cbn [Z.eqb].
  exists s2. split; [done|]. apply Hfin; [lia| |congruence].
  split; [lia|]. intros ->. done.
Qed.

(** The pseudo header of the checksum. *)
Definition pseudo (src dst len_netw : Z) : list Z :=
  le_bytes 4 src ++ le_bytes 4 dst ++ [0; UDP_PT_UDP] ++ le_bytes 2 len_netw.

Lemma take_be_words_odd b n :
  length b = S (2 * n) → ∃ last, b !! (2 * n)%nat = Some last ∧
    be_words b = be_words (take (2 * n) b) + last * 256.
Proof.
  intros Hl. destruct (lookup_lt_is_Some_2 b (2 * n)) as [last Hx]; [lia|].
  exists last. split; [done|].
  rewrite <-(take_drop_middle b (2 * n) last Hx) at 1.
  rewrite (be_words_app _ _ n) by (rewrite length_take; lia).
  rewrite (drop_ge b) by lia. done.
Qed.

(** For a datagram whose length field is its length, the checksum is the
    complement of the sum of the pseudo header and the datagram. *)
Lemma UDP_checksum_sum b src dst len :
  read_at b 4 2 = Ok len → ntohs len = Z.of_nat (length b) → Z.of_nat (length b) < 65536 →
  is_bytes b →
  UDP_checksum b src dst = Ok (cksum_fold (be_words (pseudo src dst len) + be_words b)).
Proof.
  intros Hrd Hlen Hlt Hb. unfold UDP_checksum. rewrite Hrd. fold (pseudo src dst len).
  assert (Hpb : is_bytes (pseudo src dst len)).
  { unfold pseudo, is_bytes. rewrite !Forall_app. split_and!; try apply le_bytes_u8.
    repeat constructor; vm_compute; discriminate. }
  assert (Hpl : length (pseudo src dst len) = 12%nat) by reflexivity.
  pose proof (be_words_bound _ Hpb) as Hpbd. rewrite Hpl in Hpbd.
  pose proof (be_words_bound _ Hb) as Hbd.
  rewrite (be_loop_sum 12 6); [|done|rewrite Hpl; lia|done|lia|rewrite take_ge by lia; lia].
  rewrite take_ge by lia. rewrite Z.add_0_l. set (ps := be_words (pseudo src dst len)) in *.
  rewrite Hlen.
  assert (Hodd : (Z.land (Z.of_nat (length b)) 1 =? 0) = Z.even (Z.of_nat (length b))).
  { change 1 with (Z.ones 1). rewrite Z.land_ones by lia. change (2 ^ 1) with 2.
    by rewrite Zeven_mod. }
  assert (Hend : ∀ s, s = ps + be_words b →
    match fold_carries 2 s with Ok sum => Ok (u16 (Z.lnot sum))
      | Segv => Segv | Exit => Exit | NoFuel => NoFuel end = Ok (cksum_fold (ps + be_words b))).
  { intros s ->. destruct (fold_carries_ok (ps + be_words b)) as (r & -> & ->); [lia|done]. }
  rewrite Hodd. destruct (Z.even (Z.of_nat (length b))) eqn:Eev; cbn [negb].
  - apply Z.even_spec in Eev as [k Hk]. rewrite Nat2Z.id.
    rewrite (be_loop_sum _ (Z.to_nat k)); [|lia|done|done|lia|rewrite firstn_all; lia].
    rewrite firstn_all. by apply Hend.
  - assert (Hex : ∃ k, length b = S (2 * k)).
    { rewrite <-Z.negb_odd in Eev. apply negb_false_iff, Z.odd_spec in Eev as [k Hk].
      exists (Z.to_nat k). lia. }
    destruct Hex as [k Hk]. destruct (take_be_words_odd b k Hk) as (last & Hlast & Hsum).
    replace (Z.to_nat (Z.of_nat (length b) - 1)) with (2 * k)%nat by lia. rewrite Hlast.
    assert (Hl8 : is_u8 last) by (eapply Forall_lookup_1 in Hb; done).
    pose proof (be_words_bound _ (Forall_take _ (2 * k) _ Hb)). unfold is_u8 in Hl8.
    rewrite u32_small by (unfold is_u32; lia).
    rewrite (be_loop_sum _ k); [|done|lia|done|lia|lia].
    apply Hend. lia.
Qed.

(** ** The datagram built by [udp_out_fdf] *)

Lemma be_words_htons x : is_u16 x → be_words (le_bytes 2 (htons x)) = x.
Proof. unfold is_u16, htons. intros. cbn [le_bytes be_words]. Z.div_mod_to_equations. lia. Qed.

Definition dgram_header (sport dport n ck : Z) : udp_header :=
  MkUHdr (htons sport) (htons dport) (htons (n + U_HEADER_LEN)) (htons ck).

Lemma udp_bytes_u8 h : is_bytes (udp_bytes h).
Proof. unfold udp_bytes, is_bytes. rewrite !Forall_app. split_and!; apply le_bytes_u8. Qed.

Lemma read_udp_bytes h b :
  is_u16 (u_src h) → is_u16 (u_dst h) → is_u16 (u_len h) → is_u16 (u_cksum h) →
  read_udp (udp_bytes h ++ b) = Ok h.
Proof.
  destruct h. unfold udp_bytes. cbn [u_src u_dst u_len u_cksum le_bytes app read_udp]. intros.
  assert (W2 : ∀ x, is_u16 x → le_value [x mod 256; (x / 256) mod 256] = x).
  { intros x Hx. by apply (le_value_bytes 2 x). }
  by rewrite !W2.
Qed.

Lemma read_udp_len h b : is_u16 (u_len h) → read_at (udp_bytes h ++ b) 4 2 = Ok (u_len h).
Proof.
  intros Hl. unfold udp_bytes. rewrite <-!(assoc_L app).
  rewrite (assoc_L app (le_bytes 2 (u_src h))). by apply (read_at_mid _ _ 4 2).
Qed.

Lemma be_words_dgram sport dport n ck b :
  is_u16 sport → is_u16 dport → is_u16 (n + U_HEADER_LEN) → is_u16 ck →
  be_words (udp_bytes (dgram_header sport dport n ck) ++ b)
    = sport + dport + (n + U_HEADER_LEN) + ck + be_words b.
Proof.
  intros. unfold udp_bytes, dgram_header. cbn [u_src u_dst u_len u_cksum].
  rewrite <-!(assoc_L app), !(be_words_app (le_bytes 2 _) _ 1) by done.
  rewrite !be_words_htons by done. lia.
Qed.

(** The checksum the sender computes, and the datagram. *)
Definition dgram_cksum (sip dip sport dport : Z) (b : list Z) : Z :=
  let n := Z.of_nat (length b) in
  cksum_fold (be_words (pseudo (htonl sip) (htonl dip) (htons (n + U_HEADER_LEN)))
              + be_words (udp_bytes (dgram_header sport dport n 0) ++ b)).
Definition dgram (sip dip sport dport : Z) (b : list Z) : list Z :=
  udp_bytes (dgram_header sport dport (Z.of_nat (length b)) (dgram_cksum sip dip sport dport b)) ++ b.

Lemma udp_cksum_of sip dip sport dport ck b :
  is_u16 sport → is_u16 dport → is_u16 ck → is_bytes b → Z.of_nat (length b) + 8 < 65536 →
  let n := Z.of_nat (length b) in
  UDP_checksum (udp_bytes (dgram_header sport dport n ck) ++ b) (htonl sip) (htonl dip) =
    Ok (cksum_fold (be_words (pseudo (htonl sip) (htonl dip) (htons (n + U_HEADER_LEN)))
          + be_words (udp_bytes (dgram_header sport dport n ck) ++ b))).
Proof.
  intros Hs Hd Hc Hb Hl n. apply UDP_checksum_sum.
  - apply read_udp_len, htons_range.
  - rewrite htons_htons by (unfold is_u16, U_HEADER_LEN; lia).
    rewrite length_app. unfold n, U_HEADER_LEN. simpl. lia.
  - rewrite length_app. simpl. lia.
  - apply Forall_app. split; [apply udp_bytes_u8|done].
Qed.

(** The receiver's checksum over it is 0. *)
Lemma dgram_verifies sip dip sport dport b :
  is_u16 sport → is_u16 dport → is_bytes b → Z.of_nat (length b) + 8 < 65536 →
  UDP_checksum (dgram sip dip sport dport b) (htonl sip) (htonl dip) = Ok 0.
Proof.
  intros Hs Hd Hb Hl. pose proof (cksum_fold_range) as Hck. unfold dgram.
  rewrite udp_cksum_of by (try done; apply Hck). f_equal.
  assert (Hn : is_u16 (Z.of_nat (length b) + U_HEADER_LEN)) by (unfold is_u16, U_HEADER_LEN; lia).
  rewrite be_words_dgram by (try done; apply Hck). unfold dgram_cksum.
  set (ps := be_words (pseudo _ _ _)). rewrite be_words_dgram by done.
  set (s := ps + (sport + dport + (Z.of_nat (length b) + U_HEADER_LEN) + 0 + be_words b)).
  replace (ps + (sport + dport + (Z.of_nat (length b) + U_HEADER_LEN) + cksum_fold s + be_words b))
    with (s + cksum_fold s) by (unfold s; lia).
  apply cksum_fold_complement. pose proof (be_words_bound b Hb).
  assert (Hps : 0 ≤ ps ∧ 2 * ps ≤ 65535 * 13).
  { apply (be_words_bound (pseudo _ _ _)). unfold pseudo, is_bytes. rewrite !Forall_app.
    split_and!; try apply le_bytes_u8. repeat constructor; vm_compute; discriminate. }
  unfold s, is_u16 in *. lia.
Qed.

Lemma udp_datagram_ok d b sip sport dip dport :
  read_bytes (pdu d) (pduLength d) = Ok b → pduLength d = Z.of_nat (length b) →
  is_bytes b → Z.of_nat (length b) + 8 < 65536 →
  udp_datagram d sip sport dip dport = Ok (dgram sip dip (u16 sport) (u16 dport) b).
Proof.
  intros Hrd Hlen Hb Hl. unfold udp_datagram. rewrite Hrd, Hlen.
  rewrite u16_small by (unfold is_u16, U_HEADER_LEN; lia).
  destruct (Z.ltb_spec (Z.of_nat (length b) + U_HEADER_LEN) (U_HEADER_LEN + Z.of_nat (length b))); [lia|].
  change (MkUHdr (htons (u16 sport)) (htons (u16 dport)) (htons (Z.of_nat (length b) + U_HEADER_LEN)) 0)
    with (dgram_header (u16 sport) (u16 dport) (Z.of_nat (length b)) 0).
  rewrite udp_cksum_of by (auto with fins; unfold is_u16; lia).
  fold (dgram_cksum sip dip (u16 sport) (u16 dport) b). unfold dgram.
  generalize (dgram_cksum sip dip (u16 sport) (u16 dport) b). intros ck.
  unfold dgram_header. reflexivity.
Qed.

Lemma dgram_length sip dip sport dport b :
  Z.of_nat (length (dgram sip dip sport dport b)) = Z.of_nat (length b) + 8.
Proof. unfold dgram. rewrite length_app. simpl. lia. Qed.

(** ** What the handlers do with a frame *)

Section UDPFacts.
Context {Q : Type} `{BoundedFifo Q finsFrame}.
Abbreviation ST := (mstate Q udp_data) (only parsing).

(** What the IPv4 module has put into the metadata. *)
Record in_meta (m : metadata) (proto sip dip : Z) : Prop := {
  im_proto : secure_metadata_readFromElement m "recv_protocol" = Ok proto;
  im_family : ∃ f, secure_metadata_readFromElement m "recv_family" = Ok f;
  im_src : secure_metadata_readFromElement m "recv_src_ipv4" = Ok sip;
  im_dst : secure_metadata_readFromElement m "recv_dst_ipv4" = Ok dip
}.

(** The datagram is passed up: protocol and length match, and the checksum is
    absent (0) or verifies. *)
Definition udp_accepts (proto sip dip : Z) (b : list Z) (h : udp_header) : bool :=
  (proto =? UDP_PT_UDP) && (Z.of_nat (length b) =? ntohs (u_len h))
  && ((u_cksum h =? IGNORE_CHEKSUM)
      || ((be_words (pseudo (htonl sip) (htonl dip) (u_len h)) + be_words b) mod 65535 =? 0)).

Definition udp_up (ff : finsFrame) (m : metadata) (d : finsDataFrame) (b : list Z) (h : udp_header)
    : finsFrame :=
  MkFrame (destinationID ff)
    (Some (put_member (put_member m "recv_src_port" (SInt (s32 (ntohs (u_src h)))))
             "recv_dst_port" (SInt (s32 (ntohs (u_dst h))))))
    (Data (MkData (directionFlag d) (Z.of_nat (length b) - 8) (Some (drop 8 b)))).

Lemma ustat_ok f (s : ST) : ustat f s = Ok (tt, set_md (inc_ustat f (md s)) s).
Proof. reflexivity. Qed.

Lemma eff_set_md_l (s : ST) xs d s' a b : eff (set_md d s) xs s' a b → eff s xs s' a b.
Proof. intros []. by split. Qed.

Lemma udp_free_after (s : ST) xs d ff :
  bf_rep (outq s) xs → (∀ n, body ff ≠ NoUnion n) →
  ∃ s', free_ff ff (set_md d s) = Ok (tt, s') ∧ eff s xs s' [] [ff] ∧ md s' = d.
Proof.
  intros Hq Hb. destruct (free_ff_ok (set_md d s) xs ff Hq Hb) as [E F].
  eexists. split; [exact E|]. split; [by eapply eff_set_md_l|done].
Qed.

Lemma read_len b h : read_udp b = Ok h → read_at b 4 2 = Ok (u_len h).
Proof.
  intros E. do 8 (destruct b as [|? b]; [done|]). injection E as <-. unfold read_at.
  change (4 <? 0) with false. change (Z.to_nat 4) with 4%nat. cbn [drop].
  rewrite read_bytes_some by (cbn [length]; lia). reflexivity.
Qed.

Lemma read_udp_length b h : read_udp b = Ok h → (8 ≤ length b)%nat.
Proof. intros E. do 8 (destruct b as [|? b]; [done|]). simpl. lia. Qed.

(** The pseudo header contains the protocol number, so the sum is positive. *)
Lemma pseudo_pos src dst len b :
  is_bytes b → 0 < be_words (pseudo src dst len) + be_words b.
Proof.
  intros Hb. unfold pseudo. rewrite !(be_words_app (le_bytes 4 _) _ 2), (be_words_app [_; _] _ 1) by done.
  pose proof (proj1 (be_words_bound _ (le_bytes_u8 4 src))).
  pose proof (proj1 (be_words_bound _ (le_bytes_u8 4 dst))).
  pose proof (proj1 (be_words_bound _ (le_bytes_u8 2 len))).
  pose proof (proj1 (be_words_bound _ Hb)). cbn [be_words]. unfold UDP_PT_UDP. lia.
Qed.

Lemma in_cksum_zero b h src dst :
  is_bytes b → Z.of_nat (length b) < 65536 → read_udp b = Ok h →
  ntohs (u_len h) = Z.of_nat (length b) →
  ∃ ck, UDP_checksum b src dst = Ok ck ∧
    (ck =? 0) = ((be_words (pseudo src dst (u_len h)) + be_words b) mod 65535 =? 0).
Proof.
  intros Hb Hl Hrd Hlen. rewrite (UDP_checksum_sum b src dst (u_len h)); [|by apply read_len|done..].
  eexists. split; [done|]. pose proof (pseudo_pos src dst (u_len h) b Hb).
  assert (Hps : 2 * be_words (pseudo src dst (u_len h)) ≤ 65535 * 13).
  { apply (be_words_bound (pseudo _ _ _)). unfold pseudo, is_bytes. rewrite !Forall_app.
    split_and!; try apply le_bytes_u8. repeat constructor; vm_compute; discriminate. }
  pose proof (be_words_bound b Hb).
  apply Bool.eq_true_iff_eq. rewrite !Z.eqb_eq, cksum_fold_zero by lia. tauto.
Qed.

(** Delivery of an accepted datagram, after the statistics were updated. *)
Lemma udp_deliver_ok ff m d b h data (s : ST) xs :
  metaData ff = Some m → meta_ok m = true →
  int_key m "recv_src_port" = true → int_key m "recv_dst_port" = true →
  read_udp b = Ok h → pduLength d = Z.of_nat (length b) → Z.of_nat (length b) < 65536 →
  table_ok (lcells (store s)) (mt s) → room s xs (length (flow_dsts s UDP_FLOW_DAEMON)) →
  ∃ s', (ff ← ff_write ff "recv_src_port" (VInt32 (ntohs (u_src h)));
         ff ← ff_write ff "recv_dst_port" (VInt32 (ntohs (u_dst h)));
         b' ← lift (read_bytes (Some (drop 8 b)) (u32 (pduLength d - U_HEADER_LEN)));
         ustat st_recv ;;
         send_or_free (set_body (Data (MkData (directionFlag d)
           (u32 (pduLength d - U_HEADER_LEN)) (Some b'))) ff) UDP_FLOW_DAEMON) (set_md data s)
      = Ok (tt, s') ∧
    eff s xs s' (sent_copies (udp_up ff m d b h) (flow_dsts s UDP_FLOW_DAEMON))
      (if decide (flow_dsts s UDP_FLOW_DAEMON = []) then [udp_up ff m d b h] else []) ∧
    md s' = inc_ustat st_recv data.
Proof.
  intros Hm Hmok Hk1 Hk2 Hrd Hlen Hlt Ht Hr. pose proof (read_udp_length _ _ Hrd) as H8.
  erewrite bind_ok; [|by apply ff_write_ok].
  erewrite bind_ok; [|apply ff_write_ok; [done|by apply int_key_put]].
  rewrite Hlen, u32_small by (unfold is_u32, U_HEADER_LEN; lia).
  assert (Hd8 : Z.of_nat (length b) - U_HEADER_LEN = Z.of_nat (length (drop 8 b)))
    by (rewrite length_drop; unfold U_HEADER_LEN; lia).
  erewrite bind_ok; [|unfold lift; rewrite read_bytes_all by exact Hd8; done].
  erewrite bind_ok; [|apply ustat_ok].
  destruct (send_or_free_ok (udp_up ff m d b h) UDP_FLOW_DAEMON
    (set_md (inc_ustat st_recv data) (set_md data s)) xs) as (s' & E & F & M); [|done..|].
  { split; [|eexists; split; [done|]].
    - unfold udp_up. cbn [body body_ok pdu pduLength]. rewrite length_drop. lia.
    - do 2 (apply meta_ok_put; [|reflexivity..]). done. }
  exists s'. split; [exact E|]. split; [by do 2 eapply eff_set_md_l|done].
Qed.

Lemma udp_in_cases ff m d b h proto sip dip (s : ST) xs :
  metaData ff = Some m → meta_ok m = true →
  int_key m "recv_src_port" = true → int_key m "recv_dst_port" = true →
  in_meta m proto sip dip →
  body ff = Data d → pdu d = Some b → pduLength d = Z.of_nat (length b) →
  Z.of_nat (length b) < 65536 → is_bytes b → read_udp b = Ok h →
  table_ok (lcells (store s)) (mt s) → room s xs (length (flow_dsts s UDP_FLOW_DAEMON)) →
  let ok := udp_accepts proto sip dip b h in
  ∃ s', udp_in_fdf ff s = Ok (tt, s') ∧
    eff s xs s'
      (if ok then sent_copies (udp_up ff m d b h) (flow_dsts s UDP_FLOW_DAEMON) else [])
      (if ok then if decide (flow_dsts s UDP_FLOW_DAEMON = []) then [udp_up ff m d b h] else []
       else [ff]) ∧
    sent_packet_list (md s') = sent_packet_list (md s) ∧
    totalRecieved (udp_stats (md s')) =
      (if ok then u32 (totalRecieved (udp_stats (md s)) + 1) else totalRecieved (udp_stats (md s))) ∧
    totalBadDatagrams (udp_stats (md s')) =
      (if ok then totalBadDatagrams (udp_stats (md s))
       else u32 (totalBadDatagrams (udp_stats (md s)) + 1)).
Proof.
  intros Hm Hmok Hk1 Hk2 [Hpr [f Hfam] Hs Hd] Hb Hp Hlen Hlt Hbytes Hrd Ht Hr ok.
  assert (Hnu : ∀ n, body ff ≠ NoUnion n) by (by rewrite Hb).
  assert (Hq : bf_rep (outq s) xs) by apply Hr.
  unfold udp_in_fdf. erewrite bind_ok; [|unfold ff_data; by rewrite Hb].
  do 4 (erewrite bind_ok; [|by eapply ff_read_ok]). unfold ok, udp_accepts.
  destruct (proto =? UDP_PT_UDP); cbn [negb andb].
  2: { erewrite bind_ok; [|apply ustat_ok].
       destruct (udp_free_after s xs (inc_ustat st_wrong (md s)) ff) as (s' & E & F & M); [done..|].
       exists s'. by rewrite M. }
  erewrite bind_ok; [|rewrite Hp; done].
  erewrite bind_ok; [|unfold lift; rewrite (read_len _ _ Hrd); done]. rewrite Hlen.
  destruct (Z.eqb_spec (Z.of_nat (length b)) (ntohs (u_len h))) as [Hl|Hl]; cbn [negb andb].
  2: { erewrite bind_ok; [|apply ustat_ok].
       destruct (udp_free_after s xs (inc_ustat st_mismatch (md s)) ff) as (s' & E & F & M); [done..|].
       exists s'. by rewrite M. }
  destruct (in_cksum_zero b h (htonl sip) (htonl dip)) as (ck & Eck & Hck); [done..|].
  erewrite bind_ok; [|unfold lift; by rewrite Eck].
  erewrite bind_ok; [|unfold lift; by rewrite Hrd]. rewrite <-Hck.
  assert (Hsame : set_md (md s) s = s) by (by destruct s).
  destruct (u_cksum h =? IGNORE_CHEKSUM); cbn [negb orb].
  - erewrite bind_ok; [|apply ustat_ok]. rewrite <-Hlen.
    destruct (udp_deliver_ok ff m d b h (inc_ustat st_nosum (md s)) s xs) as (s' & E & F & M); [done..|].
    exists s'. split; [exact E|]. by rewrite M.
  - destruct (ck =? 0); cbn [negb].
    + rewrite <-Hlen.
      destruct (udp_deliver_ok ff m d b h (md s) s xs) as (s' & E & F & M); [done..|].
      rewrite Hsame in E. exists s'. split; [exact E|]. by rewrite M.
    + erewrite bind_ok; [|apply ustat_ok].
      destruct (udp_free_after s xs (inc_ustat st_badsum (md s)) ff) as (s' & E & F & M); [done..|].
      exists s'. by rewrite M.
Qed.

(** ** Outgoing datagrams *)

Record uout_meta (m : metadata) (sip sport dip dport : Z) : Prop := {
  uo_family : ∃ f, secure_metadata_readFromElement m "send_family" = Ok f;
  uo_sip : secure_metadata_readFromElement m "send_src_ipv4" = Ok sip;
  uo_sport : secure_metadata_readFromElement m "send_src_port" = Ok sport;
  uo_dip : secure_metadata_readFromElement m "send_dst_ipv4" = Ok dip;
  uo_dport : secure_metadata_readFromElement m "send_dst_port" = Ok dport
}.

Definition udp_out_frame (ff : finsFrame) (m : metadata) (dir sip sport dip dport : Z) (b : list Z)
    : finsFrame :=
  MkFrame (destinationID ff) (Some (put_member m "send_protocol" (SInt 17)))
    (Data (MkData dir (Z.of_nat (length b) + 8) (Some (dgram sip dip (u16 sport) (u16 dport) b)))).

(** The list of sent datagrams after one more. *)
Definition keep (l : list udp_sent) (x : udp_sent) : list udp_sent :=
  if Z.of_nat (length l) <? UDP_SENT_LIST_MAX then l ++ [x] else tail l ++ [x].
Definition dropped_old (l : list udp_sent) : list finsFrame :=
  if Z.of_nat (length l) <? UDP_SENT_LIST_MAX then []
  else match l with [] => [] | old :: _ => [sent_ff old] end.

(** The list holds at most [UDP_SENT_LIST_MAX] frames, each well formed. *)
Definition sent_inv (l : list udp_sent) : Prop :=
  Z.of_nat (length l) ≤ UDP_SENT_LIST_MAX ∧ Forall (λ x, frame_ok (sent_ff x)) l.

Lemma keep_inv l x : sent_inv l → frame_ok (sent_ff x) → sent_inv (keep l x).
Proof.
  intros [Hl Hf] Hx. unfold keep, sent_inv, UDP_SENT_LIST_MAX in *.
  destruct (Z.ltb_spec (Z.of_nat (length l)) 131072).
  - rewrite length_app, Forall_app. simpl. split; [lia|auto].
  - destruct l as [|y l]; simpl in *; [lia|]. apply Forall_cons in Hf as [_ Hf].
    rewrite length_app, Forall_app. simpl. split; [lia|auto].
Qed.

Lemma keep_sent_ok x (s : ST) xs :
  sent_inv (sent_packet_list (md s)) → bf_rep (outq s) xs →
  ∃ s', keep_sent x s = Ok (tt, s') ∧ eff s xs s' [] (dropped_old (sent_packet_list (md s))) ∧
    md s' = set_sent (keep (sent_packet_list (md s)) x) (md s).
Proof.
  intros [Hl Hf] Hq. unfold keep_sent, keep, dropped_old. erewrite bind_ok; [|done].
  destruct (Z.of_nat (length (sent_packet_list (md s))) <? UDP_SENT_LIST_MAX) eqn:E.
  - eexists. split; [done|]. split; [by apply eff_set_md|done].
  - destruct (sent_packet_list (md s)) as [|old l] eqn:El; [done|]. cbn [tail].
    apply Forall_cons in Hf as [Hold _].
    destruct (udp_free_after s xs (set_sent l (md s)) (sent_ff old)) as (s1 & E1 & F1 & M1);
      [done|by apply frame_ok_union|].
    erewrite bind_ok; [|done]. erewrite bind_ok; [|exact E1].
    eexists. split; [done|]. split; [|simpl; by rewrite M1].
    destruct F1. by split.
Qed.

Lemma udp_out_ok ff m d b sip sport dip dport (s : ST) xs :
  metaData ff = Some m → meta_ok m = true → int_key m "send_protocol" = true →
  uout_meta m sip sport dip dport →
  body ff = Data d → read_bytes (pdu d) (pduLength d) = Ok b →
  pduLength d = Z.of_nat (length b) → is_bytes b → Z.of_nat (length b) + 8 < 65536 →
  sent_inv (sent_packet_list (md s)) →
  table_ok (lcells (store s)) (mt s) → room s xs (length (flow_dsts s UDP_FLOW_IPV4)) →
  let out := udp_out_frame ff m (directionFlag d) sip sport dip dport b in
  let sent := MkSent out sip (u16 sport) dip (u16 dport) in
  ∃ s', udp_out_fdf ff s = Ok (tt, s') ∧
    eff s xs s' (sent_copies out (flow_dsts s UDP_FLOW_IPV4))
      ((if decide (flow_dsts s UDP_FLOW_IPV4 = []) then [out] else [])
       ++ dropped_old (sent_packet_list (md s))) ∧
    md s' = MkUdp (st_sent (udp_stats (md s))) (keep (sent_packet_list (md s)) sent) ∧
    sent_inv (sent_packet_list (md s')).
Proof.
  intros Hm Hmok Hk [[f Hfam] Hsip Hsp Hdip Hdp] Hb Hrd Hlen Hbytes Hlt Hinv Ht Hr out sent.
  unfold udp_out_fdf. erewrite bind_ok; [|unfold ff_data; by rewrite Hb].
  do 5 (erewrite bind_ok; [|by eapply ff_read_ok]).
  erewrite bind_ok; [|by apply ff_write_ok].
  erewrite bind_ok; [|unfold lift; by rewrite (udp_datagram_ok d b)].
  rewrite Hlen, (u16_small (Z.of_nat (length b) + U_HEADER_LEN)) by (unfold is_u16, U_HEADER_LEN; lia).
  erewrite bind_ok; [|apply ustat_ok].
  change (set_body _ (set_meta _ ff)) with out.
  assert (Hout : frame_ok out).
  { split.
    - unfold out, udp_out_frame. cbn [body body_ok pdu pduLength]. by rewrite dgram_length.
    - eexists. split; [done|]. apply meta_ok_put; [|reflexivity..]. done. }
  assert (Hcl : clone_frame out = out).
  { apply clone_frame_id. unfold out, udp_out_frame. simpl. lia. }
  erewrite bind_ok; [|unfold lift; by rewrite clone_ok]. rewrite Hcl.
  set (s1 := set_md _ s).
  destruct (send_or_free_ok out UDP_FLOW_IPV4 s1 xs) as (s2 & E2 & F2 & M2); [done..|].
  erewrite bind_ok; [|exact E2].
  destruct (keep_sent_ok sent s2 (xs ++ sent_copies out (flow_dsts s UDP_FLOW_IPV4)))
    as (s3 & E3 & F3 & M3).
  { by rewrite M2. }
  { apply F2. }
  exists s3. split; [exact E3|]. split; [|split].
  - rewrite <-(app_nil_r (sent_copies out _)). eapply eff_set_md_l.
    apply (eff_trans _ _ _ _ _ _ _ _ F2). by rewrite M2 in F3.
  - by rewrite M3, M2.
  - rewrite M3, M2. simpl. by apply keep_inv.
Qed.

End UDPFacts.

(** ** Properties *)

(** C34: what happens to every received datagram of at least 8 bytes: it goes
    to the daemon, without its header and with its ports in the metadata,
    exactly when the protocol is UDP, the length field is the length of the
    datagram and the checksum is absent or verifies over the pseudo header;
    every other datagram is released and counted as bad.  The list of sent
    datagrams is not touched. *)
Theorem udp_in_classifies {Q} `{BoundedFifo Q finsFrame} (s : mstate Q udp_data) xs
    ff m d b h proto sip dip :
  metaData ff = Some m → meta_ok m = true →
  int_key m "recv_src_port" = true → int_key m "recv_dst_port" = true →
  in_meta m proto sip dip →
  body ff = Data d → pdu d = Some b → pduLength d = Z.of_nat (length b) →
  Z.of_nat (length b) < 65536 → is_bytes b → read_udp b = Ok h →
  table_ok (lcells (store s)) (mt s) → room s xs (length (flow_dsts s UDP_FLOW_DAEMON)) →
  let ok := udp_accepts proto sip dip b h in
  ∃ s', udp_in_fdf ff s = Ok (tt, s') ∧
    eff s xs s'
      (if ok then sent_copies (udp_up ff m d b h) (flow_dsts s UDP_FLOW_DAEMON) else [])
      (if ok then if decide (flow_dsts s UDP_FLOW_DAEMON = []) then [udp_up ff m d b h] else []
       else [ff]) ∧
    sent_packet_list (md s') = sent_packet_list (md s) ∧
    totalRecieved (udp_stats (md s')) =
      (if ok then u32 (totalRecieved (udp_stats (md s)) + 1) else totalRecieved (udp_stats (md s))) ∧
    totalBadDatagrams (udp_stats (md s')) =
      (if ok then totalBadDatagrams (udp_stats (md s))
       else u32 (totalBadDatagrams (udp_stats (md s)) + 1)).
Proof. apply udp_in_cases. Qed.

(** A UDP module whose flows lead to modules 2 and 5. *)
Definition demo_udp : mstate (QueueRecord finsFrame) udp_data :=
  MkSt (fm demo_ip) (MkTable (Some [8; 9]) 3 [MkFlow 1 8; MkFlow 2 9; MkFlow 2 9])
    (MkUdp (MkUStats 0 0 0 0 0 0 0) []) demo_ip_store [] 0.
Definition demo_recv_meta : metadata :=
  recv_meta [] 17 AF_INET 167772161 3232235777.

Lemma demo_udp_ok : table_ok (lcells (store demo_udp)) (mt demo_udp).
Proof.
  assert (Hl : Forall (link_ok (lcells demo_ip_store)) [8; 9]).
  { repeat constructor; eexists; (split; [vm_compute; reflexivity|]); simpl; lia. }
  split; simpl.
  - lia.
  - intros l [= <-]. split; [|done]. repeat constructor; set_solver.
  - intros [|[|[|i]]] f Hi Hf; simpl in *; simplify_eq; try lia; exists [8; 9]; split; reflexivity.
Qed.

Lemma demo_udp_room n : (n ≤ 10)%nat → room demo_udp [] n.
Proof.
  intros Hn. split; [by apply create_qrep|].
  change (bf_cap (outq demo_udp)) with 10. simpl. lia.
Qed.

(** Witness of C34: a corrupted datagram is dropped. *)
Lemma udp_in_classifies_witness :
  let b := [0; 53; 0; 99; 0; 9; 1; 2; 7] in
  let ff := MkFrame 5 (Some demo_recv_meta) (Data (MkData DIR_UP 9 (Some b))) in
  ∃ s', udp_in_fdf ff demo_udp = Ok (tt, s') ∧ eff demo_udp [] s' [] [ff] ∧
    sent_packet_list (md s') = [] ∧ totalRecieved (udp_stats (md s')) = 0 ∧
    totalBadDatagrams (udp_stats (md s')) = 1.
Proof.
  apply (udp_in_classifies demo_udp []
    (MkFrame 5 (Some demo_recv_meta) (Data (MkData DIR_UP 9 (Some [0; 53; 0; 99; 0; 9; 1; 2; 7]))))
    demo_recv_meta (MkData DIR_UP 9 (Some [0; 53; 0; 99; 0; 9; 1; 2; 7]))
    [0; 53; 0; 99; 0; 9; 1; 2; 7] (MkUHdr 13568 25344 2304 513) 17 167772161 3232235777);
    try reflexivity.
  - split; try reflexivity. eexists. reflexivity.
  - repeat constructor; vm_compute; discriminate.
  - apply demo_udp_ok.
  - apply demo_udp_room. vm_compute. lia.
Defined.

(** A datagram that the sender built is accepted and handed up. *)
Lemma dgram_delivered {Q} `{BoundedFifo Q finsFrame} (s : mstate Q udp_data) xs ff m dir b sip dip sport dport :
  metaData ff = Some m → meta_ok m = true →
  int_key m "recv_src_port" = true → int_key m "recv_dst_port" = true →
  in_meta m UDP_PT_UDP sip dip → is_u16 sport → is_u16 dport →
  is_bytes b → Z.of_nat (length b) + 8 < 65536 →
  body ff = Data (MkData dir (Z.of_nat (length b) + 8) (Some (dgram sip dip sport dport b))) →
  table_ok (lcells (store s)) (mt s) → room s xs (length (flow_dsts s UDP_FLOW_DAEMON)) →
  let up := MkFrame (destinationID ff)
    (Some (put_member (put_member m "recv_src_port" (SInt (s32 sport))) "recv_dst_port" (SInt (s32 dport))))
    (Data (MkData dir (Z.of_nat (length b)) (Some b))) in
  ∃ s', udp_in_fdf ff s = Ok (tt, s') ∧
    eff s xs s' (sent_copies up (flow_dsts s UDP_FLOW_DAEMON))
      (if decide (flow_dsts s UDP_FLOW_DAEMON = []) then [up] else []).
Proof.
  intros Hm Hmok Hk1 Hk2 Him Hsp Hdp Hbytes Hlt Hb Ht Hr up.
  set (packet := dgram sip dip sport dport b) in *. set (n := Z.of_nat (length b)) in *.
  set (h := dgram_header sport dport n (dgram_cksum sip dip sport dport b)).
  assert (Hpb : is_bytes packet) by (apply Forall_app; split; [apply udp_bytes_u8|done]).
  assert (Hpl : Z.of_nat (length packet) = n + 8) by apply dgram_length.
  assert (Hrdu : read_udp packet = Ok h) by (apply read_udp_bytes; apply htons_range).
  assert (Hnl : ntohs (u_len h) = n + 8)
    by (unfold h, dgram_header, U_HEADER_LEN; simpl; rewrite htons_htons; unfold is_u16; lia).
  assert (Hacc : udp_accepts UDP_PT_UDP sip dip packet h = true).
  { unfold udp_accepts. rewrite Hpl, Hnl, !Z.eqb_refl. apply orb_true_iff. right.
    destruct (in_cksum_zero packet h (htonl sip) (htonl dip)) as (ck & Eck & <-);
      [done|lia|done|by rewrite Hnl|].
    unfold packet in Eck. rewrite dgram_verifies in Eck by (try done; auto with fins).
    by injection Eck as <-. }
  destruct (udp_in_cases ff m (MkData dir (n + 8) (Some packet)) packet h UDP_PT_UDP sip dip s xs)
    as (s' & E & F & _); [done..|by rewrite Hpl|lia|done|done|done|done|].
  rewrite Hacc in F. cbv iota in F. exists s'. split; [exact E|].
  assert (udp_up ff m (MkData dir (n + 8) (Some packet)) packet h = up) as <-; [|exact F].
  assert (Hd8 : drop 8 packet = b) by (unfold packet, dgram; by rewrite drop_app_length' by done).
  unfold udp_up, up. rewrite Hd8, Hpl. simpl directionFlag.
  unfold h, dgram_header. cbn [u_src u_dst]. rewrite !htons_htons by done. do 3 f_equal. lia.
Qed.

(** C4: end to end.  A payload handed to the UDP module is sent as a datagram
    that the UDP module of the receiver accepts (given the addresses IPv4
    reports), and the daemon there gets the same payload with the ports of
    the sender. *)
Theorem udp_out_in_delivers {Q} `{BoundedFifo Q finsFrame} (s1 s2 : mstate Q udp_data) xs1 xs2
    ff m d b sip sport dip dport ff2 m2 dir2 :
  metaData ff = Some m → meta_ok m = true → int_key m "send_protocol" = true →
  uout_meta m sip sport dip dport →
  body ff = Data d → read_bytes (pdu d) (pduLength d) = Ok b →
  pduLength d = Z.of_nat (length b) → is_bytes b → Z.of_nat (length b) + 8 < 65536 →
  sent_inv (sent_packet_list (md s1)) →
  table_ok (lcells (store s1)) (mt s1) → room s1 xs1 (length (flow_dsts s1 UDP_FLOW_IPV4)) →
  metaData ff2 = Some m2 → meta_ok m2 = true →
  int_key m2 "recv_src_port" = true → int_key m2 "recv_dst_port" = true →
  in_meta m2 UDP_PT_UDP sip dip →
  table_ok (lcells (store s2)) (mt s2) → room s2 xs2 (length (flow_dsts s2 UDP_FLOW_DAEMON)) →
  let packet := dgram sip dip (u16 sport) (u16 dport) b in
  let n := Z.of_nat (length b) in
  body ff2 = Data (MkData dir2 (n + 8) (Some packet)) →
  ∃ s1' out s2' up,
    udp_out_fdf ff s1 = Ok (tt, s1') ∧
    eff s1 xs1 s1' (sent_copies out (flow_dsts s1 UDP_FLOW_IPV4))
      ((if decide (flow_dsts s1 UDP_FLOW_IPV4 = []) then [out] else [])
       ++ dropped_old (sent_packet_list (md s1))) ∧
    body out = Data (MkData (directionFlag d) (n + 8) (Some packet)) ∧
    udp_in_fdf ff2 s2 = Ok (tt, s2') ∧
    eff s2 xs2 s2' (sent_copies up (flow_dsts s2 UDP_FLOW_DAEMON))
      (if decide (flow_dsts s2 UDP_FLOW_DAEMON = []) then [up] else []) ∧
    body up = Data (MkData dir2 n (Some b)) ∧
    metaData up = Some (put_member (put_member m2 "recv_src_port" (SInt (s32 (u16 sport))))
                          "recv_dst_port" (SInt (s32 (u16 dport)))).
Proof.
  intros Hm Hmok Hk Hom Hb Hrd Hlen Hbytes Hlt Hinv Ht1 Hr1 Hm2 Hmok2 Hk1 Hk2 Him Ht2 Hr2 packet n Hb2.
  destruct (udp_out_ok ff m d b sip sport dip dport s1 xs1) as (s1' & E1 & F1 & _); [done..|].
  destruct (dgram_delivered s2 xs2 ff2 m2 dir2 b sip dip (u16 sport) (u16 dport)) as (s2' & E2 & F2);
    try done; [auto with fins|auto with fins|].
  eexists s1', _, s2', _. by split; [exact E1|split; [exact F1|]].
Qed.

Definition demo_usend_meta : metadata :=
  [("send_family", SInt 2); ("send_src_ipv4", SInt 167772161); ("send_src_port", SInt 53);
   ("send_dst_ipv4", SInt (s32 3232235777)); ("send_dst_port", SInt 99)].

(** Witness of C4: an odd number of payload bytes. *)
Lemma udp_out_in_delivers_witness :
  let packet := dgram 167772161 3232235777 53 99 [7; 8; 9] in
  ∃ s1' out s2' up,
    udp_out_fdf (MkFrame 5 (Some demo_usend_meta) (Data (MkData DIR_DOWN 3 (Some [7; 8; 9]))))
      demo_udp = Ok (tt, s1') ∧
    eff demo_udp [] s1' (sent_copies out [2]) [] ∧
    body out = Data (MkData DIR_DOWN 11 (Some packet)) ∧
    udp_in_fdf (MkFrame 5 (Some demo_recv_meta) (Data (MkData DIR_UP 11 (Some packet)))) demo_udp
      = Ok (tt, s2') ∧
    eff demo_udp [] s2' (sent_copies up [5]) [] ∧
    body up = Data (MkData DIR_UP 3 (Some [7; 8; 9])) ∧
    metaData up = Some (put_member (put_member demo_recv_meta "recv_src_port" (SInt 53))
                          "recv_dst_port" (SInt 99)).
Proof.
  apply (udp_out_in_delivers demo_udp demo_udp [] []
    (MkFrame 5 (Some demo_usend_meta) (Data (MkData DIR_DOWN 3 (Some [7; 8; 9]))))
    demo_usend_meta (MkData DIR_DOWN 3 (Some [7; 8; 9])) [7; 8; 9] 167772161 53 3232235777 99
    (MkFrame 5 (Some demo_recv_meta) (Data (MkData DIR_UP 11
      (Some (dgram 167772161 3232235777 53 99 [7; 8; 9]))))) demo_recv_meta DIR_UP); try reflexivity.
  - split; try reflexivity. eexists. reflexivity.
  - repeat constructor; vm_compute; discriminate.
  - split; [vm_compute; discriminate|constructor].
  - apply demo_udp_ok.
  - apply demo_udp_room. vm_compute. lia.
  - split; try reflexivity. eexists. reflexivity.
  - apply demo_udp_ok.
  - apply demo_udp_room. vm_compute. lia.
Defined.

(** A frame to send, with what its metadata and its payload say. *)
Record send_req := MkReq {
  rq_ff : finsFrame; rq_m : metadata; rq_d : finsDataFrame; rq_b : list Z;
  rq_sip : Z; rq_sport : Z; rq_dip : Z; rq_dport : Z
}.

Record send_ok (r : send_req) : Prop := {
  rq_metadata : metaData (rq_ff r) = Some (rq_m r);
  rq_meta_ok : meta_ok (rq_m r) = true;
  rq_proto : int_key (rq_m r) "send_protocol" = true;
  rq_uout : uout_meta (rq_m r) (rq_sip r) (rq_sport r) (rq_dip r) (rq_dport r);
  rq_body : body (rq_ff r) = Data (rq_d r);
  rq_read : read_bytes (pdu (rq_d r)) (pduLength (rq_d r)) = Ok (rq_b r);
  rq_length : pduLength (rq_d r) = Z.of_nat (length (rq_b r));
  rq_bytes : is_bytes (rq_b r);
  rq_small : Z.of_nat (length (rq_b r)) + 8 < 65536
}.

(** The datagram that goes out, and the record kept of it. *)
Definition req_out (r : send_req) : finsFrame :=
  udp_out_frame (rq_ff r) (rq_m r) (directionFlag (rq_d r)) (rq_sip r) (rq_sport r) (rq_dip r)
    (rq_dport r) (rq_b r).
Definition req_sent (r : send_req) : udp_sent :=
  MkSent (req_out r) (rq_sip r) (u16 (rq_sport r)) (rq_dip r) (u16 (rq_dport r)).

Section Window.
Context {Q : Type} `{BoundedFifo Q finsFrame}.
Abbreviation ST := (mstate Q udp_data) (only parsing).

(** Calls of [udp_out_fdf], one after the other; before each of them the
    switch takes frames out of the module's output queue. *)
Fixpoint send_all (switch : ST → ST) (ffs : list finsFrame) (s : ST) : res ST :=
  match ffs with
  | [] => Ok s
  | ff :: ffs =>
      match udp_out_fdf ff (switch s) with
      | Ok (_, s') => send_all switch ffs s'
      | Segv => Segv | Exit => Exit | NoFuel => NoFuel
      end
  end.

(** The switch leaves the module's data alone, and room for a datagram to the
    destinations [dsts]. *)
Record takes_frames (switch : ST → ST) (dsts : list Z) : Prop := {
  tf_md : ∀ s, md (switch s) = md s;
  tf_mt : ∀ s, mt (switch s) = mt s;
  tf_store : ∀ s, store (switch s) = store s;
  tf_freed : ∀ s, freed (switch s) = freed s;
  tf_room : ∀ s, flow_dsts s UDP_FLOW_IPV4 = dsts → ∃ xs, room (switch s) xs (length dsts)
}.

(** One more record in the window: what falls out at the front. *)
Lemma keep_window l x (rs : list udp_sent) :
  Z.of_nat (length l) ≤ UDP_SENT_LIST_MAX →
  let cap := Z.to_nat UDP_SENT_LIST_MAX in
  let all := l ++ x :: rs in
  let all' := keep l x ++ rs in
  drop (length all' - cap) all' = drop (length all - cap) all ∧
  dropped_old l ++ (sent_ff <$> take (length all' - cap) all')
    = sent_ff <$> take (length all - cap) all.
Proof.
  intros Hl cap. assert (Hc : Z.of_nat cap = UDP_SENT_LIST_MAX) by (by vm_compute).
  clearbody cap. unfold keep, dropped_old. cbv zeta.
  destruct (Z.ltb_spec (Z.of_nat (length l)) UDP_SENT_LIST_MAX).
  { by rewrite <-(assoc_L app). }
  destruct l as [|o l]; [unfold UDP_SENT_LIST_MAX in *; simpl in *; lia|]. simpl in *.
  rewrite <-(assoc_L app). simpl.
  assert ((S (length (l ++ x :: rs)) - cap)%nat = S (length (l ++ x :: rs) - cap)) as ->.
  { rewrite length_app. simpl. lia. }
  done.
Qed.

Lemma req_frame_ok r : send_ok r → frame_ok (req_out r).
Proof.
  intros []. split.
  - unfold req_out, udp_out_frame. cbn [body body_ok pdu pduLength]. by rewrite dgram_length.
  - eexists. split; [done|]. apply meta_ok_put; [|reflexivity..]. done.
Qed.

End Window.

(** C40: the list of sent datagrams is a window.  After any sequence of sends
    ([udp_out_fdf] called with well-formed frames whose payload fits a
    datagram, the switch taking frames out between the calls) every call has
    returned, the list holds the last [UDP_SENT_LIST_MAX] of the datagrams
    kept before and sent since, in order, each as it went to IPv4; exactly the
    older ones have been released, and also the outgoing frames when no module
    is connected to the flow; the counter of sent datagrams grew by the number
    of calls. *)
Theorem udp_sent_window {Q} `{BoundedFifo Q finsFrame} (switch : mstate Q udp_data → _)
    (s : mstate Q udp_data) (rs : list send_req) :
  takes_frames switch (flow_dsts s UDP_FLOW_IPV4) → sent_inv (sent_packet_list (md s)) → Forall send_ok rs →
  table_ok (lcells (store s)) (mt s) →
  let all := sent_packet_list (md s) ++ (req_sent <$> rs) in
  let old := (length all - Z.to_nat UDP_SENT_LIST_MAX)%nat in
  ∃ s' released, send_all switch (rq_ff <$> rs) s = Ok s' ∧
    sent_packet_list (md s') = drop old all ∧
    freed s' = freed s ++ released ∧
    released ≡ₚ (sent_ff <$> take old all) ++
      (if decide (flow_dsts s UDP_FLOW_IPV4 = []) then req_out <$> rs else []) ∧
    udp_stats (md s') = Nat.iter (length rs) st_sent (udp_stats (md s)).
Proof.
  intros Hsw Hinv Hrs. revert s Hsw Hinv.
  induction Hrs as [|r rs Hr Hrs IH]; intros s Hsw Hinv Ht all old.
  { assert (old = 0%nat) as -> by (unfold old, all; rewrite app_nil_r; destruct Hinv; lia).
    exists s, []. unfold all. rewrite !app_nil_r. split_and!; try done. by case_decide. }
  destruct (tf_room _ _ Hsw s eq_refl) as [xs Hroom].
  assert (Hd : flow_dsts (switch s) UDP_FLOW_IPV4 = flow_dsts s UDP_FLOW_IPV4)
    by (unfold flow_dsts; by rewrite (tf_mt _ _ Hsw), (tf_store _ _ Hsw)).
  destruct Hr as [Hm Hmok Hk Hu Hb Hrd Hlen Hby Hsm] eqn:Er.
  destruct (udp_out_ok (rq_ff r) (rq_m r) (rq_d r) (rq_b r) (rq_sip r) (rq_sport r) (rq_dip r)
    (rq_dport r) (switch s) xs) as (s1 & E1 & F1 & M1 & I1); try done.
  { by rewrite (tf_md _ _ Hsw). }
  { by rewrite (tf_mt _ _ Hsw), (tf_store _ _ Hsw). }
  { by rewrite Hd. }
  fold (req_out r) in F1, M1. fold (req_sent r) in M1. rewrite (tf_md _ _ Hsw) in F1, M1.
  assert (Hd1 : flow_dsts s1 UDP_FLOW_IPV4 = flow_dsts s UDP_FLOW_IPV4).
  { rewrite <-Hd. unfold flow_dsts. by rewrite (eff_store _ _ _ _ _ F1), (eff_mt _ _ _ _ _ F1). }
  destruct (IH s1) as (s2 & rel & E2 & L2 & Fr2 & P2 & T2); [by rewrite Hd1|done| |].
  { rewrite (eff_store _ _ _ _ _ F1), (eff_mt _ _ _ _ _ F1).
    by rewrite (tf_mt _ _ Hsw), (tf_store _ _ Hsw). }
  destruct (keep_window (sent_packet_list (md s)) (req_sent r) (req_sent <$> rs)) as [W1 W2];
    [apply Hinv|].
  rewrite M1 in L2, P2, T2. cbn [sent_packet_list udp_stats] in L2, P2, T2.
  rewrite Hd1 in P2. pose proof (eff_freed _ _ _ _ _ F1) as Fr1.
  rewrite Hd, (tf_freed _ _ Hsw) in Fr1.
  eexists s2, _. cbn [send_all fmap list_fmap]. rewrite E1. split; [exact E2|].
  split; [by rewrite L2, W1|]. split; [by rewrite Fr2, Fr1, <-(assoc_L app)|].
  split; [|by rewrite T2, <-Nat.iter_succ_r].
  rewrite P2. unfold old, all. cbn [fmap list_fmap]. rewrite <-W2.
  case_decide; rewrite ?app_nil_l, ?app_nil_r; solve_Permutation.
Qed.

Definition demo_sent_frame (x : Z) : finsFrame :=
  MkFrame 2 (Some []) (Data (MkData DIR_DOWN 1 (Some [x]))).
(** A one-byte datagram to send, and a switch that empties the queue. *)
Definition demo_req (x : Z) : send_req :=
  MkReq (MkFrame 5 (Some demo_usend_meta) (Data (MkData DIR_DOWN 1 (Some [x]))))
    demo_usend_meta (MkData DIR_DOWN 1 (Some [x])) [x] 167772161 53 3232235777 99.
Definition demo_drain (s : mstate (QueueRecord finsFrame) udp_data) := set_outq (init_queue 10) s.

(** Witness of C40: two datagrams. *)
Lemma udp_sent_window_witness :
  ∃ s' released, send_all demo_drain [rq_ff (demo_req 1); rq_ff (demo_req 2)] demo_udp = Ok s' ∧
    sent_packet_list (md s') = [req_sent (demo_req 1); req_sent (demo_req 2)] ∧
    freed s' = released ∧ released ≡ₚ [] ∧ totalSent (udp_stats (md s')) = 2.
Proof.
  destruct (udp_sent_window demo_drain demo_udp [demo_req 1; demo_req 2])
    as (s' & rel & E & L & F & P & T).
  - split; try reflexivity. intros s Hs. exists []. split; [by apply create_qrep|].
    change (bf_cap (outq (demo_drain s))) with 10. vm_compute. discriminate.
  - split; [vm_compute; discriminate|constructor].
  - repeat constructor; try reflexivity; try (eexists; reflexivity); vm_compute; discriminate.
  - apply demo_udp_ok.
  - exists s', rel. split; [exact E|]. split; [exact L|]. split; [exact F|].
    split; [exact P|]. by rewrite T.
Defined.

Lemma free_all_ok {Q} `{BoundedFifo Q finsFrame} l (s : mstate Q udp_data) xs :
  Forall (λ x, frame_ok (sent_ff x)) l → bf_rep (outq s) xs →
  ∃ s', free_all l s = Ok (tt, s') ∧ eff s xs s' [] (sent_ff <$> l) ∧ md s' = md s.
Proof.
  intros Hl. revert s. induction Hl as [|x l Hx _ IH]; intros s Hq.
  { exists s. split; [done|]. split; [by apply eff_refl|done]. }
  destruct (free_ff_ok s xs (sent_ff x) Hq) as [E F]; [by apply frame_ok_union|].
  cbn [free_all]. unfold udp_sent_free. erewrite bind_ok; [|exact E].
  destruct (IH (set_freed (freed s ++ [sent_ff x]) s)) as (s2 & E2 & F2 & M2); [done|].
  exists s2. split; [exact E2|]. split; [|done].
  apply (eff_trans s xs _ s2 [] [_] [] _ F). by rewrite app_nil_r.
Qed.

(** clearing the sent datagrams of a socket removes and releases exactly
    the records with its address and port, keeps all others in order, and
    releases the request. *)
Theorem udp_clear_sent_exact {Q} `{BoundedFifo Q finsFrame} (s : mstate Q udp_data) xs ff c hip hport :
  let l := sent_packet_list (md s) in
  Forall (λ x, frame_ok (sent_ff x)) l → bf_rep (outq s) xs → body ff = Ctrl c →
  ∃ s', udp_exec_clear_sent ff hip hport s = Ok (tt, s') ∧
    sent_packet_list (md s') = filter (λ x, udp_sent_host_test hip hport x = false) l ∧
    eff s xs s' [] ((sent_ff <$> filter (λ x, udp_sent_host_test hip hport x = true) l) ++ [ff]).
Proof.
  intros l Hl Hq Hb. unfold udp_exec_clear_sent. erewrite bind_ok; [|done]. fold l.
  assert (Hnu : ∀ n, body ff ≠ NoUnion n) by (by rewrite Hb).
  assert (Hmid : ∃ s1, (if decide (l = []) then mret tt
     else put_sent (filter (λ x, udp_sent_host_test hip hport x = false) l) ;;
          free_all (filter (λ x, udp_sent_host_test hip hport x = true) l)) s = Ok (tt, s1) ∧
     sent_packet_list (md s1) = filter (λ x, udp_sent_host_test hip hport x = false) l ∧
     eff s xs s1 [] (sent_ff <$> filter (λ x, udp_sent_host_test hip hport x = true) l)).
  { case_decide as Hd.
    - rewrite Hd. exists s. fold l. split; [done|]. split; [done|]. by apply eff_refl.
    - erewrite bind_ok; [|done].
      destruct (free_all_ok (filter (λ x, udp_sent_host_test hip hport x = true) l)
        (set_md (set_sent (filter (λ x, udp_sent_host_test hip hport x = false) l) (md s)) s) xs)
        as (s1 & E1 & F1 & M1).
      { apply Forall_forall. intros x [_ Hx]%list_elem_of_filter. by eapply Forall_forall in Hl. }
      { exact Hq. }
      exists s1. split; [exact E1|]. split; [by rewrite M1|].
      destruct F1. by split. }
  destruct Hmid as (s1 & E1 & L1 & F1). erewrite bind_ok; [|exact E1].
  destruct (free_ff_ok s1 (xs ++ []) ff) as [E2 F2]; [apply F1|done|].
  eexists. split; [exact E2|]. split; [done|].
  apply (eff_trans s xs s1 _ [] _ [] [ff] F1). done.
Qed.

(** An instance: three sockets, one cleared. *)
Lemma udp_clear_sent_exact_witness :
  let sent n := MkSent (demo_sent_frame n) n n 9 9 in
  let s := set_md (MkUdp (MkUStats 0 0 0 0 0 0 0) [sent 1; sent 2; sent 1]) demo_udp in
  let ff := MkFrame 5 (Some []) (Ctrl (MkCtrl 1 1 CTRL_EXEC 0 0 0 CNull)) in
  ∃ s', udp_exec_clear_sent ff 1 1 s = Ok (tt, s') ∧
    sent_packet_list (md s') = [sent 2] ∧
    eff s [] s' [] [demo_sent_frame 1; demo_sent_frame 1; ff].
Proof.
  apply (udp_clear_sent_exact (set_md (MkUdp (MkUStats 0 0 0 0 0 0 0)
    [MkSent (demo_sent_frame 1) 1 1 9 9; MkSent (demo_sent_frame 2) 2 2 9 9;
     MkSent (demo_sent_frame 1) 1 1 9 9]) demo_udp) []
    (MkFrame 5 (Some []) (Ctrl (MkCtrl 1 1 CTRL_EXEC 0 0 0 CNull)))
    (MkCtrl 1 1 CTRL_EXEC 0 0 0 CNull) 1 1).
  - repeat (constructor; [split; [reflexivity|]; eexists; split; reflexivity|]). constructor.
  - by apply create_qrep.
  - reflexivity.
Defined.

(** a payload of 65528 bytes or more makes the 16-bit packet length wrap,
    so that the payload is copied past the end of the datagram's buffer; the
    length test in the code compares the wrapped value and never fires. *)
Theorem udp_out_overflow {Q} `{BoundedFifo Q finsFrame} (s : mstate Q udp_data) ff m d sip sport dip dport :
  metaData ff = Some m → int_key m "send_protocol" = true → uout_meta m sip sport dip dport →
  body ff = Data d → 65528 ≤ pduLength d →
  udp_out_fdf ff s = Segv.
Proof.
  intros Hm Hk [[f Hfam] Hsip Hsp Hdip Hdp] Hb Hl.
  unfold udp_out_fdf. erewrite bind_ok; [|unfold ff_data; by rewrite Hb].
  do 5 (erewrite bind_ok; [|by eapply ff_read_ok]).
  erewrite bind_ok; [|by apply ff_write_ok].
  assert (E : udp_datagram d sip sport dip dport = Segv).
  { unfold udp_datagram. pose proof (u16_range (pduLength d + U_HEADER_LEN)) as Hu.
    unfold is_u16, U_HEADER_LEN in *.
    destruct (Z.ltb_spec (u16 (pduLength d + 8)) (8 + pduLength d)); [done|lia]. }
  unfold lift, mbind, M_bind. by rewrite E.
Qed.

(** An instance. *)
Lemma udp_out_overflow_witness :
  udp_out_fdf (MkFrame 5 (Some demo_usend_meta)
    (Data (MkData DIR_DOWN 65528 (Some (replicate (Z.to_nat 65528) 0))))) demo_udp = Segv.
Proof.
  apply (udp_out_overflow demo_udp (MkFrame 5 (Some demo_usend_meta)
    (Data (MkData DIR_DOWN 65528 (Some (replicate (Z.to_nat 65528) 0)))))
    demo_usend_meta (MkData DIR_DOWN 65528 (Some (replicate (Z.to_nat 65528) 0)))
    167772161 53 3232235777 99); try reflexivity.
  split; try reflexivity. eexists. reflexivity.
Defined.

(** the bytes an error message returns are compared with [strncmp], which
    stops at the first zero byte: for two datagrams from the same source port
    to ports below 256 the comparison ends inside the destination port, so
    an error about one of them is attributed to the other. *)
Theorem udp_error_confuses sip dip sport dport1 dport2 b1 b2 x n :
  is_u16 sport → 0 ≤ dport1 < 256 → 0 ≤ dport2 < 256 → 3 ≤ n →
  body (sent_ff x) = Data (MkData DIR_DOWN (Z.of_nat (length b1) + 8)
    (Some (dgram sip dip sport dport1 b1))) →
  udp_sent_match_test n (dgram sip dip sport dport2 b2) x = Ok true.
Proof.
  intros Hs H1 H2 Hn Hb. unfold udp_sent_match_test, sent_len, sent_pdu. rewrite Hb.
  cbn [pdu pduLength default].
  assert (H0 : ∀ d, 0 ≤ d < 256 → htons d mod 256 = 0).
  { intros d Hd. unfold htons. rewrite (Z.div_small d) by done.
    change (0 mod 256) with 0. rewrite Z.add_0_r. apply Z_mod_mult. }
  assert (Hm : ∀ k, (3 ≤ k)%nat →
    strncmp_eq k (dgram sip dip sport dport1 b1) (dgram sip dip sport dport2 b2) = Ok true).
  { intros k Hk. destruct k as [|[|[|k]]]; [lia..|].
    unfold dgram, udp_bytes, dgram_header. cbn [u_src u_dst le_bytes app strncmp_eq].
    rewrite !Z.eqb_refl, (H0 dport1), (H0 dport2) by done. cbn [negb Z.eqb].
    by repeat case_match. }
  destruct (n <=? Z.of_nat (length b1) + 8); apply Hm; lia.
Qed.

(** An instance: an error about a datagram to port 69 matches one to port 53. *)
Lemma udp_error_confuses_witness :
  udp_sent_match_test 28 (dgram 167772161 3232235777 4660 69 (replicate 20 1))
    (MkSent (MkFrame 2 (Some []) (Data (MkData DIR_DOWN 10
      (Some (dgram 167772161 3232235777 4660 53 [7; 8]))))) 0 0 0 0) = Ok true.
Proof.
  apply (udp_error_confuses 167772161 3232235777 4660 53 69 [7; 8] (replicate 20 1));
    try reflexivity; try lia. unfold is_u16. lia.
Defined.
