(* ===== verification/Switch.v ===== *)
(** * The switch: [modules/switch/switch.c]

    The switch moves frames from the output queues of the modules to the input
    queues of their destinations, one frame per module and round, woken up by
    the posts of the senders.  Its state is the table of registered modules
    ([overall->modules]), the value of its event semaphore, the number of
    posts to each module, and its own link table. *)

From stdpp Require Import base list gmap strings.
From Stdlib Require Import ZArith Lia.
From S2P Require Import Prelude Queue Metadata Frame Module.
Open Scope Z_scope.

Section Switch.
Context {Q : Type} `{BoundedFifo Q finsFrame}.

Record sw_state := MkSw {
  modules : list (option (fins_module Q));  (** [MAX_MODULES] entries *)
  sw_index : Z;                             (** the switch's own index *)
  sw_mt : fins_module_table;
  sw_store : link_store;
  sw_freed : list finsFrame;
  sw_events : Z;                            (** value of the switch's [event_sem] *)
  wakeups : list Z                          (** posts to the modules' [event_sem] *)
}.

Definition set_modules (l : list (option (fins_module Q))) (w : sw_state) : sw_state :=
  MkSw l (sw_index w) (sw_mt w) (sw_store w) (sw_freed w) (sw_events w) (wakeups w).
Definition add_freed (ff : finsFrame) (w : sw_state) : sw_state :=
  MkSw (modules w) (sw_index w) (sw_mt w) (sw_store w) (sw_freed w ++ [ff]) (sw_events w) (wakeups w).
Definition set_events (n : Z) (w : sw_state) : sw_state :=
  MkSw (modules w) (sw_index w) (sw_mt w) (sw_store w) (sw_freed w) n (wakeups w).
Definition wake (i : nat) (w : sw_state) : sw_state :=
  MkSw (modules w) (sw_index w) (sw_mt w) (sw_store w) (sw_freed w) (sw_events w)
    (alter (Z.add 1) i (wakeups w)).

Definition set_inq (q : Q) (m : fins_module Q) : fins_module Q :=
  MkMod (m_state m) (flows_max m) (m_index m) (m_id m) q (output_queue m).
Definition set_oq (q : Q) (m : fins_module Q) : fins_module Q :=
  MkMod (m_state m) (flows_max m) (m_index m) (m_id m) (input_queue m) q.

(** ** Frames addressed to the switch itself *)

Definition switch_set_param (ff : finsFrame) : M (mstate Q unit) unit := set_param ff.

Definition switch_fcf (ff : finsFrame) : M (mstate Q unit) unit :=
  c ← ff_ctrl ff;
  if opcode c =? CTRL_ALERT then module_reply_fcf ff FCF_FALSE 0
  else if opcode c =? CTRL_ALERT_REPLY then free_ff ff
  else if opcode c =? CTRL_READ_PARAM then module_reply_fcf ff FCF_FALSE 0
  else if opcode c =? CTRL_READ_PARAM_REPLY then free_ff ff
  else if opcode c =? CTRL_SET_PARAM then switch_set_param ff
  else if opcode c =? CTRL_SET_PARAM_REPLY then free_ff ff
  else if opcode c =? CTRL_EXEC then module_reply_fcf ff FCF_FALSE 0
  else if opcode c =? CTRL_EXEC_REPLY then free_ff ff
  else if opcode c =? CTRL_ERROR then free_ff ff
  else exit_.

Definition switch_process_ff (ff : finsFrame) : M (mstate Q unit) unit :=
  frame_dispatch switch_fcf free_ff free_ff ff.

(** A handler of the switch run on its own module record. *)
Definition run_self (h : M (mstate Q unit) unit) : M sw_state unit := λ w,
  match modules w !! Z.to_nat (sw_index w) with
  | Some (Some m) =>
      match h (MkSt m (sw_mt w) tt (sw_store w) (sw_freed w) (sw_events w)) with
      | Ok (_, s) =>
          Ok (tt, MkSw (<[Z.to_nat (sw_index w) := Some (fm s)]> (modules w)) (sw_index w)
                    (mt s) (store s) (freed s) (posts s) (wakeups w))
      | Segv => Segv | Exit => Exit | NoFuel => NoFuel
      end
  | _ => Segv
  end.

Definition sw_free (ff : finsFrame) : M sw_state unit := λ w,
  match freeFinsFrame (Some ff) with
  | Ok _ => Ok (tt, add_freed ff w)
  | Segv => Segv | Exit => Exit | NoFuel => NoFuel
  end.

(** [print_finsFrame] reads the root of the metadata of a data or control
    frame, a NULL dereference when there is none. *)
Definition print_finsFrame (ff : finsFrame) : M sw_state unit := λ w,
  match body ff, metaData ff with
  | NoUnion _, _ => Ok (tt, w)
  | _, None => Segv
  | _, Some _ => Ok (tt, w)
  end.

(** ** The forwarding loop *)

(** A frame taken from an output queue: dropped when the destination is out of
    range or not registered; [modules] is indexed with [MAX_MODULES] itself
    when the destination is exactly that.  [destinationID] is unsigned, so the
    test for a negative one never holds. *)
Definition switch_forward (ff : finsFrame) : M sw_state unit := λ w,
  let dst := destinationID ff in
  if MAX_MODULES <? dst then sw_free ff w
  else match modules w !! Z.to_nat dst with
       | None => Segv
       | Some None => (print_finsFrame ff ;; sw_free ff) w
       | Some (Some m) =>
           if dst =? sw_index w then run_self (switch_process_ff ff) w
           else match bf_write ff (input_queue m) with
                | Ok (r, q) =>
                    if r =? 0 then sw_free ff w
                    else Ok (tt, wake (Z.to_nat dst)
                      (set_modules (<[Z.to_nat dst := Some (set_inq q m)]> (modules w)) w))
                | Segv => Segv | Exit => Exit | NoFuel => NoFuel
                end
       end.

(** The body of the [for] loop for module [i]. *)
Definition switch_one (i : nat) : M sw_state unit := λ w,
  match modules w !! i with
  | None => Segv
  | Some None => Ok (tt, w)
  | Some (Some m) =>
      if bf_empty (output_queue m) then Ok (tt, w)
      else match bf_read (output_queue m) with
           | Ok (Some ff, q) =>
               switch_forward ff (set_modules (<[i := Some (set_oq q m)]> (modules w)) w)
           | Ok (None, _) => Segv
           | Segv => Segv | Exit => Exit | NoFuel => NoFuel
           end
  end.

Fixpoint switch_pass (idxs : list nat) : M sw_state unit :=
  match idxs with
  | [] => mret tt
  | i :: idxs => switch_one i ;; switch_pass idxs
  end.

(** [for (i = 0; i < MAX_MODULES; i++)] *)
Definition switch_round : M sw_state unit := switch_pass (seq 0 (Z.to_nat MAX_MODULES)).

(** How a run of [switch_loop] stands after a number of rounds: the function
    has returned, it waits in [sem_wait] for an event, or it goes on. *)
Inductive loop_status := Returned | Blocked | Running.

Fixpoint switch_loop (rounds : nat) : M sw_state loop_status := λ w,
  match modules w !! Z.to_nat (sw_index w) with
  | Some (Some m) =>
      if decide (m_state m = FMS_RUNNING) then
        if sw_events w <=? 0 then Ok (Blocked, w)
        else match rounds with
             | O => Ok (Running, w)
             | S rounds => (switch_round ;; switch_loop rounds) (set_events (sw_events w - 1) w)
             end
      else Ok (Returned, w)
  | _ => Segv
  end.

(** ** Registration (deprecated in the code) *)

Definition switch_register_module (m : fins_module Q) (w : sw_state) : Z * sw_state :=
  if MAX_MODULES <=? m_index m then (-1, w)
  else (0, set_modules (<[Z.to_nat (m_index m) := Some m]> (modules w)) w).

(** [index > MAX_MODULES] is tested, so the array is indexed with
    [MAX_MODULES] for that value. *)
Definition switch_unregister_module (index : Z) (w : sw_state) : res (Z * sw_state) :=
  if (index <? 0) || (MAX_MODULES <? index) then Ok (0, w)
  else match modules w !! Z.to_nat index with
       | None => Segv
       | Some _ => Ok (1, set_modules (<[Z.to_nat index := None]> (modules w)) w)
       end.

(** ** The abstract switch: queues as lists *)

Record abs_sw := MkAbs {
  a_outs : list (list finsFrame); a_ins : list (list finsFrame); a_freed : list finsFrame
}.

(** [caps] gives the input capacity of the registered modules. *)
Definition abs_forward (caps : list (option Z)) (ff : finsFrame) (a : abs_sw) : abs_sw :=
  let j := Z.to_nat (destinationID ff) in
  match caps !! j, a_ins a !! j with
  | Some (Some c), Some ins =>
      if Z.of_nat (length ins) <? c
      then MkAbs (a_outs a) (<[j := ins ++ [ff]]> (a_ins a)) (a_freed a)
      else MkAbs (a_outs a) (a_ins a) (a_freed a ++ [ff])
  | _, _ => MkAbs (a_outs a) (a_ins a) (a_freed a ++ [ff])
  end.

(** The head of one output queue moves on. *)
Definition abs_one (caps : list (option Z)) (a : abs_sw) (i : nat) : abs_sw :=
  match a_outs a !! i with
  | Some (ff :: rest) => abs_forward caps ff (MkAbs (<[i := rest]> (a_outs a)) (a_ins a) (a_freed a))
  | _ => a
  end.

Definition abs_pass (caps : list (option Z)) (idxs : list nat) (a : abs_sw) : abs_sw :=
  foldl (abs_one caps) a idxs.

(** The state holds the abstract queues. *)
Record wrep (w : sw_state) (caps : list (option Z)) (a : abs_sw) : Prop := {
  wr_outs : length (a_outs a) = length (modules w);
  wr_ins : length (a_ins a) = length (modules w);
  wr_caps : length caps = length (modules w);
  wr_max : length (modules w) = Z.to_nat MAX_MODULES;
  wr_freed : sw_freed w = a_freed a;
  wr_mod : ∀ i, match modules w !! i with
    | Some (Some m) => ∃ xs ys c, a_outs a !! i = Some xs ∧ bf_rep (output_queue m) xs ∧
        a_ins a !! i = Some ys ∧ bf_rep (input_queue m) ys ∧ caps !! i = Some (Some c) ∧
        bf_cap (input_queue m) = c ∧ Z.of_nat (length ys) ≤ c
    | Some None => a_outs a !! i = Some [] ∧ a_ins a !! i = Some [] ∧ caps !! i = Some None
    | None => True
    end
}.

(** Frames for other modules, with metadata and a valid union, and in the
    range the code handles. *)
Definition routable (idx : Z) (ff : finsFrame) : Prop :=
  0 ≤ destinationID ff ∧ destinationID ff ≠ MAX_MODULES ∧ destinationID ff ≠ idx ∧
  metaData ff ≠ None ∧ ∀ n, body ff ≠ NoUnion n.

Definition all_routable (idx : Z) (a : abs_sw) : Prop :=
  Forall (Forall (routable idx)) (a_outs a).

(** What forwarding leaves alone: the switch's own index, its event
    semaphore and the state of every module. *)
Definition states (w : sw_state) : list (option fins_module_state) :=
  map (option_map (@m_state Q)) (modules w).
Definition keeps (w w' : sw_state) : Prop :=
  sw_index w' = sw_index w ∧ sw_events w' = sw_events w ∧ states w' = states w.

Lemma keeps_refl w : keeps w w.
Proof. done. Qed.
Lemma keeps_trans w1 w2 w3 : keeps w1 w2 → keeps w2 w3 → keeps w1 w3.
Proof. unfold keeps. naive_solver congruence. Qed.
Hint Resolve keeps_refl keeps_trans : fins.

Lemma states_insert w i m m' :
  modules w !! i = Some (Some m) → m_state m' = m_state m →
  map (option_map (@m_state Q)) (<[i := Some m']> (modules w)) = states w.
Proof.
  intros Hi Hs. unfold states. revert i Hi. induction (modules w) as [|o l IH]; intros [|i] Hi; try done.
  - simpl in *. simplify_eq. simpl. by rewrite Hs.
  - simpl. f_equal. by apply IH.
Qed.

(** ** Refinement *)

Lemma wrep_free w caps a ff :
  wrep w caps a →
  wrep (add_freed ff w) caps (MkAbs (a_outs a) (a_ins a) (a_freed a ++ [ff])).
Proof. intros []. split; simpl; try done. by f_equal. Qed.

Lemma sw_free_ok w ff : (∀ n, body ff ≠ NoUnion n) → sw_free ff w = Ok (tt, add_freed ff w).
Proof.
  intros Hb. unfold sw_free, freeFinsFrame. destruct (body ff) as [| |n] eqn:E; try done.
  by destruct (Hb n).
Qed.

Lemma print_ok w ff : metaData ff ≠ None → print_finsFrame ff w = Ok (tt, w).
Proof. unfold print_finsFrame. by destruct (body ff), (metaData ff). Qed.

Lemma forward_ok w caps a ff :
  wrep w caps a → routable (sw_index w) ff →
  ∃ w', switch_forward ff w = Ok (tt, w') ∧ wrep w' caps (abs_forward caps ff a) ∧
    keeps w w'.
Proof.
  intros Hw (Hge & Hne & Hself & Hmeta & Hb). unfold switch_forward, abs_forward.
  set (j := Z.to_nat (destinationID ff)).
  assert (Hfree : ∀ b : abs_sw, b = MkAbs (a_outs a) (a_ins a) (a_freed a ++ [ff]) →
    ∃ w', sw_free ff w = Ok (tt, w') ∧ wrep w' caps b ∧ keeps w w').
  { intros b ->. rewrite sw_free_ok by done. eexists. split; [done|]. split; [by apply wrep_free|done]. }
  destruct (Z.ltb_spec MAX_MODULES (destinationID ff)) as [Hgt|Hle].
  { apply Hfree. rewrite (lookup_ge_None_2 caps j); [done|].
    rewrite (wr_caps _ _ _ Hw), (wr_max _ _ _ Hw). unfold j. lia. }
  destruct (modules w !! j) as [[m|]|] eqn:Em.
  - pose proof (wr_mod _ _ _ Hw j) as Hm. rewrite Em in Hm.
    destruct Hm as (xs & ys & c & Hxs & Rxs & Hys & Rys & Hc & Hcap & Hlen). rewrite Hc, Hys.
    destruct (Z.eqb_spec (destinationID ff) (sw_index w)); [done|].
    destruct (Z.ltb_spec (Z.of_nat (length ys)) c) as [Hlt|Hfull].
    + destruct (bf_write_ok _ _ ff Rys) as (q' & E & Rq & Hcq); [lia|]. rewrite E. simpl.
      eexists. split; [done|]. split; [|split_and!; [done..|by eapply states_insert]]. destruct Hw as [H1 H2 H3 H4 H5 H6].
      split; simpl; rewrite ?length_insert; try done. intros i.
      destruct (decide (i = j)) as [->|Hij].
      * rewrite list_lookup_insert_eq by (by apply lookup_lt_Some in Em).
        exists xs, (ys ++ [ff]), c. rewrite list_lookup_insert_eq by (by apply lookup_lt_Some in Hys).
        simpl. split_and!; try done; [congruence|]. rewrite length_app. simpl. lia.
      * rewrite !list_lookup_insert_ne by done. apply H6.
    + rewrite (bf_write_full _ _ ff Rys) by lia. simpl. by apply Hfree.
  - pose proof (wr_mod _ _ _ Hw j) as Hm. rewrite Em in Hm. destruct Hm as (_ & _ & Hc).
    rewrite Hc. rewrite (bind_ok _ _ _ tt w) by (by apply print_ok). by apply Hfree.
  - apply lookup_ge_None in Em. rewrite (wr_max _ _ _ Hw) in Em. unfold j in Em. lia.
Qed.

Lemma one_ok w caps a i :
  wrep w caps a → all_routable (sw_index w) a → (i < length (modules w))%nat →
  ∃ w', switch_one i w = Ok (tt, w') ∧ wrep w' caps (abs_one caps a i) ∧
    keeps w w'.
Proof.
  intros Hw Hr Hi. unfold switch_one, abs_one.
  pose proof (wr_mod _ _ _ Hw i) as Hm.
  destruct (lookup_lt_is_Some_2 _ _ Hi) as [[m|] Em]; rewrite Em in Hm |- *.
  2: { destruct Hm as (Ho & _). rewrite Ho. eauto with fins. }
  destruct Hm as (xs & ys & c & Hxs & Rxs & Hys & Rys & Hc & Hcap & Hlen). rewrite Hxs.
  pose proof (bf_empty_ok _ _ Rxs) as He. destruct xs as [|ff rest].
  { rewrite (proj2 He eq_refl). eauto with fins. }
  destruct (bf_empty (output_queue m)) eqn:Eb; [by destruct He as [He _]; specialize (He eq_refl)|].
  destruct (bf_read_ok _ _ _ Rxs) as (q' & E & Rq & _). rewrite E.
  eapply Forall_lookup_1 in Hr as Hri; [|exact Hxs]. apply Forall_cons in Hri as [Hff _].
  destruct (forward_ok (set_modules (<[i := Some (set_oq q' m)]> (modules w)) w) caps
    (MkAbs (<[i := rest]> (a_outs a)) (a_ins a) (a_freed a)) ff) as (w' & E' & Hw' & Hk); [|done|].
  2: { exists w'. split_and!; try done. eapply keeps_trans; [|exact Hk].
       split_and!; [done..|by eapply states_insert]. }
  destruct Hw as [H1 H2 H3 H4 H5 H6]. split; simpl; rewrite ?length_insert; try done.
  intros k. destruct (decide (k = i)) as [->|Hki].
  - rewrite list_lookup_insert_eq by done. exists rest, ys, c.
    rewrite list_lookup_insert_eq by (by apply lookup_lt_Some in Hxs). done.
  - rewrite !list_lookup_insert_ne by done. apply H6.
Qed.

Lemma abs_forward_outs caps ff a : a_outs (abs_forward caps ff a) = a_outs a.
Proof. unfold abs_forward. by repeat case_match. Qed.

Lemma one_routable idx caps a i :
  all_routable idx a → all_routable idx (abs_one caps a i).
Proof.
  intros Hr. unfold abs_one. destruct (a_outs a !! i) as [[|ff rest]|] eqn:E; try done.
  unfold all_routable in *. rewrite abs_forward_outs. simpl.
  eapply Forall_lookup_1 in Hr as Hi; [|exact E]. apply Forall_cons in Hi as [_ Hrest].
  by apply Forall_insert.
Qed.

Lemma pass_ok idxs w caps a :
  wrep w caps a → all_routable (sw_index w) a → Forall (λ i, i < length (modules w))%nat idxs →
  ∃ w', switch_pass idxs w = Ok (tt, w') ∧ wrep w' caps (abs_pass caps idxs a) ∧
    keeps w w' ∧ all_routable (sw_index w) (abs_pass caps idxs a).
Proof.
  revert w a. induction idxs as [|i idxs IH]; intros w a Hw Hr Hi.
  { exists w. done. }
  apply Forall_cons in Hi as [Hi Hidx].
  destruct (one_ok w caps a i Hw Hr Hi) as (w1 & E1 & Hw1 & Hk1).
  assert (Hl : length (modules w1) = length (modules w))
    by (by rewrite (wr_max _ _ _ Hw1), (wr_max _ _ _ Hw)).
  destruct (IH w1 (abs_one caps a i)) as (w2 & E2 & Hw2 & Hk2 & Hr2).
  { done. }
  { rewrite (proj1 Hk1). by apply one_routable. }
  { by rewrite Hl. }
  exists w2. cbn [switch_pass]. erewrite bind_ok; [|exact E1]. rewrite (proj1 Hk1) in Hr2. split_and!; try done.
  by eapply keeps_trans.
Qed.

(** ** Conservation *)

(** All frames in the system. *)
Definition frames (a : abs_sw) : list finsFrame :=
  concat (a_outs a) ++ concat (a_ins a) ++ a_freed a.

Lemma concat_insert_perm {A} (ls : list (list A)) i x y :
  ls !! i = Some x → ∃ rest, concat ls ≡ₚ x ++ rest ∧ concat (<[i := y]> ls) ≡ₚ y ++ rest.
Proof.
  revert i. induction ls as [|l ls IH]; intros [|i] Hi; try done; simpl in *.
  - simplify_eq. exists (concat ls). done.
  - destruct (IH i Hi) as (rest & E1 & E2). exists (l ++ rest). rewrite E1, E2.
    split; rewrite !(assoc_L app); apply Permutation_app_tail, Permutation_app_comm.
Qed.

Lemma app_snoc_perm {A} (l1 l2 l3 : list A) x : l1 ++ l2 ++ l3 ++ [x] ≡ₚ x :: l1 ++ l2 ++ l3.
Proof. rewrite (Permutation_cons_append (l1 ++ l2 ++ l3)). by rewrite <-!(assoc_L app). Qed.

Lemma forward_frames caps ff a : frames (abs_forward caps ff a) ≡ₚ ff :: frames a.
Proof.
  unfold abs_forward, frames.
  destruct (caps !! Z.to_nat (destinationID ff)) as [[c|]|], (a_ins a !! Z.to_nat (destinationID ff))
    as [ys|] eqn:Ey; simpl; try apply app_snoc_perm.
  case_match; simpl; [|apply app_snoc_perm].
  destruct (concat_insert_perm (a_ins a) _ ys (ys ++ [ff]) Ey) as (rest & E1 & E2).
  rewrite E1, E2, <-(assoc_L app ys). simpl. rewrite <-Permutation_middle. simpl.
  by rewrite <-Permutation_middle.
Qed.

Lemma one_frames caps a i : frames (abs_one caps a i) ≡ₚ frames a.
Proof.
  unfold abs_one. destruct (a_outs a !! i) as [[|ff rest]|] eqn:E; try done.
  rewrite forward_frames. unfold frames. simpl.
  destruct (concat_insert_perm (a_outs a) i (ff :: rest) rest E) as (r & E1 & E2).
  by rewrite E1, E2.
Qed.

Lemma pass_frames caps idxs a : frames (abs_pass caps idxs a) ≡ₚ frames a.
Proof.
  revert a. induction idxs as [|i idxs IH]; intros a; [done|].
  unfold abs_pass in *. simpl. by rewrite IH, one_frames.
Qed.

(** ** Progress *)

(** Frames waiting in output queues. *)
Definition waiting (a : abs_sw) : nat := length (concat (a_outs a)).

Lemma one_waiting caps a i :
  match a_outs a !! i with
  | Some (_ :: _) => waiting a = S (waiting (abs_one caps a i))
  | _ => abs_one caps a i = a
  end.
Proof.
  unfold abs_one. destruct (a_outs a !! i) as [[|ff rest]|] eqn:E; try done.
  unfold waiting. rewrite abs_forward_outs. simpl.
  destruct (concat_insert_perm (a_outs a) i (ff :: rest) rest E) as (r & E1 & E2).
  by rewrite E1, E2.
Qed.

Lemma pass_waiting caps idxs a :
  (waiting (abs_pass caps idxs a) ≤ waiting a)%nat ∧
  (∀ i ff rest, i ∈ idxs → a_outs a !! i = Some (ff :: rest) →
     waiting (abs_pass caps idxs a) < waiting a)%nat.
Proof.
  revert a. induction idxs as [|j idxs IH]; intros a.
  { split; [done|]. intros i ff rest Hi. by apply not_elem_of_nil in Hi. }
  unfold abs_pass in *. simpl. pose proof (one_waiting caps a j) as H1.
  destruct (IH (abs_one caps a j)) as [IH1 IH2].
  destruct (a_outs a !! j) as [[|f r]|] eqn:E.
  - rewrite H1 in *. split; [done|]. intros i ff rest [->|Hi]%elem_of_cons Ho; [congruence|by eapply IH2].
  - split; [lia|]. intros. lia.
  - rewrite H1 in *. split; [done|]. intros i ff rest [->|Hi]%elem_of_cons Ho; [congruence|by eapply IH2].
Qed.

Lemma waiting_pos a : (0 < waiting a)%nat →
  ∃ i ff rest, (i < length (a_outs a))%nat ∧ a_outs a !! i = Some (ff :: rest).
Proof.
  unfold waiting. induction (a_outs a) as [|[|ff l] ls IH]; simpl; [lia|..].
  - intros (i & ff & rest & ? & ?)%IH. exists (S i), ff, rest. split; [lia|done].
  - intros _. exists 0%nat, ff, l. split; [lia|done].
Qed.

(** A round with a frame waiting forwards a frame. *)
Lemma round_ok w caps a :
  wrep w caps a → all_routable (sw_index w) a →
  let a' := abs_pass caps (seq 0 (Z.to_nat MAX_MODULES)) a in
  ∃ w', switch_round w = Ok (tt, w') ∧ wrep w' caps a' ∧ keeps w w' ∧
    all_routable (sw_index w) a' ∧ (waiting a' ≤ pred (waiting a))%nat.
Proof.
  intros Hw Hr a'.
  destruct (pass_ok (seq 0 (Z.to_nat MAX_MODULES)) w caps a) as (w' & E & Hw' & Hk & Hr'); [done..| |].
  { apply Forall_seq. simpl. rewrite (wr_max _ _ _ Hw). lia. }
  exists w'. split_and!; try done.
  destruct (pass_waiting caps (seq 0 (Z.to_nat MAX_MODULES)) a) as [Hle Hlt]. fold a' in Hle, Hlt.
  destruct (decide (waiting a = 0)%nat) as [E0|E0]; [lia|].
  destruct (waiting_pos a) as (i & ff & rest & Hi & Ho); [lia|].
  assert (waiting a' < waiting a)%nat; [|lia]. eapply Hlt; [|exact Ho].
  apply elem_of_seq. rewrite (wr_outs _ _ _ Hw), (wr_max _ _ _ Hw) in Hi. lia.
Qed.

(** ** Fairness: a round takes one frame from every output queue *)

Lemma one_outs caps a i : a_outs (abs_one caps a i) = alter tail i (a_outs a).
Proof.
  unfold abs_one. destruct (a_outs a !! i) as [[|ff rest]|] eqn:E.
  - symmetry. apply list_eq. intros k. destruct (decide (k = i)) as [->|Hk].
    + by rewrite list_lookup_alter_eq, E.
    + by rewrite list_lookup_alter_ne.
  - rewrite abs_forward_outs. simpl. apply list_eq. intros k. destruct (decide (k = i)) as [->|Hk].
    + rewrite list_lookup_insert_eq by (by apply lookup_lt_Some in E). by rewrite list_lookup_alter_eq, E.
    + by rewrite list_lookup_insert_ne, list_lookup_alter_ne.
  - apply list_eq. intros k. destruct (decide (k = i)) as [->|Hk].
    + by rewrite list_lookup_alter_eq, E.
    + by rewrite list_lookup_alter_ne.
Qed.

Lemma pass_outs caps idxs a k :
  NoDup idxs →
  a_outs (abs_pass caps idxs a) !! k =
    if decide (k ∈ idxs) then tail <$> a_outs a !! k else a_outs a !! k.
Proof.
  revert a. induction idxs as [|i idxs IH]; intros a Hn.
  { by rewrite decide_False by apply not_elem_of_nil. }
  apply NoDup_cons in Hn as [Hi Hn]. unfold abs_pass in *. simpl. rewrite IH, one_outs by done.
  destruct (decide (k = i)) as [->|Hk].
  - rewrite decide_False by done. by rewrite decide_True, list_lookup_alter_eq by set_solver.
  - rewrite list_lookup_alter_ne by done. destruct (decide (k ∈ idxs)).
    + by rewrite decide_True by set_solver.
    + by rewrite decide_False by set_solver.
Qed.

Lemma round_outs caps a :
  length (a_outs a) = Z.to_nat MAX_MODULES →
  a_outs (abs_pass caps (seq 0 (Z.to_nat MAX_MODULES)) a) = map tail (a_outs a).
Proof.
  intros Hl. apply list_eq. intros k. rewrite pass_outs by apply NoDup_seq. rewrite list_lookup_fmap.
  destruct (decide (k ∈ _)) as [Hk|Hk]; [done|]. rewrite elem_of_seq in Hk.
  rewrite lookup_ge_None_2 by lia. done.
Qed.

(** ** Delivery *)

(** The frames for module [j] that wait in all output queues, and those that
    wait in the output queue of module [i]. *)
Notation for_ j := (λ ff : finsFrame, Z.to_nat (destinationID ff) = j).
Definition pending (j : nat) (a : abs_sw) : list finsFrame := filter (for_ j) (concat (a_outs a)).
Definition from (i j : nat) (a : abs_sw) : list finsFrame := filter (for_ j) (default [] (a_outs a !! i)).

(** The input queue of [j] has room for what waits for it. *)
Definition has_room (j : nat) (c : Z) (a : abs_sw) : Prop :=
  ∃ ys, a_ins a !! j = Some ys ∧ Z.of_nat (length ys + length (pending j a)) ≤ c.

(** Between [a] and [a'], module [j] received [l]: what left the output
    queues for it, and for each sender in the order of its queue. *)
Definition delivers (j : nat) (a a' : abs_sw) : Prop :=
  ∃ ys l, a_ins a !! j = Some ys ∧ a_ins a' !! j = Some (ys ++ l) ∧
    pending j a ≡ₚ l ++ pending j a' ∧
    ∀ i, ∃ p, from i j a = p ++ from i j a' ∧ p `sublist_of` l.

Lemma delivers_refl j c a : has_room j c a → delivers j a a.
Proof.
  intros (ys & Hy & _). exists ys, []. rewrite app_nil_r. split_and!; try done.
  intros i. by exists [].
Qed.

Lemma delivers_trans j a1 a2 a3 : delivers j a1 a2 → delivers j a2 a3 → delivers j a1 a3.
Proof.
  intros (ys & l & Hy & Hy' & Hp & Hf) (ys2 & l2 & Hy2 & Hy2' & Hp2 & Hf2).
  rewrite Hy' in Hy2. simplify_eq. exists ys, (l ++ l2). rewrite (assoc_L app).
  split_and!; try done. { by rewrite Hp, Hp2, (assoc_L app). }
  intros i. destruct (Hf i) as (p & E & Hs), (Hf2 i) as (p2 & E2 & Hs2). exists (p ++ p2).
  rewrite E, E2, (assoc_L app). split; [done|]. by apply sublist_app.
Qed.

Lemma delivers_room j c a a' : has_room j c a → delivers j a a' → has_room j c a'.
Proof.
  intros (ys & Hy & Hc) (ys2 & l & Hy2 & Hy2' & Hp & _). rewrite Hy in Hy2. simplify_eq.
  exists (ys2 ++ l). split; [done|]. apply Permutation_length in Hp.
  rewrite length_app in *. lia.
Qed.

(** Taking the head [ff] of output queue [i] away. *)
Lemma pop_pending j a i ff rest b :
  a_outs a !! i = Some (ff :: rest) → a_outs b = <[i := rest]> (a_outs a) →
  (if decide (for_ j ff) then pending j a ≡ₚ ff :: pending j b else pending j a ≡ₚ pending j b) ∧
  ∀ k, from k j a = (if decide (k = i ∧ for_ j ff) then [ff] else []) ++ from k j b.
Proof.
  intros Hi Hb. unfold pending, from. rewrite Hb.
  destruct (concat_insert_perm (a_outs a) i (ff :: rest) rest Hi) as (r & E1 & E2). split.
  - destruct (decide (for_ j ff)); rewrite E1, E2; simpl; rewrite filter_cons;
      [by rewrite decide_True|by rewrite decide_False].
  - intros k. destruct (decide (k = i)) as [->|Hk].
    + rewrite list_lookup_insert_eq by (by apply lookup_lt_Some in Hi). rewrite Hi. simpl.
      rewrite filter_cons. destruct (decide (for_ j ff)); [rewrite decide_True by done|rewrite decide_False by tauto];
      done.
    + rewrite list_lookup_insert_ne by done. case_decide; [by destruct_and?|done].
Qed.

Lemma forward_ins caps ff a j c ys :
  caps !! j = Some (Some c) → a_ins a !! j = Some ys → Z.of_nat (length ys) < c →
  a_ins (abs_forward caps ff a) !! j = Some (ys ++ if decide (for_ j ff) then [ff] else []).
Proof.
  intros Hc Hy Hlt. unfold abs_forward. destruct (decide (for_ j ff)) as [<-|Hn].
  - rewrite Hc, Hy. destruct (Z.ltb_spec (Z.of_nat (length ys)) c); [|lia]. simpl.
    by rewrite list_lookup_insert_eq by (by apply lookup_lt_Some in Hy).
  - rewrite app_nil_r. repeat case_match; simpl; try done. by rewrite list_lookup_insert_ne.
Qed.

(** A full queue that expects nothing stays as it is. *)
Lemma forward_ins_other caps ff a j :
  ¬ for_ j ff → a_ins (abs_forward caps ff a) !! j = a_ins a !! j.
Proof.
  intros Hn. unfold abs_forward. repeat case_match; simpl; try done. by rewrite list_lookup_insert_ne.
Qed.

Lemma one_delivers caps j c a i :
  caps !! j = Some (Some c) → has_room j c a → delivers j a (abs_one caps a i).
Proof.
  intros Hc Hroom. unfold abs_one.
  destruct (a_outs a !! i) as [[|ff rest]|] eqn:E; try by eapply delivers_refl.
  set (b := MkAbs (<[i := rest]> (a_outs a)) (a_ins a) (a_freed a)).
  destruct (pop_pending j a i ff rest (abs_forward caps ff b) E) as [Hp Hf].
  { by rewrite abs_forward_outs. }
  destruct Hroom as (ys & Hy & Hlen).
  destruct (decide (for_ j ff)) as [Hj|Hj].
  - exists ys, [ff]. split_and!; [done| |done|].
    + apply Permutation_length in Hp. simpl in Hp.
      rewrite (forward_ins caps ff b j c ys) by (done || (simpl in *; lia)). by rewrite decide_True by done.
    + intros k. eexists. split; [apply Hf|]. destruct (decide _); [done|apply sublist_nil_l].
  - exists ys, []. rewrite app_nil_r, forward_ins_other by done. split_and!; try done.
    intros k. eexists. split; [apply Hf|]. by rewrite decide_False by tauto.
Qed.

Lemma pass_delivers caps j c idxs a :
  caps !! j = Some (Some c) → has_room j c a → delivers j a (abs_pass caps idxs a).
Proof.
  intros Hc. revert a. induction idxs as [|i idxs IH]; intros a Hroom; [by eapply delivers_refl|].
  unfold abs_pass in *. simpl. pose proof (one_delivers caps j c a i Hc Hroom) as H1.
  eapply delivers_trans; [exact H1|]. apply IH. by eapply delivers_room.
Qed.

(** ** The loop *)

Definition own_state (w : sw_state) : option fins_module_state :=
  match modules w !! Z.to_nat (sw_index w) with Some (Some m) => Some (m_state m) | _ => None end.

Lemma own_state_keeps w w' : keeps w w' → own_state w' = own_state w.
Proof.
  intros (Hi & _ & Hs). unfold own_state. rewrite Hi. unfold states in Hs.
  apply (f_equal (λ l, l !! Z.to_nat (sw_index w))) in Hs. rewrite !list_lookup_fmap in Hs.
  destruct (modules w' !! _) as [[]|], (modules w !! _) as [[]|]; simpl in *; congruence.
Qed.

Lemma loop_ok n w caps a :
  wrep w caps a → all_routable (sw_index w) a → own_state w = Some FMS_RUNNING →
  Z.of_nat (waiting a) ≤ sw_events w ≤ Z.of_nat n →
  ∃ w' a', switch_loop n w = Ok (Blocked, w') ∧ wrep w' caps a' ∧ waiting a' = 0%nat ∧
    frames a' ≡ₚ frames a ∧
    ∀ j c, caps !! j = Some (Some c) → has_room j c a → delivers j a a'.
Proof.
  revert w a. induction n as [|n IH]; intros w a Hw Hr Hs Hn; cbn [switch_loop].
  all: unfold own_state in Hs; destruct (modules w !! _) as [[m|]|] eqn:Em; try done; simplify_eq.
  all: rewrite decide_True by congruence; destruct (Z.leb_spec (sw_events w) 0) as [He|He]; [|try lia].
  1,2: exists w, a; split_and!; try done; [lia|]; intros; by eapply delivers_refl.
  set (w1 := set_events (sw_events w - 1) w).
  assert (Hw1 : wrep w1 caps a) by (destruct Hw; by split).
  destruct (round_ok w1 caps a Hw1 Hr) as (w2 & E2 & Hw2 & Hk & Hr2 & Hlt).
  set (a2 := abs_pass caps (seq 0 (Z.to_nat MAX_MODULES)) a) in *.
  destruct (IH w2 a2) as (w' & a' & E & Hw' & H0 & Hf & Hd); try done.
  { by rewrite (proj1 Hk). }
  { rewrite (own_state_keeps _ _ Hk). unfold own_state, w1. simpl. by rewrite Em, Hs. }
  { destruct Hk as (_ & -> & _). simpl. lia. }
  exists w', a'. rewrite (bind_ok _ _ _ _ _ E2). split_and!; try done.
  { rewrite Hf. apply pass_frames. }
  intros j c Hc Hroom. pose proof (pass_delivers caps j c (seq 0 (Z.to_nat MAX_MODULES)) a Hc Hroom) as H1.
  eapply delivers_trans; [exact H1|]. eapply Hd; [exact Hc|]. by eapply delivers_room.
Qed.

End Switch.
Arguments sw_state : clear implicits.

(** ** Properties *)

(** when every queued frame has a registered or invalid destination
    other than the switch, a round of the switch returns normally, takes
    exactly the head of every non-empty output queue, and moves it to the end
    of the input queue of its destination, or releases it when there is no
    such module or its queue is full; no frame is lost or duplicated, and the
    state of the modules and the pending events stay as they are. *)
Theorem switch_round_refines {Q} `{BoundedFifo Q finsFrame} (w : sw_state Q) caps a :
  wrep w caps a → all_routable (sw_index w) a →
  let a' := abs_pass caps (seq 0 (Z.to_nat MAX_MODULES)) a in
  ∃ w', switch_round w = Ok (tt, w') ∧ wrep w' caps a' ∧ keeps w w' ∧
    a_outs a' = map tail (a_outs a) ∧ frames a' ≡ₚ frames a.
Proof.
  intros Hw Hr a'. destruct (round_ok w caps a Hw Hr) as (w' & E & Hw' & Hk & _).
  exists w'. split_and!; try done; [|apply pass_frames].
  apply round_outs. by rewrite (wr_outs _ _ _ Hw), (wr_max _ _ _ Hw).
Qed.

(** C25: the switch leaves nothing behind.  When its event semaphore has
    at least as many posts as frames are waiting, which is what the senders
    guarantee, the loop consumes the posts and then waits for another event
    with all output queues empty.  Every registered module whose input queue
    has room for the frames waiting for it has received exactly these, and the
    frames of each sender in the order in which they were sent. *)
Theorem switch_delivers {Q} `{BoundedFifo Q finsFrame} n (w : sw_state Q) caps a :
  wrep w caps a → all_routable (sw_index w) a → own_state w = Some FMS_RUNNING →
  Z.of_nat (waiting a) ≤ sw_events w ≤ Z.of_nat n →
  ∃ w' a', switch_loop n w = Ok (Blocked, w') ∧ wrep w' caps a' ∧
    concat (a_outs a') = [] ∧ frames a' ≡ₚ frames a ∧
    ∀ j c ys, caps !! j = Some (Some c) → a_ins a !! j = Some ys →
      Z.of_nat (length ys + length (pending j a)) ≤ c →
      ∃ l, a_ins a' !! j = Some (ys ++ l) ∧ l ≡ₚ pending j a ∧
        ∀ i, from i j a `sublist_of` l.
Proof.
  intros Hw Hr Hs Hn. destruct (loop_ok n w caps a Hw Hr Hs Hn) as (w' & a' & E & Hw' & H0 & Hf & Hd).
  apply length_zero_iff_nil in H0. exists w', a'. split_and!; try done.
  intros j c ys Hc Hy Hlen. destruct (Hd j c Hc) as (ys' & l & Hy1 & Hy2 & Hp & Hfr).
  { by exists ys. }
  assert (Hnil : ∀ i, from i j a' = []).
  { intros i. unfold from. destruct (a_outs a' !! i) as [[|ff rest]|] eqn:Ei; try done.
    destruct (concat_insert_perm (a_outs a') i (ff :: rest) [] Ei) as (r & E1 & _).
    rewrite H0 in E1. by apply Permutation_nil_l in E1. }
  exists l. simplify_eq. split_and!; [done| |].
  - unfold pending at 2 in Hp. rewrite H0 in Hp. by rewrite Hp, app_nil_r.
  - intros i. destruct (Hfr i) as (p & -> & Hp'). by rewrite Hnil, app_nil_r.
Qed.

(** a frame whose destination is exactly [MAX_MODULES] passes the range
    check and indexes the module table behind its end, as unregistering that
    index does; registering it is refused, and larger destinations are
    released. *)
Theorem switch_destination_bound {Q} `{BoundedFifo Q finsFrame} (w : sw_state Q) ff m :
  length (modules w) = Z.to_nat MAX_MODULES → (∀ n, body ff ≠ NoUnion n) →
  (destinationID ff = MAX_MODULES → switch_forward ff w = Segv) ∧
  (MAX_MODULES < destinationID ff → switch_forward ff w = Ok (tt, add_freed ff w)) ∧
  switch_unregister_module MAX_MODULES w = Segv ∧
  (MAX_MODULES ≤ m_index m → switch_register_module m w = (-1, w)).
Proof.
  intros Hl Hb. unfold switch_forward, switch_unregister_module, switch_register_module.
  assert (Hnone : modules w !! Z.to_nat MAX_MODULES = None) by (apply lookup_ge_None_2; lia).
  split_and!.
  - intros ->. rewrite Z.ltb_irrefl. by rewrite Hnone.
  - intros Hgt. destruct (Z.ltb_spec MAX_MODULES (destinationID ff)); [|lia]. by apply sw_free_ok.
  - by rewrite Hnone.
  - intros Hge. by destruct (Z.leb_spec MAX_MODULES (m_index m)); [|lia].
Qed.

(** What [switch_process_ff] does with a frame: the reply it queues, or
    nothing when it releases the frame. *)
Definition self_reply (idx : Z) (ff : finsFrame) : option finsFrame :=
  match body ff, metaData ff with
  | Ctrl c, Some m =>
      match reply_opcode (opcode c) with
      | Ok op => Some (MkFrame (sender_id c) (Some (put_member m "ret_msg" (SInt 0)))
          (Ctrl (MkCtrl (u8 idx) (serial_num c) op (param_id c) FCF_FALSE (data_len c) (cdata c))))
      | _ => None
      end
  | _, _ => None
  end.

(** The frames of the protocol other than changes of the switch's link table. *)
Definition self_frame (ff : finsFrame) : Prop :=
  match body ff with
  | Ctrl c => 0 ≤ opcode c ≤ CTRL_ERROR ∧ (opcode c = CTRL_SET_PARAM → 3 ≤ param_id c)
  | Data d => directionFlag d = DIR_UP ∨ directionFlag d = DIR_DOWN
  | NoUnion _ => False
  end.

(** every frame addressed to the switch itself is either answered by
    one negative reply to its sender, for the requests, or released, for
    replies, errors and data. *)
Theorem switch_self_frames {Q} `{BoundedFifo Q finsFrame} (s : mstate Q unit) xs ff m :
  metaData ff = Some m → int_key m "ret_msg" = true → self_frame ff → room s xs 1 →
  ∃ s', switch_process_ff ff s = Ok (tt, s') ∧
    match self_reply (m_index (fm s)) ff with
    | Some r => eff s xs s' [r] []
    | None => eff s xs s' [] [ff]
    end.
Proof.
  intros Hm Hk Hs Hr. unfold switch_process_ff, frame_dispatch, self_reply, self_frame in *. rewrite Hm.
  assert (Hfree : (∀ n, body ff ≠ NoUnion n) → ∃ s', free_ff ff s = Ok (tt, s') ∧ eff s xs s' [] [ff]).
  { intros Hb. exists (set_freed (freed s ++ [ff]) s). split.
    - unfold free_ff, lift, freeFinsFrame, mbind, M_bind, modify.
      destruct (body ff) as [| |n] eqn:E; done.
    - destruct Hr as [Hq _]. split; simpl; rewrite ?app_nil_r, ?Z.add_0_r; done. }
  destruct (body ff) as [d|c|] eqn:Hb; [| |done].
  - destruct Hs as [E|E]; rewrite E; simpl; by apply Hfree.
  - assert (Hrep : ∀ op, reply_opcode (opcode c) = Ok op →
      ∃ s', module_reply_fcf ff FCF_FALSE 0 s = Ok (tt, s') ∧
        eff s xs s' [MkFrame (sender_id c) (Some (put_member m "ret_msg" (SInt 0)))
          (Ctrl (MkCtrl (u8 (m_index (fm s))) (serial_num c) op (param_id c) FCF_FALSE (data_len c) (cdata c)))] []).
    { intros op Ho. destruct (reply_fcf_ok s xs ff c m op FCF_FALSE 0 Hm Hk Hb Ho Hr) as (s' & E & _ & F). eauto. }
    unfold switch_fcf. erewrite bind_ok; [|unfold ff_ctrl; by rewrite Hb].
    destruct Hs as [Hop Hset]. assert (Hc : opcode c ∈ [0;1;2;3;4;5;6;7;8]) by (unfold CTRL_ERROR in *; set_unfold; lia).
    unfold switch_set_param, set_param. set_unfold in Hc.
    repeat destruct Hc as [Hc|Hc]; try done; clear Hop; rewrite Hc in Hrep, Hset |- *; cbn; try done; try (by apply Hrep); try (by apply Hfree).
    erewrite bind_ok; [|unfold ff_ctrl; by rewrite Hb]. specialize (Hset eq_refl).
    destruct (Z.eqb_spec (param_id c) 0), (Z.eqb_spec (param_id c) 1), (Z.eqb_spec (param_id c) 2); try lia.
    by apply Hrep.
Qed.
(** Two modules besides the switch; module 1 has frames for modules 2 and 7
    (not registered), module 2 one for module 1. *)
Definition demo_frame (src dst : Z) : finsFrame :=
  MkFrame dst (Some []) (Ctrl (MkCtrl src 1 CTRL_ALERT 0 0 0 CNull)).
Definition fill (xs : list finsFrame) (q : QueueRecord finsFrame) : QueueRecord finsFrame :=
  foldl (λ q x, match write_queue x q with Ok (_, q') => q' | _ => q end) q xs.
Definition demo_mod (i : Z) (xs : list finsFrame) : fins_module (QueueRecord finsFrame) :=
  MkMod FMS_RUNNING 0 i i (init_queue 10) (fill xs (init_queue 10)).
Definition demo_sw : sw_state (QueueRecord finsFrame) :=
  MkSw ([Some (demo_mod 0 []); Some (demo_mod 1 [demo_frame 1 2; demo_frame 1 7]);
         Some (demo_mod 2 [demo_frame 2 1])] ++ replicate 29 None)
    0 (MkTable None 0 []) (MkStore ∅ 0) [] 3 (replicate 32 0).
Definition demo_abs : abs_sw :=
  MkAbs ([[]; [demo_frame 1 2; demo_frame 1 7]; [demo_frame 2 1]] ++ replicate 29 [])
    (replicate 32 []) [].
Definition demo_caps : list (option Z) := [Some 10; Some 10; Some 10] ++ replicate 29 None.

Lemma fill_rep xs q ys :
  qinv q ys → Z.of_nat (length ys + length xs) ≤ Capacity q → qinv (fill xs q) (ys ++ xs).
Proof.
  revert q ys. induction xs as [|x xs IH]; intros q ys Hq Hc; simpl in *; [by rewrite app_nil_r|].
  destruct (write_queue_ok q ys x Hq) as (q' & E & Hq' & Hcap); [lia|]. rewrite E.
  replace (ys ++ x :: xs) with ((ys ++ [x]) ++ xs) by (by rewrite <-(assoc_L app)).
  apply IH; [done|]. rewrite length_app, Hcap. simpl. lia.
Qed.

Lemma demo_wrep : wrep demo_sw demo_caps demo_abs.
Proof.
  split; try reflexivity. intros i.
  assert (Hq : ∀ xs, (length xs ≤ 10)%nat → qinv (fill xs (init_queue 10)) xs).
  { intros xs Hl. apply (fill_rep xs (init_queue 10) [] demo_rep). simpl. lia. }
  do 3 (destruct i as [|i]; [do 3 eexists; split_and!; try reflexivity; first
    [apply Hq; simpl; lia | apply demo_rep | simpl; lia]|]).
  by do 29 (destruct i as [|i]; [done|]).
Qed.

Lemma demo_routable : all_routable (sw_index demo_sw) demo_abs.
Proof.
  unfold all_routable, demo_abs. simpl. repeat constructor; try done; unfold MAX_MODULES; simpl; try lia.
Qed.

(** An instance. *)
Lemma switch_round_refines_witness :
  let a' := abs_pass demo_caps (seq 0 (Z.to_nat MAX_MODULES)) demo_abs in
  ∃ w', switch_round demo_sw = Ok (tt, w') ∧ wrep w' demo_caps a' ∧ keeps demo_sw w' ∧
    a_outs a' = map tail (a_outs demo_abs) ∧ frames a' ≡ₚ frames demo_abs.
Proof. exact (switch_round_refines demo_sw demo_caps demo_abs demo_wrep demo_routable). Defined.

(** Witness of C25. *)
Lemma switch_delivers_witness :
  ∃ w' a', switch_loop 3 demo_sw = Ok (Blocked, w') ∧ wrep w' demo_caps a' ∧
    concat (a_outs a') = [] ∧ frames a' ≡ₚ frames demo_abs ∧
    ∀ j c ys, demo_caps !! j = Some (Some c) → a_ins demo_abs !! j = Some ys →
      Z.of_nat (length ys + length (pending j demo_abs)) ≤ c →
      ∃ l, a_ins a' !! j = Some (ys ++ l) ∧ l ≡ₚ pending j demo_abs ∧
        ∀ i, from i j demo_abs `sublist_of` l.
Proof.
  apply (switch_delivers 3 demo_sw demo_caps demo_abs demo_wrep demo_routable); [reflexivity|].
  vm_compute. split; discriminate.
Defined.

(** An instance. *)
Lemma switch_destination_bound_witness :
  switch_forward (demo_frame 1 32) demo_sw = Segv.
Proof.
  apply (switch_destination_bound demo_sw (demo_frame 1 32) (demo_mod 32 [])); [reflexivity|done|reflexivity].
Defined.

(** An instance. *)
Lemma switch_self_frames_witness :
  ∃ s', switch_process_ff (demo_frame 1 3) demo_state = Ok (tt, s') ∧
    eff demo_state [] s' [MkFrame 1 (Some [("ret_msg", SInt 0)])
      (Ctrl (MkCtrl 3 1 CTRL_ALERT_REPLY 0 FCF_FALSE 0 CNull))] [].
Proof.
  apply (switch_self_frames demo_state [] (demo_frame 1 3) []); try reflexivity.
  - split; [vm_compute; split; discriminate|discriminate].
  - split; [apply demo_rep|]. simpl. lia.
Defined.
