(* ===== verification/Icmp.v ===== *)
(** * The ICMP module: [modules/icmp/icmp.c]

    Received messages go to the daemon; echo requests are answered, and errors
    about packets this host sent are turned into error messages for the module
    that sent them.  The list of sent messages is a mathematical list here; the
    pointer structure behind it is the subject of [LinkedListFacts]. *)

From stdpp Require Import base list gmap strings.
From Stdlib Require Import ZArith Lia.
From S2P Require Import Prelude Queue Metadata Frame Module IPv4 UDP.
Open Scope Z_scope.
Open Scope fins_scope.

Definition ICMP_TYPE_ECHOREPLY := 0.
Definition ICMP_TYPE_DESTUNREACH := 3.
Definition ICMP_TYPE_ECHOREQUEST := 8.
Definition ICMP_TYPE_TTLEXCEED := 11.
Definition ICMP_CODE_ECHO := 0.
Definition ICMP_CODE_HOSTUNREACH := 1.
Definition ICMP_CODE_PORTUNREACH := 3.
Definition ICMP_CODE_TTLEXCEEDED := 0.
Definition ICMP_FRAG_SIZE := 8.
Definition UDP_FRAG_SIZE := 8.
Definition IPV4_MIN_HLEN := 20.
Definition ICMP_HEADER_SIZE := 8.
Definition ICMP_PT_ICMP := 1.
Definition ICMP_PT_UDP := 17.
Definition ICMP_SENT_LIST_MAX := 131072.
Definition ICMP_FLOW_IPV4 := 0.
Definition ICMP_FLOW_UDP := 2.
Definition ICMP_FLOW_DAEMON := 3.
Definition ICMP_ERROR_TTL := 0.
Definition ICMP_ERROR_DEST_UNREACH := 1.
Definition ICMP_ERROR_GET_ADDR := 2.
Definition SO_EE_ORIGIN_ICMP := 2.

(** [IPV4_HLEN]. *)
Definition IPV4_HLEN (verlen : Z) : Z := Z.shiftl (Z.land verlen 15) 2.

(** ** Data *)

(** A message sent, with a copy of the frame (the time stamp is left out). *)
Record icmp_sent := MkISent { isent_ff : finsFrame }.

(** [struct icmp_data] without the parts of the module runtime, and the counter
    behind [gen_control_serial_num]. *)
Record icmp_data := MkIcmpData {
  icmp_if_main : option if_record; icmp_sent_list : list icmp_sent; icmp_serial : Z
}.
Definition put_isent (l : list icmp_sent) (d : icmp_data) : icmp_data :=
  MkIcmpData (icmp_if_main d) l (icmp_serial d).
Definition put_serial (n : Z) (d : icmp_data) : icmp_data :=
  MkIcmpData (icmp_if_main d) (icmp_sent_list d) n.

(** What memory holds where the code reads it without having set it: the two
    bytes behind [sent_data_len] (a 16-bit variable read as a 32-bit one), and
    the variable [host_ip] of a host without address. *)
Class IcmpEnv := { behind_len : Z; junk_ip : Z }.

(** ** Checksum *)

Definition icmp_checksum (pt : list Z) (len : Z) : res Z :=
  match be_loop (Z.to_nat len) pt 0 with
  | Ok sum =>
      match (if Z.land len 1 =? 0 then Ok sum
             else match pt !! Z.to_nat (len - 1) with
                  | Some last => Ok (u32 (sum + last * 256))
                  | None => Segv
                  end) with
      | Ok sum =>
          match fold_carries 2 sum with
          | Ok sum => Ok (u16 (Z.lnot sum))
          | Segv => Segv | Exit => Exit | NoFuel => NoFuel
          end
      | Segv => Segv | Exit => Exit | NoFuel => NoFuel
      end
  | Segv => Segv | Exit => Exit | NoFuel => NoFuel
  end.

(** A message: [type], [code] and the two parameters (fields as in memory) in
    front of the data, with the checksum computed over it. *)
Definition icmp_fields (type code cksum p1 p2 : Z) : list Z :=
  [type; code] ++ le_bytes 2 cksum ++ le_bytes 2 p1 ++ le_bytes 2 p2.
Definition icmp_message (type code p1 p2 : Z) (data : list Z) : res (list Z) :=
  match icmp_checksum (icmp_fields type code 0 p1 p2 ++ data)
          (ICMP_HEADER_SIZE + Z.of_nat (length data)) with
  | Ok ck => Ok (icmp_fields type code (htons ck) p1 p2 ++ data)
  | Segv => Segv | Exit => Exit | NoFuel => NoFuel
  end.

(** ** Sent messages *)

(** [strncmp(a, b, n) == 0]; reading behind the end of a buffer is undefined. *)
Fixpoint strncmp (n : nat) (a b : list Z) : res bool :=
  match n with
  | O => Ok true
  | S n =>
      match a, b with
      | x :: a, y :: b => if x =? y then if x =? 0 then Ok true else strncmp n a b else Ok false
      | _, _ => Segv
      end
  end.

Definition icmp_sent_match_test (sent : icmp_sent) (data_len : Z) (data : list Z) : res bool :=
  match body (isent_ff sent) with
  | Data d =>
      strncmp (Z.to_nat (if data_len <=? pduLength d then data_len else pduLength d))
        (default [] (pdu d)) data
  | _ => Segv
  end.

(** [list_find2] with that test: the position of the first match. *)
Fixpoint find_isent (l : list icmp_sent) (data_len : Z) (data : list Z) : res (option nat) :=
  match l with
  | [] => Ok None
  | sent :: l =>
      match icmp_sent_match_test sent data_len data with
      | Ok true => Ok (Some O)
      | Ok false =>
          match find_isent l data_len data with
          | Ok r => Ok (S <$> r)
          | Segv => Segv | Exit => Exit | NoFuel => NoFuel
          end
      | Segv => Segv | Exit => Exit | NoFuel => NoFuel
      end
  end.

Section Icmp.
Context {Q : Type} `{BoundedFifo Q finsFrame} `{IcmpEnv}.
Abbreviation ST := (mstate Q icmp_data) (only parsing).

Definition imod (f : icmp_data → icmp_data) : M ST unit := modify (λ s, set_md (f (md s)) s).
Definition icmp_gen_serial : M ST Z :=
  s ← get;
  let num := u32 (icmp_serial (md s) + 1) in
  imod (put_serial num) ;; mret num.

Definition icmp_sent_free (sent : icmp_sent) : M ST unit := free_ff (isent_ff sent).

(** Metadata of a new frame. *)
Fixpoint write_metas (kvs : list (string * Z)) (ff : finsFrame) : M ST finsFrame :=
  match kvs with
  | [] => mret ff
  | (k, v) :: kvs => ff ← ff_write ff k (VInt32 v); write_metas kvs ff
  end.

(** The frame goes to the daemon; [None] when it had to be released. *)
Definition icmp_up (ff : finsFrame) : M ST (option finsFrame) :=
  sent ← module_send_flow ff ICMP_FLOW_DAEMON;
  if sent =? 0 then free_ff ff ;; mret None else mret (Some ff).

(** ** Sending *)

(** Keep the sent message, dropping the oldest one when the list is full. *)
Definition keep_isent (sent : icmp_sent) : M ST unit :=
  s ← get;
  let l := icmp_sent_list (md s) in
  if Z.of_nat (length l) <? ICMP_SENT_LIST_MAX then imod (put_isent (l ++ [sent]))
  else match l with
       | [] => segv
       | old :: l => imod (put_isent l) ;; icmp_sent_free old ;; imod (put_isent (l ++ [sent]))
       end.

Definition icmp_out_fdf (ff : finsFrame) : M ST unit :=
  family ← ff_read ff "send_family";
  src_ip ← ff_read ff "send_src_ipv4";
  dst_ip ← ff_read ff "send_dst_ipv4";
  ff ← ff_write ff "send_protocol" (VInt32 ICMP_PT_ICMP);
  ff_clone ← lift (cloneFinsFrame ff);
  sent ← module_send_flow ff ICMP_FLOW_IPV4;
  if sent =? 0 then free_ff ff else keep_isent (MkISent ff_clone).

(** ** Receiving *)

(** [icmp] is the message, from its first byte to the end of the buffer. *)
Definition icmp_ping_reply (ff : finsFrame) (icmp : list Z) (data_len : Z) : M ST unit :=
  p1 ← lift (read_at icmp 4 2);
  p2 ← lift (read_at icmp 6 2);
  data ← lift (read_bytes (Some (drop 8 icmp)) data_len);
  pdu_reply ← lift (icmp_message ICMP_TYPE_ECHOREPLY ICMP_CODE_ECHO p1 p2 data);
  family ← ff_read ff "recv_family";
  src_ip ← ff_read ff "recv_src_ipv4";
  dst_ip ← ff_read ff "recv_dst_ipv4";
  ff_reply ← write_metas [("send_protocol", ICMP_PT_ICMP); ("send_family", family);
                          ("send_src_ipv4", dst_ip); ("send_dst_ipv4", src_ip)]
    (MkFrame 0 (Some metadata_create)
       (Data (MkData DIR_DOWN (u32 (data_len + ICMP_HEADER_SIZE)) (Some pdu_reply))));
  icmp_up ff ;;
  send_or_free ff_reply ICMP_FLOW_IPV4.

(** The error control frame for the module that sent the packet. *)
Definition error_frame (m : option metadata) (serial param_id n : Z) (data : ctrl_data) : M ST finsFrame :=
  s ← get;
  mret (MkFrame 0 m
    (Ctrl (MkCtrl (u8 (m_index (fm s))) serial CTRL_ERROR param_id 0 n data))).

(** The packet the error is about was an ICMP message: it is looked up in the
    list, and its frame becomes the error message for the daemon. *)
Definition icmp_error_icmp (ff : finsFrame) (icmp inner : list Z) (sent_data_len param_id : Z)
    : M ST (option finsFrame) :=
  s ← get;
  let l := icmp_sent_list (md s) in
  if decide (l = []) then icmp_up ff
  else
    r ← lift (find_isent l (sent_data_len + 65536 * behind_len) (drop 20 inner));
    match r with
    | None => icmp_up ff
    | Some i =>
        sent ← lift (match l !! i with Some x => Ok x | None => Segv end);
        err_src_ip ← ff_read ff "recv_src_ipv4";
        sff ← ff_write (isent_ff sent) "recv_src_ipv4" (VInt32 err_src_ip);
        err_ttl ← ff_read ff "recv_ttl";
        sff ← ff_write sff "recv_ttl" (VInt32 err_ttl);
        sff ← ff_write sff "recv_ee_origin" (VInt32 SO_EE_ORIGIN_ICMP);
        type ← lift (read_at icmp 0 1);
        sff ← ff_write sff "recv_icmp_type" (VInt32 type);
        code ← lift (read_at icmp 1 1);
        sff ← ff_write sff "recv_icmp_code" (VInt32 code);
        d ← ff_data sff;
        serial ← icmp_gen_serial;
        ff_err ← error_frame (metaData sff) serial param_id (pduLength d)
                   (match pdu d with Some b => CBytes b | None => CNull end);
        up ← icmp_up ff;
        send_or_free ff_err ICMP_FLOW_DAEMON ;;
        imod (put_isent (delete i l)) ;;
        icmp_sent_free (MkISent (MkFrame (destinationID sff) None
                                   (Data (MkData (directionFlag d) (pduLength d) None)))) ;;
        mret up
    end.

(** It was a UDP datagram: what the error holds of it goes to the UDP module. *)
Definition icmp_error_udp (ff : finsFrame) (inner : list Z) (sent_data_len param_id : Z)
    : M ST (option finsFrame) :=
  m ← ff_meta ff;
  m' ← lift (metadata_clone m);
  ff ← ff_write ff "recv_ee_origin" (VInt32 SO_EE_ORIGIN_ICMP);
  serial ← icmp_gen_serial;
  data ← lift (read_bytes (Some (drop 20 inner)) sent_data_len);
  ff_err ← error_frame (Some m') serial param_id sent_data_len (CBytes data);
  up ← icmp_up ff;
  send_or_free ff_err ICMP_FLOW_UDP ;;
  mret up.

(** Errors: the frame as it is afterwards, [None] when it was released. *)
Definition icmp_handle_error (ff : finsFrame) (icmp : list Z) (data_len param_id : Z)
    : M ST (option finsFrame) :=
  if data_len <? IPV4_MIN_HLEN then icmp_up ff
  else
    let inner := drop 8 icmp in
    verlen ← lift (read_at inner 0 1);
    let sent_data_len := u16 (data_len - IPV4_HLEN verlen) in
    proto ← lift (read_at inner 9 1);
    if proto =? ICMP_PT_ICMP then
      if sent_data_len <? ICMP_FRAG_SIZE then icmp_up ff
      else icmp_error_icmp ff icmp inner sent_data_len param_id
    else if proto =? ICMP_PT_UDP then
      if sent_data_len <? UDP_FRAG_SIZE then icmp_up ff
      else icmp_error_udp ff inner sent_data_len param_id
    else icmp_up ff.

(** The switch on type and code.  After a host-unreachable error the frame is
    sent to the daemon once more, or released once more, which is undefined. *)
Definition icmp_in_type (ff : finsFrame) (icmp : list Z) (type code data_len : Z) : M ST unit :=
  if type =? ICMP_TYPE_DESTUNREACH then
    if code =? ICMP_CODE_HOSTUNREACH then
      up ← icmp_handle_error ff icmp data_len ICMP_ERROR_DEST_UNREACH;
      match up with
      | Some ff => icmp_up ff ;; mret tt
      | None => segv
      end
    else if code =? ICMP_CODE_PORTUNREACH then
      icmp_handle_error ff icmp data_len ICMP_ERROR_DEST_UNREACH ;; mret tt
    else icmp_up ff ;; mret tt
  else if type =? ICMP_TYPE_ECHOREQUEST then
    if code =? ICMP_CODE_ECHO then icmp_ping_reply ff icmp data_len
    else icmp_up ff ;; mret tt
  else if type =? ICMP_TYPE_TTLEXCEED then
    if code =? ICMP_CODE_TTLEXCEEDED then
      icmp_handle_error ff icmp data_len ICMP_ERROR_TTL ;; mret tt
    else icmp_up ff ;; mret tt
  else icmp_up ff ;; mret tt.

(** The checksum test; 0 in the field means none. *)
Definition icmp_checksum_bad (icmp : list Z) (icmp_len : Z) : res bool :=
  match read_at icmp 2 2 with
  | Ok ck =>
      if ck =? 0 then Ok false
      else match icmp_checksum icmp icmp_len with
           | Ok sum => Ok (negb (sum =? 0))
           | Segv => Segv | Exit => Exit | NoFuel => NoFuel
           end
  | Segv => Segv | Exit => Exit | NoFuel => NoFuel
  end.

Definition icmp_in_fdf (ff : finsFrame) : M ST unit :=
  d ← ff_data ff;
  packet ← lift (match pdu d with Some b => Ok b | None => Segv end);
  len ← lift (read_at packet 2 2);
  verlen ← lift (read_at packet 0 1);
  let icmp := drop 20 packet in
  let icmp_len := u32 (ntohs len - IPV4_HLEN verlen) in
  if icmp_len <? ICMP_HEADER_SIZE then free_ff ff
  else
    protocol ← ff_read ff "recv_protocol";
    if negb (protocol =? ICMP_PT_ICMP) then free_ff ff
    else
      bad ← lift (icmp_checksum_bad icmp icmp_len);
      if bad : bool then free_ff ff
      else
        type ← lift (read_at icmp 0 1);
        ff ← ff_write ff "recv_icmp_type" (VInt32 type);
        code ← lift (read_at icmp 1 1);
        ff ← ff_write ff "recv_icmp_code" (VInt32 code);
        icmp_in_type ff icmp type code (icmp_len - ICMP_HEADER_SIZE).

(** ** Control messages *)

Definition icmp_read_param (ff : finsFrame) : M ST unit := module_reply_fcf ff FCF_FALSE 0.
Definition icmp_set_param (ff : finsFrame) : M ST unit := set_param ff.
Definition icmp_exec (ff : finsFrame) : M ST unit := module_reply_fcf ff FCF_FALSE 0.

(** The address of a neighbour was not found: the host sends itself a
    host-unreachable message about the packet. *)
Definition icmp_error (ff : finsFrame) : M ST unit :=
  c ← ff_ctrl ff;
  if param_id c =? ICMP_ERROR_GET_ADDR then
    s ← get;
    addrs ← lift (match icmp_if_main (md s) with
                  | Some i => match addr_list i with Some l => Ok l | None => Segv end
                  | None => Segv
                  end);
    let host_ip := match find_first addr_is_v4 addrs with
                   | Some a => addr4_get_ip (a_ip a) | None => junk_ip end in
    data ← lift (match cdata c with
                 | CBytes b => read_bytes (Some b) (data_len c)
                 | _ => read_bytes None (data_len c)
                 end);
    pdu ← lift (icmp_message ICMP_TYPE_DESTUNREACH ICMP_CODE_HOSTUNREACH 0 0 data);
    ff_data ← write_metas [("send_family", AF_INET); ("send_src_ipv4", host_ip);
                           ("send_dst_ipv4", host_ip)]
      (MkFrame 0 (Some metadata_create)
         (Data (MkData DIR_DOWN (u32 (data_len c + ICMP_HEADER_SIZE)) (Some pdu))));
    icmp_out_fdf ff_data ;;
    free_ff ff
  else free_ff ff.

Definition icmp_fcf (ff : finsFrame) : M ST unit :=
  c ← ff_ctrl ff;
  if opcode c =? CTRL_ALERT then module_reply_fcf ff FCF_FALSE 0
  else if opcode c =? CTRL_ALERT_REPLY then free_ff ff
  else if opcode c =? CTRL_READ_PARAM then icmp_read_param ff
  else if opcode c =? CTRL_READ_PARAM_REPLY then free_ff ff
  else if opcode c =? CTRL_SET_PARAM then icmp_set_param ff
  else if opcode c =? CTRL_SET_PARAM_REPLY then free_ff ff
  else if opcode c =? CTRL_EXEC then icmp_exec ff
  else if opcode c =? CTRL_EXEC_REPLY then free_ff ff
  else if opcode c =? CTRL_ERROR then icmp_error ff
  else exit_.

Definition icmp_get_ff (events : nat) : M ST unit :=
  get_ff (frame_dispatch icmp_fcf icmp_in_fdf icmp_out_fdf) events.

End Icmp.
