(* ===== verification/Double.v ===== *)
(** * Doubles and timers ([libs/common/finstime.c])

    Round-trip times, the congestion window and time-outs are C doubles.  They
    are the binary64 numbers of the standard library's specification of
    floating-point arithmetic, whose operations round to nearest, ties to
    even.  Comparison compares the numbers denoted.  [time_diff] and the two
    timer calls of the modelled modules follow; a timer is an optional expiry
    time, and a rejected [timer_settime] ends the process. *)

From stdpp Require Import base list.
From Stdlib Require Import ZArith Lia SpecFloat.
From S2P Require Import Prelude.
Open Scope Z_scope.

Abbreviation double := spec_float.
Definition d_of_Z (n : Z) : double := binary_normalize 53 1024 n 0 false.
Definition d_add (x y : double) : double := SFadd 53 1024 x y.
Definition d_sub (x y : double) : double := SFsub 53 1024 x y.
Definition d_mul (x y : double) : double := SFmul 53 1024 x y.
Definition d_div (x y : double) : double := SFdiv 53 1024 x y.
Definition d_abs (x : double) : double := SFabs x.

(** The number denoted by a finite double is [d_man x * 2 ^ d_exp x]. *)
Definition d_man (x : double) : Z :=
  match x with S754_finite s m _ => if s then Zneg m else Zpos m | _ => 0 end.
Definition d_exp (x : double) : Z := match x with S754_finite _ _ e => e | _ => 0 end.
Definition d_at (x : double) (e : Z) : Z := d_man x * 2 ^ (d_exp x - e).

Definition d_compare (x y : double) : option comparison :=
  match x, y with
  | S754_nan, _ | _, S754_nan => None
  | S754_infinity sx, S754_infinity sy =>
      Some (if Bool.eqb sx sy then Eq else if sx then Lt else Gt)
  | S754_infinity s, _ => Some (if s then Lt else Gt)
  | _, S754_infinity s => Some (if s then Gt else Lt)
  | _, _ => let e := Z.min (d_exp x) (d_exp y) in Some (d_at x e ?= d_at y e)
  end.
Definition d_lt (x y : double) : bool :=
  match d_compare x y with Some Lt => true | _ => false end.
Definition d_le (x y : double) : bool :=
  match d_compare x y with Some (Lt | Eq) => true | _ => false end.
Definition d_eq (x y : double) : bool :=
  match d_compare x y with Some Eq => true | _ => false end.

(** [fmin] and [fmax] ignore a NaN argument. *)
Definition fmin (x y : double) : double :=
  match x, y with
  | S754_nan, _ => y | _, S754_nan => x
  | _, _ => if d_lt y x then y else x
  end.
Definition fmax (x y : double) : double :=
  match x, y with
  | S754_nan, _ => y | _, S754_nan => x
  | _, _ => if d_lt x y then y else x
  end.

(** The cast to an integer type drops the fraction. *)
Definition d_trunc (x : double) : Z :=
  if 0 <=? d_exp x then d_man x * 2 ^ d_exp x else Z.quot (d_man x) (2 ^ (- d_exp x)).

(** [fmod(x, n)] for a positive integer [n]; the remainder is exact. *)
Definition d_fmod (x : double) (n : Z) : double :=
  let e := Z.min (d_exp x) 0 in
  binary_normalize 53 1024 (Z.rem (d_at x e) (n * 2 ^ (- e))) e false.

(** ** Integers below [2 ^ 53] are exact *)

Lemma digits2_pos_bound m : 2 ^ (Zpos (digits2_pos m) - 1) ≤ Zpos m < 2 ^ Zpos (digits2_pos m).
Proof.
  induction m as [m IH|m IH|]; cbn [digits2_pos]; [| |lia];
  (rewrite Pos2Z.inj_succ; unfold Z.succ;
   replace (Zpos (digits2_pos m) + 1 - 1) with (Zpos (digits2_pos m) - 1 + 1) by lia;
   rewrite !Z.pow_add_r by lia; lia).
Qed.

Lemma iter_xO m d : Zpos (Pos.iter xO m d) = Zpos m * 2 ^ Zpos d.
Proof.
  revert m. induction d as [|d IH] using Pos.peano_ind; intros m; [simpl; lia|].
  rewrite Pos.iter_succ, Pos2Z.inj_xO, IH, Pos2Z.inj_succ, Z.pow_succ_r by lia. lia.
Qed.

Lemma digits2_iter m d : digits2_pos (Pos.iter xO m d) = (digits2_pos m + d)%positive.
Proof.
  revert m. induction d as [|d IH] using Pos.peano_ind; intros m.
  - simpl. lia.
  - rewrite Pos.iter_succ. cbn [digits2_pos]. rewrite IH. lia.
Qed.

(** A mantissa of at most 53 bits is only shifted to 53 bits. *)
Lemma d_of_Z_exact n :
  0 < n < 2 ^ 53 →
  ∃ m e, d_of_Z n = S754_finite false m e ∧ e ≤ 0 ∧ Zpos m = n * 2 ^ (- e).
Proof.
  intros Hn. destruct n as [|p|p]; [lia| |lia]. unfold d_of_Z, binary_normalize, binary_round.
  pose proof (digits2_pos_bound p) as [Hlo Hhi].
  assert (Hd : Zpos (digits2_pos p) ≤ 53).
  { destruct (Z_le_gt_dec (Zpos (digits2_pos p)) 53); [done|exfalso].
    assert (2 ^ 53 ≤ 2 ^ (Zpos (digits2_pos p) - 1)) by (apply Z.pow_le_mono_r; lia). lia. }
  unfold shl_align, fexp, emin.
  replace (Z.max (Zpos (digits2_pos p) + 0 - 53) (3 - 1024 - 53) - 0)
    with (Zpos (digits2_pos p) - 53) by lia.
  replace (Z.max (Zpos (digits2_pos p) + 0 - 53) (3 - 1024 - 53))
    with (Zpos (digits2_pos p) - 53) by lia.
  assert (Haux : ∀ q e, Zpos (digits2_pos q) + e - 53 = e → -60 < e ≤ 0 →
    binary_round_aux 53 1024 false (Zpos q) e loc_Exact = S754_finite false q e).
  { intros q e Hq He. unfold binary_round_aux, shr_fexp, shr_record_of_loc, shr, fexp, emin.
    cbn [Zdigits2].
    replace (Z.max (Zpos (digits2_pos q) + e - 53) (3 - 1024 - 53) - e) with 0 by lia.
    cbn [shr_m loc_of_shr_record round_nearest_even Zdigits2].
    replace (Z.max (Zpos (digits2_pos q) + e - 53) (3 - 1024 - 53) - e) with 0 by lia.
    cbn [shr_m]. by rewrite (proj2 (Z.leb_le e _)) by lia. }
  destruct (Zpos (digits2_pos p) - 53) as [|d|d] eqn:E; [|lia|].
  - exists p, 0. rewrite Haux by lia. split_and!; [done|done|]. simpl (- 0). lia.
  - exists (Pos.iter xO p d), (Zneg d). rewrite Haux; [| |lia].
    + split_and!; [done|lia|]. by rewrite iter_xO.
    + rewrite digits2_iter. lia.
Qed.

Definition d_finite (x : double) : bool :=
  match x with S754_zero _ | S754_finite _ _ _ => true | _ => false end.

Lemma d_of_Z_at n :
  0 ≤ n < 2 ^ 53 →
  d_finite (d_of_Z n) = true ∧ d_exp (d_of_Z n) ≤ 0 ∧
  ∀ e, e ≤ d_exp (d_of_Z n) → d_at (d_of_Z n) e = n * 2 ^ (- e).
Proof.
  intros Hn. destruct (decide (n = 0)) as [->|Hn0]; [done|].
  destruct (d_of_Z_exact n) as (m & e & -> & He & Hm); [lia|]. split_and!; [done..|].
  intros e' He'. unfold d_at. cbn [d_man d_exp] in *. rewrite Hm, <-Z.mul_assoc, <-Z.pow_add_r by lia.
  by replace (- e + (e - e')) with (- e') by lia.
Qed.

Lemma d_lt_finite x y :
  d_finite x = true → d_finite y = true →
  d_lt x y = (d_at x (Z.min (d_exp x) (d_exp y)) <? d_at y (Z.min (d_exp x) (d_exp y))).
Proof. by destruct x, y. Qed.

Lemma d_between_finite x a b :
  d_finite a = true → d_finite b = true → d_lt a x = true → d_lt x b = true → d_finite x = true.
Proof. destruct x as [|[]| |], a, b; done. Qed.

(** Doubles strictly between 1 and an integer [n] are cut to [1 .. n]. *)
Lemma d_trunc_between x n :
  0 ≤ n < 2 ^ 53 → d_lt (d_of_Z 1) x = true → d_lt x (d_of_Z n) = true → 1 ≤ d_trunc x ≤ n.
Proof.
  intros Hn H1 H2.
  destruct (d_of_Z_at 1) as (F1 & E1 & A1); [lia|]. destruct (d_of_Z_at n Hn) as (Fn & En & An).
  pose proof (d_between_finite _ _ _ F1 Fn H1 H2) as Fx.
  rewrite d_lt_finite in H1, H2 by done. apply Z.ltb_lt in H1, H2.
  rewrite A1 in H1 by lia. rewrite An in H2 by lia. unfold d_at in H1, H2. unfold d_trunc.
  clear Fx F1 Fn A1 An. set (e1 := d_exp (d_of_Z 1)) in *. set (e := d_exp (d_of_Z n)) in *.
  set (ex := d_exp x) in *. set (M := d_man x) in *. clearbody e1 e ex M.
  pose proof (Z.pow_pos_nonneg 2 (- Z.min e1 ex)). pose proof (Z.pow_pos_nonneg 2 (- Z.min ex e)).
  rewrite (Z.min_comm e1 ex) in *. destruct (Z.leb_spec 0 ex) as [Hex|Hex].
  - replace (ex - Z.min ex e1) with (ex + - Z.min ex e1) in H1 by lia.
    replace (ex - Z.min ex e) with (ex + - Z.min ex e) in H2 by lia.
    rewrite Z.pow_add_r in H1, H2 by lia. split; nia.
  - assert (Hp1 : 2 ^ (- ex) < M).
    { apply (Z.mul_lt_mono_pos_r (2 ^ (ex - Z.min ex e1))); [apply Z.pow_pos_nonneg; lia|].
      rewrite <-Z.pow_add_r by lia. replace (- ex + (ex - Z.min ex e1)) with (- Z.min ex e1) by lia. lia. }
    assert (Hp2 : M < n * 2 ^ (- ex)).
    { apply (Z.mul_lt_mono_pos_r (2 ^ (ex - Z.min ex e))); [apply Z.pow_pos_nonneg; lia|].
      rewrite <-Z.mul_assoc, <-Z.pow_add_r by lia.
      by replace (- ex + (ex - Z.min ex e)) with (- Z.min ex e) by lia. }
    pose proof (Z.pow_pos_nonneg 2 (- ex)). rewrite Z.quot_div_nonneg by lia. split.
    + apply Z.div_le_lower_bound; lia.
    + apply Z.div_le_upper_bound; lia.
Qed.

(** ** finstime.c *)

(** A [struct timeval]: seconds and microseconds. *)
Definition timeval : Type := Z * Z.

Definition time_diff (time1 time2 : timeval) : double :=
  let million := d_of_Z 1000000 in
  let '(decimal, diff) :=
    if time2.2 <? time1.2 then
      (d_div (d_sub (d_add million (d_of_Z time2.2)) (d_of_Z time1.2)) million,
       d_sub (d_of_Z (time2.1 - time1.1)) (d_of_Z 1))
    else
      (d_div (d_of_Z (time2.2 - time1.2)) million, d_of_Z (time2.1 - time1.1)) in
  d_mul (d_add diff decimal) (d_of_Z 1000).

(** The [it_value] of a timer, in seconds and nanoseconds. *)
Definition itimer : Type := option (Z * Z).

Definition timer_stop : itimer := None.

(** [timer_settime] fails with EINVAL for a negative time and for
    [tv_nsec] outside [0 .. 999999999], and disarms the timer for [(0, 0)]. *)
Definition timer_once_start (millis : double) : res itimer :=
  let sec := d_trunc (d_div millis (d_of_Z 1000)) in
  let nsec := d_trunc (d_add (d_mul (d_fmod millis 1000) (d_of_Z 1000000)) (d_div (d_of_Z 1) (d_of_Z 2))) in
  if (sec <? 0) || (nsec <? 0) || (999999999 <? nsec) then Exit
  else if (sec =? 0) && (nsec =? 0) then Ok None
  else Ok (Some (sec, nsec)).
