(* ===== verification/Run.v ===== *)
(** * Handlers that return: triples over the state of a module

    [rest fl xs n d] describes a module with the private data [d], whose output
    queue holds [xs] and has room for [n] more frames, and in which each flow of
    [fl] leads to the one module named with it. *)

From stdpp Require Import base list gmap strings.
From Stdlib Require Import ZArith Lia.
From S2P Require Import Prelude Queue Metadata Frame Module.
Open Scope Z_scope.
Open Scope fins_scope.

Section Run.
Context {Q D : Type} `{BoundedFifo Q finsFrame}.
Abbreviation ST := (mstate Q D) (only parsing).
Context (fl : list (Z * Z)).

Record rest (xs : list finsFrame) (n : nat) (d : D) (s : ST) : Prop := {
  rs_md : md s = d;
  rs_table : table_ok (lcells (store s)) (mt s);
  rs_room : room s xs n;
  rs_flow : ∀ f dst, (f, dst) ∈ fl → flow_dsts s f = [dst]
}.

Lemma rest_set xs n d d' s : rest xs n d s → rest xs n d' (set_md d' s).
Proof. by intros [? ? ? ?]. Qed.

Lemma rest_le xs n n' d s : (n' ≤ n)%nat → rest xs n d s → rest xs n' d s.
Proof. intros Hn [? ? ? ?]. split; try done. by eapply room_le. Qed.

(** A module after a handler that queued [sent]. *)
Lemma rest_after xs n d s s' sent dropped :
  rest xs (length sent + n) d s → eff s xs s' sent dropped → rest (xs ++ sent) n (md s') s'.
Proof.
  intros [Hm Ht Hr Hf] F.
  assert (∀ f, flow_dsts s' f = flow_dsts s f) as Hfd.
  { intros f. unfold flow_dsts. by rewrite (eff_mt _ _ _ _ _ F), (eff_store _ _ _ _ _ F). }
  split.
  - done.
  - by rewrite (eff_mt _ _ _ _ _ F), (eff_store _ _ _ _ _ F).
  - by eapply room_eff.
  - intros f dst Hin. rewrite Hfd. by apply Hf.
Qed.

Lemma rest_eff xs n d s s' sent dropped :
  rest xs (length sent + n) d s → eff s xs s' sent dropped → md s' = md s → rest (xs ++ sent) n d s'.
Proof. intros Hs F M. rewrite <- (rs_md _ _ _ _ Hs), <- M. by eapply rest_after. Qed.

Section Steps.
Context {B : Type} (R : B → ST → Prop) (xs : list finsFrame) (n : nat) (d : D).

(** Reading the state. *)
Lemma rest_get (k : ST → M ST B) :
  (∀ s, rest xs n d s → runs (rest xs n d) (k s) R) → runs (rest xs n d) (get ≫= k) R.
Proof. intros Hk s Hs. rewrite (bind_ok _ _ _ s s) by done. by apply Hk. Qed.

Lemma rest_modify g (k : unit → M ST B) :
  runs (rest xs n (g d)) (k tt) R →
  runs (rest xs n d) (modify (λ s, set_md (g (md s)) s) ≫= k) R.
Proof.
  intros Hk s Hs. rewrite (bind_ok _ _ _ tt (set_md (g (md s)) s)) by done.
  apply Hk. rewrite (rs_md _ _ _ _ Hs). by eapply rest_set.
Qed.

Lemma rest_lift {A} (r : res A) a (k : A → M ST B) :
  r = Ok a → runs (rest xs n d) (k a) R → runs (rest xs n d) (lift r ≫= k) R.
Proof. intros -> Hk. exact Hk. Qed.

Lemma rest_free ff (k : unit → M ST B) :
  (∀ n, body ff ≠ NoUnion n) →
  runs (rest xs n d) (k tt) R → runs (rest xs n d) (free_ff ff ≫= k) R.
Proof.
  intros Hb Hk s Hs. destruct (free_ff_ok s xs ff) as [E F]; [apply Hs|exact Hb|].
  rewrite (bind_ok _ _ _ _ _ E). apply Hk. rewrite <- (app_nil_r xs). by eapply rest_eff.
Qed.

Lemma rest_switch ff (k : unit → M ST B) :
  runs (rest (xs ++ [ff]) n d) (k tt) R → runs (rest xs (S n) d) (module_to_switch ff ≫= k) R.
Proof.
  intros Hk s Hs. destruct (module_to_switch_ok s xs ff) as (s' & E & F & M).
  { eapply room_le; [|apply Hs]. lia. }
  rewrite (bind_ok _ _ _ _ _ E). apply Hk. by eapply rest_eff.
Qed.

Lemma rest_send ff flow dst (k : Z → M ST B) :
  frame_ok ff → 0 ≤ flow → (flow, dst) ∈ fl →
  runs (rest (xs ++ [set_dest dst ff]) n d) (k 1) R →
  runs (rest xs (S n) d) (module_send_flow ff flow ≫= k) R.
Proof.
  intros Hok Hfl Hin Hk s Hs. pose proof (rs_flow _ _ _ _ Hs flow dst Hin) as Hd.
  destruct (send_flow_ok ff flow s xs Hok Hfl) as (s' & E & F & M); [apply Hs| |].
  { rewrite Hd. eapply room_le; [|apply Hs]. simpl. lia. }
  rewrite Hd in E, F. rewrite (bind_ok _ _ _ _ _ E). apply Hk. by eapply rest_eff.
Qed.

Lemma rest_data ff dd (k : finsDataFrame → M ST B) :
  body ff = Data dd → runs (rest xs n d) (k dd) R → runs (rest xs n d) (ff_data ff ≫= k) R.
Proof. intros Hb Hk. unfold ff_data. by rewrite Hb. Qed.

Lemma rest_ctrl ff c (k : finsCtrlFrame → M ST B) :
  body ff = Ctrl c → runs (rest xs n d) (k c) R → runs (rest xs n d) (ff_ctrl ff ≫= k) R.
Proof. intros Hb Hk. unfold ff_ctrl. by rewrite Hb. Qed.

Lemma rest_meta ff m (k : metadata → M ST B) :
  metaData ff = Some m → runs (rest xs n d) (k m) R → runs (rest xs n d) (ff_meta ff ≫= k) R.
Proof. intros Hm Hk. unfold ff_meta. by rewrite Hm. Qed.

Lemma rest_read ff m key v (k : Z → M ST B) :
  metaData ff = Some m → secure_metadata_readFromElement m key = Ok v →
  runs (rest xs n d) (k v) R → runs (rest xs n d) (ff_read ff key ≫= k) R.
Proof. intros Hm Hv Hk s Hs. rewrite (bind_ok _ _ _ _ _ (ff_read_ok s ff m key v Hm Hv)). by apply Hk. Qed.

Lemma rest_write ff m key v (k : finsFrame → M ST B) :
  metaData ff = Some m → int_key m key = true →
  runs (rest xs n d) (k (set_meta (Some (put_member m key (SInt (s32 v)))) ff)) R →
  runs (rest xs n d) (ff_write ff key (VInt32 v) ≫= k) R.
Proof. intros Hm Hv Hk s Hs. rewrite (bind_ok _ _ _ _ _ (ff_write_ok s ff m key v Hm Hv)). by apply Hk. Qed.

Lemma rest_write_long ff m key v (k : finsFrame → M ST B) :
  metaData ff = Some m → long_key m key = true →
  runs (rest xs n d) (k (set_meta (Some (put_member m key (SInt64 v))) ff)) R →
  runs (rest xs n d) (ff_write ff key (VInt64 v) ≫= k) R.
Proof.
  intros Hm Hk HK s Hs. rewrite (bind_ok _ _ _ (set_meta (Some (put_member m key (SInt64 v))) ff) s); [by apply HK|].
  unfold ff_write, ff_meta. rewrite Hm. rewrite (bind_ok _ _ _ m s) by done. by rewrite (write_long_ok _ _ _ Hk).
Qed.

Lemma rest_send_or_free ff flow dst (k : unit → M ST B) :
  frame_ok ff → 0 ≤ flow → (flow, dst) ∈ fl →
  runs (rest (xs ++ [set_dest dst ff]) n d) (k tt) R →
  runs (rest xs (S n) d) (send_or_free ff flow ≫= k) R.
Proof. intros Hok Hf Hin Hk. unfold send_or_free. apply runs_assoc. by eapply rest_send. Qed.

Lemma rest_reply ff m c op rv msg (k : unit → M ST B) :
  metaData ff = Some m → int_key m "ret_msg" = true → body ff = Ctrl c →
  reply_opcode (opcode c) = Ok op →
  (∀ i, runs (rest (xs ++ [MkFrame (sender_id c) (Some (put_member m "ret_msg" (SInt (s32 msg))))
       (Ctrl (MkCtrl i (serial_num c) op (param_id c) rv (data_len c) (cdata c)))]) n d) (k tt) R) →
  runs (rest xs (S n) d) (module_reply_fcf ff rv msg ≫= k) R.
Proof.
  intros Hm Hk Hb Hop HR s Hs. destruct (reply_fcf_ok s xs ff c m op rv msg) as (s' & E & M & F); try done.
  { eapply room_le; [|apply Hs]. lia. }
  rewrite (bind_ok _ _ _ _ _ E). eapply HR. by eapply rest_eff.
Qed.

End Steps.
End Run.

(** ** Handlers that may fail: what they do when they return

    [pt xs d m R]: if [m], started in a module with data [d] whose output queue
    holds [xs], returns a value, then the queue and the data afterwards are in
    [R]. *)
Section Partial.
Context {Q D : Type} `{BoundedFifo Q finsFrame}.
Abbreviation ST := (mstate Q D) (only parsing).

Definition sees (xs : list finsFrame) (d : D) (s : ST) : Prop := room s xs 0 ∧ md s = d.

Definition pt {A} (xs : list finsFrame) (d : D) (m : M ST A) (R : A → list finsFrame → D → Prop) : Prop :=
  ∀ s a s', sees xs d s → m s = Ok (a, s') → ∃ xs' d', sees xs' d' s' ∧ R a xs' d'.

Lemma pt_ret {A} xs d (a : A) (R : A → list finsFrame → D → Prop) : R a xs d → pt xs d (mret a) R.
Proof. intros HR s a' s' Hs [= <- <-]. eauto. Qed.

Lemma pt_bind {A B} xs d (m : M ST A) (k : A → M ST B) R R' :
  pt xs d m R → (∀ a xs' d', R a xs' d' → pt xs' d' (k a) R') → pt xs d (m ≫= k) R'.
Proof.
  intros Hm Hk s b s' Hs. unfold mbind, M_bind. destruct (m s) as [[a s1]| | |] eqn:E; try done. intros E'.
  destruct (Hm _ _ _ Hs E) as (xs1 & d1 & Hs1 & HR). by apply (Hk a xs1 d1 HR s1).
Qed.

Lemma pt_post {A} xs d (m : M ST A) (R R' : A → list finsFrame → D → Prop) :
  pt xs d m R → (∀ a xs' d', R a xs' d' → R' a xs' d') → pt xs d m R'.
Proof. intros Hm HR s a s' Hs E. destruct (Hm _ _ _ Hs E) as (xs' & d' & ? & ?). eauto. Qed.

Lemma pt_assoc {A B C} xs d (m : M ST A) (f : A → M ST B) (k : B → M ST C) R :
  pt xs d (m ≫= λ a, f a ≫= k) R → pt xs d ((m ≫= f) ≫= k) R.
Proof.
  intros Hm s c s' Hs E. apply (Hm s c s' Hs). revert E. unfold mbind, M_bind. by destruct (m s) as [[? ?]| | |].
Qed.

Lemma pt_bind_r {A} xs d (m : M ST A) R : pt xs d (m ≫= mret) R → pt xs d m R.
Proof.
  intros Hm s c s' Hs E. apply (Hm s c s' Hs). unfold mbind, M_bind. by rewrite E.
Qed.

Section PartialSteps.
Context {B : Type} (R : B → list finsFrame → D → Prop) (xs : list finsFrame) (d : D).

Lemma pt_get (k : ST → M ST B) : (∀ s, sees xs d s → pt xs d (k s) R) → pt xs d (get ≫= k) R.
Proof. intros Hk s b s' Hs E. by apply (Hk s Hs s). Qed.

Lemma pt_modify g (k : unit → M ST B) :
  pt xs (g d) (k tt) R → pt xs d (modify (λ s, set_md (g (md s)) s) ≫= k) R.
Proof. intros Hk s b s' [Hr Hm] E. apply (Hk (set_md (g (md s)) s) b s'); [|exact E]. by split; [|simpl; congruence]. Qed.

Lemma pt_lift {A} (r : res A) (k : A → M ST B) :
  (∀ a, r = Ok a → pt xs d (k a) R) → pt xs d (lift r ≫= k) R.
Proof. intros Hk s b s' Hs. unfold lift, mbind, M_bind. destruct r as [a| | |]; try done. by apply Hk. Qed.

Lemma pt_segv (k : Z → M ST B) : pt xs d (segv ≫= k) R.
Proof. by intros s b s' _. Qed.

Lemma pt_free ff (k : unit → M ST B) : pt xs d (k tt) R → pt xs d (free_ff ff ≫= k) R.
Proof.
  intros Hk. unfold free_ff. apply pt_assoc, pt_lift. intros _ _. intros s b s' [Hr Hm] E.
  apply (Hk (set_freed (freed s ++ [ff]) s) b s'); [by split|exact E].
Qed.

Lemma pt_switch ff (k : unit → M ST B) :
  pt (xs ++ [ff]) d (k tt) R → pt xs d (module_to_switch ff ≫= k) R.
Proof.
  intros Hk s b s' [[Hq Hr] Hm] E. destruct (decide (Z.of_nat (length xs) = bf_cap (outq s))) as [Hf|Hf].
  - revert E. unfold mbind, M_bind. by rewrite (module_to_switch_full s xs ff Hq Hf).
  - destruct (module_to_switch_ok s xs ff) as (s1 & E1 & F & M1); [split; [done|lia]|].
    rewrite (bind_ok _ _ _ _ _ E1) in E. apply (Hk s1 b s'); [|exact E]. split; [|congruence].
    eapply room_eff; [exact F|]. split; [done|simpl; lia].
Qed.

Lemma pt_ctrl ff (k : finsCtrlFrame → M ST B) :
  (∀ c, body ff = Ctrl c → pt xs d (k c) R) → pt xs d (ff_ctrl ff ≫= k) R.
Proof. intros Hk s b s' Hs E. unfold ff_ctrl in E. destruct (body ff) eqn:Eb; try done. by apply (Hk _ eq_refl s). Qed.

Lemma pt_data ff (k : finsDataFrame → M ST B) :
  (∀ c, body ff = Data c → pt xs d (k c) R) → pt xs d (ff_data ff ≫= k) R.
Proof. intros Hk s b s' Hs E. unfold ff_data in E. destruct (body ff) eqn:Eb; try done. by apply (Hk _ eq_refl s). Qed.

Lemma pt_write ff t v (k : finsFrame → M ST B) :
  (∀ m, pt xs d (k (set_meta m ff)) R) → pt xs d (ff_write ff t v ≫= k) R.
Proof.
  intros Hk s b s' Hs E. unfold ff_write, ff_meta in E. destruct (metaData ff); [|done].
  unfold mbind, M_bind in E. simpl in E. destruct (secure_metadata_writeToElement t v _) as [[[] m']| | |]; try done.
  by apply (Hk (Some m') s).
Qed.

Lemma pt_reply ff rv msg (k : unit → M ST B) :
  (∀ m c i op, body ff = Ctrl c →
     pt (xs ++ [MkFrame (sender_id c) m (Ctrl (MkCtrl i (serial_num c) op (param_id c) rv (data_len c) (cdata c)))])
       d (k tt) R) →
  pt xs d (module_reply_fcf ff rv msg ≫= k) R.
Proof.
  intros Hk. unfold module_reply_fcf. apply pt_assoc, pt_write. intros m. apply pt_assoc, pt_ctrl.
  intros c Hc. apply pt_assoc, pt_get. intros s _. apply pt_assoc, pt_lift. intros op _. apply pt_switch. by apply Hk.
Qed.

(** Copies of a data frame. *)
Definition is_data (ff : finsFrame) : Prop := ∃ c, body ff = Data c.

End PartialSteps.

Lemma clone_data_frame ff c : is_data ff → cloneFinsFrame ff = Ok c → is_data c.
Proof.
  intros [dd Hd]. unfold cloneFinsFrame. rewrite Hd. intros E.
  repeat (case_match; simplify_eq; try done); eexists; reflexivity.
Qed.

Lemma pt_clones ff dsts n xs d :
  is_data ff → pt xs d (send_clones (Q := Q) ff dsts n) (λ _ xs' d', d' = d ∧ ∃ sent, xs' = xs ++ sent ∧ Forall is_data sent).
Proof.
  intros Hff. revert dsts xs. induction n as [|n IH]; intros dsts xs; simpl.
  { apply pt_ret. split; [done|]. exists []. by rewrite app_nil_r. }
  destruct dsts as [|dst dsts]; [by intros s a s' _|]. apply pt_lift. intros c Hc. apply pt_switch.
  eapply pt_post; [apply IH|]. intros ? xs' d' (-> & sent & -> & Hs). split; [done|].
  exists (set_dest dst c :: sent). rewrite <- app_assoc. split; [done|]. constructor; [|done].
  destruct (clone_data_frame _ _ Hff Hc) as [dd Hd]. by exists dd.
Qed.

Lemma pt_send {B} (R : B → list finsFrame → D → Prop) ff flow xs d (k : Z → M ST B) :
  is_data ff → (∀ n sent, Forall is_data sent → pt (xs ++ sent) d (k n) R) →
  pt xs d (module_send_flow ff flow ≫= k) R.
Proof.
  intros Hff Hk.
  assert (pt xs d (module_send_flow ff flow) (λ _ xs' d', d' = d ∧ ∃ sent, xs' = xs ++ sent ∧ Forall is_data sent)) as Hs.
  { assert (∀ n, pt xs d (mret n : M ST Z) (λ _ xs' d', d' = d ∧ ∃ sent, xs' = xs ++ sent ∧ Forall is_data sent)) as H0.
    { intros n. apply pt_ret. split; [done|]. exists []. by rewrite app_nil_r. }
    unfold module_send_flow. apply pt_get. intros s _. repeat case_match; try apply H0; try (by intros ? ? ? _).
    eapply pt_bind; [by apply pt_clones|]. intros ? xs1 d1 (-> & sent & -> & Hd). apply pt_switch, pt_ret.
    split; [done|]. eexists. rewrite <- app_assoc. split; [done|]. apply Forall_app. split; [done|].
    constructor; [|done]. destruct Hff as [dd ?]. by exists dd. }
  eapply pt_bind; [exact Hs|]. intros n xs1 d1 (-> & sent & -> & Hd). by apply Hk.
Qed.

End Partial.

