(* ===== verification/IcmpFacts.v ===== *)
(** * What the ICMP module does with its frames

    The checksum, the messages the module builds, and the effect of its handlers
    on a module whose flows lead to one module each. *)

From stdpp Require Import base list gmap strings.
From Stdlib Require Import ZArith Lia.
From S2P Require Import Prelude Queue Metadata Frame Module IPv4 UDP Run Icmp.
Open Scope Z_scope.
Open Scope fins_scope.

(** ** The checksum *)

Lemma be_loop_odd k b sum : be_loop (S (2 * k)) b sum = be_loop (2 * k) b sum.
Proof.
  revert b sum. induction k as [|k IH]; intros b sum; [done|].
  replace (2 * S k)%nat with (S (S (2 * k))) by lia. cbn [be_loop].
  destruct b as [|x [|y b]]; [done..|]. apply IH.
Qed.

(** The complement of the sum of the big-endian words, an odd last byte padded. *)
Lemma icmp_checksum_sum b :
  is_bytes b → Z.of_nat (length b) < 131070 →
  icmp_checksum b (Z.of_nat (length b)) = Ok (cksum_fold (be_words b)).
Proof.
  intros Hb Hl. pose proof (be_words_bound b Hb) as Hbd. unfold icmp_checksum. rewrite Nat2Z.id.
  assert (Hend : ∀ s, s = be_words b →
    match fold_carries 2 s with Ok sum => Ok (u16 (Z.lnot sum))
      | Segv => Segv | Exit => Exit | NoFuel => NoFuel end = Ok (cksum_fold (be_words b))).
  { intros s ->. destruct (fold_carries_ok (be_words b)) as (r & -> & ->); [lia|done]. }
  assert (Z.land (Z.of_nat (length b)) 1 = Z.of_nat (length b) mod 2) as ->.
  { change 1 with (Z.ones 1). by rewrite Z.land_ones. }
  assert (∃ k, length b = (2 * k)%nat ∨ length b = S (2 * k)) as (k & [Hk|Hk]).
  { exists (length b / 2)%nat. pose proof (Nat.div_mod_eq (length b) 2).
    pose proof (Nat.mod_upper_bound (length b) 2). lia. }
  - rewrite (be_loop_sum _ k); [|lia|lia|done|lia|rewrite firstn_all; lia].
    rewrite firstn_all. destruct (Z.eqb_spec (Z.of_nat (length b) mod 2) 0) as [_|E].
    + by apply Hend.
    + rewrite Hk in E. exfalso. apply E. rewrite Nat2Z.inj_mul. rewrite Z.mul_comm. by apply Z.mod_mul.
  - destruct (take_be_words_odd b k Hk) as (last & Hlast & Hsum).
    assert (is_u8 last) as Hu by (eapply Forall_lookup_1 in Hb; done). unfold is_u8 in Hu.
    pose proof (be_words_bound _ (Forall_take _ (2 * k) _ Hb)).
    rewrite Hk, be_loop_odd, (be_loop_sum _ k); [|done|lia|done|lia|lia].
    destruct (Z.eqb_spec (Z.of_nat (S (2 * k)) mod 2) 0) as [E|_].
    + exfalso. Z.div_mod_to_equations. lia.
    + replace (Z.to_nat (Z.of_nat (S (2 * k)) - 1)) with (2 * k)%nat by lia. rewrite Hlast.
      rewrite u32_small by (unfold is_u32; lia). apply Hend. lia.
Qed.

(** ** Messages *)

(** The message of [icmp_message]. *)
Definition icmp_bytes (type code p1 p2 : Z) (data : list Z) : list Z :=
  icmp_fields type code (htons (cksum_fold (be_words (icmp_fields type code 0 p1 p2 ++ data)))) p1 p2
  ++ data.

Lemma icmp_fields_u8 type code ck p1 p2 : is_u8 type → is_u8 code → is_bytes (icmp_fields type code ck p1 p2).
Proof.
  intros. unfold icmp_fields, is_bytes. rewrite !Forall_app. split_and!; try apply le_bytes_u8.
  by rewrite !Forall_cons.
Qed.

Lemma icmp_fields_length type code ck p1 p2 : length (icmp_fields type code ck p1 p2) = 8%nat.
Proof. done. Qed.

Section Message.
Context (type code p1 p2 : Z) (data : list Z).
Context (Ht : is_u8 type) (Hc : is_u8 code) (Hd : is_bytes data) (Hl : Z.of_nat (length data) < 65536).

Lemma icmp_bytes_u8 : is_bytes (icmp_bytes type code p1 p2 data).
Proof using Ht Hc Hd. apply Forall_app. split; [by apply icmp_fields_u8|done]. Qed.

Lemma icmp_bytes_length : Z.of_nat (length (icmp_bytes type code p1 p2 data)) = Z.of_nat (length data) + 8.
Proof. unfold icmp_bytes. rewrite length_app, icmp_fields_length. lia. Qed.

Lemma icmp_message_ok : icmp_message type code p1 p2 data = Ok (icmp_bytes type code p1 p2 data).
Proof using Ht Hc Hd Hl.
  unfold icmp_message, ICMP_HEADER_SIZE.
  replace (8 + Z.of_nat (length data)) with (Z.of_nat (length (icmp_fields type code 0 p1 p2 ++ data)))
    by (rewrite length_app, icmp_fields_length; lia).
  rewrite icmp_checksum_sum; [done| |rewrite length_app, icmp_fields_length; lia].
  apply Forall_app. split; [by apply icmp_fields_u8|done].
Qed.

Lemma be_words_fields ck :
  is_u16 ck →
  be_words (icmp_fields type code (htons ck) p1 p2 ++ data) = be_words (icmp_fields type code 0 p1 p2 ++ data) + ck.
Proof.
  intros Hk. unfold icmp_fields. rewrite <- !(assoc_L app), !(be_words_app [type; code] _ 1) by done.
  rewrite !(be_words_app (le_bytes 2 _) _ 1) by done. rewrite be_words_htons by done.
  change (be_words (le_bytes 2 0)) with 0. lia.
Qed.

(** It passes the receiver's test. *)
Lemma icmp_bytes_verify : icmp_checksum_bad (icmp_bytes type code p1 p2 data) (Z.of_nat (length data) + 8) = Ok false.
Proof using Ht Hc Hd Hl.
  unfold icmp_checksum_bad. rewrite <- icmp_bytes_length.
  rewrite icmp_checksum_sum; [|apply icmp_bytes_u8|rewrite icmp_bytes_length; lia].
  pose proof (cksum_fold_range (be_words (icmp_fields type code 0 p1 p2 ++ data))) as Hr.
  assert (cksum_fold (be_words (icmp_bytes type code p1 p2 data)) = 0) as ->.
  { unfold icmp_bytes. rewrite be_words_fields by done. apply cksum_fold_complement.
    assert (is_bytes (icmp_fields type code 0 p1 p2 ++ data)) as Hb.
    { apply Forall_app. split; [by apply icmp_fields_u8|done]. }
    pose proof (be_words_bound _ Hb) as Hbd. rewrite length_app, icmp_fields_length in Hbd. lia. }
  unfold icmp_bytes, icmp_fields. rewrite <- !(assoc_L app).
  rewrite (read_at_mid [type; code] _ 2 2 (htons (cksum_fold (be_words (icmp_fields type code 0 p1 p2 ++ data)))));
    [|done|apply htons_range]. by case_match.
Qed.

End Message.

(** ** Handlers *)

(** Metadata with several integers written. *)
Definition put_ints (kvs : list (string * Z)) (m : metadata) : metadata :=
  foldl (λ m kv, put_member m kv.1 (SInt (s32 kv.2))) m kvs.

Lemma put_ints_ok kvs m :
  meta_ok m = true → forallb (λ kv, config_validate_name kv.1) kvs = true → meta_ok (put_ints kvs m) = true.
Proof.
  revert m. induction kvs as [|[k v] kvs IH]; intros m Hm; [done|]. simpl. intros [Hk Hks]%andb_true_iff.
  apply IH; [|done]. by apply meta_ok_put.
Qed.

Lemma put_ints_keys kvs m ks : forallb (int_key m) ks = true → forallb (int_key (put_ints kvs m)) ks = true.
Proof. revert m. induction kvs as [|[k v] kvs IH]; intros m Hm; [done|]. apply IH. by apply keys_put. Qed.

Lemma put_ints_key kvs m k : int_key m k = true → int_key (put_ints kvs m) k = true.
Proof. revert m. induction kvs as [|[j v] kvs IH]; intros m Hm; [done|]. apply IH. by apply int_key_put. Qed.

(** The messages kept after one more. *)
Definition keep_icmp (l : list icmp_sent) (x : icmp_sent) : list icmp_sent :=
  if Z.of_nat (length l) <? ICMP_SENT_LIST_MAX then l ++ [x] else tail l ++ [x].
Definition isent_inv (l : list icmp_sent) : Prop :=
  Z.of_nat (length l) ≤ ICMP_SENT_LIST_MAX ∧ Forall (λ x, frame_ok (isent_ff x)) l.

Lemma keep_icmp_inv l x : isent_inv l → frame_ok (isent_ff x) → isent_inv (keep_icmp l x).
Proof.
  intros [Hl Hf] Hx. unfold keep_icmp, isent_inv, ICMP_SENT_LIST_MAX in *.
  destruct (Z.ltb_spec (Z.of_nat (length l)) 131072).
  - rewrite length_app, Forall_app. simpl. split; [lia|auto].
  - destruct l as [|y l]; simpl in *; [lia|]. apply Forall_cons in Hf as [_ Hf].
    rewrite length_app, Forall_app. simpl. split; [lia|auto].
Qed.

Lemma clone_frame_ok ff : frame_ok ff → frame_ok (clone_frame ff).
Proof.
  intros [Hb Hm]. split; [|done]. unfold clone_frame. cbn [set_body body].
  destruct (body ff) as [d|c|]; [..|done]; simpl in *.
  - by destruct (Z.eqb_spec (pduLength d) 0).
  - by destruct (Z.eqb_spec (data_len c) 0).
Qed.

Section Handlers.
Context {Q : Type} `{BoundedFifo Q finsFrame} `{IcmpEnv}.
Abbreviation ST := (mstate Q icmp_data) (only parsing).
Context (ip udp dae : Z).

(** A module whose flows lead to the IPv4, UDP and daemon modules. *)
Definition iready : list finsFrame → nat → icmp_data → ST → Prop :=
  rest [(ICMP_FLOW_IPV4, ip); (ICMP_FLOW_UDP, udp); (ICMP_FLOW_DAEMON, dae)].

Section Steps.
Context {B : Type} (R : B → ST → Prop) (xs : list finsFrame) (n : nat) (d : icmp_data).

Lemma ir_mod f (K : unit → M ST B) : runs (iready xs n (f d)) (K tt) R → runs (iready xs n d) (imod f ≫= K) R.
Proof. apply rest_modify. Qed.

Lemma ir_up ff (K : option finsFrame → M ST B) :
  frame_ok ff → runs (iready (xs ++ [set_dest dae ff]) n d) (K (Some ff)) R →
  runs (iready xs (S n) d) (icmp_up ff ≫= K) R.
Proof.
  intros Hok HK. unfold icmp_up. apply runs_assoc.
  eapply (rest_send _ _ _ _ _ ff ICMP_FLOW_DAEMON dae); [done|done|set_solver|]. exact HK.
Qed.

Lemma ir_serial (K : Z → M ST B) :
  runs (iready xs n (put_serial (u32 (icmp_serial d + 1)) d)) (K (u32 (icmp_serial d + 1))) R →
  runs (iready xs n d) (icmp_gen_serial ≫= K) R.
Proof.
  intros HK. unfold icmp_gen_serial. apply runs_assoc, rest_get. intros s Hs. rewrite (rs_md _ _ _ _ _ Hs).
  apply runs_assoc, ir_mod. exact HK.
Qed.

Lemma ir_metas kvs ff m (K : finsFrame → M ST B) :
  metaData ff = Some m → forallb (λ kv, int_key m kv.1) kvs = true →
  runs (iready xs n d) (K (set_meta (Some (put_ints kvs m)) ff)) R →
  runs (iready xs n d) (write_metas kvs ff ≫= K) R.
Proof.
  revert ff m. induction kvs as [|[k v] kvs IH]; intros ff m Hm Hk HK.
  - simpl in HK. apply runs_ret_bind. rewrite <- Hm in HK. by destruct ff.
  - simpl in Hk. apply andb_true_iff in Hk as [Hk Hks]. simpl. apply runs_assoc.
    eapply rest_write; [exact Hm|exact Hk|]. eapply IH; [done| |exact HK].
    apply forallb_forall. intros kv Hin. apply int_key_put. by eapply forallb_forall in Hks; [|exact Hin].
Qed.

End Steps.

Lemma keep_isent_runs xs n d x :
  isent_inv (icmp_sent_list d) →
  runs (iready xs n d) (keep_isent x) (λ _ s, iready xs n (put_isent (keep_icmp (icmp_sent_list d) x) d) s).
Proof.
  intros [Hl Hf]. unfold keep_isent, keep_icmp. apply rest_get. intros s0 Hs0. rewrite (rs_md _ _ _ _ _ Hs0).
  destruct (Z.of_nat (length (icmp_sent_list d)) <? ICMP_SENT_LIST_MAX) eqn:El.
  - apply runs_bind_r, ir_mod, runs_ret. done.
  - destruct (icmp_sent_list d) as [|old l] eqn:Ed; [done|]. apply Forall_cons in Hf as [Hold _]. cbn [tail].
    apply ir_mod. unfold icmp_sent_free. apply rest_free; [by apply frame_ok_union|].
    apply runs_bind_r, ir_mod, runs_ret. done.
Qed.

(** What the daemon (or the module itself) writes for a message to send. *)
Record iout_meta (m : metadata) (src dst : Z) : Prop := {
  io_ok : meta_ok m = true;
  io_proto : int_key m "send_protocol" = true;
  io_family : ∃ f, secure_metadata_readFromElement m "send_family" = Ok f;
  io_src : secure_metadata_readFromElement m "send_src_ipv4" = Ok src;
  io_dst : secure_metadata_readFromElement m "send_dst_ipv4" = Ok dst
}.

Lemma icmp_out_runs xs n d ff m src dst :
  metaData ff = Some m → iout_meta m src dst → body_ok (body ff) → isent_inv (icmp_sent_list d) →
  let out := set_meta (Some (put_member m "send_protocol" (SInt ICMP_PT_ICMP))) ff in
  runs (iready xs (S n) d) (icmp_out_fdf ff)
    (λ _ s, ∃ d', isent_inv (icmp_sent_list d') ∧ iready (xs ++ [set_dest ip out]) n d' s ∧
       d' = put_isent (keep_icmp (icmp_sent_list d) (MkISent (clone_frame out))) d).
Proof.
  intros Hm [Hok Hk [f Hf] Hs Hd] Hb Hl out. unfold icmp_out_fdf.
  do 3 (eapply rest_read; [exact Hm|eassumption|]). eapply rest_write; [exact Hm|exact Hk|].
  change (set_meta _ ff) with out. assert (frame_ok out) as Hfo.
  { split; [done|]. eexists. split; [done|]. by apply meta_ok_put. }
  eapply rest_lift; [by apply clone_ok|].
  eapply (rest_send _ _ _ _ _ out ICMP_FLOW_IPV4 ip); [done|done|set_solver|].
  change (1 =? 0) with false. cbv iota. eapply runs_post; [by apply keep_isent_runs|].
  intros ? s Hs0. eexists. split_and!; [|exact Hs0|done]. apply keep_icmp_inv; [done|]. by apply clone_frame_ok.
Qed.

End Handlers.

(** ** Received messages *)

(** Reading the fields of a packet and of a message. *)
Lemma read_ip_len p rest : packet_ok p → read_at (packet_bytes p ++ rest) 2 2 = Ok (ip_len p).
Proof.
  intros Hp. unfold packet_bytes. rewrite <- !(assoc_L app).
  apply (read_at_mid _ _ 2 2); [done|apply Hp].
Qed.

Lemma read_first x b : read_at (x :: b) 0 1 = Ok x.
Proof. unfold read_at. cbn [Z.ltb Z.to_nat drop]. rewrite read_bytes_some by (simpl; lia). simpl. f_equal. lia. Qed.

Lemma read_second x y b : read_at (x :: y :: b) 1 1 = Ok y.
Proof. apply (read_first y b). Qed.

Lemma read_verlen p rest : read_at (packet_bytes p ++ rest) 0 1 = Ok (ip_verlen p).
Proof. apply read_first. Qed.

Lemma read_type type code p1 p2 data : read_at (icmp_bytes type code p1 p2 data) 0 1 = Ok type.
Proof. apply read_first. Qed.

Lemma read_code type code p1 p2 data : read_at (icmp_bytes type code p1 p2 data) 1 1 = Ok code.
Proof. apply read_second. Qed.

Lemma read_param1 type code ck p1 p2 data :
  is_u16 p1 → read_at (icmp_fields type code ck p1 p2 ++ data) 4 2 = Ok p1.
Proof.
  intros Hp. unfold icmp_fields. rewrite <- !(assoc_L app), (assoc_L app [type; code]).
  by apply (read_at_mid _ _ 4 2).
Qed.

Lemma read_param2 type code ck p1 p2 data :
  is_u16 p2 → read_at (icmp_fields type code ck p1 p2 ++ data) 6 2 = Ok p2.
Proof.
  intros Hp. unfold icmp_fields. rewrite <- !(assoc_L app), (assoc_L app [type; code]), (assoc_L app _ (le_bytes 2 p1)).
  by apply (read_at_mid _ _ 6 2).
Qed.

(** The packet the IPv4 module hands over, with the message in it. *)
Definition icmp_packet (src dst t type code p1 p2 : Z) (data : list Z) : list Z :=
  packet_bytes (wire_header src dst ICMP_PT_ICMP t (Z.of_nat (length data) + 8))
  ++ icmp_bytes type code p1 p2 data.

(** The metadata of a received message. *)
Definition icmp_meta (m : metadata) (type code : Z) : metadata :=
  put_member (put_member m "recv_icmp_type" (SInt (s32 type))) "recv_icmp_code" (SInt (s32 code)).

Lemma icmp_meta_ok m type code : meta_ok m = true → meta_ok (icmp_meta m type code) = true.
Proof. intros Hm. unfold icmp_meta. by do 2 (apply meta_ok_put; [|done..]). Qed.

Section Receive.
Context {Q : Type} `{BoundedFifo Q finsFrame} `{IcmpEnv}.
Abbreviation ST := (mstate Q icmp_data) (only parsing).
Context (ip udp dae : Z) (xs : list finsFrame) (d : icmp_data).
Context (ff : finsFrame) (m : metadata) (dir src dst t type code p1 p2 : Z) (data : list Z).

Record icmp_received : Prop := {
  ir_metadata : metaData ff = Some m;
  ir_meta_ok : meta_ok m = true;
  ir_key_type : int_key m "recv_icmp_type" = true;
  ir_key_code : int_key m "recv_icmp_code" = true;
  ir_proto : secure_metadata_readFromElement m "recv_protocol" = Ok ICMP_PT_ICMP;
  ir_body : body ff = Data (MkData dir (Z.of_nat (length data) + 28)
                              (Some (icmp_packet src dst t type code p1 p2 data)));
  ir_type : is_u8 type; ir_code : is_u8 code; ir_ttl : is_u8 t;
  ir_bytes : is_bytes data;
  ir_len : Z.of_nat (length data) + 28 < 65536
}.
Context (Hr : icmp_received).

(** The frame that goes on. *)
Definition icmp_noted : finsFrame := set_meta (Some (icmp_meta m type code)) ff.

Lemma icmp_noted_ok : frame_ok icmp_noted.
Proof using Hr.
  destruct Hr as [? Hok ? ? ? Hb ? ? ? ? ?]. split.
  - cbn [icmp_noted set_meta body]. rewrite Hb. cbn [body_ok pdu pduLength].
    unfold icmp_packet. rewrite length_app, packet_bytes_length, Nat2Z.inj_add, icmp_bytes_length. lia.
  - eexists. split; [done|]. by apply icmp_meta_ok.
Qed.

(** The tests on the packet leave the state as it is. *)
Lemma icmp_in_eq (s : ST) :
  icmp_in_fdf ff s =
  icmp_in_type icmp_noted (icmp_bytes type code p1 p2 data) type code (Z.of_nat (length data)) s.
Proof using Hr.
  destruct Hr as [Hm Hok Hk1 Hk2 Hp Hb Ht Hc Httl Hd Hl]. unfold icmp_in_fdf.
  erewrite bind_ok; [|unfold ff_data; by rewrite Hb]. erewrite bind_ok; [|done].
  assert (packet_ok (wire_header src dst ICMP_PT_ICMP t (Z.of_nat (length data) + 8))) as Hpk.
  { apply wire_header_ok; [|done]. unfold is_u8, ICMP_PT_ICMP. lia. }
  erewrite bind_ok; [|unfold lift, icmp_packet; by rewrite read_ip_len].
  erewrite bind_ok; [|unfold lift, icmp_packet; by rewrite read_verlen].
  unfold icmp_packet. rewrite (drop_app_length' (packet_bytes _)) by done.
  change (IPV4_HLEN _) with 20. cbn [ip_len wire_header set_cksum wire_blank].
  rewrite (u16_small (Z.of_nat (length data) + 8 + _)) by (unfold is_u16, IP4_MIN_HLEN; lia).
  rewrite htons_htons by (unfold is_u16, IP4_MIN_HLEN; lia). unfold IP4_MIN_HLEN.
  rewrite u32_small by (unfold is_u32; lia).
  replace (Z.of_nat (length data) + 8 + 20 - 20) with (Z.of_nat (length data) + 8) by lia.
  rewrite (proj2 (Z.ltb_ge _ _)) by (unfold ICMP_HEADER_SIZE; lia).
  erewrite bind_ok; [|by eapply ff_read_ok]. change (negb (ICMP_PT_ICMP =? ICMP_PT_ICMP)) with false. cbv iota.
  erewrite bind_ok; [|unfold lift; rewrite icmp_bytes_verify by (done || lia); done]. cbv iota.
  erewrite bind_ok; [|unfold lift; by rewrite read_type].
  erewrite bind_ok; [|by apply ff_write_ok].
  erewrite bind_ok; [|unfold lift; by rewrite read_code].
  erewrite bind_ok; [|apply ff_write_ok; [done|by apply int_key_put]].
  unfold ICMP_HEADER_SIZE. by rewrite Z.add_simpl_r.
Qed.

Lemma icmp_in_runs n R :
  runs (iready ip udp dae xs n d)
    (icmp_in_type icmp_noted (icmp_bytes type code p1 p2 data) type code (Z.of_nat (length data))) R →
  runs (iready ip udp dae xs n d) (icmp_in_fdf ff) R.
Proof using Hr. intros HK s Hs. rewrite icmp_in_eq. by apply HK. Qed.

Lemma icmp_in_type_echo icmp n :
  type = ICMP_TYPE_ECHOREQUEST → code = ICMP_CODE_ECHO →
  icmp_in_type icmp_noted icmp type code n = icmp_ping_reply icmp_noted icmp n.
Proof. clear Hr. by intros -> ->. Qed.

(** Any message but an echo request or an error goes to the daemon. *)
Lemma icmp_plain_runs n :
  type ≠ ICMP_TYPE_DESTUNREACH → type ≠ ICMP_TYPE_ECHOREQUEST → type ≠ ICMP_TYPE_TTLEXCEED →
  runs (iready ip udp dae xs (S n) d) (icmp_in_fdf ff)
    (λ _ s, iready ip udp dae (xs ++ [set_dest dae icmp_noted]) n d s).
Proof using Hr.
  intros H1 H2 H3. apply icmp_in_runs. unfold icmp_in_type. rewrite !(proj2 (Z.eqb_neq _ _)) by done.
  apply ir_up; [apply icmp_noted_ok|]. by apply runs_ret.
Qed.

(** The answer to an echo request. *)
Definition echo_reply (f : Z) : finsFrame :=
  MkFrame 0 (Some (put_ints [("send_protocol", ICMP_PT_ICMP); ("send_family", f);
                             ("send_src_ipv4", dst); ("send_dst_ipv4", src)] []))
    (Data (MkData DIR_DOWN (Z.of_nat (length data) + 8)
             (Some (icmp_bytes ICMP_TYPE_ECHOREPLY ICMP_CODE_ECHO p1 p2 data)))).

Lemma icmp_echo_runs n f :
  type = ICMP_TYPE_ECHOREQUEST → code = ICMP_CODE_ECHO → is_u16 p1 → is_u16 p2 →
  secure_metadata_readFromElement m "recv_family" = Ok f →
  secure_metadata_readFromElement m "recv_src_ipv4" = Ok src →
  secure_metadata_readFromElement m "recv_dst_ipv4" = Ok dst →
  runs (iready ip udp dae xs (S (S n)) d) (icmp_in_fdf ff)
    (λ _ s, iready ip udp dae (xs ++ [set_dest dae icmp_noted] ++ [set_dest ip (echo_reply f)]) n d s).
Proof using Hr.
  intros Hty Hco Hp1 Hp2 Hf Hs Hd0. apply icmp_in_runs. rewrite icmp_in_type_echo by done.
  destruct Hr as [Hm Hok Hk1 Hk2 Hp Hb Ht Hc Httl Hd Hl].
  unfold icmp_ping_reply. do 2 (eapply rest_lift; [by first [apply read_param1 | apply read_param2]|]).
  change (drop 8 (icmp_bytes type code p1 p2 data)) with data. eapply rest_lift; [by apply read_bytes_all|].
  eapply rest_lift; [apply icmp_message_ok; [done..|lia]|].
  do 3 (eapply rest_read; [done|unfold icmp_meta; rewrite !sread_put_other by done; eassumption|]).
  eapply ir_metas; [done|done|]. unfold ICMP_HEADER_SIZE. rewrite u32_small by (unfold is_u32; lia).
  apply ir_up; [apply icmp_noted_ok|]. apply runs_bind_r.
  eapply (rest_send_or_free _ _ _ _ _ (echo_reply f) ICMP_FLOW_IPV4 ip); [|done|set_solver|].
  - split; [cbn [echo_reply body body_ok pdu pduLength]; by rewrite icmp_bytes_length|].
    eexists. split; [done|]. by apply put_ints_ok.
  - apply runs_ret. intros s Hs0. by rewrite <- app_assoc in Hs0.
Qed.

End Receive.
