(* ===== verification/Ping.v ===== *)
(** * Echo requests across the ICMP and IPv4 modules of two hosts

    [IPv4] and [Icmp] composed: the frames a module queues for another one are
    handed over by the switch as they are, and a packet queued for the interface
    of one host arrives on the other as a frame with the same bytes. *)

From stdpp Require Import base list gmap strings.
From Stdlib Require Import ZArith Lia.
From S2P Require Import Prelude Queue Metadata Frame Module IPv4 UDP Run Icmp IcmpFacts.
Open Scope Z_scope.
Open Scope fins_scope.

(** ** The IPv4 module of a host *)

(** What packet processing leaves alone. *)
Definition same_conf (d d' : ipv4_data) : Prop :=
  ip_addr_list d' = ip_addr_list d ∧ addr_loopback d' = addr_loopback d ∧ route_list d' = route_list d.

Section Node.
Context {Q : Type} `{BoundedFifo Q finsFrame}.
Abbreviation ST := (mstate Q ipv4_data) (only parsing).

Lemma pt_stat {B} f xs d (k : unit → M ST B) R :
  pt xs (set_ip_stats (f (ip_stats d)) d) (k tt) R → pt xs d (stat f ≫= k) R.
Proof. apply (pt_modify R xs d (λ d, set_ip_stats (f (ip_stats d)) d)). Qed.

Lemma pt_send_or_free {B} ff flow xs d (k : unit → M ST B) R :
  is_data ff → (∀ xs', pt xs' d (k tt) R) → pt xs d (send_or_free ff flow ≫= k) R.
Proof.
  intros Hd Hk. unfold send_or_free. apply pt_assoc, pt_send; [done|]. intros n sent _.
  case_match; [apply pt_free; apply Hk|apply Hk].
Qed.

Lemma pt_write_recv {B} ff p f a b xs d (k : finsFrame → M ST B) R :
  (∀ m, pt xs d (k (set_meta m ff)) R) → pt xs d (write_recv ff p f a b ≫= k) R.
Proof.
  intros Hk. unfold write_recv. do 3 (apply pt_assoc, pt_write; intros ?). apply pt_write. intros ?.
  destruct ff. apply Hk.
Qed.

Lemma in_send_conf ff h b xs d :
  is_data ff → pt xs d (ipv4_send_fdf_in ff h b : M ST unit) (λ _ _ d', d' = d).
Proof.
  intros Hd. unfold ipv4_send_fdf_in. case_match; [by apply pt_bind_r, pt_free, pt_ret|].
  apply pt_data. intros dd Hdd.
  set (Up := λ (r : option (Z * finsFrame)) (_ : list finsFrame) (d' : ipv4_data),
    d' = d ∧ match r with Some (_, f) => is_data f | None => True end).
  apply (pt_bind _ _ _ _ Up).
  - repeat case_match; try (apply pt_ret; by split); apply pt_lift; intros b' _; apply pt_ret; split; try done; by eexists.
  - intros [[flow f]|] xs' d' [-> Hf]; [|by apply pt_bind_r, pt_free, pt_ret].
    apply pt_write_recv. intros m. apply pt_write. intros m'. apply pt_bind_r, pt_send_or_free; [exact Hf|].
    intros xs1. by apply pt_ret.
Qed.

(** Receiving a packet does not change the configuration. *)
Lemma in_fdf_conf ff xs d : pt xs d (ipv4_in_fdf ff : M ST unit) (λ _ _ d', same_conf d d').
Proof.
  unfold ipv4_in_fdf. apply pt_data. intros dd Hdd. apply pt_lift. intros b _. apply pt_stat. apply pt_lift. intros p _.
  set (h := parse_header p). assert (is_data ff) as Hff by (by eexists).
  case_match; [apply pt_stat, pt_bind_r, pt_stat, pt_ret; done|].
  case_match; [apply pt_stat, pt_stat, pt_bind_r, pt_free, pt_ret; done|].
  apply pt_lift. intros ck _. case_match; [apply pt_stat, pt_stat, pt_bind_r, pt_free, pt_ret; done|].
  assert (∀ d', same_conf d d' → pt xs d' (if s32 (pduLength dd) <? packet_length h then stat inc_dropped ;; free_ff ff
    else ipv4_in_checked ff p h b (s32 (pduLength dd))) (λ _ _ d', same_conf d d')) as Hend.
  { intros d' Hd'. case_match; [by apply pt_stat, pt_bind_r, pt_free, pt_ret|]. unfold ipv4_in_checked.
    case_match; [by apply pt_bind_r, pt_free, pt_ret|]. apply pt_get. intros s _.
    case_match; [apply (pt_bind _ _ _ _ (λ r _ d1, r = 0 ∧ d1 = d')); [by apply pt_ret|]|].
    { intros r xs1 d1 [-> ->]. by apply pt_stat, pt_bind_r, pt_free, pt_ret. }
    case_match; [by apply pt_stat, pt_stat, pt_bind_r, pt_free, pt_ret|].
    case_match; [|by apply pt_ret]. apply pt_stat. eapply pt_post; [by apply in_send_conf|]. by intros ? ? ? ->. }
  destruct (negb (packet_length h =? s32 (pduLength dd))); [apply pt_stat; by apply Hend|].
  eapply (pt_bind _ _ _ _ (λ _ xs' d', xs' = xs ∧ same_conf d d')); [by apply pt_ret|].
  intros ? ? d' [-> Hd']. by apply Hend.
Qed.

(** A host with address [addr] that reaches [peer] over its interface. *)
Context (nic icmp addr peer : Z) (route : route_record).

Record ip_node (xs : list finsFrame) (n : nat) (s : ST) : Prop := {
  ipn_table : table_ok (lcells (store s)) (mt s);
  ipn_room : room s xs n;
  ipn_single : ∀ f, (length (flow_dsts s f) ≤ 1)%nat;
  ipn_nic : flow_dsts s IPV4_FLOW_INTERFACE = [nic];
  ipn_icmp : flow_dsts s IPV4_FLOW_ICMP = [icmp];
  ipn_ours : ours (md s) addr = true;
  ipn_route : find_first (ipv4_route_dst_test peer) (route_list (md s)) = Some route;
  ipn_away : loops_back (md s) route (next_hop route peer) = false
}.

Lemma ip_node_eff xs n s s' sent dropped :
  ip_node xs (length sent + n) s → eff s xs s' sent dropped → same_conf (md s) (md s') → ip_node (xs ++ sent) n s'.
Proof.
  intros [Ht Hr Hs Hn Hi Ho Hro Ha] F (Ca & Cl & Cr).
  assert (∀ f, flow_dsts s' f = flow_dsts s f) as Hfd.
  { intros f. unfold flow_dsts. by rewrite (eff_mt _ _ _ _ _ F), (eff_store _ _ _ _ _ F). }
  split; rewrite ?Hfd; try done.
  - by rewrite (eff_mt _ _ _ _ _ F), (eff_store _ _ _ _ _ F).
  - by eapply room_eff.
  - intros f. rewrite Hfd. apply Hs.
  - unfold ours. by rewrite Ca.
  - by rewrite Cr.
  - unfold loops_back. by rewrite Cl, Ca.
Qed.

Lemma ip_node_any xs n s : ip_node xs (S n) s → room_any s xs.
Proof.
  intros Hs. split; [apply Hs|]. intros f. eapply room_le; [|apply Hs]. pose proof (ipn_single _ _ _ Hs f). lia.
Qed.

Lemma ip_node_out xs n s junk now ff m dir b proto t :
  ip_node xs (S n) s → metaData ff = Some m → meta_ok m = true → forallb (int_key m) send_keys = true →
  out_meta m proto addr peer t → body ff = Data (MkData dir (Z.of_nat (length b)) (Some b)) →
  Z.of_nat (length b) < 65536 →
  let out := out_frame ff m dir (wire_header addr peer (u8 proto) (out_ttl t) (Z.of_nat (length b))) b
               (next_hop route peer) (r_if_index route) in
  ∃ s', ipv4_out_fdf junk now ff s = Ok (tt, s') ∧ ip_node (xs ++ [set_dest nic out]) n s'.
Proof.
  intros Hs Hm Hok Hk Ho Hb Hl out.
  destruct (out_fdf_ok junk now ff m (MkData dir (Z.of_nat (length b)) (Some b)) b proto addr peer t route s xs) as (s' & E & M & F);
    [done..|by apply read_bytes_all|done|done|apply Hs|apply Hs|apply Hs|apply (ip_node_any _ _ _ Hs)|].
  rewrite (ipn_nic _ _ _ Hs) in F. exists s'. split; [exact E|]. eapply ip_node_eff; [exact Hs|exact F|]. by rewrite M.
Qed.

(** The metadata of a delivered message. *)
Definition delivered_meta (m : metadata) (t : Z) : metadata :=
  put_member (recv_meta m ICMP_PT_ICMP AF_INET peer addr) "recv_ttl" (SInt (s32 t)).

Lemma ip_node_in xs n s ff m dir b t :
  ip_node xs (S n) s → metaData ff = Some m → meta_ok m = true → forallb (int_key m) recv_keys = true →
  body ff = Data (MkData dir (Z.of_nat (length b) + 20)
    (Some (packet_bytes (wire_header peer addr ICMP_PT_ICMP t (Z.of_nat (length b))) ++ b))) →
  is_bytes b → Z.of_nat (length b) + 20 < 65536 → is_u32 addr → is_u32 peer → is_u8 t → t ≠ 0 →
  ∃ s', ipv4_in_fdf ff s = Ok (tt, s') ∧
    ip_node (xs ++ [set_dest icmp (set_meta (Some (delivered_meta m t)) ff)]) n s'.
Proof.
  intros Hs Hm Hok Hk Hb Hbb Hl Ha Hp Ht Ht0.
  destruct (wire_up ff m dir b peer addr ICMP_PT_ICMP t s xs) as (s' & E & F); [done..|apply Hs|done|done|done|done|done|apply Hs|by eapply ip_node_any|].
  destruct (parse_wire_header peer addr ICMP_PT_ICMP t (Z.of_nat (length b)))
    as (Hhs & Hhd & _ & Hhh & Hhp & _ & _ & Hht & Hhpr); [done..|lia|lia|].
  destruct (in_fdf_conf ff xs (md s) s tt s') as (xs' & d' & [_ Hd'] & Hc); [|exact E|].
  { split; [|done]. eapply room_le; [|apply Hs]. lia. }
  exists s'. split; [exact E|]. unfold up_frame in F. rewrite Hhp, Hhh, Hhpr, Hhs, Hhd, Hht in F.
  rewrite (proj2 (Z.ltb_ge _ _)) in F by lia. simpl in F.
  rewrite (ipn_icmp _ _ _ Hs) in F. eapply ip_node_eff; [exact Hs|exact F|]. by rewrite Hd'.
Qed.

End Node.

(** ** Two hosts *)

(** The frame [ff], with metadata [m] of the interface, has the bytes of [out]. *)
Definition crosses (out ff : finsFrame) (m : metadata) : Prop :=
  ∃ d, body out = Data d ∧ body ff = Data (MkData DIR_UP (pduLength d) (pdu d)) ∧
    metaData ff = Some m ∧ meta_ok m = true ∧
    forallb (int_key m) (recv_keys ++ ["recv_icmp_type"; "recv_icmp_code"]) = true.

Lemma delivered_reads addr peer m t :
  is_u32 addr → is_u32 peer →
  let m' := delivered_meta addr peer m t in
  secure_metadata_readFromElement m' "recv_protocol" = Ok ICMP_PT_ICMP ∧
  secure_metadata_readFromElement m' "recv_family" = Ok AF_INET ∧
  secure_metadata_readFromElement m' "recv_src_ipv4" = Ok peer ∧
  secure_metadata_readFromElement m' "recv_dst_ipv4" = Ok addr.
Proof.
  intros Ha Hp m'. unfold m', delivered_meta, recv_meta.
  split_and!; rewrite ?sread_put_other by done; rewrite read_put_same; f_equal; try done; by apply s32_u32_small.
Qed.

Lemma crossed_received addr peer out ff m t type code p1 p2 data icmp :
  crosses out ff m → is_u32 addr → is_u32 peer → is_u8 t → is_u8 type → is_u8 code → is_bytes data →
  Z.of_nat (length data) + 28 < 65536 →
  body out = Data (MkData DIR_DOWN (Z.of_nat (length data) + 28) (Some (icmp_packet peer addr t type code p1 p2 data))) →
  icmp_received (set_dest icmp (set_meta (Some (delivered_meta addr peer m t)) ff)) (delivered_meta addr peer m t)
    DIR_UP peer addr t type code p1 p2 data.
Proof.
  intros (d & Hd & Hb & Hm & Hok & Hk) Ha Hp Ht Hty Hco Hda Hl Ho. rewrite Ho in Hd. injection Hd as <-.
  rewrite forallb_app in Hk. apply andb_true_iff in Hk as [Hk Hk2]. simpl in Hk2.
  apply andb_true_iff in Hk2 as [K1 [K2 _]%andb_true_iff].
  split; try done.
  - unfold delivered_meta. apply meta_ok_put; [|done..]. by apply recv_meta_ok.
  - by repeat apply int_key_put.
  - by repeat apply int_key_put.
  - by apply delivered_reads.
Qed.

(** The metadata of the answer is what the IPv4 module reads. *)
Lemma echo_reply_out src dst f :
  is_u32 src → is_u32 dst →
  out_meta (put_ints [("send_protocol", ICMP_PT_ICMP); ("send_family", f); ("send_src_ipv4", dst);
                      ("send_dst_ipv4", src)] []) ICMP_PT_ICMP dst src None.
Proof.
  intros Hs Hd. split; cbn [put_ints foldl fst snd].
  - by rewrite !sread_put_other, read_put_same by done.
  - eexists. by rewrite !sread_put_other, read_put_same by done.
  - rewrite sread_put_other, read_put_same by done. by rewrite s32_u32_small.
  - rewrite read_put_same. by rewrite s32_u32_small.
  - by rewrite !read_put_other by done.
  - by rewrite !read_put_other by done.
Qed.

(** Host [A] sends the echo request [ff]; the frames for the interface. *)
Section Send.
Context {Q : Type} `{BoundedFifo Q finsFrame} `{IcmpEnv}.
Context (ip udp dae nic icmp addr peer : Z) (route : route_record).

(** An ICMP message of the daemon of this host for the peer. *)
Record icmp_request (ff : finsFrame) (m : metadata) (t : option Z) (type code p1 p2 : Z) (data : list Z) : Prop := {
  rq_meta : metaData ff = Some m;
  rq_out : iout_meta m addr peer;
  rq_keys : forallb (int_key m) send_keys = true;
  rq_ttl : match metadata_readFromElement m "send_ttl" with
           | Some (VInt32 v) => t = Some (u32 v) | None => t = None | _ => False end;
  rq_tos : match metadata_readFromElement m "send_tos" with
           | Some (VInt32 _) | None => True | _ => False end;
  rq_body : body ff = Data (MkData DIR_DOWN (Z.of_nat (length data) + 8)
                              (Some (icmp_bytes type code p1 p2 data)))
}.

(** It leaves the host as one packet. *)
Lemma request_leaves xs n d ys k s q junk now ff m t type code p1 p2 data :
  iready ip udp dae xs (S n) d s → isent_inv (icmp_sent_list d) →
  ip_node nic icmp addr peer route ys (S k) q →
  icmp_request ff m t type code p1 p2 data → Z.of_nat (length data) + 28 < 65536 →
  ∃ s' d' f1 q' out,
    icmp_out_fdf ff s = Ok (tt, s') ∧ iready ip udp dae (xs ++ [f1]) n d' s' ∧
    isent_inv (icmp_sent_list d') ∧ destinationID f1 = ip ∧
    ipv4_out_fdf junk now f1 q = Ok (tt, q') ∧ ip_node nic icmp addr peer route (ys ++ [out]) k q' ∧
    destinationID out = nic ∧ body out = Data (MkData DIR_DOWN (Z.of_nat (length data) + 28)
                       (Some (icmp_packet addr peer (out_ttl t) type code p1 p2 data))).
Proof.
  intros Hs Hi Hq [Hm Ho Hk Ht Htos Hb] Hl.
  destruct (icmp_out_runs ip udp dae xs n d ff m addr peer Hm Ho) with (s := s) as ([] & s' & E & d' & Hd' & Hs' & _); [|done|done|].
  { rewrite Hb. cbn [body_ok pdu pduLength]. by rewrite icmp_bytes_length. }
  set (m' := put_member m "send_protocol" (SInt ICMP_PT_ICMP)) in *. set (f1 := set_dest ip (set_meta (Some m') ff)) in *.
  destruct (ip_node_out nic icmp addr peer route ys k q junk now f1 m' DIR_DOWN
    (icmp_bytes type code p1 p2 data) ICMP_PT_ICMP t) as (q' & Eq & Hq'); [done|done| | | | |rewrite icmp_bytes_length; lia|].
  { apply meta_ok_put; [apply Ho|done..]. }
  { by apply keys_put. }
  { destruct Ho as [_ _ [f Hf] Hs0 Hd0]. unfold m'.
    split; rewrite ?sread_put_other, ?read_put_other by done; try done; [by rewrite read_put_same|by eexists]. }
  { cbn [f1 set_dest set_meta body]. by rewrite Hb, icmp_bytes_length. }
  eexists s', d', f1, q', _. split_and!; [exact E|exact Hs'|exact Hd'|done|exact Eq|exact Hq'|done|].
  cbn [set_dest out_frame body]. unfold icmp_packet. rewrite icmp_bytes_length. by rewrite <- Z.add_assoc.
Qed.

(** A packet from the peer reaches the ICMP module. *)
Lemma message_arrives ys k q out ff m t type code p1 p2 data :
  ip_node nic icmp addr peer route ys (S k) q → crosses out ff m →
  body out = Data (MkData DIR_DOWN (Z.of_nat (length data) + 28) (Some (icmp_packet peer addr t type code p1 p2 data))) →
  is_u32 addr → is_u32 peer → is_u8 t → t ≠ 0 → is_u8 type → is_u8 code → is_bytes data →
  Z.of_nat (length data) + 28 < 65536 →
  ∃ q' f, ipv4_in_fdf ff q = Ok (tt, q') ∧ ip_node nic icmp addr peer route (ys ++ [f]) k q' ∧
    destinationID f = icmp ∧ icmp_received f (delivered_meta addr peer m t) DIR_UP peer addr t type code p1 p2 data.
Proof.
  intros Hq Hc Ho Ha Hp Ht Ht0 Hty Hco Hd Hl.
  pose proof (crossed_received addr peer out ff m t type code p1 p2 data icmp Hc Ha Hp Ht Hty Hco Hd Hl Ho) as Hr.
  destruct Hc as (dd & Hd0 & Hb & Hm & Hok & Hk). rewrite Ho in Hd0. injection Hd0 as <-.
  rewrite forallb_app in Hk. apply andb_true_iff in Hk as [Hk _].
  destruct (ip_node_in nic icmp addr peer route ys k q ff m DIR_UP (icmp_bytes type code p1 p2 data) t)
    as (q' & E & Hq'); rewrite ?icmp_bytes_length; try done; [|by apply icmp_bytes_u8|lia|].
  { rewrite Hb. cbn [pduLength pdu]. unfold icmp_packet. by rewrite <- Z.add_assoc. }
  eexists q', _. split_and!; [exact E|exact Hq'|done|exact Hr].
Qed.

End Send.

(** ** Property *)

(** C31: ping.  An echo request of the daemon of host A travels through the ICMP
    and IPv4 modules of A as one packet; the modules of host B hand it to the
    daemon of B and answer it with one packet; and the modules of A hand that
    answer to the daemon of A as an echo reply from B with the identifier,
    sequence number and data of the request.  Every handler returns, and no
    other frame is sent. *)
Theorem icmp_ping {Q} `{BoundedFifo Q finsFrame} `{IcmpEnv} (ia ib : mstate Q icmp_data) (pa pb : mstate Q ipv4_data)
    ip udp dae nic icmp A B ra rb xa xb ya yb da db junk now junk' now' ff m t p1 p2 data :
  iready ip udp dae xa 2 da ia → isent_inv (icmp_sent_list da) → ip_node nic icmp A B ra ya 2 pa →
  iready ip udp dae xb 2 db ib → ip_node nic icmp B A rb yb 2 pb →
  is_u32 A → is_u32 B → is_u16 p1 → is_u16 p2 → is_bytes data → Z.of_nat (length data) + 28 < 65536 →
  icmp_request A B ff m t ICMP_TYPE_ECHOREQUEST ICMP_CODE_ECHO p1 p2 data → out_ttl t ≠ 0 →
  ∃ ia1 f1 pa1 out, icmp_out_fdf ff ia = Ok (tt, ia1) ∧ bf_rep (outq ia1) (xa ++ [f1]) ∧
    ipv4_out_fdf junk now f1 pa = Ok (tt, pa1) ∧ bf_rep (outq pa1) (ya ++ [out]) ∧ destinationID out = nic ∧
  ∀ ff1 m1, crosses out ff1 m1 →
  ∃ pb1 f2 ib1 up rep pb2 back, ipv4_in_fdf ff1 pb = Ok (tt, pb1) ∧ bf_rep (outq pb1) (yb ++ [f2]) ∧
    icmp_in_fdf f2 ib = Ok (tt, ib1) ∧ bf_rep (outq ib1) (xb ++ [up; rep]) ∧ destinationID up = dae ∧
    ipv4_out_fdf junk' now' rep pb1 = Ok (tt, pb2) ∧ bf_rep (outq pb2) (yb ++ [f2; back]) ∧ destinationID back = nic ∧
  ∀ ff2 m2, crosses back ff2 m2 →
  ∃ pa2 f3 ia2 ans, ipv4_in_fdf ff2 pa1 = Ok (tt, pa2) ∧ bf_rep (outq pa2) (ya ++ [out; f3]) ∧
    icmp_in_fdf f3 ia1 = Ok (tt, ia2) ∧ bf_rep (outq ia2) (xa ++ [f1; ans]) ∧ destinationID ans = dae ∧
    metaData ans = Some (icmp_meta (delivered_meta A B m2 IP4_INIT_TTL) ICMP_TYPE_ECHOREPLY ICMP_CODE_ECHO) ∧
    body ans = Data (MkData DIR_UP (Z.of_nat (length data) + 28)
      (Some (icmp_packet B A IP4_INIT_TTL ICMP_TYPE_ECHOREPLY ICMP_CODE_ECHO p1 p2 data))).
Proof.
  intros Hia Hi Hpa Hib Hpb HA HB Hp1 Hp2 Hd Hl Hrq Ht.
  assert (∀ x, 0 ≤ x ≤ 255 → is_u8 x) as U8 by (unfold is_u8; lia).
  destruct (request_leaves ip udp dae nic icmp A B ra xa 1 da ya 1 ia pa junk now ff m t _ _ p1 p2 data Hia Hi Hpa Hrq Hl)
    as (ia1 & da1 & f1 & pa1 & out & E1 & Hia1 & _ & _ & E2 & Hpa1 & Hn1 & Ho).
  exists ia1, f1, pa1, out. split_and!; [exact E1|apply Hia1|exact E2|apply Hpa1|exact Hn1|].
  intros ff1 m1 Hc1.
  destruct (message_arrives nic icmp B A rb yb 1 pb out ff1 m1 (out_ttl t) _ _ p1 p2 data Hpb Hc1 Ho)
    as (pb1 & f2 & E3 & Hpb1 & _ & Hr2); try done; [apply out_ttl_u8|by apply U8..|].
  destruct (delivered_reads B A m1 (out_ttl t) HB HA) as (_ & Rf & Rs & Rd).
  destruct (icmp_echo_runs ip udp dae xb db f2 _ DIR_UP A B (out_ttl t) _ _ p1 p2 data Hr2 0 AF_INET eq_refl eq_refl
    Hp1 Hp2 Rf Rs Rd ib Hib) as ([] & ib1 & E4 & Hib1).
  set (rep := echo_reply A B p1 p2 data AF_INET) in *.
  destruct (ip_node_out nic icmp B A rb _ 0 pb1 junk' now' (set_dest ip rep) _ DIR_DOWN
    (icmp_bytes ICMP_TYPE_ECHOREPLY ICMP_CODE_ECHO p1 p2 data) ICMP_PT_ICMP None Hpb1 eq_refl)
    as (pb2 & E5 & Hpb2); [done|done|by apply echo_reply_out|by rewrite icmp_bytes_length|rewrite icmp_bytes_length; lia|].
  rewrite <- app_assoc in Hpb2. eexists pb1, f2, ib1, _, _, pb2, _.
  split_and!; [exact E3|apply Hpb1|exact E4|apply Hib1|done|exact E5|apply Hpb2|done|].
  intros ff2 m2 Hc2.
  destruct (message_arrives nic icmp A B ra _ 0 pa1 _ ff2 m2 IP4_INIT_TTL ICMP_TYPE_ECHOREPLY ICMP_CODE_ECHO p1 p2 data
    Hpa1 Hc2) as (pa2 & f3 & E6 & Hpa2 & _ & Hr3); try done; [|by apply U8..|].
  { cbn [set_dest out_frame body]. unfold icmp_packet. rewrite icmp_bytes_length. by rewrite <- Z.add_assoc. }
  destruct (icmp_plain_runs ip udp dae (xa ++ [f1]) da1 f3 _ DIR_UP B A IP4_INIT_TTL _ _ p1 p2 data Hr3 0) with (s := ia1)
    as ([] & ia2 & E7 & Hia2); [done..|].
  rewrite <- app_assoc in Hpa2, Hia2. eexists pa2, f3, ia2, _.
  split_and!; [exact E6|apply Hpa2|exact E7|apply Hia2|done|done|]. cbn [set_dest icmp_noted set_meta body]. apply Hr3.
Qed.

(** ** Two concrete hosts *)

Definition demo_icmp_env : IcmpEnv := {| behind_len := 0; junk_ip := 0 |}.

(** Module 5, whose flows lead to modules 3 (IPv4), 6 (TCP), 7 (UDP) and 8 (daemon). *)
Definition demo_icmp (d : icmp_data) : mstate (QueueRecord finsFrame) icmp_data :=
  MkSt (MkMod FMS_RUNNING 4 5 5 (init_queue 10) (init_queue 10))
    (MkTable (Some [1; 2; 3; 4]) 4 [MkFlow 1 1; MkFlow 2 2; MkFlow 3 3; MkFlow 4 4]) d
    (MkStore {[1 := MkLink 1 5 1 [3]; 2 := MkLink 2 5 1 [6]; 3 := MkLink 3 5 1 [7]; 4 := MkLink 4 5 1 [8]]} 5) [] 0.

Lemma demo_icmp_ready d n : (n ≤ 10)%nat → iready 3 7 8 [] n d (demo_icmp d).
Proof.
  intros Hn. split; [done| | |].
  - split; simpl; [lia| |].
    + intros l [= <-]. split; [repeat constructor; set_solver|].
      repeat constructor; (eexists; split; [vm_compute; reflexivity|simpl; lia]).
    + intros i f Hi Hf. exists [1; 2; 3; 4]. split; [done|].
      destruct i as [|[|[|[|i]]]]; try lia; injection Hf as <-; vm_compute; reflexivity.
  - split; [apply create_qrep; lia|]. simpl. lia.
  - intros f dst. rewrite !elem_of_cons, elem_of_nil. intros [[= -> ->]|[[= -> ->]|[[= -> ->]|[]]]]; reflexivity.
Qed.

(** A host on the network 192.168.1.0/24. *)
Definition demo_ip_host (ip : Z) : mstate (QueueRecord finsFrame) ipv4_data :=
  set_md (MkIpv4 [MkAddrRecord 2 AF_INET (demo_addr ip) (demo_addr 4294967040) (demo_addr 0)
                    (demo_addr 3232236031) (demo_addr 0)] None None (route_list demo_ipv4) 7 (ip_stats demo_ipv4)) demo_ip.
Definition demo_route : route_record :=
  MkRoute 2 AF_INET (demo_addr 3232235776) (demo_addr 4294967040) (demo_addr 0) 0 0.

Definition demo_echo_meta : metadata :=
  [("send_family", SInt AF_INET); ("send_src_ipv4", SInt (s32 3232235777)); ("send_dst_ipv4", SInt (s32 3232235778))].
Definition demo_echo : finsFrame :=
  MkFrame 5 (Some demo_echo_meta)
    (Data (MkData DIR_DOWN 11 (Some (icmp_bytes ICMP_TYPE_ECHOREQUEST ICMP_CODE_ECHO 513 256 [1; 2; 3])))).

Lemma demo_ip_node addr peer :
  ours (md (demo_ip_host addr)) addr = true →
  find_first (ipv4_route_dst_test peer) (route_list demo_ipv4) = Some demo_route →
  loops_back (md (demo_ip_host addr)) demo_route (next_hop demo_route peer) = false →
  ip_node 2 5 addr peer demo_route [] 2 (demo_ip_host addr).
Proof.
  intros Ho Hr Hl. split; try done.
  - apply demo_ip_ok.
  - split; [by apply create_qrep|]. simpl. lia.
  - apply demo_ip_dsts.
Qed.

(** Witness of C31: three bytes from 192.168.1.1 to 192.168.1.2. *)
Lemma icmp_ping_witness :
  ∃ ia1 f1 pa1 out, icmp_out_fdf demo_echo (demo_icmp (MkIcmpData None [] 0)) = Ok (tt, ia1) ∧
    bf_rep (outq ia1) [f1] ∧
    ipv4_out_fdf junk_packet 0 f1 (demo_ip_host 3232235777) = Ok (tt, pa1) ∧ bf_rep (outq pa1) [out] ∧
    destinationID out = 2 ∧
  ∀ ff1 m1, crosses out ff1 m1 →
  ∃ pb1 f2 ib1 up rep pb2 back, ipv4_in_fdf ff1 (demo_ip_host 3232235778) = Ok (tt, pb1) ∧
    bf_rep (outq pb1) [f2] ∧
    icmp_in_fdf (H0 := demo_icmp_env) f2 (demo_icmp (MkIcmpData None [] 9)) = Ok (tt, ib1) ∧
    bf_rep (outq ib1) [up; rep] ∧ destinationID up = 8 ∧
    ipv4_out_fdf junk_packet 1 rep pb1 = Ok (tt, pb2) ∧ bf_rep (outq pb2) [f2; back] ∧ destinationID back = 2 ∧
  ∀ ff2 m2, crosses back ff2 m2 →
  ∃ pa2 f3 ia2 ans, ipv4_in_fdf ff2 pa1 = Ok (tt, pa2) ∧ bf_rep (outq pa2) [out; f3] ∧
    icmp_in_fdf (H0 := demo_icmp_env) f3 ia1 = Ok (tt, ia2) ∧ bf_rep (outq ia2) [f1; ans] ∧ destinationID ans = 8 ∧
    metaData ans = Some (icmp_meta (delivered_meta 3232235777 3232235778 m2 IP4_INIT_TTL) ICMP_TYPE_ECHOREPLY ICMP_CODE_ECHO) ∧
    body ans = Data (MkData DIR_UP 31
      (Some (icmp_packet 3232235778 3232235777 IP4_INIT_TTL ICMP_TYPE_ECHOREPLY ICMP_CODE_ECHO 513 256 [1; 2; 3]))).
Proof.
  refine (icmp_ping (H0 := demo_icmp_env) (demo_icmp (MkIcmpData None [] 0)) (demo_icmp (MkIcmpData None [] 9))
    (demo_ip_host 3232235777) (demo_ip_host 3232235778) 3 7 8 2 5 3232235777 3232235778 demo_route demo_route
    [] [] [] [] (MkIcmpData None [] 0) (MkIcmpData None [] 9) junk_packet 0 junk_packet 1 demo_echo demo_echo_meta None
    513 256 [1; 2; 3] _ _ _ _ _ _ _ _ _ _ _ _ _);
    try (apply demo_icmp_ready; lia); try (by apply demo_ip_node); try (by unfold is_u32, is_u16; lia); try done.
  - repeat constructor; vm_compute; discriminate.
  - split; try done. split; try done. by eexists.
Defined.
