(* ===== verification/Unreachable.v ===== *)
(** * Errors about sent datagrams: the ICMP and UDP modules composed

    A destination-unreachable message about a datagram is turned by the ICMP
    module into an error for the UDP module, which finds the datagram among
    those it sent and reports it to the daemon. *)

From stdpp Require Import base list gmap strings.
From Stdlib Require Import ZArith Lia.
From S2P Require Import Prelude Queue Metadata Frame Module IPv4 UDP Run Icmp IcmpFacts Ping.
Open Scope Z_scope.
Open Scope fins_scope.

(** ** The ICMP module *)

Lemma read_byte b1 x b2 off : off = Z.of_nat (length b1) → read_at (b1 ++ x :: b2) off 1 = Ok x.
Proof.
  intros ->. unfold read_at. rewrite (proj2 (Z.ltb_ge _ _)) by lia. rewrite Nat2Z.id, drop_app_length.
  apply (read_first x b2).
Qed.

Lemma read_proto p rest : read_at (packet_bytes p ++ rest) 9 1 = Ok (ip_proto p).
Proof. by apply (read_byte (take 9 (packet_bytes p)) (ip_proto p) (drop 10 (packet_bytes p) ++ rest)). Qed.

Section Icmp.
Context {Q : Type} `{BoundedFifo Q finsFrame} `{IcmpEnv}.
Abbreviation ST := (mstate Q icmp_data) (only parsing).
Context (ip udp dae : Z) (xs : list finsFrame) (d : icmp_data).
Context (ff : finsFrame) (m : metadata) (dir src dst t p1 p2 : Z) (h : ip4_packet) (q : list Z).

Lemma in_type_port f icmp n :
  icmp_in_type (H := H) f icmp ICMP_TYPE_DESTUNREACH ICMP_CODE_PORTUNREACH n =
  (icmp_handle_error f icmp n ICMP_ERROR_DEST_UNREACH ;; mret tt).
Proof. reflexivity. Qed.

Lemma in_type_host f icmp n :
  icmp_in_type (H := H) f icmp ICMP_TYPE_DESTUNREACH ICMP_CODE_HOSTUNREACH n =
  (up ← icmp_handle_error f icmp n ICMP_ERROR_DEST_UNREACH;
   match up with Some f => icmp_up f ;; mret tt | None => segv end).
Proof. reflexivity. Qed.

(** The error message for the UDP module. *)
Definition udp_error_frame (code serial i : Z) : finsFrame :=
  MkFrame 0 (Some (icmp_meta m ICMP_TYPE_DESTUNREACH code))
    (Ctrl (MkCtrl i serial CTRL_ERROR ICMP_ERROR_DEST_UNREACH 0 (Z.of_nat (length q)) (CBytes q))).

(** The message about a datagram, with what the handler adds. *)
Definition noted_origin (code : Z) : finsFrame :=
  set_meta (Some (put_member (icmp_meta m ICMP_TYPE_DESTUNREACH code) "recv_ee_origin" (SInt SO_EE_ORIGIN_ICMP))) ff.

Context (code : Z).
Context (Hr : icmp_received ff m dir src dst t ICMP_TYPE_DESTUNREACH code p1 p2 (packet_bytes h ++ q)).
Context (Hk : int_key m "recv_ee_origin" = true).
Context (Hh : IPV4_HLEN (ip_verlen h) = 20) (Hp : ip_proto h = ICMP_PT_UDP) (Hq : (8 ≤ length q)%nat).

Let err := udp_error_frame code (u32 (icmp_serial d + 1)).

Lemma handle_error_runs {B} n (K : option finsFrame → M ST B) R :
  (∀ i, runs (iready ip udp dae (xs ++ [set_dest dae (noted_origin code)] ++ [set_dest udp (err i)]) n
                (put_serial (u32 (icmp_serial d + 1)) d)) (K (Some (noted_origin code))) R) →
  runs (iready ip udp dae xs (S (S n)) d)
    (icmp_handle_error (icmp_noted ff m ICMP_TYPE_DESTUNREACH code)
       (icmp_bytes ICMP_TYPE_DESTUNREACH code p1 p2 (packet_bytes h ++ q))
       (Z.of_nat (length (packet_bytes h ++ q))) ICMP_ERROR_DEST_UNREACH ≫= K) R.
Proof using Hr Hk Hh Hp Hq.
  intros HK. pose proof (icmp_noted_ok _ _ _ _ _ _ _ _ _ _ _ Hr) as Hnok.
  destruct Hr as [Hm Hok _ _ _ Hb _ _ _ _ Hl].
  assert (Z.of_nat (length (packet_bytes h ++ q)) = Z.of_nat (length q) + 20) as Hlen.
  { rewrite length_app, packet_bytes_length. lia. }
  unfold icmp_handle_error. rewrite Hlen in *. rewrite (proj2 (Z.ltb_ge _ _)) by (unfold IPV4_MIN_HLEN; lia).
  change (drop 8 (icmp_bytes _ _ _ _ ?x)) with x.
  apply runs_assoc. eapply rest_lift; [apply read_verlen|]. apply runs_assoc. eapply rest_lift; [apply read_proto|].
  rewrite Hp, Hh. change (ICMP_PT_UDP =? ICMP_PT_ICMP) with false. change (ICMP_PT_UDP =? ICMP_PT_UDP) with true. cbv iota.
  rewrite Z.add_simpl_r, u16_small by (unfold is_u16; lia).
  rewrite (proj2 (Z.ltb_ge _ _)) by (unfold UDP_FRAG_SIZE; lia).
  unfold icmp_error_udp. apply runs_assoc. eapply rest_meta; [done|].
  pose proof (icmp_meta_ok m ICMP_TYPE_DESTUNREACH code Hok) as Hmo.
  apply runs_assoc. eapply rest_lift; [unfold metadata_clone; by rewrite (meta_ok_copy _ Hmo)|].
  apply runs_assoc. eapply rest_write; [done|by do 2 apply int_key_put|].
  apply runs_assoc, ir_serial. apply runs_assoc. rewrite (drop_app_length' (packet_bytes h)) by done.
  eapply rest_lift; [by apply read_bytes_all|]. unfold error_frame. apply runs_assoc, runs_assoc, rest_get. intros s _.
  change (set_meta _ (icmp_noted _ _ _ _)) with (noted_origin code). apply runs_ret_bind.
  change (MkFrame 0 _ _) with (err (u8 (m_index (fm s)))). apply runs_assoc, ir_up.
  - split; [apply Hnok|]. eexists. split; [done|]. by apply meta_ok_put.
  - apply runs_assoc. eapply (rest_send_or_free _ _ _ _ _ _ ICMP_FLOW_UDP udp); [|done|set_solver|].
    + split; [done|]. by eexists.
    + apply runs_ret_bind. rewrite <- app_assoc. apply HK.
Qed.

End Icmp.

(** ** The UDP module *)

Lemma strncmp_prefix n a : (n ≤ length a)%nat → strncmp_eq n a (take n a) = Ok true.
Proof.
  revert a. induction n as [|n IH]; intros a Hl; [done|]. destruct a as [|x a]; simpl in *; [lia|].
  rewrite Z.eqb_refl, IH by lia. by destruct (x =? 0).
Qed.

Lemma strncmp_total n a b :
  (n ≤ length a)%nat → (n ≤ length b)%nat → ∃ r, strncmp_eq n a b = Ok r.
Proof.
  revert a b. induction n as [|n IH]; intros a b Ha Hb; [by eexists|].
  destruct a as [|x a]; [simpl in Ha; lia|]. destruct b as [|y b]; [simpl in Hb; lia|]. simpl in *.
  destruct (x =? y); [|by eexists]. destruct (x =? 0); [by eexists|]. apply IH; lia.
Qed.

(** A record as [udp_out_fdf] keeps it: a datagram with its length and the
    metadata it was sent with. *)
Record kept (x : udp_sent) (sm : metadata) (dir : Z) (w : list Z) : Prop := {
  kp_meta : metaData (sent_ff x) = Some sm;
  kp_ok : meta_ok sm = true;
  kp_body : body (sent_ff x) = Data (MkData dir (Z.of_nat (length w)) (Some w))
}.

Lemma match_total x sm dir w n data :
  kept x sm dir w → n = Z.of_nat (length data) → ∃ r, udp_sent_match_test n data x = Ok r.
Proof.
  intros [_ _ Hb] ->. unfold udp_sent_match_test, sent_len, sent_pdu. rewrite Hb.
  simpl. destruct (Z.leb_spec (Z.of_nat (length data)) (Z.of_nat (length w)));
    rewrite Nat2Z.id; apply strncmp_total; lia.
Qed.

(** [find_sent] on records whose tests all return, the last of which matches. *)
Lemma find_sent_split test l :
  (∀ x, x ∈ l → ∃ r, test x = Ok r) → (∃ x, x ∈ l ∧ test x = Ok true) →
  ∃ l1 y l2, l = l1 ++ y :: l2 ∧ Forall (λ z, test z = Ok false) l1 ∧ test y = Ok true ∧
    find_sent test l = Ok (Some (length l1, y)) ∧ delete (length l1) l = l1 ++ l2.
Proof.
  induction l as [|x l IH]; intros Ht (z & Hz & Hzt); [by apply elem_of_nil in Hz|].
  destruct (Ht x) as [[] Hx]; [set_solver|..].
  { exists [], x, l. simpl. by rewrite Hx. }
  destruct IH as (l1 & y & l2 & -> & Hf & Hy & E & D); [set_solver| |].
  { exists z. split; [|done]. apply elem_of_cons in Hz as [->|]; [congruence|done]. }
  exists (x :: l1), y, l2. split; [done|]. split; [by constructor|]. split; [done|].
  simpl. rewrite Hx, E. by rewrite D.
Qed.

(** The settings of [sm] can be copied onto [m]. *)
Definition mergeable (sm m : metadata) : Prop :=
  Forall (λ e, match config_setting_get_member m e.1 with Some u => same_type e.2 u = true | None => True end) sm.

Lemma merge_ok sm m : meta_ok sm = true → mergeable sm m → metadata_copy sm m = Ok (true, put_all sm m).
Proof.
  intros [Hn Hc]%andb_true_iff Hm. unfold metadata_copy. erewrite bind_ok.
  2: { apply copy_settings_ok; [|done]. apply Forall_forall. intros e He. split.
       - eapply forallb_forall in Hc; [exact Hc|by apply list_elem_of_In].
       - unfold mergeable in Hm. rewrite Forall_forall in Hm. by apply Hm. }
  by rewrite Z.add_0_l, Z.eqb_refl.
Qed.

Lemma merge_meta_ok sm m : meta_ok sm = true → meta_ok m = true → meta_ok (put_all sm m) = true.
Proof.
  intros [Hn Hc]%andb_true_iff. revert m. induction sm as [|[k v] sm IH]; intros m Hm; [done|].
  simpl in *. apply andb_true_iff in Hn as [[Hk _]%andb_true_iff Hn]. apply andb_true_iff in Hc as [Hv Hc].
  apply IH; [done|done|]. by apply meta_ok_put.
Qed.

Section Udp.
Context {Q : Type} `{BoundedFifo Q finsFrame}.
Abbreviation ST := (mstate Q udp_data) (only parsing).
Context (ip dae : Z).

Definition uready : list finsFrame → nat → udp_data → ST → Prop :=
  rest [(UDP_FLOW_IPV4, ip); (UDP_FLOW_DAEMON, dae)].

(** An error about one of the datagrams sent: the first that matches is
    reported and forgotten. *)
Lemma udp_error_runs xs n d l1 y l2 ff m c sm dir w data :
  let test := udp_sent_match_test (data_len c) data in
  sent_packet_list d = l1 ++ y :: l2 → metaData ff = Some m → meta_ok m = true → body ff = Ctrl c →
  opcode c = CTRL_ERROR → param_id c = UDP_ERROR_DEST_UNREACH →
  kept y sm dir w → mergeable sm m → cdata c = CBytes data →
  find_sent test (l1 ++ y :: l2) = Ok (Some (length l1, y)) →
  delete (length l1) (l1 ++ y :: l2) = l1 ++ l2 →
  runs (uready xs (S n) d) (udp_fcf ff)
    (λ _ s, ∃ i, uready (xs ++ [MkFrame dae (Some (put_all sm m))
       (Ctrl (MkCtrl i (serial_num c) CTRL_ERROR UDP_ERROR_DEST_UNREACH (ret_val c) (Z.of_nat (length w)) (CBytes w)))])
       n (set_sent (l1 ++ l2) d) s).
Proof.
  intros test Hl Hm Hok Hb Hop Hpi [Hsm Hsok Hdd] Hmg Hcd Ef Er.
  unfold udp_fcf. eapply rest_ctrl; [exact Hb|]. rewrite Hop. cbn [Z.eqb CTRL_ALERT CTRL_ERROR].
  change (CTRL_ERROR =? ?x) with (8 =? x). simpl. unfold udp_error. eapply rest_ctrl; [exact Hb|]. rewrite Hpi. simpl.
  unfold udp_error_return. apply rest_get. intros s Hs. rewrite (rs_md _ _ _ _ _ Hs), Hl, Hcd.
  destruct (l1 ++ y :: l2) as [|y' l'] eqn:El; [by destruct l1|].
  eapply rest_lift; [exact Ef|]. cbv iota beta. unfold merge_meta. apply runs_assoc.
  eapply rest_meta; [exact Hm|]. rewrite Hsm, (merge_ok _ _ Hsok Hmg). apply runs_ret_bind.
  eapply rest_data; [exact Hdd|]. cbn [pdu pduLength].
  eapply (rest_send_or_free _ _ _ _ _ _ UDP_FLOW_DAEMON dae); [|done|set_solver|].
  { split; [done|]. eexists. split; [done|]. by apply merge_meta_ok. }
  rewrite Er. apply (rest_modify _ _ _ _ _ (set_sent (l1 ++ l2))). unfold udp_sent_free. apply runs_bind_r, rest_free; [done|].
  apply runs_ret. intros s' Hs'. eexists. rewrite Hpi, Hop in Hs'. exact Hs'.
Qed.

End Udp.

(** ** Properties *)

(** The list of sent datagrams after one more ends with it. *)
Lemma keep_last l x : ∃ l', keep l x = l' ++ [x] ∧ ∀ y, y ∈ l' → y ∈ l.
Proof.
  unfold keep. destruct (_ <? _); [by exists l|]. exists (tail l). split; [done|].
  intros y. destruct l; [done|]. simpl. set_solver.
Qed.

Lemma kept_inv l :
  Z.of_nat (length l) ≤ UDP_SENT_LIST_MAX → Forall (λ y, ∃ sm dy wy, kept y sm dy wy) l → sent_inv l.
Proof.
  intros Hl Hk. split; [done|]. eapply Forall_impl; [exact Hk|]. intros y (sm & dy & wy & [Hm Hok Hb]).
  split; [by rewrite Hb|]. by exists sm.
Qed.

(** The first match among the datagrams remembered once [x] was sent. *)
Lemma first_match l x sm dir w k :
  Forall (λ y, ∃ sm dy wy, kept y sm dy wy) l → kept x sm dir w → (k ≤ length w)%nat →
  let test := udp_sent_match_test (Z.of_nat k) (take k w) in
  ∃ l1 y l2, keep l x = l1 ++ y :: l2 ∧ Forall (λ z, test z = Ok false) l1 ∧ test y = Ok true ∧
    find_sent test (l1 ++ y :: l2) = Ok (Some (length l1, y)) ∧
    delete (length l1) (l1 ++ y :: l2) = l1 ++ l2 ∧
    (Forall (λ z, test z = Ok false) l → y = x) ∧ ∃ sm dy wy, kept y sm dy wy.
Proof.
  intros Hl Hx Hk test. destruct (keep_last l x) as (l' & El & Hsub).
  assert (Hall : ∀ y, y ∈ keep l x → ∃ sm dy wy, kept y sm dy wy).
  { intros y. rewrite El, elem_of_app, list_elem_of_singleton. intros [Hy| ->]; [|eauto].
    rewrite Forall_forall in Hl. by apply Hl, Hsub. }
  assert (Hxt : test x = Ok true).
  { unfold test, udp_sent_match_test, sent_len, sent_pdu. rewrite (kp_body _ _ _ _ Hx). simpl.
    rewrite (proj2 (Z.leb_le _ _)), Nat2Z.id by lia. by apply strncmp_prefix. }
  destruct (find_sent_split test (keep l x)) as (l1 & y & l2 & E & Hf & Hy & Ef & Ed).
  { intros y (sy & dy & wy & Hy)%Hall. eapply match_total; [done|]. rewrite length_take. lia. }
  { exists x. split; [|done]. rewrite El. set_solver. }
  exists l1, y, l2. rewrite <- E. split_and!; try done.
  - intros Hno. assert (y ∈ keep l x) as Hyin by (rewrite E; set_solver).
    rewrite El, elem_of_app, list_elem_of_singleton in Hyin. destruct Hyin as [Hyin|]; [|done].
    rewrite Forall_forall in Hno. specialize (Hno y (Hsub y Hyin)). simpl in Hno. congruence.
  - apply Hall. rewrite E. set_solver.
Qed.

(** C32: a datagram that did not arrive is reported.  The UDP module sends a
    datagram and remembers it.  When a port-unreachable message quotes the header
    of the packet and at least eight bytes of the datagram, the ICMP module hands
    the message to the daemon and an error with the quoted bytes to the UDP
    module, which reports the first remembered datagram that the quoted bytes
    match (compared by [strncmp], so up to a zero byte only) to the daemon, whole
    and with the metadata it was sent with, and forgets exactly that one.  There
    is always such a datagram; it is the one sent when no older one matches.
    Every handler returns, and no other frame is sent. *)
Theorem udp_unreachable_reported {Q} `{BoundedFifo Q finsFrame} `{IcmpEnv} (u : mstate Q udp_data) (i : mstate Q icmp_data)
    ip udp dae xs ys ud id ff m b dir sip sport dip dport :
  uready ip dae xs 2 ud u → Z.of_nat (length (sent_packet_list ud)) ≤ UDP_SENT_LIST_MAX →
  Forall (λ y, ∃ sm dy wy, kept y sm dy wy) (sent_packet_list ud) →
  iready ip udp dae ys 2 id i →
  metaData ff = Some m → meta_ok m = true → int_key m "send_protocol" = true → uout_meta m sip sport dip dport →
  body ff = Data (MkData dir (Z.of_nat (length b)) (Some b)) → is_bytes b → Z.of_nat (length b) + 8 < 65536 →
  let w := dgram sip dip (u16 sport) (u16 dport) b in
  let m' := put_member m "send_protocol" (SInt 17) in
  ∃ u1 out x, udp_out_fdf ff u = Ok (tt, u1) ∧ bf_rep (outq u1) (xs ++ [out]) ∧ destinationID out = ip ∧
    body out = Data (MkData dir (Z.of_nat (length w)) (Some w)) ∧ kept x m' dir w ∧
    sent_packet_list (md u1) = keep (sent_packet_list ud) x ∧
  ∀ f mi di src dst t p1 p2 h k,
    icmp_received f mi di src dst t ICMP_TYPE_DESTUNREACH ICMP_CODE_PORTUNREACH p1 p2 (packet_bytes h ++ take k w) →
    int_key mi "recv_ee_origin" = true → IPV4_HLEN (ip_verlen h) = 20 → ip_proto h = ICMP_PT_UDP →
    (8 ≤ k ≤ length w)%nat →
    let mu := icmp_meta mi ICMP_TYPE_DESTUNREACH ICMP_CODE_PORTUNREACH in
    (∀ y sm, y ∈ sent_packet_list (md u1) → metaData (sent_ff y) = Some sm → mergeable sm mu) →
    let matches y := udp_sent_match_test (Z.of_nat k) (take k w) y in
  ∃ i1 up err u2 rep l1 y l2 sm dy wy, icmp_in_fdf f i = Ok (tt, i1) ∧ bf_rep (outq i1) (ys ++ [up; err]) ∧
    destinationID up = dae ∧ destinationID err = udp ∧
    sent_packet_list (md u1) = l1 ++ y :: l2 ∧ kept y sm dy wy ∧
    Forall (λ z, matches z = Ok false) l1 ∧ matches y = Ok true ∧
    (Forall (λ z, matches z = Ok false) (sent_packet_list ud) → y = x) ∧
    udp_fcf err u1 = Ok (tt, u2) ∧ bf_rep (outq u2) (xs ++ [out; rep]) ∧ destinationID rep = dae ∧
    metaData rep = Some (put_all sm mu) ∧
    (∃ c, body rep = Ctrl c ∧ opcode c = CTRL_ERROR ∧ param_id c = UDP_ERROR_DEST_UNREACH ∧
       data_len c = Z.of_nat (length wy) ∧ cdata c = CBytes wy) ∧
    sent_packet_list (md u2) = l1 ++ l2.
Proof.
  intros Hu Hcap Hkept Hi Hm Hok Hk Ho Hb Hbb Hl w m'.
  pose proof (rs_flow _ _ _ _ _ Hu UDP_FLOW_IPV4 ip ltac:(set_solver)) as Hfl.
  destruct (udp_out_ok ff m (MkData dir (Z.of_nat (length b)) (Some b)) b sip sport dip dport u xs)
    as (u1 & E1 & F1 & M1 & _); try done; [by apply read_bytes_all| |apply Hu| |].
  { rewrite (rs_md _ _ _ _ _ Hu). by apply kept_inv. }
  { rewrite Hfl. eapply room_le; [|apply Hu]. simpl. lia. }
  rewrite Hfl in F1. simpl in F1.
  pose proof (rest_after _ xs 1 ud u u1 [set_dest ip (udp_out_frame ff m dir sip sport dip dport b)] _ Hu F1) as Hu1.
  rewrite M1, (rs_md _ _ _ _ _ Hu) in Hu1. cbn [directionFlag] in Hu1.
  set (x := MkSent (udp_out_frame ff m dir sip sport dip dport b) sip (u16 sport) dip (u16 dport)) in *.
  assert (kept x m' dir w) as Hx.
  { split; [done|by apply meta_ok_put|]. unfold w. by rewrite dgram_length. }
  eexists u1, _, x. split_and!; [exact E1|apply Hu1|done|unfold w; by rewrite dgram_length|done|
    by rewrite (rs_md _ _ _ _ _ Hu1)|].
  intros f mi di src dst t p1 p2 h k Hr Hko Hh Hp Hkw mu Hmg matches.
  assert (length (take k w) = k) as Hlk by (rewrite length_take; lia).
  destruct (icmp_in_runs ip udp dae ys id f mi di src dst t _ _ p1 p2 _ Hr 2
    (λ (_ : unit) (s : mstate Q icmp_data), ∃ j : Z, iready ip udp dae (ys ++ [set_dest dae (noted_origin f mi ICMP_CODE_PORTUNREACH)]
       ++ [set_dest udp (udp_error_frame mi (take k w) ICMP_CODE_PORTUNREACH (u32 (icmp_serial id + 1)) j)]) 0
       (put_serial (u32 (icmp_serial id + 1)) id) s)) with (s := i) as ([] & i1 & E2 & j & Hi1); [|exact Hi|].
  { rewrite in_type_port. eapply handle_error_runs; try done; [lia|].
    intros j. apply runs_ret. intros s Hs. by exists j. }
  set (ef := set_dest udp _) in Hi1.
  destruct (first_match (sent_packet_list ud) x m' dir w k) as (l1 & y & l2 & El & Hf & Hy & Ef & Ed & Hlast & Hky);
    [done..|lia|].
  destruct Hky as (sm & dy & wy & Hky).
  destruct (udp_error_runs ip dae (xs ++ [set_dest ip (udp_out_frame ff m dir sip sport dip dport b)]) 0
    (MkUdp (st_sent (udp_stats ud)) (keep (sent_packet_list ud) x)) l1 y l2 ef mu
    (MkCtrl j (u32 (icmp_serial id + 1)) CTRL_ERROR ICMP_ERROR_DEST_UNREACH 0 (Z.of_nat (length (take k w)))
       (CBytes (take k w))) sm dy wy (take k w)) with (s := u1)
    as ([] & u2 & E3 & j2 & Hu2); try done.
  { apply icmp_meta_ok, Hr. }
  { apply (Hmg y); [|apply Hky]. rewrite (rs_md _ _ _ _ _ Hu1). cbn [sent_packet_list]. rewrite El. set_solver. }
  { cbn [data_len]. by rewrite Hlk. }
  rewrite <- app_assoc in Hu2. eexists i1, _, ef, u2, _, l1, y, l2, sm, dy, wy.
  split_and!; [exact E2|apply Hi1|done|done|by rewrite (rs_md _ _ _ _ _ Hu1)|done|done|done|done|
    exact E3|apply Hu2|done|done|by eexists|by rewrite (rs_md _ _ _ _ _ Hu2)].
Qed.

(** a host-unreachable message is handed on twice.  The branch does not
    return after the error was handled, so the frame, which the daemon already
    owns, is queued for the daemon a second time behind the error for the UDP
    module. *)
Theorem icmp_host_unreachable_twice {Q} `{BoundedFifo Q finsFrame} `{IcmpEnv} (i : mstate Q icmp_data)
    ip udp dae ys id f mi di src dst t p1 p2 h q :
  iready ip udp dae ys 3 id i →
  icmp_received f mi di src dst t ICMP_TYPE_DESTUNREACH ICMP_CODE_HOSTUNREACH p1 p2 (packet_bytes h ++ q) →
  int_key mi "recv_ee_origin" = true → IPV4_HLEN (ip_verlen h) = 20 → ip_proto h = ICMP_PT_UDP → (8 ≤ length q)%nat →
  ∃ i1 up err, icmp_in_fdf f i = Ok (tt, i1) ∧ bf_rep (outq i1) (ys ++ [up; err; up]) ∧
    destinationID up = dae ∧ body up = body f ∧ destinationID err = udp ∧
    (∃ c, body err = Ctrl c ∧ opcode c = CTRL_ERROR ∧ cdata c = CBytes q).
Proof.
  intros Hi Hr Hko Hh Hp Hq.
  destruct (icmp_in_runs ip udp dae ys id f mi di src dst t _ _ p1 p2 _ Hr 3
    (λ (_ : unit) (s : mstate Q icmp_data), ∃ j : Z, iready ip udp dae (ys ++ [set_dest dae (noted_origin f mi ICMP_CODE_HOSTUNREACH)]
       ++ [set_dest udp (udp_error_frame mi q ICMP_CODE_HOSTUNREACH (u32 (icmp_serial id + 1)) j)]
       ++ [set_dest dae (noted_origin f mi ICMP_CODE_HOSTUNREACH)]) 0
       (put_serial (u32 (icmp_serial id + 1)) id) s)) with (s := i) as ([] & i1 & E & j & Hi1); [|exact Hi|].
  - rewrite in_type_host. eapply handle_error_runs; try done. intros j. apply ir_up.
    + pose proof (icmp_noted_ok _ _ _ _ _ _ _ _ _ _ _ Hr) as [Hb _]. split; [exact Hb|]. eexists. split; [done|].
      apply meta_ok_put; [|done..]. apply icmp_meta_ok, Hr.
    + apply runs_ret. intros s Hs. exists j. by rewrite <- !app_assoc in Hs.
  - eexists i1, _, _. split_and!; [exact E|apply Hi1|done|done|done|by eexists].
Qed.

(** the header length quoted in an error is believed.  When the quoted header
    claims fewer than its 20 bytes, the length of the datagram behind it comes
    out too large, and copying it reads behind the end of the received packet. *)
Theorem icmp_quoted_header_trusted {Q} `{BoundedFifo Q finsFrame} `{IcmpEnv} (i : mstate Q icmp_data)
    f mi di src dst t p1 p2 h q :
  icmp_received f mi di src dst t ICMP_TYPE_DESTUNREACH ICMP_CODE_PORTUNREACH p1 p2 (packet_bytes h ++ q) →
  int_key mi "recv_ee_origin" = true → IPV4_HLEN (ip_verlen h) < 20 → ip_proto h = ICMP_PT_UDP → (8 ≤ length q)%nat →
  icmp_in_fdf f i = Segv.
Proof.
  intros Hr Hko Hh Hp Hq. rewrite (icmp_in_eq _ _ _ _ _ _ _ _ _ _ _ Hr), in_type_port.
  assert (0 ≤ IPV4_HLEN (ip_verlen h)) as Hh0.
  { unfold IPV4_HLEN. rewrite Z.shiftl_nonneg. by apply Z.land_nonneg; right. }
  assert (Z.of_nat (length (packet_bytes h ++ q)) = Z.of_nat (length q) + 20) as Hlen.
  { rewrite length_app, packet_bytes_length. lia. }
  assert (Z.of_nat (length q) + 48 < 65536) as Hl by (pose proof (ir_len _ _ _ _ _ _ _ _ _ _ _ Hr); lia).
  unfold icmp_handle_error. rewrite Hlen, (proj2 (Z.ltb_ge _ _)) by (unfold IPV4_MIN_HLEN; lia).
  change (drop 8 (icmp_bytes _ _ _ _ ?x)) with x. unfold mbind, M_bind.
  unfold lift at 1. rewrite read_verlen. unfold lift at 1. rewrite read_proto, Hp.
  change (ICMP_PT_UDP =? ICMP_PT_ICMP) with false. change (ICMP_PT_UDP =? ICMP_PT_UDP) with true. cbv iota.
  rewrite u16_small by (unfold is_u16; lia). rewrite (proj2 (Z.ltb_ge _ _)) by (unfold UDP_FRAG_SIZE; lia).
  set (noted := icmp_noted _ _ _ _). set (m1 := icmp_meta mi ICMP_TYPE_DESTUNREACH ICMP_CODE_PORTUNREACH).
  assert (meta_ok m1 = true) as Hm1 by (apply icmp_meta_ok, Hr).
  unfold icmp_error_udp. rewrite (bind_ok _ _ _ m1 i) by done.
  rewrite (bind_ok _ _ _ m1 i) by (unfold lift, metadata_clone; by rewrite (meta_ok_copy _ Hm1)).
  erewrite bind_ok; [|apply ff_write_ok; [done|by do 2 apply int_key_put]].
  erewrite bind_ok; [|unfold icmp_gen_serial; done].
  unfold mbind, M_bind, lift at 1. rewrite (drop_app_length' (packet_bytes h)) by done.
  unfold read_bytes. rewrite (proj2 (Z.eqb_neq _ _)), (proj2 (Z.leb_gt _ _)) by lia. done.
Qed.

(** ** A concrete datagram *)

(** Module 7, whose flows lead to modules 3 (IPv4), 5 (ICMP) and 8 (daemon). *)
Definition demo_udp7 : mstate (QueueRecord finsFrame) udp_data :=
  MkSt (MkMod FMS_RUNNING 3 7 7 (init_queue 10) (init_queue 10))
    (MkTable (Some [1; 2; 3]) 3 [MkFlow 1 1; MkFlow 2 2; MkFlow 3 3]) (MkUdp (MkUStats 0 0 0 0 0 0 0) [])
    (MkStore {[1 := MkLink 1 7 1 [3]; 2 := MkLink 2 7 1 [5]; 3 := MkLink 3 7 1 [8]]} 4) [] 0.

Lemma demo_udp7_ready n : (n ≤ 10)%nat → uready 3 8 [] n (md demo_udp7) demo_udp7.
Proof.
  intros Hn. split; [done| | |].
  - split; simpl; [lia| |].
    + intros l [= <-]. split; [repeat constructor; set_solver|].
      repeat constructor; (eexists; split; [vm_compute; reflexivity|simpl; lia]).
    + intros i f Hi Hf. exists [1; 2; 3]. split; [done|].
      destruct i as [|[|[|i]]]; try lia; injection Hf as <-; vm_compute; reflexivity.
  - split; [apply create_qrep; lia|]. simpl. lia.
  - intros f dst. rewrite !elem_of_cons, elem_of_nil. intros [[= -> ->]|[[= -> ->]|[]]]; reflexivity.
Qed.

(** From port 4660 of 192.168.1.1 to port 69 of 192.168.1.2. *)
Definition demo_dgram : list Z := dgram 3232235777 3232235778 (u16 4660) (u16 69) [7; 8; 9].
Definition demo_dgram_meta : metadata :=
  [("send_family", SInt AF_INET); ("send_src_ipv4", SInt (s32 3232235777)); ("send_src_port", SInt 4660);
   ("send_dst_ipv4", SInt (s32 3232235778)); ("send_dst_port", SInt 69)].
Definition demo_payload : finsFrame :=
  MkFrame 7 (Some demo_dgram_meta) (Data (MkData DIR_DOWN 3 (Some [7; 8; 9]))).

(** The quoted header, with the given first byte. *)
Definition demo_quoted (verlen : Z) : ip4_packet :=
  MkPacket verlen 0 0 0 0 255 ICMP_PT_UDP 0 (htonl 3232235777) (htonl 3232235778).
Definition demo_icmp_meta : metadata := recv_meta [] ICMP_PT_ICMP AF_INET 3232235778 3232235777.

(** The message of the other host about it, as the IPv4 module delivers it. *)
Definition demo_unreach (code verlen : Z) : finsFrame :=
  MkFrame 5 (Some demo_icmp_meta)
    (Data (MkData DIR_UP 56 (Some (icmp_packet 3232235778 3232235777 64 ICMP_TYPE_DESTUNREACH code 0 0
       (packet_bytes (demo_quoted verlen) ++ take 8 demo_dgram))))).

Lemma demo_unreach_received code verlen :
  (0 <=? code) && (code <=? 255) = true → (0 <=? verlen) && (verlen <=? 255) = true →
  icmp_received (demo_unreach code verlen) demo_icmp_meta DIR_UP 3232235778 3232235777 64
    ICMP_TYPE_DESTUNREACH code 0 0 (packet_bytes (demo_quoted verlen) ++ take 8 demo_dgram).
Proof.
  intros Hc Hv. assert (∀ x, 0 ≤ x ≤ 255 → is_u8 x) as U8 by (unfold is_u8; lia).
  assert (is_u8 code ∧ is_u8 verlen) as [Hc8 Hv8] by (unfold is_u8; lia).
  split; try done; [by apply U8..|]. apply Forall_app. split.
  - apply packet_bytes_u8. split; try done; by apply U8.
  - apply Forall_take, Forall_app. split; [apply udp_bytes_u8|]. repeat constructor; by apply U8.
Qed.

Definition demo_icmp5 : mstate (QueueRecord finsFrame) icmp_data := demo_icmp (MkIcmpData None [] 0).

(** Witness of C32. *)
Lemma udp_unreachable_reported_witness :
  ∃ u1 out i1 up err u2 rep, udp_out_fdf demo_payload demo_udp7 = Ok (tt, u1) ∧ bf_rep (outq u1) [out] ∧
    icmp_in_fdf (H0 := demo_icmp_env) (demo_unreach ICMP_CODE_PORTUNREACH 69) demo_icmp5 = Ok (tt, i1) ∧
    bf_rep (outq i1) [up; err] ∧ destinationID err = 7 ∧
    udp_fcf err u1 = Ok (tt, u2) ∧ bf_rep (outq u2) [out; rep] ∧ destinationID rep = 8 ∧
    (∃ c, body rep = Ctrl c ∧ cdata c = CBytes demo_dgram) ∧ sent_packet_list (md u2) = [].
Proof.
  destruct (udp_unreachable_reported (H0 := demo_icmp_env) demo_udp7 demo_icmp5 3 7 8 [] [] (md demo_udp7) (md demo_icmp5)
    demo_payload demo_dgram_meta [7; 8; 9] DIR_DOWN 3232235777 4660 3232235778 69)
    as (u1 & out & x & E1 & Q1 & _ & _ & Hx & L1 & Hin);
    [apply demo_udp7_ready; lia|by vm_compute|constructor|apply demo_icmp_ready; lia|reflexivity..| |reflexivity| |reflexivity|].
  - split; try reflexivity. by eexists.
  - repeat constructor; vm_compute; discriminate.
  - destruct (Hin (demo_unreach ICMP_CODE_PORTUNREACH 69) demo_icmp_meta DIR_UP 3232235778 3232235777 64 0 0
      (demo_quoted 69) 8%nat) as (i1 & up & err & u2 & rep & l1 & y & l2 & sm & dy & wy & E2 & Q2 & _ & D2 & El & Hy & _ & _ &
        Hyx & E3 & Q3 & D3 & _ & (c & B3 & _ & _ & _ & C3) & L3).
    + pose proof (demo_unreach_received ICMP_CODE_PORTUNREACH 69) as Hd. unfold demo_dgram in Hd.
      apply Hd; reflexivity.
    + reflexivity.
    + reflexivity.
    + reflexivity.
    + split; [lia|]. rewrite <- (Nat2Z.id (length _)), dgram_length. simpl. lia.
    + rewrite L1. intros y sm Hy Hm. apply list_elem_of_singleton in Hy as ->.
      rewrite (kp_meta _ _ _ _ Hx) in Hm. injection Hm as <-. repeat constructor.
    + assert (y = x) as -> by (apply Hyx; constructor). pose proof (kp_body _ _ _ _ Hx) as Bx.
      rewrite (kp_body _ _ _ _ Hy) in Bx. injection Bx as _ _ ->.
      exists u1, out, i1, up, err, u2, rep. clear Hin. split_and!; try assumption; [exists c; by split|].
      rewrite L3. rewrite L1 in El. by destruct l1 as [|? [|??]], l2.
Defined.

(** An instance. *)
Lemma icmp_host_unreachable_twice_witness :
  ∃ i1 up err, icmp_in_fdf (H0 := demo_icmp_env) (demo_unreach ICMP_CODE_HOSTUNREACH 69) demo_icmp5 = Ok (tt, i1) ∧
    bf_rep (outq i1) [up; err; up] ∧ destinationID up = 8 ∧ body up = body (demo_unreach ICMP_CODE_HOSTUNREACH 69) ∧
    destinationID err = 7 ∧ (∃ c, body err = Ctrl c ∧ opcode c = CTRL_ERROR ∧ cdata c = CBytes (take 8 demo_dgram)).
Proof.
  refine (icmp_host_unreachable_twice (H0 := demo_icmp_env) demo_icmp5 3 7 8 [] (md demo_icmp5)
    (demo_unreach ICMP_CODE_HOSTUNREACH 69) demo_icmp_meta DIR_UP 3232235778 3232235777 64 0 0 (demo_quoted 69)
    (take 8 demo_dgram) _ _ _ _ _ _); try done.
  - apply demo_icmp_ready. lia.
  - apply demo_unreach_received; reflexivity.
Defined.

(** An instance: a quoted header of length 0. *)
Lemma icmp_quoted_header_trusted_witness :
  icmp_in_fdf (H0 := demo_icmp_env) (demo_unreach ICMP_CODE_PORTUNREACH 64) demo_icmp5 = Segv.
Proof.
  apply (icmp_quoted_header_trusted (H0 := demo_icmp_env) demo_icmp5 _ demo_icmp_meta DIR_UP 3232235778 3232235777 64 0 0
    (demo_quoted 64) (take 8 demo_dgram)); try done.
  apply demo_unreach_received; reflexivity.
Defined.
