(* ===== verification/Arp.v ===== *)
(** * The ARP module ([modules/arp/arp.c], [arp_in_out.c])

    Messages, their encoding, the cache of neighbours with the requests that
    wait for an address, and the handlers.  A cache entry is a heap object that
    is in the list of entries and nowhere else, so the list holds the objects
    with their addresses.  The list functions on it are those of
    [LinkedList.v], on lists. *)

From stdpp Require Import base list gmap strings.
From Stdlib Require Import ZArith Lia.
From S2P Require Import Prelude Queue Metadata Frame Module IPv4 Double Run.
Open Scope Z_scope.
Open Scope fins_scope.

Definition ARP_OP_REQUEST := 1.
Definition ARP_OP_REPLY := 2.
Definition ARP_HWD_TYPE := 1.
Definition ARP_PROTOCOL_TYPE := 2048.
Definition ARP_HDW_ADDR_LEN := 6.
Definition ARP_PROTOCOL_ADDR_LEN := 4.
Definition ARP_TYPE := 2054.
Definition ARP_MAC_BROADCAST := 281474976710655.
Definition ARP_MAC_NULL := 0.
Definition ARP_IP_NULL := 0.
Definition ARP_IF_LIST_MAX := 256.
Definition ARP_REQUEST_LIST_MAX := 131072.
Definition ARP_RETRANS_TO_DEFAULT := 1000.
Definition ARP_CACHE_TO_DEFAULT := 50000.
Definition ARP_RETRIES := 2.
Definition ARP_CACHE_LIST_MAX := 8192.
Definition ARP_FLOW_INTERFACE := 0.
Definition ARP_EXEC_GET_ADDR := 0.
Definition ARP_SET_PARAM_FLOWS := 0.
Definition ARP_SET_PARAM_LINKS := 1.
Definition ARP_SET_PARAM_DUAL := 2.

(** ** Addresses and messages *)

Definition gen_MAC_addrs (a b c d e f : Z) : Z :=
  u64 (1099511627776 * a + 4294967296 * b + 16777216 * c + 65536 * d + 256 * e + f).
Definition gen_IP_addrs (a b c d : Z) : Z := u32 (16777216 * a + 65536 * b + 256 * c + d).

Definition MAC_addrs_conversion (x : Z) : list Z :=
  [ u8 (Z.shiftr (Z.land x (Z.shiftl 255 40)) 40); u8 (Z.shiftr (Z.land x (Z.shiftl 255 32)) 32);
    u8 (Z.shiftr (Z.land x (Z.shiftl 255 24)) 24); u8 (Z.shiftr (Z.land x (Z.shiftl 255 16)) 16);
    u8 (Z.shiftr (Z.land x (Z.shiftl 255 8)) 8); u8 (Z.land x 255) ].
Definition IP_addrs_conversion (x : Z) : list Z :=
  [ u8 (Z.shiftr (Z.land x (Z.shiftl 255 24)) 24); u8 (Z.shiftr (Z.land x (Z.shiftl 255 16)) 16);
    u8 (Z.shiftr (Z.land x (Z.shiftl 255 8)) 8); u8 (Z.land x 255) ].

Record arp_message := MkArp {
  hardware_type : Z; protocol_type : Z; hardware_addrs_length : Z; protocol_addrs_length : Z;
  operation : Z; sender_MAC_addrs : Z; sender_IP_addrs : Z; target_MAC_addrs : Z;
  target_IP_addrs : Z
}.

Definition gen_requestARP (sender_mac sender_ip target_mac target_ip : Z) : arp_message :=
  MkArp ARP_HWD_TYPE ARP_PROTOCOL_TYPE ARP_HDW_ADDR_LEN ARP_PROTOCOL_ADDR_LEN ARP_OP_REQUEST
    sender_mac sender_ip target_mac target_ip.
Definition gen_replyARP (sender_mac sender_ip target_mac target_ip : Z) : arp_message :=
  MkArp ARP_HWD_TYPE ARP_PROTOCOL_TYPE ARP_HDW_ADDR_LEN ARP_PROTOCOL_ADDR_LEN ARP_OP_REPLY
    sender_mac sender_ip target_mac target_ip.

Definition check_valid_arp (msg : arp_message) : bool :=
  (hardware_type msg =? ARP_HWD_TYPE)
  && ((operation msg =? ARP_OP_REQUEST) || (operation msg =? ARP_OP_REPLY))
  && (hardware_addrs_length msg =? ARP_HDW_ADDR_LEN)
  && (protocol_addrs_length msg =? ARP_PROTOCOL_ADDR_LEN)
  && (protocol_type msg =? ARP_PROTOCOL_TYPE)
  && negb (sender_MAC_addrs msg =? ARP_MAC_NULL)
  && negb (sender_IP_addrs msg =? ARP_IP_NULL) && negb (target_IP_addrs msg =? ARP_IP_NULL).

(** [struct arp_hdr]: 28 bytes without padding. *)
Definition arp_hdr_len := 28.
Definition arp_hdr (msg : arp_message) : list Z :=
  le_bytes 2 (htons (hardware_type msg)) ++ le_bytes 2 (htons (protocol_type msg))
  ++ [hardware_addrs_length msg; protocol_addrs_length msg] ++ le_bytes 2 (htons (operation msg))
  ++ MAC_addrs_conversion (sender_MAC_addrs msg) ++ IP_addrs_conversion (sender_IP_addrs msg)
  ++ MAC_addrs_conversion (target_MAC_addrs msg) ++ IP_addrs_conversion (target_IP_addrs msg).

Definition arp_to_fdf (msg : arp_message) : res finsFrame :=
  match (secure_metadata_writeToElement "send_ether_type" (VInt32 ARP_TYPE) ;;
         secure_metadata_writeToElement "send_dst_mac" (VInt64 (target_MAC_addrs msg)) ;;
         secure_metadata_writeToElement "send_src_mac" (VInt64 (sender_MAC_addrs msg))) [] with
  | Ok (_, m) => Ok (MkFrame 0 (Some m) (Data (MkData DIR_DOWN arp_hdr_len (Some (arp_hdr msg)))))
  | Segv => Segv | Exit => Exit | NoFuel => NoFuel
  end.

(** The message in the first 28 bytes. *)
Definition parse_arp (b : list Z) : res arp_message :=
  match b with
  | [h0; h1; p0; p1; hl; pl; o0; o1; m0; m1; m2; m3; m4; m5; i0; i1; i2; i3;
     n0; n1; n2; n3; n4; n5; j0; j1; j2; j3] =>
      Ok (MkArp (ntohs (le_value [h0; h1])) (ntohs (le_value [p0; p1])) hl pl
            (ntohs (le_value [o0; o1])) (gen_MAC_addrs m0 m1 m2 m3 m4 m5)
            (gen_IP_addrs i0 i1 i2 i3) (gen_MAC_addrs n0 n1 n2 n3 n4 n5)
            (gen_IP_addrs j0 j1 j2 j3))
  | _ => Segv
  end.

(** ** Cache entries and requests *)

Record arp_request := MkARq { rq_ff : finsFrame; rq_src_mac : Z; rq_src_ip : Z }.

(** [ac_addr] is the address of the object, [ac_timer] the timer behind
    [to_data]. *)
Record arp_cache := MkCache {
  ac_addr : Z; ac_mac : Z; ac_ip : Z; ac_requests : list arp_request; ac_seeking : bool;
  ac_updated : timeval; ac_timer : itimer; ac_to_flag : bool; ac_retries : Z
}.

Definition set_requests (l : list arp_request) (k : arp_cache) : arp_cache :=
  MkCache (ac_addr k) (ac_mac k) (ac_ip k) l (ac_seeking k) (ac_updated k) (ac_timer k)
    (ac_to_flag k) (ac_retries k).
Definition set_timer (t : itimer) (k : arp_cache) : arp_cache :=
  MkCache (ac_addr k) (ac_mac k) (ac_ip k) (ac_requests k) (ac_seeking k) (ac_updated k) t
    (ac_to_flag k) (ac_retries k).
Definition set_to_flag (b : bool) (k : arp_cache) : arp_cache :=
  MkCache (ac_addr k) (ac_mac k) (ac_ip k) (ac_requests k) (ac_seeking k) (ac_updated k)
    (ac_timer k) b (ac_retries k).
Definition set_retries (n : Z) (k : arp_cache) : arp_cache :=
  MkCache (ac_addr k) (ac_mac k) (ac_ip k) (ac_requests k) (ac_seeking k) (ac_updated k)
    (ac_timer k) (ac_to_flag k) n.
Definition set_updated (t : timeval) (k : arp_cache) : arp_cache :=
  MkCache (ac_addr k) (ac_mac k) (ac_ip k) (ac_requests k) (ac_seeking k) t (ac_timer k)
    (ac_to_flag k) (ac_retries k).
Definition set_seeking (b : bool) (k : arp_cache) : arp_cache :=
  MkCache (ac_addr k) (ac_mac k) (ac_ip k) (ac_requests k) b (ac_updated k) (ac_timer k)
    (ac_to_flag k) (ac_retries k).
Definition set_mac (m : Z) (k : arp_cache) : arp_cache :=
  MkCache (ac_addr k) m (ac_ip k) (ac_requests k) (ac_seeking k) (ac_updated k) (ac_timer k)
    (ac_to_flag k) (ac_retries k).

(** What the operating system supplies: the [n]-th result of [gettimeofday()]. *)
Class ArpEnv := { arp_clock : Z → timeval }.

(** [to_flag] is not set: [secure_malloc] clears the memory it returns. *)
Definition arp_cache_create (addr ip : Z) : arp_cache :=
  MkCache addr ARP_MAC_NULL ip [] false (0, 0) None false 0.
Definition arp_cache_shutdown (k : arp_cache) : arp_cache := set_timer timer_stop k.
Definition arp_cache_ip_test (ip : Z) (k : arp_cache) : bool := ac_ip k =? ip.
Definition arp_cache_non_seeking_test (k : arp_cache) : bool := negb (ac_seeking k).

(** [struct arp_data]; addresses from [arp_brk] on are unused. *)
Record arp_data := MkArpData {
  arp_if_list : list if_record; cache_list : list arp_cache; interrupt_flag : bool;
  arp_clocks : Z; arp_brk : Z
}.
Definition put_cache (l : list arp_cache) (d : arp_data) : arp_data :=
  MkArpData (arp_if_list d) l (interrupt_flag d) (arp_clocks d) (arp_brk d).
Definition put_interrupt (b : bool) (d : arp_data) : arp_data :=
  MkArpData (arp_if_list d) (cache_list d) b (arp_clocks d) (arp_brk d).
Definition put_counters (clocks brk : Z) (d : arp_data) : arp_data :=
  MkArpData (arp_if_list d) (cache_list d) (interrupt_flag d) clocks brk.

(** The entry at an address. *)
Definition at_addr (a : Z) (k : arp_cache) : bool := ac_addr k =? a.
Definition upd_entry (a : Z) (f : arp_cache → arp_cache) (l : list arp_cache) : list arp_cache :=
  (λ k, if at_addr a k then f k else k) <$> l.
Definition del_entry (a : Z) (l : list arp_cache) : list arp_cache :=
  filter (λ k, at_addr a k = false) l.

Section Arp.
Context {Q : Type} `{BoundedFifo Q finsFrame} `{ArpEnv}.
Abbreviation ST := (mstate Q arp_data) (only parsing).

Definition aget : M ST arp_data := s ← get; mret (md s).
Definition amod (f : arp_data → arp_data) : M ST unit := modify (λ s, set_md (f (md s)) s).
Definition emod (a : Z) (f : arp_cache → arp_cache) : M ST unit :=
  amod (λ d, put_cache (upd_entry a f (cache_list d)) d).
Definition arp_gettimeofday : M ST timeval :=
  d ← aget; amod (put_counters (arp_clocks d + 1) (arp_brk d)) ;; mret (arp_clock (arp_clocks d)).
Definition arp_malloc : M ST Z :=
  d ← aget; amod (put_counters (arp_clocks d) (arp_brk d + 1)) ;; mret (arp_brk d).
Definition arp_start (a ms : Z) : M ST unit :=
  t ← lift (timer_once_start (d_of_Z ms)); emod a (set_timer t).

(** [module_send_flow(...) > 0], else the frame is released. *)
Definition arp_send (msg : arp_message) : M ST bool :=
  ff ← lift (arp_to_fdf msg);
  sent ← module_send_flow ff ARP_FLOW_INTERFACE;
  if 0 <? sent then mret true else free_ff ff ;; mret false.

Definition fdf_to_arp (ff : finsFrame) : M ST (option arp_message) :=
  d ← ff_data ff;
  if pduLength d <? arp_hdr_len then mret None
  else
    b ← lift (read_bytes (pdu d) arp_hdr_len);
    msg ← lift (parse_arp b);
    mret (Some msg).

(** The request [ff] is answered with the address [dst_mac]. *)
Definition arp_answer (ff : finsFrame) (dst_mac : Z) : M ST unit :=
  ff ← ff_write ff "dst_mac" (VInt64 dst_mac);
  c ← ff_ctrl ff;
  s ← get;
  module_to_switch
    (MkFrame (sender_id c) (metaData ff)
       (Ctrl (MkCtrl (u8 (m_index (fm s))) (serial_num c) CTRL_EXEC_REPLY (param_id c) FCF_TRUE
                (data_len c) (cdata c)))).

(** [while (!list_is_empty(request_list)) { ... }]: the requests are taken off
    one by one and answered, positively or negatively. *)
Fixpoint answer_all (l : list arp_request) (dst_mac : Z) : M ST unit :=
  match l with
  | [] => mret tt
  | r :: l => arp_answer (rq_ff r) dst_mac ;; answer_all l dst_mac
  end.
Fixpoint refuse_all (l : list arp_request) : M ST unit :=
  match l with
  | [] => mret tt
  | r :: l => module_reply_fcf (rq_ff r) FCF_FALSE 0 ;; refuse_all l
  end.

Definition find_cache (ip : Z) : M ST (option arp_cache) :=
  d ← aget; mret (find_first (arp_cache_ip_test ip) (cache_list d)).
Definition find_if (ip : Z) : M ST (option if_record) :=
  d ← aget; mret (find_first (ifr_ipv4_test ip) (arp_if_list d)).

(** Appends the request when the list of the entry has room. *)
Definition add_request (k : arp_cache) (ff : finsFrame) (src_mac src_ip : Z) : M ST unit :=
  if Z.of_nat (length (ac_requests k)) <? ARP_REQUEST_LIST_MAX then
    emod (ac_addr k) (λ k, set_requests (ac_requests k ++ [MkARq ff src_mac src_ip]) k)
  else module_reply_fcf ff FCF_FALSE 0.

(** The entry starts to look for its address. *)
Definition start_seeking (a : Z) : M ST unit :=
  emod a (λ k, set_retries 0 (set_seeking true k)) ;;
  now ← arp_gettimeofday;
  emod a (set_updated now) ;;
  arp_start a ARP_RETRANS_TO_DEFAULT.

(** Room in the cache: the first entry that is not looking for its address is
    dropped; false when there is none. *)
Definition make_room : M ST bool :=
  d ← aget;
  if Z.of_nat (length (cache_list d)) <? ARP_CACHE_LIST_MAX then mret true
  else
    match find_first arp_cache_non_seeking_test (cache_list d) with
    | Some k =>
        amod (λ d, put_cache (del_entry (ac_addr k) (cache_list d)) d) ;;
        refuse_all (ac_requests k) ;;
        mret true
    | None => mret false
    end.

Definition get_addr_cached (k : arp_cache) (ff : finsFrame) (src_mac src_ip dst_ip : Z) : M ST unit :=
  if ac_seeking k then add_request k ff src_mac src_ip
  else
    current ← arp_gettimeofday;
    if d_le (time_diff (ac_updated k) current) (d_of_Z ARP_CACHE_TO_DEFAULT) then
      arp_answer ff (ac_mac k)
    else
      sent ← arp_send (gen_requestARP src_mac src_ip (ac_mac k) dst_ip);
      if sent : bool then
        start_seeking (ac_addr k) ;;
        add_request k ff src_mac src_ip
      else module_reply_fcf ff FCF_FALSE 0.

Definition get_addr_new (ff : finsFrame) (src_mac src_ip dst_ip : Z) : M ST unit :=
  sent ← arp_send (gen_requestARP src_mac src_ip ARP_MAC_BROADCAST dst_ip);
  if sent : bool then
    space ← make_room;
    if space : bool then
      a ← arp_malloc;
      amod (λ d, put_cache (cache_list d ++ [arp_cache_create a dst_ip]) d) ;;
      start_seeking a ;;
      emod a (λ k, set_requests (ac_requests k ++ [MkARq ff src_mac src_ip]) k)
    else module_reply_fcf ff FCF_FALSE 0
  else module_reply_fcf ff FCF_FALSE 0.

Definition arp_exec_get_addr (ff : finsFrame) (src_ip dst_ip : Z) : M ST unit :=
  ifr ← find_if src_ip;
  match ifr with
  | Some ifr =>
      let src_mac := if_mac ifr in
      ff ← ff_write ff "src_mac" (VInt64 src_mac);
      k ← find_cache dst_ip;
      match k with
      | Some k => get_addr_cached k ff src_mac src_ip dst_ip
      | None => get_addr_new ff src_mac src_ip dst_ip
      end
  | None => module_reply_fcf ff FCF_FALSE 0
  end.

(** A reply: the entry gets its address and its requests are answered. *)
Definition arp_reply_in (src_ip src_mac : Z) : M ST unit :=
  k ← find_cache src_ip;
  match k with
  | Some k =>
      if ac_seeking k then
        emod (ac_addr k) (λ k, set_to_flag false (set_timer timer_stop k)) ;;
        now ← arp_gettimeofday;
        emod (ac_addr k) (λ k, set_requests [] (set_mac src_mac (set_seeking false (set_updated now k)))) ;;
        answer_all (ac_requests k) src_mac
      else mret tt
  | None => mret tt
  end.

Definition arp_in_fdf (ff : finsFrame) : M ST unit :=
  msg ← fdf_to_arp ff;
  (match msg with
   | Some msg =>
       if check_valid_arp msg then
         ifr ← find_if (target_IP_addrs msg);
         match ifr with
         | Some ifr =>
             if operation msg =? ARP_OP_REQUEST then
               arp_send (gen_replyARP (if_mac ifr) (target_IP_addrs msg)
                           (sender_MAC_addrs msg) (sender_IP_addrs msg)) ;;
               mret tt
             else arp_reply_in (sender_IP_addrs msg) (sender_MAC_addrs msg)
         | None => mret tt
         end
       else mret tt
   | None => mret tt
   end) ;;
  free_ff ff.

(** ** Time-outs *)

Definition arp_handle_to (k : arp_cache) : M ST unit :=
  if ac_seeking k then
    if ac_retries k <? ARP_RETRIES then
      match ac_requests k with
      | [] => mret tt
      | r :: _ =>
          sent ← arp_send (gen_requestARP (rq_src_mac r) (rq_src_ip r) ARP_MAC_BROADCAST (ac_ip k));
          if sent : bool then
            emod (ac_addr k) (λ k, set_retries (ac_retries k + 1) k) ;;
            arp_start (ac_addr k) ARP_RETRANS_TO_DEFAULT
          else mret tt
      end
    else
      refuse_all (ac_requests k) ;;
      amod (λ d, put_cache (del_entry (ac_addr k) (cache_list d)) d)
  else mret tt.

Definition arp_to_func (k : arp_cache) : M ST unit :=
  if ac_to_flag k then emod (ac_addr k) (set_to_flag false) ;; arp_handle_to k else mret tt.

(** [list_for_each1(cache_list, arp_to_func, module)]: an entry removes at most
    itself, so the walk visits the entries there were. *)
Fixpoint arp_to_all (l : list arp_cache) : M ST unit :=
  match l with
  | [] => mret tt
  | k :: l => arp_to_func k ;; arp_to_all l
  end.
Definition arp_interrupt : M ST unit := d ← aget; arp_to_all (cache_list d).

(** The timer of an entry expires ([intsem_to_handler]). *)
Definition arp_expire (a : Z) : M ST unit :=
  amod (put_interrupt true) ;; emod a (λ k, set_to_flag true (set_timer None k)).

(** ** Control messages and the main loop *)

Definition arp_set_param (ff : finsFrame) : M ST unit :=
  c ← ff_ctrl ff;
  if param_id c =? ARP_SET_PARAM_FLOWS then module_set_param_flows ff
  else if param_id c =? ARP_SET_PARAM_LINKS then module_set_param_links ff
  else if param_id c =? ARP_SET_PARAM_DUAL then module_set_param_dual ff
  else module_reply_fcf ff FCF_FALSE 0.

Definition arp_exec (ff : finsFrame) : M ST unit :=
  c ← ff_ctrl ff;
  if param_id c =? ARP_EXEC_GET_ADDR then
    src_ip ← ff_read ff "src_ip";
    dst_ip ← ff_read ff "dst_ip";
    arp_exec_get_addr ff src_ip dst_ip
  else module_reply_fcf ff FCF_FALSE 0.

Definition arp_fcf (ff : finsFrame) : M ST unit :=
  c ← ff_ctrl ff;
  if opcode c =? CTRL_ALERT then module_reply_fcf ff FCF_FALSE 0
  else if opcode c =? CTRL_ALERT_REPLY then free_ff ff
  else if opcode c =? CTRL_READ_PARAM then module_reply_fcf ff FCF_FALSE 0
  else if opcode c =? CTRL_READ_PARAM_REPLY then free_ff ff
  else if opcode c =? CTRL_SET_PARAM then arp_set_param ff
  else if opcode c =? CTRL_SET_PARAM_REPLY then free_ff ff
  else if opcode c =? CTRL_EXEC then arp_exec ff
  else if opcode c =? CTRL_EXEC_REPLY then free_ff ff
  else if opcode c =? CTRL_ERROR then free_ff ff
  else exit_.

(** The loop waits until there is a frame or a time-out; [events] is the number
    of events posted, [NoFuel] means waiting for another one. *)
Fixpoint arp_get_ff (events : nat) : M ST unit :=
  match events with
  | O => nofuel
  | S events =>
      r ← read_input;
      s ← get;
      if decide (m_state (fm s) = FMS_RUNNING) then
        match r with
        | Some ff => frame_dispatch arp_fcf arp_in_fdf free_ff ff
        | None =>
            if interrupt_flag (md s) then amod (put_interrupt false) ;; arp_interrupt
            else arp_get_ff events
        end
      else match r with Some ff => free_ff ff | None => mret tt end
  end.

End Arp.
