(* ===== verification/ArpFacts.v ===== *)
(** * ARP: encoding, the cache invariant, resolution *)

From stdpp Require Import base list gmap strings.
From Stdlib Require Import ZArith Lia.
From S2P Require Import Prelude Queue Metadata Frame Module IPv4 Double Run Arp.
Open Scope Z_scope.
Open Scope fins_scope.

(** ** Encoding *)

Lemma byte_at x k : 0 ≤ k → Z.shiftr (Z.land x (Z.shiftl 255 k)) k = (x / 2 ^ k) mod 256.
Proof.
  intros Hk. rewrite Z.shiftr_land, Z.shiftr_shiftl_l, Z.sub_diag by lia.
  change (Z.shiftl 255 0) with (Z.ones 8). rewrite Z.land_ones, Z.shiftr_div_pow2 by lia. done.
Qed.
Lemma byte_last x : Z.land x 255 = x mod 256.
Proof. change 255 with (Z.ones 8). by rewrite Z.land_ones by lia. Qed.

Lemma u8_mod x : u8 (x mod 256) = x mod 256.
Proof. unfold u8. by rewrite Zmod_mod. Qed.

Definition is_mac (x : Z) : Prop := 0 ≤ x < 281474976710656.

Lemma IP_addrs_bytes x :
  IP_addrs_conversion x = [(x / 16777216) mod 256; (x / 65536) mod 256; (x / 256) mod 256; x mod 256].
Proof. unfold IP_addrs_conversion. by rewrite !byte_at, byte_last, !u8_mod by lia. Qed.
Lemma MAC_addrs_bytes x :
  MAC_addrs_conversion x =
  [(x / 1099511627776) mod 256; (x / 4294967296) mod 256; (x / 16777216) mod 256;
   (x / 65536) mod 256; (x / 256) mod 256; x mod 256].
Proof. unfold MAC_addrs_conversion. by rewrite !byte_at, byte_last, !u8_mod by lia. Qed.

Lemma gen_IP_conversion x : is_u32 x →
  gen_IP_addrs ((x / 16777216) mod 256) ((x / 65536) mod 256) ((x / 256) mod 256) (x mod 256) = x.
Proof. unfold gen_IP_addrs, u32, is_u32. intros. Z.div_mod_to_equations. lia. Qed.
Lemma gen_MAC_conversion x : is_mac x →
  gen_MAC_addrs ((x / 1099511627776) mod 256) ((x / 4294967296) mod 256) ((x / 16777216) mod 256)
    ((x / 65536) mod 256) ((x / 256) mod 256) (x mod 256) = x.
Proof.
  unfold gen_MAC_addrs, u64, is_mac. intros Hx.
  replace (x / 1099511627776) with (x / 256 / 256 / 256 / 256 / 256) by (rewrite !Z.div_div by lia; done).
  replace (x / 4294967296) with (x / 256 / 256 / 256 / 256) by (rewrite !Z.div_div by lia; done).
  replace (x / 16777216) with (x / 256 / 256 / 256) by (rewrite !Z.div_div by lia; done).
  replace (x / 65536) with (x / 256 / 256) by (rewrite !Z.div_div by lia; done).
  Z.div_mod_to_equations. lia.
Qed.

(** The fields fit their types. *)
Record arp_ok (msg : arp_message) : Prop := {
  ao_hw : is_u16 (hardware_type msg); ao_pr : is_u16 (protocol_type msg); ao_op : is_u16 (operation msg);
  ao_smac : is_mac (sender_MAC_addrs msg); ao_sip : is_u32 (sender_IP_addrs msg);
  ao_tmac : is_mac (target_MAC_addrs msg); ao_tip : is_u32 (target_IP_addrs msg)
}.

Lemma arp_hdr_length msg : length (arp_hdr msg) = 28%nat.
Proof. done. Qed.

Lemma parse_hdr msg : arp_ok msg → parse_arp (arp_hdr msg) = Ok msg.
Proof.
  intros [? ? ? ? ? ? ?]. unfold arp_hdr. rewrite !IP_addrs_bytes, !MAC_addrs_bytes. cbn [app le_bytes parse_arp].
  assert (W : ∀ x, is_u16 x → ntohs (le_value [htons x mod 256; htons x / 256 mod 256]) = x).
  { intros x Hx. change [_; _] with (le_bytes 2 (htons x)). rewrite le_value_bytes by apply htons_range. by apply htons_htons. }
  rewrite !W, !gen_IP_conversion, !gen_MAC_conversion by done. by destruct msg.
Qed.

(** The frame of a message. *)
Definition arp_meta (msg : arp_message) : metadata :=
  [("send_ether_type", SInt ARP_TYPE); ("send_dst_mac", SInt64 (target_MAC_addrs msg));
   ("send_src_mac", SInt64 (sender_MAC_addrs msg))].
Definition arp_frame (msg : arp_message) : finsFrame :=
  MkFrame 0 (Some (arp_meta msg)) (Data (MkData DIR_DOWN arp_hdr_len (Some (arp_hdr msg)))).

Lemma arp_to_fdf_ok msg : arp_to_fdf msg = Ok (arp_frame msg).
Proof. reflexivity. Qed.

(** [ff] brings the bytes of the queued frame [f]. *)
Definition brings (f ff : finsFrame) : Prop := ∃ d d', body f = Data d ∧ body ff = Data d' ∧
  pduLength d' = pduLength d ∧ pdu d' = pdu d ∧ metaData ff ≠ None.

Section Facts.
Context {Q : Type} `{BoundedFifo Q finsFrame} `{ArpEnv}.
Abbreviation ST := (mstate Q arp_data) (only parsing).

Lemma fdf_to_arp_ok (s : ST) msg dst ff :
  arp_ok msg → brings (set_dest dst (arp_frame msg)) ff → fdf_to_arp ff s = Ok (Some msg, s).
Proof.
  intros Hok (d & d' & [= <-] & Eb & El & Ep & _). unfold fdf_to_arp, ff_data. rewrite Eb.
  rewrite (bind_ok _ _ _ d' s) by done. rewrite El, Ep. cbn [pduLength pdu]. cbv iota.
  change (arp_hdr_len <? arp_hdr_len) with false. cbv iota.
  rewrite (bind_ok _ _ _ (arp_hdr msg) s) by reflexivity.
  rewrite (bind_ok _ _ _ msg s); [done|]. unfold lift. by rewrite parse_hdr.
Qed.

(** ** The cache *)

(** An entry looks for its address exactly while requests wait for it. *)
Record entry_ok (k : arp_cache) : Prop := {
  eo_seek : ac_seeking k = true ↔ ac_requests k ≠ [];
  eo_retries : 0 ≤ ac_retries k ≤ ARP_RETRIES;
  eo_len : Z.of_nat (length (ac_requests k)) ≤ ARP_REQUEST_LIST_MAX
}.

(** One object and one entry per address, no more than the limit. *)
Record cache_ok (d : arp_data) : Prop := {
  co_addr : NoDup (ac_addr <$> cache_list d);
  co_brk : Forall (λ k, ac_addr k < arp_brk d) (cache_list d);
  co_ip : NoDup (ac_ip <$> cache_list d);
  co_entry : Forall entry_ok (cache_list d);
  co_len : Z.of_nat (length (cache_list d)) ≤ ARP_CACHE_LIST_MAX
}.

(** ** Requests and answers *)

(** Who asked, and the serial number; the same of a frame sent in reply. *)
Definition asked (ff : finsFrame) : list (Z * Z) :=
  match body ff with Ctrl c => [(sender_id c, serial_num c)] | _ => [] end.
Definition replied (ff : finsFrame) : list (Z * Z) :=
  match body ff with Ctrl c => [(destinationID ff, serial_num c)] | _ => [] end.
Definition answers (xs : list finsFrame) : list (Z * Z) := concat (replied <$> xs).
Definition waiting (l : list arp_request) : list (Z * Z) := concat ((λ r, asked (rq_ff r)) <$> l).
Definition pending (l : list arp_cache) : list (Z * Z) := concat ((λ k, waiting (ac_requests k)) <$> l).

Lemma answers_app xs ys : answers (xs ++ ys) = answers xs ++ answers ys.
Proof. unfold answers. by rewrite fmap_app, concat_app. Qed.
Lemma pending_app l1 l2 : pending (l1 ++ l2) = pending l1 ++ pending l2.
Proof. unfold pending. by rewrite fmap_app, concat_app. Qed.
Lemma waiting_app l1 l2 : waiting (l1 ++ l2) = waiting l1 ++ waiting l2.
Proof. unfold waiting. by rewrite fmap_app, concat_app. Qed.
Lemma answers_data xs : Forall is_data xs → answers xs = [].
Proof. unfold answers. induction 1 as [|f l [c Hc] Hl IH]; [done|]. simpl. unfold replied at 1. by rewrite Hc. Qed.
Lemma answers_data_app xs ys : Forall is_data ys → answers (xs ++ ys) = answers xs.
Proof. intros Hy. by rewrite answers_app, (answers_data ys), app_nil_r. Qed.
Lemma asked_meta m ff : asked (set_meta m ff) = asked ff.
Proof. done. Qed.

(** ** The entry at an address *)

Lemma at_addr_other l k : ac_addr k ∉ (ac_addr <$> l) → Forall (λ k', at_addr (ac_addr k) k' = false) l.
Proof.
  intros Hk. apply Forall_forall. intros k' Hin. unfold at_addr. apply Z.eqb_neq. intros E. apply Hk.
  rewrite <- E. by apply list_elem_of_fmap_2.
Qed.
Lemma upd_other a f l : Forall (λ k, at_addr a k = false) l → upd_entry a f l = l.
Proof. unfold upd_entry. induction 1 as [|k l Hk Hl IH]; [done|].
  rewrite fmap_cons, Hk. by f_equal.
Qed.
Lemma del_other a l : Forall (λ k, at_addr a k = false) l → del_entry a l = l.
Proof. unfold del_entry. induction 1 as [|k l Hk Hl IH]; [done|]. by rewrite filter_cons_True, IH. Qed.

Lemma NoDup_entry l1 k l2 :
  NoDup (ac_addr <$> l1 ++ k :: l2) →
  Forall (λ k', at_addr (ac_addr k) k' = false) l1 ∧ Forall (λ k', at_addr (ac_addr k) k' = false) l2.
Proof.
  rewrite fmap_app, fmap_cons, NoDup_app. intros (_ & H1 & [H2 _]%NoDup_cons).
  split; apply at_addr_other; [|done]. intros Hin. apply (H1 _ Hin). left.
Qed.
Lemma at_addr_same k : at_addr (ac_addr k) k = true.
Proof. apply Z.eqb_refl. Qed.

Lemma upd_at l1 k l2 f :
  NoDup (ac_addr <$> l1 ++ k :: l2) → upd_entry (ac_addr k) f (l1 ++ k :: l2) = l1 ++ f k :: l2.
Proof.
  intros [H1 H2]%NoDup_entry. unfold upd_entry. rewrite fmap_app, fmap_cons, at_addr_same.
  fold (upd_entry (ac_addr k) f l1) (upd_entry (ac_addr k) f l2). by rewrite !upd_other.
Qed.
Lemma del_at l1 k l2 :
  NoDup (ac_addr <$> l1 ++ k :: l2) → del_entry (ac_addr k) (l1 ++ k :: l2) = l1 ++ l2.
Proof.
  intros [H1 H2]%NoDup_entry. unfold del_entry. rewrite filter_app, filter_cons_False.
  - fold (del_entry (ac_addr k) l1) (del_entry (ac_addr k) l2). by rewrite !del_other.
  - by rewrite at_addr_same.
Qed.

(** ** Steps *)

Section Steps.
Context {B : Type} (R : B → list finsFrame → arp_data → Prop) (xs : list finsFrame).

Lemma pt_aget d (K : arp_data → M ST B) : pt xs d (K d) R → pt xs d (aget ≫= K) R.
Proof. intros HK. unfold aget. apply pt_assoc, pt_get. intros s [_ ->]. exact HK. Qed.

Lemma pt_amod d f (K : unit → M ST B) : pt xs (f d) (K tt) R → pt xs d (amod f ≫= K) R.
Proof. apply pt_modify. Qed.

Lemma pt_emod d a f l1 k l2 (K : unit → M ST B) :
  cache_list d = l1 ++ k :: l2 → NoDup (ac_addr <$> cache_list d) → a = ac_addr k →
  pt xs (put_cache (l1 ++ f k :: l2) d) (K tt) R → pt xs d (emod a f ≫= K) R.
Proof.
  intros El Hn -> HK. unfold emod. apply pt_amod. rewrite El in *. by rewrite upd_at.
Qed.

Lemma pt_clock d (K : timeval → M ST B) :
  (∀ now, pt xs (put_counters (arp_clocks d + 1) (arp_brk d) d) (K now) R) →
  pt xs d (arp_gettimeofday ≫= K) R.
Proof. intros HK. unfold arp_gettimeofday. apply pt_assoc, pt_aget, pt_assoc, pt_amod, HK. Qed.

Lemma pt_start d a ms l1 k l2 (K : unit → M ST B) :
  cache_list d = l1 ++ k :: l2 → NoDup (ac_addr <$> cache_list d) → a = ac_addr k →
  (∀ t, pt xs (put_cache (l1 ++ set_timer t k :: l2) d) (K tt) R) → pt xs d (arp_start a ms ≫= K) R.
Proof.
  intros El Hn Ha HK. unfold arp_start. apply pt_assoc, pt_lift. intros t _. by eapply pt_emod.
Qed.

Lemma pt_arp_send d msg (K : bool → M ST B) :
  (∀ b sent, Forall is_data sent → pt (xs ++ sent) d (K b) R) → pt xs d (arp_send msg ≫= K) R.
Proof.
  intros HK. unfold arp_send. apply pt_assoc, pt_lift. rewrite arp_to_fdf_ok. intros ff [= <-].
  apply pt_assoc, pt_send; [by eexists|]. intros n sent Hd. destruct (0 <? n); [by apply (HK true)|].
  by apply pt_assoc, pt_free, (HK false).
Qed.

End Steps.

(** The requests of [ks] are those answered by the frames of [xs] and those
    that wait. *)
Definition settled (xs : list finsFrame) (d : arp_data) (ks : list (Z * Z)) : Prop :=
  cache_ok d ∧ answers xs ++ pending (cache_list d) ≡ₚ ks.

Lemma pt_refuse xs (d : arp_data) ff rv :
  pt xs d (module_reply_fcf (Q := Q) ff rv 0) (λ _ xs' d', d' = d ∧ answers xs' = answers xs ++ asked ff).
Proof.
  apply pt_bind_r, pt_reply. intros m c i op Hc. apply pt_ret. split; [done|].
  rewrite answers_app. unfold asked. by rewrite Hc.
Qed.

Lemma pt_answer xs d ff mac :
  pt xs d (arp_answer (Q := Q) ff mac) (λ _ xs' d', d' = d ∧ answers xs' = answers xs ++ asked ff).
Proof.
  unfold arp_answer. apply pt_write. intros m. apply pt_ctrl. intros c Hc. apply pt_get. intros s _.
  apply pt_bind_r, pt_switch, pt_ret. split; [done|]. rewrite answers_app.
  change (body (set_meta m ff)) with (body ff) in Hc. unfold asked. by rewrite Hc.
Qed.

Lemma pt_answer_all xs d l mac :
  pt xs d (answer_all (Q := Q) l mac) (λ _ xs' d', d' = d ∧ answers xs' = answers xs ++ waiting l).
Proof.
  revert xs. induction l as [|r l IH]; intros xs; simpl.
  - apply pt_ret. by rewrite app_nil_r.
  - eapply pt_bind; [apply pt_answer|]. intros ? xs1 d1 [-> E]. eapply pt_post; [apply IH|].
    intros ? xs2 d2 [-> E2]. split; [done|]. by rewrite E2, E, <- app_assoc.
Qed.
Lemma pt_refuse_all xs d l :
  pt xs d (refuse_all (Q := Q) l) (λ _ xs' d', d' = d ∧ answers xs' = answers xs ++ waiting l).
Proof.
  revert xs. induction l as [|r l IH]; intros xs; simpl.
  - apply pt_ret. by rewrite app_nil_r.
  - eapply pt_bind; [apply pt_refuse|]. intros ? xs1 d1 [-> E]. eapply pt_post; [apply IH|].
    intros ? xs2 d2 [-> E2]. split; [done|]. by rewrite E2, E, <- app_assoc.
Qed.

Lemma NoDup_app_cons {X} (l1 : list X) x l2 : NoDup (l1 ++ x :: l2) → NoDup (l1 ++ l2).
Proof. rewrite !NoDup_app, NoDup_cons. set_solver. Qed.

(** A changed entry in the same place. *)
Lemma cache_ok_upd d l1 k k' l2 c b i :
  cache_ok d → cache_list d = l1 ++ k :: l2 → ac_addr k' = ac_addr k → ac_ip k' = ac_ip k → entry_ok k' →
  cache_ok (MkArpData b (l1 ++ k' :: l2) i c (arp_brk d)).
Proof.
  intros [H1 H2 H3 H4 H5] El Ea Ei He. rewrite El in *. split; simpl.
  - rewrite fmap_app, fmap_cons in *. by rewrite Ea.
  - rewrite Forall_app, Forall_cons in *. by rewrite Ea.
  - rewrite fmap_app, fmap_cons in *. by rewrite Ei.
  - rewrite Forall_app, Forall_cons in *. tauto.
  - rewrite length_app in *. done.
Qed.

Lemma cache_ok_del d l1 k l2 :
  cache_ok d → cache_list d = l1 ++ k :: l2 → cache_ok (put_cache (l1 ++ l2) d).
Proof.
  intros [H1 H2 H3 H4 H5] El. rewrite El in *. split; simpl.
  - rewrite fmap_app, fmap_cons in H1. rewrite fmap_app. by apply NoDup_app_cons in H1.
  - rewrite Forall_app, Forall_cons in *. tauto.
  - rewrite fmap_app, fmap_cons in H3. rewrite fmap_app. by apply NoDup_app_cons in H3.
  - rewrite Forall_app, Forall_cons in *. tauto.
  - rewrite length_app in *. simpl in H5. lia.
Qed.

(** The entry a search found. *)
Lemma find_entry f (l : list arp_cache) k : find_first f l = Some k → ∃ l1 l2, l = l1 ++ k :: l2.
Proof. intros (l1 & l2 & E & _)%find_first_Some. eauto. Qed.

Lemma pt_start_seeking xs d l1 k l2 :
  cache_ok d → cache_list d = l1 ++ k :: l2 →
  pt xs d (start_seeking (Q := Q) (ac_addr k))
    (λ _ xs' d', xs' = xs ∧ ∃ k' c, ac_addr k' = ac_addr k ∧ ac_ip k' = ac_ip k ∧
       ac_requests k' = ac_requests k ∧ ac_seeking k' = true ∧ ac_retries k' = 0 ∧
       d' = MkArpData (arp_if_list d) (l1 ++ k' :: l2) (interrupt_flag d) c (arp_brk d)).
Proof.
  intros Hok El. pose proof (co_addr _ Hok) as Hn.
  assert (∀ k', ac_addr k' = ac_addr k → NoDup (ac_addr <$> l1 ++ k' :: l2)) as Hn'.
  { intros k' E. rewrite El in Hn. rewrite fmap_app, fmap_cons in *. by rewrite E. }
  unfold start_seeking. eapply pt_emod; [done..|]. apply pt_clock. intros now.
  eapply pt_emod; [reflexivity|by apply Hn'|done|]. apply pt_bind_r.
  eapply pt_start; [reflexivity|by apply Hn'|done|]. intros t. apply pt_ret. split; [done|].
  eexists _, _. split_and!; [..|reflexivity]; reflexivity.
Qed.

(** The waiting requests after a change of one entry. *)
Lemma pending_at l1 k l2 : pending (l1 ++ k :: l2) ≡ₚ waiting (ac_requests k) ++ pending (l1 ++ l2).
Proof.
  rewrite !pending_app. change (pending (k :: l2)) with (waiting (ac_requests k) ++ pending l2).
  rewrite !app_assoc. by rewrite (Permutation_app_comm (pending l1)).
Qed.

(** A seeking entry [k'] in the place of [k], which differs from it in neither
    address nor requests. *)
Record sought (k k' : arp_cache) : Prop := {
  sk_addr : ac_addr k' = ac_addr k; sk_ip : ac_ip k' = ac_ip k;
  sk_requests : ac_requests k' = ac_requests k; sk_seeking : ac_seeking k' = true;
  sk_retries : 0 ≤ ac_retries k' ≤ ARP_RETRIES
}.

Lemma pt_add_request xs d ks l1 k k' l2 b i c ff mac ip :
  settled xs d ks → cache_list d = l1 ++ k :: l2 → sought k k' →
  pt xs (MkArpData b (l1 ++ k' :: l2) i c (arp_brk d)) (add_request (Q := Q) k ff mac ip)
    (λ _ xs' d', settled xs' d' (ks ++ asked ff)).
Proof.
  intros [Hok Hp] El [Ha Hi Hr Hs Hre]. pose proof (co_entry _ Hok) as He. rewrite El in He.
  apply Forall_app in He as [_ [[Hk1 Hk2 Hk3] _]%Forall_cons]. unfold add_request.
  destruct (Z.ltb_spec (Z.of_nat (length (ac_requests k))) ARP_REQUEST_LIST_MAX) as [Hl|Hl].
  - apply pt_bind_r. eapply pt_emod; [reflexivity| |done|].
    { pose proof (co_addr _ Hok) as Hn. rewrite El in Hn. simpl. rewrite fmap_app, fmap_cons in *. by rewrite Ha. }
    apply pt_ret. split.
    + eapply (cache_ok_upd d l1 k); try done. split; simpl; [|done|].
      * rewrite Hs. split; [|done]. intros _ E. by apply app_nil in E as [_ ?].
      * rewrite Hr, length_app. simpl. lia.
    + simpl. rewrite <- Hp, El, !pending_at. simpl. rewrite Hr, waiting_app.
      change (waiting [_]) with (asked ff ++ []). rewrite app_nil_r. solve_Permutation.
  - eapply pt_post; [apply pt_refuse|]. intros ? xs' d' [-> E]. split.
    + eapply (cache_ok_upd d l1 k); try done. split; [|done|by rewrite Hr]. rewrite Hs, Hr. split; [|done].
      intros _ E'. rewrite E' in Hl. simpl in Hl. unfold ARP_REQUEST_LIST_MAX in Hl. lia.
    + simpl. rewrite E, <- Hp, El, !pending_at, Hr. solve_Permutation.
Qed.

(** A request refused at once. *)
Lemma pt_refused xs d ks ff :
  settled xs d ks → pt xs d (module_reply_fcf (Q := Q) ff FCF_FALSE 0) (λ _ xs' d', settled xs' d' (ks ++ asked ff)).
Proof.
  intros [Hok Hp]. eapply pt_post; [apply pt_refuse|]. intros ? xs' d' [-> E]. split; [done|].
  rewrite E, <- Hp. solve_Permutation.
Qed.

(** Requests to other hosts, and counters, do not matter. *)
Lemma settled_sent xs d ks sent : Forall is_data sent → settled xs d ks → settled (xs ++ sent) d ks.
Proof. intros Hd [Hok Hp]. split; [done|]. by rewrite answers_data_app. Qed.
Lemma settled_same xs d ks b i c :
  settled xs d ks → settled xs (MkArpData b (cache_list d) i c (arp_brk d)) ks.
Proof. intros [[? ? ? ? ?] Hp]. by split. Qed.

Lemma pt_cached xs d ks l1 k l2 ff mac ip dst :
  settled xs d ks → cache_list d = l1 ++ k :: l2 →
  pt xs d (get_addr_cached (Q := Q) k ff mac ip dst) (λ _ xs' d', settled xs' d' (ks ++ asked ff)).
Proof.
  intros Hst El. pose proof (co_entry _ (proj1 Hst)) as He. rewrite El in He.
  apply Forall_app in He as [_ [[Hk1 Hk2 Hk3] _]%Forall_cons].
  unfold get_addr_cached. destruct (ac_seeking k) eqn:Es.
  { destruct d as [b l i c brk]. simpl in El. subst l.
    by eapply (pt_add_request _ (MkArpData b _ i c brk) ks l1 k k l2 b i c). }
  apply pt_clock. intros now.
  assert (settled xs (put_counters (arp_clocks d + 1) (arp_brk d) d) ks) as Hst1 by (by apply settled_same).
  revert Hst1. change (cache_list d) with (cache_list (put_counters (arp_clocks d + 1) (arp_brk d) d)) in El.
  revert El. generalize (put_counters (arp_clocks d + 1) (arp_brk d) d) as d1. clear Hst d. intros d El Hst.
  destruct (d_le _ _).
  { eapply pt_post; [apply pt_answer|]. intros ? xs' d' [-> E]. destruct Hst as [Hok Hp]. split; [done|].
    rewrite E, <- Hp. solve_Permutation. }
  apply pt_arp_send. intros sent out Hd. apply (settled_sent _ _ _ _ Hd) in Hst.
  destruct sent; [|by apply pt_refused].
  eapply pt_bind; [apply (pt_start_seeking _ d l1 k l2); [apply Hst|done]|].
  intros ? xs' d' (-> & k' & c & Ea & Ei & Er & Esk & Ere & ->).
  eapply pt_add_request; [done..|]. split; try done. rewrite Ere. done.
Qed.

(** A new entry at the end. *)
Lemma cache_ok_new d k b i c :
  cache_ok d → Z.of_nat (length (cache_list d)) < ARP_CACHE_LIST_MAX → ac_addr k = arp_brk d →
  ac_ip k ∉ (ac_ip <$> cache_list d) → entry_ok k →
  cache_ok (MkArpData b (cache_list d ++ [k]) i c (arp_brk d + 1)).
Proof.
  intros [H1 H2 H3 H4 H5] Hl Ha Hi He. split; simpl.
  - rewrite fmap_app. apply NoDup_app. split; [done|]. split; [|apply NoDup_singleton].
    intros a Hin ->%list_elem_of_singleton. apply list_elem_of_fmap in Hin as (k1 & E & Hin).
    rewrite Forall_forall in H2. specialize (H2 _ Hin). lia.
  - rewrite Forall_app, Forall_singleton. split; [|lia]. eapply Forall_impl; [exact H2|]. intros k1 ?. simpl in *. lia.
  - rewrite fmap_app. apply NoDup_app. split; [done|]. split; [|apply NoDup_singleton].
    intros a Hin ->%list_elem_of_singleton. by apply Hi.
  - by rewrite Forall_app, Forall_singleton.
  - rewrite length_app. simpl. lia.
Qed.

Lemma pt_make_room xs d ks :
  settled xs d ks →
  pt xs d (make_room (Q := Q)) (λ b xs' d', settled xs' d' ks ∧ cache_list d' `sublist_of` cache_list d ∧
    (b = true → Z.of_nat (length (cache_list d')) < ARP_CACHE_LIST_MAX)).
Proof.
  intros [Hok Hp]. unfold make_room. apply pt_aget.
  destruct (Z.ltb_spec (Z.of_nat (length (cache_list d))) ARP_CACHE_LIST_MAX) as [Hl|Hl]; [by apply pt_ret|].
  destruct (find_first _ _) as [k|] eqn:Ef; [|by apply pt_ret].
  destruct (find_entry _ _ _ Ef) as (l1 & l2 & El). apply pt_amod.
  pose proof (co_addr _ Hok) as Hn. rewrite El in Hn |- *. rewrite del_at by done.
  eapply pt_bind; [apply pt_refuse_all|]. intros ? xs1 d1 [-> E1]. apply pt_ret. split_and!.
  - split; [by eapply cache_ok_del|]. simpl. rewrite E1, <- Hp, El, pending_at. solve_Permutation.
  - simpl. apply sublist_app; [done|]. by apply sublist_cons.
  - intros _. simpl. pose proof (co_len _ Hok) as Hc. rewrite El, length_app in Hc.
    rewrite length_app. simpl in *. lia.
Qed.

Lemma pt_new xs d ks ff mac ip dst :
  settled xs d ks → find_first (arp_cache_ip_test dst) (cache_list d) = None →
  pt xs d (get_addr_new (Q := Q) ff mac ip dst) (λ _ xs' d', settled xs' d' (ks ++ asked ff)).
Proof.
  intros Hst Hf. unfold get_addr_new. apply pt_arp_send. intros sent out Hd.
  apply (settled_sent _ _ _ _ Hd) in Hst. destruct sent; [|by apply pt_refused].
  eapply pt_bind; [by apply pt_make_room|]. intros b xs1 d1 (Hst1 & Hsub & Hl).
  destruct b; [|by apply pt_refused]. specialize (Hl eq_refl).
  unfold arp_malloc. apply pt_assoc, pt_aget, pt_assoc, pt_amod.
  apply pt_amod. set (k := arp_cache_create (arp_brk d1) dst). cbn [put_counters cache_list].
  destruct Hst1 as [Hok Hp].
  assert (Hi : dst ∉ (ac_ip <$> cache_list d1)).
  { apply find_first_None in Hf. intros (k1 & -> & Hin)%list_elem_of_fmap. rewrite Forall_forall in Hf.
    specialize (Hf k1 (elem_of_sublist _ _ _ Hin Hsub)). unfold arp_cache_ip_test in Hf. by rewrite Z.eqb_refl in Hf. }
  set (d2 := put_cache _ _).
  assert (cache_ok d2) as Hok2 by (by apply cache_ok_new).
  eapply pt_bind; [by apply (pt_start_seeking _ d2 (cache_list d1) k [])|].
  intros ? xs' d' (-> & k' & c & Ea & Ei & Er & Esk & Ere & ->).
  change (arp_brk d1) with (ac_addr k). apply pt_bind_r.
  eapply pt_emod; [reflexivity| |done|].
  { pose proof (co_addr _ Hok2) as Hn. simpl in Hn |- *. rewrite fmap_app in *. simpl in *. by rewrite Ea. }
  apply pt_ret. split.
  - eapply (cache_ok_upd d2 (cache_list d1) k); try done. split; simpl.
    + rewrite Esk, Er. done.
    + by rewrite Ere.
    + rewrite Er. simpl. unfold ARP_REQUEST_LIST_MAX. lia.
  - simpl. rewrite pending_at, app_nil_r. simpl. rewrite Er, <- Hp. simpl. unfold waiting. simpl.
    rewrite app_nil_r. solve_Permutation.
Qed.

(** ** The handlers *)

Lemma pt_find_if {B} (R : B → list finsFrame → arp_data → Prop) xs d ip K :
  (∀ r, pt xs d (K r) R) → pt xs d (find_if (Q := Q) ip ≫= K) R.
Proof. intros HK. unfold find_if. apply pt_assoc, pt_aget. exact (HK _). Qed.
Lemma pt_find_cache {B} (R : B → list finsFrame → arp_data → Prop) xs d ip K :
  pt xs d (K (find_first (arp_cache_ip_test ip) (cache_list d))) R → pt xs d (find_cache (Q := Q) ip ≫= K) R.
Proof. intros HK. unfold find_cache. apply pt_assoc, pt_aget. exact HK. Qed.

Lemma pt_get_addr xs d ks ff src dst :
  settled xs d ks →
  pt xs d (arp_exec_get_addr (Q := Q) ff src dst) (λ _ xs' d', settled xs' d' (ks ++ asked ff)).
Proof.
  intros Hst. unfold arp_exec_get_addr. apply pt_find_if. intros [ifr|]; [|by apply pt_refused]. cbv zeta.
  apply pt_write. intros m. apply pt_find_cache.
  destruct (find_first (arp_cache_ip_test dst) (cache_list d)) as [k|] eqn:Ef.
  - destruct (find_entry _ _ _ Ef) as (l1 & l2 & El). rewrite <- (asked_meta m ff). by eapply pt_cached.
  - rewrite <- (asked_meta m ff). by apply pt_new.
Qed.

Lemma pt_reply_in xs d ks ip mac :
  settled xs d ks → pt xs d (arp_reply_in (Q := Q) ip mac) (λ _ xs' d', settled xs' d' ks).
Proof.
  intros [Hok Hp]. unfold arp_reply_in. apply pt_find_cache.
  destruct (find_first _ _) as [k|] eqn:Ef; [|by apply pt_ret]. destruct (ac_seeking k) eqn:Es; [|by apply pt_ret].
  destruct (find_entry _ _ _ Ef) as (l1 & l2 & El). pose proof (co_addr _ Hok) as Hn.
  assert (∀ k', ac_addr k' = ac_addr k → NoDup (ac_addr <$> l1 ++ k' :: l2)) as Hn'.
  { intros k' E. rewrite El in Hn. rewrite fmap_app, fmap_cons in *. by rewrite E. }
  pose proof (co_entry _ Hok) as He. rewrite El in He. apply Forall_app in He as [_ [[Hk1 Hk2 Hk3] _]%Forall_cons].
  eapply pt_emod; [done..|]. apply pt_clock. intros now. eapply pt_emod; [reflexivity|by apply Hn'|done|].
  eapply pt_post; [apply pt_answer_all|]. intros ? xs' d' [-> E]. split.
  - by eapply (cache_ok_upd d l1 k).
  - simpl. rewrite E, <- Hp, El, !pending_at. simpl. solve_Permutation.
Qed.

Lemma pt_in_fdf xs d ks ff :
  settled xs d ks → pt xs d (arp_in_fdf (Q := Q) ff) (λ _ xs' d', settled xs' d' ks).
Proof.
  intros Hst. unfold arp_in_fdf, fdf_to_arp. apply pt_assoc, pt_data. intros c _.
  assert (∀ (m : M ST unit), pt xs d m (λ _ xs' d', settled xs' d' ks) →
    pt xs d (m ≫= λ _, free_ff ff) (λ _ xs' d', settled xs' d' ks)) as Hend.
  { intros m Hm. eapply pt_bind; [exact Hm|]. intros ? xs' d' Hs. by apply pt_bind_r, pt_free, pt_ret. }
  destruct (pduLength c <? arp_hdr_len); [by apply (Hend (mret tt)), pt_ret|].
  apply pt_assoc, pt_lift. intros b _. apply pt_assoc, pt_lift. intros msg _.
  apply (Hend (if check_valid_arp msg then _ else _)).
  destruct (check_valid_arp msg); [|by apply pt_ret]. apply pt_find_if. intros [ifr|]; [|by apply pt_ret].
  destruct (operation msg =? ARP_OP_REQUEST); [|by apply pt_reply_in].
  apply pt_arp_send. intros _ sent Hd. apply pt_ret. by apply settled_sent.
Qed.

Lemma pt_handle_to xs d ks l1 k k0 l2 :
  settled xs d ks → cache_list d = l1 ++ k :: l2 → k = set_to_flag false k0 →
  pt xs d (arp_handle_to (Q := Q) k0)
    (λ _ xs' d', settled xs' d' ks ∧ ∃ l1', cache_list d' = l1' ++ l2).
Proof.
  intros [Hok Hp] El ->. pose proof (co_entry _ Hok) as He. rewrite El in He.
  apply Forall_app in He as [_ [[Hk1 Hk2 Hk3] _]%Forall_cons]. simpl in Hk1, Hk2, Hk3.
  pose proof (co_addr _ Hok) as Hn.
  assert (settled xs d ks ∧ ∃ l1', cache_list d = l1' ++ l2) as Hsame.
  { split; [by split|]. exists (l1 ++ [set_to_flag false k0]). by rewrite <- app_assoc. }
  unfold arp_handle_to. destruct (ac_seeking k0) eqn:Es; [|by apply pt_ret].
  destruct (Z.ltb_spec (ac_retries k0) ARP_RETRIES) as [Hr|Hr].
  - destruct (ac_requests k0) as [|r rs] eqn:Er; [by apply pt_ret|].
    apply pt_arp_send. intros sent out Hd. assert (settled (xs ++ out) d ks) as Hst by (apply settled_sent; by try split).
    destruct sent; [|apply pt_ret; split; [done|apply Hsame]]. eapply pt_emod; [done..|]. apply pt_bind_r.
    eapply pt_start; [reflexivity| |done|].
    { rewrite El in Hn. simpl in *. rewrite fmap_app, fmap_cons in *. done. }
    intros t. apply pt_ret. split.
    + split; [|].
      * eapply (cache_ok_upd d l1 (set_to_flag false k0)); try done.
        split; simpl; [by rewrite ?Es, ?Er in *|unfold ARP_RETRIES in *; lia|by rewrite ?Er in *].
      * simpl. destruct Hst as [_ Hp']. rewrite <- Hp', El, !pending_at. done.
    + simpl. eexists (l1 ++ [_]). rewrite <- app_assoc. reflexivity.
  - eapply pt_bind; [apply pt_refuse_all|]. intros ? xs' d' [-> E]. apply pt_bind_r, pt_amod, pt_ret.
    change (ac_addr k0) with (ac_addr (set_to_flag false k0)). rewrite El in Hn |- *. rewrite del_at by done. split.
    + split; [by eapply cache_ok_del|]. simpl. rewrite E, <- Hp, El, pending_at. simpl. solve_Permutation.
    + simpl. by eexists.
Qed.

Lemma pt_to_all xs d ks l1 l :
  settled xs d ks → cache_list d = l1 ++ l →
  pt xs d (arp_to_all (Q := Q) l) (λ _ xs' d', settled xs' d' ks).
Proof.
  revert xs d l1. induction l as [|k l IH]; intros xs d l1 Hst El; cbn [arp_to_all]; [by apply pt_ret|].
  unfold arp_to_func. destruct (ac_to_flag k); [|].
  - destruct Hst as [Hok Hp]. apply pt_assoc. eapply pt_emod; [exact El|apply Hok|done|].
    assert (entry_ok (set_to_flag false k)) as Hk.
    { pose proof (co_entry _ Hok) as He. rewrite El in He. by apply Forall_app in He as [_ [[] _]%Forall_cons]. }
    eapply pt_bind; [eapply (pt_handle_to _ _ ks l1 (set_to_flag false k)); [|reflexivity|reflexivity]|].
    + split; [by eapply (cache_ok_upd d l1 k)|]. simpl. by rewrite <- Hp, El, !pending_at.
    + intros ? xs' d' (Hst' & l1' & El'). by eapply IH.
  - eapply pt_bind; [by apply (pt_ret xs d tt (λ _ xs' d', xs' = xs ∧ d' = d))|].
    intros ? xs' d' [-> ->]. apply (IH _ _ (l1 ++ [k])); [done|]. by rewrite <- app_assoc.
Qed.

Lemma pt_interrupt xs d ks :
  settled xs d ks → pt xs d (arp_interrupt (Q := Q)) (λ _ xs' d', settled xs' d' ks).
Proof. intros Hst. unfold arp_interrupt. apply pt_aget. by eapply (pt_to_all _ _ _ []). Qed.

Lemma pt_expire xs d ks a :
  settled xs d ks → pt xs d (arp_expire (Q := Q) a) (λ _ xs' d', settled xs' d' ks).
Proof.
  intros [[H1 H2 H3 H4 H5] Hp]. unfold arp_expire. apply pt_amod, pt_bind_r, pt_amod, pt_ret.
  set (g := λ k, set_to_flag true (set_timer None k)).
  assert (∀ {X} (h : arp_cache → X), (∀ k, h (g k) = h k) → h <$> upd_entry a g (cache_list d) = h <$> cache_list d) as Hh.
  { intros X h Hg. unfold upd_entry. rewrite <- list_fmap_compose. apply list_fmap_ext. intros i k _. simpl.
    by destruct (at_addr a k). }
  assert (∀ P : arp_cache → Prop, (∀ k, P k → P (g k)) → Forall P (cache_list d) → Forall P (upd_entry a g (cache_list d))) as Hf.
  { intros P Hg HP. unfold upd_entry. apply Forall_fmap. eapply Forall_impl; [done|]. intros k Hk. simpl.
    destruct (at_addr a k); auto. }
  split; [split; simpl|simpl].
  - by rewrite Hh.
  - by apply Hf.
  - by rewrite Hh.
  - apply Hf; [|done]. by intros k [].
  - unfold upd_entry. by rewrite length_fmap.
  - unfold pending. by rewrite Hh.
Qed.

End Facts.
