(* ===== verification/ArpResolve.v ===== *)
(** * ARP: what the module promises

    Every request is answered once or waits in one cache entry, whatever
    happens; an address is resolved by an exchange of two messages; and an
    address nobody answers for is given up after three time-outs. *)

From stdpp Require Import base list gmap strings.
From Stdlib Require Import ZArith Lia.
From S2P Require Import Prelude Queue Metadata Frame Module IPv4 Double Run Arp ArpFacts.
Open Scope Z_scope.
Open Scope fins_scope.

Section Rest.
Context {Q : Type} `{BoundedFifo Q finsFrame} `{ArpEnv}.
Abbreviation ST := (mstate Q arp_data) (only parsing).
Context (iface : Z).

(** The module with its way to the interface. *)
Definition ready : list finsFrame → nat → arp_data → ST → Prop := rest [(ARP_FLOW_INTERFACE, iface)].

Section Steps.
Context {B : Type} (R : B → ST → Prop) (xs : list finsFrame) (n : nat) (d : arp_data).

Lemma ar_get (K : arp_data → M ST B) : runs (ready xs n d) (K d) R → runs (ready xs n d) (aget ≫= K) R.
Proof. intros HK. unfold aget. apply runs_assoc, rest_get. intros s Hs. rewrite (rs_md _ _ _ _ _ Hs). exact HK. Qed.

Lemma ar_mod f (K : unit → M ST B) : runs (ready xs n (f d)) (K tt) R → runs (ready xs n d) (amod f ≫= K) R.
Proof. apply rest_modify. Qed.

Lemma ar_emod a f l1 k l2 (K : unit → M ST B) :
  cache_list d = l1 ++ k :: l2 → NoDup (ac_addr <$> cache_list d) → a = ac_addr k →
  runs (ready xs n (put_cache (l1 ++ f k :: l2) d)) (K tt) R → runs (ready xs n d) (emod a f ≫= K) R.
Proof. intros El Hn -> HK. unfold emod. apply ar_mod. rewrite El in *. by rewrite upd_at. Qed.

Lemma ar_clock (K : timeval → M ST B) :
  runs (ready xs n (put_counters (arp_clocks d + 1) (arp_brk d) d)) (K (arp_clock (arp_clocks d))) R →
  runs (ready xs n d) (arp_gettimeofday ≫= K) R.
Proof. intros HK. unfold arp_gettimeofday. by apply runs_assoc, ar_get, runs_assoc, ar_mod. Qed.

Lemma ar_start a l1 k l2 (K : unit → M ST B) :
  cache_list d = l1 ++ k :: l2 → NoDup (ac_addr <$> cache_list d) → a = ac_addr k →
  (∀ t, runs (ready xs n (put_cache (l1 ++ set_timer t k :: l2) d)) (K tt) R) →
  runs (ready xs n d) (arp_start a ARP_RETRANS_TO_DEFAULT ≫= K) R.
Proof.
  intros El Hn Ha HK. unfold arp_start. apply runs_assoc.
  assert (∃ t, timer_once_start (d_of_Z ARP_RETRANS_TO_DEFAULT) = Ok t) as [t Et] by (vm_compute; by eexists).
  eapply rest_lift; [exact Et|]. clear Et. by eapply ar_emod.
Qed.

End Steps.

Lemma arp_frame_ok msg : frame_ok (arp_frame msg).
Proof. split; [done|]. eexists. split; reflexivity. Qed.

Lemma ar_send {B} (R : B → ST → Prop) xs n d msg (K : bool → M ST B) :
  runs (ready (xs ++ [set_dest iface (arp_frame msg)]) n d) (K true) R →
  runs (ready xs (S n) d) (arp_send msg ≫= K) R.
Proof.
  intros HK. unfold arp_send. apply runs_assoc. eapply rest_lift; [apply arp_to_fdf_ok|].
  apply runs_assoc. eapply rest_send; [apply arp_frame_ok|done|left|]. by apply runs_ret_bind.
Qed.

Lemma ar_read {B} (R : B → ST → Prop) xs n d msg f ff (K : option arp_message → M ST B) :
  arp_ok msg → brings (set_dest f (arp_frame msg)) ff →
  runs (ready xs n d) (K (Some msg)) R → runs (ready xs n d) (fdf_to_arp ff ≫= K) R.
Proof.
  intros Hok Hb HK s Hs. rewrite (bind_ok _ _ _ (Some msg) s); [by apply HK|]. by eapply fdf_to_arp_ok.
Qed.

(** The answer to the request [c]: success, with the address. *)
Definition resolves (c : finsCtrlFrame) (mac : Z) (ff : finsFrame) : Prop :=
  destinationID ff = sender_id c ∧
  (∃ m, metaData ff = Some m ∧ metadata_readFromElement m "dst_mac" = Some (VInt64 mac)) ∧
  ∃ i, body ff = Ctrl (MkCtrl i (serial_num c) CTRL_EXEC_REPLY (param_id c) FCF_TRUE (data_len c) (cdata c)).

Lemma ar_answer {B} (R : B → ST → Prop) xs n d ff m c mac (K : unit → M ST B) :
  metaData ff = Some m → long_key m "dst_mac" = true → body ff = Ctrl c →
  (∀ ans, resolves c mac ans → runs (ready (xs ++ [ans]) n d) (K tt) R) →
  runs (ready xs (S n) d) (arp_answer ff mac ≫= K) R.
Proof.
  intros Hm Hk Hb HK. unfold arp_answer. apply runs_assoc. eapply rest_write_long; [done..|].
  unfold ff_ctrl. simpl. rewrite Hb. apply runs_assoc, runs_ret_bind, runs_assoc, rest_get. intros s _.
  apply rest_switch. apply HK. split_and!; [done| |by eexists]. eexists. split; [done|].
  unfold metadata_readFromElement. by rewrite get_put_same.
Qed.

(** ** Resolution *)

(** An entry that waits for the address of [ip] with the one request [ff]. *)
Record waits (ff : finsFrame) (ip : Z) (k : arp_cache) : Prop := {
  wt_ip : ac_ip k = ip; wt_seek : ac_seeking k = true;
  wt_requests : ∃ mac src, ac_requests k = [MkARq ff mac src]
}.

Lemma get_addr_runs xs n d ifr ff m src dst :
  cache_ok d → find_first (ifr_ipv4_test src) (arp_if_list d) = Some ifr →
  find_first (arp_cache_ip_test dst) (cache_list d) = None →
  Z.of_nat (length (cache_list d)) < ARP_CACHE_LIST_MAX →
  metaData ff = Some m → long_key m "src_mac" = true →
  runs (ready xs (S n) d) (arp_exec_get_addr ff src dst)
    (λ _ s, ∃ d' k, ready (xs ++ [set_dest iface (arp_frame (gen_requestARP (if_mac ifr) src ARP_MAC_BROADCAST dst))])
        n d' s ∧ cache_ok d' ∧ cache_list d' = cache_list d ++ [k] ∧ arp_if_list d' = arp_if_list d ∧
        waits (set_meta (Some (put_member m "src_mac" (SInt64 (if_mac ifr)))) ff) dst k).
Proof.
  intros Hok Hif Hf Hl Hm Hk. unfold arp_exec_get_addr, find_if. apply runs_assoc, ar_get, runs_ret_bind.
  rewrite Hif. cbv zeta. eapply rest_write_long; [done..|]. unfold find_cache. apply runs_assoc, ar_get, runs_ret_bind.
  rewrite Hf. unfold get_addr_new. apply ar_send. unfold make_room.
  apply runs_assoc, ar_get. rewrite (proj2 (Z.ltb_lt _ _) Hl). apply runs_ret_bind.
  unfold arp_malloc. apply runs_assoc, ar_get, runs_assoc, ar_mod, runs_ret_bind, ar_mod.
  set (k0 := arp_cache_create (arp_brk d) dst). cbn [put_counters cache_list].
  set (d1 := put_cache _ _).
  assert (dst ∉ (ac_ip <$> cache_list d)) as Hi.
  { apply find_first_None in Hf. intros (k1 & -> & Hin)%list_elem_of_fmap. rewrite Forall_forall in Hf.
    specialize (Hf k1 Hin). unfold arp_cache_ip_test in Hf. by rewrite Z.eqb_refl in Hf. }
  assert (cache_ok d1) as Hok1 by (by apply cache_ok_new).
  assert (∀ k, ac_addr k = arp_brk d → NoDup (ac_addr <$> cache_list d ++ [k])) as Hn.
  { intros k E. pose proof (co_addr _ Hok1) as Hn. simpl in Hn. rewrite fmap_app in *. simpl in *. by rewrite E. }
  unfold start_seeking. apply runs_assoc. eapply (ar_emod _ _ _ d1 _ _ (cache_list d) k0 []); [done|by apply Hn|done|].
  apply runs_assoc, ar_clock, runs_assoc. eapply ar_emod; [reflexivity|by apply Hn|done|].
  eapply ar_start; [reflexivity|by apply Hn|done|]. intros t. apply runs_bind_r.
  eapply ar_emod; [reflexivity|by apply Hn|done|]. apply runs_ret. intros s Hs.
  eexists _, _. split; [exact Hs|]. split_and!; try done.
  - by eapply (cache_ok_upd d1 (cache_list d) k0 _ []).
  - split; [done|done|]. by eexists _, _.
Qed.

Lemma request_in_runs xs n d ifr smac sip tmac tip f1 f :
  is_mac smac → is_u32 sip → is_mac tmac → is_u32 tip → smac ≠ 0 → sip ≠ 0 → tip ≠ 0 →
  brings (set_dest f (arp_frame (gen_requestARP smac sip tmac tip))) f1 →
  find_first (ifr_ipv4_test tip) (arp_if_list d) = Some ifr →
  runs (ready xs (S n) d) (arp_in_fdf f1)
    (λ _ s, ready (xs ++ [set_dest iface (arp_frame (gen_replyARP (if_mac ifr) tip smac sip))]) n d s).
Proof.
  intros Hsm Hsi Htm Hti Hs0 Hi0 Ht0 Hb Hif.
  assert (check_valid_arp (gen_requestARP smac sip tmac tip) = true) as Hv.
  { unfold check_valid_arp. simpl. by rewrite !(proj2 (Z.eqb_neq _ _)) by done. }
  unfold arp_in_fdf. eapply ar_read; [|exact Hb|]; [by split|]. rewrite Hv.
  unfold find_if. apply runs_assoc, runs_assoc, ar_get, runs_ret_bind. simpl. rewrite Hif.
  apply runs_assoc, ar_send, runs_ret_bind, runs_bind_r, rest_free.
  { by destruct Hb as (? & ? & ? & -> & _). }
  by apply runs_ret.
Qed.

(** The reply reaches the module that waits. *)
Lemma reply_in_runs xs n d l k ifr smac sip tmac tip f1 f ff m c :
  is_mac smac → is_u32 sip → is_mac tmac → is_u32 tip → smac ≠ 0 → sip ≠ 0 → tip ≠ 0 →
  brings (set_dest f (arp_frame (gen_replyARP smac sip tmac tip))) f1 →
  find_first (ifr_ipv4_test tip) (arp_if_list d) = Some ifr →
  cache_ok d → cache_list d = l ++ [k] → find_first (arp_cache_ip_test sip) l = None → waits ff sip k →
  metaData ff = Some m → long_key m "dst_mac" = true → body ff = Ctrl c →
  runs (ready xs (S n) d) (arp_in_fdf f1)
    (λ _ s, ∃ ans d' k', resolves c smac ans ∧ ready (xs ++ [ans]) n d' s ∧
       find_first (arp_cache_ip_test sip) (cache_list d') = Some k' ∧
       ac_mac k' = smac ∧ ac_seeking k' = false ∧ ac_requests k' = []).
Proof.
  intros Hsm Hsi Htm Hti Hs0 Hi0 Ht0 Hb Hif Hok El Hf [Wi Ws (wm & wsrc & Wr)] Hm Hk Hc.
  assert (check_valid_arp (gen_replyARP smac sip tmac tip) = true) as Hv.
  { unfold check_valid_arp. simpl. by rewrite !(proj2 (Z.eqb_neq _ _)) by done. }
  assert (∀ k', ac_addr k' = ac_addr k → NoDup (ac_addr <$> l ++ [k'])) as Hn.
  { intros k' E. pose proof (co_addr _ Hok) as Hn. rewrite El, fmap_app in Hn. rewrite fmap_app. simpl in *. by rewrite E. }
  unfold arp_in_fdf. eapply ar_read; [|exact Hb|]; [by split|]. rewrite Hv.
  unfold find_if. apply runs_assoc, runs_assoc, ar_get, runs_ret_bind. simpl. rewrite Hif.
  unfold arp_reply_in, find_cache. apply runs_assoc, runs_assoc, ar_get, runs_ret_bind.
  rewrite El, find_first_app, Hf. simpl. unfold arp_cache_ip_test at 1. rewrite Wi, Z.eqb_refl, Ws, Wr.
  apply runs_assoc. eapply ar_emod; [exact El|rewrite El; by apply Hn|done|].
  apply runs_assoc, ar_clock, runs_assoc. eapply ar_emod; [reflexivity|by apply Hn|done|].
  cbn [answer_all rq_ff]. apply runs_assoc. eapply ar_answer; [done..|]. intros ans Ha. apply runs_ret_bind.
  apply runs_bind_r, rest_free. { by destruct Hb as (? & ? & ? & -> & _). }
  apply runs_ret. intros s Hs. eexists ans, _, _. split_and!; [done|exact Hs|..].
  - simpl. rewrite find_first_app, Hf. simpl. unfold arp_cache_ip_test. simpl. rewrite Wi, Z.eqb_refl. reflexivity.
  - done.
  - done.
  - done.
Qed.

(** ** Giving up *)

Definition quiet (l : list arp_cache) : Prop := Forall (λ k, ac_to_flag k = false) l.

Lemma to_all_quiet xs n d l : quiet l → runs (ready xs n d) (arp_to_all l) (λ _, ready xs n d).
Proof.
  induction 1 as [|k l Hk Hl IH]; cbn [arp_to_all]; [by apply runs_ret|].
  unfold arp_to_func. rewrite Hk. exact IH.
Qed.

(** The timer of [k] expires and the module handles the time-out. *)
Definition time_out (a : Z) : M ST unit := arp_expire a ;; arp_interrupt.

(** A time-out of [k] alone leads to its handler. *)
Lemma time_out_runs xs n d l1 k l2 (R : unit → ST → Prop) :
  cache_list d = l1 ++ k :: l2 → NoDup (ac_addr <$> cache_list d) → quiet l1 → quiet l2 →
  (let k' := set_to_flag true (set_timer None k) in
   runs (ready xs n (put_cache (l1 ++ set_to_flag false k' :: l2) (put_interrupt true d)))
     (arp_handle_to k' ≫= λ _, arp_to_all l2) R) →
  runs (ready xs n d) (time_out (ac_addr k)) R.
Proof.
  intros El Hn H1 H2 HK. unfold time_out, arp_expire. apply runs_assoc, ar_mod.
  eapply ar_emod; [exact El|done|done|]. unfold arp_interrupt. apply ar_get. cbn [cache_list put_cache].
  set (k' := set_to_flag true (set_timer None k)) in *. set (d1 := put_cache _ _).
  assert (∀ l, quiet l → runs (ready xs n d1) (arp_to_all (k' :: l2)) R →
    runs (ready xs n d1) (arp_to_all (l ++ k' :: l2)) R) as Hskip.
  { intros l Hq Hr. induction Hq as [|x l Hx Hl IH]; [done|]. cbn [arp_to_all app]. unfold arp_to_func at 1. by rewrite Hx. }
  apply Hskip; [done|]. cbn [arp_to_all]. unfold arp_to_func. change (ac_to_flag k') with true. cbv iota.
  apply runs_assoc. eapply (ar_emod _ _ _ d1 _ _ l1 k' l2); [done| |done|exact HK].
  simpl. rewrite El in Hn. rewrite fmap_app, fmap_cons in *. exact Hn.
Qed.

(** The entry after a retransmission. *)
Record again (k k' : arp_cache) : Prop := {
  ag_addr : ac_addr k' = ac_addr k; ag_ip : ac_ip k' = ac_ip k; ag_requests : ac_requests k' = ac_requests k;
  ag_seek : ac_seeking k' = true; ag_retries : ac_retries k' = ac_retries k + 1
}.

(** The request that asks for the address of [k], on behalf of [r]. *)
Definition asks_for (r : arp_request) (k : arp_cache) : finsFrame :=
  set_dest iface (arp_frame (gen_requestARP (rq_src_mac r) (rq_src_ip r) ARP_MAC_BROADCAST (ac_ip k))).

Lemma retry_runs xs n d l1 k l2 r rs :
  cache_list d = l1 ++ k :: l2 → NoDup (ac_addr <$> cache_list d) → quiet l1 → quiet l2 →
  ac_seeking k = true → ac_requests k = r :: rs → ac_retries k < ARP_RETRIES →
  runs (ready xs (S n) d) (time_out (ac_addr k))
    (λ _ s, ∃ k' d', again k k' ∧ cache_list d' = l1 ++ k' :: l2 ∧
       NoDup (ac_addr <$> cache_list d') ∧ ready (xs ++ [asks_for r k]) n d' s).
Proof.
  intros El Hn H1 H2 Hs Hr Hre. eapply time_out_runs; [done..|]. cbv zeta. unfold arp_handle_to.
  cbn [ac_seeking ac_retries ac_requests set_to_flag set_timer]. rewrite Hs, (proj2 (Z.ltb_lt _ _) Hre).
  rewrite Hr.
  assert (∀ k', ac_addr k' = ac_addr k → NoDup (ac_addr <$> l1 ++ k' :: l2)) as Hn'.
  { intros k' E. rewrite El in Hn. rewrite fmap_app, fmap_cons in *. by rewrite E. }
  apply runs_assoc, ar_send. apply runs_assoc. eapply ar_emod; [reflexivity|by apply Hn'|done|].
  eapply ar_start; [reflexivity|by apply Hn'|done|]. intros t. eapply runs_post; [by apply to_all_quiet|].
  intros ? s Hs'. eexists _, _. split_and!; [..|exact Hs']; [|reflexivity|by apply Hn'].
  split; [reflexivity..|exact Hs|reflexivity].
Qed.

(** The negative answer to the request [c]. *)
Definition refuses (c : finsCtrlFrame) (ff : finsFrame) : Prop :=
  destinationID ff = sender_id c ∧
  ∃ i, body ff = Ctrl (MkCtrl i (serial_num c) CTRL_EXEC_REPLY (param_id c) FCF_FALSE (data_len c) (cdata c)).

(** Requests whose frames can be answered. *)
Definition askers (l : list arp_request) (cs : list finsCtrlFrame) : Prop :=
  Forall2 (λ r c, body (rq_ff r) = Ctrl c ∧ opcode c = CTRL_EXEC ∧
             ∃ m, metaData (rq_ff r) = Some m ∧ int_key m "ret_msg" = true) l cs.

Lemma refuse_all_runs xs n d l cs :
  askers l cs →
  runs (ready xs (length l + n) d) (refuse_all l)
    (λ _ s, ∃ reps, Forall2 refuses cs reps ∧ ready (xs ++ reps) n d s).
Proof.
  intros Hl. revert xs. induction Hl as [|r c l cs (Hb & Ho & m & Hm & Hk) Hl IH]; intros xs; cbn [refuse_all length Nat.add].
  - apply runs_ret. intros s Hs. exists []. by rewrite app_nil_r.
  - eapply rest_reply; [done..| |]; [by rewrite Ho|]. intros i. eapply runs_post; [apply IH|].
    intros ? s (reps & Hr & Hs). eexists (_ :: reps). rewrite <- app_assoc in Hs. split; [|exact Hs].
    constructor; [|done]. split; [done|by eexists].
Qed.

Lemma exhaust_runs xs n d l1 k l2 cs :
  cache_list d = l1 ++ k :: l2 → NoDup (ac_addr <$> cache_list d) → quiet l1 → quiet l2 →
  ac_seeking k = true → ARP_RETRIES ≤ ac_retries k → askers (ac_requests k) cs →
  runs (ready xs (length (ac_requests k) + n) d) (time_out (ac_addr k))
    (λ _ s, ∃ d' reps, Forall2 refuses cs reps ∧ cache_list d' = l1 ++ l2 ∧ ready (xs ++ reps) n d' s).
Proof.
  intros El Hn H1 H2 Hs Hre Hcs. eapply time_out_runs; [done..|]. cbv zeta. unfold arp_handle_to.
  cbn [ac_seeking ac_retries ac_requests set_to_flag set_timer]. rewrite Hs, (proj2 (Z.ltb_ge _ _) Hre).
  apply runs_assoc. eapply runs_bind; [exact (refuse_all_runs _ _ _ _ _ Hcs)|]. intros ?. apply runs_ex. intros reps.
  apply runs_pure. intros Hreps. apply ar_mod. cbn [cache_list put_cache put_interrupt].
  change (ac_addr (set_to_flag true (set_timer None k))) with (ac_addr (set_to_flag false (set_to_flag true (set_timer None k)))).
  rewrite del_at by (rewrite El in Hn; rewrite fmap_app, fmap_cons in *; exact Hn).
  eapply runs_post; [by apply to_all_quiet|]. intros ? s Hs'. eexists _, reps.
  split_and!; [done| |exact Hs']. reflexivity.
Qed.

End Rest.

(** ** Events *)

(** A request of another module, a received frame, a pending interrupt, the
    expiry of a timer. *)
Inductive arp_event :=
| AGet (ff : finsFrame) (src_ip dst_ip : Z)
| AFrame (ff : finsFrame)
| AInterrupt
| AExpire (a : Z).

Section Events.
Context {Q : Type} `{BoundedFifo Q finsFrame} `{ArpEnv}.
Definition arp_step (e : arp_event) : M (mstate Q arp_data) unit :=
  match e with
  | AGet ff src dst => arp_exec_get_addr ff src dst
  | AFrame ff => arp_in_fdf ff
  | AInterrupt => arp_interrupt
  | AExpire a => arp_expire a
  end.
Fixpoint arp_steps (es : list arp_event) : M (mstate Q arp_data) unit :=
  match es with [] => mret tt | e :: es => arp_step e ;; arp_steps es end.
End Events.

Definition asked_by (e : arp_event) : list (Z * Z) :=
  match e with AGet ff _ _ => asked ff | _ => [] end.
Definition asked_in (es : list arp_event) : list (Z * Z) := concat (asked_by <$> es).

Lemma pt_step {Q} `{BoundedFifo Q finsFrame} `{ArpEnv} xs d ks e :
  settled xs d ks → pt xs d (arp_step (Q := Q) e) (λ _ xs' d', settled xs' d' (ks ++ asked_by e)).
Proof.
  intros Hs. destruct e; simpl; rewrite ?app_nil_r;
    [by apply pt_get_addr|by apply pt_in_fdf|by apply pt_interrupt|by apply pt_expire].
Qed.

Lemma pt_steps {Q} `{BoundedFifo Q finsFrame} `{ArpEnv} xs d ks es :
  settled xs d ks → pt xs d (arp_steps (Q := Q) es) (λ _ xs' d', settled xs' d' (ks ++ asked_in es)).
Proof.
  revert xs d ks. induction es as [|e es IH]; intros xs d ks Hs; cbn [arp_steps].
  - apply pt_ret. unfold asked_in. simpl. by rewrite app_nil_r.
  - eapply pt_bind; [by apply pt_step|]. intros ? xs' d' Hs'. eapply pt_post; [exact (IH _ _ _ Hs')|].
    intros ? xs2 d2. unfold asked_in. simpl. by rewrite app_assoc.
Qed.

(** ** Properties *)

(** ARP messages survive the wire.  A message whose fields fit their types
    is encoded by [arp_to_fdf] as 28 bytes with the addresses in the metadata,
    and a frame with these bytes is decoded by [fdf_to_arp] to the same
    message. *)
Theorem arp_message_roundtrip {Q} `{BoundedFifo Q finsFrame} (s : mstate Q arp_data) msg ff :
  arp_ok msg → brings (arp_frame msg) ff →
  ∃ d, arp_to_fdf msg = Ok (arp_frame msg) ∧ body (arp_frame msg) = Data d ∧ pduLength d = 28 ∧
    option_map length (pdu d) = Some 28%nat ∧ fdf_to_arp ff s = Ok (Some msg, s).
Proof.
  intros Hok Hb. eexists. split_and!; [apply arp_to_fdf_ok|done..|]. by eapply (fdf_to_arp_ok s msg 0).
Qed.

(** C27: every request is answered once.  Over any sequence of requests,
    received frames, interrupts and timer expiries, as long as the module runs,
    the cache keeps its invariant (one entry per address, an entry looks for its
    address exactly while requests wait for it, no counter or list beyond its
    limit), and the requests answered by the frames in the output queue,
    together with those waiting in the cache, are exactly the requests that
    were there and those that were made: none is lost, none is answered
    twice. *)
Theorem arp_answers_once {Q} `{BoundedFifo Q finsFrame} `{ArpEnv} (s s' : mstate Q arp_data) xs es :
  room s xs 0 → cache_ok (md s) → arp_steps es s = Ok (tt, s') →
  cache_ok (md s') ∧ ∃ xs', bf_rep (outq s') xs' ∧
    answers xs' ++ pending (cache_list (md s')) ≡ₚ answers xs ++ pending (cache_list (md s)) ++ asked_in es.
Proof.
  intros Hr Hok E. assert (settled xs (md s) (answers xs ++ pending (cache_list (md s)))) as Hs by (by split).
  destruct (pt_steps _ _ _ es Hs s tt s') as (xs' & d' & [[Hq _] <-] & Hok' & Hp); [by split|done|].
  split; [done|]. exists xs'. split; [done|]. by rewrite Hp, <- app_assoc.
Qed.

(** an unknown address is resolved by one exchange.  The request makes the
    module broadcast an ARP request; a module that has the address on one of
    its interfaces answers a frame with these bytes with its hardware address;
    and a frame with the bytes of that reply makes the first module answer the
    request with that address and keep it in its cache.  Every handler
    returns. *)
Theorem arp_resolves {Q1 Q2} `{BoundedFifo Q1 finsFrame} `{BoundedFifo Q2 finsFrame} (E1 E2 : ArpEnv)
    (s1 : mstate Q1 arp_data) (s2 : mstate Q2 arp_data) if1 if2 xs1 xs2 d1 d2 r1 r2 ff m c ip1 ip2 :
  ready if1 xs1 2 d1 s1 → cache_ok d1 → find_first (ifr_ipv4_test ip1) (arp_if_list d1) = Some r1 →
  find_first (arp_cache_ip_test ip2) (cache_list d1) = None →
  Z.of_nat (length (cache_list d1)) < ARP_CACHE_LIST_MAX →
  ready if2 xs2 1 d2 s2 → find_first (ifr_ipv4_test ip2) (arp_if_list d2) = Some r2 →
  is_u32 ip1 → is_u32 ip2 → ip1 ≠ 0 → ip2 ≠ 0 → is_mac (if_mac r1) → is_mac (if_mac r2) →
  if_mac r1 ≠ 0 → if_mac r2 ≠ 0 →
  metaData ff = Some m → long_key m "src_mac" = true → long_key m "dst_mac" = true → body ff = Ctrl c →
  ∃ s1' req, arp_exec_get_addr (H0 := E1) ff ip1 ip2 s1 = Ok (tt, s1') ∧ bf_rep (outq s1') (xs1 ++ [req]) ∧
  ∀ f1, brings req f1 →
  ∃ s2' rep, arp_in_fdf (H0 := E2) f1 s2 = Ok (tt, s2') ∧ bf_rep (outq s2') (xs2 ++ [rep]) ∧
  ∀ f2, brings rep f2 →
  ∃ s1'' ans k, arp_in_fdf (H0 := E1) f2 s1' = Ok (tt, s1'') ∧ bf_rep (outq s1'') (xs1 ++ [req; ans]) ∧
    resolves c (if_mac r2) ans ∧
    find_first (arp_cache_ip_test ip2) (cache_list (md s1'')) = Some k ∧
    ac_mac k = if_mac r2 ∧ ac_seeking k = false.
Proof.
  intros Hs1 Hok Hi1 Hf Hl Hs2 Hi2 Hu1 Hu2 Hn1 Hn2 Hm1 Hm2 Hz1 Hz2 Hm Hk1 Hk2 Hb.
  destruct (get_addr_runs (H0 := E1) if1 xs1 1 d1 r1 ff m ip1 ip2 Hok Hi1 Hf Hl Hm Hk1 s1 Hs1)
    as ([] & s1' & R1 & d1' & k & Hs1' & Hok' & Hcl & Hil & Hw).
  eexists s1', _. split; [exact R1|]. split; [apply Hs1'|]. intros f1 Hf1.
  assert (is_mac ARP_MAC_BROADCAST) as Hbc by (unfold is_mac, ARP_MAC_BROADCAST; lia).
  destruct (request_in_runs (H0 := E2) if2 xs2 0 d2 r2 _ _ _ _ f1 _ Hm1 Hu1 Hbc Hu2 Hz1 Hn1 Hn2 Hf1 Hi2 s2 Hs2)
    as ([] & s2' & R2 & Hs2').
  eexists s2', _. split; [exact R2|]. split; [apply Hs2'|]. intros f2 Hf2. rewrite <- Hil in Hi1.
  destruct (reply_in_runs (H0 := E1) if1 _ 0 d1' (cache_list d1) k r1 _ _ _ _ f2 _ _
    (put_member m "src_mac" (SInt64 (if_mac r1))) c Hm2 Hu2 Hm1 Hu1 Hz2 Hn2 Hn1 Hf2 Hi1 Hok' Hcl Hf Hw eq_refl
    (long_key_put _ _ _ _ Hk2) Hb s1' Hs1') as ([] & s1'' & R3 & ans & d1'' & k' & Ha & Hs1'' & Hfk & Hmk & Hsk & _).
  rewrite <- app_assoc in Hs1''. exists s1'', ans, k'. rewrite (rs_md _ _ _ _ _ Hs1'').
  split_and!; try done. apply Hs1''.
Qed.

(** C28: an address nobody answers for is given up.  An entry that looks for its
    address without having asked again is asked for twice more, on the first
    two time-outs: each time the broadcast request for its address is sent, with
    the addresses of the first request that waits.  On the third time-out all
    its requests, in order, are answered negatively and the entry is removed;
    the other entries stay. *)
Theorem arp_gives_up {Q} `{BoundedFifo Q finsFrame} `{ArpEnv} (s : mstate Q arp_data) iface xs d l1 k l2 r rs cs :
  ready iface xs (2 + length (ac_requests k)) d s → cache_ok d → cache_list d = l1 ++ k :: l2 →
  quiet l1 → quiet l2 → ac_seeking k = true → ac_retries k = 0 → ac_requests k = r :: rs → askers (ac_requests k) cs →
  ∃ s' reps,
    (time_out (ac_addr k) ;; time_out (ac_addr k) ;; time_out (ac_addr k)) s = Ok (tt, s') ∧
    bf_rep (outq s') (xs ++ [asks_for iface r k; asks_for iface r k] ++ reps) ∧ Forall2 refuses cs reps ∧
    cache_list (md s') = l1 ++ l2.
Proof.
  intros Hs Hok El H1 H2 Hsk Hre Hrq Hcs.
  destruct (retry_runs iface xs _ d l1 k l2 r rs El (co_addr _ Hok) H1 H2 Hsk Hrq ltac:(unfold ARP_RETRIES; lia) s Hs)
    as ([] & s1 & R1 & k1 & d1 & [Ea1 Ei1 Er1 Es1 Et1] & El1 & Hn1 & Hs1).
  destruct (retry_runs iface _ _ d1 l1 k1 l2 r rs El1 Hn1 H1 H2 Es1 ltac:(by rewrite Er1) ltac:(unfold ARP_RETRIES; lia) s1 Hs1)
    as ([] & s2 & R2 & k2 & d2 & [Ea2 Ei2 Er2 Es2 Et2] & El2 & Hn2 & Hs2).
  rewrite <- app_assoc in Hs2. assert (ac_requests k2 = ac_requests k) as Er by congruence.
  assert (asks_for iface r k1 = asks_for iface r k) as Ef by (unfold asks_for; by rewrite Ei1). rewrite Ef in Hs2.
  rewrite <- Er, <- (Nat.add_0_r (length (ac_requests k2))) in Hs2. rewrite <- Er in Hcs.
  destruct (exhaust_runs iface _ 0 d2 l1 k2 l2 cs El2 Hn2 H1 H2 Es2 ltac:(unfold ARP_RETRIES; lia) Hcs s2 Hs2)
    as ([] & s3 & R3 & d3 & reps & Hr & El3 & Hs3).
  exists s3, reps. rewrite Ea1 in R2. rewrite Ea2, Ea1 in R3.
  split_and!; try done.
  - by rewrite (bind_ok _ _ _ _ _ R1), (bind_ok _ _ _ _ _ R2).
  - rewrite <- app_assoc in Hs3. apply Hs3.
  - by rewrite (rs_md _ _ _ _ _ Hs3).
Qed.

(** ** A concrete exchange *)

Definition demo_arp_env : ArpEnv := {| arp_clock n := (n, 0) |}.

(** Module 4, whose flow leads to the interface module 2. *)
Definition demo_arp (d : arp_data) : mstate (QueueRecord finsFrame) arp_data :=
  MkSt (MkMod FMS_RUNNING 1 4 4 (init_queue 10) (init_queue 20))
    (MkTable (Some [8]) 1 [MkFlow 1 8]) d (MkStore {[8 := MkLink 1 4 1 [2]]} 9) [] 0.
Definition demo_if (ip mac : Z) : if_record :=
  MkIf 1 "wlan0" mac 0 1500 IFF_RUNNING
    (Some [let any := MkAddr AF_INET 0 0 in MkAddrRecord 1 AF_INET (MkAddr AF_INET 0 ip) any any any any]).
Definition demo_ask : finsFrame :=
  MkFrame 4 (Some []) (Ctrl (MkCtrl 3 9 CTRL_EXEC ARP_EXEC_GET_ADDR 0 0 CNull)).
Definition demo_host (ip mac : Z) : arp_data := MkArpData [demo_if ip mac] [] false 0 1.

Lemma demo_ready d n : (n ≤ 20)%nat → ready 2 [] n d (demo_arp d).
Proof.
  intros Hn. split; [done| | |].
  - split; simpl; [lia| |].
    + intros l [= <-]. split; [repeat constructor; set_solver|].
      repeat constructor; (eexists; split; [reflexivity|simpl; lia]).
    + intros i f Hi Hf. exists [8]. split; [done|]. destruct i as [|i]; [|lia]. by injection Hf as <-.
  - split; [apply create_qrep; lia|]. simpl. lia.
  - intros f dst. rewrite elem_of_cons, elem_of_nil. by intros [[= -> ->]|[]].
Qed.

Lemma demo_cache_ok ip mac : cache_ok (demo_host ip mac).
Proof. split; try constructor. done. Qed.

(** An instance: a broadcast request. *)
Lemma arp_message_roundtrip_witness :
  let msg := gen_requestARP 11 10 ARP_MAC_BROADCAST 20 in
  ∃ d, arp_to_fdf msg = Ok (arp_frame msg) ∧ body (arp_frame msg) = Data d ∧ pduLength d = 28 ∧
    option_map length (pdu d) = Some 28%nat ∧
    fdf_to_arp (MkFrame 4 (Some []) (Data (MkData DIR_UP 28 (Some (arp_hdr msg))))) (demo_arp (demo_host 20 22))
    = Ok (Some msg, demo_arp (demo_host 20 22)).
Proof.
  apply arp_message_roundtrip.
  - by split.
  - by repeat eexists.
Defined.

(** Witness of C27: a request, and its three time-outs. *)
Lemma arp_answers_once_witness :
  let es := [AGet demo_ask 10 20; AExpire 1; AInterrupt; AExpire 1; AInterrupt; AExpire 1; AInterrupt] in
  match arp_steps (H0 := demo_arp_env) es (demo_arp (demo_host 10 11)) with
  | Ok (_, s') => cache_ok (md s') ∧ ∃ xs', bf_rep (outq s') xs' ∧
      answers xs' ++ pending (cache_list (md s')) ≡ₚ answers [] ++ pending [] ++ [(3, 9)]
  | _ => False
  end.
Proof.
  cbv zeta. destruct (arp_steps (H0 := demo_arp_env) _ _) as [[[] s']| | |] eqn:E;
    [|vm_compute in E; discriminate..].
  apply (arp_answers_once (H0 := demo_arp_env) (demo_arp (demo_host 10 11)) s' []
    [AGet demo_ask 10 20; AExpire 1; AInterrupt; AExpire 1; AInterrupt; AExpire 1; AInterrupt]).
  - split; [apply create_qrep; lia|]. simpl. lia.
  - apply demo_cache_ok.
  - exact E.
Defined.

(** An instance: host 10 asks for host 20. *)
Lemma arp_resolves_witness :
  ∃ s1' req, arp_exec_get_addr (H0 := demo_arp_env) demo_ask 10 20 (demo_arp (demo_host 10 11)) = Ok (tt, s1') ∧
    bf_rep (outq s1') ([] ++ [req]) ∧
  ∀ f1, brings req f1 →
  ∃ s2' rep, arp_in_fdf (H0 := demo_arp_env) f1 (demo_arp (demo_host 20 22)) = Ok (tt, s2') ∧
    bf_rep (outq s2') ([] ++ [rep]) ∧
  ∀ f2, brings rep f2 →
  ∃ s1'' ans k, arp_in_fdf (H0 := demo_arp_env) f2 s1' = Ok (tt, s1'') ∧ bf_rep (outq s1'') ([] ++ [req; ans]) ∧
    resolves (MkCtrl 3 9 CTRL_EXEC ARP_EXEC_GET_ADDR 0 0 CNull) 22 ans ∧
    find_first (arp_cache_ip_test 20) (cache_list (md s1'')) = Some k ∧ ac_mac k = 22 ∧ ac_seeking k = false.
Proof.
  refine (arp_resolves demo_arp_env demo_arp_env (demo_arp (demo_host 10 11)) (demo_arp (demo_host 20 22)) 2 2 [] []
    (demo_host 10 11) (demo_host 20 22) (demo_if 10 11) (demo_if 20 22) demo_ask []
    (MkCtrl 3 9 CTRL_EXEC ARP_EXEC_GET_ADDR 0 0 CNull) 10 20 _ _ _ _ _ _ _ _ _ _ _ _ _ _ _ _ _ _ _);
    try done; try reflexivity; try (apply demo_ready; lia); try apply demo_cache_ok;
    unfold is_mac; simpl; lia.
Defined.

(** An entry two modules wait for. *)
Definition demo_entry : arp_cache :=
  MkCache 1 0 20 [MkARq demo_ask 11 10; MkARq demo_ask 11 10] true (0, 0) None false 0.
Definition demo_seeking : arp_data := MkArpData [demo_if 10 11] [demo_entry] false 0 2.

(** Witness of C28. *)
Lemma arp_gives_up_witness :
  let ask := set_dest 2 (arp_frame (gen_requestARP 11 10 ARP_MAC_BROADCAST 20)) in
  ∃ s' reps,
    (time_out 1 ;; time_out 1 ;; time_out 1) (demo_arp demo_seeking) = Ok (tt, s') ∧
    bf_rep (outq s') ([] ++ [ask; ask] ++ reps) ∧
    Forall2 refuses (replicate 2 (MkCtrl 3 9 CTRL_EXEC ARP_EXEC_GET_ADDR 0 0 CNull)) reps ∧
    cache_list (md s') = [] ++ [].
Proof.
  apply (arp_gives_up (H0 := demo_arp_env) (demo_arp demo_seeking) 2 [] demo_seeking [] demo_entry [] (MkARq demo_ask 11 10) [MkARq demo_ask 11 10]).
  - apply demo_ready. simpl. lia.
  - split; simpl; [repeat constructor; set_solver|repeat constructor; lia|repeat constructor; set_solver| |done].
    constructor; [|constructor]. by split.
  - done.
  - constructor.
  - constructor.
  - done.
  - done.
  - done.
  - repeat constructor; by eexists.
Defined.
