(* ===== verification/Interface.v ===== *)
(** * The interface module ([modules/interface/interface.c])

    The link layer: packets of the IPv4 module wait here until the ARP module
    has found the hardware address of their next hop and are then written, as
    Ethernet frames, to the socket of the capturer process; frames that this
    process captured are read from a second socket and passed up.

    A cache entry, a request and a store are heap objects that point at each
    other (a store at its entry and its request, an entry at its requests), so
    each kind has its own heap; a freed object is absent and using it is [Segv].
    The two sockets are byte streams. *)

From stdpp Require Import base list gmap strings.
From Stdlib Require Import ZArith Lia.
From S2P Require Import Prelude Queue Metadata Frame Module IPv4 Double.
Open Scope Z_scope.
Open Scope fins_scope.

Definition SIZE_ETHERNET := 14.
Definition ETH_TYPE_IP4 := 2048.
Definition ETH_TYPE_ARP := 2054.
Definition ETH_TYPE_IP6 := 34525.
Definition ETH_FRAME_LEN_MAX := 10000.
Definition INTERFACE_REQUEST_LIST_MAX := 131072.
Definition INTERFACE_CACHE_TO_DEFAULT := 15000.
Definition INTERFACE_CACHE_LIST_MAX := 8192.
Definition INTERFACE_STORE_LIST_MAX := 131072.
Definition INTERFACE_FLOW_IPV4 := 0.
Definition INTERFACE_FLOW_ARP := 1.
Definition INTERFACE_FLOW_ICMP := 2.
Definition INTERFACE_EXEC_GET_ADDR := 0.
Definition INTERFACE_SET_PARAM_FLOWS := 0.
Definition INTERFACE_SET_PARAM_LINKS := 1.
Definition INTERFACE_SET_PARAM_DUAL := 2.
Definition INTERFACE_ERROR_GET_ADDR := 2.

(** ** Data *)

Record interface_request := MkIReq { iq_src_ip : sockaddr; iq_src_mac : Z; iq_ff : finsFrame }.

Record interface_cache := MkICache {
  ic_ip : sockaddr; ic_mac : Z; ic_requests : list loc; ic_seeking : bool; ic_updated : timeval
}.
Definition set_ic_requests (l : list loc) (k : interface_cache) : interface_cache :=
  MkICache (ic_ip k) (ic_mac k) l (ic_seeking k) (ic_updated k).
Definition set_ic_seeking (b : bool) (k : interface_cache) : interface_cache :=
  MkICache (ic_ip k) (ic_mac k) (ic_requests k) b (ic_updated k).
Definition set_ic_updated (t : timeval) (k : interface_cache) : interface_cache :=
  MkICache (ic_ip k) (ic_mac k) (ic_requests k) (ic_seeking k) t.
Definition set_ic_mac (mac : Z) (k : interface_cache) : interface_cache :=
  MkICache (ic_ip k) mac (ic_requests k) (ic_seeking k) (ic_updated k).

Record interface_store := MkIStore {
  is_serial_num : Z; is_sent : Z; is_cache : option loc; is_request : loc
}.

(** [struct interface_data] with the heap of its objects; addresses from
    [i_brk] on are unused.  [i_inject] is what was written to [inject_fd],
    [i_capture] what can be read from [capture_fd], [i_ticks] the number of
    answers the operating system has given. *)
Record interface_data := MkIData {
  i_if_list : list if_record; i_cache_list : list loc; i_store_list : list loc;
  i_caches : gmap Z interface_cache; i_requests : gmap Z interface_request;
  i_stores : gmap Z interface_store; i_brk : Z;
  i_inject : list Z; i_capture : list Z; i_ticks : nat
}.
Definition put_i_cache_list (l : list loc) (d : interface_data) : interface_data :=
  MkIData (i_if_list d) l (i_store_list d) (i_caches d) (i_requests d) (i_stores d) (i_brk d)
    (i_inject d) (i_capture d) (i_ticks d).
Definition put_i_store_list (l : list loc) (d : interface_data) : interface_data :=
  MkIData (i_if_list d) (i_cache_list d) l (i_caches d) (i_requests d) (i_stores d) (i_brk d)
    (i_inject d) (i_capture d) (i_ticks d).
Definition put_i_caches (h : gmap Z interface_cache) (d : interface_data) : interface_data :=
  MkIData (i_if_list d) (i_cache_list d) (i_store_list d) h (i_requests d) (i_stores d) (i_brk d)
    (i_inject d) (i_capture d) (i_ticks d).
Definition put_i_requests (h : gmap Z interface_request) (d : interface_data) : interface_data :=
  MkIData (i_if_list d) (i_cache_list d) (i_store_list d) (i_caches d) h (i_stores d) (i_brk d)
    (i_inject d) (i_capture d) (i_ticks d).
Definition put_i_stores (h : gmap Z interface_store) (d : interface_data) : interface_data :=
  MkIData (i_if_list d) (i_cache_list d) (i_store_list d) (i_caches d) (i_requests d) h (i_brk d)
    (i_inject d) (i_capture d) (i_ticks d).
Definition put_i_brk (n : Z) (d : interface_data) : interface_data :=
  MkIData (i_if_list d) (i_cache_list d) (i_store_list d) (i_caches d) (i_requests d) (i_stores d) n
    (i_inject d) (i_capture d) (i_ticks d).
Definition put_i_inject (b : list Z) (d : interface_data) : interface_data :=
  MkIData (i_if_list d) (i_cache_list d) (i_store_list d) (i_caches d) (i_requests d) (i_stores d)
    (i_brk d) b (i_capture d) (i_ticks d).
Definition put_i_capture (b : list Z) (d : interface_data) : interface_data :=
  MkIData (i_if_list d) (i_cache_list d) (i_store_list d) (i_caches d) (i_requests d) (i_stores d)
    (i_brk d) (i_inject d) b (i_ticks d).
Definition put_i_ticks (n : nat) (d : interface_data) : interface_data :=
  MkIData (i_if_list d) (i_cache_list d) (i_store_list d) (i_caches d) (i_requests d) (i_stores d)
    (i_brk d) (i_inject d) (i_capture d) n.

(** What the process and the operating system supply, as functions of the number
    of answers given so far: the clock, the numbers of [gen_control_serial_num],
    and the results of [write] and [read] on a socket for the length asked. *)
Class InterfaceEnv := {
  if_clock : nat → timeval; if_serial : nat → Z; if_write : nat → Z → Z; if_read : nat → Z → Z
}.

(** ** Tests on the objects *)

Definition interface_request_ipv4_test (src_ip : Z) (r : interface_request) : bool :=
  addr4_get_ip (iq_src_ip r) =? src_ip.
Definition interface_cache_ipv4_test (ip : Z) (k : interface_cache) : bool :=
  (sin_family (ic_ip k) =? AF_INET) && (addr4_get_ip (ic_ip k) =? ip).
Definition interface_cache_non_seeking_test (k : interface_cache) : bool := negb (ic_seeking k).
Definition interface_store_serial_test (serial_num : Z) (t : interface_store) : bool :=
  is_serial_num t =? serial_num.
Definition interface_store_request_test (r : loc) (t : interface_store) : bool := is_request t =? r.

(** [list_find] and [list_find1]: the first object of the list that passes. *)
Fixpoint find_obj {A} (h : gmap Z A) (f : A → bool) (l : list loc) : res (option loc) :=
  match l with
  | [] => Ok None
  | p :: l =>
      match h !! p with
      | Some a => if f a then Ok (Some p) else find_obj h f l
      | None => Segv
      end
  end.
(** [list_remove]: the first node with the address. *)
Fixpoint del_loc (p : loc) (l : list loc) : list loc :=
  match l with
  | [] => []
  | q :: l => if q =? p then l else q :: del_loc p l
  end.

Definition read_long (m : metadata) (target : string) : res Z :=
  match metadata_readFromElement m target with
  | None => Exit
  | Some (VInt64 v) => Ok (u64 v)
  | Some _ => Segv
  end.

(** ** Ethernet frames *)

Definition eth_addr (mac : Z) : list Z :=
  [ Z.land (Z.shiftr mac 40) 255; Z.land (Z.shiftr mac 32) 255; Z.land (Z.shiftr mac 24) 255;
    Z.land (Z.shiftr mac 16) 255; Z.land (Z.shiftr mac 8) 255; Z.land mac 255 ].
(** [struct sniff_ethernet] up to its data. *)
Definition eth_hdr (dst_mac src_mac ether_type : Z) : list Z :=
  eth_addr dst_mac ++ eth_addr src_mac ++ le_bytes 2 (htons ether_type).
Definition eth_mac (b : list Z) : Z :=
  match b with
  | [b0; b1; b2; b3; b4; b5] =>
      Z.shiftl b0 40 + Z.shiftl b1 32 + Z.shiftl b2 24 + Z.shiftl b3 16 + Z.shiftl b4 8 + b5
  | _ => 0
  end.

Section Interface.
Context {Q : Type} `{BoundedFifo Q finsFrame} `{InterfaceEnv}.
Abbreviation ST := (mstate Q interface_data) (only parsing).

Definition iget : M ST interface_data := s ← get; mret (md s).
Definition imod (f : interface_data → interface_data) : M ST unit := modify (λ s, set_md (f (md s)) s).
(** The next answer of the operating system. *)
Definition i_ask {A} (f : nat → A) : M ST A :=
  d ← iget; imod (put_i_ticks (S (i_ticks d))) ;; mret (f (i_ticks d)).
Definition i_malloc : M ST loc := d ← iget; imod (put_i_brk (i_brk d + 1)) ;; mret (i_brk d).

(** [secure_metadata_readFromElement] into a [uint64_t] variable; a 32-bit
    setting would leave half of it uninitialised. *)
Definition ff_read_long (ff : finsFrame) (target : string) : M ST Z :=
  m ← ff_meta ff; lift (read_long m target).

(** Objects of the three heaps. *)
Definition get_ic (p : loc) : M ST interface_cache :=
  d ← iget; match i_caches d !! p with Some k => mret k | None => segv end.
Definition put_ic (p : loc) (k : interface_cache) : M ST unit :=
  imod (λ d, put_i_caches (<[p := k]> (i_caches d)) d).
Definition upd_ic (p : loc) (f : interface_cache → interface_cache) : M ST unit :=
  k ← get_ic p; put_ic p (f k).
Definition get_iq (p : loc) : M ST interface_request :=
  d ← iget; match i_requests d !! p with Some r => mret r | None => segv end.
Definition get_is (p : loc) : M ST interface_store :=
  d ← iget; match i_stores d !! p with Some t => mret t | None => segv end.
Definition put_is (p : loc) (t : interface_store) : M ST unit :=
  imod (λ d, put_i_stores (<[p := t]> (i_stores d)) d).

(** The frame of the request, unless it was taken over, is freed with it. *)
Definition interface_request_free (p : loc) (keep_ff : bool) : M ST unit :=
  r ← get_iq p;
  (if keep_ff then mret tt else free_ff (iq_ff r)) ;;
  imod (λ d, put_i_requests (delete p (i_requests d)) d).
Fixpoint free_requests (l : list loc) : M ST unit :=
  match l with
  | [] => mret tt
  | p :: l => interface_request_free p false ;; free_requests l
  end.
Definition interface_cache_free (p : loc) : M ST unit :=
  k ← get_ic p;
  free_requests (ic_requests k) ;;
  imod (λ d, put_i_caches (delete p (i_caches d)) d).
Definition interface_store_free (p : loc) : M ST unit :=
  t ← get_is p;
  match is_cache t with Some k => interface_cache_free k | None => mret tt end ;;
  imod (λ d, put_i_stores (delete p (i_stores d)) d).
(** [store->cache = NULL; interface_store_free(store);] *)
Definition store_release (p : loc) : M ST unit :=
  t ← get_is p;
  put_is p (MkIStore (is_serial_num t) (is_sent t) None (is_request t)) ;;
  interface_store_free p.

Definition interface_store_create (serial_num sent : Z) (cache request : loc) : M ST loc :=
  p ← i_malloc;
  put_is p (MkIStore serial_num (u32 sent) (Some cache) request) ;;
  mret p.

(** ** Writing frames *)

Definition write_inject (b : list Z) : M ST Z :=
  r ← i_ask (λ n, if_write n (Z.of_nat (length b)));
  imod (λ d, put_i_inject (i_inject d ++ take (Z.to_nat r) b) d) ;;
  mret r.

(** A length that does not fit an [int] cannot be allocated; one that wraps is
    too short for the header. *)
Definition interface_inject_pdu (pduLength : Z) (pdu : option (list Z)) (dst_mac src_mac ether_type : Z)
    : M ST bool :=
  let framelen := s32 (pduLength + SIZE_ETHERNET) in
  if framelen <? 0 then exit_
  else if framelen <? SIZE_ETHERNET then segv
  else if (ether_type =? ETH_TYPE_ARP) || (ether_type =? ETH_TYPE_IP4) then
    data ← lift (read_bytes pdu pduLength);
    numBytes ← write_inject (le_bytes 4 framelen);
    if numBytes <=? 0 then mret false
    else
      numBytes ← write_inject (eth_hdr dst_mac src_mac ether_type ++ data);
      mret (0 <? numBytes)
  else mret false.

(** [if (!interface_inject_pdu(...)) exit(-1);] *)
Definition inject_ff (ff : finsFrame) (dst_mac src_mac ether_type : Z) : M ST unit :=
  d ← ff_data ff;
  ok ← interface_inject_pdu (pduLength d) (pdu d) dst_mac src_mac ether_type;
  if (ok : bool) then mret tt else exit_.

(** ** Packets from the IPv4 module *)

Definition interface_send_request (src_ip dst_ip serial_num : Z) : M ST Z :=
  m ← lift (match (secure_metadata_writeToElement "src_ip" (VInt32 src_ip) ;;
                   secure_metadata_writeToElement "dst_ip" (VInt32 dst_ip)) metadata_create with
            | Ok (_, m) => Ok m | Segv => Segv | Exit => Exit | NoFuel => NoFuel end);
  s ← get;
  let ff := MkFrame 0 (Some m)
    (Ctrl (MkCtrl (u8 (m_index (fm s))) serial_num CTRL_EXEC INTERFACE_EXEC_GET_ADDR 0 0 CNull)) in
  sent ← module_send_flow ff INTERFACE_FLOW_ARP;
  (if sent =? 0 then free_ff ff else mret tt) ;;
  mret sent.

(** The request for [ff] is appended to the ones of the entry [p]. *)
Definition append_request (p : loc) (ff : finsFrame) (src_ip src_mac : Z) : M ST loc :=
  r ← i_malloc;
  imod (λ d, put_i_requests (<[r := MkIReq (MkAddr AF_INET 0 src_ip) src_mac ff]> (i_requests d)) d) ;;
  upd_ic p (λ k, set_ic_requests (ic_requests k ++ [r]) k) ;;
  mret r.
Definition append_store (serial_num sent : Z) (cache request : loc) : M ST unit :=
  t ← interface_store_create serial_num sent cache request;
  imod (λ d, put_i_store_list (i_store_list d ++ [t]) d).
Definition stamp_cache (p : loc) : M ST unit :=
  now ← i_ask if_clock; upd_ic p (set_ic_updated now).

(** Evicts the first entry that does not look for its address; false when there
    is none. *)
Fixpoint refuse_requests (l : list loc) : M ST unit :=
  match l with
  | [] => mret tt
  | p :: l =>
      r ← get_iq p;
      module_reply_fcf (iq_ff r) FCF_FALSE 0 ;;
      interface_request_free p true ;;
      refuse_requests l
  end.
Definition interface_make_room : M ST bool :=
  d ← iget;
  if Z.of_nat (length (i_cache_list d)) <? INTERFACE_CACHE_LIST_MAX then mret true
  else
    r ← lift (find_obj (i_caches d) interface_cache_non_seeking_test (i_cache_list d));
    match r with
    | Some p =>
        imod (λ d, put_i_cache_list (del_loc p (i_cache_list d)) d) ;;
        k ← get_ic p;
        upd_ic p (set_ic_requests []) ;;
        refuse_requests (ic_requests k) ;;
        interface_cache_free p ;;
        mret true
    | None => mret false
    end.

Definition has_requests_space (k : interface_cache) : bool :=
  Z.of_nat (length (ic_requests k)) <? INTERFACE_REQUEST_LIST_MAX.
Definition has_store_space (d : interface_data) : bool :=
  Z.of_nat (length (i_store_list d)) <? INTERFACE_STORE_LIST_MAX.

(** The address is asked for and the frame waits for it. *)
Definition out_ask (p : loc) (ff : finsFrame) (src_ip src_mac serial_num sent : Z) : M ST unit :=
  r ← append_request p ff src_ip src_mac;
  append_store serial_num sent p r ;;
  upd_ic p (set_ic_seeking true) ;;
  stamp_cache p.

(** The entry of the next hop exists. *)
Definition out_cached (p : loc) (ff : finsFrame) (src_ip dst_ip src_mac : Z) : M ST unit :=
  k ← get_ic p;
  if ic_seeking k then
    if has_requests_space k then append_request p ff src_ip src_mac ;; stamp_cache p
    else free_ff ff
  else
    current ← i_ask if_clock;
    if d_le (time_diff (ic_updated k) current) (d_of_Z INTERFACE_CACHE_TO_DEFAULT) then
      inject_ff ff (ic_mac k) src_mac ETH_TYPE_IP4 ;; free_ff ff
    else
      d ← iget;
      if has_requests_space k && has_store_space d then
        serial_num ← i_ask if_serial;
        sent ← interface_send_request src_ip dst_ip serial_num;
        out_ask p ff src_ip src_mac serial_num sent
      else free_ff ff.

(** A new entry. *)
Definition out_new (ff : finsFrame) (src_ip dst_ip src_mac : Z) : M ST unit :=
  d ← iget;
  if has_store_space d then
    serial_num ← i_ask if_serial;
    sent ← interface_send_request src_ip dst_ip serial_num;
    room ← interface_make_room;
    if (room : bool) then
      p ← i_malloc;
      put_ic p (MkICache (MkAddr AF_INET 0 dst_ip) 0 [] false (0, 0)) ;;
      imod (λ d, put_i_cache_list (i_cache_list d ++ [p]) d) ;;
      out_ask p ff src_ip src_mac serial_num sent
    else free_ff ff
  else free_ff ff.

Definition interface_out_ipv4 (ff : finsFrame) : M ST unit :=
  if_index ← ff_read ff "send_if_index";
  d ← iget;
  match find_first (ifr_index_test if_index) (i_if_list d) with
  | Some ifr =>
      src_ip ← ff_read ff "send_src_ipv4";
      dst_ip ← ff_read ff "send_dst_ipv4";
      cache ← lift (find_obj (i_caches d) (interface_cache_ipv4_test dst_ip) (i_cache_list d));
      match cache with
      | Some p => out_cached p ff src_ip dst_ip (if_mac ifr)
      | None => out_new ff src_ip dst_ip (if_mac ifr)
      end
  | None => free_ff ff
  end.

Definition interface_out_arp (ff : finsFrame) : M ST unit :=
  dst_mac ← ff_read_long ff "send_dst_mac";
  src_mac ← ff_read_long ff "send_src_mac";
  inject_ff ff dst_mac src_mac ETH_TYPE_ARP ;;
  free_ff ff.
Definition interface_out_ipv6 (ff : finsFrame) : M ST unit := free_ff ff.

(** A frame of another type is forgotten. *)
Definition interface_out_fdf (ff : finsFrame) : M ST unit :=
  ether_type ← ff_read ff "send_ether_type";
  if ether_type =? ETH_TYPE_IP4 then interface_out_ipv4 ff
  else if ether_type =? ETH_TYPE_ARP then interface_out_arp ff
  else if ether_type =? ETH_TYPE_IP6 then interface_out_ipv6 ff
  else mret tt.

(** ** Answers of the ARP module *)

(** [while (!list_is_empty(cache->request_list)) ...]: takes the next request of
    the entry [p] off. *)
Definition pop_request (p : loc) : M ST (option loc) :=
  k ← get_ic p;
  match ic_requests k with
  | [] => mret None
  | r :: l => put_ic p (set_ic_requests l k) ;; mret (Some r)
  end.

(** The address was found: the frames that wait are written.  The fuel is the
    number of requests. *)
Fixpoint inject_requests (fuel : nat) (p : loc) (dst_mac src_mac : Z) : M ST unit :=
  r ← pop_request p;
  match r, fuel with
  | None, _ => mret tt
  | Some _, O => nofuel
  | Some r, S fuel =>
      q ← get_iq r;
      inject_ff (iq_ff q) dst_mac src_mac ETH_TYPE_IP4 ;;
      interface_request_free r false ;;
      inject_requests fuel p dst_mac src_mac
  end.

(** The packet of a request goes to the ICMP module as an error; what is left
    of the frame is freed with the request. *)
Definition request_error (r : loc) : M ST unit :=
  q ← get_iq r;
  if sin_family (iq_src_ip q) =? AF_INET then
    d ← ff_data (iq_ff q);
    serial_num ← i_ask if_serial;
    s ← get;
    let ff_err := MkFrame 0 (metaData (iq_ff q))
      (Ctrl (MkCtrl (u8 (m_index (fm s))) serial_num CTRL_ERROR INTERFACE_ERROR_GET_ADDR 0 (pduLength d)
               (match pdu d with Some b => CBytes b | None => CNull end))) in
    imod (λ i, put_i_requests (<[r := MkIReq (iq_src_ip q) (iq_src_mac q)
      (MkFrame (destinationID (iq_ff q)) None (Data (MkData (directionFlag d) 0 None)))]> (i_requests i)) i) ;;
    send_or_free ff_err INTERFACE_FLOW_ICMP ;;
    interface_request_free r false
  else interface_request_free r false.

(** The address was not found.  A store of one of the requests is freed, but
    stays in the list of stores. *)
Fixpoint fail_requests (fuel : nat) (p : loc) : M ST unit :=
  r ← pop_request p;
  match r, fuel with
  | None, _ => mret tt
  | Some _, O => nofuel
  | Some r, S fuel =>
      d ← iget;
      t ← lift (find_obj (i_stores d) (interface_store_request_test r) (i_store_list d));
      match t with Some t => store_release t | None => mret tt end ;;
      request_error r ;;
      fail_requests fuel p
  end.

Definition reply_found (t : loc) (sent : Z) (cache request : loc) (ff : finsFrame) : M ST unit :=
  q ← get_iq request;
  k ← get_ic cache;
  dst_mac ← ff_read_long ff "dst_mac";
  (if ic_seeking k then
     upd_ic cache (λ k, set_ic_seeking false (set_ic_mac dst_mac k)) ;;
     stamp_cache cache ;;
     inject_requests (length (ic_requests k)) cache dst_mac (iq_src_mac q)
   else mret tt) ;;
  if sent =? 0 then store_release t else mret tt.

Definition reply_failed (t : loc) (sent : Z) (cache request : loc) : M ST unit :=
  if sent =? 0 then
    q ← get_iq request;
    k ← get_ic cache;
    if ic_seeking k then
      imod (λ d, put_i_cache_list (del_loc cache (i_cache_list d)) d) ;;
      fail_requests (length (ic_requests k)) cache ;;
      interface_store_free t
    else
      upd_ic cache (λ k, set_ic_requests (del_loc request (ic_requests k)) k) ;;
      interface_request_free request false ;;
      store_release t
  else mret tt.

Definition interface_exec_reply_get_addr (ff : finsFrame) : M ST unit :=
  c ← ff_ctrl ff;
  d ← iget;
  store ← lift (find_obj (i_stores d) (interface_store_serial_test (serial_num c)) (i_store_list d));
  match store with
  | Some t =>
      st ← get_is t;
      let sent := u32 (is_sent st - 1) in
      put_is t (MkIStore (is_serial_num st) sent (is_cache st) (is_request st)) ;;
      (if sent =? 0 then imod (λ d, put_i_store_list (del_loc t (i_store_list d)) d) else mret tt) ;;
      match is_cache st with
      | Some cache =>
          if ret_val c =? FCF_TRUE then reply_found t sent cache (is_request st) ff
          else reply_failed t sent cache (is_request st)
      | None => if (ret_val c =? FCF_TRUE) || (sent =? 0) then segv else mret tt
      end
  | None => mret tt
  end ;;
  free_ff ff.

(** ** Control messages and the main loop *)

Definition interface_read_param (ff : finsFrame) : M ST unit := module_reply_fcf ff FCF_FALSE 0.
Definition interface_exec (ff : finsFrame) : M ST unit := module_reply_fcf ff FCF_FALSE 0.
Definition interface_set_param (ff : finsFrame) : M ST unit :=
  c ← ff_ctrl ff;
  if param_id c =? INTERFACE_SET_PARAM_FLOWS then module_set_param_flows ff
  else if param_id c =? INTERFACE_SET_PARAM_LINKS then module_set_param_links ff
  else if param_id c =? INTERFACE_SET_PARAM_DUAL then module_set_param_dual ff
  else module_reply_fcf ff FCF_FALSE 0.
Definition interface_exec_reply (ff : finsFrame) : M ST unit :=
  c ← ff_ctrl ff;
  if param_id c =? INTERFACE_EXEC_GET_ADDR then interface_exec_reply_get_addr ff else free_ff ff.

Definition interface_fcf (ff : finsFrame) : M ST unit :=
  c ← ff_ctrl ff;
  if opcode c =? CTRL_ALERT then module_reply_fcf ff FCF_FALSE 0
  else if opcode c =? CTRL_ALERT_REPLY then free_ff ff
  else if opcode c =? CTRL_READ_PARAM then interface_read_param ff
  else if opcode c =? CTRL_READ_PARAM_REPLY then free_ff ff
  else if opcode c =? CTRL_SET_PARAM then interface_set_param ff
  else if opcode c =? CTRL_SET_PARAM_REPLY then free_ff ff
  else if opcode c =? CTRL_EXEC then interface_exec ff
  else if opcode c =? CTRL_EXEC_REPLY then interface_exec_reply ff
  else if opcode c =? CTRL_ERROR then free_ff ff
  else exit_.

(** A frame that goes up is dropped. *)
Definition interface_get_ff (events : nat) : M ST unit :=
  get_ff (frame_dispatch interface_fcf free_ff interface_out_fdf) events.

(** ** Frames from the capturer *)

(** [read]: a socket without bytes is waited for. *)
Definition read_capture (n : Z) : M ST (Z * list Z) :=
  d ← iget;
  match i_capture d with
  | [] => nofuel
  | b =>
      r ← i_ask (λ t, if_read t n);
      imod (put_i_capture (drop (Z.to_nat r) b)) ;;
      mret (if 0 <? r then Z.of_nat (length (take (Z.to_nat r) b)) else r, take (Z.to_nat r) b)
  end.

(** The frame is passed up by its type. *)
Definition capture_up (frame : list Z) (flow dst_mac src_mac ether_type : Z) (current : timeval) : M ST unit :=
  m ← lift (match (secure_metadata_writeToElement "recv_dst_mac" (VInt64 dst_mac) ;;
                   secure_metadata_writeToElement "recv_src_mac" (VInt64 src_mac) ;;
                   secure_metadata_writeToElement "recv_ether_type" (VInt32 ether_type) ;;
                   secure_metadata_writeToElement "recv_stamp" (VInt64 current.1)) metadata_create with
            | Ok (_, m) => Ok m | Segv => Segv | Exit => Exit | NoFuel => NoFuel end);
  let len := Z.of_nat (length frame) - SIZE_ETHERNET in
  send_or_free
    (MkFrame 0 (Some m) (Data (MkData DIR_UP len (Some (drop (Z.to_nat SIZE_ETHERNET) frame))))) flow.

Definition capture_frame (frame : list Z) : M ST unit :=
  let dst_mac := eth_mac (take 6 frame) in
  let src_mac := eth_mac (take 6 (drop 6 frame)) in
  let ether_type := ntohs (le_value (take 2 (drop 12 frame))) in
  current ← i_ask if_clock;
  if ether_type =? ETH_TYPE_IP4 then capture_up frame INTERFACE_FLOW_IPV4 dst_mac src_mac ether_type current
  else if ether_type =? ETH_TYPE_ARP then capture_up frame INTERFACE_FLOW_ARP dst_mac src_mac ether_type current
  else mret tt.

(** One round of the thread; [old] is what the variable [frame_len] holds, of
    which a short read replaces the low bytes only.  The frame is read before
    its length is compared with the size of the buffer. *)
Definition capture_round (old : Z) : M ST (option Z) :=
  s ← get;
  if decide (m_state (fm s) = FMS_RUNNING) then
    r ← read_capture 4;
    if r.1 <=? 0 then exit_
    else
      let frame_len := s32 (le_value (r.2 ++ drop (length r.2) (le_bytes 4 old))) in
      r ← read_capture (u64 frame_len);
      if ETH_FRAME_LEN_MAX <? r.1 then segv
      else if r.1 <=? 0 then exit_
      else if negb (r.1 =? frame_len) then mret (Some frame_len)
      else if ETH_FRAME_LEN_MAX <? frame_len then mret (Some frame_len)
      else if frame_len <? SIZE_ETHERNET then mret (Some frame_len)
      else capture_frame r.2 ;; mret (Some frame_len)
  else mret None.

(** The thread [capturer_to_interface], for a number of rounds. *)
Fixpoint capturer_to_interface (rounds : nat) (old : Z) : M ST (option Z) :=
  match rounds with
  | O => mret (Some old)
  | S rounds =>
      r ← capture_round old;
      match r with Some frame_len => capturer_to_interface rounds frame_len | None => mret None end
  end.

End Interface.
