(* ===== verification/Neighbours.v ===== *)
(** * The interface module as a table of neighbours

    What the heap of entries, requests and stores of [Interface] stands for: a
    table that says of each next hop either its hardware address or the packets
    that wait for it, and the list of the questions that the ARP module has not
    answered.  [nb_step] is what an event does to it, and the handlers refine
    [nb_step]. *)

From stdpp Require Import base list gmap strings.
From Stdlib Require Import ZArith Lia.
From S2P Require Import Prelude Queue Metadata Frame Module IPv4 Double Run Interface.
Open Scope Z_scope.
Open Scope fins_scope.

(** ** The specification *)

Inductive nb := Known (mac : Z) (since : timeval) | Asking (ws : list interface_request).

(** Questions are kept with their number and the address asked for, in the order
    in which they were asked. *)
Record neighbours := MkNbs { nb_table : list (Z * nb); nb_pending : list (Z * Z) }.

Definition is_asking (x : Z * nb) : Prop := match x.2 with Asking _ => True | _ => False end.

(** What the module puts out: a question to the ARP module, an Ethernet frame,
    an error for the ICMP module; or a packet is dropped. *)
Inductive nb_out :=
| OAsk (serial src_ip dst_ip : Z)
| OFrame (dst_mac src_mac : Z) (ff : finsFrame)
| OError (serial : Z) (ff : finsFrame)
| ODrop (ff : finsFrame).

(** A packet with its source and next hop and the address of its interface, and
    the answers to a question. *)
Inductive nb_event :=
| VPacket (w : interface_request) (dst_ip : Z)
| VFound (serial mac : Z)
| VFailed (serial : Z).

Definition fresh_entry (since now : timeval) : bool :=
  d_le (time_diff since now) (d_of_Z INTERFACE_CACHE_TO_DEFAULT).
Definition w_src_ip (w : interface_request) : Z := addr4_get_ip (iq_src_ip w).

(** A step begins when the process has been given [t] answers of the operating
    system and ends with the number in its last place; so the clock readings,
    the numbers of the questions and with them the whole step are determined. *)
Inductive nb_step `{InterfaceEnv} (t : nat) : neighbours → nb_event → list nb_out → neighbours → nat → Prop :=
| nb_wait l1 ip ws l2 pend w :
    Z.of_nat (length ws) < INTERFACE_REQUEST_LIST_MAX →
    nb_step t (MkNbs (l1 ++ (ip, Asking ws) :: l2) pend) (VPacket w ip) []
      (MkNbs (l1 ++ (ip, Asking (ws ++ [w])) :: l2) pend) (S t)
| nb_wait_full l1 ip ws l2 pend w :
    INTERFACE_REQUEST_LIST_MAX ≤ Z.of_nat (length ws) →
    nb_step t (MkNbs (l1 ++ (ip, Asking ws) :: l2) pend) (VPacket w ip) [ODrop (iq_ff w)]
      (MkNbs (l1 ++ (ip, Asking ws) :: l2) pend) t
| nb_known l1 ip mac since l2 pend w :
    fresh_entry since (if_clock t) = true →
    nb_step t (MkNbs (l1 ++ (ip, Known mac since) :: l2) pend) (VPacket w ip)
      [OFrame mac (iq_src_mac w) (iq_ff w)] (MkNbs (l1 ++ (ip, Known mac since) :: l2) pend) (S (S (S t)))
| nb_refresh l1 ip mac since l2 pend w :
    fresh_entry since (if_clock t) = false → Z.of_nat (length pend) < INTERFACE_STORE_LIST_MAX →
    nb_step t (MkNbs (l1 ++ (ip, Known mac since) :: l2) pend) (VPacket w ip) [OAsk (if_serial (S t)) (w_src_ip w) ip]
      (MkNbs (l1 ++ (ip, Asking [w]) :: l2) (pend ++ [(if_serial (S t), ip)])) (S (S (S t)))
| nb_new tab pend w ip :
    ip ∉ tab.*1 → Z.of_nat (length pend) < INTERFACE_STORE_LIST_MAX →
    Z.of_nat (length tab) < INTERFACE_CACHE_LIST_MAX →
    nb_step t (MkNbs tab pend) (VPacket w ip) [OAsk (if_serial t) (w_src_ip w) ip]
      (MkNbs (tab ++ [(ip, Asking [w])]) (pend ++ [(if_serial t, ip)])) (S (S t))
| nb_evict l1 old mac since l2 pend w ip :
    ip ∉ (l1 ++ (old, Known mac since) :: l2).*1 → Z.of_nat (length pend) < INTERFACE_STORE_LIST_MAX →
    INTERFACE_CACHE_LIST_MAX ≤ Z.of_nat (length (l1 ++ (old, Known mac since) :: l2)) → Forall is_asking l1 →
    nb_step t (MkNbs (l1 ++ (old, Known mac since) :: l2) pend) (VPacket w ip) [OAsk (if_serial t) (w_src_ip w) ip]
      (MkNbs ((l1 ++ l2) ++ [(ip, Asking [w])]) (pend ++ [(if_serial t, ip)])) (S (S t))
| nb_no_room tab pend w ip :
    ip ∉ tab.*1 → Z.of_nat (length pend) < INTERFACE_STORE_LIST_MAX →
    INTERFACE_CACHE_LIST_MAX ≤ Z.of_nat (length tab) → Forall is_asking tab →
    nb_step t (MkNbs tab pend) (VPacket w ip) [OAsk (if_serial t) (w_src_ip w) ip; ODrop (iq_ff w)] (MkNbs tab pend) (S t)
| nb_refresh_full l1 ip mac since l2 pend w :
    fresh_entry since (if_clock t) = false → INTERFACE_STORE_LIST_MAX ≤ Z.of_nat (length pend) →
    nb_step t (MkNbs (l1 ++ (ip, Known mac since) :: l2) pend) (VPacket w ip) [ODrop (iq_ff w)]
      (MkNbs (l1 ++ (ip, Known mac since) :: l2) pend) (S t)
| nb_new_full tab pend w ip :
    ip ∉ tab.*1 → INTERFACE_STORE_LIST_MAX ≤ Z.of_nat (length pend) →
    nb_step t (MkNbs tab pend) (VPacket w ip) [ODrop (iq_ff w)] (MkNbs tab pend) t
| nb_found l1 ip w ws l2 p1 p2 serial mac :
    serial ∉ p1.*1 →
    nb_step t (MkNbs (l1 ++ (ip, Asking (w :: ws)) :: l2) (p1 ++ (serial, ip) :: p2)) (VFound serial mac)
      ((λ x, OFrame mac (iq_src_mac w) (iq_ff x)) <$> w :: ws)
      (MkNbs (l1 ++ (ip, Known mac (if_clock t)) :: l2) (p1 ++ p2)) (S t + 2 * length (w :: ws))
| nb_failed l1 ip ws l2 p1 p2 serial :
    serial ∉ p1.*1 →
    nb_step t (MkNbs (l1 ++ (ip, Asking ws) :: l2) (p1 ++ (serial, ip) :: p2)) (VFailed serial)
      (zip_with (λ n x, OError n (iq_ff x)) (if_serial <$> seq t (length ws)) ws)
      (MkNbs (l1 ++ l2) (p1 ++ p2)) (t + length ws)
| nb_found_unknown tab pend serial mac :
    serial ∉ pend.*1 → nb_step t (MkNbs tab pend) (VFound serial mac) [] (MkNbs tab pend) t
| nb_failed_unknown tab pend serial :
    serial ∉ pend.*1 → nb_step t (MkNbs tab pend) (VFailed serial) [] (MkNbs tab pend) t.

(** The packets that wait. *)
Definition waiting (x : nb) : list interface_request := match x with Asking ws => ws | Known _ _ => [] end.
Definition load (l : list (Z * nb)) : nat := sum_list ((λ x, length (waiting x.2)) <$> l).
Definition nb_load (N : neighbours) : nat := load (nb_table N).

(** ** The heap that represents a table *)

(** A packet that can be sent: its bytes are there, an Ethernet frame for it
    has a length, and its metadata can be copied. *)
Record packet_ok (ff : finsFrame) : Prop := {
  po_frame : frame_ok ff;
  po_data : ∃ dir b, body ff = Data (MkData dir (Z.of_nat (length b)) (Some b)) ∧
    Z.of_nat (length b) + SIZE_ETHERNET < 2147483648
}.
Definition packet_bytes (ff : finsFrame) : list Z :=
  match body ff with Data d => default [] (pdu d) | _ => [] end.
Definition request_ok (w : interface_request) : Prop :=
  iq_src_ip w = MkAddr AF_INET 0 (w_src_ip w) ∧ packet_ok (iq_ff w).

(** An entry of the heap: where it is, where its requests are, and what it
    stands for. *)
Record entry := MkE { e_loc : loc; e_rs : list loc; e_ip : Z; e_nb : nb }.
Definition e_view (e : entry) : Z * nb := (e_ip e, e_nb e).

Definition stands_for (x : nb) (k : interface_cache) : Prop :=
  match x with
  | Known mac since => ic_mac k = mac ∧ ic_seeking k = false ∧ ic_updated k = since
  | Asking ws => ws ≠ [] ∧ ic_seeking k = true
  end.
Definition requests_at (d : interface_data) (rs : list loc) (ws : list interface_request) : Prop :=
  Forall2 (λ r w, i_requests d !! r = Some w) rs ws.

Record entry_ok (d : interface_data) (e : entry) : Prop := {
  eo_cache : ∃ k, i_caches d !! e_loc e = Some k ∧ ic_ip k = MkAddr AF_INET 0 (e_ip e) ∧
    ic_requests k = e_rs e ∧ stands_for (e_nb e) k;
  eo_requests : requests_at d (e_rs e) (waiting (e_nb e));
  eo_ok : Forall request_ok (waiting (e_nb e))
}.
Definition store_ok (d : interface_data) (V : list entry) (t : loc) (q : Z * Z) : Prop :=
  ∃ e r rs, e ∈ V ∧ e_ip e = q.2 ∧ e_rs e = r :: rs ∧
    i_stores d !! t = Some (MkIStore q.1 1 (Some (e_loc e)) r).

(** The entries are separate objects below the first unused address. *)
Record pool (V : list entry) (d : interface_data) : Prop := {
  pl_entries : Forall (entry_ok d) V;
  pl_locs : NoDup (e_loc <$> V);
  pl_ips : NoDup (e_ip <$> V);
  pl_rs : NoDup (V ≫= e_rs);
  pl_loc_brk : Forall (λ p, p < i_brk d) (e_loc <$> V);
  pl_rs_brk : Forall (λ p, p < i_brk d) (V ≫= e_rs)
}.
(** There is a question under way for each entry that looks for its address, and
    for no other. *)
Record pends (V : list entry) (d : interface_data) (ts : list loc) (qs : list (Z * Z)) : Prop := {
  pd_stores : Forall2 (store_ok d V) ts qs;
  pd_locs : NoDup ts;
  pd_ips : NoDup qs.*2;
  pd_asking : ∀ e, e ∈ V → is_asking (e_view e) → e_ip e ∈ qs.*2;
  pd_brk : Forall (λ p, p < i_brk d) ts
}.
Record irep (V : list entry) (d : interface_data) (N : neighbours) : Prop := {
  ir_list : i_cache_list d = e_loc <$> V;
  ir_table : nb_table N = e_view <$> V;
  ir_pool : pool V d;
  ir_pends : pends V d (i_store_list d) (nb_pending N)
}.

(** What outputs are to the other modules and on the wire. *)
Definition eth_packet (dst_mac src_mac ether_type : Z) (b : list Z) : list Z :=
  le_bytes 4 (Z.of_nat (length b) + SIZE_ETHERNET) ++ eth_hdr dst_mac src_mac ether_type ++ b.
Definition out_bytes (o : nb_out) : list Z :=
  match o with
  | OFrame dst_mac src_mac ff => eth_packet dst_mac src_mac ETH_TYPE_IP4 (packet_bytes ff)
  | _ => []
  end.
Definition asks_arp (arp serial src_ip dst_ip : Z) (f : finsFrame) : Prop :=
  destinationID f = arp ∧ metaData f = Some [("src_ip", SInt (s32 src_ip)); ("dst_ip", SInt (s32 dst_ip))] ∧
  ∃ i, body f = Ctrl (MkCtrl i serial CTRL_EXEC INTERFACE_EXEC_GET_ADDR 0 0 CNull).
Definition reports (icmp serial : Z) (ff f : finsFrame) : Prop :=
  destinationID f = icmp ∧ metaData f = metaData ff ∧
  ∃ i, body f = Ctrl (MkCtrl i serial CTRL_ERROR INTERFACE_ERROR_GET_ADDR 0
    (Z.of_nat (length (packet_bytes ff))) (CBytes (packet_bytes ff))).
Inductive puts_out (arp icmp : Z) : list nb_out → list finsFrame → Prop :=
| po_nil : puts_out arp icmp [] []
| po_ask serial src_ip dst_ip f os fs :
    asks_arp arp serial src_ip dst_ip f → puts_out arp icmp os fs →
    puts_out arp icmp (OAsk serial src_ip dst_ip :: os) (f :: fs)
| po_error serial ff f os fs :
    reports icmp serial ff f → puts_out arp icmp os fs → puts_out arp icmp (OError serial ff :: os) (f :: fs)
| po_wire dm sm ff os fs : puts_out arp icmp os fs → puts_out arp icmp (OFrame dm sm ff :: os) fs
| po_drop ff os fs : puts_out arp icmp os fs → puts_out arp icmp (ODrop ff :: os) fs.

(** The frames that are the events. *)
Definition goes_down (ff : finsFrame) : Prop := ∃ d, body ff = Data d ∧ directionFlag d = DIR_DOWN.
Inductive ev_frame (ifl : list if_record) : nb_event → finsFrame → Prop :=
| ev_packet w ip m index ifr :
    request_ok w → metaData (iq_ff w) = Some m → goes_down (iq_ff w) →
    secure_metadata_readFromElement m "send_ether_type" = Ok ETH_TYPE_IP4 →
    secure_metadata_readFromElement m "send_if_index" = Ok index →
    secure_metadata_readFromElement m "send_src_ipv4" = Ok (w_src_ip w) →
    secure_metadata_readFromElement m "send_dst_ipv4" = Ok ip →
    find_first (ifr_index_test index) ifl = Some ifr → if_mac ifr = iq_src_mac w →
    ev_frame ifl (VPacket w ip) (iq_ff w)
| ev_found serial mac m c ff :
    metaData ff = Some m → body ff = Ctrl c → opcode c = CTRL_EXEC_REPLY → param_id c = INTERFACE_EXEC_GET_ADDR →
    serial_num c = serial → ret_val c = FCF_TRUE → read_long m "dst_mac" = Ok mac →
    ev_frame ifl (VFound serial mac) ff
| ev_failed serial m c ff :
    metaData ff = Some m → body ff = Ctrl c → opcode c = CTRL_EXEC_REPLY → param_id c = INTERFACE_EXEC_GET_ADDR →
    serial_num c = serial → ret_val c = FCF_FALSE → ev_frame ifl (VFailed serial) ff.

(** ** Steps of the handlers *)

Section Steps.
Context {Q : Type} `{BoundedFifo Q finsFrame} `{InterfaceEnv}.
Abbreviation ST := (mstate Q interface_data) (only parsing).
Context (fl : list (Z * Z)).
Context {B : Type} (R : B → ST → Prop) (xs : list finsFrame) (n : nat) (d : interface_data).

Lemma if_get (K : interface_data → M ST B) : runs (rest fl xs n d) (K d) R → runs (rest fl xs n d) (iget ≫= K) R.
Proof. intros HK. unfold iget. apply runs_assoc, rest_get. intros s Hs. rewrite (rs_md _ _ _ _ _ Hs). exact HK. Qed.

Lemma if_mod f (K : unit → M ST B) : runs (rest fl xs n (f d)) (K tt) R → runs (rest fl xs n d) (imod f ≫= K) R.
Proof. apply rest_modify. Qed.

Lemma if_ask {A} (f : nat → A) (K : A → M ST B) :
  runs (rest fl xs n (put_i_ticks (S (i_ticks d)) d)) (K (f (i_ticks d))) R → runs (rest fl xs n d) (i_ask f ≫= K) R.
Proof. intros HK. unfold i_ask. by apply runs_assoc, if_get, runs_assoc, if_mod. Qed.

Lemma if_malloc (K : loc → M ST B) :
  runs (rest fl xs n (put_i_brk (i_brk d + 1) d)) (K (i_brk d)) R → runs (rest fl xs n d) (i_malloc ≫= K) R.
Proof. intros HK. unfold i_malloc. by apply runs_assoc, if_get, runs_assoc, if_mod. Qed.

Lemma if_read_long ff m key v (K : Z → M ST B) :
  metaData ff = Some m → read_long m key = Ok v → runs (rest fl xs n d) (K v) R → runs (rest fl xs n d) (ff_read_long ff key ≫= K) R.
Proof. intros Hm Hv HK. unfold ff_read_long. apply runs_assoc. eapply rest_meta; [exact Hm|]. by eapply rest_lift. Qed.

Lemma if_get_ic p k (K : interface_cache → M ST B) :
  i_caches d !! p = Some k → runs (rest fl xs n d) (K k) R → runs (rest fl xs n d) (get_ic p ≫= K) R.
Proof. intros Hp HK. unfold get_ic. apply runs_assoc, if_get. by rewrite Hp. Qed.

Lemma if_put_ic p k (K : unit → M ST B) :
  runs (rest fl xs n (put_i_caches (<[p := k]> (i_caches d)) d)) (K tt) R → runs (rest fl xs n d) (put_ic p k ≫= K) R.
Proof. exact (if_mod (λ d, put_i_caches (<[p := k]> (i_caches d)) d) K). Qed.

Lemma if_upd_ic p f k (K : unit → M ST B) :
  i_caches d !! p = Some k →
  runs (rest fl xs n (put_i_caches (<[p := f k]> (i_caches d)) d)) (K tt) R → runs (rest fl xs n d) (upd_ic p f ≫= K) R.
Proof. intros Hp HK. unfold upd_ic. apply runs_assoc. eapply if_get_ic; [done|]. by apply if_put_ic. Qed.

Lemma if_get_iq p q (K : interface_request → M ST B) :
  i_requests d !! p = Some q → runs (rest fl xs n d) (K q) R → runs (rest fl xs n d) (get_iq p ≫= K) R.
Proof. intros Hp HK. unfold get_iq. apply runs_assoc, if_get. by rewrite Hp. Qed.

Lemma if_get_is p t (K : interface_store → M ST B) :
  i_stores d !! p = Some t → runs (rest fl xs n d) (K t) R → runs (rest fl xs n d) (get_is p ≫= K) R.
Proof. intros Hp HK. unfold get_is. apply runs_assoc, if_get. by rewrite Hp. Qed.

Lemma if_put_is p t (K : unit → M ST B) :
  runs (rest fl xs n (put_i_stores (<[p := t]> (i_stores d)) d)) (K tt) R → runs (rest fl xs n d) (put_is p t ≫= K) R.
Proof. exact (if_mod (λ d, put_i_stores (<[p := t]> (i_stores d)) d) K). Qed.

Lemma if_request_free p q (K : unit → M ST B) :
  i_requests d !! p = Some q → (∀ n, body (iq_ff q) ≠ NoUnion n) →
  runs (rest fl xs n (put_i_requests (delete p (i_requests d)) d)) (K tt) R →
  runs (rest fl xs n d) (interface_request_free p false ≫= K) R.
Proof.
  intros Hp Hb HK. unfold interface_request_free. apply runs_assoc. eapply if_get_iq; [done|].
  apply runs_assoc, rest_free; [done|]. by apply if_mod.
Qed.

End Steps.

Section Release.
Context {Q : Type} `{BoundedFifo Q finsFrame} `{InterfaceEnv} (fl : list (Z * Z)).
Abbreviation ST := (mstate Q interface_data) (only parsing).

(** A store without entry goes. *)
Lemma if_store_release {B} (R : B → ST → Prop) xs n d p t (K : unit → M ST B) :
  i_stores d !! p = Some t →
  runs (rest fl xs n (put_i_stores (delete p (i_stores d)) d)) (K tt) R →
  runs (rest fl xs n d) (store_release p ≫= K) R.
Proof.
  intros Hp HK. unfold store_release. apply runs_assoc. eapply if_get_is; [done|]. apply runs_assoc, if_put_is.
  unfold interface_store_free. apply runs_assoc. eapply if_get_is; [apply lookup_insert_eq|].
  apply runs_assoc, runs_ret_bind, if_mod. revert HK. simpl. by rewrite delete_insert_eq.
Qed.

End Release.

(** Complete writes. *)
Definition writes_all `{InterfaceEnv} : Prop := ∀ n len, 0 < len → if_write n len = len.

Section Inject.
Context {Q : Type} `{BoundedFifo Q finsFrame} `{InterfaceEnv} (Hw : writes_all).
Abbreviation ST := (mstate Q interface_data) (only parsing).
Context (fl : list (Z * Z)).

Lemma if_write_inject {B} (R : B → ST → Prop) xs n d b (K : Z → M ST B) :
  b ≠ [] →
  runs (rest fl xs n (put_i_inject (i_inject d ++ b) (put_i_ticks (S (i_ticks d)) d))) (K (Z.of_nat (length b))) R →
  runs (rest fl xs n d) (write_inject b ≫= K) R.
Proof using Hw.
  intros Hb HK. unfold write_inject. apply runs_assoc, if_ask. rewrite Hw by (destruct b; simpl; [done|lia]).
  rewrite Nat2Z.id, take_ge by lia. by apply runs_assoc, if_mod.
Qed.

(** A frame written: two writes. *)
Definition injected (b : list Z) (d : interface_data) : interface_data :=
  put_i_inject (i_inject d ++ b) (put_i_ticks (S (S (i_ticks d))) d).

Lemma if_inject_ff {B} (R : B → ST → Prop) xs n d ff dst_mac src_mac ty (K : unit → M ST B) :
  packet_ok ff → ty = ETH_TYPE_IP4 ∨ ty = ETH_TYPE_ARP →
  runs (rest fl xs n (injected (eth_packet dst_mac src_mac ty (packet_bytes ff)) d)) (K tt) R →
  runs (rest fl xs n d) (inject_ff ff dst_mac src_mac ty ≫= K) R.
Proof using Hw.
  intros [_ (dir & b & Hb & Hl)] Hty HK. unfold inject_ff. apply runs_assoc. eapply rest_data; [exact Hb|]. cbn [pduLength pdu].
  assert (packet_bytes ff = b) as Eb by (unfold packet_bytes; by rewrite Hb).
  unfold interface_inject_pdu. unfold SIZE_ETHERNET in *.
  assert (s32 (Z.of_nat (length b) + 14) = Z.of_nat (length b) + 14) as Es by (unfold s32; rewrite Z.mod_small; lia).
  rewrite Es, (proj2 (Z.ltb_ge _ _)), (proj2 (Z.ltb_ge _ _)) by lia.
  assert ((ty =? ETH_TYPE_ARP) || (ty =? ETH_TYPE_IP4) = true) as -> by (destruct Hty as [-> | ->]; reflexivity).
  apply runs_assoc, runs_assoc. eapply rest_lift; [by apply read_bytes_all|]. apply runs_assoc, if_write_inject; [done|].
  rewrite le_bytes_length, (proj2 (Z.leb_gt _ _)) by lia. apply runs_assoc, if_write_inject; [done|].
  apply runs_ret_bind. rewrite (proj2 (Z.ltb_lt _ _)) by (simpl; lia). apply runs_ret_bind.
  revert HK. unfold injected, eth_packet. rewrite Eb. simpl. by rewrite <- !app_assoc.
Qed.

End Inject.

(** ** Keeping the representation *)

Lemma requests_at_frame d d' rs ws :
  requests_at d rs ws → (∀ r, r ∈ rs → i_requests d' !! r = i_requests d !! r) → requests_at d' rs ws.
Proof.
  induction 1 as [|r w rs ws Hw Hr IH]; intros Er; constructor.
  - rewrite Er; [done|left].
  - apply IH. intros r' Hr'. apply Er. by right.
Qed.

Lemma entry_ok_frame d d' e :
  entry_ok d e → i_caches d' !! e_loc e = i_caches d !! e_loc e →
  (∀ r, r ∈ e_rs e → i_requests d' !! r = i_requests d !! r) → entry_ok d' e.
Proof. intros [Hc Hr Ho] Ec Er. split; [by rewrite Ec|by eapply requests_at_frame|done]. Qed.

Lemma pool_cons e V d :
  pool (e :: V) d ↔ entry_ok d e ∧ pool V d ∧ e_loc e ∉ e_loc <$> V ∧ e_ip e ∉ e_ip <$> V ∧ NoDup (e_rs e) ∧
    (∀ r, r ∈ e_rs e → r ∉ V ≫= e_rs) ∧ e_loc e < i_brk d ∧ Forall (λ p, p < i_brk d) (e_rs e).
Proof.
  split.
  - intros [He Hl Hi Hr Bl Br]. rewrite bind_cons in Hr, Br. apply Forall_cons in He as [He1 He2], Bl as [Bl1 Bl2].
    apply NoDup_cons in Hl as [Hl1 Hl2], Hi as [Hi1 Hi2]. apply NoDup_app in Hr as (Hr1 & Hr2 & Hr3).
    apply Forall_app in Br as [Br1 Br2]. by split_and!.
  - intros (He & [? ? ? ? ? ?] & Hl & Hi & Hn & Hr & Bl & Br). split; try rewrite bind_cons; rewrite ?fmap_cons.
    + by constructor.
    + by constructor.
    + by constructor.
    + by apply NoDup_app.
    + by constructor.
    + by apply Forall_app.
Qed.

#[export] Instance pool_perm : Proper ((≡ₚ) ==> eq ==> iff) pool.
Proof.
  assert (∀ V V' d, V ≡ₚ V' → pool V d → pool V' d) as Hp.
  { intros V V' d HV [? ? ? ? ? ?]. split; by rewrite <- HV. }
  intros V V' HV d ? <-. split; by apply Hp.
Qed.

Lemma pool_frame V d d' :
  pool V d → (∀ p, p ∈ e_loc <$> V → i_caches d' !! p = i_caches d !! p) →
  (∀ r, r ∈ V ≫= e_rs → i_requests d' !! r = i_requests d !! r) → i_brk d ≤ i_brk d' → pool V d'.
Proof.
  intros [He Hl Hi Hr Bl Br] Hc Hq Hb. split; try done.
  - apply Forall_forall. intros e Hin. rewrite Forall_forall in He. eapply entry_ok_frame; [by apply He|..].
    + apply Hc. by apply list_elem_of_fmap_2.
    + intros r Hr'. apply Hq. apply list_elem_of_bind. by exists e.
  - eapply Forall_impl; [exact Bl|]. simpl. lia.
  - eapply Forall_impl; [exact Br|]. simpl. lia.
Qed.

(** The entry [e'] stands where [e] stood for the stores. *)
Definition same_for_stores (e e' : entry) : Prop :=
  e_ip e' = e_ip e ∧ e_loc e' = e_loc e ∧ head (e_rs e') = head (e_rs e).

Lemma stores_frame d d' V V' ts qs :
  Forall2 (store_ok d V) ts qs → (∀ t, t ∈ ts → i_stores d' !! t = i_stores d !! t) →
  (∀ e, e ∈ V → e_ip e ∈ qs.*2 → e_rs e ≠ [] → ∃ e', e' ∈ V' ∧ same_for_stores e e') →
  Forall2 (store_ok d' V') ts qs.
Proof.
  intros Hs Ht HV. induction Hs as [|t q ts qs (e & r & rs & He & Hip & Hrs & Hst) Hs IH]; constructor.
  - destruct (HV e) as (e' & He' & Ei & El & Eh); [done|rewrite Hip; left|by rewrite Hrs|].
    rewrite Hrs in Eh. destruct (e_rs e') as [|r' rs'] eqn:Er; [done|]. injection Eh as ->.
    exists e', r, rs'. rewrite Ht by left. rewrite El. split_and!; [done|congruence|done|done].
  - apply IH; [intros t' Ht'; apply Ht; by right|]. intros e' He' Hq. apply HV; [done|by right].
Qed.

#[export] Instance pends_perm : Proper ((≡ₚ) ==> eq ==> eq ==> eq ==> iff) pends.
Proof.
  assert (∀ V V' d ts qs, V ≡ₚ V' → pends V d ts qs → pends V' d ts qs) as Hp.
  { intros V V' d ts qs HV [? ? ? Ha ?]. split; try done.
    - eapply stores_frame; [done|done|]. intros e He _ _. exists e. split; [by rewrite <- HV|done].
    - intros e He. apply Ha. by rewrite HV. }
  intros V V' HV d ? <- ts ? <- qs ? <-. split; by apply Hp.
Qed.

(** The entry that a pending question is about. *)
Lemma pends_entry V d ts qs t serial ip i :
  pends V d ts qs → pool V d → ts !! i = Some t → qs !! i = Some (serial, ip) →
  ∃ e r rs ws, e ∈ V ∧ e_ip e = ip ∧ e_rs e = r :: rs ∧ e_nb e = Asking ws ∧
    i_stores d !! t = Some (MkIStore serial 1 (Some (e_loc e)) r).
Proof.
  intros [Hs _ _ _ _] [He _ _ _ _ _] Ht Hq. destruct (Forall2_lookup_lr _ _ _ _ _ _ Hs Ht Hq) as (e & r & rs & Hin & Hip & Hrs & Hst).
  rewrite Forall_forall in He. destruct (He e Hin) as [_ Hr _]. rewrite Hrs in Hr.
  destruct (e_nb e) as [mac since|ws] eqn:En; [by inversion Hr|]. by exists e, r, rs, ws.
Qed.

Lemma find_obj_first {A} (h : gmap Z A) f l1 p l2 a :
  h !! p = Some a → f a = true → Forall (λ q, ∃ b, h !! q = Some b ∧ f b = false) l1 →
  find_obj h f (l1 ++ p :: l2) = Ok (Some p).
Proof. intros Hp Hf. induction 1 as [|q l1 (b & Hq & Hb) Hl IH]; simpl; [by rewrite Hp, Hf|by rewrite Hq, Hb]. Qed.
Lemma find_obj_none {A} (h : gmap Z A) f l :
  Forall (λ q, ∃ b, h !! q = Some b ∧ f b = false) l → find_obj h f l = Ok None.
Proof. induction 1 as [|q l (b & Hq & Hb) Hl IH]; simpl; [done|by rewrite Hq, Hb]. Qed.

Lemma del_loc_app l1 p l2 : p ∉ l1 → del_loc p (l1 ++ p :: l2) = l1 ++ l2.
Proof.
  induction l1 as [|q l1 IH]; simpl; intros Hp; [by rewrite Z.eqb_refl|].
  apply not_elem_of_cons in Hp as [Hq Hp]. rewrite (proj2 (Z.eqb_neq _ _)) by congruence. by rewrite IH.
Qed.

(** Freed requests. *)
Fixpoint drop_locs {A} (rs : list loc) (h : gmap Z A) : gmap Z A :=
  match rs with [] => h | r :: rs => drop_locs rs (delete r h) end.
Lemma lookup_drop_locs {A} r rs (h : gmap Z A) : r ∉ rs → drop_locs rs h !! r = h !! r.
Proof.
  revert h. induction rs as [|r' rs IH]; intros h Hr; simpl; [done|]. apply not_elem_of_cons in Hr as [Hn Hr].
  rewrite IH by done. by rewrite lookup_delete_ne.
Qed.

(** Entries come and go beside the others, [V]. *)
Lemma pool_add e V d d' :
  pool V d → entry_ok d' e → e_loc e ∉ e_loc <$> V → e_ip e ∉ e_ip <$> V → NoDup (e_rs e) →
  (∀ r, r ∈ e_rs e → r ∉ V ≫= e_rs) → e_loc e < i_brk d' → Forall (λ p, p < i_brk d') (e_rs e) →
  (∀ p, p ≠ e_loc e → p < i_brk d → i_caches d' !! p = i_caches d !! p) →
  (∀ r, r ∉ e_rs e → r ∈ V ≫= e_rs → i_requests d' !! r = i_requests d !! r) → i_brk d ≤ i_brk d' →
  pool (e :: V) d'.
Proof.
  intros Hp He Hl Hi Hn Hr Bl Br Hc Hq Hb. apply pool_cons. split_and!; try done. eapply pool_frame; [exact Hp|..|done].
  - intros p Hin. apply Hc; [congruence|]. pose proof (pl_loc_brk _ _ Hp) as Hf. rewrite Forall_forall in Hf. by apply Hf.
  - intros r Hin. apply Hq; [|done]. intros Hin'. by apply (Hr r).
Qed.

Lemma pends_frame V d d' ts qs :
  pends V d ts qs → (∀ t, t ∈ ts → i_stores d' !! t = i_stores d !! t) → i_brk d ≤ i_brk d' → pends V d' ts qs.
Proof.
  intros [Hs Hl Hi Ha Hb] Ht Hbr. split; try done.
  - eapply stores_frame; [done|done|]. intros e He _ _. by exists e.
  - eapply Forall_impl; [exact Hb|]. simpl. lia.
Qed.

Lemma pends_same e e' V d ts qs :
  pends (e :: V) d ts qs → same_for_stores e e' → (is_asking (e_view e') → is_asking (e_view e)) → pends (e' :: V) d ts qs.
Proof.
  intros [Hs Hl Hi Ha Hb] He Has. split; try done.
  - eapply stores_frame; [done|done|]. intros e0 [->|H0]%elem_of_cons _ _.
    + exists e'. split; [left|done].
    + exists e0. split; [by right|done].
  - intros e0 [->|H0]%elem_of_cons Hk; [|apply Ha; [by right|done]].
    rewrite (proj1 He). apply Ha; [left|by apply Has].
Qed.

(** No question is about an address that is known. *)
Lemma pends_known e V d ts qs mac since :
  pends (e :: V) d ts qs → pool (e :: V) d → e_nb e = Known mac since → e_rs e = [] ∧ e_ip e ∉ qs.*2.
Proof.
  intros [Hs Hl Hi Ha Hb] Hp Ek. apply pool_cons in Hp as ([_ Hr _] & _ & _ & Hip & _). rewrite Ek in Hr.
  assert (e_rs e = []) as En by (inversion Hr; done). split; [done|]. intros (i & Hq)%list_elem_of_lookup.
  apply list_lookup_fmap_Some in Hq as ([serial ip] & E & Hq). simpl in E.
  destruct (Forall2_lookup_r _ _ _ _ _ Hs Hq) as (t & Ht & e0 & r & rs & Hin & Hip0 & Hrs & _). simpl in Hip0.
  apply elem_of_cons in Hin as [->|Hin]; [congruence|]. apply Hip. rewrite E, <- Hip0. by apply list_elem_of_fmap_2.
Qed.

Lemma pends_drop e V d ts qs : pends (e :: V) d ts qs → e_rs e = [] → pends V d ts qs.
Proof.
  intros [Hs Hl Hi Ha Hb] En. split; try done.
  - eapply stores_frame; [done|done|]. intros e0 [->|H0]%elem_of_cons _ Hn; [done|]. by exists e0.
  - intros e0 He0. apply Ha. by right.
Qed.

Lemma pends_add_known e V d ts qs : pends V d ts qs → ¬ is_asking (e_view e) → pends (e :: V) d ts qs.
Proof.
  intros [Hs Hl Hi Ha Hb] Hn. split; try done.
  - eapply stores_frame; [done|done|]. intros e0 He0 _ _. exists e0. split; [by right|done].
  - intros e0 [->|H0]%elem_of_cons Hk; [done|by apply Ha].
Qed.

(** A question is asked about a new entry. *)
Lemma pends_ask e V d d' ts qs t serial r :
  pends V d ts qs → e_ip e ∉ qs.*2 → e_rs e = [r] → i_stores d' !! t = Some (MkIStore serial 1 (Some (e_loc e)) r) →
  i_brk d ≤ t < i_brk d' → (∀ t', t' ≠ t → i_stores d' !! t' = i_stores d !! t') →
  pends (e :: V) d' (ts ++ [t]) (qs ++ [(serial, e_ip e)]).
Proof.
  intros [Hs Hl Hi Ha Hb] Hip Hr Ht Hbr Hst. rewrite Forall_forall in Hb. split.
  - apply Forall2_app.
    + eapply stores_frame; [done| |].
      * intros t' Ht'. apply Hst. intros ->. specialize (Hb _ Ht'). simpl in Hb. lia.
      * intros e0 He0 _ _. exists e0. split; [by right|done].
    + constructor; [|constructor]. exists e, r, []. split_and!; [left|done|done|done].
  - apply NoDup_app. split_and!; [done| |apply NoDup_singleton]. intros t' Ht' ->%list_elem_of_singleton.
    specialize (Hb _ Ht'). simpl in Hb. lia.
  - rewrite fmap_app. apply NoDup_app. split_and!; [done| |apply NoDup_singleton].
    by intros ip Hin ->%list_elem_of_singleton.
  - intros e0 Hin Hk. rewrite fmap_app. apply elem_of_app. apply elem_of_cons in Hin as [->|Hin]; [right; left|left].
    by apply Ha.
  - apply Forall_app. split; [|by constructor; [simpl; lia|]]. apply Forall_forall. intros t' Ht'. specialize (Hb _ Ht').
    simpl in *. lia.
Qed.

(** A question is answered; its entry is no longer looked at. *)
Lemma pends_done e V d d' t1 t t2 q1 serial q2 :
  pends (e :: V) d (t1 ++ t :: t2) (q1 ++ (serial, e_ip e) :: q2) → pool (e :: V) d → length t1 = length q1 →
  (∀ t', t' ≠ t → i_stores d' !! t' = i_stores d !! t') → i_brk d' = i_brk d →
  pends V d' (t1 ++ t2) (q1 ++ q2).
Proof.
  intros [Hs Hl Hi Ha Hb] Hp Hlen Hst Hbr. apply Forall2_app_inv in Hs as [Hs1 Hs2]; [|done].
  apply Forall2_cons in Hs2 as [Hs0 Hs2]. apply pool_cons in Hp as (_ & _ & _ & Hip & _).
  rewrite fmap_app, fmap_cons in Hi. apply NoDup_app in Hl as (Hl1 & Hl2 & [Hl3 Hl4]%NoDup_cons).
  apply NoDup_app in Hi as (Hi1 & Hi2 & [Hi3 Hi4]%NoDup_cons).
  assert (e_ip e ∉ (q1 ++ q2).*2) as Hne.
  { rewrite fmap_app, not_elem_of_app. split; [|done]. intros Hin. apply (Hi2 _ Hin). left. }
  split.
  - eapply (stores_frame d d' (e :: V)); [by apply Forall2_app| |].
    + intros t' Ht'. apply Hst. intros ->. apply elem_of_app in Ht' as [Ht'|Ht']; [|done]. apply (Hl2 _ Ht'). left.
    + intros e0 [->|H0]%elem_of_cons Hin _; [done|]. by exists e0.
  - apply NoDup_app. split_and!; [done| |done]. intros x Hx Hx2. apply (Hl2 _ Hx). by right.
  - rewrite fmap_app. apply NoDup_app. split_and!; [done| |done]. intros x Hx Hx2. apply (Hi2 _ Hx). by right.
  - intros e0 Hin Hk. assert (e_ip e0 ≠ e_ip e) as Hd.
    { intros E. apply Hip. rewrite <- E. by apply list_elem_of_fmap_2. }
    specialize (Ha e0 ltac:(by right) Hk). rewrite fmap_app, fmap_cons, elem_of_app, elem_of_cons in Ha.
    rewrite fmap_app, elem_of_app. simpl in Ha. tauto.
  - rewrite Hbr. apply Forall_app in Hb as [Hb1 Hb2]. apply Forall_cons in Hb2 as [_ Hb2]. by apply Forall_app.
Qed.

(** ** Packets *)

Section Packets.
Context {Q : Type} `{BoundedFifo Q finsFrame} `{InterfaceEnv} (Hw : writes_all).
Abbreviation ST := (mstate Q interface_data) (only parsing).
Context (fl : list (Z * Z)) (arp icmp : Z).
Context (Harp : (INTERFACE_FLOW_ARP, arp) ∈ fl) (Hicmp : (INTERFACE_FLOW_ICMP, icmp) ∈ fl).

Lemma if_send_request {B} (R : B → ST → Prop) xs n d src dst serial (K : Z → M ST B) :
  (∀ f, asks_arp arp serial src dst f → runs (rest fl (xs ++ [f]) n d) (K 1) R) →
  runs (rest fl xs (S n) d) (interface_send_request src dst serial ≫= K) R.
Proof using Harp.
  intros HK. unfold interface_send_request. apply runs_assoc. eapply rest_lift; [reflexivity|].
  apply runs_assoc, rest_get. intros s Hs. apply runs_assoc. eapply rest_send; [|done|exact Harp|].
  - split; [done|]. eexists. split; reflexivity.
  - change (1 =? 0) with false. cbv iota. apply runs_assoc, runs_ret_bind, runs_ret_bind. apply HK.
    split; [done|]. split; [done|]. by eexists.
Qed.

(** The heap after a packet [w] was appended to the entry at [p], at the time
    [now]. *)
Definition appended (p : loc) (k : interface_cache) (w : interface_request) (d : interface_data) : interface_data :=
  MkIData (i_if_list d) (i_cache_list d) (i_store_list d)
    (<[p := MkICache (ic_ip k) (ic_mac k) (ic_requests k ++ [i_brk d]) (ic_seeking k) (if_clock (i_ticks d))]> (i_caches d))
    (<[i_brk d := w]> (i_requests d)) (i_stores d) (i_brk d + 1) (i_inject d) (i_capture d) (S (i_ticks d)).
(** ... and a question was asked for it. *)
Definition asked (p : loc) (k : interface_cache) (w : interface_request) (serial : Z) (d : interface_data) : interface_data :=
  MkIData (i_if_list d) (i_cache_list d) (i_store_list d ++ [i_brk d + 1])
    (<[p := MkICache (ic_ip k) (ic_mac k) (ic_requests k ++ [i_brk d]) true (if_clock (i_ticks d))]> (i_caches d))
    (<[i_brk d := w]> (i_requests d))
    (<[i_brk d + 1 := MkIStore serial 1 (Some p) (i_brk d)]> (i_stores d)) (i_brk d + 1 + 1)
    (i_inject d) (i_capture d) (S (i_ticks d)).

Lemma if_append_request {B} (R : B → ST → Prop) xs n d p k w (K : loc → M ST B) :
  i_caches d !! p = Some k → request_ok w →
  runs (rest fl xs n (put_i_caches (<[p := set_ic_requests (ic_requests k ++ [i_brk d]) k]> (i_caches d))
    (put_i_requests (<[i_brk d := w]> (i_requests d)) (put_i_brk (i_brk d + 1) d)))) (K (i_brk d)) R →
  runs (rest fl xs n d) (append_request p (iq_ff w) (w_src_ip w) (iq_src_mac w) ≫= K) R.
Proof.
  intros Hp Hok HK. unfold append_request. apply runs_assoc, if_malloc, runs_assoc, if_mod, runs_assoc.
  eapply if_upd_ic; [exact Hp|]. apply runs_ret_bind. rewrite <- (proj1 Hok). by destruct w.
Qed.

Lemma if_stamp {B} (R : B → ST → Prop) xs n d p k (K : unit → M ST B) :
  i_caches d !! p = Some k →
  runs (rest fl xs n (put_i_caches (<[p := set_ic_updated (if_clock (i_ticks d)) k]> (i_caches d))
    (put_i_ticks (S (i_ticks d)) d))) (K tt) R →
  runs (rest fl xs n d) (stamp_cache p ≫= K) R.
Proof. intros Hp HK. unfold stamp_cache. apply runs_assoc, if_ask. by eapply if_upd_ic. Qed.

Lemma if_append {B} (R : B → ST → Prop) xs n d p k w (K : unit → M ST B) :
  i_caches d !! p = Some k → request_ok w → runs (rest fl xs n (appended p k w d)) (K tt) R →
  runs (rest fl xs n d) ((append_request p (iq_ff w) (w_src_ip w) (iq_src_mac w) ;; stamp_cache p) ≫= K) R.
Proof.
  intros Hp Hok HK. apply runs_assoc. eapply if_append_request; [done..|].
  eapply if_stamp; [apply lookup_insert_eq|]. revert HK. unfold appended. simpl. by rewrite insert_insert_eq.
Qed.

Lemma if_out_ask {B} (R : B → ST → Prop) xs n d p k w serial (K : unit → M ST B) :
  i_caches d !! p = Some k → request_ok w → runs (rest fl xs n (asked p k w serial d)) (K tt) R →
  runs (rest fl xs n d) (out_ask p (iq_ff w) (w_src_ip w) (iq_src_mac w) serial 1 ≫= K) R.
Proof.
  intros Hp Hok HK. unfold out_ask. apply runs_assoc. eapply if_append_request; [done..|].
  unfold append_store, interface_store_create. apply runs_assoc, runs_assoc, runs_assoc, if_malloc, runs_assoc, if_put_is.
  apply runs_ret_bind, if_mod. apply runs_assoc. eapply if_upd_ic; [apply lookup_insert_eq|].
  eapply if_stamp; [apply lookup_insert_eq|]. revert HK. unfold asked. simpl. by rewrite !insert_insert_eq.
Qed.

(** The entry that gets the question. *)
Lemma irep_asked V d qs p ip k w serial :
  pool V d → pends V d (i_store_list d) qs → request_ok w →
  i_caches d !! p = Some k → ic_requests k = [] → ic_ip k = MkAddr AF_INET 0 ip → p < i_brk d →
  p ∉ e_loc <$> V → ip ∉ e_ip <$> V → ip ∉ qs.*2 →
  pool (MkE p [i_brk d] ip (Asking [w]) :: V) (asked p k w serial d) ∧
  pends (MkE p [i_brk d] ip (Asking [w]) :: V) (asked p k w serial d) (i_store_list (asked p k w serial d))
    (qs ++ [(serial, ip)]).
Proof.
  intros Hp Hd Hok Hk Hr Hi Hl Hnl Hni Hnq.
  pose proof (pl_rs_brk _ _ Hp) as Br. rewrite Forall_forall in Br.
  assert (∀ r, r ∈ [i_brk d] → r ∉ V ≫= e_rs) as Hfr.
  { intros r ->%list_elem_of_singleton Hin. specialize (Br _ Hin). simpl in Br. lia. }
  split.
  - eapply pool_add; [exact Hp|..]; simpl; try done.
    + split; simpl.
      * eexists. rewrite lookup_insert_eq, Hr. split_and!; try done.
      * constructor; [apply lookup_insert_eq|constructor].
      * by constructor.
    + apply NoDup_singleton.
    + lia.
    + constructor; [lia|constructor].
    + intros q Hn _. by rewrite lookup_insert_ne.
    + intros r Hn Hin. rewrite lookup_insert_ne; [done|]. intros <-. apply Hn. left.
    + lia.
  - apply (pends_ask (MkE p [i_brk d] ip (Asking [w])) V d _ _ _ _ _ (i_brk d)); simpl; try done.
    + by rewrite lookup_insert_eq.
    + lia.
    + intros t' Ht'. by rewrite lookup_insert_ne.
Qed.

Lemma find_obj_entries {A} (h : gmap Z A) f g (V : list entry) :
  Forall (λ e, ∃ k, h !! e_loc e = Some k ∧ f k = g e) V →
  find_obj h f (e_loc <$> V) = Ok (e_loc <$> find_first g V).
Proof. induction 1 as [|e V (k & Hk & Hf) HV IH]; simpl; [done|]. rewrite Hk, Hf. by destruct (g e). Qed.

Definition seeks (e : entry) : bool := match e_nb e with Asking _ => true | Known _ _ => false end.

Lemma find_ip V d ip :
  pool V d → find_obj (i_caches d) (interface_cache_ipv4_test ip) (e_loc <$> V)
    = Ok (e_loc <$> find_first (λ e, e_ip e =? ip) V).
Proof.
  intros [He _ _ _ _ _]. apply find_obj_entries. eapply Forall_impl; [exact He|].
  intros e [(k & Hk & Hi & _) _ _]. exists k. split; [done|]. unfold interface_cache_ipv4_test. by rewrite Hi.
Qed.
Lemma find_known V d :
  pool V d → find_obj (i_caches d) interface_cache_non_seeking_test (e_loc <$> V)
    = Ok (e_loc <$> find_first (λ e, negb (seeks e)) V).
Proof.
  intros [He _ _ _ _ _]. apply find_obj_entries. eapply Forall_impl; [exact He|].
  intros e [(k & Hk & _ & _ & Hs) _ _]. exists k. split; [done|]. unfold interface_cache_non_seeking_test, seeks.
  destruct (e_nb e); [destruct Hs as (_ & -> & _)|destruct Hs as (_ & ->)]; done.
Qed.

(** What a handler leaves: a step of the specification. *)
Definition steps (N : neighbours) (ev : nb_event) (xs : list finsFrame) (n : nat) (d : interface_data) (s : ST) : Prop :=
  ∃ outs N' V' d' ys, nb_step (i_ticks d) N ev outs N' (i_ticks d') ∧ irep V' d' N' ∧ rest fl (xs ++ ys) n d' s ∧ puts_out arp icmp outs ys ∧
    i_inject d' = i_inject d ++ mjoin (out_bytes <$> outs) ∧ i_if_list d' = i_if_list d.

Lemma free_drops N ev xs n n' d0 d w V :
  irep V d N → request_ok w → nb_step (i_ticks d0) N ev [ODrop (iq_ff w)] N (i_ticks d) → (n ≤ n')%nat →
  i_inject d = i_inject d0 → i_if_list d = i_if_list d0 →
  runs (rest fl xs n' d) (free_ff (iq_ff w)) (λ _, steps N ev xs n d0).
Proof.
  intros Hr [_ [_ (dir & b & Hb & _)]] Hst Hn Ei El. apply runs_bind_r, rest_free; [by rewrite Hb|]. apply runs_ret.
  intros s Hs. exists [ODrop (iq_ff w)], N, V, d, []. rewrite app_nil_r. split_and!; try done.
  - by eapply rest_le.
  - by constructor; constructor.
  - simpl. by rewrite app_nil_r.
Qed.

(** The table seen from one of its entries. *)
Lemma view_mid V1 x V2 : e_view <$> V1 ++ x :: V2 = (e_view <$> V1) ++ e_view x :: (e_view <$> V2).
Proof. by rewrite fmap_app. Qed.

Lemma irep_mid V1 e V2 d qs :
  irep (V1 ++ e :: V2) d (MkNbs (e_view <$> V1 ++ e :: V2) qs) ↔
  i_cache_list d = e_loc <$> V1 ++ e :: V2 ∧ pool (e :: V1 ++ V2) d ∧ pends (e :: V1 ++ V2) d (i_store_list d) qs.
Proof.
  rewrite Permutation_middle. split.
  - by intros [? _ ? ?].
  - by intros (? & ? & ?).
Qed.

Lemma pool_appended e k ws w V d :
  pool (e :: V) d → e_nb e = Asking ws → request_ok w → i_caches d !! e_loc e = Some k →
  pool (MkE (e_loc e) (e_rs e ++ [i_brk d]) (e_ip e) (Asking (ws ++ [w])) :: V) (appended (e_loc e) k w d).
Proof.
  intros (He & Hp0 & Hnl & Hni & Hnr & Hfr & Bl & Br)%pool_cons Ea Hok Hk'.
  destruct He as [(k0 & Hk & Hki & Hkr & Hks) Hrq Hall]. rewrite Ea in Hks, Hrq, Hall. destruct Hks as [Hne Hsk].
  rewrite Hk in Hk'. injection Hk' as ->. simpl in *.
  rewrite Forall_forall in Br. pose proof (pl_rs_brk _ _ Hp0) as Br0. rewrite Forall_forall in Br0.
  assert (i_brk d ∉ e_rs e) as Hnb by (intros Hin; specialize (Br _ Hin); simpl in Br; lia).
  eapply pool_add; [exact Hp0|..]; simpl; try done.
  - split; simpl.
    + eexists. rewrite lookup_insert_eq, Hkr. split_and!; try done. by destruct ws.
    + apply Forall2_app; [|constructor; [apply lookup_insert_eq|constructor]].
      eapply requests_at_frame; [exact Hrq|]. intros r Hr. simpl. rewrite lookup_insert_ne; [done|]. by intros <-.
    + apply Forall_app. split; [done|by constructor].
  - apply NoDup_app. split_and!; [done| |apply NoDup_singleton]. by intros r Hr ->%list_elem_of_singleton.
  - intros r [Hr| ->%list_elem_of_singleton]%elem_of_app; [by apply Hfr|]. intros Hin. specialize (Br0 _ Hin). simpl in Br0. lia.
  - lia.
  - apply Forall_app. split; [|constructor; [lia|constructor]]. apply Forall_forall. intros r Hr. specialize (Br _ Hr). simpl in *. lia.
  - intros p Hn _. by rewrite lookup_insert_ne.
  - intros r Hn Hin. rewrite lookup_insert_ne; [done|]. intros <-. apply Hn, elem_of_app. right. left.
  - lia.
Qed.

(** An entry waits for its address already. *)
Lemma out_waiting xs n d V1 e V2 qs ws w :
  irep (V1 ++ e :: V2) d (MkNbs (e_view <$> V1 ++ e :: V2) qs) → e_nb e = Asking ws → request_ok w →
  runs (rest fl xs (S n) d) (out_cached (e_loc e) (iq_ff w) (w_src_ip w) (e_ip e) (iq_src_mac w))
    (λ _, steps (MkNbs (e_view <$> V1 ++ e :: V2) qs) (VPacket w (e_ip e)) xs n d).
Proof.
  intros Hi Ea Hok. pose proof Hi as (Hl & Hp & Hd)%irep_mid.
  destruct (proj1 (pool_cons _ _ _) Hp) as ([(k & Hk & Hki & Hkr & Hks) Hrq _] & _). rewrite Ea in Hks, Hrq. destruct Hks as [Hne Hsk].
  unfold out_cached. eapply if_get_ic; [exact Hk|]. rewrite Hsk. unfold has_requests_space.
  pose proof (Forall2_length _ _ _ Hrq) as Hlen. simpl in Hlen. rewrite Hkr, Hlen.
  assert (e_view e = (e_ip e, Asking ws)) as Ee by (unfold e_view; by rewrite Ea).
  destruct (Z.ltb_spec (Z.of_nat (length ws)) INTERFACE_REQUEST_LIST_MAX) as [Hlt|Hge].
  - apply runs_bind_r. eapply if_append; [exact Hk|done|]. apply runs_ret. intros s Hs.
    set (e' := MkE (e_loc e) (e_rs e ++ [i_brk d]) (e_ip e) (Asking (ws ++ [w]))).
    exists [], (MkNbs (e_view <$> V1 ++ e' :: V2) qs), (V1 ++ e' :: V2), (appended (e_loc e) k w d), [].
    rewrite app_nil_r. split_and!; [|apply irep_mid; split_and!| |constructor|by rewrite app_nil_r|done].
    + rewrite !view_mid, Ee. by constructor.
    + simpl. rewrite Hl, !fmap_app. done.
    + by eapply pool_appended.
    + eapply (pends_same e); [|split_and!; simpl; [done|done|]|].
      * eapply pends_frame; [exact Hd|done|simpl; lia].
      * destruct (e_rs e); [|done]. inversion Hrq; subst. done.
      * intros _. by rewrite Ee.
    + eapply rest_le; [|exact Hs]. lia.
  - eapply free_drops; [exact Hi|done| |lia|done..]. rewrite view_mid, Ee. by constructor.
Qed.

Lemma irep_frame V d d' N :
  irep V d N → i_cache_list d' = i_cache_list d → i_store_list d' = i_store_list d → i_caches d' = i_caches d →
  i_requests d' = i_requests d → i_stores d' = i_stores d → i_brk d' = i_brk d → irep V d' N.
Proof.
  intros [Hl Ht Hp Hd] E1 E2 E3 E4 E5 E6. split; [congruence|done|..].
  - eapply pool_frame; [exact Hp|intros; by rewrite E3|intros; by rewrite E4|lia].
  - rewrite E2. eapply pends_frame; [exact Hd|intros; by rewrite E5|lia].
Qed.

(** The address is known. *)
Lemma out_known xs n d V1 e V2 qs mac since w :
  irep (V1 ++ e :: V2) d (MkNbs (e_view <$> V1 ++ e :: V2) qs) → e_nb e = Known mac since → request_ok w →
  runs (rest fl xs (S n) d) (out_cached (e_loc e) (iq_ff w) (w_src_ip w) (e_ip e) (iq_src_mac w))
    (λ _, steps (MkNbs (e_view <$> V1 ++ e :: V2) qs) (VPacket w (e_ip e)) xs n d).
Proof using Hw Harp.
  intros Hi Ea Hok. pose proof Hi as (Hl & Hp & Hd)%irep_mid.
  destruct (proj1 (pool_cons _ _ _) Hp) as ([(k & Hk & Hki & Hkr & Hks) Hrq _] & Hp0 & Hnl & Hni & _ & _ & Bl & _).
  rewrite Ea in Hks. destruct Hks as (Hkm & Hsk & Hku). destruct (pends_known _ _ _ _ _ _ _ Hd Hp Ea) as [Hrs Hnq].
  assert (e_view e = (e_ip e, Known mac since)) as Ee by (unfold e_view; by rewrite Ea).
  unfold out_cached. eapply if_get_ic; [exact Hk|]. rewrite Hsk. apply if_ask. rewrite Hku.
  change (d_le _ _) with (fresh_entry since (if_clock (i_ticks d))). destruct (fresh_entry _ _) eqn:Ef.
  - apply if_inject_ff; [done|apply Hok|by left|]. destruct Hok as (Hw1 & _ & dir & b & Hb & Hlb).
    apply runs_bind_r, rest_free; [by rewrite Hb|]. apply runs_ret. intros s Hs.
    eexists [OFrame mac (iq_src_mac w) (iq_ff w)], (MkNbs (e_view <$> V1 ++ e :: V2) qs), (V1 ++ e :: V2).
    eexists (injected _ (put_i_ticks (S (i_ticks d)) d)), []. rewrite app_nil_r. split_and!.
    + rewrite view_mid, Ee. by constructor.
    + eapply irep_frame; [exact Hi|done..].
    + eapply rest_le; [|exact Hs]. lia.
    + by constructor; constructor.
    + simpl. by rewrite app_nil_r, Hkm.
    + done.
  - apply if_get. unfold has_requests_space, has_store_space. rewrite Hkr, Hrs. simpl.
    pose proof (Forall2_length _ _ _ (pd_stores _ _ _ _ Hd)) as Hlen. rewrite Hlen.
    destruct (Z.ltb_spec (Z.of_nat (length qs)) INTERFACE_STORE_LIST_MAX) as [Hlt|Hge].
    + apply if_ask, if_send_request. intros f Hf. apply runs_bind_r. eapply if_out_ask; [exact Hk|done|]. apply runs_ret. intros s Hs.
      set (d1 := put_i_ticks (S (i_ticks (put_i_ticks _ _))) _) in Hs. set (serial := if_serial _) in *.
      destruct (irep_asked (V1 ++ V2) d1 qs (e_loc e) (e_ip e) k w serial) as [Hp1 Hd1]; try done.
      { eapply pool_frame; [exact Hp0|done..]. } { eapply pends_frame; [by eapply pends_drop|done..]. } { congruence. }
      set (e' := MkE _ _ _ _) in *.
      exists [OAsk serial (w_src_ip w) (e_ip e)], (MkNbs (e_view <$> V1 ++ e' :: V2) (qs ++ [(serial, e_ip e)])), (V1 ++ e' :: V2).
      exists (asked (e_loc e) k w serial d1), [f]. split_and!.
      * rewrite !view_mid, Ee. by apply nb_refresh.
      * apply irep_mid. split_and!; [|exact Hp1|exact Hd1]. simpl. rewrite Hl, !fmap_app. done.
      * exact Hs.
      * constructor; [done|constructor].
      * simpl. by rewrite app_nil_r.
      * done.
    + eapply free_drops; [eapply irep_frame; [exact Hi|done..]|done| |lia|done..]. rewrite view_mid, Ee. by constructor.
Qed.

(** Room for a new entry. *)
Lemma if_make_room {B} (R : B → ST → Prop) xs n d V (K : bool → M ST B) :
  pool V d → i_cache_list d = e_loc <$> V →
  (Z.of_nat (length V) < INTERFACE_CACHE_LIST_MAX → runs (rest fl xs n d) (K true) R) →
  (∀ V1 e V2 mac since, V = V1 ++ e :: V2 → e_nb e = Known mac since → Forall (λ e, is_asking (e_view e)) V1 →
     INTERFACE_CACHE_LIST_MAX ≤ Z.of_nat (length V) →
     runs (rest fl xs n (put_i_caches (delete (e_loc e) (i_caches d)) (put_i_cache_list (e_loc <$> V1 ++ V2) d))) (K true) R) →
  (INTERFACE_CACHE_LIST_MAX ≤ Z.of_nat (length V) → Forall (λ e, is_asking (e_view e)) V → runs (rest fl xs n d) (K false) R) →
  runs (rest fl xs n d) (interface_make_room ≫= K) R.
Proof.
  intros Hp Hl K1 K2 K3. assert (∀ l, Forall (λ y, negb (seeks y) = false) l → Forall (λ e, is_asking (e_view e)) l) as Hall.
  { intros l Hf. eapply Forall_impl; [exact Hf|]. intros e. unfold seeks, is_asking, e_view. simpl. by destruct (e_nb e). }
  unfold interface_make_room. apply runs_assoc, if_get. rewrite Hl, length_fmap.
  destruct (Z.ltb_spec (Z.of_nat (length V)) INTERFACE_CACHE_LIST_MAX) as [Hlt|Hge]; [by apply runs_ret_bind, K1|].
  apply runs_assoc. eapply rest_lift; [by apply find_known|]. destruct (find_first _ V) as [e|] eqn:Ef; simpl.
  - apply find_first_Some in Ef as (V1 & V2 & -> & Hs & Hf). unfold seeks in Hs. destruct (e_nb e) as [mac since|] eqn:Ek; [|done].
    specialize (K2 V1 e V2 mac since eq_refl Ek (Hall _ Hf) Hge). rewrite <- Permutation_middle in Hp.
    destruct (proj1 (pool_cons _ _ _) Hp) as ([(k & Hk & Hki & Hkr & Hks) Hrq _] & Hp0 & Hnl & _).
    rewrite Ek in Hrq. assert (e_rs e = []) as En by (inversion Hrq; done).
    apply runs_assoc, if_mod. cbv beta. rewrite Hl, fmap_app, fmap_cons, del_loc_app by (rewrite fmap_app in Hnl; set_solver).
    apply runs_assoc. eapply if_get_ic; [exact Hk|]. apply runs_assoc. eapply if_upd_ic; [exact Hk|]. rewrite Hkr, En. cbn [refuse_requests].
    apply runs_assoc, runs_ret_bind, runs_assoc. unfold interface_cache_free. apply runs_assoc. eapply if_get_ic; [apply lookup_insert_eq|].
    cbn [set_ic_requests ic_requests free_requests]. apply runs_assoc, runs_ret_bind, if_mod, runs_ret_bind.
    revert K2. simpl. by rewrite delete_insert_eq, fmap_app.
  - apply find_first_None in Ef. apply runs_ret_bind, K3; [done|by apply Hall].
Qed.

(** The new entry and its question. *)
Lemma create_runs xs n d0 d V qs ip w serial :
  pool V d → pends V d (i_store_list d) qs → i_cache_list d = e_loc <$> V → ip ∉ e_ip <$> V → ip ∉ qs.*2 → request_ok w →
  i_inject d = i_inject d0 → i_if_list d = i_if_list d0 →
  runs (rest fl xs n d)
    (p ← i_malloc;
     put_ic p (MkICache (MkAddr AF_INET 0 ip) 0 [] false (0, 0)) ;;
     imod (λ d, put_i_cache_list (i_cache_list d ++ [p]) d) ;;
     out_ask p (iq_ff w) (w_src_ip w) (iq_src_mac w) serial 1)
    (λ _ s, ∃ e d', irep (V ++ [e]) d' (MkNbs ((e_view <$> V) ++ [(ip, Asking [w])]) (qs ++ [(serial, ip)])) ∧
       i_inject d' = i_inject d0 ∧ i_if_list d' = i_if_list d0 ∧ i_ticks d' = S (i_ticks d) ∧ rest fl xs n d' s).
Proof.
  intros Hp Hd Hl Hni Hnq Hok Ei El. apply if_malloc, if_put_ic, if_mod, runs_bind_r.
  eapply if_out_ask; [apply lookup_insert_eq|done|]. set (d1 := put_i_cache_list _ _). set (k := MkICache _ _ _ _ _).
  assert (∀ p, p ∈ e_loc <$> V → p < i_brk d) as Hb by (intros p Hin; pose proof (pl_loc_brk _ _ Hp) as Hf; rewrite Forall_forall in Hf; by apply Hf).
  destruct (irep_asked V d1 qs (i_brk d) ip k w serial) as [Hp1 Hd1]; try done.
  - eapply pool_frame; [exact Hp|intros p Hin; simpl|done|simpl; lia]. rewrite lookup_insert_ne; [done|]. specialize (Hb _ Hin). lia.
  - eapply pends_frame; [exact Hd|done|simpl; lia].
  - apply lookup_insert_eq.
  - simpl. lia.
  - intros Hin. specialize (Hb _ Hin). lia.
  - apply runs_ret. intros s Hs. eexists (MkE _ _ ip (Asking [w])), _. split_and!; [|..|exact Hs]; [|done|done|done].
    assert ((e_view <$> V) ++ [(ip, Asking [w])] = e_view <$> V ++ [MkE (i_brk d) [i_brk d1] ip (Asking [w])]) as -> by (by rewrite fmap_app).
    apply irep_mid. rewrite app_nil_r. split_and!; [|exact Hp1|exact Hd1]. simpl. by rewrite Hl, fmap_app.
Qed.

Lemma out_new_runs xs n d V qs w ip :
  irep V d (MkNbs (e_view <$> V) qs) → ip ∉ e_ip <$> V → request_ok w →
  runs (rest fl xs (S n) d) (out_new (iq_ff w) (w_src_ip w) ip (iq_src_mac w))
    (λ _, steps (MkNbs (e_view <$> V) qs) (VPacket w ip) xs n d).
Proof using Hw Harp Hicmp.
  intros Hi Hni Hok. pose proof Hi as [Hl _ Hp Hd]. simpl in Hd.
  assert (∀ V, (e_view <$> V).*1 = e_ip <$> V) as Ev by (intros; rewrite <- list_fmap_compose; done).
  assert (ip ∉ qs.*2) as Hnq.
  { intros (q & -> & Hq)%list_elem_of_fmap. apply list_elem_of_lookup in Hq as (i & Hq).
    destruct (Forall2_lookup_r _ _ _ _ _ (pd_stores _ _ _ _ Hd) Hq) as (t & _ & e & _ & _ & Hin & Hip & _).
    apply Hni. rewrite <- Hip. by apply list_elem_of_fmap_2. }
  unfold out_new. apply if_get. unfold has_store_space. rewrite (Forall2_length _ _ _ (pd_stores _ _ _ _ Hd)).
  destruct (Z.ltb_spec (Z.of_nat (length qs)) INTERFACE_STORE_LIST_MAX) as [Hlt|Hge].
  2:{ eapply free_drops; [exact Hi|done| |lia|done..]. constructor; [by rewrite Ev|done]. }
  apply if_ask, if_send_request. intros f Hf. set (serial := if_serial _) in *. set (d1 := put_i_ticks _ _).
  assert (pool V d1) as Hp1 by (eapply pool_frame; [exact Hp|done..]).
  assert (pends V d1 (i_store_list d1) qs) as Hd1 by (eapply pends_frame; [exact Hd|done..]).
  eapply if_make_room; [exact Hp1|exact Hl|..].
  - intros Hlen. eapply runs_post; [by apply (create_runs (xs ++ [f]) n d d1 V qs ip w serial)|].
    intros ? s (e & d' & Hi' & Ei & El & Et & Hs). exists [OAsk serial (w_src_ip w) ip]. eexists _, _, d', [f].
    split_and!; [|exact Hi'|exact Hs|by constructor; [|constructor]|simpl; by rewrite app_nil_r|done].
    rewrite Et. constructor; [by rewrite Ev|done|by rewrite length_fmap].
  - intros V1 e V2 mac since -> Ek Has Hlen. rewrite <- Permutation_middle in Hp1, Hd1. destruct (pends_known _ _ _ _ _ _ _ Hd1 Hp1 Ek) as [Hrs _].
    destruct (proj1 (pool_cons _ _ _) Hp1) as (_ & Hp0 & Hnl & _).
    eapply runs_post; [apply (create_runs (xs ++ [f]) n d _ (V1 ++ V2) qs ip w serial); try done|].
    + eapply pool_frame; [exact Hp0|intros p Hin; simpl|done|simpl; lia]. rewrite lookup_delete_ne; [done|]. congruence.
    + eapply pends_frame; [by eapply pends_drop|done..].
    + rewrite fmap_app in *. set_solver.
    + intros ? s (e' & d' & Hi' & Ei & El & Et & Hs). exists [OAsk serial (w_src_ip w) ip]. eexists _, _, d', [f].
      split_and!; [|exact Hi'|exact Hs|by constructor; [|constructor]|simpl; by rewrite app_nil_r|done].
      assert (e_view e = (e_ip e, Known mac since)) as Ee by (unfold e_view; by rewrite Ek).
      rewrite Et, view_mid, Ee, fmap_app. eapply nb_evict; [|done| |by apply Forall_fmap].
      * rewrite <- Ee, <- view_mid. by rewrite Ev.
      * rewrite <- Ee, <- view_mid. by rewrite length_fmap.
  - intros Hlen Has. destruct Hok as (Hsrc & [Hfo (dir & b & Hb & Hlb)]).
    apply runs_bind_r, rest_free; [by rewrite Hb|]. apply runs_ret. intros s Hs.
    exists [OAsk serial (w_src_ip w) ip; ODrop (iq_ff w)], (MkNbs (e_view <$> V) qs), V, d1, [f].
    split_and!; [|by split|exact Hs|by constructor; [|constructor; constructor]|simpl; by rewrite app_nil_r|done].
    constructor; [by rewrite Ev|done|by rewrite length_fmap|by apply Forall_fmap].
Qed.


Lemma out_ipv4_runs xs n d V qs w ip ifl ff :
  irep V d (MkNbs (e_view <$> V) qs) → ev_frame ifl (VPacket w ip) ff → ifl = i_if_list d →
  runs (rest fl xs (S n) d) (interface_out_ipv4 ff) (λ _, steps (MkNbs (e_view <$> V) qs) (VPacket w ip) xs n d).
Proof using Hw Harp Hicmp.
  intros Hi Hev ->. inversion Hev as [? ? m index ifr Hok Hm Hdir Hty Hix Hsrc Hdst Hif Hmac| |]; subst. clear Hev.
  unfold interface_out_ipv4. eapply rest_read; [done..|]. apply if_get. rewrite Hif.
  eapply rest_read; [done..|]. eapply rest_read; [done..|].
  pose proof Hi as [Hl _ Hp _]. eapply rest_lift; [rewrite Hl; by apply find_ip|].
  destruct (find_first _ V) as [e|] eqn:Ef; simpl; rewrite Hmac.
  - apply find_first_Some in Ef as (V1 & V2 & -> & <-%Z.eqb_eq & _). destruct (e_nb e) eqn:Ek.
    + by eapply out_known.
    + by eapply out_waiting.
  - apply out_new_runs; [done| |done]. apply find_first_None in Ef. intros (e & -> & He)%list_elem_of_fmap.
    rewrite Forall_forall in Ef. specialize (Ef e He). simpl in Ef. by rewrite Z.eqb_refl in Ef.
Qed.

(** ** Answers *)

(** The entry at [p] has become [k], its requests [rs] are gone. *)
Definition drained (p : loc) (k : interface_cache) (rs : list loc) (b : list Z) (ticks : nat) (d d' : interface_data) : Prop :=
  d' = MkIData (i_if_list d) (i_cache_list d) (i_store_list d) (<[p := k]> (i_caches d))
    (drop_locs rs (i_requests d)) (i_stores d) (i_brk d) (i_inject d ++ b) (i_capture d) (i_ticks d + ticks).

Lemma drained_nil p k d : i_caches d !! p = Some k → ic_requests k = [] → drained p (set_ic_requests [] k) [] [] 0 d d.
Proof.
  intros Hp Hr. unfold drained. assert (set_ic_requests [] k = k) as -> by (destruct k; simpl in *; by subst).
  rewrite insert_id by done. simpl. rewrite app_nil_r, Nat.add_0_r. by destruct d.
Qed.

Lemma drained_cons p k r rs l b1 b2 n1 n2 d d1 d' :
  d1 = MkIData (i_if_list d) (i_cache_list d) (i_store_list d) (<[p := set_ic_requests l k]> (i_caches d))
    (delete r (i_requests d)) (i_stores d) (i_brk d) (i_inject d ++ b1) (i_capture d) (i_ticks d + n1) →
  drained p (set_ic_requests [] (set_ic_requests l k)) rs b2 n2 d1 d' → drained p (set_ic_requests [] k) (r :: rs) (b1 ++ b2) (n1 + n2) d d'.
Proof. intros -> ->. unfold drained. simpl. by rewrite insert_insert_eq, app_assoc, Nat.add_assoc. Qed.

Lemma if_pop {B} (R : B → ST → Prop) xs n d p k r l (K : option loc → M ST B) :
  i_caches d !! p = Some k → ic_requests k = r :: l →
  runs (rest fl xs n (put_i_caches (<[p := set_ic_requests l k]> (i_caches d)) d)) (K (Some r)) R →
  runs (rest fl xs n d) (pop_request p ≫= K) R.
Proof.
  intros Hp Hr HK. unfold pop_request. apply runs_assoc. eapply if_get_ic; [done|]. rewrite Hr.
  apply runs_assoc. by apply if_put_ic.
Qed.
Lemma if_pop_none {B} (R : B → ST → Prop) xs n d p k (K : option loc → M ST B) :
  i_caches d !! p = Some k → ic_requests k = [] → runs (rest fl xs n d) (K None) R →
  runs (rest fl xs n d) (pop_request p ≫= K) R.
Proof. intros Hp Hr HK. unfold pop_request. apply runs_assoc. eapply if_get_ic; [done|]. by rewrite Hr. Qed.

Lemma inject_requests_runs {B} (R : B → ST → Prop) xs n p mac smac (K : unit → M ST B) rs d k ws :
  i_caches d !! p = Some k → ic_requests k = rs → requests_at d rs ws → NoDup rs → Forall request_ok ws →
  (∀ d', drained p (set_ic_requests [] k) rs (mjoin (out_bytes <$> ((λ x, OFrame mac smac (iq_ff x)) <$> ws))) (2 * length rs) d d' →
     runs (rest fl xs n d') (K tt) R) →
  runs (rest fl xs n d) (inject_requests (length rs) p mac smac ≫= K) R.
Proof using Hw.
  revert d k ws. induction rs as [|r rs IH]; intros d k ws Hp Hr Hq Hn Hok HK; cbn [length inject_requests].
  - apply runs_assoc. eapply if_pop_none; [done..|]. apply runs_ret_bind. inversion Hq; subst. apply HK. by apply drained_nil.
  - inversion Hq as [|? w ? ws' Hw1 Hq']; subst. apply Forall_cons in Hok as [[Hw2 Hok1] Hok2]. apply NoDup_cons in Hn as [Hn1 Hn2].
    apply runs_assoc. eapply if_pop; [done..|]. apply runs_assoc. eapply if_get_iq; [exact Hw1|]. apply runs_assoc, if_inject_ff; [done..|by left|].
    apply runs_assoc. eapply if_request_free; [exact Hw1| |].
    { destruct Hok1 as [_ (dir & b & Hb & _)]. by rewrite Hb. }
    eapply IH; [apply lookup_insert_eq|done| |done|done|].
    + eapply requests_at_frame; [exact Hq'|]. intros r' Hr'. simpl. rewrite lookup_delete_ne; [done|]. congruence.
    + intros d' Hd'. apply HK. replace (2 * length (r :: rs))%nat with (2 + 2 * length rs)%nat by (simpl; lia).
      eapply drained_cons; [|exact Hd']. unfold injected. simpl. by rewrite <- !plus_n_Sm, Nat.add_0_r.
Qed.


(** The question that an answer is for. *)
Lemma find_pending V d ts qs serial :
  Forall2 (store_ok d V) ts qs →
  (∃ t1 t t2 q1 ip q2, ts = t1 ++ t :: t2 ∧ qs = q1 ++ (serial, ip) :: q2 ∧ length t1 = length q1 ∧ serial ∉ q1.*1 ∧
     find_obj (i_stores d) (interface_store_serial_test serial) ts = Ok (Some t)) ∨
  (serial ∉ qs.*1 ∧ find_obj (i_stores d) (interface_store_serial_test serial) ts = Ok None).
Proof.
  induction 1 as [|t [n ip] ts qs (e & r & rs & _ & _ & _ & Ht) Hs IH]; [by right; split; [apply not_elem_of_nil|]|].
  simpl in Ht. cbn [find_obj]. rewrite Ht. unfold interface_store_serial_test at 1 3. simpl. destruct (Z.eqb_spec n serial) as [->|Hne].
  - left. exists [], t, ts, [], ip, qs. split_and!; try done. apply not_elem_of_nil.
  - destruct IH as [(t1 & t' & t2 & q1 & ip' & q2 & -> & -> & Hl & Hn & Hf)|[Hn Hf]].
    + left. exists (t :: t1), t', t2, ((n, ip) :: q1), ip', q2. split_and!; try done; [simpl; lia|].
      apply not_elem_of_cons. by split.
    + right. split; [|done]. apply not_elem_of_cons. by split.
Qed.

(** An answer to the question [serial]: the entry [e] with its requests, the
    store [t], and the others. *)
Record answer_at (V : list entry) (d : interface_data) (qs : list (Z * Z)) (serial : Z)
    (V1 : list entry) (e : entry) (V2 : list entry) (t1 : list loc) (t : loc) (t2 : list loc) (q1 q2 : list (Z * Z))
    (r : loc) (rs : list loc) (w : interface_request) (ws : list interface_request) (k : interface_cache) : Prop := {
  an_V : V = V1 ++ e :: V2;
  an_qs : qs = q1 ++ (serial, e_ip e) :: q2;
  an_ts : i_store_list d = t1 ++ t :: t2;
  an_len : length t1 = length q1;
  an_first : serial ∉ q1.*1;
  an_store : i_stores d !! t = Some (MkIStore serial 1 (Some (e_loc e)) r);
  an_view : e_view e = (e_ip e, Asking (w :: ws));
  an_rs : e_rs e = r :: rs;
  an_nodup : NoDup (r :: rs);
  an_cache : i_caches d !! e_loc e = Some k;
  an_ip : ic_ip k = MkAddr AF_INET 0 (e_ip e);
  an_requests : ic_requests k = r :: rs;
  an_seeking : ic_seeking k = true;
  an_request : i_requests d !! r = Some w;
  an_all : requests_at d (r :: rs) (w :: ws);
  an_ok : Forall request_ok (w :: ws)
}.

Lemma answered_entry V d q1 serial ip q2 t1 t t2 :
  irep V d (MkNbs (e_view <$> V) (q1 ++ (serial, ip) :: q2)) → i_store_list d = t1 ++ t :: t2 → length t1 = length q1 →
  serial ∉ q1.*1 → ∃ V1 e V2 r rs w ws k, answer_at V d (q1 ++ (serial, ip) :: q2) serial V1 e V2 t1 t t2 q1 q2 r rs w ws k.
Proof.
  intros [Hl _ Hp Hd] El Hlen Hn. simpl in Hd.
  destruct (pends_entry _ _ _ _ t serial ip (length t1) Hd Hp) as (e & r & rs & ws0 & Hin & <- & Hrs & Hnb & Hst).
  { by rewrite El, lookup_app_r, Nat.sub_diag. } { by rewrite lookup_app_r, Hlen, Nat.sub_diag by lia. }
  apply list_elem_of_split in Hin as (V1 & V2 & ->). rewrite <- Permutation_middle in Hp.
  destruct (proj1 (pool_cons _ _ _) Hp) as ([(k & Hk & Hki & Hkr & Hks) Hrq Hall] & _ & _ & _ & Hnd & _).
  assert (e_view e = (e_ip e, Asking ws0)) as Ev by (unfold e_view; by rewrite Hnb). rewrite Hnb, Hrs in *. simpl in *.
  destruct ws0 as [|w ws]; [by inversion Hrq|]. destruct Hks as [_ Hsk].
  exists V1, e, V2, r, rs, w, ws, k. split; try done. by inversion Hrq.
Qed.

(** The store leaves the list before the answer is looked at. *)
Definition store_taken (t : loc) (serial : Z) (p r : loc) (ts : list loc) (d : interface_data) : interface_data :=
  put_i_store_list ts (put_i_stores (<[t := MkIStore serial 0 (Some p) r]> (i_stores d)) d).

Lemma reply_cases (R : unit → ST → Prop) xs n d V qs ff c :
  irep V d (MkNbs (e_view <$> V) qs) → body ff = Ctrl c →
  (serial_num c ∉ qs.*1 → runs (rest fl xs n d) (free_ff ff) R) →
  (∀ V1 e V2 t1 t t2 q1 q2 r rs w ws k, answer_at V d qs (serial_num c) V1 e V2 t1 t t2 q1 q2 r rs w ws k →
     runs (rest fl xs n (store_taken t (serial_num c) (e_loc e) r (t1 ++ t2) d))
       ((if ret_val c =? FCF_TRUE then reply_found t 0 (e_loc e) r ff else reply_failed t 0 (e_loc e) r) ≫= λ _, free_ff ff) R) →
  runs (rest fl xs n d) (interface_exec_reply_get_addr ff) R.
Proof.
  intros Hi Hb K1 K2. pose proof Hi as [_ _ _ Hd]. unfold interface_exec_reply_get_addr.
  eapply rest_ctrl; [exact Hb|]. apply if_get.
  destruct (find_pending _ _ _ _ (serial_num c) (pd_stores _ _ _ _ Hd)) as [(t1 & t & t2 & q1 & ip & q2 & El & Eq & Hlen & Hn & Hf)|[Hn Hf]].
  2:{ eapply rest_lift; [exact Hf|]. by apply runs_ret_bind, K1. }
  simpl in Eq. subst qs. eapply rest_lift; [exact Hf|].
  destruct (answered_entry _ _ _ _ _ _ _ _ _ Hi El Hlen Hn) as (V1 & e & V2 & r & rs & w & ws & k & A).
  assert (t ∉ t1) as Ht1. { pose proof (pd_locs _ _ _ _ Hd) as Hnt. rewrite El in Hnt. apply NoDup_app in Hnt as (_ & Hx & _). intros Hin. apply (Hx _ Hin). left. }
  apply runs_assoc. eapply if_get_is; [apply (an_store _ _ _ _ _ _ _ _ _ _ _ _ _ _ _ _ _ A)|].
  cbn [is_serial_num is_sent is_cache is_request]. change (u32 (1 - 1)) with 0. cbv zeta.
  apply runs_assoc, if_put_is. change (0 =? 0) with true. cbv iota. apply runs_assoc, if_mod. simpl. rewrite El, del_loc_app by done.
  exact (K2 _ _ _ _ _ _ _ _ _ _ _ _ _ A).
Qed.

(** The entry that gets its address. *)
Lemma irep_found V1 e V2 d d' qs1 serial qs2 t1 t t2 mac k now rs :
  irep (V1 ++ e :: V2) d (MkNbs (e_view <$> V1 ++ e :: V2) (qs1 ++ (serial, e_ip e) :: qs2)) →
  i_store_list d = t1 ++ t :: t2 → length t1 = length qs1 → ic_ip k = MkAddr AF_INET 0 (e_ip e) → e_rs e = rs →
  i_cache_list d' = i_cache_list d → i_store_list d' = t1 ++ t2 →
  i_caches d' = <[e_loc e := MkICache (ic_ip k) mac [] false now]> (i_caches d) →
  i_requests d' = drop_locs rs (i_requests d) → (∀ t', t' ≠ t → i_stores d' !! t' = i_stores d !! t') → i_brk d' = i_brk d →
  irep (V1 ++ MkE (e_loc e) [] (e_ip e) (Known mac now) :: V2) d'
    (MkNbs (e_view <$> V1 ++ MkE (e_loc e) [] (e_ip e) (Known mac now) :: V2) (qs1 ++ qs2)).
Proof.
  intros (Hl & Hp & Hd)%irep_mid El Hlen Hki Hrs E1 E2 E3 E4 E5 E6. apply irep_mid.
  destruct (proj1 (pool_cons _ _ _) Hp) as (_ & Hp0 & Hnl & Hni & _ & Hfr & Bl & _). split_and!.
  - rewrite E1, Hl, !fmap_app. done.
  - eapply pool_add; [exact Hp0|..]; simpl; try done; try lia.
    + split; simpl; [|constructor|constructor]. eexists. by rewrite E3, lookup_insert_eq.
    + apply NoDup_nil_2.
    + intros r Hr. by apply not_elem_of_nil in Hr.
    + intros p Hn _. by rewrite E3, lookup_insert_ne.
    + intros r _ Hr. rewrite E4. apply lookup_drop_locs. rewrite <- Hrs. intros Hin. by apply (Hfr r).
  - rewrite El in Hd. rewrite E2. apply pends_add_known; [|by intros []]. by eapply pends_done.
Qed.

Lemma unknown_answer xs n d V qs ev ff c :
  irep V d (MkNbs (e_view <$> V) qs) → body ff = Ctrl c →
  nb_step (i_ticks d) (MkNbs (e_view <$> V) qs) ev [] (MkNbs (e_view <$> V) qs) (i_ticks d) →
  runs (rest fl xs n d) (free_ff ff) (λ _, steps (MkNbs (e_view <$> V) qs) ev xs n d).
Proof.
  intros Hi Hb Hst. apply runs_bind_r, rest_free; [by rewrite Hb|]. apply runs_ret. intros s Hs.
  exists [], (MkNbs (e_view <$> V) qs), V, d, []. rewrite !app_nil_r. split_and!; try done. constructor.
Qed.

Lemma reply_found_runs xs n d V qs serial mac ff c m :
  irep V d (MkNbs (e_view <$> V) qs) → body ff = Ctrl c → metaData ff = Some m → serial_num c = serial → ret_val c = FCF_TRUE →
  read_long m "dst_mac" = Ok mac →
  runs (rest fl xs n d) (interface_exec_reply_get_addr ff) (λ _, steps (MkNbs (e_view <$> V) qs) (VFound serial mac) xs n d).
Proof using Hw.
  intros Hi Hb Hm <- Hret Hmac. eapply reply_cases; [exact Hi|exact Hb|..].
  { intros Hn. eapply unknown_answer; [done..|]. by constructor. }
  intros V1 e V2 t1 t t2 q1 q2 r rs w ws k [-> -> El Hlen Hn Hst Ev Hrs Hnd Hk Hki Hkr Hsk Hr Hrq Hok].
  rewrite Hret. change (FCF_TRUE =? FCF_TRUE) with true. cbv iota. unfold reply_found. apply runs_assoc. eapply if_get_iq; [exact Hr|].
  apply runs_assoc. eapply if_get_ic; [exact Hk|]. apply runs_assoc. eapply if_read_long; [done..|]. rewrite Hsk.
  apply runs_assoc, runs_assoc. eapply if_upd_ic; [exact Hk|]. apply runs_assoc. eapply if_stamp; [apply lookup_insert_eq|]. rewrite Hkr.
  eapply inject_requests_runs; [apply lookup_insert_eq|exact Hkr|exact Hrq|done|done|]. intros d' ->.
  cbn [set_ic_requests set_ic_updated set_ic_seeking set_ic_mac ic_ip ic_mac ic_requests ic_seeking ic_updated].
  change (0 =? 0) with true. cbv iota. eapply if_store_release; [apply lookup_insert_eq|].
  apply runs_bind_r, rest_free; [by rewrite Hb|]. apply runs_ret. intros s Hs.
  set (now := if_clock _) in Hs. set (e' := MkE (e_loc e) [] (e_ip e) (Known mac now)).
  eexists ((λ x, OFrame mac (iq_src_mac w) (iq_ff x)) <$> w :: ws), (MkNbs (e_view <$> V1 ++ e' :: V2) (q1 ++ q2)), (V1 ++ e' :: V2), _, [].
  rewrite app_nil_r. split_and!; cycle 2.
  - exact Hs.
  - clear. generalize (w :: ws). intros l. induction l; [constructor|by constructor].
  - done.
  - done.
  - rewrite !view_mid, Ev. match goal with |- nb_step _ _ _ _ _ ?x => replace x with (S (i_ticks d) + 2 * length (w :: ws))%nat end; [by constructor|].
    by rewrite <- (Forall2_length _ _ _ Hrq).
  - eapply irep_found; [exact Hi|exact El|done|exact Hki|exact Hrs|..]; simpl; try done.
    + by rewrite !insert_insert_eq.
    + intros t' Ht'. by rewrite lookup_delete_ne, lookup_insert_ne.
Qed.

(** The packet of a request is reported. *)
Lemma if_request_error {B} (R : B → ST → Prop) xs n d r w (K : unit → M ST B) :
  i_requests d !! r = Some w → request_ok w →
  (∀ f, reports icmp (if_serial (i_ticks d)) (iq_ff w) f →
     runs (rest fl (xs ++ [f]) n (put_i_requests (delete r (i_requests d)) (put_i_ticks (S (i_ticks d)) d))) (K tt) R) →
  runs (rest fl xs (S n) d) (request_error r ≫= K) R.
Proof using Hicmp.
  intros Hr [Hsrc [[Hbody (m & Hm & Hmo)] (dir & b & Hb & Hl)]] HK. unfold request_error. apply runs_assoc. eapply if_get_iq; [exact Hr|].
  rewrite Hsrc. cbn [sin_family]. change (AF_INET =? AF_INET) with true. cbv iota. apply runs_assoc. eapply rest_data; [exact Hb|].
  apply runs_assoc, if_ask, runs_assoc, rest_get. intros s Hs. apply runs_assoc, if_mod, runs_assoc. cbn [pdu pduLength directionFlag].
  set (ff := MkFrame 0 _ _). assert (frame_ok ff) as Hff by (split; [done|by exists m]).
  eapply rest_send_or_free; [exact Hff|done|exact Hicmp|]. eapply if_request_free; [apply lookup_insert_eq|done|].
  assert (packet_bytes (iq_ff w) = b) as Eb by (unfold packet_bytes; by rewrite Hb).
  assert (reports icmp (if_serial (i_ticks d)) (iq_ff w) (set_dest icmp ff)) as Hrep.
  { split; [done|]. split; [done|]. eexists. simpl. by rewrite Eb. }
  specialize (HK _ Hrep). revert HK. simpl. by rewrite delete_insert_eq.
Qed.

Lemma fail_requests_runs {B} (R : B → ST → Prop) n p (K : unit → M ST B) rs d k ws xs :
  i_caches d !! p = Some k → ic_requests k = rs → requests_at d rs ws → NoDup rs → Forall request_ok ws →
  Forall (λ t, ∃ st, i_stores d !! t = Some st ∧ is_request st ∉ rs) (i_store_list d) →
  (∀ d' fs, puts_out arp icmp (zip_with (λ n x, OError n (iq_ff x)) (if_serial <$> seq (i_ticks d) (length ws)) ws) fs →
     drained p (set_ic_requests [] k) rs [] (length ws) d d' → runs (rest fl (xs ++ fs) n d') (K tt) R) →
  runs (rest fl xs (length rs + n) d) (fail_requests (length rs) p ≫= K) R.
Proof using Hicmp.
  revert d k ws xs. induction rs as [|r rs IH]; intros d k ws xs Hp Hr Hq Hn Hok Hst HK; cbn [length fail_requests].
  - apply runs_assoc. eapply if_pop_none; [done..|]. apply runs_ret_bind. inversion Hq; subst.
    rewrite <- (app_nil_r xs). apply (HK d []); [constructor|by apply drained_nil].
  - inversion Hq as [|? w ? ws' Hw1 Hq']; subst. apply Forall_cons in Hok as [Hok1 Hok2]. apply NoDup_cons in Hn as [Hn1 Hn2].
    apply runs_assoc. eapply if_pop; [done..|]. apply runs_assoc, if_get, runs_assoc. eapply rest_lift.
    { apply find_obj_none. eapply Forall_impl; [exact Hst|]. intros t (st & Ht & Hne). exists st. split; [done|].
      unfold interface_store_request_test. apply Z.eqb_neq. intros E. apply Hne. rewrite E. left. }
    apply runs_assoc, runs_ret_bind, runs_assoc. apply if_request_error with (w := w); [done..|]. intros f Hf.
    eapply (IH _ _ ws'); [apply lookup_insert_eq|done| |done|done| |].
    + eapply requests_at_frame; [exact Hq'|]. intros r' Hr'. simpl. rewrite lookup_delete_ne; [done|]. congruence.
    + eapply Forall_impl; [exact Hst|]. intros t (st & Ht & Hne). exists st. split; [done|]. intros Hin. apply Hne. by right.
    + intros d' fs Hfs Hd'. rewrite <- app_assoc. apply (HK d' (f :: fs)).
      * simpl. by constructor.
      * eapply (drained_cons p k r rs _ [] [] 1); [|exact Hd']. simpl. by rewrite app_nil_r, Nat.add_1_r.
Qed.

(** The other stores do not wait for the requests of the entry. *)
Lemma other_requests V1 e V2 d q1 serial q2 t1 t t2 :
  irep (V1 ++ e :: V2) d (MkNbs (e_view <$> V1 ++ e :: V2) (q1 ++ (serial, e_ip e) :: q2)) → i_store_list d = t1 ++ t :: t2 →
  length t1 = length q1 →
  Forall (λ t, ∃ st, i_stores d !! t = Some st ∧ is_request st ∉ e_rs e) (t1 ++ t2).
Proof.
  intros (Hl & Hp & Hd)%irep_mid El Hlen. rewrite El in Hd.
  pose proof (pends_done e _ d d t1 t t2 q1 serial q2 Hd Hp Hlen (λ _ _, eq_refl) eq_refl) as [Hs _ _ _ _].
  destruct (proj1 (pool_cons _ _ _) Hp) as (_ & _ & _ & _ & _ & Hfr & _).
  induction Hs as [|t' q ts qs (e0 & r & rs & Hin & _ & Hrs & Hst) Hs IH]; constructor; [|exact IH].
  eexists. split; [exact Hst|]. simpl. intros Hr. apply (Hfr r Hr). apply list_elem_of_bind. exists e0. rewrite Hrs. split; [left|done].
Qed.

Lemma irep_failed V1 e V2 d d' q1 serial q2 t1 t t2 :
  irep (V1 ++ e :: V2) d (MkNbs (e_view <$> V1 ++ e :: V2) (q1 ++ (serial, e_ip e) :: q2)) →
  i_store_list d = t1 ++ t :: t2 → length t1 = length q1 →
  i_cache_list d' = e_loc <$> V1 ++ V2 → i_store_list d' = t1 ++ t2 →
  i_caches d' = delete (e_loc e) (i_caches d) → i_requests d' = drop_locs (e_rs e) (i_requests d) →
  (∀ t', t' ≠ t → i_stores d' !! t' = i_stores d !! t') → i_brk d' = i_brk d →
  irep (V1 ++ V2) d' (MkNbs (e_view <$> V1 ++ V2) (q1 ++ q2)).
Proof.
  intros (Hl & Hp & Hd)%irep_mid El Hlen E1 E2 E3 E4 E5 E6.
  destruct (proj1 (pool_cons _ _ _) Hp) as (_ & Hp0 & Hnl & Hni & _ & Hfr & Bl & _). split; [done|done|..].
  - eapply pool_frame; [exact Hp0|..|lia].
    + intros p Hin. rewrite E3. apply lookup_delete_ne. congruence.
    + intros r Hin. rewrite E4. apply lookup_drop_locs. intros Hr. by apply (Hfr r).
  - rewrite El in Hd. simpl. rewrite E2. by eapply pends_done.
Qed.


(** As [steps], with room for a report of each packet that still waits. *)
Definition steps_room (N : neighbours) (ev : nb_event) (xs : list finsFrame) (n : nat) (d : interface_data) (s : ST) : Prop :=
  ∃ outs N' V' d' ys, nb_step (i_ticks d) N ev outs N' (i_ticks d') ∧ irep V' d' N' ∧ rest fl (xs ++ ys) (nb_load N' + n) d' s ∧
    puts_out arp icmp outs ys ∧ i_inject d' = i_inject d ++ mjoin (out_bytes <$> outs) ∧ i_if_list d' = i_if_list d.

Lemma load_cons x l : load (x :: l) = (length (waiting x.2) + load l)%nat.
Proof. done. Qed.
Lemma load_app l1 l2 : load (l1 ++ l2) = (load l1 + load l2)%nat.
Proof. induction l1 as [|x l1 IH]; [done|]. rewrite <- app_comm_cons, !load_cons, IH. lia. Qed.

Lemma nb_step_load t N ev outs N' t' : nb_step t N ev outs N' t' → (nb_load N' ≤ S (nb_load N))%nat.
Proof.
  unfold nb_load.
  destruct 1; simpl; rewrite ?load_app, ?load_cons; simpl; rewrite ?length_app; simpl; try lia; unfold load; simpl; lia.
Qed.

Lemma steps_to_room N ev xs n m d s : (S (nb_load N) + m ≤ n)%nat → steps N ev xs n d s → steps_room N ev xs m d s.
Proof.
  intros Hn (outs & N' & V' & d' & ys & Hst & Hi & Hs & Ho). exists outs, N', V', d', ys. split_and!; try done; try apply Ho.
  eapply rest_le; [|exact Hs]. pose proof (nb_step_load _ _ _ _ _ _ Hst). lia.
Qed.

Lemma del_entry V1 e V2 : e_loc e ∉ e_loc <$> V1 ++ V2 → del_loc (e_loc e) (e_loc <$> V1 ++ e :: V2) = e_loc <$> V1 ++ V2.
Proof. rewrite !fmap_app, fmap_cons, not_elem_of_app. intros [Hn _]. by apply del_loc_app. Qed.

Lemma errors_no_bytes serials ws : mjoin (out_bytes <$> zip_with (λ n x, OError n (iq_ff x)) serials ws) = [].
Proof. revert ws. induction serials as [|x serials IH]; intros [|w ws]; simpl; [done..|]. apply IH. Qed.

Lemma reply_failed_runs xs n d V qs serial ff c m :
  irep V d (MkNbs (e_view <$> V) qs) → body ff = Ctrl c → metaData ff = Some m → serial_num c = serial → ret_val c = FCF_FALSE →
  runs (rest fl xs (S (nb_load (MkNbs (e_view <$> V) qs)) + n) d) (interface_exec_reply_get_addr ff)
    (λ _, steps_room (MkNbs (e_view <$> V) qs) (VFailed serial) xs n d).
Proof using Hw Harp Hicmp.
  intros Hi Hb Hm <- Hret. eapply reply_cases; [exact Hi|exact Hb|..].
  { intros Hn. eapply runs_post; [apply (unknown_answer xs _ d V qs (VFailed (serial_num c)) ff c Hi Hb); by constructor|]. intros u s. by apply steps_to_room. }
  intros V1 e V2 t1 t t2 q1 q2 r rs w ws k [-> -> El Hlen Hn Hst Ev Hrs Hnd Hk Hki Hkr Hsk Hr Hrq Hok].
  pose proof Hi as (Hl & Hp & Hd)%irep_mid. destruct (proj1 (pool_cons _ _ _) Hp) as (_ & _ & Hnl & _).
  pose proof (other_requests _ _ _ _ _ _ _ _ _ _ Hi El Hlen) as Hoth. rewrite Hrs in Hoth.
  rewrite Hret. change (FCF_FALSE =? FCF_TRUE) with false. cbv iota. unfold reply_failed. change (0 =? 0) with true. cbv iota.
  apply runs_assoc. eapply if_get_iq; [exact Hr|]. apply runs_assoc. eapply if_get_ic; [exact Hk|]. rewrite Hsk.
  apply runs_assoc, if_mod. cbv beta. change (i_cache_list (store_taken _ _ _ _ _ d)) with (i_cache_list d). rewrite Hl, (del_entry V1 e V2 Hnl), Hkr.
  assert (S (nb_load (MkNbs (e_view <$> V1 ++ e :: V2) (q1 ++ (serial_num c, e_ip e) :: q2))) + n =
          length (r :: rs) + S (nb_load (MkNbs (e_view <$> V1 ++ V2) (q1 ++ q2)) + n))%nat as ->.
  { unfold nb_load. cbn [nb_table]. rewrite view_mid, fmap_app, Ev, !load_app, load_cons, (Forall2_length _ _ _ Hrq). simpl. lia. }
  apply runs_assoc. eapply fail_requests_runs; [exact Hk|exact Hkr|exact Hrq|done|done| |].
  { simpl. apply Forall_forall. intros t' Hin. rewrite Forall_forall in Hoth. destruct (Hoth t' Hin) as (st & Hs' & Hne).
    exists st. split; [|done]. rewrite lookup_insert_ne; [done|]. intros <-. pose proof (pd_locs _ _ _ _ Hd) as Hnt. rewrite El in Hnt.
    apply NoDup_app in Hnt as (_ & Hx & [Hx2 _]%NoDup_cons). apply elem_of_app in Hin as [Hin|?]; [|done]. apply (Hx _ Hin). left. }
  intros d' fs Hfs ->. unfold interface_store_free. apply runs_assoc. eapply if_get_is; [apply lookup_insert_eq|].
  cbn [is_cache]. unfold interface_cache_free. apply runs_assoc, runs_assoc. eapply if_get_ic; [apply lookup_insert_eq|].
  cbn [set_ic_requests ic_requests free_requests]. apply runs_assoc, runs_ret_bind, if_mod, if_mod.
  apply runs_bind_r, rest_free; [by rewrite Hb|]. apply runs_ret. intros s Hs.
  eexists (zip_with (λ n x, OError n (iq_ff x)) (if_serial <$> seq (i_ticks d) (length (w :: ws))) (w :: ws)), (MkNbs (e_view <$> V1 ++ V2) (q1 ++ q2)), (V1 ++ V2), _, fs.
  split_and!; cycle 2.
  - eapply rest_le; [|exact Hs]. lia.
  - exact Hfs.
  - by rewrite errors_no_bytes.
  - done.
  - rewrite view_mid, Ev, fmap_app. by constructor.
  - eapply irep_failed; [exact Hi|exact El|done|..]; simpl; try done.
    + by rewrite delete_insert_eq.
    + by rewrite Hrs.
    + intros t' Ht'. by rewrite lookup_delete_ne, lookup_insert_ne.
Qed.

(** ** Whole runs *)

Definition interface_event (ff : finsFrame) : M ST unit := frame_dispatch interface_fcf free_ff interface_out_fdf ff.

Lemma if_fcf_reply (R : unit → ST → Prop) xs n d ff c :
  body ff = Ctrl c → opcode c = CTRL_EXEC_REPLY → param_id c = INTERFACE_EXEC_GET_ADDR →
  runs (rest fl xs n d) (interface_exec_reply_get_addr ff) R → runs (rest fl xs n d) (interface_fcf ff) R.
Proof.
  intros Hb Hop Hpa HK. unfold interface_fcf, interface_exec_reply. eapply rest_ctrl; [exact Hb|]. rewrite Hop.
  cbv [CTRL_ALERT CTRL_ALERT_REPLY CTRL_READ_PARAM CTRL_READ_PARAM_REPLY CTRL_SET_PARAM CTRL_SET_PARAM_REPLY CTRL_EXEC
    CTRL_EXEC_REPLY Z.eqb Pos.eqb]. eapply rest_ctrl; [exact Hb|]. by rewrite Hpa.
Qed.

Lemma event_runs xs n d V N ev ff :
  irep V d N → ev_frame (i_if_list d) ev ff →
  runs (rest fl xs (2 + nb_load N + n) d) (interface_event ff) (λ _, steps_room N ev xs n d).
Proof using Hw Harp Hicmp.
  intros Hi Hev. assert (N = MkNbs (e_view <$> V) (nb_pending N)) as EN by (pose proof (ir_table _ _ _ Hi) as Et; destruct N; simpl in *; congruence).
  rewrite EN in *. set (qs := nb_pending _) in *. clearbody qs. clear EN N. unfold interface_event, frame_dispatch.
  assert (∀ s, steps (MkNbs (e_view <$> V) qs) ev xs (1 + nb_load (MkNbs (e_view <$> V) qs) + n) d s →
    steps_room (MkNbs (e_view <$> V) qs) ev xs n d s) as Hroom by (intros s; apply steps_to_room; lia).
  pose proof Hev as Hev'. inversion Hev as [w ip m index ifr Hok Hm (dd & Hb & Hdir) Hty|serial mac m c ? Hm Hb Hop Hpa Hse Hrv Hmac|serial m c ? Hm Hb Hop Hpa Hse Hrv]; subst; rewrite Hm, Hb.
  - rewrite Hdir. cbn [negb]. change (DIR_DOWN =? DIR_UP) with false. change (DIR_DOWN =? DIR_DOWN) with true. cbv iota.
    unfold interface_out_fdf. eapply rest_read; [done..|]. change (ETH_TYPE_IP4 =? ETH_TYPE_IP4) with true. cbv iota.
    eapply runs_post; [by eapply out_ipv4_runs|]. intros u s. apply Hroom.
  - eapply if_fcf_reply; [exact Hb|done|done|].
    eapply runs_weaken; [by eapply (reply_found_runs xs _ d V qs (serial_num c) mac ff c m)|intros s; apply rest_le, Nat.le_succ_diag_r|].
    intros u s. apply Hroom.
  - eapply if_fcf_reply; [exact Hb|done|done|].
    eapply runs_weaken; [by eapply (reply_failed_runs xs n d V qs (serial_num c) ff c m)|intros s; apply rest_le; lia|done].
Qed.
End Packets.
