(* ===== verification/InterfaceFacts.v ===== *)
(** * The interface module: what it promises

    Any run of the module is a run of the table of neighbours, and in such a run
    no packet is lost or sent twice. *)

From stdpp Require Import base list gmap strings.
From Stdlib Require Import ZArith Lia.
From S2P Require Import Prelude Queue Metadata Frame Module IPv4 Double Run Interface Neighbours.
Open Scope Z_scope.
Open Scope fins_scope.

Inductive nb_run `{InterfaceEnv} : nat → neighbours → list nb_event → list nb_out → neighbours → nat → Prop :=
| nr_nil t N : nb_run t N [] [] N t
| nr_cons t N ev outs t1 N1 evs outs' N2 t2 :
    nb_step t N ev outs N1 t1 → nb_run t1 N1 evs outs' N2 t2 → nb_run t N (ev :: evs) (outs ++ outs') N2 t2.

Section Run.
Context {Q : Type} `{BoundedFifo Q finsFrame} `{InterfaceEnv}.
Abbreviation ST := (mstate Q interface_data) (only parsing).

(** The module handles the frames of its input queue. *)
Fixpoint interface_frames (ffs : list finsFrame) : M ST unit :=
  match ffs with
  | [] => mret tt
  | ff :: ffs => interface_event ff ;; interface_frames ffs
  end.

Lemma puts_out_app arp icmp o1 f1 o2 f2 :
  puts_out arp icmp o1 f1 → puts_out arp icmp o2 f2 → puts_out arp icmp (o1 ++ o2) (f1 ++ f2).
Proof. intros H1 H2. induction H1; simpl; [done|by constructor..]. Qed.

Lemma run_refines (Hw : writes_all) fl arp icmp (Ha : (INTERFACE_FLOW_ARP, arp) ∈ fl) (Hi : (INTERFACE_FLOW_ICMP, icmp) ∈ fl) n evs ffs xs d V N :
  irep V d N → Forall2 (ev_frame (i_if_list d)) evs ffs →
  runs (rest fl xs (2 * length evs + nb_load N + n) d) (interface_frames ffs)
    (λ _ s, ∃ outs N' V' d' ys, nb_run (i_ticks d) N evs outs N' (i_ticks d') ∧ irep V' d' N' ∧ rest fl (xs ++ ys) (nb_load N' + n) d' s ∧
       puts_out arp icmp outs ys ∧ i_inject d' = i_inject d ++ mjoin (out_bytes <$> outs)).
Proof.
  intros Hr Hev. remember (i_if_list d) as ifl eqn:Ei. revert xs d V N Hr Ei.
  induction Hev as [|ev ff evs ffs He Hev IH]; intros xs d V N Hr ->; cbn [interface_frames length].
  - apply runs_ret. intros s Hs. exists [], N, V, d, []. rewrite !app_nil_r. split_and!; try done; constructor.
  - replace (2 * S (length evs) + nb_load N + n)%nat with (2 + nb_load N + (2 * length evs + n))%nat by lia.
    eapply runs_bind; [by apply (event_runs Hw fl arp icmp Ha Hi xs (2 * length evs + n) d V N ev ff Hr He)|].
    intros u s (outs & N1 & V1 & d1 & ys & Hst & Hr1 & Hs & Ho & Eb & Ei).
    replace (nb_load N1 + (2 * length evs + n))%nat with (2 * length evs + nb_load N1 + n)%nat in Hs by lia.
    destruct (IH (xs ++ ys) d1 V1 N1 Hr1 (eq_sym Ei) s Hs) as (v & s' & E & outs' & N2 & V2 & d2 & ys' & Hrun & Hr2 & Hs2 & Ho2 & Eb2).
    exists v, s'. split; [exact E|]. exists (outs ++ outs'), N2, V2, d2, (ys ++ ys'). split_and!.
    + by econstructor.
    + done.
    + by rewrite app_assoc.
    + by apply puts_out_app.
    + by rewrite Eb2, Eb, fmap_app, join_app, app_assoc.
Qed.

End Run.


(** ** Packets are conserved *)

Definition ev_packets (ev : nb_event) : list finsFrame := match ev with VPacket w _ => [iq_ff w] | _ => [] end.
Definition out_packets (o : nb_out) : list finsFrame :=
  match o with OAsk _ _ _ => [] | OFrame _ _ ff | OError _ ff | ODrop ff => [ff] end.
Definition held (l : list (Z * nb)) : list finsFrame := l ≫= (λ x, iq_ff <$> waiting x.2).

Lemma held_app l1 l2 : held (l1 ++ l2) = held l1 ++ held l2.
Proof. exact (bind_app (λ x, iq_ff <$> waiting x.2) l1 l2). Qed.
Lemma held_cons x l : held (x :: l) = (iq_ff <$> waiting x.2) ++ held l.
Proof. done. Qed.

Lemma errors_packets serials ws :
  length serials = length ws → zip_with (λ n x, OError n (iq_ff x)) serials ws ≫= out_packets = iq_ff <$> ws.
Proof. revert ws. induction serials as [|x serials IH]; intros [|w ws] E; simpl in *; [done..|]. f_equal. apply IH. lia. Qed.
Lemma frames_packets mac smac ws : ((λ x, OFrame mac smac (iq_ff x)) <$> ws) ≫= out_packets = iq_ff <$> ws.
Proof. induction ws as [|w ws IH]; simpl; [done|]. f_equal. exact IH. Qed.

Lemma step_conserves `{InterfaceEnv} t N ev outs N' t' :
  nb_step t N ev outs N' t' → ev_packets ev ++ held (nb_table N) ≡ₚ (outs ≫= out_packets) ++ held (nb_table N').
Proof.
  destruct 1; cbn [nb_table ev_packets]; rewrite ?held_app, ?held_cons; cbn [waiting snd fmap list_fmap app];
    rewrite ?frames_packets, ?errors_packets, ?bind_cons, ?fmap_app by (by rewrite length_fmap, length_seq); cbn [out_packets mbind list_bind app fmap list_fmap]; 
    rewrite ?app_nil_r, ?frames_packets; try done; change (held []) with (@nil finsFrame); solve_Permutation.
Qed.

Lemma run_conserves `{InterfaceEnv} t N evs outs N' t' :
  nb_run t N evs outs N' t' → (evs ≫= ev_packets) ++ held (nb_table N) ≡ₚ (outs ≫= out_packets) ++ held (nb_table N').
Proof.
  induction 1 as [|t N ev outs t1 N1 evs outs' N2 t2 Hs Hr IH]; [done|]. rewrite bind_cons, bind_app.
  rewrite <- !app_assoc, <- IH. rewrite (app_assoc _ _ (held (nb_table N))), (Permutation_app_comm (ev_packets ev)), <- app_assoc.
  rewrite (step_conserves _ _ _ _ _ _ Hs). solve_Permutation.
Qed.

(** ** Where the hardware addresses come from *)

Definition knows (N : neighbours) (mac : Z) : Prop := ∃ ip since, (ip, Known mac since) ∈ nb_table N.

Lemma step_knows `{InterfaceEnv} t N ev outs N' t' mac :
  nb_step t N ev outs N' t' → knows N' mac → knows N mac ∨ ∃ serial, ev = VFound serial mac.
Proof.
  intros Hs (ip' & since' & Hin). unfold knows.
  destruct Hs; cbn [nb_table] in *; rewrite ?elem_of_app, ?elem_of_cons in Hin; try (left; exists ip', since'; set_solver).
  destruct Hin as [Hin|[[= -> -> ->]|Hin]]; [|by right; eexists|]; left; exists ip', since'; set_solver.
Qed.

Lemma step_macs `{InterfaceEnv} t N ev outs N' t' mac smac ff :
  nb_step t N ev outs N' t' → OFrame mac smac ff ∈ outs → knows N mac ∨ ∃ serial, ev = VFound serial mac.
Proof.
  intros Hs Hin. unfold knows.
  destruct Hs; cbn [nb_table] in *; rewrite ?elem_of_cons, ?elem_of_nil in Hin; try (by naive_solver).
  - destruct Hin as [[= -> -> ->]|[]]. left. eexists ip, since. set_solver.
  - right. apply list_elem_of_fmap in Hin as (x & Ex & _). injection Ex as -> _ _. by eexists.
  - apply elem_of_lookup_zip_with in Hin as (? & ? & ? & [=] & _).
Qed.

Lemma run_macs `{InterfaceEnv} t N evs outs N' t' mac smac ff :
  nb_run t N evs outs N' t' → OFrame mac smac ff ∈ outs → knows N mac ∨ ∃ serial, VFound serial mac ∈ evs.
Proof.
  induction 1 as [|t N ev outs t1 N1 evs outs' N2 t2 Hs Hr IH]; [by intros ?%not_elem_of_nil|]. intros [Hin|Hin]%elem_of_app.
  - destruct (step_macs _ _ _ _ _ _ _ _ _ Hs Hin) as [?|[serial ->]]; [by left|]. right. exists serial. left.
  - destruct (IH Hin) as [Hk|[serial Hk]]; [|right; exists serial; by right].
    destruct (step_knows _ _ _ _ _ _ _ Hs Hk) as [?|[serial ->]]; [by left|]. right. exists serial. left.
Qed.

(** ** When packets are dropped *)

(** At most [k] entries, questions and waiting packets of an entry. *)
Definition small (k : nat) (N : neighbours) : Prop :=
  (length (nb_table N) ≤ k ∧ length (nb_pending N) ≤ k)%nat ∧ Forall (λ x, (length (waiting x.2) ≤ k)%nat) (nb_table N).

Lemma step_small `{InterfaceEnv} t N ev outs N' t' k : nb_step t N ev outs N' t' → small k N → small (S k) N'.
Proof.
  assert (∀ l, Forall (λ x : Z * nb, (length (waiting x.2) ≤ k)%nat) l → Forall (λ x, (length (waiting x.2) ≤ S k)%nat) l) as Hm.
  { intros l Hl. eapply Forall_impl; [exact Hl|]. simpl. lia. }
  intros Hs [[H1 H2] H3]. destruct Hs; unfold small; cbn [nb_table nb_pending] in *; rewrite ?length_app in *;
    repeat match goal with H : Forall _ (_ ++ _) |- _ => apply Forall_app in H as [? ?] | H : Forall _ (_ :: _) |- _ => apply Forall_cons in H as [? ?] end;
    simpl in *; rewrite ?length_app in *; simpl in *;
    (split; [lia|]; repeat (apply Forall_app; split); repeat (apply Forall_cons; split); simpl; rewrite ?length_app; simpl; auto with lia).
Qed.

Lemma step_drop `{InterfaceEnv} t N ev outs N' t' k ff :
  nb_step t N ev outs N' t' → small k N → ODrop ff ∈ outs → INTERFACE_CACHE_LIST_MAX ≤ Z.of_nat k.
Proof.
  unfold INTERFACE_CACHE_LIST_MAX. intros Hs [[H1 H2] H3] Hin.
  destruct Hs; cbn [nb_table nb_pending] in *; unfold INTERFACE_CACHE_LIST_MAX, INTERFACE_REQUEST_LIST_MAX, INTERFACE_STORE_LIST_MAX in *;
    rewrite ?elem_of_cons, ?elem_of_nil in Hin; try (by naive_solver); try lia.
  - apply Forall_app in H3 as [_ [H3 _]%Forall_cons]. simpl in H3. lia.
  - apply list_elem_of_fmap in Hin as (x & Ex & _). done.
  - apply elem_of_lookup_zip_with in Hin as (? & ? & ? & [=] & _).
Qed.

Lemma run_no_drop `{InterfaceEnv} t N evs outs N' t' k ff :
  nb_run t N evs outs N' t' → small k N → ODrop ff ∈ outs → INTERFACE_CACHE_LIST_MAX < Z.of_nat (k + length evs).
Proof.
  intros Hr. revert k. induction Hr as [|t N ev outs t1 N1 evs outs' N2 t2 Hs Hr IH]; intros k Hk; [by intros ?%not_elem_of_nil|].
  intros [Hin|Hin]%elem_of_app; simpl.
  - pose proof (step_drop _ _ _ _ _ _ _ _ Hs Hk Hin). lia.
  - specialize (IH (S k) (step_small _ _ _ _ _ _ _ Hs Hk) Hin). lia.
Qed.

Lemma irep_empty d : i_cache_list d = [] → i_store_list d = [] → irep [] d (MkNbs [] []).
Proof.
  intros E1 E2. split; [done|done|..].
  - split; constructor.
  - rewrite E2. split; try constructor. intros e He. by apply not_elem_of_nil in He.
Qed.

(** C13: From an empty cache on, whatever packets are to be sent and whatever the
    ARP module answers, the module runs as its specification, and every packet
    is exactly once written to the wire, reported to the ICMP module, still
    waiting, or dropped; nothing is dropped in a sequence of up to
    [INTERFACE_CACHE_LIST_MAX] events; a packet waits only while the question
    for its next hop is under way; and a frame is written with a hardware
    address that the ARP module has given. *)
Theorem interface_conserves {Q} `{BoundedFifo Q finsFrame} `{InterfaceEnv} fl arp icmp n evs ffs xs d (s : mstate Q interface_data) :
  writes_all → (INTERFACE_FLOW_ARP, arp) ∈ fl → (INTERFACE_FLOW_ICMP, icmp) ∈ fl →
  i_cache_list d = [] → i_store_list d = [] → Forall2 (ev_frame (i_if_list d)) evs ffs → rest fl xs (2 * length evs + n) d s →
  ∃ s' outs N' V' d' ys, interface_frames ffs s = Ok (tt, s') ∧ irep V' d' N' ∧ rest fl (xs ++ ys) n d' s' ∧
    nb_run (i_ticks d) (MkNbs [] []) evs outs N' (i_ticks d') ∧
    puts_out arp icmp outs ys ∧ i_inject d' = i_inject d ++ mjoin (out_bytes <$> outs) ∧
    evs ≫= ev_packets ≡ₚ (outs ≫= out_packets) ++ held (nb_table N') ∧
    (∀ ff, ODrop ff ∈ outs → INTERFACE_CACHE_LIST_MAX < Z.of_nat (length evs)) ∧
    (∀ ip ws, (ip, Asking ws) ∈ nb_table N' → ip ∈ (nb_pending N').*2) ∧
    (∀ mac smac ff, OFrame mac smac ff ∈ outs → ∃ serial, VFound serial mac ∈ evs).
Proof.
  intros Hw Ha Hi E1 E2 Hev Hs. pose proof (irep_empty d E1 E2) as Hr.
  destruct (run_refines Hw fl arp icmp Ha Hi n evs ffs xs d [] (MkNbs [] []) Hr Hev s) as ([] & s' & E & outs & N' & V' & d' & ys & Hrun & Hr' & Hs' & Ho & Eb).
  { eapply rest_le; [|exact Hs]. unfold nb_load, load. simpl. lia. }
  exists s', outs, N', V', d', ys. split_and!; try done.
  - eapply rest_le; [|exact Hs']. lia.
  - pose proof (run_conserves _ _ _ _ _ _ Hrun) as Hc. simpl in Hc. by rewrite app_nil_r in Hc.
  - intros ff Hin. apply (run_no_drop _ _ _ _ _ _ 0 ff Hrun); [|done]. split; [split; simpl; lia|constructor].
  - intros ip ws Hin. rewrite (ir_table _ _ _ Hr') in Hin. apply list_elem_of_fmap in Hin as (e & Ee & Hin). injection Ee as -> En.
    apply (pd_asking _ _ _ _ (ir_pends _ _ _ Hr') e Hin). unfold e_view, is_asking. simpl. by rewrite <- En.
  - intros mac smac ff Hin. destruct (run_macs _ _ _ _ _ _ _ _ _ Hrun Hin) as [(ip & since & Hk)|Hk]; [by apply not_elem_of_nil in Hk|done].
Qed.

(** ** A concrete module *)

Definition demo_interface_env : InterfaceEnv :=
  {| if_clock n := (Z.of_nat n, 0); if_serial n := 100 + Z.of_nat n; if_write _ len := len; if_read _ len := len |}.
Lemma demo_writes : writes_all (H := demo_interface_env).
Proof. by intros n len _. Qed.

(** Module 2; its flows lead to the modules 3 (IPv4), 4 (ARP) and 5 (ICMP). *)
Definition demo_interface (d : interface_data) : mstate (QueueRecord finsFrame) interface_data :=
  MkSt (MkMod FMS_RUNNING 5 2 2 (init_queue 10) (init_queue 30))
    (MkTable (Some [8; 9; 10]) 3 [MkFlow 1 8; MkFlow 2 9; MkFlow 3 10]) d
    (MkStore (<[8 := MkLink 1 2 1 [3]]> (<[9 := MkLink 2 2 1 [4]]> {[10 := MkLink 3 2 1 [5]]})) 11) [] 0.
Definition demo_flows : list (Z * Z) :=
  [(INTERFACE_FLOW_IPV4, 3); (INTERFACE_FLOW_ARP, 4); (INTERFACE_FLOW_ICMP, 5)].
Definition demo_idata (capture : list Z) (mac : Z) : interface_data :=
  MkIData [MkIf 1 "eth0" mac 0 1500 IFF_RUNNING None] [] [] ∅ ∅ ∅ 1 [] capture 0.

Lemma demo_interface_rest d n : (n ≤ 30)%nat → rest demo_flows [] n d (demo_interface d).
Proof.
  intros Hn. split; [done| | |].
  - split; simpl; [lia| |].
    + intros l [= <-]. split; [repeat constructor; set_solver|].
      repeat constructor; (eexists; split; [reflexivity|simpl; lia]).
    + intros i f Hi Hf. exists [8; 9; 10]. split; [done|]. destruct i as [|[|[|i]]]; [by injection Hf as <-..|lia].
  - split; [apply create_qrep; lia|]. simpl. lia.
  - intros f dst. unfold demo_flows. rewrite !elem_of_cons, elem_of_nil. by intros [[= -> ->]|[[= -> ->]|[[= -> ->]|[]]]].
Qed.

Definition demo_packet (b : list Z) (dst : Z) : finsFrame :=
  MkFrame 2 (Some [("send_ether_type", SInt 2048); ("send_if_index", SInt 1); ("send_src_ipv4", SInt 10); ("send_dst_ipv4", SInt dst)])
    (Data (MkData DIR_DOWN (Z.of_nat (length b)) (Some b))).
Definition demo_wait (b : list Z) (dst : Z) : interface_request := MkIReq (MkAddr AF_INET 0 10) 11 (demo_packet b dst).
Definition demo_answer (serial ok : Z) (m : metadata) : finsFrame :=
  MkFrame 2 (Some m) (Ctrl (MkCtrl 4 serial CTRL_EXEC_REPLY INTERFACE_EXEC_GET_ADDR ok 0 CNull)).
Lemma demo_ev_packet b :
  Z.of_nat (length b) + SIZE_ETHERNET < 2147483648 →
  ev_frame [MkIf 1 "eth0" 11 0 1500 IFF_RUNNING None] (VPacket (demo_wait b 20) 20) (demo_packet b 20).
Proof.
  intros Hl. eapply (ev_packet _ (demo_wait b 20)); try reflexivity.
  - split; [done|]. split; [|by exists DIR_DOWN, b]. split; [done|]. eexists. split; reflexivity.
  - eexists. split; reflexivity.
Qed.
Lemma demo_ev_found serial : ev_frame [MkIf 1 "eth0" 11 0 1500 IFF_RUNNING None] (VFound serial 22) (demo_answer serial FCF_TRUE [("dst_mac", SInt64 22)]).
Proof. eapply ev_found; reflexivity. Qed.
Lemma demo_ev_failed serial : ev_frame [MkIf 1 "eth0" 11 0 1500 IFF_RUNNING None] (VFailed serial) (demo_answer serial FCF_FALSE []).
Proof. eapply ev_failed; reflexivity. Qed.

(** Two packets for the host 20, whose address is found. *)
Definition demo_sends : list finsFrame :=
  [demo_packet [1; 2] 20; demo_packet [3] 20; demo_answer 100 FCF_TRUE [("dst_mac", SInt64 22)]].
Definition demo_events : list nb_event := [VPacket (demo_wait [1; 2] 20) 20; VPacket (demo_wait [3] 20) 20; VFound 100 22].


(** Witness of C13: the address is not found; one packet is reported, a later one
    waits. *)
Lemma interface_conserves_witness :
  let evs := [VPacket (demo_wait [1; 2] 20) 20; VFailed 100; VPacket (demo_wait [3] 20) 20] in
  ∃ s' outs N' V' d' ys, interface_frames (H0 := demo_interface_env)
      [demo_packet [1; 2] 20; demo_answer 100 FCF_FALSE []; demo_packet [3] 20] (demo_interface (demo_idata [] 11)) = Ok (tt, s') ∧
    irep V' d' N' ∧ rest demo_flows ([] ++ ys) 2 d' s' ∧
    nb_run (H := demo_interface_env) 0 (MkNbs [] []) evs outs N' (i_ticks d') ∧ puts_out 4 5 outs ys ∧
    i_inject d' = i_inject (demo_idata [] 11) ++ mjoin (out_bytes <$> outs) ∧
    evs ≫= ev_packets ≡ₚ (outs ≫= out_packets) ++ held (nb_table N') ∧
    (∀ ff, ODrop ff ∈ outs → INTERFACE_CACHE_LIST_MAX < Z.of_nat (length evs)) ∧
    (∀ ip ws, (ip, Asking ws) ∈ nb_table N' → ip ∈ (nb_pending N').*2) ∧
    (∀ mac smac ff, OFrame mac smac ff ∈ outs → ∃ serial, VFound serial mac ∈ evs).
Proof.
  intros evs. apply (interface_conserves (H0 := demo_interface_env) demo_flows 4 5 2 evs _ [] (demo_idata [] 11)); try done.
  - right. left.
  - right. right. left.
  - constructor; [by apply demo_ev_packet|]. constructor; [apply demo_ev_failed|]. constructor; [by apply demo_ev_packet|constructor].
  - apply demo_interface_rest. simpl. lia.
Defined.

(** With two modules behind the ARP flow the first answer frees the requests, and
    the second uses them. *)
Definition demo_two_arps (d : interface_data) : mstate (QueueRecord finsFrame) interface_data :=
  MkSt (MkMod FMS_RUNNING 5 2 2 (init_queue 10) (init_queue 30))
    (MkTable (Some [8; 9]) 2 [MkFlow 1 8; MkFlow 2 9]) d
    (MkStore (<[8 := MkLink 1 2 1 [3]]> {[9 := MkLink 2 2 2 [4; 6]]}) 10) [] 0.
Lemma interface_two_answers :
  interface_frames (H0 := demo_interface_env)
    [demo_packet [1; 2] 20; demo_answer 100 FCF_TRUE [("dst_mac", SInt64 22)]; demo_answer 100 FCF_FALSE []]
    (demo_two_arps (demo_idata [] 11)) = Segv.
Proof. vm_compute. reflexivity. Qed.
