(* ===== verification/Capturer.v ===== *)
(** * The capturer processes ([execs/capturer/wifistub.c])

    Two processes between the sockets of the interface module and the network
    card: one reads frames from the module and injects them, the other writes
    the frames that libpcap has captured to the module.  libpcap and the
    sockets are the environment; [wire] is the list of the frames injected. *)

From stdpp Require Import base list gmap strings.
From Stdlib Require Import ZArith Lia.
From S2P Require Import Prelude Queue Metadata Frame Module IPv4 Double Run Interface Neighbours InterfaceFacts.
Open Scope Z_scope.
Open Scope fins_scope.

Definition SNAP_LEN := 8192.

(** [struct processes_shared]; of a handle it matters only whether it is open. *)
Record processes_shared := MkShared {
  running_flag : bool; capture_fd : Z; capture_handle : bool; capture_count : Z;
  inject_fd : Z; inject_handle : bool; inject_count : Z
}.

(** The processes: what can be read from [inject_fd], what was written to
    [capture_fd], the frames on the wire, and the variables [framelen] and
    [frame] of [inject_init]. *)
Record capturer := MkCap {
  shared : processes_shared; cap_from : list Z; cap_to : list Z; wire : list (list Z);
  framelen : Z; frame : list Z; cap_ticks : nat
}.

(** The results of [write], [read] and [pcap_inject] for the length asked. *)
Class CapturerEnv := { cap_write : nat → Z → Z; cap_read : nat → Z → Z; pcap_inject : nat → Z → Z }.

Definition set_shared (f : processes_shared → processes_shared) (c : capturer) : capturer :=
  MkCap (f (shared c)) (cap_from c) (cap_to c) (wire c) (framelen c) (frame c) (cap_ticks c).
Definition set_cap_from (b : list Z) (c : capturer) : capturer :=
  MkCap (shared c) b (cap_to c) (wire c) (framelen c) (frame c) (cap_ticks c).
Definition set_cap_to (b : list Z) (c : capturer) : capturer :=
  MkCap (shared c) (cap_from c) b (wire c) (framelen c) (frame c) (cap_ticks c).
Definition set_wire (w : list (list Z)) (c : capturer) : capturer :=
  MkCap (shared c) (cap_from c) (cap_to c) w (framelen c) (frame c) (cap_ticks c).
Definition set_framelen (n : Z) (c : capturer) : capturer :=
  MkCap (shared c) (cap_from c) (cap_to c) (wire c) n (frame c) (cap_ticks c).
Definition set_frame (b : list Z) (c : capturer) : capturer :=
  MkCap (shared c) (cap_from c) (cap_to c) (wire c) (framelen c) b (cap_ticks c).
Definition cap_tick (c : capturer) : capturer :=
  MkCap (shared c) (cap_from c) (cap_to c) (wire c) (framelen c) (frame c) (S (cap_ticks c)).

Definition close_handles (s : processes_shared) : processes_shared :=
  MkShared (running_flag s) (capture_fd s) false (capture_count s) (inject_fd s) false (inject_count s).
Definition close_pipes (s : processes_shared) : processes_shared :=
  MkShared false 0 (capture_handle s) (capture_count s) 0 (inject_handle s) (inject_count s).
Definition shut_down : M capturer unit := modify (set_shared (λ s, close_pipes (close_handles s))).
Definition count_capture (n : Z) (s : processes_shared) : processes_shared :=
  MkShared (running_flag s) (capture_fd s) (capture_handle s) (u64 n) (inject_fd s) (inject_handle s) (inject_count s).
Definition count_inject (n : Z) (s : processes_shared) : processes_shared :=
  MkShared (running_flag s) (capture_fd s) (capture_handle s) (capture_count s) (inject_fd s) (inject_handle s) (u64 n).

Section Capturer.
Context `{CapturerEnv}.

Definition cap_ask (f : nat → Z) : M capturer Z := c ← get; modify cap_tick ;; mret (f (cap_ticks c)).

(** [write(shared->capture_fd, b, len)]. *)
Definition write_capture (b : list Z) : M capturer Z :=
  r ← cap_ask (λ n, cap_write n (Z.of_nat (length b)));
  modify (λ c, set_cap_to (cap_to c ++ take (Z.to_nat r) b) c) ;;
  mret r.

(** [read(shared->inject_fd, _, len)]; a socket without bytes is waited for. *)
Definition read_inject (len : Z) : M capturer (Z * list Z) :=
  c ← get;
  match cap_from c with
  | [] => nofuel
  | b =>
      r ← cap_ask (λ n, cap_read n len);
      modify (set_cap_from (drop (Z.to_nat r) b)) ;;
      mret (if 0 <? r then Z.of_nat (length (take (Z.to_nat r) b)) else r, take (Z.to_nat r) b)
  end.

(** The callback of libpcap: [packet] has [caplen] bytes, of [len] on the wire. *)
Definition got_packet (caplen len : Z) (packet : list Z) : M capturer unit :=
  c ← get;
  if capture_fd (shared c) =? 0 then mret tt
  else if negb (caplen =? len) then shut_down
  else
    modify (set_shared (λ s, count_capture (capture_count s + 1) s)) ;;
    numBytes ← write_capture (le_bytes 4 caplen);
    if numBytes <=? 0 then shut_down
    else
      numBytes ← write_capture packet;
      if numBytes <=? 0 then shut_down else mret tt.

(** [capture_init]: [pcap_loop] calls back with the next frame; [packets] are the
    frames it gets before it returns an error. *)
Fixpoint capture_loop (packets : list (list Z)) : M capturer unit :=
  c ← get;
  if running_flag (shared c) then
    match packets with
    | [] => shut_down
    | p :: packets => got_packet (Z.of_nat (length p)) (Z.of_nat (length p)) p ;; capture_loop packets
    end
  else shut_down.
Definition capture_init (packets : list (list Z)) : M capturer unit :=
  modify (set_shared (count_capture 0)) ;; capture_loop packets.

(** One round of [inject_init]: false when the loop is left.  The frame is read
    into [SNAP_LEN] bytes whatever its length, and sent with that length
    whatever was read. *)
Definition inject_round : M capturer bool :=
  c ← get;
  if running_flag (shared c) then
    r ← read_inject 4;
    if r.1 <=? 0 then mret false
    else
      let len := s32 (le_value (r.2 ++ drop (length r.2) (le_bytes 4 (framelen c)))) in
      modify (set_framelen len) ;;
      r ← read_inject (u64 len);
      if SNAP_LEN <? r.1 then segv
      else if r.1 <=? 0 then mret false
      else
        modify (λ c, set_frame (r.2 ++ drop (length r.2) (frame c)) c) ;;
        if 0 <? len then
          if SNAP_LEN <? len then segv
          else
            n ← cap_ask (λ t, pcap_inject t len);
            if n <? 0 then mret true
            else
              modify (λ c, set_wire (wire c ++ [take (Z.to_nat len) (frame c)]) c) ;;
              modify (set_shared (λ s, count_inject (inject_count s + 1) s)) ;;
              mret true
        else mret true
  else mret false.

(** [inject_init], for a number of rounds: true while the loop goes on. *)
Fixpoint inject_loop (rounds : nat) : M capturer bool :=
  match rounds with
  | O => mret true
  | S rounds =>
      r ← inject_round;
      if (r : bool) then inject_loop rounds else shut_down ;; mret false
  end.
Definition inject_init (rounds : nat) : M capturer bool :=
  modify (set_shared (count_inject 0)) ;; inject_loop rounds.

(** The callback for some frames. *)
Fixpoint got_packets (packets : list (list Z)) : M capturer unit :=
  match packets with
  | [] => mret tt
  | p :: packets => got_packet (Z.of_nat (length p)) (Z.of_nat (length p)) p ;; got_packets packets
  end.

End Capturer.
