(* ===== verification/Ethernet.v ===== *)
(** * The way of a frame between two hosts

    What the interface module of one host writes for its capturer is, byte for
    byte, what the capturer of the other host writes for the interface module
    there, which passes each frame to the module its type names. *)

From stdpp Require Import base list gmap strings.
From Stdlib Require Import ZArith Lia.
From S2P Require Import Prelude Queue Metadata Frame Module IPv4 Double Run Interface Neighbours InterfaceFacts Capturer.
Open Scope Z_scope.
Open Scope fins_scope.

(** ** Frames *)

Record eth_frame := MkEth { ef_dst : Z; ef_src : Z; ef_type : Z; ef_data : list Z }.
Definition is_mac48 (x : Z) : Prop := 0 ≤ x < 281474976710656.
Record eth_ok (f : eth_frame) : Prop := {
  ek_dst : is_mac48 (ef_dst f); ek_src : is_mac48 (ef_src f);
  ek_type : ef_type f = ETH_TYPE_IP4 ∨ ef_type f = ETH_TYPE_ARP;
  ek_len : Z.of_nat (length (ef_data f)) + SIZE_ETHERNET ≤ SNAP_LEN
}.
Definition eth_bytes (f : eth_frame) : list Z := eth_hdr (ef_dst f) (ef_src f) (ef_type f) ++ ef_data f.
(** A frame in the stream of a socket. *)
Definition eth_stream (f : eth_frame) : list Z := eth_packet (ef_dst f) (ef_src f) (ef_type f) (ef_data f).

Lemma eth_bytes_length f : length (eth_bytes f) = (14 + length (ef_data f))%nat.
Proof. unfold eth_bytes, eth_hdr. rewrite !length_app, le_bytes_length. simpl. lia. Qed.
Lemma eth_stream_bytes f : eth_stream f = le_bytes 4 (Z.of_nat (length (eth_bytes f))) ++ eth_bytes f.
Proof.
  rewrite eth_bytes_length. unfold eth_stream, eth_packet, SIZE_ETHERNET.
  by replace (Z.of_nat (14 + length (ef_data f))) with (Z.of_nat (length (ef_data f)) + 14) by lia.
Qed.

Lemma land_255 x : Z.land x 255 = x mod 256.
Proof. change 255 with (Z.ones 8). by rewrite Z.land_ones by lia. Qed.

(** Six bytes hold an address. *)
Lemma eth_mac_addr mac : is_mac48 mac → eth_mac (eth_addr mac) = mac.
Proof.
  intros Hm. unfold is_mac48 in Hm. unfold eth_mac, eth_addr. rewrite !land_255, !Z.shiftr_div_pow2, !Z.shiftl_mul_pow2 by lia.
  change (2 ^ 40) with 1099511627776. change (2 ^ 32) with 4294967296. change (2 ^ 24) with 16777216. change (2 ^ 16) with 65536.
  change (2 ^ 8) with 256. Z.div_mod_to_equations. lia.
Qed.

(** ** The capturers *)

Section Wire.
Context `{CapturerEnv}.

(** Nothing is written, read or injected in part. *)
Record transfers_all : Prop := {
  ta_write : ∀ n len, 0 < len → cap_write n len = len;
  ta_read : ∀ n len, 0 < len → cap_read n len = len;
  ta_inject : ∀ n len, 0 < len → pcap_inject n len = len
}.
Context (Ht : transfers_all).

(** What each of the processes leaves to the other. *)
Definition other_side (c c' : capturer) : Prop := capture_fd (shared c') = capture_fd (shared c) ∧ cap_to c' = cap_to c.
Definition injector (c : capturer) : bool * list Z * list (list Z) := (running_flag (shared c), cap_from c, wire c).

Lemma read_inject_all c b rest :
  cap_from c = b ++ rest → b ≠ [] →
  read_inject (Z.of_nat (length b)) c = Ok ((Z.of_nat (length b), b), set_cap_from rest (cap_tick c)).
Proof using Ht.
  intros Ec Hb. unfold read_inject. rewrite (bind_ok _ _ _ c c) by done. rewrite Ec.
  destruct (b ++ rest) as [|x l] eqn:El; [by destruct b|]. rewrite <- El. clear El.
  unfold cap_ask, mbind, M_bind, get, modify, mret, M_ret. rewrite (ta_read Ht) by (destruct b; simpl; [done|lia]).
  rewrite Nat2Z.id, drop_app_length, take_app_length. rewrite (proj2 (Z.ltb_lt _ _)) by (destruct b; simpl; [done|lia]). done.
Qed.

Lemma write_capture_all c b : b ≠ [] → write_capture b c = Ok (Z.of_nat (length b), set_cap_to (cap_to c ++ b) (cap_tick c)).
Proof using Ht.
  intros Hb. unfold write_capture, cap_ask, mbind, M_bind, get, modify, mret, M_ret.
  rewrite (ta_write Ht) by (destruct b; simpl; [done|lia]). by rewrite Nat2Z.id, take_ge by lia.
Qed.

(** A frame goes from the module to the wire. *)
Lemma inject_round_all c p rest :
  running_flag (shared c) = true → cap_from c = le_bytes 4 (Z.of_nat (length p)) ++ p ++ rest →
  1 ≤ Z.of_nat (length p) ≤ SNAP_LEN →
  ∃ c', inject_round c = Ok (true, c') ∧ running_flag (shared c') = true ∧ cap_from c' = rest ∧ wire c' = wire c ++ [p] ∧ other_side c c'.
Proof using Ht.
  intros Hr Ec Hp. unfold SNAP_LEN in Hp. set (len := Z.of_nat (length p)) in *.
  unfold inject_round. rewrite (bind_ok _ _ _ c c) by done. rewrite Hr.
  assert (le_bytes 4 len ≠ [] ∧ p ≠ []) as [Hne Hpe] by (split; [done|intros E; subst len; rewrite E in Hp; simpl in Hp; lia]).
  pose proof (read_inject_all c (le_bytes 4 len) (p ++ rest) Ec Hne) as E1. rewrite le_bytes_length in E1.
  rewrite (bind_ok _ _ _ _ _ E1). clear E1.
  cbn [fst snd]. rewrite le_bytes_length. change (Z.of_nat 4 <=? 0) with false. cbv iota zeta.
  change (drop 4 (le_bytes 4 (framelen c))) with (@nil Z). rewrite app_nil_r, le_value_bytes by (change (256 ^ Z.of_nat 4) with 4294967296; lia).
  assert (s32 len = len) as -> by (unfold s32; rewrite Z.mod_small; lia). assert (u64 len = len) as -> by (unfold u64; rewrite Z.mod_small; lia).
  set (c1 := set_framelen len (set_cap_from (p ++ rest) (cap_tick c))). rewrite (bind_ok _ _ _ tt c1) by done.
  rewrite (bind_ok _ _ _ _ _ (read_inject_all c1 p rest eq_refl Hpe)). cbn [fst snd].
  rewrite (proj2 (Z.ltb_ge _ _)), (proj2 (Z.leb_gt _ _)) by (unfold SNAP_LEN; lia).
  set (c2 := set_frame (p ++ drop (length p) (frame (set_cap_from rest (cap_tick c1)))) (set_cap_from rest (cap_tick c1))).
  rewrite (bind_ok _ _ _ tt c2) by done. rewrite (proj2 (Z.ltb_lt _ _)) by lia. rewrite (proj2 (Z.ltb_ge _ _)) by (unfold SNAP_LEN; lia).
  unfold cap_ask, mbind, M_bind, get, modify, mret, M_ret. rewrite (ta_inject Ht) by lia. rewrite (proj2 (Z.ltb_ge _ _)) by lia.
  eexists. split; [reflexivity|]. split_and!; [done|done| |done]. simpl. unfold len. by rewrite Nat2Z.id, take_app_length.
Qed.

Lemma inject_loop_all fs c :
  running_flag (shared c) = true → cap_from c = fs ≫= eth_stream → Forall eth_ok fs →
  ∃ c', inject_loop (length fs) c = Ok (true, c') ∧ running_flag (shared c') = true ∧ cap_from c' = [] ∧
    wire c' = wire c ++ (eth_bytes <$> fs) ∧ other_side c c'.
Proof using Ht.
  revert c. induction fs as [|f fs IH]; intros c Hr Ec Hok; cbn [length inject_loop].
  - exists c. rewrite app_nil_r. by split_and!.
  - apply Forall_cons in Hok as [Hf Hok]. rewrite bind_cons, eth_stream_bytes, <- app_assoc in Ec.
    destruct (inject_round_all c (eth_bytes f) _ Hr Ec) as (c1 & E1 & Hr1 & Ec1 & Ew1 & [Eo1 Et1]).
    { rewrite eth_bytes_length. pose proof (ek_len _ Hf). unfold SIZE_ETHERNET in *. lia. }
    destruct (IH c1 Hr1 Ec1 Hok) as (c' & E & Hr' & Ec' & Ew' & [Eo' Et']).
    exists c'. rewrite (bind_ok _ _ _ _ _ E1). split_and!; try done; [by rewrite Ew', Ew1, <- app_assoc|by split; congruence].
Qed.

(** A frame goes from the wire to the module. *)
Lemma got_packet_all c f :
  capture_fd (shared c) ≠ 0 →
  ∃ c', got_packet (Z.of_nat (length (eth_bytes f))) (Z.of_nat (length (eth_bytes f))) (eth_bytes f) c = Ok (tt, c') ∧
    capture_fd (shared c') = capture_fd (shared c) ∧ cap_to c' = cap_to c ++ eth_stream f ∧ injector c' = injector c.
Proof using Ht.
  intros Hfd. unfold got_packet. rewrite (bind_ok _ _ _ c c) by done. rewrite (proj2 (Z.eqb_neq _ _) Hfd), Z.eqb_refl. cbn [negb].
  assert (le_bytes 4 (Z.of_nat (length (eth_bytes f))) ≠ [] ∧ eth_bytes f ≠ []) as [Hne Hfe] by done.
  set (c1 := set_shared (λ s, count_capture (capture_count s + 1) s) c). rewrite (bind_ok _ _ _ tt c1) by done.
  rewrite (bind_ok _ _ _ _ _ (write_capture_all c1 _ Hne)). rewrite le_bytes_length. change (Z.of_nat 4 <=? 0) with false. cbv iota.
  rewrite (bind_ok _ _ _ _ _ (write_capture_all _ (eth_bytes f) Hfe)).
  rewrite (proj2 (Z.leb_gt _ _)) by (rewrite eth_bytes_length; lia).
  eexists. split; [reflexivity|]. split_and!; [done| |done]. simpl. by rewrite eth_stream_bytes, <- app_assoc.
Qed.

Lemma got_packets_all fs c :
  capture_fd (shared c) ≠ 0 →
  ∃ c', got_packets (eth_bytes <$> fs) c = Ok (tt, c') ∧ capture_fd (shared c') ≠ 0 ∧ cap_to c' = cap_to c ++ (fs ≫= eth_stream) ∧
    injector c' = injector c.
Proof using Ht.
  revert c. induction fs as [|f fs IH]; intros c Hfd; cbn [fmap list_fmap got_packets].
  - exists c. by rewrite app_nil_r.
  - destruct (got_packet_all c f Hfd) as (c1 & E1 & Hfd1 & Et1 & Ei1). destruct (IH c1) as (c' & E & Hfd' & Et & Ei); [congruence|].
    exists c'. rewrite (bind_ok _ _ _ _ _ E1). split_and!; try done; [by rewrite Et, Et1, bind_cons, app_assoc|congruence].
Qed.

End Wire.

(** ** The receiving module *)

(** Computations that leave the state of the module alone, and the part [g] of
    its data. *)
Section Stays.
Context {Q : Type} `{BoundedFifo Q finsFrame} `{InterfaceEnv}.
Abbreviation ST := (mstate Q interface_data) (only parsing).

Definition stays {X A} (g : interface_data → X) (m : M ST A) : Prop :=
  ∀ s a s', m s = Ok (a, s') → m_state (fm s') = m_state (fm s) ∧ g (md s') = g (md s).

Context {X : Type} (g : interface_data → X).

Lemma stays_ret {A} (a : A) : stays g (mret a).
Proof. by intros s b s' [= <- <-]. Qed.
Lemma stays_bind {A B} (m : M ST A) (k : A → M ST B) : stays g m → (∀ a, stays g (k a)) → stays g (m ≫= k).
Proof.
  intros Hm Hk s b s'. unfold mbind, M_bind. destruct (m s) as [[a s1]| | |] eqn:E; try done. intros E'.
  destruct (Hk _ _ _ _ E') as [-> ->]. by eapply Hm.
Qed.
Lemma stays_get {A} (k : ST → M ST A) : (∀ s, stays g (k s)) → stays g (get ≫= k).
Proof. intros Hk s b s' E. exact (Hk s s b s' E). Qed.
Lemma stays_imod f : (∀ d, g (f d) = g d) → stays g (imod f).
Proof. intros Hf s b s' [= <- <-]. by rewrite <- (Hf (md s)). Qed.
Lemma stays_lift {A} (r : res A) : stays g (lift r).
Proof. intros s b s'. unfold lift. destruct r; try done. by intros [= <- <-]. Qed.
Lemma stays_switch ff : stays g (module_to_switch ff).
Proof. intros s b s'. unfold module_to_switch. destruct (bf_write _ _) as [[r q]| | |]; try done. case_match; [done|]. by intros [= <- <-]. Qed.
Lemma stays_free ff : stays g (free_ff ff).
Proof. unfold free_ff. apply stays_bind; [apply stays_lift|]. by intros _ s b s' [= <- <-]. Qed.
Lemma stays_iget : stays g iget.
Proof. unfold iget. apply stays_get. intros. apply stays_ret. Qed.
End Stays.

Create HintDb stay.
#[export] Hint Resolve stays_ret stays_lift stays_switch stays_free stays_iget : stay.

(** Goes through binds, reads of the state and case distinctions. *)
Ltac stay :=
  lazymatch goal with
  | |- stays _ (get ≫= _) => apply stays_get; stay
  | |- stays _ (_ ≫= _) => apply stays_bind; stay
  | |- stays _ (match _ with _ => _ end) => case_match; stay
  | |- stays _ (imod _) => apply stays_imod; done
  | |- stays _ _ => first [solve [auto with stay nocore] | intros ? ? ?; done]
  | |- ∀ _, _ => intros ?; stay
  end.

Section Sends.
Context {Q : Type} `{BoundedFifo Q finsFrame} `{InterfaceEnv} {X : Type} (g : interface_data → X).
Abbreviation ST := (mstate Q interface_data) (only parsing).

Lemma stays_clones ff n dsts : stays (Q := Q) g (send_clones ff dsts n).
Proof. revert dsts. induction n as [|n IH]; intros dsts; cbn [send_clones]; stay. Qed.
Hint Resolve stays_clones : stay.
Lemma stays_flow ff flow : stays (Q := Q) g (module_send_flow ff flow).
Proof. unfold module_send_flow. stay. Qed.
Hint Resolve stays_flow : stay.
Lemma stays_send ff flow : stays (Q := Q) g (send_or_free ff flow).
Proof. unfold send_or_free. stay. Qed.
Hint Resolve stays_send : stay.
Context (Hg : ∀ n d, g (put_i_ticks n d) = g d).
Lemma stays_ask {A} (f : nat → A) : stays (Q := Q) g (i_ask f).
Proof using Hg. unfold i_ask. apply stays_bind; [stay|]. intros d. apply stays_bind; [|stay]. by apply stays_imod. Qed.
End Sends.
#[export] Hint Resolve stays_clones stays_flow stays_send stays_ask : stay.

Lemma stays_round {Q} `{BoundedFifo Q finsFrame} `{InterfaceEnv} old : stays (Q := Q) (λ _, tt) (capture_round old).
Proof. unfold capture_round, read_capture, capture_frame, capture_up. assert (∀ n d, (λ _ : interface_data, tt) (put_i_ticks n d) = tt) by done. stay. Qed.

Section Receive.
Context {Q : Type} `{BoundedFifo Q finsFrame} `{InterfaceEnv}.
Abbreviation ST := (mstate Q interface_data) (only parsing).

Context (Hr : ∀ n len, 0 < len → if_read n len = len).
Context (fl : list (Z * Z)) (ip arp : Z).
Context (Hip : (INTERFACE_FLOW_IPV4, ip) ∈ fl) (Harp : (INTERFACE_FLOW_ARP, arp) ∈ fl).

Lemma read_capture_all (s : ST) b rest' len :
  i_capture (md s) = b ++ rest' → b ≠ [] → len = Z.of_nat (length b) →
  read_capture len s = Ok ((len, b), set_md (put_i_capture rest' (put_i_ticks (S (i_ticks (md s))) (md s))) s).
Proof using Hr.
  intros Ec Hb ->. unfold read_capture, iget. rewrite (bind_ok _ _ _ (md s) s) by done. rewrite Ec.
  destruct (b ++ rest') as [|x l] eqn:El; [by destruct b|]. rewrite <- El. clear El.
  assert (0 < Z.of_nat (length b)) as Hl by (destruct b; simpl; [done|lia]).
  unfold i_ask, iget, imod, mbind, M_bind, get, modify, mret, M_ret. rewrite Hr by done.
  by rewrite Nat2Z.id, drop_app_length, take_app_length, (proj2 (Z.ltb_lt _ _) Hl).
Qed.

Lemma if_read_capture {B} (R : B → ST → Prop) xs n d b rest' len (K : Z * list Z → M ST B) :
  i_capture d = b ++ rest' → b ≠ [] → len = Z.of_nat (length b) →
  runs (rest fl xs n (put_i_capture rest' (put_i_ticks (S (i_ticks d)) d))) (K (len, b)) R →
  runs (rest fl xs n d) (read_capture len ≫= K) R.
Proof using Hr.
  intros Ec Hb El HK s Hs. rewrite <- (rs_md _ _ _ _ _ Hs) in Ec. rewrite (bind_ok _ _ _ _ _ (read_capture_all s b rest' len Ec Hb El)).
  apply HK. rewrite (rs_md _ _ _ _ _ Hs). by eapply rest_set.
Qed.

(** The data of the module but for what the thread changes. *)
Definition but_capture (d : interface_data) : interface_data := put_i_capture [] (put_i_ticks 0 d).

(** The frame that is passed up for [f]. *)
Record carried (f : eth_frame) (ff : finsFrame) : Prop := {
  cd_dest : destinationID ff = if ef_type f =? ETH_TYPE_IP4 then ip else arp;
  cd_meta : ∃ t, metaData ff = Some [("recv_dst_mac", SInt64 (ef_dst f)); ("recv_src_mac", SInt64 (ef_src f));
    ("recv_ether_type", SInt (ef_type f)); ("recv_stamp", SInt64 t)];
  cd_body : body ff = Data (MkData DIR_UP (Z.of_nat (length (ef_data f))) (Some (ef_data f)))
}.

Lemma capture_up_runs xs n d f flow dst t :
  eth_ok f → (flow, dst) ∈ fl → 0 ≤ flow → dst = (if ef_type f =? ETH_TYPE_IP4 then ip else arp) →
  runs (rest fl xs (S n) d) (capture_up (eth_bytes f) flow (ef_dst f) (ef_src f) (ef_type f) t)
    (λ _ s, ∃ ff, carried f ff ∧ rest fl (xs ++ [ff]) n d s).
Proof.
  intros Hok Hfl H0' Hd. assert (drop (Z.to_nat SIZE_ETHERNET) (eth_bytes f) = ef_data f) as Edr by reflexivity.
  assert (Z.of_nat (length (eth_bytes f)) - SIZE_ETHERNET = Z.of_nat (length (ef_data f))) as El
    by (rewrite eth_bytes_length; unfold SIZE_ETHERNET; lia).
  assert (s32 (ef_type f) = ef_type f) as Es by (destruct (ek_type _ Hok) as [-> | ->]; reflexivity).
  unfold capture_up. eapply rest_lift; [reflexivity|]. rewrite Edr, El, Es. apply runs_bind_r.
  eapply rest_send_or_free; [split; [done|]; eexists; split; reflexivity|done|exact Hfl|].
  apply runs_ret. intros s Hs. eexists. split; [|exact Hs]. split; [done| |done]. eexists. reflexivity.
Qed.

Lemma eth_fields f :
  eth_ok f → eth_mac (take 6 (eth_bytes f)) = ef_dst f ∧ eth_mac (take 6 (drop 6 (eth_bytes f))) = ef_src f ∧
    ntohs (le_value (take 2 (drop 12 (eth_bytes f)))) = ef_type f.
Proof.
  intros [Hd Hs Hty _]. split_and!.
  - exact (eth_mac_addr _ Hd).
  - exact (eth_mac_addr _ Hs).
  - change (take 2 (drop 12 (eth_bytes f))) with (le_bytes 2 (htons (ef_type f))). by destruct Hty as [-> | ->].
Qed.

Lemma capture_round_runs xs n d f rest' old :
  eth_ok f → i_capture d = eth_stream f ++ rest' →
  runs (λ s, rest fl xs (S n) d s ∧ m_state (fm s) = FMS_RUNNING) (capture_round old)
    (λ r s, ∃ ff len d', r = Some len ∧ carried f ff ∧ i_capture d' = rest' ∧ but_capture d' = but_capture d ∧
       rest fl (xs ++ [ff]) n d' s).
Proof using Hr Hip Harp.
  intros Hok Ec s [Hs Hst]. unfold capture_round. rewrite (bind_ok _ _ _ s s) by done. rewrite (decide_True _ _ Hst).
  refine ((_ : runs (rest fl xs (S n) d) _ _) s Hs). set (p := eth_bytes f). pose proof (ek_len _ Hok) as Hlen.
  assert (Z.of_nat (length p) = Z.of_nat (length (ef_data f)) + SIZE_ETHERNET) as El by (unfold p; rewrite eth_bytes_length; unfold SIZE_ETHERNET; lia).
  rewrite eth_stream_bytes, <- app_assoc in Ec. fold p in Ec. unfold SNAP_LEN, SIZE_ETHERNET in *. set (len := Z.of_nat (length p)) in *.
  eapply if_read_capture; [exact Ec|done|done|]. cbn [fst snd]. change (4 <=? 0) with false. cbv iota zeta. rewrite le_bytes_length.
  change (drop 4 (le_bytes 4 old)) with (@nil Z). rewrite app_nil_r, le_value_bytes by (change (256 ^ Z.of_nat 4) with 4294967296; lia).
  assert (s32 len = len) as -> by (unfold s32; rewrite Z.mod_small; lia). assert (u64 len = len) as -> by (unfold u64; rewrite Z.mod_small; lia).
  eapply if_read_capture; [reflexivity|done|reflexivity|]. cbn [fst snd]. unfold ETH_FRAME_LEN_MAX, SIZE_ETHERNET.
  rewrite !(proj2 (Z.ltb_ge _ _)), (proj2 (Z.leb_gt _ _)), Z.eqb_refl by lia. cbn [negb].
  destruct (eth_fields f Hok) as (E1 & E2 & E3). fold p in E1, E2, E3.
  unfold capture_frame. rewrite E1, E2, E3. apply runs_assoc, if_ask.
  match goal with |- runs (rest fl xs (S n) ?d3) _ _ => apply (runs_bind _ _ _ (λ _ s, ∃ ff, carried f ff ∧ rest fl (xs ++ [ff]) n d3 s)) end.
  - destruct (ek_type _ Hok) as [Ety|Ety].
    + rewrite Ety at 1. change (ETH_TYPE_IP4 =? ETH_TYPE_IP4) with true. cbv iota. eapply capture_up_runs; [done|exact Hip|done|by rewrite Ety].
    + rewrite Ety at 1. change (ETH_TYPE_ARP =? ETH_TYPE_IP4) with false. cbv iota. rewrite Ety at 1. change (ETH_TYPE_ARP =? ETH_TYPE_ARP) with true. cbv iota.
      eapply capture_up_runs; [done|exact Harp|done|by rewrite Ety].
  - intros u. apply runs_ret. intros s1 (ff & Hc & Hs1). eexists ff, len, _. split_and!; [done|done| | |exact Hs1]; done.
Qed.

Lemma capture_rounds_runs fs xs n d old :
  Forall eth_ok fs → i_capture d = fs ≫= eth_stream →
  runs (λ s, rest fl xs (length fs + n) d s ∧ m_state (fm s) = FMS_RUNNING) (capturer_to_interface (length fs) old)
    (λ r s, ∃ ys d' len, r = Some len ∧ Forall2 carried fs ys ∧ i_capture d' = [] ∧ but_capture d' = but_capture d ∧
       rest fl (xs ++ ys) n d' s).
Proof using Hr Hip Harp.
  intros Hok. revert xs d old. induction Hok as [|f fs Hf Hok IH]; intros xs d old Ec; cbn [length capturer_to_interface].
  - apply runs_ret. intros s [Hs _]. exists [], d, old. rewrite app_nil_r. by split_and!.
  - rewrite bind_cons in Ec. intros s [Hs Hst]. cbn [Nat.add] in Hs.
    destruct (capture_round_runs xs (length fs + n) d f _ old Hf Ec s (conj Hs Hst)) as (r & s1 & E & ff & len & d1 & -> & Hc & Ec1 & Ed1 & Hs1).
    rewrite (bind_ok _ _ _ _ _ E). destruct (stays_round _ _ _ _ E) as [Hk _]. rewrite Hst in Hk.
    destruct (IH (xs ++ [ff]) d1 len Ec1 s1 (conj Hs1 Hk)) as (r & s' & E' & ys & d' & len' & -> & Hys & Ec' & Ed' & Hs').
    exists (Some len'), s'. split; [exact E'|]. exists (ff :: ys), d', len'. rewrite <- app_assoc in Hs'. split_and!; try done; [by constructor|congruence].
Qed.

End Receive.

(** C15: Frames that the interface module of one host has written (those of
    [eth_packet]) are injected by its capturer unchanged and in order; captured
    on the other host they are written to its interface module, whose thread
    passes each once and in order, with the addresses and the bytes of the
    sender, to the IPv4 or the ARP module. *)
Theorem ethernet_delivers {Q} `{BoundedFifo Q finsFrame} `{InterfaceEnv} (C1 C2 : CapturerEnv) fl ip arp fs c1 c2 xs n d old
    (s : mstate Q interface_data) :
  transfers_all (H := C1) → transfers_all (H := C2) → (∀ n len, 0 < len → if_read n len = len) →
  (INTERFACE_FLOW_IPV4, ip) ∈ fl → (INTERFACE_FLOW_ARP, arp) ∈ fl → Forall eth_ok fs →
  running_flag (shared c1) = true → cap_from c1 = fs ≫= eth_stream → wire c1 = [] →
  capture_fd (shared c2) ≠ 0 → cap_to c2 = [] →
  rest fl xs (length fs + n) d s → m_state (fm s) = FMS_RUNNING →
  ∃ c1' c2' s' ys d' len, inject_loop (H := C1) (length fs) c1 = Ok (true, c1') ∧
    got_packets (H := C2) (wire c1') c2 = Ok (tt, c2') ∧
    capturer_to_interface (length fs) old (set_md (put_i_capture (cap_to c2') d) s) = Ok (Some len, s') ∧
    rest fl (xs ++ ys) n d' s' ∧ Forall2 (carried ip arp) fs ys.
Proof.
  intros T1 T2 Hr Hip Harp Hok Hrun Ec Hw Hfd Hto Hs Hst.
  destruct (inject_loop_all (H := C1) T1 fs c1 Hrun Ec Hok) as (c1' & E1 & _ & _ & Ew & _). rewrite Hw in Ew. simpl in Ew.
  destruct (got_packets_all (H := C2) T2 fs c2 Hfd) as (c2' & E2 & _ & Et & _). rewrite Hto in Et. simpl in Et.
  destruct (capture_rounds_runs Hr fl ip arp Hip Harp fs xs n (put_i_capture (cap_to c2') d) old Hok Et (set_md (put_i_capture (cap_to c2') d) s))
    as (r & s' & E3 & ys & d' & len & -> & Hys & _ & _ & Hs').
  { split; [by eapply rest_set|exact Hst]. }
  exists c1', c2', s', ys, d', len. rewrite Ew. by split_and!.
Qed.

(** C16: A frame that is longer than the buffer of the capturer, 8192 bytes with
    its header, is read past the end of that buffer, although the interface
    module writes frames of any length; and a captured frame of more than
    [ETH_FRAME_LEN_MAX] bytes is read past the end of the buffer of the
    interface module, which compares its length afterwards. *)
Theorem ethernet_overrun `{CapturerEnv} {Q} `{BoundedFifo Q finsFrame} `{InterfaceEnv} c p rest' old (s : mstate Q interface_data) :
  transfers_all → (∀ n len, 0 < len → if_read n len = len) → Z.of_nat (length p) < 2147483648 →
  (running_flag (shared c) = true → cap_from c = le_bytes 4 (Z.of_nat (length p)) ++ p ++ rest' →
     SNAP_LEN < Z.of_nat (length p) → inject_round c = Segv) ∧
  (m_state (fm s) = FMS_RUNNING → i_capture (md s) = le_bytes 4 (Z.of_nat (length p)) ++ p ++ rest' →
     ETH_FRAME_LEN_MAX < Z.of_nat (length p) → capture_round old s = Segv).
Proof.
  intros Ht Hr Hl. unfold SNAP_LEN, ETH_FRAME_LEN_MAX. set (len := Z.of_nat (length p)) in *.
  assert (0 ≤ len) as Hl0 by lia. assert (le_bytes 4 len ≠ []) as Hne by done.
  assert (le_value (le_bytes 4 len) = len) as Ev by (apply le_value_bytes; change (256 ^ Z.of_nat 4) with 4294967296; lia).
  assert (s32 len = len) as Es by (unfold s32; rewrite Z.mod_small; lia). assert (u64 len = len) as Eu by (unfold u64; rewrite Z.mod_small; lia).
  split; intros Hrun Ec Hlen; (assert (p ≠ []) as Hp by (intros E; subst len; rewrite E in Hlen; simpl in Hlen; lia)).
  - unfold inject_round. rewrite (bind_ok _ _ _ c c) by done. rewrite Hrun.
    pose proof (read_inject_all Ht c (le_bytes 4 len) (p ++ rest') Ec Hne) as E1. rewrite le_bytes_length in E1.
    rewrite (bind_ok _ _ _ _ _ E1). cbn [fst snd]. change (Z.of_nat 4 <=? 0) with false. cbv iota zeta. rewrite le_bytes_length.
    change (drop 4 (le_bytes 4 (framelen c))) with (@nil Z). rewrite app_nil_r, Ev, Es, Eu.
    set (c1 := set_framelen len (set_cap_from (p ++ rest') (cap_tick c))). rewrite (bind_ok _ _ _ tt c1) by done.
    rewrite (bind_ok _ _ _ _ _ (read_inject_all Ht c1 p rest' eq_refl Hp)). cbn [fst snd].
    by rewrite (proj2 (Z.ltb_lt _ _)) by (unfold SNAP_LEN; lia).
  - unfold capture_round. rewrite (bind_ok _ _ _ s s) by done. rewrite (decide_True _ _ Hrun).
    rewrite (bind_ok _ _ _ _ _ (read_capture_all Hr s (le_bytes 4 len) (p ++ rest') 4 Ec Hne eq_refl)). cbn [fst snd].
    change (4 <=? 0) with false. cbv iota zeta. rewrite le_bytes_length.
    change (drop 4 (le_bytes 4 old)) with (@nil Z). rewrite app_nil_r, Ev, Es, Eu.
    set (s1 := set_md _ s). rewrite (bind_ok _ _ _ _ _ (read_capture_all Hr s1 p rest' len eq_refl Hp eq_refl)). cbn [fst snd].
    by rewrite (proj2 (Z.ltb_lt _ _)) by (unfold ETH_FRAME_LEN_MAX; lia).
Qed.

(** ** Two concrete hosts *)

Definition demo_capturer_env : CapturerEnv := {| cap_write _ len := len; cap_read _ len := len; pcap_inject _ len := len |}.
Lemma demo_transfers : transfers_all (H := demo_capturer_env).
Proof. by split. Qed.
Definition demo_capturer (from : list Z) : capturer := MkCap (MkShared true 5 true 0 6 true 0) from [] [] 0 (replicate (Z.to_nat 8192) 0) 0.
(** A packet and an ARP message of the host 11 for the host 22. *)
Definition demo_eths : list eth_frame := [MkEth 22 11 ETH_TYPE_IP4 [1; 2]; MkEth 22 11 ETH_TYPE_ARP [3]].

(** Witness of C15: *)
Lemma ethernet_delivers_witness :
  ∃ c1' c2' s' ys d' len,
    inject_loop (H := demo_capturer_env) 2 (demo_capturer (demo_eths ≫= eth_stream)) = Ok (true, c1') ∧
    got_packets (H := demo_capturer_env) (wire c1') (demo_capturer []) = Ok (tt, c2') ∧
    capturer_to_interface (H0 := demo_interface_env) 2 0
      (set_md (put_i_capture (cap_to c2') (demo_idata [] 22)) (demo_interface (demo_idata [] 22))) = Ok (Some len, s') ∧
    rest demo_flows ([] ++ ys) 1 d' s' ∧ Forall2 (carried 3 4) demo_eths ys.
Proof.
  apply (ethernet_delivers (H0 := demo_interface_env) demo_capturer_env demo_capturer_env demo_flows 3 4 demo_eths); try done.
  - left.
  - right. left.
  - repeat (apply Forall_cons; split); [split; try done; by left|split; try done; by right|apply Forall_nil; done].
  - apply demo_interface_rest. simpl. lia.
Defined.

(** Witness of C16: a frame of 20000 bytes. *)
Lemma ethernet_overrun_witness :
  let p := replicate (Z.to_nat 20000) 0 in
  inject_round (H := demo_capturer_env) (demo_capturer (le_bytes 4 (Z.of_nat (length p)) ++ p ++ [])) = Segv ∧
  capture_round (H0 := demo_interface_env) 0 (demo_interface (demo_idata (le_bytes 4 (Z.of_nat (length p)) ++ p ++ []) 22)) = Segv.
Proof.
  intros p. assert (Z.of_nat (length p) = 20000) as El by (unfold p; by rewrite length_replicate, Z2Nat.id). clearbody p.
  assert (SNAP_LEN < Z.of_nat (length p)) as H1 by (rewrite El; done).
  assert (ETH_FRAME_LEN_MAX < Z.of_nat (length p)) as H2 by (rewrite El; done).
  assert (Z.of_nat (length p) < 2147483648) as H3 by (rewrite El; done). clear El.
  set (b := le_bytes 4 (Z.of_nat (length p)) ++ p ++ []).
  assert (∀ n len, 0 < len → if_read (InterfaceEnv := demo_interface_env) n len = len) as Hr by done.
  destruct (ethernet_overrun (H := demo_capturer_env) (H1 := demo_interface_env) (demo_capturer b) p [] 0
    (demo_interface (demo_idata b 22)) demo_transfers Hr H3) as [E1 E2].
  split; [apply E1|apply E2]; done.
Defined.
