(* ===== verification/FirstPacket.v ===== *)
(** * The first packet to a neighbour

    [Interface], [Arp] and [Capturer] of two hosts composed: a packet for a host
    on the link whose hardware address is not known waits in the interface
    module while the ARP modules of both hosts exchange their messages over the
    link, and is then written with the address found. *)

From stdpp Require Import base list gmap strings.
From Stdlib Require Import ZArith Lia.
From S2P Require Import Prelude Queue Metadata Frame Module IPv4 Double Run Arp ArpFacts ArpResolve Interface Neighbours InterfaceFacts Capturer Ethernet.
Open Scope Z_scope.
Open Scope fins_scope.

(** ** A host *)

(** The interface and the ARP module of a host, the number of the latter, the
    capturer, the variable [frame_len] of the thread that reads from it, and
    the frames that went to the other modules of the host. *)
Record host (Q : Type) := MkHost {
  h_if : mstate Q interface_data; h_arp : mstate Q arp_data; h_arp_no : Z;
  h_cap : capturer; h_len : Z; h_up : list finsFrame
}.
Arguments MkHost {Q}. Arguments h_if {Q}. Arguments h_arp {Q}. Arguments h_arp_no {Q}.
Arguments h_cap {Q}. Arguments h_len {Q}. Arguments h_up {Q}.

Section Host.
Context {Q : Type} `{BoundedFifo Q finsFrame} `{EI : InterfaceEnv} `{EA : ArpEnv} `{EC : CapturerEnv}.

Definition put_h_if (i : mstate Q interface_data) (h : host Q) : host Q :=
  MkHost i (h_arp h) (h_arp_no h) (h_cap h) (h_len h) (h_up h).
Definition put_h_arp (a : mstate Q arp_data) (h : host Q) : host Q :=
  MkHost (h_if h) a (h_arp_no h) (h_cap h) (h_len h) (h_up h).
Definition put_h_cap (c : capturer) (h : host Q) : host Q :=
  MkHost (h_if h) (h_arp h) (h_arp_no h) c (h_len h) (h_up h).
Definition put_h_len (n : Z) (h : host Q) : host Q :=
  MkHost (h_if h) (h_arp h) (h_arp_no h) (h_cap h) n (h_up h).
Definition put_h_up (l : list finsFrame) (h : host Q) : host Q :=
  MkHost (h_if h) (h_arp h) (h_arp_no h) (h_cap h) (h_len h) l.

(** A computation on a part of a larger state. *)
Definition zoom {S T A} (part : T → S) (put : S → T → T) (m : M S A) : M T A := λ t,
  match m (part t) with
  | Ok (a, s) => Ok (a, put s t)
  | Segv => Segv | Exit => Exit | NoFuel => NoFuel
  end.

(** The switch takes the first frame of an output queue; it waits for one. *)
Definition take_out {D} : M (mstate Q D) finsFrame := λ s,
  match bf_read (outq s) with
  | Ok (Some ff, q) => Ok (ff, set_outq q s)
  | Ok (None, _) => NoFuel
  | Segv => Segv | Exit => Exit | NoFuel => NoFuel
  end.

Definition arp_event (ff : finsFrame) : M (mstate Q arp_data) unit := frame_dispatch arp_fcf arp_in_fdf free_ff ff.
Definition on_if {A} : M (mstate Q interface_data) A → M (host Q) A := zoom h_if put_h_if.
Definition on_arp {A} : M (mstate Q arp_data) A → M (host Q) A := zoom h_arp put_h_arp.
Definition on_cap {A} : M capturer A → M (host Q) A := zoom h_cap put_h_cap.

(** The next frame of the interface module goes to the ARP module, or to
    another one. *)
Definition from_interface : M (host Q) unit :=
  ff ← on_if take_out;
  h ← get;
  if destinationID ff =? h_arp_no h then on_arp (arp_event ff) else modify (put_h_up (h_up h ++ [ff])).
(** The frames of the ARP module are for the interface module. *)
Definition from_arp : M (host Q) unit := ff ← on_arp take_out; on_if (interface_event ff).

(** The sockets between the interface module and the capturer. *)
Definition inject_socket : M (host Q) unit :=
  h ← get;
  on_cap (modify (set_cap_from (cap_from (h_cap h) ++ i_inject (md (h_if h))))) ;; on_if (imod (put_i_inject [])).
Definition capture_socket : M (host Q) unit :=
  h ← get;
  on_if (imod (put_i_capture (i_capture (md (h_if h)) ++ cap_to (h_cap h)))) ;; on_cap (modify (set_cap_to [])).

(** A host puts [n] frames on the wire, and takes frames from it. *)
Definition put_wire (n : nat) : M (host Q) (list (list Z)) :=
  inject_socket ;; on_cap (inject_loop n) ;;
  h ← get; on_cap (modify (set_wire [])) ;; mret (wire (h_cap h)).
Definition take_wire (ps : list (list Z)) : M (host Q) unit :=
  on_cap (got_packets ps) ;; capture_socket ;;
  h ← get; r ← on_if (capturer_to_interface (length ps) (h_len h));
  match r with Some len => modify (put_h_len len) | None => mret tt end.

End Host.
Arguments host Q : clear implicits.

(** ** Two hosts on a link *)

Section Link.
Context {Q : Type} `{BoundedFifo Q finsFrame} (I1 I2 : InterfaceEnv) (A1 A2 : ArpEnv) (C1 C2 : CapturerEnv).
Abbreviation W := (host Q * host Q)%type (only parsing).

Definition first {A} : M (host Q) A → M W A := zoom fst (λ h w, (h, snd w)).
Definition second {A} : M (host Q) A → M W A := zoom snd (λ h w, (fst w, h)).
(** One frame crosses the link. *)
Definition link_right : M W unit := ps ← first (put_wire (EC := C1) 1); second (take_wire (EI := I2) (EC := C2) ps).
Definition link_left : M W unit := ps ← second (put_wire (EC := C2) 1); first (take_wire (EI := I1) (EC := C1) ps).

(** The packet [ff] makes the first host ask, the second one answers, and the
    packet is sent. *)
Definition ask (ff : finsFrame) : M W unit :=
  first (on_if (interface_event (H0 := I1) ff)) ;;
  first (from_interface (EA := A1)) ;; first (from_arp (EI := I1)) ;; link_right.
Definition answer : M W unit := second (from_interface (EA := A2)) ;; second (from_arp (EI := I2)) ;; link_left.
Definition send_on : M W unit :=
  first (from_interface (EA := A1)) ;; first (from_arp (EI := I1)) ;; link_right ;; second (from_interface (EA := A2)).
Definition first_packet (ff : finsFrame) : M W unit := ask ff ;; answer ;; send_on.

End Link.

(** ** The interface module stays in its state *)

Section Handlers.
Context {Q : Type} `{BoundedFifo Q finsFrame} `{InterfaceEnv}.
Abbreviation ST := (mstate Q interface_data) (only parsing).

Lemma stays_answer {A} (f : nat → A) : stays i_capture (i_ask f : M ST A).
Proof. by apply stays_ask. Qed.
Hint Resolve stays_answer : stay.
Lemma stays_reply ff rv msg : stays i_capture (module_reply_fcf ff rv msg : M ST unit).
Proof. unfold module_reply_fcf, ff_write, ff_meta, ff_ctrl. stay. Qed.
Hint Resolve stays_reply : stay.
Lemma stays_get_ic p : stays i_capture (get_ic p : M ST _).
Proof. unfold get_ic. stay. Qed.
Lemma stays_get_iq p : stays i_capture (get_iq p : M ST _).
Proof. unfold get_iq. stay. Qed.
Lemma stays_get_is p : stays i_capture (get_is p : M ST _).
Proof. unfold get_is. stay. Qed.
Lemma stays_malloc : stays i_capture (i_malloc : M ST _).
Proof. unfold i_malloc. stay. Qed.
Hint Resolve stays_get_ic stays_get_iq stays_get_is stays_malloc : stay.
Lemma stays_request_free p keep : stays i_capture (interface_request_free p keep : M ST _).
Proof. unfold interface_request_free. stay. Qed.
Hint Resolve stays_request_free : stay.
Lemma stays_free_requests l : stays i_capture (free_requests l : M ST _).
Proof. induction l; cbn [free_requests]; stay. Qed.
Hint Resolve stays_free_requests : stay.
Lemma stays_cache_free p : stays i_capture (interface_cache_free p : M ST _).
Proof. unfold interface_cache_free. stay. Qed.
Hint Resolve stays_cache_free : stay.
Lemma stays_store_free p : stays i_capture (interface_store_free p : M ST _).
Proof. unfold interface_store_free. stay. Qed.
Hint Resolve stays_store_free : stay.
Lemma stays_refuse l : stays i_capture (refuse_requests l : M ST _).
Proof. induction l; cbn [refuse_requests]; stay. Qed.
Lemma stays_inject ff a b c : stays i_capture (inject_ff ff a b c : M ST _).
Proof. unfold inject_ff, ff_data, interface_inject_pdu, write_inject. stay. Qed.
Lemma stays_upd_ic p f : stays i_capture (upd_ic p f : M ST _).
Proof. unfold upd_ic, put_ic. stay. Qed.
Hint Resolve stays_refuse stays_inject stays_upd_ic : stay.
Lemma stays_out_ask p ff a b c d : stays i_capture (out_ask p ff a b c d : M ST _).
Proof. unfold out_ask, append_request, append_store, interface_store_create, put_is, stamp_cache. stay. Qed.
Hint Resolve stays_out_ask : stay.
Lemma stays_out_ipv4 ff : stays i_capture (interface_out_ipv4 ff : M ST _).
Proof.
  unfold interface_out_ipv4, ff_read, ff_meta, out_cached, out_new, interface_send_request, interface_make_room, append_request, stamp_cache, put_ic.
  stay.
Qed.
Lemma stays_pop p : stays i_capture (pop_request p : M ST _).
Proof. unfold pop_request, put_ic. stay. Qed.
Hint Resolve stays_pop : stay.
Lemma stays_inject_requests n p a b : stays i_capture (inject_requests n p a b : M ST _).
Proof. induction n; cbn [inject_requests]; stay. Qed.
Lemma stays_store_release p : stays i_capture (store_release p : M ST _).
Proof. unfold store_release, put_is. stay. Qed.
Lemma stays_request_error r : stays i_capture (request_error r : M ST _).
Proof. unfold request_error, ff_data. stay. Qed.
Hint Resolve stays_inject_requests stays_store_release stays_request_error : stay.
Lemma stays_fail n p : stays i_capture (fail_requests n p : M ST _).
Proof. induction n; cbn [fail_requests]; stay. Qed.
Hint Resolve stays_fail : stay.
Lemma stays_reply_get_addr ff : stays i_capture (interface_exec_reply_get_addr ff : M ST _).
Proof. unfold interface_exec_reply_get_addr, ff_ctrl, reply_found, reply_failed, ff_read_long, ff_meta, stamp_cache, put_is. stay. Qed.
Lemma stays_out_arp ff : stays i_capture (interface_out_arp ff : M ST _).
Proof. unfold interface_out_arp, ff_read_long, ff_meta. stay. Qed.
Hint Resolve stays_out_ipv4 stays_reply_get_addr stays_out_arp : stay.
Lemma stays_out ff : stays i_capture (interface_out_fdf ff : M ST _).
Proof. unfold interface_out_fdf, ff_read, ff_meta, interface_out_ipv6. stay. Qed.

Hint Resolve stays_out : stay.
(** Messages that replace the flows and links do not touch it either. *)
Lemma stays_set_mt t : stays i_capture (modify (set_mt t) : M ST unit).
Proof. by intros s b s' [= <- <-]. Qed.
Lemma stays_on_store {A} (m : M link_store A) : stays i_capture (on_store m : M ST A).
Proof. intros s b s'. unfold on_store. destruct (m _) as [[? ?]| | |]; try done. by intros [= <- <-]. Qed.
Hint Resolve stays_set_mt stays_on_store : stay.

Lemma stays_event ff : stays i_capture (interface_event ff : M ST unit).
Proof.
  assert (stays i_capture (interface_set_param ff : M ST unit)) as Hset.
  { unfold interface_set_param, module_set_param_flows, module_set_param_links, module_set_param_dual, ff_ctrl. stay. }
  unfold interface_event, frame_dispatch, interface_fcf, interface_read_param, interface_exec, interface_exec_reply, ff_ctrl. stay.
Qed.
End Handlers.

(** ** Steps of a host *)

Section Triples.
Context {Q : Type} `{BoundedFifo Q finsFrame} `{EI : InterfaceEnv} `{EA : ArpEnv} `{EC : CapturerEnv}.

(** What a host is connected with: the flows of its interface module, the
    numbers of its modules, and its interfaces. *)
Record host_config := MkConf {
  hc_flows : list (Z * Z); hc_ip : Z; hc_arp : Z; hc_icmp : Z; hc_if : Z; hc_ifs : list if_record
}.
Record config_ok (c : host_config) : Prop := {
  ho_ip : (INTERFACE_FLOW_IPV4, hc_ip c) ∈ hc_flows c; ho_arp : (INTERFACE_FLOW_ARP, hc_arp c) ∈ hc_flows c;
  ho_icmp : (INTERFACE_FLOW_ICMP, hc_icmp c) ∈ hc_flows c; ho_other : hc_ip c ≠ hc_arp c
}.
(** Sockets and libpcap transfer everything. *)
Definition link_ok : Prop := writes_all ∧ (∀ n len, 0 < len → if_read n len = len) ∧ transfers_all.

Context (cf : host_config) (Hcf : config_ok cf) (Hl : link_ok).

(** The interface module runs with the table [N]; [b] waits to be read by the
    capturer. *)
Record if_at (xs : list finsFrame) (n : nat) (N : neighbours) (b : list Z) (i : mstate Q interface_data) : Prop := {
  ia_run : m_state (fm i) = FMS_RUNNING; ia_capture : i_capture (md i) = []; ia_inject : i_inject (md i) = b;
  ia_ifs : i_if_list (md i) = hc_ifs cf; ia_rest : rest (hc_flows cf) xs n (md i) i; ia_rep : ∃ V, irep V (md i) N
}.
Definition cap_idle (c : capturer) : Prop := capture_fd (shared c) ≠ 0 ∧ cap_to c = [] ∧ injector c = (true, [], []).
Record host_at (PI : mstate Q interface_data → Prop) (PA : mstate Q arp_data → Prop) (up : list finsFrame) (h : host Q) : Prop := {
  ha_if : PI (h_if h); ha_arp : PA (h_arp h); ha_no : h_arp_no h = hc_arp cf; ha_cap : cap_idle (h_cap h); ha_up : h_up h = up
}.
Abbreviation arp_at := (ready (hc_if cf)) (only parsing).

Lemma zoom_ok {S T A} (part : T → S) put (m : M S A) t a s : m (part t) = Ok (a, s) → zoom part put m t = Ok (a, put s t).
Proof. intros E. unfold zoom. by rewrite E. Qed.

Lemma on_if_runs {A} PI PA up (m : M _ A) R : runs PI m R → runs (host_at PI PA up) (on_if m) (λ a, host_at (R a) PA up).
Proof. intros Hm h [Hi ? ? ? ?]. destruct (Hm _ Hi) as (a & i & E & Hi'). eexists a, _. split; [by apply zoom_ok|]. by split. Qed.
Lemma on_arp_runs {A} PI PA up (m : M _ A) R : runs PA m R → runs (host_at PI PA up) (on_arp m) (λ a, host_at PI (R a) up).
Proof. intros Hm h [? Ha ? ? ?]. destruct (Hm _ Ha) as (a & i & E & Ha'). eexists a, _. split; [by apply zoom_ok|]. by split. Qed.

Lemma take_out_rest {D} fl x xs n (d : D) : runs (rest fl (x :: xs) n d) take_out (λ f s, f = x ∧ rest (Q := Q) fl xs (S n) d s).
Proof.
  intros s [Hm Ht [Hq Hc] Hf]. destruct (bf_read_ok _ _ _ Hq) as (q & E & Hq' & Ec). exists x, (set_outq q s).
  unfold take_out. rewrite E. split; [done|]. split; [done|]. split; try done. split; [done|].
  change (outq (set_outq q s)) with q. rewrite Ec. simpl in Hc. lia.
Qed.
Lemma take_out_if x xs n N b : runs (if_at (x :: xs) n N b) take_out (λ f i, f = x ∧ if_at xs (S n) N b i).
Proof.
  intros i [Hr Hc Hb Hi Hs Hrep]. destruct (take_out_rest _ _ _ _ _ i Hs) as (f & i' & E & -> & Hs'). exists x, i'. split; [done|]. split; [done|].
  pose proof (rs_md _ _ _ _ _ Hs') as Em. unfold take_out in E. destruct (bf_read _) as [[[?|] q]| | |]; try done. injection E as -> <-. by split.
Qed.

Lemma from_interface_arp x xs n N b PA up R :
  destinationID x = hc_arp cf → runs PA (arp_event x) R →
  runs (host_at (if_at (x :: xs) n N b) PA up) from_interface (λ u, host_at (if_at xs (S n) N b) (R u) up).
Proof using Hcf.
  intros Hd Hm. unfold from_interface. eapply runs_bind; [apply on_if_runs, take_out_if|]. intros f h [[-> Hi] Ha Hn Hc Hu].
  rewrite (bind_ok _ _ _ h h) by done. rewrite Hn, Hd, Z.eqb_refl. by apply (on_arp_runs _ PA up).
Qed.
Lemma from_interface_up x xs n N b PA up :
  destinationID x ≠ hc_arp cf →
  runs (host_at (if_at (x :: xs) n N b) PA up) from_interface (λ _, host_at (if_at xs (S n) N b) PA (up ++ [x])).
Proof using Hcf.
  intros Hd. unfold from_interface. eapply runs_bind; [apply on_if_runs, take_out_if|]. intros f h [[-> Hi] Ha Hn Hc Hu].
  rewrite (bind_ok _ _ _ h h) by done. rewrite Hn, (proj2 (Z.eqb_neq _ _) Hd). eexists tt, _. split; [reflexivity|]. rewrite Hu. by split.
Qed.
Lemma from_arp_runs x ys k da PI up R :
  runs PI (interface_event x) R →
  runs (host_at PI (arp_at (x :: ys) k da) up) from_arp (λ u, host_at (R u) (arp_at ys (S k) da) up).
Proof using Hcf.
  intros Hm. unfold from_arp. eapply runs_bind; [apply on_arp_runs, take_out_rest|]. intros f h [Hi [-> Ha] Hn Hc Hu].
  by apply (on_if_runs PI).
Qed.

(** The interface module handles a frame. *)
Lemma if_event xs n N b ev ff :
  ev_frame (hc_ifs cf) ev ff →
  runs (if_at xs (2 + nb_load N + n) N b) (interface_event ff)
    (λ _ i, ∃ outs N' ys, (∃ t t', nb_step t N ev outs N' t') ∧ puts_out (hc_arp cf) (hc_icmp cf) outs ys ∧
       if_at (xs ++ ys) (nb_load N' + n) N' (b ++ mjoin (out_bytes <$> outs)) i).
Proof using Hcf Hl.
  intros Hev i [Hr Hc Hb Hi Hs [V HV]]. destruct Hl as (Hw & _ & _). rewrite <- Hi in Hev.
  destruct (event_runs Hw _ _ _ (ho_arp _ Hcf) (ho_icmp _ Hcf) xs n (md i) V N ev ff HV Hev i Hs)
    as (u & i' & E & outs & N' & V' & d' & ys & Hst & HV' & Hs' & Ho & Eb & Ei).
  destruct (stays_event ff _ _ _ E) as [Er Ec]. pose proof (rs_md _ _ _ _ _ Hs') as Em. subst d'.
  exists u, i'. split; [exact E|]. exists outs, N', ys. split; [by eexists _, _|]. split; [done|].
  split; [congruence|congruence|by rewrite Eb, Hb|congruence|exact Hs'|by exists V'].
Qed.

Lemma u64_mac x : is_mac x → u64 x = x.
Proof. unfold is_mac, u64. intros. rewrite Z.mod_small; lia. Qed.

Lemma irep_data V d d' N :
  i_cache_list d' = i_cache_list d → i_store_list d' = i_store_list d → i_caches d' = i_caches d → i_requests d' = i_requests d →
  i_stores d' = i_stores d → i_brk d' = i_brk d → irep V d N → irep V d' N.
Proof.
  intros E1 E2 E3 E4 E5 E6 [Hc Ht Hp [Hs ? ? ? ?]]. split; [congruence|done|..].
  - eapply pool_frame; [exact Hp|..]; [by rewrite E3|by rewrite E4|lia].
  - rewrite E2. split; try done; [|by rewrite E6]. eapply stores_frame; [exact Hs|by rewrite E5|]. intros e He _ _. by exists e.
Qed.

(** A message of the ARP module is written. *)
Lemma if_arp_message xs n N b dst msg :
  is_mac (target_MAC_addrs msg) → is_mac (sender_MAC_addrs msg) →
  runs (if_at xs n N b) (interface_event (set_dest dst (arp_frame msg)))
    (λ _, if_at xs n N (b ++ eth_packet (target_MAC_addrs msg) (sender_MAC_addrs msg) ETH_TYPE_ARP (arp_hdr msg))).
Proof using Hcf Hl.
  intros Ht Hs i [Hr Hc Hb Hi Hrest [V HV]]. destruct Hl as (Hw & _ & _). set (ff := set_dest dst (arp_frame msg)).
  set (p := eth_packet _ _ _ _).
  assert (runs (rest (hc_flows cf) xs n (md i)) (interface_event ff) (λ _, rest (hc_flows cf) xs n (injected p (md i)))) as Hruns.
  { unfold interface_event, frame_dispatch. cbn [metaData ff set_dest arp_frame body]. cbv zeta. cbn [directionFlag].
    change (DIR_DOWN =? DIR_UP) with false. change (DIR_DOWN =? DIR_DOWN) with true. cbv iota.
    unfold interface_out_fdf. eapply rest_read; [reflexivity|reflexivity|]. change (u32 ARP_TYPE =? ETH_TYPE_IP4) with false.
    change (u32 ARP_TYPE =? ETH_TYPE_ARP) with true. cbv iota. unfold interface_out_arp.
    eapply if_read_long; [reflexivity|reflexivity|]. eapply if_read_long; [reflexivity|reflexivity|]. rewrite !u64_mac by done.
    eapply if_inject_ff; [exact Hw| |by right|].
    - split; [split; [done|]; eexists; split; reflexivity|]. exists DIR_DOWN, (arp_hdr msg). by split; [|vm_compute].
    - apply runs_bind_r, rest_free; [done|]. by apply runs_ret. }
  destruct (Hruns i Hrest) as (u & i' & E & Hs'). destruct (stays_event ff _ _ _ E) as [Er Ec].
  pose proof (rs_md _ _ _ _ _ Hs') as Em. exists u, i'. split; [exact E|].
  split; rewrite ?Em; [congruence|congruence|by rewrite <- Hb|exact Hi|exact Hs'|]. exists V. by eapply (irep_data V (md i)).
Qed.

Lemma if_at_data xs n N b b' c' d i :
  if_at xs n N b i → d = put_i_capture c' (put_i_inject b' (md i)) → c' = [] → if_at xs n N b' (set_md d i).
Proof.
  intros [Hr Hc Hb Hi Hs [V HV]] -> ->. split; try done; [by eapply rest_set|]. exists V. by eapply (irep_data V (md i)).
Qed.

(** A frame goes from the interface module to the wire. *)
Lemma put_wire_runs f xs n N PA up :
  eth_ok f →
  runs (host_at (if_at xs n N (eth_stream f)) PA up) (put_wire 1)
    (λ ps h, ps = [eth_bytes f] ∧ host_at (if_at xs n N []) PA up h).
Proof using Hcf Hl.
  intros Hf h [Hi Ha Hn (Hfd & Hto & Hinj) Hu]. destruct Hl as (_ & _ & Ht). injection Hinj as Hrun Hfrom Hwire.
  pose proof (ia_inject _ _ _ _ _ Hi) as Eb. unfold put_wire.
  set (c1 := set_cap_from (eth_stream f) (h_cap h)). set (i1 := set_md (put_i_inject [] (md (h_if h))) (h_if h)).
  rewrite (bind_ok _ _ _ tt (put_h_if i1 (put_h_cap c1 h))).
  2: { unfold inject_socket. rewrite (bind_ok _ _ _ h h) by done. by rewrite Hfrom, Eb. }
  destruct (inject_loop_all Ht [f] c1) as (c' & E & Hrun' & Hfrom' & Ew & Efd & Eto); [done|by rewrite bind_cons, app_nil_r|by apply Forall_singleton|].
  rewrite (bind_ok _ _ _ true (put_h_cap c' (put_h_if i1 h))) by exact (zoom_ok h_cap put_h_cap _ (put_h_if i1 (put_h_cap c1 h)) _ _ E).
  eexists _, (put_h_cap (set_wire [] c') (put_h_if i1 h)). split; [reflexivity|].
  change (wire c1) with (wire (h_cap h)) in Ew. rewrite Hwire in Ew. split; [exact Ew|]. split; try done.
  - eapply (if_at_data _ _ _ _ [] (i_capture (md (h_if h)))); [exact Hi| |by apply Hi]. simpl. by destruct (md (h_if h)).
  - split; simpl; [by rewrite Efd|]. split; [by rewrite Eto|]. unfold injector. simpl. by rewrite Hrun', Hfrom'.
Qed.

Lemma stays_thread rounds old : stays (Q := Q) (λ _, tt) (capturer_to_interface rounds old).
Proof.
  revert old. induction rounds as [|rounds IH]; intros old; cbn [capturer_to_interface]; [stay|].
  apply stays_bind; [apply stays_round|]. intros r. case_match; [apply IH|stay].
Qed.

(** A frame on the wire is passed up by the interface module. *)
Lemma take_wire_runs f xs n N b PA up :
  eth_ok f →
  runs (host_at (if_at xs (S n) N b) PA up) (take_wire [eth_bytes f])
    (λ _ h, ∃ ff, carried (hc_ip cf) (hc_arp cf) f ff ∧ host_at (if_at (xs ++ [ff]) n N b) PA up h).
Proof using Hcf Hl.
  intros Hf h [Hi Ha Hn (Hfd & Hto & Hinj) Hu]. destruct Hl as (_ & Hr & Ht). unfold take_wire.
  destruct (got_packets_all Ht [f] (h_cap h) Hfd) as (c' & E & Hfd' & Eto & Einj). rewrite Hto in Eto.
  rewrite (bind_ok _ _ _ tt (put_h_cap c' h)) by (by apply (zoom_ok h_cap put_h_cap)).
  set (d1 := put_i_capture ([f] ≫= eth_stream) (md (h_if h))). set (i1 := set_md d1 (h_if h)).
  set (h1 := put_h_cap (set_cap_to [] c') (put_h_if i1 h)).
  rewrite (bind_ok _ _ _ tt h1).
  2: { unfold capture_socket. rewrite (bind_ok _ _ _ (put_h_cap c' h) (put_h_cap c' h)) by done.
       cbn [h_if h_cap put_h_cap]. by rewrite (ia_capture _ _ _ _ _ Hi), Eto. }
  rewrite (bind_ok _ _ _ h1 h1) by done.
  destruct (capture_rounds_runs Hr _ _ _ (ho_ip _ Hcf) (ho_arp _ Hcf) [f] xs n d1 (h_len h1) (proj2 (Forall_singleton _ _) Hf) eq_refl i1)
    as (r & i' & E' & ys & d' & len & -> & Hys & Ec & Ed & Hs').
  { split; [eapply rest_set; apply Hi|apply Hi]. }
  inversion Hys as [|? ff ? ? Hff Hnil]; subst. inversion Hnil; subst.
  rewrite (bind_ok _ _ _ (Some len) (put_h_if i' h1)) by (by apply (zoom_ok h_if put_h_if)).
  eexists tt, _. split; [reflexivity|]. exists ff. split; [done|]. split; try done.
  - destruct (stays_thread _ _ _ _ _ E') as [Er _]. pose proof (rs_md _ _ _ _ _ Hs') as Em.
    destruct Hi as [Hrun Hcap Hb Hifs _ [V HV]].
    assert (∀ X (g : interface_data → X), g (but_capture d') = g (but_capture d1)) as Hg by congruence.
    split; simpl; rewrite ?Em; [by rewrite Er|exact Ec| | |exact Hs'|].
    + by rewrite <- Hb; apply (Hg _ i_inject).
    + by rewrite <- Hifs; apply (Hg _ i_if_list).
    + exists V. eapply (irep_data V (md (h_if h)));
        [apply (Hg _ i_cache_list)|apply (Hg _ i_store_list)|apply (Hg _ i_caches)|apply (Hg _ i_requests)|apply (Hg _ i_stores)|apply (Hg _ i_brk)|done].
  - split; [done|]. split; [done|]. by rewrite <- Hinj, <- Einj.
Qed.

End Triples.

(** ** The ARP module of a host *)

Section ArpSide.
Context {Q : Type} `{BoundedFifo Q finsFrame} `{EA : ArpEnv}.

Lemma arp_event_ask xs n d iface arp serial src dst q (R : unit → mstate Q arp_data → Prop) :
  asks_arp arp serial src dst q → is_u32 src → is_u32 dst →
  runs (ready iface xs n d) (arp_exec_get_addr q src dst) R → runs (ready iface xs n d) (arp_event q) R.
Proof.
  intros (_ & Hm & i & Hb) Hs Hd HK. unfold arp_event, frame_dispatch. rewrite Hm, Hb.
  unfold arp_fcf. eapply rest_ctrl; [exact Hb|]. cbn [opcode].
  change (CTRL_EXEC =? CTRL_ALERT) with false. change (CTRL_EXEC =? CTRL_ALERT_REPLY) with false.
  change (CTRL_EXEC =? CTRL_READ_PARAM) with false. change (CTRL_EXEC =? CTRL_READ_PARAM_REPLY) with false.
  change (CTRL_EXEC =? CTRL_SET_PARAM) with false. change (CTRL_EXEC =? CTRL_SET_PARAM_REPLY) with false.
  change (CTRL_EXEC =? CTRL_EXEC) with true. cbv iota.
  unfold arp_exec. eapply rest_ctrl; [exact Hb|]. change (param_id _ =? ARP_EXEC_GET_ADDR) with true. cbv iota.
  eapply rest_read; [exact Hm|reflexivity|]. eapply rest_read; [exact Hm|reflexivity|].
  by rewrite !s32_u32_small.
Qed.

(** A frame from the wire brings the bytes of the message in it. *)
Lemma carried_brings ip arp dst mac1 mac2 msg ff :
  carried ip arp (MkEth mac1 mac2 ETH_TYPE_ARP (arp_hdr msg)) ff →
  destinationID ff = arp ∧ brings (set_dest dst (arp_frame msg)) ff ∧ arp_event ff = (arp_in_fdf ff : M (mstate Q arp_data) unit).
Proof.
  intros [Hd (t & Hm) Hb]. split; [exact Hd|]. split.
  - eexists _, _. split; [reflexivity|]. split; [exact Hb|]. split; [done|]. split; [done|]. by rewrite Hm.
  - unfold arp_event, frame_dispatch. by rewrite Hm, Hb.
Qed.

End ArpSide.

(** ** The table of neighbours *)

Lemma new_step `{InterfaceEnv} tab w ip outs N' t t' :
  nb_step t (MkNbs tab []) (VPacket w ip) outs N' t' → ip ∉ tab.*1 → Z.of_nat (length tab) < INTERFACE_CACHE_LIST_MAX →
  ∃ serial, outs = [OAsk serial (w_src_ip w) ip] ∧ N' = MkNbs (tab ++ [(ip, Asking [w])]) [(serial, ip)].
Proof.
  intros Hst Hn Hl. inversion Hst; subst; try (exfalso; apply Hn; rewrite fmap_app, elem_of_app; right; left); try lia.
  - by eexists.
  - simpl in *. unfold INTERFACE_STORE_LIST_MAX in *. lia.
Qed.

Lemma found_step `{InterfaceEnv} tab w ip serial mac outs N' t t' :
  nb_step t (MkNbs (tab ++ [(ip, Asking [w])]) [(serial, ip)]) (VFound serial mac) outs N' t' → ip ∉ tab.*1 →
  ∃ now, outs = [OFrame mac (iq_src_mac w) (iq_ff w)] ∧ N' = MkNbs (tab ++ [(ip, Known mac now)]) [].
Proof.
  intros Hst Hn. remember (MkNbs _ _) as N eqn:EN. remember (VFound _ _) as ev eqn:Eev.
  destruct Hst as [| | | | | | | | |l1 ip' w' ws l2 p1 p2 serial' mac' Hs| |tab' pend serial' mac' Hs|]; try done.
  - injection EN as Et Ep. injection Eev as -> ->. destruct p1 as [|q p1]; [|by destruct p1].
    injection Ep as -> ->. eexists.
    assert (l1 = tab ∧ (ip, Asking (w' :: ws)) :: l2 = [(ip, Asking [w])]) as [-> [= -> -> ->]]; [|done].
    destruct l2 as [|x l2 _] using rev_ind.
    + change ((ip, Asking (w' :: ws)) :: []) with ([(ip, Asking (w' :: ws))]) in Et. by apply app_inj_2 in Et as [-> ->].
    + exfalso. apply Hn. rewrite app_comm_cons, app_assoc in Et. apply app_inj_2 in Et as [<- _]; [|done].
      rewrite fmap_app, elem_of_app. right. left.
  - injection EN as -> ->. injection Eev as -> ->. exfalso. apply Hs. left.
Qed.

Lemma load_last tab ip x : load (tab ++ [(ip, x)]) = (load tab + length (waiting x))%nat.
Proof. rewrite load_app, load_cons. unfold load at 2. simpl. lia. Qed.

(** ** The way of the packet *)

Section Way.
Context {Q : Type} `{BoundedFifo Q finsFrame} (I1 I2 : InterfaceEnv) (A1 A2 : ArpEnv) (C1 C2 : CapturerEnv).
Context (cf1 cf2 : host_config) (Hc1 : config_ok cf1) (Hc2 : config_ok cf2).
Context (Hl1 : link_ok (EI := I1) (EC := C1)) (Hl2 : link_ok (EI := I2) (EC := C2)).

Definition both {T U} (P1 : T → Prop) (P2 : U → Prop) (w : T * U) : Prop := P1 (fst w) ∧ P2 (snd w).

Lemma first_runs {A} P1 P2 (m : M (host Q) A) R : runs P1 m R → runs (both P1 P2) (first m) (λ a, both (R a) P2).
Proof.
  intros Hm [h1 h2] [H1 H2]. destruct (Hm h1 H1) as (a & h1' & E & HR). exists a, (h1', h2).
  split; [exact (zoom_ok fst _ _ (h1, h2) _ _ E)|done].
Qed.
Lemma second_runs {A} P1 P2 (m : M (host Q) A) R : runs P2 m R → runs (both P1 P2) (second m) (λ a, both P1 (R a)).
Proof.
  intros Hm [h1 h2] [H1 H2]. destruct (Hm h2 H2) as (a & h2' & E & HR). exists a, (h1, h2').
  split; [exact (zoom_ok snd _ _ (h1, h2) _ _ E)|done].
Qed.

(** A frame crosses the link to the right, and to the left. *)
Lemma link_right_runs f xs1 n1 N1 PA1 up1 xs2 n2 N2 b2 PA2 up2 :
  eth_ok f →
  runs (both (host_at cf1 (if_at cf1 xs1 n1 N1 (eth_stream f)) PA1 up1) (host_at cf2 (if_at cf2 xs2 (S n2) N2 b2) PA2 up2))
    (link_right I2 C1 C2)
    (λ _ w, ∃ ff, carried (hc_ip cf2) (hc_arp cf2) f ff ∧
       both (host_at cf1 (if_at cf1 xs1 n1 N1 []) PA1 up1) (host_at cf2 (if_at cf2 (xs2 ++ [ff]) n2 N2 b2) PA2 up2) w).
Proof using Hc1 Hc2 Hl1 Hl2.
  intros Hf. unfold link_right. eapply runs_bind; [apply first_runs, (put_wire_runs (EI := I1) (EC := C1) cf1 Hc1 Hl1 f); done|].
  intros ps w [[-> H1] H2]. destruct (second_runs _ _ _ _ (take_wire_runs (EI := I2) (EC := C2) cf2 Hc2 Hl2 f xs2 n2 N2 b2 PA2 up2 Hf) w (conj H1 H2))
    as (u & w' & E & H1' & ff & Hff & H2'). exists u, w'. split; [exact E|]. by exists ff.
Qed.
Lemma link_left_runs f xs1 n1 N1 b1 PA1 up1 xs2 n2 N2 PA2 up2 :
  eth_ok f →
  runs (both (host_at cf1 (if_at cf1 xs1 (S n1) N1 b1) PA1 up1) (host_at cf2 (if_at cf2 xs2 n2 N2 (eth_stream f)) PA2 up2))
    (link_left I1 C1 C2)
    (λ _ w, ∃ ff, carried (hc_ip cf1) (hc_arp cf1) f ff ∧
       both (host_at cf1 (if_at cf1 (xs1 ++ [ff]) n1 N1 b1) PA1 up1) (host_at cf2 (if_at cf2 xs2 n2 N2 []) PA2 up2) w).
Proof using Hc1 Hc2 Hl1 Hl2.
  intros Hf. unfold link_left. eapply runs_bind; [apply second_runs, (put_wire_runs (EI := I2) (EC := C2) cf2 Hc2 Hl2 f); done|].
  intros ps w [H1 [-> H2]]. destruct (first_runs _ _ _ _ (take_wire_runs (EI := I1) (EC := C1) cf1 Hc1 Hl1 f xs1 n1 N1 b1 PA1 up1 Hf) w (conj H1 H2))
    as (u & w' & E & (ff & Hff & H1') & H2'). exists u, w'. split; [exact E|]. by exists ff.
Qed.

Context (tab : list (Z * nb)) (w : interface_request) (ip2 : Z) (r1 r2 : if_record) (d1 d2 : arp_data).
Abbreviation ip1 := (w_src_ip w) (only parsing).
Abbreviation mac1 := (if_mac r1) (only parsing).
Abbreviation mac2 := (if_mac r2) (only parsing).
Context (N2 : neighbours) (n2 : nat) (up1 up2 : list finsFrame).

(** An address of a host that ARP can find. *)
Definition usable (ip mac : Z) : Prop := is_u32 ip ∧ ip ≠ 0 ∧ is_mac mac ∧ mac ≠ 0.
Context (Ha1 : usable ip1 mac1) (Ha2 : usable ip2 mac2).
Context (Hnew : ip2 ∉ tab.*1) (Htab : Z.of_nat (length tab) < INTERFACE_CACHE_LIST_MAX).
Context (Hcache : cache_ok d1) (Hno : find_first (arp_cache_ip_test ip2) (cache_list d1) = None)
  (Hfree : Z.of_nat (length (cache_list d1)) < ARP_CACHE_LIST_MAX)
  (Hif1 : find_first (ifr_ipv4_test ip1) (arp_if_list d1) = Some r1)
  (Hif2 : find_first (ifr_ipv4_test ip2) (arp_if_list d2) = Some r2).

Definition request_frame : eth_frame := MkEth ARP_MAC_BROADCAST mac1 ETH_TYPE_ARP (arp_hdr (gen_requestARP mac1 ip1 ARP_MAC_BROADCAST ip2)).
Definition reply_frame : eth_frame := MkEth mac1 mac2 ETH_TYPE_ARP (arp_hdr (gen_replyARP mac2 ip2 mac1 ip1)).
Definition packet_frame : eth_frame := MkEth mac2 (iq_src_mac w) ETH_TYPE_IP4 (packet_bytes (iq_ff w)).

Lemma arp_eth_ok m m' msg : is_mac m → is_mac m' → eth_ok (MkEth m m' ETH_TYPE_ARP (arp_hdr msg)).
Proof. intros Hm Hm'. split; [exact Hm|exact Hm'|by right|by vm_compute]. Qed.

Lemma broadcast_mac : is_mac ARP_MAC_BROADCAST.
Proof. unfold is_mac, ARP_MAC_BROADCAST. lia. Qed.

(** The question [q] is under way, and the ARP module waits with it for the
    address. *)
Definition asked_by_arp (serial : Z) (d : arp_data) : Prop :=
  ∃ q k m c, cache_ok d ∧ arp_if_list d = arp_if_list d1 ∧ cache_list d = cache_list d1 ++ [k] ∧ waits q ip2 k ∧
    metaData q = Some m ∧ long_key m "dst_mac" = true ∧ body q = Ctrl c ∧ serial_num c = serial ∧ param_id c = INTERFACE_EXEC_GET_ADDR.
Definition waiting_host (xs : list finsFrame) (n : nat) (serial : Z) (d : arp_data) : host Q → Prop :=
  host_at cf1 (if_at cf1 xs n (MkNbs (tab ++ [(ip2, Asking [w])]) [(serial, ip2)]) []) (ready (hc_if cf1) [] 1 d) up1.
Definition other_host (xs : list finsFrame) (n : nat) (b : list Z) : host Q → Prop :=
  host_at cf2 (if_at cf2 xs n N2 b) (ready (hc_if cf2) [] 1 d2) up2.

Lemma ask_runs ff :
  ev_frame (hc_ifs cf1) (VPacket w ip2) ff →
  runs (both (host_at cf1 (if_at cf1 [] (3 + load tab) (MkNbs tab []) []) (ready (hc_if cf1) [] 1 d1) up1) (other_host [] (S n2) []))
    (ask I1 I2 A1 C1 C2 ff)
    (λ _ v, ∃ serial d f1, asked_by_arp serial d ∧ carried (hc_ip cf2) (hc_arp cf2) request_frame f1 ∧
       both (waiting_host [] (3 + load tab) serial d) (other_host [f1] n2 []) v).
Proof using All.
  intros Hev v Hv. destruct Ha1 as (Hu1 & Hz1 & Hm1 & Hn1), Ha2 as (Hu2 & Hz2 & Hm2 & Hn2). unfold ask.
  replace (3 + load tab)%nat with (2 + nb_load (MkNbs tab []) + 1)%nat in Hv by (unfold nb_load; simpl; lia).
  destruct (first_runs _ _ _ _ (on_if_runs cf1 _ _ _ _ _ (if_event (EI := I1) (EC := C1) cf1 Hc1 Hl1 [] 1 _ [] _ ff Hev)) v Hv)
    as (u & v1 & E1 & [(outs & N' & ys & Hst & Ho & Hi) Ha Hno1 Hcap Hup] & H2).
  destruct Hst as (t & t' & Hst). destruct (new_step _ _ _ _ _ _ _ Hst Hnew Htab) as (serial & -> & ->).
  inversion Ho as [|? ? ? q ? ? Hq Ho'| | |]; subst. inversion Ho'; subst. simpl in Hi.
  rewrite (bind_ok _ _ _ _ _ E1). clear E1. destruct Hq as (Hqd & Hqm & i & Hqb).
  assert (asks_arp (hc_arp cf1) serial ip1 ip2 q) as Hask by (by split_and!; [..|exists i]).
  pose proof (get_addr_runs (H0 := A1) (hc_if cf1) [] 0 d1 r1 q _ ip1 ip2 Hcache Hif1 Hno Hfree Hqm eq_refl) as Hget.
  apply (arp_event_ask (EA := A1) _ _ _ _ _ _ _ _ _ _ Hask Hu1 Hu2) in Hget.
  destruct (first_runs _ _ _ _ (from_interface_arp (EA := A1) cf1 Hc1 q [] _ _ [] _ up1 _ Hqd Hget) v1
    (conj (Build_host_at _ _ _ _ _ Hi Ha Hno1 Hcap Hup) H2)) as (u2 & v2 & E2 & [Hi2 (d & k & Hr & Hok & Hcl & Hil & Hwait) Hno2 Hcap2 Hup2] & H22).
  rewrite (bind_ok _ _ _ _ _ E2). clear E2 Hget.
  set (msg := gen_requestARP mac1 ip1 ARP_MAC_BROADCAST ip2) in *.
  destruct (first_runs _ _ _ _ (from_arp_runs (EI := I1) cf1 Hc1 _ [] _ d _ up1 _
    (if_arp_message (EI := I1) (EC := C1) cf1 Hc1 Hl1 [] _ _ [] (hc_if cf1) msg broadcast_mac Hm1)) v2
    (conj (Build_host_at _ _ _ _ _ Hi2 Hr Hno2 Hcap2 Hup2) H22)) as (u3 & v3 & E3 & H3).
  rewrite (bind_ok _ _ _ _ _ E3). clear E3.
  destruct (link_right_runs request_frame [] _ _ _ up1 [] n2 N2 [] _ up2 (arp_eth_ok _ _ msg broadcast_mac Hm1) v3 H3)
    as (u4 & v4 & E4 & f1 & Hf1 & H4 & H42).
  exists u4, v4. split; [exact E4|]. exists serial, d, f1. split; [|split; [exact Hf1|split; [|exact H42]]].
  - eexists _, k, _, _. split_and!; [done|done|done|exact Hwait|reflexivity|reflexivity|exact Hqb|done|done].
  - unfold waiting_host. replace (3 + load tab)%nat with (S (nb_load (MkNbs (tab ++ [(ip2, Asking [w])]) [(serial, ip2)]) + 1)); [exact H4|].
    unfold nb_load. simpl. rewrite load_last. simpl. lia.
Qed.

Lemma answer_runs serial d f1 :
  carried (hc_ip cf2) (hc_arp cf2) request_frame f1 →
  runs (both (waiting_host [] (3 + load tab) serial d) (other_host [f1] n2 []))
    (answer I1 I2 A2 C1 C2)
    (λ _ v, ∃ f2, carried (hc_ip cf1) (hc_arp cf1) reply_frame f2 ∧
       both (waiting_host [f2] (2 + load tab) serial d) (other_host [] (S n2) []) v).
Proof using All.
  intros Hf1 v Hv. destruct Ha1 as (Hu1 & Hz1 & Hm1 & Hn1), Ha2 as (Hu2 & Hz2 & Hm2 & Hn2). unfold answer.
  destruct (carried_brings (EA := A2) (Q := Q) _ _ 0 _ _ _ _ Hf1) as (Hd & Hb & Ee).
  pose proof (request_in_runs (H0 := A2) (hc_if cf2) [] 0 d2 r2 mac1 ip1 ARP_MAC_BROADCAST ip2 f1 0 Hm1 Hu1 broadcast_mac Hu2 Hn1 Hz1 Hz2 Hb Hif2) as Hin.
  rewrite <- Ee in Hin.
  destruct (second_runs _ _ _ _ (from_interface_arp (EA := A2) cf2 Hc2 f1 [] _ _ [] _ up2 _ Hd Hin) v Hv) as (u1 & v1 & E1 & H1).
  rewrite (bind_ok _ _ _ _ _ E1). clear E1 Hin.
  destruct (second_runs _ _ _ _ (from_arp_runs (EI := I2) cf2 Hc2 _ [] _ d2 _ up2 _
    (if_arp_message (EI := I2) (EC := C2) cf2 Hc2 Hl2 [] _ _ [] (hc_if cf2) (gen_replyARP mac2 ip2 mac1 ip1) Hm1 Hm2)) v1 H1) as (u2 & v2 & E2 & H2).
  rewrite (bind_ok _ _ _ _ _ E2). clear E2.
  destruct (link_left_runs reply_frame [] (2 + load tab) _ [] _ up1 [] _ N2 _ up2 (arp_eth_ok _ _ _ Hm1 Hm2) v2 H2) as (u3 & v3 & E3 & f2 & Hf2 & H3).
  exists u3, v3. split; [exact E3|]. by exists f2.
Qed.

(** The answer of the ARP module is the event that the address was found. *)
Lemma resolves_found ifl c mac ans :
  resolves c mac ans → is_mac mac → param_id c = INTERFACE_EXEC_GET_ADDR → ev_frame ifl (VFound (serial_num c) mac) ans.
Proof.
  intros (_ & (m & Hm & Hr) & i & Hb) Hmac Hp. eapply ev_found; [exact Hm|exact Hb|done|done|done|done|].
  unfold read_long. rewrite Hr. by rewrite u64_mac.
Qed.

Context (Hsrc : is_mac (iq_src_mac w)) (Hlen : Z.of_nat (length (packet_bytes (iq_ff w))) + SIZE_ETHERNET ≤ SNAP_LEN).

Lemma send_on_runs serial d f2 :
  asked_by_arp serial d → carried (hc_ip cf1) (hc_arp cf1) reply_frame f2 →
  runs (both (waiting_host [f2] (2 + load tab) serial d) (other_host [] (S n2) []))
    (send_on I1 I2 A1 A2 C1 C2)
    (λ _ v, ∃ f d' now, carried (hc_ip cf2) (hc_arp cf2) packet_frame f ∧
       both (host_at cf1 (if_at cf1 [] (load tab) (MkNbs (tab ++ [(ip2, Known mac2 now)]) []) []) (ready (hc_if cf1) [] 1 d') up1)
         (host_at cf2 (if_at cf2 [] (S n2) N2 []) (ready (hc_if cf2) [] 1 d2) (up2 ++ [f])) v).
Proof using All.
  intros (q & k & m & c & Hok & Hil & Hcl & Hwait & Hqm & Hqk & Hqb & Hser & Hpar) Hf2 v Hv.
  destruct Ha1 as (Hu1 & Hz1 & Hm1 & Hn1), Ha2 as (Hu2 & Hz2 & Hm2 & Hn2). unfold send_on.
  destruct (carried_brings (EA := A1) (Q := Q) _ _ 0 _ _ _ _ Hf2) as (Hd & Hb & Ee). rewrite <- Hil in Hif1.
  pose proof (reply_in_runs (H0 := A1) (hc_if cf1) [] 0 d _ k r1 mac2 ip2 mac1 ip1 f2 0 q m c
    Hm2 Hu2 Hm1 Hu1 Hn2 Hz2 Hz1 Hb Hif1 Hok Hcl Hno Hwait Hqm Hqk Hqb) as Hin. rewrite <- Ee in Hin.
  destruct (first_runs _ _ _ _ (from_interface_arp (EA := A1) cf1 Hc1 f2 [] _ _ [] _ up1 _ Hd Hin) v Hv)
    as (u1 & v1 & E1 & [Hi (ans & d' & k' & Hans & Hr & _) Hno1 Hcap Hup] & H2).
  rewrite (bind_ok _ _ _ _ _ E1). clear E1 Hin.
  pose proof (resolves_found (hc_ifs cf1) c mac2 ans Hans Hm2 Hpar) as Hev. rewrite Hser in Hev.
  pose proof (if_event (EI := I1) (EC := C1) cf1 Hc1 Hl1 [] 0 (MkNbs (tab ++ [(ip2, Asking [w])]) [(serial, ip2)]) [] _ ans Hev) as Hif.
  replace (2 + nb_load (MkNbs (tab ++ [(ip2, Asking [w])]) [(serial, ip2)]) + 0)%nat with (S (2 + load tab)) in Hif
    by (unfold nb_load; cbn [nb_table]; rewrite load_last; simpl; lia).
  destruct (first_runs _ _ _ _ (from_arp_runs (EI := I1) cf1 Hc1 ans [] _ d' _ up1 _ Hif) v1
    (conj (Build_host_at _ _ _ _ _ Hi Hr Hno1 Hcap Hup) H2)) as (u2 & v2 & E2 & [(outs & N' & ys & Hst & Ho & Hi2) Hr2 Hno2 Hcap2 Hup2] & H22).
  rewrite (bind_ok _ _ _ _ _ E2). clear E2 Hif. destruct Hst as (t & t' & Hst). destruct (found_step _ _ _ _ _ _ _ _ _ Hst Hnew) as (now & -> & ->).
  inversion Ho as [| | |? ? ? ? ? Ho'|]; subst. inversion Ho'; subst.
  assert (eth_ok packet_frame) as Hpf by (split; [exact Hm2|exact Hsrc|by left|exact Hlen]).
  destruct (link_right_runs packet_frame [] (load tab) (MkNbs (tab ++ [(ip2, Known mac2 now)]) []) (ready (hc_if cf1) [] 1 d') up1
    [] n2 N2 [] (ready (hc_if cf2) [] 1 d2) up2 Hpf v2) as (u3 & v3 & E3 & f & Hf & H3).
  { split; [|exact H22]. split; try done. revert Hi2. unfold nb_load. cbn [nb_table]. rewrite load_last. simpl. by rewrite !Nat.add_0_r, app_nil_r. }
  rewrite (bind_ok _ _ _ _ _ E3). clear E3.
  destruct (second_runs _ _ _ _ (from_interface_up (EA := A2) cf2 Hc2 f [] _ _ [] _ up2 ltac:(rewrite (cd_dest _ _ _ _ Hf); apply Hc2)) v3 H3) as (u4 & v4 & E4 & H4).
  exists u4, v4. split; [exact E4|]. by exists f, d', now.
Qed.

End Way.

(** C14: The first packet to a neighbour arrives.  A host gives its interface
    module a packet for an address of the link that neither this module nor
    the ARP module knows, and for which another host is there.  Then every
    handler on the way returns: the interface module asks its ARP module, which
    broadcasts a request; the ARP module of the other host answers it with the
    address of its interface; and the packet that waited is written to the wire
    with that address.  The other host passes it to its IPv4 module, with the
    bytes and the addresses it was sent with, and to nobody else; the first host
    knows its neighbour from then on, no question is left open, and all queues,
    sockets and capturers are empty again. *)
Theorem first_packet_delivered {Q} `{BoundedFifo Q finsFrame} (I1 I2 : InterfaceEnv) (A1 A2 : ArpEnv) (C1 C2 : CapturerEnv)
    cf1 cf2 h1 h2 tab w ip2 r1 r2 d1 d2 N2 n2 up1 up2 ff :
  link_ok (EI := I1) (EC := C1) → link_ok (EI := I2) (EC := C2) → config_ok cf1 → config_ok cf2 →
  host_at (Q := Q) cf1 (if_at cf1 [] (3 + load tab) (MkNbs tab []) []) (ready (hc_if cf1) [] 1 d1) up1 h1 →
  host_at (Q := Q) cf2 (if_at cf2 [] (S n2) N2 []) (ready (hc_if cf2) [] 1 d2) up2 h2 →
  ev_frame (hc_ifs cf1) (VPacket w ip2) ff → is_mac (iq_src_mac w) →
  Z.of_nat (length (packet_bytes ff)) + SIZE_ETHERNET ≤ SNAP_LEN →
  ip2 ∉ tab.*1 → Z.of_nat (length tab) < INTERFACE_CACHE_LIST_MAX →
  cache_ok d1 → find_first (arp_cache_ip_test ip2) (cache_list d1) = None →
  Z.of_nat (length (cache_list d1)) < ARP_CACHE_LIST_MAX →
  find_first (ifr_ipv4_test (w_src_ip w)) (arp_if_list d1) = Some r1 →
  find_first (ifr_ipv4_test ip2) (arp_if_list d2) = Some r2 →
  usable (w_src_ip w) (if_mac r1) → usable ip2 (if_mac r2) →
  ∃ h1' h2' f d1' now,
    first_packet I1 I2 A1 A2 C1 C2 ff (h1, h2) = Ok (tt, (h1', h2')) ∧
    carried (hc_ip cf2) (hc_arp cf2) (MkEth (if_mac r2) (iq_src_mac w) ETH_TYPE_IP4 (packet_bytes ff)) f ∧
    host_at cf1 (if_at cf1 [] (load tab) (MkNbs (tab ++ [(ip2, Known (if_mac r2) now)]) []) []) (ready (hc_if cf1) [] 1 d1') up1 h1' ∧
    host_at cf2 (if_at cf2 [] (S n2) N2 []) (ready (hc_if cf2) [] 1 d2) (up2 ++ [f]) h2'.
Proof.
  intros Hl1 Hl2 Hc1 Hc2 H1 H2 Hev Hsrc Hlen Hnew Htab Hok Hno Hfree Hif1 Hif2 Ha1 Ha2.
  assert (ff = iq_ff w) as -> by (by inversion Hev).
  destruct (ask_runs I1 I2 A1 A2 C1 C2 cf1 cf2 Hc1 Hc2 Hl1 Hl2 tab w ip2 r1 r2 d1 d2 N2 n2 up1 up2
    Ha1 Ha2 Hnew Htab Hok Hno Hfree Hif1 Hif2 _ Hev (h1, h2) (conj H1 H2)) as ([] & v1 & E1 & serial & d & f1 & Hask & Hf1 & Hv1).
  destruct (answer_runs I1 I2 A1 A2 C1 C2 cf1 cf2 Hc1 Hc2 Hl1 Hl2 tab w ip2 r1 r2 d1 d2 N2 n2 up1 up2
    Ha1 Ha2 Hnew Htab Hok Hno Hfree Hif1 Hif2 serial d f1 Hf1 v1 Hv1) as ([] & v2 & E2 & f2 & Hf2 & Hv2).
  destruct (send_on_runs I1 I2 A1 A2 C1 C2 cf1 cf2 Hc1 Hc2 Hl1 Hl2 tab w ip2 r1 r2 d1 d2 N2 n2 up1 up2
    Ha1 Ha2 Hnew Htab Hok Hno Hfree Hif1 Hif2 Hsrc Hlen serial d f2 Hask Hf2 v2 Hv2) as ([] & [h1' h2'] & E3 & f & d1' & now & Hf & H1' & H2').
  exists h1', h2', f, d1', now. split_and!; try done.
  unfold first_packet. by rewrite (bind_ok _ _ _ _ _ E1), (bind_ok _ _ _ _ _ E2).
Qed.

(** ** Two concrete hosts *)

Definition demo_conf (mac : Z) : host_config := MkConf demo_flows 3 4 5 2 [MkIf 1 "eth0" mac 0 1500 IFF_RUNNING None].
Definition demo_station (ip mac : Z) : host (QueueRecord finsFrame) :=
  MkHost (demo_interface (demo_idata [] mac)) (demo_arp (demo_host ip mac)) 4 (demo_capturer []) 0 [].

Lemma demo_conf_ok mac : config_ok (demo_conf mac).
Proof. split; [left|right; left|right; right; left|done]. Qed.
Lemma demo_link : link_ok (EI := demo_interface_env) (EC := demo_capturer_env).
Proof. split; [exact demo_writes|]. split; [done|exact demo_transfers]. Qed.
Lemma demo_station_at ip mac n :
  (n ≤ 30)%nat →
  host_at (demo_conf mac) (if_at (demo_conf mac) [] n (MkNbs [] []) []) (ready 2 [] 1 (demo_host ip mac)) [] (demo_station ip mac).
Proof.
  intros Hn. split; [|apply demo_ready; lia|done|done|done]. split; try done; [by apply demo_interface_rest|].
  exists []. by apply irep_empty.
Qed.

(** Witness of C14: host 10 sends two bytes to host 20, and what arrives there. *)
Lemma first_packet_delivered_witness :
  let E := demo_interface_env in let A := demo_arp_env in let C := demo_capturer_env in
  (∃ h1' h2' f d1' now,
    first_packet E E A A C C (demo_packet [1; 2] 20) (demo_station 10 11, demo_station 20 22) = Ok (tt, (h1', h2')) ∧
    carried 3 4 (MkEth 22 11 ETH_TYPE_IP4 [1; 2]) f ∧
    host_at (demo_conf 11) (if_at (demo_conf 11) [] 0 (MkNbs [(20, Known 22 now)] []) []) (ready 2 [] 1 d1') [] h1' ∧
    host_at (demo_conf 22) (if_at (demo_conf 22) [] 1 (MkNbs [] []) []) (ready 2 [] 1 (demo_host 20 22)) [f] h2') ∧
  match first_packet E E A A C C (demo_packet [1; 2] 20) (demo_station 10 11, demo_station 20 22) with
  | Ok (_, (h1', h2')) => h_up h1' = [] ∧ length (h_up h2') = 1%nat
  | _ => False
  end.
Proof.
  split; [|by vm_compute].
  refine (first_packet_delivered demo_interface_env demo_interface_env demo_arp_env demo_arp_env demo_capturer_env demo_capturer_env
    (demo_conf 11) (demo_conf 22) (demo_station 10 11) (demo_station 20 22) [] (demo_wait [1; 2] 20) 20 (demo_if 10 11) (demo_if 20 22)
    (demo_host 10 11) (demo_host 20 22) (MkNbs [] []) 0 [] [] (demo_packet [1; 2] 20)
    demo_link demo_link (demo_conf_ok 11) (demo_conf_ok 22) (demo_station_at 10 11 3 _) (demo_station_at 20 22 1 _)
    (demo_ev_packet [1; 2] _) _ _ _ _ (demo_cache_ok 10 11) _ _ _ _ _ _); try done; try lia; unfold usable, is_mac, is_u32; simpl; try lia.
  apply not_elem_of_nil.
Defined.
