(* ===== verification/TcpWindow.v ===== *)
(** * TCP sequence space: window tests and node order ([modules/tcp/tcp.c])

    Sequence numbers are 32-bit counters that wrap around.  The code compares
    them by case analysis on which side of the wrap the window and the
    segment lie ([tcp_in_window], [tcp_in_window_overlaps],
    [tcp_node_compare]); this file translates the case trees and relates them
    to the reference definition by distances from the start of the window. *)

From stdpp Require Import base list.
From Stdlib Require Import ZArith Lia.
From S2P Require Import Prelude.
Open Scope Z_scope.

(** ** The code *)

Definition tcp_in_window (seq_num seq_end win_seq_num win_seq_end : Z) : bool :=
  if win_seq_num <=? win_seq_end then
    if seq_num <=? seq_end then
      if (win_seq_num <=? seq_num) && (seq_end <=? win_seq_end) then true else false
    else false
  else
    if seq_num <=? seq_end then
      if win_seq_num <=? seq_num then true
      else if seq_end <=? win_seq_end then true
      else false
    else
      if (win_seq_num <=? seq_num) && (seq_end <=? win_seq_end) then true else false.

Definition tcp_in_window_overlaps (seq_num seq_end win_seq_num win_seq_end : Z) : bool :=
  if seq_num =? seq_end then
    if win_seq_num =? win_seq_end then
      if win_seq_num =? seq_num then true else false
    else
      if win_seq_num <=? win_seq_end then
        if (win_seq_num <=? seq_num) && (seq_num <=? win_seq_end) then true else false
      else
        if win_seq_num <=? seq_num then true
        else if seq_num <=? win_seq_end then true
        else false
  else
    if win_seq_num =? win_seq_end then false
    else
      if win_seq_num <=? win_seq_end then
        if seq_num <=? seq_end then
          if (win_seq_num <=? seq_num) && (seq_num <=? win_seq_end) then true
          else if (win_seq_num <=? seq_end) && (seq_end <=? win_seq_end) then true
          else false
        else
          if (win_seq_num <=? seq_num) && (seq_num <=? win_seq_end) then true
          else if (win_seq_num <=? seq_end) && (seq_end <=? win_seq_end) then true
          else false
      else
        if seq_num <=? seq_end then
          if win_seq_num <=? seq_num then true
          else if win_seq_num <=? seq_end then true
          else if seq_end <=? win_seq_end then true
          else false
        else
          if win_seq_num <=? seq_num then true
          else if seq_end <=? win_seq_end then true
          else false.

(** [tcp_node_compare(node, cmp, win_seq_num, win_seq_end)] on the sequence
    numbers [(n, ne)] of [node] and [(c, ce)] of [cmp]; [win_seq_end] is not
    used by the code. *)
Definition tcp_node_compare (n ne c ce w : Z) : Z :=
  if w <=? n then
    if w <=? ne then
      if w <=? c then
        if w <=? ce then
          if n <? c then
            if ne <=? c then -1 else 0
          else if n =? c then 0
          else
            if ce <=? n then 1 else 0
        else
          if n <? c then
            if ne <=? c then -1 else 0
          else 0
      else -1
    else
      if w <=? c then
        if n <=? c then 0
        else
          if ce <=? n then 1 else 0
      else
        if ne <=? c then -1 else 0
  else
    if w <=? c then
      if w <=? ce then 1
      else
        if ce <=? n then 1 else 0
    else
      if n <? c then
        if ne <=? c then -1 else 0
      else if n =? c then 0
      else
        if ce <=? n then 1 else 0.

(** ** The reference: distances from the start of the window *)

Definition off (w x : Z) : Z := u32 (x - w).

Definition in_window_ref (sn se wn we : Z) : bool :=
  (off wn sn <=? off wn se) && (off wn se <=? off wn we).

(** Two intervals in window coordinates: before, after, or neither. *)
Definition compare_ref (a b c d : Z) : Z :=
  if a =? c then 0
  else if a <? c then (if b <=? c then -1 else 0)
  else (if d <=? a then 1 else 0).

(** A segment whose numbers wrap inside it. *)
Definition straddles (sn se : Z) : bool := se <? sn.

Lemma off_eq w x : is_u32 w → is_u32 x → off w x = if w <=? x then x - w else x - w + 4294967296.
Proof.
  unfold off, u32, is_u32. intros Hw Hx. destruct (Z.leb_spec w x).
  - apply Z.mod_small. lia.
  - symmetry. apply (Z.mod_unique_pos _ _ (-1)); lia.
Qed.

Lemma off_range w x : is_u32 (off w x).
Proof. apply u32_range. Qed.

Lemma off_refl w : off w w = 0.
Proof. unfold off, u32. by rewrite Z.sub_diag. Qed.

(** Distances determine sequence numbers. *)
Lemma off_inj w x y : is_u32 w → is_u32 x → is_u32 y → off w x = off w y → x = y.
Proof.
  intros Hw Hx Hy. rewrite !off_eq by done. unfold is_u32 in *.
  destruct (Z.leb_spec w x), (Z.leb_spec w y); lia.
Qed.

(** Moving the start of the window forward. *)
Lemma off_shift w w' x :
  is_u32 w → is_u32 w' → is_u32 x → off w w' ≤ off w x → off w' x = off w x - off w w'.
Proof.
  intros Hw Hw' Hx. rewrite !off_eq by done. unfold is_u32 in *.
  destruct (Z.leb_spec w x), (Z.leb_spec w w'), (Z.leb_spec w' x); lia.
Qed.

Ltac seq_cases :=
  repeat (match goal with
  | |- context [?x <=? ?y] => destruct (Z.leb_spec x y)
  | |- context [?x <? ?y] => destruct (Z.ltb_spec x y)
  | |- context [?x =? ?y] => destruct (Z.eqb_spec x y)
  end; try (exfalso; lia); try reflexivity).

Lemma in_window_eq sn se wn we :
  is_u32 sn → is_u32 se → is_u32 wn → is_u32 we →
  tcp_in_window sn se wn we = in_window_ref sn se wn we.
Proof.
  intros H1 H2 H3 H4. unfold tcp_in_window, in_window_ref. rewrite !off_eq by done.
  unfold is_u32 in *.
  destruct (Z.leb_spec wn sn), (Z.leb_spec wn se), (Z.leb_spec wn we); seq_cases.
Qed.

Lemma node_compare_eq n ne c ce w :
  is_u32 n → is_u32 ne → is_u32 c → is_u32 ce → is_u32 w →
  off w n ≤ off w ne → off w c ≤ off w ce →
  straddles n ne && straddles c ce && (off w c <? off w n) = false →
  tcp_node_compare n ne c ce w = compare_ref (off w n) (off w ne) (off w c) (off w ce).
Proof.
  intros Hn Hne Hc Hce Hw. unfold tcp_node_compare, compare_ref, straddles.
  rewrite !off_eq by done. unfold is_u32 in *.
  destruct (Z.leb_spec w n), (Z.leb_spec w ne), (Z.leb_spec w c), (Z.leb_spec w ce);
    intros Ha Hb Hs; try (exfalso; lia); revert Hs; seq_cases; cbn [andb]; intros Hs; try discriminate.
Qed.

(** ** Properties *)

(** C35: the window test of the code is the modular one: seen from the start
    of the window, a segment is accepted exactly when it does not run
    backwards and ends no later than the window, whatever wraps around. *)
Theorem tcp_in_window_exact sn se wn we :
  is_u32 sn → is_u32 se → is_u32 wn → is_u32 we →
  tcp_in_window sn se wn we = true ↔ off wn sn ≤ off wn se ≤ off wn we.
Proof.
  intros. rewrite in_window_eq by done. unfold in_window_ref. rewrite andb_true_iff, !Z.leb_le. done.
Qed.

(** Witness of C35: a segment that wraps in a window that wraps. *)
Lemma tcp_in_window_exact_witness :
  tcp_in_window 4294967290 5 4294967280 20 = true ↔
  off 4294967280 4294967290 ≤ off 4294967280 5 ≤ off 4294967280 20.
Proof. apply tcp_in_window_exact; unfold is_u32; lia. Defined.

(** for two segments inside the window, [tcp_node_compare] is the
    comparison of the intervals seen from the start of the window (before,
    after, or overlapping), unless both wrap around and [cmp] starts first:
    then it answers "after" although the segments overlap. *)
Theorem tcp_node_compare_exact n ne c ce w :
  is_u32 n → is_u32 ne → is_u32 c → is_u32 ce → is_u32 w →
  off w n ≤ off w ne → off w c ≤ off w ce →
  if straddles n ne && straddles c ce && (off w c <? off w n)
  then tcp_node_compare n ne c ce w = 1 ∧ off w c < off w n < off w ce
  else tcp_node_compare n ne c ce w = compare_ref (off w n) (off w ne) (off w c) (off w ce).
Proof.
  intros Hn Hne Hc Hce Hw Ha Hb. destruct (straddles n ne && _ && _) eqn:E; [|by apply node_compare_eq].
  apply andb_true_iff in E as [E1 E3]. apply andb_true_iff in E1 as [E1 E2].
  unfold straddles in *. rewrite !Z.ltb_lt in *. unfold tcp_node_compare. revert Ha Hb E3.
  rewrite !off_eq by done. unfold is_u32 in *.
  destruct (Z.leb_spec w n), (Z.leb_spec w ne), (Z.leb_spec w c), (Z.leb_spec w ce);
    intros; try (exfalso; lia); split; try lia; seq_cases.
Qed.

(** An instance: the case in which the answer is wrong. *)
Lemma tcp_node_compare_exact_witness :
  tcp_node_compare 4294967290 10 4294967285 5 4294967280 = 1 ∧
  off 4294967280 4294967285 < off 4294967280 4294967290 < off 4294967280 5.
Proof.
  apply (tcp_node_compare_exact 4294967290 10 4294967285 5 4294967280);
    unfold is_u32; first [lia | vm_compute; discriminate].
Defined.

(** [tcp_in_window_overlaps] misses a segment that begins in the part of the
    window behind the wrap and ends after the window. *)
Lemma overlaps_misses sn se wn we :
  is_u32 wn → 0 ≤ sn ≤ we → we < se < wn →
  tcp_in_window_overlaps sn se wn we = false ∧ tcp_in_window sn sn wn we = true.
Proof.
  intros Hw Hs He. unfold tcp_in_window_overlaps, tcp_in_window, is_u32 in *. split; seq_cases.
  all: cbn [andb]; try reflexivity; exfalso; lia.
Qed.
