(* ===== verification/TcpQueue.v ===== *)
(** * The queues of a TCP connection ([modules/tcp/tcp.c], [tcp_queue_*])

    A [struct tcp_queue] is a singly linked list of nodes with the number of
    bytes it holds.  Nodes carry their address, so that pointers to nodes held
    elsewhere ([gbn_node], the result of [tcp_queue_find]) can be compared and
    followed.  The chain from [front] is a list; [end] is read only when the
    list is not empty and is then its last node.  The four queues of a
    connection differ in what a node's [data] points to, which is a parameter
    here. *)

From stdpp Require Import base list sets.
From Stdlib Require Import ZArith Lia.
From S2P Require Import Prelude TcpWindow.
Open Scope Z_scope.

Record tcp_node (A : Type) := MkNode {
  n_addr : Z; n_data : A; n_len : Z; n_seq_num : Z; n_seq_end : Z
}.
Arguments MkNode {A}.
Arguments n_addr {A}.
Arguments n_data {A}.
Arguments n_len {A}.
Arguments n_seq_num {A}.
Arguments n_seq_end {A}.

Record tcp_queue (A : Type) := MkTQ { q_max : Z; q_len : Z; q_nodes : list (tcp_node A) }.
Arguments MkTQ {A}.
Arguments q_max {A}.
Arguments q_len {A}.
Arguments q_nodes {A}.

Section Queue.
Context {A : Type}.
Abbreviation node := (tcp_node A) (only parsing).
Abbreviation queue := (tcp_queue A) (only parsing).

Definition tcp_node_create (addr : Z) (data : A) (len seq_num seq_end : Z) : node :=
  MkNode addr data len seq_num seq_end.

Definition tcp_queue_create (max : Z) : queue := MkTQ max 0 [].

Definition tcp_queue_is_empty (q : queue) : bool :=
  match q_nodes q with [] => true | _ => false end.
Definition tcp_queue_is_full (q : queue) : bool := q_len q =? q_max q.
Definition tcp_queue_has_space (q : queue) (len : Z) : bool := u32 (q_len q + len) <=? q_max q.

Definition tcp_queue_append (q : queue) (n : node) : queue :=
  MkTQ (q_max q) (u32 (q_len q + n_len n)) (q_nodes q ++ [n]).
Definition tcp_queue_prepend (q : queue) (n : node) : queue :=
  MkTQ (q_max q) (u32 (q_len q + n_len n)) (n :: q_nodes q).

Definition compare_nodes (n cmp : node) (w : Z) : Z :=
  tcp_node_compare (n_seq_num n) (n_seq_end n) (n_seq_num cmp) (n_seq_end cmp) w.

(** The [while (temp_node->next)] loop of [tcp_queue_insert], [nodes] being
    the chain from [temp_node] on; [tcp_queue_add] links the node behind
    [temp_node]. *)
Fixpoint insert_loop (n : node) (w : Z) (nodes : list node) : Z * list node :=
  match nodes with
  | temp :: rest =>
      match rest with
      | next :: _ =>
          let ret := compare_nodes n next w in
          if ret =? -1 then (1, temp :: n :: rest)
          else if ret =? 0 then (0, nodes)
          else let '(r, rest') := insert_loop n w rest in (r, temp :: rest')
      | [] => (0, nodes)
      end
  | [] => (0, nodes)
  end.

Definition tcp_queue_insert (q : queue) (n : node) (w : Z) : Z * queue :=
  match q_nodes q with
  | [] => (1, tcp_queue_prepend q n)
  | front :: _ =>
      let ret := compare_nodes n front w in
      if ret =? -1 then (1, tcp_queue_prepend q n)
      else if ret =? 0 then (0, q)
      else
        let ret := compare_nodes n (default front (last (q_nodes q))) w in
        if ret =? 1 then (1, tcp_queue_append q n)
        else if ret =? 0 then (0, q)
        else
          let '(r, nodes) := insert_loop n w (q_nodes q) in
          if r =? 0 then (0, q)
          else (1, MkTQ (q_max q) (u32 (q_len q + n_len n)) nodes)
  end.

Definition tcp_queue_find (q : queue) (seq_num : Z) : option node :=
  find_first (λ n, n_seq_num n =? seq_num) (q_nodes q).

Definition tcp_queue_remove_front (q : queue) : option node * queue :=
  match q_nodes q with
  | [] => (None, MkTQ (q_max q) 0 [])
  | n :: rest => (Some n, MkTQ (q_max q) (u32 (q_len q - n_len n)) rest)
  end.

(** [tcp_queue_remove(queue, node)], the node given by its address. *)
Definition tcp_queue_remove (q : queue) (n : node) : queue :=
  let fix del (l : list node) :=
    match l with
    | [] => ([], false)
    | m :: l => if n_addr m =? n_addr n then (l, true)
                else let '(l', r) := del l in (m :: l', r)
    end in
  let '(l', r) := del (q_nodes q) in
  if r : bool then MkTQ (q_max q) (u32 (q_len q - n_len n)) l' else q.

(** The loop of [tcp_queue_check]: the bytes are counted until they exceed [max]. *)
Fixpoint check_count (max : Z) (l : list node) (count : Z) : Z :=
  match l with
  | n :: l => if count <=? max then check_count max l (u32 (count + n_len n)) else count
  | [] => count
  end.

(** A wrong count is added up once more, from the wrong count on. *)
Definition tcp_queue_check (q : queue) : bool :=
  let count := check_count (q_max q) (q_nodes q) 0 in
  let count := if count =? q_len q then count else check_count (q_max q) (q_nodes q) count in
  count =? q_len q.

(** ** Invariants *)

Definition sum_len (l : list node) : Z := fold_right (λ n s, n_len n + s) 0 l.

Lemma sum_len_app l1 l2 : sum_len (l1 ++ l2) = sum_len l1 + sum_len l2.
Proof. induction l1 as [|n l1 IH]; simpl; lia. Qed.

(** [len] is the number of bytes of the nodes, which do not overflow it. *)
Record queue_ok (q : queue) : Prop := {
  qo_len : q_len q = sum_len (q_nodes q);
  qo_pos : Forall (λ n, 0 ≤ n_len n) (q_nodes q);
  qo_u32 : is_u32 (q_len q)
}.

Lemma sum_len_nonneg l : Forall (λ n, 0 ≤ n_len n) l → 0 ≤ sum_len l.
Proof. induction 1; simpl; lia. Qed.

Lemma append_ok q n :
  queue_ok q → 0 ≤ n_len n → q_len q + n_len n < 4294967296 → queue_ok (tcp_queue_append q n).
Proof.
  intros [H1 H2 H3] Hn Hlt. unfold is_u32 in *.
  split; simpl; rewrite ?u32_small by (unfold is_u32; lia).
  - rewrite sum_len_app. simpl. lia.
  - apply Forall_app. auto.
  - unfold is_u32. lia.
Qed.

Lemma remove_front_ok q n rest :
  queue_ok q → q_nodes q = n :: rest →
  tcp_queue_remove_front q = (Some n, MkTQ (q_max q) (q_len q - n_len n) rest) ∧
  queue_ok (MkTQ (q_max q) (q_len q - n_len n) rest).
Proof.
  intros [H1 H2 H3] E. unfold tcp_queue_remove_front. rewrite E in *. apply Forall_cons in H2 as [Hn Hr].
  pose proof (sum_len_nonneg _ Hr). simpl in H1. unfold is_u32 in *.
  rewrite u32_small by (unfold is_u32; lia). split; [done|].
  split; simpl; [lia|done|unfold is_u32; lia].
Qed.

(** ** Ordered insertion *)

(** In coordinates of the window that starts at [w]: each node runs forward,
    and ends no later than the next one begins. *)
Definition node_fwd (w : Z) (n : node) : Prop :=
  is_u32 (n_seq_num n) ∧ is_u32 (n_seq_end n) ∧ off w (n_seq_num n) ≤ off w (n_seq_end n).

Fixpoint ordered (w : Z) (l : list node) : Prop :=
  match l with
  | [] => True
  | n :: l' =>
      node_fwd w n ∧
      match l' with
      | [] => True
      | m :: _ => off w (n_seq_end n) ≤ off w (n_seq_num m)
      end ∧ ordered w l'
  end.

(** Overlapping nodes, as the code counts: same start, or one begins inside
    the other. *)
Definition overlap (w : Z) (n m : node) : Prop :=
  compare_ref (off w (n_seq_num n)) (off w (n_seq_end n))
              (off w (n_seq_num m)) (off w (n_seq_end m)) = 0.

(** Both nodes wrap around and [n] begins later: the code takes [n] to lie
    behind [m], although they overlap. *)
Definition both_wrap (w : Z) (n m : node) : bool :=
  straddles (n_seq_num n) (n_seq_end n) && straddles (n_seq_num m) (n_seq_end m)
  && (off w (n_seq_num m) <? off w (n_seq_num n)).

(** A queued node as the comparison with [n] sees it. *)
Definition clip (w : Z) (n m : node) : node :=
  if both_wrap w n m then MkNode (n_addr m) (n_data m) (n_len m) (n_seq_num m) (n_seq_num n) else m.

Lemma clip_seq w n m : n_seq_num (clip w n m) = n_seq_num m.
Proof. unfold clip. by destruct (both_wrap w n m). Qed.

Lemma compare_clip w n m :
  is_u32 w → node_fwd w n → node_fwd w m →
  compare_nodes n m w = compare_ref (off w (n_seq_num n)) (off w (n_seq_end n))
                                    (off w (n_seq_num m)) (off w (n_seq_end (clip w n m))).
Proof.
  intros Hw (Hn1 & Hn2 & Hn3) (Hm1 & Hm2 & Hm3). unfold compare_nodes, clip, both_wrap.
  pose proof (tcp_node_compare_exact (n_seq_num n) (n_seq_end n) (n_seq_num m) (n_seq_end m) w) as E.
  destruct (_ && _ && _) in E |- *; [|by apply E].
  destruct E as [-> Hlt]; [done..|]. simpl. unfold compare_ref. seq_cases; lia.
Qed.

Lemma clip_fwd w n m : is_u32 w → node_fwd w n → node_fwd w m → node_fwd w (clip w n m).
Proof.
  intros Hw (Hn1 & Hn2 & Hn3) (Hm1 & Hm2 & Hm3). unfold clip. destruct (both_wrap w n m) eqn:Hb; [|done].
  apply andb_true_iff in Hb as [_ Hb%Z.ltb_lt]. split_and!; simpl; [done..|lia].
Qed.

Lemma clip_end w n m :
  is_u32 w → node_fwd w n → node_fwd w m → off w (n_seq_end (clip w n m)) ≤ off w (n_seq_end m).
Proof.
  intros Hw (Hn1 & Hn2 & Hn3) (Hm1 & Hm2 & Hm3). unfold clip. destruct (both_wrap w n m) eqn:Hb; [|done].
  pose proof (tcp_node_compare_exact (n_seq_num n) (n_seq_end n) (n_seq_num m) (n_seq_end m) w) as E.
  unfold both_wrap in Hb. rewrite Hb in E. destruct E as [_ E]; [done..|]. simpl. lia.
Qed.

(** A node the comparison rejects does overlap. *)
Lemma clip_overlap w n m :
  compare_ref (off w (n_seq_num n)) (off w (n_seq_end n))
    (off w (n_seq_num m)) (off w (n_seq_end (clip w n m))) = 0 → overlap w n m.
Proof.
  unfold overlap, clip. destruct (both_wrap w n m) eqn:Hb; [|done].
  apply andb_true_iff in Hb as [_ Hb%Z.ltb_lt]. simpl. unfold compare_ref. seq_cases; lia.
Qed.

Lemma ordered_clip w n l : is_u32 w → node_fwd w n → ordered w l → ordered w (clip w n <$> l).
Proof.
  intros Hw Hn. induction l as [|m l IH]; [done|]. intros (Hm & Hnext & Hl).
  split; [by apply clip_fwd|]. split; [|by apply IH]. destruct l as [|k l]; [done|].
  cbn [fmap list_fmap]. rewrite clip_seq. pose proof (clip_end w n m Hw Hn Hm). lia.
Qed.

Lemma compare_ref_cases a b c d :
  (compare_ref a b c d = -1 ∧ a < c ∧ b ≤ c) ∨ compare_ref a b c d = 0 ∨
  (compare_ref a b c d = 1 ∧ c < a ∧ d ≤ a).
Proof. unfold compare_ref. seq_cases; lia. Qed.

Lemma ordered_app w l1 n l2 :
  ordered w (l1 ++ n :: l2) ↔
  ordered w (l1 ++ [n]) ∧ ordered w (n :: l2).
Proof.
  induction l1 as [|m l1 IH]; [simpl; tauto|].
  destruct l1 as [|k l1]; [simpl; tauto|]. cbn [app ordered] in *. tauto.
Qed.

(** The nodes before a node that precedes [m] precede [m]. *)
Lemma ordered_fwd w l n : ordered w l → n ∈ l → node_fwd w n.
Proof.
  induction l as [|m l IH]; [by intros _ ?%elem_of_nil|].
  intros (Hm & _ & Hl) [->|Hin]%elem_of_cons; auto.
Qed.

Lemma insert_loop_eq n w temp next rest :
  insert_loop n w (temp :: next :: rest) =
    let ret := compare_nodes n next w in
    if ret =? -1 then (1, temp :: n :: next :: rest)
    else if ret =? 0 then (0, temp :: next :: rest)
    else let '(r, rest') := insert_loop n w (next :: rest) in (r, temp :: rest').
Proof. done. Qed.
Local Arguments insert_loop : simpl never.

(** The loop puts [n] between two neighbours, or finds an overlapping node;
    it does not run off the end when [n] precedes the last node. *)
Lemma insert_loop_ok w n temp rest e :
  last (temp :: rest) = Some e → is_u32 w → node_fwd w n → ordered w (temp :: rest) →
  off w (n_seq_end (clip w n temp)) ≤ off w (n_seq_num n) →
  off w (n_seq_num n) < off w (n_seq_num e) →
  (∃ l1 l2 p, temp :: rest = l1 ++ p :: l2 ∧ insert_loop n w (temp :: rest) = (1, l1 ++ p :: n :: l2) ∧
     off w (n_seq_end (clip w n p)) ≤ off w (n_seq_num n) ∧ ordered w (n :: l2)) ∨
  (insert_loop n w (temp :: rest) = (0, temp :: rest) ∧ ∃ m, m ∈ rest ∧ overlap w n m).
Proof.
  intros He Hw Hn. revert temp He. induction rest as [|next rest IH]; intros temp He Ho Hafter Hlast.
  { simpl in He. simplify_eq. destruct (clip_fwd w n e) as (_ & _ & Hf); [done|done|apply Ho|].
    rewrite clip_seq in Hf. lia. }
  rewrite last_cons_cons in He. destruct Ho as (Ht & Hnext & Ho).
  assert (Hfn : node_fwd w next) by apply Ho.
  rewrite insert_loop_eq. cbv zeta. pose proof (compare_clip w n next Hw Hn Hfn) as Ec.
  destruct (compare_ref_cases (off w (n_seq_num n)) (off w (n_seq_end n))
    (off w (n_seq_num next)) (off w (n_seq_end (clip w n next)))) as [(E & Hlt & Hle)|[E|(E & Hgt & Hge)]];
    rewrite Ec, E; simpl.
  - left. exists [], (next :: rest), temp. by split_and!.
  - right. split; [done|]. exists next. split; [apply elem_of_cons; by left|]. by apply clip_overlap.
  - destruct (IH next) as [(l1 & l2 & p & El & Ei & Hp & Ho')|(Ei & m & Hm & Hov)]; [done..| |].
    + left. exists (temp :: l1), l2, p. rewrite Ei, El. do 3 (split; [done|]). exact Ho'.
    + right. rewrite Ei. split; [done|]. exists m. split; [|done]. apply elem_of_cons. by right.
Qed.

Lemma ordered_snoc w n l e :
  ordered w l → last l = Some e → node_fwd w n → off w (n_seq_end e) ≤ off w (n_seq_num n) →
  ordered w (l ++ [n]).
Proof.
  induction l as [|m l IH]; intros Ho He Hn Hle; [done|].
  destruct Ho as (Hm & Hnext & Ho). destruct l as [|k l].
  { simpl in He. simplify_eq. simpl. tauto. }
  rewrite last_cons_cons in He. specialize (IH Ho He Hn Hle). cbn [app ordered] in *. tauto.
Qed.

(** In order behind [p], unless [n] and [p] both wrap. *)
Lemma ordered_behind w n l1 p l2 :
  is_u32 w → node_fwd w n → ordered w (l1 ++ p :: l2) →
  off w (n_seq_end (clip w n p)) ≤ off w (n_seq_num n) → ordered w (n :: l2) →
  ordered w (l1 ++ p :: n :: l2) ∨ both_wrap w n p = true.
Proof.
  intros Hw Hn Ho Hp Hn2. unfold clip in Hp. destruct (both_wrap w n p); [by right|left].
  apply ordered_app in Ho as [Ho1 Ho2]. apply ordered_app. split; [done|].
  split; [apply Ho2|]. by split.
Qed.

Lemma insert_ok w q n :
  is_u32 w → node_fwd w n → ordered w (q_nodes q) →
  (∃ l1 l2, q_nodes q = l1 ++ l2 ∧
     tcp_queue_insert q n w = (1, MkTQ (q_max q) (u32 (q_len q + n_len n)) (l1 ++ n :: l2)) ∧
     (ordered w (l1 ++ n :: l2) ∨ ∃ l0 p, l1 = l0 ++ [p] ∧ both_wrap w n p = true)) ∨
  (tcp_queue_insert q n w = (0, q) ∧ ∃ m, m ∈ q_nodes q ∧ overlap w n m).
Proof.
  intros Hw Hn Ho. unfold tcp_queue_insert, tcp_queue_prepend, tcp_queue_append.
  destruct (q_nodes q) as [|front rest] eqn:Eq.
  { left. exists [], []. split_and!; [done|done|left; simpl; tauto]. }
  assert (Hcm : ∀ m, m ∈ front :: rest → compare_nodes n m w = compare_ref (off w (n_seq_num n))
    (off w (n_seq_end n)) (off w (n_seq_num m)) (off w (n_seq_end (clip w n m)))).
  { intros m Hm. apply compare_clip; try done. by eapply ordered_fwd. }
  rewrite Hcm by set_solver.
  destruct (compare_ref_cases (off w (n_seq_num n)) (off w (n_seq_end n))
    (off w (n_seq_num front)) (off w (n_seq_end (clip w n front)))) as [(E & Hlt & Hle)|[E|(E & Hgt & Hge)]];
    rewrite E; simpl.
  { left. exists [], (front :: rest). split_and!; [done|done|left; exact (conj Hn (conj Hle Ho))]. }
  { right. split; [done|]. exists front. split; [set_solver|by apply clip_overlap]. }
  destruct (last (front :: rest)) as [e|] eqn:El; [|by apply last_None in El]. simpl.
  rewrite Hcm by (by apply last_Some_elem_of).
  destruct (compare_ref_cases (off w (n_seq_num n)) (off w (n_seq_end n))
    (off w (n_seq_num e)) (off w (n_seq_end (clip w n e)))) as [(E' & Hlt & Hle)|[E'|(E' & Hgt' & Hge')]];
    rewrite E'; simpl.
  - destruct (insert_loop_ok w n front rest e) as [(l1 & l2 & p & Es & Ei & Hp & Hord)|(Ei & m & Hm & Hov)]; try done.
    + left. exists (l1 ++ [p]), l2. rewrite Ei, Es, <-!(assoc_L app). simpl. split_and!; [done..|].
      rewrite Es in Ho. destruct (ordered_behind w n l1 p l2) as [Hr|Hr]; [done..|by left|right; by eexists _, _].
    + right. rewrite Ei. simpl. split; [done|]. exists m. split; [set_solver|done].
  - right. split; [done|]. exists e. split; [by apply last_Some_elem_of|by apply clip_overlap].
  - left. exists (front :: rest), []. rewrite app_nil_r. split_and!; [done..|].
    apply last_Some in El as [l0 El]. rewrite El in Ho |- *. rewrite <-(assoc_L app). simpl.
    destruct (ordered_behind w n l0 e []) as [Hr|Hr]; [done..|simpl; tauto|by left|right; by eexists _, _].
Qed.

End Queue.

(** ** Properties *)

(** C38: insertion into the queue of segments received out of order.  A node
    that runs forward in the window is linked in between two neighbours of the
    ordered queue and its bytes are counted, or it overlaps a queued node and
    the queue is unchanged; the code's "unreachable" exit is never taken.  The
    queue stays ordered and free of overlaps with one exception, which the
    theorem pins down: when the node before the inserted one and the inserted
    one both wrap around, the overlapping node is linked in behind it. *)
Theorem tcp_queue_insert_ordered {A} (q : tcp_queue A) n w :
  is_u32 w → node_fwd w n → ordered w (q_nodes q) →
  queue_ok q → 0 ≤ n_len n → q_len q + n_len n < 4294967296 →
  ∃ r q', tcp_queue_insert q n w = (r, q') ∧ queue_ok q' ∧
    ((r = 1 ∧ ∃ l1 l2, q_nodes q = l1 ++ l2 ∧ q_nodes q' = l1 ++ n :: l2 ∧
        (ordered w (q_nodes q') ∨ ∃ l0 p, l1 = l0 ++ [p] ∧ both_wrap w n p = true)) ∨
     (r = 0 ∧ q' = q ∧ ∃ m, m ∈ q_nodes q ∧ overlap w n m)).
Proof.
  intros Hw Hn Ho Hok Hl Hlt. destruct (insert_ok w q n) as [(l1 & l2 & El & E & Hord)|(E & Hov)]; try done.
  - eexists 1, _. split; [exact E|]. split; [|left; split; [done|]; by exists l1, l2].
    destruct Hok as [H1 H2 H3]. pose proof (sum_len_nonneg _ H2). rewrite El in *.
    rewrite u32_small by (unfold is_u32; lia). split; simpl.
    + rewrite sum_len_app in *. simpl. lia.
    + apply Forall_app in H2 as [H2a H2b]. apply Forall_app. auto.
    + unfold is_u32 in *. lia.
  - exists 0, q. split_and!; try done. right. eauto.
Qed.

(** Witness of C38: between two nodes, behind the wrap; and the exception: both
    nodes wrap, and the second is linked in although it overlaps the first. *)
Lemma tcp_queue_insert_ordered_witness :
  let w := 4294967280 in
  let q := MkTQ 1000 20 [MkNode 1 tt 10 4294967290 4; MkNode 2 tt 10 30 40] in
  (∃ q', tcp_queue_insert q (MkNode 3 tt 6 10 16) w = (1, q') ∧ queue_ok q' ∧
    ordered w (q_nodes q') ∧
    q_nodes q' = [MkNode 1 tt 10 4294967290 4; MkNode 3 tt 6 10 16; MkNode 2 tt 10 30 40]) ∧
  (∃ q', tcp_queue_insert q (MkNode 3 tt 14 4294967292 10) w = (1, q') ∧ queue_ok q' ∧
    overlap w (MkNode 3 tt 14 4294967292 10) (MkNode 1 tt 10 4294967290 4) ∧
    q_nodes q' = [MkNode 1 tt 10 4294967290 4; MkNode 3 tt 14 4294967292 10; MkNode 2 tt 10 30 40]).
Proof.
  intros w q.
  assert (Hq : is_u32 w ∧ ordered w (q_nodes q) ∧ queue_ok q).
  { split; [unfold is_u32, w; lia|]. split.
    - simpl. unfold node_fwd, is_u32. simpl. split_and!; try lia; vm_compute; discriminate.
    - split; [reflexivity|repeat constructor; simpl; lia|unfold is_u32; simpl; lia]. }
  destruct Hq as (Hw & Ho & Hok). split.
  - destruct (tcp_queue_insert_ordered q (MkNode 3 tt 6 10 16) w) as (r & q' & E & Hq' & _); try done.
    vm_compute in E. injection E as <- <-. eexists. split_and!; [done|done| |done].
    simpl. unfold node_fwd, is_u32. simpl. split_and!; try lia; vm_compute; discriminate.
  - destruct (tcp_queue_insert_ordered q (MkNode 3 tt 14 4294967292 10) w) as (r & q' & E & Hq' & _); try done.
    vm_compute in E. injection E as <- <-. eexists. by split_and!.
Defined.
