(* ===== verification/TcpSeg.v ===== *)
(** * TCP segments ([modules/tcp/tcp.c])

    [struct tcp_seg] and its conversion to and from frames ([tcp_to_fdf],
    [fdf_to_tcp]), the checksum test of received segments
    ([tcp_seg_checksum]), and the transfer of queued bytes into a segment
    ([tcp_seg_add_data]).  Byte buffers are lists; reading or writing past
    the end of one is [Segv]. *)

From stdpp Require Import base list gmap strings.
From Stdlib Require Import ZArith Lia.
From S2P Require Import Prelude Queue Metadata Frame Module IPv4 UDP TcpWindow TcpQueue.
Open Scope Z_scope.

Definition FLAG_FIN := 1.
Definition FLAG_SYN := 2.
Definition FLAG_RST := 4.
Definition FLAG_PSH := 8.
Definition FLAG_ACK := 16.
Definition FLAG_URG := 32.
Definition FLAG_DATAOFFSET := 61440.
Definition FLAG_ECN := 448.
Definition FLAG_CONTROL := 63.
Definition FLAG_ACK_NOW := 4096.
Definition FLAG_ACK_SAME := 8192.
Definition MIN_TCP_HEADER_WORDS := 5.
Definition MIN_TCP_HEADER_BYTES := 20.
Definition MAX_TCP_OPTIONS_BYTES := 40.
Definition TCP_PT_TCP := 6.
Definition AF_INET := 2.

Definition TCP_HEADER_WORDS (flags : Z) : Z := Z.shiftr (Z.land flags FLAG_DATAOFFSET) 12.
Definition TCP_HEADER_BYTES (flags : Z) : Z := TCP_HEADER_WORDS flags * 4.
Definition TCP_OPTIONS_BYTES (flags : Z) : Z := (TCP_HEADER_WORDS flags - MIN_TCP_HEADER_WORDS) * 4.

(** [flags & f] as a condition. *)
Definition has (flags f : Z) : bool := negb (Z.land flags f =? 0).

(** [struct tcp_seg]; [s_options] is the array of 40 bytes, [s_data] a
    pointer that may be NULL. *)
Record tcp_seg := MkSeg {
  s_src_port : Z; s_dst_port : Z; s_seq_num : Z; s_ack_num : Z; s_flags : Z;
  s_win_size : Z; s_checksum : Z; s_urg_pointer : Z; s_options : list Z;
  s_opt_len : Z; s_data : option (list Z); s_data_len : Z;
  s_src_ip : Z; s_dst_ip : Z; s_seq_end : Z
}.

(** The first 20 bytes of [struct tcpv4_header], in network order. *)
Definition tcp_header (s : tcp_seg) (ck : Z) : list Z :=
  le_bytes 2 (htons (s_src_port s)) ++ le_bytes 2 (htons (s_dst_port s))
  ++ le_bytes 4 (htonl (s_seq_num s)) ++ le_bytes 4 (htonl (s_ack_num s))
  ++ le_bytes 2 (htons (s_flags s)) ++ le_bytes 2 (htons (s_win_size s))
  ++ le_bytes 2 ck ++ le_bytes 2 (htons (s_urg_pointer s)).

(** [struct ipv4_header], the pseudo header. *)
Definition tcp_pseudo (src_ip dst_ip tcp_len : Z) : list Z :=
  le_bytes 4 (htonl src_ip) ++ le_bytes 4 (htonl dst_ip) ++ [0; TCP_PT_TCP]
  ++ le_bytes 2 (htons (u16 tcp_len)).

(** The sum of [n] bytes as big-endian words, the last one padded when [n] is
    odd: the loop from 1 in steps of 2 and the statement after it. *)
Definition pdu_sum (n : nat) (b : list Z) (sum : Z) : res Z :=
  match be_loop n b sum with
  | Ok sum =>
      if Nat.odd n then
        match b !! pred n with Some x => Ok (u32 (sum + x * 256)) | None => Segv end
      else Ok sum
  | Segv => Segv | Exit => Exit | NoFuel => NoFuel
  end.

(** A sequence of [secure_metadata_writeToElement(meta, key, &v, INT32)]. *)
Fixpoint meta_write_all (kvs : list (string * Z)) : M metadata unit :=
  match kvs with
  | [] => mret tt
  | (k, v) :: kvs => secure_metadata_writeToElement k (VInt32 v) ;; meta_write_all kvs
  end.

(** ** tcp_to_fdf *)

(** Sums and complements the pseudo header and the segment. *)
Definition fdf_checksum (pseudo pdu : list Z) (len : Z) : res Z :=
  match be_loop 12 pseudo 0 with
  | Ok sum =>
      match pdu_sum (Z.to_nat len) pdu sum with
      | Ok sum =>
          match fold_carries 2 sum with
          | Ok sum => Ok (u16 (Z.lnot sum))
          | Segv => Segv | Exit => Exit | NoFuel => NoFuel
          end
      | Segv => Segv | Exit => Exit | NoFuel => NoFuel
      end
  | Segv => Segv | Exit => Exit | NoFuel => NoFuel
  end.

(** The bytes behind the fixed header: the options, then the data. *)
Definition seg_payload (s : tcp_seg) : res (list Z) :=
  match (if 0 <? s_opt_len s then read_bytes (Some (s_options s)) (s_opt_len s) else Ok []),
        (if 0 <? s_data_len s then read_bytes (s_data s) (s_data_len s) else Ok []) with
  | Ok o, Ok d => Ok (o ++ d)
  | _, _ => Segv
  end.

Definition tcp_to_fdf (s : tcp_seg) : res finsFrame :=
  match meta_write_all
    [("send_protocol", TCP_PT_TCP); ("send_family", AF_INET);
     ("send_src_ipv4", s_src_ip s); ("send_src_port", s_src_port s);
     ("send_dst_ipv4", s_dst_ip s); ("send_dst_port", s_dst_port s)] [] with
  | Ok (_, meta) =>
      let len := u32 (s_data_len s + TCP_HEADER_BYTES (s_flags s)) in
      match seg_payload s with
      | Ok b =>
          let n := MIN_TCP_HEADER_BYTES + Z.of_nat (length b) in
          if len <? n then Segv
          else
            let tail := b ++ replicate (Z.to_nat (len - n)) 0 in
            match fdf_checksum (tcp_pseudo (s_src_ip s) (s_dst_ip s) len) (tcp_header s 0 ++ tail) len with
            | Ok ck =>
                Ok (MkFrame 0 (Some meta)
                      (Data (MkData DIR_DOWN len (Some (tcp_header s (htons ck) ++ tail)))))
            | Segv => Segv | Exit => Exit | NoFuel => NoFuel
            end
      | Segv => Segv | Exit => Exit | NoFuel => NoFuel
      end
  | Segv => Segv | Exit => Exit | NoFuel => NoFuel
  end.

(** ** fdf_to_tcp *)

(** The fixed header of a buffer. *)
Definition read_tcp (b : list Z) (src_ip dst_ip : Z) : res tcp_seg :=
  match b with
  | a0 :: a1 :: b0 :: b1 :: q0 :: q1 :: q2 :: q3 :: k0 :: k1 :: k2 :: k3 :: f0 :: f1 ::
    w0 :: w1 :: c0 :: c1 :: u0 :: u1 :: _ =>
      Ok (MkSeg (ntohs (le_value [a0; a1])) (ntohs (le_value [b0; b1]))
            (ntohl (le_value [q0; q1; q2; q3])) (ntohl (le_value [k0; k1; k2; k3]))
            (ntohs (le_value [f0; f1])) (ntohs (le_value [w0; w1])) (ntohs (le_value [c0; c1]))
            (ntohs (le_value [u0; u1])) (replicate 40 0) 0 None 0 src_ip dst_ip 0)
  | _ => Segv
  end.

(** The variable part: options if the header is longer than 20 bytes, data if
    the frame is longer than the header. *)
Definition parse_seg (b : list Z) (pdu_len src_ip dst_ip : Z) : res tcp_seg :=
  match read_tcp b src_ip dst_ip with
  | Ok s =>
      let opt_len := TCP_OPTIONS_BYTES (s_flags s) in
      let data_len := s32 (pdu_len - TCP_HEADER_BYTES (s_flags s)) in
      match (if 0 <? opt_len then read_bytes (Some (drop 20 b)) opt_len else Ok []),
            (if 0 <? data_len then
               match read_bytes (Some (drop (Z.to_nat (20 + opt_len)) b)) data_len with
               | Ok d => Ok (Some d)
               | Segv => Segv | Exit => Exit | NoFuel => NoFuel
               end
             else Ok None) with
      | Ok o, Ok d =>
          Ok (MkSeg (s_src_port s) (s_dst_port s) (s_seq_num s) (s_ack_num s) (s_flags s)
                (s_win_size s) (s_checksum s) (s_urg_pointer s)
                (o ++ replicate (40 - length o) 0) opt_len d data_len src_ip dst_ip
                (u32 (s_seq_num s + data_len)))
      | _, _ => Segv
      end
  | Segv => Segv | Exit => Exit | NoFuel => NoFuel
  end.

Section FdfToTcp.
Context {Q D : Type} `{BoundedFifo Q finsFrame}.

Definition fdf_to_tcp (ff : finsFrame) : M (mstate Q D) (option tcp_seg) :=
  d ← ff_data ff;
  if pduLength d <? MIN_TCP_HEADER_BYTES then mret None
  else
    protocol ← ff_read ff "recv_protocol";
    if negb (protocol =? TCP_PT_TCP) then mret None
    else
      family ← ff_read ff "recv_family";
      src_ip ← ff_read ff "recv_src_ipv4";
      dst_ip ← ff_read ff "recv_dst_ipv4";
      b ← lift (match pdu d with Some b => Ok b | None => Segv end);
      seg ← lift (parse_seg b (pduLength d) src_ip dst_ip);
      mret (Some seg).
End FdfToTcp.

(** ** tcp_seg_checksum *)

(** The number of bytes of the options that are summed, an even number. *)
Definition opt_bytes (opt_len : Z) : nat := Z.to_nat (2 * ((opt_len + 1) / 2)).

Definition tcp_seg_checksum (s : tcp_seg) : res Z :=
  let pkt := tcp_pseudo (s_src_ip s) (s_dst_ip s) (TCP_HEADER_BYTES (s_flags s) + s_data_len s)
             ++ tcp_header s (htons (s_checksum s)) in
  match be_loop 32 pkt 0 with
  | Ok sum =>
      match be_loop (opt_bytes (s_opt_len s)) (s_options s) sum with
      | Ok sum =>
          match (match s_data s with
                 | Some b => pdu_sum (Z.to_nat (s_data_len s)) b sum
                 | None => if (1 <? s_data_len s) || Z.odd (s_data_len s) then Segv else Ok sum
                 end) with
          | Ok sum =>
              match fold_carries 2 sum with
              | Ok sum => Ok (htons (u16 (Z.lnot sum)))
              | Segv => Segv | Exit => Exit | NoFuel => NoFuel
              end
          | Segv => Segv | Exit => Exit | NoFuel => NoFuel
          end
      | Segv => Segv | Exit => Exit | NoFuel => NoFuel
      end
  | Segv => Segv | Exit => Exit | NoFuel => NoFuel
  end.

(** ** tcp_seg_create, tcp_seg_add_data *)

Definition tcp_seg_create (src_ip src_port dst_ip dst_port seq_num seq_end : Z) : tcp_seg :=
  MkSeg src_port dst_port seq_num 0 0 0 0 0 (replicate 40 0) 0 None 0 src_ip dst_ip seq_end.

Abbreviation byte_queue := (tcp_queue (list Z)).

(** The loop: [nodes] with byte count [len], [index] bytes of the first node
    being used up, [data_len] bytes wanted. *)
Fixpoint add_data_loop (max len : Z) (nodes : list (tcp_node (list Z))) (index data_len : Z)
    : res (list Z * Z * byte_queue) :=
  match nodes with
  | [] => Ok ([], index, MkTQ max len [])
  | front :: rest =>
      if data_len =? 0 then Ok ([], index, MkTQ max len nodes)
      else
        let avail := u32 (n_len front - index) in
        if data_len <? avail then
          match read_bytes (Some (drop (Z.to_nat index) (n_data front))) data_len with
          | Ok b => Ok (b, u32 (index + data_len), MkTQ max len nodes)
          | Segv => Segv | Exit => Exit | NoFuel => NoFuel
          end
        else
          match read_bytes (Some (drop (Z.to_nat index) (n_data front))) avail with
          | Ok b =>
              match add_data_loop max (u32 (len - n_len front)) rest 0 (data_len - avail) with
              | Ok (b', index', q') => Ok (b ++ b', index', q')
              | Segv => Segv | Exit => Exit | NoFuel => NoFuel
              end
          | Segv => Segv | Exit => Exit | NoFuel => NoFuel
          end
  end.

(** The segment gets a zeroed buffer of [data_len] bytes, filled from the
    queue; returned with the new index and queue. *)
Definition tcp_seg_add_data (s : tcp_seg) (q : byte_queue) (index data_len : Z)
    : res (tcp_seg * Z * byte_queue) :=
  match add_data_loop (q_max q) (q_len q) (q_nodes q) index data_len with
  | Ok (b, index', q') =>
      Ok (MkSeg (s_src_port s) (s_dst_port s) (s_seq_num s) (s_ack_num s) (s_flags s)
            (s_win_size s) (s_checksum s) (s_urg_pointer s) (s_options s) (s_opt_len s)
            (Some (b ++ replicate (Z.to_nat data_len - length b) 0)) data_len
            (s_src_ip s) (s_dst_ip s) (u32 (s_seq_num s + data_len)), index', q')
  | Segv => Segv | Exit => Exit | NoFuel => NoFuel
  end.

(** ** Sums *)

Lemma pdu_sum_ok b sum :
  is_bytes b → 0 ≤ sum → sum + be_words b < 4294967296 →
  pdu_sum (length b) b sum = Ok (sum + be_words b).
Proof.
  intros Hb Hs Hlt. unfold pdu_sum.
  destruct (Nat.Even_or_Odd (length b)) as [[k Hk]|[k Hk]].
  - rewrite (be_loop_sum _ k); [|lia|lia|done|lia|rewrite firstn_all; lia]. rewrite firstn_all.
    unfold Nat.odd. by rewrite (proj2 (Nat.even_spec _)) by (by exists k).
  - assert (Hk' : length b = S (2 * k)) by lia. destruct (take_be_words_odd b k Hk') as (x & Hx & Hsum).
    rewrite Hk'. replace (pred (S (2 * k))) with (2 * k)%nat by lia. rewrite Hx.
    assert (Hx8 : is_u8 x) by (eapply Forall_lookup_1 in Hb; done). unfold is_u8 in Hx8.
    pose proof (be_words_bound _ (Forall_take _ (2 * k) _ Hb)).
    assert (Hl : ∀ n c s0, be_loop (S (2 * n)) c s0 = be_loop (2 * n) c s0).
    { clear. induction n as [|n IH]; intros c s0; [done|].
      replace (S (2 * S n)) with (S (S (S (2 * n)))) by lia.
      replace (2 * S n)%nat with (S (S (2 * n))) by lia. cbn [be_loop].
      destruct c as [|? [|? c]]; try done. apply IH. }
    rewrite Hl, (be_loop_sum _ k); [|done|lia|done|lia|lia].
    replace (Nat.odd (S (2 * k))) with true by (symmetry; apply Nat.odd_spec; exists k; lia).
    rewrite u32_small by (unfold is_u32; lia). f_equal. lia.
Qed.

Lemma tcp_header_bytes s ck : is_bytes (tcp_header s ck).
Proof. unfold tcp_header, is_bytes. rewrite !Forall_app. split_and!; apply le_bytes_u8. Qed.

Lemma tcp_header_length s ck : length (tcp_header s ck) = 20%nat.
Proof. unfold tcp_header. by rewrite !length_app, !le_bytes_length. Qed.

Lemma tcp_pseudo_bytes a b n : is_bytes (tcp_pseudo a b n).
Proof.
  unfold tcp_pseudo, is_bytes. rewrite !Forall_app. split_and!; try apply le_bytes_u8.
  repeat constructor; vm_compute; discriminate.
Qed.

Lemma tcp_pseudo_length a b n : length (tcp_pseudo a b n) = 12%nat.
Proof. unfold tcp_pseudo. by rewrite !length_app, !le_bytes_length. Qed.

(** The checksum field contributes its value to the sum. *)
Lemma be_words_header s ck b :
  is_u16 ck → be_words (tcp_header s (htons ck) ++ b) = be_words (tcp_header s 0 ++ b) + ck.
Proof.
  intros Hck. rewrite !(be_words_app _ b 10) by (by rewrite tcp_header_length).
  assert (Hh : ∀ c, tcp_header s c =
    (le_bytes 2 (htons (s_src_port s)) ++ le_bytes 2 (htons (s_dst_port s))
     ++ le_bytes 4 (htonl (s_seq_num s)) ++ le_bytes 4 (htonl (s_ack_num s))
     ++ le_bytes 2 (htons (s_flags s)) ++ le_bytes 2 (htons (s_win_size s)))
    ++ le_bytes 2 c ++ le_bytes 2 (htons (s_urg_pointer s))).
  { intros c. unfold tcp_header. by rewrite <-!(assoc_L app). }
  rewrite !Hh. match goal with |- context [be_words (?l ++ le_bytes 2 (htons ck) ++ _)] => set (front := l) end.
  assert (Hf : length front = (2 * 8)%nat) by (by unfold front; rewrite !length_app, !le_bytes_length).
  rewrite !(be_words_app front _ 8 Hf). clearbody front.
  rewrite (be_words_app (le_bytes 2 (htons ck)) _ 1), (be_words_app (le_bytes 2 0) _ 1) by done.
  rewrite (be_words_htons ck Hck). change (be_words (le_bytes 2 0)) with 0. lia.
Qed.

Lemma fdf_checksum_ok pseudo b :
  is_bytes pseudo → length pseudo = 12%nat → is_bytes b → Z.of_nat (length b) < 100000 →
  fdf_checksum pseudo b (Z.of_nat (length b)) = Ok (cksum_fold (be_words pseudo + be_words b)).
Proof.
  intros Hp Hl Hb Hlt. unfold fdf_checksum.
  pose proof (be_words_bound _ Hp) as H1. pose proof (be_words_bound _ Hb) as H2. rewrite Hl in H1.
  rewrite (be_loop_sum 12 6); [|done|lia|done|lia|rewrite take_ge by lia; lia]. rewrite take_ge by lia.
  rewrite Nat2Z.id, pdu_sum_ok by (first [done | lia]).
  destruct (fold_carries_ok (0 + be_words pseudo + be_words b)) as (r & -> & ->); [lia|].
  by rewrite Z.add_0_l.
Qed.

(** ** Parsing what was built *)

(** Segments as the module builds them: the header length in the flags is
    that of the options, and the whole fits the 16-bit length field. *)
Record seg_ok (s : tcp_seg) : Prop := {
  so_src : is_u16 (s_src_port s); so_dst : is_u16 (s_dst_port s);
  so_seq : is_u32 (s_seq_num s); so_ack : is_u32 (s_ack_num s);
  so_flags : is_u16 (s_flags s); so_win : is_u16 (s_win_size s);
  so_urg : is_u16 (s_urg_pointer s);
  so_opt : 0 ≤ s_opt_len s ≤ 40; so_opts : length (s_options s) = 40%nat;
  so_bytes : is_bytes (s_options s);
  so_hdr : TCP_HEADER_BYTES (s_flags s) = 20 + s_opt_len s;
  so_data : match s_data s with
            | Some b => s_data_len s = Z.of_nat (length b) ∧ is_bytes b ∧ 0 < s_data_len s
            | None => s_data_len s = 0 end;
  so_len : 20 + s_opt_len s + s_data_len s < 65536;
  so_end : s_seq_end s = u32 (s_seq_num s + s_data_len s)
}.

Definition opts (s : tcp_seg) : list Z := take (Z.to_nat (s_opt_len s)) (s_options s).
Definition payload (s : tcp_seg) : list Z := opts s ++ default [] (s_data s).

Lemma opts_length s : seg_ok s → Z.of_nat (length (opts s)) = s_opt_len s.
Proof. intros [_ _ _ _ _ _ _ Ho Hl _ _ _ _ _]. unfold opts. rewrite length_take. lia. Qed.

Lemma payload_length s :
  seg_ok s → Z.of_nat (length (payload s)) = s_opt_len s + s_data_len s.
Proof.
  intros H. unfold payload. rewrite length_app, Nat2Z.inj_add, opts_length by done.
  destruct H as [_ _ _ _ _ _ _ _ _ _ _ Hd _ _]. destruct (s_data s); simpl; lia.
Qed.

Lemma payload_bytes s : seg_ok s → is_bytes (payload s).
Proof.
  intros [_ _ _ _ _ _ _ _ _ Hb _ Hd _ _]. unfold payload, opts, is_bytes in *. apply Forall_app.
  split; [by apply Forall_take|]. destruct (s_data s); simpl; [tauto|constructor].
Qed.

Lemma seg_payload_ok s : seg_ok s → seg_payload s = Ok (payload s).
Proof.
  intros H. unfold seg_payload, payload, opts, read_bytes.
  destruct H as [_ _ _ _ _ _ _ Ho Hl _ _ Hd _ _].
  assert (Eo : (if 0 <? s_opt_len s
     then if s_opt_len s =? 0 then Ok [] else
       if s_opt_len s <=? Z.of_nat (length (s_options s))
       then Ok (take (Z.to_nat (s_opt_len s)) (s_options s)) else Segv
     else Ok []) = Ok (take (Z.to_nat (s_opt_len s)) (s_options s))).
  { destruct (Z.ltb_spec 0 (s_opt_len s)), (Z.eqb_spec (s_opt_len s) 0),
      (Z.leb_spec (s_opt_len s) (Z.of_nat (length (s_options s)))); try lia; try done.
    by replace (s_opt_len s) with 0 by lia. }
  rewrite Eo. destruct (s_data s) as [b|]; simpl.
  - destruct Hd as (Hd & Hb & Hpos). destruct (Z.ltb_spec 0 (s_data_len s)); [|lia].
    destruct (Z.eqb_spec (s_data_len s) 0); [lia|]. rewrite Hd, Z.leb_refl, Nat2Z.id, firstn_all. done.
  - rewrite Hd. done.
Qed.

(** The segment the receiver reconstructs. *)
Definition received (s : tcp_seg) (ck : Z) : tcp_seg :=
  MkSeg (s_src_port s) (s_dst_port s) (s_seq_num s) (s_ack_num s) (s_flags s)
    (s_win_size s) ck (s_urg_pointer s)
    (opts s ++ replicate (40 - length (opts s)) 0) (s_opt_len s) (s_data s) (s_data_len s)
    (s_src_ip s) (s_dst_ip s) (s_seq_end s).

Lemma read_tcp_header s ck b :
  seg_ok s → is_u16 ck →
  read_tcp (tcp_header s (htons ck) ++ b) (s_src_ip s) (s_dst_ip s) =
  Ok (MkSeg (s_src_port s) (s_dst_port s) (s_seq_num s) (s_ack_num s) (s_flags s)
        (s_win_size s) ck (s_urg_pointer s) (replicate 40 0) 0 None 0 (s_src_ip s) (s_dst_ip s) 0).
Proof.
  intros [? ? ? ? ? ? ? _ _ _ _ _ _ _] Hck.
  assert (W2 : ∀ x, is_u16 x → le_value [htons x mod 256; (htons x / 256) mod 256] = htons x).
  { intros x Hx. apply (le_value_bytes 2 (htons x)), htons_range. }
  assert (W4 : ∀ x, is_u32 x → le_value [htonl x mod 256; (htonl x / 256) mod 256;
    (htonl x / 256 / 256) mod 256; (htonl x / 256 / 256 / 256) mod 256] = htonl x).
  { intros x Hx. apply (le_value_bytes 4 (htonl x)), htonl_range. }
  unfold tcp_header. cbn [le_bytes app read_tcp].
  rewrite !W2, !W4, !htons_htons, !htonl_htonl by done. done.
Qed.

Lemma parse_built s ck :
  seg_ok s → is_u16 ck →
  parse_seg (tcp_header s (htons ck) ++ payload s) (20 + s_opt_len s + s_data_len s)
    (s_src_ip s) (s_dst_ip s) = Ok (received s ck).
Proof.
  intros H Hck. unfold parse_seg. rewrite read_tcp_header by done. cbn [s_flags s_seq_num].
  pose proof (opts_length s H) as Hol. pose proof (payload_length s H) as Hpl.
  destruct H as [_ _ _ _ _ _ _ Ho Hl _ Hh Hd Hlen Hend].
  assert (Eopt : TCP_OPTIONS_BYTES (s_flags s) = s_opt_len s).
  { unfold TCP_OPTIONS_BYTES, TCP_HEADER_BYTES, MIN_TCP_HEADER_WORDS in *. lia. }
  rewrite Eopt, Hh. assert (Hdpos : 0 ≤ s_data_len s) by (destruct (s_data s); lia).
  replace (20 + s_opt_len s + s_data_len s - (20 + s_opt_len s)) with (s_data_len s) by lia.
  assert (Es : s32 (s_data_len s) = s_data_len s) by (unfold s32; rewrite Z.mod_small; lia).
  rewrite Es.
  assert (E1 : (if 0 <? s_opt_len s
     then read_bytes (Some (drop 20 (tcp_header s (htons ck) ++ payload s))) (s_opt_len s) else Ok [])
     = Ok (opts s)).
  { rewrite (drop_app_length' (tcp_header s (htons ck))) by (by rewrite tcp_header_length).
    unfold read_bytes. destruct (Z.ltb_spec 0 (s_opt_len s)).
    - destruct (Z.eqb_spec (s_opt_len s) 0); [lia|].
      destruct (Z.leb_spec (s_opt_len s) (Z.of_nat (length (payload s)))); [|lia].
      unfold payload. rewrite take_app_length' by lia. done.
    - unfold opts. by replace (s_opt_len s) with 0 by lia. }
  assert (E2 : (if 0 <? s_data_len s then
      match read_bytes (Some (drop (Z.to_nat (20 + s_opt_len s)) (tcp_header s (htons ck) ++ payload s)))
        (s_data_len s) with
      | Ok d => Ok (Some d) | Segv => Segv | Exit => Exit | NoFuel => NoFuel end
     else Ok None) = Ok (s_data s)).
  { unfold payload. rewrite (assoc_L app), (drop_app_length' (tcp_header s (htons ck) ++ opts s))
      by (rewrite length_app, tcp_header_length; lia).
    destruct (s_data s) as [b|]; simpl.
    - destruct Hd as (Hd & _ & Hpos). destruct (Z.ltb_spec 0 (s_data_len s)); [|lia]. unfold read_bytes.
      destruct (Z.eqb_spec (s_data_len s) 0); [lia|]. by rewrite Hd, Z.leb_refl, Nat2Z.id, firstn_all.
    - by rewrite Hd. }
  rewrite E1, E2. unfold received. by rewrite Hend.
Qed.

(** The sum of a received segment is that of the frame. *)
Lemma seg_checksum_sum s ck :
  seg_ok s → is_u16 ck →
  tcp_seg_checksum (received s ck) =
  Ok (htons (cksum_fold (be_words (tcp_pseudo (s_src_ip s) (s_dst_ip s) (20 + s_opt_len s + s_data_len s))
        + be_words (tcp_header s (htons ck) ++ payload s)))).
Proof.
  intros H Hck. pose proof (opts_length s H) as Hol. pose proof (payload_bytes s H) as Hpb.
  pose proof (payload_length s H) as Hpl. unfold tcp_seg_checksum.
  destruct H as [_ _ _ _ _ _ _ Ho Hl Hob Hh Hd Hlen _].
  set (ps := tcp_pseudo (s_src_ip s) (s_dst_ip s) (20 + s_opt_len s + s_data_len s)).
  set (hd := tcp_header s (htons ck)).
  assert (Ehd : tcp_header (received s ck) (htons (s_checksum (received s ck))) = hd) by done.
  rewrite Ehd. cbn [received s_src_ip s_dst_ip s_flags s_data_len s_opt_len s_options s_data].
  rewrite Hh. fold ps.
  assert (Hps : is_bytes ps ∧ length ps = 12%nat) by (split; [apply tcp_pseudo_bytes|apply tcp_pseudo_length]).
  assert (Hhd : is_bytes hd ∧ length hd = 20%nat) by (split; [apply tcp_header_bytes|apply tcp_header_length]).
  destruct Hps as [Hps Hpsl], Hhd as [Hhd Hhdl]. clearbody ps hd. clear Ehd.
  pose proof (be_words_bound _ Hps) as B1. pose proof (be_words_bound _ Hhd) as B2.
  rewrite Hpsl in B1. rewrite Hhdl in B2.
  assert (Epk : be_words (ps ++ hd) = be_words ps + be_words hd) by (apply (be_words_app _ _ 6); lia).
  rewrite (be_loop_sum 32 16).
  2: done. 2: rewrite length_app; lia. 2: (unfold is_bytes; by rewrite Forall_app). 2: done.
  2: rewrite take_ge by (rewrite length_app; lia); lia.
  rewrite take_ge by (rewrite length_app; lia). rewrite Epk, Z.add_0_l.
  (* options *)
  assert (Hev : ∃ k, s_opt_len s = 4 * Z.of_nat k).
  { unfold TCP_HEADER_BYTES in Hh. exists (Z.to_nat (TCP_HEADER_WORDS (s_flags s) - 5)). lia. }
  destruct Hev as [k Hk].
  assert (Hob' : opt_bytes (s_opt_len s) = (2 * (2 * k))%nat).
  { unfold opt_bytes. rewrite Hk. replace ((4 * Z.of_nat k + 1) / 2) with (2 * Z.of_nat k) by
      (Z.div_mod_to_equations; lia). lia. }
  assert (Hopb : is_bytes (opts s)) by (unfold payload, is_bytes in Hpb; by apply Forall_app in Hpb as [? _]).
  pose proof (be_words_bound _ Hopb) as B3.
  assert (Etk : take (2 * (2 * k)) (opts s ++ replicate (40 - length (opts s)) 0) = opts s).
  { rewrite take_app_length'; [done|lia]. }
  rewrite (be_loop_sum _ (2 * k) _ _ Hob').
  2: rewrite length_app, length_replicate, Hob'; lia.
  2: (unfold is_bytes; rewrite Forall_app; split; [done|]; apply Forall_replicate; vm_compute; split; [discriminate|done]).
  2: lia. 2: rewrite Hob', Etk; lia.
  rewrite Hob', Etk.
  assert (Epl : be_words (hd ++ payload s) = be_words hd + be_words (opts s) + be_words (default [] (s_data s))).
  { unfold payload. rewrite (be_words_app hd _ 10), (be_words_app (opts s) _ (2 * k)) by lia. lia. }
  assert (Hdb : is_bytes (default [] (s_data s))) by (unfold payload, is_bytes in Hpb; by apply Forall_app in Hpb as [_ ?]).
  pose proof (be_words_bound _ Hdb) as B4.
  assert (Edata : match s_data s with
      | Some b => pdu_sum (Z.to_nat (s_data_len s)) b (be_words ps + be_words hd + be_words (opts s))
      | None => if (1 <? s_data_len s) || Z.odd (s_data_len s) then Segv
                else Ok (be_words ps + be_words hd + be_words (opts s)) end
    = Ok (be_words ps + be_words (hd ++ payload s))).
  { rewrite Epl. unfold payload in Hpl. rewrite length_app in Hpl.
    destruct (s_data s) as [b|]; simpl in *.
    - destruct Hd as (Hd & Hb & _). rewrite Hd, Nat2Z.id, pdu_sum_ok; [f_equal; lia|done|lia|lia].
    - rewrite Hd. simpl. f_equal. lia. }
  rewrite Edata. unfold payload in Hpl. rewrite length_app in Hpl.
  destruct (fold_carries_ok (be_words ps + be_words (hd ++ payload s))) as (r & -> & ->); [lia|done].
Qed.

(** The metadata of a frame built by [tcp_to_fdf]. *)
Definition seg_meta (s : tcp_seg) : metadata :=
  [("send_protocol", SInt TCP_PT_TCP); ("send_family", SInt AF_INET);
   ("send_src_ipv4", SInt (s32 (s_src_ip s))); ("send_src_port", SInt (s32 (s_src_port s)));
   ("send_dst_ipv4", SInt (s32 (s_dst_ip s))); ("send_dst_port", SInt (s32 (s_dst_port s)))].

(** The checksum put into a segment. *)
Definition seg_cksum (s : tcp_seg) : Z :=
  cksum_fold (be_words (tcp_pseudo (s_src_ip s) (s_dst_ip s) (20 + s_opt_len s + s_data_len s))
              + be_words (tcp_header s 0 ++ payload s)).

(** The frame of a segment. *)
Definition seg_frame (s : tcp_seg) : finsFrame :=
  MkFrame 0 (Some (seg_meta s))
    (Data (MkData DIR_DOWN (20 + s_opt_len s + s_data_len s)
             (Some (tcp_header s (htons (seg_cksum s)) ++ payload s)))).

Lemma seg_sum_bound s :
  seg_ok s →
  0 ≤ be_words (tcp_pseudo (s_src_ip s) (s_dst_ip s) (20 + s_opt_len s + s_data_len s))
      + be_words (tcp_header s 0 ++ payload s) < 4294800000.
Proof.
  intros H. pose proof (payload_length s H) as Hpl. pose proof (so_len s H).
  pose proof (be_words_bound _ (tcp_pseudo_bytes (s_src_ip s) (s_dst_ip s) (20 + s_opt_len s + s_data_len s))) as B1.
  rewrite tcp_pseudo_length in B1.
  assert (Hb : is_bytes (tcp_header s 0 ++ payload s)).
  { unfold is_bytes. rewrite Forall_app. split; [apply tcp_header_bytes|by apply payload_bytes]. }
  pose proof (be_words_bound _ Hb) as B2. rewrite length_app, tcp_header_length in B2. lia.
Qed.

Lemma to_fdf_ok s : seg_ok s → tcp_to_fdf s = Ok (seg_frame s).
Proof.
  intros H. unfold tcp_to_fdf.
  assert (Hm : meta_write_all
    [("send_protocol", TCP_PT_TCP); ("send_family", AF_INET);
     ("send_src_ipv4", s_src_ip s); ("send_src_port", s_src_port s);
     ("send_dst_ipv4", s_dst_ip s); ("send_dst_port", s_dst_port s)] [] = Ok (tt, seg_meta s)) by reflexivity.
  rewrite Hm, seg_payload_ok by done. pose proof (payload_length s H) as Hpl.
  pose proof (so_hdr s H) as Hh. pose proof (so_len s H) as Hlen. pose proof (so_opt s H) as Ho.
  assert (Hd : 0 ≤ s_data_len s) by (pose proof (so_data s H); destruct (s_data s); lia).
  rewrite Hh, u32_small by (unfold is_u32; lia).
  unfold MIN_TCP_HEADER_BYTES. rewrite Hpl.
  destruct (Z.ltb_spec (s_data_len s + (20 + s_opt_len s)) (20 + (s_opt_len s + s_data_len s))); [lia|].
  replace (s_data_len s + (20 + s_opt_len s) - (20 + (s_opt_len s + s_data_len s))) with 0 by lia.
  change (replicate (Z.to_nat 0) 0) with (@nil Z). rewrite app_nil_r.
  assert (Hl : length (tcp_header s 0 ++ payload s) = Z.to_nat (s_data_len s + (20 + s_opt_len s))).
  { rewrite length_app, tcp_header_length. lia. }
  assert (Hln : s_data_len s + (20 + s_opt_len s) = Z.of_nat (length (tcp_header s 0 ++ payload s))) by lia.
  replace (20 + s_opt_len s + s_data_len s) with (s_data_len s + (20 + s_opt_len s)) in * by lia.
  rewrite Hln at 2. rewrite fdf_checksum_ok.
  - unfold seg_frame, seg_cksum.
    replace (20 + s_opt_len s + s_data_len s) with (s_data_len s + (20 + s_opt_len s)) by lia. done.
  - apply tcp_pseudo_bytes.
  - apply tcp_pseudo_length.
  - unfold is_bytes. rewrite Forall_app. split; [apply tcp_header_bytes|by apply payload_bytes].
  - lia.
Qed.

Lemma seg_accepted s : seg_ok s → tcp_seg_checksum (received s (seg_cksum s)) = Ok 0.
Proof.
  intros H. pose proof (seg_sum_bound s H) as Hb.
  rewrite seg_checksum_sum by (try done; apply cksum_fold_range).
  rewrite be_words_header by apply cksum_fold_range. rewrite Z.add_assoc.
  unfold seg_cksum. rewrite cksum_fold_complement by done. done.
Qed.

(** A frame with the bytes of a segment is read as that segment. *)
Lemma fdf_to_tcp_ok {Q D} `{BoundedFifo Q finsFrame} (st : mstate Q D) s ff m dir :
  seg_ok s → metaData ff = Some m → in_meta m TCP_PT_TCP (s_src_ip s) (s_dst_ip s) →
  body ff = Data (MkData dir (20 + s_opt_len s + s_data_len s)
                    (Some (tcp_header s (htons (seg_cksum s)) ++ payload s))) →
  fdf_to_tcp ff st = Ok (Some (received s (seg_cksum s)), st).
Proof.
  intros Hok Hm [Hp [f Hf] Hs Hd] Hb. unfold fdf_to_tcp.
  erewrite bind_ok; [|unfold ff_data; by rewrite Hb]. cbn [pduLength pdu].
  pose proof (so_opt s Hok). assert (0 ≤ s_data_len s) by (pose proof (so_data s Hok); destruct (s_data s); lia).
  destruct (Z.ltb_spec (20 + s_opt_len s + s_data_len s) MIN_TCP_HEADER_BYTES) as [Hlt|_].
  { unfold MIN_TCP_HEADER_BYTES in Hlt. lia. }
  erewrite bind_ok; [|by eapply ff_read_ok]. rewrite Z.eqb_refl. cbn [negb].
  do 3 (erewrite bind_ok; [|by eapply ff_read_ok]). erewrite bind_ok; [|done].
  erewrite bind_ok; [done|]. unfold lift. by rewrite parse_built by (try done; apply cksum_fold_range).
Qed.

(** ** The write queue as a byte stream *)

(** Byte nodes of the right length, the first one used up to [index]. *)
Record stream_ok (q : byte_queue) (index : Z) : Prop := {
  sk_queue : queue_ok q;
  sk_len : Forall (λ n, n_len n = Z.of_nat (length (n_data n))) (q_nodes q);
  sk_index : match q_nodes q with [] => index = 0 | n :: _ => 0 ≤ index ≤ n_len n end
}.

Definition stream (q : byte_queue) (index : Z) : list Z :=
  drop (Z.to_nat index) (concat (n_data <$> q_nodes q)).

Lemma add_data_loop_ok max len nodes index data_len :
  stream_ok (MkTQ max len nodes) index → 0 ≤ data_len →
  data_len ≤ Z.of_nat (length (stream (MkTQ max len nodes) index)) →
  ∃ index' q', add_data_loop max len nodes index data_len =
      Ok (take (Z.to_nat data_len) (stream (MkTQ max len nodes) index), index', q') ∧
    stream_ok q' index' ∧ q_max q' = max ∧
    stream q' index' = drop (Z.to_nat data_len) (stream (MkTQ max len nodes) index) ∧
    q_len q' - index' = len - index - data_len.
Proof.
  revert len index data_len. induction nodes as [|n nodes IH]; intros len index data_len Hok Hd Hle.
  { pose proof Hok as [_ _ Hi]. simpl in Hi. subst. unfold stream in *. simpl in *.
    exists 0, (MkTQ max len []). replace data_len with 0 by lia. split_and!; try done. simpl. lia. }
  cbn [add_data_loop]. destruct (Z.eqb_spec data_len 0) as [->|Hnz].
  { exists index, (MkTQ max len (n :: nodes)). split_and!; try done. simpl. lia. }
  pose proof Hok as [Hq Hl Hi]. simpl in Hl, Hi. apply Forall_cons in Hl as [Hln Hl].
  assert (Hu : is_u32 (n_len n)).
  { destruct Hq as [H1 H2 H3]. simpl in *. apply Forall_cons in H2 as [? H2].
    pose proof (sum_len_nonneg _ H2). unfold is_u32 in *. lia. }
  unfold is_u32 in Hu. rewrite u32_small by (unfold is_u32; lia).
  unfold stream in *. cbn [q_nodes fmap list_fmap concat] in *. simpl concat in *.
  rewrite drop_app_le in * by lia.
  destruct (Z.ltb_spec data_len (n_len n - index)) as [Hlt|Hge].
  - unfold read_bytes. destruct (Z.eqb_spec data_len 0); [lia|]. rewrite length_drop.
    destruct (Z.leb_spec data_len (Z.of_nat (length (n_data n) - Z.to_nat index))); [|lia].
    rewrite take_app_le by (rewrite length_drop; lia). rewrite u32_small by (unfold is_u32; lia).
    exists (index + data_len), (MkTQ max len (n :: nodes)). split_and!; [done| |done| |simpl; lia].
    + split; [done|by constructor|simpl; lia].
    + cbn [q_nodes]. simpl concat. rewrite drop_app_le by lia.
      rewrite drop_app_le by (rewrite length_drop; lia). rewrite drop_drop. do 2 f_equal. lia.
  - assert (Hrd : read_bytes (Some (drop (Z.to_nat index) (n_data n))) (n_len n - index)
      = Ok (drop (Z.to_nat index) (n_data n))).
    { unfold read_bytes. destruct (Z.eqb_spec (n_len n - index) 0).
      - rewrite drop_ge by lia. done.
      - rewrite length_drop. destruct (Z.leb_spec (n_len n - index) (Z.of_nat (length (n_data n) - Z.to_nat index))); [|lia].
        rewrite take_ge by (rewrite length_drop; lia). done. }
    rewrite Hrd. destruct (remove_front_ok (MkTQ max len (n :: nodes)) n nodes Hq eq_refl) as [Er Hq'].
    simpl in Hq'. assert (Hlen' : u32 (len - n_len n) = len - n_len n) by (apply u32_small, Hq').
    rewrite Hlen'. rewrite length_app, length_drop in Hle.
    destruct (IH (len - n_len n) 0 (data_len - (n_len n - index))) as (i' & q' & E & Hok' & Hmax & Hs & Hd').
    { split; [done|done|]. simpl. destruct nodes as [|m nodes]; [done|].
      destruct Hq' as [_ Hp _]. simpl in Hp. apply Forall_cons in Hp as [? _]. lia. }
    { lia. } { cbn [q_nodes]. change (Z.to_nat 0) with 0%nat. rewrite drop_0. lia. }
    rewrite E. exists i', q'. change (Z.to_nat 0) with 0%nat in Hs. rewrite drop_0 in Hs. rewrite drop_0.
    assert (Hn : Z.to_nat data_len = (length (drop (Z.to_nat index) (n_data n)) +
      Z.to_nat (data_len - (n_len n - index)))%nat) by (rewrite length_drop; lia).
    rewrite Hn, take_app_add, drop_app_add. split_and!; try done. lia.
Qed.

(** ** Properties *)

(** C36: a segment survives the network.  The frame [tcp_to_fdf] builds for
    a segment carries its addresses for IPv4, and the TCP module of the
    receiver reconstructs from it the same segment, filled in with a checksum
    under which the receiver's test succeeds. *)
Theorem tcp_seg_roundtrip {Q D} `{BoundedFifo Q finsFrame} (st : mstate Q D) s ff m dir :
  seg_ok s → is_u32 (s_src_ip s) → is_u32 (s_dst_ip s) →
  metaData ff = Some m → in_meta m TCP_PT_TCP (s_src_ip s) (s_dst_ip s) →
  ∃ sent pdu, tcp_to_fdf s = Ok sent ∧
    body sent = Data (MkData DIR_DOWN (Z.of_nat (length pdu)) (Some pdu)) ∧
    (∃ sm, metaData sent = Some sm ∧
       secure_metadata_readFromElement sm "send_src_ipv4" = Ok (s_src_ip s) ∧
       secure_metadata_readFromElement sm "send_dst_ipv4" = Ok (s_dst_ip s) ∧
       secure_metadata_readFromElement sm "send_protocol" = Ok TCP_PT_TCP) ∧
    (body ff = Data (MkData dir (Z.of_nat (length pdu)) (Some pdu)) →
     fdf_to_tcp ff st = Ok (Some (received s (seg_cksum s)), st)) ∧
    tcp_seg_checksum (received s (seg_cksum s)) = Ok 0.
Proof.
  intros Hok Hsi Hdi Hm Him. pose proof (payload_length s Hok) as Hpl.
  exists (seg_frame s), (tcp_header s (htons (seg_cksum s)) ++ payload s).
  assert (Hlen : Z.of_nat (length (tcp_header s (htons (seg_cksum s)) ++ payload s))
    = 20 + s_opt_len s + s_data_len s) by (rewrite length_app, tcp_header_length; lia).
  rewrite Hlen. split_and!.
  - by apply to_fdf_ok.
  - done.
  - exists (seg_meta s). split_and!; try done; unfold secure_metadata_readFromElement; simpl;
      by rewrite s32_u32_small.
  - intros Hb. by eapply fdf_to_tcp_ok.
  - by apply seg_accepted.
Qed.

(** A segment with an option and three bytes of data. *)
Definition demo_seg : tcp_seg :=
  MkSeg 1025 80 4294967290 77 24592 4096 0 0 ([2; 4; 5; 180] ++ replicate 36 0) 4
    (Some [104; 105; 33]) 3 167772161 167772162 4294967293.

Lemma demo_seg_ok : seg_ok demo_seg.
Proof.
  split; try reflexivity; unfold is_u16, is_u32; simpl; try lia.
  - repeat constructor; lia.
  - split_and!; [done| |lia]. repeat constructor; lia.
Qed.

Definition demo_seg_meta : metadata :=
  [("recv_protocol", SInt 6); ("recv_family", SInt 2); ("recv_src_ipv4", SInt 167772161);
   ("recv_dst_ipv4", SInt 167772162)].

(** Witness of C36. *)
Lemma tcp_seg_roundtrip_witness :
  ∃ sent pdu, tcp_to_fdf demo_seg = Ok sent ∧
    body sent = Data (MkData DIR_DOWN (Z.of_nat (length pdu)) (Some pdu)) ∧
    (∃ sm, metaData sent = Some sm ∧
       secure_metadata_readFromElement sm "send_src_ipv4" = Ok 167772161 ∧
       secure_metadata_readFromElement sm "send_dst_ipv4" = Ok 167772162 ∧
       secure_metadata_readFromElement sm "send_protocol" = Ok TCP_PT_TCP) ∧
    (body (seg_frame demo_seg) = Data (MkData DIR_DOWN (Z.of_nat (length pdu)) (Some pdu)) →
     fdf_to_tcp (set_meta (Some demo_seg_meta) (seg_frame demo_seg)) demo_state
       = Ok (Some (received demo_seg (seg_cksum demo_seg)), demo_state)) ∧
    tcp_seg_checksum (received demo_seg (seg_cksum demo_seg)) = Ok 0.
Proof.
  apply (tcp_seg_roundtrip demo_state demo_seg (set_meta (Some demo_seg_meta) (seg_frame demo_seg))
    demo_seg_meta DIR_DOWN demo_seg_ok).
  - unfold is_u32. simpl. lia.
  - unfold is_u32. simpl. lia.
  - reflexivity.
  - split; try reflexivity. eexists. reflexivity.
Defined.

(** C37: cutting data into segments.  [tcp_seg_add_data] takes exactly the
    next [data_len] bytes of the byte stream that the write queue holds, across
    node boundaries, and leaves the rest of the stream; queue length and
    index keep counting the bytes left. *)
Theorem tcp_segment_stream s q index data_len :
  stream_ok q index → 0 ≤ data_len ≤ Z.of_nat (length (stream q index)) →
  ∃ s' index' q', tcp_seg_add_data s q index data_len = Ok (s', index', q') ∧
    s_data s' = Some (take (Z.to_nat data_len) (stream q index)) ∧ s_data_len s' = data_len ∧
    s_seq_num s' = s_seq_num s ∧ s_seq_end s' = u32 (s_seq_num s + data_len) ∧
    stream_ok q' index' ∧ stream q' index' = drop (Z.to_nat data_len) (stream q index) ∧
    q_len q' - index' = q_len q - index - data_len.
Proof.
  intros Hok Hd. destruct q as [max len nodes]. unfold tcp_seg_add_data.
  destruct (add_data_loop_ok max len nodes index data_len Hok) as (i' & q' & E & Hok' & Hmax & Hs & Hl); [lia..|].
  cbn [q_max q_len q_nodes] in *. rewrite E. eexists _, i', q'. split; [done|]. cbn [s_data s_data_len s_seq_num s_seq_end].
  split_and!; try done. rewrite length_take, Nat.min_l by lia. rewrite Nat.sub_diag. simpl. by rewrite app_nil_r.
Qed.

(** Witness of C37: two nodes, one byte used up. *)
Lemma tcp_segment_stream_witness :
  let q := MkTQ 100 5 [MkNode 1 [1; 2; 3] 3 0 2; MkNode 2 [4; 5] 2 0 1] in
  ∃ s' index' q', tcp_seg_add_data (tcp_seg_create 1 2 3 4 10 10) q 1 3 = Ok (s', index', q') ∧
    s_data s' = Some [2; 3; 4] ∧ s_data_len s' = 3 ∧ s_seq_num s' = 10 ∧ s_seq_end s' = 13 ∧
    stream_ok q' index' ∧ stream q' index' = [5] ∧ q_len q' - index' = 1.
Proof.
  apply (tcp_segment_stream (tcp_seg_create 1 2 3 4 10 10)
    (MkTQ 100 5 [MkNode 1 [1; 2; 3] 3 0 2; MkNode 2 [4; 5] 2 0 1]) 1 3).
  - split; [|repeat constructor|simpl; lia].
    split; [reflexivity|repeat constructor; simpl; lia|unfold is_u32; simpl; lia].
  - unfold stream. simpl. lia.
Defined.

(** a frame that is at least 20 bytes long but shorter than the header
    length in its flags is not rejected: the options are read behind its end. *)
Theorem tcp_short_header {Q D} `{BoundedFifo Q finsFrame} (st : mstate Q D) ff m d b src dst s0 :
  metaData ff = Some m → in_meta m TCP_PT_TCP src dst →
  body ff = Data d → pdu d = Some b → pduLength d = Z.of_nat (length b) → 20 ≤ Z.of_nat (length b) →
  read_tcp b src dst = Ok s0 → Z.of_nat (length b) < TCP_HEADER_BYTES (s_flags s0) →
  fdf_to_tcp ff st = Segv.
Proof.
  intros Hm [Hp [f Hf] Hs Hd] Hb Hpdu Hlen H20 Hrd Hlt. unfold fdf_to_tcp.
  erewrite bind_ok; [|unfold ff_data; by rewrite Hb]. rewrite Hlen.
  destruct (Z.ltb_spec (Z.of_nat (length b)) MIN_TCP_HEADER_BYTES) as [Hl|_]; [unfold MIN_TCP_HEADER_BYTES in Hl; lia|].
  erewrite bind_ok; [|by eapply ff_read_ok]. rewrite Z.eqb_refl. cbn [negb].
  do 3 (erewrite bind_ok; [|by eapply ff_read_ok]). rewrite Hpdu. erewrite bind_ok; [|done].
  assert (E : parse_seg b (Z.of_nat (length b)) src dst = Segv).
  { unfold parse_seg. rewrite Hrd. unfold TCP_OPTIONS_BYTES, TCP_HEADER_BYTES, MIN_TCP_HEADER_WORDS in *.
    destruct (Z.ltb_spec 0 ((TCP_HEADER_WORDS (s_flags s0) - 5) * 4)); [|lia]. unfold read_bytes at 1.
    destruct (Z.eqb_spec ((TCP_HEADER_WORDS (s_flags s0) - 5) * 4) 0); [lia|]. rewrite length_drop.
    destruct (Z.leb_spec ((TCP_HEADER_WORDS (s_flags s0) - 5) * 4) (Z.of_nat (length b - 20))); [lia|done]. }
  unfold lift, mbind, M_bind. by rewrite E.
Qed.

(** An instance: 20 bytes that claim a header of 24. *)
Lemma tcp_short_header_witness :
  fdf_to_tcp (MkFrame 0 (Some demo_seg_meta) (Data (MkData DIR_UP 20
    (Some (replicate 12 0 ++ [96] ++ replicate 7 0))))) demo_state = Segv.
Proof.
  eapply (tcp_short_header demo_state _ demo_seg_meta (MkData DIR_UP 20
    (Some (replicate 12 0 ++ [96] ++ replicate 7 0))) (replicate 12 0 ++ [96] ++ replicate 7 0) 167772161 167772162);
    try reflexivity.
  - split; try reflexivity. eexists. reflexivity.
Defined.
