(* ===== verification/TcpRecord.v ===== *)
(** * The connection record of TCP ([modules/tcp/tcp_internal.h])

    [struct tcp_conn] as a record of records, with one setter per field; a
    field [f] of the source is [c_f], and the coercions from [tcp_conn] to its
    parts make [c_f c] read like [conn->f].  Pointers to connections and to
    queue nodes are addresses, 0 for NULL.  The POSIX timers [to_gbn_data] and
    [to_delayed_data] are their expiry time.  Fields that the code never reads
    (the alternative send buffer, [family], the address structures, the unused
    lists) are left out. *)

From stdpp Require Import base list gmap strings.
From Stdlib Require Import ZArith Lia.
From S2P Require Import Prelude Metadata Frame Double TcpQueue TcpSeg.
Open Scope Z_scope.

Inductive tcp_state :=
| TS_CLOSED | TS_SYN_SENT | TS_LISTEN | TS_SYN_RECV | TS_ESTABLISHED | TS_FIN_WAIT_1
| TS_FIN_WAIT_2 | TS_CLOSING | TS_TIME_WAIT | TS_CLOSE_WAIT | TS_LAST_ACK.

#[export] Instance tcp_state_eq_dec : EqDecision tcp_state.
Proof. solve_decision. Defined.

(** The value of the enumeration constant. *)
Definition state_code (st : tcp_state) : Z :=
  match st with
  | TS_CLOSED => 0 | TS_SYN_SENT => 1 | TS_LISTEN => 2 | TS_SYN_RECV => 3 | TS_ESTABLISHED => 4
  | TS_FIN_WAIT_1 => 5 | TS_FIN_WAIT_2 => 6 | TS_CLOSING => 7 | TS_TIME_WAIT => 8
  | TS_CLOSE_WAIT => 9 | TS_LAST_ACK => 10
  end.

Inductive tcp_reno_state := RENO_SLOWSTART | RENO_AVOIDANCE | RENO_RECOVERY.

(** [struct tcp_request]: [r_timer] is the timer behind [to_data], which is
    NULL ([None]) for a blocking request. *)
Record tcp_request := MkReq {
  r_data : list Z; r_len : Z; r_flags : Z; r_serial_num : Z;
  r_timer : option itimer; r_to_flag : bool
}.

(** Counters of [struct tcp_conn_stats] that are updated. *)
Record tcp_conn_stats := MkStats {
  st_gbn : Z; st_fast : Z; st_sent_data : Z; st_timeout_total : double; st_timeout_count : Z;
  st_cong_window_total : double; st_cong_window_count : Z; st_threshhold_total : double;
  st_threshhold_count : Z; st_recv_segs : Z; st_no_checksum : Z; st_bad_checksum : Z;
  st_drop_segs : Z; st_in_order_segs : Z; st_out_order_segs : Z; st_recv_acks : Z;
  st_bad_acks : Z; st_dup_acks : Z; st_rtt_est_total : double; st_rtt_est_count : Z;
  st_rtt_dev_total : double; st_rtt_dev_count : Z
}.

(** Addresses. *)
Record conn_ident := MkIdent {
  c_host_ip : Z; c_host_port : Z; c_rem_ip : Z; c_rem_port : Z
}.

(** Running flag, list membership and the stored request frame. *)
Record conn_ctl := MkCtl {
  c_threads : Z; c_running_flag : bool; c_status : Z; c_listening : bool; c_stub_list : bool;
  c_backlog_max : Z; c_backlog_list : list Z; c_active_open : bool; c_parent_conn : Z;
  c_signaled : bool; c_ff : option finsFrame; c_poll_events : Z
}.

(** The four queues. *)
Record conn_queues := MkQueues {
  c_request_queue : tcp_queue tcp_request; c_write_queue : tcp_queue (list Z);
  c_send_queue : tcp_queue tcp_seg; c_recv_queue : tcp_queue tcp_seg; c_request_index : Z;
  c_write_index : Z
}.

(** The main thread: flags, and the value of [main_wait_sem]. *)
Record conn_wait := MkWait {
  c_main_wait_flag : bool; c_main_waiting : bool; c_main_wait_sem : Z;
  c_request_interrupt : bool; c_first_flag : bool; c_temp_count : Z
}.

(** Retransmission. *)
Record conn_rtx := MkRtx {
  c_ack_checksum : Z; c_duplicate : Z; c_fast_flag : bool; c_restore_seq_end : Z;
  c_to_gbn_flag : bool; c_gbn_flag : bool; c_gbn_node : Z; c_gbn_timer : itimer
}.

(** Delayed acknowledgements. *)
Record conn_dack := MkDack {
  c_to_delayed_flag : bool; c_delayed_flag : bool; c_delayed_ack_flags : Z;
  c_ack_seg : tcp_seg; c_delayed_timer : itimer
}.

(** Send sequence space. *)
Record conn_snd := MkSnd {
  c_fin_sent : bool; c_fin_sep : bool; c_issn : Z; c_fsse : Z; c_send_max_win : Z;
  c_send_win : Z; c_send_win_seq : Z; c_send_win_ack : Z; c_send_seq_num : Z;
  c_send_seq_end : Z
}.

(** Receive sequence space. *)
Record conn_rcv := MkRcv {
  c_irsn : Z; c_recv_max_win : Z; c_recv_win : Z; c_recv_seq_num : Z; c_recv_seq_end : Z;
  c_flow_stopped : bool
}.

(** Congestion control and round-trip time. *)
Record conn_cong := MkCong {
  c_MSS : Z; c_cong_state : tcp_reno_state; c_cong_window : double; c_threshhold : double;
  c_rtt_flag : bool; c_rtt_first : bool; c_rtt_seq_num : Z; c_rtt_seq_end : Z;
  c_rtt_stamp : timeval; c_rtt_est : double; c_rtt_dev : double; c_timeout : double
}.

(** Options. *)
Record conn_opts := MkOpts {
  c_tsopt_attempt : bool; c_tsopt_enabled : bool; c_ts_rem : Z; c_sack_attempt : bool;
  c_sack_enabled : bool; c_wsopt_attempt : bool; c_wsopt_enabled : bool; c_ws_send : Z;
  c_ws_recv : Z
}.

(** [struct tcp_conn]. *)
Record tcp_conn := MkConn {
  c_state : tcp_state; c_ident : conn_ident; c_ctl : conn_ctl; c_queues : conn_queues;
  c_wait : conn_wait; c_rtx : conn_rtx; c_dack : conn_dack; c_snd : conn_snd;
  c_rcv : conn_rcv; c_cong : conn_cong; c_opts : conn_opts; c_stats : tcp_conn_stats
}.
Coercion c_ident : tcp_conn >-> conn_ident.
Coercion c_ctl : tcp_conn >-> conn_ctl.
Coercion c_queues : tcp_conn >-> conn_queues.
Coercion c_wait : tcp_conn >-> conn_wait.
Coercion c_rtx : tcp_conn >-> conn_rtx.
Coercion c_dack : tcp_conn >-> conn_dack.
Coercion c_snd : tcp_conn >-> conn_snd.
Coercion c_rcv : tcp_conn >-> conn_rcv.
Coercion c_cong : tcp_conn >-> conn_cong.
Coercion c_opts : tcp_conn >-> conn_opts.
Coercion c_stats : tcp_conn >-> tcp_conn_stats.

Definition set_state (x : tcp_state) (c : tcp_conn) : tcp_conn :=
  MkConn x (c_ident c) (c_ctl c) (c_queues c) (c_wait c) (c_rtx c) (c_dack c) (c_snd c)
  (c_rcv c) (c_cong c) (c_opts c) (c_stats c).
Definition put_ident (x : conn_ident) (c : tcp_conn) : tcp_conn :=
  MkConn (c_state c) x (c_ctl c) (c_queues c) (c_wait c) (c_rtx c) (c_dack c) (c_snd c)
  (c_rcv c) (c_cong c) (c_opts c) (c_stats c).
Definition put_ctl (x : conn_ctl) (c : tcp_conn) : tcp_conn :=
  MkConn (c_state c) (c_ident c) x (c_queues c) (c_wait c) (c_rtx c) (c_dack c) (c_snd c)
  (c_rcv c) (c_cong c) (c_opts c) (c_stats c).
Definition put_queues (x : conn_queues) (c : tcp_conn) : tcp_conn :=
  MkConn (c_state c) (c_ident c) (c_ctl c) x (c_wait c) (c_rtx c) (c_dack c) (c_snd c)
  (c_rcv c) (c_cong c) (c_opts c) (c_stats c).
Definition put_wait (x : conn_wait) (c : tcp_conn) : tcp_conn :=
  MkConn (c_state c) (c_ident c) (c_ctl c) (c_queues c) x (c_rtx c) (c_dack c) (c_snd c)
  (c_rcv c) (c_cong c) (c_opts c) (c_stats c).
Definition put_rtx (x : conn_rtx) (c : tcp_conn) : tcp_conn :=
  MkConn (c_state c) (c_ident c) (c_ctl c) (c_queues c) (c_wait c) x (c_dack c) (c_snd c)
  (c_rcv c) (c_cong c) (c_opts c) (c_stats c).
Definition put_dack (x : conn_dack) (c : tcp_conn) : tcp_conn :=
  MkConn (c_state c) (c_ident c) (c_ctl c) (c_queues c) (c_wait c) (c_rtx c) x (c_snd c)
  (c_rcv c) (c_cong c) (c_opts c) (c_stats c).
Definition put_snd (x : conn_snd) (c : tcp_conn) : tcp_conn :=
  MkConn (c_state c) (c_ident c) (c_ctl c) (c_queues c) (c_wait c) (c_rtx c) (c_dack c) x
  (c_rcv c) (c_cong c) (c_opts c) (c_stats c).
Definition put_rcv (x : conn_rcv) (c : tcp_conn) : tcp_conn :=
  MkConn (c_state c) (c_ident c) (c_ctl c) (c_queues c) (c_wait c) (c_rtx c) (c_dack c)
  (c_snd c) x (c_cong c) (c_opts c) (c_stats c).
Definition put_cong (x : conn_cong) (c : tcp_conn) : tcp_conn :=
  MkConn (c_state c) (c_ident c) (c_ctl c) (c_queues c) (c_wait c) (c_rtx c) (c_dack c)
  (c_snd c) (c_rcv c) x (c_opts c) (c_stats c).
Definition put_opts (x : conn_opts) (c : tcp_conn) : tcp_conn :=
  MkConn (c_state c) (c_ident c) (c_ctl c) (c_queues c) (c_wait c) (c_rtx c) (c_dack c)
  (c_snd c) (c_rcv c) (c_cong c) x (c_stats c).
Definition put_stats (x : tcp_conn_stats) (c : tcp_conn) : tcp_conn :=
  MkConn (c_state c) (c_ident c) (c_ctl c) (c_queues c) (c_wait c) (c_rtx c) (c_dack c)
  (c_snd c) (c_rcv c) (c_cong c) (c_opts c) x.
Definition set_host_ip (v : Z) (c : tcp_conn) : tcp_conn :=
  put_ident (MkIdent v (c_host_port c) (c_rem_ip c) (c_rem_port c)) c.
Definition set_host_port (v : Z) (c : tcp_conn) : tcp_conn :=
  put_ident (MkIdent (c_host_ip c) v (c_rem_ip c) (c_rem_port c)) c.
Definition set_rem_ip (v : Z) (c : tcp_conn) : tcp_conn :=
  put_ident (MkIdent (c_host_ip c) (c_host_port c) v (c_rem_port c)) c.
Definition set_rem_port (v : Z) (c : tcp_conn) : tcp_conn :=
  put_ident (MkIdent (c_host_ip c) (c_host_port c) (c_rem_ip c) v) c.
Definition set_threads (v : Z) (c : tcp_conn) : tcp_conn :=
  put_ctl (MkCtl v (c_running_flag c) (c_status c) (c_listening c) (c_stub_list c)
  (c_backlog_max c) (c_backlog_list c) (c_active_open c) (c_parent_conn c) (c_signaled c)
  (c_ff c) (c_poll_events c)) c.
Definition set_running_flag (v : bool) (c : tcp_conn) : tcp_conn :=
  put_ctl (MkCtl (c_threads c) v (c_status c) (c_listening c) (c_stub_list c)
  (c_backlog_max c) (c_backlog_list c) (c_active_open c) (c_parent_conn c) (c_signaled c)
  (c_ff c) (c_poll_events c)) c.
Definition set_status (v : Z) (c : tcp_conn) : tcp_conn :=
  put_ctl (MkCtl (c_threads c) (c_running_flag c) v (c_listening c) (c_stub_list c)
  (c_backlog_max c) (c_backlog_list c) (c_active_open c) (c_parent_conn c) (c_signaled c)
  (c_ff c) (c_poll_events c)) c.
Definition set_listening (v : bool) (c : tcp_conn) : tcp_conn :=
  put_ctl (MkCtl (c_threads c) (c_running_flag c) (c_status c) v (c_stub_list c)
  (c_backlog_max c) (c_backlog_list c) (c_active_open c) (c_parent_conn c) (c_signaled c)
  (c_ff c) (c_poll_events c)) c.
Definition set_stub_list (v : bool) (c : tcp_conn) : tcp_conn :=
  put_ctl (MkCtl (c_threads c) (c_running_flag c) (c_status c) (c_listening c) v
  (c_backlog_max c) (c_backlog_list c) (c_active_open c) (c_parent_conn c) (c_signaled c)
  (c_ff c) (c_poll_events c)) c.
Definition set_backlog_max (v : Z) (c : tcp_conn) : tcp_conn :=
  put_ctl (MkCtl (c_threads c) (c_running_flag c) (c_status c) (c_listening c) (c_stub_list c)
  v (c_backlog_list c) (c_active_open c) (c_parent_conn c) (c_signaled c) (c_ff c)
  (c_poll_events c)) c.
Definition set_backlog_list (v : list Z) (c : tcp_conn) : tcp_conn :=
  put_ctl (MkCtl (c_threads c) (c_running_flag c) (c_status c) (c_listening c) (c_stub_list c)
  (c_backlog_max c) v (c_active_open c) (c_parent_conn c) (c_signaled c) (c_ff c)
  (c_poll_events c)) c.
Definition set_active_open (v : bool) (c : tcp_conn) : tcp_conn :=
  put_ctl (MkCtl (c_threads c) (c_running_flag c) (c_status c) (c_listening c) (c_stub_list c)
  (c_backlog_max c) (c_backlog_list c) v (c_parent_conn c) (c_signaled c) (c_ff c)
  (c_poll_events c)) c.
Definition set_parent_conn (v : Z) (c : tcp_conn) : tcp_conn :=
  put_ctl (MkCtl (c_threads c) (c_running_flag c) (c_status c) (c_listening c) (c_stub_list c)
  (c_backlog_max c) (c_backlog_list c) (c_active_open c) v (c_signaled c) (c_ff c)
  (c_poll_events c)) c.
Definition set_signaled (v : bool) (c : tcp_conn) : tcp_conn :=
  put_ctl (MkCtl (c_threads c) (c_running_flag c) (c_status c) (c_listening c) (c_stub_list c)
  (c_backlog_max c) (c_backlog_list c) (c_active_open c) (c_parent_conn c) v (c_ff c)
  (c_poll_events c)) c.
Definition set_ff (v : option finsFrame) (c : tcp_conn) : tcp_conn :=
  put_ctl (MkCtl (c_threads c) (c_running_flag c) (c_status c) (c_listening c) (c_stub_list c)
  (c_backlog_max c) (c_backlog_list c) (c_active_open c) (c_parent_conn c) (c_signaled c) v
  (c_poll_events c)) c.
Definition set_poll_events (v : Z) (c : tcp_conn) : tcp_conn :=
  put_ctl (MkCtl (c_threads c) (c_running_flag c) (c_status c) (c_listening c) (c_stub_list c)
  (c_backlog_max c) (c_backlog_list c) (c_active_open c) (c_parent_conn c) (c_signaled c)
  (c_ff c) v) c.
Definition set_request_queue (v : tcp_queue tcp_request) (c : tcp_conn) : tcp_conn :=
  put_queues (MkQueues v (c_write_queue c) (c_send_queue c) (c_recv_queue c)
  (c_request_index c) (c_write_index c)) c.
Definition set_write_queue (v : tcp_queue (list Z)) (c : tcp_conn) : tcp_conn :=
  put_queues (MkQueues (c_request_queue c) v (c_send_queue c) (c_recv_queue c)
  (c_request_index c) (c_write_index c)) c.
Definition set_send_queue (v : tcp_queue tcp_seg) (c : tcp_conn) : tcp_conn :=
  put_queues (MkQueues (c_request_queue c) (c_write_queue c) v (c_recv_queue c)
  (c_request_index c) (c_write_index c)) c.
Definition set_recv_queue (v : tcp_queue tcp_seg) (c : tcp_conn) : tcp_conn :=
  put_queues (MkQueues (c_request_queue c) (c_write_queue c) (c_send_queue c) v
  (c_request_index c) (c_write_index c)) c.
Definition set_request_index (v : Z) (c : tcp_conn) : tcp_conn :=
  put_queues (MkQueues (c_request_queue c) (c_write_queue c) (c_send_queue c) (c_recv_queue c)
  v (c_write_index c)) c.
Definition set_write_index (v : Z) (c : tcp_conn) : tcp_conn :=
  put_queues (MkQueues (c_request_queue c) (c_write_queue c) (c_send_queue c) (c_recv_queue c)
  (c_request_index c) v) c.
Definition set_main_wait_flag (v : bool) (c : tcp_conn) : tcp_conn :=
  put_wait (MkWait v (c_main_waiting c) (c_main_wait_sem c) (c_request_interrupt c)
  (c_first_flag c) (c_temp_count c)) c.
Definition set_main_waiting (v : bool) (c : tcp_conn) : tcp_conn :=
  put_wait (MkWait (c_main_wait_flag c) v (c_main_wait_sem c) (c_request_interrupt c)
  (c_first_flag c) (c_temp_count c)) c.
Definition set_main_wait_sem (v : Z) (c : tcp_conn) : tcp_conn :=
  put_wait (MkWait (c_main_wait_flag c) (c_main_waiting c) v (c_request_interrupt c)
  (c_first_flag c) (c_temp_count c)) c.
Definition set_request_interrupt (v : bool) (c : tcp_conn) : tcp_conn :=
  put_wait (MkWait (c_main_wait_flag c) (c_main_waiting c) (c_main_wait_sem c) v
  (c_first_flag c) (c_temp_count c)) c.
Definition set_first_flag (v : bool) (c : tcp_conn) : tcp_conn :=
  put_wait (MkWait (c_main_wait_flag c) (c_main_waiting c) (c_main_wait_sem c)
  (c_request_interrupt c) v (c_temp_count c)) c.
Definition set_temp_count (v : Z) (c : tcp_conn) : tcp_conn :=
  put_wait (MkWait (c_main_wait_flag c) (c_main_waiting c) (c_main_wait_sem c)
  (c_request_interrupt c) (c_first_flag c) v) c.
Definition set_ack_checksum (v : Z) (c : tcp_conn) : tcp_conn :=
  put_rtx (MkRtx v (c_duplicate c) (c_fast_flag c) (c_restore_seq_end c) (c_to_gbn_flag c)
  (c_gbn_flag c) (c_gbn_node c) (c_gbn_timer c)) c.
Definition set_duplicate (v : Z) (c : tcp_conn) : tcp_conn :=
  put_rtx (MkRtx (c_ack_checksum c) v (c_fast_flag c) (c_restore_seq_end c) (c_to_gbn_flag c)
  (c_gbn_flag c) (c_gbn_node c) (c_gbn_timer c)) c.
Definition set_fast_flag (v : bool) (c : tcp_conn) : tcp_conn :=
  put_rtx (MkRtx (c_ack_checksum c) (c_duplicate c) v (c_restore_seq_end c) (c_to_gbn_flag c)
  (c_gbn_flag c) (c_gbn_node c) (c_gbn_timer c)) c.
Definition set_restore_seq_end (v : Z) (c : tcp_conn) : tcp_conn :=
  put_rtx (MkRtx (c_ack_checksum c) (c_duplicate c) (c_fast_flag c) v (c_to_gbn_flag c)
  (c_gbn_flag c) (c_gbn_node c) (c_gbn_timer c)) c.
Definition set_to_gbn_flag (v : bool) (c : tcp_conn) : tcp_conn :=
  put_rtx (MkRtx (c_ack_checksum c) (c_duplicate c) (c_fast_flag c) (c_restore_seq_end c) v
  (c_gbn_flag c) (c_gbn_node c) (c_gbn_timer c)) c.
Definition set_gbn_flag (v : bool) (c : tcp_conn) : tcp_conn :=
  put_rtx (MkRtx (c_ack_checksum c) (c_duplicate c) (c_fast_flag c) (c_restore_seq_end c)
  (c_to_gbn_flag c) v (c_gbn_node c) (c_gbn_timer c)) c.
Definition set_gbn_node (v : Z) (c : tcp_conn) : tcp_conn :=
  put_rtx (MkRtx (c_ack_checksum c) (c_duplicate c) (c_fast_flag c) (c_restore_seq_end c)
  (c_to_gbn_flag c) (c_gbn_flag c) v (c_gbn_timer c)) c.
Definition set_gbn_timer (v : itimer) (c : tcp_conn) : tcp_conn :=
  put_rtx (MkRtx (c_ack_checksum c) (c_duplicate c) (c_fast_flag c) (c_restore_seq_end c)
  (c_to_gbn_flag c) (c_gbn_flag c) (c_gbn_node c) v) c.
Definition set_to_delayed_flag (v : bool) (c : tcp_conn) : tcp_conn :=
  put_dack (MkDack v (c_delayed_flag c) (c_delayed_ack_flags c) (c_ack_seg c)
  (c_delayed_timer c)) c.
Definition set_delayed_flag (v : bool) (c : tcp_conn) : tcp_conn :=
  put_dack (MkDack (c_to_delayed_flag c) v (c_delayed_ack_flags c) (c_ack_seg c)
  (c_delayed_timer c)) c.
Definition set_delayed_ack_flags (v : Z) (c : tcp_conn) : tcp_conn :=
  put_dack (MkDack (c_to_delayed_flag c) (c_delayed_flag c) v (c_ack_seg c)
  (c_delayed_timer c)) c.
Definition set_ack_seg (v : tcp_seg) (c : tcp_conn) : tcp_conn :=
  put_dack (MkDack (c_to_delayed_flag c) (c_delayed_flag c) (c_delayed_ack_flags c) v
  (c_delayed_timer c)) c.
Definition set_delayed_timer (v : itimer) (c : tcp_conn) : tcp_conn :=
  put_dack (MkDack (c_to_delayed_flag c) (c_delayed_flag c) (c_delayed_ack_flags c)
  (c_ack_seg c) v) c.
Definition set_fin_sent (v : bool) (c : tcp_conn) : tcp_conn :=
  put_snd (MkSnd v (c_fin_sep c) (c_issn c) (c_fsse c) (c_send_max_win c) (c_send_win c)
  (c_send_win_seq c) (c_send_win_ack c) (c_send_seq_num c) (c_send_seq_end c)) c.
Definition set_fin_sep (v : bool) (c : tcp_conn) : tcp_conn :=
  put_snd (MkSnd (c_fin_sent c) v (c_issn c) (c_fsse c) (c_send_max_win c) (c_send_win c)
  (c_send_win_seq c) (c_send_win_ack c) (c_send_seq_num c) (c_send_seq_end c)) c.
Definition set_issn (v : Z) (c : tcp_conn) : tcp_conn :=
  put_snd (MkSnd (c_fin_sent c) (c_fin_sep c) v (c_fsse c) (c_send_max_win c) (c_send_win c)
  (c_send_win_seq c) (c_send_win_ack c) (c_send_seq_num c) (c_send_seq_end c)) c.
Definition set_fsse (v : Z) (c : tcp_conn) : tcp_conn :=
  put_snd (MkSnd (c_fin_sent c) (c_fin_sep c) (c_issn c) v (c_send_max_win c) (c_send_win c)
  (c_send_win_seq c) (c_send_win_ack c) (c_send_seq_num c) (c_send_seq_end c)) c.
Definition set_send_max_win (v : Z) (c : tcp_conn) : tcp_conn :=
  put_snd (MkSnd (c_fin_sent c) (c_fin_sep c) (c_issn c) (c_fsse c) v (c_send_win c)
  (c_send_win_seq c) (c_send_win_ack c) (c_send_seq_num c) (c_send_seq_end c)) c.
Definition set_send_win (v : Z) (c : tcp_conn) : tcp_conn :=
  put_snd (MkSnd (c_fin_sent c) (c_fin_sep c) (c_issn c) (c_fsse c) (c_send_max_win c) v
  (c_send_win_seq c) (c_send_win_ack c) (c_send_seq_num c) (c_send_seq_end c)) c.
Definition set_send_win_seq (v : Z) (c : tcp_conn) : tcp_conn :=
  put_snd (MkSnd (c_fin_sent c) (c_fin_sep c) (c_issn c) (c_fsse c) (c_send_max_win c)
  (c_send_win c) v (c_send_win_ack c) (c_send_seq_num c) (c_send_seq_end c)) c.
Definition set_send_win_ack (v : Z) (c : tcp_conn) : tcp_conn :=
  put_snd (MkSnd (c_fin_sent c) (c_fin_sep c) (c_issn c) (c_fsse c) (c_send_max_win c)
  (c_send_win c) (c_send_win_seq c) v (c_send_seq_num c) (c_send_seq_end c)) c.
Definition set_send_seq_num (v : Z) (c : tcp_conn) : tcp_conn :=
  put_snd (MkSnd (c_fin_sent c) (c_fin_sep c) (c_issn c) (c_fsse c) (c_send_max_win c)
  (c_send_win c) (c_send_win_seq c) (c_send_win_ack c) v (c_send_seq_end c)) c.
Definition set_send_seq_end (v : Z) (c : tcp_conn) : tcp_conn :=
  put_snd (MkSnd (c_fin_sent c) (c_fin_sep c) (c_issn c) (c_fsse c) (c_send_max_win c)
  (c_send_win c) (c_send_win_seq c) (c_send_win_ack c) (c_send_seq_num c) v) c.
Definition set_irsn (v : Z) (c : tcp_conn) : tcp_conn :=
  put_rcv (MkRcv v (c_recv_max_win c) (c_recv_win c) (c_recv_seq_num c) (c_recv_seq_end c)
  (c_flow_stopped c)) c.
Definition set_recv_max_win (v : Z) (c : tcp_conn) : tcp_conn :=
  put_rcv (MkRcv (c_irsn c) v (c_recv_win c) (c_recv_seq_num c) (c_recv_seq_end c)
  (c_flow_stopped c)) c.
Definition set_recv_win (v : Z) (c : tcp_conn) : tcp_conn :=
  put_rcv (MkRcv (c_irsn c) (c_recv_max_win c) v (c_recv_seq_num c) (c_recv_seq_end c)
  (c_flow_stopped c)) c.
Definition set_recv_seq_num (v : Z) (c : tcp_conn) : tcp_conn :=
  put_rcv (MkRcv (c_irsn c) (c_recv_max_win c) (c_recv_win c) v (c_recv_seq_end c)
  (c_flow_stopped c)) c.
Definition set_recv_seq_end (v : Z) (c : tcp_conn) : tcp_conn :=
  put_rcv (MkRcv (c_irsn c) (c_recv_max_win c) (c_recv_win c) (c_recv_seq_num c) v
  (c_flow_stopped c)) c.
Definition set_flow_stopped (v : bool) (c : tcp_conn) : tcp_conn :=
  put_rcv (MkRcv (c_irsn c) (c_recv_max_win c) (c_recv_win c) (c_recv_seq_num c)
  (c_recv_seq_end c) v) c.
Definition set_MSS (v : Z) (c : tcp_conn) : tcp_conn :=
  put_cong (MkCong v (c_cong_state c) (c_cong_window c) (c_threshhold c) (c_rtt_flag c)
  (c_rtt_first c) (c_rtt_seq_num c) (c_rtt_seq_end c) (c_rtt_stamp c) (c_rtt_est c)
  (c_rtt_dev c) (c_timeout c)) c.
Definition set_cong_state (v : tcp_reno_state) (c : tcp_conn) : tcp_conn :=
  put_cong (MkCong (c_MSS c) v (c_cong_window c) (c_threshhold c) (c_rtt_flag c)
  (c_rtt_first c) (c_rtt_seq_num c) (c_rtt_seq_end c) (c_rtt_stamp c) (c_rtt_est c)
  (c_rtt_dev c) (c_timeout c)) c.
Definition set_cong_window (v : double) (c : tcp_conn) : tcp_conn :=
  put_cong (MkCong (c_MSS c) (c_cong_state c) v (c_threshhold c) (c_rtt_flag c)
  (c_rtt_first c) (c_rtt_seq_num c) (c_rtt_seq_end c) (c_rtt_stamp c) (c_rtt_est c)
  (c_rtt_dev c) (c_timeout c)) c.
Definition set_threshhold (v : double) (c : tcp_conn) : tcp_conn :=
  put_cong (MkCong (c_MSS c) (c_cong_state c) (c_cong_window c) v (c_rtt_flag c)
  (c_rtt_first c) (c_rtt_seq_num c) (c_rtt_seq_end c) (c_rtt_stamp c) (c_rtt_est c)
  (c_rtt_dev c) (c_timeout c)) c.
Definition set_rtt_flag (v : bool) (c : tcp_conn) : tcp_conn :=
  put_cong (MkCong (c_MSS c) (c_cong_state c) (c_cong_window c) (c_threshhold c) v
  (c_rtt_first c) (c_rtt_seq_num c) (c_rtt_seq_end c) (c_rtt_stamp c) (c_rtt_est c)
  (c_rtt_dev c) (c_timeout c)) c.
Definition set_rtt_first (v : bool) (c : tcp_conn) : tcp_conn :=
  put_cong (MkCong (c_MSS c) (c_cong_state c) (c_cong_window c) (c_threshhold c)
  (c_rtt_flag c) v (c_rtt_seq_num c) (c_rtt_seq_end c) (c_rtt_stamp c) (c_rtt_est c)
  (c_rtt_dev c) (c_timeout c)) c.
Definition set_rtt_seq_num (v : Z) (c : tcp_conn) : tcp_conn :=
  put_cong (MkCong (c_MSS c) (c_cong_state c) (c_cong_window c) (c_threshhold c)
  (c_rtt_flag c) (c_rtt_first c) v (c_rtt_seq_end c) (c_rtt_stamp c) (c_rtt_est c)
  (c_rtt_dev c) (c_timeout c)) c.
Definition set_rtt_seq_end (v : Z) (c : tcp_conn) : tcp_conn :=
  put_cong (MkCong (c_MSS c) (c_cong_state c) (c_cong_window c) (c_threshhold c)
  (c_rtt_flag c) (c_rtt_first c) (c_rtt_seq_num c) v (c_rtt_stamp c) (c_rtt_est c)
  (c_rtt_dev c) (c_timeout c)) c.
Definition set_rtt_stamp (v : timeval) (c : tcp_conn) : tcp_conn :=
  put_cong (MkCong (c_MSS c) (c_cong_state c) (c_cong_window c) (c_threshhold c)
  (c_rtt_flag c) (c_rtt_first c) (c_rtt_seq_num c) (c_rtt_seq_end c) v (c_rtt_est c)
  (c_rtt_dev c) (c_timeout c)) c.
Definition set_rtt_est (v : double) (c : tcp_conn) : tcp_conn :=
  put_cong (MkCong (c_MSS c) (c_cong_state c) (c_cong_window c) (c_threshhold c)
  (c_rtt_flag c) (c_rtt_first c) (c_rtt_seq_num c) (c_rtt_seq_end c) (c_rtt_stamp c) v
  (c_rtt_dev c) (c_timeout c)) c.
Definition set_rtt_dev (v : double) (c : tcp_conn) : tcp_conn :=
  put_cong (MkCong (c_MSS c) (c_cong_state c) (c_cong_window c) (c_threshhold c)
  (c_rtt_flag c) (c_rtt_first c) (c_rtt_seq_num c) (c_rtt_seq_end c) (c_rtt_stamp c)
  (c_rtt_est c) v (c_timeout c)) c.
Definition set_timeout (v : double) (c : tcp_conn) : tcp_conn :=
  put_cong (MkCong (c_MSS c) (c_cong_state c) (c_cong_window c) (c_threshhold c)
  (c_rtt_flag c) (c_rtt_first c) (c_rtt_seq_num c) (c_rtt_seq_end c) (c_rtt_stamp c)
  (c_rtt_est c) (c_rtt_dev c) v) c.
Definition set_tsopt_attempt (v : bool) (c : tcp_conn) : tcp_conn :=
  put_opts (MkOpts v (c_tsopt_enabled c) (c_ts_rem c) (c_sack_attempt c) (c_sack_enabled c)
  (c_wsopt_attempt c) (c_wsopt_enabled c) (c_ws_send c) (c_ws_recv c)) c.
Definition set_tsopt_enabled (v : bool) (c : tcp_conn) : tcp_conn :=
  put_opts (MkOpts (c_tsopt_attempt c) v (c_ts_rem c) (c_sack_attempt c) (c_sack_enabled c)
  (c_wsopt_attempt c) (c_wsopt_enabled c) (c_ws_send c) (c_ws_recv c)) c.
Definition set_ts_rem (v : Z) (c : tcp_conn) : tcp_conn :=
  put_opts (MkOpts (c_tsopt_attempt c) (c_tsopt_enabled c) v (c_sack_attempt c)
  (c_sack_enabled c) (c_wsopt_attempt c) (c_wsopt_enabled c) (c_ws_send c) (c_ws_recv c)) c.
Definition set_sack_attempt (v : bool) (c : tcp_conn) : tcp_conn :=
  put_opts (MkOpts (c_tsopt_attempt c) (c_tsopt_enabled c) (c_ts_rem c) v (c_sack_enabled c)
  (c_wsopt_attempt c) (c_wsopt_enabled c) (c_ws_send c) (c_ws_recv c)) c.
Definition set_sack_enabled (v : bool) (c : tcp_conn) : tcp_conn :=
  put_opts (MkOpts (c_tsopt_attempt c) (c_tsopt_enabled c) (c_ts_rem c) (c_sack_attempt c) v
  (c_wsopt_attempt c) (c_wsopt_enabled c) (c_ws_send c) (c_ws_recv c)) c.
Definition set_wsopt_attempt (v : bool) (c : tcp_conn) : tcp_conn :=
  put_opts (MkOpts (c_tsopt_attempt c) (c_tsopt_enabled c) (c_ts_rem c) (c_sack_attempt c)
  (c_sack_enabled c) v (c_wsopt_enabled c) (c_ws_send c) (c_ws_recv c)) c.
Definition set_wsopt_enabled (v : bool) (c : tcp_conn) : tcp_conn :=
  put_opts (MkOpts (c_tsopt_attempt c) (c_tsopt_enabled c) (c_ts_rem c) (c_sack_attempt c)
  (c_sack_enabled c) (c_wsopt_attempt c) v (c_ws_send c) (c_ws_recv c)) c.
Definition set_ws_send (v : Z) (c : tcp_conn) : tcp_conn :=
  put_opts (MkOpts (c_tsopt_attempt c) (c_tsopt_enabled c) (c_ts_rem c) (c_sack_attempt c)
  (c_sack_enabled c) (c_wsopt_attempt c) (c_wsopt_enabled c) v (c_ws_recv c)) c.
Definition set_ws_recv (v : Z) (c : tcp_conn) : tcp_conn :=
  put_opts (MkOpts (c_tsopt_attempt c) (c_tsopt_enabled c) (c_ts_rem c) (c_sack_attempt c)
  (c_sack_enabled c) (c_wsopt_attempt c) (c_wsopt_enabled c) (c_ws_send c) v) c.
Definition stat_gbn (v : Z) (c : tcp_conn_stats) : tcp_conn_stats :=
  MkStats v (st_fast c) (st_sent_data c) (st_timeout_total c) (st_timeout_count c)
  (st_cong_window_total c) (st_cong_window_count c) (st_threshhold_total c)
  (st_threshhold_count c) (st_recv_segs c) (st_no_checksum c) (st_bad_checksum c)
  (st_drop_segs c) (st_in_order_segs c) (st_out_order_segs c) (st_recv_acks c) (st_bad_acks c)
  (st_dup_acks c) (st_rtt_est_total c) (st_rtt_est_count c) (st_rtt_dev_total c)
  (st_rtt_dev_count c).
Definition stat_fast (v : Z) (c : tcp_conn_stats) : tcp_conn_stats :=
  MkStats (st_gbn c) v (st_sent_data c) (st_timeout_total c) (st_timeout_count c)
  (st_cong_window_total c) (st_cong_window_count c) (st_threshhold_total c)
  (st_threshhold_count c) (st_recv_segs c) (st_no_checksum c) (st_bad_checksum c)
  (st_drop_segs c) (st_in_order_segs c) (st_out_order_segs c) (st_recv_acks c) (st_bad_acks c)
  (st_dup_acks c) (st_rtt_est_total c) (st_rtt_est_count c) (st_rtt_dev_total c)
  (st_rtt_dev_count c).
Definition stat_sent_data (v : Z) (c : tcp_conn_stats) : tcp_conn_stats :=
  MkStats (st_gbn c) (st_fast c) v (st_timeout_total c) (st_timeout_count c)
  (st_cong_window_total c) (st_cong_window_count c) (st_threshhold_total c)
  (st_threshhold_count c) (st_recv_segs c) (st_no_checksum c) (st_bad_checksum c)
  (st_drop_segs c) (st_in_order_segs c) (st_out_order_segs c) (st_recv_acks c) (st_bad_acks c)
  (st_dup_acks c) (st_rtt_est_total c) (st_rtt_est_count c) (st_rtt_dev_total c)
  (st_rtt_dev_count c).
Definition stat_timeout_total (v : double) (c : tcp_conn_stats) : tcp_conn_stats :=
  MkStats (st_gbn c) (st_fast c) (st_sent_data c) v (st_timeout_count c)
  (st_cong_window_total c) (st_cong_window_count c) (st_threshhold_total c)
  (st_threshhold_count c) (st_recv_segs c) (st_no_checksum c) (st_bad_checksum c)
  (st_drop_segs c) (st_in_order_segs c) (st_out_order_segs c) (st_recv_acks c) (st_bad_acks c)
  (st_dup_acks c) (st_rtt_est_total c) (st_rtt_est_count c) (st_rtt_dev_total c)
  (st_rtt_dev_count c).
Definition stat_timeout_count (v : Z) (c : tcp_conn_stats) : tcp_conn_stats :=
  MkStats (st_gbn c) (st_fast c) (st_sent_data c) (st_timeout_total c) v
  (st_cong_window_total c) (st_cong_window_count c) (st_threshhold_total c)
  (st_threshhold_count c) (st_recv_segs c) (st_no_checksum c) (st_bad_checksum c)
  (st_drop_segs c) (st_in_order_segs c) (st_out_order_segs c) (st_recv_acks c) (st_bad_acks c)
  (st_dup_acks c) (st_rtt_est_total c) (st_rtt_est_count c) (st_rtt_dev_total c)
  (st_rtt_dev_count c).
Definition stat_cong_window_total (v : double) (c : tcp_conn_stats) : tcp_conn_stats :=
  MkStats (st_gbn c) (st_fast c) (st_sent_data c) (st_timeout_total c) (st_timeout_count c) v
  (st_cong_window_count c) (st_threshhold_total c) (st_threshhold_count c) (st_recv_segs c)
  (st_no_checksum c) (st_bad_checksum c) (st_drop_segs c) (st_in_order_segs c)
  (st_out_order_segs c) (st_recv_acks c) (st_bad_acks c) (st_dup_acks c) (st_rtt_est_total c)
  (st_rtt_est_count c) (st_rtt_dev_total c) (st_rtt_dev_count c).
Definition stat_cong_window_count (v : Z) (c : tcp_conn_stats) : tcp_conn_stats :=
  MkStats (st_gbn c) (st_fast c) (st_sent_data c) (st_timeout_total c) (st_timeout_count c)
  (st_cong_window_total c) v (st_threshhold_total c) (st_threshhold_count c) (st_recv_segs c)
  (st_no_checksum c) (st_bad_checksum c) (st_drop_segs c) (st_in_order_segs c)
  (st_out_order_segs c) (st_recv_acks c) (st_bad_acks c) (st_dup_acks c) (st_rtt_est_total c)
  (st_rtt_est_count c) (st_rtt_dev_total c) (st_rtt_dev_count c).
Definition stat_threshhold_total (v : double) (c : tcp_conn_stats) : tcp_conn_stats :=
  MkStats (st_gbn c) (st_fast c) (st_sent_data c) (st_timeout_total c) (st_timeout_count c)
  (st_cong_window_total c) (st_cong_window_count c) v (st_threshhold_count c) (st_recv_segs c)
  (st_no_checksum c) (st_bad_checksum c) (st_drop_segs c) (st_in_order_segs c)
  (st_out_order_segs c) (st_recv_acks c) (st_bad_acks c) (st_dup_acks c) (st_rtt_est_total c)
  (st_rtt_est_count c) (st_rtt_dev_total c) (st_rtt_dev_count c).
Definition stat_threshhold_count (v : Z) (c : tcp_conn_stats) : tcp_conn_stats :=
  MkStats (st_gbn c) (st_fast c) (st_sent_data c) (st_timeout_total c) (st_timeout_count c)
  (st_cong_window_total c) (st_cong_window_count c) (st_threshhold_total c) v (st_recv_segs c)
  (st_no_checksum c) (st_bad_checksum c) (st_drop_segs c) (st_in_order_segs c)
  (st_out_order_segs c) (st_recv_acks c) (st_bad_acks c) (st_dup_acks c) (st_rtt_est_total c)
  (st_rtt_est_count c) (st_rtt_dev_total c) (st_rtt_dev_count c).
Definition stat_recv_segs (v : Z) (c : tcp_conn_stats) : tcp_conn_stats :=
  MkStats (st_gbn c) (st_fast c) (st_sent_data c) (st_timeout_total c) (st_timeout_count c)
  (st_cong_window_total c) (st_cong_window_count c) (st_threshhold_total c)
  (st_threshhold_count c) v (st_no_checksum c) (st_bad_checksum c) (st_drop_segs c)
  (st_in_order_segs c) (st_out_order_segs c) (st_recv_acks c) (st_bad_acks c) (st_dup_acks c)
  (st_rtt_est_total c) (st_rtt_est_count c) (st_rtt_dev_total c) (st_rtt_dev_count c).
Definition stat_no_checksum (v : Z) (c : tcp_conn_stats) : tcp_conn_stats :=
  MkStats (st_gbn c) (st_fast c) (st_sent_data c) (st_timeout_total c) (st_timeout_count c)
  (st_cong_window_total c) (st_cong_window_count c) (st_threshhold_total c)
  (st_threshhold_count c) (st_recv_segs c) v (st_bad_checksum c) (st_drop_segs c)
  (st_in_order_segs c) (st_out_order_segs c) (st_recv_acks c) (st_bad_acks c) (st_dup_acks c)
  (st_rtt_est_total c) (st_rtt_est_count c) (st_rtt_dev_total c) (st_rtt_dev_count c).
Definition stat_bad_checksum (v : Z) (c : tcp_conn_stats) : tcp_conn_stats :=
  MkStats (st_gbn c) (st_fast c) (st_sent_data c) (st_timeout_total c) (st_timeout_count c)
  (st_cong_window_total c) (st_cong_window_count c) (st_threshhold_total c)
  (st_threshhold_count c) (st_recv_segs c) (st_no_checksum c) v (st_drop_segs c)
  (st_in_order_segs c) (st_out_order_segs c) (st_recv_acks c) (st_bad_acks c) (st_dup_acks c)
  (st_rtt_est_total c) (st_rtt_est_count c) (st_rtt_dev_total c) (st_rtt_dev_count c).
Definition stat_drop_segs (v : Z) (c : tcp_conn_stats) : tcp_conn_stats :=
  MkStats (st_gbn c) (st_fast c) (st_sent_data c) (st_timeout_total c) (st_timeout_count c)
  (st_cong_window_total c) (st_cong_window_count c) (st_threshhold_total c)
  (st_threshhold_count c) (st_recv_segs c) (st_no_checksum c) (st_bad_checksum c) v
  (st_in_order_segs c) (st_out_order_segs c) (st_recv_acks c) (st_bad_acks c) (st_dup_acks c)
  (st_rtt_est_total c) (st_rtt_est_count c) (st_rtt_dev_total c) (st_rtt_dev_count c).
Definition stat_in_order_segs (v : Z) (c : tcp_conn_stats) : tcp_conn_stats :=
  MkStats (st_gbn c) (st_fast c) (st_sent_data c) (st_timeout_total c) (st_timeout_count c)
  (st_cong_window_total c) (st_cong_window_count c) (st_threshhold_total c)
  (st_threshhold_count c) (st_recv_segs c) (st_no_checksum c) (st_bad_checksum c)
  (st_drop_segs c) v (st_out_order_segs c) (st_recv_acks c) (st_bad_acks c) (st_dup_acks c)
  (st_rtt_est_total c) (st_rtt_est_count c) (st_rtt_dev_total c) (st_rtt_dev_count c).
Definition stat_out_order_segs (v : Z) (c : tcp_conn_stats) : tcp_conn_stats :=
  MkStats (st_gbn c) (st_fast c) (st_sent_data c) (st_timeout_total c) (st_timeout_count c)
  (st_cong_window_total c) (st_cong_window_count c) (st_threshhold_total c)
  (st_threshhold_count c) (st_recv_segs c) (st_no_checksum c) (st_bad_checksum c)
  (st_drop_segs c) (st_in_order_segs c) v (st_recv_acks c) (st_bad_acks c) (st_dup_acks c)
  (st_rtt_est_total c) (st_rtt_est_count c) (st_rtt_dev_total c) (st_rtt_dev_count c).
Definition stat_recv_acks (v : Z) (c : tcp_conn_stats) : tcp_conn_stats :=
  MkStats (st_gbn c) (st_fast c) (st_sent_data c) (st_timeout_total c) (st_timeout_count c)
  (st_cong_window_total c) (st_cong_window_count c) (st_threshhold_total c)
  (st_threshhold_count c) (st_recv_segs c) (st_no_checksum c) (st_bad_checksum c)
  (st_drop_segs c) (st_in_order_segs c) (st_out_order_segs c) v (st_bad_acks c)
  (st_dup_acks c) (st_rtt_est_total c) (st_rtt_est_count c) (st_rtt_dev_total c)
  (st_rtt_dev_count c).
Definition stat_bad_acks (v : Z) (c : tcp_conn_stats) : tcp_conn_stats :=
  MkStats (st_gbn c) (st_fast c) (st_sent_data c) (st_timeout_total c) (st_timeout_count c)
  (st_cong_window_total c) (st_cong_window_count c) (st_threshhold_total c)
  (st_threshhold_count c) (st_recv_segs c) (st_no_checksum c) (st_bad_checksum c)
  (st_drop_segs c) (st_in_order_segs c) (st_out_order_segs c) (st_recv_acks c) v
  (st_dup_acks c) (st_rtt_est_total c) (st_rtt_est_count c) (st_rtt_dev_total c)
  (st_rtt_dev_count c).
Definition stat_dup_acks (v : Z) (c : tcp_conn_stats) : tcp_conn_stats :=
  MkStats (st_gbn c) (st_fast c) (st_sent_data c) (st_timeout_total c) (st_timeout_count c)
  (st_cong_window_total c) (st_cong_window_count c) (st_threshhold_total c)
  (st_threshhold_count c) (st_recv_segs c) (st_no_checksum c) (st_bad_checksum c)
  (st_drop_segs c) (st_in_order_segs c) (st_out_order_segs c) (st_recv_acks c) (st_bad_acks c)
  v (st_rtt_est_total c) (st_rtt_est_count c) (st_rtt_dev_total c) (st_rtt_dev_count c).
Definition stat_rtt_est_total (v : double) (c : tcp_conn_stats) : tcp_conn_stats :=
  MkStats (st_gbn c) (st_fast c) (st_sent_data c) (st_timeout_total c) (st_timeout_count c)
  (st_cong_window_total c) (st_cong_window_count c) (st_threshhold_total c)
  (st_threshhold_count c) (st_recv_segs c) (st_no_checksum c) (st_bad_checksum c)
  (st_drop_segs c) (st_in_order_segs c) (st_out_order_segs c) (st_recv_acks c) (st_bad_acks c)
  (st_dup_acks c) v (st_rtt_est_count c) (st_rtt_dev_total c) (st_rtt_dev_count c).
Definition stat_rtt_est_count (v : Z) (c : tcp_conn_stats) : tcp_conn_stats :=
  MkStats (st_gbn c) (st_fast c) (st_sent_data c) (st_timeout_total c) (st_timeout_count c)
  (st_cong_window_total c) (st_cong_window_count c) (st_threshhold_total c)
  (st_threshhold_count c) (st_recv_segs c) (st_no_checksum c) (st_bad_checksum c)
  (st_drop_segs c) (st_in_order_segs c) (st_out_order_segs c) (st_recv_acks c) (st_bad_acks c)
  (st_dup_acks c) (st_rtt_est_total c) v (st_rtt_dev_total c) (st_rtt_dev_count c).
Definition stat_rtt_dev_total (v : double) (c : tcp_conn_stats) : tcp_conn_stats :=
  MkStats (st_gbn c) (st_fast c) (st_sent_data c) (st_timeout_total c) (st_timeout_count c)
  (st_cong_window_total c) (st_cong_window_count c) (st_threshhold_total c)
  (st_threshhold_count c) (st_recv_segs c) (st_no_checksum c) (st_bad_checksum c)
  (st_drop_segs c) (st_in_order_segs c) (st_out_order_segs c) (st_recv_acks c) (st_bad_acks c)
  (st_dup_acks c) (st_rtt_est_total c) (st_rtt_est_count c) v (st_rtt_dev_count c).
Definition stat_rtt_dev_count (v : Z) (c : tcp_conn_stats) : tcp_conn_stats :=
  MkStats (st_gbn c) (st_fast c) (st_sent_data c) (st_timeout_total c) (st_timeout_count c)
  (st_cong_window_total c) (st_cong_window_count c) (st_threshhold_total c)
  (st_threshhold_count c) (st_recv_segs c) (st_no_checksum c) (st_bad_checksum c)
  (st_drop_segs c) (st_in_order_segs c) (st_out_order_segs c) (st_recv_acks c) (st_bad_acks c)
  (st_dup_acks c) (st_rtt_est_total c) (st_rtt_est_count c) (st_rtt_dev_total c) v.
(** Updates of a segment. *)
Definition seg_flags (v : Z) (s : tcp_seg) : tcp_seg :=
  MkSeg (s_src_port s) (s_dst_port s) (s_seq_num s) (s_ack_num s) v (s_win_size s) (s_checksum s)
    (s_urg_pointer s) (s_options s) (s_opt_len s) (s_data s) (s_data_len s) (s_src_ip s)
    (s_dst_ip s) (s_seq_end s).
Definition seg_ack (v : Z) (s : tcp_seg) : tcp_seg :=
  MkSeg (s_src_port s) (s_dst_port s) (s_seq_num s) v (s_flags s) (s_win_size s) (s_checksum s)
    (s_urg_pointer s) (s_options s) (s_opt_len s) (s_data s) (s_data_len s) (s_src_ip s)
    (s_dst_ip s) (s_seq_end s).
Definition seg_win (v : Z) (s : tcp_seg) : tcp_seg :=
  MkSeg (s_src_port s) (s_dst_port s) (s_seq_num s) (s_ack_num s) (s_flags s) v (s_checksum s)
    (s_urg_pointer s) (s_options s) (s_opt_len s) (s_data s) (s_data_len s) (s_src_ip s)
    (s_dst_ip s) (s_seq_end s).
Definition seg_opts (o : list Z) (len : Z) (s : tcp_seg) : tcp_seg :=
  MkSeg (s_src_port s) (s_dst_port s) (s_seq_num s) (s_ack_num s) (s_flags s) (s_win_size s)
    (s_checksum s) (s_urg_pointer s) o len (s_data s) (s_data_len s) (s_src_ip s)
    (s_dst_ip s) (s_seq_end s).
Definition seg_seqs (num end_ : Z) (s : tcp_seg) : tcp_seg :=
  MkSeg (s_src_port s) (s_dst_port s) num (s_ack_num s) (s_flags s) (s_win_size s) (s_checksum s)
    (s_urg_pointer s) (s_options s) (s_opt_len s) (s_data s) (s_data_len s) (s_src_ip s)
    (s_dst_ip s) end_.
Definition seg_dlen (v : Z) (s : tcp_seg) : tcp_seg :=
  MkSeg (s_src_port s) (s_dst_port s) (s_seq_num s) (s_ack_num s) (s_flags s) (s_win_size s)
    (s_checksum s) (s_urg_pointer s) (s_options s) (s_opt_len s) (s_data s) v (s_src_ip s)
    (s_dst_ip s) (s_seq_end s).
