(* ===== verification/TcpConn.v ===== *)
(** * TCP connections: common operations ([modules/tcp/tcp.c])

    The module data ([struct tcp_data]) with the store of connections, and the
    operations every handler uses: creation, look-up, the control frames sent
    to the daemon, options and acknowledgement fields of outgoing segments.
    Handlers are computations over the module state that name a connection by
    its address; using an address without a connection is [Segv].  The
    operations between [secure_sem_wait(&conn->sem)] and [sem_post] run
    without interruption, as do those under [conn_list_sem]. *)

From stdpp Require Import base list gmap strings.
From Stdlib Require Import ZArith Lia.
From S2P Require Import Prelude Queue Metadata Frame Module IPv4 UDP Double TcpQueue TcpSeg TcpRecord.
Open Scope Z_scope.
Open Scope fins_scope.

Definition TCP_MAX_QUEUE_DEFAULT := 131072.
Definition TCP_CONN_MAX := 512.
Definition TCP_GBN_TO_MIN := 100.
Definition TCP_GBN_TO_MAX := 64000.
Definition TCP_GBN_TO_DEFAULT := 5000.
Definition TCP_DELAYED_TO_DEFAULT := 200.
Definition TCP_MAX_WINDOW_DEFAULT := 65535.
Definition TCP_MSL_TO_DEFAULT := 120000.
Definition TCP_BACKLOG_LIST_MAX := 256.
Definition TCP_REQUEST_LIST_MAX := 30.
Definition TCP_BLOCK_DEFAULT := 500.
Definition TCP_STATUS_RD := 1.
Definition TCP_STATUS_WR := 2.
Definition TCP_STATUS_RDWR := 3.
Definition TCP_FLOW_IPV4 := 0.
Definition TCP_FLOW_DAEMON := 2.
Definition TCP_ALERT_POLL := 0.
Definition TCP_ALERT_SHUTDOWN := 1.
Definition TCP_EXEC_SEND := 3.

(** Option kinds and lengths. *)
Definition TCP_OPT_EOL := 0.
Definition TCP_OPT_NOP := 1.
Definition TCP_OPT_MSS := 2.
Definition TCP_OPT_MSS_BYTES := 4.
Definition TCP_OPT_WS := 3.
Definition TCP_OPT_WS_BYTES := 3.
Definition TCP_OPT_WS_DEFAULT := 2.
Definition TCP_OPT_WS_MAX := 14.
Definition TCP_OPT_SACK_PERM := 4.
Definition TCP_OPT_SACK_PERM_BYTES := 2.
Definition TCP_OPT_SACK := 5.
Definition TCP_OPT_SACK_MIN_BYTES := 2.
Definition TCP_OPT_SACK_MAX_BYTES := 26.
Definition TCP_OPT_TS := 8.
Definition TCP_OPT_TS_BYTES := 10.

(** [linux/net.h], [errno.h], [poll.h]. *)
Definition SS_UNCONNECTED := 1.
Definition SS_CONNECTED := 3.
Definition EAGAIN := 11.
Definition ETIMEDOUT := 110.
Definition POLLERR := 8.
Definition POLLHUP := 16.
(** [POLLOUT | POLLWRNORM | POLLWRBAND]. *)
Definition POLL_WRITE := 772.

(** What the operating system supplies: the [n]-th result of [rand()] and of
    [gettimeofday()]. *)
Class Environment := {
  env_rand : Z → Z;
  env_clock : Z → timeval;
  env_rand_range : ∀ n, 0 ≤ env_rand n ≤ 2147483647
}.

(** [struct tcp_data], the heap of connections, [global_control_serial_num],
    and how often the environment was asked; addresses from [next_addr] on are
    unused. *)
Record tcp_data := MkTcp {
  conns : gmap Z tcp_conn; conn_list : list Z; conn_stub_list : list Z;
  fast_enabled : Z; fast_duplicates : Z; mss : Z; total_conn_stats : tcp_conn_stats;
  control_serial_num : Z; rand_calls : Z; clock_calls : Z; next_addr : Z
}.

Definition put_conns (m : gmap Z tcp_conn) (d : tcp_data) : tcp_data :=
  MkTcp m (conn_list d) (conn_stub_list d) (fast_enabled d) (fast_duplicates d) (mss d)
    (total_conn_stats d) (control_serial_num d) (rand_calls d) (clock_calls d) (next_addr d).
Definition put_lists (l stubs : list Z) (d : tcp_data) : tcp_data :=
  MkTcp (conns d) l stubs (fast_enabled d) (fast_duplicates d) (mss d)
    (total_conn_stats d) (control_serial_num d) (rand_calls d) (clock_calls d) (next_addr d).
Definition put_params (en dup m : Z) (d : tcp_data) : tcp_data :=
  MkTcp (conns d) (conn_list d) (conn_stub_list d) en dup m
    (total_conn_stats d) (control_serial_num d) (rand_calls d) (clock_calls d) (next_addr d).
Definition put_total (t : tcp_conn_stats) (d : tcp_data) : tcp_data :=
  MkTcp (conns d) (conn_list d) (conn_stub_list d) (fast_enabled d) (fast_duplicates d) (mss d)
    t (control_serial_num d) (rand_calls d) (clock_calls d) (next_addr d).
Definition put_env (serial r k a : Z) (d : tcp_data) : tcp_data :=
  MkTcp (conns d) (conn_list d) (conn_stub_list d) (fast_enabled d) (fast_duplicates d) (mss d)
    (total_conn_stats d) serial r k a.

Definition zero_stats : tcp_conn_stats :=
  let z := d_of_Z 0 in
  MkStats 0 0 0 z 0 z 0 z 0 0 0 0 0 0 0 0 0 0 z 0 z 0.

(** The bytes of the options array after writing [bytes] at its start. *)
Definition overwrite (bytes old : list Z) : list Z := bytes ++ drop (length bytes) old.

(** ** Options of outgoing segments *)

(** SYN and SYN-ACK segments: MSS, then the options attempted or agreed. *)
Definition syn_options (mss : Z) (sack ts ws : bool) (now ws_recv : Z) : list Z :=
  [TCP_OPT_MSS; TCP_OPT_MSS_BYTES] ++ le_bytes 2 (htons mss)
  ++ (if sack then (if ts then [] else [TCP_OPT_NOP; TCP_OPT_NOP])
                   ++ [TCP_OPT_SACK_PERM; TCP_OPT_SACK_PERM_BYTES] else [])
  ++ (if ts then (if sack then [] else [TCP_OPT_NOP; TCP_OPT_NOP])
                 ++ [TCP_OPT_TS; TCP_OPT_TS_BYTES] ++ le_bytes 4 (htonl (u32 now)) ++ [0; 0; 0; 0]
      else [])
  ++ (if ws then [TCP_OPT_NOP; TCP_OPT_WS; TCP_OPT_WS_BYTES; ws_recv] else []).

(** The inner loop over the receive queue: nodes that continue the block. *)
Fixpoint sack_run (lo hi : Z) (nodes : list (tcp_node tcp_seg)) : Z * list (tcp_node tcp_seg) :=
  match nodes with
  | [] => (hi, [])
  | n :: rest =>
      if lo <=? hi then
        if n_seq_num n <=? hi then sack_run lo (n_seq_end n) rest else (hi, nodes)
      else if n_seq_num n <=? hi then sack_run lo (n_seq_end n) rest
      else if lo <? n_seq_num n then sack_run lo (n_seq_end n) rest
      else (hi, nodes)
  end.

(** The blocks written until the options are longer than 32 bytes, with the
    resulting length. *)
Fixpoint sack_blocks (fuel : nat) (nodes : list (tcp_node tcp_seg)) (opt_len : Z) : list Z * Z :=
  match fuel, nodes with
  | S fuel, n :: rest =>
      let '(hi, rest') := sack_run (n_seq_num n) (n_seq_end n) rest in
      let block := le_bytes 4 (htonl (n_seq_num n)) ++ le_bytes 4 (htonl hi) in
      let opt_len := opt_len + 8 in
      if 32 <? opt_len then (block, opt_len)
      else let '(b, l) := sack_blocks fuel rest' opt_len in (block ++ b, l)
  | _, _ => ([], opt_len)
  end.

Section Conn.
Context {Q : Type} `{BoundedFifo Q finsFrame} `{Environment}.
Abbreviation ST := (mstate Q tcp_data) (only parsing).

(** ** Access to the module data and to connections *)

Definition tget : M ST tcp_data := s ← get; mret (md s).
Definition tmod (f : tcp_data → tcp_data) : M ST unit := modify (λ s, set_md (f (md s)) s).

Definition cget (p : loc) : M ST tcp_conn :=
  d ← tget; match conns d !! p with Some c => mret c | None => segv end.
Definition cset (p : loc) (c : tcp_conn) : M ST unit :=
  tmod (λ d, put_conns (<[p := c]> (conns d)) d).
#[local] Notation "c ⇐ p ; z" := (mbind (λ c : tcp_conn, z) (cget p))
  (at level 20, p at level 100, z at level 200) : fins_scope.
Definition cmod (p : loc) (f : tcp_conn → tcp_conn) : M ST unit :=
  c ⇐ p; cset p (f c).

Definition fresh : M ST loc :=
  d ← tget;
  tmod (put_env (control_serial_num d) (rand_calls d) (clock_calls d) (next_addr d + 1)) ;;
  mret (next_addr d).
Definition tcp_rand : M ST Z :=
  d ← tget;
  tmod (put_env (control_serial_num d) (rand_calls d + 1) (clock_calls d) (next_addr d)) ;;
  mret (env_rand (rand_calls d)).
Definition gettimeofday : M ST timeval :=
  d ← tget;
  tmod (put_env (control_serial_num d) (rand_calls d) (clock_calls d + 1) (next_addr d)) ;;
  mret (env_clock (clock_calls d)).
Definition gen_control_serial_num : M ST Z :=
  d ← tget;
  let num := u32 (control_serial_num d + 1) in
  tmod (put_env num (rand_calls d) (clock_calls d) (next_addr d)) ;;
  mret num.

(** A counter of the connection, and of the connection and the module. *)
Definition stat1 (p : loc) (f : tcp_conn_stats → tcp_conn_stats) : M ST unit :=
  cmod p (λ c, put_stats (f (c_stats c)) c).
Definition stat (p : loc) (f : tcp_conn_stats → tcp_conn_stats) : M ST unit :=
  stat1 p f ;; tmod (λ d, put_total (f (total_conn_stats d)) d).

(** [timer_once_start] and [timer_stop] on the two timers. *)
Definition start_gbn (p : loc) (millis : double) : M ST unit :=
  t ← lift (timer_once_start millis); cmod p (set_gbn_timer t).
Definition stop_gbn (p : loc) : M ST unit := cmod p (set_gbn_timer timer_stop).
Definition start_delayed (p : loc) (millis : double) : M ST unit :=
  t ← lift (timer_once_start millis); cmod p (set_delayed_timer t).
Definition stop_delayed (p : loc) : M ST unit := cmod p (set_delayed_timer timer_stop).

Definition post_main (p : loc) : M ST unit :=
  cmod p (λ c, set_main_wait_sem (c_main_wait_sem c + 1) c).

(** [if (conn->main_waiting) { conn->main_waiting = 0; sem_post(...); }] *)
Definition wake_main (p : loc) : M ST unit :=
  c ⇐ p;
  if c_main_waiting c then cmod p (set_main_waiting false) ;; post_main p else mret tt.

(** The handlers of expired timers. *)
Definition sem_to_handler (set_flag : bool → tcp_conn → tcp_conn) (p : loc) : M ST unit :=
  cmod p (set_flag true) ;; wake_main p.

Definition flag_request (addr : loc) (c : tcp_conn) : tcp_conn :=
  let q := c_request_queue c in
  let expire n :=
    if n_addr n =? addr then
      let r := n_data n in
      MkNode (n_addr n) (MkReq (r_data r) (r_len r) (r_flags r) (r_serial_num r) (r_timer r) true)
        (n_len n) (n_seq_num n) (n_seq_end n)
    else n in
  set_request_queue (MkTQ (q_max q) (q_len q) (expire <$> q_nodes q)) c.
Definition intsem_to_handler (p : loc) (addr : loc) : M ST unit :=
  cmod p (set_request_interrupt true) ;; cmod p (flag_request addr) ;; post_main p.

(** [conn->threads++] and [conn->threads--], an [uint32_t]. *)
Definition enter_conn (p : loc) : M ST unit := cmod p (λ c, set_threads (u32 (c_threads c + 1)) c).
Definition leave_conn (p : loc) : M ST unit := cmod p (λ c, set_threads (u32 (c_threads c - 1)) c).

(** ** Creation and look-up *)

Definition tcp_conn_init (host_ip host_port rem_ip rem_port m : Z) : tcp_conn :=
  let z := d_of_Z 0 in
  MkConn TS_CLOSED
    (MkIdent host_ip host_port rem_ip rem_port)
    (MkCtl 1 true 0 false false TCP_BACKLOG_LIST_MAX [] false 0 false None 0)
    (MkQueues (tcp_queue_create TCP_REQUEST_LIST_MAX) (tcp_queue_create TCP_MAX_QUEUE_DEFAULT)
       (tcp_queue_create TCP_MAX_QUEUE_DEFAULT) (tcp_queue_create TCP_MAX_QUEUE_DEFAULT) 0 0)
    (MkWait false false 0 false true 0)
    (MkRtx 0 0 false 0 false false 0 None)
    (MkDack false false 0 (tcp_seg_create host_ip host_port rem_ip rem_port 0 0) None)
    (MkSnd false false 0 0 TCP_MAX_WINDOW_DEFAULT TCP_MAX_WINDOW_DEFAULT 0 0 0 0)
    (MkRcv 0 TCP_MAX_WINDOW_DEFAULT TCP_MAX_WINDOW_DEFAULT 0 TCP_MAX_WINDOW_DEFAULT false)
    (MkCong (u16 m) RENO_SLOWSTART (d_of_Z (u16 m)) z false true 0 0 (0, 0) z z
       (d_of_Z TCP_GBN_TO_DEFAULT))
    (MkOpts false false 0 false false false false TCP_OPT_WS_DEFAULT TCP_OPT_WS_DEFAULT)
    zero_stats.

Definition tcp_conn_create (host_ip host_port rem_ip rem_port : Z) : M ST loc :=
  d ← tget;
  p ← fresh;
  cset p (tcp_conn_init host_ip host_port rem_ip rem_port (mss d)) ;;
  mret p.

Definition tcp_conn_host_test (c : tcp_conn) (host_ip host_port : Z) : bool :=
  (c_host_ip c =? host_ip) && (c_host_port c =? host_port).
Definition tcp_conn_addr_test (c : tcp_conn) (host_ip host_port rem_ip rem_port : Z) : bool :=
  (c_host_ip c =? host_ip) && (c_host_port c =? host_port)
  && (c_rem_ip c =? rem_ip) && (c_rem_port c =? rem_port).

(** [list_find2], [list_find4]: the first connection of a list, 0 for NULL. *)
Fixpoint conn_find (test : tcp_conn → bool) (l : list loc) : M ST loc :=
  match l with
  | [] => mret 0
  | p :: l => c ⇐ p; if test c then mret p else conn_find test l
  end.
Definition find_conn (host_ip host_port rem_ip rem_port : Z) : M ST loc :=
  d ← tget; conn_find (λ c, tcp_conn_addr_test c host_ip host_port rem_ip rem_port) (conn_list d).
Definition find_stub (host_ip host_port : Z) : M ST loc :=
  d ← tget; conn_find (λ c, tcp_conn_host_test c host_ip host_port) (conn_stub_list d).

(** [list_remove(list, conn)]: the first occurrence. *)
Fixpoint list_del (p : loc) (l : list loc) : list loc :=
  match l with
  | [] => []
  | q :: l => if q =? p then l else q :: list_del p l
  end.

(** [list_has_space] and [list_append] on the list of connections. *)
Definition conn_list_has_space : M ST bool :=
  d ← tget; mret (Z.of_nat (length (conn_list d)) <? TCP_CONN_MAX).
Definition conn_list_append (p : loc) : M ST unit :=
  tmod (λ d, put_lists (conn_list d ++ [p]) (conn_stub_list d) d).
Definition conn_list_remove (p : loc) : M ST unit :=
  tmod (λ d, put_lists (list_del p (conn_list d)) (conn_stub_list d) d).
Definition stub_list_has_space : M ST bool :=
  d ← tget; mret (Z.of_nat (length (conn_stub_list d)) <? TCP_CONN_MAX).
Definition stub_list_append (p : loc) : M ST unit :=
  tmod (λ d, put_lists (conn_list d) (conn_stub_list d ++ [p]) d).
Definition stub_list_remove (p : loc) : M ST unit :=
  tmod (λ d, put_lists (conn_list d) (list_del p (conn_stub_list d)) d).

(** ** Control frames *)

Definition meta_of (kvs : list (string * Z)) : M ST metadata :=
  lift (match meta_write_all kvs [] with
        | Ok (_, m) => Ok m
        | Segv => Segv | Exit => Exit | NoFuel => NoFuel
        end).

(** [if (module_send_flow(...)) return 1; else { freeFinsFrame(ff); return 0; }] *)
Definition send_flow_or_free (ff : finsFrame) (flow : Z) : M ST Z :=
  sent ← module_send_flow ff flow;
  if sent =? 0 then free_ff ff ;; mret 0 else mret 1.

(** The frame both [tcp_conn_send_fcf] and [tcp_conn_send_exec_reply] build. *)
Definition conn_ctrl_frame (c : tcp_conn) (serial opcode param_id ret_val ret_msg : Z)
    : M ST finsFrame :=
  m ← meta_of [("protocol", TCP_PT_TCP); ("ret_msg", ret_msg); ("family", AF_INET);
               ("state", SS_CONNECTED); ("host_ip", c_host_ip c); ("host_port", c_host_port c);
               ("rem_ip", c_rem_ip c); ("rem_port", c_rem_port c)];
  s ← get;
  mret (MkFrame 0 (Some m) (Ctrl (MkCtrl (u8 (m_index (fm s))) serial opcode param_id ret_val 0 CNull))).

Definition tcp_conn_send_fcf (p : loc) (opcode param_id ret_val ret_msg : Z) : M ST Z :=
  c ⇐ p;
  serial ← gen_control_serial_num;
  ff ← conn_ctrl_frame c serial opcode param_id ret_val ret_msg;
  send_flow_or_free ff TCP_FLOW_DAEMON.

Definition tcp_conn_send_exec_reply (p : loc) (serial_num param_id ret_val ret_msg : Z) : M ST Z :=
  c ⇐ p;
  ff ← conn_ctrl_frame c serial_num CTRL_EXEC_REPLY param_id ret_val ret_msg;
  send_flow_or_free ff TCP_FLOW_DAEMON.

Fixpoint ff_write_all (ff : finsFrame) (kvs : list (string * Z)) : M ST finsFrame :=
  match kvs with
  | [] => mret ff
  | (k, v) :: kvs => ff ← ff_write ff k (VInt32 v); ff_write_all ff kvs
  end.

(** The frame is kept, neither sent nor released, for another opcode. *)
Definition tcp_conn_reply_fcf (p : loc) (ff : finsFrame) (ret_val ret_msg : Z) : M ST Z :=
  c ⇐ p;
  ff ← ff_write_all ff
         [("protocol", TCP_PT_TCP); ("ret_msg", ret_msg); ("family", AF_INET);
          ("state", state_code (c_state c)); ("host_ip", c_host_ip c);
          ("host_port", c_host_port c); ("rem_ip", c_rem_ip c); ("rem_port", c_rem_port c)];
  k ← ff_ctrl ff;
  s ← get;
  let reply op :=
    module_to_switch
      (MkFrame (sender_id k) (metaData ff)
         (Ctrl (MkCtrl (u8 (m_index (fm s))) (serial_num k) op (param_id k) ret_val
                  (data_len k) (cdata k)))) ;;
    mret 1 in
  if opcode k =? CTRL_READ_PARAM then reply CTRL_READ_PARAM_REPLY
  else if opcode k =? CTRL_SET_PARAM then reply CTRL_SET_PARAM_REPLY
  else if opcode k =? CTRL_EXEC then reply CTRL_EXEC_REPLY
  else mret 0.

Definition tcp_conn_is_finished (c : tcp_conn) : bool :=
  tcp_queue_is_empty (c_request_queue c) && tcp_queue_is_empty (c_write_queue c)
  && (c_send_seq_num c =? c_send_seq_end c).

Definition tcp_conn_shutdown (p : loc) : M ST unit :=
  cmod p (set_running_flag false) ;; post_main p.

(** [list_for_each(conn->backlog_list, tcp_conn_shutdown)]. *)
Fixpoint shutdown_all (l : list loc) : M ST unit :=
  match l with
  | [] => mret tt
  | p :: l => tcp_conn_shutdown p ;; shutdown_all l
  end.

(** ** Outgoing segments *)

Definition tcp_seg_add_options (p : loc) (seg : tcp_seg) : M ST tcp_seg :=
  c ⇐ p;
  let syn sack ts ws :=
    now ← (if ts : bool then t ← gettimeofday; mret t.1 else mret 0);
    let o := syn_options (c_MSS c) sack ts ws now (c_ws_recv c) in
    mret (seg_opts (overwrite o (s_options seg)) (Z.of_nat (length o)) seg) in
  match c_state c with
  | TS_SYN_SENT => syn (c_sack_attempt c) (c_tsopt_attempt c) (c_wsopt_attempt c)
  | TS_SYN_RECV => syn (c_sack_enabled c) (c_tsopt_enabled c) (c_wsopt_enabled c)
  | TS_ESTABLISHED =>
      now ← (if c_tsopt_enabled c then t ← gettimeofday; mret t.1 else mret 0);
      let ts := if c_tsopt_enabled c then
                  [TCP_OPT_NOP; TCP_OPT_NOP; TCP_OPT_TS; TCP_OPT_TS_BYTES]
                  ++ le_bytes 4 (htonl (u32 now)) ++ le_bytes 4 (htonl 0)
                else [] in
      let n := Z.of_nat (length ts) in
      if c_sack_enabled c then
        let nodes := q_nodes (c_recv_queue c) in
        let '(blocks, len) := sack_blocks (length nodes) nodes (n + 4) in
        let o := ts ++ [TCP_OPT_NOP; TCP_OPT_NOP; TCP_OPT_SACK; 2 + Z.of_nat (length blocks)] ++ blocks in
        mret (seg_opts (overwrite o (s_options seg))
                (if bool_decide (blocks = []) then len - 4 else len) seg)
      else mret (seg_opts (overwrite ts (s_options seg)) n seg)
  | _ => mret (seg_opts (s_options seg) 0 seg)
  end.

Definition tcp_seg_delayed_ack (p : loc) (seg : tcp_seg) : M ST tcp_seg :=
  c ⇐ p;
  if c_delayed_flag c then
    stop_delayed p ;;
    cmod p (set_delayed_flag false) ;;
    cmod p (set_to_delayed_flag false) ;;
    mret (seg_flags (Z.lor (s_flags seg) (c_delayed_ack_flags c)) seg)
  else mret seg.

(** [if (conn->fin_sent && !conn->fin_sep && seg ends at send_seq_end) flags |= FIN] *)
Definition add_fin (c : tcp_conn) (seg : tcp_seg) : tcp_seg :=
  if c_fin_sent c && negb (c_fin_sep c)
     && (u32 (s_seq_num seg + s_data_len seg) =? c_send_seq_end c)
  then seg_flags (Z.lor (s_flags seg) FLAG_FIN) seg else seg.

Definition tcp_seg_update (p : loc) (seg : tcp_seg) (flags : Z) : M ST tcp_seg :=
  c ⇐ p;
  let seg := seg_flags (Z.land flags (Z.lor FLAG_CONTROL FLAG_ECN)) seg in
  seg ← match c_state c with
        | TS_ESTABLISHED | TS_CLOSING | TS_CLOSE_WAIT => tcp_seg_delayed_ack p seg
        | TS_FIN_WAIT_1 | TS_LAST_ACK => seg ← tcp_seg_delayed_ack p seg; mret (add_fin c seg)
        | _ => mret seg
        end;
  let seg := seg_ack (if has (s_flags seg) FLAG_ACK then c_recv_seq_num c else 0) seg in
  let seg := seg_win (u16 (if c_wsopt_enabled c then Z.shiftr (c_recv_win c) (c_ws_recv c)
                           else c_recv_win c)) seg in
  seg ← tcp_seg_add_options p seg;
  let offset := s_opt_len seg / 4 in
  mret (seg_flags (Z.lor (s_flags seg)
          (Z.land (Z.shiftl (MIN_TCP_HEADER_WORDS + offset) 12) FLAG_DATAOFFSET)) seg).

Definition tcp_seg_send (seg : tcp_seg) : M ST Z :=
  ff ← lift (tcp_to_fdf seg);
  send_flow_or_free ff TCP_FLOW_IPV4.

(** A segment without data from the connection: [tcp_seg_create],
    [tcp_seg_update], [tcp_seg_send], [tcp_seg_free]. *)
Definition send_control (p : loc) (flags : Z) : M ST unit :=
  c ⇐ p;
  let seg := tcp_seg_create (c_host_ip c) (c_host_port c) (c_rem_ip c) (c_rem_port c)
               (c_send_seq_end c) (c_send_seq_end c) in
  seg ← tcp_seg_update p seg flags;
  tcp_seg_send seg ;;
  mret tt.

(** The stored acknowledgement, brought up to date and sent; and
    [if (conn->recv_win == 0) conn->flow_stopped = 1;]. *)
Definition update_ack_seg (p : loc) (flags : Z) : M ST unit :=
  c ⇐ p;
  let seg := seg_seqs (c_send_seq_end c) (c_send_seq_end c) (c_ack_seg c) in
  seg ← tcp_seg_update p seg flags;
  cmod p (set_ack_seg seg).
Definition check_flow (p : loc) : M ST unit :=
  cmod p (λ c, if c_recv_win c =? 0 then set_flow_stopped true c else c).
Definition send_ack_seg (p : loc) : M ST unit :=
  c ⇐ p; tcp_seg_send (c_ack_seg c) ;; check_flow p.

(** Marks the FIN as sent on its own behind [send_seq_end], and sends it. *)
Definition mark_fin (p : loc) : M ST unit :=
  cmod p (λ c, c |> set_fin_sent true |> set_fin_sep true
                 |> set_fsse (u32 (c_send_seq_end c + 1))).
Definition send_fin (p : loc) : M ST unit := mark_fin p ;; send_control p (Z.lor FLAG_FIN FLAG_ACK).

(** ** Frames to the daemon, addresses in metadata *)

Definition tcp_metadata_read_conn (ff : finsFrame) : M ST (Z * Z * Z * Z * Z) :=
  state ← ff_read ff "state";
  host_ip ← ff_read ff "host_ip";
  host_port ← ff_read ff "host_port";
  if SS_UNCONNECTED <? state then
    rem_ip ← ff_read ff "rem_ip";
    rem_port ← ff_read ff "rem_port";
    mret (state, host_ip, u16 host_port, rem_ip, u16 rem_port)
  else mret (state, host_ip, u16 host_port, 0, 0).

Definition tcp_metadata_write_conn (ff : finsFrame) (state host_ip host_port rem_ip rem_port : Z)
    : M ST finsFrame :=
  ff_write_all ff
    ([("state", state); ("host_ip", host_ip); ("host_port", host_port)]
     ++ if SS_UNCONNECTED <? state then [("rem_ip", rem_ip); ("rem_port", rem_port)] else []).

Definition tcp_fcf_to_daemon (state param_id host_ip host_port rem_ip rem_port ret_val : Z) : M ST Z :=
  m ← meta_of ([("protocol", TCP_PT_TCP); ("state", state); ("host_ip", host_ip);
                ("host_port", host_port)]
               ++ if SS_UNCONNECTED <? state then [("rem_ip", rem_ip); ("rem_port", rem_port)] else []);
  serial ← gen_control_serial_num;
  s ← get;
  send_flow_or_free
    (MkFrame 0 (Some m)
       (Ctrl (MkCtrl (u8 (m_index (fm s))) serial CTRL_EXEC_REPLY param_id ret_val 0 CNull)))
    TCP_FLOW_DAEMON.

(** On failure the frame is released without the data, which stays with the
    segment. *)
Definition tcp_fdf_to_daemon (data_len : Z) (data : option (list Z))
    (host_ip host_port rem_ip rem_port : Z) : M ST Z :=
  m ← meta_of [("recv_protocol", TCP_PT_TCP); ("recv_family", AF_INET);
               ("recv_src_ipv4", host_ip); ("recv_src_port", host_port);
               ("recv_dst_ipv4", rem_ip); ("recv_dst_port", rem_port)];
  let ff := MkFrame 0 (Some m) (Data (MkData DIR_UP (u32 data_len) data)) in
  sent ← module_send_flow ff TCP_FLOW_DAEMON;
  if sent =? 0 then
    free_ff (set_body (Data (MkData DIR_UP (u32 data_len) None)) ff) ;; mret 0
  else mret 1.

End Conn.

(** [c ⇐ p; z] reads the connection at [p]. *)
Notation "c ⇐ p ; z" := (mbind (λ c : tcp_conn, z) (cget p))
  (at level 20, p at level 100, z at level 200) : fins_scope.
