(* ===== verification/TcpMain.v ===== *)
(** * TCP: requests to send and the main thread of a connection ([modules/tcp/tcp.c])

    Each connection has a thread that runs [tcp_main_thread]: it looks at the
    state, does one piece of work, and sleeps when there is none.  One round of
    its loop is [tcp_main_round]; [tcp_main_exit] is what follows the loop. *)

From stdpp Require Import base list gmap strings.
From Stdlib Require Import ZArith Lia.
From S2P Require Import Prelude Queue Metadata Frame Module IPv4 UDP Double TcpQueue TcpSeg TcpRecord TcpConn.
Open Scope Z_scope.
Open Scope fins_scope.

Section Main.
Context {Q : Type} `{BoundedFifo Q finsFrame} `{Environment}.
Abbreviation ST := (mstate Q tcp_data) (only parsing).

(** ** Requests to send *)

(** [conn->write_queue->max - (conn->write_queue->len - conn->write_index)], an [int]. *)
Definition write_space_left (c : tcp_conn) : Z :=
  s32 (q_max (c_write_queue c) - (q_len (c_write_queue c) - c_write_index c)).

(** The loop over the requests, [front] being the address of the first. *)
Fixpoint interrupt_loop (p front : loc) (nodes : list (tcp_node tcp_request)) : M ST unit :=
  match nodes with
  | [] => mret tt
  | n :: rest =>
      let request := n_data n in
      if r_to_flag request then
        cmod p (λ c, set_request_queue (tcp_queue_remove (c_request_queue c) n) c) ;;
        (c ⇐ p;
         if (n_addr n =? front) && negb (c_request_index c =? 0) then
           tcp_conn_send_exec_reply p (r_serial_num request) TCP_EXEC_SEND FCF_TRUE
             (u32 (c_request_index c)) ;;
           cmod p (set_request_index 0)
         else
           tcp_conn_send_exec_reply p (r_serial_num request) TCP_EXEC_SEND FCF_FALSE EAGAIN ;;
           mret tt) ;;
        interrupt_loop p front rest
      else interrupt_loop p front rest
  end.

Definition handle_interrupt (p : loc) : M ST unit :=
  c ⇐ p;
  match q_nodes (c_request_queue c) with
  | [] => mret tt
  | front :: _ => interrupt_loop p (n_addr front) (q_nodes (c_request_queue c))
  end.

(** A new node with [buf] at the end of the write queue. *)
Definition write_append (p : loc) (buf : list Z) (len seq_num seq_end : Z) : M ST unit :=
  addr ← fresh;
  cmod p (λ c, set_write_queue
                 (tcp_queue_append (c_write_queue c) (tcp_node_create addr buf len seq_num seq_end)) c).

(** [memcpy] of [n] bytes from [index] on; a negative [n] is a huge size. *)
Definition copy_from (data : list Z) (index n : Z) : res (list Z) :=
  if n <? 0 then Segv else read_bytes (Some (drop (Z.to_nat index) data)) n.

(** The loop: [nodes] are the requests still queued; the space left is
    returned. *)
Fixpoint requests_loop (p : loc) (space : Z) (nodes : list (tcp_node tcp_request)) : M ST Z :=
  match nodes with
  | [] => mret space
  | n :: rest =>
      if space =? 0 then mret space
      else
        let request := n_data n in
        c ⇐ p;
        let index := c_request_index c in
        let avail := s32 (r_len request - index) in
        if space <? avail then
          buf ← lift (copy_from (r_data request) index space);
          cmod p (set_request_index (s32 (index + space))) ;;
          write_append p buf space (u32 index) (u32 (index + space - 1)) ;;
          mret 0
        else
          buf ← lift (copy_from (r_data request) index avail);
          cmod p (set_request_index 0) ;;
          write_append p buf avail (u32 (r_len request - avail)) (u32 (r_len request - 1)) ;;
          cmod p (λ c, set_request_queue (tcp_queue_remove_front (c_request_queue c)).2 c) ;;
          tcp_conn_send_exec_reply p (r_serial_num request) TCP_EXEC_SEND FCF_TRUE (r_len request) ;;
          requests_loop p (space - avail) rest
  end.

(** [if (conn->poll_events & POLL_WRITE) if (space > 0) ...]: the daemon is
    told once that there is room. *)
Definition poll_alert (p : loc) (space : Z) : M ST unit :=
  c ⇐ p;
  if has (c_poll_events c) POLL_WRITE && (0 <? space) then
    tcp_conn_send_fcf p CTRL_ALERT TCP_ALERT_POLL FCF_TRUE POLL_WRITE ;;
    cmod p (λ c, set_poll_events (Z.land (c_poll_events c) (Z.lnot POLL_WRITE)) c)
  else mret tt.

Definition tcp_handle_requests (p : loc) : M ST unit :=
  c ⇐ p;
  space ← requests_loop p (write_space_left c) (q_nodes (c_request_queue c));
  poll_alert p space.

(** ** The work of each state *)

(** The flags of expired timers and requests are taken back. *)
Definition clear_flags (p : loc) : M ST unit :=
  cmod p (λ c, c |> set_request_interrupt false |> set_to_gbn_flag false
                 |> set_to_delayed_flag false).

Definition tcp_main_closed (p : loc) : M ST unit :=
  clear_flags p ;; cmod p (set_main_wait_flag true).

Definition tcp_main_listen (p : loc) : M ST unit :=
  clear_flags p ;; cmod p (set_main_wait_flag true).

(** A new initial sequence number, everything before it forgotten. *)
Definition new_issn (p : loc) : M ST unit :=
  r ← tcp_rand;
  cmod p (λ c, c |> set_issn (u32 r) |> set_send_seq_num (u32 r) |> set_send_seq_end (u32 r)).

(** [conn->timeout = fmin(2.0 * conn->timeout, max)] and the timer. *)
Definition back_off (p : loc) (max : Z) : M ST unit :=
  cmod p (λ c, set_timeout (fmin (d_mul (d_of_Z 2) (c_timeout c)) (d_of_Z max)) c) ;;
  c ⇐ p; start_gbn p (c_timeout c).

(** Giving up is answered only when a request waits for the connection. *)
Definition tcp_main_syn_sent (p : loc) : M ST unit :=
  cmod p (set_request_interrupt false) ;;
  c ⇐ p;
  let resend_syn :=
    new_issn p ;;
    send_control p FLAG_SYN ;;
    cmod p (set_main_wait_flag false) ;;
    back_off p TCP_GBN_TO_MAX ;;
    cmod p (set_to_delayed_flag false) in
  if c_to_gbn_flag c then
    cmod p (set_to_gbn_flag false) ;;
    if d_eq (c_timeout c) (d_of_Z TCP_GBN_TO_MAX) then
      match c_ff c with
      | Some ff =>
          tcp_conn_reply_fcf p ff FCF_FALSE ETIMEDOUT ;;
          cmod p (set_ff None) ;;
          tcp_conn_shutdown p
      | None => resend_syn
      end
    else resend_syn
  else
    cmod p (set_main_wait_flag true) ;;
    cmod p (set_to_delayed_flag false).

Definition tcp_main_syn_recv (p : loc) : M ST unit :=
  cmod p (set_request_interrupt false) ;;
  c ⇐ p;
  (if c_to_gbn_flag c then
     cmod p (set_to_gbn_flag false) ;;
     if c_active_open c then
       cmod p (set_state TS_SYN_SENT) ;;
       new_issn p ;;
       send_control p FLAG_SYN ;;
       cmod p (set_main_wait_flag false) ;;
       back_off p TCP_GBN_TO_MAX
     else if d_eq (c_timeout c) (d_of_Z TCP_MSL_TO_DEFAULT) then
       match c_ff c with
       | Some ff =>
           tcp_conn_reply_fcf p ff FCF_FALSE ETIMEDOUT ;;
           cmod p (set_ff None) ;;
           tcp_conn_shutdown p
       | None => mret tt
       end
     else
       send_control p (Z.lor FLAG_SYN FLAG_ACK) ;;
       back_off p TCP_MSL_TO_DEFAULT ;;
       cmod p (set_to_gbn_flag false)
   else cmod p (set_main_wait_flag true)) ;;
  cmod p (set_to_delayed_flag false).

(** The segment in the node at [addr] is brought up to date with the flags
    and sent; its length is taken from the window. *)
Definition set_node_seg (addr : loc) (seg : tcp_seg) (c : tcp_conn) : tcp_conn :=
  let q := c_send_queue c in
  let upd n := if n_addr n =? addr
               then MkNode (n_addr n) seg (n_len n) (n_seq_num n) (n_seq_end n) else n in
  set_send_queue (MkTQ (q_max q) (q_len q) (upd <$> q_nodes q)) c.
Definition resend (p : loc) (n : tcp_node tcp_seg) (flow : bool) : M ST unit :=
  seg ← tcp_seg_update p (n_data n) FLAG_ACK;
  cmod p (set_node_seg (n_addr n) seg) ;;
  tcp_seg_send seg ;;
  (if flow then check_flow p else mret tt) ;;
  cmod p (λ c, set_send_win (uint32_decrease (c_send_win c) (s_data_len seg)) c).

(** [conn->gbn_node->next], NULL being 0; following a pointer to a node that
    is no longer queued is [Segv]. *)
Fixpoint node_next (addr : loc) (l : list (tcp_node tcp_seg)) : res loc :=
  match l with
  | [] => Segv
  | n :: rest =>
      if n_addr n =? addr then Ok (match rest with m :: _ => n_addr m | [] => 0 end)
      else node_next addr rest
  end.

Definition flight_size (c : tcp_conn) : Z := u32 (c_send_seq_end c - c_send_seq_num c).
Definition recv_space (c : tcp_conn) : double := d_sub (d_of_Z (c_send_win c)) (d_of_Z (flight_size c)).
Definition cong_space (c : tcp_conn) : double := d_sub (c_cong_window c) (d_of_Z (flight_size c)).

(** The congestion window after a time-out. *)
Definition cong_timeout (c : tcp_conn) : tcp_conn :=
  match c_cong_state c with
  | RENO_SLOWSTART =>
      let t := fmax (d_div (d_of_Z (flight_size c)) (d_of_Z 2)) (d_mul (d_of_Z 2) (d_of_Z (c_MSS c))) in
      c |> set_cong_state RENO_AVOIDANCE |> set_threshhold t
        |> set_cong_window (d_add t (d_mul (d_of_Z 3) (d_of_Z (c_MSS c))))
  | RENO_AVOIDANCE | RENO_RECOVERY =>
      c |> set_cong_state RENO_SLOWSTART |> set_threshhold (d_of_Z (c_send_max_win c))
        |> set_cong_window (d_of_Z (c_MSS c))
  end.

Definition stat_timeout (p : loc) : M ST unit :=
  c ⇐ p;
  stat1 p (λ t, t |> stat_timeout_total (d_add (st_timeout_total t) (c_timeout c))
                  |> stat_timeout_count (u32 (st_timeout_count t + 1))).

(** The branch for the expired retransmission timer with segments in flight;
    [flow] is set in the functions that test the receive window. *)
Definition gbn_timeout (p : loc) (front : tcp_node tcp_seg) (flow : bool) : M ST unit :=
  cmod p (λ c, c |> set_gbn_flag true |> set_rtt_flag false |> cong_timeout
                 |> set_gbn_node (n_addr front)) ;;
  resend p front flow ;;
  c ⇐ p;
  start_gbn p (c_timeout c) ;;
  cmod p (set_main_wait_flag false) ;;
  stat_timeout p.

Definition bump_gbn (t : tcp_conn_stats) : tcp_conn_stats := stat_gbn (u32 (st_gbn t + 1)) t.
Definition bump_fast (t : tcp_conn_stats) : tcp_conn_stats := stat_fast (u32 (st_fast t + 1)) t.

(** The branch for the fast retransmission. *)
Definition fast_retransmit (p : loc) (flow : bool) : M ST unit :=
  cmod p (set_fast_flag false) ;;
  stat p bump_fast ;;
  c ⇐ p;
  match q_nodes (c_send_queue c) with
  | front :: _ => resend p front flow
  | [] => mret tt
  end.

(** The branch that goes back to the next segment in flight; [flow] also
    stands for the counter that only [tcp_main_established] keeps here. *)
Definition gbn_resend (p : loc) (flow : bool) : M ST unit :=
  c ⇐ p;
  match q_nodes (c_send_queue c) with
  | [] => cmod p (set_gbn_flag false) ;; if flow then stat p bump_gbn else mret tt
  | front :: _ =>
      if d_lt (d_of_Z 1) (recv_space c) && d_lt (d_of_Z 1) (cong_space c) then
        next ← lift (if c_first_flag c then Ok (n_addr front)
                     else node_next (c_gbn_node c) (q_nodes (c_send_queue c)));
        cmod p (set_gbn_node next) ;;
        match find_first (λ n, n_addr n =? next) (q_nodes (c_send_queue c)) with
        | Some n => resend p n flow
        | None => cmod p (set_gbn_flag false)
        end
      else cmod p (set_main_wait_flag true)
  end.

(** The number of bytes of the next segment. *)
Definition next_len (c : tcp_conn) (write_space : Z) : Z :=
  let data_len := if c_MSS c <? write_space then c_MSS c else write_space in
  let data_len := if c_send_win c <? data_len then c_send_win c else data_len in
  if d_lt (cong_space c) (d_of_Z data_len) then u32 (d_trunc (cong_space c)) else data_len.

(** After a new segment: it is queued until acknowledged, and the clock and
    the retransmission timer are started when they are not running. *)
Definition queue_sent (p : loc) (seg : tcp_seg) (data_len : Z) : M ST unit :=
  addr ← fresh;
  cmod p (λ c,
    let node := tcp_node_create addr seg data_len (s_seq_num seg) (u32 (s_seq_num seg + data_len - 1)) in
    c |> set_send_queue (tcp_queue_append (c_send_queue c) node)
      |> set_send_seq_end (u32 (c_send_seq_end c + data_len))
      |> set_send_win (uint32_decrease (c_send_win c) data_len)).

Definition start_rtt (p : loc) (seq_num : Z) : M ST unit :=
  c ⇐ p;
  if c_rtt_flag c then mret tt
  else
    t ← gettimeofday;
    cmod p (λ c, c |> set_rtt_stamp t |> set_rtt_flag true |> set_rtt_seq_num seq_num
                   |> set_rtt_seq_end (c_send_seq_end c)).

Definition start_first (p : loc) : M ST unit :=
  c ⇐ p;
  if c_first_flag c then
    cmod p (set_first_flag false) ;;
    start_gbn p (c_timeout c) ;;
    cmod p (set_to_gbn_flag false)
  else mret tt.

Definition poll_after_send (p : loc) : M ST unit :=
  c ⇐ p;
  if tcp_queue_is_empty (c_request_queue c) then poll_alert p (write_space_left c) else mret tt.

(** A new segment is cut from the write queue; [prepare] updates its fields
    after the requests have refilled the queue. *)
Definition send_data (p : loc) (prepare : tcp_seg → M ST tcp_seg) (flow : bool) : M ST unit :=
  c ⇐ p;
  let data_len := next_len c (u32 (q_len (c_write_queue c) - c_write_index c)) in
  let seg := tcp_seg_create (c_host_ip c) (c_host_port c) (c_rem_ip c) (c_rem_port c)
               (c_send_seq_end c) (c_send_seq_end c) in
  '(seg, index, q) ← lift (tcp_seg_add_data seg (c_write_queue c) (c_write_index c) data_len);
  cmod p (λ c, c |> set_write_queue q |> set_write_index index) ;;
  stat1 p (λ t, stat_sent_data ((st_sent_data t + data_len) mod 2 ^ 64) t) ;;
  tcp_handle_requests p ;;
  seg ← prepare seg;
  (if flow then cmod p (λ c, set_temp_count (u8 (c_temp_count c + 1)) c) else mret tt) ;;
  tcp_seg_send seg ;;
  (if flow then check_flow p else mret tt) ;;
  queue_sent p seg data_len ;;
  start_rtt p (s_seq_num seg) ;;
  start_first p ;;
  poll_after_send p.

(** The window and the congestion window admit another segment. *)
Definition may_send (c : tcp_conn) : bool :=
  (0 <? u32 (q_len (c_write_queue c) - c_write_index c))
  && d_lt (d_of_Z 1) (recv_space c) && d_lt (d_of_Z 1) (cong_space c).

(** The expired delay of an acknowledgement. *)
Definition send_delayed (p : loc) : M ST unit :=
  c ⇐ p;
  if c_to_delayed_flag c then
    cmod p (set_to_delayed_flag false) ;;
    cmod p (set_delayed_flag false) ;;
    update_ack_seg p (c_delayed_ack_flags c) ;;
    send_ack_seg p
  else mret tt.

Definition nothing_to_write (c : tcp_conn) : bool :=
  tcp_queue_is_empty (c_request_queue c) && tcp_queue_is_empty (c_write_queue c).

Definition tcp_main_established (p : loc) : M ST unit :=
  c ⇐ p;
  d ← tget;
  (if c_request_interrupt c then
     cmod p (set_request_interrupt false) ;;
     handle_interrupt p
   else if c_to_gbn_flag c then
     cmod p (set_to_gbn_flag false) ;;
     stat p bump_gbn ;;
     cmod p (λ c, c |> set_first_flag false |> set_fast_flag false) ;;
     match q_nodes (c_send_queue c) with
     | [] => cmod p (set_gbn_flag false)
     | front :: _ => gbn_timeout p front true
     end
   else if c_fast_flag c && negb (fast_enabled d =? 0) then fast_retransmit p true
   else if c_gbn_flag c then gbn_resend p true
   else if nothing_to_write c then cmod p (set_main_wait_flag true)
   else if may_send c then send_data p (λ seg, tcp_seg_update p seg FLAG_ACK) true
   else cmod p (set_main_wait_flag true)) ;;
  send_delayed p.

(** The last segment of the stream carries the FIN. *)
Definition prepare_fin (p : loc) (seg : tcp_seg) : M ST tcp_seg :=
  c ⇐ p;
  if nothing_to_write c then
    cmod p (λ c, c |> set_fin_sent true |> set_fin_sep false
                   |> set_fsse (u32 (s_seq_end seg + 1))) ;;
    tcp_seg_update p seg (Z.lor FLAG_ACK FLAG_FIN)
  else tcp_seg_update p seg FLAG_ACK.

Definition tcp_main_fin_wait_1 (p : loc) : M ST unit :=
  c ⇐ p;
  d ← tget;
  (if c_request_interrupt c then
     cmod p (set_request_interrupt false) ;;
     handle_interrupt p
   else if c_to_gbn_flag c then
     cmod p (set_to_gbn_flag false) ;;
     stat p bump_gbn ;;
     cmod p (λ c, c |> set_first_flag false |> set_fast_flag false) ;;
     match q_nodes (c_send_queue c) with
     | [] =>
         cmod p (set_gbn_flag false) ;;
         if c_fin_sent c && tcp_conn_is_finished c then
           cmod p (λ c, c |> set_fin_sep true |> set_fsse (u32 (c_send_seq_end c + 1))) ;;
           send_control p (Z.lor FLAG_ACK FLAG_FIN)
         else mret tt
     | front :: _ => gbn_timeout p front false
     end
   else if c_fast_flag c && negb (fast_enabled d =? 0) then fast_retransmit p false
   else if c_gbn_flag c then gbn_resend p false
   else if nothing_to_write c then
     if c_fin_sent c then cmod p (set_main_wait_flag true) else send_fin p
   else if may_send c then send_data p (prepare_fin p) false
   else cmod p (set_main_wait_flag true)) ;;
  send_delayed p.

Definition tcp_main_fin_wait_2 (p : loc) : M ST unit :=
  cmod p (λ c, c |> set_request_interrupt false |> set_to_gbn_flag false) ;;
  send_delayed p ;;
  cmod p (set_main_wait_flag true).

Definition tcp_main_closing (p : loc) : M ST unit := tcp_main_fin_wait_1 p.

Definition tcp_main_time_wait (p : loc) : M ST unit :=
  cmod p (set_request_interrupt false) ;;
  c ⇐ p;
  if c_to_gbn_flag c then
    cmod p (set_to_gbn_flag false) ;;
    (if c_delayed_flag c then
       stop_delayed p ;;
       cmod p (λ c, c |> set_delayed_flag false |> set_to_delayed_flag false) ;;
       update_ack_seg p (c_delayed_ack_flags c) ;;
       send_ack_seg p
     else mret tt) ;;
    cmod p (λ c, c |> set_state TS_CLOSED |> set_main_wait_flag false) ;;
    tcp_conn_shutdown p
  else
    cmod p (set_main_wait_flag true) ;;
    send_delayed p.

Definition tcp_main_close_wait (p : loc) : M ST unit := tcp_main_established p.
Definition tcp_main_last_ack (p : loc) : M ST unit := tcp_main_fin_wait_1 p.

(** ** The main thread *)

Definition tcp_main_state (p : loc) : M ST unit :=
  c ⇐ p;
  match c_state c with
  | TS_CLOSED => tcp_main_closed p
  | TS_LISTEN => tcp_main_listen p
  | TS_SYN_SENT => tcp_main_syn_sent p
  | TS_SYN_RECV => tcp_main_syn_recv p
  | TS_ESTABLISHED => tcp_main_established p
  | TS_FIN_WAIT_1 => tcp_main_fin_wait_1 p
  | TS_FIN_WAIT_2 => tcp_main_fin_wait_2 p
  | TS_CLOSING => tcp_main_closing p
  | TS_TIME_WAIT => tcp_main_time_wait p
  | TS_CLOSE_WAIT => tcp_main_close_wait p
  | TS_LAST_ACK => tcp_main_last_ack p
  end.

(** [tcp_conn_stop]: waiting for the other threads is [NoFuel]. *)
Definition tcp_conn_stop (p : loc) : M ST unit :=
  cmod p (set_running_flag false) ;;
  stop_gbn p ;;
  stop_delayed p ;;
  (c ⇐ p; shutdown_all (c_backlog_list c)) ;;
  c ⇐ p;
  if c_threads c <=? 1 then mret tt else nofuel.

(** [tcp_conn_free]: the stored request frame is released. *)
Definition tcp_conn_free (p : loc) : M ST unit :=
  c ⇐ p;
  (match c_ff c with Some ff => free_ff ff | None => mret tt end) ;;
  tmod (λ d, put_conns (delete p (conns d)) d).

Definition tcp_main_exit (p : loc) : M ST unit :=
  c ⇐ p;
  (if c_stub_list c then stub_list_remove p else conn_list_remove p) ;;
  tcp_conn_stop p ;;
  tcp_conn_free p.

(** What the thread does next: another round, sleep until [main_wait_sem] is
    posted, or end. *)
Inductive main_next := MainAgain | MainWait | MainDone.

Definition tcp_main_round (p : loc) : M ST main_next :=
  c ⇐ p;
  if c_running_flag c then
    tcp_main_state p ;;
    c ⇐ p;
    if c_main_wait_flag c && negb (c_request_interrupt c) && negb (c_to_gbn_flag c)
       && negb (c_to_delayed_flag c)
    then
      cmod p (λ c, c |> set_main_wait_flag false |> set_main_waiting true) ;;
      mret MainWait
    else mret MainAgain
  else
    tcp_main_exit p ;;
    mret MainDone.

(** The thread wakes from [secure_sem_wait(&conn->main_wait_sem)]. *)
Definition tcp_main_wake (p : loc) : M ST unit :=
  c ⇐ p;
  if 0 <? c_main_wait_sem c then cmod p (set_main_wait_sem (c_main_wait_sem c - 1)) else nofuel.

End Main.
