(* ===== verification/TcpIn.v ===== *)
(** * TCP: received segments ([modules/tcp/tcp_in.c]) *)

From stdpp Require Import base list gmap strings.
From Stdlib Require Import ZArith Lia.
From S2P Require Import Prelude Queue Metadata Frame Module IPv4 UDP Double TcpWindow TcpQueue TcpSeg.
From S2P Require Import TcpRecord TcpConn TcpMain.
Open Scope Z_scope.
Open Scope fins_scope.

(** ** Windows, round-trip time and congestion control *)

Definition win_of (c : tcp_conn) (seg : tcp_seg) : Z :=
  if c_wsopt_enabled c then u32 (Z.shiftl (s_win_size seg) (c_ws_send c)) else s_win_size seg.

(** The segment is newer than the one the window was last taken from. *)
Definition newer_window (c : tcp_conn) (seg : tcp_seg) : bool :=
  (c_send_win_seq c <? s_seq_num seg)
  || ((c_send_win_seq c =? s_seq_num seg) && (c_send_win_ack c <=? s_ack_num seg)).

Definition take_window (seg : tcp_seg) (c : tcp_conn) : tcp_conn :=
  c |> set_send_max_win (win_of c seg) |> set_send_win (win_of c seg)
    |> set_send_win_seq (s_seq_num seg) |> set_send_win_ack (s_ack_num seg).
Definition update_window (seg : tcp_seg) (c : tcp_conn) : tcp_conn :=
  if newer_window c seg then take_window seg c else c.

(** The estimate after a sample, with the time-out kept in its bounds. *)
Definition rtt_sample (samp : double) (c : tcp_conn) : tcp_conn :=
  let alpha := d_div (d_of_Z 1) (d_of_Z 8) in
  let beta := d_div (d_of_Z 1) (d_of_Z 4) in
  let c := set_rtt_flag false c in
  let c :=
    if c_rtt_first c then
      c |> set_rtt_first false |> set_rtt_est samp |> set_rtt_dev (d_div samp (d_of_Z 2))
    else
      let est := d_add (d_mul (d_sub (d_of_Z 1) alpha) (c_rtt_est c)) (d_mul alpha samp) in
      c |> set_rtt_est est
        |> set_rtt_dev (d_add (d_mul (d_sub (d_of_Z 1) beta) (c_rtt_dev c))
                          (d_mul beta (d_abs (d_sub samp est)))) in
  let t := d_add (c_rtt_est c) (d_div (c_rtt_dev c) beta) in
  set_timeout (if d_lt t (d_of_Z TCP_GBN_TO_MIN) then d_of_Z TCP_GBN_TO_MIN
               else if d_lt (d_of_Z TCP_GBN_TO_MAX) t then d_of_Z TCP_GBN_TO_MAX else t) c.

(** [fmax(MSS * MSS / cong_window, 1.0)] on top of the window. *)
Definition cong_avoid (c : tcp_conn) : tcp_conn :=
  let m := d_of_Z (c_MSS c) in
  set_cong_window (d_add (c_cong_window c) (fmax (d_div (d_mul m m) (c_cong_window c)) (d_of_Z 1))) c.
Definition cong_slow (c : tcp_conn) : tcp_conn :=
  let c := set_cong_window (d_add (c_cong_window c) (d_of_Z (c_MSS c))) c in
  if d_le (c_threshhold c) (c_cong_window c) then set_cong_state RENO_AVOIDANCE c else c.

(** Everything acknowledged, and a part of it after [num_nodes]. *)
Definition cong_all (c : tcp_conn) : tcp_conn :=
  match c_cong_state c with
  | RENO_SLOWSTART => cong_slow c
  | RENO_AVOIDANCE => cong_avoid c
  | RENO_RECOVERY => c |> set_cong_state RENO_AVOIDANCE |> set_cong_window (c_threshhold c)
  end.
Definition cong_part (num_nodes : Z) (c : tcp_conn) : tcp_conn :=
  match c_cong_state c with
  | RENO_SLOWSTART => cong_slow c
  | RENO_AVOIDANCE => cong_avoid c
  | RENO_RECOVERY =>
      let c := set_cong_state RENO_AVOIDANCE c in
      if c_send_seq_num c =? c_restore_seq_end c then set_cong_window (c_threshhold c) c
      else c |> set_cong_window (d_add (c_cong_window c) (d_mul (d_of_Z num_nodes) (d_of_Z (c_MSS c))))
             |> set_fast_flag true
  end.

(** [while (!empty && front != stop) remove_front]: the queue left, and
    [count] plus the number of nodes removed. *)
Fixpoint remove_loop (stop max len : Z) (nodes : list (tcp_node tcp_seg)) (count : Z)
    : tcp_queue tcp_seg * Z :=
  match nodes with
  | [] => (MkTQ max len [], count)
  | n :: rest =>
      if n_addr n =? stop then (MkTQ max len nodes, count)
      else remove_loop stop max (u32 (len - n_len n)) rest (count + 1)
  end.
Definition remove_until (stop : Z) (q : tcp_queue tcp_seg) (count : Z) : tcp_queue tcp_seg * Z :=
  remove_loop stop (q_max q) (q_len q) (q_nodes q) count.
(** All nodes are removed: no node has address 0. *)
Definition remove_all (q : tcp_queue tcp_seg) : tcp_queue tcp_seg := (remove_until 0 q 0).1.

(** [n] more bytes of the peer's sequence space were used up. *)
Definition advance (n : Z) (c : tcp_conn) : tcp_conn :=
  let num := u32 (c_recv_seq_num c + n) in
  c |> set_recv_seq_num num |> set_recv_seq_end (u32 (num + c_recv_max_win c)).

(** The segment that refuses [seg]: [<SEQ=SEG.ACK><CTL=RST>] or
    [<SEQ=0><ACK=SEG.END><CTL=RST,ACK>]. *)
Definition rst_seg (seg : tcp_seg) : tcp_seg :=
  if has (s_flags seg) FLAG_ACK then
    seg_flags (Z.lor FLAG_RST (Z.shiftl MIN_TCP_HEADER_WORDS 12))
      (tcp_seg_create (s_dst_ip seg) (s_dst_port seg) (s_src_ip seg) (s_src_port seg)
         (s_ack_num seg) (u32 (s_ack_num seg + 1)))
  else
    seg_ack (s_seq_end seg)
      (seg_flags (Z.lor (Z.lor FLAG_RST FLAG_ACK) (Z.shiftl MIN_TCP_HEADER_WORDS 12))
         (tcp_seg_create (s_dst_ip seg) (s_dst_port seg) (s_src_ip seg) (s_src_port seg)
            0 (u32 (s_data_len seg)))).

Section In.
Context {Q : Type} `{BoundedFifo Q finsFrame} `{Environment}.
Abbreviation ST := (mstate Q tcp_data) (only parsing).

Definition tcp_calc_rtt (p : loc) : M ST unit :=
  current ← gettimeofday;
  cmod p (λ c, rtt_sample (time_diff (c_rtt_stamp c) current) c).

Definition calc_rtt_stats (p : loc) : M ST unit :=
  tcp_calc_rtt p ;;
  c ⇐ p;
  stat1 p (λ t,
    t |> stat_rtt_dev_total (d_add (st_rtt_dev_total t) (c_rtt_dev c))
      |> stat_rtt_dev_count (u32 (st_rtt_dev_count t + 1))
      |> stat_rtt_est_total (d_add (st_rtt_est_total t) (c_rtt_est c))
      |> stat_rtt_est_count (u32 (st_rtt_est_count t + 1))
      |> stat_timeout_total (d_add (st_timeout_total t) (c_timeout c))
      |> stat_timeout_count (u32 (st_timeout_count t + 1))).

(** ** RST and ACK *)

Definition tcp_handle_RST (p : loc) (seg : tcp_seg) : M ST unit :=
  c ⇐ p;
  if tcp_in_window (s_seq_num seg) (s_seq_end seg) (c_recv_seq_num c) (c_recv_seq_end c)
     || ((s_seq_num seg =? 0) && has (s_flags seg) FLAG_ACK
         && tcp_in_window (s_ack_num seg) (s_ack_num seg) (c_send_seq_num c) (c_send_seq_end c))
  then tcp_conn_shutdown p
  else mret tt.

(** Fast retransmission is due. *)
Definition enter_recovery (c : tcp_conn) : tcp_conn :=
  let t := fmax (d_div (d_of_Z (flight_size c)) (d_of_Z 2)) (d_mul (d_of_Z 2) (d_of_Z (c_MSS c))) in
  c |> set_to_gbn_flag false |> set_cong_state RENO_RECOVERY |> set_fast_flag true
    |> set_restore_seq_end (c_send_seq_end c) |> set_threshhold t
    |> set_cong_window (d_add t (d_mul (d_of_Z 3) (d_of_Z (c_MSS c)))).

(** The acknowledgement repeats the last one. *)
Definition ack_duplicate (p : loc) (seg : tcp_seg) : M ST unit :=
  c ⇐ p;
  let updated := newer_window c seg && negb (win_of c seg =? c_send_max_win c) in
  cmod p (update_window seg) ;;
  if negb updated && (s_data_len seg =? 0) then
    cmod p (λ c, set_duplicate (u32 (c_duplicate c + 1)) c) ;;
    stat p (λ t, stat_dup_acks (u32 (st_dup_acks t + 1)) t) ;;
    c ⇐ p;
    d ← tget;
    match c_cong_state c with
    | RENO_SLOWSTART | RENO_AVOIDANCE =>
        if negb (fast_enabled d =? 0) && (fast_duplicates d <=? c_duplicate c) then
          cmod p (λ c, c |> set_duplicate 0 |> set_rtt_flag false) ;;
          start_gbn p (c_timeout c) ;;
          cmod p enter_recovery
        else mret tt
    | RENO_RECOVERY =>
        cmod p (λ c, set_cong_window (d_add (c_cong_window c) (d_of_Z (c_MSS c))) c)
    end
  else mret tt.

(** Everything sent is acknowledged. *)
Definition ack_all (p : loc) (seg : tcp_seg) : M ST unit :=
  cmod p (λ c, c |> set_send_queue (remove_all (c_send_queue c))
                 |> set_send_seq_num (s_ack_num seg) |> update_window seg
                 |> set_ack_checksum (s_checksum seg) |> set_duplicate 0) ;;
  if s_data_len seg =? 0 then
    cmod p (λ c, c |> set_fast_flag false |> set_gbn_flag false) ;;
    (c ⇐ p; if c_rtt_flag c then calc_rtt_stats p else mret tt) ;;
    stop_gbn p ;;
    cmod p cong_all
  else mret tt.

(** A part is acknowledged, up to the segment of [node]. *)
Definition ack_part (p : loc) (seg : tcp_seg) (node : tcp_node tcp_seg) : M ST unit :=
  c ⇐ p;
  let '(q, num_nodes) := remove_until (n_addr node) (c_send_queue c) 1 in
  cmod p (λ c, c |> set_send_queue q |> set_send_seq_num (s_ack_num seg) |> take_window seg
                 |> set_ack_checksum (s_checksum seg) |> set_duplicate 0) ;;
  cmod p (λ c, if c_gbn_flag c then set_first_flag true c else c) ;;
  (c ⇐ p;
   if c_rtt_flag c
      && negb (tcp_in_window (c_rtt_seq_num c) (c_rtt_seq_num c) (c_send_seq_num c) (c_send_seq_end c))
   then calc_rtt_stats p else mret tt) ;;
  (c ⇐ p;
   if c_gbn_flag c then mret tt
   else start_gbn p (c_timeout c) ;; cmod p (set_to_gbn_flag false)) ;;
  cmod p (cong_part num_nodes).

(** The FIN is acknowledged. *)
Definition ack_fin (p : loc) (seg : tcp_seg) : M ST unit :=
  cmod p (λ c, c |> set_send_queue (remove_all (c_send_queue c))
                 |> set_send_seq_num (s_ack_num seg) |> set_send_seq_end (s_ack_num seg)
                 |> update_window seg).

Definition tcp_handle_ACK (p : loc) (seg : tcp_seg) : M ST unit :=
  stat p (λ t, stat_recv_acks (u32 (st_recv_acks t + 1)) t) ;;
  c ⇐ p;
  if tcp_in_window (s_ack_num seg) (s_ack_num seg) (c_send_seq_num c) (c_send_seq_end c) then
    (if s_ack_num seg =? c_send_seq_num c then ack_duplicate p seg
     else if s_ack_num seg =? c_send_seq_end c then ack_all p seg
     else match tcp_queue_find (c_send_queue c) (s_ack_num seg) with
          | Some node => ack_part p seg node
          | None => mret tt
          end) ;;
    wake_main p
  else if c_fin_sent c && (s_ack_num seg =? c_fsse c) then ack_fin p seg
  else stat p (λ t, stat_bad_acks (u32 (st_bad_acks t + 1)) t).

(** ** Flags and options *)

(** The peer's end of stream, behind the data of the segment. *)
Definition accept_fin (seg : tcp_seg) (c : tcp_conn) : tcp_conn :=
  advance (if s_data_len seg =? 0 then 1 else s_data_len seg + 1) c.

(** The daemon is told that nothing more will be received. *)
Definition close_read (p : loc) : M ST unit :=
  cmod p (λ c, set_status (Z.land (c_status c) (Z.lnot TCP_STATUS_RD)) c) ;;
  tcp_conn_send_fcf p CTRL_ALERT TCP_ALERT_SHUTDOWN FCF_FALSE TCP_STATUS_RD ;;
  mret tt.

(** TIME_WAIT and its timer. *)
Definition start_time_wait (p : loc) : M ST unit :=
  start_gbn p (d_of_Z (2 * TCP_MSL_TO_DEFAULT)) ;; cmod p (set_to_gbn_flag false).

(** The flags of the reply are returned with the result. *)
Definition tcp_process_flags (p : loc) (seg : tcp_seg) (send_flags : Z) : M ST (Z * Z) :=
  c ⇐ p;
  let fl := s_flags seg in
  let len := s_data_len seg in
  let ack := Z.lor send_flags FLAG_ACK in
  match c_state c with
  | TS_ESTABLISHED =>
      if has fl FLAG_SYN then mret (-1, send_flags)
      else if has fl FLAG_FIN then
        cmod p (accept_fin seg) ;;
        cmod p (set_state TS_CLOSE_WAIT) ;;
        close_read p ;;
        mret (1, ack)
      else if negb (len =? 0) then cmod p (advance len) ;; mret (1, ack)
      else mret (0, send_flags)
  | TS_FIN_WAIT_1 =>
      if has fl FLAG_SYN then mret (-1, send_flags)
      else if has fl FLAG_FIN then
        cmod p (accept_fin seg) ;;
        flags ←
          (if has fl FLAG_ACK && tcp_conn_is_finished c then
             if c_fin_sent c then
               cmod p (set_state TS_TIME_WAIT) ;; start_time_wait p ;; mret send_flags
             else cmod p (set_state TS_CLOSING) ;; mret (Z.lor send_flags FLAG_FIN)
           else cmod p (set_state TS_CLOSING) ;; mret send_flags);
        close_read p ;;
        mret (1, Z.lor flags FLAG_ACK)
      else if has fl FLAG_ACK && tcp_conn_is_finished c then
        if c_fin_sent c then
          cmod p (set_state TS_FIN_WAIT_2) ;;
          if negb (len =? 0) then cmod p (advance len) ;; mret (1, ack)
          else mret (0, send_flags)
        else
          (if negb (len =? 0) then cmod p (advance len) else mret tt) ;;
          mret (1, Z.lor send_flags (Z.lor FLAG_FIN FLAG_ACK))
      else if negb (len =? 0) then cmod p (advance len) ;; mret (1, ack)
      else mret (0, send_flags)
  | TS_FIN_WAIT_2 =>
      if has fl FLAG_SYN then mret (-1, send_flags)
      else if has fl FLAG_FIN then
        cmod p (accept_fin seg) ;;
        cmod p (set_state TS_TIME_WAIT) ;;
        close_read p ;;
        start_time_wait p ;;
        mret (1, ack)
      else if negb (len =? 0) then cmod p (advance len) ;; mret (1, ack)
      else mret (0, send_flags)
  | TS_CLOSING =>
      if has fl FLAG_SYN then mret (-1, send_flags)
      else if has fl FLAG_ACK && tcp_conn_is_finished c then
        if c_fin_sent c then
          cmod p (set_state TS_TIME_WAIT) ;; start_time_wait p ;; mret (0, send_flags)
        else mret (1, Z.lor send_flags (Z.lor FLAG_FIN FLAG_ACK))
      else if has fl FLAG_FIN then mret (1, ack)
      else if negb (len =? 0) then mret (1, ack)
      else mret (1, send_flags)
  | TS_TIME_WAIT =>
      if has fl FLAG_SYN then mret (-1, send_flags)
      else if has fl FLAG_FIN then mret (1, ack)
      else mret (0, send_flags)
  | TS_CLOSE_WAIT =>
      if has fl FLAG_SYN then mret (-1, send_flags)
      else if has fl FLAG_FIN then mret (1, ack)
      else if negb (len =? 0) then mret (1, ack)
      else mret (0, send_flags)
  | TS_LAST_ACK =>
      if has fl FLAG_ACK && tcp_conn_is_finished c then
        if c_fin_sent c then
          cmod p (set_state TS_CLOSED) ;;
          if negb (len =? 0) then mret (1, ack) else mret (0, send_flags)
        else mret (1, Z.lor send_flags (Z.lor FLAG_ACK FLAG_FIN))
      else if negb (len =? 0) then mret (1, ack)
      else mret (0, send_flags)
  | _ => mret (0, send_flags)
  end.

(** Bytes of the options array; it has 40. *)
Definition opt_at (o : list Z) (i : Z) : res Z :=
  match o !! Z.to_nat i with Some b => Ok b | None => Segv end.
Definition opt_read (o : list Z) (i n : Z) : res (list Z) :=
  read_bytes (Some (drop (Z.to_nat i) o)) n.

(** Options are agreed on while the connection is set up. *)
Definition in_setup (c : tcp_conn) : bool :=
  bool_decide (c_state c = TS_SYN_RECV) || bool_decide (c_state c = TS_SYN_SENT).

(** One option at [i - 1]: the new position, or the result of an early
    return.  A length that is not the option's is skipped over alone.  The position
    is a [uint8_t]. *)
Definition process_option (p : loc) (o : list Z) (kind i : Z) : M ST (Z + Z) :=
  c ⇐ p;
  if kind =? TCP_OPT_EOL then mret (inr 1)
  else if kind =? TCP_OPT_NOP then mret (inl i)
  else if kind =? TCP_OPT_MSS then
    len ← lift (opt_at o i);
    let i := u8 (i + 1) in
    if len =? TCP_OPT_MSS_BYTES then
      b ← lift (opt_read o i 2);
      let mss := ntohs (le_value b) in
      (if in_setup c && (mss <? c_MSS c) then cmod p (set_MSS mss) else mret tt) ;;
      mret (inl (u8 (i + 2)))
    else mret (inl i)
  else if kind =? TCP_OPT_WS then
    len ← lift (opt_at o i);
    let i := u8 (i + 1) in
    if len =? TCP_OPT_WS_BYTES then
      ws ← lift (opt_at o i);
      (if in_setup c && c_wsopt_attempt c && negb (ws =? 0) then
         cmod p (λ c, c |> set_wsopt_enabled true
                        |> set_ws_send (if ws <? TCP_OPT_WS_MAX then ws else TCP_OPT_WS_MAX))
       else mret tt) ;;
      mret (inl (u8 (i + 1)))
    else mret (inl i)
  else if kind =? TCP_OPT_SACK_PERM then
    len ← lift (opt_at o i);
    let i := u8 (i + 1) in
    (if (len =? TCP_OPT_SACK_PERM_BYTES) && in_setup c && c_sack_attempt c
     then cmod p (set_sack_enabled true) else mret tt) ;;
    mret (inl i)
  else if kind =? TCP_OPT_SACK then
    len ← lift (opt_at o i);
    mret (inl (u8 (i + 1)))
  else if kind =? TCP_OPT_TS then
    len ← lift (opt_at o i);
    let i := u8 (i + 1) in
    if len =? TCP_OPT_TS_BYTES then
      v ← lift (opt_read o i 4);
      let i := u8 (i + 4) in
      e ← lift (opt_read o i 4);
      if in_setup c && c_tsopt_attempt c then
        cmod p (set_tsopt_enabled true) ;;
        if ntohl (le_value v) <? c_ts_rem c then mret (inr 0) else mret (inl (u8 (i + 4)))
      else mret (inl (u8 (i + 4)))
    else mret (inl i)
  else mret (inl i).

(** The loop; while the position does not wrap, every round moves on by at least
    a byte, so [opt_len] rounds are enough. *)
Fixpoint options_loop (fuel : nat) (p : loc) (o : list Z) (opt_len i : Z) : M ST Z :=
  if i <? opt_len then
    match fuel with
    | O => nofuel
    | S fuel =>
        kind ← lift (opt_at o i);
        r ← process_option p o kind (u8 (i + 1));
        match r with
        | inl i => options_loop fuel p o opt_len i
        | inr r => mret r
        end
    end
  else mret 1.

Definition tcp_process_options (p : loc) (seg : tcp_seg) : M ST Z :=
  options_loop (Z.to_nat (s_opt_len seg)) p (s_options seg) (s_opt_len seg) 0.

(** ** Data *)

(** Returns the result, the segment ([data_len] is cleared when the daemon
    has taken the data) and the flags of the reply. *)
Definition tcp_process_seg (p : loc) (seg : tcp_seg) (send_flags : Z) : M ST (Z * tcp_seg * Z) :=
  '(ret, send_flags) ← tcp_process_flags p seg send_flags;
  if ret =? -1 then mret (0, seg, send_flags)
  else if ret =? 0 then
    (if negb (s_opt_len seg =? 0) then tcp_process_options p seg else mret 1) ;;
    mret (1, seg, send_flags)
  else if negb (s_data_len seg =? 0) then
    c ⇐ p;
    sent ← tcp_fdf_to_daemon (s_data_len seg) (s_data seg)
             (c_host_ip c) (c_host_port c) (c_rem_ip c) (c_rem_port c);
    if sent =? 0 then mret (0, seg, send_flags) else mret (1, seg_dlen 0 seg, send_flags)
  else mret (1, seg, send_flags).

Definition pop_recv (p : loc) : M ST unit :=
  cmod p (λ c, set_recv_queue (tcp_queue_remove_front (c_recv_queue c)).2 c).
Definition drop_recv (p : loc) (n : tcp_node tcp_seg) : M ST unit :=
  pop_recv p ;;
  cmod p (λ c, set_recv_win (uint32_increase (c_recv_win c) (u32 (s_data_len (n_data n)))
                               (c_recv_max_win c)) c).

(** The loop over the stored segments, [nodes] being those still queued. *)
Fixpoint recv_loop (p : loc) (nodes : list (tcp_node tcp_seg)) (send_flags : Z) : M ST Z :=
  match nodes with
  | [] => mret send_flags
  | n :: rest =>
      c ⇐ p;
      let num := c_recv_seq_num c in
      let end_ := c_recv_seq_end c in
      if n_seq_num n <? num then
        if (num <=? end_) || negb (n_seq_num n <? end_) then
          drop_recv p n ;; recv_loop p rest send_flags
        else mret send_flags
      else if n_seq_num n =? num then
        pop_recv p ;;
        '(ok, _, send_flags) ← tcp_process_seg p (n_data n) send_flags;
        recv_loop p rest (if ok =? 0 then send_flags else Z.lor send_flags FLAG_ACK_NOW)
      else if (num <=? end_) && negb (n_seq_num n <? end_) then
        drop_recv p n ;; recv_loop p rest send_flags
      else mret send_flags
  end.

(** The segment continues the stream. *)
Definition handle_in_order (p : loc) (seg : tcp_seg) : M ST Z :=
  stat p (λ t, stat_in_order_segs (u32 (st_in_order_segs t + 1)) t) ;;
  cmod p (λ c, set_temp_count (u8 (c_temp_count c + 1)) c) ;;
  '(ok, _, send_flags) ← tcp_process_seg p seg 0;
  (if ok =? 0 then mret tt
   else cmod p (λ c, set_recv_win (uint32_decrease (c_recv_win c) (u32 (s_data_len seg))) c)) ;;
  c ⇐ p;
  send_flags ← recv_loop p (q_nodes (c_recv_queue c)) send_flags;
  wake_main p ;;
  mret send_flags.

(** The segment is out of order: stored, or dropped. *)
Definition handle_reordered (p : loc) (seg : tcp_seg) : M ST Z :=
  let send_flags :=
    if negb (s_data_len seg =? 0) then Z.lor FLAG_ACK (Z.lor FLAG_ACK_NOW FLAG_ACK_SAME)
    else if has (s_flags seg) FLAG_FIN then FLAG_ACK else 0 in
  let dropped := stat p (λ t, stat_drop_segs (u32 (st_drop_segs t + 1)) t) in
  c ⇐ p;
  (if c_recv_win c =? 0 then dropped
   else if tcp_in_window (s_seq_num seg) (s_seq_end seg) (c_recv_seq_num c) (c_recv_seq_end c) then
     stat p (λ t, stat_out_order_segs (u32 (st_out_order_segs t + 1)) t) ;;
     addr ← fresh;
     let node := tcp_node_create addr seg (u32 (s_data_len seg)) (s_seq_num seg) (s_seq_end seg) in
     let '(ret, q) := tcp_queue_insert (c_recv_queue c) node (c_recv_seq_num c) in
     if ret =? 0 then mret tt
     else cmod p (λ c, c |> set_recv_queue q
                         |> set_recv_win (uint32_decrease (c_recv_win c) (u32 (s_data_len seg))))
   else dropped) ;;
  mret send_flags.

Definition tcp_handle_data (p : loc) (seg : tcp_seg) : M ST Z :=
  c ⇐ p;
  if s_seq_num seg =? c_recv_seq_num c then handle_in_order p seg else handle_reordered p seg.

Definition tcp_handle_reply (p : loc) (flags : Z) : M ST unit :=
  c ⇐ p;
  if has flags FLAG_RST then send_control p flags ;; check_flow p
  else if has flags FLAG_FIN then
    flags ← (if c_fin_sent c then mret (Z.land flags (Z.lnot FLAG_FIN))
             else mark_fin p ;; mret flags);
    stop_delayed p ;;
    cmod p (λ c, c |> set_delayed_flag false |> set_to_delayed_flag false) ;;
    send_control p flags ;;
    check_flow p
  else if has flags FLAG_ACK then
    if has flags FLAG_ACK_NOW || c_delayed_flag c then
      stop_delayed p ;;
      cmod p (set_to_delayed_flag false) ;;
      (if negb (has flags FLAG_ACK_SAME) || c_delayed_flag c then update_ack_seg p flags
       else mret tt) ;;
      cmod p (set_delayed_flag false) ;;
      send_ack_seg p
    else
      cmod p (λ c, c |> set_delayed_flag true |> set_delayed_ack_flags flags) ;;
      start_delayed p (d_of_Z TCP_DELAYED_TO_DEFAULT) ;;
      cmod p (set_to_delayed_flag false)
  else send_control p flags ;; check_flow p.

(** [flags = tcp_handle_data(...); if (flags) tcp_handle_reply(...);] *)
Definition data_and_reply (p : loc) (seg : tcp_seg) : M ST unit :=
  flags ← tcp_handle_data p seg;
  if flags =? 0 then mret tt else tcp_handle_reply p flags.

(** ** One handler per state *)

Definition drop_seg (p : loc) : M ST unit := stat p (λ t, stat_drop_segs (u32 (st_drop_segs t + 1)) t).

Definition tcp_recv_closed (p : loc) (seg : tcp_seg) : M ST unit := drop_seg p.

(** A connection for a SYN: the reply is sent and the connection waits in the
    backlog of its parent. *)
Definition child_reply (p child : loc) (seg : tcp_seg) : M ST unit :=
  r ← tcp_rand;
  cmod child (λ c,
    let num := u32 (s_seq_num seg + 1) in
    c |> set_issn (u32 r) |> set_send_seq_num (u32 r) |> set_send_seq_end (u32 r)
      |> set_send_max_win (s_win_size seg) |> set_send_win (s_win_size seg)
      |> set_irsn (s_seq_num seg) |> set_recv_seq_num num
      |> set_recv_seq_end (u32 (num + c_recv_max_win c))) ;;
  (if negb (s_opt_len seg =? 0) then tcp_process_options child seg else mret 1) ;;
  send_control child (Z.lor FLAG_SYN FLAG_ACK) ;;
  cmod child (set_timeout (d_of_Z TCP_GBN_TO_MIN)) ;;
  start_gbn child (d_of_Z TCP_GBN_TO_MIN) ;;
  cmod child (set_to_gbn_flag false) ;;
  cmod p (λ c, set_backlog_list (c_backlog_list c ++ [child]) c).

Definition open_child (p child : loc) (seg : tcp_seg) : M ST unit :=
  parent ⇐ p;
  cmod child (λ c, c |> set_state TS_SYN_RECV |> set_active_open false |> set_parent_conn p
                     |> set_poll_events (c_poll_events parent)) ;;
  child_reply p child seg.

Definition tcp_recv_listen (p : loc) (seg : tcp_seg) : M ST unit :=
  c ⇐ p;
  if has (s_flags seg) FLAG_RST then mret tt
  else if has (s_flags seg) FLAG_SYN then
    if c_listening c && (Z.of_nat (length (c_backlog_list c)) <? c_backlog_max c) then
      child ← find_conn (s_dst_ip seg) (s_dst_port seg) (s_src_ip seg) (s_src_port seg);
      if child =? 0 then
        space ← conn_list_has_space;
        if space : bool then
          child ← tcp_conn_create (s_dst_ip seg) (s_dst_port seg) (s_src_ip seg) (s_src_port seg);
          conn_list_append child ;;
          enter_conn child ;;
          (k ⇐ child; if c_running_flag k then open_child p child seg else mret tt) ;;
          leave_conn child
        else mret tt
      else mret tt
    else mret tt
  else mret tt.

(** The connection is established: the caller of connect, or the listener
    waiting in accept, is told. *)
Definition signal_established (p : loc) : M ST unit :=
  c ⇐ p;
  match c_ff c with
  | Some ff =>
      cmod p (set_signaled true) ;;
      (if c_active_open c then module_reply_fcf ff FCF_TRUE 0
       else tcp_conn_reply_fcf p ff FCF_TRUE 0 ;; mret tt) ;;
      cmod p (set_ff None)
  | None =>
      if c_active_open c then mret tt
      else
        let parent := c_parent_conn c in
        enter_conn parent ;;
        (pc ⇐ parent;
         if c_running_flag pc && bool_decide (c_state pc = TS_LISTEN) then
           match c_ff pc with
           | Some ff =>
               cmod parent (λ c, set_backlog_list (list_del p (c_backlog_list c)) c) ;;
               cmod p (set_signaled true) ;;
               tcp_conn_reply_fcf p ff FCF_TRUE 0 ;;
               cmod parent (set_ff None)
           | None => mret tt
           end
         else mret tt) ;;
        leave_conn parent
  end.

(** The congestion window of a new connection. *)
Definition cong_start (c : tcp_conn) : tcp_conn :=
  c |> set_cong_state RENO_SLOWSTART |> set_cong_window (d_of_Z (c_MSS c))
    |> set_threshhold (d_div (d_of_Z (c_send_max_win c)) (d_of_Z 2)).

(** ESTABLISHED: the send side starts at the acknowledged number, the receive
    side at [num]. *)
Definition establish (seg : tcp_seg) (num : Z) (c : tcp_conn) : tcp_conn :=
  c |> set_state TS_ESTABLISHED
    |> set_send_seq_num (s_ack_num seg) |> set_send_seq_end (s_ack_num seg)
    |> set_send_max_win (s_win_size seg) |> set_send_win (s_win_size seg)
    |> set_recv_seq_num num |> set_recv_seq_end (u32 (num + c_recv_max_win c))
    |> set_first_flag true |> set_fast_flag false |> set_gbn_flag false.

Definition process_if_options (p : loc) (seg : tcp_seg) : M ST Z :=
  if negb (s_opt_len seg =? 0) then tcp_process_options p seg else mret 1.

Definition tcp_recv_syn_sent (p : loc) (seg : tcp_seg) : M ST unit :=
  c ⇐ p;
  let fl := s_flags seg in
  if has fl FLAG_RST then mret tt
  else if has fl FLAG_FIN then mret tt
  else if has fl FLAG_SYN then
    if has fl FLAG_ACK then
      if s_ack_num seg =? u32 (c_send_seq_num c + 1) then
        process_if_options p seg ;;
        cmod p (λ c, c |> establish seg (u32 (s_seq_num seg + 1)) |> set_irsn (s_seq_num seg)
                       |> set_duplicate 0) ;;
        stop_gbn p ;;
        cmod p (λ c, c |> set_timeout (d_of_Z TCP_GBN_TO_DEFAULT) |> cong_start) ;;
        send_control p FLAG_ACK ;;
        signal_established p
      else
        tcp_seg_send
          (seg_flags (Z.lor FLAG_RST (Z.shiftl MIN_TCP_HEADER_WORDS 12))
             (tcp_seg_create (c_host_ip c) (c_host_port c) (c_rem_ip c) (c_rem_port c)
                (s_ack_num seg) (u32 (s_ack_num seg + 1)))) ;;
        mret tt
    else
      process_if_options p seg ;;
      cmod p (λ c,
        let num := u32 (s_seq_num seg + 1) in
        c |> set_state TS_SYN_RECV
          |> set_send_max_win (s_win_size seg) |> set_send_win (s_win_size seg)
          |> set_irsn (s_seq_num seg) |> set_recv_seq_num num
          |> set_recv_seq_end (u32 (num + c_recv_max_win c))) ;;
      send_control p (Z.lor FLAG_SYN FLAG_ACK) ;;
      cmod p (set_timeout (d_of_Z TCP_GBN_TO_MIN)) ;;
      start_gbn p (d_of_Z TCP_GBN_TO_MIN) ;;
      cmod p (set_to_gbn_flag false)
  else tcp_seg_send (rst_seg seg) ;; mret tt.

(** SYN_RECV to ESTABLISHED; the SYN-ACK case also counts. *)
Definition accept_ack (p : loc) (seg : tcp_seg) (counted : bool) : M ST unit :=
  process_if_options p seg ;;
  cmod p (establish seg (s_seq_num seg)) ;;
  stop_gbn p ;;
  cmod p (λ c, c |> set_timeout (d_of_Z TCP_GBN_TO_DEFAULT) |> cong_start) ;;
  (c ⇐ p;
   if counted then
     stat1 p (λ t,
       t |> stat_timeout_total (d_add (st_timeout_total t) (c_timeout c))
         |> stat_timeout_count (u32 (st_timeout_count t + 1))
         |> stat_cong_window_total (d_add (st_cong_window_total t) (c_cong_window c))
         |> stat_cong_window_count (u32 (st_cong_window_count t + 1))
         |> stat_threshhold_total (d_add (st_threshhold_total t) (c_threshhold c))
         |> stat_threshhold_count (u32 (st_threshhold_count t + 1)))
   else mret tt) ;;
  (if negb (has (s_flags seg) FLAG_ACK) then data_and_reply p seg else mret tt) ;;
  signal_established p.

Definition tcp_recv_syn_recv (p : loc) (seg : tcp_seg) : M ST unit :=
  c ⇐ p;
  let fl := s_flags seg in
  if has fl FLAG_RST then mret tt
  else if has fl FLAG_FIN then mret tt
  else if has fl FLAG_SYN then
    if has fl FLAG_ACK then
      if s_ack_num seg =? u32 (c_send_seq_num c + 1) then accept_ack p seg true else mret tt
    else
      process_if_options p seg ;;
      r ← tcp_rand;
      cmod p (λ c,
        let num := u32 (s_seq_num seg + 1) in
        c |> set_issn (u32 r) |> set_send_seq_num (u32 r) |> set_send_seq_end (u32 r)
          |> set_send_max_win (s_win_size seg) |> set_send_win (s_win_size seg)
          |> set_irsn (s_seq_num seg) |> set_recv_seq_num num
          |> set_recv_seq_end (u32 (num + c_recv_max_win c))) ;;
      send_control p (Z.lor FLAG_SYN FLAG_ACK) ;;
      start_gbn p (d_of_Z TCP_MSL_TO_DEFAULT) ;;
      cmod p (set_to_gbn_flag false)
  else if has fl FLAG_ACK then
    if s_ack_num seg =? u32 (c_send_seq_num c + 1) then accept_ack p seg false else mret tt
  else tcp_seg_send (rst_seg seg) ;; mret tt.

Definition ack_if_flagged (p : loc) (seg : tcp_seg) : M ST unit :=
  if has (s_flags seg) FLAG_ACK then tcp_handle_ACK p seg else mret tt.

Definition tcp_recv_established (p : loc) (seg : tcp_seg) : M ST unit :=
  if has (s_flags seg) FLAG_RST then tcp_handle_RST p seg
  else ack_if_flagged p seg ;; data_and_reply p seg.

Definition tcp_recv_fin_wait_1 (p : loc) (seg : tcp_seg) : M ST unit :=
  if has (s_flags seg) FLAG_RST then tcp_handle_RST p seg
  else ack_if_flagged p seg ;; data_and_reply p seg.

Definition tcp_recv_fin_wait_2 (p : loc) (seg : tcp_seg) : M ST unit :=
  if has (s_flags seg) FLAG_RST then tcp_handle_RST p seg else data_and_reply p seg.

Definition tcp_recv_closing (p : loc) (seg : tcp_seg) : M ST unit :=
  if has (s_flags seg) FLAG_RST then tcp_handle_RST p seg
  else ack_if_flagged p seg ;; data_and_reply p seg.

Definition tcp_recv_time_wait (p : loc) (seg : tcp_seg) : M ST unit :=
  if has (s_flags seg) FLAG_RST then tcp_handle_RST p seg
  else ack_if_flagged p seg ;; data_and_reply p seg.

Definition tcp_recv_close_wait (p : loc) (seg : tcp_seg) : M ST unit :=
  if has (s_flags seg) FLAG_RST then tcp_handle_RST p seg else ack_if_flagged p seg.

Definition tcp_recv_last_ack (p : loc) (seg : tcp_seg) : M ST unit :=
  if has (s_flags seg) FLAG_RST then tcp_handle_RST p seg
  else
    ack_if_flagged p seg ;;
    flags ← tcp_handle_data p seg;
    (c ⇐ p; if bool_decide (c_state c = TS_CLOSED) then tcp_conn_shutdown p else mret tt) ;;
    if flags =? 0 then mret tt else tcp_handle_reply p flags.

Definition tcp_recv_state (p : loc) (seg : tcp_seg) : M ST unit :=
  c ⇐ p;
  match c_state c with
  | TS_CLOSED => tcp_recv_closed p seg
  | TS_LISTEN => tcp_recv_listen p seg
  | TS_SYN_SENT => tcp_recv_syn_sent p seg
  | TS_SYN_RECV => tcp_recv_syn_recv p seg
  | TS_ESTABLISHED => tcp_recv_established p seg
  | TS_FIN_WAIT_1 => tcp_recv_fin_wait_1 p seg
  | TS_FIN_WAIT_2 => tcp_recv_fin_wait_2 p seg
  | TS_CLOSING => tcp_recv_closing p seg
  | TS_TIME_WAIT => tcp_recv_time_wait p seg
  | TS_CLOSE_WAIT => tcp_recv_close_wait p seg
  | TS_LAST_ACK => tcp_recv_last_ack p seg
  end.

Definition tcp_recv (p : loc) (seg : tcp_seg) : M ST unit :=
  c ⇐ p;
  (if c_running_flag c then
     stat p (λ t, stat_recv_segs (u32 (st_recv_segs t + 1)) t) ;;
     calc ← lift (tcp_seg_checksum seg);
     if (s_checksum seg =? 0) || (calc =? 0) then
       (if s_checksum seg =? 0 then
          stat p (λ t, stat_no_checksum (u16 (st_no_checksum t + 1)) t)
        else mret tt) ;;
       tcp_recv_state p seg
     else stat p (λ t, stat_bad_checksum (u16 (st_bad_checksum t + 1)) t)
   else drop_seg p) ;;
  leave_conn p.

(** The connection of the segment, else the listener for a SYN, else a
    refusal. *)
Definition tcp_in_fdf (ff : finsFrame) : M ST unit :=
  seg ← fdf_to_tcp ff;
  (match seg with
   | Some seg =>
       p ← find_conn (s_dst_ip seg) (s_dst_port seg) (s_src_ip seg) (s_src_port seg);
       if negb (p =? 0) then enter_conn p ;; tcp_recv p seg
       else if has (s_flags seg) FLAG_SYN
               && negb (has (s_flags seg) (Z.lor FLAG_RST (Z.lor FLAG_ACK FLAG_FIN))) then
         p ← find_stub (s_dst_ip seg) (s_dst_port seg);
         if negb (p =? 0) then enter_conn p ;; tcp_recv p seg
         else tcp_seg_send (rst_seg seg) ;; mret tt
       else if has (s_flags seg) FLAG_RST then mret tt
       else tcp_seg_send (rst_seg seg) ;; mret tt
   | None => mret tt
   end) ;;
  free_ff ff.

End In.
