(* ===== verification/TcpOut.v ===== *)
(** * TCP: data and control from the daemon ([modules/tcp/tcp_out.c], and the
    dispatchers of [tcp.c]) *)

From stdpp Require Import base list gmap strings.
From Stdlib Require Import ZArith Lia.
From S2P Require Import Prelude Queue Metadata Frame Module IPv4 UDP Double TcpWindow TcpQueue TcpSeg.
From S2P Require Import TcpRecord TcpConn TcpMain TcpIn.
Open Scope Z_scope.
Open Scope fins_scope.

Definition MSG_DONTWAIT := 64.
Definition TCP_READ_PARAM_FLOWS := 0.
Definition TCP_READ_PARAM_LINKS := 1.
Definition TCP_READ_PARAM_DUAL := 2.
Definition TCP_GET_HOST_WINDOW := 3.
Definition TCP_GET_SOCK_OPT := 4.
Definition TCP_GET_FAST_ENABLED__id := 5.
Definition TCP_GET_FAST_DUPLICATES__id := 6.
Definition TCP_GET_FAST_RETRANSMITS__id := 7.
Definition TCP_GET_MSS__id := 8.
Definition TCP_SET_PARAM_FLOWS := 0.
Definition TCP_SET_PARAM_LINKS := 1.
Definition TCP_SET_PARAM_DUAL := 2.
Definition TCP_SET_HOST_WINDOW := 3.
Definition TCP_SET_SOCK_OPT := 4.
Definition TCP_SET_FAST_ENABLED__id := 5.
Definition TCP_SET_FAST_DUPLICATES__id := 6.
Definition TCP_SET_FAST_RETRANSMITS__id := 7.
Definition TCP_SET_MSS__id := 8.
Definition TCP_SET_PARAM_STATUS := 9.
Definition TCP_EXEC_CONNECT := 0.
Definition TCP_EXEC_LISTEN := 1.
Definition TCP_EXEC_ACCEPT := 2.
Definition TCP_EXEC_CLOSE := 5.
Definition TCP_EXEC_CLOSE_STUB := 6.
Definition TCP_EXEC_POLL := 8.

Section Out.
Context {Q : Type} `{BoundedFifo Q finsFrame} `{Environment}.
Abbreviation ST := (mstate Q tcp_data) (only parsing).

(** ** Writing *)

(** The result of a send call. *)
Definition send_result (p : loc) (serial_num ret_val ret_msg : Z) : M ST unit :=
  tcp_conn_send_exec_reply p serial_num TCP_EXEC_SEND ret_val ret_msg ;; mret tt.

(** Before the connection is established: the data is queued whole or refused;
    the comparison of [space] with the length is unsigned. *)
Definition write_early (p : loc) (called_len : Z) (called_data : list Z) (serial_num : Z) : M ST unit :=
  c ⇐ p;
  let space := write_space_left c in
  space ← (if called_len <=? u32 space then
             write_append p called_data called_len 0 (u32 (called_len - 1)) ;;
             send_result p serial_num FCF_TRUE called_len ;;
             wake_main p ;;
             mret (s32 (space - called_len))
           else send_result p serial_num FCF_FALSE EAGAIN ;; mret space);
  c ⇐ p;
  if tcp_queue_is_empty (c_request_queue c) then poll_alert p space else mret tt.

(** Afterwards: a request is queued, and moved to the write queue as far as
    there is room. *)
Definition write_request (p : loc) (called_len : Z) (called_data : list Z) (flags serial_num : Z)
    : M ST unit :=
  timer ← (if has flags MSG_DONTWAIT then
             t ← lift (timer_once_start (d_of_Z TCP_BLOCK_DEFAULT)); mret (Some t)
           else mret None);
  c ⇐ p;
  if tcp_queue_has_space (c_request_queue c) 1 then
    addr ← fresh;
    let request := MkReq called_data called_len flags serial_num timer false in
    cmod p (λ c, set_request_queue
                   (tcp_queue_append (c_request_queue c) (tcp_node_create addr request 1 0 0)) c) ;;
    tcp_handle_requests p ;;
    wake_main p
  else send_result p serial_num FCF_FALSE 0.

Definition tcp_write (p : loc) (called_len : Z) (called_data : list Z) (flags serial_num : Z)
    : M ST unit :=
  c ⇐ p;
  (if c_running_flag c then
     match c_state c with
     | TS_SYN_SENT | TS_SYN_RECV => write_early p called_len called_data serial_num
     | TS_ESTABLISHED | TS_CLOSE_WAIT => write_request p called_len called_data flags serial_num
     | _ => send_result p serial_num FCF_FALSE 0
     end
   else send_result p serial_num FCF_FALSE 0) ;;
  leave_conn p.

(** [conn->threads++] is done before the test for NULL. *)
Definition tcp_out_fdf (ff : finsFrame) : M ST unit :=
  flags ← ff_read ff "flags";
  serial_num ← ff_read ff "serial_num";
  family ← ff_read ff "send_family";
  src_ip ← ff_read ff "send_src_ipv4";
  src_port ← ff_read ff "send_src_port";
  dst_ip ← ff_read ff "send_dst_ipv4";
  dst_port ← ff_read ff "send_dst_port";
  p ← find_conn src_ip (u16 src_port) dst_ip (u16 dst_port);
  enter_conn p ;;
  d ← ff_data ff;
  data ← lift (read_bytes (pdu d) (pduLength d));
  tcp_write p (pduLength d) data flags serial_num ;;
  free_ff (set_body (Data (MkData (directionFlag d) (pduLength d) None)) ff).

(** ** Closing *)

(** The stored request, if any, is refused. *)
Definition refuse_stored (p : loc) : M ST unit :=
  c ⇐ p;
  match c_ff c with
  | Some ff => module_reply_fcf ff FCF_FALSE 0 ;; cmod p (set_ff None)
  | None => mret tt
  end.

(** The FIN is sent at once when everything else is acknowledged. *)
Definition fin_if_finished (p : loc) : M ST unit :=
  c ⇐ p; if tcp_conn_is_finished c then send_fin p else mret tt.

Definition tcp_close (p : loc) (ff : finsFrame) : M ST unit :=
  c ⇐ p;
  (if c_running_flag c then
     match c_state c with
     | TS_CLOSED | TS_TIME_WAIT => module_reply_fcf ff FCF_TRUE 0
     | TS_LISTEN =>
         cmod p (set_state TS_CLOSED) ;;
         refuse_stored p ;;
         module_reply_fcf ff FCF_TRUE 0 ;;
         cmod p (set_listening false) ;;
         (c ⇐ p; shutdown_all (c_backlog_list c)) ;;
         tcp_conn_shutdown p
     | TS_SYN_SENT =>
         cmod p (set_state TS_CLOSED) ;;
         refuse_stored p ;;
         module_reply_fcf ff FCF_TRUE 0 ;;
         tcp_conn_shutdown p
     | TS_SYN_RECV | TS_ESTABLISHED =>
         cmod p (set_state TS_FIN_WAIT_1) ;;
         refuse_stored p ;;
         module_reply_fcf ff FCF_TRUE 0 ;;
         fin_if_finished p
     | TS_CLOSE_WAIT =>
         cmod p (set_state TS_LAST_ACK) ;;
         module_reply_fcf ff FCF_TRUE 0 ;;
         fin_if_finished p
     | _ => mret tt
     end
   else mret tt) ;;
  leave_conn p.

Definition tcp_exec_close (ff : finsFrame) (host_ip host_port rem_ip rem_port : Z) : M ST unit :=
  p ← find_conn host_ip host_port rem_ip rem_port;
  if p =? 0 then mret tt else enter_conn p ;; tcp_close p ff.

Definition tcp_exec_close_stub (ff : finsFrame) (host_ip host_port : Z) : M ST unit :=
  p ← find_stub host_ip host_port;
  if p =? 0 then mret tt else stub_list_remove p ;; enter_conn p ;; tcp_close p ff.

(** ** Listening, accepting, connecting *)

Definition tcp_listen (p : loc) (ff : finsFrame) (backlog : Z) : M ST unit :=
  c ⇐ p;
  (if c_running_flag c && bool_decide (c_state c = TS_CLOSED) then
     cmod p (λ c, c |> set_state TS_LISTEN |> set_listening true |> set_backlog_max backlog)
   else mret tt) ;;
  free_ff ff ;;
  leave_conn p.

Definition tcp_exec_listen (ff : finsFrame) (host_ip host_port backlog : Z) : M ST unit :=
  p ← find_stub host_ip host_port;
  if p =? 0 then
    space ← stub_list_has_space;
    if space : bool then
      p ← tcp_conn_create host_ip host_port 0 0;
      stub_list_append p ;;
      cmod p (set_stub_list true) ;;
      enter_conn p ;;
      tcp_listen p ff backlog
    else mret tt
  else mret tt.

(** [tcp_conn_search_func] on one connection of the backlog: the frame is
    used up by the first established connection not yet handed out. *)
Definition tcp_conn_search_func (parent p : loc) (ff : finsFrame) : M ST (option finsFrame) :=
  enter_conn p ;;
  r ← (c ⇐ p;
       if c_running_flag c && bool_decide (c_state c = TS_ESTABLISHED) && negb (c_signaled c) then
         cmod parent (λ k, set_backlog_list (list_del p (c_backlog_list k)) k) ;;
         cmod p (set_signaled true) ;;
         tcp_conn_reply_fcf p ff FCF_TRUE 0 ;;
         mret None
       else mret (Some ff));
  leave_conn p ;;
  mret r.

(** [list_for_each2(conn->backlog_list, tcp_conn_search_func, conn, &ff)]. *)
Fixpoint search_backlog (parent : loc) (l : list loc) (ff : option finsFrame)
    : M ST (option finsFrame) :=
  match l with
  | [] => mret ff
  | p :: l =>
      ff ← match ff with
           | None => mret None
           | Some f => tcp_conn_search_func parent p f
           end;
      search_backlog parent l ff
  end.

Definition tcp_accept (p : loc) (ff : finsFrame) (flags : Z) : M ST unit :=
  c ⇐ p;
  (if c_running_flag c then
     if bool_decide (c_state c = TS_LISTEN) then
       match c_ff c with
       | None =>
           r ← search_backlog p (c_backlog_list c) (Some ff);
           match r with Some f => cmod p (set_ff (Some f)) | None => mret tt end
       | Some _ => mret tt
       end
     else module_reply_fcf ff FCF_FALSE 0
   else module_reply_fcf ff FCF_FALSE 1) ;;
  leave_conn p.

Definition tcp_exec_accept (ff : finsFrame) (host_ip host_port flags : Z) : M ST unit :=
  p ← find_stub host_ip host_port;
  if p =? 0 then module_reply_fcf ff FCF_FALSE 1 else enter_conn p ;; tcp_accept p ff flags.

Definition tcp_connect (p : loc) (ff : finsFrame) (flags : Z) : M ST unit :=
  c ⇐ p;
  (if c_running_flag c then
     match c_state c with
     | TS_CLOSED | TS_LISTEN =>
         cmod p (λ c, c |> set_state TS_SYN_SENT |> set_active_open true |> set_ff (Some ff)) ;;
         new_issn p ;;
         send_control p FLAG_SYN ;;
         cmod p (set_timeout (d_of_Z TCP_GBN_TO_DEFAULT))
     | _ => module_reply_fcf ff FCF_FALSE 0
     end
   else module_reply_fcf ff FCF_FALSE 1) ;;
  leave_conn p.

(** A listening connection that is turned into an active one; [false] when it
    is shutting down. *)
Definition reuse_stub (p rem_ip rem_port : Z) : M ST bool :=
  enter_conn p ;;
  c ⇐ p;
  if c_running_flag c then
    (if bool_decide (c_state c = TS_LISTEN) then
       cmod p (set_listening false) ;;
       shutdown_all (c_backlog_list c) ;;
       match c_ff c with
       | Some ff => tcp_conn_reply_fcf p ff FCF_FALSE 0 ;; cmod p (set_ff None)
       | None => mret tt
       end
     else mret tt) ;;
    cmod p (λ c, c |> set_rem_ip rem_ip |> set_rem_port rem_port) ;;
    leave_conn p ;;
    stub_list_remove p ;;
    mret true
  else
    leave_conn p ;;
    stub_list_remove p ;;
    mret false.

Definition tcp_exec_connect (ff : finsFrame) (host_ip host_port rem_ip rem_port flags : Z)
    : M ST unit :=
  p ← find_conn host_ip host_port rem_ip rem_port;
  if p =? 0 then
    space ← conn_list_has_space;
    if space : bool then
      stub ← find_stub host_ip host_port;
      reused ← (if stub =? 0 then mret false else reuse_stub stub rem_ip rem_port);
      p ← (if reused : bool then mret stub
           else tcp_conn_create host_ip host_port rem_ip rem_port);
      conn_list_append p ;;
      enter_conn p ;;
      tcp_connect p ff flags
    else mret tt
  else mret tt.

(** ** Polling *)

Definition add_poll (p : loc) : M ST unit :=
  cmod p (λ c, set_poll_events (Z.lor (c_poll_events c) POLL_WRITE) c).

(** Whether a write would be taken; when not, the event is remembered. *)
Definition poll_write (p : loc) : M ST Z :=
  c ⇐ p;
  if tcp_queue_is_empty (c_request_queue c) && (0 <? write_space_left c) then mret POLL_WRITE
  else add_poll p ;; mret 0.

Definition tcp_poll (p : loc) (ff : finsFrame) (initial events : Z) : M ST unit :=
  c ⇐ p;
  (if c_running_flag c then
     mask ← (if negb (initial =? 0) && has events POLL_WRITE then poll_write p else mret 0);
     module_reply_fcf ff FCF_TRUE mask
   else module_reply_fcf ff FCF_TRUE POLLHUP) ;;
  leave_conn p.

Definition tcp_poll_stub (p : loc) (ff : finsFrame) (initial events : Z) : M ST unit :=
  c ⇐ p;
  (if c_running_flag c then
     mask ← (if has events POLL_WRITE then
               (if negb (initial =? 0) then add_poll p
                else cmod p (λ c, set_poll_events (Z.land (c_poll_events c) (Z.lnot POLL_WRITE)) c)) ;;
               poll_write p
             else mret 0);
     module_reply_fcf ff FCF_TRUE mask
   else module_reply_fcf ff FCF_TRUE POLLHUP) ;;
  leave_conn p.

Definition tcp_exec_poll (ff : finsFrame) (state host_ip host_port rem_ip rem_port initial flags : Z)
    : M ST unit :=
  if SS_UNCONNECTED <? state then
    p ← find_conn host_ip host_port rem_ip rem_port;
    if p =? 0 then module_reply_fcf ff FCF_TRUE POLLERR
    else enter_conn p ;; tcp_poll p ff initial flags
  else
    p ← find_stub host_ip host_port;
    if p =? 0 then module_reply_fcf ff FCF_TRUE POLLERR
    else enter_conn p ;; tcp_poll_stub p ff initial flags.

(** ** Messages to one connection *)

Definition tcp_conn_alert (p : loc) (ff : finsFrame) : M ST unit :=
  k ← ff_ctrl ff;
  if param_id k =? TCP_ALERT_SHUTDOWN then
    value ← ff_read ff "value";
    let clear := cmod p (λ c, set_status (Z.land (c_status c) (Z.lnot value)) c) in
    if value =? TCP_STATUS_RD then clear ;; free_ff ff
    else if (value =? TCP_STATUS_WR) || (value =? TCP_STATUS_RDWR) then
      clear ;;
      c ⇐ p;
      match c_state c with
      | TS_ESTABLISHED | TS_SYN_RECV =>
          cmod p (set_state TS_FIN_WAIT_1) ;;
          free_ff ff ;;
          fin_if_finished p
      | TS_CLOSE_WAIT =>
          cmod p (set_state TS_LAST_ACK) ;;
          free_ff ff ;;
          fin_if_finished p
      | TS_SYN_SENT =>
          cmod p (set_state TS_CLOSED) ;;
          free_ff ff ;;
          tcp_conn_shutdown p
      | _ => free_ff ff
      end
    else free_ff ff
  else module_reply_fcf ff FCF_FALSE 0.

(** The socket options are read but have no effect. *)
Definition tcp_conn_read_param (p : loc) (ff : finsFrame) : M ST unit :=
  k ← ff_ctrl ff;
  c ⇐ p;
  if param_id k =? TCP_GET_HOST_WINDOW then module_reply_fcf ff FCF_TRUE (c_recv_win c)
  else if param_id k =? TCP_GET_SOCK_OPT then
    opt_level ← ff_read ff "opt_level";
    opt_name ← ff_read ff "opt_name";
    opt_len ← ff_read ff "opt_len";
    module_reply_fcf ff FCF_TRUE 0
  else module_reply_fcf ff FCF_FALSE 0.

(** The daemon has taken [value] bytes: the window opens again, and the peer is
    told when it had been closed. *)
Definition set_host_window (p : loc) (value : Z) : M ST unit :=
  cmod p (λ c, set_recv_win (uint32_increase (c_recv_win c) value (c_recv_max_win c)) c) ;;
  c ⇐ p;
  if c_flow_stopped c then
    cmod p (set_flow_stopped false) ;;
    send_control p FLAG_ACK
  else mret tt.

Definition tcp_conn_set_param (p : loc) (ff : finsFrame) : M ST unit :=
  k ← ff_ctrl ff;
  if param_id k =? TCP_SET_HOST_WINDOW then
    value ← ff_read ff "value";
    set_host_window p value ;;
    free_ff ff
  else if param_id k =? TCP_SET_SOCK_OPT then
    opt_level ← ff_read ff "opt_level";
    opt_name ← ff_read ff "opt_name";
    opt_len ← ff_read ff "opt_len";
    value ← ff_read ff "value";
    module_reply_fcf ff FCF_TRUE value
  else if param_id k =? TCP_SET_PARAM_STATUS then mret tt
  else module_reply_fcf ff FCF_FALSE 0.

Definition tcp_error (ff : finsFrame) : M ST unit := k ← ff_ctrl ff; free_ff ff.

Definition tcp_conn_fcf (p : loc) (ff : finsFrame) : M ST unit :=
  c ⇐ p;
  (if c_running_flag c then
     k ← ff_ctrl ff;
     if opcode k =? CTRL_ALERT then tcp_conn_alert p ff
     else if opcode k =? CTRL_ALERT_REPLY then free_ff ff
     else if opcode k =? CTRL_READ_PARAM then tcp_conn_read_param p ff
     else if opcode k =? CTRL_READ_PARAM_REPLY then free_ff ff
     else if opcode k =? CTRL_SET_PARAM then tcp_conn_set_param p ff
     else if opcode k =? CTRL_SET_PARAM_REPLY then free_ff ff
     else if opcode k =? CTRL_EXEC then module_reply_fcf ff FCF_FALSE 0
     else if opcode k =? CTRL_EXEC_REPLY then free_ff ff
     else if opcode k =? CTRL_ERROR then tcp_error ff
     else exit_
   else module_reply_fcf ff FCF_FALSE 0) ;;
  leave_conn p.

Definition tcp_fcf_match (ff : finsFrame) : M ST unit :=
  '(state, host_ip, host_port, rem_ip, rem_port) ← tcp_metadata_read_conn ff;
  p ← (if SS_UNCONNECTED <? state then find_conn host_ip host_port rem_ip rem_port
       else find_stub host_ip host_port);
  if p =? 0 then module_reply_fcf ff FCF_FALSE 0 else enter_conn p ;; tcp_conn_fcf p ff.

(** ** Messages to the module *)

Definition tcp_alert (ff : finsFrame) : M ST unit :=
  k ← ff_ctrl ff;
  if (param_id k =? TCP_ALERT_POLL) || (param_id k =? TCP_ALERT_SHUTDOWN) then tcp_fcf_match ff
  else mret tt.

Definition reply_value (ff : finsFrame) (v : Z) : M ST unit :=
  ff ← ff_write ff "value" (VInt32 v); module_reply_fcf ff FCF_TRUE 0.

Definition tcp_read_param (ff : finsFrame) : M ST unit :=
  k ← ff_ctrl ff;
  d ← tget;
  let id := param_id k in
  if id =? TCP_READ_PARAM_FLOWS then module_read_param_flows ff
  else if id =? TCP_READ_PARAM_LINKS then module_read_param_links ff
  else if id =? TCP_READ_PARAM_DUAL then module_read_param_dual ff
  else if (id =? TCP_GET_HOST_WINDOW) || (id =? TCP_GET_SOCK_OPT) then tcp_fcf_match ff
  else if id =? TCP_GET_FAST_ENABLED__id then reply_value ff (fast_enabled d)
  else if id =? TCP_GET_FAST_DUPLICATES__id then reply_value ff (fast_duplicates d)
  else if id =? TCP_GET_FAST_RETRANSMITS__id then reply_value ff (st_fast (total_conn_stats d))
  else if id =? TCP_GET_MSS__id then reply_value ff (mss d)
  else module_reply_fcf ff FCF_FALSE 0.

Definition tcp_set_param (ff : finsFrame) : M ST unit :=
  k ← ff_ctrl ff;
  let id := param_id k in
  if id =? TCP_SET_PARAM_FLOWS then module_set_param_flows ff
  else if id =? TCP_SET_PARAM_LINKS then module_set_param_links ff
  else if id =? TCP_SET_PARAM_DUAL then module_set_param_dual ff
  else if (id =? TCP_SET_HOST_WINDOW) || (id =? TCP_SET_SOCK_OPT) || (id =? TCP_SET_PARAM_STATUS)
       then tcp_fcf_match ff
  else if id =? TCP_SET_FAST_ENABLED__id then
    v ← ff_read ff "value";
    tmod (λ d, put_params (u8 v) (fast_duplicates d) (mss d) d) ;;
    module_reply_fcf ff FCF_TRUE 0
  else if id =? TCP_SET_FAST_DUPLICATES__id then
    v ← ff_read ff "value";
    tmod (λ d, put_params (fast_enabled d) (u32 v) (mss d) d) ;;
    module_reply_fcf ff FCF_TRUE 0
  else if id =? TCP_SET_FAST_RETRANSMITS__id then
    v ← ff_read ff "value";
    tmod (λ d, put_total (stat_fast (u32 v) (total_conn_stats d)) d) ;;
    module_reply_fcf ff FCF_TRUE 0
  else if id =? TCP_SET_MSS__id then
    v ← ff_read ff "value";
    tmod (λ d, put_params (fast_enabled d) (fast_duplicates d) (u32 v) d) ;;
    module_reply_fcf ff FCF_TRUE 0
  else mret tt.

Definition tcp_exec (ff : finsFrame) : M ST unit :=
  k ← ff_ctrl ff;
  let id := param_id k in
  if id =? TCP_EXEC_LISTEN then
    backlog ← ff_read ff "backlog";
    host_ip ← ff_read ff "host_ip";
    host_port ← ff_read ff "host_port";
    tcp_exec_listen ff host_ip (u16 host_port) backlog
  else if id =? TCP_EXEC_ACCEPT then
    host_ip ← ff_read ff "host_ip";
    host_port ← ff_read ff "host_port";
    flags ← ff_read ff "flags";
    tcp_exec_accept ff host_ip (u16 host_port) flags
  else if id =? TCP_EXEC_CONNECT then
    flags ← ff_read ff "flags";
    host_ip ← ff_read ff "host_ip";
    host_port ← ff_read ff "host_port";
    rem_ip ← ff_read ff "rem_ip";
    rem_port ← ff_read ff "rem_port";
    tcp_exec_connect ff host_ip (u16 host_port) rem_ip (u16 rem_port) flags
  else if id =? TCP_EXEC_CLOSE then
    host_ip ← ff_read ff "host_ip";
    host_port ← ff_read ff "host_port";
    rem_ip ← ff_read ff "rem_ip";
    rem_port ← ff_read ff "rem_port";
    tcp_exec_close ff host_ip (u16 host_port) rem_ip (u16 rem_port)
  else if id =? TCP_EXEC_CLOSE_STUB then
    host_ip ← ff_read ff "host_ip";
    host_port ← ff_read ff "host_port";
    tcp_exec_close_stub ff host_ip (u16 host_port)
  else if id =? TCP_EXEC_POLL then
    initial ← ff_read ff "initial";
    flags ← ff_read ff "flags";
    state ← ff_read ff "state";
    host_ip ← ff_read ff "host_ip";
    host_port ← ff_read ff "host_port";
    rem ← (if SS_UNCONNECTED <? state then
             rem_ip ← ff_read ff "rem_ip";
             rem_port ← ff_read ff "rem_port";
             mret (rem_ip, rem_port)
           else mret (0, 0));
    tcp_exec_poll ff state host_ip (u16 host_port) rem.1 (u16 rem.2) initial flags
  else module_reply_fcf ff FCF_FALSE 0.

Definition tcp_fcf (ff : finsFrame) : M ST unit :=
  k ← ff_ctrl ff;
  if opcode k =? CTRL_ALERT then tcp_alert ff
  else if opcode k =? CTRL_ALERT_REPLY then free_ff ff
  else if opcode k =? CTRL_READ_PARAM then tcp_read_param ff
  else if opcode k =? CTRL_READ_PARAM_REPLY then free_ff ff
  else if opcode k =? CTRL_SET_PARAM then tcp_set_param ff
  else if opcode k =? CTRL_SET_PARAM_REPLY then free_ff ff
  else if opcode k =? CTRL_EXEC then tcp_exec ff
  else if opcode k =? CTRL_EXEC_REPLY then free_ff ff
  else if opcode k =? CTRL_ERROR then tcp_error ff
  else exit_.

Definition tcp_get_ff (events : nat) : M ST unit :=
  get_ff (frame_dispatch tcp_fcf tcp_in_fdf tcp_out_fdf) events.

End Out.
