(* ===== verification/TcpLogic.v ===== *)
(** * Reasoning about TCP handlers

    A handler is a state-passing computation; [keeps f m] says that [m] leaves
    the part [f] of the module state alone when it returns.  What a handler
    leaves alone follows from what its statements write: a view of a
    connection that ignores the parts written is kept.  The lemmas are
    collected in the hint database [keeps], and the tactic [keeps] walks
    through a handler with it. *)

From stdpp Require Import base list gmap strings.
From Stdlib Require Import ZArith Lia.
From S2P Require Import Prelude Queue Metadata Frame Module IPv4 UDP Double TcpWindow TcpQueue TcpSeg.
From S2P Require Import TcpRecord TcpConn TcpMain TcpIn.
Open Scope Z_scope.
Open Scope fins_scope.

Create HintDb keeps discriminated.
#[export] Hint Constants Opaque : keeps.
#[export] Hint Transparent timeval itimer metadata : keeps.

(** The view [v] of a connection does not depend on the part [put] replaces. *)
Class Ignores {X Y} (put : Y → tcp_conn → tcp_conn) (v : tcp_conn → X) : Prop :=
  ignores : ∀ y c, v (put y c) = v c.

#[export] Hint Extern 0 (Ignores _ _) => (intros ? ?; reflexivity) : typeclass_instances.

(** Inversion of a returning computation, step by step. *)
Lemma bind_inv {S A B} (m : M S A) (k : A → M S B) s b s' :
  (m ≫= k) s = Ok (b, s') → ∃ a s1, m s = Ok (a, s1) ∧ k a s1 = Ok (b, s').
Proof. unfold mbind, M_bind. destruct (m s) as [[a s1]| | |] eqn:E; [eauto|done..]. Qed.

Section Keeps.
Context {Q : Type} `{BoundedFifo Q finsFrame}.
Abbreviation ST := (mstate Q tcp_data) (only parsing).

Definition keeps {A X} (f : ST → X) (m : M ST A) : Prop :=
  ∀ s a s', m s = Ok (a, s') → f s' = f s.

(** The view of every connection. *)
Definition view {X} (v : tcp_conn → X) (s : ST) : gmap Z X := v <$> conns (md s).

Section Rules.
Context {X : Type} (f : ST → X).

Lemma keeps_ret {A} (a : A) : keeps f (mret a).
Proof. by intros s b s' [= <- <-]. Qed.
Lemma keeps_bind {A B} (m : M ST A) (k : A → M ST B) :
  keeps f m → (∀ a, keeps f (k a)) → keeps f (m ≫= k).
Proof. intros Hm Hk s b s' (a & s1 & E1 & E2)%bind_inv. by rewrite (Hk _ _ _ _ E2), (Hm _ _ _ E1). Qed.
Lemma keeps_segv {A} : keeps f (segv : M ST A).
Proof. done. Qed.
Lemma keeps_exit {A} : keeps f (exit_ : M ST A).
Proof. done. Qed.
Lemma keeps_nofuel {A} : keeps f (nofuel : M ST A).
Proof. done. Qed.
Lemma keeps_get : keeps f get.
Proof. by intros s a s' [= <- <-]. Qed.
Lemma keeps_lift {A} (r : res A) : keeps f (lift r).
Proof. intros s a s'. unfold lift. by destruct r; intros [= <- <-]. Qed.
End Rules.

(** What is a function of the private data is kept by the module runtime. *)
Lemma keeps_md {A X} (g : tcp_data → X) (m : M ST A) : keeps md m → keeps (λ s, g (md s)) m.
Proof. intros Hm s a s' E. by rewrite (Hm _ _ _ E). Qed.

Hint Resolve keeps_ret keeps_segv keeps_exit keeps_nofuel keeps_get keeps_lift : keeps.

Ltac kstep :=
  match goal with
  | |- keeps _ (mbind _ _) => apply keeps_bind; [|intros ?]
  | |- keeps _ (match ?x with _ => _ end) => destruct x
  | |- keeps _ (let _ := _ in _) => cbv zeta
  end.
Ltac kmd := repeat (kstep || solve [auto with keeps nocore]).

Lemma free_ff_md ff : keeps md (free_ff (Q := Q) (D := tcp_data) ff).
Proof. apply keeps_bind; [apply keeps_lift|]. by intros _ s a s' [= <- <-]. Qed.
Lemma ff_read_md {X} (f : ST → X) ff t : keeps f (ff_read (Q := Q) (D := tcp_data) ff t).
Proof. unfold ff_read, ff_meta. kmd. Qed.
Lemma ff_write_md {X} (f : ST → X) ff t v : keeps f (ff_write (Q := Q) (D := tcp_data) ff t v).
Proof. unfold ff_write, ff_meta. kmd. Qed.
Lemma ff_ctrl_md {X} (f : ST → X) ff : keeps f (ff_ctrl (Q := Q) (D := tcp_data) ff).
Proof. unfold ff_ctrl. kmd. Qed.
Lemma ff_data_md {X} (f : ST → X) ff : keeps f (ff_data (Q := Q) (D := tcp_data) ff).
Proof. unfold ff_data. kmd. Qed.
Lemma to_switch_md ff : keeps md (module_to_switch (Q := Q) (D := tcp_data) ff).
Proof.
  intros s a s'. unfold module_to_switch. destruct (bf_write _ _) as [[r q]| | |]; try done.
  by destruct (r =? 0); intros [= <- <-].
Qed.
Hint Resolve free_ff_md ff_read_md ff_write_md ff_ctrl_md ff_data_md to_switch_md : keeps.

Lemma send_clones_md ff dsts n : keeps md (send_clones (Q := Q) (D := tcp_data) ff dsts n).
Proof. revert dsts. induction n as [|n IH]; intros dsts; cbn [send_clones]; kmd. Qed.
Hint Resolve send_clones_md : keeps.
Lemma send_flow_md ff flow : keeps md (module_send_flow (Q := Q) (D := tcp_data) ff flow).
Proof. unfold module_send_flow. kmd. Qed.
Lemma reply_fcf_md ff a b : keeps md (module_reply_fcf (Q := Q) (D := tcp_data) ff a b).
Proof. unfold module_reply_fcf. kmd. Qed.
Hint Resolve send_flow_md reply_fcf_md : keeps.
Lemma send_flow_or_free_md ff flow : keeps md (send_flow_or_free (Q := Q) ff flow).
Proof. unfold send_flow_or_free. kmd. Qed.
Lemma meta_of_md {X} (f : ST → X) kvs : keeps f (meta_of (Q := Q) kvs).
Proof. apply keeps_lift. Qed.
Lemma ff_write_all_md {X} (f : ST → X) ff kvs : keeps f (ff_write_all (Q := Q) ff kvs).
Proof. revert ff. induction kvs as [|[k v] kvs IH]; intros ff; cbn [ff_write_all]; kmd. Qed.
Hint Resolve send_flow_or_free_md meta_of_md ff_write_all_md : keeps.
Lemma conn_ctrl_frame_md c a b d e g : keeps md (conn_ctrl_frame (Q := Q) c a b d e g).
Proof. unfold conn_ctrl_frame. kmd. Qed.
Lemma on_store_md {A} (m : M link_store A) : keeps md (on_store (Q := Q) (D := tcp_data) m).
Proof. intros s a s'. unfold on_store. by destruct (m _) as [[b st]| | |]; intros [= <- <-]. Qed.
Lemma set_mt_md t : keeps md (modify (set_mt (Q := Q) (D := tcp_data) t)).
Proof. by intros s a s' [= <- <-]. Qed.
Hint Resolve on_store_md set_mt_md : keeps.
Lemma set_flows_md ff : keeps md (module_set_param_flows (Q := Q) (D := tcp_data) ff).
Proof. unfold module_set_param_flows. kmd. Qed.
Lemma set_links_md ff : keeps md (module_set_param_links (Q := Q) (D := tcp_data) ff).
Proof. unfold module_set_param_links. kmd. Qed.
Lemma set_dual_md ff : keeps md (module_set_param_dual (Q := Q) (D := tcp_data) ff).
Proof. unfold module_set_param_dual. kmd. Qed.
Lemma read_flows_md ff : keeps md (module_read_param_flows (Q := Q) (D := tcp_data) ff).
Proof. unfold module_read_param_flows. kmd. Qed.
Lemma read_links_md ff : keeps md (module_read_param_links (Q := Q) (D := tcp_data) ff).
Proof. unfold module_read_param_links. kmd. Qed.
Lemma read_dual_md ff : keeps md (module_read_param_dual (Q := Q) (D := tcp_data) ff).
Proof. unfold module_read_param_dual. kmd. Qed.
Lemma seg_send_md seg : keeps md (tcp_seg_send (Q := Q) seg).
Proof. unfold tcp_seg_send. kmd. Qed.
Lemma metadata_read_md {X} (f : ST → X) ff : keeps f (tcp_metadata_read_conn (Q := Q) ff).
Proof. unfold tcp_metadata_read_conn. kmd. Qed.
Lemma fdf_to_tcp_md {X} (f : ST → X) ff : keeps f (fdf_to_tcp (Q := Q) (D := tcp_data) ff).
Proof. unfold fdf_to_tcp. kmd. Qed.
Lemma fdf_to_daemon_md n b w x y z : keeps md (tcp_fdf_to_daemon (Q := Q) n b w x y z).
Proof. unfold tcp_fdf_to_daemon. kmd. Qed.

(** ** Reading and writing connections *)

Lemma cget_inv p (s : ST) c s' :
  cget p s = Ok (c, s') → s' = s ∧ conns (md s) !! p = Some c.
Proof.
  unfold cget, tget. intros (d & s1 & E1 & E2)%bind_inv.
  apply bind_inv in E1 as (s2 & s3 & [= -> ->] & [= <- <-]).
  destruct (conns (md s3) !! p) eqn:E; [|done]. by injection E2 as -> ->.
Qed.

Definition put_conn (p : loc) (c : tcp_conn) (s : ST) : ST :=
  set_md (put_conns (<[p := c]> (conns (md s))) (md s)) s.

Lemma cmod_inv p f (s : ST) a s' :
  cmod p f s = Ok (a, s') → ∃ c, conns (md s) !! p = Some c ∧ s' = put_conn p (f c) s.
Proof. unfold cmod. intros (c & s1 & [-> Hc]%cget_inv & E)%bind_inv. exists c. by injection E as <-. Qed.

Lemma cmod_ok p f (s : ST) c :
  conns (md s) !! p = Some c → cmod p f s = Ok (tt, put_conn p (f c) s).
Proof.
  intros Hc. unfold cmod, cget, tget, mbind, M_bind, get, mret, M_ret. simpl. by rewrite Hc.
Qed.

Lemma cget_ok p (s : ST) c : conns (md s) !! p = Some c → cget p s = Ok (c, s).
Proof. intros Hc. unfold cget, tget, mbind, M_bind, get, mret, M_ret. by rewrite Hc. Qed.

Lemma cget_keeps {X} (f : ST → X) p : keeps f (cget p).
Proof. by intros s c s' [-> _]%cget_inv. Qed.

Lemma tget_keeps {X} (f : ST → X) : keeps f tget.
Proof. apply keeps_bind; [apply keeps_get|]. intros ?. apply keeps_ret. Qed.

Lemma cmod_keeps {X} (v : tcp_conn → X) p f : (∀ c, v (f c) = v c) → keeps (view v) (cmod p f).
Proof.
  intros Hf s a s' (c & Hc & ->)%cmod_inv. unfold view. simpl.
  rewrite fmap_insert, Hf. apply insert_id. by rewrite lookup_fmap, Hc.
Qed.

(** Updates of the module data that do not touch the connections. *)
Lemma tmod_keeps {X} (v : tcp_conn → X) g :
  (∀ d, conns (g d) = conns d) → keeps (view v) (tmod g).
Proof. intros Hg s a s' [= _ <-]. unfold view. simpl. by rewrite Hg. Qed.

End Keeps.

#[export] Hint Resolve keeps_ret keeps_segv keeps_exit keeps_nofuel keeps_get keeps_lift
  cget_keeps tget_keeps : keeps.
#[export] Hint Resolve free_ff_md ff_read_md ff_write_md ff_ctrl_md ff_data_md to_switch_md
  send_clones_md send_flow_md reply_fcf_md send_flow_or_free_md meta_of_md ff_write_all_md
  conn_ctrl_frame_md seg_send_md metadata_read_md fdf_to_tcp_md fdf_to_daemon_md set_flows_md
  set_links_md set_dual_md read_flows_md read_links_md read_dual_md : keeps.

(** A view after updates of parts it ignores. *)
Ltac ign1 :=
  lazymatch goal with
  | |- _ (put_ctl _ _) = _ => apply (ignores (put := put_ctl))
  | |- _ (put_queues _ _) = _ => apply (ignores (put := put_queues))
  | |- _ (put_wait _ _) = _ => apply (ignores (put := put_wait))
  | |- _ (put_rtx _ _) = _ => apply (ignores (put := put_rtx))
  | |- _ (put_dack _ _) = _ => apply (ignores (put := put_dack))
  | |- _ (put_snd _ _) = _ => apply (ignores (put := put_snd))
  | |- _ (put_rcv _ _) = _ => apply (ignores (put := put_rcv))
  | |- _ (put_cong _ _) = _ => apply (ignores (put := put_cong))
  | |- _ (put_opts _ _) = _ => apply (ignores (put := put_opts))
  | |- _ (put_stats _ _) = _ => apply (ignores (put := put_stats))
  | |- _ (put_ident _ _) = _ => apply (ignores (put := put_ident))
  | |- _ (set_state _ _) = _ => apply (ignores (put := set_state))
  | |- _ (?f _ _) = _ => unfold f; ign1
  end.
Ltac ign0 :=
  intros; cbv beta zeta;
  repeat match goal with |- context [match ?x with _ => _ end] => destruct x end;
  repeat (first [reflexivity | etransitivity; [ign1|]]).

(** The pure updates of a connection, by the parts they write. *)
Section Pure.
Context {X : Type} (v : tcp_conn → X) (c : tcp_conn).

Lemma cong_timeout_ign `{!Ignores put_cong v} : v (cong_timeout c) = v c.
Proof. unfold cong_timeout. ign0. Qed.
Lemma take_window_ign `{!Ignores put_snd v} seg : v (take_window seg c) = v c.
Proof. unfold take_window. ign0. Qed.
Lemma update_window_ign `{!Ignores put_snd v} seg : v (update_window seg c) = v c.
Proof. unfold update_window. destruct (newer_window c seg); [apply take_window_ign|done]. Qed.
Lemma rtt_sample_ign `{!Ignores put_cong v} t : v (rtt_sample t c) = v c.
Proof. unfold rtt_sample. cbv zeta. destruct (c_rtt_first _); (etransitivity; [apply (ignores (put := put_cong))|]); ign0. Qed.
Lemma cong_avoid_ign `{!Ignores put_cong v} : v (cong_avoid c) = v c.
Proof. unfold cong_avoid. ign0. Qed.
Lemma cong_slow_ign `{!Ignores put_cong v} : v (cong_slow c) = v c.
Proof. unfold cong_slow. cbv zeta. destruct (d_le _ _); ign0. Qed.
Lemma cong_all_ign `{!Ignores put_cong v} : v (cong_all c) = v c.
Proof. unfold cong_all. destruct (c_cong_state c); [apply cong_slow_ign|apply cong_avoid_ign|ign0]. Qed.
Lemma cong_part_ign `{!Ignores put_cong v, !Ignores put_rtx v} n : v (cong_part n c) = v c.
Proof.
  unfold cong_part. destruct (c_cong_state c); [apply cong_slow_ign|apply cong_avoid_ign|].
  cbv zeta. destruct (_ =? _); ign0.
Qed.
Lemma enter_recovery_ign `{!Ignores put_cong v, !Ignores put_rtx v} : v (enter_recovery c) = v c.
Proof. unfold enter_recovery. ign0. Qed.
Lemma advance_ign `{!Ignores put_rcv v} n : v (advance n c) = v c.
Proof. unfold advance. ign0. Qed.
Lemma accept_fin_ign `{!Ignores put_rcv v} seg : v (accept_fin seg c) = v c.
Proof. apply advance_ign. Qed.
Lemma cong_start_ign `{!Ignores put_cong v} : v (cong_start c) = v c.
Proof. unfold cong_start. ign0. Qed.
Lemma set_node_seg_ign `{!Ignores put_queues v} a seg : v (set_node_seg a seg c) = v c.
Proof. apply (ignores (put := put_queues)). Qed.
Lemma flag_request_ign `{!Ignores put_queues v} a : v (flag_request a c) = v c.
Proof. apply (ignores (put := put_queues)). Qed.
End Pure.

Ltac ign_pure :=
  lazymatch goal with
  | |- _ (cong_timeout _) = _ => apply cong_timeout_ign
  | |- _ (take_window _ _) = _ => apply take_window_ign
  | |- _ (update_window _ _) = _ => apply update_window_ign
  | |- _ (rtt_sample _ _) = _ => apply rtt_sample_ign
  | |- _ (cong_all _) = _ => apply cong_all_ign
  | |- _ (cong_part _ _) = _ => apply cong_part_ign
  | |- _ (enter_recovery _) = _ => apply enter_recovery_ign
  | |- _ (advance _ _) = _ => apply advance_ign
  | |- _ (accept_fin _ _) = _ => apply accept_fin_ign
  | |- _ (cong_start _) = _ => apply cong_start_ign
  | |- _ (set_node_seg _ _ _) = _ => apply set_node_seg_ign
  | |- _ (flag_request _ _) = _ => apply flag_request_ign
  | _ => ign1
  end.
Ltac ign :=
  intros; cbv beta zeta;
  repeat match goal with |- context [match ?x with _ => _ end] => destruct x end;
  repeat (first [match goal with |- ?a = ?a => exact eq_refl end
                | etransitivity; [solve [ign_pure; typeclasses eauto]|]]).

Ltac kstep :=
  match goal with
  | |- keeps _ (mbind _ _) => apply keeps_bind; [|intros ?]
  | |- keeps _ (match ?x with _ => _ end) => destruct x
  | |- keeps _ (let _ := _ in _) => cbv zeta
  | |- keeps (view ?v) (cmod _ _) => apply cmod_keeps; solve [ign]
  | |- keeps (view ?v) (tmod _) => apply tmod_keeps; done
  end.
Ltac keeps :=
  repeat first
    [ kstep
    | solve [eauto with keeps nocore typeclass_instances]
    | match goal with |- keeps (view ?v) _ =>
        solve [apply (keeps_md (λ d, v <$> conns d)); eauto with keeps nocore] end ].

(** Turns [E : m s = Ok (a, s')] into the equation between the two views. *)
Ltac kept v E :=
  lazymatch type of E with
  | ?m ?s = Ok (?a, ?s') =>
      let K := fresh in
      assert (keeps (view v) m) as K by keeps; apply K in E; clear K
  end.

(** ** The operations of [TcpConn] *)

Section Conn.
Context {Q : Type} `{BoundedFifo Q finsFrame} `{Environment}.
Context {X : Type} (v : tcp_conn → X).

Lemma fresh_keeps : keeps (view v) (fresh (Q := Q)).
Proof. unfold fresh. keeps. Qed.
Lemma rand_keeps : keeps (view v) (tcp_rand (Q := Q)).
Proof. unfold tcp_rand. keeps. Qed.
Lemma clock_keeps : keeps (view v) (gettimeofday (Q := Q)).
Proof. unfold gettimeofday. keeps. Qed.
Lemma serial_keeps : keeps (view v) (gen_control_serial_num (Q := Q)).
Proof. unfold gen_control_serial_num. keeps. Qed.
Hint Resolve fresh_keeps rand_keeps clock_keeps serial_keeps : keeps.

Lemma stat1_keeps `{!Ignores put_stats v} p g : keeps (view v) (stat1 (Q := Q) p g).
Proof. unfold stat1. keeps. Qed.
Hint Resolve stat1_keeps : keeps.
Lemma stat_keeps `{!Ignores put_stats v} p g : keeps (view v) (stat (Q := Q) p g).
Proof. unfold stat. keeps. Qed.
Lemma start_gbn_keeps `{!Ignores put_rtx v} p m : keeps (view v) (start_gbn (Q := Q) p m).
Proof. unfold start_gbn. keeps. Qed.
Lemma stop_gbn_keeps `{!Ignores put_rtx v} p : keeps (view v) (stop_gbn (Q := Q) p).
Proof. unfold stop_gbn. keeps. Qed.
Lemma start_delayed_keeps `{!Ignores put_dack v} p m : keeps (view v) (start_delayed (Q := Q) p m).
Proof. unfold start_delayed. keeps. Qed.
Lemma stop_delayed_keeps `{!Ignores put_dack v} p : keeps (view v) (stop_delayed (Q := Q) p).
Proof. unfold stop_delayed. keeps. Qed.
Lemma post_main_keeps `{!Ignores put_wait v} p : keeps (view v) (post_main (Q := Q) p).
Proof. unfold post_main. keeps. Qed.
Hint Resolve stat_keeps start_gbn_keeps stop_gbn_keeps start_delayed_keeps stop_delayed_keeps
  post_main_keeps : keeps.
Lemma wake_main_keeps `{!Ignores put_wait v} p : keeps (view v) (wake_main (Q := Q) p).
Proof. unfold wake_main. keeps. Qed.
Lemma enter_keeps `{!Ignores put_ctl v} p : keeps (view v) (enter_conn (Q := Q) p).
Proof. unfold enter_conn. keeps. Qed.
Lemma leave_keeps `{!Ignores put_ctl v} p : keeps (view v) (leave_conn (Q := Q) p).
Proof. unfold leave_conn. keeps. Qed.
Lemma conn_find_keeps {Y} (f : mstate Q tcp_data → Y) t l : keeps f (conn_find (Q := Q) t l).
Proof. induction l as [|p l IH]; cbn [conn_find]; keeps. Qed.
Hint Resolve wake_main_keeps enter_keeps leave_keeps conn_find_keeps : keeps.
Lemma find_conn_keeps {Y} (f : mstate Q tcp_data → Y) a b c d : keeps f (find_conn (Q := Q) a b c d).
Proof. unfold find_conn. keeps. Qed.
Lemma find_stub_keeps {Y} (f : mstate Q tcp_data → Y) a b : keeps f (find_stub (Q := Q) a b).
Proof. unfold find_stub. keeps. Qed.
Lemma has_space_keeps {Y} (f : mstate Q tcp_data → Y) : keeps f (conn_list_has_space (Q := Q)).
Proof. unfold conn_list_has_space. keeps. Qed.
Lemma stub_space_keeps {Y} (f : mstate Q tcp_data → Y) : keeps f (stub_list_has_space (Q := Q)).
Proof. unfold stub_list_has_space. keeps. Qed.
Lemma list_append_keeps p : keeps (view v) (conn_list_append (Q := Q) p).
Proof. unfold conn_list_append. keeps. Qed.
Lemma list_remove_keeps p : keeps (view v) (conn_list_remove (Q := Q) p).
Proof. unfold conn_list_remove. keeps. Qed.
Lemma stub_append_keeps p : keeps (view v) (stub_list_append (Q := Q) p).
Proof. unfold stub_list_append. keeps. Qed.
Lemma stub_remove_keeps p : keeps (view v) (stub_list_remove (Q := Q) p).
Proof. unfold stub_list_remove. keeps. Qed.
Hint Resolve find_conn_keeps find_stub_keeps has_space_keeps stub_space_keeps list_append_keeps
  list_remove_keeps stub_append_keeps stub_remove_keeps : keeps.

Lemma send_fcf_keeps p a b c d : keeps (view v) (tcp_conn_send_fcf (Q := Q) p a b c d).
Proof. unfold tcp_conn_send_fcf. keeps. Qed.
Lemma exec_reply_keeps p a b c d : keeps (view v) (tcp_conn_send_exec_reply (Q := Q) p a b c d).
Proof. unfold tcp_conn_send_exec_reply. keeps. Qed.
Lemma conn_reply_keeps p ff a b : keeps (view v) (tcp_conn_reply_fcf (Q := Q) p ff a b).
Proof. unfold tcp_conn_reply_fcf. keeps. Qed.
Lemma shutdown_keeps `{!Ignores put_ctl v, !Ignores put_wait v} p :
  keeps (view v) (tcp_conn_shutdown (Q := Q) p).
Proof. unfold tcp_conn_shutdown. keeps. Qed.
Hint Resolve send_fcf_keeps exec_reply_keeps conn_reply_keeps shutdown_keeps : keeps.
Lemma shutdown_all_keeps `{!Ignores put_ctl v, !Ignores put_wait v} l :
  keeps (view v) (shutdown_all (Q := Q) l).
Proof. induction l as [|p l IH]; cbn [shutdown_all]; keeps. Qed.

Lemma add_options_keeps p seg : keeps (view v) (tcp_seg_add_options (Q := Q) p seg).
Proof. unfold tcp_seg_add_options. keeps. Qed.
Lemma delayed_ack_keeps `{!Ignores put_dack v} p seg :
  keeps (view v) (tcp_seg_delayed_ack (Q := Q) p seg).
Proof. unfold tcp_seg_delayed_ack. keeps. Qed.
Hint Resolve shutdown_all_keeps add_options_keeps delayed_ack_keeps : keeps.
Lemma seg_update_keeps `{!Ignores put_dack v} p seg fl :
  keeps (view v) (tcp_seg_update (Q := Q) p seg fl).
Proof. unfold tcp_seg_update. keeps. Qed.
Hint Resolve seg_update_keeps : keeps.
Lemma send_control_keeps `{!Ignores put_dack v} p fl :
  keeps (view v) (send_control (Q := Q) p fl).
Proof. unfold send_control. keeps. Qed.
Lemma update_ack_keeps `{!Ignores put_dack v} p fl :
  keeps (view v) (update_ack_seg (Q := Q) p fl).
Proof. unfold update_ack_seg. keeps. Qed.
Lemma check_flow_keeps `{!Ignores put_rcv v} p : keeps (view v) (check_flow (Q := Q) p).
Proof. unfold check_flow. keeps. Qed.
Hint Resolve send_control_keeps update_ack_keeps check_flow_keeps : keeps.
Lemma send_ack_keeps `{!Ignores put_rcv v} p : keeps (view v) (send_ack_seg (Q := Q) p).
Proof. unfold send_ack_seg. keeps. Qed.
Lemma mark_fin_keeps `{!Ignores put_snd v} p : keeps (view v) (mark_fin (Q := Q) p).
Proof. unfold mark_fin. keeps. Qed.
Hint Resolve send_ack_keeps mark_fin_keeps : keeps.
Lemma send_fin_keeps `{!Ignores put_snd v, !Ignores put_dack v} p :
  keeps (view v) (send_fin (Q := Q) p).
Proof. unfold send_fin. keeps. Qed.

End Conn.

#[export] Hint Resolve fresh_keeps rand_keeps clock_keeps serial_keeps stat1_keeps stat_keeps start_gbn_keeps
  stop_gbn_keeps start_delayed_keeps stop_delayed_keeps post_main_keeps wake_main_keeps
  enter_keeps leave_keeps conn_find_keeps find_conn_keeps find_stub_keeps has_space_keeps
  stub_space_keeps list_append_keeps list_remove_keeps stub_append_keeps stub_remove_keeps
  send_fcf_keeps exec_reply_keeps conn_reply_keeps shutdown_keeps shutdown_all_keeps
  add_options_keeps delayed_ack_keeps seg_update_keeps send_control_keeps update_ack_keeps
  check_flow_keeps send_ack_keeps mark_fin_keeps send_fin_keeps : keeps.

(** ** The operations of [TcpMain] *)

Section Main.
Context {Q : Type} `{BoundedFifo Q finsFrame} `{Environment}.
Context {X : Type} (v : tcp_conn → X).

Lemma interrupt_loop_keeps `{!Ignores put_queues v} p front l :
  keeps (view v) (interrupt_loop (Q := Q) p front l).
Proof. induction l as [|n l IH]; cbn [interrupt_loop]; keeps. Qed.
Hint Resolve interrupt_loop_keeps : keeps.
Lemma handle_interrupt_keeps `{!Ignores put_queues v} p :
  keeps (view v) (handle_interrupt (Q := Q) p).
Proof. unfold handle_interrupt. keeps. Qed.
Hint Resolve handle_interrupt_keeps : keeps.
Lemma write_append_keeps `{!Ignores put_queues v} p b n x y :
  keeps (view v) (write_append (Q := Q) p b n x y).
Proof. unfold write_append. keeps. Qed.
Hint Resolve write_append_keeps : keeps.
Lemma requests_loop_keeps `{!Ignores put_queues v} p space l :
  keeps (view v) (requests_loop (Q := Q) p space l).
Proof. revert space. induction l as [|n l IH]; intros space; cbn [requests_loop]; keeps. Qed.
Hint Resolve requests_loop_keeps : keeps.
Lemma poll_alert_keeps `{!Ignores put_ctl v} p space :
  keeps (view v) (poll_alert (Q := Q) p space).
Proof. unfold poll_alert. keeps. Qed.
Hint Resolve poll_alert_keeps : keeps.
Lemma handle_requests_keeps `{!Ignores put_queues v, !Ignores put_ctl v} p :
  keeps (view v) (tcp_handle_requests (Q := Q) p).
Proof. unfold tcp_handle_requests. keeps. Qed.
Hint Resolve handle_requests_keeps : keeps.
Lemma clear_flags_keeps `{!Ignores put_wait v, !Ignores put_rtx v, !Ignores put_dack v} p :
  keeps (view v) (clear_flags (Q := Q) p).
Proof. unfold clear_flags. keeps. Qed.
Hint Resolve clear_flags_keeps : keeps.
Lemma main_closed_keeps `{!Ignores put_wait v, !Ignores put_rtx v, !Ignores put_dack v} p :
  keeps (view v) (tcp_main_closed (Q := Q) p).
Proof. unfold tcp_main_closed. keeps. Qed.
Hint Resolve main_closed_keeps : keeps.
Lemma main_listen_keeps `{!Ignores put_wait v, !Ignores put_rtx v, !Ignores put_dack v} p :
  keeps (view v) (tcp_main_listen (Q := Q) p).
Proof. unfold tcp_main_listen. keeps. Qed.
Hint Resolve main_listen_keeps : keeps.
Lemma new_issn_keeps `{!Ignores put_snd v} p :
  keeps (view v) (new_issn (Q := Q) p).
Proof. unfold new_issn. keeps. Qed.
Hint Resolve new_issn_keeps : keeps.
Lemma back_off_keeps `{!Ignores put_cong v, !Ignores put_rtx v} p n :
  keeps (view v) (back_off (Q := Q) p n).
Proof. unfold back_off. keeps. Qed.
Hint Resolve back_off_keeps : keeps.
Lemma resend_keeps `{!Ignores put_dack v, !Ignores put_queues v, !Ignores put_rcv v, !Ignores put_snd v} p n fl :
  keeps (view v) (resend (Q := Q) p n fl).
Proof. unfold resend. keeps. Qed.
Hint Resolve resend_keeps : keeps.
Lemma stat_timeout_keeps `{!Ignores put_stats v} p :
  keeps (view v) (stat_timeout (Q := Q) p).
Proof. unfold stat_timeout. keeps. Qed.
Hint Resolve stat_timeout_keeps : keeps.
Lemma gbn_timeout_keeps `{!Ignores put_rtx v, !Ignores put_cong v, !Ignores put_dack v, !Ignores put_queues v, !Ignores put_rcv v, !Ignores put_snd v, !Ignores put_wait v, !Ignores put_stats v} p n fl :
  keeps (view v) (gbn_timeout (Q := Q) p n fl).
Proof. unfold gbn_timeout. keeps. Qed.
Hint Resolve gbn_timeout_keeps : keeps.
Lemma fast_retransmit_keeps `{!Ignores put_rtx v, !Ignores put_stats v, !Ignores put_dack v, !Ignores put_queues v, !Ignores put_rcv v, !Ignores put_snd v} p fl :
  keeps (view v) (fast_retransmit (Q := Q) p fl).
Proof. unfold fast_retransmit. keeps. Qed.
Hint Resolve fast_retransmit_keeps : keeps.
Lemma gbn_resend_keeps `{!Ignores put_rtx v, !Ignores put_stats v, !Ignores put_dack v, !Ignores put_queues v, !Ignores put_rcv v, !Ignores put_snd v, !Ignores put_wait v} p fl :
  keeps (view v) (gbn_resend (Q := Q) p fl).
Proof. unfold gbn_resend. keeps. Qed.
Hint Resolve gbn_resend_keeps : keeps.
Lemma queue_sent_keeps `{!Ignores put_queues v, !Ignores put_snd v} p seg n :
  keeps (view v) (queue_sent (Q := Q) p seg n).
Proof. unfold queue_sent. keeps. Qed.
Hint Resolve queue_sent_keeps : keeps.
Lemma start_rtt_keeps `{!Ignores put_cong v} p n :
  keeps (view v) (start_rtt (Q := Q) p n).
Proof. unfold start_rtt. keeps. Qed.
Hint Resolve start_rtt_keeps : keeps.
Lemma start_first_keeps `{!Ignores put_wait v, !Ignores put_rtx v} p :
  keeps (view v) (start_first (Q := Q) p).
Proof. unfold start_first. keeps. Qed.
Hint Resolve start_first_keeps : keeps.
Lemma poll_after_send_keeps `{!Ignores put_ctl v} p :
  keeps (view v) (poll_after_send (Q := Q) p).
Proof. unfold poll_after_send. keeps. Qed.
Hint Resolve poll_after_send_keeps : keeps.
Lemma send_delayed_keeps `{!Ignores put_dack v, !Ignores put_rcv v} p :
  keeps (view v) (send_delayed (Q := Q) p).
Proof. unfold send_delayed. keeps. Qed.
Hint Resolve send_delayed_keeps : keeps.
Lemma prepare_fin_keeps `{!Ignores put_snd v, !Ignores put_dack v} p seg :
  keeps (view v) (prepare_fin (Q := Q) p seg).
Proof. unfold prepare_fin. keeps. Qed.
Hint Resolve prepare_fin_keeps : keeps.
Lemma main_syn_sent_keeps `{!Ignores put_wait v, !Ignores put_rtx v, !Ignores put_ctl v, !Ignores put_snd v, !Ignores put_dack v, !Ignores put_cong v} p :
  keeps (view v) (tcp_main_syn_sent (Q := Q) p).
Proof. unfold tcp_main_syn_sent. keeps. Qed.
Hint Resolve main_syn_sent_keeps : keeps.
Lemma send_data_keeps `{!Ignores put_ctl v, !Ignores put_queues v, !Ignores put_wait v,
    !Ignores put_rtx v, !Ignores put_snd v, !Ignores put_rcv v, !Ignores put_cong v,
    !Ignores put_stats v} p prepare fl :
  (∀ seg, keeps (view v) (prepare seg)) → keeps (view v) (send_data (Q := Q) p prepare fl).
Proof. intros Hp. unfold send_data. keeps. Qed.
Hint Resolve send_data_keeps : keeps.
Lemma main_established_keeps `{!Ignores put_ctl v, !Ignores put_queues v, !Ignores put_wait v, !Ignores put_rtx v, !Ignores put_dack v, !Ignores put_snd v, !Ignores put_rcv v, !Ignores put_cong v, !Ignores put_stats v} p :
  keeps (view v) (tcp_main_established (Q := Q) p).
Proof. unfold tcp_main_established. keeps. Qed.
Hint Resolve main_established_keeps : keeps.
Lemma main_fin_wait_1_keeps `{!Ignores put_ctl v, !Ignores put_queues v, !Ignores put_wait v, !Ignores put_rtx v, !Ignores put_dack v, !Ignores put_snd v, !Ignores put_rcv v, !Ignores put_cong v, !Ignores put_stats v} p :
  keeps (view v) (tcp_main_fin_wait_1 (Q := Q) p).
Proof. unfold tcp_main_fin_wait_1. keeps. Qed.
Hint Resolve main_fin_wait_1_keeps : keeps.
Lemma main_fin_wait_2_keeps `{!Ignores put_wait v, !Ignores put_rtx v, !Ignores put_dack v, !Ignores put_rcv v} p :
  keeps (view v) (tcp_main_fin_wait_2 (Q := Q) p).
Proof. unfold tcp_main_fin_wait_2. keeps. Qed.
Hint Resolve main_fin_wait_2_keeps : keeps.

End Main.

#[export] Hint Resolve send_data_keeps interrupt_loop_keeps handle_interrupt_keeps write_append_keeps requests_loop_keeps
  poll_alert_keeps handle_requests_keeps clear_flags_keeps main_closed_keeps main_listen_keeps
  new_issn_keeps back_off_keeps resend_keeps stat_timeout_keeps gbn_timeout_keeps
  fast_retransmit_keeps gbn_resend_keeps queue_sent_keeps start_rtt_keeps start_first_keeps
  poll_after_send_keeps send_delayed_keeps prepare_fin_keeps main_syn_sent_keeps
  main_established_keeps main_fin_wait_1_keeps main_fin_wait_2_keeps : keeps.

(** ** The operations of [TcpIn] *)

Section In.
Context {Q : Type} `{BoundedFifo Q finsFrame} `{Environment}.
Context {X : Type} (v : tcp_conn → X).

Lemma calc_rtt_keeps `{!Ignores put_cong v} p :
  keeps (view v) (tcp_calc_rtt (Q := Q) p).
Proof. unfold tcp_calc_rtt. keeps. Qed.
Hint Resolve calc_rtt_keeps : keeps.
Lemma calc_rtt_stats_keeps `{!Ignores put_cong v, !Ignores put_stats v} p :
  keeps (view v) (calc_rtt_stats (Q := Q) p).
Proof. unfold calc_rtt_stats. keeps. Qed.
Hint Resolve calc_rtt_stats_keeps : keeps.
Lemma handle_RST_keeps `{!Ignores put_ctl v, !Ignores put_wait v} p seg :
  keeps (view v) (tcp_handle_RST (Q := Q) p seg).
Proof. unfold tcp_handle_RST. keeps. Qed.
Hint Resolve handle_RST_keeps : keeps.
Lemma ack_duplicate_keeps `{!Ignores put_snd v, !Ignores put_rtx v, !Ignores put_stats v, !Ignores put_cong v} p seg :
  keeps (view v) (ack_duplicate (Q := Q) p seg).
Proof. unfold ack_duplicate. keeps. Qed.
Hint Resolve ack_duplicate_keeps : keeps.
Lemma ack_all_keeps `{!Ignores put_queues v, !Ignores put_snd v, !Ignores put_rtx v, !Ignores put_cong v, !Ignores put_stats v} p seg :
  keeps (view v) (ack_all (Q := Q) p seg).
Proof. unfold ack_all. keeps. Qed.
Hint Resolve ack_all_keeps : keeps.
Lemma ack_part_keeps `{!Ignores put_queues v, !Ignores put_snd v, !Ignores put_rtx v, !Ignores put_wait v, !Ignores put_cong v, !Ignores put_stats v} p seg n :
  keeps (view v) (ack_part (Q := Q) p seg n).
Proof. unfold ack_part. keeps. Qed.
Hint Resolve ack_part_keeps : keeps.
Lemma ack_fin_keeps `{!Ignores put_queues v, !Ignores put_snd v} p seg :
  keeps (view v) (ack_fin (Q := Q) p seg).
Proof. unfold ack_fin. keeps. Qed.
Hint Resolve ack_fin_keeps : keeps.
Lemma handle_ACK_keeps `{!Ignores put_queues v, !Ignores put_snd v, !Ignores put_rtx v, !Ignores put_wait v, !Ignores put_cong v, !Ignores put_stats v} p seg :
  keeps (view v) (tcp_handle_ACK (Q := Q) p seg).
Proof. unfold tcp_handle_ACK. keeps. Qed.
Hint Resolve handle_ACK_keeps : keeps.
Lemma close_read_keeps `{!Ignores put_ctl v} p :
  keeps (view v) (close_read (Q := Q) p).
Proof. unfold close_read. keeps. Qed.
Hint Resolve close_read_keeps : keeps.
Lemma start_time_wait_keeps `{!Ignores put_rtx v} p :
  keeps (view v) (start_time_wait (Q := Q) p).
Proof. unfold start_time_wait. keeps. Qed.
Hint Resolve start_time_wait_keeps : keeps.
Lemma process_option_keeps `{!Ignores put_cong v, !Ignores put_opts v} p o k i :
  keeps (view v) (process_option (Q := Q) p o k i).
Proof. unfold process_option. keeps. Qed.
Hint Resolve process_option_keeps : keeps.
Lemma options_loop_keeps `{!Ignores put_cong v, !Ignores put_opts v} n p o l i :
  keeps (view v) (options_loop (Q := Q) n p o l i).
Proof. revert i. induction n as [|n IH]; intros i; cbn [options_loop]; keeps. Qed.
Hint Resolve options_loop_keeps : keeps.
Lemma process_options_keeps `{!Ignores put_cong v, !Ignores put_opts v} p seg :
  keeps (view v) (tcp_process_options (Q := Q) p seg).
Proof. unfold tcp_process_options. keeps. Qed.
Hint Resolve process_options_keeps : keeps.
Lemma pop_recv_keeps `{!Ignores put_queues v} p :
  keeps (view v) (pop_recv (Q := Q) p).
Proof. unfold pop_recv. keeps. Qed.
Hint Resolve pop_recv_keeps : keeps.
Lemma drop_recv_keeps `{!Ignores put_queues v, !Ignores put_rcv v} p n :
  keeps (view v) (drop_recv (Q := Q) p n).
Proof. unfold drop_recv. keeps. Qed.
Hint Resolve drop_recv_keeps : keeps.
Lemma handle_reordered_keeps `{!Ignores put_stats v, !Ignores put_queues v, !Ignores put_rcv v} p seg :
  keeps (view v) (handle_reordered (Q := Q) p seg).
Proof. unfold handle_reordered. keeps. Qed.
Hint Resolve handle_reordered_keeps : keeps.
Lemma handle_reply_keeps `{!Ignores put_dack v, !Ignores put_snd v, !Ignores put_rcv v} p fl :
  keeps (view v) (tcp_handle_reply (Q := Q) p fl).
Proof. unfold tcp_handle_reply. keeps. Qed.
Hint Resolve handle_reply_keeps : keeps.
Lemma drop_seg_keeps `{!Ignores put_stats v} p :
  keeps (view v) (drop_seg (Q := Q) p).
Proof. unfold drop_seg. keeps. Qed.
Hint Resolve drop_seg_keeps : keeps.
Lemma process_if_keeps `{!Ignores put_cong v, !Ignores put_opts v} p seg :
  keeps (view v) (process_if_options (Q := Q) p seg).
Proof. unfold process_if_options. keeps. Qed.
Hint Resolve process_if_keeps : keeps.
Lemma signal_keeps `{!Ignores put_ctl v} p :
  keeps (view v) (signal_established (Q := Q) p).
Proof. unfold signal_established. keeps. Qed.
Hint Resolve signal_keeps : keeps.

End In.

#[export] Hint Resolve calc_rtt_keeps calc_rtt_stats_keeps handle_RST_keeps ack_duplicate_keeps ack_all_keeps
  ack_part_keeps ack_fin_keeps handle_ACK_keeps close_read_keeps start_time_wait_keeps
  process_option_keeps options_loop_keeps process_options_keeps pop_recv_keeps drop_recv_keeps
  handle_reordered_keeps handle_reply_keeps drop_seg_keeps process_if_keeps signal_keeps : keeps.
