(* ===== verification/TcpDemo.v ===== *)
(** * A concrete TCP module, for the instances of the theorems *)

From stdpp Require Import base list gmap strings.
From Stdlib Require Import ZArith Lia.
From S2P Require Import Prelude Queue Metadata Frame Module IPv4 UDP Double TcpQueue TcpSeg.
From S2P Require Import TcpRecord TcpConn TcpMain TcpIn TcpOut.
Open Scope Z_scope.

#[refine] Definition demo_env : Environment :=
  {| env_rand n := (1000 + n) mod 2147483648; env_clock n := (n, 0) |}.
Proof. intros n. pose proof (Z.mod_pos_bound (1000 + n) 2147483648). lia. Defined.

Abbreviation demo_ST := (mstate (QueueRecord finsFrame) tcp_data).

(** Module 5 with links to the IPv4 module 3 and the daemon 1. *)
Definition demo_module (d : tcp_data) : demo_ST :=
  MkSt (MkMod FMS_RUNNING 3 5 5 (init_queue 10) (init_queue 50))
    (MkTable (Some [8; 9]) 3 [MkFlow 1 8; MkFlow 0 0; MkFlow 2 9]) d
    (MkStore {[8 := MkLink 1 5 1 [3]; 9 := MkLink 2 5 1 [1]]} 10) [] 0.
Definition demo_data (cs : list (Z * tcp_conn)) (l stubs : list Z) (n : Z) : tcp_data :=
  MkTcp (list_to_map cs) l stubs 1 3 1460 zero_stats 0 0 0 n.

(** Host 20 listening on port 80; nothing else. *)
Definition demo_listener : tcp_conn :=
  set_backlog_max 5 (set_listening true (set_state TS_LISTEN (tcp_conn_init 20 80 0 0 1460))).
Definition demo_server : demo_ST := demo_module (demo_data [(1, demo_listener)] [] [1] 2).

Definition demo_meta (kvs : list (string * Z)) : metadata :=
  match meta_write_all kvs [] with Ok (_, m) => m | _ => [] end.

(** The frame the IPv4 module delivers for a segment from [src] to [dst]. *)
Definition demo_up (src dst : Z) (seg : tcp_seg) : finsFrame :=
  match tcp_to_fdf seg with
  | Ok ff =>
      match body ff with
      | Data d =>
          MkFrame 5 (Some (demo_meta [("recv_protocol", 6); ("recv_family", 2);
                                      ("recv_src_ipv4", src); ("recv_dst_ipv4", dst)]))
            (Data (MkData DIR_UP (pduLength d) (pdu d)))
      | _ => ff
      end
  | _ => MkFrame 0 None (NoUnion 0)
  end.

(** A SYN from host 10, port 5000. *)
Definition demo_syn : tcp_seg :=
  seg_win 65535 (seg_flags (Z.lor FLAG_SYN (Z.shiftl MIN_TCP_HEADER_WORDS 12))
    (tcp_seg_create 10 5000 20 80 7 7)).
