(* ===== verification/TcpStates.v ===== *)
(** * TCP: the state machine

    Which changes of state a handler makes.  [moves E p st m] says that [m],
    started with the connection [p] in state [st], leaves the state of every
    other connection alone and takes [p] along edges of [E]. *)

From stdpp Require Import base list gmap strings relations.
From Stdlib Require Import ZArith Lia.
From S2P Require Import Prelude Queue Metadata Frame Module IPv4 UDP Double TcpWindow TcpQueue TcpSeg.
From S2P Require Import TcpRecord TcpConn TcpMain TcpIn TcpOut TcpDemo TcpLogic.
Open Scope Z_scope.
Open Scope fins_scope.

(** ** The diagram *)

(** Edges taken when a segment is received. *)
Inductive recv_edge : tcp_state → tcp_state → Prop :=
| RE_open : recv_edge TS_SYN_SENT TS_ESTABLISHED
| RE_both : recv_edge TS_SYN_SENT TS_SYN_RECV
| RE_accept : recv_edge TS_SYN_RECV TS_ESTABLISHED
| RE_fin : recv_edge TS_ESTABLISHED TS_CLOSE_WAIT
| RE_ack : recv_edge TS_FIN_WAIT_1 TS_FIN_WAIT_2
| RE_fin_both : recv_edge TS_FIN_WAIT_1 TS_CLOSING
| RE_fin_ack : recv_edge TS_FIN_WAIT_1 TS_TIME_WAIT
| RE_fin_2 : recv_edge TS_FIN_WAIT_2 TS_TIME_WAIT
| RE_closing : recv_edge TS_CLOSING TS_TIME_WAIT
| RE_last : recv_edge TS_LAST_ACK TS_CLOSED.

(** Edges taken on behalf of the application. *)
Inductive user_edge : tcp_state → tcp_state → Prop :=
| UE_listen : user_edge TS_CLOSED TS_LISTEN
| UE_connect : user_edge TS_CLOSED TS_SYN_SENT
| UE_switch : user_edge TS_LISTEN TS_SYN_SENT
| UE_close_listen : user_edge TS_LISTEN TS_CLOSED
| UE_close_open : user_edge TS_SYN_SENT TS_CLOSED
| UE_close_recv : user_edge TS_SYN_RECV TS_FIN_WAIT_1
| UE_close : user_edge TS_ESTABLISHED TS_FIN_WAIT_1
| UE_close_last : user_edge TS_CLOSE_WAIT TS_LAST_ACK.

(** Edges taken by the thread of the connection when a timer has expired. *)
Inductive timer_edge : tcp_state → tcp_state → Prop :=
| TE_again : timer_edge TS_SYN_RECV TS_SYN_SENT
| TE_done : timer_edge TS_TIME_WAIT TS_CLOSED.

#[export] Hint Constructors recv_edge user_edge timer_edge : keeps.

(** ** The rules *)

Section Rules.
Context {Q : Type} `{BoundedFifo Q finsFrame} `{Environment}.
Abbreviation ST := (mstate Q tcp_data) (only parsing).
Context (E : tcp_state → tcp_state → Prop) (p : loc).

Definition moves {A} (st : tcp_state) (m : M ST A) : Prop :=
  ∀ s a s', m s = Ok (a, s') → view c_state s !! p = Some st →
  ∃ st', view c_state s' = <[p := st']> (view c_state s) ∧ rtc E st st'.

Lemma moves_keeps {A} st (m : M ST A) : keeps (view c_state) m → moves st m.
Proof. intros Hm s a s' Em Hst. exists st. rewrite (Hm _ _ _ Em), insert_id by done. by split. Qed.

Lemma moves_seq {A B} st (m : M ST A) (k : A → M ST B) :
  moves st m → (∀ st' a, moves st' (k a)) → moves st (m ≫= k).
Proof.
  intros Hm Hk s b s' (a & s1 & E1 & E2)%bind_inv Hst.
  destruct (Hm _ _ _ E1 Hst) as (st1 & V1 & R1).
  destruct (Hk st1 a _ _ _ E2) as (st2 & V2 & R2); [by rewrite V1, lookup_insert_eq|].
  exists st2. rewrite V2, V1, insert_insert_eq. split; [done|by etrans].
Qed.

Lemma moves_bind {A B} st (m : M ST A) (k : A → M ST B) :
  keeps (view c_state) m → (∀ a, moves st (k a)) → moves st (m ≫= k).
Proof.
  intros Hm Hk s b s' (a & s1 & E1 & E2)%bind_inv Hst.
  rewrite <-(Hm _ _ _ E1) in Hst |- *. by eapply Hk.
Qed.

Lemma moves_get {B} st (k : tcp_conn → M ST B) :
  (∀ c, c_state c = st → moves st (k c)) → moves st (cget p ≫= k).
Proof.
  intros Hk s b s' (c & s1 & [-> Hc]%cget_inv & E2)%bind_inv Hst.
  eapply Hk; [|done..]. unfold view in Hst. rewrite lookup_fmap, Hc in Hst. by injection Hst.
Qed.

Lemma view_put_conn {X} (v : tcp_conn → X) c (s : ST) :
  view v (put_conn p c s) = <[p := v c]> (view v s).
Proof. unfold view. simpl. apply fmap_insert. Qed.

Lemma moves_set {B} st st' f (k : unit → M ST B) :
  (∀ c, c_state c = st → c_state (f c) = st') → E st st' →
  (∀ u, moves st' (k u)) → moves st (cmod p f ≫= k).
Proof.
  intros Hf Hst Hk s b s' (u & s1 & (c & Hc & ->)%cmod_inv & E2)%bind_inv Hv.
  assert (c_state c = st) as Hs by (unfold view in Hv; rewrite lookup_fmap, Hc in Hv; by injection Hv).
  destruct (Hk u _ _ _ E2) as (st2 & V2 & R2).
  { rewrite view_put_conn, lookup_insert_eq. f_equal. by apply Hf. }
  exists st2. rewrite V2, view_put_conn, insert_insert_eq. split; [done|by eapply rtc_l].
Qed.

Lemma moves_set_last st st' f :
  (∀ c, c_state c = st → c_state (f c) = st') → E st st' → moves st (cmod p f).
Proof.
  intros Hf Hst s b s' (c & Hc & ->)%cmod_inv Hv.
  assert (c_state c = st) as Hs by (unfold view in Hv; rewrite lookup_fmap, Hc in Hv; by injection Hv).
  exists st'. rewrite view_put_conn, (Hf _ Hs). split; [done|by apply rtc_once].
Qed.

End Rules.

(** A handler is followed statement by statement; [done] closes the equation
    between the new state and the written one. *)
Ltac mv_one :=
  lazymatch goal with
  | |- moves _ ?p _ (mbind _ (cget ?p)) => apply moves_get; intros ? ?
  | |- moves _ _ _ (if ?b then _ else _) => destruct b
  | |- moves _ _ _ (let _ := _ in _) => cbv zeta
  | |- moves _ _ _ (match ?x with _ => _ end) => destruct x eqn:?; simplify_eq
  | |- moves _ _ _ (mbind _ (mbind _ _)) => fail
  | |- moves _ ?p _ (mbind _ (cmod ?p _)) =>
      first [ apply moves_bind; [solve [keeps]|intros ?]
            | eapply moves_set; [intros ? ?; cbn; reflexivity|solve [auto with keeps nocore]|intros ?] ]
  | |- moves _ _ _ (mbind _ _) => apply moves_bind; [solve [keeps]|intros ?]
  end.
Ltac mv := repeat first [mv_one | solve [apply moves_keeps; keeps] | progress auto with moves nocore].
Create HintDb moves discriminated.
#[export] Hint Constants Opaque : moves.

(** ** Received segments *)

Section Recv.
Context {Q : Type} `{BoundedFifo Q finsFrame} `{Environment}.
Abbreviation ST := (mstate Q tcp_data) (only parsing).
Context (p : loc).

Lemma process_flags_moves st seg fl : moves recv_edge p st (tcp_process_flags (Q := Q) p seg fl).
Proof.
  unfold tcp_process_flags. apply moves_get. intros c Hc. cbv zeta. rewrite Hc.
  destruct st; mv.
  all: repeat first [ apply moves_seq; [mv|intros ? ?; mv] | mv ].
Qed.
Hint Resolve process_flags_moves : moves.

Lemma process_seg_moves st seg fl : moves recv_edge p st (tcp_process_seg (Q := Q) p seg fl).
Proof. unfold tcp_process_seg. apply moves_seq; [apply process_flags_moves|]. intros st' [ret fl']. mv. Qed.

Lemma recv_loop_moves st nodes fl : moves recv_edge p st (recv_loop (Q := Q) p nodes fl).
Proof.
  revert st fl. induction nodes as [|n nodes IH]; intros st fl; cbn [recv_loop]; [mv|].
  apply moves_get. intros c Hc. cbv zeta.
  repeat case_match; try (apply moves_bind; [solve [keeps]|intros ?]); auto using moves_keeps with keeps nocore.
  apply moves_seq; [apply process_seg_moves|]. intros st' [[ok sg] fl']. apply IH.
Qed.

Lemma in_order_moves st seg : moves recv_edge p st (handle_in_order (Q := Q) p seg).
Proof.
  unfold handle_in_order. do 2 (apply moves_bind; [solve [keeps]|intros ?]).
  apply moves_seq; [apply process_seg_moves|]. intros st' [[ok sg] fl'].
  apply moves_bind; [keeps|intros ?]. apply moves_get. intros c Hc.
  apply moves_seq; [apply recv_loop_moves|]. intros. mv.
Qed.

Lemma handle_data_moves st seg : moves recv_edge p st (tcp_handle_data (Q := Q) p seg).
Proof. unfold tcp_handle_data. apply moves_get. intros c Hc. destruct (_ =? _); [apply in_order_moves|mv]. Qed.

Lemma data_and_reply_moves st seg : moves recv_edge p st (data_and_reply (Q := Q) p seg).
Proof. unfold data_and_reply. apply moves_seq; [apply handle_data_moves|]. intros. mv. Qed.
Hint Resolve data_and_reply_moves : moves.

Lemma recv_syn_sent_moves seg : moves recv_edge p TS_SYN_SENT (tcp_recv_syn_sent (Q := Q) p seg).
Proof. unfold tcp_recv_syn_sent. mv. Qed.

Lemma accept_ack_moves seg b : moves recv_edge p TS_SYN_RECV (accept_ack (Q := Q) p seg b).
Proof.
  unfold accept_ack. apply moves_bind; [keeps|intros _].
  eapply moves_set; [intros ? ?; cbn; reflexivity|constructor|intros _].
  do 3 (apply moves_bind; [keeps|intros _]).
  apply moves_seq; [destruct (negb _); [apply data_and_reply_moves|mv]|]. intros. mv.
Qed.

Lemma recv_syn_recv_moves seg : moves recv_edge p TS_SYN_RECV (tcp_recv_syn_recv (Q := Q) p seg).
Proof. pose proof accept_ack_moves. unfold tcp_recv_syn_recv. mv. Qed.

Lemma recv_last_ack_moves st seg : moves recv_edge p st (tcp_recv_last_ack (Q := Q) p seg).
Proof.
  unfold tcp_recv_last_ack, ack_if_flagged. destruct (has _ _); [mv|].
  apply moves_bind; [keeps|intros _]. apply moves_seq; [apply handle_data_moves|]. intros. mv.
Qed.

Lemma recv_state_moves st seg :
  st ≠ TS_LISTEN → moves recv_edge p st (tcp_recv_state (Q := Q) p seg).
Proof.
  intros Hst. unfold tcp_recv_state. apply moves_get. intros c Hc. rewrite Hc.
  pose proof (recv_syn_sent_moves seg). pose proof (recv_syn_recv_moves seg).
  pose proof (recv_last_ack_moves TS_LAST_ACK seg).
  destruct st; try done.
  all: unfold tcp_recv_closed, tcp_recv_established, tcp_recv_fin_wait_1, tcp_recv_fin_wait_2,
    tcp_recv_closing, tcp_recv_time_wait, tcp_recv_close_wait, ack_if_flagged; mv.
Qed.

(** Connections have addresses below [next_addr]. *)
Definition addr_ok (s : ST) : Prop := ∀ q, is_Some (conns (md s) !! q) → q < next_addr (md s).

Lemma conn_create_inv hi hp ri rp (s : ST) q s' :
  tcp_conn_create hi hp ri rp s = Ok (q, s') →
  q = next_addr (md s) ∧
  conns (md s') = <[q := tcp_conn_init hi hp ri rp (mss (md s))]> (conns (md s)).
Proof. by intros [= <- <-]. Qed.

Lemma child_reply_keeps child seg : keeps (view c_state) (child_reply (Q := Q) p child seg).
Proof. unfold child_reply. keeps. Qed.

Lemma open_child_view child seg (s s' : ST) u :
  open_child p child seg s = Ok (u, s') →
  view c_state s' = <[child := TS_SYN_RECV]> (view c_state s).
Proof.
  intros (pc & s1 & [-> Hp]%cget_inv & E1)%bind_inv.
  apply bind_inv in E1 as (u1 & s2 & (c & Hc & ->)%cmod_inv & E2).
  rewrite (child_reply_keeps _ _ _ _ _ E2). by rewrite view_put_conn.
Qed.

(** A SYN to a listening connection opens at most one new connection, in state
    SYN_RECV, at an unused address. *)
Lemma recv_listen_view seg (s s' : ST) u :
  tcp_recv_listen p seg s = Ok (u, s') →
  view c_state s' = view c_state s ∨
  view c_state s' = <[next_addr (md s) := TS_SYN_RECV]> (view c_state s).
Proof.
  intros (c & s1 & [-> Hp]%cget_inv & E1)%bind_inv.
  repeat (case_match; try (left; by injection E1 as _ <-)).
  apply bind_inv in E1 as (q & s2 & E2 & E1). apply (find_conn_keeps id) in E2. cbn in E2. subst s2.
  case_match; [|left; by injection E1 as _ <-].
  apply bind_inv in E1 as (sp & s3 & E3 & E1). apply (has_space_keeps id) in E3. cbn in E3. subst s3.
  case_match; [|left; by injection E1 as _ <-].
  apply bind_inv in E1 as (ch & s4 & [-> Hc4]%conn_create_inv & E1).
  apply bind_inv in E1 as (u1 & s5 & [= _ <-] & E1).
  apply bind_inv in E1 as (u2 & s6 & (k & Hk & ->)%cmod_inv & E1).
  simpl in Hk. rewrite Hc4, lookup_insert_eq in Hk. injection Hk as <-.
  apply bind_inv in E1 as (u3 & s7 & E7 & E8). right.
  rewrite (leave_keeps c_state _ _ _ _ E8).
  apply bind_inv in E7 as (k' & s8 & [-> Hk']%cget_inv & E7).
  simpl in Hk'. rewrite lookup_insert_eq in Hk'. injection Hk' as <-. cbn in E7.
  rewrite (open_child_view _ _ _ _ _ E7), view_put_conn, insert_insert_eq.
  unfold view. simpl. by rewrite Hc4, fmap_insert, insert_insert_eq.
Qed.

End Recv.

(** ** Requests of the application *)

Section User.
Context {Q : Type} `{BoundedFifo Q finsFrame} `{Environment}.
Abbreviation ST := (mstate Q tcp_data) (only parsing).
Context (p : loc).

Lemma refuse_stored_keeps : keeps (view c_state) (refuse_stored (Q := Q) p).
Proof. unfold refuse_stored. keeps. Qed.
Lemma fin_if_finished_keeps : keeps (view c_state) (fin_if_finished (Q := Q) p).
Proof. unfold fin_if_finished. keeps. Qed.
Lemma send_result_keeps a b d : keeps (view c_state) (send_result (Q := Q) p a b d).
Proof. unfold send_result. keeps. Qed.
Hint Resolve refuse_stored_keeps fin_if_finished_keeps send_result_keeps : keeps.

Lemma tcp_close_moves st ff : moves user_edge p st (tcp_close (Q := Q) p ff).
Proof.
  unfold tcp_close. apply moves_get. intros c Hc. rewrite Hc.
  apply moves_seq; [|intros; mv]. destruct (c_running_flag c); [|mv]. destruct st; mv.
Qed.

Lemma tcp_listen_moves st ff b : moves user_edge p st (tcp_listen (Q := Q) p ff b).
Proof.
  unfold tcp_listen. apply moves_get. intros c Hc. apply moves_seq; [|intros; mv].
  destruct (c_running_flag c); cbn [andb]; [|mv]. destruct (bool_decide _) eqn:Hb; [|mv].
  apply bool_decide_eq_true in Hb. assert (st = TS_CLOSED) as -> by congruence.
  eapply moves_set_last; [intros ? ?; cbn; reflexivity|constructor].
Qed.

Lemma tcp_connect_moves st ff fl : moves user_edge p st (tcp_connect (Q := Q) p ff fl).
Proof.
  unfold tcp_connect. apply moves_get. intros c Hc. rewrite Hc.
  apply moves_seq; [|intros; mv]. destruct (c_running_flag c); [|mv]. destruct st; mv.
Qed.

Lemma conn_alert_moves st ff : moves user_edge p st (tcp_conn_alert (Q := Q) p ff).
Proof. unfold tcp_conn_alert. mv. Qed.

Lemma search_func_keeps parent q ff : keeps (view c_state) (tcp_conn_search_func (Q := Q) parent q ff).
Proof. unfold tcp_conn_search_func. keeps. Qed.
Hint Resolve search_func_keeps : keeps.
Lemma search_backlog_keeps l ff : keeps (view c_state) (search_backlog (Q := Q) p l ff).
Proof. revert ff. induction l as [|q l IH]; intros ff; cbn [search_backlog]; keeps. Qed.
Hint Resolve search_backlog_keeps : keeps.
Lemma tcp_accept_keeps ff fl : keeps (view c_state) (tcp_accept (Q := Q) p ff fl).
Proof. unfold tcp_accept. keeps. Qed.
Lemma add_poll_keeps : keeps (view c_state) (add_poll (Q := Q) p).
Proof. unfold add_poll. keeps. Qed.
Hint Resolve add_poll_keeps : keeps.
Lemma poll_write_keeps : keeps (view c_state) (poll_write (Q := Q) p).
Proof. unfold poll_write. keeps. Qed.
Hint Resolve poll_write_keeps : keeps.
Lemma tcp_poll_keeps ff i ev : keeps (view c_state) (tcp_poll (Q := Q) p ff i ev).
Proof. unfold tcp_poll. keeps. Qed.
Lemma tcp_poll_stub_keeps ff i ev : keeps (view c_state) (tcp_poll_stub (Q := Q) p ff i ev).
Proof. unfold tcp_poll_stub. keeps. Qed.
Lemma conn_read_param_keeps ff : keeps (view c_state) (tcp_conn_read_param (Q := Q) p ff).
Proof. unfold tcp_conn_read_param. keeps. Qed.
Lemma host_window_keeps v : keeps (view c_state) (set_host_window (Q := Q) p v).
Proof. unfold set_host_window. keeps. Qed.
Hint Resolve host_window_keeps : keeps.
Lemma conn_set_param_keeps ff : keeps (view c_state) (tcp_conn_set_param (Q := Q) p ff).
Proof. unfold tcp_conn_set_param. keeps. Qed.
Hint Resolve conn_read_param_keeps conn_set_param_keeps : keeps.

Lemma conn_fcf_moves st ff : moves user_edge p st (tcp_conn_fcf (Q := Q) p ff).
Proof.
  pose proof (conn_alert_moves st ff). unfold tcp_conn_fcf, tcp_error. apply moves_get. intros c Hc.
  apply moves_seq; [|intros; mv]. mv.
Qed.

Lemma write_early_keeps n b k : keeps (view c_state) (write_early (Q := Q) p n b k).
Proof. unfold write_early. keeps. Qed.
Lemma write_request_keeps n b fl k : keeps (view c_state) (write_request (Q := Q) p n b fl k).
Proof. unfold write_request. keeps. Qed.
Hint Resolve write_early_keeps write_request_keeps : keeps.
Lemma tcp_write_keeps n b fl k : keeps (view c_state) (tcp_write (Q := Q) p n b fl k).
Proof. unfold tcp_write. keeps. Qed.

End User.

#[export] Hint Resolve tcp_close_moves tcp_listen_moves tcp_connect_moves conn_fcf_moves : moves.
#[export] Hint Resolve tcp_accept_keeps tcp_poll_keeps tcp_poll_stub_keeps tcp_write_keeps : keeps.

(** ** The main thread *)

Section Thread.
Context {Q : Type} `{BoundedFifo Q finsFrame} `{Environment}.
Abbreviation ST := (mstate Q tcp_data) (only parsing).
Context (p : loc).

Lemma main_syn_recv_moves : moves timer_edge p TS_SYN_RECV (tcp_main_syn_recv (Q := Q) p).
Proof.
  unfold tcp_main_syn_recv. apply moves_bind; [keeps|intros _]. apply moves_get. intros c Hc.
  apply moves_seq; [|intros; mv]. mv.
Qed.

Lemma main_time_wait_moves : moves timer_edge p TS_TIME_WAIT (tcp_main_time_wait (Q := Q) p).
Proof. unfold tcp_main_time_wait. mv. Qed.

Lemma main_state_moves st : moves timer_edge p st (tcp_main_state (Q := Q) p).
Proof.
  pose proof main_syn_recv_moves. pose proof main_time_wait_moves.
  unfold tcp_main_state. apply moves_get. intros c Hc. rewrite Hc.
  destruct st; unfold tcp_main_closing, tcp_main_close_wait, tcp_main_last_ack; mv.
Qed.

End Thread.

(** ** Handlers of the whole module

    What a handler may do to the states of all connections: existing ones move
    along [E]; one new connection may appear, at the next unused address and in
    a state of [N]. *)

Section Steps.
Context {Q : Type} `{BoundedFifo Q finsFrame} `{Environment}.
Abbreviation ST := (mstate Q tcp_data) (only parsing).

Definition evolves (E : tcp_state → tcp_state → Prop) (N : tcp_state → Prop) (s s' : ST) : Prop :=
  ∀ q, match view c_state s !! q, view c_state s' !! q with
       | Some a, Some b => rtc E a b
       | None, Some b => q = next_addr (md s) ∧ N b
       | Some _, None => False
       | None, None => True
       end.

Section WithEdges.
Context (E : tcp_state → tcp_state → Prop) (N : tcp_state → Prop).

Definition steps {A} (m : M ST A) : Prop :=
  ∀ s a s', addr_ok s → m s = Ok (a, s') → evolves E N s s'.

Lemma evolves_same (s s' : ST) : view c_state s' = view c_state s → evolves E N s s'.
Proof. intros Hv q. rewrite Hv. by destruct (view c_state s !! q). Qed.

Lemma evolves_one p st st' (s s' : ST) :
  view c_state s !! p = Some st → view c_state s' = <[p := st']> (view c_state s) →
  rtc E st st' → evolves E N s s'.
Proof.
  intros Hp Hv HE q. rewrite Hv. destruct (decide (q = p)) as [->|].
  - by rewrite lookup_insert_eq, Hp.
  - rewrite lookup_insert_ne by done. by destruct (view c_state s !! q).
Qed.

Lemma evolves_new st (s s' : ST) :
  addr_ok s → view c_state s' = <[next_addr (md s) := st]> (view c_state s) → N st →
  evolves E N s s'.
Proof.
  intros Ha Hv HN q. rewrite Hv. destruct (decide (q = next_addr (md s))) as [->|].
  - rewrite lookup_insert_eq. destruct (view c_state s !! _) eqn:Hq; [|done].
    unfold view in Hq. rewrite lookup_fmap in Hq.
    destruct (conns (md s) !! next_addr (md s)) eqn:Hc; [|done].
    assert (next_addr (md s) < next_addr (md s)) by (apply Ha; by eauto). lia.
  - rewrite lookup_insert_ne by done. by destruct (view c_state s !! q).
Qed.

Lemma steps_keeps {A} (m : M ST A) : keeps (view c_state) m → steps m.
Proof. intros Hm s a s' _ Em. eapply evolves_same, Hm, Em. Qed.

Lemma steps_read {A B} (m : M ST A) (k : A → M ST B) :
  keeps id m → (∀ a, steps (k a)) → steps (m ≫= k).
Proof.
  intros Hm Hk s b s' Ha (a & s1 & E1 & E2)%bind_inv. apply Hm in E1. cbn in E1. subst s1. by eapply Hk.
Qed.

Lemma steps_enter {B} p (k : unit → M ST B) :
  (∀ st u, moves E p st (k u)) → steps (enter_conn p ≫= k).
Proof.
  intros Hk s b s' Ha (u & s1 & E1 & E2)%bind_inv.
  pose proof (enter_keeps c_state _ _ _ _ E1) as Hv.
  apply cmod_inv in E1 as (c & Hc & ->).
  assert (view c_state s !! p = Some (c_state c)) as Hp by (unfold view; by rewrite lookup_fmap, Hc).
  destruct (Hk (c_state c) u _ _ _ E2) as (st' & Hv' & HE); [by rewrite Hv|].
  rewrite Hv in Hv'. by eapply evolves_one.
Qed.

End WithEdges.

Create HintDb steps discriminated.
#[export] Hint Constants Opaque : steps.

Ltac st_one :=
  lazymatch goal with
  | |- steps _ _ (if ?b then _ else _) => destruct b
  | |- steps _ _ (let _ := _ in _) => cbv zeta
  | |- steps _ _ (match ?x with _ => _ end) => destruct x
  | |- steps _ _ (mbind _ (enter_conn _)) =>
      apply steps_enter; intros; solve [auto with moves nocore | apply moves_keeps; keeps]
  | |- steps _ _ (mbind _ _) => apply steps_read; [solve [keeps]|intros ?]
  end.
Ltac st := repeat first [st_one | progress auto with steps nocore | solve [apply steps_keeps; keeps]].

(** Statements that neither allocate nor change a state. *)
Definition states_addr (s : ST) : gmap Z tcp_state * Z := (view c_state s, next_addr (md s)).

Lemma keeps_pair {A X Y} (f : ST → X) (g : ST → Y) (m : M ST A) :
  keeps f m → keeps g m → keeps (λ s, (f s, g s)) m.
Proof. intros Hf Hg s a s' Em. by rewrite (Hf _ _ _ Em), (Hg _ _ _ Em). Qed.
Lemma cmod_addr p f : keeps (λ s, next_addr (md s)) (cmod (Q := Q) p f).
Proof. by intros s a s' (c & Hc & ->)%cmod_inv. Qed.
Lemma enter_sa p : keeps states_addr (enter_conn (Q := Q) p).
Proof. apply keeps_pair; [keeps|apply cmod_addr]. Qed.
Lemma stat_sa p f : keeps states_addr (stat (Q := Q) p f).
Proof. apply keeps_pair; [keeps|]. apply keeps_bind; [apply cmod_addr|]. by intros u s a s' [= _ <-]. Qed.
Hint Resolve enter_sa stat_sa : keeps.

Lemma addr_ok_same (s s' : ST) : states_addr s' = states_addr s → addr_ok s → addr_ok s'.
Proof.
  intros [= Hv Ha] Hok q [c Hc]. rewrite Ha. apply Hok.
  assert (view c_state s !! q = Some (c_state c)) as Hq.
  { rewrite <-Hv. unfold view. by rewrite lookup_fmap, Hc. }
  unfold view in Hq. rewrite lookup_fmap in Hq. destruct (conns (md s) !! q); [by eauto|done].
Qed.

Section SeqRules.
Context (E : tcp_state → tcp_state → Prop) (N : tcp_state → Prop).

Lemma steps_bind {A B} (m : M ST A) (k : A → M ST B) :
  keeps states_addr m → (∀ a, steps E N (k a)) → steps E N (m ≫= k).
Proof.
  intros Hm Hk s b s' Ha (a & s1 & E1 & E2)%bind_inv. apply Hm in E1.
  pose proof (Hk a s1 b s' (addr_ok_same _ _ E1 Ha) E2) as Hev.
  intros q. specialize (Hev q). injection E1 as Hv Hn. by rewrite Hv, Hn in Hev.
Qed.

Lemma steps_then {A B} (m : M ST A) (k : A → M ST B) :
  steps E N m → (∀ a, keeps (view c_state) (k a)) → steps E N (m ≫= k).
Proof.
  intros Hm Hk s b s' Ha (a & s1 & E1 & E2)%bind_inv. apply Hk in E2.
  intros q. rewrite E2. apply (Hm _ _ _ Ha E1 q).
Qed.

Lemma steps_moves {B} p (k : tcp_conn → M ST B) :
  (∀ c, moves E p (c_state c) (k c)) → steps E N (cget p ≫= k).
Proof.
  intros Hk s b s' Ha (c & s1 & [-> Hc]%cget_inv & E2)%bind_inv.
  assert (view c_state s !! p = Some (c_state c)) as Hp by (unfold view; by rewrite lookup_fmap, Hc).
  destruct (Hk c _ _ _ E2 Hp) as (st' & Hv & HE). by eapply evolves_one.
Qed.
End SeqRules.

Lemma recv_listen_steps p seg : steps recv_edge (eq TS_SYN_RECV) (tcp_recv_listen (Q := Q) p seg).
Proof. intros s a s' Ha [Hv|Hv]%recv_listen_view; [by eapply evolves_same|by eapply evolves_new]. Qed.

Lemma recv_state_steps p seg : steps recv_edge (eq TS_SYN_RECV) (tcp_recv_state (Q := Q) p seg).
Proof.
  intros s a s' Ha E1. pose proof E1 as (c & s1 & [-> Hc]%cget_inv & E2)%bind_inv.
  assert (view c_state s !! p = Some (c_state c)) as Hp by (unfold view; by rewrite lookup_fmap, Hc).
  destruct (decide (c_state c = TS_LISTEN)) as [Hl|Hn].
  - rewrite Hl in E2. by eapply recv_listen_steps.
  - destruct (recv_state_moves p _ seg Hn _ _ _ E1 Hp) as (st' & Hv & HE). by eapply evolves_one.
Qed.

Lemma recv_steps p seg : steps recv_edge (eq TS_SYN_RECV) (tcp_recv (Q := Q) p seg).
Proof.
  unfold tcp_recv. apply steps_read; [keeps|intros c].
  apply steps_then; [|intros; keeps]. destruct (c_running_flag c); [|apply steps_keeps; keeps].
  do 2 (apply steps_bind; [keeps|intros ?]). destruct (_ || _); [|apply steps_keeps; keeps].
  apply steps_bind; [keeps|intros ?]. apply recv_state_steps.
Qed.

Lemma in_fdf_steps ff : steps recv_edge (eq TS_SYN_RECV) (tcp_in_fdf (Q := Q) ff).
Proof.
  unfold tcp_in_fdf. apply steps_read; [keeps|intros [seg|]]; [|apply steps_keeps; keeps].
  apply steps_then; [|intros; keeps].
  apply steps_read; [keeps|intros p].
  destruct (negb _); [apply steps_bind; [keeps|intros ?]; apply recv_steps|].
  destruct (_ && _); [|destruct (has _ _); apply steps_keeps; keeps].
  apply steps_read; [keeps|intros q].
  destruct (negb _); [apply steps_bind; [keeps|intros ?]; apply recv_steps|apply steps_keeps; keeps].
Qed.

(** ** The handlers of control frames *)

Ltac kaddr :=
  repeat first
    [ apply cmod_addr
    | match goal with
      | |- keeps _ (mbind _ _) => apply keeps_bind; [|intros ?]
      | |- keeps _ (match ?x with _ => _ end) => destruct x
      end
    | solve [eauto with keeps nocore]
    | solve [apply (keeps_md next_addr); eauto with keeps nocore]
    | by intros ? ? ? [= _ <-] ].

Lemma shutdown_addr p : keeps (λ s, next_addr (md s)) (tcp_conn_shutdown (Q := Q) p).
Proof. unfold tcp_conn_shutdown, post_main. kaddr. Qed.
Hint Resolve shutdown_addr : keeps.
Lemma shutdown_all_addr l : keeps (λ s, next_addr (md s)) (shutdown_all (Q := Q) l).
Proof. induction l as [|p l IH]; cbn [shutdown_all]; kaddr. Qed.
Hint Resolve shutdown_all_addr : keeps.
Lemma conn_reply_addr p ff a b : keeps (λ s, next_addr (md s)) (tcp_conn_reply_fcf (Q := Q) p ff a b).
Proof. unfold tcp_conn_reply_fcf. kaddr. Qed.
Hint Resolve conn_reply_addr : keeps.
Lemma reuse_stub_sa p ip port : keeps states_addr (reuse_stub (Q := Q) p ip port).
Proof. apply keeps_pair; unfold reuse_stub; [keeps|]. unfold enter_conn, leave_conn, stub_list_remove. kaddr. Qed.
Lemma stub_remove_sa p : keeps states_addr (stub_list_remove (Q := Q) p).
Proof. apply keeps_pair; [keeps|]. unfold stub_list_remove. kaddr. Qed.
Hint Resolve reuse_stub_sa stub_remove_sa : keeps.

(** States a connection created for the application may be left in. *)
Definition opened : tcp_state → Prop := rtc user_edge TS_CLOSED.

Lemma steps_create {B} a b c d (k : loc → M ST B) :
  (∀ p, moves user_edge p TS_CLOSED (k p)) → steps user_edge opened (tcp_conn_create a b c d ≫= k).
Proof.
  intros Hk s x s' Ha (p & s1 & [-> Hc]%conn_create_inv & E2)%bind_inv.
  assert (view c_state s1 = <[next_addr (md s) := TS_CLOSED]> (view c_state s)) as Hv.
  { unfold view. by rewrite Hc, fmap_insert. }
  destruct (Hk _ _ _ _ E2) as (st' & Hv' & HE); [by rewrite Hv, lookup_insert_eq|].
  rewrite Hv, insert_insert_eq in Hv'. by eapply evolves_new.
Qed.

Lemma exec_close_steps ff a b c d : steps user_edge opened (tcp_exec_close (Q := Q) ff a b c d).
Proof. unfold tcp_exec_close. st. Qed.
Lemma exec_close_stub_steps ff a b : steps user_edge opened (tcp_exec_close_stub (Q := Q) ff a b).
Proof.
  unfold tcp_exec_close_stub. apply steps_read; [keeps|intros p]. destruct (_ =? _); [st|].
  apply steps_bind; [keeps|intros _]. st.
Qed.
Lemma exec_listen_steps ff a b n : steps user_edge opened (tcp_exec_listen (Q := Q) ff a b n).
Proof.
  unfold tcp_exec_listen. do 2 (apply steps_read; [keeps|intros ?]; case_match; [|st]).
  apply steps_create. intros q. mv.
Qed.
Lemma exec_connect_steps ff a b c d fl : steps user_edge opened (tcp_exec_connect (Q := Q) ff a b c d fl).
Proof.
  unfold tcp_exec_connect. do 2 (apply steps_read; [keeps|intros ?]; case_match; [|st]).
  apply steps_read; [keeps|intros stub].
  apply steps_bind; [destruct (_ =? _); keeps|intros [|]].
  - intros s x s' Ha (q & s1 & [= <- <-] & E2)%bind_inv.
    apply bind_inv in E2 as (u & s2 & E1 & E2). pose proof (list_append_keeps c_state _ _ _ _ E1) as Hv.
    eapply (steps_enter user_edge opened stub) in E2; [|intros; apply tcp_connect_moves|].
    + injection E1 as _ <-. exact E2.
    + injection E1 as _ <-. exact Ha.
  - apply steps_create. intros q. mv.
Qed.
Lemma exec_steps ff : steps user_edge opened (tcp_exec (Q := Q) ff).
Proof.
  pose proof exec_close_steps. pose proof exec_close_stub_steps. pose proof exec_listen_steps.
  pose proof exec_connect_steps. unfold tcp_exec, tcp_exec_accept, tcp_exec_poll. st.
Qed.
Lemma fcf_match_steps ff : steps user_edge opened (tcp_fcf_match (Q := Q) ff).
Proof. unfold tcp_fcf_match. apply steps_read; [keeps|intros [[[[a b] c] d] e]]. st. Qed.
Hint Resolve fcf_match_steps exec_steps : steps.

Lemma fcf_steps ff : steps user_edge opened (tcp_fcf (Q := Q) ff).
Proof. unfold tcp_fcf, tcp_alert, tcp_read_param, tcp_set_param, reply_value, tcp_error. st. Qed.

Lemma out_fdf_steps ff : steps (λ _ _, False) (λ _, False) (tcp_out_fdf (Q := Q) ff).
Proof. unfold tcp_out_fdf. st. Qed.

End Steps.

(** ** Everything that happens to the module *)

Section Machine.
Context {Q : Type} `{BoundedFifo Q finsFrame} `{Environment}.
Abbreviation ST := (mstate Q tcp_data) (only parsing).

(** A frame is handled, the thread of a connection makes a round, or a timer
    of a connection or of a request expires. *)
Inductive tcp_event :=
| EvFrame (ff : finsFrame)
| EvRound (p : loc)
| EvGbn (p : loc)
| EvDelayed (p : loc)
| EvRequest (p addr : loc).

Definition tcp_event_run (ev : tcp_event) : M ST unit :=
  match ev with
  | EvFrame ff => frame_dispatch tcp_fcf tcp_in_fdf tcp_out_fdf ff
  | EvRound p => tcp_main_round p ;; mret tt
  | EvGbn p => sem_to_handler set_to_gbn_flag p
  | EvDelayed p => sem_to_handler set_to_delayed_flag p
  | EvRequest p addr => intsem_to_handler p addr
  end.

(** The edges an event may take the connection [q] along, and the states of
    connections it creates. *)
Definition event_edge (ev : tcp_event) (q : loc) (a b : tcp_state) : Prop :=
  match ev with
  | EvFrame ff =>
      match body ff with
      | Ctrl _ => user_edge a b
      | Data d => directionFlag d = DIR_UP ∧ recv_edge a b
      | NoUnion _ => False
      end
  | EvRound p => q = p ∧ timer_edge a b
  | _ => False
  end.
Definition event_new (ev : tcp_event) (b : tcp_state) : Prop :=
  match ev with
  | EvFrame ff =>
      match body ff with
      | Ctrl _ => opened b
      | Data d => directionFlag d = DIR_UP ∧ b = TS_SYN_RECV
      | NoUnion _ => False
      end
  | _ => False
  end.

(** Connections move along the edges of the event, appear at the next unused
    address, and disappear when their own thread ends after a shutdown. *)
Definition transitions (ev : tcp_event) (s s' : ST) : Prop :=
  ∀ q, match view c_state s !! q, view c_state s' !! q with
       | Some a, Some b => rtc (event_edge ev q) a b
       | None, Some b => q = next_addr (md s) ∧ event_new ev b
       | Some _, None => ev = EvRound q ∧ view c_running_flag s !! q = Some false
       | None, None => True
       end.

Lemma evolves_transitions E N ev (s s' : ST) :
  (∀ q a b, E a b → event_edge ev q a b) → (∀ b, N b → event_new ev b) →
  evolves E N s s' → transitions ev s s'.
Proof.
  intros HE HN Hev q. specialize (Hev q).
  destruct (view c_state s !! q), (view c_state s' !! q); try done; [|naive_solver].
  eapply rtc_subrel; [|exact Hev]. apply HE.
Qed.

Lemma transitions_same ev (s s' : ST) : view c_state s' = view c_state s → transitions ev s s'.
Proof. intros Hv. eapply (evolves_transitions (λ _ _, False) (λ _, False)); [done..|by apply evolves_same]. Qed.

Lemma main_exit_view p (s s' : ST) u :
  tcp_main_exit p s = Ok (u, s') → view c_state s' = delete p (view c_state s).
Proof.
  intros (c & s1 & [-> Hc]%cget_inv & E1)%bind_inv.
  apply bind_inv in E1 as (u1 & s2 & E2 & E1). apply bind_inv in E1 as (u2 & s3 & E3 & E1).
  assert (view c_state s3 = view c_state s) as Hv.
  { assert (keeps (view c_state) (tcp_conn_stop (Q := Q) p)) as K by (unfold tcp_conn_stop; keeps).
    rewrite (K _ _ _ E3). destruct (c_stub_list c);
      [by rewrite (stub_remove_keeps c_state _ _ _ _ E2)|by rewrite (list_remove_keeps c_state _ _ _ _ E2)]. }
  apply bind_inv in E1 as (c4 & s4 & [-> Hc4]%cget_inv & E1).
  apply bind_inv in E1 as (u5 & s5 & E5 & [= _ <-]).
  assert (view c_state s5 = view c_state s3) as Hv5.
  { revert E5. destruct (c_ff c4) as [f|]; [|by intros [= _ <-]].
    apply (keeps_md (λ d, c_state <$> conns d)), free_ff_md. }
  rewrite <-Hv, <-Hv5. unfold view. simpl. apply fmap_delete.
Qed.

Lemma round_transitions p (s s' : ST) r :
  tcp_main_round p s = Ok (r, s') → transitions (EvRound p) s s'.
Proof.
  intros (c & s1 & [-> Hc]%cget_inv & E1)%bind_inv.
  assert (view c_state s !! p = Some (c_state c)) as Hp by (unfold view; by rewrite lookup_fmap, Hc).
  destruct (c_running_flag c) eqn:Hr.
  - apply bind_inv in E1 as (u & s2 & E2 & E1).
    destruct (main_state_moves p _ _ _ _ E2 Hp) as (st' & Hv & HE).
    assert (view c_state s' = view c_state s2) as Hv'.
    { apply bind_inv in E1 as (c3 & s3 & [-> Hc3]%cget_inv & E1).
      destruct (_ && _); [|by injection E1 as _ <-].
      apply bind_inv in E1 as (u4 & s4 & E4 & [= _ <-]). by kept c_state E4. }
    intros q. rewrite Hv', Hv. destruct (decide (q = p)) as [->|].
    + rewrite lookup_insert_eq, Hp. eapply rtc_subrel; [|exact HE]. by intros.
    + rewrite lookup_insert_ne by done. by destruct (view c_state s !! q).
  - apply bind_inv in E1 as (u & s2 & E2%main_exit_view & [= _ <-]).
    intros q. rewrite E2. destruct (decide (q = p)) as [->|].
    + rewrite lookup_delete_eq, Hp. split; [done|]. unfold view. by rewrite lookup_fmap, Hc, <-Hr.
    + rewrite lookup_delete_ne by done. by destruct (view c_state s !! q).
Qed.

(** C26: Whatever happens to the module, connections change state only along the
    edges of the TCP diagram: a received segment, a request of the application
    and an expired timer each along their own edges; the thread of a connection
    changes no other connection; a new connection appears at an unused address
    in SYN_RECV or in a state the application opens it in; and a connection
    disappears only when its own thread ends after it was shut down. *)
Theorem tcp_state_machine ev (s s' : ST) u :
  addr_ok s → tcp_event_run ev s = Ok (u, s') → transitions ev s s'.
Proof.
  intros Ha. destruct ev as [ff|p|p|p|p addr]; cbn [tcp_event_run].
  - unfold frame_dispatch. destruct (metaData ff); [|done]. destruct (body ff) as [d|k|] eqn:Hb; [| |done].
    + destruct (Z.eqb_spec (directionFlag d) DIR_UP) as [Hd|Hd];
        [|destruct (Z.eqb_spec (directionFlag d) DIR_DOWN); [|discriminate]]; intros E1.
      * eapply evolves_transitions, in_fdf_steps, E1; [..|done]; cbn; rewrite Hb; naive_solver.
      * eapply evolves_transitions, out_fdf_steps, E1; [..|done]; done.
    + intros E1. eapply evolves_transitions, fcf_steps, E1; [..|done]; cbn; by rewrite Hb.
  - intros (r & s1 & E1 & [= _ <-])%bind_inv. by eapply round_transitions.
  - unfold sem_to_handler. intros E1. apply transitions_same. by kept c_state E1.
  - unfold sem_to_handler. intros E1. apply transitions_same. by kept c_state E1.
  - unfold intsem_to_handler. intros E1. apply transitions_same. by kept c_state E1.
Qed.

End Machine.

(** The listening server of [TcpDemo] is sent a SYN. *)
Definition demo_syn_event : tcp_event := EvFrame (demo_up 10 20 demo_syn).
Definition demo_syn_result : demo_ST :=
  match tcp_event_run (H0 := demo_env) demo_syn_event demo_server with Ok (_, s') => s' | _ => demo_server end.

Lemma demo_server_addr : addr_ok demo_server.
Proof.
  intros q [c Hq]. cbn in Hq. unfold demo_data in Hq. cbn in Hq.
  apply lookup_insert_Some in Hq as [[<- _]|[_ Hq]]; [done|]. by rewrite lookup_empty in Hq.
Qed.

(** Witness of C26. *)
Lemma tcp_state_machine_witness :
  transitions demo_syn_event demo_server demo_syn_result ∧
  view c_state demo_server !! 2 = None ∧ view c_state demo_syn_result !! 2 = Some TS_SYN_RECV ∧
  view c_state demo_syn_result !! 1 = Some TS_LISTEN.
Proof.
  split; [|by vm_compute].
  apply (tcp_state_machine (H0 := demo_env) demo_syn_event demo_server demo_syn_result tt).
  - exact demo_server_addr.
  - vm_compute. reflexivity.
Defined.
