(* ===== verification/TcpRun.v ===== *)
(** * TCP handlers that return

    Total-correctness triples for the steps of the handlers.  [live p xs n c] describes a module in which
    the connection [p] is [c], the output queue holds [xs] and has room for [n]
    more frames, and the flows to the IPv4 module and to the daemon lead to one
    module each. *)

From stdpp Require Import base list gmap strings.
From Stdlib Require Import ZArith Lia.
From S2P Require Import Prelude Queue Metadata Frame Module IPv4 UDP Double TcpWindow TcpQueue TcpSeg.
From S2P Require Import TcpRecord TcpConn TcpMain TcpIn TcpDemo TcpLogic.
Open Scope Z_scope.
Open Scope fins_scope.

Section Run.
Context {Q : Type} `{BoundedFifo Q finsFrame} `{Environment}.
Abbreviation ST := (mstate Q tcp_data) (only parsing).

Lemma runs_lift {A} (r : res A) (a : A) (P : ST → Prop) (R : A → ST → Prop) :
  r = Ok a → (∀ s, P s → R a s) → runs P (lift r) R.
Proof. intros -> HR s HP. exists a, s. auto. Qed.

(** ** A connection and the way out *)

Context (ipv4 daemon : Z) (p : loc).

Record live (xs : list finsFrame) (n : nat) (c : tcp_conn) (s : ST) : Prop := {
  lv_conn : conns (md s) !! p = Some c;
  lv_table : table_ok (lcells (store s)) (mt s);
  lv_room : room s xs n;
  lv_ipv4 : flow_dsts s TCP_FLOW_IPV4 = [ipv4];
  lv_daemon : flow_dsts s TCP_FLOW_DAEMON = [daemon]
}.

Lemma live_md xs n c c' d s :
  live xs n c s → conns d !! p = Some c' → live xs n c' (set_md d s).
Proof. by intros [? ? ? ? ?] Hc. Qed.

Lemma live_room xs n n' c s : (n' ≤ n)%nat → live xs n c s → live xs n' c s.
Proof. intros Hn [? ? ? ? ?]. split; try done. by eapply room_le. Qed.

Lemma run_cget {B} xs n c (k : tcp_conn → M ST B) R :
  runs (live xs n c) (k c) R → runs (live xs n c) (cget p ≫= k) R.
Proof. intros Hk s Hs. rewrite (bind_ok _ _ _ c s); [by apply Hk|]. apply cget_ok, Hs. Qed.

Lemma run_cmod xs n c f : runs (live xs n c) (cmod p f) (λ _, live xs n (f c)).
Proof.
  intros s Hs. exists tt, (put_conn p (f c) s). split; [apply cmod_ok, Hs|].
  eapply live_md; [exact Hs|]. simpl. apply lookup_insert_eq.
Qed.

Lemma run_cmod_then {B} xs n c f (k : unit → M ST B) R :
  runs (live xs n (f c)) (k tt) R → runs (live xs n c) (cmod p f ≫= k) R.
Proof. intros Hk. eapply runs_bind; [apply run_cmod|]. intros []. exact Hk. Qed.

(** Updates of the module data that leave the connections alone. *)
Lemma run_tmod xs n c g :
  (∀ d, conns (g d) = conns d) → runs (live xs n c) (tmod g) (λ _, live xs n c).
Proof.
  intros Hg s Hs. eexists tt, _. split; [done|]. eapply live_md; [exact Hs|]. rewrite Hg. apply Hs.
Qed.

Lemma run_stat1 xs n c g : runs (live xs n c) (stat1 p g) (λ _, live xs n (put_stats (g (c_stats c)) c)).
Proof. apply (run_cmod xs n c (λ c, put_stats (g (c_stats c)) c)). Qed.
Lemma run_stat xs n c g : runs (live xs n c) (stat p g) (λ _, live xs n (put_stats (g (c_stats c)) c)).
Proof. eapply runs_bind; [apply run_stat1|]. intros []. by apply run_tmod. Qed.

Lemma run_stat_then {B} xs n c g (k : unit → M ST B) R :
  runs (live xs n (put_stats (g (c_stats c)) c)) (k tt) R → runs (live xs n c) (stat p g ≫= k) R.
Proof. intros Hk. eapply runs_bind; [apply run_stat|]. intros []. exact Hk. Qed.

Lemma run_fresh {B} xs n c (k : loc → M ST B) R :
  (∀ a, runs (live xs n c) (k a) R) → runs (live xs n c) (fresh ≫= k) R.
Proof.
  intros Hk. apply (runs_bind _ _ _ (λ _, live xs n c)); [|exact Hk].
  intros s Hs. eexists _, _. split; [done|]. eapply live_md; [exact Hs|]. apply Hs.
Qed.

Lemma put_wait_same (c : tcp_conn) : put_wait c c = c.
Proof. by destruct c. Qed.

Lemma run_wake {B} xs n c (k : unit → M ST B) R :
  (∀ w, runs (live xs n (put_wait w c)) (k tt) R) → runs (live xs n c) (wake_main p ≫= k) R.
Proof.
  intros Hk. apply (runs_bind _ _ _ (λ _ s, ∃ w, live xs n (put_wait w c) s)).
  - unfold wake_main. apply run_cget. destruct (c_main_waiting c).
    + apply run_cmod_then. eapply runs_post; [apply run_cmod|]. intros ? s Hs. eexists. exact Hs.
    + apply runs_ret. intros s Hs. exists (c : conn_wait). by rewrite put_wait_same.
  - intros []. apply runs_ex. exact Hk.
Qed.

(** ** Sending *)

Lemma live_sent xs n c ff dst s flow :
  live xs (S n) c s → 0 ≤ flow → frame_ok ff → flow_dsts s flow = [dst] →
  ∃ s', module_send_flow ff flow s = Ok (1, s') ∧ live (xs ++ [set_dest dst ff]) n c s'.
Proof.
  intros [Hc Ht Hr Hi Hd] Hfl Hff Hdst.
  destruct (send_flow_ok ff flow s xs Hff Hfl Ht) as (s' & E & F & M).
  { rewrite Hdst. eapply room_le; [|exact Hr]. simpl. lia. }
  rewrite Hdst in E, F. exists s'. split; [exact E|].
  assert (∀ f, flow_dsts s' f = flow_dsts s f) as Hfd.
  { intros f. unfold flow_dsts. by rewrite (eff_mt _ _ _ _ _ F), (eff_store _ _ _ _ _ F). }
  split; rewrite ?M, ?Hfd; try done.
  - by rewrite (eff_mt _ _ _ _ _ F), (eff_store _ _ _ _ _ F).
  - by eapply room_eff.
Qed.

(** The frame that hands received bytes to the daemon. *)
Definition daemon_meta (hi hp ri rp : Z) : metadata :=
  [("recv_protocol", SInt TCP_PT_TCP); ("recv_family", SInt AF_INET);
   ("recv_src_ipv4", SInt (s32 hi)); ("recv_src_port", SInt (s32 hp));
   ("recv_dst_ipv4", SInt (s32 ri)); ("recv_dst_port", SInt (s32 rp))].
Definition daemon_frame (b : list Z) (hi hp ri rp : Z) : finsFrame :=
  MkFrame daemon (Some (daemon_meta hi hp ri rp))
    (Data (MkData DIR_UP (Z.of_nat (length b)) (Some b))).

Lemma run_to_daemon xs n c b hi hp ri rp :
  Z.of_nat (length b) < 4294967296 →
  runs (live xs (S n) c)
    (tcp_fdf_to_daemon (Z.of_nat (length b)) (Some b) hi hp ri rp)
    (λ r s, r = 1 ∧ live (xs ++ [daemon_frame b hi hp ri rp]) n c s).
Proof.
  intros Hb s Hs. unfold tcp_fdf_to_daemon.
  rewrite (bind_ok _ _ _ (daemon_meta hi hp ri rp) s) by reflexivity. cbv zeta.
  rewrite u32_small by (unfold is_u32; lia).
  set (ff := MkFrame 0 _ _).
  destruct (live_sent xs n c ff daemon s TCP_FLOW_DAEMON Hs) as (s' & E & Hs'); [done| |apply Hs|].
  { split; [done|]. eexists. split; [done|]. reflexivity. }
  rewrite (bind_ok _ _ _ _ _ E). exists 1, s'. auto.
Qed.

End Run.

(** The module of [TcpDemo] has its way out. *)
Lemma demo_table_ok d : table_ok (lcells (store (demo_module d))) (mt (demo_module d)).
Proof.
  split; simpl; [lia| |].
  - intros l [= <-]. split; [repeat constructor; set_solver|].
    repeat constructor; (eexists; split; [reflexivity|simpl; lia]).
  - intros i f Hi Hf. exists [8; 9]. split; [done|].
    destruct i as [|[|[|i]]]; [..|lia]; injection Hf as <-; reflexivity.
Qed.

Lemma demo_live d p c n :
  conns d !! p = Some c → (n ≤ 50)%nat → live 3 1 p [] n c (demo_module d).
Proof.
  intros Hc Hn. split; [exact Hc|apply demo_table_ok| |reflexivity..].
  split; [apply create_qrep; lia|]. simpl. lia.
Qed.
