(* ===== verification/TcpReceive.v ===== *)
(** * TCP: the receiver delivers the stream ([tcp_handle_data])

    The peer's byte stream is cut into blocks; segments carrying blocks arrive
    in any order, repeated or not at all.  What the daemon is handed is always
    the stream from where it stood, without gap or repetition. *)

From stdpp Require Import base list gmap strings.
From Stdlib Require Import ZArith Lia.
From S2P Require Import Prelude Queue Metadata Frame Module IPv4 UDP Double TcpWindow TcpQueue TcpSeg.
From S2P Require Import TcpRecord TcpConn TcpMain TcpIn TcpDemo TcpLogic TcpRun.
Open Scope Z_scope.
Open Scope fins_scope.

(** Insertion keeps the nodes, whatever their order. *)
Lemma insert_loop_nodes {A} (n : tcp_node A) w nodes r nodes' :
  insert_loop n w nodes = (r, nodes') → r ≠ 0 → nodes' ≡ₚ n :: nodes.
Proof.
  revert r nodes'. induction nodes as [|t rest IH]; intros r nodes'; cbn [insert_loop];
    [by intros [= <- _]|].
  destruct rest as [|m rest]; [by intros [= <- _]|]. cbv zeta.
  destruct (_ =? -1); [intros [= _ <-] _; apply Permutation_swap|].
  destruct (_ =? 0); [by intros [= <- _]|].
  destruct (insert_loop n w (m :: rest)) as [r1 l1] eqn:E. intros [= <- <-] Hr.
  rewrite (IH _ _ eq_refl Hr). apply Permutation_swap.
Qed.

Lemma insert_nodes {A} (q q' : tcp_queue A) n w r :
  tcp_queue_insert q n w = (r, q') → r ≠ 0 → q_nodes q' ≡ₚ n :: q_nodes q.
Proof.
  unfold tcp_queue_insert, tcp_queue_prepend, tcp_queue_append.
  destruct (q_nodes q) as [|f rest] eqn:Eq; [by intros [= _ <-]|]. cbv zeta.
  destruct (_ =? -1); [intros [= _ <-] _; cbn [q_nodes]; by rewrite ?Eq|].
  destruct (_ =? 0); [by intros [= <- _]|].
  destruct (_ =? 1); [intros [= _ <-] _; cbn [q_nodes]; rewrite ?Eq; symmetry; apply (Permutation_cons_append (f :: rest))|].
  destruct (_ =? 0); [by intros [= <- _]|].
  destruct (insert_loop n w (f :: rest)) as [r1 l1] eqn:E.
  destruct (Z.eqb_spec r1 0); intros [= <- <-] Hr; [done|]. by eapply insert_loop_nodes.
Qed.

Section Receive.
Context {Q : Type} `{BoundedFifo Q finsFrame} `{Environment}.
Abbreviation ST := (mstate Q tcp_data) (only parsing).
Context (ipv4 daemon : Z) (p : loc).
#[local] Notation live := (live ipv4 daemon p).

(** The stream begins at sequence number [base] and is cut into [blocks]. *)
Context (base : Z) (blocks : list (list Z)).

Definition offs (k : nat) : Z := Z.of_nat (length (concat (take k blocks))).

Hypothesis blocks_nonempty : Forall (λ b, b ≠ []) blocks.
Hypothesis blocks_short : Z.of_nat (length (concat blocks)) < 4294967296.

(** The segment carries block [k], and no SYN or FIN. *)
Record carries (k : nat) (seg : tcp_seg) : Prop := {
  ca_seq : s_seq_num seg = u32 (base + offs k);
  ca_data : ∃ b, blocks !! k = Some b ∧ s_data seg = Some b ∧ s_data_len seg = Z.of_nat (length b);
  ca_syn : has (s_flags seg) FLAG_SYN = false;
  ca_fin : has (s_flags seg) FLAG_FIN = false
}.

(** The connection expects block [i]; what is stored are segments of the
    stream. *)
Record expects (i : nat) (c : tcp_conn) : Prop := {
  ex_state : c_state c = TS_ESTABLISHED;
  ex_seq : c_recv_seq_num c = u32 (base + offs i);
  ex_le : (i ≤ length blocks)%nat;
  ex_queue : Forall (λ n, n_seq_num n = s_seq_num (n_data n) ∧ ∃ k, carries k (n_data n))
               (q_nodes (c_recv_queue c))
}.

(** The bytes a list of queued frames hands to the daemon. *)
Definition handed (ff : finsFrame) : list Z :=
  match body ff with
  | Data d => if directionFlag d =? DIR_UP then default [] (pdu d) else []
  | _ => []
  end.
Definition delivered (xs : list finsFrame) : list Z := concat (handed <$> xs).

Lemma delivered_app xs ys : delivered (xs ++ ys) = delivered xs ++ delivered ys.
Proof. unfold delivered. by rewrite fmap_app, concat_app. Qed.

Lemma offs_S k b : blocks !! k = Some b → offs (S k) = offs k + Z.of_nat (length b).
Proof. intros Hk. unfold offs. rewrite (take_S_r _ _ _ Hk), concat_app, length_app. simpl. rewrite app_nil_r. lia. Qed.

Lemma offs_lt j k : (j < k)%nat → (k ≤ length blocks)%nat → offs j < offs k.
Proof.
  intros Hjk Hk. induction Hjk as [|k' Hjk IH].
  - destruct (lookup_lt_is_Some_2 blocks j) as [b Hb]; [lia|]. rewrite (offs_S _ _ Hb).
    rewrite Forall_forall in blocks_nonempty.
    specialize (blocks_nonempty b (list_elem_of_lookup_2 _ _ _ Hb)). destruct b; [done|]. simpl. lia.
  - destruct (lookup_lt_is_Some_2 blocks k') as [b Hb]; [lia|]. rewrite (offs_S _ _ Hb).
    specialize (IH ltac:(lia)). lia.
Qed.

Lemma offs_max k : 0 ≤ offs k < 4294967296.
Proof.
  unfold offs. split; [lia|]. eapply Z.le_lt_trans; [|exact blocks_short]. apply inj_le.
  rewrite <-(take_drop k blocks) at 2. rewrite concat_app, length_app. lia.
Qed.

Lemma offs_seq j k :
  (j ≤ length blocks)%nat → (k ≤ length blocks)%nat → u32 (base + offs j) = u32 (base + offs k) → j = k.
Proof.
  intros Hj Hk E. pose proof (offs_max j). pose proof (offs_max k).
  assert (offs j = offs k) as Eo by (revert E; zlia).
  destruct (Nat.lt_trichotomy j k) as [Hlt|[?|Hlt]]; [|done|]; apply offs_lt in Hlt; try done; lia.
Qed.

(** ** One segment *)

(** The next block is handed over and the sequence number moves behind it. *)
Lemma run_process xs n c k seg fl b :
  carries k seg → expects k c → blocks !! k = Some b →
  runs (live xs (S n) c) (tcp_process_seg p seg fl)
    (λ r s, r.1.1 = 1 ∧ has r.2 FLAG_ACK = true ∧ ∃ f c', (handed f = b ∧ expects (S k) c' ∧
       q_nodes (c_recv_queue c') = q_nodes (c_recv_queue c)) ∧ live (xs ++ [f]) n c' s).
Proof.
  intros Hca [Hst Hseq Hle Hq] Hb.
  destruct Hca as [_ (b' & Hb' & Hd & Hl) Hsyn Hfin]. rewrite Hb in Hb'. injection Hb' as <-.
  assert (length b ≠ 0%nat) as Hne.
  { rewrite Forall_forall in blocks_nonempty. specialize (blocks_nonempty b (list_elem_of_lookup_2 _ _ _ Hb)).
    by destruct b. }
  assert (Z.of_nat (length b) < 4294967296) as Hsm.
  { pose proof (offs_S k b Hb). pose proof (offs_max (S k)). pose proof (offs_max k). lia. }
  assert (has (Z.lor fl FLAG_ACK) FLAG_ACK = true) as Hack.
  { unfold has. apply negb_true_iff, Z.eqb_neq. intros E. apply Z.bits_inj_iff in E. specialize (E 4).
    rewrite Z.land_spec, Z.lor_spec, Z.bits_0 in E. cbn in E. by rewrite orb_true_r in E. }
  unfold tcp_process_seg, tcp_process_flags.
  apply (runs_bind _ _ _ (λ r s, r = (1, Z.lor fl FLAG_ACK) ∧ live xs (S n) (advance (s_data_len seg) c) s)).
  { apply run_cget. cbv zeta. rewrite Hst, Hsyn, Hfin, Hl.
    destruct (Z.eqb_spec (Z.of_nat (length b)) 0); [lia|]. cbn [negb].
    apply run_cmod_then. by apply runs_ret. }
  intros [r fl']. apply runs_pure. intros [= -> ->]. cbn [Z.eqb Z.opp Pos.eqb]. rewrite Hl.
  destruct (Z.eqb_spec (Z.of_nat (length b)) 0); [lia|]. cbn [negb].
  apply run_cget. rewrite Hd.
  eapply runs_bind; [by apply run_to_daemon|]. intros r. apply runs_pure. intros ->. cbn [Z.eqb].
  apply runs_ret. intros s Hs. split; [done|]. split; [exact Hack|].
  eexists _, _. split; [|exact Hs]. split; [done|]. split; [|done].
  split; [exact Hst| |by apply (lookup_lt_Some _ _ _ Hb)|exact Hq].
  cbn. rewrite Hseq, (offs_S _ _ Hb). zlia.
Qed.

(** What a handler leaves: a position from [lo] on, the blocks up to it handed
    over, and a store that together with the frames sent is no larger than
    [b]. *)
Definition progress (xs : list finsFrame) (i lo b m : nat) (s : ST) : Prop :=
  ∃ j c sent, live (xs ++ sent) (m - length sent) c s ∧ expects j c ∧ (i ≤ j)%nat ∧ (lo ≤ j)%nat ∧
    delivered sent = concat (take (j - i) (drop i blocks)) ∧
    (length sent + length (q_nodes (c_recv_queue c)) ≤ b)%nat.

Lemma progress_here xs i lo b m c s :
  live xs m c s → expects i c → (lo ≤ i)%nat → (length (q_nodes (c_recv_queue c)) ≤ b)%nat →
  progress xs i lo b m s.
Proof.
  intros Hs He Hlo Hm. exists i, c, []. rewrite app_nil_r, Nat.sub_diag. simpl. rewrite Nat.sub_0_r. auto 10.
Qed.

Lemma progress_step xs i lo n m f b s :
  blocks !! i = Some b → handed f = b → progress (xs ++ [f]) (S i) lo n m s →
  progress xs i lo (S n) (S m) s.
Proof.
  intros Hb Hf (j & c & sent & Hs & He & Hle & Hlo & Hd & Hm). exists j, c, (f :: sent).
  rewrite <-(assoc_L app) in Hs. simpl. split_and!; [done|done|lia|done| |lia].
  unfold delivered in *. cbn [fmap list_fmap concat]. rewrite Hf.
  replace (j - i)%nat with (S (j - S i)) by lia. rewrite (drop_S _ _ _ Hb). cbn [take concat].
  rewrite <-Hd. done.
Qed.

Lemma progress_le xs i lo lo' b b' m s :
  (lo' ≤ lo)%nat → (b ≤ b')%nat → progress xs i lo b m s → progress xs i lo' b' m s.
Proof.
  intros Hlo Hb (j & c & sent & ? & ? & ? & ? & ? & ?). exists j, c, sent. split_and!; try done; lia.
Qed.

Lemma has_lor a b f : has a f = true → has (Z.lor a b) f = true.
Proof.
  unfold has. rewrite !negb_true_iff, !Z.eqb_neq. intros Ha Hb. apply Ha.
  rewrite Z.land_lor_distr_l, Z.lor_eq_0_iff in Hb. apply Hb.
Qed.

Lemma run_pop {B} xs n (c : tcp_conn) (k : unit → M ST B) R :
  runs (live xs n (set_recv_queue (tcp_queue_remove_front (c_recv_queue c)).2 c)) (k tt) R →
  runs (live xs n c) (pop_recv p ≫= k) R.
Proof. apply (run_cmod_then ipv4 daemon p xs n c (λ c, set_recv_queue (tcp_queue_remove_front (c_recv_queue c)).2 c)). Qed.

Lemma run_drop {B} xs n (c : tcp_conn) nd (k : unit → M ST B) R :
  (∀ w, runs (live xs n (set_recv_win w (set_recv_queue (tcp_queue_remove_front (c_recv_queue c)).2 c)))
          (k tt) R) →
  runs (live xs n c) (drop_recv p nd ≫= k) R.
Proof.
  intros Hk. eapply runs_bind; [apply run_pop, run_cmod|]. intros []. apply Hk.
Qed.

Lemma pop_nodes (c : tcp_conn) nd rest :
  q_nodes (c_recv_queue c) = nd :: rest →
  q_nodes (tcp_queue_remove_front (c_recv_queue c)).2 = rest.
Proof. intros E. unfold tcp_queue_remove_front. by rewrite E. Qed.

Lemma expects_same i (c c' : tcp_conn) :
  c_state c' = c_state c → c_recv_seq_num c' = c_recv_seq_num c →
  Forall (λ n, n_seq_num n = s_seq_num (n_data n) ∧ ∃ k, carries k (n_data n))
    (q_nodes (c_recv_queue c')) → expects i c → expects i c'.
Proof. intros E1 E2 Hq [? ? ? _]. split; congruence. Qed.

Lemma run_recv_loop nodes xs m (c : tcp_conn) i fl :
  q_nodes (c_recv_queue c) = nodes → expects i c → (length nodes ≤ m)%nat →
  runs (live xs m c) (recv_loop p nodes fl)
    (λ fl' s, (has fl FLAG_ACK = true → has fl' FLAG_ACK = true) ∧ progress xs i i (length nodes) m s).
Proof.
  revert xs m c i fl. induction nodes as [|nd rest IH]; intros xs m c i fl Hn He Hm; cbn [recv_loop].
  { apply runs_ret. intros s Hs. split; [done|]. eapply progress_here; [done..|]. by rewrite Hn. }
  assert (Hpop := pop_nodes c nd rest Hn). simpl in Hm.
  pose proof (ex_queue _ _ He) as Hq. rewrite Hn in Hq. apply Forall_cons in Hq as [[Hnd (k & Hk)] Hq].
  assert (Hstop : runs (live xs m c) (mret fl : M ST Z)
    (λ fl' s, (has fl FLAG_ACK = true → has fl' FLAG_ACK = true) ∧ progress xs i i (S (length rest)) m s)).
  { apply runs_ret. intros s Hs. split; [done|]. eapply progress_here; [done..|]. rewrite Hn. simpl. lia. }
  assert (Hdrop : runs (live xs m c) (drop_recv p nd ;; recv_loop p rest fl)
    (λ fl' s, (has fl FLAG_ACK = true → has fl' FLAG_ACK = true) ∧ progress xs i i (S (length rest)) m s)).
  { apply run_drop. intros w. eapply runs_post; [apply IH; [exact Hpop| |lia]|].
    - apply (expects_same i c); [done..| |exact He]. cbn. by rewrite Hpop.
    - intros fl' s [? Hp]. split; [done|]. revert Hp. apply progress_le; lia. }
  apply run_cget. cbv zeta.
  destruct (n_seq_num nd <? _); [destruct (_ || _); [exact Hdrop|exact Hstop]|].
  destruct (Z.eqb_spec (n_seq_num nd) (c_recv_seq_num c)) as [E|_];
    [|destruct (_ && _); [exact Hdrop|exact Hstop]].
  pose proof (ca_data _ _ Hk) as (b & Hb & _).
  assert (k = i) as ->.
  { apply offs_seq; [by apply Nat.lt_le_incl, (lookup_lt_Some _ _ _ Hb)|apply He|].
    by rewrite <-(ca_seq _ _ Hk), <-(ex_seq _ _ He), <-Hnd. }
  destruct m as [|m]; [lia|]. apply run_pop. eapply runs_bind.
  { eapply run_process; [exact Hk| |exact Hb].
    apply (expects_same i c); [done..| |exact He]. cbn. by rewrite Hpop. }
  intros [[ok seg'] fl']. cbn [fst snd]. apply runs_pure. intros ->. apply runs_pure. intros Hfl'.
  apply runs_ex. intros f. apply runs_ex. intros c'. apply runs_pure. intros (Hf & He' & Hq').
  cbn [Z.eqb]. eapply runs_post; [apply IH; [by rewrite Hq'|exact He'|lia]|].
  intros fl2 s [Hfl2 Hp2]. split; [intros _; by apply Hfl2, has_lor|].
  eapply progress_step; [done..|]. eapply progress_le; [|done|exact Hp2]; lia.
Qed.

Lemma run_woken xs i lo b m fl (R : Z → ST → Prop) :
  (∀ s, progress xs i lo b m s → R fl s) → runs (progress xs i lo b m) (wake_main p ;; mret fl) R.
Proof.
  intros HR. apply runs_ex. intros j. apply runs_ex. intros c. apply runs_ex. intros sent.
  intros s (Hs & He & Hrest). revert s Hs. apply run_wake. intros w. apply runs_ret. intros s Hs.
  apply HR. exists j, (put_wait w c), sent. split; [exact Hs|]. split; [|exact Hrest].
  apply (expects_same j c); [done..|exact (ex_queue _ _ He)|exact He].
Qed.

(** The segment continues the stream. *)
Lemma run_in_order xs m c i seg :
  carries i seg → expects i c → (length (q_nodes (c_recv_queue c)) < m)%nat →
  runs (live xs m c) (handle_in_order p seg)
    (λ fl s, has fl FLAG_ACK = true ∧ progress xs i (S i) (S (length (q_nodes (c_recv_queue c)))) m s).
Proof.
  intros Hca He Hm. unfold handle_in_order. destruct m as [|m]; [lia|].
  pose proof (ca_data _ _ Hca) as (b & Hb & _).
  apply run_stat_then, run_cmod_then. eapply runs_bind.
  { eapply (run_process _ m); [exact Hca| |exact Hb].
    apply (expects_same i c); [done..|exact (ex_queue _ _ He)|exact He]. }
  intros [[ok seg'] fl]. cbn [fst snd]. apply runs_pure. intros ->. apply runs_pure. intros Hfl.
  apply runs_ex. intros f. apply runs_ex. intros c1. apply runs_pure. intros (Hf & He1 & Hq1).
  cbn [Z.eqb]. apply run_cmod_then, run_cget. eapply runs_bind.
  { eapply (run_recv_loop _ _ m _ (S i)); [done| |].
    - apply (expects_same (S i) c1); [done..|exact (ex_queue _ _ He1)|exact He1].
    - cbn. rewrite Hq1. cbn. lia. }
  intros fl'. apply runs_pure. intros Hfl'. apply run_woken.
  intros s Hs. split; [auto|]. eapply progress_step; [done..|]. cbn in Hs. by rewrite Hq1 in Hs.
Qed.

(** The segment is out of order. *)
Lemma run_reordered xs m c i k seg :
  carries k seg → expects i c → (length (q_nodes (c_recv_queue c)) < m)%nat →
  runs (live xs m c) (handle_reordered p seg)
    (λ fl s, has fl FLAG_ACK = true ∧ progress xs i i (S (length (q_nodes (c_recv_queue c)))) m s).
Proof.
  intros Hca He Hm. unfold handle_reordered. cbv zeta.
  pose proof (ca_data _ _ Hca) as (b & Hb & Hd & Hl).
  assert (s_data_len seg ≠ 0) as Hnz.
  { rewrite Hl. rewrite Forall_forall in blocks_nonempty.
    specialize (blocks_nonempty b (list_elem_of_lookup_2 _ _ _ Hb)). by destruct b. }
  destruct (Z.eqb_spec (s_data_len seg) 0); [done|]. cbn [negb].
  assert (Hstay : ∀ c' s, live xs m c' s → c_state c' = c_state c → c_recv_seq_num c' = c_recv_seq_num c →
    c_recv_queue c' = c_recv_queue c → progress xs i i (S (length (q_nodes (c_recv_queue c)))) m s).
  { intros c' s Hs E1 E2 E3. eapply progress_here; [exact Hs| |done|rewrite E3; lia].
    apply (expects_same i c); [done..|rewrite E3; apply He|exact He]. }
  apply run_cget. apply (runs_bind _ _ _ (λ _ s, progress xs i i (S (length (q_nodes (c_recv_queue c)))) m s)); [|intros []; by apply runs_ret].
  destruct (_ =? 0). { eapply runs_post; [apply run_stat|]. intros ? s Hs. eapply Hstay; [exact Hs|done..]. }
  destruct (tcp_in_window _ _ _ _). 2: { eapply runs_post; [apply run_stat|]. intros ? s Hs. eapply Hstay; [exact Hs|done..]. }
  apply run_stat_then, run_fresh. intros addr.
  destruct (tcp_queue_insert _ _ _) as [r q] eqn:Ei.
  destruct (Z.eqb_spec r 0) as [_|Hr]; [apply runs_ret; intros s Hs; eapply Hstay; [exact Hs|done..]|].
  apply insert_nodes in Ei; [|done].
  eapply runs_post; [apply run_cmod|]. intros ? s Hs. eapply progress_here; [exact Hs| |done|].
  - apply (expects_same i c); [done..| |exact He]. cbn. rewrite Ei. apply Forall_cons.
    split; [split; [done|by exists k]|apply He].
  - cbn. rewrite Ei. cbn. lia.
Qed.

Lemma run_handle_data xs m c i k seg :
  carries k seg → expects i c → (length (q_nodes (c_recv_queue c)) < m)%nat →
  runs (live xs m c) (tcp_handle_data p seg)
    (λ fl s, has fl FLAG_ACK = true ∧ progress xs i (if decide (k = i) then S i else i)
               (S (length (q_nodes (c_recv_queue c)))) m s).
Proof.
  intros Hca He Hm. unfold tcp_handle_data. apply run_cget.
  pose proof (ca_data _ _ Hca) as (b & Hb & _).
  destruct (Z.eqb_spec (s_seq_num seg) (c_recv_seq_num c)) as [E|E].
  - assert (k = i) as ->.
    { apply offs_seq; [by apply Nat.lt_le_incl, (lookup_lt_Some _ _ _ Hb)|apply He|].
      by rewrite <-(ca_seq _ _ Hca), <-(ex_seq _ _ He). }
    rewrite decide_True by done. by apply run_in_order.
  - rewrite decide_False; [by eapply run_reordered|]. intros ->. apply E.
    by rewrite (ca_seq _ _ Hca), (ex_seq _ _ He).
Qed.

(** ** Any sequence of segments *)

(** The flags of the replies are collected. *)
Fixpoint recv_all (segs : list tcp_seg) : M ST (list Z) :=
  match segs with
  | [] => mret []
  | seg :: segs => flags ← tcp_handle_data p seg; rest ← recv_all segs; mret (flags :: rest)
  end.

Lemma blocks_cut i j k :
  (i ≤ j)%nat → (j ≤ k)%nat →
  take (j - i) (drop i blocks) ++ take (k - j) (drop j blocks) = take (k - i) (drop i blocks).
Proof.
  intros Hij Hjk. replace (k - i)%nat with ((j - i) + (k - j))%nat by lia.
  rewrite <-take_take_drop, drop_drop. by replace (i + (j - i))%nat with j by lia.
Qed.

Lemma progress_trans xs i b b' m lo j sent s :
  (i ≤ j)%nat → delivered sent = concat (take (j - i) (drop i blocks)) → (length sent + b' ≤ b)%nat →
  progress (xs ++ sent) j lo b' (m - length sent) s → progress xs i lo b m s.
Proof.
  intros Hij Hd Hm (k & c & sent' & Hs & He & Hjk & Hlo & Hd' & Hm').
  exists k, c, (sent ++ sent'). rewrite <-(assoc_L app) in Hs. rewrite length_app, Nat.sub_add_distr.
  split_and!; [done|done|lia|done| |lia].
  by rewrite delivered_app, Hd, Hd', <-concat_app, blocks_cut.
Qed.

Lemma run_recv_all segs ks xs m c i a r :
  Forall2 carries ks segs → expects i c → (length (q_nodes (c_recv_queue c)) + length segs ≤ m)%nat →
  (a ≤ i)%nat → seq a r `sublist_of` ks →
  runs (live xs m c) (recv_all segs)
    (λ fls s, Forall (λ fl, has fl FLAG_ACK = true) fls ∧
       progress xs i (a + r) (length (q_nodes (c_recv_queue c)) + length segs) m s).
Proof.
  intros Hks. revert xs m c i a r. induction Hks as [|k seg ks segs Hk _ IH];
    intros xs m c i a r He Hm Ha Hsub; cbn [recv_all].
  { apply sublist_nil_r in Hsub. destruct r; [|done]. apply runs_ret. intros s Hs. split; [done|].
    eapply progress_here; [done..|lia|simpl in Hm; lia]. }
  simpl in Hm. eapply runs_bind; [apply (run_handle_data xs m c i k seg); [done..|lia]|].
  intros fl. apply runs_pure. intros Hfl. apply runs_ex. intros j. apply runs_ex. intros c1.
  apply runs_ex. intros sent. intros s (Hs & He1 & Hij & Hlo & Hd & Hm1).
  assert (∃ a' r', (a' ≤ j)%nat ∧ seq a' r' `sublist_of` ks ∧ (a + r ≤ a' + r')%nat) as (a' & r' & Ha' & Hs' & Hr').
  { apply sublist_cons_r in Hsub as [Hsub|(l & El & Hsub)]; [by exists a, r; split_and!; try lia|].
    destruct r as [|r]; [done|]. cbn in El. injection El as -> <-. exists (S k), r.
    split_and!; [|done|lia]. destruct (decide (k = i)); lia. }
  destruct (IH (xs ++ sent) (m - length sent)%nat c1 j a' r' He1 ltac:(lia) Ha' Hs' s Hs)
    as (fls & s2 & E2 & Hfls & Hp2).
  exists (fl :: fls), s2. rewrite (bind_ok _ _ _ _ _ E2). split; [done|]. split; [by constructor|]. eapply (progress_trans _ _ _ _ m _ j sent); [done|done| |exact (progress_le _ _ _ _ _ _ _ _ Hr' (Nat.le_refl _) Hp2)].
  simpl. lia.
Qed.

End Receive.
Arguments recv_all {Q _}.

(** ** Properties *)

(** C2: the receiver delivers the peer's stream.  The stream is cut into
    non-empty blocks, fewer than 2^32 bytes in all; any sequence of segments,
    each carrying one of the blocks (in any order, repeated, some missing), is
    handled by [tcp_handle_data] without failure, every segment is asked to be
    acknowledged, and what the daemon is handed is exactly the stream from
    block [i], where the connection stood, up to the block [j] it expects next:
    no gap, no repetition.  If the blocks from [i] on occur in their order
    among those received, as far as [r] of them, then all of these were
    delivered. *)
Theorem tcp_receive_stream {Q} `{BoundedFifo Q finsFrame} `{Environment}
    (s : mstate Q tcp_data) ipv4 daemon p base blocks xs c i ks segs r :
  Forall (λ b, b ≠ []) blocks → Z.of_nat (length (concat blocks)) < 4294967296 →
  expects base blocks i c → Forall2 (carries base blocks) ks segs →
  live ipv4 daemon p xs (length (q_nodes (c_recv_queue c)) + length segs) c s →
  seq i r `sublist_of` ks →
  ∃ s' fls j c' sent, recv_all p segs s = Ok (fls, s') ∧ Forall (λ fl, has fl FLAG_ACK = true) fls ∧
    conns (md s') !! p = Some c' ∧ bf_rep (outq s') (xs ++ sent) ∧ expects base blocks j c' ∧
    (i + r ≤ j)%nat ∧ delivered sent = concat (take (j - i) (drop i blocks)).
Proof.
  intros Hne Hsh He Hks Hs Hr.
  destruct (run_recv_all ipv4 daemon p base blocks Hne Hsh segs ks xs _ c i i r Hks He (Nat.le_refl _)
    (Nat.le_refl _) Hr s Hs) as (fls & s' & E & Hf & j & c' & sent & Hs' & He' & Hij & Hlo & Hd & Hm).
  exists s', fls, j, c', sent. split_and!; try done; apply Hs'.
Qed.

(** A connection that expects the last four sequence numbers before the wrap. *)
Definition demo_blocks : list (list Z) := [[1; 2]; [3; 4; 5]; [6]].
Definition demo_receiver : tcp_conn :=
  set_recv_seq_end 65531 (set_recv_seq_num 4294967292 (set_state TS_ESTABLISHED
    (tcp_conn_init 20 80 10 5000 1460))).
Definition demo_block (seq : Z) (b : list Z) : tcp_seg :=
  MkSeg 5000 80 seq 1001 (FLAG_ACK + 20480) 65535 0 0 (replicate 40 0) 0 (Some b)
    (Z.of_nat (length b)) 10 20 (u32 (seq + Z.of_nat (length b))).
Definition demo_segs : list tcp_seg :=
  [demo_block 4294967294 [3; 4; 5]; demo_block 4294967292 [1; 2]; demo_block 4294967292 [1; 2];
   demo_block 4294967294 [3; 4; 5]; demo_block 1 [6]].

(** Witness of C2: the second block comes first, the first one twice. *)
Lemma tcp_receive_stream_witness :
  let s := demo_module (demo_data [(1, demo_receiver)] [1] [] 2) in
  ∃ s' fls j c' sent, recv_all 1 demo_segs s = Ok (fls, s') ∧
    Forall (λ fl, has fl FLAG_ACK = true) fls ∧ conns (md s') !! 1 = Some c' ∧
    bf_rep (outq s') ([] ++ sent) ∧ expects 4294967292 demo_blocks j c' ∧ (0 + 3 ≤ j)%nat ∧
    delivered sent = concat (take (j - 0) (drop 0 demo_blocks)).
Proof.
  assert (∀ k b off, demo_blocks !! k = Some b → offs demo_blocks k = off →
    carries 4294967292 demo_blocks k (demo_block (u32 (4294967292 + off)) b)) as Hca.
  { intros k b off Hb <-. split; [done| |reflexivity..]. by exists b. }
  apply (tcp_receive_stream (H0 := demo_env) _ 3 1 1 4294967292 demo_blocks [] demo_receiver 0 [1; 0; 0; 1; 2]%nat).
  - repeat constructor; discriminate.
  - vm_compute. reflexivity.
  - split; [reflexivity..| |constructor]. simpl. lia.
  - do 5 (apply Forall2_cons; split; [first [exact (Hca 0%nat _ 0 eq_refl eq_refl)
      | exact (Hca 1%nat _ 2 eq_refl eq_refl) | exact (Hca 2%nat _ 5 eq_refl eq_refl)]|]). constructor.
  - apply demo_live; [reflexivity|simpl; lia].
  - repeat constructor.
Defined.
