(* ===== verification/TcpHandshake.v ===== *)
(** * TCP: the three-way handshake between two modules

    [rt xs n d] describes a module whose data is [d], whose output queue holds
    [xs] and has room for [n] more frames, and whose flows to the IPv4 module and
    to the daemon lead to one module each. *)

From stdpp Require Import base list gmap strings.
From Stdlib Require Import ZArith Lia.
From S2P Require Import Prelude Queue Metadata Frame Module IPv4 UDP Double TcpWindow TcpQueue TcpSeg.
From S2P Require Import Run TcpRecord TcpConn TcpMain TcpIn TcpOut TcpDemo TcpLogic TcpRun.
Open Scope Z_scope.
Open Scope fins_scope.

Definition upd (p : loc) (c : tcp_conn) (d : tcp_data) : tcp_data := put_conns (<[p := c]> (conns d)) d.

Lemma upd_upd p c c' d : upd p c' (upd p c d) = upd p c' d.
Proof. unfold upd. simpl. by rewrite insert_insert_eq. Qed.
Lemma upd_eq p c d : conns (upd p c d) !! p = Some c.
Proof. apply lookup_insert_eq. Qed.
Lemma upd_ne p q c d : p ≠ q → conns (upd p c d) !! q = conns d !! q.
Proof. apply lookup_insert_ne. Qed.

Section Rt.
Context {Q : Type} `{BoundedFifo Q finsFrame} `{Environment}.
Abbreviation ST := (mstate Q tcp_data) (only parsing).
Context (ipv4 daemon : Z).

Definition rt : list finsFrame → nat → tcp_data → ST → Prop :=
  rest [(TCP_FLOW_IPV4, ipv4); (TCP_FLOW_DAEMON, daemon)].

Section Steps.
Context {B : Type} (R : B → ST → Prop) (xs : list finsFrame) (n : nat) (d : tcp_data).

Lemma rt_tget (k : tcp_data → M ST B) :
  runs (rt xs n d) (k d) R → runs (rt xs n d) (tget ≫= k) R.
Proof. intros Hk s Hs. rewrite (bind_ok _ _ _ d s); [by apply Hk|]. unfold tget, mbind, M_bind, get, mret, M_ret. by rewrite (rs_md _ _ _ _ _ Hs). Qed.

Lemma rt_cget p c (k : tcp_conn → M ST B) :
  conns d !! p = Some c → runs (rt xs n d) (k c) R → runs (rt xs n d) (cget p ≫= k) R.
Proof.
  intros Hc Hk s Hs. rewrite (bind_ok _ _ _ c s); [by apply Hk|]. apply cget_ok. by rewrite (rs_md _ _ _ _ _ Hs).
Qed.

Lemma rt_tmod g (k : unit → M ST B) :
  runs (rt xs n (g d)) (k tt) R → runs (rt xs n d) (tmod g ≫= k) R.
Proof. apply rest_modify. Qed.

Lemma rt_cmod p c f (k : unit → M ST B) :
  conns d !! p = Some c → runs (rt xs n (upd p (f c) d)) (k tt) R → runs (rt xs n d) (cmod p f ≫= k) R.
Proof.
  intros Hc Hk s Hs. pose proof (rs_md _ _ _ _ _ Hs) as Hm.
  rewrite (bind_ok _ _ _ tt (put_conn p (f c) s)); [|apply cmod_ok; by rewrite Hm].
  apply Hk. unfold put_conn. rewrite Hm. by eapply rest_set.
Qed.

Lemma rt_stat p c f (k : unit → M ST B) :
  conns d !! p = Some c →
  runs (rt xs n (put_total (f (total_conn_stats d)) (upd p (put_stats (f (c_stats c)) c) d))) (k tt) R →
  runs (rt xs n d) (stat p f ≫= k) R.
Proof.
  intros Hc Hk. eapply runs_bind with (R := λ _, rt xs n _); [|intros []; exact Hk].
  unfold stat, stat1. eapply runs_bind with (R := λ _, rt xs n _); [|intros []].
  - intros s Hs. pose proof (rs_md _ _ _ _ _ Hs) as Hm. eexists tt, _.
    split; [apply cmod_ok; rewrite Hm; exact Hc|]. unfold put_conn. rewrite Hm. by eapply rest_set.
  - intros s Hs. eexists tt, _. split; [done|]. rewrite (rs_md _ _ _ _ _ Hs). by eapply rest_set.
Qed.

Lemma rt_rand (k : Z → M ST B) :
  runs (rt xs n (put_env (control_serial_num d) (rand_calls d + 1) (clock_calls d) (next_addr d) d))
    (k (env_rand (rand_calls d))) R →
  runs (rt xs n d) (tcp_rand ≫= k) R.
Proof.
  intros Hk s Hs. pose proof (rs_md _ _ _ _ _ Hs) as Hm.
  rewrite (bind_ok _ _ _ (env_rand (rand_calls d))
    (set_md (put_env (control_serial_num d) (rand_calls d + 1) (clock_calls d) (next_addr d) d) s)).
  - apply Hk. by eapply rest_set.
  - unfold tcp_rand, tget, mbind, M_bind, get, mret, M_ret. simpl. by rewrite Hm.
Qed.

Lemma rt_lift {A} (r : res A) a (k : A → M ST B) :
  r = Ok a → runs (rt xs n d) (k a) R → runs (rt xs n d) (lift r ≫= k) R.
Proof. apply rest_lift. Qed.

End Steps.

(** ** Sending *)

Lemma rt_seg_send {B} (R : B → ST → Prop) xs n d seg (k : Z → M ST B) :
  seg_ok seg →
  runs (rt (xs ++ [set_dest ipv4 (seg_frame seg)]) n d) (k 1) R →
  runs (rt xs (S n) d) (tcp_seg_send seg ≫= k) R.
Proof.
  intros Hok Hk. unfold tcp_seg_send, send_flow_or_free.
  apply runs_assoc. eapply rest_lift; [by apply to_fdf_ok|]. apply runs_assoc.
  eapply rest_send; [|done|left|exact Hk].
  split; [|eexists; split; reflexivity]. pose proof (payload_length seg Hok).
  unfold seg_frame. cbn [body body_ok pdu pduLength]. rewrite length_app, tcp_header_length. lia.
Qed.

(** A connection that asks for no options but the MSS, with no acknowledgement
    delayed, as [tcp_conn_create] makes it. *)
Record plain (c : tcp_conn) : Prop := {
  pl_sack : c_sack_attempt c = false; pl_ts : c_tsopt_attempt c = false;
  pl_ws : c_wsopt_attempt c = false; pl_sack' : c_sack_enabled c = false;
  pl_ts' : c_tsopt_enabled c = false; pl_ws' : c_wsopt_enabled c = false;
  pl_delayed : c_delayed_flag c = false
}.

Definition syn_state (st : tcp_state) : bool :=
  match st with TS_SYN_SENT | TS_SYN_RECV => true | _ => false end.

(** The options of an outgoing segment, and the segment with its fields filled
    in. *)
Definition opts_of (c : tcp_conn) : list Z :=
  if syn_state (c_state c) then [TCP_OPT_MSS; TCP_OPT_MSS_BYTES] ++ le_bytes 2 (htons (c_MSS c)) else [].
Definition finished (c : tcp_conn) (seg : tcp_seg) (flags : Z) : tcp_seg :=
  let fl := Z.land flags (Z.lor FLAG_CONTROL FLAG_ECN) in
  let o := opts_of c in
  seg |> seg_flags fl |> seg_ack (if has fl FLAG_ACK then c_recv_seq_num c else 0)
      |> seg_win (u16 (c_recv_win c)) |> seg_opts (overwrite o (s_options seg)) (Z.of_nat (length o))
      |> seg_flags (Z.lor fl (Z.land (Z.shiftl (MIN_TCP_HEADER_WORDS + Z.of_nat (length o) / 4) 12)
                                FLAG_DATAOFFSET)).
Definition control_seg (c : tcp_conn) (flags : Z) : tcp_seg :=
  finished c (tcp_seg_create (c_host_ip c) (c_host_port c) (c_rem_ip c) (c_rem_port c)
                (c_send_seq_end c) (c_send_seq_end c)) flags.

Definition handshaking (st : tcp_state) : Prop := st = TS_SYN_SENT ∨ st = TS_SYN_RECV ∨ st = TS_ESTABLISHED.

(** Fields that do not go into a control segment. *)
Lemma control_seg_threads v (c : tcp_conn) fl : control_seg (set_threads v c) fl = control_seg c fl.
Proof. reflexivity. Qed.
Lemma control_seg_timeout v (c : tcp_conn) fl : control_seg (set_timeout v c) fl = control_seg c fl.
Proof. reflexivity. Qed.
Lemma control_seg_gbn v (c : tcp_conn) fl : control_seg (set_gbn_timer v c) fl = control_seg c fl.
Proof. reflexivity. Qed.
Lemma control_seg_to_gbn v (c : tcp_conn) fl : control_seg (set_to_gbn_flag v c) fl = control_seg c fl.
Proof. reflexivity. Qed.

Lemma rt_seg_update {B} (R : B → ST → Prop) xs n d p c seg fl (k : tcp_seg → M ST B) :
  conns d !! p = Some c → handshaking (c_state c) → plain c →
  runs (rt xs n d) (k (finished c seg fl)) R → runs (rt xs n d) (tcp_seg_update p seg fl ≫= k) R.
Proof.
  intros Hc Hst [P1 P2 P3 P4 P5 P6 P7] Hk.
  eapply runs_bind with (R := λ a s, a = finished c seg fl ∧ rt xs n d s);
    [|intros a; apply runs_pure; by intros ->].
  unfold tcp_seg_update. eapply rt_cget; [done|]. cbv zeta.
  eapply runs_bind with (R := λ a s, a = seg_flags (Z.land fl (Z.lor FLAG_CONTROL FLAG_ECN)) seg ∧ rt xs n d s).
  { destruct Hst as [->|[->| ->]]; try (by apply runs_ret).
    unfold tcp_seg_delayed_ack. eapply rt_cget; [done|]. rewrite P7. by apply runs_ret. }
  intros a. apply runs_pure. intros ->. rewrite P6.
  eapply runs_bind with (R := λ a s, a = seg_opts (overwrite (opts_of c) (s_options seg))
    (Z.of_nat (length (opts_of c)))
    (seg_win (u16 (c_recv_win c)) (seg_ack (if has (Z.land fl (Z.lor FLAG_CONTROL FLAG_ECN)) FLAG_ACK
       then c_recv_seq_num c else 0) (seg_flags (Z.land fl (Z.lor FLAG_CONTROL FLAG_ECN)) seg))) ∧ rt xs n d s).
  { unfold tcp_seg_add_options. eapply rt_cget; [done|]. cbv zeta. unfold opts_of.
    rewrite P1, P2, P3, P4, P5, P6. destruct Hst as [->|[->| ->]]; by apply runs_ret. }
  intros a. apply runs_pure. intros ->. by apply runs_ret.
Qed.

Lemma rt_send_control {B} (R : B → ST → Prop) xs n d p c fl (k : unit → M ST B) :
  conns d !! p = Some c → handshaking (c_state c) → plain c → seg_ok (control_seg c fl) →
  runs (rt (xs ++ [set_dest ipv4 (seg_frame (control_seg c fl))]) n d) (k tt) R →
  runs (rt xs (S n) d) (send_control p fl ≫= k) R.
Proof.
  intros Hc Hst Hp Hok Hk.
  eapply runs_bind with (R := λ _, rt (xs ++ [set_dest ipv4 (seg_frame (control_seg c fl))]) n d);
    [|intros []; exact Hk].
  unfold send_control. eapply rt_cget; [done|]. cbv zeta. eapply rt_seg_update; [done..|].
  eapply rt_seg_send; [exact Hok|]. by apply runs_ret.
Qed.

(** Ranges of the fields that go into a segment. *)
Record sendable (c : tcp_conn) : Prop := {
  sd_host : is_u16 (c_host_port c); sd_rem : is_u16 (c_rem_port c);
  sd_seq : is_u32 (c_send_seq_end c); sd_recv : is_u32 (c_recv_seq_num c)
}.

Lemma control_seg_ok c fl :
  sendable c → (fl = FLAG_SYN ∨ fl = Z.lor FLAG_SYN FLAG_ACK ∨ fl = FLAG_ACK) →
  seg_ok (control_seg c fl).
Proof.
  intros [? ? ? Hr] Hfl.
  assert (Hl : length (opts_of c) = 4%nat ∨ length (opts_of c) = 0%nat).
  { unfold opts_of. destruct (syn_state _); auto. }
  assert (Ho : is_bytes (opts_of c)).
  { unfold opts_of. destruct (syn_state _); [|constructor]. apply Forall_app.
    split; [repeat constructor; done|apply le_bytes_u8]. }
  split; cbn; try done.
  - destruct (has _ _); [done|]. unfold is_u32. lia.
  - destruct Hl as [-> | ->], Hfl as [->|[->| ->]]; by vm_compute.
  - apply u16_range.
  - lia.
  - unfold opts_of. by destruct (syn_state _).
  - unfold overwrite, is_bytes. apply Forall_app. split; [exact Ho|]. apply Forall_drop. by repeat constructor.
  - destruct Hl as [-> | ->], Hfl as [->|[->| ->]]; by vm_compute.
  - lia.
  - by rewrite Z.add_0_r, u32_small.
Qed.

(** ** More steps *)

Section More.
Context {B : Type} (R : B → ST → Prop) (xs : list finsFrame) (n : nat).

(** The connection on top of the data. *)
Lemma rt_cget1 d p c (k : tcp_conn → M ST B) :
  runs (rt xs n (upd p c d)) (k c) R → runs (rt xs n (upd p c d)) (cget p ≫= k) R.
Proof. apply rt_cget, upd_eq. Qed.
Lemma rt_cmod1 d p c f (k : unit → M ST B) :
  runs (rt xs n (upd p (f c) d)) (k tt) R → runs (rt xs n (upd p c d)) (cmod p f ≫= k) R.
Proof. intros Hk. eapply rt_cmod; [apply upd_eq|]. by rewrite upd_upd. Qed.
Lemma rt_stat1 d p c f (k : unit → M ST B) :
  runs (rt xs n (upd p (put_stats (f (c_stats c)) c) (put_total (f (total_conn_stats d)) d))) (k tt) R →
  runs (rt xs n (upd p c d)) (stat p f ≫= k) R.
Proof.
  intros Hk. eapply rt_stat; [apply upd_eq|].
  rewrite upd_upd. exact Hk.
Qed.

(** [d] with the connection it already has. *)
Lemma rt_focus d p c (m : M ST B) :
  conns d !! p = Some c → runs (rt xs n (upd p c d)) m R → runs (rt xs n d) m R.
Proof. intros Hc Hm. unfold upd in Hm. rewrite insert_id in Hm by done. by destruct d. Qed.
Lemma rt_swap d p q c c' (m : M ST B) :
  p ≠ q → runs (rt xs n (upd q c' (upd p c d))) m R → runs (rt xs n (upd p c (upd q c' d))) m R.
Proof. intros Hpq. unfold upd. simpl. by rewrite (insert_insert_ne _ p q). Qed.

Lemma rt_fresh d (k : loc → M ST B) :
  runs (rt xs n (put_env (control_serial_num d) (rand_calls d) (clock_calls d) (next_addr d + 1) d))
    (k (next_addr d)) R →
  runs (rt xs n d) (fresh ≫= k) R.
Proof.
  intros Hk s Hs. pose proof (rs_md _ _ _ _ _ Hs) as Hm.
  rewrite (bind_ok _ _ _ (next_addr d)
    (set_md (put_env (control_serial_num d) (rand_calls d) (clock_calls d) (next_addr d + 1) d) s)).
  - apply Hk. by eapply rest_set.
  - unfold fresh, tget, mbind, M_bind, get, mret, M_ret. simpl. by rewrite Hm.
Qed.

Lemma rt_cset d p c (k : unit → M ST B) :
  runs (rt xs n (upd p c d)) (k tt) R → runs (rt xs n d) (cset p c ≫= k) R.
Proof. apply (rt_tmod R xs n d (upd p c)). Qed.

(** A new connection at the end of the list. *)
Definition created (d : tcp_data) : tcp_data :=
  put_lists (conn_list d ++ [next_addr d]) (conn_stub_list d)
    (put_env (control_serial_num d) (rand_calls d) (clock_calls d) (next_addr d + 1) d).

Lemma rt_create d hi hp ri rp (k : loc → M ST B) :
  runs (rt xs n (upd (next_addr d) (tcp_conn_init hi hp ri rp (mss d))
          (put_env (control_serial_num d) (rand_calls d) (clock_calls d) (next_addr d + 1) d)))
    (k (next_addr d)) R →
  runs (rt xs n d) (tcp_conn_create hi hp ri rp ≫= k) R.
Proof.
  intros Hk. unfold tcp_conn_create. by apply runs_assoc, rt_tget, runs_assoc, rt_fresh, runs_assoc, rt_cset, runs_ret_bind.
Qed.

Lemma rt_append d p c q (k : unit → M ST B) :
  runs (rt xs n (upd p c (put_lists (conn_list d ++ [q]) (conn_stub_list d) d))) (k tt) R →
  runs (rt xs n (upd p c d)) (conn_list_append q ≫= k) R.
Proof. intros Hk. apply rt_tmod. exact Hk. Qed.

Lemma rt_rand1 d p c (k : Z → M ST B) :
  runs (rt xs n (upd p c (put_env (control_serial_num d) (rand_calls d + 1) (clock_calls d) (next_addr d) d)))
    (k (env_rand (rand_calls d))) R →
  runs (rt xs n (upd p c d)) (tcp_rand ≫= k) R.
Proof. intros Hk. apply rt_rand. exact Hk. Qed.

(** Time-out and retransmission timer. *)
Lemma rt_start_gbn d p c v t (k : unit → M ST B) :
  timer_once_start v = Ok t →
  (∀ w, runs (rt xs n (upd p (set_to_gbn_flag false (set_gbn_timer t (set_timeout w c))) d)) (k tt) R) →
  runs (rt xs n (upd p c d))
    (cmod p (set_timeout v) ≫= λ _, start_gbn p v ≫= λ _, cmod p (set_to_gbn_flag false) ≫= k) R.
Proof.
  intros Ht Hk. apply rt_cmod1. unfold start_gbn. apply runs_assoc. eapply rt_lift; [exact Ht|].
  apply rt_cmod1, rt_cmod1, Hk.
Qed.

(** ** Look-up *)

Definition misses (d : tcp_data) (test : tcp_conn → bool) (l : list loc) : Prop :=
  Forall (λ q, ∃ c, conns d !! q = Some c ∧ test c = false) l.

Lemma rt_find_miss d test l (k : loc → M ST B) :
  misses d test l → runs (rt xs n d) (k 0) R → runs (rt xs n d) (conn_find test l ≫= k) R.
Proof.
  intros Hl Hk. induction Hl as [|q l (c & Hc & Ht) Hl IH]; cbn [conn_find]; [exact Hk|].
  apply runs_assoc. eapply rt_cget; [exact Hc|]. by rewrite Ht.
Qed.
Lemma rt_find_hit d test l p c l' (k : loc → M ST B) :
  misses d test l → conns d !! p = Some c → test c = true →
  runs (rt xs n d) (k p) R → runs (rt xs n d) (conn_find test (l ++ p :: l') ≫= k) R.
Proof.
  intros Hl Hp Ht Hk. induction Hl as [|q l (c' & Hc & Ht') Hl IH]; simpl; apply runs_assoc.
  - eapply rt_cget; [exact Hp|]. by rewrite Ht.
  - eapply rt_cget; [exact Hc|]. by rewrite Ht'.
Qed.

(** ** Releasing a frame, answering a request *)

Lemma rt_free d ff (k : unit → M ST B) :
  (∀ n, body ff ≠ NoUnion n) →
  runs (rt xs n d) (k tt) R → runs (rt xs n d) (free_ff ff ≫= k) R.
Proof. apply rest_free. Qed.

End More.

Lemma misses_upd d test l p c : p ∉ l → misses d test l → misses (upd p c d) test l.
Proof.
  intros Hp Hl. unfold misses in *. rewrite Forall_forall in *. intros q Hq. destruct (Hl q Hq) as (c' & Hc & Ht).
  exists c'. rewrite upd_ne by set_solver. done.
Qed.

Lemma rt_reply {B} (R : B → ST → Prop) xs n d ff m c op rv msg (k : unit → M ST B) :
  metaData ff = Some m → int_key m "ret_msg" = true → body ff = Ctrl c →
  reply_opcode (opcode c) = Ok op →
  (∀ i, runs (rt (xs ++ [MkFrame (sender_id c) (Some (put_member m "ret_msg" (SInt (s32 msg))))
       (Ctrl (MkCtrl i (serial_num c) op (param_id c) rv (data_len c) (cdata c)))]) n d) (k tt) R) →
  runs (rt xs (S n) d) (module_reply_fcf ff rv msg ≫= k) R.
Proof.
  apply rest_reply.
Qed.

(** ** Options *)

Lemma set_MSS_same (c : tcp_conn) : set_MSS (c_MSS c) c = c.
Proof. by destruct c as [? ? ? ? ? ? ? ? ? [] ? ?]. Qed.

(** The area holds the MSS option alone. *)
Record mss_option (seg : tcp_seg) (m : Z) : Prop := {
  mo_len : s_opt_len seg = 4;
  mo_bytes : ∃ rest, s_options seg = [TCP_OPT_MSS; TCP_OPT_MSS_BYTES] ++ le_bytes 2 (htons m) ++ rest;
  mo_range : is_u16 m
}.

Lemma rt_options {B} (R : B → ST → Prop) xs n d p c seg m (k : Z → M ST B) :
  in_setup c = true → mss_option seg m →
  runs (rt xs n (upd p (set_MSS (Z.min m (c_MSS c)) c) d)) (k 1) R →
  runs (rt xs n (upd p c d)) (process_if_options p seg ≫= k) R.
Proof.
  intros Hset [Hlen [rest Hb] Hm] Hk.
  assert (Hv : ntohs (le_value (le_bytes 2 (htons m))) = m).
  { rewrite le_value_bytes by apply htons_range. by apply htons_htons. }
  assert (Hrd : opt_read ([TCP_OPT_MSS; TCP_OPT_MSS_BYTES] ++ le_bytes 2 (htons m) ++ rest) 2 2
    = Ok (le_bytes 2 (htons m))).
  { unfold opt_read, read_bytes. change (drop _ _) with (le_bytes 2 (htons m) ++ rest).
    rewrite (proj2 (Z.leb_le _ _)); [done|]. rewrite length_app. simpl. lia. }
  unfold process_if_options, tcp_process_options. rewrite Hlen, Hb. cbn [Z.eqb negb].
  change (Z.to_nat 4) with 4%nat. cbn [options_loop Z.ltb Z.compare]. apply runs_assoc.
  eapply rt_lift; [reflexivity|]. apply runs_assoc. unfold process_option at 1. apply runs_assoc, rt_cget1.
  cbn [Z.eqb Pos.eqb TCP_OPT_MSS TCP_OPT_EOL TCP_OPT_NOP].
  apply runs_assoc. eapply rt_lift; [reflexivity|]. cbv zeta. cbn [Z.eqb Pos.eqb TCP_OPT_MSS_BYTES].
  apply runs_assoc. eapply rt_lift; [exact Hrd|]. cbv zeta. rewrite Hv, Hset. cbn [andb].
  apply runs_assoc.
  eapply runs_bind with (R := λ _, rt xs n (upd p (set_MSS (Z.min m (c_MSS c)) c) d)).
  - destruct (Z.ltb_spec m (c_MSS c)).
    + rewrite Z.min_l by lia. eapply runs_bind_r. apply rt_cmod1, runs_ret. done.
    + rewrite Z.min_r by lia. rewrite set_MSS_same. by apply runs_ret.
  - intros []. cbn. exact Hk.
Qed.

(** One step of symbolic execution on the connection on top. *)
Ltac rs1 :=
  lazymatch goal with
  | |- runs _ ((_ ≫= _) ≫= _) _ => apply runs_assoc
  | |- runs _ (mret _ ≫= _) _ => apply runs_ret_bind
  | |- runs (rt _ _ (upd ?p _ _)) (cget ?p ≫= _) _ => apply rt_cget1
  | |- runs (rt _ _ (upd ?p _ _)) (cmod ?p _ ≫= _) _ => apply rt_cmod1
  | |- runs (rt _ _ (upd ?p _ _)) (stat ?p _ ≫= _) _ => apply rt_stat1
  | |- runs _ (enter_conn _ ≫= _) _ => unfold enter_conn at 1
  | |- runs _ (leave_conn _ ≫= _) _ => unfold leave_conn at 1
  | |- runs _ (stop_gbn _ ≫= _) _ => unfold stop_gbn at 1
  | |- runs (rt _ _ (upd _ _ _)) (tcp_rand ≫= _) _ => apply rt_rand1
  end.
Ltac rs := repeat rs1.

(** ** Delivery *)

(** [got c fl]: the control segment of [c] as the peer reads it. *)
Definition got (c : tcp_conn) (fl : Z) : tcp_seg :=
  received (control_seg c fl) (seg_cksum (control_seg c fl)).

(** [ff] brings the bytes of the queued frame [f] to its destination. *)
Record delivers (f ff : finsFrame) : Prop := {
  dv_body : ∃ dir dir' len b,
    body f = Data (MkData dir len (Some b)) ∧ body ff = Data (MkData dir' len (Some b));
  dv_meta : ∃ m m' src dst, metaData f = Some m ∧ metaData ff = Some m' ∧
    secure_metadata_readFromElement m "send_src_ipv4" = Ok src ∧
    secure_metadata_readFromElement m "send_dst_ipv4" = Ok dst ∧
    in_meta m' TCP_PT_TCP src dst
}.

(** The IPv4 module of the destination makes such a frame. *)
Lemma delivers_some seg dst :
  is_u32 (s_src_ip seg) → is_u32 (s_dst_ip seg) → ∃ ff, delivers (set_dest dst (seg_frame seg)) ff.
Proof.
  intros Hs Hd.
  exists (MkFrame 0 (Some [("recv_protocol", SInt TCP_PT_TCP); ("recv_family", SInt AF_INET);
      ("recv_src_ipv4", SInt (s32 (s_src_ip seg))); ("recv_dst_ipv4", SInt (s32 (s_dst_ip seg)))])
    (body (seg_frame seg))).
  split; [by repeat eexists|]. exists (seg_meta seg).
  eexists _, (s_src_ip seg), (s_dst_ip seg). split_and!; [done|done|..];
    try (unfold secure_metadata_readFromElement; simpl; by rewrite s32_u32_small).
  split; [done|by eexists|..]; unfold secure_metadata_readFromElement; simpl; by rewrite s32_u32_small.
Qed.

Lemma rt_read {B} (R : B → ST → Prop) xs n d ff seg dst (k : option tcp_seg → M ST B) :
  seg_ok seg → is_u32 (s_src_ip seg) → is_u32 (s_dst_ip seg) →
  delivers (set_dest dst (seg_frame seg)) ff →
  runs (rt xs n d) (k (Some (received seg (seg_cksum seg)))) R →
  runs (rt xs n d) (fdf_to_tcp ff ≫= k) R.
Proof.
  intros Hok Hsi Hdi [(dir & dir' & len & b & Eb & Eb') (m & m' & src & dst' & Em & Em' & Es & Ed & Him)] Hk s Hs.
  injection Eb as <- <- <-. injection Em as <-.
  assert (E1 : src = s_src_ip seg).
  { unfold secure_metadata_readFromElement in Es. simpl in Es. rewrite s32_u32_small in Es by done. congruence. }
  assert (E2 : dst' = s_dst_ip seg).
  { unfold secure_metadata_readFromElement in Ed. simpl in Ed. rewrite s32_u32_small in Ed by done. congruence. }
  subst. rewrite (bind_ok _ _ _ (Some (received seg (seg_cksum seg))) s); [by apply Hk|]. by eapply fdf_to_tcp_ok.
Qed.

(** What the peer reads. *)
Lemma got_mss c fl : syn_state (c_state c) = true → is_u16 (c_MSS c) → mss_option (got c fl) (c_MSS c).
Proof.
  intros Hst Hm. split; [|eexists|done]; unfold got, received, control_seg, finished, opts, opts_of; simpl; rewrite Hst.
  - done.
  - reflexivity.
Qed.

Definition hs_flags (fl : Z) : Prop := fl = FLAG_SYN ∨ fl = Z.lor FLAG_SYN FLAG_ACK ∨ fl = FLAG_ACK.

Lemma got_flags c fl :
  hs_flags fl → s_flags (got c fl) = Z.lor fl (if syn_state (c_state c) then 24576 else 20480).
Proof.
  intros Hfl. unfold got, received, control_seg, finished, opts_of; simpl.
  by destruct (syn_state _), Hfl as [->|[->| ->]].
Qed.

(** ** The active side *)

(** A connection between two addresses, as set up by this module. *)
Record between (hi hp ri rp : Z) (c : tcp_conn) : Prop := {
  bt_hi : c_host_ip c = hi; bt_hp : c_host_port c = hp;
  bt_ri : c_rem_ip c = ri; bt_rp : c_rem_port c = rp;
  bt_plain : plain c; bt_run : c_running_flag c = true; bt_mss : is_u16 (c_MSS c);
  bt_win : is_u16 (c_recv_win c); bt_queue : q_nodes (c_recv_queue c) = []
}.

Lemma got_fields (c : tcp_conn) fl hi hp ri rp :
  between hi hp ri rp c →
  s_src_ip (got c fl) = hi ∧ s_src_port (got c fl) = hp ∧ s_dst_ip (got c fl) = ri ∧ s_dst_port (got c fl) = rp.
Proof. by intros []. Qed.

(** Waiting for the answer to its SYN, on behalf of the request [ff]. *)
Record syn_sent (ff : finsFrame) (c : tcp_conn) : Prop := {
  ss_state : c_state c = TS_SYN_SENT; ss_open : c_active_open c = true; ss_ff : c_ff c = Some ff;
  ss_seq : c_send_seq_end c = c_send_seq_num c; ss_u32 : is_u32 (c_send_seq_num c);
  ss_recv : is_u32 (c_recv_seq_num c)
}.

Definition host_miss d hi hp := misses d (λ c, tcp_conn_host_test c hi hp) (conn_stub_list d).
Definition addr_miss d hi hp ri rp := misses d (λ c, tcp_conn_addr_test c hi hp ri rp) (conn_list d).

Lemma connect_runs xs n d ff hi hp ri rp flags :
  is_u16 hp → is_u16 rp →
  addr_miss d hi hp ri rp → host_miss d hi hp → Z.of_nat (length (conn_list d)) < TCP_CONN_MAX →
  conns d !! next_addr d = None →
  runs (rt xs (S n) d) (tcp_exec_connect ff hi hp ri rp flags)
    (λ _ s, ∃ c d', between hi hp ri rp c ∧ syn_sent ff c ∧ c_MSS c = u16 (mss d) ∧
       conn_list d' = conn_list d ++ [next_addr d] ∧ misses (upd (next_addr d) c d') (λ c, tcp_conn_addr_test c hi hp ri rp) (conn_list d) ∧
       rt (xs ++ [set_dest ipv4 (seg_frame (control_seg c FLAG_SYN))]) n (upd (next_addr d) c d') s).
Proof.
  intros Hhp Hrp Ha Hh Hlen Hfr. unfold tcp_exec_connect. cbv zeta.
  unfold find_conn. apply runs_assoc, rt_tget. eapply rt_find_miss; [exact Ha|]. cbn [Z.eqb].
  unfold conn_list_has_space. apply runs_assoc, rt_tget, runs_ret_bind.
  rewrite (proj2 (Z.ltb_lt _ _)) by done. unfold find_stub. apply runs_assoc, rt_tget.
  eapply rt_find_miss; [exact Hh|]. cbn [Z.eqb]. apply runs_ret_bind, rt_create, rt_append.
  change (put_lists _ _ _) with (created d).
  unfold enter_conn. apply rt_cmod1. unfold tcp_connect. apply rt_cget1. 
  cbn [tcp_conn_init c_ctl set_threads put_ctl c_running_flag c_state].
  apply runs_assoc, rt_cmod1. apply runs_assoc. unfold new_issn. apply runs_assoc, rt_rand1, rt_cmod1.
  apply runs_assoc. eapply rt_send_control; [apply upd_eq|by left|done| |].
  { apply control_seg_ok; [|by left]. split; try done; simpl. apply u32_range. }
  apply rt_cmod1. unfold leave_conn. apply runs_bind_r, rt_cmod1, runs_ret.
  intros s Hs. match type of Hs with rt _ _ (upd _ ?c ?d) _ => exists c, d end.
  rewrite control_seg_threads, control_seg_timeout. split_and!; [..|exact Hs].
  - split; try reflexivity; [by split|apply u16_range|done].
  - split; try reflexivity; [apply u32_range|done].
  - reflexivity.
  - reflexivity.
  - apply misses_upd; [|exact Ha]. intros Hin. eapply Forall_forall in Ha as (c & Hc & _); [|exact Hin]. congruence.
Qed.

(** ** The passive side *)

Record listens (hi hp : Z) (c : tcp_conn) : Prop := {
  ls_hi : c_host_ip c = hi; ls_hp : c_host_port c = hp; ls_state : c_state c = TS_LISTEN;
  ls_listening : c_listening c = true; ls_run : c_running_flag c = true; ls_ff : c_ff c = None
}.

(** Waiting for the acknowledgement of its SYN-ACK, in the backlog of [p]. *)
Record syn_recv (p : loc) (num : Z) (c : tcp_conn) : Prop := {
  sr_state : c_state c = TS_SYN_RECV; sr_open : c_active_open c = false; sr_ff : c_ff c = None;
  sr_parent : c_parent_conn c = p; sr_seq : c_send_seq_end c = c_send_seq_num c;
  sr_u32 : is_u32 (c_send_seq_num c); sr_recv : c_recv_seq_num c = num; sr_num : is_u32 num
}.

Lemma gbn_min : ∃ t, timer_once_start (d_of_Z TCP_GBN_TO_MIN) = Ok t.
Proof. vm_compute. by eexists. Qed.

Lemma between_sendable hi hp ri rp c :
  between hi hp ri rp c → is_u16 hp → is_u16 rp → is_u32 (c_send_seq_end c) → is_u32 (c_recv_seq_num c) → sendable c.
Proof. intros [] ? ? ? ?. by split; subst. Qed.

(** The SYN-ACK of the new connection, and its place in the backlog. *)
Definition syn_ack_tail (p q : loc) : M ST unit :=
  send_control q (Z.lor FLAG_SYN FLAG_ACK) ;;
  cmod q (set_timeout (d_of_Z TCP_GBN_TO_MIN)) ;;
  start_gbn q (d_of_Z TCP_GBN_TO_MIN) ;;
  cmod q (set_to_gbn_flag false) ;;
  cmod p (λ c, set_backlog_list (c_backlog_list c ++ [q]) c).

Lemma syn_ack_runs xs n d p q lc c hi hp ri rp num m :
  p ≠ q → is_u16 hp → is_u16 rp → between hi hp ri rp c → syn_recv p num c → c_MSS c = m →
  runs (rt xs (S n) (upd q c (upd p lc d))) (syn_ack_tail p q)
    (λ _ s, ∃ c', between hi hp ri rp c' ∧ syn_recv p num c' ∧ c_MSS c' = m ∧
       rt (xs ++ [set_dest ipv4 (seg_frame (control_seg c' (Z.lor FLAG_SYN FLAG_ACK)))]) n
         (upd p (set_backlog_list (c_backlog_list lc ++ [q]) lc) (upd q c' d)) s).
Proof.
  intros Hpq Hhp Hrp Hc1 Hr1 Hm1. unfold syn_ack_tail.
  eapply rt_send_control; [apply upd_eq|right; left; apply Hr1|apply Hc1| |].
  { apply control_seg_ok; [|by right; left]. eapply between_sendable; [done..| |].
    - rewrite (sr_seq _ _ _ Hr1). apply Hr1.
    - rewrite (sr_recv _ _ _ Hr1). apply Hr1. }
  destruct gbn_min as [t Ht]. eapply rt_start_gbn; [exact Ht|]. intros to. clear Ht.
  apply rt_swap; [done|]. apply runs_bind_r. rs. apply runs_ret. intros s Hs.
  match type of Hs with rt _ _ (upd _ _ (upd _ ?c ?d)) _ => exists c end.
  rewrite control_seg_to_gbn, control_seg_gbn, control_seg_timeout. split_and!; [..|exact Hs].
  - destruct Hc1 as [? ? ? ? [] ? ? ? ?]. by split.
  - destruct Hr1. by split.
  - exact Hm1.
Qed.

(** What the listener does with the SYN of [cl]. *)
Lemma child_runs xs n d p q lc c cl hi hp ri rp :
  p ≠ q → between hi hp ri rp c → is_u16 hp → is_u16 rp → c_ff c = None →
  between ri rp hi hp cl → c_state cl = TS_SYN_SENT → is_u32 (c_send_seq_end cl) →
  runs (rt xs (S n) (upd q c (upd p lc d))) (open_child p q (got cl FLAG_SYN))
    (λ _ s, ∃ c' d', between hi hp ri rp c' ∧ syn_recv p (u32 (c_send_seq_end cl + 1)) c' ∧
       c_MSS c' = Z.min (c_MSS cl) (c_MSS c) ∧ conn_list d' = conn_list d ∧ conns d' = conns d ∧
       conn_stub_list d' = conn_stub_list d ∧ next_addr d' = next_addr d ∧
       rt (xs ++ [set_dest ipv4 (seg_frame (control_seg c' (Z.lor FLAG_SYN FLAG_ACK)))]) n
         (upd p (set_backlog_list (c_backlog_list lc ++ [q]) lc) (upd q c' d')) s).
Proof.
  intros Hpq Hc Hhp Hrp Hff Hcl Hst Hseq. unfold open_child. apply rt_swap; [done|]. rs.
  apply rt_swap; [done|]. rs. unfold child_reply. rs.
  change (if negb (s_opt_len (got cl FLAG_SYN) =? 0) then tcp_process_options q (got cl FLAG_SYN) else mret 1)
    with (process_if_options (Q := Q) q (got cl FLAG_SYN)).
  eapply rt_options; [done|apply got_mss; [by rewrite Hst|apply Hcl]|].
  match goal with |- runs (rt _ _ (upd q ?C (put_env ?a ?b ?e ?f _))) _ _ =>
    set (c1 := C); set (d1 := put_env a b e f d);
    change (put_env a b e f (upd p lc d)) with (upd p lc d1) end.
  assert (between hi hp ri rp c1) as Hc1.
  { destruct Hc as [? ? ? ? [] ? ? ? ?]. split; try done. change (is_u16 (c_MSS cl `min` c_MSS c)).
    unfold is_u16 in *. destruct Hcl. unfold is_u16 in *. lia. }
  assert (syn_recv p (u32 (c_send_seq_end cl + 1)) c1) as Hr1.
  { split; try done; try apply u32_range. }
  assert (c_MSS c1 = c_MSS cl `min` c_MSS c) as Hm1 by done. clearbody c1.
  eapply runs_post; [exact (syn_ack_runs xs n d1 p q lc c1 hi hp ri rp _ _ Hpq Hhp Hrp Hc1 Hr1 Hm1)|]. intros ? s (c' & ? & ? & ? & Hs). exists c', d1.
  by split_and!.
Qed.

(** An intact segment reaches the handler of the state. *)
Lemma rt_recv {B} (R : B → ST → Prop) xs n d p (c : tcp_conn) seg (k : unit → M ST B) :
  c_running_flag c = true → tcp_seg_checksum seg = Ok 0 →
  (∀ st t, runs (rt xs n (upd p (put_stats st c) (put_total t d)))
             (tcp_recv_state p seg ≫= λ _, leave_conn p ≫= k) R) →
  runs (rt xs n (upd p c d)) (tcp_recv p seg ≫= k) R.
Proof.
  intros Hrun Hck Hk. unfold tcp_recv. rs. rewrite Hrun. rs. eapply rt_lift; [exact Hck|].
  rewrite Z.eqb_refl, orb_true_r. destruct (s_checksum seg =? 0); rs; apply Hk.
Qed.

Lemma got_ok hi hp ri rp (c : tcp_conn) fl :
  between hi hp ri rp c → is_u16 hp → is_u16 rp → is_u32 (c_send_seq_end c) →
  is_u32 (c_recv_seq_num c) → hs_flags fl → seg_ok (control_seg c fl).
Proof. intros. apply control_seg_ok; [|done]. by eapply between_sendable. Qed.

Lemma between_threads hi hp ri rp v c : between hi hp ri rp c → between hi hp ri rp (set_threads v c).
Proof. intros [? ? ? ? [] ? ? ? ?]. by split. Qed.
Lemma syn_recv_threads p num v c : syn_recv p num c → syn_recv p num (set_threads v c).
Proof. intros []. by split. Qed.

Lemma misses_same d d' test l : conns d' = conns d → misses d test l → misses d' test l.
Proof. intros E. unfold misses. by rewrite E. Qed.
Lemma misses_fresh d test l q : conns d !! q = None → misses d test l → q ∉ l.
Proof.
  intros Hq Hl Hin. unfold misses in Hl. rewrite Forall_forall in Hl. destruct (Hl q Hin) as (c & Hc & _). congruence.
Qed.

Section Passive.
Context (cl : tcp_conn) (hi hp ri rp : Z).
Context (Hhp : is_u16 hp) (Hrp : is_u16 rp) (Hcl : between ri rp hi hp cl)
  (Hst : c_state cl = TS_SYN_SENT) (Hseq : is_u32 (c_send_seq_end cl)) (Hrecv : is_u32 (c_recv_seq_num cl)).

Lemma syn_flags : s_flags (got cl FLAG_SYN) = Z.lor FLAG_SYN 24576.
Proof. rewrite got_flags by (by left). by rewrite Hst. Qed.

Lemma recv_listen_runs xs n d p lc :
  p ∉ conn_list d → conns d !! p ≠ None → listens hi hp lc →
  Z.of_nat (length (c_backlog_list lc)) < c_backlog_max lc →
  addr_miss d hi hp ri rp → Z.of_nat (length (conn_list d)) < TCP_CONN_MAX → conns d !! next_addr d = None →
  runs (rt xs (S n) (upd p lc d)) (tcp_recv_listen p (got cl FLAG_SYN))
    (λ _ s, ∃ c d', between hi hp ri rp c ∧ syn_recv p (u32 (c_send_seq_end cl + 1)) c ∧
       c_MSS c = Z.min (c_MSS cl) (u16 (mss d)) ∧
       conn_list d' = conn_list d ++ [next_addr d] ∧ conns d' = conns d ∧
       rt (xs ++ [set_dest ipv4 (seg_frame (control_seg c (Z.lor FLAG_SYN FLAG_ACK)))]) n
         (upd p (set_backlog_list (c_backlog_list lc ++ [next_addr d]) lc) (upd (next_addr d) c d')) s).
Proof.
  intros Hpl Hp Hls Hbl Ha Hlen Hfr. set (q := next_addr d) in *. assert (p ≠ q) as Hpq by congruence.
  unfold tcp_recv_listen. rs. rewrite syn_flags.
  change (has _ FLAG_RST) with false. change (has _ FLAG_SYN) with true. cbv iota.
  rewrite (ls_listening _ _ _ Hls), (proj2 (Z.ltb_lt _ _) Hbl). cbn [andb].
  destruct (got_fields _ FLAG_SYN _ _ _ _ Hcl) as (-> & -> & -> & ->).
  unfold find_conn at 1. rs. apply rt_tget. eapply rt_find_miss; [by apply misses_upd|]. cbn [Z.eqb].
  unfold conn_list_has_space at 1. rs. apply rt_tget, runs_ret_bind.
  change (conn_list (upd p lc d)) with (conn_list d). rewrite (proj2 (Z.ltb_lt _ _) Hlen).
  apply rt_create. change (next_addr (upd p lc d)) with q. apply rt_append. rs.
  match goal with |- runs (rt _ _ (upd q ?c _)) _ _ => set (c0 := c) end.
  change (put_lists _ _ _) with (upd p lc (created d)).
  change (c_running_flag c0) with true. cbv iota.
  eapply runs_bind; [eapply (child_runs xs n (created d) p q lc c0 cl hi hp ri rp); try done|].
  - split; try done. apply u16_range.
  - intros []. apply runs_ex. intros c. apply runs_ex. intros d'.
    do 7 (apply runs_pure; intros ?). apply rt_swap; [done|]. apply runs_bind_r. rs.
    apply rt_swap; [done|]. apply runs_ret. intros s Hs. eexists _, d'.
    rewrite <- (control_seg_threads (u32 (c_threads c - 1))) in Hs. split_and!; [..|exact Hs]; try done.
    + by apply between_threads.
    + by apply syn_recv_threads.
Qed.

(** The listener answers the SYN of [cl] for a connection of its own. *)
Lemma listen_runs xs n d p l1 l2 (lc : tcp_conn) f ff :
  is_u32 hi → is_u32 ri → delivers (set_dest f (seg_frame (control_seg cl FLAG_SYN))) ff →
  addr_miss d hi hp ri rp → Z.of_nat (length (conn_list d)) < TCP_CONN_MAX →
  conn_stub_list d = l1 ++ p :: l2 → misses d (λ c, tcp_conn_host_test c hi hp) l1 →
  p ≠ 0 → p ∉ conn_list d → conns d !! p = Some lc → listens hi hp lc →
  Z.of_nat (length (c_backlog_list lc)) < c_backlog_max lc → conns d !! next_addr d = None →
  runs (rt xs (S n) d) (tcp_in_fdf ff)
    (λ _ s, ∃ c lc' d', between hi hp ri rp c ∧ syn_recv p (u32 (c_send_seq_end cl + 1)) c ∧
       c_MSS c = Z.min (c_MSS cl) (u16 (mss d)) ∧ listens hi hp lc' ∧
       c_backlog_list lc' = c_backlog_list lc ++ [next_addr d] ∧
       conn_list d' = conn_list d ++ [next_addr d] ∧ conns d' = conns d ∧
       rt (xs ++ [set_dest ipv4 (seg_frame (control_seg c (Z.lor FLAG_SYN FLAG_ACK)))]) n
         (upd p lc' (upd (next_addr d) c d')) s).
Proof.
  intros Hhi Hri Hdv Ha Hlen Hsl Hm1 Hp0 Hpl Hp Hls Hbl Hfr.
  pose proof (got_ok _ _ _ _ _ FLAG_SYN Hcl Hrp Hhp Hseq Hrecv (or_introl eq_refl)) as Hok.
  unfold tcp_in_fdf. eapply rt_read; [exact Hok| | |exact Hdv|].
  { simpl. destruct Hcl. congruence. } { simpl. destruct Hcl. congruence. }
  fold (got cl FLAG_SYN).
  destruct (got_fields _ FLAG_SYN _ _ _ _ Hcl) as (-> & -> & -> & ->).
  unfold find_conn at 1. rs. apply rt_tget. eapply rt_find_miss; [exact Ha|]. cbn [Z.eqb negb].
  rewrite syn_flags. change (_ && _) with true. cbv iota.
  unfold find_stub at 1. rs. apply rt_tget. rewrite Hsl.
  eapply rt_find_hit; [exact Hm1|exact Hp| |].
  { unfold tcp_conn_host_test. destruct Hls. by apply andb_true_intro; split; apply Z.eqb_eq. }
  rewrite (proj2 (Z.eqb_neq _ _) Hp0). cbn [negb]. rs.
  eapply rt_focus; [exact Hp|]. rs. eapply rt_recv; [apply Hls|by apply seg_accepted|]. intros st t.
  unfold tcp_recv_state. rs. change (c_state (put_stats _ _)) with (c_state lc). rewrite (ls_state _ _ _ Hls).
  eapply runs_bind.
  - apply recv_listen_runs; [exact Hpl|simpl; by rewrite Hp|by destruct Hls|exact Hbl|exact Ha|exact Hlen|exact Hfr].
  - intros []. apply runs_ex. intros c. apply runs_ex. intros d'. do 5 (apply runs_pure; intros ?).
    rs. apply runs_bind_r. apply rt_free. { by destruct (dv_body _ _ Hdv) as (? & ? & ? & ? & ? & ->). }
    apply runs_ret. intros s Hs. eexists c, _, d'. split_and!; [..|exact Hs]; try done. by destruct Hls.
Qed.

End Passive.

(** ** Established *)

(** Both directions of the sequence space. *)
Record established (snd rcv : Z) (c : tcp_conn) : Prop := {
  es_state : c_state c = TS_ESTABLISHED;
  es_snd : c_send_seq_num c = snd; es_snd_end : c_send_seq_end c = snd;
  es_rcv : c_recv_seq_num c = rcv; es_rcv_end : c_recv_seq_end c = u32 (rcv + c_recv_max_win c);
  es_u32 : is_u32 snd ∧ is_u32 rcv
}.

Lemma process_plain {B} (R : B → ST → Prop) xs n d p seg (k : Z → M ST B) :
  s_opt_len seg = 0 → runs (rt xs n d) (k 1) R → runs (rt xs n d) (process_if_options p seg ≫= k) R.
Proof. intros Ho Hk. unfold process_if_options. by rewrite Ho. Qed.

(** [establish] and the congestion window. *)
Lemma establish_between hi hp ri rp seg num c :
  between hi hp ri rp c → between hi hp ri rp (establish seg num c).
Proof. intros [? ? ? ? [] ? ? ? ?]. by split. Qed.
Lemma establish_ok seg num c :
  is_u32 (s_ack_num seg) → is_u32 num → established (s_ack_num seg) num (establish seg num c).
Proof. by split. Qed.

(** Changes that concern neither the addresses nor the sequence numbers. *)
Definition aside (c c' : tcp_conn) : Prop :=
  c_state c' = c_state c ∧ c_ident c' = c_ident c ∧ c_snd c' = c_snd c ∧ c_rcv c' = c_rcv c ∧
  c_MSS c' = c_MSS c ∧ c_opts c' = c_opts c ∧ c_queues c' = c_queues c ∧
  c_running_flag c' = c_running_flag c ∧ c_delayed_flag c' = c_delayed_flag c ∧
  c_active_open c' = c_active_open c ∧ c_parent_conn c' = c_parent_conn c ∧ c_ff c' = c_ff c.

Lemma aside_between hi hp ri rp c c' : aside c c' → between hi hp ri rp c → between hi hp ri rp c'.
Proof.
  intros (E1 & E2 & E3 & E4 & E5 & E6 & E7 & E8 & E9 & _) [? ? ? ? [] ? ? ? ?].
  split; rewrite ?E2, ?E4, ?E5, ?E7, ?E8; try done. by split; rewrite ?E6, ?E9.
Qed.
Lemma aside_established snd rcv c c' : aside c c' → established snd rcv c → established snd rcv c'.
Proof. intros (E1 & E2 & E3 & E4 & _) []. by split; rewrite ?E1, ?E3, ?E4. Qed.
Lemma aside_control c c' fl : aside c c' → control_seg c' fl = control_seg c fl.
Proof.
  intros (E1 & E2 & E3 & E4 & E5 & _). unfold control_seg, finished, opts_of. by rewrite E1, E2, E3, E4, E5.
Qed.
Lemma aside_trans c c' c'' : aside c c' → aside c' c'' → aside c c''.
Proof. unfold aside. intros ? ?. naive_solver congruence. Qed.

Lemma aside_cong v c : aside c (cong_start (set_timeout v c)).
Proof. done. Qed.
Lemma aside_gbn v c : aside c (set_gbn_timer v c).
Proof. done. Qed.
Lemma aside_stats v c : aside c (put_stats v c).
Proof. done. Qed.
Lemma aside_threads v c : aside c (set_threads v c).
Proof. done. Qed.

(** The request is answered. *)
Lemma between_ctl hi hp ri rp v (c : tcp_conn) :
  c_running_flag v = true → between hi hp ri rp c → between hi hp ri rp (put_ctl v c).
Proof. intros ? [? ? ? ? [] ? ? ? ?]. by split. Qed.
Lemma established_ctl snd rcv v c : established snd rcv c → established snd rcv (put_ctl v c).
Proof. intros []. by split. Qed.

(** A change of this kind, forgotten but for its effect. *)
Lemma rt_aside {B} (R : B → ST → Prop) xs n d p c f (k : unit → M ST B) :
  aside c (f c) → (∀ c', aside c c' → runs (rt xs n (upd p c' d)) (k tt) R) →
  runs (rt xs n (upd p c d)) (cmod p f ≫= k) R.
Proof. intros Ha Hk. apply rt_cmod1. by apply Hk. Qed.

Lemma got_ack c fl :
  fl = Z.lor FLAG_SYN FLAG_ACK ∨ fl = FLAG_ACK → s_ack_num (got c fl) = c_recv_seq_num c.
Proof. by intros [-> | ->]. Qed.

(** A segment for the connection [p] reaches its handler. *)
Lemma in_conn_runs {R : unit → ST → Prop} xs n d p l l' (c cl : tcp_conn) fl f ff hi hp ri rp :
  is_u32 hi → is_u32 ri → is_u16 hp → is_u16 rp →
  between hi hp ri rp c → between ri rp hi hp cl → hs_flags fl → seg_ok (control_seg cl fl) →
  delivers (set_dest f (seg_frame (control_seg cl fl))) ff →
  conn_list d = l ++ p :: l' → misses (upd p c d) (λ c, tcp_conn_addr_test c hi hp ri rp) l → p ≠ 0 →
  (∀ c' t, aside c c' →
     runs (rt xs n (upd p c' (put_total t d)))
       (tcp_recv_state p (got cl fl) ≫= λ _, leave_conn p ≫= λ _, free_ff ff) R) →
  runs (rt xs n (upd p c d)) (tcp_in_fdf ff) R.
Proof.
  intros Hhi Hri Hhp Hrp Hc Hcl Hfl Hok Hdv Hl Hm Hp0 Hk.
  unfold tcp_in_fdf. eapply rt_read; [exact Hok| | |exact Hdv|].
  { simpl. destruct Hcl. congruence. } { simpl. destruct Hcl. congruence. }
  fold (got cl fl). destruct (got_fields _ fl _ _ _ _ Hcl) as (-> & -> & -> & ->).
  unfold find_conn at 1. rs. apply rt_tget. change (conn_list (upd p c d)) with (conn_list d). rewrite Hl.
  eapply rt_find_hit; [exact Hm|apply upd_eq| |].
  { unfold tcp_conn_addr_test. destruct Hc. by rewrite !andb_true_iff, !Z.eqb_eq. }
  rewrite (proj2 (Z.eqb_neq _ _) Hp0). cbn [negb]. rs.
  eapply rt_recv; [apply Hc|by apply seg_accepted|]. intros st t. apply Hk.
  eapply aside_trans; [apply aside_threads|apply aside_stats].
Qed.

(** The request a caller of connect or accept waits with. *)
Record request_ok (ff : finsFrame) (k : finsCtrlFrame) (op : Z) : Prop := {
  rq_meta : ∃ m, metaData ff = Some m ∧ int_key m "ret_msg" = true;
  rq_body : body ff = Ctrl k;
  rq_op : reply_opcode (opcode k) = Ok op
}.

(** The frame that answers the request [k] with success. *)
Definition success (k : finsCtrlFrame) (op : Z) (ff : finsFrame) : Prop :=
  destinationID ff = sender_id k ∧ ∃ i, body ff =
    Ctrl (MkCtrl i (serial_num k) op (param_id k) FCF_TRUE (data_len k) (cdata k)).

Lemma plain_set_MSS m c : plain c → plain (set_MSS m c).
Proof. intros []. by split. Qed.

(** The final acknowledgement, and the answer to the caller. *)
Lemma final_ack_runs xs n d p (c : tcp_conn) ffr kr op hi hp ri rp snd rcv :
  is_u16 hp → is_u16 rp → request_ok ffr kr op →
  between hi hp ri rp c → established snd rcv c → c_ff c = Some ffr → c_active_open c = true →
  runs (rt xs (S (S n)) (upd p c d)) (send_control p FLAG_ACK ≫= λ _, signal_established p)
    (λ _ s, ∃ c' rep, between hi hp ri rp c' ∧ established snd rcv c' ∧ c_MSS c' = c_MSS c ∧
       success kr op rep ∧
       rt (xs ++ [set_dest ipv4 (seg_frame (control_seg c' FLAG_ACK)); rep]) n (upd p c' d) s).
Proof.
  intros Hhp Hrp [(mr & Hmr & Hir) Hbr Hop] Hc He Hff Hac.
  assert (Hok : seg_ok (control_seg c FLAG_ACK)).
  { destruct He as [? E1 E2 E3 ? [? ?]]. eapply got_ok; try done; [by rewrite E2|by rewrite E3|by right; right]. }
  eapply rt_send_control; [apply upd_eq|right; right; apply He|apply Hc|exact Hok|].
  unfold signal_established. rs. rewrite Hff. rs.
  change (c_active_open _) with (c_active_open c) at 1. rewrite Hac.
  eapply rt_reply; [done..|]. intros i. apply runs_bind_r. rs. apply runs_ret. intros s Hs.
  eexists _, _. rewrite <- app_assoc in Hs.
  match type of Hs with rt _ _ (upd p ?c' d) _ => change (control_seg c FLAG_ACK) with (control_seg c' FLAG_ACK) in Hs end.
  split_and!; [..|exact Hs].
  - apply between_ctl; [apply Hc|]. apply between_ctl; [apply Hc|done].
  - by apply established_ctl, established_ctl.
  - done.
  - split; [done|]. by exists i.
Qed.

Lemma syn_sent_runs xs n d p (c cl : tcp_conn) ffr kr op hi hp ri rp pl :
  is_u16 hp → is_u16 rp → request_ok ffr kr op →
  between hi hp ri rp c → syn_sent ffr c → between ri rp hi hp cl →
  syn_recv pl (u32 (c_send_seq_num c + 1)) cl →
  runs (rt xs (S (S n)) (upd p c d)) (tcp_recv_syn_sent p (got cl (Z.lor FLAG_SYN FLAG_ACK)))
    (λ _ s, ∃ c' rep, between hi hp ri rp c' ∧
       established (u32 (c_send_seq_num c + 1)) (u32 (c_send_seq_num cl + 1)) c' ∧
       c_MSS c' = Z.min (c_MSS cl) (c_MSS c) ∧ success kr op rep ∧
       rt (xs ++ [set_dest ipv4 (seg_frame (control_seg c' FLAG_ACK)); rep]) n (upd p c' d) s).
Proof.
  intros Hhp Hrp Hrq Hc Hss Hcl Hsr.
  assert (hs_flags (Z.lor FLAG_SYN FLAG_ACK)) as Hfl by (by right; left).
  unfold tcp_recv_syn_sent. rs. rewrite got_flags by done. rewrite (sr_state _ _ _ Hsr). cbn [syn_state].
  change (has _ FLAG_RST) with false. change (has _ FLAG_FIN) with false.
  change (has _ FLAG_SYN) with true. change (has _ FLAG_ACK) with true. cbv iota.
  rewrite got_ack by (by left). rewrite (sr_recv _ _ _ Hsr), Z.eqb_refl.
  eapply rt_options; [|apply got_mss; [by rewrite (sr_state _ _ _ Hsr)|apply Hcl]|].
  { unfold in_setup. by rewrite (ss_state _ _ Hss). }
  apply rt_cmod1. unfold stop_gbn. apply rt_cmod1.
  match goal with |- runs (rt _ _ (upd p ?C _)) _ _ => set (c3 := C) end.
  assert (between hi hp ri rp c3) as Hb3.
  { destruct Hc as [? ? ? ? [] ? ? ? ?]. split; try done. destruct Hcl. unfold is_u16 in *.
    change (0 ≤ c_MSS cl `min` c_MSS c < 65536). lia. }
  assert (established (u32 (c_send_seq_num c + 1)) (u32 (c_send_seq_num cl + 1)) c3) as He3.
  { rewrite <- (sr_seq _ _ _ Hsr), <- (sr_recv _ _ _ Hsr). rewrite <- (got_ack _ (Z.lor FLAG_SYN FLAG_ACK)) by (by left).
    split; try reflexivity. split; [|apply u32_range]. rewrite got_ack by (by left).
    rewrite (sr_recv _ _ _ Hsr). apply u32_range. }
  assert (c_MSS c3 = Z.min (c_MSS cl) (c_MSS c)) as Hm3 by reflexivity.
  assert (c_ff c3 = Some ffr) as Hf3 by apply Hss.
  assert (c_active_open c3 = true) as Ha3 by apply Hss.
  clearbody c3. apply rt_aside; [apply aside_cong|]. intros c4 Ha4.
  eapply runs_post; [eapply (final_ack_runs xs n d p c4 ffr kr op hi hp ri rp _ _ Hhp Hrp Hrq)|].
  - by eapply (aside_between _ _ _ _ c3).
  - by eapply (aside_established _ _ c3).
  - rewrite <- Hf3. apply Ha4.
  - rewrite <- Ha3. apply Ha4.
  - intros ? s (c' & rep & ? & ? & Hm & ? & Hs). exists c', rep. split_and!; try done.
    rewrite Hm, <- Hm3. apply Ha4.
Qed.

(** The listener has nobody waiting: the new connection stays in its backlog. *)
Lemma signal_parent_runs xs n d p q (c lc : tcp_conn) hi hp :
  q ≠ p → c_ff c = None → c_active_open c = false → c_parent_conn c = p → listens hi hp lc →
  runs (rt xs n (upd q c (upd p lc d))) (signal_established q)
    (λ _ s, ∃ lc', listens hi hp lc' ∧ c_backlog_list lc' = c_backlog_list lc ∧
       rt xs n (upd q c (upd p lc' d)) s).
Proof.
  intros Hpq Hff Hac Hpar Hls. unfold signal_established. rs. rewrite Hff, Hac, Hpar. cbv zeta.
  apply rt_swap; [done|]. rs.
  change (c_running_flag _ && bool_decide (c_state _ = TS_LISTEN)) with
    (c_running_flag lc && bool_decide (c_state lc = TS_LISTEN)).
  rewrite (ls_run _ _ _ Hls), (ls_state _ _ _ Hls). cbn [andb]. rewrite bool_decide_eq_true_2 by done.
  change (c_ff (set_threads _ _)) with (c_ff lc). rewrite (ls_ff _ _ _ Hls). apply runs_bind_r. rs.
  apply rt_swap; [done|]. apply runs_ret. intros s Hs. eexists. split_and!; [..|exact Hs].
  - destruct Hls. by split.
  - done.
Qed.

Lemma got_plain c fl : syn_state (c_state c) = false → s_opt_len (got c fl) = 0.
Proof. intros Hst. unfold got, received, control_seg, finished, opts_of. simpl. by rewrite Hst. Qed.

Lemma syn_recv_runs xs n d p q (c cl lc : tcp_conn) hi hp ri rp num :
  q ≠ p → between hi hp ri rp c → syn_recv p num c → listens hi hp lc →
  established num (u32 (c_send_seq_num c + 1)) cl →
  runs (rt xs n (upd q c (upd p lc d))) (tcp_recv_syn_recv q (got cl FLAG_ACK))
    (λ _ s, ∃ c' lc', between hi hp ri rp c' ∧ established (u32 (c_send_seq_num c + 1)) num c' ∧
       c_MSS c' = c_MSS c ∧ listens hi hp lc' ∧ c_backlog_list lc' = c_backlog_list lc ∧
       rt xs n (upd q c' (upd p lc' d)) s).
Proof.
  intros Hqp Hc Hsr Hls He. unfold tcp_recv_syn_recv. rs.
  assert (hs_flags FLAG_ACK) as Hfl by (by right; right).
  assert (Hg : s_flags (got cl FLAG_ACK) = Z.lor FLAG_ACK 20480).
  { rewrite got_flags by done. by rewrite (es_state _ _ _ He). }
  rewrite Hg. change (has _ FLAG_RST) with false. change (has _ FLAG_FIN) with false.
  change (has _ FLAG_SYN) with false. change (has _ FLAG_ACK) with true. cbv iota.
  rewrite got_ack by (by right). rewrite (es_rcv _ _ _ He), Z.eqb_refl.
  unfold accept_ack. apply process_plain; [apply got_plain; by rewrite (es_state _ _ _ He)|].
  apply rt_cmod1. unfold stop_gbn. apply rt_cmod1.
  match goal with |- runs (rt _ _ (upd q ?C _)) _ _ => set (c3 := C) end.
  assert (between hi hp ri rp c3) as Hb3.
  { by apply (aside_between _ _ _ _ _ _ (aside_gbn _ _)), establish_between. }
  assert (established (u32 (c_send_seq_num c + 1)) num c3) as He3.
  { apply (aside_established _ _ _ _ (aside_gbn _ _)).
    rewrite <- (es_rcv _ _ _ He), <- (es_snd_end _ _ _ He), <- (got_ack cl FLAG_ACK) by (by right).
    apply establish_ok; [rewrite got_ack by (by right); rewrite (es_rcv _ _ _ He); apply u32_range|].
    change (is_u32 (c_send_seq_end cl)). rewrite (es_snd_end _ _ _ He). apply Hsr. }
  assert (c_MSS c3 = c_MSS c ∧ c_ff c3 = None ∧ c_active_open c3 = false ∧ c_parent_conn c3 = p) as (Hm3 & Hf3 & Ha3 & Hp3).
  { split_and!; [done|apply Hsr..]. }
  clearbody c3. apply rt_aside; [apply aside_cong|]. intros c4 Ha4. rs.
  change (has (s_flags (got cl FLAG_ACK)) FLAG_ACK) with (has (s_flags (got cl FLAG_ACK)) FLAG_ACK).
  rewrite Hg. change (has _ FLAG_ACK) with true. cbn [negb]. rs.
  pose proof Ha4 as (_ & _ & _ & _ & Hm4 & _ & _ & _ & _ & Ha4' & Hp4 & Hf4).
  eapply runs_post; [eapply signal_parent_runs; try done; congruence|].
  intros ? s (lc' & ? & ? & Hs). exists c4, lc'. split_and!; try done.
  - by eapply (aside_between _ _ _ _ c3).
  - by eapply (aside_established _ _ c3).
  - congruence.
Qed.

(** The SYN-ACK at the active side. *)
Lemma active_runs xs n d p l (c cl : tcp_conn) ffr kr op f ff hi hp ri rp pl :
  is_u32 hi → is_u32 ri → is_u16 hp → is_u16 rp → request_ok ffr kr op →
  between hi hp ri rp c → syn_sent ffr c → between ri rp hi hp cl →
  syn_recv pl (u32 (c_send_seq_num c + 1)) cl →
  delivers (set_dest f (seg_frame (control_seg cl (Z.lor FLAG_SYN FLAG_ACK)))) ff →
  conn_list d = l ++ [p] → misses (upd p c d) (λ c, tcp_conn_addr_test c hi hp ri rp) l → p ≠ 0 →
  runs (rt xs (S (S n)) (upd p c d)) (tcp_in_fdf ff)
    (λ _ s, ∃ c' rep d', between hi hp ri rp c' ∧
       established (u32 (c_send_seq_num c + 1)) (u32 (c_send_seq_num cl + 1)) c' ∧
       c_MSS c' = Z.min (c_MSS cl) (c_MSS c) ∧ success kr op rep ∧
       rt (xs ++ [set_dest ipv4 (seg_frame (control_seg c' FLAG_ACK)); rep]) n (upd p c' d') s).
Proof.
  intros Hhi Hri Hhp Hrp Hrq Hc Hss Hcl Hsr Hdv Hl Hm Hp0.
  assert (hs_flags (Z.lor FLAG_SYN FLAG_ACK)) as Hfl by (by right; left).
  assert (seg_ok (control_seg cl (Z.lor FLAG_SYN FLAG_ACK))) as Hok.
  { eapply got_ok; try done; [rewrite (sr_seq _ _ _ Hsr)|rewrite (sr_recv _ _ _ Hsr)]; apply Hsr. }
  apply (in_conn_runs _ _ d p l [] c cl (Z.lor FLAG_SYN FLAG_ACK) f ff hi hp ri rp); try done. intros c' t Ha. unfold tcp_recv_state. rs.
  pose proof Ha as (Hst & _ & Hsnd & Hrcv & Hmss & _ & _ & _ & _ & Hac & _ & Hff).
  rewrite Hst, (ss_state _ _ Hss). eapply runs_bind.
  { eapply (syn_sent_runs _ _ _ p c' cl ffr kr op hi hp ri rp pl); try done.
    - by eapply (aside_between _ _ _ _ c).
    - destruct Hss. by split; rewrite ?Hst, ?Hsnd, ?Hrcv, ?Hac, ?Hff.
    - by rewrite Hsnd. }
  intros []. apply runs_ex. intros c2. apply runs_ex. intros rep. do 4 (apply runs_pure; intros ?).
  rs. apply runs_bind_r, rt_free. { by destruct (dv_body _ _ Hdv) as (? & ? & ? & ? & ? & ->). }
  apply runs_ret. intros s Hs. eexists _, rep, _. rewrite <- (control_seg_threads (u32 (c_threads c2 - 1))) in Hs.
  split_and!; [..|exact Hs]; try done.
  - by apply between_threads.
  - rewrite Hsnd in *. by eapply (aside_established _ _ c2).
  - simpl. congruence.
Qed.

(** The final acknowledgement at the passive side. *)
Lemma passive_runs xs n d p q l (c cl lc : tcp_conn) f ff hi hp ri rp num :
  is_u32 hi → is_u32 ri → is_u16 hp → is_u16 rp → q ≠ p →
  between hi hp ri rp c → syn_recv p num c → listens hi hp lc → between ri rp hi hp cl →
  established num (u32 (c_send_seq_num c + 1)) cl →
  delivers (set_dest f (seg_frame (control_seg cl FLAG_ACK))) ff →
  conn_list d = l ++ [q] → misses (upd q c (upd p lc d)) (λ c, tcp_conn_addr_test c hi hp ri rp) l → q ≠ 0 →
  runs (rt xs n (upd q c (upd p lc d))) (tcp_in_fdf ff)
    (λ _ s, ∃ c' lc' d', between hi hp ri rp c' ∧ established (u32 (c_send_seq_num c + 1)) num c' ∧
       c_MSS c' = c_MSS c ∧ listens hi hp lc' ∧ c_backlog_list lc' = c_backlog_list lc ∧
       rt xs n (upd q c' (upd p lc' d')) s).
Proof.
  intros Hhi Hri Hhp Hrp Hqp Hc Hsr Hls Hcl He Hdv Hl Hm Hq0.
  assert (hs_flags FLAG_ACK) as Hfl by (by right; right).
  assert (seg_ok (control_seg cl FLAG_ACK)) as Hok.
  { eapply got_ok; try done; [rewrite (es_snd_end _ _ _ He)|rewrite (es_rcv _ _ _ He)]; apply He. }
  apply (in_conn_runs _ _ (upd p lc d) q l [] c cl FLAG_ACK f ff hi hp ri rp); try done. intros c' t Ha. unfold tcp_recv_state. rs.
  pose proof Ha as (Hst & _ & Hsnd & Hrcv & Hmss & _ & _ & _ & _ & Hac & Hpa & Hff).
  rewrite Hst, (sr_state _ _ _ Hsr). change (put_total t (upd p lc d)) with (upd p lc (put_total t d)).
  eapply runs_bind.
  { eapply (syn_recv_runs _ _ _ p q c' cl lc hi hp ri rp num); try done.
    - by eapply (aside_between _ _ _ _ c).
    - destruct Hsr. by split; rewrite ?Hst, ?Hsnd, ?Hrcv, ?Hac, ?Hff, ?Hpa.
    - by rewrite Hsnd. }
  intros []. apply runs_ex. intros c2. apply runs_ex. intros lc'. do 5 (apply runs_pure; intros ?).
  rs. apply runs_bind_r, rt_free. { by destruct (dv_body _ _ Hdv) as (? & ? & ? & ? & ? & ->). }
  apply runs_ret. intros s Hs. eexists _, lc', _. split_and!; [..|exact Hs]; try done.
  - by apply between_threads.
  - rewrite Hsnd in *. by eapply (aside_established _ _ c2).
  - simpl. congruence.
Qed.

End Rt.

(** ** Properties *)

(** A module that can open a connection to [(ri, rp)]. *)
Record can_connect (d : tcp_data) (hi hp ri rp : Z) : Prop := {
  cn_conn : addr_miss d hi hp ri rp; cn_stub : host_miss d hi hp;
  cn_space : Z.of_nat (length (conn_list d)) < TCP_CONN_MAX;
  cn_fresh : conns d !! next_addr d = None; cn_addr : next_addr d ≠ 0
}.

(** A module that listens on [(hi, hp)] with the connection [lc] at [p], with
    room in the backlog, and knows no connection to [(ri, rp)]. *)
Record can_accept (d : tcp_data) (p : loc) (lc : tcp_conn) (hi hp ri rp : Z) : Prop := {
  ca_conn : addr_miss d hi hp ri rp;
  ca_space : Z.of_nat (length (conn_list d)) < TCP_CONN_MAX;
  ca_stub : ∃ l1 l2, conn_stub_list d = l1 ++ p :: l2 ∧ misses d (λ c, tcp_conn_host_test c hi hp) l1;
  ca_addr : p ≠ 0 ∧ p ∉ conn_list d; ca_lookup : conns d !! p = Some lc; ca_listens : listens hi hp lc;
  ca_backlog : Z.of_nat (length (c_backlog_list lc)) < c_backlog_max lc;
  ca_fresh : conns d !! next_addr d = None; ca_next : next_addr d ≠ 0
}.

(** What both ends agree on. *)
Record connected (c1 c2 : tcp_conn) (mss : Z) : Prop := {
  cd_state1 : c_state c1 = TS_ESTABLISHED; cd_state2 : c_state c2 = TS_ESTABLISHED;
  cd_seq12 : c_send_seq_num c1 = c_recv_seq_num c2; cd_seq21 : c_send_seq_num c2 = c_recv_seq_num c1;
  cd_end1 : c_send_seq_end c1 = c_send_seq_num c1; cd_end2 : c_send_seq_end c2 = c_send_seq_num c2;
  cd_mss1 : c_MSS c1 = mss; cd_mss2 : c_MSS c2 = mss;
  cd_rem1 : c_rem_ip c1 = c_host_ip c2 ∧ c_rem_port c1 = c_host_port c2;
  cd_rem2 : c_rem_ip c2 = c_host_ip c1 ∧ c_rem_port c2 = c_host_port c1;
  cd_queue1 : q_nodes (c_recv_queue c1) = []; cd_queue2 : q_nodes (c_recv_queue c2) = []
}.

(** C1: the three-way handshake between two modules.  The connect request makes
    the client send a SYN; once a frame with its bytes reaches a listening
    server, the server answers with a SYN-ACK for a new connection in its
    backlog; once that reaches the client, the client acknowledges it and
    answers its caller with success; once the acknowledgement reaches the
    server, both connections are ESTABLISHED, each expects the number the other
    sends next, nothing is stored, and both use the smaller of the two MSS
    values.  Every handler returns. *)
Theorem tcp_handshake {Q1 Q2} `{BoundedFifo Q1 finsFrame} `{BoundedFifo Q2 finsFrame}
    (E1 E2 : Environment) (s1 : mstate Q1 tcp_data) (s2 : mstate Q2 tcp_data)
    ip1 dm1 ip2 dm2 xs1 xs2 d1 d2 ffr kr op flags hi hp ri rp p lc :
  is_u32 hi → is_u32 ri → is_u16 hp → is_u16 rp → request_ok ffr kr op →
  rt ip1 dm1 xs1 3 d1 s1 → can_connect d1 hi hp ri rp →
  rt ip2 dm2 xs2 1 d2 s2 → can_accept d2 p lc ri rp hi hp →
  ∃ s1' syn, tcp_exec_connect (H0 := E1) ffr hi hp ri rp flags s1 = Ok (tt, s1') ∧ bf_rep (outq s1') (xs1 ++ [syn]) ∧
  ∀ ff1, delivers syn ff1 →
  ∃ s2' synack, tcp_in_fdf (H0 := E2) ff1 s2 = Ok (tt, s2') ∧ bf_rep (outq s2') (xs2 ++ [synack]) ∧
  ∀ ff2, delivers synack ff2 →
  ∃ s1'' ack rep, tcp_in_fdf (H0 := E1) ff2 s1' = Ok (tt, s1'') ∧ bf_rep (outq s1'') (xs1 ++ [syn; ack; rep]) ∧
    success kr op rep ∧
  ∀ ff3, delivers ack ff3 →
  ∃ s2'' c1 c2 (lc' : tcp_conn), tcp_in_fdf (H0 := E2) ff3 s2' = Ok (tt, s2'') ∧
    conns (md s1'') !! next_addr d1 = Some c1 ∧ conns (md s2'') !! next_addr d2 = Some c2 ∧
    connected c1 c2 (Z.min (u16 (mss d1)) (u16 (mss d2))) ∧
    conns (md s2'') !! p = Some lc' ∧ c_backlog_list lc' = c_backlog_list lc ++ [next_addr d2].
Proof.
  intros Hhi Hri Hhp Hrp Hrq Hs1 [Ca1 Cs1 Cl1 Cf1 C01] Hs2 [Ca2 Cl2 (l1 & l2 & Hst & Cs2) [Hp0 Hpl] Hp Hls Hbl Cf2 C02].
  assert (p ≠ next_addr d2) as Hpq by congruence.
  destruct (connect_runs (H0 := E1) ip1 dm1 xs1 2 d1 ffr hi hp ri rp flags Hhp Hrp Ca1 Cs1 Cl1 Cf1 s1 Hs1)
    as ([] & s1' & R1 & c1 & d1' & Hb1 & Hss & Hm1 & Hcl1 & Hms1 & Hs1').
  eexists s1', _. split; [exact R1|]. split; [apply Hs1'|]. intros ff1 Hd1.
  destruct (listen_runs (H0 := E2) ip2 dm2 c1 ri rp hi hp Hrp Hhp Hb1 (ss_state _ _ Hss)
    ltac:(rewrite (ss_seq _ _ Hss); apply Hss) (ss_recv _ _ Hss) xs2 0 d2 p l1 l2 lc ip1 ff1 Hri Hhi Hd1 Ca2 Cl2 Hst Cs2
    Hp0 Hpl Hp Hls Hbl Cf2 s2 Hs2)
    as ([] & s2' & R2 & c2 & lc2 & d2' & Hb2 & Hsr & Hm2 & Hls2 & Hbl2 & Hcl2 & Hcs2 & Hs2').
  eexists s2', _. split; [exact R2|]. split; [apply Hs2'|]. intros ff2 Hd2.
  rewrite (ss_seq _ _ Hss) in Hsr.
  destruct (active_runs (H0 := E1) ip1 dm1 _ 0 d1' _ (conn_list d1) c1 c2 ffr kr op ip2 ff2 hi hp ri rp p Hhi Hri Hhp Hrp Hrq
    Hb1 Hss Hb2 Hsr Hd2 Hcl1 Hms1 C01 s1' Hs1')
    as ([] & s1'' & R3 & c3 & rep & d1'' & Hb3 & He3 & Hm3 & Hrep & Hs1'').
  rewrite <- app_assoc in Hs1''.
  eexists s1'', _, rep. split; [exact R3|]. split; [apply Hs1''|]. split; [exact Hrep|]. intros ff3 Hd3.
  assert (misses (upd (next_addr d2) c2 (upd p lc2 d2')) (λ c, tcp_conn_addr_test c ri rp hi hp) (conn_list d2)) as Hms2.
  { apply misses_upd; [by eapply misses_fresh|]. apply misses_upd; [done|]. by eapply misses_same. }
  assert (rt ip2 dm2 (xs2 ++ [set_dest ip2 (seg_frame (control_seg c2 (Z.lor FLAG_SYN FLAG_ACK)))]) 0
    (upd (next_addr d2) c2 (upd p lc2 d2')) s2') as Hs2b.
  { unfold upd in *. simpl in *. by rewrite (insert_insert_ne _ (next_addr d2) p) by done. }
  destruct (passive_runs (H0 := E2) ip2 dm2 _ 0 d2' p (next_addr d2) (conn_list d2) c2 c3 lc2 ip1 ff3 ri rp hi hp _ Hri Hhi Hrp Hhp
    (not_eq_sym Hpq) Hb2 Hsr Hls2 Hb3 He3 Hd3 Hcl2 Hms2 C02 s2' Hs2b)
    as ([] & s2'' & R4 & c4 & lc4 & d2'' & Hb4 & He4 & Hm4 & Hls4 & Hbl4 & Hs2'').
  exists s2'', c3, c4, lc4. rewrite (rs_md _ _ _ _ _ Hs1''), (rs_md _ _ _ _ _ Hs2'').
  rewrite !upd_eq, upd_ne, upd_eq by done. split_and!; try done; [|congruence].
  destruct Hb3, Hb4, He3, He4. split; first [congruence|lia|split; congruence].
Qed.

(** The client of the instance: host 10, port 5000, with a request of the
    daemon. *)
Definition demo_client : demo_ST := demo_module (demo_data [] [] [] 1).
Definition demo_connect : finsFrame :=
  MkFrame 5 (Some []) (Ctrl (MkCtrl 1 77 CTRL_EXEC TCP_EXEC_CONNECT 0 0 CNull)).

Lemma demo_rt d n : (n ≤ 50)%nat → rt 3 1 [] n d (demo_module d).
Proof.
  intros Hn. split; [done|apply demo_table_ok| |].
  - split; [apply create_qrep; lia|]. simpl. lia.
  - intros f dst. rewrite !elem_of_cons, elem_of_nil. by intros [[= -> ->]|[[= -> ->]|[]]].
Qed.

(** Witness of C1: the client of host 10 and the listener of host 20. *)
Lemma tcp_handshake_witness :
  ∃ s1' syn, tcp_exec_connect (H0 := demo_env) demo_connect 10 5000 20 80 0 demo_client = Ok (tt, s1') ∧
    bf_rep (outq s1') ([] ++ [syn]) ∧
  ∀ ff1, delivers syn ff1 →
  ∃ s2' synack, tcp_in_fdf (H0 := demo_env) ff1 demo_server = Ok (tt, s2') ∧ bf_rep (outq s2') ([] ++ [synack]) ∧
  ∀ ff2, delivers synack ff2 →
  ∃ s1'' ack rep, tcp_in_fdf (H0 := demo_env) ff2 s1' = Ok (tt, s1'') ∧
    bf_rep (outq s1'') ([] ++ [syn; ack; rep]) ∧
    success (MkCtrl 1 77 CTRL_EXEC TCP_EXEC_CONNECT 0 0 CNull) CTRL_EXEC_REPLY rep ∧
  ∀ ff3, delivers ack ff3 →
  ∃ s2'' c1 c2 (lc' : tcp_conn), tcp_in_fdf (H0 := demo_env) ff3 s2' = Ok (tt, s2'') ∧
    conns (md s1'') !! 1 = Some c1 ∧ conns (md s2'') !! 2 = Some c2 ∧ connected c1 c2 1460 ∧
    conns (md s2'') !! 1 = Some lc' ∧ c_backlog_list lc' = [2].
Proof.
  refine (tcp_handshake demo_env demo_env demo_client demo_server 3 1 3 1 [] []
    (demo_data [] [] [] 1) (demo_data [(1, demo_listener)] [] [1] 2) demo_connect
    (MkCtrl 1 77 CTRL_EXEC TCP_EXEC_CONNECT 0 0 CNull) CTRL_EXEC_REPLY 0 10 5000 20 80 1 demo_listener _ _ _ _ _ _ _ _ _).
  - done.
  - done.
  - done.
  - done.
  - split; [by exists []|done..].
  - apply demo_rt. lia.
  - split; [constructor|constructor|done..].
  - apply demo_rt. lia.
  - split; [constructor|done| |split; [done|set_solver]|reflexivity|by split|done..]. exists [], []. split; [done|constructor].
Defined.
