(* ===== verification/TcpOptions.v ===== *)
(** * TCP options: the loop of [tcp_process_options] ends, and the options of a
    SYN are understood by the peer *)

From stdpp Require Import base list gmap strings.
From Stdlib Require Import ZArith Lia.
From S2P Require Import Prelude Queue Metadata Frame Module IPv4 UDP Double TcpWindow TcpQueue TcpSeg.
From S2P Require Import TcpRecord TcpConn TcpMain TcpIn TcpDemo TcpLogic TcpRun.
Open Scope Z_scope.
Open Scope fins_scope.

Section Options.
Context {Q : Type} `{BoundedFifo Q finsFrame} `{Environment}.
Abbreviation ST := (mstate Q tcp_data) (only parsing).
Context (p : loc).

(** The connection at [p]. *)
Definition holds (c : tcp_conn) (s : ST) : Prop := conns (md s) !! p = Some c.

Lemma hold_cget {B} c (k : tcp_conn → M ST B) R : runs (holds c) (k c) R → runs (holds c) (cget p ≫= k) R.
Proof. intros Hk s Hs. rewrite (bind_ok _ _ _ c s); [by apply Hk|]. by apply cget_ok. Qed.

Lemma hold_cmod c f : runs (holds c) (cmod p f) (λ _, holds (f c)).
Proof. intros s Hs. exists tt, (put_conn p (f c) s). split; [by apply cmod_ok|]. apply lookup_insert_eq. Qed.

Lemma hold_cmod_if (b : bool) c f :
  runs (holds c) (if b then cmod p f else mret tt) (λ _, holds (if b then f c else c)).
Proof. destruct b; [apply hold_cmod|by apply runs_ret]. Qed.

Lemma hold_lift {A B} (r : res A) a c (k : A → M ST B) R :
  r = Ok a → runs (holds c) (k a) R → runs (holds c) (lift r ≫= k) R.
Proof. by intros -> Hk. Qed.

(** ** The position does not wrap *)

(** The option and the loop with a position of any size. *)
Definition wide_option (o : list Z) (kind i : Z) : M ST (Z + Z) :=
  c ⇐ p;
  if kind =? TCP_OPT_EOL then mret (inr 1)
  else if kind =? TCP_OPT_NOP then mret (inl i)
  else if kind =? TCP_OPT_MSS then
    len ← lift (opt_at o i);
    let i := i + 1 in
    if len =? TCP_OPT_MSS_BYTES then
      b ← lift (opt_read o i 2);
      let mss := ntohs (le_value b) in
      (if in_setup c && (mss <? c_MSS c) then cmod p (set_MSS mss) else mret tt) ;;
      mret (inl (i + 2))
    else mret (inl i)
  else if kind =? TCP_OPT_WS then
    len ← lift (opt_at o i);
    let i := i + 1 in
    if len =? TCP_OPT_WS_BYTES then
      ws ← lift (opt_at o i);
      (if in_setup c && c_wsopt_attempt c && negb (ws =? 0) then
         cmod p (λ c, c |> set_wsopt_enabled true
                        |> set_ws_send (if ws <? TCP_OPT_WS_MAX then ws else TCP_OPT_WS_MAX))
       else mret tt) ;;
      mret (inl (i + 1))
    else mret (inl i)
  else if kind =? TCP_OPT_SACK_PERM then
    len ← lift (opt_at o i);
    let i := i + 1 in
    (if (len =? TCP_OPT_SACK_PERM_BYTES) && in_setup c && c_sack_attempt c
     then cmod p (set_sack_enabled true) else mret tt) ;;
    mret (inl i)
  else if kind =? TCP_OPT_SACK then
    len ← lift (opt_at o i);
    mret (inl (i + 1))
  else if kind =? TCP_OPT_TS then
    len ← lift (opt_at o i);
    let i := i + 1 in
    if len =? TCP_OPT_TS_BYTES then
      v ← lift (opt_read o i 4);
      e ← lift (opt_read o (i + 4) 4);
      if in_setup c && c_tsopt_attempt c then
        cmod p (set_tsopt_enabled true) ;;
        if ntohl (le_value v) <? c_ts_rem c then mret (inr 0) else mret (inl (i + 8))
      else mret (inl (i + 8))
    else mret (inl i)
  else mret (inl i).

Fixpoint wide_loop (fuel : nat) (o : list Z) (opt_len i : Z) : M ST Z :=
  if i <? opt_len then
    match fuel with
    | O => nofuel
    | S fuel =>
        kind ← lift (opt_at o i);
        r ← wide_option o kind (i + 1);
        match r with
        | inl i => wide_loop fuel o opt_len i
        | inr r => mret r
        end
    end
  else mret 1.

Lemma process_option_wide o kind i : 0 ≤ i ≤ 200 → process_option p o kind i = wide_option o kind i.
Proof.
  intros Hi. assert (∀ k, 0 ≤ k ≤ 20 → u8 (i + k) = i + k) as Hu by (intros k Hk; apply u8_small; unfold is_u8; lia).
  unfold process_option, wide_option. cbv zeta. rewrite (Hu 1) by lia.
  assert (∀ k, 0 ≤ k ≤ 8 → u8 (i + 1 + k) = i + 1 + k) as Hv by (intros k Hk; apply u8_small; unfold is_u8; lia).
  rewrite (Hv 1), (Hv 2), (Hv 4) by lia. rewrite (u8_small (i + 1 + 4 + 4)) by (unfold is_u8; lia).
  by replace (i + 1 + 4 + 4) with (i + 1 + 8) by lia.
Qed.

(** ** Termination *)

Definition somewhere (s : ST) : Prop := ∃ c, holds c s.

(** Reads within the array succeed. *)
Lemma opt_at_ok o i : 0 ≤ i < Z.of_nat (length o) → ∃ b, opt_at o i = Ok b.
Proof.
  intros Hi. unfold opt_at. destruct (o !! Z.to_nat i) as [b|] eqn:E; [eauto|].
  apply lookup_ge_None_1 in E. lia.
Qed.
Lemma opt_read_ok o i n :
  0 ≤ i → 0 ≤ n → i + n ≤ Z.of_nat (length o) → ∃ b, opt_read o i n = Ok b.
Proof.
  intros Hi Hn Hl. unfold opt_read, read_bytes. destruct (n =? 0); [eauto|].
  rewrite (proj2 (Z.leb_le _ _)); [eauto|]. rewrite length_drop. lia.
Qed.

(** An option moves on by at least its kind, or ends the loop, provided the
    longest one fits behind [i]. *)
Lemma wide_option_ok o kind i :
  0 ≤ i → i + 9 ≤ Z.of_nat (length o) →
  runs somewhere (wide_option o kind i)
    (λ r s, somewhere s ∧ match r with inl i' => i ≤ i' | inr _ => True end).
Proof.
  intros Hi Hl. apply runs_ex. intros c. unfold wide_option. apply hold_cget.
  destruct (opt_at_ok o i ltac:(lia)) as [len Elen].
  destruct (opt_at_ok o (i + 1) ltac:(lia)) as [ws Ews].
  destruct (opt_read_ok o (i + 1) 2 ltac:(lia) ltac:(lia) ltac:(lia)) as [m Em].
  destruct (opt_read_ok o (i + 1) 4 ltac:(lia) ltac:(lia) ltac:(lia)) as [v Ev].
  destruct (opt_read_ok o (i + 1 + 4) 4 ltac:(lia) ltac:(lia) ltac:(lia)) as [e Ee].
  assert (Hret : ∀ j c', i ≤ j → runs (holds c') (mret (inl j))
    (λ (r : Z + Z) s, somewhere s ∧ match r with inl i' => i ≤ i' | inr _ => True end)).
  { intros j c' Hj. apply runs_ret. intros s Hs. split; [by exists c'|done]. }
  assert (Hend : ∀ j c', runs (holds c') (mret (inr j))
    (λ (r : Z + Z) s, somewhere s ∧ match r with inl i' => i ≤ i' | inr _ => True end)).
  { intros j c'. apply runs_ret. intros s Hs. split; [by exists c'|done]. }
  assert (Hif : ∀ (b : bool) f j, i ≤ j → runs (holds c) ((if b then cmod p f else mret tt) ≫= λ _, mret (inl j))
    (λ (r : Z + Z) s, somewhere s ∧ match r with inl i' => i ≤ i' | inr _ => True end)).
  { intros b f j Hj. eapply runs_bind; [apply hold_cmod_if|]. intros ?. by apply Hret. }
  repeat first
    [ apply Hend | apply Hret; lia | apply Hif; lia | eapply hold_lift; [eassumption|]; cbv zeta
    | match goal with |- runs _ (if ?b then _ else _) _ => destruct b end ].
  eapply runs_bind; [apply hold_cmod|]. intros ?.
  destruct (_ <? _); [apply Hend|apply Hret; lia].
Qed.

(** Whatever the bytes, an option returns, having moved on, or reads past the
    array. *)
Definition outcome {A} (good : A → Prop) (m : M ST A) : Prop :=
  ∀ s, somewhere s → (∃ a s', m s = Ok (a, s') ∧ somewhere s' ∧ good a) ∨ m s = Segv.

Lemma outcome_bind {A B} (good : B → Prop) (m : M ST A) (k : A → M ST B) :
  outcome (λ _, True) m → (∀ a, outcome good (k a)) → outcome good (m ≫= k).
Proof.
  intros Hm Hk s Hs. unfold mbind, M_bind. destruct (Hm s Hs) as [(a & s' & -> & Hs' & _)| ->]; [by apply Hk|by right].
Qed.
Lemma outcome_ret {A} (good : A → Prop) (a : A) : good a → outcome good (mret a).
Proof. intros Ha s Hs. left. by exists a, s. Qed.
Lemma outcome_cget : outcome (λ _, True) (cget p).
Proof. intros s [c Hc]. left. exists c, s. split; [by apply cget_ok|]. split; [by exists c|done]. Qed.
Lemma outcome_cmod_if (b : bool) f : outcome (λ _, True) (if b then cmod p f else mret tt).
Proof.
  intros s [c Hc]. left. destruct (hold_cmod_if b c f s Hc) as (u & s' & E & Hs'). exists u, s'. split; [done|]. split; [by eexists|done].
Qed.
Lemma outcome_lift {A} (r : res A) : r ≠ Exit → r ≠ NoFuel → outcome (λ _, True) (lift r).
Proof. intros H1 H2 s Hs. unfold lift. destruct r as [a| | |]; [left; by exists a, s|by right|done|done]. Qed.
Lemma outcome_at o i : outcome (λ _, True) (lift (opt_at o i)).
Proof. apply outcome_lift; unfold opt_at; by case_match. Qed.
Lemma outcome_read o i n : outcome (λ _, True) (lift (opt_read o i n)).
Proof. apply outcome_lift; unfold opt_read, read_bytes; by repeat case_match. Qed.

Lemma wide_option_outcome o kind i :
  outcome (λ r : Z + Z, match r with inl j => i ≤ j ≤ i + 9 | inr _ => True end) (wide_option o kind i).
Proof.
  unfold wide_option. apply outcome_bind; [apply outcome_cget|]. intros c. cbv zeta.
  repeat first
    [ match goal with |- outcome _ (mret _) => apply outcome_ret; first [exact I|lia] end
    | match goal with |- outcome _ (if ?b then _ else _) => destruct b end
    | apply outcome_bind; [first [apply outcome_at|apply outcome_read|apply outcome_cmod_if|apply (outcome_cmod_if true)]|intros ?] ].
Qed.

(** The loop ends, and reads past the 40 bytes only by an option with a length
    among the last nine. *)
Definition has_length (kind : Z) : Prop := kind ∈ [TCP_OPT_MSS; TCP_OPT_WS; TCP_OPT_SACK_PERM; TCP_OPT_SACK; TCP_OPT_TS].
Lemma wide_option_kind o kind i :
  ¬ has_length kind → runs somewhere (wide_option o kind i) (λ r s, somewhere s ∧ match r with inl i' => i ≤ i' | inr _ => True end).
Proof.
  intros Hk. unfold has_length in Hk. rewrite !not_elem_of_cons in Hk. destruct Hk as (H1 & H2 & H3 & H4 & H5 & _).
  apply runs_ex. intros c. unfold wide_option. apply hold_cget.
  rewrite (proj2 (Z.eqb_neq kind TCP_OPT_MSS)), (proj2 (Z.eqb_neq kind TCP_OPT_WS)), (proj2 (Z.eqb_neq kind TCP_OPT_SACK_PERM)),
    (proj2 (Z.eqb_neq kind TCP_OPT_SACK)), (proj2 (Z.eqb_neq kind TCP_OPT_TS)) by done.
  repeat match goal with |- runs _ (if ?b then _ else _) _ => destruct b end; apply runs_ret; intros s Hs; (split; [by exists c|]); done.
Qed.

Definition overruns (o : list Z) (opt_len : Z) : Prop :=
  ∃ j kind, 31 ≤ j < opt_len ∧ o !! Z.to_nat j = Some kind ∧ has_length kind.

Lemma wide_loop_cases o opt_len fuel i s :
  0 ≤ i → opt_len ≤ 40 → length o = 40%nat → opt_len - i ≤ Z.of_nat fuel → somewhere s →
  (∃ r s', wide_loop fuel o opt_len i s = Ok (r, s') ∧ somewhere s') ∨ wide_loop fuel o opt_len i s = Segv ∧ overruns o opt_len.
Proof.
  intros Hi Hl Ho. revert i s Hi. induction fuel as [|fuel IH]; intros i s Hi Hf Hs; cbn [wide_loop];
    destruct (Z.ltb_spec i opt_len); try lia; try (left; by exists 1, s).
  destruct (lookup_lt_is_Some_2 o (Z.to_nat i)) as [kind Ek]; [lia|].
  rewrite (bind_ok _ _ _ kind s) by (unfold lift, opt_at; by rewrite Ek).
  assert ((∃ r s', wide_option o kind (i + 1) s = Ok (r, s') ∧ somewhere s' ∧ match r with inl j => i + 1 ≤ j | inr _ => True end)
    ∨ wide_option o kind (i + 1) s = Segv ∧ overruns o opt_len) as [(r & s' & E & Hs' & Hr)|[E Hov]].
  { destruct (decide (i + 1 + 9 ≤ 40)); [|destruct (decide (has_length kind)) as [Hk|Hk]].
    - left. destruct (wide_option_ok o kind (i + 1) ltac:(lia) ltac:(rewrite Ho; lia) s Hs) as (r & s' & E & Hs' & Hr). by exists r, s'.
    - destruct (wide_option_outcome o kind (i + 1) s Hs) as [(r & s' & E & Hs' & Hr)|E]; [left|right].
      + exists r, s'. split_and!; try done. by destruct r; [lia|].
      + split; [done|]. exists i, kind. split_and!; try done; lia.
    - left. destruct (wide_option_kind o kind (i + 1) Hk s Hs) as (r & s' & E & Hs' & Hr). by exists r, s'. }
  - rewrite (bind_ok _ _ _ _ _ E). destruct r as [j|r]; [|left; by exists r, s']. apply IH; [lia..|done].
  - right. split; [|done]. unfold mbind, M_bind. by rewrite E.
Qed.

(** The loop of the code is the one without wrap-around. *)
Lemma options_loop_wide fuel o opt_len i s :
  0 ≤ i ≤ 100 → opt_len ≤ 40 → somewhere s → options_loop fuel p o opt_len i s = wide_loop fuel o opt_len i s.
Proof.
  intros Hi Hl. revert i s Hi. induction fuel as [|fuel IH]; intros i s Hi Hs; cbn [options_loop wide_loop]; [done|].
  destruct (Z.ltb_spec i opt_len); [|done]. unfold lift, mbind, M_bind. destruct (opt_at o i) as [kind| | |]; try done.
  rewrite u8_small by (unfold is_u8; lia). rewrite process_option_wide by lia.
  destruct (wide_option_outcome o kind (i + 1) s Hs) as [(r & s' & -> & Hs' & Hr)| ->]; [|done]. destruct r as [j|r]; [|done]. apply IH; [lia|done].
Qed.

(** ** The options of a SYN *)

(** The bytes at position [length pre]. *)
Lemma opt_at_app pre b post : opt_at (pre ++ b :: post) (Z.of_nat (length pre)) = Ok b.
Proof. unfold opt_at. by rewrite Nat2Z.id, list_lookup_middle. Qed.
Lemma opt_at_next pre a b post : opt_at (pre ++ a :: b :: post) (Z.of_nat (length pre) + 1) = Ok b.
Proof.
  replace (Z.of_nat (length pre) + 1) with (Z.of_nat (length (pre ++ [a]))) by (rewrite length_app; simpl; lia).
  replace (pre ++ a :: b :: post) with ((pre ++ [a]) ++ b :: post) by (by rewrite <- app_assoc). apply opt_at_app.
Qed.
Lemma opt_read_app pre bytes post i n :
  i = Z.of_nat (length pre) → n = Z.of_nat (length bytes) → opt_read (pre ++ bytes ++ post) i n = Ok bytes.
Proof.
  intros -> ->. unfold opt_read. rewrite Nat2Z.id, drop_app_length.
  rewrite read_bytes_some by (rewrite length_app; lia). by rewrite Nat2Z.id, take_app_length.
Qed.

(** One round of the loop: the option [opt] turns [c] into [c']. *)
Definition round (c c' : tcp_conn) (opt : list Z) : Prop := ∀ R opt_len fuel pre post,
  Z.of_nat (length pre) < opt_len →
  runs (holds c') (wide_loop fuel (pre ++ opt ++ post) opt_len (Z.of_nat (length (pre ++ opt)))) R →
  runs (holds c) (wide_loop (S fuel) (pre ++ opt ++ post) opt_len (Z.of_nat (length pre))) R.

Lemma round_intro c c' kind arg :
  (∀ pre post, runs (holds c) (wide_option (pre ++ (kind :: arg) ++ post) kind (Z.of_nat (length pre) + 1))
     (λ r s, r = inl (Z.of_nat (length (pre ++ kind :: arg))) ∧ holds c' s)) →
  round c c' (kind :: arg).
Proof.
  intros Hp R opt_len fuel pre post Hlt Hk. cbn [wide_loop]. rewrite (proj2 (Z.ltb_lt _ _) Hlt).
  eapply hold_lift; [apply opt_at_app|]. eapply runs_bind; [apply Hp|]. intros r. apply runs_pure. by intros ->.
Qed.

Lemma round_nop c : round c c [TCP_OPT_NOP].
Proof.
  apply round_intro. intros pre post. unfold wide_option. apply hold_cget. cbn.
  apply runs_ret. intros s Hs. split; [|done]. rewrite length_app. simpl. f_equal. lia.
Qed.

Lemma round_mss c m :
  is_u16 m → in_setup c = true →
  round c (if m <? c_MSS c then set_MSS m c else c) ([TCP_OPT_MSS; TCP_OPT_MSS_BYTES] ++ le_bytes 2 (htons m)).
Proof.
  intros Hm Hset. apply round_intro. intros pre post. unfold wide_option. apply hold_cget. cbn [Z.eqb Pos.eqb TCP_OPT_MSS TCP_OPT_EOL TCP_OPT_NOP].
  eapply hold_lift; [apply opt_at_next|]. cbv zeta. cbn [Z.eqb Pos.eqb TCP_OPT_MSS_BYTES].
  eapply hold_lift.
  { change (pre ++ _ ++ post) with (pre ++ [2; 4] ++ le_bytes 2 (htons m) ++ post). rewrite app_assoc.
    apply opt_read_app; [rewrite length_app; simpl; lia|done]. }
  rewrite le_value_bytes by apply htons_range. rewrite htons_htons, Hset by done. cbn [andb].
  eapply runs_bind; [apply hold_cmod_if|]. intros []. apply runs_ret. intros s Hs. split; [|done].
  rewrite length_app. simpl. f_equal. lia.
Qed.

Lemma round_sack c :
  in_setup c = true →
  round c (if c_sack_attempt c then set_sack_enabled true c else c) [TCP_OPT_SACK_PERM; TCP_OPT_SACK_PERM_BYTES].
Proof.
  intros Hset. apply round_intro. intros pre post. unfold wide_option. apply hold_cget.
  cbn [Z.eqb Pos.eqb TCP_OPT_MSS TCP_OPT_EOL TCP_OPT_NOP TCP_OPT_WS TCP_OPT_SACK_PERM].
  eapply hold_lift; [apply opt_at_next|]. cbv zeta. rewrite Z.eqb_refl, Hset. cbn [andb].
  eapply runs_bind; [apply hold_cmod_if|]. intros []. apply runs_ret. intros s Hs. split; [|done].
  rewrite length_app. simpl. f_equal. lia.
Qed.

Definition take_ws (ws : Z) (c : tcp_conn) : tcp_conn :=
  if c_wsopt_attempt c && negb (ws =? 0) then
    c |> set_wsopt_enabled true |> set_ws_send (Z.min ws TCP_OPT_WS_MAX) else c.

Lemma round_ws c ws :
  in_setup c = true → round c (take_ws ws c) [TCP_OPT_WS; TCP_OPT_WS_BYTES; ws].
Proof.
  intros Hset. apply round_intro. intros pre post. unfold wide_option. apply hold_cget.
  cbn [Z.eqb Pos.eqb TCP_OPT_MSS TCP_OPT_EOL TCP_OPT_NOP TCP_OPT_WS].
  eapply hold_lift; [apply opt_at_next|]. cbv zeta. rewrite Z.eqb_refl, Hset. cbn [andb].
  eapply hold_lift.
  { replace (pre ++ _ ++ post) with ((pre ++ [TCP_OPT_WS]) ++ TCP_OPT_WS_BYTES :: ws :: post) by (by rewrite <- app_assoc).
    replace (Z.of_nat (length pre) + 1 + 1) with (Z.of_nat (length (pre ++ [TCP_OPT_WS])) + 1)
      by (rewrite length_app; simpl; lia). apply opt_at_next. }
  replace (if ws <? TCP_OPT_WS_MAX then ws else TCP_OPT_WS_MAX) with (Z.min ws TCP_OPT_WS_MAX)
    by (destruct (Z.ltb_spec ws TCP_OPT_WS_MAX); lia).
  eapply runs_bind; [apply hold_cmod_if|]. intros []. apply runs_ret. intros s Hs. split; [|exact Hs].
  rewrite length_app. simpl. f_equal. lia.
Qed.

Lemma round_ts c v e :
  is_u32 v → in_setup c = true → c_ts_rem c ≤ v →
  round c (if c_tsopt_attempt c then set_tsopt_enabled true c else c)
    ([TCP_OPT_TS; TCP_OPT_TS_BYTES] ++ le_bytes 4 (htonl v) ++ [e; e; e; e]).
Proof.
  intros Hv Hset Hrem. apply round_intro. intros pre post. unfold wide_option. apply hold_cget.
  cbn [Z.eqb Pos.eqb TCP_OPT_MSS TCP_OPT_EOL TCP_OPT_NOP TCP_OPT_WS TCP_OPT_SACK_PERM TCP_OPT_SACK TCP_OPT_TS].
  eapply hold_lift; [apply opt_at_next|]. cbv zeta. rewrite Z.eqb_refl, Hset. cbn [andb].
  eapply hold_lift.
  { trans (opt_read ((pre ++ [TCP_OPT_TS; TCP_OPT_TS_BYTES]) ++ le_bytes 4 (htonl v) ++ [e; e; e; e] ++ post)
      (Z.of_nat (length pre) + 1 + 1) 4); [f_equal; by rewrite <- !app_assoc|].
    apply opt_read_app; [rewrite length_app; simpl; lia|done]. }
  eapply hold_lift.
  { trans (opt_read ((pre ++ [TCP_OPT_TS; TCP_OPT_TS_BYTES] ++ le_bytes 4 (htonl v)) ++ [e; e; e; e] ++ post)
      (Z.of_nat (length pre) + 1 + 1 + 4) 4); [f_equal; by rewrite <- !app_assoc|].
    apply opt_read_app; [rewrite length_app; simpl; lia|done]. }
  rewrite le_value_bytes by apply htonl_range. rewrite htonl_htonl by done.
  destruct (Z.ltb_spec v (c_ts_rem c)); [lia|].
  destruct (c_tsopt_attempt c); [eapply runs_bind; [apply hold_cmod|]; intros []|]; apply runs_ret;
    intros s Hs; (split; [|exact Hs]); rewrite length_app; simpl; f_equal; lia.
Qed.

Inductive rounds : tcp_conn → tcp_conn → list (list Z) → Prop :=
| rounds_nil c : rounds c c []
| rounds_cons c1 c2 c3 o os : o ≠ [] → round c1 c2 o → rounds c2 c3 os → rounds c1 c3 (o :: os).

Lemma rounds_app c1 c2 c3 os os' : rounds c1 c2 os → rounds c2 c3 os' → rounds c1 c3 (os ++ os').
Proof. induction 1; simpl; [done|]. intros ?. econstructor; [done..|auto]. Qed.

Lemma rounds_run c c' os fuel pre post opt_len :
  rounds c c' os → (length os ≤ fuel)%nat → opt_len = Z.of_nat (length (pre ++ concat os)) →
  runs (holds c) (wide_loop fuel (pre ++ concat os ++ post) opt_len (Z.of_nat (length pre)))
    (λ r s, r = 1 ∧ holds c' s).
Proof.
  intros Hr. revert fuel pre. induction Hr as [c|c1 c2 c3 o os Hne Ho Hr IH]; intros fuel pre Hf ->.
  - simpl. rewrite app_nil_r. destruct fuel; simpl; rewrite Z.ltb_irrefl; by apply runs_ret.
  - destruct fuel as [|fuel]; simpl in Hf; [lia|]. simpl. rewrite <- app_assoc. apply Ho.
    + rewrite length_app. simpl. rewrite length_app. destruct o; [done|]. simpl. lia.
    + rewrite app_assoc. apply IH; [lia|]. by rewrite <- app_assoc.
Qed.

(** The options of [syn_options], one by one, and what a connection makes of
    them. *)
Definition syn_list (m : Z) (sack ts ws : bool) (now ws_recv : Z) : list (list Z) :=
  let nops := [[TCP_OPT_NOP]; [TCP_OPT_NOP]] in
  [[TCP_OPT_MSS; TCP_OPT_MSS_BYTES] ++ le_bytes 2 (htons m)]
  ++ (if sack then (if ts then [] else nops) ++ [[TCP_OPT_SACK_PERM; TCP_OPT_SACK_PERM_BYTES]] else [])
  ++ (if ts then (if sack then [] else nops)
                 ++ [[TCP_OPT_TS; TCP_OPT_TS_BYTES] ++ le_bytes 4 (htonl (u32 now)) ++ [0; 0; 0; 0]] else [])
  ++ (if ws then [[TCP_OPT_NOP]; [TCP_OPT_WS; TCP_OPT_WS_BYTES; ws_recv]] else []).

Definition agreed (m : Z) (sack ts ws : bool) (ws_recv : Z) (c : tcp_conn) : tcp_conn :=
  let c := if m <? c_MSS c then set_MSS m c else c in
  let c := if sack && c_sack_attempt c then set_sack_enabled true c else c in
  let c := if ts && c_tsopt_attempt c then set_tsopt_enabled true c else c in
  if ws then take_ws ws_recv c else c.

Lemma syn_list_concat m sack ts ws now wr : concat (syn_list m sack ts ws now wr) = syn_options m sack ts ws now wr.
Proof. by destruct sack, ts, ws. Qed.

Lemma rounds_nops c : rounds c c [[TCP_OPT_NOP]; [TCP_OPT_NOP]].
Proof. do 2 (econstructor; [done|apply round_nop|]). constructor. Qed.
Lemma rounds_one c c' o : o ≠ [] → round c c' o → rounds c c' [o].
Proof. intros. econstructor; [done..|constructor]. Qed.

(** Still being set up, with the same time stamp of the peer. *)
Definition still (ts : bool) (now : Z) (c : tcp_conn) : Prop :=
  in_setup c = true ∧ (ts = true → c_ts_rem c ≤ u32 now).
Lemma still_if ts now (b : bool) c c' : still ts now c → still ts now c' → still ts now (if b then c' else c).
Proof. by destruct b. Qed.

Lemma syn_list_rounds m sack ts ws now wr c :
  is_u16 m → still ts now c → rounds c (agreed m sack ts ws wr c) (syn_list m sack ts ws now wr).
Proof.
  intros Hm Hs. unfold agreed, syn_list. cbv zeta.
  eapply rounds_app; [apply rounds_one; [done|apply round_mss; [done|apply Hs]]|].
  pose proof (still_if ts now (m <? c_MSS c) c (set_MSS m c) Hs Hs) as Hs1. revert Hs1. generalize (if m <? c_MSS c then set_MSS m c else c) as c1. intros c1 H1.
  eapply rounds_app with (c2 := if sack && c_sack_attempt c1 then set_sack_enabled true c1 else c1).
  { destruct sack; [|constructor]. eapply rounds_app; [destruct ts; [constructor|apply rounds_nops]|].
    apply rounds_one; [done|]. apply round_sack, H1. }
  pose proof (still_if ts now (sack && c_sack_attempt c1) c1 (set_sack_enabled true c1) H1 H1) as Hs1. revert Hs1. generalize (if sack && c_sack_attempt c1 then set_sack_enabled true c1 else c1) as c2. intros c2 H2.
  eapply rounds_app with (c2 := if ts && c_tsopt_attempt c2 then set_tsopt_enabled true c2 else c2).
  { destruct ts; [|constructor]. eapply rounds_app; [destruct sack; [constructor|apply rounds_nops]|].
    apply rounds_one; [done|]. apply round_ts; [apply u32_range|apply H2|by apply H2]. }
  pose proof (still_if ts now (ts && c_tsopt_attempt c2) c2 (set_tsopt_enabled true c2) H2 H2) as Hs1. revert Hs1. generalize (if ts && c_tsopt_attempt c2 then set_tsopt_enabled true c2 else c2) as c3. intros c3 H3.
  destruct ws; [|constructor]. econstructor; [done|apply round_nop|]. apply rounds_one; [done|]. apply round_ws, H3.
Qed.

End Options.

(** ** Properties *)

(** What the parser of segments leaves: 40 bytes, of which at most 40 are
    options. *)
Lemma parsed_options b len src dst seg :
  parse_seg b len src dst = Ok seg → length (s_options seg) = 40%nat ∧ s_opt_len seg ≤ 40.
Proof.
  unfold parse_seg. destruct (read_tcp b src dst) as [t| | |]; try done. cbv zeta.
  assert (TCP_OPTIONS_BYTES (s_flags t) ≤ 40) as Hb.
  { unfold TCP_OPTIONS_BYTES, TCP_HEADER_WORDS, MIN_TCP_HEADER_WORDS, FLAG_DATAOFFSET. rewrite Z.shiftr_land.
    change (Z.shiftr 61440 12) with (Z.ones 4). rewrite Z.land_ones by lia. pose proof (Z.mod_pos_bound (Z.shiftr (s_flags t) 12) (2 ^ 4)). lia. }
  destruct (Z.ltb_spec 0 (TCP_OPTIONS_BYTES (s_flags t))) as [Hp|Hp].
  - unfold read_bytes at 1. rewrite (proj2 (Z.eqb_neq _ _)) by lia. destruct (Z.leb_spec (TCP_OPTIONS_BYTES (s_flags t)) (Z.of_nat (length (drop 20 b)))); [|done].
    repeat case_match; try done; intros [= <-]; simpl; (split; [|done]); rewrite length_app, length_take, length_replicate; lia.
  - repeat case_match; try done; intros [= <-]; by split.
Qed.

(** C29: option processing terminates.  Whatever the bytes of a received segment,
    the loop of [tcp_process_options], with its position of 8 bits, ends for a
    connection that exists: it returns, or it reads past the array of options.
    The latter happens only with more than 31 bytes of options, by an option
    with a length field that begins in the last nine bytes of the array. *)
Theorem tcp_options_terminate {Q} `{BoundedFifo Q finsFrame} (s : mstate Q tcp_data) p c b len src dst seg :
  parse_seg b len src dst = Ok seg → conns (md s) !! p = Some c →
  (∃ r s', tcp_process_options p seg s = Ok (r, s')) ∨
  tcp_process_options p seg s = Segv ∧ overruns (s_options seg) (s_opt_len seg).
Proof.
  intros [Ho Hl]%parsed_options Hc. unfold tcp_process_options. assert (somewhere p s) as Hs by (by exists c).
  rewrite options_loop_wide by (done || lia).
  destruct (wide_loop_cases p (s_options seg) (s_opt_len seg) (Z.to_nat (s_opt_len seg)) 0 s) as [(r & s' & E & _)|?];
    [lia|done|done|lia|done|left; by exists r, s'|by right].
Qed.

(** C30: the options of a SYN are understood.  The options [tcp_seg_add_options]
    writes for a connection in SYN_SENT are read by [tcp_process_options] of a
    connection being set up without failure: its MSS becomes the smaller of the
    two, and selective acknowledgement, time stamps and window scaling are
    enabled exactly when both sides attempt them (for scaling, with a factor,
    cut at 14). *)
Theorem tcp_options_agree {Q Q'} `{BoundedFifo Q finsFrame} `{BoundedFifo Q' finsFrame} `{Environment}
    (sa : mstate Q tcp_data) (sb : mstate Q' tcp_data) pa pb (a b : tcp_conn) seg :
  conns (md sa) !! pa = Some a → c_state a = TS_SYN_SENT → is_u16 (c_MSS a) →
  conns (md sb) !! pb = Some b → in_setup b = true →
  (c_tsopt_attempt a = true → c_ts_rem b = 0) →
  ∃ seg' sa' sb', tcp_seg_add_options pa seg sa = Ok (seg', sa') ∧
    tcp_process_options pb seg' sb = Ok (1, sb') ∧
    conns (md sb') !! pb = Some (agreed (c_MSS a) (c_sack_attempt a) (c_tsopt_attempt a)
                                   (c_wsopt_attempt a) (c_ws_recv a) b).
Proof.
  intros Ha Hst Hm Hb Hset Hts.
  set (ts := c_tsopt_attempt a). set (now := if ts then (env_clock (clock_calls (md sa))).1 else 0).
  set (o := syn_options (c_MSS a) (c_sack_attempt a) ts (c_wsopt_attempt a) now (c_ws_recv a)).
  assert (∃ sa', tcp_seg_add_options pa seg sa
    = Ok (seg_opts (overwrite o (s_options seg)) (Z.of_nat (length o)) seg, sa')) as [sa' E].
  { unfold tcp_seg_add_options. rewrite (bind_ok _ _ _ a sa) by (by apply cget_ok). rewrite Hst. fold ts.
    subst o now. destruct ts; by eexists. }
  eexists _, sa'. enough (∃ sb', tcp_process_options pb (seg_opts (overwrite o (s_options seg)) (Z.of_nat (length o)) seg) sb
    = Ok (1, sb') ∧ holds pb (agreed (c_MSS a) (c_sack_attempt a) ts (c_wsopt_attempt a) (c_ws_recv a) b) sb')
    as (sb' & E' & Hs') by (exists sb'; split_and!; done).
  unfold tcp_process_options, overwrite. cbn [s_opt_len s_options seg_opts]. subst o. rewrite <- syn_list_concat, Nat2Z.id.
  assert (still ts now b) as Hstill.
  { split; [done|]. intros Ht. rewrite (Hts Ht). apply u32_range. }
  set (os := syn_list _ _ _ _ _ _).
  rewrite options_loop_wide; [|lia|subst os; by destruct (c_sack_attempt a), ts, (c_wsopt_attempt a)|by exists b].
  destruct (rounds_run pb b _ os (length (concat os)) [] (drop (length (concat os)) (s_options seg))
    (Z.of_nat (length (concat os)))
    (syn_list_rounds pb (c_MSS a) (c_sack_attempt a) ts (c_wsopt_attempt a) now (c_ws_recv a) b Hm
       Hstill) ltac:(subst os; by destruct (c_sack_attempt a), ts, (c_wsopt_attempt a); simpl; lia)
    eq_refl sb Hb) as (r & sb' & E' & -> & Hs').
  by exists sb'.
Qed.

(** A client that offers everything, and a connection of a server that takes
    window scaling and time stamps. *)
Definition demo_offer : tcp_conn :=
  tcp_conn_init 10 5000 20 80 1400 |> set_state TS_SYN_SENT |> set_sack_attempt true
    |> set_tsopt_attempt true |> set_wsopt_attempt true.
Definition demo_taker : tcp_conn :=
  tcp_conn_init 20 80 10 5000 1460 |> set_state TS_SYN_RECV
    |> set_tsopt_attempt true |> set_wsopt_attempt true.

(** A received segment with these options. *)
Definition demo_option_bytes (words : Z) (o : list Z) : list Z := replicate 12 0 ++ [16 * words; 0] ++ replicate 6 0 ++ o.
(** Witness of C29: broken options are skipped; a length field behind the last of
    40 bytes is read past the end of the array. *)
Lemma tcp_options_terminate_witness :
  let s := demo_module (demo_data [(1, demo_taker)] [1] [] 2) in
  match parse_seg (demo_option_bytes 7 [TCP_OPT_MSS; 7; TCP_OPT_TS; 9; 250; 0; 0; 0]) 28 10 20,
        parse_seg (demo_option_bytes 15 (replicate 39 TCP_OPT_NOP ++ [TCP_OPT_MSS])) 60 10 20 with
  | Ok seg, Ok seg' =>
      ((∃ r s', tcp_process_options 1 seg s = Ok (r, s')) ∨
         tcp_process_options 1 seg s = Segv ∧ overruns (s_options seg) (s_opt_len seg)) ∧
      tcp_process_options 1 seg' s = Segv
  | _, _ => False
  end.
Proof.
  intros s. destruct (parse_seg (demo_option_bytes 7 _) _ _ _) as [seg| | |] eqn:E; [|vm_compute in E; discriminate..].
  destruct (parse_seg (demo_option_bytes 15 _) _ _ _) as [seg'| | |] eqn:E'; [|vm_compute in E'; discriminate..].
  split; [exact (tcp_options_terminate s 1 demo_taker _ _ _ _ seg E eq_refl)|].
  vm_compute in E'. injection E' as <-. vm_compute. reflexivity.
Defined.

(** Witness of C30. *)
Lemma tcp_options_agree_witness :
  ∃ seg' sa' sb',
    tcp_seg_add_options (H0 := demo_env) 1 (tcp_seg_create 10 5000 20 80 0 0)
      (demo_module (demo_data [(1, demo_offer)] [1] [] 2)) = Ok (seg', sa') ∧
    tcp_process_options 1 seg' (demo_module (demo_data [(1, demo_taker)] [1] [] 2)) = Ok (1, sb') ∧
    conns (md sb') !! 1 = Some (demo_taker |> set_MSS 1400 |> set_tsopt_enabled true
                                  |> set_wsopt_enabled true |> set_ws_send 2).
Proof.
  refine (tcp_options_agree (H1 := demo_env) (demo_module (demo_data [(1, demo_offer)] [1] [] 2))
    (demo_module (demo_data [(1, demo_taker)] [1] [] 2)) 1 1 demo_offer demo_taker _ _ _ _ _ _ _); try reflexivity.
  vm_compute. split; [discriminate|reflexivity].
Defined.
