(* ===== verification/Rtm.v ===== *)
(** * The real-time manager ([modules/rtm])

    Consoles connect over a socket and send commands, which the manager turns
    into control frames for the other modules; the replies go back to the
    console that asked, alerts to the consoles that listen.  [rtm.c] holds the
    sockets and the replies, [rtm_process.c] the commands.  The parameters of a
    module are its knobs, a libconfig tree. *)

From stdpp Require Import base list gmap strings pretty.
From Stdlib Require Import ZArith Lia Ascii.
From S2P Require Import Prelude Queue Metadata Frame Module.
Open Scope Z_scope.
Open Scope fins_scope.

Definition MAX_CONSOLES := 20.
Definition MAX_COMMANDS := 40.
Definition MAX_CMD_LEN := 500.
Definition MAX_WORDS := 500%nat.
Definition RTM_TYPE_CONSOLE := 1.
Definition RTM_TYPE_LISTENER := 2.
Definition RTM_TYPE_DUAL := 3.
Definition META_TYPE_INT32 := CONFIG_TYPE_INT.
Definition META_TYPE_INT64 := CONFIG_TYPE_INT64.
Definition META_TYPE_FLOAT := CONFIG_TYPE_FLOAT.
Definition META_TYPE_STRING := CONFIG_TYPE_STRING.
Definition PARAM_ID : string := "info___id".
Definition PARAM_TYPE : string := "info___type".

(** ** Knobs *)

Inductive knob :=
| KGroup (members : list (string * knob))
| KInt (v : Z)
| KInt64 (v : Z)
| KOther.

Fixpoint knob_search (l : list (string * knob)) (name : string) : option knob :=
  match l with
  | [] => None
  | (k, e) :: l => if config_name_compare name k then Some e else knob_search l name
  end.
(** [config_setting_get_member]. *)
Definition knob_member (e : knob) (name : string) : option knob :=
  match e with KGroup l => knob_search l name | _ => None end.
(** [config_setting_lookup_int]. *)
Definition knob_int (e : knob) (name : string) : option Z :=
  match knob_member e name with
  | Some (KInt v) => Some v
  | Some (KInt64 v) => Some (if (INT32_MAX <? v) || (v <? INT32_MIN) then 0 else v)
  | _ => None
  end.
(** [secure_config_setting_add], which ends the process when it fails. *)
Definition knob_add (l : list (string * knob)) (name : string) (e : knob) : res (list (string * knob)) :=
  if negb (config_validate_name name) then Exit
  else match knob_search l name with Some _ => Exit | None => Ok (l ++ [(name, e)]) end.
Definition elem_add_param (l : list (string * knob)) (param_str : string) (param_id param_type : Z) :
    res (list (string * knob)) :=
  knob_add l param_str (KGroup [(PARAM_ID, KInt param_id); (PARAM_TYPE, KInt param_type)]).
Fixpoint add_params (l : list (string * knob)) (ps : list (string * Z * Z)) : res (list (string * knob)) :=
  match ps with
  | [] => Ok l
  | (str, id, type) :: ps =>
      match elem_add_param l str id type with
      | Ok l => add_params l ps
      | Segv => Segv | Exit => Exit | NoFuel => NoFuel
      end
  end.

(** A module as the manager sees it. *)
Record rtm_module := MkRMod { rm_name : string; rm_knobs : knob }.

(** ** Words *)

Fixpoint match_module_from (i : Z) (mods : list (option rtm_module)) (word : string) : Z :=
  match mods with
  | [] => -1
  | m :: mods =>
      match m with
      | Some m => if String.eqb word (rm_name m) then i else match_module_from (i + 1) mods word
      | None => match_module_from (i + 1) mods word
      end
  end.
Definition match_module (mods : list (option rtm_module)) (word : string) : Z :=
  if String.eqb word "all" then MAX_MODULES else match_module_from 0 mods word.

(** [strchr(word, '=')]. *)
Fixpoint has_equals (w : string) : bool :=
  match w with EmptyString => false | String c w => Ascii.eqb c "=" || has_equals w end.
Fixpoint walk_params (e : knob) (path : list string) : option knob :=
  match path with
  | [] => Some e
  | w :: path =>
      if String.eqb PARAM_ID w || String.eqb PARAM_TYPE w || has_equals w then None
      else match knob_member e w with Some e => walk_params e path | None => None end
  end.
(** [path] are the words from [INDEX_PARAM] to [path_end]; [op] is the name of
    an operation, which [config_lookup] finds as a member of the root. *)
Definition match_params (params : knob) (op : string) (path : list string) : option knob :=
  match knob_member params op with Some e => walk_params e path | None => None end.

(** The words of a line that [strtok_r] separates at blanks. *)
Fixpoint tok (s : string) : string * list string :=
  match s with
  | EmptyString => (EmptyString, [])
  | String c s =>
      let '(w, ws) := tok s in
      if Ascii.eqb c " " then (EmptyString, if String.eqb w "" then ws else w :: ws) else (String c w, ws)
  end.
Definition strtok (s : string) : list string :=
  let '(w, ws) := tok s in if String.eqb w "" then ws else w :: ws.

(** Bytes as a C string, up to the first NUL, and back. *)
Fixpoint c_string (b : list Z) : string :=
  match b with
  | [] => EmptyString
  | x :: b => if x =? 0 then EmptyString else String (ascii_of_N (Z.to_N x)) (c_string b)
  end.
Fixpoint text_bytes (s : string) : list Z :=
  match s with EmptyString => [] | String c s => Z.of_N (N_of_ascii c) :: text_bytes s end.

(** [sscanf] with [%d] and [%lld]: blanks, a sign, digits; the number is
    limited to 64 bits, then cut to its type. *)
Definition is_space (c : ascii) : bool :=
  let n := N_of_ascii c in (n =? 32)%N || ((9 <=? n)%N && (n <=? 13)%N).
Definition digit (c : ascii) : Z := Z.of_N (N_of_ascii c) - 48.
Fixpoint scan_digits (s : string) (acc : Z) : Z :=
  match s with
  | String c s' => if isdigit c then scan_digits s' (10 * acc + digit c) else acc
  | EmptyString => acc
  end.
Definition scan_unsigned (s : string) : option Z :=
  match s with
  | String c _ => if isdigit c then Some (scan_digits s 0) else None
  | EmptyString => None
  end.
Fixpoint skip_space (s : string) : string :=
  match s with String c s' => if is_space c then skip_space s' else s | EmptyString => s end.
Definition scan_number (s : string) : option Z :=
  match skip_space s with
  | String c s' =>
      if Ascii.eqb c "-" then Z.opp <$> scan_unsigned s'
      else if Ascii.eqb c "+" then scan_unsigned s'
      else scan_unsigned (String c s')
  | EmptyString => None
  end.
Definition clamp64 (v : Z) : Z := Z.max (-9223372036854775808) (Z.min v 9223372036854775807).
Definition scan_d (s : string) : option Z := (λ v, s32 (clamp64 v)) <$> scan_number s.
Definition scan_lld (s : string) : option Z := clamp64 <$> scan_number s.

(** ** State *)

Record rtm_console := MkConsole { co_id : Z; co_fd : Z; co_type : Z; co_listeners : metadata }.
Definition set_co_type (t : Z) (c : rtm_console) : rtm_console := MkConsole (co_id c) (co_fd c) t (co_listeners c).
Definition set_co_listeners (m : metadata) (c : rtm_console) : rtm_console := MkConsole (co_id c) (co_fd c) (co_type c) m.

(** [words_num] is the length of [cm_words]; the text of the command is only
    printed. *)
Record rtm_command := MkCmd {
  cm_id : Z; cm_console_id : Z; cm_words : list string; cm_mod : Z; cm_serial_num : Z; cm_op : Z;
  cm_param_id : Z; cm_param_str : string; cm_param_type : Z
}.

(** [r_in] is what can be read from each descriptor, [r_out] what was written to
    them, in order. *)
Record rtm_data := MkRtm {
  r_modules : list (option rtm_module); r_fds : list Z; r_consoles : list rtm_console; r_console_counter : Z;
  r_cmds : list rtm_command; r_cmd_counter : Z; r_interrupt : bool;
  r_in : gmap Z (list Z); r_out : list (Z * list Z); r_ticks : nat
}.
Definition put_r_modules (l : list (option rtm_module)) (d : rtm_data) : rtm_data :=
  MkRtm l (r_fds d) (r_consoles d) (r_console_counter d) (r_cmds d) (r_cmd_counter d) (r_interrupt d) (r_in d) (r_out d) (r_ticks d).
Definition put_r_consoles (l : list rtm_console) (d : rtm_data) : rtm_data :=
  MkRtm (r_modules d) (r_fds d) l (r_console_counter d) (r_cmds d) (r_cmd_counter d) (r_interrupt d) (r_in d) (r_out d) (r_ticks d).
Definition put_r_fds (l : list Z) (d : rtm_data) : rtm_data :=
  MkRtm (r_modules d) l (r_consoles d) (r_console_counter d) (r_cmds d) (r_cmd_counter d) (r_interrupt d) (r_in d) (r_out d) (r_ticks d).
Definition put_r_console_counter (n : Z) (d : rtm_data) : rtm_data :=
  MkRtm (r_modules d) (r_fds d) (r_consoles d) n (r_cmds d) (r_cmd_counter d) (r_interrupt d) (r_in d) (r_out d) (r_ticks d).
Definition put_r_cmds (l : list rtm_command) (d : rtm_data) : rtm_data :=
  MkRtm (r_modules d) (r_fds d) (r_consoles d) (r_console_counter d) l (r_cmd_counter d) (r_interrupt d) (r_in d) (r_out d) (r_ticks d).
Definition put_r_cmd_counter (n : Z) (d : rtm_data) : rtm_data :=
  MkRtm (r_modules d) (r_fds d) (r_consoles d) (r_console_counter d) (r_cmds d) n (r_interrupt d) (r_in d) (r_out d) (r_ticks d).
Definition put_r_interrupt (b : bool) (d : rtm_data) : rtm_data :=
  MkRtm (r_modules d) (r_fds d) (r_consoles d) (r_console_counter d) (r_cmds d) (r_cmd_counter d) b (r_in d) (r_out d) (r_ticks d).
Definition put_r_in (i : gmap Z (list Z)) (d : rtm_data) : rtm_data :=
  MkRtm (r_modules d) (r_fds d) (r_consoles d) (r_console_counter d) (r_cmds d) (r_cmd_counter d) (r_interrupt d) i (r_out d) (r_ticks d).
Definition put_r_out (o : list (Z * list Z)) (d : rtm_data) : rtm_data :=
  MkRtm (r_modules d) (r_fds d) (r_consoles d) (r_console_counter d) (r_cmds d) (r_cmd_counter d) (r_interrupt d) (r_in d) o (r_ticks d).
Definition put_r_ticks (n : nat) (d : rtm_data) : rtm_data :=
  MkRtm (r_modules d) (r_fds d) (r_consoles d) (r_console_counter d) (r_cmds d) (r_cmd_counter d) (r_interrupt d) (r_in d) (r_out d) n.

(** [gen_control_serial_num]: the counter, which all modules share, is
    incremented and wraps around; [drawn] is its value before. *)
Definition serial_drawn (drawn : Z) : Z := u32 (drawn + 1).

(** How many serial numbers the process has drawn, the results of [write] and
    [read] for a length, those of [poll] for a list of descriptors (with the
    events of each), as functions of the number of answers given so far; and the
    decimal conversion of [sscanf] with [%f]. *)
Class RtmEnv := {
  rtm_drawn : nat → Z; rtm_write : nat → Z → Z; rtm_read : nat → Z → Z;
  rtm_poll : nat → list Z → Z * list Z; scan_f : string → option Z
}.

Definition rtm_serial `{RtmEnv} (n : nat) : Z := serial_drawn (rtm_drawn n).

Definition rtm_cmd_serial_test (serial_num : Z) (c : rtm_command) : bool := cm_serial_num c =? serial_num.
Definition rtm_console_id_test (id : Z) (c : rtm_console) : bool := co_id c =? id.
Definition rtm_console_fd_test (fd : Z) (c : rtm_console) : bool := co_fd c =? fd.

(** [sprintf(buf, "l%u_%d", index, param_id)]. *)
Definition listener_name (index param_id : Z) : string :=
  "l" +:+ pretty (u32 index) +:+ "_" +:+ pretty (s32 param_id).
(** The first of the names that is registered decides. *)
Fixpoint first_listener (m : metadata) (names : list string) : bool :=
  match names with
  | [] => false
  | k :: names =>
      match metadata_readFromElement m k with
      | Some (VInt32 v) => v =? 1
      | Some _ => false
      | None => first_listener m names
      end
  end.
Definition rtm_console_listening_test (index param_id : Z) (c : rtm_console) : bool :=
  if co_type c =? RTM_TYPE_CONSOLE then false
  else first_listener (co_listeners c)
         [ listener_name index param_id; listener_name index (-1); listener_name 32 param_id; listener_name 32 (-1) ].

(** [list_find1] and [list_remove] of what it found. *)
Fixpoint find_first {A} (f : A → bool) (l : list A) : option A :=
  match l with [] => None | a :: l => if f a then Some a else find_first f l end.
Fixpoint remove_first {A} (f : A → bool) (l : list A) : list A :=
  match l with [] => [] | a :: l => if f a then l else a :: remove_first f l end.
Fixpoint update_first {A} (f : A → bool) (g : A → A) (l : list A) : list A :=
  match l with [] => [] | a :: l => if f a then g a :: l else a :: update_first f g l end.

Section Rtm.
Context {Q : Type} `{BoundedFifo Q finsFrame} `{RtmEnv}.
Abbreviation ST := (mstate Q rtm_data) (only parsing).

Definition rget : M ST rtm_data := s ← get; mret (md s).
Definition rmod (f : rtm_data → rtm_data) : M ST unit := modify (λ s, set_md (f (md s)) s).
(** The next answer of the operating system. *)
Definition r_ask {A} (f : nat → A) : M ST A :=
  d ← rget; rmod (put_r_ticks (S (r_ticks d))) ;; mret (f (r_ticks d)).

(** ** Messages to and from a console *)

Definition write_console (fd : Z) (b : list Z) : M ST Z :=
  r ← r_ask (λ n, rtm_write n (Z.of_nat (length b)));
  rmod (λ d, put_r_out (r_out d ++ [(fd, take (Z.to_nat r) b)]) d) ;;
  mret r.

(** [buf] are the [buf_len] bytes. *)
Definition rtm_send_fd (fd : Z) (buf : list Z) : M ST Z :=
  r ← write_console fd (le_bytes 4 (Z.of_nat (length buf)));
  if r <=? 0 then mret r
  else if negb (r =? 4) then mret (-1)
  else
    r ← write_console fd buf;
    if r <=? 0 then mret r
    else if negb (u32 r =? Z.of_nat (length buf)) then mret (-1)
    else mret r.

Definition rtm_send_text (fd : Z) (text : string) : M ST Z := rtm_send_fd fd (text_bytes text).
(** The messages are built in arrays of 1000 and 2000 bytes. *)
Definition rtm_send_nack (fd : Z) (cmd : string) : M ST Z :=
  let msg := text_bytes ("Unsupported:'" +:+ cmd +:+ "'") in
  if 1000 <=? Z.of_nat (length msg) then segv else rtm_send_fd fd msg.
Definition rtm_send_error (fd : Z) (text buf : string) : M ST Z :=
  let msg := text_bytes (text +:+ ":'" +:+ buf +:+ "'") in
  if 2000 <=? Z.of_nat (length msg) then segv else rtm_send_fd fd msg.

(** [read(fd, _, len)]; a socket without bytes is waited for. *)
Definition read_console (fd len : Z) : M ST (Z * list Z) :=
  d ← rget;
  match default [] (r_in d !! fd) with
  | [] => nofuel
  | b =>
      r ← r_ask (λ n, rtm_read n len);
      rmod (λ d, put_r_in (<[fd := drop (Z.to_nat r) b]> (r_in d)) d) ;;
      mret (r, take (Z.to_nat r) b)
  end.

(** The number that is returned, and the bytes that are in the buffer then. *)
Definition rtm_recv_fd (fd buf_len : Z) : M ST (Z * list Z) :=
  r ← read_console fd 4;
  if r.1 <=? 0 then mret (r.1, [])
  else
    let msg_len := le_value r.2 in
    if negb (r.1 =? 4) || (buf_len <? msg_len) then mret (-1, [])
    else if msg_len =? 0 then mret (0, [])
    else
      r ← read_console fd msg_len;
      if r.1 <=? 0 then mret (r.1, [])
      else if negb (msg_len =? u32 r.1) then mret (-1, [])
      else mret r.

Definition rtm_send_fcf (cmd : rtm_command) (meta : metadata) : M ST unit :=
  s ← get;
  module_to_switch (MkFrame (cm_mod cmd) (Some meta)
    (Ctrl (MkCtrl (u8 (m_index (fm s))) (cm_serial_num cmd) (cm_op cmd) (cm_param_id cmd) 0 0 CNull))).

(** ** Commands *)

Definition op_strs : list string :=
  ["help"; "exec"; "get"; "set"; "pause"; "unpause"; "link"; "unlink"; "load"; "unload"; "replace"; "shutdown"; "listen"; "console"].
Definition op_info : list string :=
  [ "Documentation on available operations and their usage."; "Execute a procedure for one or all of the modules.";
    "Get the value of a parameter or sub-parameter for a module."; "Set the value of a parameter or sub-parameter for a module.";
    "Pause one or all the modules."; "Un-pause one or all the modules."; "todo"; "todo"; "todo"; "todo"; "todo"; "todo";
    "Register/unregister to listen for alerts and push them to the console."; "todo" ].
Definition OP_EXEC_USAGE : string := "exec <module> <procedure> [<param1>=<value1>]".
Definition OP_GET_USAGE : string := "get <module> <param> [<subparam> [<subsubparam>]]".
Definition OP_SET_USAGE : string := "set <module> <param> [<subparam> [<subsubparam>]] <value>".
Definition OP_LISTEN_USAGE : string := "listen [all|<module>] [all|<param>] [0|1]".
Definition OP_CONSOLE_USAGE : string := "console <attribute> <value>".
Definition op_usages : list string :=
  [ "help <operation>"; OP_EXEC_USAGE; OP_GET_USAGE; OP_SET_USAGE; "pause [all|<module>]"; "unpause [all|<module>]";
    "link"; "unlink"; "load <library>"; "unload <module>"; "replace <module>"; "shutdown"; OP_LISTEN_USAGE; OP_CONSOLE_USAGE ].
(** The first message of [rtm_process_help]. *)
Definition help_text : string :=
  "Available operations:" +:+ " " +:+ String.concat ", " op_strs.

Fixpoint find_op (i : nat) (ops : list string) (word : string) : option nat :=
  match ops with
  | [] => None
  | o :: ops => if String.eqb word o then Some i else find_op (S i) ops word
  end.

(** A word that the command lacks is NULL. *)
Definition word (cmd : rtm_command) (i : nat) : M ST string :=
  match cm_words cmd !! i with Some w => mret w | None => segv end.
Definition words_num (cmd : rtm_command) : nat := length (cm_words cmd).
(** The words from [INDEX_PARAM] to [path_end]. *)
Definition param_path (cmd : rtm_command) (path_end : nat) : list string := drop 2 (take path_end (cm_words cmd)).

Definition say (co : rtm_console) (text : string) : M ST unit := rtm_send_text (co_fd co) text ;; mret tt.
Definition complain (co : rtm_console) (text buf : string) : M ST unit := rtm_send_error (co_fd co) text buf ;; mret tt.

Definition rtm_process_help (co : rtm_console) (cmd : rtm_command) : M ST unit :=
  if (words_num cmd =? 1)%nat then say co help_text
  else
    w ← word cmd 1;
    match (if (words_num cmd =? 2)%nat then find_op 0 op_strs w else None) with
    | Some i => say co (default "" (op_info !! i) +:+ String "010" ("Usage:" +:+ default "" (op_usages !! i)))
    | None => complain co "See 'help', unsupported operation" w
    end.

(** What [rtm_process_exec], [rtm_process_get] and [rtm_process_set] do to find
    the parameter: the module, the number and the type of the parameter, or
    None after an error was reported.  The table of the modules is indexed with
    the number of the module, which is behind its end for "all". *)
Definition find_param (co : rtm_console) (cmd : rtm_command) (path_end : nat) : M ST (option (Z * Z * Z)) :=
  d ← rget;
  w ← word cmd 1;
  op ← word cmd 0;
  let modi := match_module (r_modules d) w in
  if modi =? -1 then complain co "Unknown module" w ;; mret None
  else
    match r_modules d !! Z.to_nat modi with
    | Some (Some m) =>
        match match_params (rm_knobs m) op (param_path cmd path_end) with
        | None => say co "Unknown parameter" ;; mret None
        | Some param =>
            match knob_int param PARAM_ID, knob_int param PARAM_TYPE with
            | Some id, Some type => mret (Some (modi, id, type))
            | _, _ => say co "error" ;; exit_
            end
        end
    | _ => segv
    end.

(** The command with what was found; [param_str] is the last word of the path. *)
Definition fill_cmd (cmd : rtm_command) (modi op id type : Z) (path_end : nat) : M ST rtm_command :=
  serial_num ← r_ask rtm_serial;
  str ← word cmd (path_end - 1);
  mret (MkCmd (cm_id cmd) (cm_console_id cmd) (cm_words cmd) modi serial_num op (u32 id) str (u32 type)).

Definition send_cmd (cmd : rtm_command) (meta : metadata) : M ST unit :=
  rtm_send_fcf cmd meta ;;
  rmod (λ d, if Z.of_nat (length (r_cmds d)) <? MAX_COMMANDS then put_r_cmds (r_cmds d ++ [cmd]) d else d).

Definition rtm_process_exec (co : rtm_console) (cmd : rtm_command) : M ST unit :=
  if (words_num cmd <? 3)%nat then say co ("Incorrect usage:" +:+ OP_EXEC_USAGE)
  else
    r ← find_param co cmd 3;
    match r with
    | None => mret tt
    | Some (modi, id, type) => cmd ← fill_cmd cmd modi CTRL_EXEC id type 3; send_cmd cmd metadata_create
    end.

Definition rtm_process_get (co : rtm_console) (cmd : rtm_command) : M ST unit :=
  if (words_num cmd <? 3)%nat then say co ("Incorrect usage:" +:+ OP_GET_USAGE)
  else
    r ← find_param co cmd (words_num cmd);
    match r with
    | None => mret tt
    | Some (modi, id, type) => cmd ← fill_cmd cmd modi CTRL_READ_PARAM id type (words_num cmd); send_cmd cmd metadata_create
    end.

(** The value of a [set] command, of the type of the parameter. *)
Definition scan_value (type : Z) (w : string) : res (mvalue + string) :=
  if type =? META_TYPE_INT32 then
    match scan_d w with Some v => Ok (inl (VInt32 v)) | None => Ok (inr "Incorrect value format, expected int32_t") end
  else if type =? META_TYPE_INT64 then
    match scan_lld w with Some v => Ok (inl (VInt64 v)) | None => Ok (inr "Incorrect value format, expected int64_t") end
  else if type =? META_TYPE_FLOAT then
    match scan_f w with Some v => Ok (inl (VFloat v)) | None => Ok (inr "Incorrect value format, expected float") end
  else if type =? META_TYPE_STRING then Ok (inl (VString (Some w)))
  else Exit.

Definition rtm_process_set (co : rtm_console) (cmd : rtm_command) : M ST unit :=
  if (words_num cmd <? 4)%nat then say co ("Incorrect usage:" +:+ OP_SET_USAGE)
  else
    r ← find_param co cmd (words_num cmd - 1);
    match r with
    | None => mret tt
    | Some (modi, id, type) =>
        cmd ← fill_cmd cmd modi CTRL_SET_PARAM id type (words_num cmd - 1);
        w ← word cmd (words_num cmd - 1);
        v ← lift (scan_value type w);
        match v with
        | inr text => say co text
        | inl v =>
            m ← lift (match secure_metadata_writeToElement "value" v metadata_create with
                      | Ok (_, m) => Ok m | Segv => Segv | Exit => Exit | NoFuel => NoFuel end);
            send_cmd cmd m
        end
    end.

Definition rtm_process_pause (co : rtm_console) (cmd : rtm_command) : M ST unit := say co "todo".
Definition rtm_process_unpause (co : rtm_console) (cmd : rtm_command) : M ST unit := say co "todo".
Definition rtm_process_link (co : rtm_console) (cmd : rtm_command) : M ST unit := say co "todo".
Definition rtm_process_unlink (co : rtm_console) (cmd : rtm_command) : M ST unit := say co "todo".
Definition rtm_process_load (co : rtm_console) (cmd : rtm_command) : M ST unit := say co "todo".
Definition rtm_process_unload (co : rtm_console) (cmd : rtm_command) : M ST unit := say co "todo".
Definition rtm_process_replace (co : rtm_console) (cmd : rtm_command) : M ST unit := say co "todo".
Definition rtm_process_shutdown (co : rtm_console) (cmd : rtm_command) : M ST unit := say co "todo".

(** The console is the first of the list with its descriptor. *)
Definition upd_console (co : rtm_console) (f : rtm_console → rtm_console) : M ST unit :=
  rmod (λ d, put_r_consoles (update_first (rtm_console_fd_test (co_fd co)) f (r_consoles d)) d).

Definition listen_value (co : rtm_console) (cmd : rtm_command) (modi id : Z) : M ST unit :=
  w ← word cmd (words_num cmd - 1);
  match scan_d w with
  | None => say co "Incorrect value format, expected int32_t"
  | Some v =>
      if negb (v =? 1) && negb (v =? 0) then say co "Incorrect value: expected 1 (enabled) or 0 (disabled)"
      else
        m ← lift (match secure_metadata_writeToElement (listener_name modi id) (VInt32 v) (co_listeners co) with
                  | Ok (_, m) => Ok m | Segv => Segv | Exit => Exit | NoFuel => NoFuel end);
        upd_console co (set_co_listeners m) ;;
        say co "successful"
  end.

Definition rtm_process_listen (co : rtm_console) (cmd : rtm_command) : M ST unit :=
  if (words_num cmd <? 4)%nat then say co ("Incorrect usage:" +:+ OP_LISTEN_USAGE)
  else
    d ← rget;
    w ← word cmd 1;
    op ← word cmd 0;
    p ← word cmd 2;
    let modi := match_module (r_modules d) w in
    if modi =? -1 then complain co "Unknown module" w
    else if String.eqb p "all" then listen_value co cmd modi (-1)
    else
      match r_modules d !! Z.to_nat modi with
      | Some (Some m) =>
          match match_params (rm_knobs m) op (param_path cmd (words_num cmd - 1)) with
          | None => say co "Unknown parameter"
          | Some param =>
              match knob_int param PARAM_ID with
              | Some id => listen_value co cmd modi id
              | None => say co "error" ;; exit_
              end
          end
      | _ => segv
      end.

Definition rtm_process_console (co : rtm_console) (cmd : rtm_command) : M ST unit :=
  if (words_num cmd <? 3)%nat then say co ("Incorrect usage:" +:+ OP_CONSOLE_USAGE)
  else
    attr ← word cmd 1;
    if String.eqb attr "type" then
      w ← word cmd (words_num cmd - 1);
      match scan_d w with
      | None => say co "Incorrect value format, expected int32_t"
      | Some v =>
          if (v =? RTM_TYPE_CONSOLE) || (v =? RTM_TYPE_LISTENER) || (v =? RTM_TYPE_DUAL) then
            upd_console co (set_co_type (u8 v)) ;; say co "successful"
          else say co "Incorrect value: expected 1 (console), 2 (listener), or 3 (dual)"
      end
    else complain co "Unknown attribute" attr.

Definition op_funcs (i : nat) : rtm_console → rtm_command → M ST unit :=
  match i with
  | 0 => rtm_process_help | 1 => rtm_process_exec | 2 => rtm_process_get | 3 => rtm_process_set
  | 4 => rtm_process_pause | 5 => rtm_process_unpause | 6 => rtm_process_link | 7 => rtm_process_unlink
  | 8 => rtm_process_load | 9 => rtm_process_unload | 10 => rtm_process_replace | 11 => rtm_process_shutdown
  | 12 => rtm_process_listen | _ => rtm_process_console
  end%nat.

(** The text is copied to an array of [MAX_CMD_LEN] bytes of zeroes, in which
    [strtok_r] reads up to a NUL; a line without a word is compared as NULL. *)
Definition rtm_process_cmd (co : rtm_console) (cmd_buf : list Z) : M ST unit :=
  let s := c_string cmd_buf in
  d ← rget;
  rmod (put_r_cmd_counter (u32 (r_cmd_counter d + 1))) ;;
  if MAX_CMD_LEN <=? Z.of_nat (String.length s) then segv
  else
    let words := take MAX_WORDS (strtok s) in
    let cmd := MkCmd (r_cmd_counter d) (co_id co) words 0 0 0 0 "" 0 in
    op ← word cmd 0;
    match find_op 0 op_strs op with
    | Some i => op_funcs i co cmd
    | None => complain co "See 'help', unsupported operation" op
    end.

(** ** Replies and alerts *)

(** The value of a reply as text, by the type of the parameter; a value of
    another type is stored through a pointer of the wrong type.  Metadata reads
    no floats.  The text is printed into an array of 100 bytes. *)
Definition value_string (type : Z) (v : option mvalue) : res string :=
  if type =? META_TYPE_INT32 then
    match v with None => Exit | Some (VInt32 v) => Ok (pretty (s32 v)) | Some _ => Segv end
  else if type =? META_TYPE_INT64 then
    match v with None => Exit | Some (VInt64 v) => Ok (pretty v) | Some _ => Segv end
  else if type =? META_TYPE_FLOAT then
    match v with None => Exit | Some _ => Segv end
  else if type =? META_TYPE_STRING then
    match v with None => Exit | Some (VString (Some v)) => Ok ("'" +:+ v +:+ "'") | Some _ => Segv end
  else Exit.
Definition value_text (cmd : rtm_command) (m : metadata) : res string :=
  match value_string (cm_param_type cmd) (metadata_readFromElement m "value") with
  | Ok t =>
      let t := "'" +:+ cm_param_str cmd +:+ "'=" +:+ t in
      if 100 <=? Z.of_nat (String.length t) then Segv else Ok t
  | Segv => Segv | Exit => Exit | NoFuel => NoFuel
  end.

Definition say_error (co : rtm_console) (ff : finsFrame) : M ST unit :=
  ret_msg ← ff_read ff "ret_msg";
  say co ("unsuccessful, returned error=" +:+ pretty ret_msg).

(** The command with the number of the reply is removed and its console, if it
    is still there, gets [answer]; the frame is not freed then. *)
Definition reply_cmd (ff : finsFrame) (answer : rtm_console → rtm_command → M ST unit) : M ST unit :=
  c ← ff_ctrl ff;
  d ← rget;
  match find_first (rtm_cmd_serial_test (serial_num c)) (r_cmds d) with
  | None => free_ff ff
  | Some cmd =>
      rmod (λ d, put_r_cmds (remove_first (rtm_cmd_serial_test (serial_num c)) (r_cmds d)) d) ;;
      match find_first (rtm_console_id_test (cm_console_id cmd)) (r_consoles d) with
      | None => mret tt
      | Some co => if ret_val c =? FCF_TRUE then answer co cmd else say_error co ff
      end
  end.

Definition rtm_read_param_reply (ff : finsFrame) : M ST unit :=
  reply_cmd ff (λ co cmd, m ← ff_meta ff; text ← lift (value_text cmd m); say co text).
Definition rtm_set_param_reply (ff : finsFrame) : M ST unit := reply_cmd ff (λ co cmd, say co "successful").
(** Neither frees the frame nor takes the command off the list. *)
Definition rtm_exec_reply (ff : finsFrame) : M ST unit := mret tt.

Definition alert_bytes (c : finsCtrlFrame) : res (list Z) :=
  match cdata c with CBytes b => read_bytes (Some b) (data_len c) | CNull => read_bytes None (data_len c) | _ => Segv end.
Fixpoint push_alert (c : finsCtrlFrame) (cos : list rtm_console) : M ST unit :=
  match cos with
  | [] => mret tt
  | co :: cos => b ← lift (alert_bytes c); rtm_send_fd (co_fd co) b ;; push_alert c cos
  end.
(** The byte [sender_id] is read as 32 bits; the bytes behind it are padding,
    which [secure_malloc] has zeroed. *)
Definition rtm_alert (ff : finsFrame) : M ST unit :=
  c ← ff_ctrl ff;
  d ← rget;
  push_alert c (List.filter (rtm_console_listening_test (sender_id c) (param_id c)) (r_consoles d)) ;;
  free_ff ff.

Definition RTM_SET_PARAM_FLOWS := 0.
Definition RTM_SET_PARAM_LINKS := 1.
Definition RTM_SET_PARAM_DUAL := 2.
Definition rtm_set_param (ff : finsFrame) : M ST unit :=
  c ← ff_ctrl ff;
  if param_id c =? RTM_SET_PARAM_FLOWS then module_set_param_flows ff
  else if param_id c =? RTM_SET_PARAM_LINKS then module_set_param_links ff
  else if param_id c =? RTM_SET_PARAM_DUAL then module_set_param_dual ff
  else module_reply_fcf ff FCF_FALSE 0.

Definition rtm_fcf (ff : finsFrame) : M ST unit :=
  c ← ff_ctrl ff;
  if opcode c =? CTRL_ALERT then rtm_alert ff
  else if opcode c =? CTRL_ALERT_REPLY then free_ff ff
  else if opcode c =? CTRL_READ_PARAM then module_reply_fcf ff FCF_FALSE 0
  else if opcode c =? CTRL_READ_PARAM_REPLY then rtm_read_param_reply ff
  else if opcode c =? CTRL_SET_PARAM then rtm_set_param ff
  else if opcode c =? CTRL_SET_PARAM_REPLY then rtm_set_param_reply ff
  else if opcode c =? CTRL_EXEC then module_reply_fcf ff FCF_FALSE 0
  else if opcode c =? CTRL_EXEC_REPLY then rtm_exec_reply ff
  else if opcode c =? CTRL_ERROR then free_ff ff
  else exit_.

(** The loop waits until there is a frame or an interrupt, which does nothing. *)
Fixpoint rtm_get_ff (events : nat) : M ST unit :=
  match events with
  | O => nofuel
  | S events =>
      r ← read_input;
      s ← get;
      if decide (m_state (fm s) = FMS_RUNNING) then
        match r with
        | Some ff => frame_dispatch rtm_fcf free_ff free_ff ff
        | None => if r_interrupt (md s) then rmod (put_r_interrupt false) else rtm_get_ff events
        end
      else match r with Some ff => free_ff ff | None => mret tt end
  end.

(** ** Consoles *)

Fixpoint fill_slot (fd : Z) (fds : list Z) : list Z :=
  match fds with
  | [] => []
  | x :: fds => if x =? 0 then fd :: fds else x :: fill_slot fd fds
  end.
(** A round of [accept_console] in which [accept] has returned [console_fd]. *)
Definition accept_console (console_fd : Z) : M ST unit :=
  d ← rget;
  if Z.of_nat (length (r_consoles d)) <? MAX_CONSOLES then
    if console_fd <? 0 then mret tt
    else
      rmod (λ d, d |> put_r_console_counter (u32 (r_console_counter d + 1))
                   |> put_r_consoles (r_consoles d ++ [MkConsole (r_console_counter d) console_fd RTM_TYPE_CONSOLE metadata_create])
                   |> put_r_fds (fill_slot console_fd (r_fds d)))
  else mret tt.

(** [POLLIN] 1, [POLLPRI] 2, [POLLERR] 8, [POLLHUP] 16, [POLLNVAL] 32,
    [POLLRDNORM] 64, [POLLRDBAND] 128. *)
Definition has_event (revents mask : Z) : bool := negb (Z.land revents mask =? 0).
Definition drop_console (i : nat) (fd : Z) : M ST unit :=
  rmod (λ d, d |> put_r_consoles (remove_first (rtm_console_fd_test fd) (r_consoles d)) |> put_r_fds (<[i := 0]> (r_fds d))).
Definition poll_one (i : nat) (fd revents : Z) : M ST unit :=
  if (0 <? fd) && (0 <? revents) then
    d ← rget;
    match find_first (rtm_console_fd_test fd) (r_consoles d) with
    | None => mret tt
    | Some co =>
        if has_event revents 40 then drop_console i fd
        else if has_event revents 16 then drop_console i fd
        else if has_event revents 195 then
          r ← rtm_recv_fd (co_fd co) MAX_CMD_LEN;
          if u32 r.1 =? 4294967295 then mret tt else rtm_process_cmd co r.2
        else mret tt
    end
  else mret tt.
Fixpoint poll_all (i : nat) (fds revents : list Z) : M ST unit :=
  match fds, revents with
  | fd :: fds, ev :: revents => poll_one i fd ev ;; poll_all (S i) fds revents
  | _, _ => mret tt
  end.

(** A round of [console_to_rtm]: None when the loop is left, otherwise the
    events of the [MAX_CONSOLES] entries of [poll_fds] afterwards.  As many
    entries are polled as there are consoles; the events of the others are those
    of an earlier round. *)
Definition console_to_rtm (revents : list Z) : M ST (option (list Z)) :=
  s ← get;
  if decide (m_state (fm s) = FMS_RUNNING) then
    let d := md s in
    let poll_num := length (r_consoles d) in
    if (0 <? poll_num)%nat then
      let fds := (λ fd, if fd =? 0 then -1 else fd) <$> r_fds d in
      r ← r_ask (λ n, rtm_poll n (take poll_num fds));
      let revents := take poll_num (r.2 ++ replicate poll_num 0) ++ drop poll_num revents in
      if r.1 <? 0 then mret None
      else if 0 <? r.1 then poll_all 0 fds revents ;; mret (Some revents)
      else mret (Some revents)
    else mret (Some revents)
  else mret None.

(** ** The table of modules *)

Definition rtm_register_module (index : Z) (m : rtm_module) : M ST Z :=
  if MAX_MODULES <=? index then mret (-1)
  else rmod (λ d, put_r_modules (<[Z.to_nat index := Some m]> (r_modules d)) d) ;; mret 0.
(** The index may be one behind the table. *)
Definition rtm_unregister_module (index : Z) : M ST Z :=
  if (index <? 0) || (MAX_MODULES <? index) then mret 0
  else if MAX_MODULES =? index then segv
  else rmod (λ d, put_r_modules (<[Z.to_nat index := None]> (r_modules d)) d) ;; mret 1.

End Rtm.
