(* ===== verification/RtmFacts.v ===== *)
(** * Facts on the manager: words and numbers, replies, listeners *)

From stdpp Require Import base list gmap strings pretty.
From Stdlib Require Import ZArith Lia Ascii.
From S2P Require Import Prelude Queue Metadata Frame Module Run Rtm.
Open Scope Z_scope.
Open Scope fins_scope.

(** ** Characters *)

Fixpoint all_chars (p : ascii → bool) (s : string) : bool :=
  match s with EmptyString => true | String c s => p c && all_chars p s end.

Lemma all_chars_app p s t : all_chars p (s +:+ t) = all_chars p s && all_chars p t.
Proof. induction s as [|c s IH]; [done|]. cbn [all_chars String.append]. change (String c s +:+ t) with (String c (s +:+ t)). cbn [all_chars]. by rewrite IH, andb_assoc. Qed.
Lemma all_chars_mono (p q : ascii → bool) s : (∀ c, p c = true → q c = true) → all_chars p s = true → all_chars q s = true.
Proof. intros Hpq. induction s as [|c s IH]; [done|]. cbn [all_chars]. intros [Hc Hs]%andb_true_iff. by rewrite (Hpq _ Hc), IH. Qed.

(** A decimal number consists of digits. *)
Lemma pretty_N_char_digit x : isdigit (pretty_N_char x) = true.
Proof. destruct x as [|p]; [done|]. do 4 (destruct p as [p|p|]; try reflexivity). Qed.
Lemma pretty_N_go_digits x s : all_chars isdigit s = true → all_chars isdigit (pretty_N_go x s) = true.
Proof.
  revert s. induction (N.lt_wf_0 x) as [x _ IH]; intros s Hs. destruct (decide (x = 0%N)) as [->|Hx]; [by rewrite pretty_N_go_0|].
  rewrite pretty_N_go_step by lia. apply IH; [apply N.div_lt; lia|]. cbn [all_chars]. by rewrite pretty_N_char_digit.
Qed.
Lemma pretty_N_digits (x : N) : all_chars isdigit (pretty x) = true.
Proof. unfold pretty, pretty_N. case_decide; [done|]. by apply pretty_N_go_digits. Qed.

Definition num_char (c : ascii) : bool := isdigit c || Ascii.eqb c "-".
Lemma pretty_Z_chars (v : Z) : all_chars num_char (pretty v) = true.
Proof.
  assert (∀ n : N, all_chars num_char (pretty n) = true) as Hn.
  { intros n. eapply all_chars_mono; [|apply pretty_N_digits]. intros c Hc. unfold num_char. by rewrite Hc. }
  destruct v as [|p|p]; [done|apply Hn|]. change (pretty (Z.neg p)) with (String "-" (pretty (N.pos p))). cbn [all_chars]. by rewrite Hn.
Qed.

Lemma pretty_N_go_ne x s : s ≠ "" → pretty_N_go x s ≠ "".
Proof.
  revert s. induction (N.lt_wf_0 x) as [x _ IH]; intros s Hs. destruct (decide (x = 0%N)) as [->|Hx]; [by rewrite pretty_N_go_0|].
  rewrite pretty_N_go_step by lia. apply IH; [apply N.div_lt; lia|done].
Qed.
Lemma pretty_N_ne (x : N) : pretty x ≠ "".
Proof.
  unfold pretty, pretty_N. case_decide; [done|]. rewrite pretty_N_go_step by lia. by apply pretty_N_go_ne.
Qed.
Lemma pretty_Z_ne (v : Z) : pretty v ≠ "".
Proof. destruct v as [|p|p]; [done|apply (pretty_N_ne (N.pos p))|done]. Qed.

(** An [int] has at most eleven characters. *)
Lemma pretty_N_go_length k x s : (x < 10 ^ N.of_nat k)%N → (String.length (pretty_N_go x s) ≤ k + String.length s)%nat.
Proof.
  revert x s. induction k as [|k IH]; intros x s Hx; destruct (decide (x = 0%N)) as [->|H0]; try (rewrite pretty_N_go_0; lia).
  - change (10 ^ N.of_nat 0)%N with 1%N in Hx. lia.
  - rewrite pretty_N_go_step by lia. etrans; [apply IH|simpl; lia].
    rewrite Nat2N.inj_succ, N.pow_succ_r' in Hx. apply N.Div0.div_lt_upper_bound. lia.
Qed.
Lemma pretty_N_length k (x : N) : (x < 10 ^ N.of_nat (S k))%N → (String.length (pretty x) ≤ S k)%nat.
Proof. intros Hx. unfold pretty, pretty_N. case_decide; [simpl; lia|]. etrans; [by apply pretty_N_go_length|simpl; lia]. Qed.
Lemma pretty_Z_length (v : Z) : -2147483648 ≤ v < 2147483648 → (String.length (pretty v) ≤ 11)%nat.
Proof.
  intros Hv. destruct v as [|p|p]; [simpl; lia| |].
  - etrans; [apply (pretty_N_length 9 (N.pos p))|lia]. change (10 ^ N.of_nat 10)%N with 10000000000%N. lia.
  - change (pretty (Z.neg p)) with (String "-" (pretty (N.pos p))). cbn [String.length]. apply le_n_S. apply (pretty_N_length 9).
    change (10 ^ N.of_nat 10)%N with 10000000000%N. lia.
Qed.
Lemma string_length_app s t : String.length (s +:+ t) = (String.length s + String.length t)%nat.
Proof. induction s as [|c s IH]; [done|]. change (String c s +:+ t) with (String c (s +:+ t)). cbn [String.length]. by rewrite IH. Qed.

(** ** Numbers are read as they are printed *)

Lemma digit_char x : (x < 10)%N → digit (pretty_N_char x) = Z.of_N x.
Proof. intros Hx. destruct x as [|p]; [done|]. do 4 (destruct p as [p|p|]; try reflexivity; try lia). Qed.

Lemma scan_digits_go x s : scan_digits (pretty_N_go x s) 0 = scan_digits s (Z.of_N x).
Proof.
  revert s. induction (N.lt_wf_0 x) as [x _ IH]; intros s. destruct (decide (x = 0%N)) as [->|Hx]; [by rewrite pretty_N_go_0|].
  rewrite pretty_N_go_step by lia. rewrite IH by (apply N.div_lt; lia). cbn [scan_digits]. rewrite pretty_N_char_digit.
  f_equal. rewrite digit_char by (apply N.mod_lt; lia). pose proof (N.div_mod x 10). lia.
Qed.

Lemma scan_unsigned_pretty (x : N) : scan_unsigned (pretty x) = Some (Z.of_N x).
Proof.
  pose proof (pretty_N_ne x) as Hne. pose proof (pretty_N_digits x) as Hd.
  assert (scan_digits (pretty x) 0 = Z.of_N x) as E.
  { unfold pretty, pretty_N. case_decide as Hx; [by subst|]. by rewrite scan_digits_go. }
  unfold scan_unsigned. destruct (pretty x) as [|c s]; [done|]. cbn [all_chars] in Hd. apply andb_true_iff in Hd as [Hc _]. by rewrite Hc, E.
Qed.

Lemma digit_no_space c : num_char c = true → is_space c = false.
Proof. destruct c as [[] [] [] [] [] [] [] []]; by vm_compute. Qed.
Lemma digit_no_sign c : isdigit c = true → Ascii.eqb c "-" = false ∧ Ascii.eqb c "+" = false.
Proof. destruct c as [[] [] [] [] [] [] [] []]; by vm_compute. Qed.

Lemma scan_number_pretty (v : Z) : scan_number (pretty v) = Some v.
Proof.
  assert (∀ n : N, scan_number (pretty n) = Some (Z.of_N n)) as Hn.
  { intros n. pose proof (scan_unsigned_pretty n) as E. pose proof (pretty_N_digits n) as Hd. unfold scan_number.
    destruct (pretty n) as [|c s] eqn:Ep; [done|]. cbn [all_chars] in Hd. apply andb_true_iff in Hd as [Hc _]. cbn [skip_space].
    rewrite digit_no_space by (unfold num_char; by rewrite Hc). destruct (digit_no_sign c Hc) as [-> ->]. exact E. }
  destruct v as [|p|p]; [done|exact (Hn (N.pos p))|]. change (pretty (Z.neg p)) with (String "-" (pretty (N.pos p))).
  unfold scan_number. cbn [skip_space]. change (is_space "-") with false. cbv iota. change (Ascii.eqb "-" "-") with true. cbv iota.
  by rewrite scan_unsigned_pretty.
Qed.

Definition is_int32 (v : Z) : Prop := -2147483648 ≤ v < 2147483648.
Lemma s32_int32 v : is_int32 v → s32 v = v.
Proof. intros Hv. unfold is_int32 in Hv. unfold s32. rewrite Z.mod_small; lia. Qed.
Lemma scan_d_pretty v : is_int32 v → scan_d (pretty v) = Some v.
Proof.
  intros Hv. unfold scan_d. rewrite scan_number_pretty. simpl. f_equal. unfold is_int32 in Hv.
  replace (clamp64 v) with v by (unfold clamp64; lia). by apply s32_int32.
Qed.

(** ** Words *)

Definition word_char (c : ascii) : bool := negb (Ascii.eqb c " ") && negb (Ascii.eqb c zero).
Record word_ok (w : string) : Prop := { wo_ne : w ≠ ""; wo_chars : all_chars word_char w = true }.

Lemma num_word c : num_char c = true → word_char c = true.
Proof. destruct c as [[] [] [] [] [] [] [] []]; by vm_compute. Qed.
Lemma pretty_word (v : Z) : word_ok (pretty v).
Proof. split; [apply pretty_Z_ne|]. eapply all_chars_mono; [apply num_word|apply pretty_Z_chars]. Qed.

Lemma tok_word w s : all_chars word_char w = true → tok (w +:+ String " " s) = (w, strtok s).
Proof.
  induction w as [|c w IH]; intros Hw.
  - change ("" +:+ String " " s) with (String " " s). cbn [tok]. unfold strtok. by destruct (tok s) as [w ws].
  - cbn [all_chars] in Hw. apply andb_true_iff in Hw as [[Hb _]%andb_true_iff Hw]. change (String c w +:+ String " " s) with (String c (w +:+ String " " s)).
    cbn [tok]. rewrite (IH Hw). by rewrite (proj1 (negb_true_iff _) Hb).
Qed.
Lemma tok_last w : all_chars word_char w = true → tok w = (w, []).
Proof.
  induction w as [|c w IH]; intros Hw; [done|]. cbn [all_chars] in Hw. apply andb_true_iff in Hw as [[Hb _]%andb_true_iff Hw].
  cbn [tok]. rewrite (IH Hw). by rewrite (proj1 (negb_true_iff _) Hb).
Qed.
Lemma eqb_ne w : w ≠ "" → String.eqb w "" = false.
Proof. intros Hw. by apply String.eqb_neq. Qed.

(** The line of some words is separated into them. *)
Lemma strtok_line ws : Forall word_ok ws → strtok (String.concat " " ws) = ws.
Proof.
  induction 1 as [|w ws [Hne Hc] Hws IH]; [done|]. destruct ws as [|w' ws].
  - cbn [String.concat]. unfold strtok. rewrite (tok_last _ Hc). by rewrite eqb_ne.
  - change (String.concat " " (w :: w' :: ws)) with (w +:+ String " " (String.concat " " (w' :: ws))).
    unfold strtok at 1. rewrite (tok_word _ _ Hc), eqb_ne by done. by rewrite IH.
Qed.

Definition not_nul (c : ascii) : bool := negb (Ascii.eqb c zero).
Lemma c_string_text s : all_chars not_nul s = true → c_string (text_bytes s) = s.
Proof.
  induction s as [|c s IH]; intros Hs; [done|]. cbn [all_chars] in Hs. apply andb_true_iff in Hs as [Hc Hs].
  cbn [text_bytes c_string]. rewrite N2Z.id, ascii_N_embedding, (IH Hs).
  destruct (Z.eqb_spec (Z.of_N (N_of_ascii c)) 0) as [E|E]; [|done]. exfalso. unfold not_nul in Hc.
  assert (N_of_ascii c = 0%N) as E0 by lia. assert (c = zero) as -> by (rewrite <- (ascii_N_embedding c), E0; done). done.
Qed.
Lemma text_bytes_length s : length (text_bytes s) = String.length s.
Proof. induction s as [|c s IH]; [done|]. cbn [text_bytes length String.length]. by rewrite IH. Qed.
Lemma line_not_nul ws : Forall word_ok ws → all_chars not_nul (String.concat " " ws) = true.
Proof.
  assert (∀ w, word_ok w → all_chars not_nul w = true) as Hw.
  { intros w [_ Hw]. eapply all_chars_mono; [|exact Hw]. intros c [_ Hc]%andb_true_iff. exact Hc. }
  induction 1 as [|w ws Hok Hws IH]; [done|]. destruct ws as [|w' ws]; [by apply Hw|].
  change (String.concat " " (w :: w' :: ws)) with (w +:+ String " " (String.concat " " (w' :: ws))).
  rewrite all_chars_app, (Hw _ Hok). exact IH.
Qed.

(** ** Steps of the handlers *)

(** Nothing is read or written in part. *)
Class RtmTransfers `{RtmEnv} : Prop := {
  rt_writes : ∀ n len, 0 < len → rtm_write n len = len;
  rt_reads : ∀ n len, 0 < len → rtm_read n len = len
}.

(** A message in the stream of a console. *)
Definition console_msg (text : string) : list Z := le_bytes 4 (Z.of_nat (String.length text)) ++ text_bytes text.
Definition is_text (text : string) : Prop := text ≠ "" ∧ Z.of_nat (String.length text) < 4294967296.

Definition answer (fd : Z) (text : string) : list (Z * list Z) :=
  [(fd, le_bytes 4 (Z.of_nat (String.length text))); (fd, text_bytes text)].

(** The data after a text was written, and after a message was read. *)
Definition said (fd : Z) (text : string) (d : rtm_data) : rtm_data :=
  put_r_ticks (S (S (r_ticks d))) (put_r_out (r_out d ++ [(fd, le_bytes 4 (Z.of_nat (String.length text))); (fd, text_bytes text)]) d).
Definition heard (fd : Z) (rest' : list Z) (d : rtm_data) : rtm_data :=
  put_r_ticks (S (S (r_ticks d))) (put_r_in (<[fd := rest']> (r_in d)) d).
Definition ticked (d : rtm_data) : rtm_data := put_r_ticks (S (r_ticks d)) d.

Section Steps.
Context {Q : Type} `{BoundedFifo Q finsFrame} `{RtmTransfers}.
Abbreviation ST := (mstate Q rtm_data) (only parsing).
Context (fl : list (Z * Z)) {B : Type} (R : B → ST → Prop) (xs : list finsFrame) (n : nat) (d : rtm_data).

Lemma rt_get (K : rtm_data → M ST B) : runs (rest fl xs n d) (K d) R → runs (rest fl xs n d) (rget ≫= K) R.
Proof. intros HK. unfold rget. apply runs_assoc, rest_get. intros s Hs. by rewrite (rs_md _ _ _ _ _ Hs). Qed.
Lemma rt_mod f (K : unit → M ST B) : runs (rest fl xs n (f d)) (K tt) R → runs (rest fl xs n d) (rmod f ≫= K) R.
Proof. apply rest_modify. Qed.

End Steps.

Section Texts.
Context {Q : Type} `{BoundedFifo Q finsFrame} `{RtmTransfers}.
Abbreviation ST := (mstate Q rtm_data) (only parsing).
Context (fl : list (Z * Z)) {B : Type} (R : B → ST → Prop) (xs : list finsFrame) (n : nat).

Lemma rt_ask {A} d (f : nat → A) (K : A → M ST B) :
  runs (rest fl xs n (ticked d)) (K (f (r_ticks d))) R → runs (rest fl xs n d) (r_ask f ≫= K) R.
Proof. intros HK. unfold r_ask. by apply runs_assoc, rt_get, runs_assoc, rt_mod. Qed.

Lemma rt_write d fd b (K : Z → M ST B) :
  b ≠ [] → runs (rest fl xs n (put_r_out (r_out d ++ [(fd, b)]) (ticked d))) (K (Z.of_nat (length b))) R →
  runs (rest fl xs n d) (write_console fd b ≫= K) R.
Proof.
  intros Hb HK. unfold write_console. apply runs_assoc, rt_ask. rewrite rt_writes by (destruct b; simpl; [done|lia]).
  apply runs_assoc, rt_mod. by rewrite Nat2Z.id, take_ge by lia.
Qed.

Lemma rt_send d fd b (K : Z → M ST B) :
  b ≠ [] → Z.of_nat (length b) < 4294967296 →
  runs (rest fl xs n (put_r_ticks (S (S (r_ticks d))) (put_r_out (r_out d ++ [(fd, le_bytes 4 (Z.of_nat (length b))); (fd, b)]) d)))
    (K (Z.of_nat (length b))) R →
  runs (rest fl xs n d) (rtm_send_fd fd b ≫= K) R.
Proof.
  intros Hb Hl HK. unfold rtm_send_fd. apply runs_assoc, rt_write; [done|]. rewrite le_bytes_length. change (Z.of_nat 4 <=? 0) with false.
  change (Z.of_nat 4 =? 4) with true. cbn [negb]. cbv iota. apply runs_assoc, rt_write; [done|].
  assert (0 < Z.of_nat (length b)) by (destruct b; simpl; [done|lia]). rewrite (proj2 (Z.leb_gt _ _)) by lia.
  unfold u32. rewrite Z.mod_small, Z.eqb_refl by lia. cbn [negb]. apply runs_ret_bind. cbn [r_out put_r_out ticked put_r_ticks].
  by rewrite <- app_assoc.
Qed.

Lemma rt_say d co text (K : unit → M ST B) :
  is_text text → runs (rest fl xs n (said (co_fd co) text d)) (K tt) R → runs (rest fl xs n d) (say co text ≫= K) R.
Proof.
  intros [Hne Hl] HK. unfold say. apply runs_assoc. unfold rtm_send_text. rewrite <- text_bytes_length in Hl.
  apply rt_send; [by destruct text|done|]. apply runs_ret_bind. by rewrite text_bytes_length.
Qed.

Lemma rt_read_con d fd len b rest' (K : Z * list Z → M ST B) :
  r_in d !! fd = Some (b ++ rest') → b ≠ [] → len = Z.of_nat (length b) →
  runs (rest fl xs n (put_r_in (<[fd := rest']> (r_in d)) (ticked d))) (K (len, b)) R →
  runs (rest fl xs n d) (read_console fd len ≫= K) R.
Proof.
  intros Ei Hb -> HK. unfold read_console. apply runs_assoc, rt_get. rewrite Ei. simpl default.
  destruct (b ++ rest') as [|x l] eqn:El; [by destruct b|]. rewrite <- El. clear El.
  apply runs_assoc, rt_ask. rewrite rt_reads by (destruct b; simpl; [done|lia]). apply runs_assoc, rt_mod, runs_ret_bind.
  by rewrite Nat2Z.id, drop_app_length, take_app_length.
Qed.

(** A message of a console is received. *)
Lemma rt_recv_con d fd text rest' (K : Z * list Z → M ST B) :
  r_in d !! fd = Some (console_msg text ++ rest') → text ≠ "" → Z.of_nat (String.length text) ≤ MAX_CMD_LEN →
  runs (rest fl xs n (heard fd rest' d)) (K (Z.of_nat (String.length text), text_bytes text)) R →
  runs (rest fl xs n d) (rtm_recv_fd fd MAX_CMD_LEN ≫= K) R.
Proof.
  intros Ei Hne Hl HK. unfold MAX_CMD_LEN in Hl. unfold console_msg in Ei. rewrite <- app_assoc in Ei. set (len := Z.of_nat (String.length text)) in *.
  assert (0 < len) as H0' by (destruct text; simpl in *; [done|lia]).
  unfold rtm_recv_fd. apply runs_assoc. eapply rt_read_con; [exact Ei|done|done|]. cbn [fst snd]. change (4 <=? 0) with false. cbv iota.
  rewrite le_value_bytes by (change (256 ^ Z.of_nat 4) with 4294967296; lia). change (4 =? 4) with true. cbn [negb orb].
  rewrite (proj2 (Z.ltb_ge _ _)), (proj2 (Z.eqb_neq len 0)) by (unfold MAX_CMD_LEN; lia). apply runs_assoc.
  eapply rt_read_con; [apply lookup_insert_eq|by destruct text|by rewrite text_bytes_length|]. cbn [fst snd].
  rewrite (proj2 (Z.leb_gt _ _)) by lia. unfold u32. rewrite Z.mod_small, Z.eqb_refl by lia. cbn [negb]. apply runs_ret_bind.
  cbn [r_in put_r_in ticked put_r_ticks]. rewrite insert_insert_eq. exact HK.
Qed.

(** A line of a console is a command. *)
Lemma rt_poll d i fd co op ws j rest' (K : unit → M ST B) :
  0 < fd → find_first (rtm_console_fd_test fd) (r_consoles d) = Some co → co_fd co = fd →
  Forall word_ok (op :: ws) → Z.of_nat (String.length (String.concat " " (op :: ws))) < MAX_CMD_LEN → (S (length ws) ≤ MAX_WORDS)%nat →
  find_op 0 op_strs op = Some j → r_in d !! fd = Some (console_msg (String.concat " " (op :: ws)) ++ rest') →
  runs (rest fl xs n (put_r_cmd_counter (u32 (r_cmd_counter d + 1)) (heard fd rest' d)))
    (op_funcs j co (MkCmd (r_cmd_counter d) (co_id co) (op :: ws) 0 0 0 0 "" 0) ≫= K) R →
  runs (rest fl xs n d) (poll_one i fd 1 ≫= K) R.
Proof.
  intros Hfd Hco Eco Hws Hl Hmw Hj Ei HK. unfold poll_one. rewrite (proj2 (Z.ltb_lt 0 fd) Hfd). change (0 <? 1) with true. cbn [andb].
  apply runs_assoc, rt_get. rewrite Hco. change (has_event 1 40) with false. change (has_event 1 16) with false. change (has_event 1 195) with true. cbv iota.
  set (text := String.concat " " (op :: ws)) in *. assert (text ≠ "") as Hne.
  { pose proof (strtok_line _ Hws) as E. fold text in E. intros E0. rewrite E0 in E. done. }
  rewrite Eco. apply runs_assoc. eapply rt_recv_con; [exact Ei|exact Hne|lia|]. cbn [fst snd].
  unfold MAX_CMD_LEN in Hl. unfold u32 at 1. rewrite Z.mod_small, (proj2 (Z.eqb_neq _ _)) by lia.
  unfold rtm_process_cmd. rewrite c_string_text by (by apply line_not_nul). apply runs_assoc, rt_get, runs_assoc, rt_mod.
  rewrite (proj2 (Z.leb_gt _ _)) by (unfold MAX_CMD_LEN; lia). unfold text. rewrite (strtok_line _ Hws), take_ge by (simpl; lia).
  apply runs_assoc. unfold word at 1. cbn [cm_words lookup list_lookup]. apply runs_ret_bind. rewrite Hj. exact HK.
Qed.

End Texts.

(** ** Requests and replies *)

Lemma find_first_last {A} (f : A → bool) l x : Forall (λ a, f a = false) l → f x = true → find_first f (l ++ [x]) = Some x.
Proof. intros Hl Hx. induction Hl as [|a l Ha Hl IH]; simpl; [by rewrite Hx|by rewrite Ha]. Qed.
Lemma remove_first_last {A} (f : A → bool) l x : Forall (λ a, f a = false) l → f x = true → remove_first f (l ++ [x]) = l.
Proof. intros Hl Hx. induction Hl as [|a l Ha Hl IH]; simpl; [by rewrite Hx|by rewrite Ha, IH]. Qed.
Lemma find_first_none {A} (f : A → bool) l : Forall (λ a, f a = false) l → find_first f l = None.
Proof. intros Hl. induction Hl as [|a l Ha Hl IH]; simpl; [done|by rewrite Ha]. Qed.

(** The frame of a command. *)
Definition request_frame (ix : Z) (cmd : rtm_command) (m : metadata) : finsFrame :=
  MkFrame (cm_mod cmd) (Some m) (Ctrl (MkCtrl ix (cm_serial_num cmd) (cm_op cmd) (cm_param_id cmd) 0 0 CNull)).
Definition filled (cmd : rtm_command) (modi serial op id : Z) (str : string) (type : Z) : rtm_command :=
  MkCmd (cm_id cmd) (cm_console_id cmd) (cm_words cmd) modi serial op (u32 id) str (u32 type).
Definition asked (cmd : rtm_command) (d : rtm_data) : rtm_data :=
  if Z.of_nat (length (r_cmds d)) <? MAX_COMMANDS then put_r_cmds (r_cmds d ++ [cmd]) d else d.

(** The parameter that the words of a command name. *)
Record names_param (d : rtm_data) (op name : string) (path : list string) (modi id type : Z) : Prop := {
  np_mod : match_module (r_modules d) name = modi;
  np_known : ∃ m e, r_modules d !! Z.to_nat modi = Some (Some m) ∧ match_params (rm_knobs m) op path = Some e ∧
    knob_int e PARAM_ID = Some id ∧ knob_int e PARAM_TYPE = Some type;
  np_pos : 0 ≤ modi
}.

Section Requests.
Context {Q : Type} `{BoundedFifo Q finsFrame} `{RtmTransfers}.
Abbreviation ST := (mstate Q rtm_data) (only parsing).
Context (fl : list (Z * Z)) {B : Type} (R : B → ST → Prop) (xs : list finsFrame).

Lemma rt_word n d cmd i w (K : string → M ST B) :
  cm_words cmd !! i = Some w → runs (rest fl xs n d) (K w) R → runs (rest fl xs n d) (word cmd i ≫= K) R.
Proof. intros E HK. unfold word. rewrite E. by apply runs_ret_bind. Qed.

Lemma rt_find n d co cmd op name path path_end modi id type (K : option (Z * Z * Z) → M ST B) :
  cm_words cmd !! 0%nat = Some op → cm_words cmd !! 1%nat = Some name → param_path cmd path_end = path →
  names_param d op name path modi id type →
  runs (rest fl xs n d) (K (Some (modi, id, type))) R → runs (rest fl xs n d) (find_param co cmd path_end ≫= K) R.
Proof.
  intros E0 E1 Ep [Hm (m & e & Em & Ee & Ei & Et) Hpos] HK. unfold find_param. apply runs_assoc, rt_get, runs_assoc.
  eapply rt_word; [exact E1|]. apply runs_assoc. eapply rt_word; [exact E0|]. rewrite Hm, (proj2 (Z.eqb_neq _ _)) by lia.
  rewrite Em, Ep, Ee, Ei, Et. by apply runs_ret_bind.
Qed.

Lemma rt_fill n d cmd modi op id type path_end str (K : rtm_command → M ST B) :
  cm_words cmd !! (path_end - 1)%nat = Some str →
  runs (rest fl xs n (ticked d)) (K (filled cmd modi (rtm_serial (r_ticks d)) op id str type)) R →
  runs (rest fl xs n d) (fill_cmd cmd modi op id type path_end ≫= K) R.
Proof. intros E HK. unfold fill_cmd. apply runs_assoc, rt_ask, runs_assoc. eapply rt_word; [exact E|]. by apply runs_ret_bind. Qed.

Lemma rt_send_cmd n d cmd m (K : unit → M ST B) :
  (∀ ix, runs (rest fl (xs ++ [request_frame ix cmd m]) n (asked cmd d)) (K tt) R) →
  runs (rest fl xs (S n) d) (send_cmd cmd m ≫= K) R.
Proof.
  intros HK. unfold send_cmd. apply runs_assoc. unfold rtm_send_fcf. apply runs_assoc, rest_get. intros s Hs.
  apply rest_switch, rt_mod. apply HK.
Qed.

Lemma rt_process_get n d co cmd op name path str modi id type (K : unit → M ST B) :
  cm_words cmd = op :: name :: path ++ [str] → names_param d op name (path ++ [str]) modi id type →
  (∀ ix, let c := filled cmd modi (rtm_serial (r_ticks d)) CTRL_READ_PARAM id str type in
     runs (rest fl (xs ++ [request_frame ix c metadata_create]) n (asked c (ticked d))) (K tt) R) →
  runs (rest fl xs (S n) d) (rtm_process_get co cmd ≫= K) R.
Proof.
  intros Ew Hn HK. assert (words_num cmd = 3 + length path)%nat as El by (unfold words_num; rewrite Ew; simpl; rewrite length_app; simpl; lia).
  unfold rtm_process_get. rewrite (proj2 (Nat.ltb_ge _ _)) by lia. apply runs_assoc.
  eapply rt_find; [by rewrite Ew|by rewrite Ew| |exact Hn|].
  { unfold param_path, words_num. by rewrite take_ge, Ew by lia. }
  apply runs_assoc. eapply (rt_fill _ _ _ _ _ _ _ _ str).
  { rewrite Ew, El. replace (3 + length path - 1)%nat with (S (S (length path))) by lia. simpl. by apply list_lookup_middle. }
  by apply rt_send_cmd.
Qed.

Lemma rt_process_exec n d co cmd op name str ws modi id type (K : unit → M ST B) :
  cm_words cmd = op :: name :: str :: ws → names_param d op name [str] modi id type →
  (∀ ix, let c := filled cmd modi (rtm_serial (r_ticks d)) CTRL_EXEC id str type in
     runs (rest fl (xs ++ [request_frame ix c metadata_create]) n (asked c (ticked d))) (K tt) R) →
  runs (rest fl xs (S n) d) (rtm_process_exec co cmd ≫= K) R.
Proof.
  intros Ew Hn HK. unfold rtm_process_exec, words_num. rewrite Ew. cbn [length]. change (S (S (S (length ws))) <? 3)%nat with false. cbv iota.
  apply runs_assoc. eapply rt_find; [by rewrite Ew|by rewrite Ew| |exact Hn|].
  { unfold param_path. by rewrite Ew. }
  apply runs_assoc. eapply (rt_fill _ _ _ _ _ _ _ _ str); [by rewrite Ew|]. by apply rt_send_cmd.
Qed.

Lemma rt_process_set n d co cmd op name path str w modi id type v m (K : unit → M ST B) :
  cm_words cmd = op :: name :: path ++ [str; w] → names_param d op name (path ++ [str]) modi id type →
  scan_value type w = Ok (inl v) → secure_metadata_writeToElement "value" v metadata_create = Ok (tt, m) →
  (∀ ix, let c := filled cmd modi (rtm_serial (r_ticks d)) CTRL_SET_PARAM id str type in
     runs (rest fl (xs ++ [request_frame ix c m]) n (asked c (ticked d))) (K tt) R) →
  runs (rest fl xs (S n) d) (rtm_process_set co cmd ≫= K) R.
Proof.
  intros Ew Hn Hv Hm HK. assert (words_num cmd = 4 + length path)%nat as El by (unfold words_num; rewrite Ew; simpl; rewrite length_app; simpl; lia).
  unfold rtm_process_set. rewrite (proj2 (Nat.ltb_ge _ _)) by lia. apply runs_assoc.
  eapply rt_find; [by rewrite Ew|by rewrite Ew| |exact Hn|].
  { unfold param_path. rewrite El, Ew. replace (4 + length path - 1)%nat with (S (S (S (length path)))) by lia. cbn [take drop firstn skipn].
    change [str; w] with ([str] ++ [w]). rewrite (app_assoc path [str] [w]), take_app_le by (rewrite length_app; simpl; lia). by rewrite take_ge by (rewrite length_app; simpl; lia). }
  apply runs_assoc. rewrite El. eapply (rt_fill _ _ _ _ _ _ _ _ str).
  { rewrite Ew. replace (4 + length path - 1 - 1)%nat with (S (S (length path))) by lia. simpl. by apply list_lookup_middle. }
  apply runs_assoc. eapply (rt_word _ _ _ _ w).
  { unfold words_num, filled. cbn [cm_words]. rewrite Ew. simpl length. rewrite length_app. simpl.
    replace (length path + 2)%nat with (S (S (length path))) by lia. simpl. rewrite lookup_app_r by lia. by rewrite Nat.sub_succ_l, Nat.sub_diag by lia. }
  apply runs_assoc. eapply rest_lift; [exact Hv|]. cbv beta iota. apply runs_assoc. eapply rest_lift; [by rewrite Hm|]. by apply rt_send_cmd.
Qed.

(** The reply to the command asked last. *)
Lemma rt_reply_last n d ff c cmds cmd co answer (K : unit → M ST B) :
  body ff = Ctrl c → r_cmds d = cmds ++ [cmd] → cm_serial_num cmd = serial_num c →
  Forall (λ a, rtm_cmd_serial_test (serial_num c) a = false) cmds →
  find_first (rtm_console_id_test (cm_console_id cmd)) (r_consoles d) = Some co → ret_val c = FCF_TRUE →
  runs (rest fl xs n (put_r_cmds cmds d)) (answer co cmd ≫= K) R → runs (rest fl xs n d) (reply_cmd ff answer ≫= K) R.
Proof.
  intros Hb Ec Es Hf Hco Hrv HK. unfold reply_cmd. apply runs_assoc. eapply rest_ctrl; [exact Hb|]. apply runs_assoc, rt_get. rewrite Ec.
  assert (rtm_cmd_serial_test (serial_num c) cmd = true) as Ht by (unfold rtm_cmd_serial_test; by apply Z.eqb_eq).
  rewrite (find_first_last _ _ _ Hf Ht). apply runs_assoc, rt_mod. rewrite Ec, (remove_first_last _ _ _ Hf Ht), Hco, Hrv. exact HK.
Qed.

(** A reply to no command. *)
Lemma rt_reply_none n d ff c answer (K : unit → M ST B) :
  body ff = Ctrl c → Forall (λ a, rtm_cmd_serial_test (serial_num c) a = false) (r_cmds d) →
  runs (rest fl xs n d) (K tt) R → runs (rest fl xs n d) (reply_cmd ff answer ≫= K) R.
Proof.
  intros Hb Hf HK. unfold reply_cmd. apply runs_assoc. eapply rest_ctrl; [exact Hb|]. apply runs_assoc, rt_get.
  rewrite (find_first_none _ _ Hf). apply rest_free; [by rewrite Hb|]. exact HK.
Qed.

End Requests.

(** ** A concrete manager *)

Definition demo_rtm_env : RtmEnv :=
  {| rtm_drawn n := 99 + Z.of_nat n; rtm_write _ len := len; rtm_read _ len := len; rtm_poll _ fds := (1, (λ _, 1) <$> fds); scan_f _ := None |}.
Lemma demo_rtm_transfers : RtmTransfers (H := demo_rtm_env).
Proof. by split. Qed.
(** Module 1. *)
Definition demo_rtm (d : rtm_data) : mstate (QueueRecord finsFrame) rtm_data :=
  MkSt (MkMod FMS_RUNNING 0 1 1 (init_queue 10) (init_queue 90)) (MkTable None 0 []) d (MkStore ∅ 1) [] 0.
Lemma demo_rtm_rest d n : (n ≤ 90)%nat → rest [] [] n d (demo_rtm d).
Proof.
  intros Hn. split; [done| | |].
  - split; simpl; [lia|done|]. intros i f Hi. lia.
  - split; [apply create_qrep; lia|]. simpl. lia.
  - intros f dst Hin. by apply elem_of_nil in Hin.
Qed.
