(* ===== verification/Listeners.v ===== *)
(** * Consoles that listen

    The registrations of a console are integers in its metadata, under names
    made of the numbers of a module and of a parameter.  They behave as a finite
    map, and an alert goes to the consoles whose map says so: the entry for the
    module and the parameter decides, then the one for the module, then the one
    for the parameter, then the one for everything. *)

From stdpp Require Import base list gmap strings pretty.
From Stdlib Require Import ZArith Lia Ascii.
From S2P Require Import Prelude Queue Metadata Frame Module Run Rtm RtmFacts.
Open Scope Z_scope.
Open Scope fins_scope.

(** ** Names *)

Definition no_token (c : ascii) : bool := negb (path_token c).
Lemma compare_eq a b : all_chars no_token a = true → all_chars no_token b = true → config_name_compare a b = String.eqb a b.
Proof.
  revert b. induction a as [|x a IH]; intros [|y b]; cbn [all_chars config_name_compare]; try done.
  - intros _ [Hy _]%andb_true_iff. by apply negb_true_iff in Hy.
  - intros [Hx _]%andb_true_iff _. by apply negb_true_iff in Hx.
  - intros [Hx Ha]%andb_true_iff [Hy Hb]%andb_true_iff. apply negb_true_iff in Hx, Hy. rewrite Hx, Hy. cbn [andb orb].
    rewrite (IH _ Ha Hb). simpl. by destruct (Ascii.eqb x y).
Qed.

Lemma num_no_token c : num_char c = true → no_token c = true.
Proof. destruct c as [[] [] [] [] [] [] [] []]; by vm_compute. Qed.
Lemma listener_chars (q : ascii → bool) a p :
  (∀ c, num_char c = true → q c = true) → q "l"%char = true → q "_"%char = true → all_chars q (listener_name a p) = true.
Proof.
  intros Hq Hl Hb. assert (∀ v : Z, all_chars q (pretty v) = true) as Hv by (intros v; eapply all_chars_mono; [exact Hq|apply pretty_Z_chars]).
  unfold listener_name. rewrite !all_chars_app, !Hv. cbn [all_chars]. by rewrite Hl, Hb.
Qed.
Lemma listener_no_token a p : all_chars no_token (listener_name a p) = true.
Proof. by apply listener_chars; [apply num_no_token|..]. Qed.

Definition name_char (c : ascii) : bool := isalpha c || isdigit c || Ascii.eqb c "*" || Ascii.eqb c "_" || Ascii.eqb c "-".
Lemma name_tail_chars s : name_tail_ok s = all_chars name_char s.
Proof. induction s as [|c s IH]; [done|]. cbn [name_tail_ok all_chars]. by rewrite IH. Qed.
Lemma num_name c : num_char c = true → name_char c = true.
Proof. destruct c as [[] [] [] [] [] [] [] []]; by vm_compute. Qed.
Lemma listener_valid a p : config_validate_name (listener_name a p) = true.
Proof.
  assert (all_chars name_char (listener_name a p) = true) as Hc by (by apply listener_chars; [apply num_name|..]).
  unfold listener_name in *. set (x := pretty (u32 a) +:+ "_" +:+ pretty (s32 p)) in *. change ("l" +:+ x) with (String "l" x) in *.
  cbn [config_validate_name]. rewrite name_tail_chars. cbn [all_chars] in Hc. apply andb_true_iff in Hc as [_ Hc]. by rewrite Hc.
Qed.

(** Two numbers are read off their name. *)
Definition no_bar (c : ascii) : bool := negb (Ascii.eqb c "_").
Lemma num_no_bar c : num_char c = true → no_bar c = true.
Proof. destruct c as [[] [] [] [] [] [] [] []]; by vm_compute. Qed.
Lemma split_bar s t s' t' :
  all_chars no_bar s = true → all_chars no_bar s' = true → s +:+ String "_" t = s' +:+ String "_" t' → s = s' ∧ t = t'.
Proof.
  revert s'. induction s as [|c s IH]; intros [|c' s'] Hs Hs' E.
  - by injection E as ->.
  - injection E as <- _. by cbn in Hs'.
  - injection E as -> _. by cbn in Hs.
  - cbn [all_chars] in Hs, Hs'. apply andb_true_iff in Hs as [_ Hs], Hs' as [_ Hs'].
    assert (c = c' ∧ s +:+ String "_" t = s' +:+ String "_" t') as [-> E'] by (by injection E).
    by destruct (IH _ Hs Hs' E') as [-> ->].
Qed.

Definition key_ok (k : Z * Z) : Prop := 0 ≤ k.1 < 4294967296 ∧ is_int32 k.2.
Lemma listener_inj a p a' p' : key_ok (a, p) → key_ok (a', p') → listener_name a p = listener_name a' p' → (a, p) = (a', p').
Proof.
  intros [Ha Hp] [Ha' Hp'] E. simpl in *. unfold listener_name in E.
  assert (pretty (u32 a) +:+ String "_" (pretty (s32 p)) = pretty (u32 a') +:+ String "_" (pretty (s32 p'))) as E' by (by injection E).
  apply split_bar in E' as [E1%(inj pretty) E2%(inj pretty)]; try (eapply all_chars_mono; [apply num_no_bar|apply pretty_Z_chars]).
  rewrite !s32_int32 in E2 by done. unfold u32 in E1. rewrite !Z.mod_small in E1 by lia. by subst.
Qed.
Lemma listener_differ a p a' p' :
  key_ok (a, p) → key_ok (a', p') → (a, p) ≠ (a', p') → config_name_compare (listener_name a p) (listener_name a' p') = false.
Proof.
  intros Hk Hk' Hne. rewrite compare_eq by apply listener_no_token. apply String.eqb_neq. intros E. by apply Hne, listener_inj.
Qed.

(** ** Registrations as a map *)

Definition flag (b : bool) : Z := if b then 1 else 0.
Record reps (m : metadata) (f : gmap (Z * Z) bool) : Prop := {
  rp_read : ∀ k, key_ok k → metadata_readFromElement m (listener_name k.1 k.2) = (λ b, VInt32 (flag b)) <$> f !! k;
  rp_write : ∀ k, key_ok k → int_key m (listener_name k.1 k.2) = true
}.

Lemma reps_empty : reps [] ∅.
Proof. split; intros k Hk; [by rewrite lookup_empty|]. unfold int_key. by rewrite listener_valid. Qed.

Lemma reps_put m f k b : reps m f → key_ok k → reps (put_member m (listener_name k.1 k.2) (SInt (flag b))) (<[k := b]> f).
Proof.
  intros [Hr Hw] Hk. split; intros k' Hk'.
  - destruct (decide (k' = k)) as [->|Hne].
    + rewrite lookup_insert_eq. unfold metadata_readFromElement. by rewrite get_put_same.
    + rewrite lookup_insert_ne by done. rewrite read_put_other; [by apply Hr|]. destruct k, k'. by apply listener_differ.
  - by apply int_key_put, Hw.
Qed.

(** What a console hears. *)
Definition hears (f : gmap (Z * Z) bool) (a p : Z) : bool :=
  match f !! (a, p) with
  | Some b => b
  | None => match f !! (a, -1) with
            | Some b => b
            | None => match f !! (32, p) with Some b => b | None => default false (f !! (32, -1)) end
            end
  end.

Lemma listener_cut a p : listener_name a p = listener_name a (s32 p).
Proof. unfold listener_name. by rewrite (s32_int32 (s32 p)) by (unfold is_int32, s32; pose proof (Z.mod_pos_bound (p + 2147483648) 4294967296); lia). Qed.

Lemma first_listener_hears m f a p :
  reps m f → 0 ≤ a < 4294967296 →
  first_listener m [listener_name a p; listener_name a (-1); listener_name 32 p; listener_name 32 (-1)] = hears f a (s32 p).
Proof.
  intros [Hr _] Ha. assert (is_int32 (s32 p)) as Hp by (unfold is_int32, s32; pose proof (Z.mod_pos_bound (p + 2147483648) 4294967296); lia).
  rewrite (listener_cut a p), (listener_cut 32 p). unfold hears. cbn [first_listener].
  pose proof (Hr (a, s32 p)) as E1. pose proof (Hr (a, -1)) as E2. pose proof (Hr (32, s32 p)) as E3. pose proof (Hr (32, -1)) as E4.
  cbn [fst snd] in *. rewrite E1, E2, E3, E4 by (split; simpl; [lia|first [done|unfold is_int32; lia]]).
  destruct (f !! (a, s32 p)) as [[]|]; [done..|]. destruct (f !! (a, -1)) as [[]|]; [done..|].
  destruct (f !! (32, s32 p)) as [[]|]; [done..|]. by destruct (f !! (32, -1)) as [[]|].
Qed.

(** ** The abstract consoles *)

Record listener := MkL { ls_fd : Z; ls_type : Z; ls_map : gmap (Z * Z) bool }.
Inductive lst_event :=
| LRegister (fd a p : Z) (b : bool)
| LType (fd type : Z)
| LAlert (a p : Z) (data : list Z).

Definition l_hears (a p : Z) (l : listener) : bool := negb (ls_type l =? RTM_TYPE_CONSOLE) && hears (ls_map l) a p.
(** What is written to the consoles, and the consoles then. *)
Definition l_step (ls : list listener) (e : lst_event) : list (Z * list Z) * list listener :=
  match e with
  | LRegister fd a p b =>
      (answer fd "successful", update_first (λ l, ls_fd l =? fd) (λ l, MkL (ls_fd l) (ls_type l) (<[(a, p) := b]> (ls_map l))) ls)
  | LType fd type => (answer fd "successful", update_first (λ l, ls_fd l =? fd) (λ l, MkL (ls_fd l) type (ls_map l)) ls)
  | LAlert a p data => (List.filter (l_hears a p) ls ≫= λ l, [(ls_fd l, le_bytes 4 (Z.of_nat (length data))); (ls_fd l, data)], ls)
  end.
Fixpoint l_run (ls : list listener) (es : list lst_event) : list (Z * list Z) * list listener :=
  match es with
  | [] => ([], ls)
  | e :: es => let '(o, ls) := l_step ls e in let '(o', ls) := l_run ls es in (o ++ o', ls)
  end.

(** The lines of consoles and frames that bring these events. *)
Inductive rtm_input := CLine (fd : Z) (words : list string) | CFrame (ff : finsFrame).
Definition line_ok (ws : list string) : Prop :=
  Forall word_ok ws ∧ Z.of_nat (String.length (String.concat " " ws)) < MAX_CMD_LEN ∧ (length ws ≤ MAX_WORDS)%nat.
(** The words [name] and [path] of a line stand for the module [a] (32 for all)
    and the parameter [p] (-1 for all). *)
Definition listen_key (mods : list (option rtm_module)) (name : string) (path : list string) (a p : Z) : Prop :=
  match_module mods name = a ∧ 0 ≤ a ∧
  (head path = Some "all" ∧ p = -1 ∨
   head path ≠ Some "all" ∧ is_int32 p ∧ ∃ m e, mods !! Z.to_nat a = Some (Some m) ∧ match_params (rm_knobs m) "listen" path = Some e ∧ knob_int e PARAM_ID = Some p).

Inductive l_input (mods : list (option rtm_module)) (fds : list Z) : lst_event → rtm_input → Prop :=
| li_register fd a p b name path :
    fd ∈ fds → path ≠ [] → a < 4294967296 → listen_key mods name path a p → line_ok ("listen" :: name :: path ++ [pretty (flag b)]) →
    l_input mods fds (LRegister fd a p b) (CLine fd ("listen" :: name :: path ++ [pretty (flag b)]))
| li_type fd type :
    fd ∈ fds → 1 ≤ type ≤ 3 → l_input mods fds (LType fd type) (CLine fd ["console"; "type"; pretty type])
| li_alert ff m c data :
    metaData ff = Some m → body ff = Ctrl c → opcode c = CTRL_ALERT → 0 ≤ sender_id c < 256 →
    cdata c = CBytes data → data_len c = Z.of_nat (length data) → data ≠ [] → Z.of_nat (length data) < 4294967296 →
    l_input mods fds (LAlert (sender_id c) (s32 (param_id c)) data) (CFrame ff).

Record con_rep (co : rtm_console) (l : listener) : Prop := {
  cr_fd : co_fd co = ls_fd l; cr_type : co_type co = ls_type l; cr_map : reps (co_listeners co) (ls_map l)
}.
Definition rtm_rep (mods : list (option rtm_module)) (ls : list listener) (d : rtm_data) : Prop :=
  r_modules d = mods ∧ Forall2 con_rep (r_consoles d) ls.

Lemma find_rep cos ls fd :
  Forall2 con_rep cos ls → fd ∈ (ls_fd <$> ls) →
  ∃ co l, find_first (rtm_console_fd_test fd) cos = Some co ∧ co_fd co = fd ∧ con_rep co l ∧
    ∀ f g, con_rep (f co) (g l) → Forall2 con_rep (update_first (rtm_console_fd_test fd) f cos) (update_first (λ l, ls_fd l =? fd) g ls).
Proof.
  induction 1 as [|co l cos ls Hc Hcs IH]; intros Hin; [by apply elem_of_nil in Hin|]. cbn [find_first update_first fmap list_fmap] in *.
  unfold rtm_console_fd_test at 1 3. rewrite (cr_fd _ _ Hc). destruct (Z.eqb_spec (ls_fd l) fd) as [E|E].
  - exists co, l. split_and!; [done|by rewrite (cr_fd _ _ Hc)|done|]. intros f g Hfg. by constructor.
  - apply elem_of_cons in Hin as [->|Hin]; [done|]. destruct (IH Hin) as (co' & l' & E1 & E2 & E3 & E4).
    exists co', l'. split_and!; try done. intros f g Hfg. constructor; [done|by apply E4].
Qed.
Lemma filter_rep a p cos ls data :
  Forall2 con_rep cos ls → 0 ≤ a < 256 →
  (List.filter (rtm_console_listening_test a p) cos ≫= λ co, [(co_fd co, le_bytes 4 (Z.of_nat (length data))); (co_fd co, data)]) =
  (List.filter (l_hears a (s32 p)) ls ≫= λ l, [(ls_fd l, le_bytes 4 (Z.of_nat (length data))); (ls_fd l, data)]).
Proof.
  intros Hr Ha. induction Hr as [|co l cos ls [Hf Ht Hm] Hcs IH]; [done|]. cbn [List.filter].
  assert (rtm_console_listening_test a p co = l_hears a (s32 p) l) as ->.
  { unfold rtm_console_listening_test, l_hears. rewrite Ht, (first_listener_hears _ (ls_map l)) by (done || lia). by destruct (ls_type l =? RTM_TYPE_CONSOLE). }
  case_match; [|exact IH]. rewrite !bind_cons, IH, Hf. done.
Qed.

(** ** The manager refines them *)

Section Refine.
Context {Q : Type} `{BoundedFifo Q finsFrame} `{RtmTransfers}.
Abbreviation ST := (mstate Q rtm_data) (only parsing).
Context (fl : list (Z * Z)).

(** A line arrives at a console, or a frame from the switch. *)
Definition rtm_step (x : rtm_input) : M ST unit :=
  match x with
  | CLine fd ws => rmod (λ d, put_r_in (<[fd := console_msg (String.concat " " ws)]> (r_in d)) d) ;; poll_one 0 fd 1
  | CFrame ff => rtm_fcf ff
  end.
Fixpoint rtm_steps (l : list rtm_input) : M ST unit :=
  match l with [] => mret tt | x :: l => rtm_step x ;; rtm_steps l end.

Lemma steps_app l l' P (R : unit → ST → Prop) : runs P (rtm_steps l ;; rtm_steps l') R → runs P (rtm_steps (l ++ l')) R.
Proof.
  revert P R. induction l as [|x l IH]; intros P R Hr; [exact Hr|]. cbn [rtm_steps app] in *.
  intros s Hs. destruct (Hr s Hs) as (a & s' & E & HR). exists a, s'. split; [|exact HR]. revert E. unfold mbind, M_bind.
  destruct (rtm_step x s) as [[u s1]| | |]; try done. intros E.
  destruct (IH (λ s0, s0 = s1) (λ a0 s0, a0 = a ∧ s0 = s')) with (s := s1) as (a' & s2 & E2 & -> & ->); [|done|exact E2].
  intros s0 ->. exists a, s'. split; [exact E|done].
Qed.

Context (mods : list (option rtm_module)).
Definition steps_to (d : rtm_data) (r : list (Z * list Z) * list listener) (d' : rtm_data) : Prop :=
  rtm_rep mods r.2 d' ∧ r_out d' = r_out d ++ r.1.

Lemma line_runs xs n d ls fd op ws j co (R : unit → ST → Prop) :
  rtm_rep mods ls d → 0 < fd → find_first (rtm_console_fd_test fd) (r_consoles d) = Some co → co_fd co = fd → line_ok (op :: ws) →
  find_op 0 op_strs op = Some j →
  (∀ d1 cnt, r_modules d1 = r_modules d → r_consoles d1 = r_consoles d → r_out d1 = r_out d →
     runs (rest fl xs n d1) (op_funcs j co (MkCmd cnt (co_id co) (op :: ws) 0 0 0 0 "" 0)) R) →
  runs (rest fl xs n d) (rtm_step (CLine fd (op :: ws))) R.
Proof.
  intros Hr Hfd Hco Eco (Hws & Hl & Hn) Hj HK. unfold rtm_step. apply rt_mod. apply runs_bind_r.
  eapply (rt_poll _ _ _ _ _ _ _ co op ws j []); [exact Hfd|exact Hco|exact Eco|exact Hws|exact Hl|exact Hn|exact Hj| |].
  - rewrite app_nil_r. apply lookup_insert_eq.
  - eapply runs_bind; [apply HK; done|]. intros []. by apply runs_ret.
Qed.

Lemma listen_value_runs xs n d ls fd co l cmd ws a p b :
  rtm_rep mods ls d → co_fd co = fd → con_rep co l →
  (∀ f g, con_rep (f co) (g l) → Forall2 con_rep (update_first (rtm_console_fd_test fd) f (r_consoles d)) (update_first (λ l, ls_fd l =? fd) g ls)) →
  key_ok (a, p) → cm_words cmd = ws ++ [pretty (flag b)] →
  runs (rest fl xs n d) (listen_value co cmd a p) (λ _ s, ∃ d', steps_to d (l_step ls (LRegister fd a p b)) d' ∧ rest fl xs n d' s).
Proof.
  intros [Em _] Efd Hc Hu Hk Ew. subst fd. unfold listen_value.
  eapply (rt_word _ _ _ _ _ _ _ (pretty (flag b))).
  { rewrite Ew. unfold words_num. rewrite Ew, length_app. simpl. replace (length ws + 1 - 1)%nat with (length ws) by lia. by apply list_lookup_middle. }
  rewrite scan_d_pretty by (by destruct b). assert (negb (flag b =? 1) && negb (flag b =? 0) = false) as -> by (by destruct b). cbv iota.
  eapply (rest_lift _ _ _ _ _ _ (put_member (co_listeners co) (listener_name a p) (SInt (flag b)))).
  { rewrite write_int_ok by exact (rp_write _ _ (cr_map _ _ Hc) (a, p) Hk). by destruct b. }
  unfold upd_console. apply rt_mod, runs_bind_r, rt_say; [by split|]. apply runs_ret. intros s Hs. eexists. split; [|exact Hs]. split; [|done].
  split; [exact Em|]. cbn [l_step snd]. apply Hu. destruct Hc as [H1' H2' H3']. split; [done|done|]. exact (reps_put _ _ (a, p) b H3' Hk).
Qed.

Lemma register_runs xs n d ls fd a p b name path :
  rtm_rep mods ls d → Forall (λ l, 0 < ls_fd l) ls → fd ∈ (ls_fd <$> ls) → path ≠ [] → a < 4294967296 → listen_key mods name path a p →
  line_ok ("listen" :: name :: path ++ [pretty (flag b)]) →
  runs (rest fl xs n d) (rtm_step (CLine fd ("listen" :: name :: path ++ [pretty (flag b)])))
    (λ _ s, ∃ d', steps_to d (l_step ls (LRegister fd a p b)) d' ∧ rest fl xs n d' s).
Proof.
  intros Hr Hpos Hin Hne Ha (Hm & Ha0 & Hk) Hl. destruct (find_rep _ _ fd (proj2 Hr) Hin) as (co & l & Hco & Eco & Hc & Hu).
  assert (0 < fd) as Hfd by (apply list_elem_of_fmap in Hin as (l0 & -> & Hin); by apply (proj1 (Forall_forall _ _) Hpos)).
  eapply (line_runs _ _ _ _ _ "listen" _ 12 co); try done. intros d1 cnt E1 E2 E3. change (op_funcs (Q := Q) 12) with (rtm_process_listen (Q := Q)).
  set (cmd := MkCmd _ _ _ _ _ _ _ _ _). unfold rtm_process_listen.
  assert (words_num cmd = S (S (S (length path)))) as Ewn by (unfold words_num; simpl; rewrite length_app; simpl; lia).
  rewrite Ewn, (proj2 (Nat.ltb_ge _ _)) by (destruct path; simpl; [done|lia]).
  destruct path as [|p0 path]; [done|]. apply rt_get. do 3 (eapply rt_word; [reflexivity|]).
  destruct Hr as [Em Hcs]. assert (match_module (r_modules d1) name = a) as -> by (by rewrite E1, Em).
  rewrite (proj2 (Z.eqb_neq _ _)) by lia.
  assert (rtm_rep mods ls d1) as Hr1 by (split; [by rewrite E1|by rewrite E2]). rewrite <- E2 in Hu.
  assert (∀ p, is_int32 p → runs (rest fl xs n d1) (listen_value co cmd a p)
    (λ _ s, ∃ d', steps_to d (l_step ls (LRegister fd a p b)) d' ∧ rest fl xs n d' s)) as Hv.
  { intros p' Hp'. assert (key_ok (a, p')) as Hkey by (split; [simpl; lia|exact Hp']).
    eapply runs_post; [exact (listen_value_runs xs n d1 ls fd co l cmd ("listen" :: name :: p0 :: path) a p' b Hr1 Eco Hc Hu Hkey eq_refl)|].
    intros u s (d' & [? Ho] & Hs). exists d'. split; [split; [done|by rewrite Ho, E3]|done]. }
  destruct Hk as [[[= ->] ->]|(Hna & Hp & m & e & Hmod & Hpar & Hid)]; [by apply Hv|].
  rewrite (proj2 (String.eqb_neq p0 "all")) by (intros ->; done). rewrite E1, Em, Hmod.
  assert (param_path cmd (S (S (S (length (p0 :: path)))) - 1) = p0 :: path) as ->.
  { unfold param_path, cmd. cbn [cm_words length]. simpl. rewrite take_app_le, take_ge by lia. done. }
  rewrite Hpar, Hid. by apply Hv.
Qed.

Lemma type_runs xs n d ls fd type :
  rtm_rep mods ls d → Forall (λ l, 0 < ls_fd l) ls → fd ∈ (ls_fd <$> ls) → 1 ≤ type ≤ 3 →
  runs (rest fl xs n d) (rtm_step (CLine fd ["console"; "type"; pretty type]))
    (λ _ s, ∃ d', steps_to d (l_step ls (LType fd type)) d' ∧ rest fl xs n d' s).
Proof.
  intros Hr Hpos Hin Ht. destruct (find_rep _ _ fd (proj2 Hr) Hin) as (co & l & Hco & Eco & Hc & Hu).
  assert (0 < fd) as Hfd by (apply list_elem_of_fmap in Hin as (l0 & -> & Hin); by apply (proj1 (Forall_forall _ _) Hpos)).
  assert (is_int32 type) as Hi by (unfold is_int32; lia).
  eapply (line_runs _ _ _ _ _ "console" _ 13 co); try done.
  { split; [|split].
    - repeat (apply Forall_cons; split); [by split|by split|apply pretty_word|by apply Forall_nil].
    - change (String.concat " " ["console"; "type"; pretty type]) with ("console type " +:+ pretty type). rewrite string_length_app.
      pose proof (pretty_Z_length type Hi). simpl. unfold MAX_CMD_LEN. lia.
    - simpl. unfold MAX_WORDS. lia. }
  intros d1 cnt E1 E2 E3. change (op_funcs (Q := Q) 13) with (rtm_process_console (Q := Q)). unfold rtm_process_console, words_num. cbn [cm_words length].
  change (3 <? 3)%nat with false. cbv iota. eapply rt_word; [reflexivity|]. change (String.eqb "type" "type") with true. cbv iota.
  eapply rt_word; [reflexivity|]. rewrite (scan_d_pretty type Hi).
  assert ((type =? RTM_TYPE_CONSOLE) || (type =? RTM_TYPE_LISTENER) || (type =? RTM_TYPE_DUAL) = true) as ->.
  { unfold RTM_TYPE_CONSOLE, RTM_TYPE_LISTENER, RTM_TYPE_DUAL. assert (type = 1 ∨ type = 2 ∨ type = 3) as [-> |[-> | ->]] by lia; done. }
  unfold upd_console. apply rt_mod, runs_bind_r, rt_say; [by split|]. apply runs_ret. intros s Hs. eexists. split; [|exact Hs].
  split; [split; [by simpl; rewrite E1; apply Hr|]|].
  - cbn [l_step snd]. simpl. rewrite E2, Eco. apply Hu. destruct Hc. split; [done| |done]. simpl. unfold u8. rewrite Z.mod_small; lia.
  - simpl. by rewrite E3, Eco.
Qed.

Lemma push_runs {B} xs n d c data cos (R : B → ST → Prop) (K : unit → M ST B) :
  cdata c = CBytes data → data_len c = Z.of_nat (length data) → data ≠ [] → Z.of_nat (length data) < 4294967296 →
  (∀ t, runs (rest fl xs n (put_r_ticks t (put_r_out (r_out d ++ (cos ≫= λ co, [(co_fd co, le_bytes 4 (Z.of_nat (length data))); (co_fd co, data)])) d))) (K tt) R) →
  runs (rest fl xs n d) (push_alert c cos ≫= K) R.
Proof.
  intros Hc Hl Hne Hb. revert d. induction cos as [|co cos IH]; intros d HK; cbn [push_alert].
  - apply runs_ret_bind. specialize (HK (r_ticks d)). rewrite app_nil_r in HK. by destruct d.
  - apply runs_assoc. eapply (rest_lift _ _ _ _ _ _ data).
    { unfold alert_bytes. rewrite Hc, Hl. by apply read_bytes_all. }
    apply runs_assoc, rt_send; [done|done|]. apply IH. intros t. specialize (HK t). rewrite bind_cons in HK. cbn [r_out put_r_out put_r_ticks].
    by rewrite <- app_assoc.
Qed.

Lemma alert_runs xs n d ls ff m c data :
  rtm_rep mods ls d → metaData ff = Some m → body ff = Ctrl c → opcode c = CTRL_ALERT → 0 ≤ sender_id c < 256 →
  cdata c = CBytes data → data_len c = Z.of_nat (length data) → data ≠ [] → Z.of_nat (length data) < 4294967296 →
  runs (rest fl xs n d) (rtm_step (CFrame ff))
    (λ _ s, ∃ d', steps_to d (l_step ls (LAlert (sender_id c) (s32 (param_id c)) data)) d' ∧ rest fl xs n d' s).
Proof.
  intros [Em Hcs] Hm Hb Hop Hid Hc Hl Hne Hlen. unfold rtm_step, rtm_fcf. eapply rest_ctrl; [exact Hb|]. rewrite Hop.
  change (CTRL_ALERT =? CTRL_ALERT) with true. cbv iota. unfold rtm_alert. eapply rest_ctrl; [exact Hb|]. apply rt_get.
  eapply push_runs; [exact Hc|exact Hl|exact Hne|exact Hlen|]. intros t. apply runs_bind_r, rest_free; [by rewrite Hb|].
  apply runs_ret. intros s Hs. eexists. split; [|exact Hs]. split; [by split|]. by rewrite (filter_rep (sender_id c) (param_id c) (r_consoles d) ls data Hcs Hid).
Qed.

Lemma step_fds ls e : ls_fd <$> (l_step ls e).2 = ls_fd <$> ls.
Proof.
  assert (∀ (f : listener → bool) g, (∀ l, ls_fd (g l) = ls_fd l) → ls_fd <$> update_first f g ls = ls_fd <$> ls) as Hu.
  { intros f g Hg. induction ls as [|l ls IH]; [done|]. cbn [update_first]. case_match; cbn [fmap list_fmap]; [by rewrite Hg|by f_equal]. }
  destruct e; cbn [l_step snd]; [by apply Hu|by apply Hu|done].
Qed.

Lemma step_runs xs n d ls e x :
  rtm_rep mods ls d → Forall (λ l, 0 < ls_fd l) ls → l_input mods (ls_fd <$> ls) e x →
  runs (rest fl xs n d) (rtm_step x) (λ _ s, ∃ d', steps_to d (l_step ls e) d' ∧ rest fl xs n d' s).
Proof.
  intros Hr Hpos Hi. destruct Hi as [fd a p b name path|fd type|ff m c data].
  - by apply register_runs.
  - by apply type_runs.
  - by eapply alert_runs.
Qed.

Lemma pos_fds ls : Forall (λ l, 0 < ls_fd l) ls ↔ Forall (λ fd, 0 < fd) (ls_fd <$> ls).
Proof. by rewrite Forall_fmap. Qed.

Lemma steps_runs xs n es inputs ls d :
  rtm_rep mods ls d → Forall (λ l, 0 < ls_fd l) ls → Forall2 (l_input mods (ls_fd <$> ls)) es inputs →
  runs (rest fl xs n d) (rtm_steps inputs) (λ _ s, ∃ d', steps_to d (l_run ls es) d' ∧ rest fl xs n d' s).
Proof.
  intros Hr Hpos Hi. remember (ls_fd <$> ls) as fds eqn:Ef. revert ls d Hr Hpos Ef. induction Hi as [|e x es inputs He Hi IH]; intros ls d Hr Hpos ->; cbn [rtm_steps l_run].
  - apply runs_ret. intros s Hs. exists d. split; [|done]. split; [done|]. by rewrite app_nil_r.
  - apply (runs_bind _ _ _ _ _ (step_runs xs n d ls e x Hr Hpos He)). intros []. apply runs_ex. intros d1. apply runs_pure. intros [Hr1 Ho1].
    pose proof (step_fds ls e) as Ef. destruct (l_step ls e) as [o ls1]. cbn [fst snd] in *.
    eapply runs_post; [apply (IH ls1 d1 Hr1); [by apply pos_fds; rewrite Ef; apply pos_fds|done]|].
    intros u s (d' & [Hr' Ho'] & Hs). exists d'. split; [|done]. destruct (l_run ls1 es) as [o' ls2]. split; [done|]. cbn [fst snd] in *.
    by rewrite Ho', Ho1, <- app_assoc.
Qed.

End Refine.

(** C18: Over any sequence of lines in which consoles register or unregister to
    listen or change their type, and of alerts of modules, every handler
    returns, every line is answered "successful", and each alert is written,
    once and in the order of the consoles, to exactly those consoles that hear
    it: the most specific registration for its module and its parameter
    decides. *)
Theorem rtm_listeners_refine {Q} `{BoundedFifo Q finsFrame} `{RtmTransfers} fl mods xs n es inputs ls d (s : mstate Q rtm_data) :
  rtm_rep mods ls d → Forall (λ l, 0 < ls_fd l) ls → Forall2 (l_input mods (ls_fd <$> ls)) es inputs → rest fl xs n d s →
  ∃ s' d' outs ls', rtm_steps inputs s = Ok (tt, s') ∧ rest fl xs n d' s' ∧ l_run ls es = (outs, ls') ∧
    rtm_rep mods ls' d' ∧ r_out d' = r_out d ++ outs.
Proof.
  intros Hr Hpos Hi Hs. destruct (steps_runs fl mods xs n es inputs ls d Hr Hpos Hi s Hs) as ([] & s' & E & d' & [Hr' Ho'] & Hs').
  exists s', d', (l_run ls es).1, (l_run ls es).2. split_and!; try done. by destruct (l_run ls es).
Qed.

Definition demo_listen_data : rtm_data :=
  MkRtm (<[3%nat := Some (MkRMod "arp" (KGroup []))]> (replicate 32 None)) (7 :: 8 :: replicate 18 0)
    [MkConsole 0 7 RTM_TYPE_LISTENER []; MkConsole 1 8 RTM_TYPE_CONSOLE []] 2 [] 0 false ∅ [] 0.
Definition demo_alert (b : list Z) : finsFrame := MkFrame 1 (Some []) (Ctrl (MkCtrl 3 50 CTRL_ALERT 9 0 (Z.of_nat (length b)) (CBytes b))).

Lemma demo_line1 : line_ok ["listen"; "all"; "all"; "1"].
Proof. split; [repeat (apply Forall_cons; split; [by split|]); by apply Forall_nil|]. split; [done|]. simpl. unfold MAX_WORDS. lia. Qed.
Lemma demo_line2 : line_ok ["listen"; "arp"; "all"; "0"].
Proof. split; [repeat (apply Forall_cons; split; [by split|]); by apply Forall_nil|]. split; [done|]. simpl. unfold MAX_WORDS. lia. Qed.

(** Witness of C18: a console listens to everything, then not to the module 3. *)
Lemma rtm_listeners_refine_witness :
  let es := [LRegister 7 32 (-1) true; LAlert 3 9 [1; 2]; LRegister 7 3 (-1) false; LAlert 3 9 [5]] in
  let inputs := [CLine 7 ["listen"; "all"; "all"; "1"]; CFrame (demo_alert [1; 2]); CLine 7 ["listen"; "arp"; "all"; "0"]; CFrame (demo_alert [5])] in
  let ls := [MkL 7 RTM_TYPE_LISTENER ∅; MkL 8 RTM_TYPE_CONSOLE ∅] in
  (l_run ls es).1 = answer 7 "successful" ++ [(7, [2; 0; 0; 0]); (7, [1; 2])] ++ answer 7 "successful" ∧
  ∃ s' d' outs ls', rtm_steps (H0 := demo_rtm_env) inputs (demo_rtm demo_listen_data) = Ok (tt, s') ∧ rest [] [] 5 d' s' ∧ l_run ls es = (outs, ls') ∧
    rtm_rep (r_modules demo_listen_data) ls' d' ∧ r_out d' = [] ++ outs.
Proof.
  intros es inputs ls. split; [vm_compute; reflexivity|].
  apply (rtm_listeners_refine (H0 := demo_rtm_env) (H1 := demo_rtm_transfers) [] (r_modules demo_listen_data) [] 5 es inputs ls demo_listen_data).
  - split; [done|]. repeat constructor; apply reps_empty.
  - by repeat constructor.
  - constructor; [|constructor; [|constructor; [|constructor; [|constructor]]]].
    + apply (li_register _ _ 7 32 (-1) true "all" ["all"]); [left|done|lia| |exact demo_line1]. by split; [|split; [|left]].
    + by apply (li_alert _ _ (demo_alert [1; 2]) [] (MkCtrl 3 50 CTRL_ALERT 9 0 2 (CBytes [1; 2])) [1; 2]).
    + apply (li_register _ _ 7 3 (-1) false "arp" ["all"]); [left|done|lia| |exact demo_line2]. by split; [|split; [|left]].
    + by apply (li_alert _ _ (demo_alert [5]) [] (MkCtrl 3 50 CTRL_ALERT 9 0 1 (CBytes [5])) [5]).
  - apply demo_rtm_rest. lia.
Defined.
