(* ===== verification/Console.v ===== *)
(** * A console, the manager and a module

    A value that a console sets in the TCP module is the value it gets. *)

From stdpp Require Import base list gmap strings pretty.
From Stdlib Require Import ZArith Lia Ascii.
From S2P Require Import Prelude Queue Metadata Frame Module IPv4 UDP Double TcpWindow TcpQueue TcpSeg.
From S2P Require Import TcpRecord TcpConn TcpMain TcpIn TcpOut TcpDemo Run Rtm RtmFacts Listeners.
Open Scope Z_scope.
Open Scope fins_scope.

(** ** The parameters of the TCP module *)

Definition tcp_params : list (string * Z) :=
  [("fast_enabled", 5); ("fast_duplicates", 6); ("fast_retransmits", 7); ("mss", 8)].

(** The knobs of the module: a group of the parameters for each operation. *)
Definition tcp_init_knobs : res knob :=
  let ps := (λ p : string * Z, (p.1, p.2, META_TYPE_INT32)) <$> tcp_params in
  match add_params [] ps, add_params [] ps with
  | Ok get_elem, Ok set_elem =>
      match knob_add [] "get" (KGroup get_elem) with
      | Ok root => match knob_add root "set" (KGroup set_elem) with Ok root => Ok (KGroup root) | r => Exit end
      | r => Exit
      end
  | _, _ => Exit
  end.

(** Those of the ARP module. *)
Definition arp_init_knobs : res knob :=
  match elem_add_param [] "get_addr" 1 META_TYPE_INT32 with
  | Ok exec_elem => match knob_add [] "exec" (KGroup exec_elem) with Ok root => Ok (KGroup root) | r => Exit end
  | r => Exit
  end.

(** What the handlers of the module store and read for a parameter. *)
Definition tcp_put (id v : Z) (d : tcp_data) : tcp_data :=
  if id =? 5 then put_params (u8 (u32 v)) (fast_duplicates d) (mss d) d
  else if id =? 6 then put_params (fast_enabled d) (u32 (u32 v)) (mss d) d
  else if id =? 7 then put_total (stat_fast (u32 (u32 v)) (total_conn_stats d)) d
  else put_params (fast_enabled d) (fast_duplicates d) (u32 (u32 v)) d.
Definition tcp_value (id : Z) (d : tcp_data) : Z :=
  if id =? 5 then fast_enabled d else if id =? 6 then fast_duplicates d
  else if id =? 7 then st_fast (total_conn_stats d) else mss d.
(** One of the variables has eight bits. *)
Definition shown (id v : Z) : Z := if id =? 5 then v mod 256 else v.

Lemma param_ids name id : (name, id) ∈ tcp_params → id = 5 ∨ id = 6 ∨ id = 7 ∨ id = 8.
Proof. unfold tcp_params. rewrite !elem_of_cons, elem_of_nil. intros [[= _ ->]|[[= _ ->]|[[= _ ->]|[[= _ ->]|[]]]]]; auto. Qed.

Lemma tcp_value_put id v d : is_int32 v → s32 (tcp_value id (tcp_put id v d)) = shown id v.
Proof.
  intros Hv. unfold is_int32 in Hv. assert (s32 (u32 (u32 v)) = v) as E.
  { unfold u32, s32. rewrite Z.mod_mod, Zplus_mod_idemp_l, Z.mod_small by lia. lia. }
  unfold tcp_value, tcp_put, shown. destruct (id =? 5) eqn:E5; [|destruct (id =? 6) eqn:E6; [exact E|destruct (id =? 7) eqn:E7; exact E]].
  simpl. unfold u8, u32. replace ((v mod 4294967296) mod 256) with (v mod 256) by (Z.div_mod_to_equations; lia).
  apply s32_int32. pose proof (Z.mod_pos_bound v 256). unfold is_int32. lia.
Qed.

Section Tcp.
Context {Q : Type} `{BoundedFifo Q finsFrame} `{Environment}.
Abbreviation ST := (mstate Q tcp_data) (only parsing).
Context (fl : list (Z * Z)).

Definition set_reply (ix serial id v dst : Z) : finsFrame :=
  MkFrame dst (Some [("value", SInt v); ("ret_msg", SInt 0)]) (Ctrl (MkCtrl ix serial CTRL_SET_PARAM_REPLY id FCF_TRUE 0 CNull)).
Definition get_reply (ix serial id v dst : Z) : finsFrame :=
  MkFrame dst (Some [("value", SInt v); ("ret_msg", SInt 0)]) (Ctrl (MkCtrl ix serial CTRL_READ_PARAM_REPLY id FCF_TRUE 0 CNull)).

Lemma tcp_mod {B} (R : B → ST → Prop) ys k d f (K : unit → M ST B) :
  runs (rest fl ys k (f d)) (K tt) R → runs (rest fl ys k d) (tmod f ≫= K) R.
Proof. apply rest_modify. Qed.

Lemma tcp_set_runs ys k (d : tcp_data) dst ix serial name id v :
  (name, id) ∈ tcp_params →
  runs (rest fl ys (S k) d) (tcp_fcf (MkFrame dst (Some [("value", SInt v)]) (Ctrl (MkCtrl ix serial CTRL_SET_PARAM id 0 0 CNull))))
    (λ _ s, ∃ j, rest fl (ys ++ [set_reply j serial id v ix]) k (tcp_put id v d) s).
Proof.
  intros Hp. unfold tcp_fcf. eapply rest_ctrl; [reflexivity|]. cbn [opcode]. change (CTRL_SET_PARAM =? CTRL_SET_PARAM) with true.
  change (CTRL_SET_PARAM =? CTRL_ALERT) with false. change (CTRL_SET_PARAM =? CTRL_ALERT_REPLY) with false.
  change (CTRL_SET_PARAM =? CTRL_READ_PARAM) with false. change (CTRL_SET_PARAM =? CTRL_READ_PARAM_REPLY) with false. cbv iota.
  unfold tcp_set_param. eapply rest_ctrl; [reflexivity|]. cbn [param_id].
  destruct (param_ids _ _ Hp) as [-> |[-> |[-> | ->]]]; cbn [Z.eqb Pos.eqb orb]; cbv [TCP_SET_PARAM_FLOWS TCP_SET_PARAM_LINKS TCP_SET_PARAM_DUAL
    TCP_SET_HOST_WINDOW TCP_SET_SOCK_OPT TCP_SET_PARAM_STATUS TCP_SET_FAST_ENABLED__id TCP_SET_FAST_DUPLICATES__id TCP_SET_FAST_RETRANSMITS__id TCP_SET_MSS__id];
    cbn [Z.eqb Pos.eqb orb]; (eapply rest_read; [reflexivity|reflexivity|]); apply tcp_mod;
    apply runs_bind_r; (eapply rest_reply; [reflexivity|reflexivity|reflexivity|reflexivity|]); intros j; apply runs_ret;
    intros s Hs; exists j; exact Hs.
Qed.

Lemma tcp_get_runs ys k (d : tcp_data) dst ix serial name id :
  (name, id) ∈ tcp_params →
  runs (rest fl ys (S k) d) (tcp_fcf (MkFrame dst (Some []) (Ctrl (MkCtrl ix serial CTRL_READ_PARAM id 0 0 CNull))))
    (λ _ s, ∃ j, rest fl (ys ++ [get_reply j serial id (s32 (tcp_value id d)) ix]) k d s).
Proof.
  intros Hp. unfold tcp_fcf. eapply rest_ctrl; [reflexivity|]. cbn [opcode]. change (CTRL_READ_PARAM =? CTRL_READ_PARAM) with true.
  change (CTRL_READ_PARAM =? CTRL_ALERT) with false. change (CTRL_READ_PARAM =? CTRL_ALERT_REPLY) with false. cbv iota.
  unfold tcp_read_param. eapply rest_ctrl; [reflexivity|]. unfold tget. apply runs_assoc, rest_get. intros s0 Hs0. apply runs_ret_bind.
  rewrite (rs_md _ _ _ _ _ Hs0). cbn [param_id]. cbv [TCP_READ_PARAM_FLOWS TCP_READ_PARAM_LINKS TCP_READ_PARAM_DUAL
    TCP_GET_HOST_WINDOW TCP_GET_SOCK_OPT TCP_GET_FAST_ENABLED__id TCP_GET_FAST_DUPLICATES__id TCP_GET_FAST_RETRANSMITS__id TCP_GET_MSS__id].
  destruct (param_ids _ _ Hp) as [-> |[-> |[-> | ->]]]; cbn [Z.eqb Pos.eqb orb]; unfold reply_value;
    (eapply rest_write; [reflexivity|reflexivity|]); apply runs_bind_r;
    (eapply rest_reply; [reflexivity|reflexivity|reflexivity|reflexivity|]); intros j; apply runs_ret;
    intros s Hs; exists j; exact Hs.
Qed.

End Tcp.

(** ** An exchange: a command, the request, the reply, the answer *)

(** The console [fd] of the manager. *)
Record is_console (d : rtm_data) (fd : Z) (co : rtm_console) : Prop := {
  ic_pos : 0 < fd;
  ic_fd : find_first (rtm_console_fd_test fd) (r_consoles d) = Some co;
  ic_eq : co_fd co = fd;
  ic_id : find_first (rtm_console_id_test (co_id co)) (r_consoles d) = Some co
}.

Definition sender_of (f : finsFrame) : Z := match body f with Ctrl c => sender_id c | _ => -1 end.

(** The thread of the manager handles what the console has sent; the frame it
    queues is handled by the TCP module, and the reply by the manager. *)
Definition exchange {Q} `{BoundedFifo Q finsFrame} `{RtmEnv} `{Environment} (i : nat) (fd modi : Z)
    (s : mstate Q rtm_data) (t : mstate Q tcp_data) (s' : mstate Q rtm_data) (t' : mstate Q tcp_data) : Prop :=
  ∃ xs ys s1 f r, bf_rep (outq s) xs ∧ bf_rep (outq t) ys ∧
    poll_one i fd 1 s = Ok (tt, s1) ∧ bf_rep (outq s1) (xs ++ [f]) ∧ destinationID f = modi ∧
    tcp_fcf f t = Ok (tt, t') ∧ bf_rep (outq t') (ys ++ [r]) ∧ destinationID r = sender_of f ∧
    rtm_fcf r s1 = Ok (tt, s').

Section Exchange.
Context {Q : Type} `{BoundedFifo Q finsFrame} `{RtmTransfers} `{Environment}.
Context (fl fl' : list (Z * Z)) (i : nat) (fd modi : Z) (co : rtm_console) (name : string) (id : Z).
Context (knobs : knob) (Hk : tcp_init_knobs = Ok knobs) (Hp : (name, id) ∈ tcp_params).

Definition has_tcp (d : rtm_data) : Prop :=
  match_module (r_modules d) "tcp" = modi ∧ 0 ≤ modi ∧ r_modules d !! Z.to_nat modi = Some (Some (MkRMod "tcp" knobs)).

Lemma tcp_names op d : op = "get" ∨ op = "set" → has_tcp d → names_param d op "tcp" [name] modi id META_TYPE_INT32.
Proof using Hk Hp.
  intros Hop (Hm & H0' & Hl). split; [done| |done].
  exists (MkRMod "tcp" knobs), (KGroup [(PARAM_ID, KInt id); (PARAM_TYPE, KInt META_TYPE_INT32)]). split; [done|]. cbn [rm_knobs].
  assert (knobs = match tcp_init_knobs with Ok k => k | _ => KOther end) as -> by (by rewrite Hk).
  revert Hp. unfold tcp_params. rewrite !elem_of_cons, elem_of_nil.
  destruct Hop as [-> | ->]; intros [[= -> ->]|[[= -> ->]|[[= -> ->]|[[= -> ->]|[]]]]]; done.
Qed.

Lemma param_word : word_ok name ∧ (String.length name ≤ 16)%nat.
Proof using Hp.
  revert Hp. unfold tcp_params. rewrite !elem_of_cons, elem_of_nil.
  intros [[= -> ->]|[[= -> ->]|[[= -> ->]|[[= -> ->]|[]]]]]; (split; [split|]; simpl; try done; lia).
Qed.

Lemma fresh_test serial cmds : Forall (λ c, cm_serial_num c ≠ serial) cmds → Forall (λ a, rtm_cmd_serial_test serial a = false) cmds.
Proof. intros Hf. eapply Forall_impl; [exact Hf|]. intros c Hc. unfold rtm_cmd_serial_test. by apply Z.eqb_neq. Qed.

Lemma set_reply_runs xs n d cmds cmd j serial v dst :
  r_cmds d = cmds ++ [cmd] → cm_serial_num cmd = serial → Forall (λ c, cm_serial_num c ≠ serial) cmds →
  cm_console_id cmd = co_id co → is_console d fd co →
  runs (rest fl xs n d) (rtm_fcf (set_reply j serial id v dst)) (λ _ s, rest fl xs n (said fd "successful" (put_r_cmds cmds d)) s).
Proof using All.
  intros Ec Es Hf Eid Hco. unfold rtm_fcf. eapply rest_ctrl; [reflexivity|]. cbn [opcode].
  change (rtm_set_param_reply (set_reply j serial id v dst)) with (reply_cmd (Q := Q) (set_reply j serial id v dst) (λ co cmd, say co "successful")).
  change (CTRL_SET_PARAM_REPLY =? CTRL_SET_PARAM_REPLY) with true. cbn [Z.eqb CTRL_SET_PARAM_REPLY CTRL_ALERT CTRL_ALERT_REPLY CTRL_READ_PARAM CTRL_READ_PARAM_REPLY CTRL_SET_PARAM Pos.eqb].
  apply runs_bind_r. eapply (rt_reply_last _ _ _ _ _ _ _ _ cmd co); [reflexivity|exact Ec|exact Es|by apply fresh_test|rewrite Eid; apply Hco|done|].
  apply rt_say; [by split|]. apply runs_ret. intros s Hs. by rewrite <- (ic_eq _ _ _ Hco).
Qed.

Lemma get_reply_runs xs n d cmds cmd j serial v dst :
  r_cmds d = cmds ++ [cmd] → cm_serial_num cmd = serial → Forall (λ c, cm_serial_num c ≠ serial) cmds →
  cm_console_id cmd = co_id co → is_console d fd co → cm_param_type cmd = META_TYPE_INT32 → cm_param_str cmd = name → is_int32 v →
  runs (rest fl xs n d) (rtm_fcf (get_reply j serial id v dst))
    (λ _ s, rest fl xs n (said fd ("'" +:+ name +:+ "'=" +:+ pretty v) (put_r_cmds cmds d)) s).
Proof using All.
  intros Ec Es Hf Eid Hco Et En Hv. unfold rtm_fcf. eapply rest_ctrl; [reflexivity|]. cbn [opcode].
  cbn [Z.eqb CTRL_ALERT CTRL_ALERT_REPLY CTRL_READ_PARAM CTRL_READ_PARAM_REPLY Pos.eqb]. unfold rtm_read_param_reply.
  apply runs_bind_r. eapply (rt_reply_last _ _ _ _ _ _ _ _ cmd co); [reflexivity|exact Ec|exact Es|by apply fresh_test|rewrite Eid; apply Hco|done|].
  apply runs_assoc. eapply rest_meta; [reflexivity|]. apply runs_assoc.
  set (text := "'" +:+ name +:+ "'=" +:+ pretty v).
  assert (Z.of_nat (String.length text) < 100) as Hl.
  { unfold text. rewrite !string_length_app. simpl. destruct param_word as [_ Hn]. pose proof (pretty_Z_length v Hv). lia. }
  eapply (rest_lift _ _ _ _ _ _ text).
  { unfold value_text. rewrite Et, En. unfold value_string. change (META_TYPE_INT32 =? META_TYPE_INT32) with true. cbv iota.
    change (metadata_readFromElement [("value", SInt v); ("ret_msg", SInt 0)] "value") with (Some (VInt32 v)). cbv iota.
    rewrite (s32_int32 v Hv). fold text. by rewrite (proj2 (Z.leb_gt _ _)) by lia. }
  apply rt_say; [split; [done|lia]|]. apply runs_ret. intros s Hs. by rewrite <- (ic_eq _ _ _ Hco).
Qed.

(** The console sends a line, and the manager a request. *)
Definition poll_cmd (d : rtm_data) (ws : list string) (op : Z) : rtm_command :=
  filled (MkCmd (r_cmd_counter d) (co_id co) ws 0 0 0 0 "" 0) modi (rtm_serial (S (S (r_ticks d)))) op id name META_TYPE_INT32.
Definition polled (d : rtm_data) (rest' : list Z) : rtm_data :=
  ticked (put_r_cmd_counter (u32 (r_cmd_counter d + 1)) (heard fd rest' d)).

Lemma poll_set_runs xs n d v rest' :
  is_int32 v → has_tcp d → is_console d fd co →
  r_in d !! fd = Some (console_msg (String.concat " " ["set"; "tcp"; name; pretty v]) ++ rest') →
  runs (rest fl xs (S n) d) (poll_one i fd 1)
    (λ _ s, ∃ ix, let c := poll_cmd d ["set"; "tcp"; name; pretty v] CTRL_SET_PARAM in
       rest fl (xs ++ [request_frame ix c [("value", SInt v)]]) n (asked c (polled d rest')) s).
Proof using All.
  intros Hv Ht Hco Ei. destruct param_word as [Hw Hl]. apply runs_bind_r.
  eapply (rt_poll _ _ _ _ _ _ _ co "set" ["tcp"; name; pretty v] 3); [apply Hco|apply Hco|apply Hco| | |simpl; unfold MAX_WORDS; lia|done|exact Ei|].
  - repeat (apply Forall_cons; split); [by split|by split|done|apply pretty_word|by apply Forall_nil].
  - change (String.concat " " ["set"; "tcp"; name; pretty v]) with ("set tcp " +:+ (name +:+ (" " +:+ pretty v))).
    rewrite !string_length_app. pose proof (pretty_Z_length v Hv). simpl. unfold MAX_CMD_LEN. lia.
  - change (op_funcs (Q := Q) 3) with (rtm_process_set (Q := Q)).
    eapply (rt_process_set _ _ _ _ _ _ _ "set" "tcp" [] name (pretty v) modi id META_TYPE_INT32 (VInt32 v) [("value", SInt (s32 v))]);
      [done|exact (tcp_names "set" (put_r_cmd_counter _ (heard fd rest' d)) (or_intror eq_refl) Ht)| |done|].
    + unfold scan_value. change (META_TYPE_INT32 =? META_TYPE_INT32) with true. cbv iota. by rewrite scan_d_pretty.
    + intros ix. apply runs_ret. intros s Hs. exists ix. rewrite (s32_int32 v Hv) in Hs. exact Hs.
Qed.

Lemma poll_get_runs xs n d rest' :
  has_tcp d → is_console d fd co →
  r_in d !! fd = Some (console_msg (String.concat " " ["get"; "tcp"; name]) ++ rest') →
  runs (rest fl xs (S n) d) (poll_one i fd 1)
    (λ _ s, ∃ ix, let c := poll_cmd d ["get"; "tcp"; name] CTRL_READ_PARAM in
       rest fl (xs ++ [request_frame ix c []]) n (asked c (polled d rest')) s).
Proof using All.
  intros Ht Hco Ei. destruct param_word as [Hw Hl]. apply runs_bind_r.
  eapply (rt_poll _ _ _ _ _ _ _ co "get" ["tcp"; name] 2); [apply Hco|apply Hco|apply Hco| | |simpl; unfold MAX_WORDS; lia|done|exact Ei|].
  - repeat (apply Forall_cons; split); [by split|by split|done|by apply Forall_nil].
  - change (String.concat " " ["get"; "tcp"; name]) with ("get tcp " +:+ name). rewrite !string_length_app. simpl. unfold MAX_CMD_LEN. lia.
  - change (op_funcs (Q := Q) 2) with (rtm_process_get (Q := Q)).
    eapply (rt_process_get _ _ _ _ _ _ _ "get" "tcp" [] name modi id META_TYPE_INT32); [done|exact (tcp_names "get" (put_r_cmd_counter _ (heard fd rest' d)) (or_introl eq_refl) Ht)|].
    intros ix. apply runs_ret. intros s Hs. exists ix. exact Hs.
Qed.

Lemma asked_room c d : Z.of_nat (length (r_cmds d)) < MAX_COMMANDS → asked c d = put_r_cmds (r_cmds d ++ [c]) d.
Proof. intros Hl. unfold asked. by rewrite (proj2 (Z.ltb_lt _ _) Hl). Qed.
Lemma id_u32 : u32 id = id.
Proof using Hp. by destruct (param_ids _ _ Hp) as [-> |[-> |[-> | ->]]]. Qed.

(** The manager before and after an exchange in which it answers [text]. *)
Record answered (d d' : rtm_data) (text : string) (rest' : list Z) : Prop := {
  an_out : r_out d' = r_out d ++ [(fd, le_bytes 4 (Z.of_nat (String.length text))); (fd, text_bytes text)];
  an_cmds : r_cmds d' = r_cmds d;
  an_in : r_in d' !! fd = Some rest';
  an_consoles : r_consoles d' = r_consoles d;
  an_modules : r_modules d' = r_modules d;
  an_ticks : r_ticks d' = (5 + r_ticks d)%nat
}.

Lemma set_exchange s t xs ys n k d dt v rest' :
  is_int32 v → has_tcp d → is_console d fd co → Z.of_nat (length (r_cmds d)) < MAX_COMMANDS →
  Forall (λ c, cm_serial_num c ≠ rtm_serial (2 + r_ticks d)) (r_cmds d) →
  r_in d !! fd = Some (console_msg (String.concat " " ["set"; "tcp"; name; pretty v]) ++ rest') →
  rest fl xs (S n) d s → rest fl' ys (S k) dt t →
  ∃ s' t' xs' ys' d', exchange i fd modi s t s' t' ∧ rest fl xs' n d' s' ∧ rest fl' ys' k (tcp_put id v dt) t' ∧
    answered d d' "successful" rest'.
Proof using All.
  intros Hv Ht Hco Hc Hf Ei Hs Hts.
  destruct (poll_set_runs xs n d v rest' Hv Ht Hco Ei s Hs) as ([] & s1 & E1 & ix & G1). cbv zeta in G1. rewrite asked_room in G1 by done.
  set (c := poll_cmd d _ _) in *. unfold request_frame in G1. change (cm_param_id c) with (u32 id) in G1. rewrite id_u32 in G1.
  match type of G1 with rest _ (_ ++ [?f0]) _ _ _ => set (f := f0) in G1 end.
  destruct (tcp_set_runs fl' ys k dt (cm_mod c) ix (cm_serial_num c) name id v Hp t Hts) as ([] & t' & E2 & j & G2).
  set (d1 := put_r_cmds _ _) in G1.
  assert (is_console d1 fd co) as Hco1 by (split; apply Hco).
  destruct (set_reply_runs (xs ++ [f]) n d1 (r_cmds d) c j (cm_serial_num c) v ix eq_refl eq_refl Hf eq_refl Hco1 s1 G1) as ([] & s' & E3 & G3).
  exists s', t', (xs ++ [f]), (ys ++ [set_reply j (cm_serial_num c) id v ix]),
    (said fd "successful" (put_r_cmds (r_cmds d) d1)). split; [|split; [exact G3|split; [exact G2|]]].
  - exists xs, ys, s1, f, (set_reply j (cm_serial_num c) id v ix).
    split_and!; try done; [apply Hs|apply Hts|apply G1|apply G2].
  - split; try done. unfold d1. simpl. by rewrite lookup_insert_eq.
Qed.

Lemma get_exchange s t xs ys n k d dt rest' :
  has_tcp d → is_console d fd co → Z.of_nat (length (r_cmds d)) < MAX_COMMANDS →
  Forall (λ c, cm_serial_num c ≠ rtm_serial (2 + r_ticks d)) (r_cmds d) → is_int32 (s32 (tcp_value id dt)) →
  r_in d !! fd = Some (console_msg (String.concat " " ["get"; "tcp"; name]) ++ rest') →
  rest fl xs (S n) d s → rest fl' ys (S k) dt t →
  ∃ s' t' xs' ys' d', exchange i fd modi s t s' t' ∧ rest fl xs' n d' s' ∧ rest fl' ys' k dt t' ∧
    answered d d' ("'" +:+ name +:+ "'=" +:+ pretty (s32 (tcp_value id dt))) rest'.
Proof using All.
  intros Ht Hco Hc Hf Hv Ei Hs Hts.
  destruct (poll_get_runs xs n d rest' Ht Hco Ei s Hs) as ([] & s1 & E1 & ix & G1). cbv zeta in G1. rewrite asked_room in G1 by done.
  set (c := poll_cmd d _ _) in *. unfold request_frame in G1. change (cm_param_id c) with (u32 id) in G1. rewrite id_u32 in G1.
  match type of G1 with rest _ (_ ++ [?f0]) _ _ _ => set (f := f0) in G1 end.
  destruct (tcp_get_runs fl' ys k dt (cm_mod c) ix (cm_serial_num c) name id Hp t Hts) as ([] & t' & E2 & j & G2).
  set (d1 := put_r_cmds _ _) in G1. set (v := s32 (tcp_value id dt)) in *.
  assert (is_console d1 fd co) as Hco1 by (split; apply Hco).
  destruct (get_reply_runs (xs ++ [f]) n d1 (r_cmds d) c j (cm_serial_num c) v ix eq_refl eq_refl Hf eq_refl Hco1 eq_refl eq_refl Hv s1 G1) as ([] & s' & E3 & G3).
  exists s', t', (xs ++ [f]), (ys ++ [get_reply j (cm_serial_num c) id v ix]),
    (said fd ("'" +:+ name +:+ "'=" +:+ pretty v) (put_r_cmds (r_cmds d) d1)). split; [|split; [exact G3|split; [exact G2|]]].
  - exists xs, ys, s1, f, (get_reply j (cm_serial_num c) id v ix).
    split_and!; try done; [apply Hs|apply Hts|apply G1|apply G2].
  - split; try done. unfold d1. simpl. by rewrite lookup_insert_eq.
Qed.

End Exchange.

(** C17: A console that sets a parameter of the TCP module to a 32-bit value and
    then asks for it is answered that the first was successful and with the value
    the module has stored ([shown]: the value itself, or its low byte for the
    parameter that has eight bits).  The manager turns both lines into requests to
    the module, finds the command of each reply and closes it; the commands that
    were open before, which are assumed to have other serial numbers than the two
    drawn here, stay open. *)
Theorem console_set_get {Q} `{BoundedFifo Q finsFrame} `{RtmTransfers} `{Environment} fl fl' i fd modi co name id knobs v
    xs ys n k d dt (s : mstate Q rtm_data) (t : mstate Q tcp_data) :
  tcp_init_knobs = Ok knobs → (name, id) ∈ tcp_params → is_int32 v →
  has_tcp modi knobs d → is_console d fd co → Z.of_nat (length (r_cmds d)) < MAX_COMMANDS →
  Forall (λ c, cm_serial_num c ≠ rtm_serial (2 + r_ticks d) ∧ cm_serial_num c ≠ rtm_serial (7 + r_ticks d)) (r_cmds d) →
  r_in d !! fd = Some (console_msg (String.concat " " ["set"; "tcp"; name; pretty v]) ++ console_msg (String.concat " " ["get"; "tcp"; name])) →
  rest fl xs (2 + n) d s → rest fl' ys (2 + k) dt t →
  ∃ s1 t1 s2 t2, exchange i fd modi s t s1 t1 ∧ exchange i fd modi s1 t1 s2 t2 ∧
    r_out (md s2) = r_out d ++ answer fd "successful" ++ answer fd ("'" +:+ name +:+ "'=" +:+ pretty (shown id v)) ∧
    r_cmds (md s2) = r_cmds d ∧ md t2 = tcp_put id v dt.
Proof.
  intros Hk Hp Hv Ht Hco Hc [Hf Hf2]%Forall_and Ei Hs Hts.
  destruct (set_exchange fl fl' i fd modi co name id knobs Hk Hp s t xs ys (S n) (S k) d dt v _ Hv Ht Hco Hc Hf Ei Hs Hts)
    as (s1 & t1 & xs1 & ys1 & d1 & X1 & G1 & T1 & [Ao Ac Ai Aco Am At]).
  assert (is_int32 (s32 (tcp_value id (tcp_put id v dt)))) as Hv'.
  { rewrite tcp_value_put by done. unfold shown. case_match; [|done]. pose proof (Z.mod_pos_bound v 256). unfold is_int32. lia. }
  rewrite <- (app_nil_r (console_msg _)) in Ai.
  destruct (get_exchange fl fl' i fd modi co name id knobs Hk Hp s1 t1 xs1 ys1 n k d1 (tcp_put id v dt) []) as (s2 & t2 & xs2 & ys2 & d2 & X2 & G2 & T2 & [Bo Bc _ _ _ _]); try done.
  - unfold has_tcp. by rewrite Am.
  - destruct Hco. split; try done; by rewrite Aco.
  - by rewrite Ac.
  - by rewrite Ac, At.
  - exists s1, t1, s2, t2. split_and!; try done.
    + rewrite (rs_md _ _ _ _ _ G2), Bo, Ao, tcp_value_put by done. by rewrite <- app_assoc.
    + by rewrite (rs_md _ _ _ _ _ G2), Bc, Ac.
    + apply T2.
Qed.

(** ** A concrete manager *)

Definition demo_knobs : knob := match tcp_init_knobs with Ok k => k | _ => KOther end.
(** Module 1 with the TCP module as number 5; a console on descriptor 7. *)
Definition demo_rtm_data (line : list Z) : rtm_data :=
  MkRtm (<[5%nat := Some (MkRMod "tcp" demo_knobs)]> (replicate 32 None)) (7 :: replicate 19 0) [MkConsole 0 7 RTM_TYPE_CONSOLE []] 1 [] 0 false
    {[7 := line]} [] 0.
Definition demo_tcp_data : tcp_data := demo_data [] [] [] 1.
Lemma demo_tcp_rest n : (n ≤ 50)%nat → rest [] [] n demo_tcp_data (demo_module demo_tcp_data).
Proof.
  intros Hn. split; [done| | |].
  - split; simpl; [lia| |].
    + intros l [= <-]. split; [repeat constructor; set_solver|]. repeat constructor; (eexists; split; [reflexivity|simpl; lia]).
    + intros i f Hi Hf. exists [8; 9]. split; [done|]. destruct i as [|[|[|i]]]; [by injection Hf as <-..|lia].
  - split; [apply create_qrep; lia|]. simpl. lia.
  - intros f dst Hin. by apply elem_of_nil in Hin.
Qed.

(** Witness of C17: the console sets the segment size to -1. *)
Lemma console_set_get_witness :
  let line := console_msg (String.concat " " ["set"; "tcp"; "mss"; "-1"]) ++ console_msg (String.concat " " ["get"; "tcp"; "mss"]) in
  ∃ s1 t1 s2 t2, exchange (H0 := demo_rtm_env) (H1 := demo_env) 0 7 5 (demo_rtm (demo_rtm_data line)) (demo_module demo_tcp_data) s1 t1 ∧
    exchange (H0 := demo_rtm_env) (H1 := demo_env) 0 7 5 s1 t1 s2 t2 ∧
    r_out (md s2) = [] ++ answer 7 "successful" ++ answer 7 "'mss'=-1" ∧ r_cmds (md s2) = [] ∧ md t2 = tcp_put 8 (-1) demo_tcp_data.
Proof.
  intros line.
  apply (console_set_get (H0 := demo_rtm_env) (H1 := demo_rtm_transfers) (H2 := demo_env) [] [] 0 7 5 (MkConsole 0 7 RTM_TYPE_CONSOLE []) "mss" 8 demo_knobs (-1)
    [] [] 0 0 (demo_rtm_data line) demo_tcp_data); try done.
  - right. right. right. left.
  - apply demo_rtm_rest. lia.
  - apply demo_tcp_rest. lia.
Defined.

(** ** Commands that stay *)

Section Exec.
Context {Q : Type} `{BoundedFifo Q finsFrame} `{RtmTransfers}.
Abbreviation ST := (mstate Q rtm_data) (only parsing).
Context (fl : list (Z * Z)) (d0 : rtm_data) (fd : Z) (co : rtm_console) (Hco : is_console d0 fd co).
Context (name proc : string) (modi id type : Z) (Hx : names_param d0 "exec" name [proc] modi id type) (Hl : line_ok ["exec"; name; proc]).

(** The manager after [k] such commands. *)
Record exec_inv (k : nat) (d : rtm_data) : Prop := {
  ei_modules : r_modules d = r_modules d0;
  ei_consoles : r_consoles d = r_consoles d0;
  ei_out : r_out d = r_out d0;
  ei_len : length (r_cmds d) = k;
  ei_ticks : r_ticks d = (r_ticks d0 + 3 * k)%nat;
  ei_serials : Forall (λ c, ∃ m, (m < k)%nat ∧ cm_serial_num c = rtm_serial (r_ticks d0 + 3 * m + 2)) (r_cmds d)
}.

(** A line that names a parameter, up to the frame that is queued for it. *)
Lemma exec_asked k d d1 c :
  exec_inv k d → r_modules d1 = r_modules d → r_consoles d1 = r_consoles d → r_out d1 = r_out d → r_cmds d1 = r_cmds d →
  r_ticks d1 = (3 + r_ticks d)%nat → cm_serial_num c = rtm_serial (2 + r_ticks d) → (k < 40)%nat → exec_inv (S k) (asked c d1).
Proof.
  intros [E1 E2 E3 E4 Et E5] F1 F2 F3 F4 Ht Hc Hk. rewrite asked_room by (rewrite F4, E4; unfold MAX_COMMANDS; lia).
  split; simpl; rewrite ?F1, ?F2, ?F3, ?F4; try done.
  - rewrite length_app, E4. simpl. lia.
  - rewrite Ht, Et. lia.
  - apply Forall_app. split; [eapply Forall_impl; [exact E5|]; intros c' (m & Hm & Es); exists m; split; [lia|done]|].
    constructor; [|constructor]. exists k. split; [lia|]. rewrite Hc, Et. f_equal. lia.
Qed.

Lemma exec_round_runs xs n k d r c :
  exec_inv k d → (k < 40)%nat → body r = Ctrl c → opcode c = CTRL_EXEC_REPLY →
  runs (rest fl xs (S n) d) (rtm_steps [CLine fd ["exec"; name; proc]; CFrame r])
    (λ _ s, ∃ xs' d', exec_inv (S k) d' ∧ rest fl xs' n d' s).
Proof using All.
  intros Hi Hk Hb Hop. cbn [rtm_steps]. apply (runs_bind _ _ _ (λ _ s, ∃ xs' d', exec_inv (S k) d' ∧ rest fl xs' n d' s)).
  - cbn [rtm_step]. apply rt_mod, runs_bind_r.
    eapply (rt_poll _ _ _ _ _ _ _ co "exec" [name; proc] 1 []); [apply Hco|simpl; rewrite (ei_consoles _ _ Hi); apply Hco|apply Hco|apply Hl|apply Hl|apply Hl|done| |].
    { rewrite app_nil_r. apply lookup_insert_eq. }
    change (op_funcs (Q := Q) 1) with (rtm_process_exec (Q := Q)).
    eapply (rt_process_exec _ _ _ _ _ _ _ "exec" name proc [] modi id type); [done| |].
    { destruct Hx as [X1 X2 X3]. split; simpl; [by rewrite (ei_modules _ _ Hi)|by rewrite (ei_modules _ _ Hi)|done]. }
    intros ix. apply runs_ret. intros s Hs. eexists _, _. split; [|exact Hs].
    eapply exec_asked; try exact Hi; done.
  - intros []. apply runs_ex. intros xs'. apply runs_ex. intros d'. apply runs_pure. intros Hi'. cbn [rtm_step]. apply runs_bind_r, runs_assoc.
    unfold rtm_fcf. apply runs_assoc. eapply rest_ctrl; [exact Hb|]. rewrite Hop. cbn [Z.eqb Pos.eqb CTRL_EXEC_REPLY CTRL_ALERT CTRL_ALERT_REPLY CTRL_READ_PARAM
      CTRL_READ_PARAM_REPLY CTRL_SET_PARAM CTRL_SET_PARAM_REPLY CTRL_EXEC]. unfold rtm_exec_reply. apply runs_ret_bind, runs_ret_bind, runs_ret.
    intros s Hs. by exists xs', d'.
Qed.

Lemma exec_rounds_runs xs n k j d rs :
  exec_inv k d → (k + j = 40)%nat → length rs = j → Forall (λ r, ∃ c, body r = Ctrl c ∧ opcode c = CTRL_EXEC_REPLY) rs →
  runs (rest fl xs (j + n) d) (rtm_steps (rs ≫= λ r, [CLine fd ["exec"; name; proc]; CFrame r]))
    (λ _ s, ∃ xs' d', exec_inv 40 d' ∧ rest fl xs' n d' s).
Proof using All.
  intros Hi Hkj Hlen Hrs. revert xs k j d Hi Hkj Hlen. induction Hrs as [|r rs (c & Hb & Hop) Hrs IH]; intros xs k j d Hi Hkj Hlen.
  - simpl in Hlen. subst j. replace k with 40%nat in Hi by lia. apply runs_ret. intros s Hs. by exists xs, d.
  - destruct j as [|j]; [done|]. rewrite bind_cons. simpl in Hlen.
    apply steps_app, (runs_bind _ _ _ _ _ (exec_round_runs xs (j + n) k d r c Hi ltac:(lia) Hb Hop)). intros [].
    apply runs_ex. intros xs'. apply runs_ex. intros d'. apply runs_pure. intros Hi'. apply (IH xs' (S k) j d' Hi'); lia.
Qed.

(** The next command is sent, but not kept. *)
Lemma get_forgotten_runs xs n d name' p modi' id' type' :
  exec_inv 40 d → (∀ m, (m < 40)%nat → rtm_serial (r_ticks d0 + 3 * m + 2) ≠ rtm_serial (r_ticks d0 + 122)) →
  names_param d0 "get" name' [p] modi' id' type' → line_ok ["get"; name'; p] →
  runs (rest fl xs (S n) d) (rtm_step (CLine fd ["get"; name'; p]))
    (λ _ s, ∃ f c d', rest fl (xs ++ [f]) n d' s ∧ body f = Ctrl c ∧ r_out d' = r_out d0 ∧
       Forall (λ a, rtm_cmd_serial_test (serial_num c) a = false) (r_cmds d')).
Proof using Hco H1.
  intros Hi Hinj Hg Hlg. cbn [rtm_step]. apply rt_mod, runs_bind_r.
  eapply (rt_poll _ _ _ _ _ _ _ co "get" [name'; p] 2 []); [apply Hco|simpl; rewrite (ei_consoles _ _ Hi); apply Hco|apply Hco|apply Hlg|apply Hlg|apply Hlg|done| |].
  { rewrite app_nil_r. apply lookup_insert_eq. }
  change (op_funcs (Q := Q) 2) with (rtm_process_get (Q := Q)).
  eapply (rt_process_get _ _ _ _ _ _ _ "get" name' [] p modi' id' type'); [done| |].
  { destruct Hg as [X1 X2 X3]. split; simpl; [by rewrite (ei_modules _ _ Hi)|by rewrite (ei_modules _ _ Hi)|done]. }
  intros ix. cbv zeta. apply runs_ret. intros s Hs. eexists _, _, _. split; [exact Hs|]. split; [reflexivity|].
  unfold asked. simpl. rewrite (ei_len _ _ Hi). change (Z.of_nat 40 <? MAX_COMMANDS) with false. cbv iota. split; [apply Hi|].
  eapply Forall_impl; [apply Hi|]. intros c' (m & Hm & Es). unfold rtm_cmd_serial_test. apply Z.eqb_neq. rewrite Es.
  replace (S (S (r_ticks d))) with (r_ticks d0 + 122)%nat by (rewrite (ei_ticks _ _ Hi); lia). by apply Hinj.
Qed.

End Exec.

(** The numbers drawn while fewer than 2^32 of them are drawn are different. *)
Lemma drawn_apart a b : a < b < a + 4294967296 → serial_drawn a ≠ serial_drawn b.
Proof. unfold serial_drawn, u32. intros Hab E. Z.div_mod_to_equations. lia. Qed.

(** C19: The reply to an [exec] command is dropped and its command kept: after
    forty of them, none of which is answered, the table of commands is full, and
    a [get] command is sent to its module but the reply that comes back, whatever
    it says, is dropped as well: the console waits for ever.  The serial numbers
    are those of the 32-bit counter, of which the process draws fewer than 2^32 in
    the meantime. *)
Theorem exec_stops_replies {Q} `{BoundedFifo Q finsFrame} `{RtmTransfers} fl fd co name proc modi id type name' p modi' id' type'
    rs xs n d (s : mstate Q rtm_data) :
  is_console d fd co → r_cmds d = [] →
  (∀ m, (m < 40)%nat → let drawn := rtm_drawn (r_ticks d + 3 * m + 2) in drawn < rtm_drawn (r_ticks d + 122) < drawn + 4294967296) →
  names_param d "exec" name [proc] modi id type → line_ok ["exec"; name; proc] →
  names_param d "get" name' [p] modi' id' type' → line_ok ["get"; name'; p] →
  length rs = 40%nat → Forall (λ r, ∃ c, body r = Ctrl c ∧ opcode c = CTRL_EXEC_REPLY) rs → rest fl xs (41 + n) d s →
  ∃ s1 s2 f c xs', rtm_steps (rs ≫= λ r, [CLine fd ["exec"; name; proc]; CFrame r]) s = Ok (tt, s1) ∧ r_out (md s1) = r_out d ∧
    rtm_step (CLine fd ["get"; name'; p]) s1 = Ok (tt, s2) ∧ bf_rep (outq s2) (xs' ++ [f]) ∧ body f = Ctrl c ∧
    ∀ r k, body r = Ctrl k → opcode k = CTRL_READ_PARAM_REPLY → serial_num k = serial_num c →
      ∃ s3, rtm_fcf r s2 = Ok (tt, s3) ∧ r_out (md s3) = r_out d.
Proof.
  intros Hco Hc Hdr Hx Hlx Hg Hlg Hlen Hrs Hs.
  assert (∀ m, (m < 40)%nat → rtm_serial (r_ticks d + 3 * m + 2) ≠ rtm_serial (r_ticks d + 122)) as Hinj.
  { intros m Hm. by apply drawn_apart, Hdr. }
  assert (exec_inv d 0 d) as Hi by (split; rewrite ?Hc, ?Nat.add_0_r; try done; by apply Forall_nil).
  destruct (exec_rounds_runs fl d fd co Hco name proc modi id type Hx Hlx xs (S n) 0 40 d rs Hi eq_refl Hlen Hrs s Hs) as ([] & s1 & E1 & xs' & d1 & Hi1 & Hs1).
  destruct (get_forgotten_runs fl d fd co Hco xs' n d1 name' p modi' id' type' Hi1 Hinj Hg Hlg s1 Hs1) as ([] & s2 & E2 & f & c & d2 & Hs2 & Hf & Ho2 & Hfr).
  exists s1, s2, f, c, xs'. split_and!; try done.
  - rewrite (rs_md _ _ _ _ _ Hs1). apply Hi1.
  - apply Hs2.
  - intros r k Hb Hop Es. rewrite <- Es in Hfr.
    assert (runs (rest fl (xs' ++ [f]) n d2) (rtm_fcf r) (λ _ s, rest fl (xs' ++ [f]) n d2 s)) as Hrun.
    { unfold rtm_fcf. eapply rest_ctrl; [exact Hb|]. rewrite Hop. cbn [Z.eqb Pos.eqb CTRL_ALERT CTRL_ALERT_REPLY CTRL_READ_PARAM CTRL_READ_PARAM_REPLY].
      unfold rtm_read_param_reply. apply runs_bind_r. eapply rt_reply_none; [exact Hb|exact Hfr|]. by apply runs_ret. }
    destruct (Hrun s2 Hs2) as ([] & s3 & E3 & Hs3). exists s3. split; [done|]. by rewrite (rs_md _ _ _ _ _ Hs3).
Qed.

Definition demo_exec_data : rtm_data :=
  put_r_modules (<[3%nat := Some (MkRMod "arp" (match arp_init_knobs with Ok k => k | _ => KOther end))]> (r_modules (demo_rtm_data []))) (demo_rtm_data []).
Lemma demo_exec_line : line_ok ["exec"; "arp"; "get_addr"].
Proof. split; [repeat (apply Forall_cons; split; [by split|]); by apply Forall_nil|]. split; [done|]. simpl. unfold MAX_WORDS. lia. Qed.
Lemma demo_get_line : line_ok ["get"; "tcp"; "mss"].
Proof. split; [repeat (apply Forall_cons; split; [by split|]); by apply Forall_nil|]. split; [done|]. simpl. unfold MAX_WORDS. lia. Qed.
Definition demo_exec_reply : finsFrame := MkFrame 1 (Some [("ret_msg", SInt 0)]) (Ctrl (MkCtrl 3 100 CTRL_EXEC_REPLY 1 FCF_FALSE 0 CNull)).

(** Witness of C19: *)
Lemma exec_stops_replies_witness :
  ∃ s1 s2 f c xs', rtm_steps (H0 := demo_rtm_env) (replicate 40 demo_exec_reply ≫= λ r, [CLine 7 ["exec"; "arp"; "get_addr"]; CFrame r]) (demo_rtm demo_exec_data) = Ok (tt, s1) ∧
    r_out (md s1) = [] ∧ rtm_step (H0 := demo_rtm_env) (CLine 7 ["get"; "tcp"; "mss"]) s1 = Ok (tt, s2) ∧ bf_rep (outq s2) (xs' ++ [f]) ∧ body f = Ctrl c ∧
    ∀ r k, body r = Ctrl k → opcode k = CTRL_READ_PARAM_REPLY → serial_num k = serial_num c →
      ∃ s3, rtm_fcf (H0 := demo_rtm_env) r s2 = Ok (tt, s3) ∧ r_out (md s3) = [].
Proof.
  apply (exec_stops_replies (H0 := demo_rtm_env) (H1 := demo_rtm_transfers) [] 7 (MkConsole 0 7 RTM_TYPE_CONSOLE []) "arp" "get_addr" 3 1 META_TYPE_INT32 "tcp" "mss" 5 8 META_TYPE_INT32
    (replicate 40 demo_exec_reply) [] 0 demo_exec_data).
  - by split.
  - done.
  - intros m Hm. cbn [rtm_drawn demo_rtm_env]. change (r_ticks demo_exec_data) with 0%nat. lia.
  - split; [done| |lia]. eexists _, _. split; [reflexivity|]. split; [reflexivity|]. by split.
  - exact demo_exec_line.
  - split; [done| |lia]. eexists _, _. split; [reflexivity|]. split; [reflexivity|]. by split.
  - exact demo_get_line.
  - done.
  - apply Forall_replicate. by eexists.
  - apply demo_rtm_rest. lia.
Defined.

(** ** Lines that end the process *)

Definition demo_hear (line : list Z) : res (unit * mstate (QueueRecord finsFrame) rtm_data) :=
  poll_one (H0 := demo_rtm_env) 0 7 1 (demo_rtm (demo_rtm_data line)).
(** A message without a word: the first word is compared as NULL. *)
Lemma console_empty_message : demo_hear [0; 0; 0; 0] = Segv ∧ demo_hear (console_msg "  ") = Segv.
Proof. split; vm_compute; reflexivity. Qed.
(** The number of "all" is one behind the table of modules. *)
Lemma console_get_all : demo_hear (console_msg "get all mss") = Segv.
Proof. vm_compute. reflexivity. Qed.

(** A console in the second slot is not polled once the console of the first has
    closed: a round that looks at one entry leaves its line unread. *)
Lemma console_unpolled :
  let d := MkRtm (replicate 32 None) (0 :: 8 :: replicate 18 0) [MkConsole 1 8 RTM_TYPE_CONSOLE []] 2 [] 0 false {[8 := console_msg "help"]} [] 0 in
  match console_to_rtm (H0 := demo_rtm_env) (replicate 20 0) (demo_rtm d) with
  | Ok (_, s') => r_in (md s') = r_in d ∧ r_out (md s') = []
  | _ => False
  end.
Proof. vm_compute. by split. Qed.
