(* ===== verification/Daemon.v ===== *)
(** * The daemon: sockets, calls and the link to the kernel

    The daemon serves the socket calls that the kernel module (the wedge)
    intercepts.  It keeps a table of sockets and a table of calls that wait;
    a socket lists the calls waiting for it, by pointers into the call table or
    to allocated calls.  This file models the data and the functions of
    [modules/daemon/daemon.c] that keep it, and [daemon_netlink.c], the
    messages to the wedge.  The handlers of UDP sockets are in [DaemonUdp], the
    dispatch of messages from the switch and of calls from the wedge in
    [DaemonOut]. *)

From stdpp Require Import base list gmap strings.
From Stdlib Require Import ZArith Lia.
From S2P Require Import Prelude Queue Metadata Frame Module IPv4 Double.
Open Scope Z_scope.
Open Scope fins_scope.

Definition DAEMON_MAX_PROTOS := 256.
Definition DAEMON_MAX_SOCKETS := 50.
Definition DAEMON_MAX_CALLS := 50.
Definition DAEMON_CALL_LIST_MAX := 30.
Definition DAEMON_ACK := 200.
Definition DAEMON_NACK := 6666.
Definition DAEMON_ADDR_ANY := 0.
Definition DAEMON_PORT_MIN := 32768.
Definition DAEMON_PORT_MAX := 61000.
Definition DAEMON_PORT_ANY := 0.
Definition DAEMON_BACKLOG_DEFAULT := 5.
Definition DAEMON_BLOCK_DEFAULT := 500.
Definition DAEMON_CONTROL_LEN_MAX := 10240.
Definition DAEMON_CONTROL_LEN_DEFAULT := 1024.
Definition DAEMON_TTL_DEFAULT := 64.
Definition DAEMON_STATUS_RDWR := 3.
Definition STORE_LIST_MAX := 100000.

(** The call types. *)
Definition SOCKET_CALL := 1.
Definition BIND_CALL := 2.
Definition LISTEN_CALL := 3.
Definition CONNECT_CALL := 4.
Definition ACCEPT_CALL := 5.
Definition GETNAME_CALL := 6.
Definition IOCTL_CALL := 7.
Definition SENDMSG_CALL := 8.
Definition RECVMSG_CALL := 9.
Definition GETSOCKOPT_CALL := 10.
Definition SETSOCKOPT_CALL := 11.
Definition RELEASE_CALL := 12.
Definition POLL_CALL := 13.
Definition MMAP_CALL := 14.
Definition SOCKETPAIR_CALL := 15.
Definition SHUTDOWN_CALL := 16.
Definition CLOSE_CALL := 17.
Definition SENDPAGE_CALL := 18.
Definition POLL_EVENT_CALL := 21.
Definition MAX_CALL_TYPES := 22.

(** Numbers of the C library and the kernel. *)
Definition AF_UNSPEC := 0.
Definition SOCK_DGRAM := 2.
Definition IPPROTO_IP := 0.
Definition IPPROTO_UDP := 17.
Definition SS_FREE := 0.
Definition SS_UNCONNECTED := 1.
Definition SS_CONNECTING := 2.
Definition SS_CONNECTED := 3.
Definition EBADF := 9.
Definition EAGAIN := 11.
Definition EACCES := 13.
Definition EINVAL := 22.
Definition EAFNOSUPPORT := 97.
Definition EADDRINUSE := 98.
Definition EADDRNOTAVAIL := 99.
Definition EHOSTUNREACH := 113.
Definition MSG_CTRUNC := 8.
Definition MSG_TRUNC := 32.
Definition MSG_DONTWAIT := 64.
Definition MSG_ERRQUEUE := 8192.
Definition SOL_IP := 0.
Definition SOL_SOCKET := 1.
Definition SOL_TCP := 6.
Definition SOL_RAW := 255.
Definition SO_TIMESTAMP := 29.
Definition IP_TTL := 2.
Definition IP_RECVERR := 11.

Definition has (x mask : Z) : bool := negb (Z.land x mask =? 0).
(** [-1] as an identifier of a call and of a socket. *)
Definition NO_CALL := 4294967295.
Definition NO_SOCK := 18446744073709551615.

(** ** Data *)

(** The options of [struct socket_options] that the handlers read or set; each
    is an [int]. *)
Inductive sockopt :=
| FSO_DEBUG | FSO_REUSEADDR | FSO_SNDBUF | FSO_RCVBUF | FSO_KEEPALIVE | FSO_OOBINLINE
| FSO_PRIORITY | FSO_TIMESTAMP | FSO_PASSCRED
| FIP_TOS | FIP_TTL | FIP_RECVERR | FIP_RECVTTL | FICMP_FILTER | FTCP_NODELAY.
#[export] Instance sockopt_eq_dec : EqDecision sockopt.
Proof. solve_decision. Defined.

Definition put_opt (o : sockopt) (v : Z) (f : sockopt → Z) : sockopt → Z :=
  λ o', if decide (o' = o) then v else f o'.

(** [struct daemon_call]; [c_timer] is the timer behind [to_data]. *)
Record daemon_call := MkCall {
  c_sock_id : Z;
  c_sock_index : Z;
  c_type : Z;
  c_pid : Z;
  c_id : Z;
  c_index : Z;
  c_alloc : bool;
  c_serial : Z;
  c_buf : Z;
  c_flags : Z;
  c_ret : Z;
  c_sent : Z;
  c_sock_id_new : Z;
  c_sock_index_new : Z;
  c_timer : itimer;
  c_to_flag : bool
}.
Definition set_c_id (v : Z) (x : daemon_call) : daemon_call :=
  MkCall (c_sock_id x) (c_sock_index x) (c_type x) (c_pid x) v (c_index x) (c_alloc x)
    (c_serial x) (c_buf x) (c_flags x) (c_ret x) (c_sent x) (c_sock_id_new x)
    (c_sock_index_new x) (c_timer x) (c_to_flag x).
Definition set_c_serial (v : Z) (x : daemon_call) : daemon_call :=
  MkCall (c_sock_id x) (c_sock_index x) (c_type x) (c_pid x) (c_id x) (c_index x) (c_alloc x) v
    (c_buf x) (c_flags x) (c_ret x) (c_sent x) (c_sock_id_new x) (c_sock_index_new x)
    (c_timer x) (c_to_flag x).
Definition set_c_buf (v : Z) (x : daemon_call) : daemon_call :=
  MkCall (c_sock_id x) (c_sock_index x) (c_type x) (c_pid x) (c_id x) (c_index x) (c_alloc x)
    (c_serial x) v (c_flags x) (c_ret x) (c_sent x) (c_sock_id_new x) (c_sock_index_new x)
    (c_timer x) (c_to_flag x).
Definition set_c_flags (v : Z) (x : daemon_call) : daemon_call :=
  MkCall (c_sock_id x) (c_sock_index x) (c_type x) (c_pid x) (c_id x) (c_index x) (c_alloc x)
    (c_serial x) (c_buf x) v (c_ret x) (c_sent x) (c_sock_id_new x) (c_sock_index_new x)
    (c_timer x) (c_to_flag x).
Definition set_c_ret (v : Z) (x : daemon_call) : daemon_call :=
  MkCall (c_sock_id x) (c_sock_index x) (c_type x) (c_pid x) (c_id x) (c_index x) (c_alloc x)
    (c_serial x) (c_buf x) (c_flags x) v (c_sent x) (c_sock_id_new x) (c_sock_index_new x)
    (c_timer x) (c_to_flag x).
Definition set_c_timer (v : itimer) (x : daemon_call) : daemon_call :=
  MkCall (c_sock_id x) (c_sock_index x) (c_type x) (c_pid x) (c_id x) (c_index x) (c_alloc x)
    (c_serial x) (c_buf x) (c_flags x) (c_ret x) (c_sent x) (c_sock_id_new x)
    (c_sock_index_new x) v (c_to_flag x).
Definition set_c_to_flag (v : bool) (x : daemon_call) : daemon_call :=
  MkCall (c_sock_id x) (c_sock_index x) (c_type x) (c_pid x) (c_id x) (c_index x) (c_alloc x)
    (c_serial x) (c_buf x) (c_flags x) (c_ret x) (c_sent x) (c_sock_id_new x)
    (c_sock_index_new x) (c_timer x) v.
Definition set_c_alloc (v : bool) (x : daemon_call) : daemon_call :=
  MkCall (c_sock_id x) (c_sock_index x) (c_type x) (c_pid x) (c_id x) (c_index x) v (c_serial x)
    (c_buf x) (c_flags x) (c_ret x) (c_sent x) (c_sock_id_new x) (c_sock_index_new x)
    (c_timer x) (c_to_flag x).
(** A pointer of a call list: to an entry of the call table, or to a call
    allocated for that list (the list has the only pointer to it). *)
Inductive call_ref :=
| CArr (i : Z)
| CMem (c : daemon_call).

(** [struct daemon_store]; both pointers are set in every store. *)
Record daemon_store := MkStored { st_addr : sockaddr; st_ff : finsFrame; st_pos : Z }.

(** [struct daemon_socket].  The four tables of functions belong to one
    protocol, [so_ops]; [host_any_addr] and [count] are not used. *)
Record daemon_socket := MkSock {
  so_type : Z;
  so_protocol : Z;
  so_ops : Z;
  so_sock_id : Z;
  so_state : Z;
  so_status : Z;
  so_family : Z;
  so_host_addr : sockaddr;
  so_rem_addr : sockaddr;
  so_listening : Z;
  so_backlog : Z;
  so_sock_id_new : Z;
  so_sock_index_new : Z;
  so_call_list : list call_ref;
  so_stamp : timeval;
  so_data_list : list daemon_store;
  so_data_buf : Z;
  so_error_list : list daemon_store;
  so_error_msg : Z;
  so_error_call : Z;
  so_opts : sockopt → Z
}.
Definition set_so_sock_id (v : Z) (x : daemon_socket) : daemon_socket :=
  MkSock (so_type x) (so_protocol x) (so_ops x) v (so_state x) (so_status x) (so_family x)
    (so_host_addr x) (so_rem_addr x) (so_listening x) (so_backlog x) (so_sock_id_new x)
    (so_sock_index_new x) (so_call_list x) (so_stamp x) (so_data_list x) (so_data_buf x)
    (so_error_list x) (so_error_msg x) (so_error_call x) (so_opts x).
Definition set_so_state (v : Z) (x : daemon_socket) : daemon_socket :=
  MkSock (so_type x) (so_protocol x) (so_ops x) (so_sock_id x) v (so_status x) (so_family x)
    (so_host_addr x) (so_rem_addr x) (so_listening x) (so_backlog x) (so_sock_id_new x)
    (so_sock_index_new x) (so_call_list x) (so_stamp x) (so_data_list x) (so_data_buf x)
    (so_error_list x) (so_error_msg x) (so_error_call x) (so_opts x).
Definition set_so_family (v : Z) (x : daemon_socket) : daemon_socket :=
  MkSock (so_type x) (so_protocol x) (so_ops x) (so_sock_id x) (so_state x) (so_status x) v
    (so_host_addr x) (so_rem_addr x) (so_listening x) (so_backlog x) (so_sock_id_new x)
    (so_sock_index_new x) (so_call_list x) (so_stamp x) (so_data_list x) (so_data_buf x)
    (so_error_list x) (so_error_msg x) (so_error_call x) (so_opts x).
Definition set_so_host_addr (v : sockaddr) (x : daemon_socket) : daemon_socket :=
  MkSock (so_type x) (so_protocol x) (so_ops x) (so_sock_id x) (so_state x) (so_status x)
    (so_family x) v (so_rem_addr x) (so_listening x) (so_backlog x) (so_sock_id_new x)
    (so_sock_index_new x) (so_call_list x) (so_stamp x) (so_data_list x) (so_data_buf x)
    (so_error_list x) (so_error_msg x) (so_error_call x) (so_opts x).
Definition set_so_rem_addr (v : sockaddr) (x : daemon_socket) : daemon_socket :=
  MkSock (so_type x) (so_protocol x) (so_ops x) (so_sock_id x) (so_state x) (so_status x)
    (so_family x) (so_host_addr x) v (so_listening x) (so_backlog x) (so_sock_id_new x)
    (so_sock_index_new x) (so_call_list x) (so_stamp x) (so_data_list x) (so_data_buf x)
    (so_error_list x) (so_error_msg x) (so_error_call x) (so_opts x).
Definition set_so_listening (v : Z) (x : daemon_socket) : daemon_socket :=
  MkSock (so_type x) (so_protocol x) (so_ops x) (so_sock_id x) (so_state x) (so_status x)
    (so_family x) (so_host_addr x) (so_rem_addr x) v (so_backlog x) (so_sock_id_new x)
    (so_sock_index_new x) (so_call_list x) (so_stamp x) (so_data_list x) (so_data_buf x)
    (so_error_list x) (so_error_msg x) (so_error_call x) (so_opts x).
Definition set_so_backlog (v : Z) (x : daemon_socket) : daemon_socket :=
  MkSock (so_type x) (so_protocol x) (so_ops x) (so_sock_id x) (so_state x) (so_status x)
    (so_family x) (so_host_addr x) (so_rem_addr x) (so_listening x) v (so_sock_id_new x)
    (so_sock_index_new x) (so_call_list x) (so_stamp x) (so_data_list x) (so_data_buf x)
    (so_error_list x) (so_error_msg x) (so_error_call x) (so_opts x).
Definition set_so_call_list (v : list call_ref) (x : daemon_socket) : daemon_socket :=
  MkSock (so_type x) (so_protocol x) (so_ops x) (so_sock_id x) (so_state x) (so_status x)
    (so_family x) (so_host_addr x) (so_rem_addr x) (so_listening x) (so_backlog x)
    (so_sock_id_new x) (so_sock_index_new x) v (so_stamp x) (so_data_list x) (so_data_buf x)
    (so_error_list x) (so_error_msg x) (so_error_call x) (so_opts x).
Definition set_so_stamp (v : timeval) (x : daemon_socket) : daemon_socket :=
  MkSock (so_type x) (so_protocol x) (so_ops x) (so_sock_id x) (so_state x) (so_status x)
    (so_family x) (so_host_addr x) (so_rem_addr x) (so_listening x) (so_backlog x)
    (so_sock_id_new x) (so_sock_index_new x) (so_call_list x) v (so_data_list x) (so_data_buf x)
    (so_error_list x) (so_error_msg x) (so_error_call x) (so_opts x).
Definition set_so_data_list (v : list daemon_store) (x : daemon_socket) : daemon_socket :=
  MkSock (so_type x) (so_protocol x) (so_ops x) (so_sock_id x) (so_state x) (so_status x)
    (so_family x) (so_host_addr x) (so_rem_addr x) (so_listening x) (so_backlog x)
    (so_sock_id_new x) (so_sock_index_new x) (so_call_list x) (so_stamp x) v (so_data_buf x)
    (so_error_list x) (so_error_msg x) (so_error_call x) (so_opts x).
Definition set_so_data_buf (v : Z) (x : daemon_socket) : daemon_socket :=
  MkSock (so_type x) (so_protocol x) (so_ops x) (so_sock_id x) (so_state x) (so_status x)
    (so_family x) (so_host_addr x) (so_rem_addr x) (so_listening x) (so_backlog x)
    (so_sock_id_new x) (so_sock_index_new x) (so_call_list x) (so_stamp x) (so_data_list x) v
    (so_error_list x) (so_error_msg x) (so_error_call x) (so_opts x).
Definition set_so_error_list (v : list daemon_store) (x : daemon_socket) : daemon_socket :=
  MkSock (so_type x) (so_protocol x) (so_ops x) (so_sock_id x) (so_state x) (so_status x)
    (so_family x) (so_host_addr x) (so_rem_addr x) (so_listening x) (so_backlog x)
    (so_sock_id_new x) (so_sock_index_new x) (so_call_list x) (so_stamp x) (so_data_list x)
    (so_data_buf x) v (so_error_msg x) (so_error_call x) (so_opts x).
Definition set_so_opts (v : sockopt → Z) (x : daemon_socket) : daemon_socket :=
  MkSock (so_type x) (so_protocol x) (so_ops x) (so_sock_id x) (so_state x) (so_status x)
    (so_family x) (so_host_addr x) (so_rem_addr x) (so_listening x) (so_backlog x)
    (so_sock_id_new x) (so_sock_index_new x) (so_call_list x) (so_stamp x) (so_data_list x)
    (so_data_buf x) (so_error_list x) (so_error_msg x) (so_error_call x) v.
Record wedge_to_daemon_hdr := MkHdr {
  h_sock_id : Z; h_sock_index : Z; h_call_type : Z; h_call_pid : Z; h_call_id : Z; h_call_index : Z
}.

(** A message to the wedge: [struct daemon_to_wedge_hdr] and the bytes behind
    it.  The unions hold the identifier and index of the socket in a
    [POLL_EVENT_CALL], those of the call in all others. *)
Record wedge_msg := MkWedge {
  w_call_type : Z; w_id : Z; w_index : Z; w_ret : Z; w_msg : Z; w_payload : list Z
}.

(** [struct daemon_data] without the parts of the module runtime and the
    netlink socket; [wedge] lists the messages the wedge received, [ticks]
    counts the questions to the operating system. *)
Record daemon_data := MkDaemon {
  sockets : list daemon_socket;
  calls : list daemon_call;
  expired_call_list : list daemon_call;
  interrupt_flag : bool;
  d_if_list : list if_record;
  d_if_main : option if_record;
  wedge : list wedge_msg;
  ticks : nat
}.
Definition set_sockets (v : list daemon_socket) (x : daemon_data) : daemon_data :=
  MkDaemon v (calls x) (expired_call_list x) (interrupt_flag x) (d_if_list x) (d_if_main x)
    (wedge x) (ticks x).
Definition set_calls (v : list daemon_call) (x : daemon_data) : daemon_data :=
  MkDaemon (sockets x) v (expired_call_list x) (interrupt_flag x) (d_if_list x) (d_if_main x)
    (wedge x) (ticks x).
Definition set_expired_call_list (v : list daemon_call) (x : daemon_data) : daemon_data :=
  MkDaemon (sockets x) (calls x) v (interrupt_flag x) (d_if_list x) (d_if_main x) (wedge x)
    (ticks x).
Definition set_interrupt_flag (v : bool) (x : daemon_data) : daemon_data :=
  MkDaemon (sockets x) (calls x) (expired_call_list x) v (d_if_list x) (d_if_main x) (wedge x)
    (ticks x).
Definition set_wedge (v : list wedge_msg) (x : daemon_data) : daemon_data :=
  MkDaemon (sockets x) (calls x) (expired_call_list x) (interrupt_flag x) (d_if_list x)
    (d_if_main x) v (ticks x).
Definition set_ticks (v : nat) (x : daemon_data) : daemon_data :=
  MkDaemon (sockets x) (calls x) (expired_call_list x) (interrupt_flag x) (d_if_list x)
    (d_if_main x) (wedge x) v.
(** What the operating system answers to question number [n]: whether
    [sendmsg()] to the wedge succeeds, the value of [rand()], the time of day.
    [port_draws] bounds the loop that draws a free port, and [junk_host_ip] is what an
    uninitialised variable holds. *)
Class DaemonEnv := {
  wedge_ok : nat → bool; rand : nat → Z; timeofday : nat → timeval; port_draws : nat;
  junk_host_ip : Z
}.

(** [randoming] of finstypes.c: [rand() / (RAND_MAX + 1.0)] and the product are
    exact as doubles for a range below [2^22]. *)
Definition randoming (min max r : Z) : Z := min + (max - min + 1) * r / 2147483648.

(** ** Calls *)

(** The memory of a new call is cleared. *)
Definition daemon_call_create (call_id call_index call_pid call_type sock_id sock_index : Z)
    : daemon_call :=
  MkCall sock_id sock_index call_type call_pid call_id call_index true 0 0 0 0 0 0 0 None false.
Definition daemon_call_clone (c : daemon_call) : daemon_call := set_c_alloc true c.
Definition daemon_call_pid_test (call_pid call_type : Z) (c : daemon_call) : bool :=
  (c_pid c =? call_pid) && (c_type c =? call_type).
Definition daemon_call_serial_test (serial_num : Z) (c : daemon_call) : bool :=
  c_serial c =? serial_num.
Definition daemon_call_recvmsg_test (flag : bool) (c : daemon_call) : bool :=
  (c_type c =? RECVMSG_CALL) &&
  (if flag then has (c_flags c) MSG_ERRQUEUE else negb (has (c_flags c) MSG_ERRQUEUE)).

Definition deref (cs : list daemon_call) (r : call_ref) : res daemon_call :=
  match r with
  | CMem c => Ok c
  | CArr i => match cs !! Z.to_nat i with Some c => Ok c | None => Segv end
  end.

(** [list_find1] and [list_find2] on a call list: position, pointer and call of
    the first match. *)
Fixpoint find_call (cs : list daemon_call) (test : daemon_call → bool) (l : list call_ref)
    : res (option (nat * call_ref * daemon_call)) :=
  match l with
  | [] => Ok None
  | r :: l =>
      match deref cs r with
      | Ok c =>
          if test c then Ok (Some (O, r, c))
          else match find_call cs test l with
               | Ok (Some (n, r', c')) => Ok (Some (S n, r', c'))
               | Ok None => Ok None
               | Segv => Segv | Exit => Exit | NoFuel => NoFuel
               end
      | Segv => Segv | Exit => Exit | NoFuel => NoFuel
      end
  end.

(** [list_remove(list, &md->calls[i])]: the first such pointer. *)
Fixpoint remove_arr (i : Z) (l : list call_ref) : list call_ref :=
  match l with
  | [] => []
  | CArr j :: l => if j =? i then l else CArr j :: remove_arr i l
  | r :: l => r :: remove_arr i l
  end.

Section Daemon.
Context {Q : Type} `{BoundedFifo Q finsFrame} `{DaemonEnv}.
Abbreviation ST := (mstate Q daemon_data) (only parsing).

Definition dmod (f : daemon_data → daemon_data) : M ST unit := modify (λ s, set_md (f (md s)) s).

(** [md->sockets[i]] and [md->calls[i]]. *)
Definition get_sock (i : Z) : M ST daemon_socket :=
  s ← get;
  if i <? 0 then segv
  else match sockets (md s) !! Z.to_nat i with Some x => mret x | None => segv end.
Definition upd_sock (i : Z) (f : daemon_socket → daemon_socket) : M ST unit :=
  x ← get_sock i;
  dmod (λ d, set_sockets (<[Z.to_nat i := f x]> (sockets d)) d).
Definition get_call (i : Z) : M ST daemon_call :=
  s ← get;
  if i <? 0 then segv
  else match calls (md s) !! Z.to_nat i with Some x => mret x | None => segv end.
Definition upd_call (i : Z) (f : daemon_call → daemon_call) : M ST unit :=
  x ← get_call i;
  dmod (λ d, set_calls (<[Z.to_nat i := f x]> (calls d)) d).

(** Writing through the pointer [r], the [n]-th of the call list of socket
    [i]. *)
Definition upd_ref (i : Z) (n : nat) (r : call_ref) (f : daemon_call → daemon_call) : M ST unit :=
  match r with
  | CArr j => upd_call j f
  | CMem c => upd_sock i (λ x, set_so_call_list (<[n := CMem (f c)]> (so_call_list x)) x)
  end.

(** A question to the operating system. *)
Definition ask {A} (f : nat → A) : M ST A :=
  s ← get;
  dmod (set_ticks (S (ticks (md s)))) ;; mret (f (ticks (md s))).

(** ** Messages to the wedge *)

Definition send_wedge (m : wedge_msg) : M ST Z :=
  ok ← ask wedge_ok;
  if (ok : bool) then dmod (λ d, set_wedge (wedge d ++ [m]) d) ;; mret 0 else mret (-1).

Definition nack_send (call_id call_index call_type msg : Z) : M ST bool :=
  r ← send_wedge (MkWedge call_type call_id call_index DAEMON_NACK msg []);
  mret (r =? 0).
Definition ack_send (call_id call_index call_type msg : Z) : M ST bool :=
  r ← send_wedge (MkWedge call_type call_id call_index DAEMON_ACK msg []);
  mret (r =? 0).

(** The replies to the call of a header. *)
Definition nack_hdr (h : wedge_to_daemon_hdr) (msg : Z) : M ST unit :=
  nack_send (h_call_id h) (h_call_index h) (h_call_type h) msg ;; mret tt.
Definition ack_hdr (h : wedge_to_daemon_hdr) (msg : Z) : M ST unit :=
  ack_send (h_call_id h) (h_call_index h) (h_call_type h) msg ;; mret tt.
Definition nack_call (c : daemon_call) (msg : Z) : M ST unit :=
  nack_send (c_id c) (c_index c) (c_type c) msg ;; mret tt.

(** A message with a payload, or a negative reply when it cannot be sent. *)
Definition reply_wedge (h : wedge_to_daemon_hdr) (payload : list Z) : M ST unit :=
  r ← send_wedge (MkWedge (h_call_type h) (h_call_id h) (h_call_index h) DAEMON_ACK 0 payload);
  if r =? 0 then mret tt else nack_hdr h 1.

(** [struct sockaddr_in]. *)
Definition sockaddr_bytes (a : sockaddr) : list Z :=
  le_bytes 2 (sin_family a) ++ le_bytes 2 (sin_port a) ++ le_bytes 4 (s_addr a) ++ replicate 8 0.
Definition sizeof_sockaddr_in := 16.

(** One element of the control data: a [struct cmsghdr] and its data, padded
    to a multiple of 8 with the cleared bytes of the buffer. *)
Definition cmsg (level type : Z) (data : list Z) : list Z :=
  le_bytes 8 (16 + Z.of_nat (length data)) ++ le_bytes 4 level ++ le_bytes 4 type ++ data
  ++ replicate ((8 - length data mod 8) mod 8) 0.

(** Append an element if it fits, otherwise flag the truncation. *)
Definition add_cmsg (msg_controllen : Z) (m : list Z) (st : Z * list Z) : Z * list Z :=
  let '(msg_flags, control) := st in
  if Z.of_nat (length control + length m) <=? msg_controllen then (msg_flags, control ++ m)
  else (Z.lor msg_flags MSG_CTRUNC, control).

(** [struct errhdr]: [sock_extended_err] and the address of the offender. *)
Definition errhdr (errno origin type code src_ip : Z) : list Z :=
  le_bytes 4 errno ++ [u8 origin; u8 type; u8 code; 0] ++ le_bytes 4 0 ++ le_bytes 4 0
  ++ sockaddr_bytes (MkAddr AF_INET (htons 0) (htonl src_ip)).

(** The control data for a received frame with metadata [m]; the result has the
    message flags and the bytes. *)
Definition recvmsg_control (sock_index : Z) (msg_flags : Z) (m : metadata) (msg_controllen flags : Z)
    : M ST (Z * list Z) :=
  if DAEMON_CONTROL_LEN_MAX <? msg_controllen then mret (msg_flags, [])
  else
    let msg_controllen := if msg_controllen =? 0 then DAEMON_CONTROL_LEN_DEFAULT else msg_controllen in
    x ← get_sock sock_index;
    let st := (msg_flags, []) in
    let st := if so_opts x FSO_TIMESTAMP =? 0 then st
              else add_cmsg msg_controllen
                     (cmsg SOL_SOCKET SO_TIMESTAMP
                        (le_bytes 8 (fst (so_stamp x)) ++ le_bytes 8 (snd (so_stamp x)))) st in
    st ← (if so_opts x FIP_RECVTTL =? 0 then mret st
          else match metadata_readFromElement m "recv_ttl" with
               | None => mret st
               | Some (VInt32 ttl) => mret (add_cmsg msg_controllen (cmsg SOL_IP IP_TTL (le_bytes 4 ttl)) st)
               | Some _ => segv
               end : M ST (Z * list Z));
    if (so_opts x FIP_RECVERR =? 0) || negb (has flags MSG_ERRQUEUE) then mret st
    else
      src_ip ← lift (secure_metadata_readFromElement m "recv_src_ipv4");
      origin ← lift (secure_metadata_readFromElement m "recv_ee_origin");
      type ← lift (secure_metadata_readFromElement m "recv_icmp_type");
      code ← lift (secure_metadata_readFromElement m "recv_icmp_code");
      mret (add_cmsg msg_controllen
              (cmsg SOL_IP IP_RECVERR (errhdr EHOSTUNREACH origin type code src_ip)) st).

Definition send_wedge_recvmsg (call_type call_id call_index msg_flags : Z) (addr : sockaddr)
    (data_len : Z) (data : option (list Z)) (control : list Z) : M ST bool :=
  bytes ← lift (read_bytes data data_len);
  r ← send_wedge (MkWedge call_type call_id call_index DAEMON_ACK msg_flags
        (le_bytes 4 sizeof_sockaddr_in ++ sockaddr_bytes addr
         ++ le_bytes 4 data_len ++ bytes
         ++ le_bytes 4 (Z.of_nat (length control)) ++ control));
  mret (r =? 0).

(** ** The tables *)

Definition daemon_store_free (st : daemon_store) : M ST unit := free_ff (st_ff st).

(** [timer_stop] and the flag its handler sets. *)
Definition stop_call (c : daemon_call) : daemon_call := set_c_to_flag false (set_c_timer timer_stop c).

Definition daemon_calls_remove (call_index : Z) : M ST unit :=
  upd_call call_index (λ c, stop_call (set_c_id NO_CALL c)).

(** On a pointer into the table: an allocated call only loses its memory. *)
Definition daemon_call_free (r : call_ref) : M ST unit :=
  match r with
  | CMem _ => mret tt
  | CArr i =>
      c ← get_call i;
      if c_alloc c then segv
      else if c_id c =? NO_CALL then mret tt
      else upd_call i (λ c, stop_call (set_c_id NO_CALL c))
  end.

Definition daemon_calls_insert (call_id call_index call_pid call_type sock_id sock_index : Z)
    : M ST unit :=
  old ← get_call call_index;
  (if c_id old =? NO_CALL then mret tt
   else
     upd_call call_index stop_call ;;
     x ← get_sock (c_sock_index old);
     if so_sock_id x =? c_sock_id old
     then upd_sock (c_sock_index old)
            (λ x, set_so_call_list (remove_arr call_index (so_call_list x)) x)
     else mret tt) ;;
  upd_call call_index (λ c,
    MkCall sock_id sock_index call_type call_pid call_id call_index (c_alloc c)
      0 0 0 0 0 0 0 (c_timer c) (c_to_flag c)).

(** The index of the call that waits for the reply [serial_num], or -1. *)
Fixpoint first_index {A} (test : A → bool) (l : list A) (i : Z) : Z :=
  match l with
  | [] => -1
  | x :: l => if test x then i else first_index test l (i + 1)
  end.
Definition daemon_calls_find (serial_num : Z) : M ST Z :=
  s ← get;
  mret (first_index (λ c, negb (c_id c =? NO_CALL) && (c_serial c =? serial_num)) (calls (md s)) 0).

(** The options that are not set keep the value of the socket that had this
    place before. *)
Definition new_socket (sock_id type protocol ops : Z) (x : daemon_socket) : daemon_socket :=
  MkSock type protocol ops sock_id SS_UNCONNECTED DAEMON_STATUS_RDWR AF_UNSPEC
    (MkAddr 0 0 0) (MkAddr 0 0 0) 0 DAEMON_BACKLOG_DEFAULT NO_SOCK (-1) [] (0, 0) [] 0 [] 0 0
    (put_opt FIP_TTL DAEMON_TTL_DEFAULT (put_opt FIP_TOS 64 (put_opt FSO_REUSEADDR 0 (so_opts x)))).
Definition daemon_sockets_insert (sock_id sock_index type protocol ops : Z) : M ST bool :=
  x ← get_sock sock_index;
  if so_sock_id x =? NO_SOCK then upd_sock sock_index (new_socket sock_id type protocol ops) ;; mret true
  else mret false.

Definition daemon_sockets_find (sock_id : Z) : M ST Z :=
  s ← get; mret (first_index (λ x, so_sock_id x =? sock_id) (sockets (md s)) 0).

(** Calls that wait are refused; [l] is what is left of the list. *)
Fixpoint nack_all (l : list call_ref) : M ST unit :=
  match l with
  | [] => mret tt
  | r :: l =>
      (match r with
       | CMem c => nack_call c 1
       | CArr i =>
           c ← get_call i;
           if c_alloc c then segv
           else if c_id c =? NO_CALL then mret tt
           else nack_call c 1 ;; daemon_calls_remove (c_index c)
       end) ;;
      nack_all l
  end.
Fixpoint free_stores (l : list daemon_store) : M ST unit :=
  match l with
  | [] => mret tt
  | st :: l => daemon_store_free st ;; free_stores l
  end.
Definition daemon_sockets_remove (sock_index : Z) : M ST unit :=
  upd_sock sock_index (λ x, set_so_state SS_FREE (set_so_sock_id NO_SOCK x)) ;;
  x ← get_sock sock_index;
  nack_all (so_call_list x) ;;
  free_stores (so_error_list x) ;;
  free_stores (so_data_list x) ;;
  upd_sock sock_index (λ x, set_so_call_list [] (set_so_error_list [] (set_so_data_list [] x))).

(** ** Messages to other modules *)

Definition daemon_fcf_to_switch (flow : Z) (m : metadata) (serial opcode param_id : Z) : M ST Z :=
  s ← get;
  let ff := MkFrame 0 (Some m)
              (Ctrl (MkCtrl (u8 (m_index (fm s))) serial opcode param_id 0 0 CNull)) in
  sent ← module_send_flow ff flow;
  (if sent =? 0 then free_ff ff else mret tt) ;; mret sent.

Definition daemon_fdf_to_switch (flow data_len : Z) (data : option (list Z)) (m : metadata) : M ST Z :=
  let ff := MkFrame 0 (Some m) (Data (MkData DIR_DOWN data_len data)) in
  sent ← module_send_flow ff flow;
  (if sent =? 0 then free_ff ff else mret tt) ;; mret sent.

(** The stamp of a received frame is taken from its metadata (an integer is
    stored in the first bytes of the [struct timeval]), else from the clock. *)
Definition read_stamp (sock_index : Z) (m : metadata) : M ST unit :=
  match metadata_readFromElement m "recv_stamp" with
  | None => t ← ask timeofday; upd_sock sock_index (set_so_stamp t)
  | Some (VInt64 v) => upd_sock sock_index (λ x, set_so_stamp (v, snd (so_stamp x)) x)
  | Some (VInt32 v) =>
      upd_sock sock_index (λ x,
        let sec := fst (so_stamp x) in
        set_so_stamp (sec - u32 sec + u32 v, snd (so_stamp x)) x)
  | Some _ => segv
  end.

End Daemon.
