(* ===== verification/DaemonUdp.v ===== *)
(** * UDP sockets: [modules/daemon/udpHandling.c]

    The handlers of the calls on a UDP socket, and of the datagrams and errors
    that arrive for one.  Each runs with the semaphore of the socket table
    held. *)

From stdpp Require Import base list gmap strings.
From Stdlib Require Import ZArith Lia.
From S2P Require Import Prelude Queue Metadata Frame Module IPv4 Double Daemon.
Open Scope Z_scope.
Open Scope fins_scope.

Definition POLLIN := 1.
Definition POLLPRI := 2.
Definition POLLOUT := 4.
Definition POLLERR := 8.
Definition POLLHUP := 16.
Definition POLLNVAL := 32.
Definition POLLRDNORM := 64.
Definition POLLRDBAND := 128.
Definition POLLWRNORM := 256.
Definition POLLWRBAND := 512.
Definition POLL_READ := 195.
Definition POLL_WRITE := 772.
Definition FIONREAD := 21531.
Definition SIOCGSTAMP := 35078.
Definition DAEMON_FLOW_UDP := 2.

(** ** Finding the socket *)

Definition udp_inet (x : daemon_socket) : bool :=
  negb (so_sock_id x =? NO_SOCK) && (so_protocol x =? IPPROTO_UDP) && (so_family x =? AF_INET).

Definition match_host_addr4_udp (socks : list daemon_socket) (host_ip host_port : Z) : Z :=
  first_index (λ x,
    udp_inet x && (addr4_get_port (so_host_addr x) =? host_port)
    && ((addr4_get_ip (so_host_addr x) =? DAEMON_ADDR_ANY)
        || (addr4_get_ip (so_host_addr x) =? host_ip))) socks 0.

Definition match_conn_addr4_udp (socks : list daemon_socket) (host_ip host_port rem_ip rem_port : Z) : Z :=
  first_index (λ x,
    udp_inet x && (addr4_get_port (so_host_addr x) =? host_port)
    && (addr4_get_port (so_rem_addr x) =? rem_port)
    && (addr4_get_ip (so_host_addr x) =? host_ip) && (addr4_get_ip (so_rem_addr x) =? rem_ip)) socks 0.

Definition match_packet_addr4_udp (socks : list daemon_socket) (src_ip src_port dst_ip dst_port : Z) : Z :=
  let index := match_conn_addr4_udp socks dst_ip dst_port src_ip src_port in
  if index =? -1 then
    let index := match_conn_addr4_udp socks DAEMON_ADDR_ANY dst_port src_ip src_port in
    if index =? -1 then
      let index := match_conn_addr4_udp socks dst_ip dst_port DAEMON_ADDR_ANY DAEMON_PORT_ANY in
      if index =? -1 then
        match_conn_addr4_udp socks DAEMON_ADDR_ANY dst_port DAEMON_ADDR_ANY DAEMON_PORT_ANY
      else index
    else index
  else index.

Definition socket_udp_test (domain type protocol : Z) : bool :=
  (type =? SOCK_DGRAM) && ((protocol =? IPPROTO_UDP) || (protocol =? IPPROTO_IP)).

(** ** Masks of poll events *)

(** What [poll_out_udp] reports of [events]: readable with data, an error in the
    queue when errors are asked for, always writable. *)
Definition poll_mask (x : daemon_socket) (events : Z) : Z :=
  let mask := if has events POLLERR && negb (so_opts x FIP_RECVERR =? 0)
                 && negb (Nat.eqb (length (so_error_list x)) 0) then POLLERR else 0 in
  let mask := if has events POLL_READ && (0 <? so_data_buf x)
              then Z.lor mask (Z.lor POLLIN (Z.lor POLLRDNORM POLLPRI)) else mask in
  if has events POLL_WRITE then Z.lor mask POLL_WRITE else mask.

(** What [poll_in_udp] reports when [flags] happened to a call waiting for
    [events]. *)
Definition poll_in_mask (flags events : Z) : Z :=
  let mask := if has flags POLLERR && has events POLLERR then POLLERR else 0 in
  let mask := if has flags POLLHUP && has events POLLHUP then Z.lor mask POLLHUP else mask in
  let mask := if has flags POLL_READ && has events POLL_READ
              then Z.lor mask (Z.lor POLLIN (Z.lor POLLRDNORM POLLPRI)) else mask in
  if has flags POLL_WRITE && has events POLL_WRITE then Z.lor mask POLL_WRITE else mask.

(** [buf]: events not yet triggered; [flags]: triggered but not acknowledged;
    [ret]: acknowledged. *)
Definition set_events (b f r : Z) (c : daemon_call) : daemon_call :=
  set_c_ret r (set_c_flags f (set_c_buf b c)).

(** The four bytes of an [int]. *)
Definition get_int (b : list Z) : res Z :=
  match read_at b 0 4 with Ok v => Ok (s32 v) | Segv => Segv | Exit => Exit | NoFuel => NoFuel end.

(** [optlen >= sizeof(int)] compares as unsigned numbers. *)
Definition holds_int (optlen : Z) : bool := 4 <=? u64 optlen.

(** The option an option name stands for; names without one are accepted and
    ignored. *)
Definition udp_option (level optname : Z) : option sockopt :=
  if level =? SOL_IP then
    if optname =? 1 then Some FIP_TOS
    else if optname =? IP_TTL then Some FIP_TTL
    else if optname =? IP_RECVERR then Some FIP_RECVERR
    else if optname =? 12 then Some FIP_RECVTTL
    else None
  else if level =? SOL_RAW then if optname =? 1 then Some FICMP_FILTER else None
  else if level =? SOL_TCP then if optname =? 1 then Some FTCP_NODELAY else None
  else if level =? SOL_SOCKET then
    if optname =? 1 then Some FSO_DEBUG
    else if optname =? 2 then Some FSO_REUSEADDR
    else if optname =? 7 then Some FSO_SNDBUF
    else if optname =? 8 then Some FSO_RCVBUF
    else if optname =? 9 then Some FSO_KEEPALIVE
    else if optname =? 10 then Some FSO_OOBINLINE
    else if optname =? 12 then Some FSO_PRIORITY
    else if optname =? 16 then Some FSO_PASSCRED
    else if optname =? SO_TIMESTAMP then Some FSO_TIMESTAMP
    else None
  else None.

Section DaemonUdp.
Context {Q : Type} `{BoundedFifo Q finsFrame} `{DaemonEnv}.
Abbreviation ST := (mstate Q daemon_data) (only parsing).

Definition socket_out_udp (h : wedge_to_daemon_hdr) (domain : Z) : M ST unit :=
  ok ← daemon_sockets_insert (h_sock_id h) (h_sock_index h) SOCK_DGRAM IPPROTO_UDP IPPROTO_UDP;
  if (ok : bool) then ack_hdr h 0 else nack_hdr h 1.

(** Draw ports until one is free. *)
Fixpoint draw_port (fuel : nat) (host_ip : Z) : M ST Z :=
  match fuel with
  | O => nofuel
  | S fuel =>
      r ← ask rand;
      let port := u16 (randoming DAEMON_PORT_MIN DAEMON_PORT_MAX r) in
      s ← get;
      if match_host_addr4_udp (sockets (md s)) host_ip port =? -1 then mret port
      else draw_port fuel host_ip
  end.

(** The IPv4 address of the main interface, which is dereferenced. *)
Definition main_ip : M ST (option Z) :=
  s ← get;
  match d_if_main (md s) with
  | None => segv
  | Some i =>
      match addr_list i with
      | None => segv
      | Some l =>
          mret (match find_first addr_is_v4 l with
                | Some a => Some (addr4_get_ip (a_ip a))
                | None => None
                end)
      end
  end.

(** A socket without an address gets a port that is free for the address of the
    main interface; its own address stays "any".  [dflt] stands for the missing
    address of an interface. *)
Definition auto_bind (i dflt : Z) : M ST (Z * Z) :=
  upd_sock i (set_so_family AF_INET) ;;
  a ← main_ip;
  port ← draw_port port_draws (default dflt a);
  upd_sock i (λ x, set_so_host_addr (addr4_set_port port (so_host_addr x)) x) ;;
  mret (default dflt a, port).

Definition bind_out_udp (h : wedge_to_daemon_hdr) (addr : sockaddr) : M ST unit :=
  x ← get_sock (h_sock_index h);
  if negb (so_family x =? AF_UNSPEC) then nack_hdr h EINVAL
  else if sin_family addr =? AF_INET then
    let host_ip := ntohl (addr4_get_ip addr) in
    let host_port := ntohs (addr4_get_port addr) in
    port ← (if host_port =? DAEMON_PORT_ANY then p ← draw_port port_draws host_ip; mret (Some p)
            else
              s ← get;
              if negb (match_host_addr4_udp (sockets (md s)) host_ip host_port =? -1)
                 && (so_opts x FSO_REUSEADDR =? 0)
              then mret None else mret (Some host_port) : M ST (option Z));
    match port with
    | None => nack_hdr h EADDRINUSE
    | Some port =>
        upd_sock (h_sock_index h) (λ x,
          set_so_host_addr (addr4_set_port port (addr4_set_ip host_ip (so_host_addr x)))
            (set_so_family AF_INET x)) ;;
        ack_hdr h 0
    end
  else if sin_family addr =? AF_INET6 then
    upd_sock (h_sock_index h) (set_so_family AF_INET6) ;; ack_hdr h 0
  else nack_hdr h 1.

Definition listen_out_udp (h : wedge_to_daemon_hdr) (backlog : Z) : M ST unit :=
  x ← get_sock (h_sock_index h);
  if so_family x =? AF_UNSPEC then nack_hdr h 1
  else
    upd_sock (h_sock_index h) (λ x, set_so_backlog backlog (set_so_listening 1 x)) ;;
    ack_hdr h 0.

Definition connect_out_udp (h : wedge_to_daemon_hdr) (addr : sockaddr) (flags : Z) : M ST unit :=
  x ← get_sock (h_sock_index h);
  if sin_family addr =? AF_INET then
    if negb (so_family x =? AF_UNSPEC) && negb (so_family x =? AF_INET) then nack_hdr h EAFNOSUPPORT
    else
      let rem_ip := ntohl (addr4_get_ip addr) in
      let rem_port := ntohs (addr4_get_port addr) in
      upd_sock (h_sock_index h) (λ x,
        set_so_rem_addr (addr4_set_port rem_port (addr4_set_ip rem_ip (so_rem_addr x)))
          (set_so_listening 0 (set_so_state SS_CONNECTING x))) ;;
      (if so_family x =? AF_UNSPEC then auto_bind (h_sock_index h) 0 ;; mret tt else mret tt) ;;
      ack_hdr h 0
  else if sin_family addr =? AF_INET6 then
    if negb (so_family x =? AF_UNSPEC) && negb (so_family x =? AF_INET6) then nack_hdr h EAFNOSUPPORT
    else nack_hdr h 1
  else if SS_UNCONNECTED <? so_state x then
    upd_sock (h_sock_index h) (set_so_state SS_UNCONNECTED) ;;
    if so_family x =? AF_INET then
      upd_sock (h_sock_index h) (λ x,
        set_so_rem_addr (addr4_set_port 0 (addr4_set_ip 0 (so_rem_addr x))) x) ;;
      ack_hdr h 0
    else if so_family x =? AF_INET6 then nack_hdr h 1
    else ack_hdr h 0
  else nack_hdr h EAFNOSUPPORT.

Definition accept_out_udp (h : wedge_to_daemon_hdr) (sock_id_new sock_index_new flags : Z) : M ST unit :=
  ack_hdr h 0.

(** [getsockname] (0), [getpeername] (1) and [accept4] (2). *)
Definition getname_out_udp (h : wedge_to_daemon_hdr) (peer : Z) : M ST unit :=
  x ← get_sock (h_sock_index h);
  let connected := SS_UNCONNECTED <? so_state x in
  if so_family x =? AF_INET then
    a ← (if peer =? 0 then
           let ip := addr4_get_ip (so_host_addr x) in
           ip ← (if ip =? DAEMON_ADDR_ANY then a ← main_ip; mret (default ip a) else mret ip : M ST Z);
           mret (ip, addr4_get_port (so_host_addr x))
         else if ((peer =? 1) || (peer =? 2)) && connected
         then mret (addr4_get_ip (so_rem_addr x), addr4_get_port (so_rem_addr x))
         else mret (0, 0) : M ST (Z * Z));
    reply_wedge h (le_bytes 4 sizeof_sockaddr_in
      ++ sockaddr_bytes (MkAddr AF_INET (htons (snd a)) (htonl (fst a))))
  else if so_family x =? AF_INET6 then
    let port := if peer =? 0 then addr4_get_port (so_host_addr x)
                else if ((peer =? 1) || (peer =? 2)) && connected then addr4_get_port (so_rem_addr x)
                else 0 in
    reply_wedge h (le_bytes 4 28 ++ le_bytes 2 AF_INET6 ++ le_bytes 2 (htons port) ++ replicate 24 0)
  else
    reply_wedge h (le_bytes 4 sizeof_sockaddr_in ++ sockaddr_bytes (MkAddr AF_INET 0 0)).

Definition ioctl_out_udp (h : wedge_to_daemon_hdr) (cmd : Z) (buf : list Z) : M ST unit :=
  x ← get_sock (h_sock_index h);
  if cmd =? FIONREAD then reply_wedge h (le_bytes 4 (so_data_buf x))
  else if cmd =? SIOCGSTAMP then
    (if (fst (so_stamp x) =? 0) && (snd (so_stamp x) =? 0)
     then t ← ask timeofday; upd_sock (h_sock_index h) (set_so_stamp t)
     else mret tt) ;;
    x ← get_sock (h_sock_index h);
    reply_wedge h (le_bytes 4 16 ++ le_bytes 8 (fst (so_stamp x)) ++ le_bytes 8 (snd (so_stamp x)))
  else ack_hdr h 0.

(** ** Sending *)

Fixpoint put_metas (kvs : list (string * Z)) (m : metadata) : M ST metadata :=
  match kvs with
  | [] => mret m
  | (k, v) :: kvs =>
      match secure_metadata_writeToElement k (VInt32 v) m with
      | Ok (_, m') => put_metas kvs m'
      | Segv => segv | Exit => exit_ | NoFuel => nofuel
      end
  end.

(** The rest of the metadata, and the frame for the UDP module. *)
Definition send_datagram (h : wedge_to_daemon_hdr) (data_len : Z) (data : option (list Z)) (m : metadata)
    : M ST unit :=
  x ← get_sock (h_sock_index h);
  m ← put_metas [("send_family", so_family x); ("send_ttl", so_opts x FIP_TTL);
                 ("send_tos", so_opts x FIP_TOS)] m;
  sent ← daemon_fdf_to_switch DAEMON_FLOW_UDP data_len data m;
  if sent =? 0 then nack_hdr h 1 else ack_hdr h data_len.

Definition sendmsg_out_udp (h : wedge_to_daemon_hdr) (data_len : Z) (data : option (list Z))
    (flags addr_len : Z) (addr : sockaddr) : M ST unit :=
  if data_len =? 0 then ack_hdr h 0
  else
    x ← get_sock (h_sock_index h);
    if sin_family addr =? AF_INET then
      if negb (so_family x =? AF_UNSPEC) && negb (so_family x =? AF_INET) then nack_hdr h EAFNOSUPPORT
      else
        let '(rem_ip, rem_port) :=
          if negb (addr_len =? 0) then (ntohl (addr4_get_ip addr), ntohs (addr4_get_port addr))
          else (addr4_get_ip (so_rem_addr x), addr4_get_port (so_rem_addr x)) in
        host ← (if negb (so_family x =? AF_UNSPEC) then
                  let ip := addr4_get_ip (so_host_addr x) in
                  ip ← (if ip =? DAEMON_ADDR_ANY then a ← main_ip; mret (default ip a) else mret ip : M ST Z);
                  mret (ip, addr4_get_port (so_host_addr x))
                else auto_bind (h_sock_index h) junk_host_ip : M ST (Z * Z));
        m ← put_metas [("send_src_ipv4", fst host); ("send_src_port", snd host);
                       ("send_dst_ipv4", rem_ip); ("send_dst_port", rem_port)] metadata_create;
        send_datagram h data_len data m
    else if sin_family addr =? AF_INET6 then
      if negb (so_family x =? AF_UNSPEC) && negb (so_family x =? AF_INET6) then nack_hdr h EAFNOSUPPORT
      else nack_hdr h 1
    else if SS_UNCONNECTED <? so_state x then
      if so_family x =? AF_INET then
        a ← main_ip;
        m ← put_metas [("send_src_ipv4", default (addr4_get_ip (so_host_addr x)) a);
                       ("send_dst_ipv4", addr4_get_ip (so_rem_addr x));
                       ("send_src_port", addr4_get_port (so_host_addr x));
                       ("send_dst_port", addr4_get_port (so_rem_addr x))] metadata_create;
        send_datagram h data_len data m
      else nack_hdr h 1
    else nack_hdr h EAFNOSUPPORT.

(** ** Receiving *)

(** What a stored frame holds, as data or as control frame. *)
Definition stored_data (ff : finsFrame) : M ST (Z * option (list Z)) :=
  d ← ff_data ff; mret (pduLength d, pdu d).
Definition stored_error (ff : finsFrame) : M ST (Z * option (list Z)) :=
  c ← ff_ctrl ff;
  match cdata c with
  | CBytes b => mret (data_len c, Some b)
  | CNull => mret (data_len c, None)
  | _ => segv
  end.

Definition netw_addr (a : sockaddr) : sockaddr :=
  MkAddr (sin_family a) (htons (sin_port a)) (htonl (s_addr a)).

(** The reply to a [recvmsg] call with a stored frame. *)
Definition recvmsg_reply (h : wedge_to_daemon_hdr) (st : daemon_store) (data_len : Z)
    (data : option (list Z)) (buf_len msg_controllen flags : Z) : M ST unit :=
  m ← ff_meta (st_ff st);
  read_stamp (h_sock_index h) m ;;
  let msg_flags := if has flags MSG_ERRQUEUE then MSG_ERRQUEUE else 0 in
  let '(msg_len, msg_flags) :=
    if u32 buf_len <? data_len then (u32 buf_len, Z.lor msg_flags MSG_TRUNC)
    else (data_len, msg_flags) in
  ctl ← recvmsg_control (h_sock_index h) msg_flags m msg_controllen flags;
  ok ← send_wedge_recvmsg (h_call_type h) (h_call_id h) (h_call_index h) (fst ctl)
         (netw_addr (st_addr st)) msg_len data (snd ctl);
  (if (ok : bool) then mret tt else nack_hdr h 1) ;;
  daemon_store_free st.

(** No data: the call waits in the table, for 500 ms if it must not block. *)
Definition recvmsg_wait (h : wedge_to_daemon_hdr) (buf_len msg_controllen flags : Z) : M ST unit :=
  x ← get_sock (h_sock_index h);
  if Z.of_nat (length (so_call_list x)) <? DAEMON_CALL_LIST_MAX then
    daemon_calls_insert (h_call_id h) (h_call_index h) (h_call_pid h) (h_call_type h) (h_sock_id h) (h_sock_index h) ;;
    upd_call (h_call_index h) (set_events (u32 buf_len) (u32 flags) msg_controllen) ;;
    upd_sock (h_sock_index h) (λ x, set_so_call_list (so_call_list x ++ [CArr (h_call_index h)]) x) ;;
    if has flags MSG_DONTWAIT then
      t ← lift (timer_once_start (d_of_Z DAEMON_BLOCK_DEFAULT));
      upd_call (h_call_index h) (set_c_timer t)
    else mret tt
  else nack_hdr h 1.

Definition recvmsg_out_udp (h : wedge_to_daemon_hdr) (buf_len msg_controllen flags : Z) : M ST unit :=
  x ← get_sock (h_sock_index h);
  if has flags MSG_ERRQUEUE then
    match so_error_list x with
    | [] => nack_hdr h EAGAIN
    | st :: l =>
        upd_sock (h_sock_index h) (set_so_error_list l) ;;
        d ← stored_error (st_ff st);
        if sin_family (st_addr st) =? AF_INET
        then recvmsg_reply h st (fst d) (snd d) buf_len msg_controllen flags
        else nack_hdr h 1
    end
  else if 0 <? so_data_buf x then
    match so_data_list x with
    | [] => segv
    | st :: l =>
        d ← stored_data (st_ff st);
        upd_sock (h_sock_index h) (λ x,
          set_so_data_buf (s32 (so_data_buf x - fst d)) (set_so_data_list l x)) ;;
        if sin_family (st_addr st) =? AF_INET
        then recvmsg_reply h st (fst d) (snd d) buf_len msg_controllen flags
        else nack_hdr h 1
    end
  else recvmsg_wait h buf_len msg_controllen flags.

Definition release_out_udp (h : wedge_to_daemon_hdr) : M ST unit :=
  daemon_sockets_remove (h_sock_index h) ;; ack_hdr h 0.

(** ** Polling *)

Definition poll_find (h : wedge_to_daemon_hdr) (x : daemon_socket) : M ST (option (nat * call_ref * daemon_call)) :=
  s ← get;
  lift (find_call (calls (md s)) (daemon_call_pid_test (h_call_pid h) (h_call_type h)) (so_call_list x)).

Definition drop_ref (i : Z) (n : nat) (r : call_ref) : M ST unit :=
  upd_sock i (λ x, set_so_call_list (delete n (so_call_list x)) x) ;; daemon_call_free r.

Definition poll_out_udp (h : wedge_to_daemon_hdr) (events : Z) : M ST unit :=
  let i := h_sock_index h in
  x ← get_sock i;
  r ← poll_find h x;
  if negb (events =? 0) then
    let mask := poll_mask x events in
    let ret_mask := Z.land events mask in
    let events_left := Z.ldiff events mask in
    if negb (events_left =? 0) then
      match r with
      | Some (n, r, c) =>
          upd_ref i n r (set_events events_left 0 ret_mask) ;; ack_hdr h ret_mask
      | None =>
          if Z.of_nat (length (so_call_list x)) <? DAEMON_CALL_LIST_MAX then
            let c := daemon_call_create (h_call_id h) (h_call_index h) (h_call_pid h) (h_call_type h)
                       (h_sock_id h) i in
            upd_sock i (λ x, set_so_call_list
              (so_call_list x ++ [CMem (set_events events_left 0 ret_mask c)]) x) ;;
            ack_hdr h ret_mask
          else nack_hdr h 1
      end
    else
      match r with Some (n, r, c) => drop_ref i n r | None => mret tt end ;;
      ack_hdr h ret_mask
  else
    match r with
    | Some (n, r, c) =>
        let events := Z.lor (c_buf c) (c_flags c) in
        let mask := poll_mask x events in
        let ret_mask := Z.land events mask in
        let events_left := Z.ldiff events mask in
        (if negb (events_left =? 0)
         then upd_ref i n r (set_events events_left 0 (Z.lor (c_ret c) ret_mask))
         else drop_ref i n r) ;;
        ack_hdr h ret_mask
    | None => ack_hdr h (poll_mask x (Z.lor POLLERR (Z.lor POLL_READ POLL_WRITE)))
    end.

Definition shutdown_out_udp (h : wedge_to_daemon_hdr) (how : Z) : M ST unit := ack_hdr h 0.

(** ** Options *)

Definition getsockopt_out_udp (h : wedge_to_daemon_hdr) (level optname optlen : Z) : M ST unit :=
  x ← get_sock (h_sock_index h);
  match udp_option level optname with
  | Some o =>
      if holds_int optlen then reply_wedge h (le_bytes 4 4 ++ le_bytes 4 (so_opts x o))
      else reply_wedge h (le_bytes 4 0)
  | None => reply_wedge h (le_bytes 4 0)
  end.

(** The errors that a socket keeps when it no longer asks for them: the last. *)
Fixpoint drop_errors (l : list daemon_store) : M ST (list daemon_store) :=
  match l with
  | [] => mret []
  | st :: l' => match l' with [] => mret l | _ => daemon_store_free st ;; drop_errors l' end
  end.

Definition set_option (i : Z) (o : sockopt) (v : Z) : M ST unit :=
  x ← get_sock i;
  upd_sock i (λ x, set_so_opts (put_opt o v (so_opts x)) x) ;;
  if decide (o = FIP_RECVERR ∧ so_opts x FIP_RECVERR ≠ 0 ∧ v = 0) then
    l ← drop_errors (so_error_list x);
    upd_sock i (set_so_error_list l)
  else mret tt.

Definition setsockopt_out_udp (h : wedge_to_daemon_hdr) (level optname optlen : Z) (optval : list Z) : M ST unit :=
  (match udp_option level optname with
   | Some FSO_PASSCRED | None => mret tt
   | Some o =>
       if holds_int optlen then
         v ← lift (get_int optval);
         set_option (h_sock_index h) o (if decide (o = FSO_RCVBUF) then s32 (2 * v) else v)
       else mret tt
   end) ;;
  ack_hdr h 0.

(** ** Events from the switch *)

(** One call of the list that [list_for_each2] visits. *)
Definition poll_in_udp (i : Z) (n : nat) (r : call_ref) (flags : Z) : M ST unit :=
  s ← get;
  c ← lift (deref (calls (md s)) r);
  if negb (c_type c =? POLL_CALL) then mret tt
  else
    let mask := poll_in_mask flags (c_buf c) in
    let ret_mask := Z.land (c_buf c) mask in
    if ret_mask =? 0 then mret tt
    else
      send_wedge (MkWedge POLL_EVENT_CALL (c_sock_id c) (c_sock_index c) DAEMON_ACK ret_mask []) ;;
      upd_ref i n r (set_events (Z.ldiff (c_buf c) mask) (Z.lor (c_flags c) ret_mask) (c_ret c)).
Fixpoint poll_in_each (i : Z) (n : nat) (l : list call_ref) (flags : Z) : M ST unit :=
  match l with
  | [] => mret tt
  | r :: l => poll_in_udp i n r flags ;; poll_in_each i (S n) l flags
  end.

(** The waiting call [c] gets the data. *)
Definition recvmsg_in_udp (c : daemon_call) (m : metadata) (data_len : Z) (data : option (list Z))
    (addr : sockaddr) (flags : Z) : M ST unit :=
  read_stamp (c_sock_index c) m ;;
  let msg_flags := if has flags MSG_ERRQUEUE then MSG_ERRQUEUE else 0 in
  let '(data_len, msg_flags) :=
    if c_buf c <? data_len then (c_buf c, Z.lor msg_flags MSG_TRUNC) else (data_len, msg_flags) in
  if sin_family addr =? AF_INET then
    ctl ← recvmsg_control (c_sock_index c) msg_flags m (c_ret c) flags;
    ok ← send_wedge_recvmsg (c_type c) (c_id c) (c_index c) (fst ctl) (netw_addr addr) data_len data (snd ctl);
    (if (ok : bool) then mret tt else nack_call c 1) ;;
    daemon_calls_remove (c_index c)
  else nack_call c 1 ;; daemon_calls_remove (c_index c).

Definition find_reader (i : Z) (flag : bool) : M ST (option (nat * call_ref * daemon_call)) :=
  s ← get;
  x ← get_sock i;
  lift (find_call (calls (md s)) (daemon_call_recvmsg_test flag) (so_call_list x)).

(** A datagram goes to the first waiting reader, or behind the stored ones. *)
Definition daemon_in_fdf_udp (ff : finsFrame) (family : Z) (src dst : sockaddr) : M ST unit :=
  src_port ← ff_read ff "recv_src_port";
  dst_port ← ff_read ff "recv_dst_port";
  if family =? AF_INET then
    let src := addr4_set_port (u16 src_port) src in
    let dst := addr4_set_port (u16 dst_port) dst in
    s ← get;
    let i := match_packet_addr4_udp (sockets (md s)) (addr4_get_ip src) (u16 src_port)
               (addr4_get_ip dst) (u16 dst_port) in
    if i =? -1 then free_ff ff
    else
      r ← find_reader i false;
      match r with
      | Some (n, r, c) =>
          upd_sock i (λ x, set_so_call_list (delete n (so_call_list x)) x) ;;
          m ← ff_meta ff;
          d ← ff_data ff;
          recvmsg_in_udp c m (pduLength d) (pdu d) src 0 ;;
          free_ff ff
      | None =>
          x ← get_sock i;
          poll_in_each i 0 (so_call_list x) POLLIN ;;
          d ← ff_data ff;
          if Z.of_nat (length (so_data_list x)) <? STORE_LIST_MAX then
            upd_sock i (λ x,
              set_so_data_buf (s32 (so_data_buf x + pduLength d))
                (set_so_data_list (so_data_list x ++ [MkStored src ff 0]) x))
          else daemon_store_free (MkStored src ff 0)
      end
  else free_ff ff.

(** An error goes to the first reader of errors if the socket asks for errors;
    it is stored otherwise, alone if the socket does not ask for them. *)
Definition daemon_in_error_udp (ff : finsFrame) (family : Z) (src dst : sockaddr) : M ST unit :=
  src_port ← ff_read ff "send_src_port";
  dst_port ← ff_read ff "send_dst_port";
  if family =? AF_INET then
    let src := addr4_set_port (u16 src_port) src in
    let dst := addr4_set_port (u16 dst_port) dst in
    s ← get;
    let i := match_packet_addr4_udp (sockets (md s)) (addr4_get_ip dst) (u16 dst_port)
               (addr4_get_ip src) (u16 src_port) in
    if i =? -1 then free_ff ff
    else
      x ← get_sock i;
      r ← (if so_opts x FIP_RECVERR =? 0 then mret None else find_reader i true
           : M ST (option (nat * call_ref * daemon_call)));
      match r with
      | Some (n, r, c) =>
          upd_sock i (λ x, set_so_call_list (delete n (so_call_list x)) x) ;;
          m ← ff_meta ff;
          d ← stored_error ff;
          recvmsg_in_udp c m (fst d) (snd d) dst MSG_ERRQUEUE ;;
          free_ff ff
      | None =>
          (if so_opts x FIP_RECVERR =? 0 then mret tt
           else poll_in_each i 0 (so_call_list x) POLLERR) ;;
          if Z.of_nat (length (so_error_list x)) <? STORE_LIST_MAX then
            (if so_opts x FIP_RECVERR =? 0
             then free_stores (so_error_list x) ;; upd_sock i (set_so_error_list [])
             else mret tt) ;;
            upd_sock i (λ x, set_so_error_list (so_error_list x ++ [MkStored src ff 0]) x)
          else daemon_store_free (MkStored src ff 0)
      end
  else free_ff ff.

Definition recvmsg_timeout_udp (c : daemon_call) : M ST unit :=
  x ← get_sock (c_sock_index c);
  if (so_state x =? SS_UNCONNECTED) || (so_state x =? SS_CONNECTING) || (so_state x =? SS_CONNECTED)
  then nack_call c EAGAIN
  else nack_call c 1.

End DaemonUdp.
