(* ===== verification/DaemonOut.v ===== *)
(** * The dispatch of the daemon: [daemon_out.c] and the message side of [daemon.c]

    Calls from the wedge are unpacked from the bytes of a netlink message and
    handed to the protocol of their socket; frames from the switch are handed
    to a protocol or, when they answer a request, to the call that waits for
    them.  A protocol is a record of its functions, as in the code, where a
    NULL function is [None]; [udp_ops] is the one of [DaemonUdp]. *)

From stdpp Require Import base list gmap strings.
From Stdlib Require Import ZArith Lia.
From S2P Require Import Prelude Queue Metadata Frame Module IPv4 Double Daemon DaemonUdp.
Open Scope Z_scope.
Open Scope fins_scope.

Definition SIOCGIFNAME := 35088.
Definition SIOCGIFCONF := 35090.
Definition SIOCGIFFLAGS := 35091.
Definition SIOCGIFADDR := 35093.
Definition SIOCGIFDSTADDR := 35095.
Definition SIOCGIFBRDADDR := 35097.
Definition SIOCGIFNETMASK := 35099.
Definition SIOCGIFMTU := 35105.
Definition IFNAMSIZ := 16.
Definition sizeof_ifreq := 40.
Definition sizeof_sockaddr_storage := 128.
Definition TIMESTAMP_FLAGS := 2176.
Definition DAEMON_ALERT_POLL := 0.
Definition DAEMON_ALERT_SHUTDOWN := 1.

(** ** Unpacking *)

(** The [int] and the [uint32_t] at an offset of the message. *)
Definition int_at (b : list Z) (off : Z) : res Z := get_int (drop (Z.to_nat off) b).
Definition u32_at (b : list Z) (off : Z) : res Z := read_at b off 4.

(** [memcpy] of [n] bytes from an offset; a negative size is a huge one. *)
Definition bytes_at (b : list Z) (off n : Z) : res (list Z) :=
  if n <? 0 then Segv else read_bytes (Some (drop (Z.to_nat off) b)) n.

(** A [struct sockaddr_storage] filled with these bytes, zero behind them. *)
Definition addr_of (b : list Z) : sockaddr :=
  MkAddr (le_value (take 2 b)) (le_value (take 2 (drop 2 b))) (le_value (take 4 (drop 4 b))).

Definition addr_at (b : list Z) (off n : Z) : res (list Z) :=
  if sizeof_sockaddr_storage <? n then Segv else bytes_at b off n.

(** [strcmp(name, temp) == 0], where [temp] need not be terminated. *)
Fixpoint strcmp_eq (name : list Z) (temp : list Z) : res bool :=
  match temp with
  | [] => Segv
  | t :: temp =>
      match name with
      | [] => Ok (t =? 0)
      | n :: name => if n =? t then strcmp_eq name temp else Ok false
      end
  end.
Definition name_bytes (s : string) : list Z :=
  map (λ c, Z.of_N (Ascii.N_of_ascii c)) (String.list_ascii_of_string s).
Fixpoint find_ifr (temp : list Z) (l : list if_record) : res (option if_record) :=
  match l with
  | [] => Ok None
  | i :: l =>
      match strcmp_eq (name_bytes (if_name i)) temp with
      | Ok true => Ok (Some i)
      | Ok false => find_ifr temp l
      | Segv => Segv | Exit => Exit | NoFuel => NoFuel
      end
  end.

(** ** Protocols *)

Section Ops.
Context {Q : Type} `{BoundedFifo Q finsFrame}.
Abbreviation ST := (mstate Q daemon_data) (only parsing).
Abbreviation HDR := wedge_to_daemon_hdr (only parsing).

(** The [struct daemon_socket_proto_ops] and the [struct daemon_socket_*_ops]
    of one protocol; the functions for replies, time-outs and expired calls by
    the type of the call. *)
Record proto_ops := MkOps {
  socket_type_test : Z → Z → Z → bool;
  op_socket_out : HDR → Z → M ST unit;
  op_in_fdf : option (finsFrame → Z → sockaddr → sockaddr → M ST unit);
  op_in_error : option (finsFrame → Z → sockaddr → sockaddr → M ST unit);
  op_in_poll : option (finsFrame → Z → M ST unit);
  op_in_shutdown : option (finsFrame → Z → M ST unit);
  op_bind_out : option (HDR → sockaddr → M ST unit);
  op_listen_out : option (HDR → Z → M ST unit);
  op_connect_out : option (HDR → sockaddr → Z → M ST unit);
  op_accept_out : option (HDR → Z → Z → Z → M ST unit);
  op_getname_out : option (HDR → Z → M ST unit);
  op_ioctl_out : option (HDR → Z → list Z → M ST unit);
  op_sendmsg_out : option (HDR → Z → option (list Z) → Z → Z → sockaddr → M ST unit);
  op_recvmsg_out : option (HDR → Z → Z → Z → M ST unit);
  op_getsockopt_out : option (HDR → Z → Z → Z → M ST unit);
  op_setsockopt_out : option (HDR → Z → Z → Z → list Z → M ST unit);
  op_release_out : option (HDR → M ST unit);
  op_poll_out : option (HDR → Z → M ST unit);
  op_mmap_out : option (M ST unit);
  op_shutdown_out : option (HDR → Z → M ST unit);
  op_in : Z → option (finsFrame → daemon_call → M ST unit);
  op_timeout : Z → option (daemon_call → M ST unit);
  op_expired : Z → option (finsFrame → daemon_call → M ST unit)
}.

Definition udp_ops `{DaemonEnv} : proto_ops :=
  MkOps socket_udp_test socket_out_udp (Some daemon_in_fdf_udp) (Some daemon_in_error_udp) None None
    (Some bind_out_udp) (Some listen_out_udp) (Some connect_out_udp) (Some accept_out_udp)
    (Some getname_out_udp) (Some ioctl_out_udp) (Some sendmsg_out_udp) (Some recvmsg_out_udp)
    (Some getsockopt_out_udp) (Some setsockopt_out_udp) (Some release_out_udp) (Some poll_out_udp)
    (Some (mret tt)) (Some shutdown_out_udp)
    (λ _, None) (λ t, if t =? RECVMSG_CALL then Some recvmsg_timeout_udp else None) (λ _, None).

End Ops.
Arguments proto_ops Q : clear implicits.

Section DaemonOut.
Context {Q : Type} `{BoundedFifo Q finsFrame} `{DaemonEnv}.
Abbreviation ST := (mstate Q daemon_data) (only parsing).

(** [md->protos], and the junk that [bind_out] finds in its local address. *)
Context (protos : Z → option (proto_ops Q)) (junk_addr : list Z).

(** The functions of the protocol of a socket. *)
Definition sock_ops (i : Z) : M ST (proto_ops Q) :=
  x ← get_sock i;
  match protos (so_ops x) with Some p => mret p | None => segv end.

(** A function of the table, or a negative reply when it is NULL. *)
Definition with_op {A} (h : wedge_to_daemon_hdr) (sel : proto_ops Q → option A) (k : A → M ST unit)
    : M ST unit :=
  p ← sock_ops (h_sock_index h);
  match sel p with Some f => k f | None => nack_hdr h 1 end.

(** ** Calls *)

(** The first protocol that takes a socket of this type. *)
Fixpoint find_proto (n : nat) (i domain type protocol : Z) : option (proto_ops Q) :=
  match n with
  | O => None
  | S n =>
      match protos i with
      | Some p => if socket_type_test p domain type protocol then Some p
                  else find_proto n (i + 1) domain type protocol
      | None => find_proto n (i + 1) domain type protocol
      end
  end.

Definition socket_out (h : wedge_to_daemon_hdr) (buf : list Z) : M ST unit :=
  domain ← lift (int_at buf 0);
  type ← lift (int_at buf 4);
  protocol ← lift (int_at buf 8);
  if negb (12 =? Z.of_nat (length buf)) then nack_hdr h 1
  else if negb (domain =? AF_INET) && negb (domain =? AF_INET6) then nack_hdr h 1
  else match find_proto (Z.to_nat DAEMON_MAX_PROTOS) 0 domain type protocol with
       | Some p => op_socket_out p h domain
       | None => nack_hdr h EACCES
       end.

Definition or_opt (i : Z) (o : sockopt) (v : Z) : M ST unit :=
  upd_sock i (λ x, set_so_opts (put_opt o (Z.lor (so_opts x o) v) (so_opts x)) x).

Definition bind_out (h : wedge_to_daemon_hdr) (buf : list Z) : M ST unit :=
  addr_len ← lift (int_at buf 0);
  if addr_len <=? 0 then nack_hdr h 1
  else
    b ← lift (addr_at buf 4 addr_len);
    reuseaddr ← lift (int_at buf (4 + addr_len));
    if negb (8 + addr_len =? Z.of_nat (length buf)) then nack_hdr h 1
    else
      or_opt (h_sock_index h) FSO_REUSEADDR reuseaddr ;;
      with_op h op_bind_out (λ f, f h (addr_of (b ++ drop (length b) junk_addr))).

Definition listen_out (h : wedge_to_daemon_hdr) (buf : list Z) : M ST unit :=
  backlog ← lift (int_at buf 0);
  if negb (4 =? Z.of_nat (length buf)) then nack_hdr h 1
  else with_op h op_listen_out (λ f, f h backlog).

(** [addrlen] is unsigned here. *)
Definition connect_out (h : wedge_to_daemon_hdr) (buf : list Z) : M ST unit :=
  addrlen ← lift (u32_at buf 0);
  if addrlen <=? 0 then nack_hdr h 1
  else
    b ← lift (addr_at buf 4 addrlen);
    flags ← lift (int_at buf (4 + addrlen));
    if negb (8 + addrlen =? Z.of_nat (length buf)) then nack_hdr h 1
    else with_op h op_connect_out (λ f, f h (addr_of b) flags).

Definition accept_out (h : wedge_to_daemon_hdr) (buf : list Z) : M ST unit :=
  sock_id_new ← lift (read_at buf 0 8);
  sock_index_new ← lift (int_at buf 8);
  flags ← lift (int_at buf 12);
  if negb (16 =? Z.of_nat (length buf)) then nack_hdr h 1
  else with_op h op_accept_out (λ f, f h sock_id_new sock_index_new flags).

Definition getname_out (h : wedge_to_daemon_hdr) (buf : list Z) : M ST unit :=
  peer ← lift (int_at buf 0);
  if negb (4 =? Z.of_nat (length buf)) then nack_hdr h 1
  else with_op h op_getname_out (λ f, f h peer).

(** The [ioctl] requests that name an interface: [k] builds the answer. *)
Definition ioctl_if (h : wedge_to_daemon_hdr) (buf : list Z) (k : if_record → M ST unit) : M ST unit :=
  len ← lift (int_at buf 4);
  temp ← lift (bytes_at buf 8 len);
  if negb (8 + len =? Z.of_nat (length buf)) then nack_hdr h 1
  else
    s ← get;
    r ← lift (find_ifr temp (d_if_list (md s)));
    match r with
    | None => nack_hdr h EADDRNOTAVAIL
    | Some i => k i
    end.

(** One of the addresses of an interface. *)
Definition ioctl_addr (h : wedge_to_daemon_hdr) (sel : addr_record → sockaddr) (i : if_record) : M ST unit :=
  match addr_list i with
  | None => segv
  | Some l =>
      match find_first addr_is_v4 l with
      | None => nack_hdr h EADDRNOTAVAIL
      | Some a => reply_wedge h (sockaddr_bytes (MkAddr AF_INET 0 (htonl (addr4_get_ip (sel a)))))
      end
  end.

(** The loop over the running interfaces has its condition inverted: it is not
    entered unless the list is empty, and then dereferences NULL or finds that
    [len] bytes are too few. *)
Definition ioctl_conf (h : wedge_to_daemon_hdr) (buf : list Z) : M ST unit :=
  len ← lift (int_at buf 4);
  if negb (8 =? Z.of_nat (length buf)) then nack_hdr h 1
  else if len <? 0 then segv
  else
    s ← get;
    if forallb (λ i, negb (ifr_running_test i)) (d_if_list (md s)) then
      if sizeof_ifreq <=? len then segv
      else if len =? 0 then reply_wedge h (le_bytes 4 0) else nack_hdr h 1
    else reply_wedge h (le_bytes 4 0).

Definition ioctl_name (h : wedge_to_daemon_hdr) (buf : list Z) : M ST unit :=
  len ← lift (int_at buf 4);
  index ← lift (int_at buf 8);
  if negb (12 =? Z.of_nat (length buf)) then nack_hdr h 1
  else
    s ← get;
    match find_first (ifr_index_test index) (d_if_list (md s)) with
    | None => nack_hdr h EADDRNOTAVAIL
    | Some i =>
        name ← lift (bytes_at (take (Z.to_nat IFNAMSIZ) (name_bytes (if_name i) ++ replicate 16 0)) 0 len);
        reply_wedge h name
    end.

Definition ioctl_out (h : wedge_to_daemon_hdr) (buf : list Z) : M ST unit :=
  cmd ← lift (u32_at buf 0);
  if cmd =? SIOCGIFCONF then ioctl_conf h buf
  else if (cmd =? SIOCGIFADDR) || (cmd =? SIOCGIFDSTADDR) then ioctl_if h buf (ioctl_addr h a_ip)
  else if cmd =? SIOCGIFBRDADDR then ioctl_if h buf (ioctl_addr h a_bdc)
  else if cmd =? SIOCGIFNETMASK then ioctl_if h buf (ioctl_addr h a_mask)
  else if cmd =? SIOCGIFNAME then ioctl_name h buf
  else if cmd =? SIOCGIFFLAGS then ioctl_if h buf (λ i, reply_wedge h (le_bytes 4 (if_flags i)))
  else if cmd =? SIOCGIFMTU then ioctl_if h buf (λ i, reply_wedge h (le_bytes 4 (if_mtu i)))
  else with_op h op_ioctl_out (λ f, f h cmd buf).

Definition sendmsg_out (h : wedge_to_daemon_hdr) (buf : list Z) : M ST unit :=
  sk_flags ← lift (u32_at buf 0);
  addr_len ← lift (int_at buf 4);
  b ← lift (addr_at buf 8 addr_len);
  msg_flags ← lift (u32_at buf (8 + addr_len));
  msg_controllen ← lift (u32_at buf (12 + addr_len));
  control ← lift (bytes_at buf (16 + addr_len) msg_controllen);
  msg_len ← lift (u32_at buf (16 + addr_len + msg_controllen));
  msg ← lift (bytes_at buf (20 + addr_len + msg_controllen) msg_len);
  if negb (20 + addr_len + msg_controllen + msg_len =? Z.of_nat (length buf)) then nack_hdr h 1
  else
    or_opt (h_sock_index h) FSO_TIMESTAMP (Z.land sk_flags TIMESTAMP_FLAGS) ;;
    with_op h op_sendmsg_out (λ f,
      f h msg_len (if msg_len =? 0 then None else Some msg) msg_flags addr_len (addr_of b)).

Definition recvmsg_out (h : wedge_to_daemon_hdr) (buf : list Z) : M ST unit :=
  sk_flags ← lift (u32_at buf 0);
  msg_len ← lift (int_at buf 4);
  msg_controllen ← lift (u32_at buf 8);
  flags ← lift (int_at buf 12);
  if negb (16 =? Z.of_nat (length buf)) then nack_hdr h 1
  else
    or_opt (h_sock_index h) FSO_TIMESTAMP (Z.land sk_flags TIMESTAMP_FLAGS) ;;
    with_op h op_recvmsg_out (λ f, f h msg_len msg_controllen flags).

(** The option value that follows, if its length is positive. *)
Definition optval_at (buf : list Z) (optlen : Z) : res (list Z) :=
  if 0 <? optlen then bytes_at buf 12 optlen else Ok [].

Definition getsockopt_out (h : wedge_to_daemon_hdr) (buf : list Z) : M ST unit :=
  level ← lift (int_at buf 0);
  optname ← lift (int_at buf 4);
  optlen ← lift (int_at buf 8);
  optval ← lift (optval_at buf optlen);
  if negb (12 + Z.max 0 optlen =? Z.of_nat (length buf)) then nack_hdr h 1
  else with_op h op_getsockopt_out (λ f, f h level optname optlen).

Definition setsockopt_out (h : wedge_to_daemon_hdr) (buf : list Z) : M ST unit :=
  level ← lift (int_at buf 0);
  optname ← lift (int_at buf 4);
  optlen ← lift (int_at buf 8);
  optval ← lift (optval_at buf optlen);
  if negb (12 + Z.max 0 optlen =? Z.of_nat (length buf)) then nack_hdr h 1
  else with_op h op_setsockopt_out (λ f, f h level optname optlen optval).

Definition release_out (h : wedge_to_daemon_hdr) (buf : list Z) : M ST unit :=
  if negb (0 =? Z.of_nat (length buf)) then nack_hdr h 1
  else with_op h op_release_out (λ f, f h).

Definition poll_out (h : wedge_to_daemon_hdr) (buf : list Z) : M ST unit :=
  events ← lift (u32_at buf 0);
  if negb (4 =? Z.of_nat (length buf)) then ack_hdr h POLLERR
  else
    x ← get_sock (h_sock_index h);
    if negb (so_sock_id x =? h_sock_id h) then ack_hdr h POLLNVAL
    else
      p ← sock_ops (h_sock_index h);
      match op_poll_out p with Some f => f h events | None => ack_hdr h POLLERR end.

Definition mmap_out (h : wedge_to_daemon_hdr) (buf : list Z) : M ST unit :=
  if negb (0 =? Z.of_nat (length buf)) then nack_hdr h 1
  else with_op h op_mmap_out (λ _, ack_hdr h 0).

Definition socketpair_out (h : wedge_to_daemon_hdr) (buf : list Z) : M ST unit := mret tt.

Definition shutdown_out (h : wedge_to_daemon_hdr) (buf : list Z) : M ST unit :=
  how ← lift (int_at buf 0);
  if negb (4 =? Z.of_nat (length buf)) then nack_hdr h 1
  else with_op h op_shutdown_out (λ f, f h how).

Definition close_out (h : wedge_to_daemon_hdr) (buf : list Z) : M ST unit :=
  daemon_sockets_remove (h_sock_index h) ;; ack_hdr h 0.

Definition sendpage_out (h : wedge_to_daemon_hdr) (buf : list Z) : M ST unit := mret tt.

(** The table [call_outs], whose entries end before the last call types. *)
Definition call_outs (t : Z) : option (wedge_to_daemon_hdr → list Z → M ST unit) :=
  if t =? SOCKET_CALL then Some socket_out
  else if t =? BIND_CALL then Some bind_out
  else if t =? LISTEN_CALL then Some listen_out
  else if t =? CONNECT_CALL then Some connect_out
  else if t =? ACCEPT_CALL then Some accept_out
  else if t =? GETNAME_CALL then Some getname_out
  else if t =? IOCTL_CALL then Some ioctl_out
  else if t =? SENDMSG_CALL then Some sendmsg_out
  else if t =? RECVMSG_CALL then Some recvmsg_out
  else if t =? GETSOCKOPT_CALL then Some getsockopt_out
  else if t =? SETSOCKOPT_CALL then Some setsockopt_out
  else if t =? RELEASE_CALL then Some release_out
  else if t =? POLL_CALL then Some poll_out
  else if t =? MMAP_CALL then Some mmap_out
  else if t =? SOCKETPAIR_CALL then Some socketpair_out
  else if t =? SHUTDOWN_CALL then Some shutdown_out
  else if t =? CLOSE_CALL then Some close_out
  else if t =? SENDPAGE_CALL then Some sendpage_out
  else None.

(** A call with its arguments; the identifier [NO_SOCK] matches a free place of
    the table, whose functions and lists are NULL or freed. *)
Definition daemon_out (h : wedge_to_daemon_hdr) (buf : list Z) : M ST unit :=
  if (h_call_index h <? 0) || (DAEMON_MAX_CALLS <? h_call_index h) then mret tt
  else if (h_call_type h =? 0) || (MAX_CALL_TYPES <=? h_call_type h) then nack_hdr h 1
  else if h_call_type h =? SOCKET_CALL then socket_out h buf
  else if (h_sock_index h <? 0) || (DAEMON_MAX_SOCKETS <? h_sock_index h) then nack_hdr h EBADF
  else
    x ← get_sock (h_sock_index h);
    if negb (so_sock_id x =? h_sock_id h) then nack_hdr h 1
    else if so_sock_id x =? NO_SOCK then segv
    else match call_outs (h_call_type h) with Some f => f h buf | None => segv end.

(** ** Frames from the switch *)

Definition daemon_alert (ff : finsFrame) : M ST unit :=
  c ← ff_ctrl ff;
  if (param_id c =? DAEMON_ALERT_POLL) || (param_id c =? DAEMON_ALERT_SHUTDOWN) then
    protocol ← ff_read ff "protocol";
    ret_msg ← ff_read ff "ret_msg";
    if protocol <? DAEMON_MAX_PROTOS then
      match protos protocol with
      | Some p =>
          match (if param_id c =? DAEMON_ALERT_POLL then op_in_poll p else op_in_shutdown p) with
          | Some f => f ff ret_msg
          | None => free_ff ff
          end
      | None => module_reply_fcf ff FCF_FALSE 0
      end
    else mret tt
  else module_reply_fcf ff FCF_FALSE 0.

(** The call that waits for the reply [ff] leaves the table and its socket's
    list; [k] gets it if its socket still exists. *)
Definition take_call (call_index : Z) (ff : option finsFrame) (k : daemon_call → M ST unit) : M ST unit :=
  c ← get_call call_index;
  let c := daemon_call_clone c in
  daemon_calls_remove call_index ;;
  x ← get_sock (c_sock_index c);
  if negb (so_sock_id x =? c_sock_id c) then
    nack_call c 1 ;;
    match ff with Some ff => free_ff ff | None => mret tt end
  else
    upd_sock (c_sock_index c) (λ x, set_so_call_list (remove_arr call_index (so_call_list x)) x) ;;
    k c.

(** The reply goes to the function for the type of the call. *)
Definition call_reply (types : list Z) (ff : finsFrame) (c : daemon_call) : M ST unit :=
  if existsb (Z.eqb (c_type c)) types then
    p ← sock_ops (c_sock_index c);
    match op_in p (c_type c) with
    | Some f => f ff c
    | None => nack_call c 1 ;; free_ff ff
    end
  else exit_.

Definition param_reply (types : list Z) (ff : finsFrame) : M ST unit :=
  c ← ff_ctrl ff;
  call_index ← daemon_calls_find (serial_num c);
  if call_index =? -1 then free_ff ff
  else take_call call_index (Some ff) (call_reply types ff).

Definition daemon_read_param_reply (ff : finsFrame) : M ST unit := param_reply [GETSOCKOPT_CALL] ff.
Definition daemon_set_param_reply (ff : finsFrame) : M ST unit := param_reply [SETSOCKOPT_CALL] ff.
Definition daemon_set_param (ff : finsFrame) : M ST unit := set_param ff.

(** Expired calls wait in a list of their own. *)
Fixpoint take_expired (serial : Z) (l : list daemon_call) : option (daemon_call * list daemon_call) :=
  match l with
  | [] => None
  | c :: l =>
      if daemon_call_serial_test serial c then Some (c, l)
      else match take_expired serial l with Some (c', l') => Some (c', c :: l') | None => None end
  end.

Definition daemon_exec_reply (ff : finsFrame) : M ST unit :=
  ctrl ← ff_ctrl ff;
  s ← get;
  match take_expired (serial_num ctrl) (expired_call_list (md s)) with
  | Some (c, l) =>
      dmod (set_expired_call_list l) ;;
      x ← get_sock (c_sock_index c);
      if negb (so_sock_id x =? c_sock_id c) then free_ff ff
      else if (c_type c =? CONNECT_CALL) || (c_type c =? ACCEPT_CALL) then
        p ← sock_ops (c_sock_index c);
        match op_expired p (c_type c) with
        | Some f => f ff c
        | None => nack_call c 1 ;; free_ff ff
        end
      else exit_
  | None =>
      call_index ← daemon_calls_find (serial_num ctrl);
      if call_index =? -1 then free_ff ff
      else take_call call_index (Some ff)
             (call_reply [CONNECT_CALL; ACCEPT_CALL; SENDMSG_CALL; RELEASE_CALL; POLL_CALL] ff)
  end.

(** The addresses of a frame, from the metadata under these names. *)
Definition frame_addrs (ff : finsFrame) (family : Z) (src dst : string) : M ST (sockaddr * sockaddr) :=
  if family =? AF_INET then
    src_ip ← ff_read ff src;
    dst_ip ← ff_read ff dst;
    mret (addr4_set_ip src_ip (MkAddr family 0 0), addr4_set_ip dst_ip (MkAddr family 0 0))
  else if family =? AF_INET6 then mret (MkAddr family 0 0, MkAddr family 0 0)
  else exit_.

(** A protocol number outside the table is not answered, and the frame kept. *)
Definition to_proto (protocol : Z) (ff : finsFrame)
    (sel : proto_ops Q → option (finsFrame → Z → sockaddr → sockaddr → M ST unit))
    (family : Z) (addrs : sockaddr * sockaddr) : M ST unit :=
  if protocol <? DAEMON_MAX_PROTOS then
    match protos protocol with
    | Some p => match sel p with Some f => f ff family (fst addrs) (snd addrs) | None => free_ff ff end
    | None => free_ff ff
    end
  else mret tt.

Definition daemon_error (ff : finsFrame) : M ST unit :=
  protocol ← ff_read ff "send_protocol";
  family ← ff_read ff "send_family";
  addrs ← frame_addrs ff family "send_src_ipv4" "send_dst_ipv4";
  to_proto protocol ff op_in_error family addrs.

Definition daemon_in_fdf (ff : finsFrame) : M ST unit :=
  protocol ← ff_read ff "recv_protocol";
  family ← ff_read ff "recv_family";
  addrs ← frame_addrs ff family "recv_src_ipv4" "recv_dst_ipv4";
  to_proto protocol ff op_in_fdf family addrs.

(** ** Time-outs *)

Definition daemon_handle_to (call_index : Z) : M ST unit :=
  take_call call_index None (λ c,
    if (c_type c =? CONNECT_CALL) || (c_type c =? ACCEPT_CALL) || (c_type c =? RECVMSG_CALL) then
      p ← sock_ops (c_sock_index c);
      match op_timeout p (c_type c) with Some f => f c | None => nack_call c 1 end
    else exit_).

(** The test is on the identifier of the socket, not of the call. *)
Fixpoint interrupt_from (n : nat) (i : Z) : M ST unit :=
  match n with
  | O => mret tt
  | S n =>
      c ← get_call i;
      (if negb (c_sock_id c =? NO_SOCK) && c_to_flag c
       then upd_call i (set_c_to_flag false) ;; daemon_handle_to i
       else mret tt) ;;
      interrupt_from n (i + 1)
  end.
Definition daemon_interrupt : M ST unit := interrupt_from (Z.to_nat DAEMON_MAX_CALLS) 0.

(** [intsem_to_handler] for the timer of a call: its expiry is an event. *)
Definition call_expires (call_index : Z) : M ST unit :=
  upd_call call_index (λ c, set_c_to_flag true (set_c_timer None c)) ;;
  dmod (set_interrupt_flag true).

Definition daemon_fcf (ff : finsFrame) : M ST unit :=
  c ← ff_ctrl ff;
  if opcode c =? CTRL_ALERT then daemon_alert ff
  else if opcode c =? CTRL_ALERT_REPLY then free_ff ff
  else if opcode c =? CTRL_READ_PARAM then module_reply_fcf ff FCF_FALSE 0
  else if opcode c =? CTRL_READ_PARAM_REPLY then daemon_read_param_reply ff
  else if opcode c =? CTRL_SET_PARAM then daemon_set_param ff
  else if opcode c =? CTRL_SET_PARAM_REPLY then daemon_set_param_reply ff
  else if opcode c =? CTRL_EXEC then module_reply_fcf ff FCF_FALSE 0
  else if opcode c =? CTRL_EXEC_REPLY then daemon_exec_reply ff
  else if opcode c =? CTRL_ERROR then daemon_error ff
  else exit_.

Fixpoint daemon_get_ff (events : nat) : M ST unit :=
  match events with
  | O => nofuel
  | S events =>
      r ← read_input;
      s ← get;
      if decide (m_state (fm s) = FMS_RUNNING) then
        match r with
        | Some ff => frame_dispatch daemon_fcf daemon_in_fdf free_ff ff
        | None =>
            if interrupt_flag (md s) then dmod (set_interrupt_flag false) ;; daemon_interrupt
            else daemon_get_ff events
        end
      else match r with Some ff => free_ff ff | None => mret tt end
  end.

End DaemonOut.
