(* ===== verification/DaemonTcp.v ===== *)
(** * TCP sockets: the calls of [modules/daemon/tcpHandling.c]

    The handlers of the calls on a TCP socket.  Unlike those of UDP they ask the
    TCP module (its flow is [DAEMON_FLOW_TCP]) and leave the call waiting in the
    table until the reply, which [DaemonTcpIn] handles, has arrived.  Each runs
    with the semaphore of the socket table held. *)

From stdpp Require Import base list gmap strings.
From Stdlib Require Import ZArith Lia.
From S2P Require Import Prelude Queue Metadata Frame Module IPv4 Double Daemon DaemonUdp DaemonOut.
Open Scope Z_scope.
Open Scope fins_scope.

Definition DAEMON_FLOW_TCP := 1.
Definition DAEMON_EXEC_TCP_CONNECT := 0.
Definition DAEMON_EXEC_TCP_LISTEN := 1.
Definition DAEMON_EXEC_TCP_ACCEPT := 2.
Definition DAEMON_EXEC_TCP_SEND := 3.
Definition DAEMON_EXEC_TCP_CLOSE := 5.
Definition DAEMON_EXEC_TCP_CLOSE_STUB := 6.
Definition DAEMON_EXEC_TCP_POLL := 8.
Definition DAEMON_SET_PARAM_TCP_HOST_WINDOW := 3.
Definition DAEMON_SET_PARAM_TCP_SOCK_OPT := 4.
Definition DAEMON_READ_PARAM_TCP_SOCK_OPT := 4.
Definition DAEMON_STATUS_RD := 1.
Definition DAEMON_STATUS_WR := 2.
Definition SS_DISCONNECTING := 4.
Definition SHUT_RD := 0.
Definition SHUT_WR := 1.
Definition SHUT_RDWR := 2.
Definition SOCK_STREAM := 1.
Definition IPPROTO_TCP := 6.
(** [SOCK_NONBLOCK] and [O_NONBLOCK]. *)
Definition NONBLOCK := 2048.
Definition EPIPE := 32.
Definition EISCONN := 106.
Definition ENOTCONN := 107.
Definition ECONNREFUSED := 111.

(** The fields that only TCP sets. *)
Definition set_so_status (v : Z) (x : daemon_socket) : daemon_socket :=
  MkSock (so_type x) (so_protocol x) (so_ops x) (so_sock_id x) (so_state x) v (so_family x)
    (so_host_addr x) (so_rem_addr x) (so_listening x) (so_backlog x) (so_sock_id_new x)
    (so_sock_index_new x) (so_call_list x) (so_stamp x) (so_data_list x) (so_data_buf x)
    (so_error_list x) (so_error_msg x) (so_error_call x) (so_opts x).
Definition set_so_error (msg call : Z) (x : daemon_socket) : daemon_socket :=
  MkSock (so_type x) (so_protocol x) (so_ops x) (so_sock_id x) (so_state x) (so_status x)
    (so_family x) (so_host_addr x) (so_rem_addr x) (so_listening x) (so_backlog x)
    (so_sock_id_new x) (so_sock_index_new x) (so_call_list x) (so_stamp x) (so_data_list x)
    (so_data_buf x) (so_error_list x) msg call (so_opts x).
Definition set_so_new (id index : Z) (x : daemon_socket) : daemon_socket :=
  MkSock (so_type x) (so_protocol x) (so_ops x) (so_sock_id x) (so_state x) (so_status x)
    (so_family x) (so_host_addr x) (so_rem_addr x) (so_listening x) (so_backlog x) id index
    (so_call_list x) (so_stamp x) (so_data_list x) (so_data_buf x) (so_error_list x)
    (so_error_msg x) (so_error_call x) (so_opts x).
Definition set_c_sent (v : Z) (x : daemon_call) : daemon_call :=
  MkCall (c_sock_id x) (c_sock_index x) (c_type x) (c_pid x) (c_id x) (c_index x) (c_alloc x)
    (c_serial x) (c_buf x) (c_flags x) (c_ret x) v (c_sock_id_new x) (c_sock_index_new x)
    (c_timer x) (c_to_flag x).
Definition set_c_new (id index : Z) (x : daemon_call) : daemon_call :=
  MkCall (c_sock_id x) (c_sock_index x) (c_type x) (c_pid x) (c_id x) (c_index x) (c_alloc x)
    (c_serial x) (c_buf x) (c_flags x) (c_ret x) (c_sent x) id index (c_timer x) (c_to_flag x).

(** What the process holds beside the daemon: the counter behind
    [gen_control_serial_num], which all modules advance, as the number that
    question [n] gets; the two bytes behind the 16-bit variables [host_port]
    and [rem_port], which are written to the metadata as 32-bit integers; and
    the 16 bytes of an uninitialised [struct sockaddr_in]. *)
Class DaemonTcpEnv := {
  serial_of : nat → Z; behind_host_port : Z; behind_rem_port : Z; junk_sockaddr : list Z
}.

(** ** Finding the socket *)

Definition tcp_inet (x : daemon_socket) : bool :=
  negb (so_sock_id x =? NO_SOCK) && (so_protocol x =? IPPROTO_TCP) && (so_family x =? AF_INET).

Definition match_host_addr4_tcp (socks : list daemon_socket) (host_ip host_port : Z) : Z :=
  first_index (λ x,
    tcp_inet x && (addr4_get_port (so_host_addr x) =? host_port)
    && ((addr4_get_ip (so_host_addr x) =? DAEMON_ADDR_ANY)
        || (addr4_get_ip (so_host_addr x) =? host_ip))) socks 0.

(** An address of the socket that is "any" fits every address here. *)
Definition match_conn_addr4_tcp (socks : list daemon_socket) (host_ip host_port rem_ip rem_port : Z) : Z :=
  first_index (λ x,
    tcp_inet x && (addr4_get_port (so_host_addr x) =? host_port)
    && (addr4_get_port (so_rem_addr x) =? rem_port)
    && ((addr4_get_ip (so_host_addr x) =? DAEMON_ADDR_ANY) || (addr4_get_ip (so_host_addr x) =? host_ip))
    && ((addr4_get_ip (so_rem_addr x) =? DAEMON_ADDR_ANY) || (addr4_get_ip (so_rem_addr x) =? rem_ip)))
    socks 0.

Definition match_packet_addr4_tcp (socks : list daemon_socket) (src_ip src_port dst_ip dst_port : Z) : Z :=
  let index := match_conn_addr4_tcp socks dst_ip dst_port src_ip src_port in
  if index =? -1 then
    let index := match_conn_addr4_tcp socks DAEMON_ADDR_ANY dst_port src_ip src_port in
    if index =? -1 then
      let index := match_conn_addr4_tcp socks dst_ip dst_port DAEMON_ADDR_ANY DAEMON_PORT_ANY in
      if index =? -1 then
        match_conn_addr4_tcp socks DAEMON_ADDR_ANY dst_port DAEMON_ADDR_ANY DAEMON_PORT_ANY
      else index
    else index
  else index.

(** The connection, or else a listening socket. *)
Definition match_conn_or_stub (socks : list daemon_socket) (host_ip host_port rem_ip rem_port : Z) : Z :=
  let index := match_conn_addr4_tcp socks host_ip host_port rem_ip rem_port in
  if index =? -1 then match_conn_addr4_tcp socks host_ip host_port 0 0 else index.

Definition socket_tcp_test (domain type protocol : Z) : bool :=
  (type =? SOCK_STREAM) && ((protocol =? IPPROTO_TCP) || (protocol =? IPPROTO_IP)).

(** What of [events] a TCP socket reports without asking the TCP module. *)
Definition poll_mask_tcp (x : daemon_socket) (events : Z) : Z :=
  if has events POLL_READ && (0 <? so_data_buf x) then Z.lor POLLIN (Z.lor POLLRDNORM POLLPRI) else 0.

(** The options that [setsockopt] passes on to the TCP module. *)
Definition to_tcp (o : sockopt) : bool :=
  match o with
  | FTCP_NODELAY | FSO_DEBUG | FSO_REUSEADDR | FSO_SNDBUF | FSO_RCVBUF | FSO_KEEPALIVE
  | FSO_OOBINLINE | FSO_PRIORITY => true
  | _ => false
  end.

(** A 16-bit variable read as a 32-bit one. *)
Definition wide (behind port : Z) : Z := port + 65536 * behind.

Section DaemonTcp.
Context {Q : Type} `{BoundedFifo Q finsFrame} `{DaemonEnv} `{DaemonTcpEnv}.
Abbreviation ST := (mstate Q daemon_data) (only parsing).

Definition next_serial : M ST Z := ask serial_of.

(** The address of the socket in host order, with the one of the main interface
    for "any". *)
Definition host_or_main (ip : Z) : M ST Z :=
  if ip =? DAEMON_ADDR_ANY then a ← main_ip; mret (default ip a) else mret ip.
Definition host_metas (x : daemon_socket) (m : metadata) : M ST metadata :=
  ip ← host_or_main (addr4_get_ip (so_host_addr x));
  put_metas [("host_ip", ip); ("host_port", addr4_get_port (so_host_addr x))] m.
Definition rem_metas (x : daemon_socket) (m : metadata) : M ST metadata :=
  if SS_UNCONNECTED <? so_state x
  then put_metas [("rem_ip", addr4_get_ip (so_rem_addr x)); ("rem_port", addr4_get_port (so_rem_addr x))] m
  else mret m.

(** ** Calls that wait *)

(** The call is entered into the table with what [f] sets and waits in the list
    of its socket; [k] follows. *)
Definition wait_call (h : wedge_to_daemon_hdr) (f : daemon_call → daemon_call) (k : M ST unit) : M ST unit :=
  x ← get_sock (h_sock_index h);
  if Z.of_nat (length (so_call_list x)) <? DAEMON_CALL_LIST_MAX then
    daemon_calls_insert (h_call_id h) (h_call_index h) (h_call_pid h) (h_call_type h) (h_sock_id h) (h_sock_index h) ;;
    upd_call (h_call_index h) f ;;
    upd_sock (h_sock_index h) (λ x, set_so_call_list (so_call_list x ++ [CArr (h_call_index h)]) x) ;;
    k
  else nack_hdr h 1.
Definition wait_sent (h : wedge_to_daemon_hdr) (serial sent : Z) (f : daemon_call → daemon_call) (k : M ST unit)
    : M ST unit :=
  if 0 <? sent then wait_call h (λ c, f (set_c_sent sent (set_c_serial serial c))) k else nack_hdr h 1.
Definition start_block (h : wedge_to_daemon_hdr) : M ST unit :=
  t ← lift (timer_once_start (d_of_Z DAEMON_BLOCK_DEFAULT));
  upd_call (h_call_index h) (set_c_timer t).

(** ** Sockets and connections *)

Definition socket_out_tcp (h : wedge_to_daemon_hdr) (domain : Z) : M ST unit :=
  ok ← daemon_sockets_insert (h_sock_id h) (h_sock_index h) SOCK_STREAM IPPROTO_TCP IPPROTO_TCP;
  if (ok : bool) then ack_hdr h 0 else nack_hdr h 1.

Fixpoint draw_port_tcp (fuel : nat) (host_ip : Z) : M ST Z :=
  match fuel with
  | O => nofuel
  | S fuel =>
      r ← ask rand;
      let port := u16 (randoming DAEMON_PORT_MIN DAEMON_PORT_MAX r) in
      s ← get;
      if match_host_addr4_tcp (sockets (md s)) host_ip port =? -1 then mret port
      else draw_port_tcp fuel host_ip
  end.

Definition bind_out_tcp (h : wedge_to_daemon_hdr) (addr : sockaddr) : M ST unit :=
  x ← get_sock (h_sock_index h);
  if negb (so_family x =? AF_UNSPEC) then nack_hdr h EINVAL
  else if sin_family addr =? AF_INET then
    let host_ip := ntohl (addr4_get_ip addr) in
    let host_port := ntohs (addr4_get_port addr) in
    port ← (if host_port =? DAEMON_PORT_ANY then p ← draw_port_tcp port_draws host_ip; mret (Some p)
            else
              s ← get;
              if negb (match_host_addr4_tcp (sockets (md s)) host_ip host_port =? -1)
                 && (so_opts x FSO_REUSEADDR =? 0)
              then mret None else mret (Some host_port) : M ST (option Z));
    match port with
    | None => nack_hdr h EADDRINUSE
    | Some port =>
        upd_sock (h_sock_index h) (λ x,
          set_so_host_addr (addr4_set_port port (addr4_set_ip host_ip (so_host_addr x)))
            (set_so_family AF_INET x)) ;;
        ack_hdr h 0
    end
  else if sin_family addr =? AF_INET6 then
    upd_sock (h_sock_index h) (set_so_family AF_INET6) ;; ack_hdr h 0
  else nack_hdr h 1.

Definition listen_out_tcp (h : wedge_to_daemon_hdr) (backlog : Z) : M ST unit :=
  x ← get_sock (h_sock_index h);
  if so_family x =? AF_UNSPEC then nack_hdr h 1
  else
    upd_sock (h_sock_index h) (λ x, set_so_backlog backlog (set_so_listening 1 x)) ;;
    if so_family x =? AF_INET then
      m ← host_metas x metadata_create;
      m ← put_metas [("family", so_family x); ("state", so_state x); ("backlog", backlog)] m;
      serial ← next_serial;
      sent ← daemon_fcf_to_switch DAEMON_FLOW_TCP m serial CTRL_EXEC DAEMON_EXEC_TCP_LISTEN;
      if sent =? 0 then nack_hdr h 1 else ack_hdr h 0
    else nack_hdr h 1.

(** A second [connect] or [accept] while the first is under way waits for its
    outcome if it must not block. *)
Definition wait_connecting (h : wedge_to_daemon_hdr) (flags : Z) (f : daemon_call → daemon_call) : M ST unit :=
  if has flags NONBLOCK then wait_call h (λ c, f (set_c_flags (u32 flags) c)) (start_block h)
  else nack_hdr h 1.

(** The addresses of the two ends: a socket without an address gets the one of
    the main interface and a free port. *)
Definition connect_bind (h : wedge_to_daemon_hdr) : M ST (Z * Z) :=
  x ← get_sock (h_sock_index h);
  if so_family x =? AF_UNSPEC then
    upd_sock (h_sock_index h) (set_so_family AF_INET) ;;
    a ← main_ip;
    let host_ip := default 0 a in
    upd_sock (h_sock_index h) (λ x, set_so_host_addr (addr4_set_ip host_ip (so_host_addr x)) x) ;;
    port ← draw_port_tcp port_draws host_ip;
    upd_sock (h_sock_index h) (λ x, set_so_host_addr (addr4_set_port port (so_host_addr x)) x) ;;
    mret (host_ip, port)
  else mret (addr4_get_ip (so_host_addr x), addr4_get_port (so_host_addr x)).

Definition connect_start (h : wedge_to_daemon_hdr) (addr : sockaddr) (flags : Z) : M ST unit :=
  let rem_ip := ntohl (addr4_get_ip addr) in
  let rem_port := ntohs (addr4_get_port addr) in
  upd_sock (h_sock_index h) (λ x,
    set_so_rem_addr (addr4_set_port rem_port (addr4_set_ip rem_ip (so_rem_addr x)))
      (set_so_listening 0 (set_so_state SS_CONNECTING x))) ;;
  host ← connect_bind h;
  host_ip ← host_or_main (fst host);
  m ← put_metas [("host_ip", host_ip); ("host_port", wide behind_host_port (snd host));
                 ("rem_ip", rem_ip); ("rem_port", wide behind_rem_port rem_port)] metadata_create;
  x ← get_sock (h_sock_index h);
  m ← put_metas [("family", so_family x); ("state", so_state x); ("flags", u32 flags)] m;
  serial ← next_serial;
  sent ← daemon_fcf_to_switch DAEMON_FLOW_TCP m serial CTRL_EXEC DAEMON_EXEC_TCP_CONNECT;
  wait_sent h serial sent (set_c_flags (u32 flags))
    (if has flags NONBLOCK then start_block h else mret tt).

Definition connect_out_tcp (h : wedge_to_daemon_hdr) (addr : sockaddr) (flags : Z) : M ST unit :=
  x ← get_sock (h_sock_index h);
  if so_state x =? SS_CONNECTING then wait_connecting h flags (λ c, c)
  else if so_state x =? SS_CONNECTED then nack_hdr h EISCONN
  else if negb (so_state x =? SS_UNCONNECTED) then nack_hdr h 1
  else if so_error_call x =? h_call_type h then
    nack_hdr h (so_error_msg x) ;;
    upd_sock (h_sock_index h) (set_so_error 0 0)
  else if sin_family addr =? AF_INET then
    if negb (so_family x =? AF_UNSPEC) && negb (so_family x =? AF_INET) then nack_hdr h EAFNOSUPPORT
    else connect_start h addr flags
  else if sin_family addr =? AF_INET6 then
    if negb (so_family x =? AF_UNSPEC) && negb (so_family x =? AF_INET6) then nack_hdr h EAFNOSUPPORT
    else nack_hdr h 1
  else nack_hdr h EAFNOSUPPORT.

Definition accept_out_tcp (h : wedge_to_daemon_hdr) (sock_id_new sock_index_new flags : Z) : M ST unit :=
  x ← get_sock (h_sock_index h);
  if so_listening x =? 0 then nack_hdr h 1
  else if so_state x =? SS_CONNECTING then wait_connecting h flags (set_c_new sock_id_new sock_index_new)
  else if negb (so_state x =? SS_UNCONNECTED) then nack_hdr h 1
  else if so_family x =? AF_INET then
    m ← host_metas x metadata_create;
    m ← put_metas [("family", so_family x); ("state", so_state x); ("flags", u32 flags)] m;
    serial ← next_serial;
    sent ← daemon_fcf_to_switch DAEMON_FLOW_TCP m serial CTRL_EXEC DAEMON_EXEC_TCP_ACCEPT;
    wait_sent h serial sent (λ c, set_c_new sock_id_new sock_index_new (set_c_flags (u32 flags) c))
      ((if has flags NONBLOCK then start_block h else mret tt) ;;
       upd_sock (h_sock_index h) (set_so_state SS_CONNECTING))
  else nack_hdr h 1.

(** These two are written as those of UDP. *)
Definition getname_out_tcp (h : wedge_to_daemon_hdr) (peer : Z) : M ST unit := getname_out_udp h peer.
Definition ioctl_out_tcp (h : wedge_to_daemon_hdr) (cmd : Z) (buf : list Z) : M ST unit :=
  ioctl_out_udp h cmd buf.

(** ** Sending *)

(** The port and address in [addr] are used if there are any, though the socket
    is connected; the family of the metadata is always the one in [addr].  The
    socket has the family [AF_INET] where the code tests for [AF_UNSPEC]. *)
Definition sendmsg_out_tcp (h : wedge_to_daemon_hdr) (data_len : Z) (data : option (list Z))
    (flags addr_len : Z) (addr : sockaddr) : M ST unit :=
  if data_len =? 0 then ack_hdr h 0
  else
    x ← get_sock (h_sock_index h);
    if (so_state x =? SS_UNCONNECTED) || (so_state x =? SS_DISCONNECTING) then nack_hdr h EPIPE
    else if negb (so_state x =? SS_CONNECTING) && negb (so_state x =? SS_CONNECTED) then nack_hdr h 1
    else if negb (has (so_status x) DAEMON_STATUS_WR) then nack_hdr h EPIPE
    else if so_family x =? AF_INET then
      let '(rem_ip, rem_port) :=
        if negb (addr_len =? 0) then (ntohl (addr4_get_ip addr), ntohs (addr4_get_port addr))
        else (addr4_get_ip (so_rem_addr x), addr4_get_port (so_rem_addr x)) in
      host_ip ← host_or_main (addr4_get_ip (so_host_addr x));
      m ← put_metas [("send_src_ipv4", host_ip); ("send_src_port", addr4_get_port (so_host_addr x));
                     ("send_dst_ipv4", rem_ip); ("send_dst_port", rem_port);
                     ("send_family", sin_family addr); ("flags", flags)] metadata_create;
      serial ← next_serial;
      m ← put_metas [("serial_num", serial)] m;
      sent ← daemon_fdf_to_switch DAEMON_FLOW_TCP data_len data m;
      wait_sent h serial sent (λ c, set_c_buf data_len (set_c_flags flags c)) (mret tt)
    else nack_hdr h 1.

(** ** Receiving *)

(** A [struct sockaddr_in] of which only some fields are set. *)
Definition junk_from (family port ip : option Z) : list Z :=
  (match family with Some f => le_bytes 2 f | None => take 2 junk_sockaddr end)
  ++ (match port with Some p => le_bytes 2 p | None => take 2 (drop 2 junk_sockaddr) end)
  ++ (match ip with Some a => le_bytes 4 a | None => take 4 (drop 4 junk_sockaddr) end)
  ++ drop 8 junk_sockaddr.

(** The end of the stream: a reply of no bytes. *)
Definition send_wedge_eof (call_type call_id call_index : Z) (addr : list Z) : M ST bool :=
  r ← send_wedge (MkWedge call_type call_id call_index DAEMON_ACK 0
        (le_bytes 4 sizeof_sockaddr_in ++ addr ++ le_bytes 4 0 ++ le_bytes 4 0));
  mret (r =? 0).

(** The TCP module is told how much of its window is free again. *)
Definition send_host_window (m : metadata) : M ST unit :=
  serial ← next_serial;
  daemon_fcf_to_switch DAEMON_FLOW_TCP m serial CTRL_SET_PARAM DAEMON_SET_PARAM_TCP_HOST_WINDOW ;; mret tt.

(** The bytes of a stored frame from a position on. *)
Definition from_pos (pos : Z) (data : option (list Z)) : option (list Z) :=
  match data with Some b => Some (drop (Z.to_nat pos) b) | None => None end.

(** The store [st], which has left the list, answers the call; what is left of
    it goes back to the front. *)
Definition recvmsg_store (h : wedge_to_daemon_hdr) (st : daemon_store) (d : Z * option (list Z))
    (buf_len msg_controllen flags : Z) : M ST Z :=
  let i := h_sock_index h in
  m ← ff_meta (st_ff st);
  read_stamp i m ;;
  let left := u32 (fst d - st_pos st) in
  let msg_len := if u32 buf_len <? left then u32 buf_len else left in
  ctl ← recvmsg_control i 0 m msg_controllen flags;
  ok ← send_wedge_recvmsg (h_call_type h) (h_call_id h) (h_call_index h) (fst ctl) (st_addr st) msg_len
         (from_pos (st_pos st) (snd d)) (snd ctl);
  (if (ok : bool) then mret tt else nack_hdr h 1) ;;
  (if msg_len =? left then daemon_store_free st
   else
     let pos := u32 (st_pos st + msg_len) in
     upd_sock i (λ x,
       set_so_data_buf (s32 (so_data_buf x + u32 (fst d - pos)))
         (set_so_data_list (MkStored (st_addr st) (st_ff st) pos :: so_data_list x) x))) ;;
  mret msg_len.

Definition recvmsg_out_tcp (h : wedge_to_daemon_hdr) (buf_len msg_controllen flags : Z) : M ST unit :=
  let i := h_sock_index h in
  x ← get_sock i;
  if negb (so_state x =? SS_CONNECTING) && negb (so_state x =? SS_CONNECTED) then nack_hdr h 1
  else if has flags MSG_ERRQUEUE then nack_hdr h 1
  else if 0 <? so_data_buf x then
    match so_data_list x with
    | [] => segv
    | st :: l =>
        d ← stored_data (st_ff st);
        upd_sock i (λ x,
          set_so_data_buf (s32 (so_data_buf x - u32 (fst d - st_pos st))) (set_so_data_list l x)) ;;
        if sin_family (st_addr st) =? AF_INET then
          let rem_ip := addr4_get_ip (so_rem_addr x) in
          let rem_port := addr4_get_port (so_rem_addr x) in
          m ← host_metas x metadata_create;
          m ← put_metas [("rem_ip", rem_ip); ("rem_port", rem_port)] m;
          msg_len ← recvmsg_store h
                      (MkStored (MkAddr AF_INET (htons rem_port) (htonl rem_ip)) (st_ff st) (st_pos st))
                      d buf_len msg_controllen flags;
          m ← put_metas [("family", so_family x); ("state", so_state x); ("value", msg_len)] m;
          send_host_window m
        else nack_hdr h 1
    end
  else if negb (has (so_status x) DAEMON_STATUS_RD) then
    ok ← send_wedge_eof (h_call_type h) (h_call_id h) (h_call_index h)
           (junk_from None (Some (htons (addr4_get_port (so_rem_addr x))))
              (Some (htonl (addr4_get_ip (so_rem_addr x)))));
    if (ok : bool) then mret tt else nack_hdr h 1
  else recvmsg_wait h buf_len msg_controllen flags.

(** ** Closing *)

Definition release_now (h : wedge_to_daemon_hdr) : M ST unit :=
  daemon_sockets_remove (h_sock_index h) ;; ack_hdr h 0.

Definition release_out_tcp (h : wedge_to_daemon_hdr) : M ST unit :=
  x ← get_sock (h_sock_index h);
  if so_family x =? AF_INET then
    m ← host_metas x metadata_create;
    m ← rem_metas x m;
    m ← put_metas [("family", so_family x); ("state", so_state x)] m;
    serial ← next_serial;
    let close exec_call :=
      sent ← daemon_fcf_to_switch DAEMON_FLOW_TCP m serial CTRL_EXEC exec_call;
      wait_sent h serial sent (λ c, c) (mret tt) in
    if negb (so_listening x =? 0) then close DAEMON_EXEC_TCP_CLOSE_STUB
    else if SS_UNCONNECTED <? so_state x then close DAEMON_EXEC_TCP_CLOSE
    else release_now h
  else release_now h.

Definition shutdown_out_tcp (h : wedge_to_daemon_hdr) (how : Z) : M ST unit :=
  let how_daemon :=
    if how =? SHUT_RD then Some DAEMON_STATUS_RD
    else if how =? SHUT_WR then Some DAEMON_STATUS_WR
    else if how =? SHUT_RDWR then Some DAEMON_STATUS_RDWR
    else None in
  match how_daemon with
  | None => nack_hdr h EINVAL
  | Some how_daemon =>
      x ← get_sock (h_sock_index h);
      if so_state x =? SS_CONNECTED then
        let and_test := Z.land (so_status x) how_daemon in
        if negb (and_test =? 0) then
          upd_sock (h_sock_index h) (λ x, set_so_status (Z.ldiff (so_status x) and_test) x) ;;
          m ← put_metas [("family", AF_INET); ("state", so_state x)] metadata_create;
          m ← host_metas x m;
          m ← rem_metas x m;
          m ← put_metas [("value", and_test)] m;
          serial ← next_serial;
          sent ← daemon_fcf_to_switch DAEMON_FLOW_TCP m serial CTRL_ALERT DAEMON_ALERT_SHUTDOWN;
          if sent =? 0 then nack_hdr h 1 else ack_hdr h 0
        else ack_hdr h 0
      else nack_hdr h ENOTCONN
  end.

(** ** Polling *)

Definition poll_send_tcp (h : wedge_to_daemon_hdr) (events initial serial_num : Z) : M ST Z :=
  x ← get_sock (h_sock_index h);
  m ← put_metas [("initial", initial); ("family", AF_INET); ("state", so_state x); ("flags", events)]
        metadata_create;
  m ← host_metas x m;
  m ← rem_metas x m;
  daemon_fcf_to_switch DAEMON_FLOW_TCP m serial_num CTRL_EXEC DAEMON_EXEC_TCP_POLL.

(** The TCP module is asked about [events]; the call waits for the reply with
    the events [buf] not triggered and [flags] triggered. *)
Definition poll_ask (h : wedge_to_daemon_hdr) (events initial buf flags : Z) : M ST unit :=
  serial ← next_serial;
  sent ← poll_send_tcp h events initial serial;
  wait_sent h serial sent
    (λ c, set_c_new (c_sock_id_new c) initial (set_events buf flags 0 c)) (mret tt).

Definition poll_initial_tcp (h : wedge_to_daemon_hdr) (events : Z) : M ST unit :=
  let i := h_sock_index h in
  x ← get_sock i;
  let mask := poll_mask_tcp x events in
  let ret_mask := Z.land events mask in
  let events_left := Z.ldiff events mask in
  r ← poll_find h x;
  if negb (events_left =? 0) then
    match r with
    | Some (n, r, c) =>
        if has events_left POLL_WRITE then
          drop_ref i n r ;; poll_ask h events 1 events_left ret_mask
        else upd_ref i n r (set_events events_left 0 ret_mask) ;; ack_hdr h ret_mask
    | None =>
        if has events_left POLL_WRITE then poll_ask h events 1 events_left ret_mask
        else if Z.of_nat (length (so_call_list x)) <? DAEMON_CALL_LIST_MAX then
          let c := daemon_call_create (h_call_id h) (h_call_index h) (h_call_pid h) (h_call_type h)
                     (h_sock_id h) i in
          upd_sock i (λ x, set_so_call_list
            (so_call_list x ++ [CMem (set_events events_left 0 ret_mask c)]) x) ;;
          ack_hdr h ret_mask
        else nack_hdr h 1
    end
  else
    match r with Some (n, r, c) => drop_ref i n r | None => mret tt end ;;
    ack_hdr h ret_mask.

Definition poll_final_tcp (h : wedge_to_daemon_hdr) : M ST unit :=
  let i := h_sock_index h in
  x ← get_sock i;
  r ← poll_find h x;
  match r with
  | Some (n, r, c) =>
      let events := Z.lor (c_buf c) (c_flags c) in
      let mask := poll_mask_tcp x events in
      let ret_mask := Z.land events mask in
      let events_left := Z.ldiff events mask in
      if negb (events_left =? 0) then
        if has events_left POLL_WRITE then
          drop_ref i n r ;; poll_ask h events 0 events_left ret_mask
        else upd_ref i n r (set_events events_left 0 (Z.lor (c_ret c) ret_mask)) ;; ack_hdr h ret_mask
      else drop_ref i n r ;; ack_hdr h ret_mask
  | None => poll_ask h 0 0 0 (poll_mask_tcp x POLL_READ)
  end.

Definition poll_out_tcp (h : wedge_to_daemon_hdr) (events : Z) : M ST unit :=
  if negb (events =? 0) then poll_initial_tcp h events else poll_final_tcp h.

(** ** Options *)

(** The metadata that both calls prepare, whether it is sent or not. *)
Definition option_metas (x : daemon_socket) : M ST metadata :=
  m ← put_metas [("family", AF_INET); ("state", so_state x)] metadata_create;
  m ← host_metas x m;
  rem_metas x m.

(** No option is read from the TCP module. *)
Definition getsockopt_out_tcp (h : wedge_to_daemon_hdr) (level optname optlen : Z) : M ST unit :=
  x ← get_sock (h_sock_index h);
  option_metas x ;;
  match udp_option level optname with
  | Some o =>
      if holds_int optlen then reply_wedge h (le_bytes 4 4 ++ le_bytes 4 (so_opts x o))
      else nack_hdr h 1
  | None => nack_hdr h 1
  end.

Definition setsockopt_out_tcp (h : wedge_to_daemon_hdr) (level optname optlen : Z) (optval : list Z) : M ST unit :=
  x ← get_sock (h_sock_index h);
  m ← option_metas x;
  match udp_option level optname with
  | Some FSO_PASSCRED | None => nack_hdr h 1
  | Some o =>
      if holds_int optlen then
        v ← lift (get_int optval);
        set_option (h_sock_index h) o v ;;
        if to_tcp o then
          m ← put_metas [("value", v)] m;
          if so_state x =? SS_UNCONNECTED then ack_hdr h 0
          else
            m ← put_metas [("opt_level", level); ("opt_name", optname); ("opt_len", optlen)] m;
            serial ← next_serial;
            sent ← daemon_fcf_to_switch DAEMON_FLOW_TCP m serial CTRL_SET_PARAM DAEMON_SET_PARAM_TCP_SOCK_OPT;
            wait_sent h serial sent (λ c, c) (mret tt)
        else ack_hdr h 0
      else nack_hdr h 1
  end.

End DaemonTcp.
