(* ===== verification/DaemonTcpIn.v ===== *)
(** * TCP sockets: replies, data and time-outs of [tcpHandling.c]

    What the TCP module sends to the daemon (replies to the requests of
    [DaemonTcp], data, errors and alerts), the time-outs of calls, and
    [tcp_ops], the table of the functions of the protocol. *)

From stdpp Require Import base list gmap strings.
From Stdlib Require Import ZArith Lia.
From S2P Require Import Prelude Queue Metadata Frame Module IPv4 Double Daemon DaemonUdp DaemonOut DaemonTcp.
Open Scope Z_scope.
Open Scope fins_scope.

Section DaemonTcpIn.
Context {Q : Type} `{BoundedFifo Q finsFrame} `{DaemonEnv} `{DaemonTcpEnv}.
Abbreviation ST := (mstate Q daemon_data) (only parsing).

Definition ack_call (c : daemon_call) (msg : Z) : M ST unit :=
  ack_send (c_id c) (c_index c) (c_type c) msg ;; mret tt.

(** ** Replies

    The call [c] is a copy that has left the table and the list of its socket;
    freeing it is nothing. *)

(** A reply with another parameter than [params] is refused. *)
Definition expect_param (params : list Z) (ff : finsFrame) (c : daemon_call) (k : finsCtrlFrame → M ST unit)
    : M ST unit :=
  ctrl ← ff_ctrl ff;
  if existsb (Z.eqb (param_id ctrl)) params then k ctrl
  else nack_call c 1 ;; free_ff ff.

(** The connection failed: the next [connect] reports [msg]. *)
Definition connect_failed (c : daemon_call) (msg : Z) : M ST unit :=
  upd_sock (c_sock_index c) (λ x,
    set_so_rem_addr (addr4_set_port 0 (addr4_set_ip 0 (so_rem_addr x)))
      (set_so_error msg (c_type c) (set_so_state SS_UNCONNECTED x))).

Definition connect_in_tcp (ff : finsFrame) (c : daemon_call) : M ST unit :=
  expect_param [DAEMON_EXEC_TCP_CONNECT] ff c (λ ctrl,
    ret_msg ← ff_read ff "ret_msg";
    (if ret_val ctrl =? FCF_TRUE then
       upd_sock (c_sock_index c) (set_so_state SS_CONNECTED) ;; ack_call c ret_msg
     else connect_failed c ret_msg ;; nack_call c ECONNREFUSED) ;;
    free_ff ff).

(** The new socket of an accepted connection. *)
Definition accept_socket (c : daemon_call) (rem_ip rem_port : Z) : M ST bool :=
  l ← get_sock (c_sock_index c);
  ok ← daemon_sockets_insert (c_sock_id_new c) (c_sock_index_new c) (so_type l) (so_protocol l) IPPROTO_TCP;
  if (ok : bool) then
    upd_sock (c_sock_index_new c) (λ x,
      set_so_rem_addr (addr4_set_port (u16 rem_port) (addr4_set_ip rem_ip (so_rem_addr x)))
        (set_so_host_addr (so_host_addr l) (set_so_state SS_CONNECTED (set_so_family (so_family l) x)))) ;;
    mret true
  else mret false.
Definition accept_failed (c : daemon_call) (msg : Z) : M ST unit :=
  upd_sock (c_sock_index c) (λ x, set_so_error msg (c_type c) (set_so_state SS_UNCONNECTED x)).

Definition accept_in_tcp (ff : finsFrame) (c : daemon_call) : M ST unit :=
  expect_param [DAEMON_EXEC_TCP_ACCEPT] ff c (λ ctrl,
    ret_msg ← ff_read ff "ret_msg";
    rem_ip ← ff_read ff "rem_ip";
    rem_port ← ff_read ff "rem_port";
    (if ret_val ctrl =? FCF_TRUE then
       ok ← accept_socket c rem_ip rem_port;
       if (ok : bool) then
         upd_sock (c_sock_index c) (λ x, set_so_new NO_SOCK (-1) (set_so_state SS_UNCONNECTED x)) ;;
         ack_call c ret_msg
       else accept_failed c 0 ;; nack_call c 1
     else accept_failed c ret_msg ;; nack_call c ECONNREFUSED) ;;
    free_ff ff).

(** The outcome is passed on. *)
Definition outcome_in (params : list Z) (ff : finsFrame) (c : daemon_call) (k : M ST unit) : M ST unit :=
  expect_param params ff c (λ ctrl,
    ret_msg ← ff_read ff "ret_msg";
    (if ret_val ctrl =? FCF_TRUE then ack_call c ret_msg ;; k else nack_call c ret_msg) ;;
    free_ff ff).
Definition sendmsg_in_tcp (ff : finsFrame) (c : daemon_call) : M ST unit :=
  outcome_in [DAEMON_EXEC_TCP_SEND] ff c (mret tt).
Definition setsockopt_in_tcp (ff : finsFrame) (c : daemon_call) : M ST unit :=
  outcome_in [DAEMON_SET_PARAM_TCP_SOCK_OPT] ff c (mret tt).
Definition release_in_tcp (ff : finsFrame) (c : daemon_call) : M ST unit :=
  outcome_in [DAEMON_EXEC_TCP_CLOSE; DAEMON_EXEC_TCP_CLOSE_STUB] ff c
    (daemon_sockets_remove (c_sock_index c)).

(** The value is never passed on. *)
Definition getsockopt_in_tcp (ff : finsFrame) (c : daemon_call) : M ST unit :=
  expect_param [DAEMON_READ_PARAM_TCP_SOCK_OPT] ff c (λ ctrl,
    ret_msg ← ff_read ff "ret_msg";
    (if ret_val ctrl =? FCF_TRUE then
       r ← send_wedge (MkWedge (c_type c) (c_id c) (c_index c) DAEMON_ACK ret_msg (le_bytes 4 0));
       if r =? 0 then mret tt else nack_call c 1
     else nack_call c ret_msg) ;;
    free_ff ff).

(** The copy of the call goes back to the list of its socket if events are
    left. *)
Definition poll_in_tcp_fcf (ff : finsFrame) (c : daemon_call) : M ST unit :=
  ret_msg ← ff_read ff "ret_msg";
  ctrl ← ff_ctrl ff;
  (if negb (param_id ctrl =? DAEMON_EXEC_TCP_POLL) || (ret_val ctrl =? FCF_FALSE) then nack_call c 1
   else
     let events := c_buf c in
     let ret_mask := Z.lor (c_flags c) (if events =? 0 then ret_msg else Z.land events ret_msg) in
     let events_left := Z.ldiff events ret_msg in
     if negb (events_left =? 0) then
       x ← get_sock (c_sock_index c);
       if Z.of_nat (length (so_call_list x)) <? DAEMON_CALL_LIST_MAX then
         upd_sock (c_sock_index c) (λ x, set_so_call_list
           (so_call_list x ++ [CMem (set_events events_left 0 (Z.lor (c_ret c) ret_mask) c)]) x) ;;
         ack_call c ret_mask
       else nack_call c 1
     else ack_call c ret_mask) ;;
  free_ff ff.

(** ** Data *)

(** Written as [poll_in_udp]; [poll_in_each] is [list_for_each2]. *)
Definition poll_in_tcp_fdf (i : Z) (n : nat) (r : call_ref) (flags : Z) : M ST unit :=
  poll_in_udp i n r flags.

(** The address is turned into network order in place: [addr] is what the
    caller's variable holds, and the result has what it holds afterwards, with
    the number of bytes taken. *)
Definition recvmsg_in_tcp_fdf (c : daemon_call) (m : metadata) (data_len : Z) (data : option (list Z))
    (addr : sockaddr) (flags : Z) : M ST (Z * sockaddr) :=
  read_stamp (c_sock_index c) m ;;
  let data_len := if c_buf c <? data_len then c_buf c else data_len in
  if sin_family addr =? AF_INET then
    let addr := netw_addr addr in
    ctl ← recvmsg_control (c_sock_index c) 0 m (c_ret c) flags;
    ok ← send_wedge_recvmsg (c_type c) (c_id c) (c_index c) (fst ctl) addr data_len data (snd ctl);
    (if (ok : bool) then mret tt else nack_call c 1) ;;
    daemon_calls_remove (c_index c) ;;
    x ← get_sock (c_sock_index c);
    m ← put_metas [("value", data_len); ("family", AF_INET); ("state", so_state x)] metadata_create;
    m ← host_metas x m;
    m ← rem_metas x m;
    send_host_window m ;;
    mret (data_len, addr)
  else nack_call c 1 ;; daemon_calls_remove (c_index c) ;; mret (data_len, addr).

(** The readers that wait take the data in turn; the result is the position
    reached, or [None] when all is taken and the frame freed.  Every round
    takes a call from the list. *)
Fixpoint feed_readers (fuel : nat) (i : Z) (ff : finsFrame) (m : metadata) (data_len : Z)
    (data : option (list Z)) (pos : Z) (addr : sockaddr) : M ST (option Z) :=
  match fuel with
  | O => nofuel
  | S fuel =>
      r ← find_reader i false;
      match r with
      | Some (n, r, c) =>
          upd_sock i (λ x, set_so_call_list (delete n (so_call_list x)) x) ;;
          t ← recvmsg_in_tcp_fdf c m (u32 (data_len - pos)) (from_pos pos data) addr 0;
          let pos := u32 (pos + fst t) in
          if pos =? data_len then free_ff ff ;; mret None
          else feed_readers fuel i ff m data_len data pos (snd t)
      | None => mret (Some pos)
      end
  end.

(** The stamp of the frame: the first eight bytes of the time, the seconds. *)
Definition stamp_frame (ff : finsFrame) : M ST finsFrame :=
  t ← ask timeofday; ff_write ff "recv_stamp" (VInt64 (fst t)).

Definition daemon_in_fdf_tcp (ff : finsFrame) (family : Z) (src dst : sockaddr) : M ST unit :=
  src_port ← ff_read ff "recv_src_port";
  dst_port ← ff_read ff "recv_dst_port";
  if family =? AF_INET then
    s ← get;
    let i := match_conn_or_stub (sockets (md s)) (addr4_get_ip src) (u16 src_port)
               (addr4_get_ip dst) (u16 dst_port) in
    if i =? -1 then free_ff ff
    else
      ff ← stamp_frame ff;
      x ← get_sock i;
      poll_in_each i 0 (so_call_list x) POLLIN ;;
      d ← ff_data ff;
      m ← ff_meta ff;
      r ← feed_readers (S (length (so_call_list x))) i ff m (pduLength d) (pdu d) 0 dst;
      match r with
      | None => mret tt
      | Some pos =>
          x ← get_sock i;
          if Z.of_nat (length (so_data_list x)) <? STORE_LIST_MAX then
            upd_sock i (λ x,
              set_so_data_buf (s32 (so_data_buf x + u32 (pduLength d - pos)))
                (set_so_data_list (so_data_list x ++ [MkStored src ff pos]) x))
          else daemon_store_free (MkStored src ff pos)
      end
  else free_ff ff.

(** ** Errors and alerts *)

Definition daemon_in_error_tcp (ff : finsFrame) (family : Z) (src dst : sockaddr) : M ST unit :=
  src_port ← ff_read ff "send_src_port";
  dst_port ← ff_read ff "send_dst_port";
  if family =? AF_INET then
    s ← get;
    let i := match_conn_or_stub (sockets (md s)) (addr4_get_ip src) (u16 src_port)
               (addr4_get_ip dst) (u16 dst_port) in
    if i =? -1 then free_ff ff
    else
      ff ← stamp_frame ff;
      x ← get_sock i;
      poll_in_each i 0 (so_call_list x) POLLERR ;;
      free_ff ff
  else free_ff ff.

(** The socket an alert is about; [k] gets its place in the table. *)
Definition alert_socket (ff : finsFrame) (k : Z → M ST unit) : M ST unit :=
  family ← ff_read ff "family";
  state ← ff_read ff "state";
  host_ip ← ff_read ff "host_ip";
  host_port ← ff_read ff "host_port";
  rem ← (if SS_UNCONNECTED <? state then
           rem_ip ← ff_read ff "rem_ip"; rem_port ← ff_read ff "rem_port"; mret (rem_ip, rem_port)
         else mret (0, 0) : M ST (Z * Z));
  s ← get;
  let i := match_conn_or_stub (sockets (md s)) host_ip (u16 host_port) (fst rem) (u16 (snd rem)) in
  (if i =? -1 then mret tt else k i) ;; free_ff ff.

Definition daemon_in_poll_tcp (ff : finsFrame) (ret_msg : Z) : M ST unit :=
  alert_socket ff (λ i, x ← get_sock i; poll_in_each i 0 (so_call_list x) ret_msg).

(** Every reader that waits learns of the end of the stream.  The calls leave
    the list but not the table. *)
Fixpoint end_readers (fuel : nat) (i family : Z) : M ST unit :=
  match fuel with
  | O => nofuel
  | S fuel =>
      r ← find_reader i false;
      match r with
      | Some (n, r, c) =>
          ok ← send_wedge_eof (c_type c) (c_id c) (c_index c) (junk_from (Some family) None None);
          (if (ok : bool) then mret tt else nack_call c 1) ;;
          upd_sock i (λ x, set_so_call_list (delete n (so_call_list x)) x) ;;
          end_readers fuel i family
      | None => mret tt
      end
  end.

Definition daemon_in_shutdown_tcp (ff : finsFrame) (ret_msg : Z) : M ST unit :=
  alert_socket ff (λ i,
    upd_sock i (λ x, set_so_status (Z.ldiff (so_status x) ret_msg) x) ;;
    x ← get_sock i;
    (if has ret_msg DAEMON_STATUS_WR then poll_in_each i 0 (so_call_list x) POLLHUP else mret tt) ;;
    if has ret_msg DAEMON_STATUS_RD then end_readers (S (length (so_call_list x))) i (so_family x) else mret tt).

(** ** Time-outs *)

(** A call whose request is under way waits for the reply in the list of expired
    calls. *)
Definition expire_call (c : daemon_call) : M ST unit :=
  if negb (c_serial c =? 0) then
    s ← get;
    if Z.of_nat (length (expired_call_list (md s))) <? DAEMON_MAX_CALLS then
      nack_call c EAGAIN ;;
      s ← get;
      dmod (set_expired_call_list (expired_call_list (md s) ++ [c]))
    else nack_call c 1
  else nack_call c EAGAIN.

(** The error of an earlier attempt is reported once. *)
Definition report_error (c : daemon_call) (x : daemon_socket) : M ST unit :=
  nack_call c (so_error_msg x) ;; upd_sock (c_sock_index c) (set_so_error 0 0).

Definition connect_timeout_tcp (c : daemon_call) : M ST unit :=
  x ← get_sock (c_sock_index c);
  if so_state x =? SS_UNCONNECTED then
    if so_error_call x =? c_type c then report_error c x else nack_call c (u32 (-1))
  else if so_state x =? SS_CONNECTING then expire_call c
  else if so_state x =? SS_CONNECTED then ack_call c 0
  else nack_call c 1.

Definition accept_timeout_tcp (c : daemon_call) : M ST unit :=
  x ← get_sock (c_sock_index c);
  if so_state x =? SS_UNCONNECTED then
    if so_error_call x =? c_type c then report_error c x
    else if negb (so_sock_id_new x =? NO_SOCK) && negb (so_sock_index_new x =? -1) then
      ack_call c 0 ;; upd_sock (c_sock_index c) (set_so_new 0 0)
    else nack_call c EAGAIN
  else if so_state x =? SS_CONNECTING then expire_call c
  else nack_call c 1.

Definition recvmsg_timeout_tcp (c : daemon_call) : M ST unit :=
  x ← get_sock (c_sock_index c);
  if so_state x =? SS_CONNECTED then nack_call c EAGAIN else nack_call c 1.

(** The reply for an expired call only changes the socket: [daemon_exec_reply],
    the only caller, passes 0 as [reply]. *)
Definition expect_expired (params : list Z) (ff : finsFrame) (k : finsCtrlFrame → M ST unit) : M ST unit :=
  ctrl ← ff_ctrl ff;
  if existsb (Z.eqb (param_id ctrl)) params then k ctrl else free_ff ff.

Definition connect_expired_tcp (ff : finsFrame) (c : daemon_call) : M ST unit :=
  expect_expired [DAEMON_EXEC_TCP_CONNECT] ff (λ ctrl,
    ret_msg ← ff_read ff "ret_msg";
    (if ret_val ctrl =? FCF_TRUE then upd_sock (c_sock_index c) (set_so_state SS_CONNECTED)
     else connect_failed c ret_msg) ;;
    free_ff ff).

Definition accept_expired_tcp (ff : finsFrame) (c : daemon_call) : M ST unit :=
  expect_expired [DAEMON_EXEC_TCP_ACCEPT] ff (λ ctrl,
    ret_msg ← ff_read ff "ret_msg";
    rem_ip ← ff_read ff "rem_ip";
    rem_port ← ff_read ff "rem_port";
    (if ret_val ctrl =? FCF_TRUE then
       ok ← accept_socket c rem_ip rem_port;
       if (ok : bool) then
         upd_sock (c_sock_index c) (λ x,
           set_so_new (c_sock_id_new c) (c_sock_index_new c) (set_so_state SS_UNCONNECTED x))
       else accept_failed c 0
     else accept_failed c ret_msg) ;;
    free_ff ff).

(** ** The table of functions *)

Definition tcp_in_ops (t : Z) : option (finsFrame → daemon_call → M ST unit) :=
  if t =? CONNECT_CALL then Some connect_in_tcp
  else if t =? ACCEPT_CALL then Some accept_in_tcp
  else if t =? SENDMSG_CALL then Some sendmsg_in_tcp
  else if t =? GETSOCKOPT_CALL then Some getsockopt_in_tcp
  else if t =? SETSOCKOPT_CALL then Some setsockopt_in_tcp
  else if t =? RELEASE_CALL then Some release_in_tcp
  else if t =? POLL_CALL then Some poll_in_tcp_fcf
  else None.
Definition tcp_timeout_ops (t : Z) : option (daemon_call → M ST unit) :=
  if t =? CONNECT_CALL then Some connect_timeout_tcp
  else if t =? ACCEPT_CALL then Some accept_timeout_tcp
  else if t =? RECVMSG_CALL then Some recvmsg_timeout_tcp
  else None.
Definition tcp_expired_ops (t : Z) : option (finsFrame → daemon_call → M ST unit) :=
  if t =? CONNECT_CALL then Some connect_expired_tcp
  else if t =? ACCEPT_CALL then Some accept_expired_tcp
  else None.

Definition tcp_ops : proto_ops Q :=
  MkOps socket_tcp_test socket_out_tcp (Some daemon_in_fdf_tcp) (Some daemon_in_error_tcp)
    (Some daemon_in_poll_tcp) (Some daemon_in_shutdown_tcp)
    (Some bind_out_tcp) (Some listen_out_tcp) (Some connect_out_tcp) (Some accept_out_tcp)
    (Some getname_out_tcp) (Some ioctl_out_tcp) (Some sendmsg_out_tcp) (Some recvmsg_out_tcp)
    (Some getsockopt_out_tcp) (Some setsockopt_out_tcp) (Some release_out_tcp) (Some poll_out_tcp)
    (Some (mret tt)) (Some shutdown_out_tcp)
    tcp_in_ops tcp_timeout_ops tcp_expired_ops.

End DaemonTcpIn.
