(* ===== verification/DaemonFacts.v ===== *)
(** * Facts about the daemon's tables

    [quiet m]: [m] leaves the private data alone.  [keepsd g m]: [m] leaves the
    view [g] of it alone; the tactic [kd] walks through a handler with the hint
    database [daemon].  [rest_*] are the steps of handlers that return. *)

From stdpp Require Import base list gmap strings.
From Stdlib Require Import ZArith Lia.
From S2P Require Import Prelude Queue Metadata Frame Module IPv4 Double Run Daemon DaemonUdp DaemonOut.
Open Scope Z_scope.
Open Scope fins_scope.

Create HintDb daemon discriminated.
#[export] Hint Constants Opaque : daemon.
#[export] Hint Transparent timeval itimer metadata : daemon.

Lemma ok_bind {S A B} (m : M S A) (k : A → M S B) s b s' :
  (m ≫= k) s = Ok (b, s') → ∃ a s1, m s = Ok (a, s1) ∧ k a s1 = Ok (b, s').
Proof. unfold mbind, M_bind. destruct (m s) as [[a s1]| | |] eqn:E; [eauto|done..]. Qed.

Section Keeps.
Context {Q : Type} `{BoundedFifo Q finsFrame} `{DaemonEnv}.
Abbreviation ST := (mstate Q daemon_data) (only parsing).

Definition keepsd {A X} (g : daemon_data → X) (m : M ST A) : Prop :=
  ∀ s a s', m s = Ok (a, s') → g (md s') = g (md s).

Section Rules.
Context {X : Type} (g : daemon_data → X).

Lemma kd_ret {A} (a : A) : keepsd g (mret a).
Proof. by intros s b s' [= <- <-]. Qed.
Lemma kd_bind {A B} (m : M ST A) (k : A → M ST B) :
  keepsd g m → (∀ a, keepsd g (k a)) → keepsd g (m ≫= k).
Proof. intros Hm Hk s b s' (a & s1 & E1 & E2)%ok_bind. by rewrite (Hk _ _ _ _ E2), (Hm _ _ _ E1). Qed.
Lemma kd_segv {A} : keepsd g (segv : M ST A).
Proof. done. Qed.
Lemma kd_exit {A} : keepsd g (exit_ : M ST A).
Proof. done. Qed.
Lemma kd_nofuel {A} : keepsd g (nofuel : M ST A).
Proof. done. Qed.
Lemma kd_get : keepsd g get.
Proof. by intros s a s' [= <- <-]. Qed.
Lemma kd_lift {A} (r : res A) : keepsd g (lift r).
Proof. intros s a s'. unfold lift. by destruct r; intros [= <- <-]. Qed.
Lemma kd_dmod f : (∀ d, g (f d) = g d) → keepsd g (dmod f).
Proof. intros Hf s a s' [= _ <-]. simpl. apply Hf. Qed.
End Rules.

#[local] Hint Resolve kd_ret kd_segv kd_exit kd_nofuel kd_get kd_lift : daemon.
Ltac kstep :=
  match goal with
  | |- keepsd _ (mbind _ _) => apply kd_bind; [|intros ?]
  | |- keepsd _ (match ?x with _ => _ end) => destruct x
  | |- keepsd _ (let _ := _ in _) => cbv zeta
  end.
Ltac kd := repeat (kstep || solve [auto with daemon nocore]).

(** The module runtime does not touch the private data. *)
Section Quiet.
Context {X : Type} (g : daemon_data → X).

Lemma kd_free ff : keepsd g (free_ff ff).
Proof. apply kd_bind; [apply kd_lift|]. by intros _ s a s' [= <- <-]. Qed.
Lemma kd_meta ff : keepsd g (ff_meta ff).
Proof. unfold ff_meta. kd. Qed.
#[local] Hint Resolve kd_meta : daemon.
Lemma kd_read ff t : keepsd g (ff_read ff t).
Proof. unfold ff_read. kd. Qed.
Lemma kd_write ff t v : keepsd g (ff_write ff t v).
Proof. unfold ff_write. kd. Qed.
Lemma kd_ctrl ff : keepsd g (ff_ctrl ff).
Proof. unfold ff_ctrl. kd. Qed.
Lemma kd_data ff : keepsd g (ff_data ff).
Proof. unfold ff_data. kd. Qed.
Lemma kd_switch ff : keepsd g (module_to_switch ff).
Proof.
  intros s a s'. unfold module_to_switch. destruct (bf_write _ _) as [[r q]| | |]; try done.
  by destruct (r =? 0); intros [= <- <-].
Qed.
Lemma kd_on_store {A} (m : M link_store A) : keepsd g (on_store m).
Proof. intros s a s'. unfold on_store. by destruct (m _) as [[b st]| | |]; intros [= <- <-]. Qed.
Lemma kd_set_mt t : keepsd g (modify (set_mt t)).
Proof. by intros s a s' [= <- <-]. Qed.
#[local] Hint Resolve kd_free kd_read kd_write kd_ctrl kd_data kd_switch kd_on_store kd_set_mt : daemon.
Lemma kd_clones ff dsts n : keepsd g (send_clones ff dsts n).
Proof. revert dsts. induction n as [|n IH]; intros dsts; cbn [send_clones]; kd. Qed.
#[local] Hint Resolve kd_clones : daemon.
Lemma kd_send ff flow : keepsd g (module_send_flow ff flow).
Proof. unfold module_send_flow. kd. Qed.
Lemma kd_reply ff a b : keepsd g (module_reply_fcf ff a b).
Proof. unfold module_reply_fcf. kd. Qed.
#[local] Hint Resolve kd_send kd_reply : daemon.
Lemma kd_set_param ff : keepsd g (set_param ff).
Proof. unfold set_param, module_set_param_flows, module_set_param_links, module_set_param_dual. kd. Qed.
Lemma kd_metas kvs m : keepsd g (put_metas kvs m).
Proof. revert m. induction kvs as [|[k v] kvs IH]; intros m; cbn [put_metas]; kd. Qed.
Lemma kd_fdf flow n b m : keepsd g (daemon_fdf_to_switch flow n b m).
Proof. unfold daemon_fdf_to_switch. kd. Qed.
Lemma kd_read_input : keepsd g (read_input).
Proof. intros s a s'. unfold read_input. destruct (bf_read _) as [[r q]| | |]; try done. by intros [= <- <-]. Qed.
Lemma kd_get_sock i : keepsd g (get_sock i).
Proof. unfold get_sock. kd. Qed.
Lemma kd_get_call i : keepsd g (get_call i).
Proof. unfold get_call. kd. Qed.
#[local] Hint Resolve kd_get_sock kd_get_call : daemon.
Lemma kd_store st : keepsd g (daemon_store_free st).
Proof. apply kd_free. Qed.
#[local] Hint Resolve kd_store : daemon.
Lemma kd_free_stores l : keepsd g (free_stores l).
Proof. induction l; cbn [free_stores]; kd. Qed.
Lemma kd_drop_errors l : keepsd g (drop_errors l).
Proof. induction l; cbn [drop_errors]; kd. Qed.
Lemma kd_stored_data ff : keepsd g (stored_data ff).
Proof. unfold stored_data. kd. Qed.
Lemma kd_stored_error ff : keepsd g (stored_error ff).
Proof. unfold stored_error. kd. Qed.
Lemma kd_main_ip : keepsd g main_ip.
Proof. unfold main_ip. kd. Qed.
Lemma kd_control i a m b c : keepsd g (recvmsg_control i a m b c).
Proof. unfold recvmsg_control. kd. Qed.
Lemma kd_find_reader i b : keepsd g (find_reader i b).
Proof. unfold find_reader. kd. Qed.
Lemma kd_poll_find h x : keepsd g (poll_find h x).
Proof. unfold poll_find. kd. Qed.
Lemma kd_frame_addrs ff f a b : keepsd g (frame_addrs ff f a b).
Proof. unfold frame_addrs. kd. Qed.
Lemma kd_calls_find n : keepsd g (daemon_calls_find n).
Proof. unfold daemon_calls_find. kd. Qed.
End Quiet.

(** ** Reading and writing the tables *)

Lemma get_sock_inv i (s : ST) x s' :
  get_sock i s = Ok (x, s') → s' = s ∧ 0 ≤ i ∧ sockets (md s) !! Z.to_nat i = Some x.
Proof.
  unfold get_sock. intros (s1 & s2 & E1 & E)%ok_bind. injection E1 as <- <-. destruct (Z.ltb_spec i 0); [done|].
  destruct (sockets (md s) !! Z.to_nat i) eqn:El; [|done]. by injection E as -> ->.
Qed.
Lemma get_call_inv i (s : ST) x s' :
  get_call i s = Ok (x, s') → s' = s ∧ 0 ≤ i ∧ calls (md s) !! Z.to_nat i = Some x.
Proof.
  unfold get_call. intros (s1 & s2 & E1 & E)%ok_bind. injection E1 as <- <-. destruct (Z.ltb_spec i 0); [done|].
  destruct (calls (md s) !! Z.to_nat i) eqn:El; [|done]. by injection E as -> ->.
Qed.

Definition put_sock (i : Z) (x : daemon_socket) (d : daemon_data) : daemon_data :=
  set_sockets (<[Z.to_nat i := x]> (sockets d)) d.
Definition put_call (i : Z) (c : daemon_call) (d : daemon_data) : daemon_data :=
  set_calls (<[Z.to_nat i := c]> (calls d)) d.

Lemma upd_sock_inv i f (s : ST) a s' :
  upd_sock i f s = Ok (a, s') →
  ∃ x, 0 ≤ i ∧ sockets (md s) !! Z.to_nat i = Some x ∧ s' = set_md (put_sock i (f x) (md s)) s.
Proof.
  unfold upd_sock. intros (x & s1 & (-> & Hi & Hx)%get_sock_inv & E)%ok_bind.
  exists x. by injection E as <-.
Qed.
Lemma upd_call_inv i f (s : ST) a s' :
  upd_call i f s = Ok (a, s') →
  ∃ c, 0 ≤ i ∧ calls (md s) !! Z.to_nat i = Some c ∧ s' = set_md (put_call i (f c) (md s)) s.
Proof.
  unfold upd_call. intros (x & s1 & (-> & Hi & Hx)%get_call_inv & E)%ok_bind.
  exists x. by injection E as <-.
Qed.

(** A view of every socket. *)
Definition sview {X} (v : daemon_socket → X) (d : daemon_data) : list X := v <$> sockets d.

Section View.
Context {X : Type} (v : daemon_socket → X).

Lemma sview_put i x f d :
  sockets d !! Z.to_nat i = Some x → v (f x) = v x → sview v (put_sock i (f x) d) = sview v d.
Proof.
  intros Hx Hf. unfold sview, put_sock. simpl. rewrite list_fmap_insert, Hf.
  apply list_insert_id. by rewrite list_lookup_fmap, Hx.
Qed.

Lemma kd_upd_sock i f : (∀ x, v (f x) = v x) → keepsd (sview v) (upd_sock i f).
Proof. intros Hf s a s' (x & _ & Hx & ->)%upd_sock_inv. by apply sview_put. Qed.
Lemma kd_upd_call i f : keepsd (sview v) (upd_call i f).
Proof. by intros s a s' (x & _ & Hx & ->)%upd_call_inv. Qed.
Lemma kd_ask {A} (f : nat → A) : keepsd (sview v) (ask f).
Proof. unfold ask. kd. by apply kd_dmod. Qed.
#[local] Hint Resolve kd_upd_call kd_ask : daemon.
Lemma kd_wedge m : keepsd (sview v) (send_wedge m).
Proof. unfold send_wedge. kd. by apply kd_dmod. Qed.
#[local] Hint Resolve kd_wedge : daemon.
Lemma kd_nack a b c e : keepsd (sview v) (nack_send a b c e).
Proof. unfold nack_send. kd. Qed.
Lemma kd_ack a b c e : keepsd (sview v) (ack_send a b c e).
Proof. unfold ack_send. kd. Qed.
#[local] Hint Resolve kd_nack kd_ack : daemon.
Lemma kd_nack_hdr h e : keepsd (sview v) (nack_hdr h e).
Proof. unfold nack_hdr. kd. Qed.
Lemma kd_ack_hdr h e : keepsd (sview v) (ack_hdr h e).
Proof. unfold ack_hdr. kd. Qed.
Lemma kd_nack_call c e : keepsd (sview v) (nack_call c e).
Proof. unfold nack_call. kd. Qed.
#[local] Hint Resolve kd_nack_hdr kd_ack_hdr kd_nack_call kd_get_call : daemon.
Lemma kd_reply_wedge h b : keepsd (sview v) (reply_wedge h b).
Proof. unfold reply_wedge. kd. Qed.
Lemma kd_wedge_recvmsg a b c e f n p q : keepsd (sview v) (send_wedge_recvmsg a b c e f n p q).
Proof. unfold send_wedge_recvmsg. kd. Qed.
Lemma kd_calls_remove i : keepsd (sview v) (daemon_calls_remove i).
Proof. unfold daemon_calls_remove. kd. Qed.
#[local] Hint Resolve kd_calls_remove : daemon.
Lemma kd_call_free r : keepsd (sview v) (daemon_call_free r).
Proof. unfold daemon_call_free. kd. Qed.
Lemma kd_nack_all l : keepsd (sview v) (nack_all l).
Proof. induction l as [|r l IH]; cbn [nack_all]; kd. Qed.
Lemma kd_draw_port n ip : keepsd (sview v) (draw_port n ip).
Proof. induction n as [|n IH]; cbn [draw_port]; kd. Qed.
End View.

End Keeps.

#[export] Hint Resolve kd_ret kd_segv kd_exit kd_nofuel kd_get kd_lift kd_free kd_meta kd_read kd_write
  kd_ctrl kd_data kd_switch kd_on_store kd_set_mt kd_clones kd_send kd_reply kd_set_param kd_metas kd_fdf
  kd_read_input kd_get_sock kd_get_call kd_store kd_free_stores kd_drop_errors kd_stored_data
  kd_stored_error kd_main_ip kd_control kd_find_reader kd_poll_find kd_frame_addrs kd_calls_find : daemon.
#[export] Hint Resolve kd_upd_call kd_ask kd_wedge kd_nack kd_ack kd_nack_hdr kd_ack_hdr kd_nack_call
  kd_reply_wedge kd_wedge_recvmsg kd_calls_remove kd_call_free kd_nack_all kd_draw_port : daemon.

Ltac kstep :=
  match goal with
  | |- keepsd _ (mbind _ _) => apply kd_bind; [|intros ?]
  | |- keepsd _ (match ?x with _ => _ end) => destruct x
  | |- keepsd _ (let _ := _ in _) => cbv zeta
  | |- keepsd _ (upd_sock _ _) => apply kd_upd_sock; intros ?; reflexivity
  end.
Ltac kd := repeat (kstep || solve [auto with daemon nocore]).
