(* ===== verification/DaemonPorts.v ===== *)
(** * Ports and demultiplexing of UDP sockets

    The invariant that no two UDP sockets share an address and a port as long as
    address reuse is not asked for: the functions of UDP and the dispatch keep
    it, whatever calls the wedge makes and whatever frames arrive, if those of
    the other protocols do ([KeepsPorts]; [DaemonProtos] has their instances).
    And a packet goes to the socket that fits it best. *)

From stdpp Require Import base list gmap strings.
From Stdlib Require Import ZArith Lia.
From S2P Require Import Prelude Queue Metadata Frame Module IPv4 Double Run Daemon DaemonUdp DaemonOut DaemonFacts.
Open Scope Z_scope.
Open Scope fins_scope.

(** What of a socket decides about its port. *)
Abbreviation core_data := (Z * Z * Z * sockaddr * Z * Z)%type (only parsing).
Definition core (x : daemon_socket) : core_data :=
  (so_sock_id x, so_protocol x, so_family x, so_host_addr x, so_opts x FSO_REUSEADDR, so_ops x).
Definition core_inet (c : core_data) : bool :=
  let '(id, protocol, family, _, _, _) := c in
  negb (id =? NO_SOCK) && (protocol =? IPPROTO_UDP) && (family =? AF_INET).
Definition core_key (c : core_data) : Z * Z :=
  let '(_, _, _, host, _, _) := c in (addr4_get_ip host, addr4_get_port host).
Definition core_udp (c : core_data) : bool :=
  let '(id, protocol, _, _, _, _) := c in negb (id =? NO_SOCK) && (protocol =? IPPROTO_UDP).
Definition core_family (c : core_data) : Z := let '(_, _, f, _, _, _) := c in f.
Definition core_reuse (c : core_data) : Z := let '(_, _, _, _, r, _) := c in r.
Definition core_same (c : core_data) : Prop := let '(_, protocol, _, _, _, ops) := c in protocol = ops.

(** The invariant: a socket has the functions of its protocol; no UDP socket has
    the option, those without an address hold the address "any", and the others
    differ in address or port. *)
Record ports_ok (cs : list core_data) : Prop := {
  po_same : ∀ i c, cs !! i = Some c → core_same c;
  po_reuse : ∀ i c, cs !! i = Some c → core_udp c = true → core_reuse c = 0;
  po_fresh : ∀ i c, cs !! i = Some c → core_udp c = true → core_family c = AF_UNSPEC →
    (core_key c).1 = DAEMON_ADDR_ANY;
  po_unique : ∀ i j a b, cs !! i = Some a → cs !! j = Some b → i ≠ j →
    core_inet a = true → core_inet b = true → core_key a ≠ core_key b
}.

Lemma inet_udp c : core_inet c = true → core_udp c = true.
Proof. destruct c as [[[[[? ?] ?] ?] ?] ?]. simpl. by intros [? _]%andb_true_iff. Qed.

(** Replacing a socket. *)
Lemma ports_insert cs i c :
  ports_ok cs → core_same c →
  (core_udp c = true → core_reuse c = 0) →
  (core_udp c = true → core_family c = AF_UNSPEC → (core_key c).1 = DAEMON_ADDR_ANY) →
  (core_inet c = true → ∀ j b, cs !! j = Some b → j ≠ i → core_inet b = true → core_key b ≠ core_key c) →
  ports_ok (<[i := c]> cs).
Proof.
  intros [Hs Hr Hf Hu] H0 H1 H2 H3. split.
  - intros j b [(-> & <- & _)|(? & ?)]%list_lookup_insert_Some; eauto.
  - intros j b [(-> & <- & _)|(? & ?)]%list_lookup_insert_Some; eauto.
  - intros j b [(-> & <- & _)|(? & ?)]%list_lookup_insert_Some; eauto.
  - intros j k a b [(-> & <- & _)|(Hj & Ha)]%list_lookup_insert_Some [(-> & <- & _)|(Hk & Hb)]%list_lookup_insert_Some Hne Ia Ib.
    + done.
    + apply not_eq_sym. by eapply H3.
    + by eapply H3.
    + by eapply (Hu j k).
Qed.

(** A socket that is not a bound UDP socket conflicts with none. *)
Lemma ports_dead cs i c : ports_ok cs → core_same c → core_udp c = false → ports_ok (<[i := c]> cs).
Proof. intros Hc Hs Hd. apply ports_insert; [done|done| |  |intros ?%inet_udp]; congruence. Qed.

(** ** Free ports *)

Lemma first_index_none {A} (test : A → bool) l i :
  0 ≤ i → first_index test l i = -1 → Forall (λ x, test x = false) l.
Proof.
  revert i. induction l as [|x l IH]; intros i Hi; simpl; [constructor|].
  destruct (test x) eqn:E; [lia|]. intros Hl. constructor; [done|]. apply (IH (i + 1)); [lia|done].
Qed.

Lemma match_host_free socks ip port j b :
  match_host_addr4_udp socks ip port = -1 →
  (core <$> socks) !! j = Some b → core_inet b = true →
  core_key b ≠ (ip, port) ∧ core_key b ≠ (DAEMON_ADDR_ANY, port).
Proof.
  intros Hm Hb Hi. apply first_index_none in Hm; [|lia].
  rewrite list_lookup_fmap in Hb. destruct (socks !! j) as [x|] eqn:Ex; simplify_eq/=.
  eapply Forall_lookup_1 in Hm; [|exact Ex]. unfold udp_inet in Hm. simpl in Hi. rewrite Hi in Hm. simpl in Hm.
  split; intros [= H1 H2]; rewrite H1, H2, !Z.eqb_refl, ?orb_true_r in Hm; done.
Qed.

Section Ports.
Context {Q : Type} `{BoundedFifo Q finsFrame} `{DaemonEnv}.
Abbreviation ST := (mstate Q daemon_data) (only parsing).

Definition pinv {A} (m : M ST A) : Prop :=
  ∀ s a s', ports_ok (sview core (md s)) → m s = Ok (a, s') → ports_ok (sview core (md s')).

Lemma pinv_keep {A} (m : M ST A) : keepsd (sview core) m → pinv m.
Proof. intros Hm s a s' Hs E. by rewrite (Hm _ _ _ E). Qed.
Lemma pinv_bind {A B} (m : M ST A) (k : A → M ST B) : pinv m → (∀ a, pinv (k a)) → pinv (m ≫= k).
Proof. intros Hm Hk s b s' Hs (a & s1 & E1 & E2)%ok_bind. eapply Hk; [|exact E2]. by eapply Hm. Qed.

Lemma upd_sock_core i f (s s' : ST) a :
  upd_sock i f s = Ok (a, s') →
  ∃ x, sockets (md s) !! Z.to_nat i = Some x ∧
       sview core (md s') = <[Z.to_nat i := core (f x)]> (sview core (md s)).
Proof.
  intros (x & _ & Hx & ->)%upd_sock_inv. exists x. split; [done|]. unfold sview. simpl. by rewrite list_fmap_insert.
Qed.

Lemma draw_port_free n ip (s s' : ST) p :
  draw_port n ip s = Ok (p, s') →
  match_host_addr4_udp (sockets (md s')) ip p = -1 ∧ sockets (md s') = sockets (md s).
Proof.
  revert s. induction n as [|n IH]; intros s; cbn [draw_port]; [done|].
  intros (r & s1 & E1 & E2)%ok_bind. assert (sockets (md s1) = sockets (md s)) as <-.
  { unfold ask in E1. apply ok_bind in E1 as (s2 & s3 & E1 & E3). injection E1 as <- <-.
    apply ok_bind in E3 as (u & s4 & E3 & E4). injection E3 as _ <-. by injection E4 as _ <-. }
  apply ok_bind in E2 as (s2 & s3 & E3 & E4). injection E3 as <- <-.
  destruct (Z.eqb_spec (match_host_addr4_udp (sockets (md s1)) ip
    (u16 (randoming DAEMON_PORT_MIN DAEMON_PORT_MAX r))) (-1)) as [E|E]; [|by apply IH].
  by injection E4 as <- <-.
Qed.

(** ** The handlers that change addresses *)

Lemma core_lookup i (d : daemon_data) x : sockets d !! i = Some x → sview core d !! i = Some (core x).
Proof. intros Hx. unfold sview. by rewrite list_lookup_fmap, Hx. Qed.

Lemma pinv_insert id i t p : pinv (daemon_sockets_insert id i t p p).
Proof.
  intros s a s' Hs (x & s1 & (-> & _ & Hx)%get_sock_inv & E)%ok_bind.
  destruct (so_sock_id x =? NO_SOCK); [|by injection E as _ <-].
  apply ok_bind in E as (u & s1 & (y & Hy & Ec)%upd_sock_core & E). injection E as _ <-.
  rewrite Ec. apply ports_insert; try done. unfold core_inet. simpl. by rewrite andb_false_r.
Qed.

Lemma pinv_free i f :
  (∀ x, so_sock_id (f x) = NO_SOCK) → (∀ x, so_protocol (f x) = so_protocol x) → (∀ x, so_ops (f x) = so_ops x) →
  pinv (upd_sock i f).
Proof.
  intros Hf Hp Ho s a s' Hs (x & Hx & ->)%upd_sock_core. pose proof (po_same _ Hs _ _ (core_lookup _ _ _ Hx)) as Hc.
  apply ports_dead; [done| |simpl; by rewrite Hf]. unfold core_same. simpl. by rewrite Hp, Ho.
Qed.

(** A UDP socket [c] of the table, with its new address. *)
Lemma ports_bind cs i c host :
  ports_ok cs → cs !! i = Some c →
  (∀ j b, cs !! j = Some b → j ≠ i → core_inet b = true →
     core_key b ≠ (addr4_get_ip host, addr4_get_port host)) →
  ports_ok (<[i := (c.1.1.1.1.1, c.1.1.1.1.2, AF_INET, host, c.1.2, c.2)]> cs).
Proof.
  intros Hs Hc Hk. destruct c as [[[[[id pr] fm] h0] r] o]. apply ports_insert; [done|exact (po_same _ Hs _ _ Hc)| |done|done].
  intros Hu. exact (po_reuse _ Hs _ _ Hc Hu).
Qed.

Lemma pinv_bind_out h addr : pinv (bind_out_udp h addr).
Proof.
  intros s a s' Hs (x & s1 & (-> & _ & Hx)%get_sock_inv & E)%ok_bind.
  apply core_lookup in Hx as Hc.
  destruct (negb (so_family x =? AF_UNSPEC)); [by eapply (pinv_keep (nack_hdr h EINVAL)); [kd| |]|].
  destruct (sin_family addr =? AF_INET).
  - apply ok_bind in E as (port & s1 & E1 & E2).
    assert (sockets (md s1) = sockets (md s) ∧
      ∀ p, port = Some p → core_udp (core x) = true →
        match_host_addr4_udp (sockets (md s)) (ntohl (addr4_get_ip addr)) p = -1) as [Hsk Hp].
    { destruct (ntohs (addr4_get_port addr) =? DAEMON_PORT_ANY).
      - apply ok_bind in E1 as (p & s2 & [Hm Hsk]%draw_port_free & E1). injection E1 as <- <-.
        split; [done|]. intros ? [= <-] _. by rewrite <- Hsk.
      - apply ok_bind in E1 as (s2 & s3 & E0 & E1). injection E0 as <- <-.
        destruct (negb _ && _) eqn:Eb; injection E1 as <- <-; (split; [done|]); [done|]. intros p [= <-] Hu.
        apply andb_false_iff in Eb as [?%negb_false_iff%Z.eqb_eq|Eb]; [done|].
        rewrite (po_reuse _ Hs _ _ Hc Hu : so_opts x FSO_REUSEADDR = 0) in Eb. done. }
    assert (ports_ok (sview core (md s1))) as Hs1 by (unfold sview; by rewrite Hsk).
    destruct port as [p|]; [|by eapply (pinv_keep (nack_hdr h EADDRINUSE)); [kd| |]].
    apply ok_bind in E2 as (u & s2 & (y & Hy & Ec)%upd_sock_core & E2).
    eapply (pinv_keep (ack_hdr h 0)); [kd| |exact E2]. rewrite Ec.
    rewrite Hsk, Hx in Hy. injection Hy as <-.
    destruct (core_udp (core x)) eqn:Hu.
    + apply (ports_bind _ _ (core x)); [done|unfold sview; by rewrite Hsk|].
      intros j b Hb _ Ib. unfold sview in Hb. rewrite Hsk in Hb.
      by eapply (match_host_free _ _ _ _ _ (Hp p eq_refl eq_refl)).
    + apply ports_dead; [done|exact (po_same _ Hs _ _ Hc)|done].
  - destruct (sin_family addr =? AF_INET6).
    + apply ok_bind in E as (u & s1 & (y & Hy & Ec)%upd_sock_core & E).
      eapply (pinv_keep (ack_hdr h 0)); [kd| |exact E]. rewrite Ec.
      rewrite Hx in Hy. injection Hy as <-. apply ports_insert; [done|exact (po_same _ Hs _ _ Hc)| |done|].
      * intros Hu. exact (po_reuse _ Hs _ _ Hc Hu).
      * unfold core_inet. simpl. by rewrite andb_false_r.
    + by eapply (pinv_keep (nack_hdr h 1)); [kd| |].
Qed.

(** A socket that has no address yet. *)
Lemma auto_bind_ports i dflt (s s' : ST) x r :
  ports_ok (sview core (md s)) → sockets (md s) !! Z.to_nat i = Some x → so_family x = AF_UNSPEC →
  auto_bind i dflt s = Ok (r, s') → ports_ok (sview core (md s')).
Proof.
  intros Hs Hx Hf (u & s1 & (y & _ & Hy & ->)%upd_sock_inv & E)%ok_bind.
  rewrite Hx in Hy. injection Hy as <-. apply ok_bind in E as (a & s2 & E1 & E).
  apply (kd_main_ip sockets) in E1. apply ok_bind in E as (p & s3 & [Hm Hsk]%draw_port_free & E).
  apply ok_bind in E as (v & s4 & (z & Hz & Ec)%upd_sock_core & E). injection E as _ <-. rewrite Ec.
  rewrite Hsk, E1 in Hz. simpl in Hz. rewrite list_lookup_insert_eq in Hz by (by eapply lookup_lt_Some).
  injection Hz as <-. unfold sview. rewrite Hsk, E1. simpl. rewrite list_fmap_insert, list_insert_insert_eq.
  apply core_lookup in Hx as Hc. destruct (core_udp (core x)) eqn:Hu; [|apply ports_dead; [done|exact (po_same _ Hs _ _ Hc)|done]].
  apply (ports_bind _ _ (core x)); [done|exact Hc|]. intros j b Hb Hj Ib.
  assert (addr4_get_ip (so_host_addr x) = DAEMON_ADDR_ANY) as Hip by exact (po_fresh _ Hs _ _ Hc Hu Hf).
  change (core_key b ≠ (addr4_get_ip (so_host_addr x), p)). rewrite Hip. rewrite Hsk, E1 in Hm.
  eapply (match_host_free _ _ _ j b Hm); [|done]. simpl. by rewrite list_fmap_insert, list_lookup_insert_ne.
Qed.

Lemma pinv_connect h addr flags : pinv (connect_out_udp h addr flags).
Proof.
  intros s a s' Hs (x & s1 & (-> & _ & Hx)%get_sock_inv & E)%ok_bind.
  destruct (sin_family addr =? AF_INET).
  2: { revert E. apply pinv_keep; [kd|done]. }
  destruct (negb _ && negb _); [revert E; apply pinv_keep; [kd|done]|].
  apply ok_bind in E as (u & s1 & Eu & E). apply ok_bind in E as (v & s2 & E1 & E2).
  eapply (pinv_keep (ack_hdr h 0)); [kd| |exact E2].
  assert (ports_ok (sview core (md s1))) as Hs1.
  { revert Eu. apply (pinv_keep (upd_sock _ _)); [|done]. kd. }
  apply upd_sock_inv in Eu as (y & Hi & Hy & ->). rewrite Hx in Hy. injection Hy as <-.
  destruct (Z.eqb_spec (so_family x) AF_UNSPEC) as [Hf|Hf]; [|by injection E1 as _ <-].
  apply ok_bind in E1 as (r & s3 & E1 & E3). injection E3 as _ <-.
  eapply auto_bind_ports; [exact Hs1| | |exact E1].
  - simpl. apply list_lookup_insert_eq. by eapply lookup_lt_Some.
  - exact Hf.
Qed.

Lemma pinv_sendmsg h n data flags addr_len addr : pinv (sendmsg_out_udp h n data flags addr_len addr).
Proof.
  intros s a s' Hs E. unfold sendmsg_out_udp in E. destruct (n =? 0); [revert E; apply pinv_keep; [kd|done]|].
  apply ok_bind in E as (x & s1 & (-> & _ & Hx)%get_sock_inv & E).
  destruct (sin_family addr =? AF_INET).
  2: { revert E. apply pinv_keep; [|done]. unfold send_datagram. kd. }
  destruct (negb _ && negb _); [revert E; apply pinv_keep; [kd|done]|].
  destruct (if negb (addr_len =? 0) then _ else _) as [rem_ip rem_port].
  apply ok_bind in E as (host & s1 & E1 & E). revert E. apply pinv_keep; [unfold send_datagram; kd|].
  destruct (Z.eqb_spec (so_family x) AF_UNSPEC) as [Hf|Hf]; simpl in E1.
  - by eapply auto_bind_ports.
  - revert E1. apply pinv_keep; [kd|done].
Qed.

Lemma pinv_remove i : pinv (daemon_sockets_remove i).
Proof.
  unfold daemon_sockets_remove. apply pinv_bind; [by apply pinv_free|]. intros _. apply pinv_keep. kd.
Qed.

(** ** The handlers that do not *)

Abbreviation kc := (keepsd (Q := Q) (sview core)) (only parsing).

Lemma kd_upd_ref i n r f : kc (upd_ref i n r f).
Proof. unfold upd_ref. kd. Qed.
Hint Resolve kd_upd_ref : daemon.
Lemma kd_stamp i m : kc (read_stamp i m).
Proof. unfold read_stamp. kd. Qed.
Hint Resolve kd_stamp : daemon.
Lemma kd_calls_insert a b c d e f : kc (daemon_calls_insert a b c d e f).
Proof. unfold daemon_calls_insert. kd. Qed.
Hint Resolve kd_calls_insert : daemon.
Lemma kd_drop_ref i n r : kc (drop_ref i n r).
Proof. unfold drop_ref. kd. Qed.
Hint Resolve kd_drop_ref : daemon.
Lemma kd_recv_reply h st n b x y z : kc (recvmsg_reply h st n b x y z).
Proof. unfold recvmsg_reply. kd. Qed.
Lemma kd_recv_wait h x y z : kc (recvmsg_wait h x y z).
Proof. unfold recvmsg_wait. kd. Qed.
Hint Resolve kd_recv_reply kd_recv_wait : daemon.
Lemma kd_poll_in i n r f : kc (poll_in_udp i n r f).
Proof. unfold poll_in_udp. kd. Qed.
Hint Resolve kd_poll_in : daemon.
Lemma kd_poll_each i n l f : kc (poll_in_each i n l f).
Proof. revert n. induction l; intros n; cbn [poll_in_each]; kd. Qed.
Lemma kd_recv_in c m n b x y : kc (recvmsg_in_udp c m n b x y).
Proof. unfold recvmsg_in_udp. kd. Qed.
Hint Resolve kd_poll_each kd_recv_in : daemon.

Lemma kd_in_fdf ff f a b : kc (daemon_in_fdf_udp ff f a b).
Proof. unfold daemon_in_fdf_udp. kd. Qed.
Lemma kd_in_error ff f a b : kc (daemon_in_error_udp ff f a b).
Proof. unfold daemon_in_error_udp. kd. Qed.
Lemma kd_recvmsg h x y z : kc (recvmsg_out_udp h x y z).
Proof. unfold recvmsg_out_udp. kd. Qed.
Lemma kd_poll h e : kc (poll_out_udp h e).
Proof. unfold poll_out_udp. kd. Qed.
Lemma kd_listen h b : kc (listen_out_udp h b).
Proof. unfold listen_out_udp. kd. Qed.
Lemma kd_getname h b : kc (getname_out_udp h b).
Proof. unfold getname_out_udp. kd. Qed.
Lemma kd_ioctl h b x : kc (ioctl_out_udp h b x).
Proof. unfold ioctl_out_udp. kd. Qed.
Lemma kd_getsockopt h x y z : kc (getsockopt_out_udp h x y z).
Proof. unfold getsockopt_out_udp. kd. Qed.
Lemma kd_timeout c : kc (recvmsg_timeout_udp c).
Proof. unfold recvmsg_timeout_udp. kd. Qed.
Lemma kd_set_option i o v : o ≠ FSO_REUSEADDR → kc (set_option i o v).
Proof.
  intros Ho. unfold set_option. apply kd_bind; [kd|]. intros x. apply kd_bind; [|intros _; kd].
  apply kd_upd_sock. intros y. unfold core, set_so_opts, put_opt. simpl. by rewrite decide_False by congruence.
Qed.
Lemma kd_setsockopt h l o n b :
  udp_option l o ≠ Some FSO_REUSEADDR → kc (setsockopt_out_udp h l o n b).
Proof.
  intros Ho. unfold setsockopt_out_udp. apply kd_bind; [|intros _; kd].
  destruct (udp_option l o) as [[]|]; kd; apply kd_set_option; congruence.
Qed.

(** ** Protocols and dispatch *)

(** [SO_REUSEADDR] at the level of sockets. *)
Definition asks_reuse (level optname : Z) : bool := (level =? SOL_SOCKET) && (optname =? 2).

Definition all_some {F} (o : option F) (P : F → Prop) : Prop := ∀ f, o = Some f → P f.

(** Socket [i] is one of protocol [n]; what is done to such a socket keeps the
    invariant. *)
Definition proto_at (n i : Z) (s : ST) : Prop :=
  ∃ x, sockets (md s) !! Z.to_nat i = Some x ∧ so_protocol x = n.
Definition pinv_at {A} (n i : Z) (m : M ST A) : Prop :=
  ∀ s a s', ports_ok (sview core (md s)) → proto_at n i s → m s = Ok (a, s') → ports_ok (sview core (md s')).

Lemma pinv_any {A} n i (m : M ST A) : pinv m → pinv_at n i m.
Proof. intros Hm s a s' Hs _. by apply Hm. Qed.

(** What the dispatch relies on: the functions of protocol [n] keep the
    invariant when they are called for a socket of the protocol, unless address
    reuse is set. *)
Class KeepsPorts (n : Z) (p : proto_ops Q) : Prop := {
  kp_socket : ∀ h d, pinv (op_socket_out p h d);
  kp_fdf : all_some (op_in_fdf p) (λ f, ∀ ff a b c, pinv (f ff a b c));
  kp_error : all_some (op_in_error p) (λ f, ∀ ff a b c, pinv (f ff a b c));
  kp_alert_poll : all_some (op_in_poll p) (λ f, ∀ ff a, pinv (f ff a));
  kp_alert_shutdown : all_some (op_in_shutdown p) (λ f, ∀ ff a, pinv (f ff a));
  kp_bind : all_some (op_bind_out p) (λ f, ∀ h a, pinv_at n (h_sock_index h) (f h a));
  kp_listen : all_some (op_listen_out p) (λ f, ∀ h a, pinv_at n (h_sock_index h) (f h a));
  kp_connect : all_some (op_connect_out p) (λ f, ∀ h a b, pinv_at n (h_sock_index h) (f h a b));
  kp_accept : all_some (op_accept_out p) (λ f, ∀ h a b c, pinv_at n (h_sock_index h) (f h a b c));
  kp_getname : all_some (op_getname_out p) (λ f, ∀ h a, pinv_at n (h_sock_index h) (f h a));
  kp_ioctl : all_some (op_ioctl_out p) (λ f, ∀ h a b, pinv_at n (h_sock_index h) (f h a b));
  kp_sendmsg : all_some (op_sendmsg_out p) (λ f, ∀ h a b c d e, pinv_at n (h_sock_index h) (f h a b c d e));
  kp_recvmsg : all_some (op_recvmsg_out p) (λ f, ∀ h a b c, pinv_at n (h_sock_index h) (f h a b c));
  kp_getsockopt : all_some (op_getsockopt_out p) (λ f, ∀ h a b c, pinv_at n (h_sock_index h) (f h a b c));
  kp_setsockopt : all_some (op_setsockopt_out p)
    (λ f, ∀ h l o c d, asks_reuse l o = false → pinv_at n (h_sock_index h) (f h l o c d));
  kp_release : all_some (op_release_out p) (λ f, ∀ h, pinv_at n (h_sock_index h) (f h));
  kp_poll : all_some (op_poll_out p) (λ f, ∀ h a, pinv_at n (h_sock_index h) (f h a));
  kp_shutdown : all_some (op_shutdown_out p) (λ f, ∀ h a, pinv_at n (h_sock_index h) (f h a));
  kp_in : ∀ t, all_some (op_in p t) (λ f, ∀ ff c, pinv_at n (c_sock_index c) (f ff c));
  kp_timeout : ∀ t, all_some (op_timeout p t) (λ f, ∀ c, pinv_at n (c_sock_index c) (f c));
  kp_expired : ∀ t, all_some (op_expired p t) (λ f, ∀ ff c, pinv_at n (c_sock_index c) (f ff c))
}.

Lemma udp_option_reuse l o : asks_reuse l o = false → udp_option l o ≠ Some FSO_REUSEADDR.
Proof.
  unfold asks_reuse, udp_option. intros Hr. repeat case_match; done.
Qed.

#[export] Instance udp_keeps_ports : KeepsPorts IPPROTO_UDP udp_ops.
Proof.
  split; simpl; try (by intros ? ? [=]); try (intros ? [= <-]; intros; try apply pinv_any).
  - intros h d. apply pinv_bind; [apply pinv_insert|]. intros b. apply pinv_keep. kd.
  - apply pinv_keep, kd_in_fdf.
  - apply pinv_keep, kd_in_error.
  - apply pinv_bind_out.
  - apply pinv_keep, kd_listen.
  - apply pinv_connect.
  - apply pinv_keep. unfold accept_out_udp. kd.
  - apply pinv_keep, kd_getname.
  - apply pinv_keep, kd_ioctl.
  - apply pinv_sendmsg.
  - apply pinv_keep, kd_recvmsg.
  - apply pinv_keep, kd_getsockopt.
  - by apply pinv_keep, kd_setsockopt, udp_option_reuse.
  - apply pinv_bind; [apply pinv_remove|]. intros _. apply pinv_keep. kd.
  - apply pinv_keep, kd_poll.
  - apply pinv_keep. unfold shutdown_out_udp. kd.
  - intros t. destruct (t =? RECVMSG_CALL); [|done]. intros f [= <-] c. apply pinv_any, pinv_keep, kd_timeout.
Qed.

Section Dispatch.
Context (protos : Z → option (proto_ops Q)) (junk_addr : list Z).
Context (Hp : ∀ n p, protos n = Some p → KeepsPorts n p).

Lemma pinv_ops {B} i (k : proto_ops Q → M ST B) :
  (∀ n p, KeepsPorts n p → pinv_at n i (k p)) → pinv (sock_ops protos i ≫= k).
Proof using Hp.
  intros Hk s b s' Hs (p & s1 & E1 & E2)%ok_bind. unfold sock_ops in E1.
  apply ok_bind in E1 as (x & s2 & (-> & _ & Hx)%get_sock_inv & E1).
  destruct (protos (so_ops x)) as [p'|] eqn:Ep; [|done]. injection E1 as <- <-.
  eapply (Hk _ p'); [by eapply Hp|exact Hs| |exact E2]. exists x. split; [done|].
  exact (po_same _ Hs _ _ (core_lookup _ _ _ Hx)).
Qed.

Lemma pinv_with {F} h (sel : proto_ops Q → option F) (k : F → M ST unit) :
  (∀ n p, KeepsPorts n p → all_some (sel p) (λ f, pinv_at n (h_sock_index h) (k f))) →
  pinv (with_op protos h sel k).
Proof using Hp.
  intros Hk. apply pinv_ops. intros n p Kp. destruct (sel p) as [f|] eqn:E; [by apply (Hk n p Kp)|].
  apply pinv_any, pinv_keep. kd.
Qed.

Lemma pinv_lift {A B} (r : res A) (k : A → M ST B) : (∀ a, r = Ok a → pinv (k a)) → pinv (lift r ≫= k).
Proof.
  intros Hk s b s' Hs (a & s1 & E1 & E2)%ok_bind. unfold lift in E1. destruct r; try done.
  injection E1 as <- <-. by eapply Hk.
Qed.

Ltac pd :=
  repeat match goal with
  | |- pinv (lift _ ≫= _) => apply pinv_lift; intros ? ?
  | |- pinv (mbind _ (mbind _ _)) => fail 1
  | |- pinv (if ?b then nack_hdr _ _ else _) => destruct b; [apply pinv_keep; kd|]
  | |- pinv (if ?b then ack_hdr _ _ else _) => destruct b; [apply pinv_keep; kd|]
  | |- pinv (with_op _ _ _ _) => apply pinv_with; intros ? ? ?
  end.

Lemma kc_or_opt i o v : o ≠ FSO_REUSEADDR ∨ v = 0 → kc (or_opt i o v).
Proof.
  intros Ho. unfold or_opt. apply kd_upd_sock. intros x. unfold core, put_opt. simpl.
  case_decide as Hd; [|done]. destruct Ho as [Ho| ->]; [congruence|]. by rewrite <- Hd, Z.lor_0_r.
Qed.

(** Calls that ask for address reuse. *)
Definition plain_call (h : wedge_to_daemon_hdr) (buf : list Z) : Prop :=
  (h_call_type h = BIND_CALL → ∀ n r, int_at buf 0 = Ok n → int_at buf (4 + n) = Ok r → r = 0) ∧
  (h_call_type h = SETSOCKOPT_CALL → ∀ l o, int_at buf 0 = Ok l → int_at buf 4 = Ok o → asks_reuse l o = false).

Lemma pinv_socket_out h buf : pinv (socket_out protos h buf).
Proof using Hp.
  unfold socket_out. pd. destruct (find_proto _ _ _ _ _ _) as [p|] eqn:E; [|apply pinv_keep; kd].
  assert (∃ n, KeepsPorts n p) as [n Kp]; [|by apply (kp_socket (n := n))]. revert E. generalize 0.
  induction (Z.to_nat DAEMON_MAX_PROTOS) as [|n IH]; intros i; cbn [find_proto]; [done|].
  destruct (protos i) as [p'|] eqn:Ei; [|by apply IH].
  destruct (socket_type_test p' _ _ _); [intros [= <-]; exists i; by eapply Hp|by apply IH].
Qed.

Lemma pinv_bind_call h buf :
  (∀ n r, int_at buf 0 = Ok n → int_at buf (4 + n) = Ok r → r = 0) → pinv (bind_out protos junk_addr h buf).
Proof using Hp.
  intros Hr. unfold bind_out. pd. apply pinv_bind.
  - apply pinv_keep, kc_or_opt. right. by eapply Hr.
  - intros _. pd. intros f Ef. by eapply kp_bind.
Qed.

Lemma pinv_ioctl_out h buf : pinv (ioctl_out protos h buf).
Proof using Hp.
  unfold ioctl_out. pd.
  repeat match goal with |- pinv (if ?b then _ else _) => destruct b end;
    try solve [apply pinv_keep; unfold ioctl_conf, ioctl_if, ioctl_addr, ioctl_name; kd].
  pd. intros f Ef. by eapply kp_ioctl.
Qed.

Lemma pinv_call_outs h buf f :
  plain_call h buf → call_outs protos junk_addr (h_call_type h) = Some f → pinv (f h buf).
Proof using Hp.
  intros [Hb Hs]. unfold call_outs.
  repeat match goal with |- (if ?t =? ?n then _ else _) = _ → _ => destruct (Z.eqb_spec t n) as [Et|_] end;
    try done; intros [= <-].
  - apply pinv_socket_out.
  - by apply pinv_bind_call, Hb.
  - unfold listen_out. pd. intros f Ef. by eapply kp_listen.
  - unfold connect_out. pd. intros f Ef. by eapply kp_connect.
  - unfold accept_out. pd. intros f Ef. by eapply kp_accept.
  - unfold getname_out. pd. intros f Ef. by eapply kp_getname.
  - apply pinv_ioctl_out.
  - unfold sendmsg_out. pd. apply pinv_bind; [apply pinv_keep, kc_or_opt; by left|].
    intros _. pd. intros f Ef. by eapply kp_sendmsg.
  - unfold recvmsg_out. pd. apply pinv_bind; [apply pinv_keep, kc_or_opt; by left|].
    intros _. pd. intros f Ef. by eapply kp_recvmsg.
  - unfold getsockopt_out. pd. intros f Ef. by eapply kp_getsockopt.
  - unfold setsockopt_out. pd. intros f Ef. eapply kp_setsockopt; [done|]. by apply (Hs Et).
  - unfold release_out. pd. intros f Ef. by eapply kp_release.
  - unfold poll_out. pd. apply pinv_bind; [apply pinv_keep; kd|]. intros x. pd.
    apply pinv_ops. intros n p Kp. destruct (op_poll_out p) as [f|] eqn:Ef; [by apply (kp_poll f Ef)|apply pinv_any, pinv_keep; kd].
  - unfold mmap_out. pd. intros f Ef. apply pinv_any, pinv_keep. kd.
  - apply pinv_keep. unfold socketpair_out. kd.
  - unfold shutdown_out. pd. intros f Ef. by eapply kp_shutdown.
  - unfold close_out. apply pinv_bind; [apply pinv_remove|]. intros _. apply pinv_keep. kd.
  - apply pinv_keep. unfold sendpage_out. kd.
Qed.

Lemma pinv_out h buf : plain_call h buf → pinv (daemon_out protos junk_addr h buf).
Proof using Hp.
  intros Hc. unfold daemon_out. destruct (_ || _); [apply pinv_keep; kd|]. pd.
  destruct (h_call_type h =? SOCKET_CALL); [apply pinv_socket_out|]. pd.
  apply pinv_bind; [apply pinv_keep; kd|]. intros x. pd. destruct (so_sock_id x =? NO_SOCK); [apply pinv_keep; kd|].
  destruct (call_outs _ _ _) as [f|] eqn:Ef; [by apply pinv_call_outs|apply pinv_keep; kd].
Qed.

(** Frames. *)
Lemma pinv_take i ff (k : daemon_call → M ST unit) : (∀ c, pinv (k c)) → pinv (take_call i ff k).
Proof.
  intros Hk. unfold take_call. apply pinv_bind; [apply pinv_keep; kd|]. intros c. apply pinv_bind; [apply pinv_keep; kd|].
  intros _. apply pinv_bind; [apply pinv_keep; kd|]. intros x. destruct (negb _); [apply pinv_keep; kd|].
  apply pinv_bind; [apply pinv_keep; kd|]. intros _. apply Hk.
Qed.

Lemma pinv_call_reply ts ff c : pinv (call_reply protos ts ff c).
Proof using Hp.
  unfold call_reply. destruct (existsb _ _); [|apply pinv_keep; kd]. apply pinv_ops. intros n p Kp.
  destruct (op_in p _) as [f|] eqn:Ef; [by eapply kp_in|apply pinv_any, pinv_keep; kd].
Qed.

Lemma pinv_param_reply ts ff : pinv (param_reply protos ts ff).
Proof using Hp.
  unfold param_reply. apply pinv_bind; [apply pinv_keep; kd|]. intros c. apply pinv_bind; [apply pinv_keep; kd|].
  intros i. destruct (i =? -1); [apply pinv_keep; kd|]. apply pinv_take. intros. apply pinv_call_reply.
Qed.

Lemma kc_expired l : kc (dmod (set_expired_call_list l)).
Proof. by apply kd_dmod. Qed.
Hint Resolve kc_expired : daemon.

Lemma pinv_exec_reply ff : pinv (daemon_exec_reply protos ff).
Proof using Hp.
  unfold daemon_exec_reply. apply pinv_bind; [apply pinv_keep; kd|]. intros c. apply pinv_bind; [apply pinv_keep; kd|].
  intros s. destruct (take_expired _ _) as [[c' l]|].
  - do 2 (apply pinv_bind; [apply pinv_keep; kd|]; intros ?). destruct (negb _); [apply pinv_keep; kd|].
    destruct (_ || _); [|apply pinv_keep; kd]. apply pinv_ops. intros n p Kp.
    destruct (op_expired p _) as [f|] eqn:Ef; [by eapply kp_expired|apply pinv_any, pinv_keep; kd].
  - apply pinv_bind; [apply pinv_keep; kd|]. intros i. destruct (i =? -1); [apply pinv_keep; kd|].
    apply pinv_take. intros. apply pinv_call_reply.
Qed.

Lemma pinv_to_proto n ff sel f a :
  (∀ m p, KeepsPorts m p → all_some (sel p) (λ g, ∀ ff a b c, pinv (g ff a b c))) → pinv (to_proto protos n ff sel f a).
Proof using Hp.
  intros Hs. unfold to_proto. destruct (n <? _); [|apply pinv_keep; kd]. destruct (protos n) as [p|] eqn:Ep; [|apply pinv_keep; kd].
  destruct (sel p) as [g|] eqn:Eg; [|apply pinv_keep; kd]. eapply Hs; [by eapply Hp|exact Eg].
Qed.

Lemma pinv_alert ff : pinv (daemon_alert protos ff).
Proof using Hp.
  unfold daemon_alert. apply pinv_bind; [apply pinv_keep; kd|]. intros c. destruct (_ || _); [|apply pinv_keep; kd].
  do 2 (apply pinv_bind; [apply pinv_keep; kd|]; intros ?). destruct (_ <? _); [|apply pinv_keep; kd].
  destruct (protos _) as [p|] eqn:Ep; [|apply pinv_keep; kd]. apply Hp in Ep.
  destruct (param_id c =? _).
  - destruct (op_in_poll p) as [f|] eqn:Ef; [by eapply kp_alert_poll|apply pinv_keep; kd].
  - destruct (op_in_shutdown p) as [f|] eqn:Ef; [by eapply kp_alert_shutdown|apply pinv_keep; kd].
Qed.

Lemma pinv_daemon_fcf ff : pinv (daemon_fcf protos ff).
Proof using Hp.
  unfold daemon_fcf. apply pinv_bind; [apply pinv_keep; kd|]. intros c.
  repeat match goal with |- pinv (if ?b then _ else _) => destruct b end; try solve [apply pinv_keep; kd].
  - apply pinv_alert.
  - apply pinv_param_reply.
  - apply pinv_keep. unfold daemon_set_param. kd.
  - apply pinv_param_reply.
  - apply pinv_exec_reply.
  - unfold daemon_error. do 3 (apply pinv_bind; [apply pinv_keep; kd|]; intros ?). apply pinv_to_proto. intros n p Kp. apply kp_error.
Qed.

Lemma pinv_daemon_in ff : pinv (daemon_in_fdf protos ff).
Proof using Hp.
  unfold daemon_in_fdf. do 3 (apply pinv_bind; [apply pinv_keep; kd|]; intros ?). apply pinv_to_proto. intros n p Kp. apply kp_fdf.
Qed.

Lemma pinv_interrupt : pinv (daemon_interrupt protos).
Proof using Hp.
  unfold daemon_interrupt. generalize 0. induction (Z.to_nat DAEMON_MAX_CALLS) as [|n IH]; intros i; cbn [interrupt_from]; [apply pinv_keep; kd|].
  apply pinv_bind; [apply pinv_keep; kd|]. intros c. apply pinv_bind; [|intros _; apply IH].
  destruct (_ && _); [|apply pinv_keep; kd]. apply pinv_bind; [apply pinv_keep; kd|]. intros _. unfold daemon_handle_to.
  apply pinv_take. intros c'. destruct (_ || _); [|apply pinv_keep; kd]. apply pinv_ops. intros n' p Kp.
  destruct (op_timeout p _) as [f|] eqn:Ef; [by eapply kp_timeout|apply pinv_any, pinv_keep; kd].
Qed.

Lemma kc_interrupt_flag b : kc (dmod (set_interrupt_flag b)).
Proof. by apply kd_dmod. Qed.
Hint Resolve kc_interrupt_flag : daemon.

Lemma pinv_get_ff n : pinv (daemon_get_ff protos n).
Proof using Hp.
  induction n as [|n IH]; cbn [daemon_get_ff]; [apply pinv_keep; kd|].
  apply pinv_bind; [apply pinv_keep; kd|]. intros r. apply pinv_bind; [apply pinv_keep; kd|]. intros s.
  case_decide; [|apply pinv_keep; kd]. destruct r as [ff|].
  - unfold frame_dispatch. destruct (metaData ff); [|apply pinv_keep; kd].
    destruct (body ff); try solve [apply pinv_keep; kd]; [|apply pinv_daemon_fcf].
    repeat match goal with |- pinv (if ?b then _ else _) => destruct b end; try solve [apply pinv_keep; kd]. apply pinv_daemon_in.
  - destruct (interrupt_flag _); [|exact IH]. apply pinv_bind; [apply pinv_keep; kd|]. intros _. apply pinv_interrupt.
Qed.

End Dispatch.
End Ports.

(** ** Runs of the daemon *)

(** What happens to the daemon: a call from the wedge, a frame the switch puts
    into the input queue, a round of the main loop with [n] posted events, the
    expiry of a timer. *)
Inductive daemon_event :=
| EWedge (h : wedge_to_daemon_hdr) (buf : list Z)
| EArrive (ff : finsFrame)
| ERun (n : nat)
| EExpire (call_index : Z).

Section Run.
Context {Q : Type} `{BoundedFifo Q finsFrame} `{DaemonEnv}.
Abbreviation ST := (mstate Q daemon_data) (only parsing).
Context (protos : Z → option (proto_ops Q)) (junk_addr : list Z).

(** [write_queue(ff, module->input_queue)] by the switch. *)
Definition arrive (ff : finsFrame) : M ST unit := λ s,
  match bf_write ff (input_queue (fm s)) with
  | Ok (_, q) =>
      let m := fm s in
      Ok (tt, MkSt (MkMod (m_state m) (flows_max m) (m_index m) (m_id m) q (output_queue m))
                (mt s) (md s) (store s) (freed s) (posts s))
  | Segv => Segv | Exit => Exit | NoFuel => NoFuel
  end.

Definition run_event (e : daemon_event) : M ST unit :=
  match e with
  | EWedge h buf => daemon_out protos junk_addr h buf
  | EArrive ff => arrive ff
  | ERun n => daemon_get_ff protos n
  | EExpire i => call_expires i
  end.
Fixpoint run_events (es : list daemon_event) : M ST unit :=
  match es with
  | [] => mret tt
  | e :: es => run_event e ;; run_events es
  end.

Definition plain_event (e : daemon_event) : Prop :=
  match e with EWedge h buf => plain_call h buf | _ => True end.

Lemma pinv_event e : (∀ n p, protos n = Some p → KeepsPorts n p) → plain_event e → pinv (run_event e).
Proof.
  intros Hp He. destruct e as [h buf|ff|n|i]; simpl.
  - by apply pinv_out.
  - apply pinv_keep. intros s a s'. unfold arrive. destruct (bf_write _ _) as [[r q]| | |]; try done. by intros [= <- <-].
  - by apply pinv_get_ff.
  - apply pinv_keep. unfold call_expires. kd. by apply kd_dmod.
Qed.

Lemma pinv_events es :
  (∀ n p, protos n = Some p → KeepsPorts n p) → Forall plain_event es → pinv (run_events es).
Proof.
  intros Hp. induction 1 as [|e es He _ IH]; simpl; [apply pinv_keep; kd|].
  apply pinv_bind; [by apply pinv_event|done].
Qed.

End Run.

(** ** A concrete daemon *)

Definition free_socket : daemon_socket :=
  MkSock 0 0 0 NO_SOCK SS_FREE 0 0 (MkAddr 0 0 0) (MkAddr 0 0 0) 0 0 0 0 [] (0, 0) [] 0 [] 0 0 (λ _, 0).
Definition free_call : daemon_call := MkCall 0 0 0 0 NO_CALL 0 false 0 0 0 0 0 0 0 None false.

(** The host 192.168.1.1 with its interface. *)
Definition demo_if : if_record :=
  MkIf 2 "eth0" 11 1 1500 64
    (Some [MkAddrRecord 2 AF_INET (MkAddr AF_INET 0 3232235777) (MkAddr AF_INET 0 4294967040)
             (MkAddr AF_INET 0 0) (MkAddr AF_INET 0 3232236031) (MkAddr AF_INET 0 0)]).
Definition demo_daemon_data : daemon_data :=
  MkDaemon (replicate 50 free_socket) (replicate 50 free_call) [] false [demo_if] (Some demo_if) [] 0.

(** Flows 0, 1 and 2 of the daemon lead to ICMP (4), TCP (6) and UDP (5). *)
Definition demo_daemon_store : link_store :=
  MkStore {[ 8 := MkLink 1 1 1 (4 :: replicate 31 0);
             9 := MkLink 2 1 1 (6 :: replicate 31 0);
             10 := MkLink 3 1 1 (5 :: replicate 31 0) ]} 11.
Definition demo_daemon : mstate (QueueRecord finsFrame) daemon_data :=
  MkSt (MkMod FMS_RUNNING 3 1 1 (init_queue 10) (init_queue 10))
    (MkTable (Some [8; 9; 10]) 3 [MkFlow 1 8; MkFlow 2 9; MkFlow 3 10])
    demo_daemon_data demo_daemon_store [] 0.

(** The wedge takes every message; random numbers are large. *)
Definition demo_daemon_env : DaemonEnv :=
  {| wedge_ok _ := true; rand n := 1073741824 + Z.of_nat n; timeofday n := (Z.of_nat n, 0);
     port_draws := 3; junk_host_ip := 0 |}.

(** A daemon with UDP only. *)
Definition udp_only {Q} `{BoundedFifo Q finsFrame} `{DaemonEnv} (i : Z) : option (proto_ops Q) :=
  if i =? IPPROTO_UDP then Some udp_ops else None.

(** ** The socket of a packet *)

(** How well a socket fits a packet: 4 bound to the destination and connected to
    the source, 3 the same with the address "any", 2 bound to the destination
    and not connected, 1 the same with the address "any", 0 not at all. *)
Definition fit (src_ip src_port dst_ip dst_port : Z) (x : daemon_socket) : Z :=
  if udp_inet x && (addr4_get_port (so_host_addr x) =? dst_port) then
    let host := addr4_get_ip (so_host_addr x) in
    let rem := (addr4_get_ip (so_rem_addr x), addr4_get_port (so_rem_addr x)) in
    let best := if host =? dst_ip then 2 else if host =? DAEMON_ADDR_ANY then 1 else 0 in
    if best =? 0 then 0
    else if decide (rem = (src_ip, src_port)) then best + 2
    else if decide (rem = (DAEMON_ADDR_ANY, DAEMON_PORT_ANY)) then best else 0
  else 0.

Lemma first_index_spec {A} (test : A → bool) l i :
  0 ≤ i →
  (first_index test l i = -1 ∧ Forall (λ x, test x = false) l) ∨
  (∃ l1 x l2, l = l1 ++ x :: l2 ∧ first_index test l i = i + Z.of_nat (length l1) ∧ test x = true ∧
     Forall (λ y, test y = false) l1).
Proof.
  revert i. induction l as [|x l IH]; intros i Hi; simpl; [by left|].
  destruct (test x) eqn:E.
  - right. exists [], x, l. split_and!; try done. simpl. lia.
  - destruct (IH (i + 1)) as [[-> Hf]|(l1 & y & l2 & -> & -> & Hy & Hf)]; [lia|left; auto|].
    right. exists (x :: l1), y, l2. split_and!; [done|simpl length; lia|done|by constructor].
Qed.

Lemma first_index_ext {A} (f g : A → bool) l i : (∀ x, f x = g x) → first_index f l i = first_index g l i.
Proof. intros Hfg. revert i. induction l as [|x l IH]; intros i; simpl; [done|]. by rewrite Hfg, IH. Qed.

Ltac fit_tac src_ip src_port dst_ip :=
  intros x; unfold fit; destruct (udp_inet x), (addr4_get_port (so_host_addr x) =? _); simpl; try done;
  destruct (Z.eqb_spec (addr4_get_ip (so_host_addr x)) dst_ip), (Z.eqb_spec (addr4_get_ip (so_host_addr x)) DAEMON_ADDR_ANY),
    (Z.eqb_spec (addr4_get_ip (so_rem_addr x)) src_ip), (Z.eqb_spec (addr4_get_port (so_rem_addr x)) src_port),
    (Z.eqb_spec (addr4_get_ip (so_rem_addr x)) DAEMON_ADDR_ANY), (Z.eqb_spec (addr4_get_port (so_rem_addr x)) DAEMON_PORT_ANY);
  simpl; repeat case_decide; first [reflexivity|exfalso; congruence].

(** The four searches are searches for a degree of fitness. *)
Lemma match_packet_fit socks src_ip src_port dst_ip dst_port :
  dst_ip ≠ DAEMON_ADDR_ANY → src_port ≠ DAEMON_PORT_ANY →
  let find n := first_index (λ x, fit src_ip src_port dst_ip dst_port x =? n) socks 0 in
  match_packet_addr4_udp socks src_ip src_port dst_ip dst_port =
  if find 4 =? -1 then if find 3 =? -1 then if find 2 =? -1 then find 1 else find 2 else find 3 else find 4.
Proof.
  intros Hd Hs find.
  assert (match_conn_addr4_udp socks dst_ip dst_port src_ip src_port = find 4) as E4
    by (apply first_index_ext; fit_tac src_ip src_port dst_ip).
  assert (match_conn_addr4_udp socks DAEMON_ADDR_ANY dst_port src_ip src_port = find 3) as E3
    by (apply first_index_ext; fit_tac src_ip src_port dst_ip).
  assert (match_conn_addr4_udp socks dst_ip dst_port DAEMON_ADDR_ANY DAEMON_PORT_ANY = find 2) as E2
    by (apply first_index_ext; fit_tac src_ip src_port dst_ip).
  assert (match_conn_addr4_udp socks DAEMON_ADDR_ANY dst_port DAEMON_ADDR_ANY DAEMON_PORT_ANY = find 1) as E1
    by (apply first_index_ext; fit_tac src_ip src_port dst_ip).
  unfold match_packet_addr4_udp. by rewrite E4, E3, E2, E1.
Qed.

Lemma fit_range a b c d x : 0 ≤ fit a b c d x ≤ 4.
Proof. unfold fit. repeat case_match; lia. Qed.

(** C22: A packet goes to a socket that fits it best (and to the first of those);
    it is not matched only if no socket fits it at all. *)
Theorem udp_demux_best socks src_ip src_port dst_ip dst_port :
  dst_ip ≠ DAEMON_ADDR_ANY → src_port ≠ DAEMON_PORT_ANY →
  let f := fit src_ip src_port dst_ip dst_port in
  let i := match_packet_addr4_udp socks src_ip src_port dst_ip dst_port in
  (i = -1 ∧ Forall (λ x, f x = 0) socks) ∨
  (∃ x, 0 ≤ i ∧ socks !! Z.to_nat i = Some x ∧ 0 < f x ∧ Forall (λ y, f y ≤ f x) socks ∧
     Forall (λ y, f y < f x) (take (Z.to_nat i) socks)).
Proof.
  intros Hd Hs f i.
  assert (∀ n, 0 < n → Forall (λ y, f y ≤ n) socks →
    let k := first_index (λ x, f x =? n) socks 0 in
    (k = -1 ∧ Forall (λ y, f y ≤ n - 1) socks) ∨
    (k ≠ -1 ∧ ∃ x, 0 ≤ k ∧ socks !! Z.to_nat k = Some x ∧ 0 < f x ∧ Forall (λ y, f y ≤ f x) socks ∧
       Forall (λ y, f y < f x) (take (Z.to_nat k) socks))) as Hfind.
  { intros n Hn Hle k. unfold k. destruct (first_index_spec (λ x, f x =? n) socks 0) as [[-> Hf]|(l1 & x & l2 & E & -> & Hx & Hf)]; [lia| |].
    - left. split; [done|]. eapply Forall_impl; [apply Forall_and; split; [exact Hle|exact Hf]|].
      intros y [H1 H2%Z.eqb_neq]. lia.
    - right. apply Z.eqb_eq in Hx. split; [lia|]. exists x. rewrite Z.add_0_l, Nat2Z.id. rewrite E. split_and!.
      + lia.
      + by rewrite lookup_app_r, Nat.sub_diag by lia.
      + lia.
      + rewrite Hx, <- E. done.
      + rewrite take_app_length. rewrite E in Hle. apply Forall_app in Hle as [Hle _]. rewrite Hx.
        eapply Forall_impl; [apply Forall_and; split; [exact Hle|exact Hf]|].
        intros y [H1 H2%Z.eqb_neq]. lia. }
  assert (Forall (λ y, f y ≤ 4) socks) as H4 by (apply Forall_true; intros; apply fit_range).
  unfold i. rewrite match_packet_fit by done. fold f. cbv zeta.
  destruct (Hfind 4) as [[-> H3]|[N4 R4]]; [lia|done| |by rewrite (proj2 (Z.eqb_neq _ _) N4); right].
  destruct (Hfind 3) as [[-> H2]|[N3 R3]]; [lia|done| |by rewrite (proj2 (Z.eqb_neq _ _) N3); right].
  destruct (Hfind 2) as [[-> H1]|[N2 R2]]; [lia|done| |by rewrite (proj2 (Z.eqb_neq _ _) N2); right].
  destruct (Hfind 1) as [[-> H0]|[N1 R1]]; [lia|done| |by right].
  left. split; [done|]. eapply Forall_impl; [exact H0|]. intros y Hy. simpl in Hy. pose proof (fit_range src_ip src_port dst_ip dst_port y).
  unfold f in *. lia.
Qed.

(** Witness of C22: a packet for the socket that is connected to its source. *)
Lemma udp_demux_best_witness :
  let bound := set_so_host_addr (MkAddr AF_INET 5000 3232235777)
    (set_so_family AF_INET (new_socket 70 SOCK_DGRAM IPPROTO_UDP IPPROTO_UDP free_socket)) in
  let conn := set_so_rem_addr (MkAddr AF_INET 9 167772161) bound in
  match_packet_addr4_udp [bound; conn] 167772161 9 3232235777 5000 = 1 ∧
  (match_packet_addr4_udp [bound; conn] 167772161 9 3232235777 5000 = -1 ∧
     Forall (λ x, fit 167772161 9 3232235777 5000 x = 0) [bound; conn] ∨
   (∃ x, 0 ≤ match_packet_addr4_udp [bound; conn] 167772161 9 3232235777 5000 ∧
      [bound; conn] !! Z.to_nat (match_packet_addr4_udp [bound; conn] 167772161 9 3232235777 5000) = Some x ∧
      0 < fit 167772161 9 3232235777 5000 x ∧
      Forall (λ y, fit 167772161 9 3232235777 5000 y ≤ fit 167772161 9 3232235777 5000 x) [bound; conn] ∧
      Forall (λ y, fit 167772161 9 3232235777 5000 y < fit 167772161 9 3232235777 5000 x)
        (take (Z.to_nat (match_packet_addr4_udp [bound; conn] 167772161 9 3232235777 5000)) [bound; conn]))).
Proof.
  intros bound conn. split; [reflexivity|]. apply (udp_demux_best [bound; conn] 167772161 9 3232235777 5000); done.
Defined.
