(* ===== verification/DaemonQueue.v ===== *)
(** * A UDP socket as a queue

    What a socket promises: datagrams are delivered in the order they arrive,
    each to one [recvmsg] call, and calls are served in the order they are
    made.  The abstract socket has a queue of datagrams, a queue of readers and
    the messages sent to the wedge; the handlers of [DaemonUdp] refine it. *)

From stdpp Require Import base list gmap strings.
From Stdlib Require Import ZArith Lia.
From S2P Require Import Prelude Queue Metadata Frame Module IPv4 Double Run Daemon DaemonUdp DaemonOut DaemonFacts DaemonPorts.
Open Scope Z_scope.
Open Scope fins_scope.

(** ** The abstract socket *)

(** A [recvmsg] call that waits: its identifier and index, the size of its
    buffer, its flags and the size of its control buffer. *)
Record reader := MkReader { r_id : Z; r_index : Z; r_buf : Z; r_flags : Z; r_ctl : Z }.

(** The sender's address and the payload. *)
Definition dgram : Type := sockaddr * list Z.

(** The message that answers a call with a datagram. *)
Definition recv_msg (r : reader) (p : dgram) : wedge_msg :=
  let n := Z.of_nat (length p.2) in
  let cut := r_buf r <? n in
  let k := if cut then r_buf r else n in
  MkWedge RECVMSG_CALL (r_id r) (r_index r) DAEMON_ACK (if cut then MSG_TRUNC else 0)
    (le_bytes 4 sizeof_sockaddr_in ++ sockaddr_bytes (netw_addr p.1)
     ++ le_bytes 4 k ++ take (Z.to_nat k) p.2 ++ le_bytes 4 0).

Record asock := MkASock { a_queue : list dgram; a_readers : list reader; a_log : list wedge_msg }.

(** The bytes that are stored. *)
Definition total (q : list dgram) : Z := foldr (λ p t, Z.of_nat (length p.2) + t) 0 q.

Lemma total_app q p : total (q ++ [p]) = total q + Z.of_nat (length p.2).
Proof. induction q as [|x q IH]; simpl; [lia|]. unfold total in *. rewrite IH. lia. Qed.
Lemma total_nonneg q : 0 ≤ total q.
Proof. induction q as [|x q IH]; simpl; [lia|]. unfold total in *. lia. Qed.

Arguments total : simpl never.

Definition a_arrive (p : dgram) (a : asock) : asock :=
  match a_readers a with
  | [] => MkASock (a_queue a ++ [p]) [] (a_log a)
  | r :: rs => MkASock (a_queue a) rs (a_log a ++ [recv_msg r p])
  end.
(** A reader waits unless there are bytes, also when empty datagrams are there. *)
Definition a_recv (r : reader) (a : asock) : asock :=
  match a_queue a with
  | p :: q =>
      if 0 <? total (p :: q) then MkASock q (a_readers a) (a_log a ++ [recv_msg r p])
      else MkASock (p :: q) (a_readers a ++ [r]) (a_log a)
  | [] => MkASock [] (a_readers a ++ [r]) (a_log a)
  end.

(** ** Steps of the daemon that return *)

Section Steps.
Context {Q : Type} `{BoundedFifo Q finsFrame} `{DaemonEnv}.
Abbreviation ST := (mstate Q daemon_data) (only parsing).
Context (fl : list (Z * Z)) {B : Type} (R : B → ST → Prop) (xs : list finsFrame) (n : nat) (d : daemon_data).

Lemma rd_sock i x (k : daemon_socket → M ST B) :
  0 ≤ i → sockets d !! Z.to_nat i = Some x →
  runs (rest fl xs n d) (k x) R → runs (rest fl xs n d) (get_sock i ≫= k) R.
Proof.
  intros Hi Hx Hk. unfold get_sock. apply runs_assoc, rest_get. intros s Hs.
  rewrite (proj2 (Z.ltb_ge i 0) Hi), (rs_md _ _ _ _ _ Hs), Hx. done.
Qed.

Lemma rd_call i c (k : daemon_call → M ST B) :
  0 ≤ i → calls d !! Z.to_nat i = Some c →
  runs (rest fl xs n d) (k c) R → runs (rest fl xs n d) (get_call i ≫= k) R.
Proof.
  intros Hi Hx Hk. unfold get_call. apply runs_assoc, rest_get. intros s Hs.
  rewrite (proj2 (Z.ltb_ge i 0) Hi), (rs_md _ _ _ _ _ Hs), Hx. done.
Qed.

End Steps.

Section Steps2.
Context {Q : Type} `{BoundedFifo Q finsFrame} `{DaemonEnv}.
Abbreviation ST := (mstate Q daemon_data) (only parsing).
Context (fl : list (Z * Z)) {B : Type} (R : B → ST → Prop) (xs : list finsFrame) (n : nat) (d : daemon_data).

Lemma rd_upd_sock i f x (k : unit → M ST B) :
  0 ≤ i → sockets d !! Z.to_nat i = Some x →
  runs (rest fl xs n (put_sock i (f x) d)) (k tt) R → runs (rest fl xs n d) (upd_sock i f ≫= k) R.
Proof.
  intros Hi Hx Hk. unfold upd_sock. apply runs_assoc. eapply rd_sock; [done..|].
  by apply (rest_modify _ R xs n d (λ d, set_sockets (<[Z.to_nat i := f x]> (sockets d)) d)).
Qed.

Lemma rd_upd_call i f c (k : unit → M ST B) :
  0 ≤ i → calls d !! Z.to_nat i = Some c →
  runs (rest fl xs n (put_call i (f c) d)) (k tt) R → runs (rest fl xs n d) (upd_call i f ≫= k) R.
Proof.
  intros Hi Hx Hk. unfold upd_call. apply runs_assoc. eapply rd_call; [done..|].
  by apply (rest_modify _ R xs n d (λ d, set_calls (<[Z.to_nat i := f c]> (calls d)) d)).
Qed.

Definition tick (d : daemon_data) : daemon_data := set_ticks (S (ticks d)) d.
Definition told (m : wedge_msg) (d : daemon_data) : daemon_data := set_wedge (wedge d ++ [m]) (tick d).

Lemma rd_ask {A} (f : nat → A) (k : A → M ST B) :
  runs (rest fl xs n (tick d)) (k (f (ticks d))) R → runs (rest fl xs n d) (ask f ≫= k) R.
Proof.
  intros Hk. unfold ask. apply runs_assoc, rest_get. intros s Hs. apply runs_assoc.
  rewrite (rs_md _ _ _ _ _ Hs).
  by apply (rest_modify _ R xs n d (λ d', set_ticks (S (ticks d)) d')).
Qed.

End Steps2.

Section Steps3.
Context {Q : Type} `{BoundedFifo Q finsFrame} `{DaemonEnv}.
Abbreviation ST := (mstate Q daemon_data) (only parsing).
Context (fl : list (Z * Z)) {B : Type} (R : B → ST → Prop) (xs : list finsFrame) (n : nat) (d : daemon_data).
Context (Hw : ∀ t, wedge_ok t = true).

Lemma rd_wedge m (k : Z → M ST B) :
  runs (rest fl xs n (told m d)) (k 0) R → runs (rest fl xs n d) (send_wedge m ≫= k) R.
Proof using Hw.
  intros Hk. unfold send_wedge. apply runs_assoc, rd_ask. rewrite Hw. apply runs_assoc.
  by apply (rest_modify _ R xs n (tick d) (λ d, set_wedge (wedge d ++ [m]) d)).
Qed.

Lemma rd_ack h v (k : unit → M ST B) :
  runs (rest fl xs n (told (MkWedge (h_call_type h) (h_call_id h) (h_call_index h) DAEMON_ACK v []) d)) (k tt) R →
  runs (rest fl xs n d) (ack_hdr h v ≫= k) R.
Proof using Hw. intros Hk. unfold ack_hdr, ack_send. do 2 apply runs_assoc. by apply rd_wedge. Qed.

(** The stamp of a frame: some value. *)
Definition stamp_ok (m : metadata) : bool :=
  match metadata_readFromElement m "recv_stamp" with
  | None | Some (VInt32 _) | Some (VInt64 _) => true
  | Some _ => false
  end.

Lemma rd_stamp i x m (k : unit → M ST B) :
  0 ≤ i → sockets d !! Z.to_nat i = Some x → stamp_ok m = true →
  (∀ t e, runs (rest fl xs n (put_sock i (set_so_stamp t x) (set_ticks e d))) (k tt) R) →
  runs (rest fl xs n d) (read_stamp i m ≫= k) R.
Proof.
  intros Hi Hx Hm Hk. unfold read_stamp, stamp_ok in *.
  assert (set_ticks (ticks d) d = d) as Ed by by destruct d.
  destruct (metadata_readFromElement m "recv_stamp") as [[]|]; try done.
  - eapply rd_upd_sock; [done..|]. rewrite <- Ed at 1. apply Hk.
  - eapply rd_upd_sock; [done..|]. rewrite <- Ed at 1. apply Hk.
  - apply runs_assoc, rd_ask. eapply rd_upd_sock; [done..|]. apply Hk.
Qed.

(** Sockets that ask for no control data. *)
Definition bare (x : daemon_socket) : bool :=
  (so_opts x FSO_TIMESTAMP =? 0) && (so_opts x FIP_RECVTTL =? 0) && (so_opts x FIP_RECVERR =? 0).

Lemma rd_control i x f m cl g (k : Z * list Z → M ST B) :
  0 ≤ i → sockets d !! Z.to_nat i = Some x → bare x = true →
  runs (rest fl xs n d) (k (f, [])) R → runs (rest fl xs n d) (recvmsg_control i f m cl g ≫= k) R.
Proof.
  intros Hi Hx [[H1 H2]%andb_true_iff H3]%andb_true_iff Hk. unfold recvmsg_control.
  destruct (DAEMON_CONTROL_LEN_MAX <? cl); [done|]. apply runs_assoc. eapply rd_sock; [done..|].
  rewrite H1, H2, H3. done.
Qed.

Lemma rd_recvmsg a b c f addr k data bytes (K : bool → M ST B) :
  read_bytes data k = Ok bytes →
  runs (rest fl xs n (told (MkWedge a b c DAEMON_ACK f
    (le_bytes 4 sizeof_sockaddr_in ++ sockaddr_bytes addr ++ le_bytes 4 k ++ bytes ++ le_bytes 4 0)) d)) (K true) R →
  runs (rest fl xs n d) (send_wedge_recvmsg a b c f addr k data [] ≫= K) R.
Proof using Hw.
  intros Hb HK. unfold send_wedge_recvmsg. apply runs_assoc. eapply rest_lift; [exact Hb|].
  apply runs_assoc, rd_wedge. simpl length. rewrite app_nil_r. exact HK.
Qed.

End Steps3.

(** ** The representation *)

(** What of a socket decides which packets it gets. *)
Definition dmx (x : daemon_socket) : Z * Z * Z * sockaddr * sockaddr :=
  (so_sock_id x, so_protocol x, so_family x, so_host_addr x, so_rem_addr x).

Lemma first_index_view {A X} (v : A → X) (test : A → bool) l l' i :
  (∀ x y, v x = v y → test x = test y) → v <$> l = v <$> l' → first_index test l i = first_index test l' i.
Proof.
  intros Ht. revert l' i. induction l as [|x l IH]; intros [|y l'] i; simpl; try done.
  intros [= Hx Hl]. rewrite (Ht _ _ Hx). destruct (test y); [done|]. by apply IH.
Qed.

Lemma match_packet_view l l' a b c e :
  dmx <$> l = dmx <$> l' → match_packet_addr4_udp l a b c e = match_packet_addr4_udp l' a b c e.
Proof.
  intros Hl.
  assert (∀ h hp r rp, match_conn_addr4_udp l h hp r rp = match_conn_addr4_udp l' h hp r rp) as Hc.
  { intros h hp r rp. apply (first_index_view dmx); [|done]. intros x y [= H1 H2 H3 H4 H5].
    unfold udp_inet. by rewrite H1, H2, H3, H4, H5. }
  unfold match_packet_addr4_udp. by rewrite !Hc.
Qed.

(** A frame that holds a datagram. *)
Definition holds (ff : finsFrame) (b : list Z) : Prop :=
  ∃ m dir, metaData ff = Some m ∧ stamp_ok m = true ∧
    body ff = Data (MkData dir (Z.of_nat (length b)) (Some b)).

Definition stored (st : daemon_store) (p : dgram) : Prop :=
  st_addr st = p.1 ∧ sin_family p.1 = AF_INET ∧ Z.of_nat (length p.2) < 4294967296 ∧ holds (st_ff st) p.2.

(** The entry of the call table for a reader. *)
Record is_call (i : Z) (r : reader) (c : daemon_call) : Prop := {
  ic_type : c_type c = RECVMSG_CALL; ic_id : c_id c = r_id r; ic_index : c_index c = r_index r;
  ic_sock : c_sock_index c = i; ic_buf : c_buf c = r_buf r; ic_flags : c_flags c = r_flags r;
  ic_ret : c_ret c = r_ctl r
}.
Definition waits (d : daemon_data) (i : Z) (r : reader) : Prop :=
  0 ≤ r_index r ∧ 0 ≤ r_buf r ∧ has (r_flags r) MSG_ERRQUEUE = false ∧
  ∃ c, calls d !! Z.to_nat (r_index r) = Some c ∧ is_call i r c.

(** Socket [i], seen as [x], represents the abstract socket [a]; [V] is the view
    of all sockets, [w0] what the wedge was told before. *)
Record usock (V : list (Z * Z * Z * sockaddr * sockaddr)) (w0 : list wedge_msg) (i : Z)
    (d : daemon_data) (a : asock) (x : daemon_socket) : Prop := {
  us_i : 0 ≤ i;
  us_sock : sockets d !! Z.to_nat i = Some x;
  us_view : sview dmx d = V;
  us_bare : bare x = true;
  us_calls : so_call_list x = map (λ r, CArr (r_index r)) (a_readers a);
  us_data : Forall2 stored (so_data_list x) (a_queue a);
  us_buf : so_data_buf x = total (a_queue a);
  us_total : total (a_queue a) < 2147483648;
  us_one : total (a_queue a) = 0 ∨ a_readers a = [];
  us_nodup : NoDup (r_index <$> a_readers a);
  us_readers : Forall (waits d i) (a_readers a);
  us_free : ∀ j c, calls d !! j = Some c →
    c_alloc c = false ∧ (Z.of_nat j ∉ r_index <$> a_readers a → c_id c = NO_CALL);
  us_log : wedge d = w0 ++ a_log a;
  us_table : Z.of_nat (length (calls d)) = DAEMON_MAX_CALLS
}.

Lemma s32_small x : 0 ≤ x < 2147483648 → s32 x = x.
Proof. intros Hx. unfold s32. rewrite Z.mod_small; lia. Qed.

(** Changes of the socket that keep its place among the others. *)
Lemma view_put i x y d :
  sockets d !! Z.to_nat i = Some x → dmx y = dmx x → sview dmx (put_sock i y d) = sview dmx d.
Proof. intros Hx Hy. by apply (sview_put dmx i x (λ _, y)). Qed.
Lemma sock_put i x y d :
  sockets d !! Z.to_nat i = Some x → sockets (put_sock i y d) !! Z.to_nat i = Some y.
Proof. intros Hx. simpl. apply list_lookup_insert_eq. by eapply lookup_lt_Some. Qed.

Section Refines.
Context {Q : Type} `{BoundedFifo Q finsFrame} `{DaemonEnv}.
Abbreviation ST := (mstate Q daemon_data) (only parsing).
Context (fl : list (Z * Z)) (xs : list finsFrame) (n : nat).
Context (Hw : ∀ t, wedge_ok t = true).
Context (V : list (Z * Z * Z * sockaddr * sockaddr)) (w0 : list wedge_msg) (i : Z).

(** The state after a step is one of the abstract socket [a]. *)
Definition becomes (a : asock) (s : ST) : Prop :=
  ∃ d x, rest fl xs n d s ∧ usock V w0 i d a x.

(** A served reader leaves the call table. *)
Lemma usock_served d q r rs lg x c t e m :
  usock V w0 i d (MkASock q (r :: rs) lg) x →
  calls d !! Z.to_nat (r_index r) = Some c →
  let x' := set_so_stamp t (set_so_call_list (delete 0%nat (so_call_list x)) x) in
  usock V w0 i
    (put_call (r_index r) (stop_call (set_c_id NO_CALL c))
       (told m (put_sock i x' (set_ticks e (put_sock i (set_so_call_list (delete 0%nat (so_call_list x)) x) d)))))
    (MkASock q rs (lg ++ [m])) x'.
Proof.
  intros [Hi Hx Hv Hb Hc Hd Hbuf Ht Ho Hn Hr Hf Hl Hlc] Hcr x'. simpl in *.
  destruct (NoDup_cons (r_index r) (r_index <$> rs)) as [Hnd _]. destruct (Hnd Hn) as [Hnin Hn'].
  apply Forall_cons in Hr as [(Hi0 & _ & _ & Hcc) Hr].
  split; simpl; try done.
  - rewrite list_insert_insert_eq. apply list_lookup_insert_eq. by eapply lookup_lt_Some.
  - rewrite <- Hv. unfold sview. simpl. rewrite !list_fmap_insert, list_insert_insert_eq.
    apply list_insert_id. by rewrite list_lookup_fmap, Hx.
  - by rewrite Hc.
  - destruct Ho as [?|?]; [by left|done].
  - eapply Forall_impl; [apply Forall_and; split; [exact Hr|apply Forall_forall; intros y Hy; exact Hy]|].
    intros y ((H1 & H2 & H3 & c' & Hc' & Hic) & Hy). split_and!; try done. exists c'. split; [|done]. simpl.
    rewrite list_lookup_insert_ne; [done|]. intros Heq%Z2Nat.inj; [|done|done]. apply Hnin. rewrite Heq.
    by apply list_elem_of_fmap_2.
  - intros j c' [(<- & <- & _)|(Hj & Hc')]%list_lookup_insert_Some.
    + destruct (Hf _ _ Hcr) as [Ha _]. split; [done|done].
    + destruct (Hf _ _ Hc') as [Ha Hid]. split; [done|]. intros Hnot. apply Hid. intros [Hj'|Hj']%elem_of_cons; [|done].
      apply Hj. lia.
  - by rewrite Hl, app_assoc.
  - by rewrite length_insert.
Qed.

(** A datagram for the socket. *)
Record arrives (ff : finsFrame) (src dst : sockaddr) (p : dgram) : Prop := {
  ar_holds : holds ff p.2;
  ar_len : Z.of_nat (length p.2) < 4294967296;
  ar_family : sin_family src = AF_INET;
  ar_ports : ∃ m sp dp, metaData ff = Some m ∧
    secure_metadata_readFromElement m "recv_src_port" = Ok sp ∧
    secure_metadata_readFromElement m "recv_dst_port" = Ok dp ∧
    p.1 = addr4_set_port (u16 sp) src ∧
    (∀ socks, dmx <$> socks = V →
       match_packet_addr4_udp socks (addr4_get_ip src) (u16 sp) (addr4_get_ip dst) (u16 dp) = i)
}.

Lemma in_fdf_reader d q r rs lg x ff src dst p :
  usock V w0 i d (MkASock q (r :: rs) lg) x → arrives ff src dst p →
  runs (rest fl xs n d) (daemon_in_fdf_udp ff AF_INET src dst)
    (λ _, becomes (MkASock q rs (lg ++ [recv_msg r p]))).
Proof using Hw.
  intros Hu [(m & dir & Hm & Hst & Hb) Hlen Hfam (m' & sp & dp & Hm' & Hsp & Hdp & Ha & Hmt)].
  rewrite Hm in Hm'. injection Hm' as <-. pose proof Hu as [Hi Hx Hv Hbare Hc _ _ _ _ _ Hr Hf _ _]. simpl in *.
  apply Forall_cons in Hr as [(Hi0 & Hb0 & Hfl & c & Hcc & Hic) _].
  unfold daemon_in_fdf_udp. eapply rest_read; [done..|]. eapply rest_read; [done..|].
  change (AF_INET =? AF_INET) with true. cbv iota zeta. apply rest_get. intros s Hs. rewrite (rs_md _ _ _ _ _ Hs).
  change (addr4_get_ip (addr4_set_port ?z ?y)) with (addr4_get_ip y). rewrite (Hmt (sockets d) Hv).
  rewrite (proj2 (Z.eqb_neq i (-1))) by lia. unfold find_reader.
  apply runs_assoc, rest_get. intros s1 Hs1. apply runs_assoc. eapply rd_sock; [done..|].
  rewrite (rs_md _ _ _ _ _ Hs1), Hc. eapply rest_lift.
  { simpl. rewrite Hcc. unfold daemon_call_recvmsg_test.
    rewrite (ic_type _ _ _ Hic), (ic_flags _ _ _ Hic), Hfl. reflexivity. }
  eapply rd_upd_sock; [done..|]. set (d1 := put_sock _ _ d). eapply rest_meta; [done|]. eapply rest_data; [done|].
  cbv beta iota. simpl pduLength. simpl pdu. unfold recvmsg_in_udp. rewrite (ic_sock _ _ _ Hic).
  pose proof (sock_put i x (set_so_call_list (delete 0%nat (so_call_list x)) x) d Hx) as Hx1.
  apply runs_assoc. eapply rd_stamp; [done|exact Hx1|done|]. intros t e. cbv zeta.
  set (d2 := put_sock i _ (set_ticks e d1)). change (has 0 MSG_ERRQUEUE) with false. cbv iota.
  rewrite (ic_buf _ _ _ Hic). destruct (if r_buf r <? _ then _ else _) as [k f] eqn:Ek.
  assert (sin_family (addr4_set_port (u16 sp) src) =? AF_INET = true) as -> by done. cbv iota.
  assert (read_bytes (Some p.2) k = Ok (take (Z.to_nat k) p.2)) as Hrb.
  { unfold read_bytes. destruct (Z.ltb_spec (r_buf r) (Z.of_nat (length p.2))); injection Ek as <- <-.
    - destruct (Z.eqb_spec (r_buf r) 0) as [->|]; [done|]. by rewrite (proj2 (Z.leb_le _ _)) by lia.
    - destruct p.2; [done|]. rewrite (proj2 (Z.eqb_neq _ _)) by (simpl; lia). by rewrite Z.leb_refl. }
  apply runs_assoc. eapply rd_control; [done|by apply (sock_put i (set_so_call_list (delete 0%nat (so_call_list x)) x))|done|].
  apply runs_assoc. eapply rd_recvmsg; [done|exact Hrb|]. cbv iota. apply runs_assoc, runs_ret_bind.
  rewrite (ic_index _ _ _ Hic), (ic_type _ _ _ Hic), (ic_id _ _ _ Hic). unfold daemon_calls_remove.
  eapply rd_upd_call; [done|exact Hcc|]. apply runs_bind_r. apply rest_free; [by rewrite Hb|].
  apply runs_ret. intros s2 Hs2. do 2 eexists. split; [exact Hs2|]. rewrite <- Ha.
  replace (MkWedge _ _ _ _ _ _) with (recv_msg r p); [by apply usock_served|].
  unfold recv_msg. destruct (r_buf r <? Z.of_nat (length p.2)); injection Ek as <- <-; reflexivity.
Qed.

(** Without a reader it is stored. *)
Lemma usock_stored d q lg x p st :
  usock V w0 i d (MkASock q [] lg) x → stored st p → total q + Z.of_nat (length p.2) < 2147483648 →
  let x' := set_so_data_buf (s32 (so_data_buf x + Z.of_nat (length p.2)))
              (set_so_data_list (so_data_list x ++ [st]) x) in
  usock V w0 i (put_sock i x' d) (MkASock (q ++ [p]) [] lg) x'.
Proof.
  intros [Hi Hx Hv Hb Hc Hd Hbuf Ht Ho Hn Hr Hf Hl Hlc] Hst Hle x'. simpl in *.
  pose proof (total_nonneg q). split; simpl; try done.
  - by eapply sock_put.
  - by rewrite <- Hv; eapply view_put.
  - apply Forall2_app; [done|]. constructor; [done|constructor].
  - rewrite total_app, Hbuf. apply s32_small. lia.
  - by rewrite total_app.
  - by right.
Qed.

Lemma in_fdf_store d q lg x ff src dst p :
  usock V w0 i d (MkASock q [] lg) x → arrives ff src dst p →
  total q + Z.of_nat (length p.2) < 2147483648 → Z.of_nat (length q) < STORE_LIST_MAX →
  runs (rest fl xs n d) (daemon_in_fdf_udp ff AF_INET src dst) (λ _, becomes (MkASock (q ++ [p]) [] lg)).
Proof.
  intros Hu [(m & dir & Hm & Hst & Hb) Hlen Hfam (m' & sp & dp & Hm' & Hsp & Hdp & Ha & Hmt)] Ht Hq.
  rewrite Hm in Hm'. injection Hm' as <-. pose proof Hu as [Hi Hx Hv _ Hc Hd _ _ _ _ _ _ _ _]. simpl in *.
  unfold daemon_in_fdf_udp. eapply rest_read; [done..|]. eapply rest_read; [done..|].
  change (AF_INET =? AF_INET) with true. cbv iota zeta. apply rest_get. intros s Hs. rewrite (rs_md _ _ _ _ _ Hs).
  change (addr4_get_ip (addr4_set_port ?z ?y)) with (addr4_get_ip y). rewrite (Hmt (sockets d) Hv).
  rewrite (proj2 (Z.eqb_neq i (-1))) by lia. unfold find_reader.
  apply runs_assoc, rest_get. intros s1 Hs1. apply runs_assoc. eapply rd_sock; [done..|].
  rewrite (rs_md _ _ _ _ _ Hs1), Hc. eapply rest_lift; [reflexivity|]. cbv iota.
  eapply rd_sock; [done..|]. rewrite Hc. cbn [map poll_in_each]. apply runs_ret_bind. eapply rest_data; [done|].
  rewrite (Forall2_length _ _ _ Hd), (proj2 (Z.ltb_lt _ _) Hq). apply runs_bind_r. eapply rd_upd_sock; [done..|].
  apply runs_ret. intros s2 Hs2. do 2 eexists. split; [exact Hs2|]. simpl pduLength.
  apply usock_stored; [done| |done]. rewrite <- Ha. split_and!; try done; [by rewrite Ha|]. by exists m, dir.
Qed.

(** The socket takes a datagram that arrives. *)
Definition may_arrive (p : dgram) (a : asock) : Prop :=
  a_readers a ≠ [] ∨ total (a_queue a) + Z.of_nat (length p.2) < 2147483648 ∧ Z.of_nat (length (a_queue a)) < STORE_LIST_MAX.

Lemma in_fdf_refines d a x ff src dst p :
  usock V w0 i d a x → arrives ff src dst p → may_arrive p a →
  runs (rest fl xs n d) (daemon_in_fdf_udp ff AF_INET src dst) (λ _, becomes (a_arrive p a)).
Proof using Hw.
  intros Hu Ha Hm. destruct a as [q [|r rs] lg]; unfold a_arrive; simpl.
  - destruct Hm as [?|[H1 H2]]; [done|]. by eapply in_fdf_store.
  - by eapply in_fdf_reader.
Qed.

(** ** Reading *)

(** A [recvmsg] call of a reader. *)
Record calls_recv (h : wedge_to_daemon_hdr) (r : reader) : Prop := {
  cr_type : h_call_type h = RECVMSG_CALL; cr_id : h_call_id h = r_id r; cr_index : h_call_index h = r_index r;
  cr_sock : h_sock_index h = i; cr_buf : 0 ≤ r_buf r < 4294967296; cr_flags : 0 ≤ r_flags r < 4294967296;
  cr_data : has (r_flags r) MSG_ERRQUEUE = false
}.

Lemma usock_taken d p q rs lg x st l t e m :
  usock V w0 i d (MkASock (p :: q) rs lg) x → so_data_list x = st :: l → 0 < total (p :: q) →
  let x1 := set_so_data_buf (s32 (so_data_buf x - Z.of_nat (length p.2))) (set_so_data_list l x) in
  usock V w0 i (told m (put_sock i (set_so_stamp t x1) (set_ticks e (put_sock i x1 d))))
    (MkASock q rs (lg ++ [m])) (set_so_stamp t x1).
Proof.
  intros [Hi Hx Hv Hb Hc Hd Hbuf Ht Ho Hn Hr Hf Hl Hlc] Hdl Hp x1. cbn [a_queue a_readers a_log] in *.
  destruct Ho as [?| ->]; [lia|]. rewrite Hdl in Hd. apply Forall2_cons in Hd as [_ Hd].
  assert (so_data_buf x = Z.of_nat (length p.2) + total q) as Hb' by exact Hbuf.
  assert (Z.of_nat (length p.2) + total q < 2147483648) as Ht' by exact Ht. pose proof (total_nonneg q).
  split; simpl; try done.
  - rewrite list_insert_insert_eq. apply list_lookup_insert_eq. by eapply lookup_lt_Some.
  - rewrite <- Hv. unfold sview. simpl. rewrite !list_fmap_insert, list_insert_insert_eq.
    apply list_insert_id. by rewrite list_lookup_fmap, Hx.
  - rewrite Hb', s32_small; lia.
  - lia.
  - by right.
  - by rewrite Hl, app_assoc.
Qed.

Lemma recvmsg_takes d p q rs lg x h r :
  usock V w0 i d (MkASock (p :: q) rs lg) x → calls_recv h r → 0 < total (p :: q) →
  runs (rest fl xs n d) (recvmsg_out_udp h (r_buf r) (r_ctl r) (r_flags r))
    (λ _, becomes (MkASock q rs (lg ++ [recv_msg r p]))).
Proof using Hw.
  intros Hu [Ht Hid Hix Hsi Hbf Hfl Hnd] Hpos0. pose proof Hu as [Hi Hx _ Hbare _ Hd Hbuf _ _ _ _ _ _ _]. cbn [a_queue a_readers a_log] in *.
  apply Forall2_cons_inv_r in Hd as (st & l & (Hsa & Hsf & Hlen & m & dir & Hm & Hst & Hb) & _ & Hdl).
  assert (0 < so_data_buf x) as Hpos by (by rewrite Hbuf).
  unfold recvmsg_out_udp. rewrite Hsi. eapply rd_sock; [done..|]. rewrite Hnd, (proj2 (Z.ltb_lt _ _) Hpos), Hdl.
  unfold stored_data. apply runs_assoc. eapply rest_data; [done|]. apply runs_ret_bind. simpl fst. simpl snd.
  eapply rd_upd_sock; [done..|]. rewrite Hsa, Hsf. change (AF_INET =? AF_INET) with true. cbv iota.
  set (x1 := set_so_data_buf _ _). set (d1 := put_sock i x1 d). unfold recvmsg_reply. rewrite Hsi.
  eapply rest_meta; [done|]. pose proof (sock_put i x x1 d Hx) as Hx1.
  eapply rd_stamp; [done|exact Hx1|done|]. intros t e. rewrite Hnd. cbv iota zeta.
  rewrite u32_small by done. destruct (if r_buf r <? _ then _ else _) as [k f] eqn:Ek.
  assert (read_bytes (Some p.2) k = Ok (take (Z.to_nat k) p.2)) as Hrb.
  { unfold read_bytes. destruct (Z.ltb_spec (r_buf r) (Z.of_nat (length p.2))); injection Ek as <- <-.
    - destruct (Z.eqb_spec (r_buf r) 0) as [->|]; [done|]. by rewrite (proj2 (Z.leb_le _ _)) by lia.
    - destruct p.2; [done|]. rewrite (proj2 (Z.eqb_neq _ _)) by (simpl; lia). by rewrite Z.leb_refl. }
  eapply rd_control; [done|by apply (sock_put i x1)|done|]. eapply rd_recvmsg; [done|exact Hrb|]. cbv iota.
  apply runs_ret_bind. unfold daemon_store_free. apply runs_bind_r, rest_free; [by rewrite Hb|].
  apply runs_ret. intros s2 Hs2. do 2 eexists. split; [exact Hs2|]. rewrite Ht, Hid, Hix, Hsa.
  replace (MkWedge _ _ _ _ _ _) with (recv_msg r p); [by eapply usock_taken|].
  unfold recv_msg. destruct (r_buf r <? Z.of_nat (length p.2)); injection Ek as <- <-; reflexivity.
Qed.

Lemma block_timer : timer_once_start (d_of_Z DAEMON_BLOCK_DEFAULT) = Ok (Some (0, 500000000)).
Proof. vm_compute. reflexivity. Qed.

(** The entry of the table while the call waits; [c0] is the free entry. *)
Definition waiting_call (h : wedge_to_daemon_hdr) (r : reader) (t : itimer) (c0 : daemon_call) : daemon_call :=
  MkCall (h_sock_id h) i RECVMSG_CALL (h_call_pid h) (r_id r) (r_index r) (c_alloc c0)
    0 (r_buf r) (r_flags r) (r_ctl r) 0 0 0 t (c_to_flag c0).

Lemma usock_waits d q rs lg x h r t c0 :
  usock V w0 i d (MkASock q rs lg) x → total q = 0 → calls_recv h r →
  0 ≤ r_index r → calls d !! Z.to_nat (r_index r) = Some c0 → r_index r ∉ r_index <$> rs →
  let x' := set_so_call_list (so_call_list x ++ [CArr (r_index r)]) x in
  ∀ d', sockets d' = sockets (put_sock i x' d) →
    calls d' = <[Z.to_nat (r_index r) := waiting_call h r t c0]> (calls d) → wedge d' = wedge d →
    usock V w0 i d' (MkASock q (rs ++ [r]) lg) x'.
Proof.
  intros [Hi Hx Hv Hb Hc Hd Hbuf Ht Ho Hn Hr Hf Hl Hlc] Hq0 Hcr H0i Hc0 Hnin x' d' Es Ec Ew. simpl in *.
  split; simpl; try done.
  - rewrite Es. by eapply sock_put.
  - rewrite <- Hv. unfold sview. rewrite Es. by apply (view_put i x).
  - by rewrite Hc, map_app.
  - by left.
  - rewrite fmap_app. apply NoDup_app. split_and!; [done| |apply NoDup_singleton].
    intros y Hy ->%list_elem_of_singleton. done.
  - apply Forall_app. split.
    + eapply Forall_impl; [apply Forall_and; split; [exact Hr|apply Forall_forall; intros y Hy; exact Hy]|].
      intros y ((H1 & H2 & H3 & c' & Hc' & Hic) & Hy). split_and!; try done. exists c'. split; [|done]. rewrite Ec.
      rewrite list_lookup_insert_ne; [done|]. intros Heq%Z2Nat.inj; [|done|done]. apply Hnin. rewrite Heq.
      by apply list_elem_of_fmap_2.
    + constructor; [|constructor]. split_and!; [done|apply Hcr|apply Hcr|]. eexists. rewrite Ec. split.
      * apply list_lookup_insert_eq. by eapply lookup_lt_Some.
      * done.
  - intros j c'. rewrite Ec. intros [(<- & <- & _)|(Hj & Hc')]%list_lookup_insert_Some.
    + destruct (Hf _ _ Hc0) as [Ha _]. split; [done|]. intros Hnot. exfalso. apply Hnot.
      rewrite fmap_app, Z2Nat.id by done. set_solver.
    + destruct (Hf _ _ Hc') as [Ha Hid]. split; [done|]. intros Hnot. apply Hid. rewrite fmap_app in Hnot. set_solver.
  - by rewrite Ew.
  - by rewrite Ec, length_insert.
Qed.

Lemma recvmsg_waits d q rs lg x h r :
  usock V w0 i d (MkASock q rs lg) x → total q = 0 → calls_recv h r →
  0 ≤ r_index r < DAEMON_MAX_CALLS → r_index r ∉ r_index <$> rs →
  Z.of_nat (length rs) < DAEMON_CALL_LIST_MAX →
  runs (rest fl xs n d) (recvmsg_out_udp h (r_buf r) (r_ctl r) (r_flags r))
    (λ _, becomes (MkASock q (rs ++ [r]) lg)).
Proof.
  intros Hu Hq0 Hcr [H0i Hlt] Hnin Hlen. pose proof Hcr as [Ht Hid Hix Hsi Hbf Hfl Hnd].
  pose proof Hu as [Hi Hx _ _ Hc _ Hbuf _ _ _ _ Hf _ Hlc]. simpl in *.
  destruct (lookup_lt_is_Some_2 (calls d) (Z.to_nat (r_index r))) as [c0 Hc0]; [lia|].
  destruct (Hf _ _ Hc0) as [_ Hfree]. rewrite Z2Nat.id in Hfree by done. specialize (Hfree Hnin).
  unfold recvmsg_out_udp. rewrite Hsi. eapply rd_sock; [done..|]. rewrite Hnd, Hbuf, Hq0. change (0 <? 0) with false.
  cbv iota. unfold recvmsg_wait. rewrite Hsi, Hix, Hid, Ht. eapply rd_sock; [done..|].
  rewrite Hc, length_map, (proj2 (Z.ltb_lt _ _) Hlen). unfold daemon_calls_insert.
  apply runs_assoc. eapply rd_call; [done..|]. rewrite Hfree, Z.eqb_refl. apply runs_assoc, runs_ret_bind.
  eapply rd_upd_call; [done..|].
  assert (∀ j c e, calls e !! Z.to_nat j = Some c → ∀ c', calls (put_call j c' e) !! Z.to_nat j = Some c') as Hput.
  { intros j c e He c'. simpl. apply list_lookup_insert_eq. by eapply lookup_lt_Some. }
  eapply rd_upd_call; [done|by eapply Hput|]. rewrite !u32_small by done.
  eapply rd_upd_sock; [done|exact Hx|]. destruct (has (r_flags r) MSG_DONTWAIT).
  - rewrite block_timer. eapply rest_lift; [done|]. apply runs_bind_r. eapply rd_upd_call; [done| |].
    { eapply Hput. by eapply Hput. }
    apply runs_ret. intros s2 Hs2. do 2 eexists. split; [exact Hs2|].
    eapply (usock_waits d q rs lg x h r (Some (0, 500000000)) c0); try done. simpl. by rewrite !list_insert_insert_eq.
  - apply runs_ret. intros s2 Hs2. do 2 eexists. split; [exact Hs2|].
    eapply (usock_waits d q rs lg x h r (c_timer c0) c0); try done. simpl. by rewrite !list_insert_insert_eq.
Qed.

(** The socket takes a call. *)
Definition may_recv (r : reader) (a : asock) : Prop :=
  0 < total (a_queue a) ∨
  0 ≤ r_index r < DAEMON_MAX_CALLS ∧ r_index r ∉ r_index <$> a_readers a ∧
  Z.of_nat (length (a_readers a)) < DAEMON_CALL_LIST_MAX.

Lemma recvmsg_refines d a x h r :
  usock V w0 i d a x → calls_recv h r → may_recv r a →
  runs (rest fl xs n d) (recvmsg_out_udp h (r_buf r) (r_ctl r) (r_flags r)) (λ _, becomes (a_recv r a)).
Proof using Hw.
  intros Hu Hc Hm. destruct a as [q rs lg]. unfold may_recv, a_recv in *. cbn [a_queue a_readers a_log] in *.
  assert (total q = 0 → runs (rest fl xs n d) (recvmsg_out_udp h (r_buf r) (r_ctl r) (r_flags r)) (λ _, becomes (MkASock q (rs ++ [r]) lg))) as Hwait.
  { intros Hq0. destruct Hm as [?|(H1 & H2 & H3)]; [lia|]. by eapply recvmsg_waits. }
  destruct q as [|p q]; [by apply Hwait|]. destruct (Z.ltb_spec 0 (total (p :: q))); [by eapply recvmsg_takes|].
  apply Hwait. pose proof (total_nonneg (p :: q)). lia.
Qed.

(** ** Sequences of events *)

Inductive sock_event :=
| SArrive (ff : finsFrame) (src dst : sockaddr) (p : dgram)
| SRecv (h : wedge_to_daemon_hdr) (r : reader).

Definition sock_step (e : sock_event) : M ST unit :=
  match e with
  | SArrive ff src dst p => daemon_in_fdf_udp ff AF_INET src dst
  | SRecv h r => recvmsg_out_udp h (r_buf r) (r_ctl r) (r_flags r)
  end.
Fixpoint sock_steps (es : list sock_event) : M ST unit :=
  match es with
  | [] => mret tt
  | e :: es => sock_step e ;; sock_steps es
  end.
Definition a_step (a : asock) (e : sock_event) : asock :=
  match e with SArrive _ _ _ p => a_arrive p a | SRecv _ r => a_recv r a end.

(** The events are about this socket, and it has room for them. *)
Definition event_ok (e : sock_event) : Prop :=
  match e with SArrive ff src dst p => arrives ff src dst p | SRecv h r => calls_recv h r end.
Fixpoint may_run (es : list sock_event) (a : asock) : Prop :=
  match es with
  | [] => True
  | e :: es => match e with SArrive _ _ _ p => may_arrive p a | SRecv _ r => may_recv r a end ∧ may_run es (a_step a e)
  end.

Lemma sock_steps_refine es d a x :
  usock V w0 i d a x → Forall event_ok es → may_run es a →
  runs (rest fl xs n d) (sock_steps es) (λ _, becomes (foldl a_step a es)).
Proof using Hw.
  revert d a x. induction es as [|e es IH]; intros d a x Hu He Hm; simpl.
  - apply runs_ret. intros s Hs. by exists d, x.
  - apply Forall_cons in He as [He Hes]. destruct Hm as [Hm Hms]. eapply (runs_bind _ _ _ (λ _, becomes (a_step a e))).
    + destruct e; [by eapply in_fdf_refines|by eapply recvmsg_refines].
    + intros _ s (d' & x' & Hs & Hu'). by eapply (IH d').
Qed.

End Refines.

(** The datagrams and the calls of a sequence, in order. *)
Definition arrivals (es : list sock_event) : list dgram :=
  omap (λ e, match e with SArrive _ _ _ p => Some p | _ => None end) es.
Definition receives (es : list sock_event) : list reader :=
  omap (λ e, match e with SRecv _ r => Some r | _ => None end) es.

Lemma omap_snoc {A C} (f : A → option C) l x : omap f (l ++ [x]) = omap f l ++ option_list (f x).
Proof. rewrite omap_app. simpl. by destruct (f x). Qed.

Lemma zip_with_drop {A C D} (f : A → C → D) l k x r y :
  drop (length k) l = x :: r → zip_with f l (k ++ [y]) = zip_with f l k ++ [f x y].
Proof.
  revert k. induction l as [|z l IH]; intros k E; [by rewrite drop_nil in E|].
  destruct k as [|w k]; simpl in *; [by injection E as -> ->; destruct r|]. f_equal. by apply IH.
Qed.
Lemma zip_with_long {A C D} (f : A → C → D) l k k' :
  (length l ≤ length k)%nat → zip_with f l (k ++ k') = zip_with f l k.
Proof. revert k. induction l as [|x l IH]; intros [|y k] Hl; simpl in *; [by destruct k'|done|lia|]. by rewrite IH by lia. Qed.
Lemma zip_with_swap {A C D} (f : A → C → D) l k : zip_with f l k = zip_with (λ y x, f x y) k l.
Proof. revert k. induction l as [|x l IH]; intros [|y k]; simpl; [done..|]. by rewrite IH. Qed.

Lemma drop_all {A} n (l : list A) : drop n l = [] → (length l ≤ n)%nat.
Proof. intros E. pose proof (length_drop l n) as L. rewrite E in L. simpl in L. lia. Qed.
Lemma drop_next {A} n (l : list A) x r : drop n l = x :: r → drop (S n) l = r ∧ (n < length l)%nat.
Proof.
  intros E. split; [|pose proof (length_drop l n) as L; rewrite E in L; simpl in L; lia].
  by rewrite <- Nat.add_1_r, <- drop_drop, E.
Qed.

(** The [k]-th call gets the [k]-th datagram, if none is empty. *)
Lemma total_pos p q : p.2 ≠ [] → 0 < total (p :: q).
Proof.
  intros Hp. pose proof (total_nonneg q). change (total (p :: q)) with (Z.of_nat (length p.2) + total q).
  destruct p.2; simpl; [done|lia].
Qed.

Lemma a_steps_pairs es :
  Forall (λ p, p.2 ≠ []) (arrivals es) →
  let a := foldl a_step (MkASock [] [] []) es in
  a_log a = zip_with recv_msg (receives es) (arrivals es) ∧
  a_queue a = drop (length (receives es)) (arrivals es) ∧
  a_readers a = drop (length (arrivals es)) (receives es).
Proof.
  induction es as [|e es IH] using rev_ind; [done|]. rewrite foldl_snoc. simpl.
  unfold arrivals, receives in *. rewrite !omap_snoc. intros [Hne _]%Forall_app. destruct (IH Hne) as (Hl & Hq & Hr). clear IH.
  destruct (foldl a_step _ es) as [q rs lg]. simpl in Hl, Hq, Hr. subst.
  destruct e as [ff src dst p|h r]; simpl; rewrite ?app_nil_r, ?length_app.
  - unfold a_arrive. simpl. destruct (drop _ (omap _ es)) as [|r rs] eqn:E; simpl.
    + apply drop_all in E. rewrite zip_with_long, drop_app_le by done. split_and!; try done. rewrite drop_ge; [done|]. simpl. lia.
    + apply drop_next in E as E'. destruct E' as [E2 E3]. rewrite (zip_with_drop _ _ _ r rs) by done. split_and!; [done| |].
      * rewrite !drop_ge; [done| |]; rewrite ?length_app; simpl; lia.
      * by rewrite Nat.add_1_r.
  - unfold a_recv. simpl. destruct (drop (length (omap _ es)) _) as [|p q] eqn:E; simpl.
    + apply drop_all in E. rewrite (zip_with_swap _ (_ ++ _)), zip_with_long, <- zip_with_swap, drop_app_le by done.
      split_and!; try done. rewrite drop_ge; [done|]. simpl. lia.
    + apply drop_next in E as E'. destruct E' as [E2 E3].
      assert (p.2 ≠ []) as Hp by (apply (Forall_inv (P := λ p : dgram, p.2 ≠ []) (l := q)); rewrite <- E; by apply Forall_drop).
      case Z.ltb_spec; [intros _|intros Hc; pose proof (total_pos p q Hp); exfalso; apply (Z.lt_irrefl 0); by eapply Z.lt_le_trans]. simpl.
      rewrite (zip_with_swap _ (_ ++ _)), (zip_with_drop _ _ _ p q), <- zip_with_swap by done. split_and!; [done| |].
      * by rewrite Nat.add_1_r.
      * rewrite !drop_ge; [done| |]; rewrite ?length_app; simpl; lia.
Qed.

(** A socket with nothing stored and nobody waiting, in a daemon without
    waiting calls. *)
Record idle (i : Z) (d : daemon_data) (x : daemon_socket) : Prop := {
  id_i : 0 ≤ i;
  id_sock : sockets d !! Z.to_nat i = Some x;
  id_bare : bare x = true;
  id_calls : so_call_list x = [];
  id_data : so_data_list x = [];
  id_buf : so_data_buf x = 0;
  id_free : Forall (λ c, c_alloc c = false ∧ c_id c = NO_CALL) (calls d);
  id_table : Z.of_nat (length (calls d)) = DAEMON_MAX_CALLS
}.

Lemma idle_usock i d x : idle i d x → usock (sview dmx d) (wedge d) i d (MkASock [] [] []) x.
Proof.
  intros [Hi Hx Hb Hc Hd Hbuf Hf Hl]. split; simpl; try done.
  - by rewrite Hd.
  - by left.
  - constructor.
  - intros j c Hj. eapply Forall_lookup_1 in Hf as [Ha Hid]; [|exact Hj]. done.
  - by rewrite app_nil_r.
Qed.

(** C9: Whatever the order in which datagrams arrive for a UDP socket and
    [recvmsg] calls are made on it (within its limits), the daemon returns from
    each event and tells the wedge exactly what the abstract socket tells: a
    datagram goes to the first reader that waits, or is stored; a reader gets
    the first datagram stored when bytes are stored, and waits otherwise.  If no
    datagram is empty, these answers pair the first call with the first
    datagram, the second with the second, and so on: none is lost, duplicated or
    reordered.  A stored empty datagram does not count, and a later one
    overtakes it: it reaches the reader that waits in spite of it. *)
Theorem udp_socket_fifo {Q} `{BoundedFifo Q finsFrame} `{DaemonEnv}
    fl xs n i d x es (s : mstate Q daemon_data) :
  (∀ t, wedge_ok t = true) →
  rest fl xs n d s → idle i d x →
  Forall (event_ok (sview dmx d) i) es → may_run es (MkASock [] [] []) →
  ∃ s' d', sock_steps es s = Ok (tt, s') ∧ rest fl xs n d' s' ∧
    wedge d' = wedge d ++ a_log (foldl a_step (MkASock [] [] []) es) ∧
    (Forall (λ p, p.2 ≠ []) (arrivals es) → wedge d' = wedge d ++ zip_with recv_msg (receives es) (arrivals es)).
Proof.
  intros Hw Hs Hi He Hm.
  destruct (sock_steps_refine fl xs n Hw _ _ i es d _ x (idle_usock i d x Hi) He Hm s Hs) as ([] & s' & E & d' & x' & Hs' & Hu).
  exists s', d'. rewrite (us_log _ _ _ _ _ _ Hu). split_and!; [done..|]. intros Hne. by rewrite (proj1 (a_steps_pairs es Hne)).
Qed.

(** A daemon with one socket, bound to port 5000 of 192.168.1.1. *)
Definition demo_udp_socket : daemon_socket :=
  set_so_host_addr (MkAddr AF_INET 5000 3232235777)
    (set_so_family AF_INET (new_socket 70 SOCK_DGRAM IPPROTO_UDP IPPROTO_UDP free_socket)).
Definition demo_bound_data : daemon_data := put_sock 0 demo_udp_socket demo_daemon_data.
Definition demo_bound : mstate (QueueRecord finsFrame) daemon_data := set_md demo_bound_data demo_daemon.

Lemma demo_bound_rest : rest [(DAEMON_FLOW_UDP, 5)] [] 2 demo_bound_data demo_bound.
Proof.
  split; [done| | |].
  - assert (Hl : Forall (link_ok (lcells demo_daemon_store)) [8; 9; 10]).
    { repeat constructor; eexists; (split; [vm_compute; reflexivity|]); simpl; lia. }
    split; simpl.
    + lia.
    + intros l [= <-]. split; [|done]. repeat constructor; set_solver.
    + intros [|[|[|j]]] f Hj Hf; simpl in *; simplify_eq; try lia; exists [8; 9; 10]; split; reflexivity.
  - split; [exact demo_rep|]. vm_compute. discriminate.
  - intros f dst [= -> ->]%list_elem_of_singleton. vm_compute. reflexivity.
Qed.

Lemma demo_bound_idle : idle 0 demo_bound_data demo_udp_socket.
Proof. split; try done. by apply Forall_replicate. Qed.

(** A datagram from 10.0.0.1, port 7, and its frame. *)
Definition demo_dgram_meta : metadata :=
  [("recv_protocol", SInt 17); ("recv_family", SInt 2); ("recv_src_ipv4", SInt 167772161);
   ("recv_dst_ipv4", SInt (s32 3232235777)); ("recv_src_port", SInt 7); ("recv_dst_port", SInt 5000)].
Definition demo_dgram (b : list Z) : sock_event :=
  SArrive (MkFrame 1 (Some demo_dgram_meta) (Data (MkData DIR_UP (Z.of_nat (length b)) (Some b))))
    (MkAddr AF_INET 0 167772161) (MkAddr AF_INET 0 3232235777) (MkAddr AF_INET 7 167772161, b).
Definition demo_read (id k : Z) : sock_event :=
  SRecv (MkHdr 70 0 RECVMSG_CALL 9 id k) (MkReader id k 100 0 0).

Lemma demo_dgram_ok b : Z.of_nat (length b) < 4294967296 → event_ok (sview dmx demo_bound_data) 0 (demo_dgram b).
Proof.
  intros Hl. split; [|done|done|].
  - exists demo_dgram_meta, DIR_UP. done.
  - exists demo_dgram_meta, 7, 5000. split_and!; [reflexivity..|]. intros socks Hv.
    rewrite (match_packet_view socks (sockets demo_bound_data)) by exact Hv. vm_compute. reflexivity.
Qed.
Lemma demo_read_ok id k : event_ok (sview dmx demo_bound_data) 0 (demo_read id k).
Proof. by split. Qed.

(** Witness of C9: a reader waits, two datagrams come, another reader calls; then
    an empty datagram is stored, a third reader waits in spite of it, and gets
    the datagram that comes next. *)
Lemma udp_socket_fifo_witness :
  let es := [demo_read 31 4; demo_dgram [1; 2; 3]; demo_dgram [4]; demo_read 32 5; demo_dgram []; demo_read 33 6; demo_dgram [7]] in
  ∃ s' d', sock_steps (H0 := demo_daemon_env) es demo_bound = Ok (tt, s') ∧ rest [(DAEMON_FLOW_UDP, 5)] [] 2 d' s' ∧
    wedge d' = [recv_msg (MkReader 31 4 100 0 0) (MkAddr AF_INET 7 167772161, [1; 2; 3]);
                recv_msg (MkReader 32 5 100 0 0) (MkAddr AF_INET 7 167772161, [4]);
                recv_msg (MkReader 33 6 100 0 0) (MkAddr AF_INET 7 167772161, [7])] ∧
    (Forall (λ p, p.2 ≠ []) (arrivals es) → wedge d' = zip_with recv_msg (receives es) (arrivals es)).
Proof.
  intros es.
  apply (udp_socket_fifo (H0 := demo_daemon_env) [(DAEMON_FLOW_UDP, 5)] [] 2 0 demo_bound_data demo_udp_socket es demo_bound).
  - done.
  - exact demo_bound_rest.
  - exact demo_bound_idle.
  - repeat (constructor; [first [apply demo_read_ok|by apply demo_dgram_ok]|]). constructor.
  - split; [right; split; [done|split; [set_solver|done]]|]. split; [by left|]. split; [right; done|].
    split; [by left|]. split; [right; done|]. split; [right; split; [done|split; [set_solver|done]]|]. split; [by left|done].
Defined.
