(* ===== verification/DaemonIcmp.v ===== *)
(** * Raw ICMP sockets: [modules/daemon/icmpHandling.c]

    The handlers of a raw socket.  They are those of UDP without ports, except
    that a message goes to every socket that fits it: the last part proves
    what becomes of it there, and of the sender's address when somebody reads. *)

From stdpp Require Import base list gmap strings.
From Stdlib Require Import ZArith Lia.
From S2P Require Import Prelude Queue Metadata Frame Module IPv4 Double Run Daemon DaemonUdp DaemonOut DaemonTcp DaemonFacts DaemonPorts DaemonQueue.
Open Scope Z_scope.
Open Scope fins_scope.

Definition SOCK_RAW := 3.
Definition IPPROTO_ICMP := 1.
Definition DAEMON_FLOW_ICMP := 0.

Definition socket_icmp_test (domain type protocol : Z) : bool :=
  (type =? SOCK_RAW) && ((protocol =? IPPROTO_ICMP) || (protocol =? IPPROTO_IP)).

Definition icmp_inet (x : daemon_socket) : bool :=
  negb (so_sock_id x =? NO_SOCK) && (so_protocol x =? IPPROTO_ICMP) && (so_family x =? AF_INET).

(** The socket is bound to [host_ip] or any address, and connected to [rem_ip]
    or no address. *)
Definition icmp_match (host_ip rem_ip : Z) (x : daemon_socket) : bool :=
  icmp_inet x
  && ((addr4_get_ip (so_host_addr x) =? DAEMON_ADDR_ANY) || (addr4_get_ip (so_host_addr x) =? host_ip))
  && ((addr4_get_ip (so_rem_addr x) =? DAEMON_ADDR_ANY) || (addr4_get_ip (so_rem_addr x) =? rem_ip)).

(** The option filters out messages of this type. *)
Definition filtered (type : Z) (x : daemon_socket) : bool :=
  (type <? 32) && negb (Z.land (Z.shiftl 1 type) (u32 (so_opts x FICMP_FILTER)) =? 0).

(** An address in network order, without a port. *)
Definition raw_addr (a : sockaddr) : sockaddr := MkAddr (sin_family a) 0 (htonl (s_addr a)).

Section DaemonIcmp.
Context {Q : Type} `{BoundedFifo Q finsFrame} `{DaemonEnv}.
Abbreviation ST := (mstate Q daemon_data) (only parsing).

(** ** Calls *)

Definition socket_out_icmp (h : wedge_to_daemon_hdr) (domain : Z) : M ST unit :=
  ok ← daemon_sockets_insert (h_sock_id h) (h_sock_index h) SOCK_RAW IPPROTO_ICMP IPPROTO_ICMP;
  if (ok : bool) then ack_hdr h 0 else nack_hdr h 1.

Definition bind_out_icmp (h : wedge_to_daemon_hdr) (addr : sockaddr) : M ST unit :=
  x ← get_sock (h_sock_index h);
  if negb (so_family x =? AF_UNSPEC) then nack_hdr h EINVAL
  else if sin_family addr =? AF_INET then
    upd_sock (h_sock_index h) (λ x,
      set_so_host_addr (addr4_set_ip (ntohl (addr4_get_ip addr)) (so_host_addr x)) (set_so_family AF_INET x)) ;;
    ack_hdr h 0
  else if sin_family addr =? AF_INET6 then
    upd_sock (h_sock_index h) (set_so_family AF_INET6) ;; ack_hdr h 0
  else nack_hdr h 1.

(** Written as that of UDP. *)
Definition listen_out_icmp (h : wedge_to_daemon_hdr) (backlog : Z) : M ST unit := listen_out_udp h backlog.

Definition connect_out_icmp (h : wedge_to_daemon_hdr) (addr : sockaddr) (flags : Z) : M ST unit :=
  x ← get_sock (h_sock_index h);
  if sin_family addr =? AF_INET then
    if negb (so_family x =? AF_UNSPEC) && negb (so_family x =? AF_INET) then nack_hdr h EAFNOSUPPORT
    else
      upd_sock (h_sock_index h) (λ x,
        set_so_rem_addr (addr4_set_ip (ntohl (addr4_get_ip addr)) (so_rem_addr x))
          (set_so_listening 0 (set_so_state SS_CONNECTING x))) ;;
      (if so_family x =? AF_UNSPEC then upd_sock (h_sock_index h) (set_so_family AF_INET) else mret tt) ;;
      ack_hdr h 0
  else if sin_family addr =? AF_INET6 then
    if negb (so_family x =? AF_UNSPEC) && negb (so_family x =? AF_INET6) then nack_hdr h EAFNOSUPPORT
    else nack_hdr h 1
  else if SS_UNCONNECTED <? so_state x then
    upd_sock (h_sock_index h) (set_so_state SS_UNCONNECTED) ;;
    if so_family x =? AF_INET then
      upd_sock (h_sock_index h) (λ x, set_so_rem_addr (addr4_set_ip 0 (so_rem_addr x)) x) ;;
      ack_hdr h 0
    else if so_family x =? AF_INET6 then nack_hdr h 1
    else ack_hdr h 0
  else nack_hdr h EAFNOSUPPORT.

Definition accept_out_icmp (h : wedge_to_daemon_hdr) (sock_id_new sock_index_new flags : Z) : M ST unit :=
  ack_hdr h 0.

Definition getname_out_icmp (h : wedge_to_daemon_hdr) (peer : Z) : M ST unit :=
  x ← get_sock (h_sock_index h);
  if so_family x =? AF_INET then
    ip ← (if peer =? 0 then
            let ip := addr4_get_ip (so_host_addr x) in
            if ip =? DAEMON_ADDR_ANY then a ← main_ip; mret (default ip a) else mret ip
          else if ((peer =? 1) || (peer =? 2)) && (SS_UNCONNECTED <? so_state x)
          then mret (addr4_get_ip (so_rem_addr x))
          else mret 0 : M ST Z);
    reply_wedge h (le_bytes 4 sizeof_sockaddr_in ++ sockaddr_bytes (MkAddr AF_INET 0 (htonl ip)))
  else if so_family x =? AF_INET6 then
    reply_wedge h (le_bytes 4 28 ++ le_bytes 2 AF_INET6 ++ le_bytes 2 0 ++ replicate 24 0)
  else
    reply_wedge h (le_bytes 4 sizeof_sockaddr_in ++ sockaddr_bytes (MkAddr AF_INET 0 0)).

(** The rest of the metadata, and the frame for the ICMP module. *)
Definition send_raw (h : wedge_to_daemon_hdr) (data_len : Z) (data : option (list Z)) (host_ip rem_ip : Z) : M ST unit :=
  m ← put_metas [("send_src_ipv4", host_ip); ("send_dst_ipv4", rem_ip)] metadata_create;
  x ← get_sock (h_sock_index h);
  m ← put_metas [("send_family", so_family x); ("send_ttl", so_opts x FIP_TTL);
                 ("send_tos", so_opts x FIP_TOS)] m;
  sent ← daemon_fdf_to_switch DAEMON_FLOW_ICMP data_len data m;
  if sent =? 0 then nack_hdr h 1 else ack_hdr h data_len.

Definition sendmsg_out_icmp (h : wedge_to_daemon_hdr) (data_len : Z) (data : option (list Z))
    (flags addr_len : Z) (addr : sockaddr) : M ST unit :=
  if data_len =? 0 then ack_hdr h 0
  else
    x ← get_sock (h_sock_index h);
    if sin_family addr =? AF_INET then
      if negb (so_family x =? AF_UNSPEC) && negb (so_family x =? AF_INET) then nack_hdr h EAFNOSUPPORT
      else
        let rem_ip := if negb (addr_len =? 0) then ntohl (addr4_get_ip addr)
                      else addr4_get_ip (so_rem_addr x) in
        host_ip ← (if negb (so_family x =? AF_UNSPEC) then
                     let ip := addr4_get_ip (so_host_addr x) in
                     if ip =? DAEMON_ADDR_ANY then a ← main_ip; mret (default ip a) else mret ip
                   else
                     upd_sock (h_sock_index h) (set_so_family AF_INET) ;;
                     a ← main_ip; mret (default junk_host_ip a) : M ST Z);
        send_raw h data_len data host_ip rem_ip
    else if sin_family addr =? AF_INET6 then
      if negb (so_family x =? AF_UNSPEC) && negb (so_family x =? AF_INET6) then nack_hdr h EAFNOSUPPORT
      else nack_hdr h 1
    else if SS_UNCONNECTED <? so_state x then
      if so_family x =? AF_INET then
        a ← main_ip;
        send_raw h data_len data (default (addr4_get_ip (so_host_addr x)) a) (addr4_get_ip (so_rem_addr x))
      else nack_hdr h 1
    else nack_hdr h EAFNOSUPPORT.

(** The reply to a [recvmsg] call with a stored message; [st] has its address in
    host order. *)
Definition recvmsg_reply_icmp (h : wedge_to_daemon_hdr) (st : daemon_store) (data_len : Z)
    (data : option (list Z)) (buf_len msg_controllen flags : Z) : M ST unit :=
  m ← ff_meta (st_ff st);
  read_stamp (h_sock_index h) m ;;
  let msg_flags := if has flags MSG_ERRQUEUE then MSG_ERRQUEUE else 0 in
  let '(msg_len, msg_flags) :=
    if u32 buf_len <? data_len then (u32 buf_len, Z.lor msg_flags MSG_TRUNC)
    else (data_len, msg_flags) in
  ctl ← recvmsg_control (h_sock_index h) msg_flags m msg_controllen flags;
  ok ← send_wedge_recvmsg (h_call_type h) (h_call_id h) (h_call_index h) (fst ctl)
         (raw_addr (st_addr st)) msg_len data (snd ctl);
  (if (ok : bool) then mret tt else nack_hdr h 1) ;;
  daemon_store_free st.

Definition recvmsg_out_icmp (h : wedge_to_daemon_hdr) (buf_len msg_controllen flags : Z) : M ST unit :=
  x ← get_sock (h_sock_index h);
  if has flags MSG_ERRQUEUE then
    match so_error_list x with
    | [] => nack_hdr h EAGAIN
    | st :: l =>
        upd_sock (h_sock_index h) (set_so_error_list l) ;;
        d ← stored_error (st_ff st);
        if sin_family (st_addr st) =? AF_INET
        then recvmsg_reply_icmp h st (fst d) (snd d) buf_len msg_controllen flags
        else nack_hdr h 1
    end
  else if 0 <? so_data_buf x then
    match so_data_list x with
    | [] => segv
    | st :: l =>
        d ← stored_data (st_ff st);
        upd_sock (h_sock_index h) (λ x,
          set_so_data_buf (s32 (so_data_buf x - fst d)) (set_so_data_list l x)) ;;
        if sin_family (st_addr st) =? AF_INET
        then recvmsg_reply_icmp h st (fst d) (snd d) buf_len msg_controllen flags
        else nack_hdr h 1
    end
  else recvmsg_wait h buf_len msg_controllen flags.

(** These are written as those of UDP. *)
Definition ioctl_out_icmp (h : wedge_to_daemon_hdr) (cmd : Z) (buf : list Z) : M ST unit :=
  ioctl_out_udp h cmd buf.
Definition release_out_icmp (h : wedge_to_daemon_hdr) : M ST unit :=
  daemon_sockets_remove (h_sock_index h) ;; ack_hdr h 0.
Definition poll_out_icmp (h : wedge_to_daemon_hdr) (events : Z) : M ST unit := poll_out_udp h events.
Definition shutdown_out_icmp (h : wedge_to_daemon_hdr) (how : Z) : M ST unit := ack_hdr h 0.
Definition getsockopt_out_icmp (h : wedge_to_daemon_hdr) (level optname optlen : Z) : M ST unit :=
  getsockopt_out_udp h level optname optlen.
Definition setsockopt_out_icmp (h : wedge_to_daemon_hdr) (level optname optlen : Z) (optval : list Z) : M ST unit :=
  setsockopt_out_udp h level optname optlen optval.
Definition poll_in_icmp (i : Z) (n : nat) (r : call_ref) (flags : Z) : M ST unit := poll_in_udp i n r flags.
Definition recvmsg_timeout_icmp (c : daemon_call) : M ST unit := recvmsg_timeout_udp c.

(** ** Messages and errors *)

(** The waiting call [c] gets the data; the address is turned into network order
    in place, and the result is what the caller's variable then holds. *)
Definition recvmsg_in_icmp (c : daemon_call) (m : metadata) (data_len : Z) (data : option (list Z))
    (addr : sockaddr) (flags : Z) : M ST sockaddr :=
  read_stamp (c_sock_index c) m ;;
  let msg_flags := if has flags MSG_ERRQUEUE then MSG_ERRQUEUE else 0 in
  (if has flags MSG_ERRQUEUE then upd_sock (c_sock_index c) (set_so_error EHOSTUNREACH (c_type c)) else mret tt) ;;
  let '(data_len, msg_flags) :=
    if c_buf c <? data_len then (c_buf c, Z.lor msg_flags MSG_TRUNC) else (data_len, msg_flags) in
  if sin_family addr =? AF_INET then
    let addr := raw_addr addr in
    ctl ← recvmsg_control (c_sock_index c) msg_flags m (c_ret c) flags;
    ok ← send_wedge_recvmsg (c_type c) (c_id c) (c_index c) (fst ctl) addr data_len data (snd ctl);
    (if (ok : bool) then mret tt else nack_call c 1) ;;
    daemon_calls_remove (c_index c) ;;
    mret addr
  else nack_call c 1 ;; daemon_calls_remove (c_index c) ;; mret addr.

(** A message for socket [i]: the first reader gets it, or a copy is stored. *)
Definition deliver_icmp (i : Z) (ff : finsFrame) (src : sockaddr) : M ST sockaddr :=
  r ← find_reader i false;
  d ← ff_data ff;
  match r with
  | Some (n, r, c) =>
      upd_sock i (λ x, set_so_call_list (delete n (so_call_list x)) x) ;;
      m ← ff_meta ff;
      recvmsg_in_icmp c m (pduLength d) (pdu d) src 0
  | None =>
      x ← get_sock i;
      poll_in_each i 0 (so_call_list x) POLLIN ;;
      copy ← lift (cloneFinsFrame ff);
      (if Z.of_nat (length (so_data_list x)) <? STORE_LIST_MAX then
         upd_sock i (λ x,
           set_so_data_buf (s32 (so_data_buf x + pduLength d))
             (set_so_data_list (so_data_list x ++ [MkStored src copy 0]) x))
       else daemon_store_free (MkStored src copy 0)) ;;
      mret src
  end.

(** The loop over the table, from socket [i] on; the address is a variable of
    the function. *)
Fixpoint deliver_each (n : nat) (i : Z) (ff : finsFrame) (type src_ip dst_ip : Z) (src : sockaddr) : M ST unit :=
  match n with
  | O => mret tt
  | S n =>
      x ← get_sock i;
      src ← (if icmp_match dst_ip src_ip x && negb (filtered type x) then deliver_icmp i ff src else mret src : M ST sockaddr);
      deliver_each n (i + 1) ff type src_ip dst_ip src
  end.

Definition daemon_in_fdf_icmp (ff : finsFrame) (family : Z) (src dst : sockaddr) : M ST unit :=
  type ← ff_read ff "recv_icmp_type";
  code ← ff_read ff "recv_icmp_code";
  if family =? AF_INET then
    deliver_each (Z.to_nat DAEMON_MAX_SOCKETS) 0 ff type (addr4_get_ip src) (addr4_get_ip dst) src ;;
    free_ff ff
  else free_ff ff.

(** An error for socket [i]; here the variable is the destination address. *)
Definition deliver_error (i : Z) (ff : finsFrame) (src dst : sockaddr) : M ST sockaddr :=
  x ← get_sock i;
  r ← (if so_opts x FIP_RECVERR =? 0 then mret None else find_reader i true
       : M ST (option (nat * call_ref * daemon_call)));
  match r with
  | Some (n, r, c) =>
      upd_sock i (λ x, set_so_call_list (delete n (so_call_list x)) x) ;;
      m ← ff_meta ff;
      d ← stored_error ff;
      recvmsg_in_icmp c m (fst d) (snd d) dst MSG_ERRQUEUE
  | None =>
      (if so_opts x FIP_RECVERR =? 0 then mret tt
       else poll_in_each i 0 (so_call_list x) POLLERR) ;;
      copy ← lift (cloneFinsFrame ff);
      (if Z.of_nat (length (so_error_list x)) <? STORE_LIST_MAX then
         (if so_opts x FIP_RECVERR =? 0
          then free_stores (so_error_list x) ;; upd_sock i (set_so_error_list [])
          else mret tt) ;;
         upd_sock i (λ x, set_so_error_list (so_error_list x ++ [MkStored src copy 0]) x)
       else daemon_store_free (MkStored src copy 0)) ;;
      mret dst
  end.

Fixpoint error_each (n : nat) (i : Z) (ff : finsFrame) (src_ip dst_ip : Z) (src dst : sockaddr) : M ST unit :=
  match n with
  | O => mret tt
  | S n =>
      x ← get_sock i;
      dst ← (if icmp_match src_ip dst_ip x then deliver_error i ff src dst else mret dst : M ST sockaddr);
      error_each n (i + 1) ff src_ip dst_ip src dst
  end.

Definition daemon_in_error_icmp (ff : finsFrame) (family : Z) (src dst : sockaddr) : M ST unit :=
  if family =? AF_INET then
    error_each (Z.to_nat DAEMON_MAX_SOCKETS) 0 ff (addr4_get_ip src) (addr4_get_ip dst) src dst ;;
    free_ff ff
  else free_ff ff.

Definition icmp_ops : proto_ops Q :=
  MkOps socket_icmp_test socket_out_icmp (Some daemon_in_fdf_icmp) (Some daemon_in_error_icmp) None None
    (Some bind_out_icmp) (Some listen_out_icmp) (Some connect_out_icmp) (Some accept_out_icmp)
    (Some getname_out_icmp) (Some ioctl_out_icmp) (Some sendmsg_out_icmp) (Some recvmsg_out_icmp)
    (Some getsockopt_out_icmp) (Some setsockopt_out_icmp) (Some release_out_icmp) (Some poll_out_icmp)
    (Some (mret tt)) (Some shutdown_out_icmp)
    (λ _, None) (λ t, if t =? RECVMSG_CALL then Some recvmsg_timeout_icmp else None) (λ _, None).

End DaemonIcmp.

(** ** Every socket gets the message once *)

(** What a message does to a socket: nothing, when it does not fit; the first
    waiting reader is told it, with the address as it stands then; or a copy is
    stored with the address, or dropped when the store is full. *)
Inductive fate := Untouched | Reads (r : reader) (a : sockaddr) | Stores (a : sockaddr) | Drops.

(** The message fits the socket and is not filtered. *)
Definition fits (type src_ip dst_ip : Z) (x : daemon_socket) : bool :=
  icmp_match dst_ip src_ip x && negb (filtered type x).

(** The fates of the sockets from number [j] on; [reads j] is the reader that
    waits first on socket [j].  Every reader turns the address around. *)
Fixpoint fates (reads : nat → option reader) (type src_ip dst_ip : Z) (src : sockaddr) (j : nat)
    (l : list daemon_socket) : list fate :=
  match l with
  | [] => []
  | x :: l =>
      if fits type src_ip dst_ip x then
        match reads j with
        | Some r => Reads r (raw_addr src) :: fates reads type src_ip dst_ip (raw_addr src) (S j) l
        | None => (if Z.of_nat (length (so_data_list x)) <? STORE_LIST_MAX then Stores src else Drops)
                    :: fates reads type src_ip dst_ip src (S j) l
        end
      else Untouched :: fates reads type src_ip dst_ip src (S j) l
  end.

(** The answer to a reader. *)
Definition raw_msg (r : reader) (a : sockaddr) (b : list Z) : wedge_msg :=
  let n := Z.of_nat (length b) in
  let cut := r_buf r <? n in
  let k := if cut then r_buf r else n in
  MkWedge RECVMSG_CALL (r_id r) (r_index r) DAEMON_ACK (if cut then MSG_TRUNC else 0)
    (le_bytes 4 sizeof_sockaddr_in ++ sockaddr_bytes a ++ le_bytes 4 k ++ take (Z.to_nat k) b ++ le_bytes 4 0).

Definition told_of (b : list Z) (f : fate) : option wedge_msg :=
  match f with Reads r a => Some (raw_msg r a b) | _ => None end.
Definition dropped_of (ff : finsFrame) (f : fate) : option finsFrame :=
  match f with Drops => Some (clone_frame ff) | _ => None end.

(** The socket afterwards; a reader that is served leaves its call list, and
    its time stamp is noted. *)
Definition fated (ff : finsFrame) (len : Z) (f : fate) (x x' : daemon_socket) : Prop :=
  match f with
  | Untouched | Drops => x' = x
  | Reads _ _ => ∃ t, x' = set_so_stamp t (set_so_call_list (tail (so_call_list x)) x)
  | Stores a => x' = set_so_data_buf (s32 (so_data_buf x + len))
                       (set_so_data_list (so_data_list x ++ [MkStored a (clone_frame ff) 0]) x)
  end.

(** The calls of the served readers are free. *)
Definition end_call (cs : list daemon_call) (f : fate) : list daemon_call :=
  match f with
  | Reads r _ =>
      match cs !! Z.to_nat (r_index r) with
      | Some c => <[Z.to_nat (r_index r) := stop_call (set_c_id NO_CALL c)]> cs
      | None => cs
      end
  | _ => cs
  end.

(** Socket [j] is read by [reads j], or nobody waits on it. *)
Definition attended (reads : nat → option reader) (d : daemon_data) (j : nat) (x : daemon_socket) : Prop :=
  match reads j with
  | Some r => (∃ l, so_call_list x = CArr (r_index r) :: l) ∧ waits d (Z.of_nat j) r ∧ bare x = true
  | None => so_call_list x = []
  end.

(** The daemon with other sockets, calls, answers and number of questions. *)
Definition changed (ss : list daemon_socket) (cs : list daemon_call) (w : list wedge_msg) (e : nat)
    (d : daemon_data) : daemon_data :=
  set_ticks e (set_wedge w (set_calls cs (set_sockets ss d))).

Section Copies.
Context {Q : Type} `{BoundedFifo Q finsFrame} `{DaemonEnv}.
Abbreviation ST := (mstate Q daemon_data) (only parsing).
Context (Hw : ∀ t, wedge_ok t = true).

Lemma get_sock_ok i x (s : ST) : 0 ≤ i → sockets (md s) !! Z.to_nat i = Some x → get_sock i s = Ok (x, s).
Proof.
  intros Hi Hx. unfold get_sock. erewrite bind_ok; [|done]. rewrite (proj2 (Z.ltb_ge i 0) Hi), Hx. done.
Qed.
Lemma upd_sock_ok i f x (s : ST) :
  0 ≤ i → sockets (md s) !! Z.to_nat i = Some x → upd_sock i f s = Ok (tt, set_md (put_sock i (f x) (md s)) s).
Proof. intros Hi Hx. unfold upd_sock. by erewrite bind_ok; [|by apply get_sock_ok]. Qed.
Lemma upd_call_ok i f c (s : ST) :
  0 ≤ i → calls (md s) !! Z.to_nat i = Some c → upd_call i f s = Ok (tt, set_md (put_call i (f c) (md s)) s).
Proof.
  intros Hi Hc. assert (get_call i s = Ok (c, s)) as Eg.
  { unfold get_call. erewrite bind_ok; [|done]. by rewrite (proj2 (Z.ltb_ge i 0) Hi), Hc. }
  unfold upd_call. by erewrite bind_ok; [|exact Eg].
Qed.

Lemma read_stamp_ok i x m (s : ST) :
  0 ≤ i → sockets (md s) !! Z.to_nat i = Some x → stamp_ok m = true →
  ∃ t e, read_stamp i m s = Ok (tt, set_md (put_sock i (set_so_stamp t x) (set_ticks e (md s))) s).
Proof.
  intros Hi Hx Hm. unfold read_stamp, stamp_ok in *. assert (set_ticks (ticks (md s)) (md s) = md s) as Ed by by destruct (md s).
  destruct (metadata_readFromElement m "recv_stamp") as [[]|]; try done.
  1,2: eexists _, (ticks (md s)); rewrite Ed; by erewrite upd_sock_ok.
  eexists _, _. erewrite bind_ok; [|unfold ask; done]. by erewrite upd_sock_ok.
Qed.

Lemma control_ok i x f m cl g (s : ST) :
  0 ≤ i → sockets (md s) !! Z.to_nat i = Some x → bare x = true → recvmsg_control i f m cl g s = Ok ((f, []), s).
Proof.
  intros Hi Hx [[H1 H2]%andb_true_iff H3]%andb_true_iff. unfold recvmsg_control.
  destruct (DAEMON_CONTROL_LEN_MAX <? cl); [done|]. erewrite bind_ok; [|by apply get_sock_ok]. by rewrite H1, H2, H3.
Qed.

Lemma wedge_recvmsg_ok a b c f addr k data bytes (s : ST) :
  read_bytes data k = Ok bytes →
  send_wedge_recvmsg a b c f addr k data [] s = Ok (true, set_md (told (MkWedge a b c DAEMON_ACK f
    (le_bytes 4 sizeof_sockaddr_in ++ sockaddr_bytes addr ++ le_bytes 4 k ++ bytes ++ le_bytes 4 0)) (md s)) s).
Proof using Hw.
  intros Hb. unfold send_wedge_recvmsg. erewrite bind_ok; [|unfold lift; by rewrite Hb].
  change (Z.of_nat (length [])) with 0. rewrite app_nil_r.
  set (w := MkWedge _ _ _ _ _ _).
  assert (send_wedge w s = Ok (0, set_md (told w (md s)) s)) as Es.
  { unfold send_wedge. erewrite bind_ok; [|unfold ask; done]. by rewrite Hw. }
  by erewrite bind_ok; [|exact Es].
Qed.

Context (ff : finsFrame) (dir : Z) (b : list Z) (m : metadata) (Hff : frame_ok ff) (Hm : metaData ff = Some m) (Hst : stamp_ok m = true).
Context (Hb : body ff = Data (MkData dir (Z.of_nat (length b)) (Some b))) (Hlen : Z.of_nat (length b) < 4294967296).
Context (reads : nat → option reader).

(** The first waiting reader is served. *)
Lemma deliver_read j x r src (s : ST) :
  sockets (md s) !! j = Some x → reads j = Some r → attended reads (md s) j x → sin_family src = AF_INET →
  ∃ x' e, fated ff (Z.of_nat (length b)) (Reads r (raw_addr src)) x x' ∧
    deliver_icmp (Z.of_nat j) ff src s = Ok (raw_addr src,
      set_md (changed (<[j := x']> (sockets (md s))) (end_call (calls (md s)) (Reads r (raw_addr src)))
        (wedge (md s) ++ [raw_msg r (raw_addr src) b]) e (md s)) s).
Proof using All.
  intros Hx Hr Ha Hfam. unfold attended in Ha. rewrite Hr in Ha. destruct Ha as ([l Hc] & (Hi0 & Hb0 & Hfl & c & Hcc & Hic) & Hbare).
  assert (Z.to_nat (Z.of_nat j) = j) as Ej by lia. assert (0 ≤ Z.of_nat j) as Hj by lia.
  unfold deliver_icmp, find_reader. rewrite <- Ej in Hx.
  erewrite bind_ok.
  2: { erewrite bind_ok; [|done]. erewrite bind_ok; [|by apply get_sock_ok]. unfold lift. rewrite Hc. simpl. rewrite Hcc.
       unfold daemon_call_recvmsg_test. rewrite (ic_type _ _ _ Hic), (ic_flags _ _ _ Hic), Hfl. reflexivity. }
  erewrite bind_ok; [|unfold ff_data; by rewrite Hb]. cbv beta iota.
  erewrite bind_ok; [|by apply upd_sock_ok]. erewrite bind_ok; [|unfold ff_meta; by rewrite Hm]. simpl pduLength. simpl pdu.
  set (x1 := set_so_call_list (delete 0%nat (so_call_list x)) x). set (s1 := set_md (put_sock (Z.of_nat j) x1 (md s)) s).
  assert (sockets (md s1) !! Z.to_nat (Z.of_nat j) = Some x1) as Hx1 by (by apply (sock_put (Z.of_nat j) x)).
  unfold recvmsg_in_icmp. rewrite (ic_sock _ _ _ Hic).
  destruct (read_stamp_ok (Z.of_nat j) x1 m s1 Hj Hx1 Hst) as (t & e & Es). erewrite bind_ok; [|exact Es].
  set (x2 := set_so_stamp t x1). set (s2 := set_md _ s1). change (has 0 MSG_ERRQUEUE) with false. cbv iota zeta.
  erewrite bind_ok; [|done].
  assert (sockets (md s2) !! Z.to_nat (Z.of_nat j) = Some x2) as Hx2.
  { apply (sock_put (Z.of_nat j) x1). exact Hx1. }
  rewrite (ic_buf _ _ _ Hic). destruct (if r_buf r <? _ then _ else _) as [k f] eqn:Ek.
  rewrite Hfam. change (AF_INET =? AF_INET) with true. cbv iota.
  erewrite bind_ok; [|by apply (control_ok _ x2)]. simpl fst. simpl snd.
  assert (read_bytes (Some b) k = Ok (take (Z.to_nat k) b)) as Hrb.
  { apply read_bytes_some. destruct (Z.ltb_spec (r_buf r) (Z.of_nat (length b))); injection Ek as <- <-; lia. }
  erewrite bind_ok; [|by apply wedge_recvmsg_ok]. cbv iota. erewrite bind_ok; [|done].
  rewrite (ic_index _ _ _ Hic), (ic_type _ _ _ Hic), (ic_id _ _ _ Hic). unfold daemon_calls_remove.
  erewrite bind_ok; [|by apply (upd_call_ok _ _ c)].
  exists x2, (S e). split; [exists t; unfold x2, x1; by rewrite Hc|].
  unfold mret, M_ret. do 2 f_equal. unfold s2, s1. cbn [md set_md].
  assert (raw_msg r (raw_addr src) b = MkWedge RECVMSG_CALL (r_id r) (r_index r) DAEMON_ACK f
    (le_bytes 4 sizeof_sockaddr_in ++ sockaddr_bytes (raw_addr src) ++ le_bytes 4 k ++ take (Z.to_nat k) b ++ le_bytes 4 0)) as <-.
  { unfold raw_msg. destruct (r_buf r <? Z.of_nat (length b)); injection Ek as <- <-; reflexivity. }
  cbn [end_call]. rewrite Hcc. unfold changed, put_call, told, tick, put_sock. rewrite Ej. destruct (md s). cbn -[Z.to_nat].
  rewrite list_insert_insert_eq. reflexivity.
Qed.

(** Nobody waits. *)
Lemma deliver_store j x src (s : ST) :
  sockets (md s) !! j = Some x → so_call_list x = [] →
  deliver_icmp (Z.of_nat j) ff src s =
    if Z.of_nat (length (so_data_list x)) <? STORE_LIST_MAX
    then Ok (src, set_md (put_sock (Z.of_nat j) (set_so_data_buf (s32 (so_data_buf x + Z.of_nat (length b)))
           (set_so_data_list (so_data_list x ++ [MkStored src (clone_frame ff) 0]) x)) (md s)) s)
    else Ok (src, set_freed (freed s ++ [clone_frame ff]) s).
Proof using Hff Hb.
  intros Hx Hc. assert (0 ≤ Z.of_nat j) as Hj by lia. rewrite <- (Nat2Z.id j) in Hx. unfold deliver_icmp, find_reader.
  erewrite bind_ok.
  2: { erewrite bind_ok; [|done]. erewrite bind_ok; [|by apply get_sock_ok]. rewrite Hc. reflexivity. }
  erewrite bind_ok; [|unfold ff_data; by rewrite Hb]. cbv iota. simpl pduLength.
  erewrite bind_ok; [|by apply get_sock_ok]. rewrite Hc. cbn [poll_in_each]. erewrite bind_ok; [|done].
  erewrite bind_ok; [|unfold lift; by rewrite clone_ok].
  destruct (_ <? STORE_LIST_MAX); [by erewrite bind_ok; [|by apply upd_sock_ok]|].
  assert (daemon_store_free (MkStored src (clone_frame ff) 0) s = Ok (tt, set_freed (freed s ++ [clone_frame ff]) s)) as Ef.
  { unfold daemon_store_free, free_ff, lift, freeFinsFrame, mbind, M_bind. simpl. by rewrite Hb. }
  by erewrite bind_ok; [|exact Ef].
Qed.

(** A reader of another socket is not disturbed. *)
Lemma attended_later d ss w e r a j k x :
  waits d (Z.of_nat j) r → j ≠ k → attended reads d k x →
  attended reads (changed ss (end_call (calls d) (Reads r a)) w e d) k x.
Proof.
  intros (Hi & _ & _ & c & Hc & Hic) Hjk Ha. unfold attended in *. destruct (reads k) as [r'|]; [|done].
  destruct Ha as (Hl & (Hi' & Hb' & Hf' & c' & Hc' & Hic') & Hba). unfold waits. split_and!; try done. exists c'. split; [|done].
  cbn [end_call]. rewrite Hc. simpl. rewrite list_lookup_insert_ne; [done|]. intros E%Z2Nat.inj; [|done..].
  rewrite <- E, Hc in Hc'. injection Hc' as <-. pose proof (ic_sock _ _ _ Hic). pose proof (ic_sock _ _ _ Hic'). lia.
Qed.

Lemma deliver_each_ok type src_ip dst_ip l2 : ∀ l1 src (s : ST),
  sockets (md s) = l1 ++ l2 → sin_family src = AF_INET →
  (∀ j x, l2 !! j = Some x → fits type src_ip dst_ip x = true → attended reads (md s) (length l1 + j) x) →
  let F := fates reads type src_ip dst_ip src (length l1) l2 in
  ∃ l2' e, deliver_each (length l2) (Z.of_nat (length l1)) ff type src_ip dst_ip src s
      = Ok (tt, set_freed (freed s ++ omap (dropped_of ff) F)
          (set_md (changed (l1 ++ l2') (foldl end_call (calls (md s)) F) (wedge (md s) ++ omap (told_of b) F) e (md s)) s)) ∧
    Forall2 (λ fx, fated ff (Z.of_nat (length b)) fx.1 fx.2) (zip F l2) l2'.
Proof using All.
  induction l2 as [|x l2 IH]; intros l1 src s Hl Hfam Hat F.
  { exists [], (ticks (md s)). split; [|constructor]. simpl. rewrite !app_nil_r. unfold mret, M_ret. do 2 f_equal.
    rewrite <- (app_nil_r l1), <- Hl. by destruct s as [? ? [] ? ? ?]. }
  assert (sockets (md s) !! length l1 = Some x) as Hx by (rewrite Hl, lookup_app_r, Nat.sub_diag by lia; done).
  assert (Z.of_nat (length l1) + 1 = Z.of_nat (length (l1 ++ [x]))) as El by (rewrite length_app; simpl; lia).
  unfold F. cbn [length deliver_each fates]. erewrite bind_ok; [|apply get_sock_ok; [lia|by rewrite Nat2Z.id]].
  change (icmp_match dst_ip src_ip x && negb (filtered type x)) with (fits type src_ip dst_ip x).
  (* the rest of the table, from the state after socket [x] *)
  assert (∀ x' src' (s1 : ST) f, sockets (md s1) = l1 ++ x' :: l2 → sin_family src' = AF_INET →
    fated ff (Z.of_nat (length b)) f x x' →
    md s1 = changed (l1 ++ x' :: l2) (end_call (calls (md s)) f) (wedge (md s) ++ option_list (told_of b f)) (ticks (md s1)) (md s) →
    set_freed (freed s) (set_md (md s) s1) = s → freed s1 = freed s ++ option_list (dropped_of ff f) →
    (∀ j y, l2 !! j = Some y → fits type src_ip dst_ip y = true → attended reads (md s1) (S (length l1 + j)) y) →
    let F := f :: fates reads type src_ip dst_ip src' (S (length l1)) l2 in
    ∃ l2' e, deliver_each (length l2) (Z.of_nat (length l1) + 1) ff type src_ip dst_ip src' s1
      = Ok (tt, set_freed (freed s ++ omap (dropped_of ff) F)
          (set_md (changed (l1 ++ l2') (foldl end_call (calls (md s)) F) (wedge (md s) ++ omap (told_of b) F) e (md s)) s)) ∧
      Forall2 (λ fx, fated ff (Z.of_nat (length b)) fx.1 fx.2) (zip F (x :: l2)) l2') as Hnext.
  { intros x' src' s1 f Hs1 Hf' Hx' Hmd Heq Hfr Hat'.
    destruct (IH (l1 ++ [x']) src' s1) as (l2' & e & E & HF).
    { by rewrite <- app_assoc. } { done. }
    { intros j y Hy Hfy. rewrite length_app. simpl. replace (length l1 + 1 + j)%nat with (S (length l1 + j)) by lia. by apply Hat'. }
    exists (x' :: l2'), e. rewrite El. replace (length (l1 ++ [x])) with (length (l1 ++ [x'])) by (by rewrite !length_app).
    rewrite E. replace (length (l1 ++ [x'])) with (S (length l1)) in * by (rewrite length_app; simpl; lia).
    split; [|by constructor]. do 2 f_equal. rewrite Hfr, Hmd, <- Heq. cbn [omap list_omap foldl].
    destruct (dropped_of ff f), (told_of b f); simpl; rewrite <- ?app_assoc, ?app_nil_r; reflexivity. }
  destruct (fits type src_ip dst_ip x) eqn:Hfit.
  2: { erewrite bind_ok; [|done]. apply (Hnext x src s Untouched); try done.
       - simpl. rewrite app_nil_r, <- Hl. by destruct (md s).
       - by destruct s.
       - simpl. by rewrite app_nil_r.
       - intros j y Hy. rewrite <- Nat.add_succ_r. by apply Hat. }
  pose proof (Hat 0%nat x eq_refl Hfit) as Hax. rewrite Nat.add_0_r in Hax.
  destruct (reads (length l1)) as [r|] eqn:Er.
  - destruct (deliver_read (length l1) x r src s Hx Er Hax Hfam) as (x' & e & Hfa & Ed). erewrite bind_ok; [|exact Ed].
    assert (<[length l1 := x']> (sockets (md s)) = l1 ++ x' :: l2) as Ei by (rewrite Hl, insert_app_r_alt, Nat.sub_diag by lia; done).
    rewrite Ei. apply (Hnext x' (raw_addr src) _ (Reads r (raw_addr src))); try done.
    + by destruct s.
    + simpl. by rewrite app_nil_r.
    + intros j y Hy Hfy. apply attended_later with (j := length l1);
        [unfold attended in Hax; rewrite Er in Hax; apply Hax|lia|rewrite <- Nat.add_succ_r; by apply Hat].
  - assert (so_call_list x = []) as Hc by (unfold attended in Hax; by rewrite Er in Hax).
    pose proof (deliver_store (length l1) x src s Hx Hc) as Ed.
    destruct (Z.of_nat (length (so_data_list x)) <? STORE_LIST_MAX); erewrite bind_ok; [|exact Ed| |exact Ed].
    + set (x' := set_so_data_buf _ _).
      assert (<[length l1 := x']> (sockets (md s)) = l1 ++ x' :: l2) as Ei by (rewrite Hl, insert_app_r_alt, Nat.sub_diag by lia; done).
      unfold put_sock. rewrite Nat2Z.id, Ei.
      apply (Hnext x' src _ (Stores src)); try done.
      * simpl. rewrite app_nil_r. by destruct (md s).
      * by destruct s.
      * simpl. by rewrite app_nil_r.
      * intros j y Hy. rewrite <- Nat.add_succ_r. by apply Hat.
    + apply (Hnext x src _ Drops); try done.
      * simpl. rewrite app_nil_r, <- Hl. by destruct (md s).
      * by destruct s.
      * intros j y Hy. rewrite <- Nat.add_succ_r. by apply Hat.
Qed.

End Copies.


(** ** A concrete daemon *)

(** Two raw sockets, an echo reply from 10.0.0.1, and readers on both. *)
Definition demo_raw_socket (id : Z) : daemon_socket :=
  set_so_family AF_INET (new_socket id SOCK_RAW IPPROTO_ICMP IPPROTO_ICMP free_socket).
Definition demo_raw_data : daemon_data :=
  put_sock 1 (demo_raw_socket 72) (put_sock 0 (demo_raw_socket 71) demo_daemon_data).
Definition demo_echo_meta : metadata := [("recv_icmp_type", SInt 0); ("recv_icmp_code", SInt 0)].
Definition demo_echo : finsFrame := MkFrame 1 (Some demo_echo_meta) (Data (MkData DIR_UP 2 (Some [7; 8]))).

(** A reader waits on the first of them. *)
Definition demo_raw_reader : reader := MkReader 31 4 100 0 0.
Definition demo_raw_reads (j : nat) : option reader := match j with O => Some demo_raw_reader | _ => None end.
Definition demo_raw_waiting : mstate (QueueRecord finsFrame) daemon_data :=
  match recvmsg_out_icmp (H0 := demo_daemon_env) (MkHdr 71 0 RECVMSG_CALL 9 31 4) 100 0 0 (set_md demo_raw_data demo_bound) with
  | Ok (_, s) => s
  | _ => demo_bound
  end.


(** Both sockets have a reader: the first is told 10.0.0.1, the second
    1.0.0.10, the same bytes in host order. *)
Lemma icmp_second_socket_address :
  match (recvmsg_out_icmp (H0 := demo_daemon_env) (MkHdr 71 0 RECVMSG_CALL 9 31 4) 100 0 0 ;;
         recvmsg_out_icmp (H0 := demo_daemon_env) (MkHdr 72 1 RECVMSG_CALL 9 32 5) 100 0 0 ;;
         daemon_in_fdf_icmp (H0 := demo_daemon_env) demo_echo AF_INET (MkAddr AF_INET 0 167772161) (MkAddr AF_INET 0 3232235777))
        (set_md demo_raw_data demo_bound) with
  | Ok (_, s) => map (λ w, (w_id w, take 4 (drop 8 (w_payload w)))) (wedge (md s)) = [(31, [10; 0; 0; 1]); (32, [1; 0; 0; 10])]
  | _ => False
  end.
Proof. vm_compute. reflexivity. Qed.
