(* ===== verification/DaemonProtos.v ===== *)
(** * The daemon with its three protocols

    [daemon_init] registers ICMP, UDP and TCP.  The functions of ICMP and TCP
    keep the addresses of the UDP sockets apart too, because the daemon calls
    them for sockets of their own protocol; so the invariant of [DaemonPorts]
    holds of the daemon as it runs. *)

From stdpp Require Import base list gmap strings.
From Stdlib Require Import ZArith Lia.
From S2P Require Import Prelude Queue Metadata Frame Module IPv4 Double Run Daemon DaemonUdp DaemonOut DaemonTcp DaemonTcpIn DaemonFacts DaemonPorts DaemonIcmp.
Open Scope Z_scope.
Open Scope fins_scope.

(** [icmp_proto_register], [udp_proto_register] and [tcp_proto_register]. *)
Definition daemon_protos {Q} `{BoundedFifo Q finsFrame} `{DaemonEnv} `{DaemonTcpEnv} (n : Z) : option (proto_ops Q) :=
  if n =? IPPROTO_ICMP then Some icmp_ops
  else if n =? IPPROTO_UDP then Some udp_ops
  else if n =? IPPROTO_TCP then Some tcp_ops
  else None.

Section Protos.
Context {Q : Type} `{BoundedFifo Q finsFrame} `{DaemonEnv} `{DaemonTcpEnv}.
Abbreviation ST := (mstate Q daemon_data) (only parsing).
Abbreviation kc := (keepsd (Q := Q) (sview core)) (only parsing).

#[local] Hint Resolve kd_upd_ref kd_stamp kd_calls_insert kd_drop_ref kd_recv_reply kd_recv_wait
  kd_poll_in kd_poll_each kd_recv_in kd_listen kd_getname kd_ioctl kd_poll kd_getsockopt kd_timeout : daemon.

(** ** Handlers for a socket of another protocol than UDP *)

(** [m], called for socket [i] of protocol [n], keeps the invariant and the
    protocol of the socket. *)
Definition pat {A} (n i : Z) (m : M ST A) : Prop :=
  ∀ s a s', ports_ok (sview core (md s)) → proto_at n i s → m s = Ok (a, s') →
    ports_ok (sview core (md s')) ∧ proto_at n i s'.

Lemma proto_at_view n i (s s' : ST) : sview core (md s') = sview core (md s) → proto_at n i s → proto_at n i s'.
Proof.
  intros E (x & Hx & Hn). apply core_lookup in Hx. rewrite <- E in Hx. unfold sview in Hx.
  rewrite list_lookup_fmap in Hx. destruct (sockets (md s') !! _) as [y|] eqn:Ey; [|done].
  exists y. split; [done|]. injection Hx as _ Hp _ _ _ _. congruence.
Qed.

Section Walk.
Context (n i : Z).

Lemma pat_inv {A} (m : M ST A) : pat n i m → pinv_at n i m.
Proof. intros Hm s a s' Hs Hn E. by destruct (Hm s a s' Hs Hn E). Qed.
Lemma pat_keep {A} (m : M ST A) : kc m → pat n i m.
Proof.
  intros Hm s a s' Hs Hn E. apply Hm in E. split; [by rewrite E|]. by eapply proto_at_view.
Qed.
Lemma pat_bind {A B} (m : M ST A) (k : A → M ST B) : pat n i m → (∀ a, pat n i (k a)) → pat n i (m ≫= k).
Proof.
  intros Hm Hk s b s' Hs Hn (a & s1 & E1 & E2)%ok_bind. destruct (Hm _ _ _ Hs Hn E1) as [Hs1 Hn1]. by eapply Hk.
Qed.
Lemma pat_upd f :
  n ≠ IPPROTO_UDP → (∀ x, so_protocol (f x) = so_protocol x) → (∀ x, so_ops (f x) = so_ops x) →
  pat n i (upd_sock i f).
Proof.
  intros Hu Hp Ho s a s' Hs (x & Hx & Hn) E. pose proof (po_same _ Hs _ _ (core_lookup _ _ _ Hx)) as Hc.
  apply upd_sock_core in E as Ec. apply upd_sock_inv in E as (y & _ & Hy & ->). destruct Ec as (z & Hz & ->).
  rewrite Hx in Hy, Hz. injection Hy as <-. injection Hz as <-. split.
  - apply ports_dead; [done| |].
    + unfold core_same. simpl. by rewrite Hp, Ho.
    + simpl. rewrite Hp, Hn, (proj2 (Z.eqb_neq _ _) Hu). apply andb_false_r.
  - exists (f x). simpl. rewrite list_lookup_insert_eq by (by eapply lookup_lt_Some). by rewrite Hp.
Qed.
Lemma pat_remove : n ≠ IPPROTO_UDP → pat n i (daemon_sockets_remove i).
Proof.
  intros Hu. unfold daemon_sockets_remove. apply pat_bind; [by apply pat_upd|]. intros _. apply pat_keep. kd.
Qed.
End Walk.

Ltac pa :=
  repeat match goal with
  | |- pat _ _ (mbind _ _) => apply pat_bind; [|intros ?]
  | |- pat _ _ (match ?x with _ => _ end) => destruct x
  | |- pat _ _ (let _ := _ in _) => cbv zeta
  | H : pat _ _ ?m |- pat _ _ ?m => exact H
  | |- pat _ _ (daemon_sockets_remove _) => by apply pat_remove
  | |- pat ?n ?i (upd_sock ?i _) => by apply pat_upd
  | |- pat _ _ _ => solve [apply pat_keep; kd]
  end.

(** ** ICMP *)

Lemma kd_recv_in_icmp c m n b a f : kc (recvmsg_in_icmp c m n b a f).
Proof. unfold recvmsg_in_icmp. kd. Qed.
Lemma kd_reply_icmp h st n b x y z : kc (recvmsg_reply_icmp h st n b x y z).
Proof. unfold recvmsg_reply_icmp. kd. Qed.
Hint Resolve kd_recv_in_icmp kd_reply_icmp : daemon.
Lemma kd_deliver i ff a : kc (deliver_icmp i ff a).
Proof. unfold deliver_icmp. kd. Qed.
Lemma kd_deliver_error i ff a b : kc (deliver_error i ff a b).
Proof. unfold deliver_error. kd. Qed.
Hint Resolve kd_deliver kd_deliver_error : daemon.
Lemma kd_deliver_each n i ff t a b src : kc (deliver_each n i ff t a b src).
Proof. revert i src. induction n; intros i src; cbn [deliver_each]; kd. Qed.
Lemma kd_error_each n i ff a b src dst : kc (error_each n i ff a b src dst).
Proof. revert i dst. induction n; intros i dst; cbn [error_each]; kd. Qed.
Hint Resolve kd_deliver_each kd_error_each : daemon.
Lemma kd_send_raw h n b x y : kc (send_raw h n b x y).
Proof. unfold send_raw. kd. Qed.
Hint Resolve kd_send_raw : daemon.

#[export] Instance icmp_keeps_ports : KeepsPorts IPPROTO_ICMP icmp_ops.
Proof.
  split; simpl; try (by intros ? ? [=]); try (intros ? [= <-]; intros; try apply pat_inv).
  - intros h d. apply pinv_bind; [apply pinv_insert|]. intros b. apply pinv_keep. kd.
  - apply pinv_keep. unfold daemon_in_fdf_icmp. kd.
  - apply pinv_keep. unfold daemon_in_error_icmp. kd.
  - unfold bind_out_icmp. pa.
  - unfold listen_out_icmp. pa.
  - unfold connect_out_icmp. pa.
  - unfold accept_out_icmp. pa.
  - unfold getname_out_icmp. pa.
  - unfold ioctl_out_icmp. pa.
  - unfold sendmsg_out_icmp. pa.
  - unfold recvmsg_out_icmp. pa.
  - unfold getsockopt_out_icmp. pa.
  - by apply pat_keep, kd_setsockopt, udp_option_reuse.
  - unfold release_out_icmp. pa.
  - unfold poll_out_icmp. pa.
  - unfold shutdown_out_icmp. pa.
  - intros t. destruct (t =? RECVMSG_CALL); [|done]. intros f [= <-] c. apply pat_inv. unfold recvmsg_timeout_icmp. pa.
Qed.

(** ** TCP *)

Lemma kd_fcf flow m a b c : kc (daemon_fcf_to_switch flow m a b c).
Proof. unfold daemon_fcf_to_switch. kd. Qed.
Lemma kd_serial : kc next_serial.
Proof. unfold next_serial. kd. Qed.
Lemma kd_host_or_main ip : kc (host_or_main ip).
Proof. unfold host_or_main. kd. Qed.
Hint Resolve kd_fcf kd_serial kd_host_or_main : daemon.
Lemma kd_host_metas x m : kc (host_metas x m).
Proof. unfold host_metas. kd. Qed.
Lemma kd_rem_metas x m : kc (rem_metas x m).
Proof. unfold rem_metas. kd. Qed.
Hint Resolve kd_host_metas kd_rem_metas : daemon.
Lemma kd_start_block h : kc (start_block h).
Proof. unfold start_block. kd. Qed.
Hint Resolve kd_start_block : daemon.
Lemma pat_wait_call n i h f k : pat n i k → pat n i (wait_call h f k).
Proof. intros Hk. unfold wait_call. pa. Qed.
Lemma pat_wait_sent n i h a b f k : pat n i k → pat n i (wait_sent h a b f k).
Proof. intros Hk. unfold wait_sent. case_match; [by apply pat_wait_call|pa]. Qed.
Lemma kd_draw_tcp n ip : kc (draw_port_tcp n ip).
Proof. induction n; cbn [draw_port_tcp]; kd. Qed.
Lemma kd_option_metas x : kc (option_metas x).
Proof. unfold option_metas. kd. Qed.
Lemma kd_eof a b c d : kc (send_wedge_eof a b c d).
Proof. unfold send_wedge_eof. kd. Qed.
Lemma kd_host_window m : kc (send_host_window m).
Proof. unfold send_host_window. kd. Qed.
Hint Resolve kd_draw_tcp kd_option_metas kd_eof kd_host_window : daemon.
Lemma kd_recv_store h st d x y z : kc (recvmsg_store h st d x y z).
Proof. unfold recvmsg_store. kd. Qed.
Lemma kd_poll_send h a b c : kc (poll_send_tcp h a b c).
Proof. unfold poll_send_tcp. kd. Qed.
Hint Resolve kd_recv_store kd_poll_send : daemon.
Lemma kd_ack_call c m : kc (ack_call c m).
Proof. unfold ack_call. kd. Qed.
Lemma kd_recv_tcp c m n b a f : kc (recvmsg_in_tcp_fdf c m n b a f).
Proof. unfold recvmsg_in_tcp_fdf. kd. Qed.
Hint Resolve kd_ack_call kd_recv_tcp : daemon.
Lemma kd_feed k i ff m n b p a : kc (feed_readers k i ff m n b p a).
Proof. revert p a. induction k; intros p a; cbn [feed_readers]; kd. Qed.
Lemma kd_stamp_frame ff : kc (stamp_frame ff).
Proof. unfold stamp_frame. kd. Qed.
Lemma kd_end_readers k i f : kc (end_readers k i f).
Proof. induction k; cbn [end_readers]; kd. Qed.
Hint Resolve kd_feed kd_stamp_frame kd_end_readers : daemon.
Lemma kd_alert_socket ff k : (∀ i, kc (k i)) → kc (alert_socket ff k).
Proof. intros Hk. unfold alert_socket. kd. Qed.
Lemma kd_expire_call c : kc (expire_call c).
Proof. unfold expire_call. kd; by apply kd_dmod. Qed.
Hint Resolve kd_expire_call : daemon.

Section TcpWalk.
Context (n i : Z) (Hn : n ≠ IPPROTO_UDP).

Lemma pat_poll_ask h a b c d : pat n i (poll_ask h a b c d).
Proof. unfold poll_ask. do 2 (apply pat_bind; [pa|intros ?]). apply pat_wait_sent. pa. Qed.
Lemma pat_expect l ff c k : (∀ ctrl, pat n i (k ctrl)) → pat n i (expect_param l ff c k).
Proof. intros Hk. unfold expect_param. pa. apply Hk. Qed.
Lemma pat_expired l ff k : (∀ ctrl, pat n i (k ctrl)) → pat n i (expect_expired l ff k).
Proof. intros Hk. unfold expect_expired. pa. apply Hk. Qed.
Lemma pat_outcome l ff c k : pat n i k → pat n i (outcome_in l ff c k).
Proof. intros Hk. unfold outcome_in. apply pat_expect. intros ctrl. pa. Qed.
Lemma pat_set_option o v : pat n i (set_option i o v).
Proof using Hn. unfold set_option. pa. Qed.
End TcpWalk.

(** Writing to any socket, which has protocol [n] afterwards. *)
Lemma proto_at_upd n i j f (s s' : ST) a :
  upd_sock j f s = Ok (a, s') → (∀ x, sockets (md s) !! Z.to_nat j = Some x → so_protocol (f x) = n) →
  proto_at n j s' ∧ (proto_at n i s → proto_at n i s').
Proof.
  intros (y & _ & Hy & ->)%upd_sock_inv Hf. unfold proto_at. simpl. split.
  - exists (f y). rewrite list_lookup_insert_eq by (by eapply lookup_lt_Some). auto.
  - intros (x & Hx & Hn). destruct (decide (Z.to_nat j = Z.to_nat i)) as [Eij|Hij].
    + exists (f y). rewrite <- Eij, list_lookup_insert_eq by (by eapply lookup_lt_Some). auto.
    + exists x. by rewrite list_lookup_insert_ne.
Qed.

(** The socket of an accepted connection has the protocol of the one that
    listens. *)
Lemma pat_accept c ip port : pat IPPROTO_TCP (c_sock_index c) (accept_socket c ip port).
Proof.
  intros s r s' Hs Hn (l & s1 & (-> & _ & Hl)%get_sock_inv & E)%ok_bind.
  assert (so_protocol l = IPPROTO_TCP) as El by (destruct Hn as (x & Hx & <-); congruence).
  rewrite El in E. apply ok_bind in E as (ok & s1 & E1 & E2).
  assert (ports_ok (sview core (md s1))) as Hs1 by (by eapply pinv_insert).
  apply ok_bind in E1 as (x & s2 & (-> & _ & Hx)%get_sock_inv & E1).
  destruct (so_sock_id x =? NO_SOCK); [|by injection E1 as <- <-; injection E2 as _ <-].
  apply ok_bind in E1 as (u & s3 & E1 & E3). injection E3 as <- <-.
  destruct (proto_at_upd IPPROTO_TCP (c_sock_index c) _ _ _ _ _ E1) as [Hj Hi]; [done|]. apply Hi in Hn. clear Hi.
  apply ok_bind in E2 as (v & s4 & E2 & E4). injection E4 as _ <-.
  split; [eapply (pat_upd IPPROTO_TCP (c_sock_index_new c)); [| | | | |exact E2]; done|]. eapply proto_at_upd; [exact E2| |exact Hn].
  intros y Hy. simpl. destruct Hj as (z & Hz & <-). congruence.
Qed.

Ltac pt :=
  repeat (pa; match goal with
  | |- pat _ _ (wait_call _ _ _) => apply pat_wait_call
  | |- pat _ _ (wait_sent _ _ _ _ _) => apply pat_wait_sent
  | |- pat _ _ (poll_ask _ _ _ _ _) => apply pat_poll_ask
  | |- pat _ _ (set_option _ _ _) => by apply pat_set_option
  | |- pat _ _ (accept_socket _ _ _) => apply pat_accept
  | |- pat _ _ (expect_param _ _ _ _) => apply pat_expect; intros ?
  | |- pat _ _ (expect_expired _ _ _) => apply pat_expired; intros ?
  | |- pat _ _ (outcome_in _ _ _ _) => apply pat_outcome
  end).

#[export] Instance tcp_keeps_ports : KeepsPorts IPPROTO_TCP tcp_ops.
Proof.
  split; simpl; try (intros ? [= <-]; intros; try apply pat_inv).
  - intros h d. apply pinv_bind; [apply pinv_insert|]. intros b. apply pinv_keep. kd.
  - apply pinv_keep. unfold daemon_in_fdf_tcp. kd.
  - apply pinv_keep. unfold daemon_in_error_tcp. kd.
  - apply pinv_keep, kd_alert_socket. intros i. kd.
  - apply pinv_keep, kd_alert_socket. intros i. kd.
  - unfold bind_out_tcp. pt.
  - unfold listen_out_tcp. pt.
  - unfold connect_out_tcp, wait_connecting, connect_start, connect_bind. pt.
  - unfold accept_out_tcp, wait_connecting. pt.
  - unfold getname_out_tcp. pt.
  - unfold ioctl_out_tcp. pt.
  - unfold sendmsg_out_tcp. pt.
  - unfold recvmsg_out_tcp. pt.
  - unfold getsockopt_out_tcp. pt.
  - unfold setsockopt_out_tcp. pt.
  - unfold release_out_tcp, release_now. pt.
  - unfold poll_out_tcp, poll_initial_tcp, poll_final_tcp. pt.
  - unfold shutdown_out_tcp. pt.
  - intros t f. unfold tcp_in_ops. repeat case_match; try done; intros [= <-] ff c; apply pat_inv.
    + unfold connect_in_tcp, connect_failed. pt.
    + unfold accept_in_tcp, accept_failed. pt.
    + unfold sendmsg_in_tcp. pt.
    + unfold getsockopt_in_tcp. pt.
    + unfold setsockopt_in_tcp. pt.
    + unfold release_in_tcp. pt.
    + unfold poll_in_tcp_fcf. pt.
  - intros t f. unfold tcp_timeout_ops. repeat case_match; try done; intros [= <-] c; apply pat_inv.
    + unfold connect_timeout_tcp, report_error. pt.
    + unfold accept_timeout_tcp, report_error. pt.
    + unfold recvmsg_timeout_tcp. pt.
  - intros t f. unfold tcp_expired_ops. repeat case_match; try done; intros [= <-] ff c; apply pat_inv.
    + unfold connect_expired_tcp, connect_failed. pt.
    + unfold accept_expired_tcp, accept_failed. pt.
Qed.

Lemma daemon_protos_keep n (p : proto_ops Q) : daemon_protos n = Some p → KeepsPorts n p.
Proof.
  unfold daemon_protos. destruct (Z.eqb_spec n IPPROTO_ICMP) as [->|_]; [intros [= <-]; apply _|].
  destruct (Z.eqb_spec n IPPROTO_UDP) as [->|_]; [intros [= <-]; apply _|].
  destruct (Z.eqb_spec n IPPROTO_TCP) as [->|_]; [intros [= <-]; apply _|done].
Qed.

End Protos.

(** ** The ports of a daemon *)

(** The table as [daemon_init] leaves it: allocated with zeros, and every entry
    free. *)
Definition no_sockets (d : daemon_data) : Prop :=
  Forall (λ x, so_sock_id x = NO_SOCK ∧ so_protocol x = 0 ∧ so_ops x = 0) (sockets d).

Lemma no_sockets_ok d : no_sockets d → ports_ok (sview core d).
Proof.
  intros Hn. assert (∀ i c, sview core d !! i = Some c → core_udp c = false ∧ core_same c) as Hd.
  { intros i c. unfold sview. rewrite list_lookup_fmap. destruct (sockets d !! i) as [x|] eqn:Ex; simpl; [|done].
    intros [= <-]. eapply Forall_lookup_1 in Hn as (H1 & H2 & H3); [|exact Ex]. simpl. by rewrite H1, H2, H3. }
  split.
  - intros i c Hc. by destruct (Hd _ _ Hc).
  - intros i c Hc. by rewrite (proj1 (Hd _ _ Hc)).
  - intros i c Hc. by rewrite (proj1 (Hd _ _ Hc)).
  - intros i j a b Ha _ _ Ia%inet_udp. by rewrite (proj1 (Hd _ _ Ha)) in Ia.
Qed.

(** C21: The daemon runs ICMP, UDP and TCP sockets.  After any sequence of socket
    calls, arriving frames and expiring timers, from a table without sockets, no
    two UDP sockets hold the same address and port, provided no call asks for
    address reuse. *)
Theorem daemon_ports_unique {Q} `{BoundedFifo Q finsFrame} `{DaemonEnv} `{DaemonTcpEnv}
    junk_addr es (s s' : mstate Q daemon_data) i j x y :
  Forall plain_event es →
  no_sockets (md s) →
  run_events daemon_protos junk_addr es s = Ok (tt, s') →
  sockets (md s') !! i = Some x → sockets (md s') !! j = Some y → i ≠ j →
  udp_inet x = true → udp_inet y = true →
  (addr4_get_ip (so_host_addr x), addr4_get_port (so_host_addr x))
  ≠ (addr4_get_ip (so_host_addr y), addr4_get_port (so_host_addr y)).
Proof.
  intros He Hn E Hx Hy Hij Ix Iy.
  pose proof (pinv_events daemon_protos junk_addr es daemon_protos_keep He s tt s' (no_sockets_ok _ Hn) E) as Hok.
  exact (po_unique _ Hok i j (core x) (core y) (core_lookup _ _ _ Hx) (core_lookup _ _ _ Hy) Hij Ix Iy).
Qed.

(** The calls of the wedge, packed. *)
Definition socket_msg (domain type protocol : Z) : list Z :=
  le_bytes 4 domain ++ le_bytes 4 type ++ le_bytes 4 protocol.
Definition bind_msg (a : sockaddr) (reuse : Z) : list Z :=
  le_bytes 4 16 ++ sockaddr_bytes a ++ le_bytes 4 reuse.

(** Two UDP sockets are created and bound to the same port; the second, which is
    refused, then asks for any port.  A TCP socket takes the same port, and a
    raw socket the same address. *)
Definition demo_binds : list daemon_event :=
  let a := MkAddr AF_INET (htons 5000) (htonl 3232235777) in
  [EWedge (MkHdr 70 0 SOCKET_CALL 9 1 0) (socket_msg AF_INET SOCK_DGRAM 0);
   EWedge (MkHdr 70 0 BIND_CALL 9 2 0) (bind_msg a 0);
   EWedge (MkHdr 71 1 SOCKET_CALL 9 3 0) (socket_msg AF_INET SOCK_DGRAM 0);
   EWedge (MkHdr 71 1 BIND_CALL 9 4 0) (bind_msg a 0);
   EWedge (MkHdr 71 1 BIND_CALL 9 5 0) (bind_msg (MkAddr AF_INET 0 0) 0);
   EWedge (MkHdr 72 2 SOCKET_CALL 9 6 0) (socket_msg AF_INET SOCK_STREAM 0);
   EWedge (MkHdr 72 2 BIND_CALL 9 7 0) (bind_msg a 0);
   EWedge (MkHdr 73 3 SOCKET_CALL 9 8 0) (socket_msg AF_INET SOCK_RAW IPPROTO_ICMP);
   EWedge (MkHdr 73 3 BIND_CALL 9 9 0) (bind_msg a 0)].

Definition demo_tcp_side : DaemonTcpEnv :=
  {| serial_of n := Z.of_nat n; behind_host_port := 0; behind_rem_port := 0; junk_sockaddr := replicate 16 0 |}.
Definition demo_binds_run :=
  run_events (H0 := demo_daemon_env) (daemon_protos (H0 := demo_daemon_env) (H1 := demo_tcp_side)) [] demo_binds demo_daemon.

Lemma demo_binds_plain : Forall plain_event demo_binds.
Proof.
  assert (∀ h b, h_call_type h ≠ BIND_CALL → h_call_type h ≠ SETSOCKOPT_CALL → plain_event (EWedge h b)) as Hn.
  { by intros h b H1 H2. }
  assert (∀ h a, h_call_type h = BIND_CALL → plain_event (EWedge h (bind_msg a 0))) as Hb.
  { intros h a Hh. split; [|by rewrite Hh]. intros _ n r E1 E2. injection E1 as <-. by injection E2 as <-. }
  repeat (constructor; [first [by apply Hn|by apply Hb]|]). constructor.
Qed.

Definition demo_binds_after : mstate (QueueRecord finsFrame) daemon_data :=
  Eval vm_compute in match demo_binds_run with Ok (_, s) => s | _ => demo_daemon end.

(** Witness of C21: the second socket is refused the port of the first, and gets
    another one; the sockets of the other protocols get the address. *)
Lemma daemon_ports_unique_witness :
  map w_msg (wedge (md demo_binds_after)) = [0; 0; 0; EADDRINUSE; 0; 0; 0; 0; 0] ∧
  map so_protocol (take 4 (sockets (md demo_binds_after))) = [IPPROTO_UDP; IPPROTO_UDP; IPPROTO_TCP; IPPROTO_ICMP] ∧
  ∃ x y, sockets (md demo_binds_after) !! 0%nat = Some x ∧ sockets (md demo_binds_after) !! 1%nat = Some y ∧
    udp_inet x = true ∧ udp_inet y = true ∧
    (addr4_get_ip (so_host_addr x), addr4_get_port (so_host_addr x))
    ≠ (addr4_get_ip (so_host_addr y), addr4_get_port (so_host_addr y)).
Proof.
  split; [reflexivity|]. split; [reflexivity|]. do 2 eexists. do 2 (split; [reflexivity|]). do 2 (split; [vm_compute; reflexivity|]).
  apply (daemon_ports_unique (H0 := demo_daemon_env) (H1 := demo_tcp_side) [] demo_binds demo_daemon demo_binds_after 0 1).
  - apply demo_binds_plain.
  - by apply Forall_replicate.
  - vm_compute. reflexivity.
  - reflexivity.
  - reflexivity.
  - done.
  - vm_compute. reflexivity.
  - vm_compute. reflexivity.
Defined.
