(* ===== verification/Wedge.v ===== *)
(** * The kernel module between the applications and the daemon

    [execs/wedge/fins_stack_wedge.c]: a socket call of an application becomes a
    message to the daemon over netlink; the calling thread sleeps on a semaphore
    of its entry of [wedge_calls] until [nl_data_ready] stores the reply there.
    A call is therefore two operations here: the part up to the wait
    ([fins_bind], ...), which returns a value or leaves the thread waiting, and
    the part behind it ([fins_bind_woken], ...).  Structures have the layout of
    a 64-bit machine. *)

From stdpp Require Import base list gmap strings.
From Stdlib Require Import ZArith Lia.
From S2P Require Import Prelude Queue Metadata Frame Module IPv4 Daemon DaemonUdp DaemonOut.
Open Scope Z_scope.
Open Scope fins_scope.

Definition MAX_SOCKETS := 100.
Definition MAX_CALLS := 100.
Definition RECV_BUFFER_SIZE := 4096.
Definition CONTROL_LEN_MAX := 10240.
Definition AF_FINS := 2.
Definition DAEMON_START_CALL := 19.
Definition DAEMON_STOP_CALL := 20.
Definition NLMSG_DONE := 3.
Definition ACK := 200.
Definition NACK := 6666.
Definition EINTR := 4.
Definition ENOMEM := 12.
Definition TIOCOUTQ := 21521.
Definition SIOCADDRT := 35083.
Definition SIOCDELRT := 35084.
Definition SIOCSIFFLAGS := 35092.
Definition SIOCSIFADDR := 35094.
Definition SIOCSIFDSTADDR := 35096.
Definition SIOCSIFBRDADDR := 35098.
Definition SIOCSIFNETMASK := 35100.

(** ** State *)

Record fins_wedge_call := MkWCall {
  wc_call_id : Z; wc_call_type : Z; wc_sock_id : Z; wc_sock_index : Z;
  wc_wait_sem : nat; wc_reply : bool; wc_ret : Z; wc_msg : Z; wc_buf : option (list Z); wc_len : Z
}.
Definition set_wc_call_id (v : Z) (c : fins_wedge_call) : fins_wedge_call :=
  MkWCall v (wc_call_type c) (wc_sock_id c) (wc_sock_index c) (wc_wait_sem c) (wc_reply c) (wc_ret c)
    (wc_msg c) (wc_buf c) (wc_len c).
Definition set_wc_wait_sem (v : nat) (c : fins_wedge_call) : fins_wedge_call :=
  MkWCall (wc_call_id c) (wc_call_type c) (wc_sock_id c) (wc_sock_index c) v (wc_reply c) (wc_ret c)
    (wc_msg c) (wc_buf c) (wc_len c).

Record fins_wedge_socket := MkWSock {
  ws_sock_id : Z; ws_sk : Z; ws_threads : list Z; ws_release_flag : bool; ws_sk_new : option Z
}.
Definition set_ws_sock_id (v : Z) (x : fins_wedge_socket) : fins_wedge_socket :=
  MkWSock v (ws_sk x) (ws_threads x) (ws_release_flag x) (ws_sk_new x).
Definition set_ws_threads (v : list Z) (x : fins_wedge_socket) : fins_wedge_socket :=
  MkWSock (ws_sock_id x) (ws_sk x) v (ws_release_flag x) (ws_sk_new x).
Definition set_ws_release_flag (v : bool) (x : fins_wedge_socket) : fins_wedge_socket :=
  MkWSock (ws_sock_id x) (ws_sk x) (ws_threads x) v (ws_sk_new x).
Definition set_ws_sk_new (v : option Z) (x : fins_wedge_socket) : fins_wedge_socket :=
  MkWSock (ws_sock_id x) (ws_sk x) (ws_threads x) (ws_release_flag x) v.

(** A netlink message: its type, sequence number and payload. *)
Record nl_msg := MkNl { nl_type : Z; nl_seq : Z; nl_data : list Z }.

(** [w_netlink] are the messages given to the daemon, [w_woken] the sockets
    whose pollers were woken, with the events. *)
Record wedge_state := MkWState {
  wedge_sockets : list fins_wedge_socket; wedge_calls : list fins_wedge_call; call_count : Z;
  fins_daemon_pid : Z; w_netlink : list nl_msg; w_woken : list (Z * Z); w_ticks : nat
}.
Definition set_wedge_sockets (v : list fins_wedge_socket) (s : wedge_state) : wedge_state :=
  MkWState v (wedge_calls s) (call_count s) (fins_daemon_pid s) (w_netlink s) (w_woken s) (w_ticks s).
Definition set_wedge_calls (v : list fins_wedge_call) (s : wedge_state) : wedge_state :=
  MkWState (wedge_sockets s) v (call_count s) (fins_daemon_pid s) (w_netlink s) (w_woken s) (w_ticks s).
Definition set_call_count (v : Z) (s : wedge_state) : wedge_state :=
  MkWState (wedge_sockets s) (wedge_calls s) v (fins_daemon_pid s) (w_netlink s) (w_woken s) (w_ticks s).
Definition set_fins_daemon_pid (v : Z) (s : wedge_state) : wedge_state :=
  MkWState (wedge_sockets s) (wedge_calls s) (call_count s) v (w_netlink s) (w_woken s) (w_ticks s).
Definition set_w_netlink (v : list nl_msg) (s : wedge_state) : wedge_state :=
  MkWState (wedge_sockets s) (wedge_calls s) (call_count s) (fins_daemon_pid s) v (w_woken s) (w_ticks s).
Definition set_w_woken (v : list (Z * Z)) (s : wedge_state) : wedge_state :=
  MkWState (wedge_sockets s) (wedge_calls s) (call_count s) (fins_daemon_pid s) (w_netlink s) v (w_ticks s).
Definition set_w_ticks (v : nat) (s : wedge_state) : wedge_state :=
  MkWState (wedge_sockets s) (wedge_calls s) (call_count s) (fins_daemon_pid s) (w_netlink s) (w_woken s) v.

(** The kernel: whether an allocation, a netlink transfer or a copy from or to
    the memory of a process succeeds (numbered by [w_ticks]), the address of a
    new [struct sock], the memory behind the header of a message, and what the
    other threads do while one sleeps, at most [sleep_rounds] times. *)
Class WedgeEnv := {
  kernel_ok : nat → bool; new_sk : nat → Z; junk_pad : list Z;
  sleep_rounds : nat; others_run : wedge_state → wedge_state
}.

Section Wedge.
Context `{WedgeEnv}.
Abbreviation W := (M wedge_state) (only parsing).

Definition wmod (f : wedge_state → wedge_state) : W unit := modify f.
Definition wask {A} (f : nat → A) : W A :=
  s ← get; wmod (set_w_ticks (S (w_ticks s))) ;; mret (f (w_ticks s)).

Definition wlift {A} (r : res A) : W A :=
  λ s, match r with Ok a => Ok (a, s) | Segv => Segv | Exit => Exit | NoFuel => NoFuel end.

Definition get_wsock (i : Z) : W fins_wedge_socket :=
  s ← get;
  if i <? 0 then segv else match wedge_sockets s !! Z.to_nat i with Some x => mret x | None => segv end.
Definition upd_wsock (i : Z) (f : fins_wedge_socket → fins_wedge_socket) : W unit :=
  x ← get_wsock i; wmod (λ s, set_wedge_sockets (<[Z.to_nat i := f x]> (wedge_sockets s)) s).
Definition get_wcall (i : Z) : W fins_wedge_call :=
  s ← get;
  if i <? 0 then segv else match wedge_calls s !! Z.to_nat i with Some c => mret c | None => segv end.
Definition upd_wcall (i : Z) (f : fins_wedge_call → fins_wedge_call) : W unit :=
  c ← get_wcall i; wmod (λ s, set_wedge_calls (<[Z.to_nat i := f c]> (wedge_calls s)) s).

(** ** The tables *)

Definition wedge_calls_init : W unit :=
  wmod (set_call_count 0) ;; wmod (λ s, set_wedge_calls (map (set_wc_call_id NO_CALL) (wedge_calls s)) s).
Definition wedge_sockets_init : W unit :=
  wmod (λ s, set_wedge_sockets (map (set_ws_sock_id NO_SOCK) (wedge_sockets s)) s).

Definition wedge_calls_insert (call_id sock_id sock_index call_type : Z) : W Z :=
  s ← get;
  let i := first_index (λ c, wc_call_id c =? NO_CALL) (wedge_calls s) 0 in
  if i =? -1 then mret (-1)
  else upd_wcall i (λ c, MkWCall call_id call_type sock_id sock_index 0 false 0 (wc_msg c) (wc_buf c) (wc_len c)) ;;
    mret i.

Definition wedge_calls_find (sock_id sock_index call_type : Z) : W Z :=
  s ← get;
  mret (first_index (λ c, negb (wc_call_id c =? NO_CALL) && (wc_sock_id c =? sock_id)
    && (wc_sock_index c =? sock_index) && (wc_call_type c =? call_type)) (wedge_calls s) 0).

Definition wedge_calls_remove (call_id : Z) : W Z :=
  s ← get;
  let i := first_index (λ c, wc_call_id c =? call_id) (wedge_calls s) 0 in
  if i =? -1 then mret (-1) else upd_wcall i (set_wc_call_id NO_CALL) ;; mret 1.

(** [up(&wedge_calls[i].wait_sem)] *)
Definition up_call (i : Z) : W unit := upd_wcall i (λ c, set_wc_wait_sem (S (wc_wait_sem c)) c).
Definition msleep : W unit := wmod others_run.

Fixpoint remove_all_from (n : nat) (i : Z) : W unit :=
  match n with
  | O => mret tt
  | S n =>
      c ← get_wcall i;
      (if wc_call_id c =? NO_CALL then mret tt else up_call i ;; msleep) ;;
      remove_all_from n (i + 1)
  end.
Definition wedge_calls_remove_all : W unit := remove_all_from (Z.to_nat MAX_CALLS) 0.

Definition wedge_sockets_insert (sock_id sk : Z) : W Z :=
  s ← get;
  let i := first_index (λ x, ws_sock_id x =? NO_SOCK) (wedge_sockets s) 0 in
  if i =? -1 then mret (-1)
  else upd_wsock i (λ _, MkWSock sock_id sk (replicate (Z.to_nat MAX_CALL_TYPES) 0) false None) ;; mret i.

Definition wedge_sockets_find (sock_id : Z) : W Z :=
  s ← get;
  mret (first_index (λ x, (ws_sock_id x =? sock_id) && negb (ws_release_flag x)) (wedge_sockets s) 0).

(** The number of threads of a socket in a call of some type. *)
Definition get_threads (i call_type : Z) : W Z :=
  x ← get_wsock i;
  match ws_threads x !! Z.to_nat call_type with Some n => mret n | None => segv end.
Definition threads_add (i call_type n : Z) : W unit :=
  k ← get_threads i call_type;
  upd_wsock i (λ x, set_ws_threads (<[Z.to_nat call_type := s32 (k + n)]> (ws_threads x)) x).

(** Waking the threads of one call type until none is left; [keep] of them are
    the caller itself. *)
Fixpoint wake_threads (fuel : nat) (sock_id sock_index call_type keep : Z) : W unit :=
  match fuel with
  | O => nofuel
  | S fuel =>
      k ← get_threads sock_index call_type;
      if k <? 1 + keep then mret tt
      else
        i ← wedge_calls_find sock_id sock_index call_type;
        if i =? -1 then mret tt
        else up_call i ;; msleep ;; wake_threads fuel sock_id sock_index call_type keep
  end.
Fixpoint wake_types (n : nat) (sock_id sock_index i call_type : Z) : W unit :=
  match n with
  | O => mret tt
  | S n =>
      wake_threads sleep_rounds sock_id sock_index i (if i =? call_type then 1 else 0) ;;
      wake_types n sock_id sock_index (i + 1) call_type
  end.
Definition wedge_sockets_remove (sock_id sock_index call_type : Z) : W unit :=
  wake_types (Z.to_nat MAX_CALL_TYPES) sock_id sock_index 0 call_type ;;
  upd_wsock sock_index (set_ws_sock_id NO_SOCK).

Fixpoint sockets_remove_from (n : nat) (i : Z) : W unit :=
  match n with
  | O => mret tt
  | S n =>
      x ← get_wsock i;
      (if ws_sock_id x =? NO_SOCK then mret tt
       else wake_types (Z.to_nat MAX_CALL_TYPES) (ws_sock_id x) i 0 (-1) ;; upd_wsock i (set_ws_sock_id NO_SOCK)) ;;
      sockets_remove_from n (i + 1)
  end.
Definition wedge_socket_remove_all : W unit := sockets_remove_from (Z.to_nat MAX_SOCKETS) 0.

(** ** Messages to the daemon *)

Definition sizeof_nl_hdr := 12.
Definition sizeof_hdr := 32.
Definition PART_LEN := RECV_BUFFER_SIZE - sizeof_nl_hdr.

Definition nl_send_msg (seq type : Z) (buf : list Z) : W Z :=
  skb ← wask kernel_ok;
  if negb skb then mret (-1)
  else
    ok ← wask kernel_ok;
    if negb ok then mret (-1)
    else wmod (λ s, set_w_netlink (w_netlink s ++ [MkNl type seq buf]) s) ;; mret 0.

Definition part_hdr (msg_len part_len pos : Z) : list Z :=
  le_bytes 4 msg_len ++ le_bytes 4 part_len ++ le_bytes 4 pos.

(** The parts of a message, from position [pos] on. *)
Fixpoint send_parts (fuel : nat) (msg_len pos seq : Z) (rest : list Z) : W Z :=
  match fuel with
  | O => nofuel
  | S fuel =>
      let last := Z.of_nat (length rest) <=? PART_LEN in
      let part := if last then rest else take (Z.to_nat PART_LEN) rest in
      ret ← nl_send_msg seq (if last then NLMSG_DONE else 0)
              (part_hdr msg_len (Z.of_nat (length part)) pos ++ part);
      if ret <? 0 then wmod (set_fins_daemon_pid (-1)) ;; mret (-1)
      else if last then mret 0
      else send_parts fuel msg_len (pos + PART_LEN) (u32 (seq + 1)) (drop (Z.to_nat PART_LEN) rest)
  end.

Definition nl_send (msg : list Z) : W Z :=
  part_buf ← wask kernel_ok;
  if negb part_buf then mret (-1)
  else send_parts (S (length msg)) (Z.of_nat (length msg)) 0 0 msg.

(** The header of a message, followed by the padding of the structure. *)
Definition hdr_bytes (h : wedge_to_daemon_hdr) : list Z :=
  le_bytes 8 (h_sock_id h) ++ le_bytes 4 (h_sock_index h) ++ le_bytes 4 (h_call_type h) ++
  le_bytes 4 (h_call_pid h) ++ le_bytes 4 (h_call_id h) ++ le_bytes 4 (h_call_index h) ++ take 4 junk_pad.

(** ** The two halves of a call *)

(** A call that has sent its message waits with these indices of its socket
    and of its own entry. *)
Inductive outcome := Returned (rc : Z) | Waiting (sock_index call_index : Z).

(** What follows the header of a message, or an error in building it: [Bad] gives
    the entry of the call back, [BadKept] does not, and [BadReturn] leaves the
    function at once. *)
Inductive built := Built (p : list Z) | Bad (rc : Z) | BadKept (rc : Z) | BadReturn (rc : Z).
Inductive opened := Sent (call_index : Z) | Failed (rc : Z) | Left (rc : Z).

Definition give_back (call_index rc : Z) : W opened :=
  upd_wcall call_index (set_wc_call_id NO_CALL) ;; mret (Failed rc).

(** The entry for the call, and the message: [pre] runs before, [post] behind
    the allocation of the message. *)
Definition open_call (sock_id sock_index call_pid call_type : Z) (pre : W built) (post : list Z → W built) : W opened :=
  s ← get;
  let call_id := call_count s in
  wmod (set_call_count (u32 (call_id + 1))) ;;
  call_index ← wedge_calls_insert call_id sock_id sock_index call_type;
  if call_index =? -1 then mret (Failed (-ENOMEM))
  else
    r ← pre;
    match r with
    | Bad rc => give_back call_index rc
    | BadKept rc => mret (Failed rc)
    | BadReturn rc => mret (Left rc)
    | Built p =>
        buf ← wask kernel_ok;
        if negb buf then give_back call_index (-ENOMEM)
        else
          r ← post p;
          match r with
          | Built p =>
              ret ← nl_send (hdr_bytes (MkHdr sock_id sock_index call_type call_pid call_id call_index) ++ p);
              if negb (ret =? 0) then give_back call_index (-1) else mret (Sent call_index)
          | Bad rc => give_back call_index rc
          | BadKept rc => mret (Failed rc)
          | BadReturn rc => mret (Left rc)
          end
    end.

(** [get_unique_sock_id] *)
Definition get_unique_sock_id (sk : Z) : Z := u32 sk.

(** The first half of a call on the socket [sk]; [err] maps the error code to
    what the call returns. *)
Definition request (sk : option Z) (call_pid call_type : Z) (err : Z → Z) (pre : W built)
    (post : list Z → W built) : W outcome :=
  s ← get;
  if fins_daemon_pid s =? -1 then mret (Returned (err (-1)))
  else match sk with
  | None => mret (Returned (err (-1)))
  | Some sk =>
      let sock_id := get_unique_sock_id sk in
      sock_index ← wedge_sockets_find sock_id;
      if sock_index =? -1 then mret (Returned (err (-1)))
      else
        threads_add sock_index call_type 1 ;;
        r ← open_call sock_id sock_index call_pid call_type pre post;
        match r with
        | Sent call_index => mret (Waiting sock_index call_index)
        | Failed rc => threads_add sock_index call_type (-1) ;; mret (Returned (err rc))
        | Left rc => mret (Returned rc)
        end
  end.

(** The calls whose message has no conditions. *)
Definition simple_request (sk : option Z) (call_pid call_type : Z) (p : list Z) : W outcome :=
  request sk call_pid call_type (λ rc, rc) (mret (Built p)) (λ p, mret (Built p)).

(** [down_interruptible(&wedge_calls[i].wait_sem)]: [intr] says that a signal
    came; without post and signal the thread keeps waiting. *)
Definition down_call (i : Z) (intr : bool) : W unit :=
  c ← get_wcall i;
  match wc_wait_sem c with
  | O => if intr then mret tt else nofuel
  | S n => if intr then mret tt else upd_wcall i (set_wc_wait_sem n)
  end.

(** The second half: [k] evaluates the reply. *)
Definition woken {A} (sock_index call_index call_type : Z) (intr : bool) (none : A)
    (k : fins_wedge_call → W A) : W A :=
  down_call call_index intr ;;
  c ← get_wcall call_index;
  r ← (if wc_reply c then k c else mret none);
  upd_wcall call_index (set_wc_call_id NO_CALL) ;;
  threads_add sock_index call_type (-1) ;;
  mret r.

Definition checkConfirmation (c : fins_wedge_call) : Z :=
  if wc_ret c =? ACK then if wc_len c =? 0 then s32 (wc_msg c) else -1
  else if wc_ret c =? NACK then s32 (- wc_msg c)
  else -1.

Definition simple_woken (call_type sock_index call_index : Z) (intr : bool) : W Z :=
  woken sock_index call_index call_type intr (-EINTR) (λ c, mret (checkConfirmation c)).

(** ** The socket calls *)

(** A [memcpy] of [n] bytes from memory of the caller. *)
Definition copied (p : option (list Z)) (n : Z) : W built :=
  b ← wlift (if n <? 0 then Segv else read_bytes p n); mret (Built b).

Definition fins_create (call_pid type protocol : Z) : W outcome :=
  s ← get;
  if fins_daemon_pid s =? -1 then mret (Returned (-1))
  else
    ok ← wask kernel_ok;
    if negb ok then mret (Returned (-ENOMEM))
    else
      sk ← wask new_sk;
      let sock_id := get_unique_sock_id sk in
      sock_index ← wedge_sockets_insert sock_id sk;
      if sock_index =? -1 then mret (Returned (-ENOMEM))
      else
        threads_add sock_index SOCKET_CALL 1 ;;
        r ← open_call sock_id sock_index call_pid SOCKET_CALL
              (mret (Built (le_bytes 4 AF_FINS ++ le_bytes 4 type ++ le_bytes 4 protocol))) (λ p, mret (Built p));
        match r with
        | Sent call_index => mret (Waiting sock_index call_index)
        | Failed rc | Left rc =>
            wedge_sockets_remove sock_id sock_index SOCKET_CALL ;; mret (Returned rc)
        end.

(** The thread stays counted when the socket is removed. *)
Definition fins_create_woken (sock_id sock_index call_index : Z) (intr : bool) : W Z :=
  down_call call_index intr ;;
  c ← get_wcall call_index;
  let rc := if wc_reply c then checkConfirmation c else -EINTR in
  upd_wcall call_index (set_wc_call_id NO_CALL) ;;
  (if negb (rc =? 0) then wedge_sockets_remove sock_id sock_index SOCKET_CALL
   else threads_add sock_index SOCKET_CALL (-1)) ;;
  mret rc.

Definition fins_bind (sk : option Z) (call_pid : Z) (addr : list Z) (addr_len sk_reuse : Z) : W outcome :=
  request sk call_pid BIND_CALL (λ rc, rc) (mret (Built [])) (λ _,
    r ← copied (Some addr) addr_len;
    match r with
    | Built b => mret (Built (le_bytes 4 addr_len ++ b ++ le_bytes 4 sk_reuse))
    | r => mret r
    end).
Definition fins_bind_woken := simple_woken BIND_CALL.

Definition fins_listen (sk : option Z) (call_pid backlog : Z) : W outcome :=
  simple_request sk call_pid LISTEN_CALL (le_bytes 4 backlog).
Definition fins_listen_woken := simple_woken LISTEN_CALL.

Definition fins_connect (sk : option Z) (call_pid : Z) (addr : list Z) (addr_len flags : Z) : W outcome :=
  request sk call_pid CONNECT_CALL (λ rc, rc) (mret (Built [])) (λ _,
    r ← copied (Some addr) addr_len;
    match r with
    | Built b => mret (Built (le_bytes 4 addr_len ++ b ++ le_bytes 4 flags))
    | r => mret r
    end).
Definition fins_connect_woken := simple_woken CONNECT_CALL.

(** The socket for the connection to come is made once and kept in [sk_new].  If
    the table is full, [fins_sk_destroy] gets a socket without [sk]. *)
Definition accept_new (sock_index : Z) : W (Z + Z * Z) :=
  x ← get_wsock sock_index;
  match ws_sk_new x with
  | None =>
      ok ← wask kernel_ok;
      if negb ok then mret (inl (-ENOMEM))
      else
        sk ← wask new_sk;
        i ← wedge_sockets_insert (get_unique_sock_id sk) sk;
        if i =? -1 then segv
        else upd_wsock sock_index (set_ws_sk_new (Some sk)) ;; mret (inr (get_unique_sock_id sk, i))
  | Some sk =>
      i ← wedge_sockets_find (get_unique_sock_id sk);
      mret (inr (get_unique_sock_id sk, i))
  end.

Definition fins_accept (sk : option Z) (call_pid flags : Z) : W outcome :=
  s ← get;
  if fins_daemon_pid s =? -1 then mret (Returned (-1))
  else match sk with
  | None => mret (Returned (-1))
  | Some sk =>
      let sock_id := get_unique_sock_id sk in
      sock_index ← wedge_sockets_find sock_id;
      if sock_index =? -1 then mret (Returned (-1))
      else
        n ← accept_new sock_index;
        match n with
        | inl rc => mret (Returned rc)
        | inr (sock_id_new, index_new) =>
            threads_add sock_index ACCEPT_CALL 1 ;;
            r ← open_call sock_id sock_index call_pid ACCEPT_CALL
                  (mret (Built (le_bytes 8 sock_id_new ++ le_bytes 4 index_new ++ le_bytes 4 flags)))
                  (λ p, mret (Built p));
            match r with
            | Sent call_index => mret (Waiting sock_index call_index)
            | Failed rc | Left rc => threads_add sock_index ACCEPT_CALL (-1) ;; mret (Returned rc)
            end
        end
  end.

(** With the connection the new socket goes to the caller. *)
Definition fins_accept_woken (sock_index call_index : Z) (intr : bool) : W Z :=
  woken sock_index call_index ACCEPT_CALL intr (-EINTR) (λ c,
    let rc := checkConfirmation c in
    (if rc =? 0 then upd_wsock sock_index (set_ws_sk_new None) else mret tt) ;; mret rc).

Definition fins_getname (sk : option Z) (call_pid peer : Z) : W outcome :=
  simple_request sk call_pid GETNAME_CALL (le_bytes 4 peer).

(** The replies with data: [k] evaluates a positive one. *)
Definition with_ack {A} (c : fins_wedge_call) (bad : Z → A) (k : W A) : W A :=
  if wc_ret c =? ACK then k
  else if wc_ret c =? NACK then mret (bad (s32 (- wc_msg c)))
  else mret (bad (-1)).

(** The address is copied to a buffer of [sizeof_sockaddr_storage] bytes. *)
Definition fins_getname_woken (sock_index call_index : Z) (intr : bool) : W (Z * list Z) :=
  woken sock_index call_index GETNAME_CALL intr (-EINTR, []) (λ c,
    with_ack c (λ rc, (rc, [])) (
      match wc_buf c with
      | Some b =>
          if wc_len c <? 4 then mret (-1, [])
          else
            len ← wlift (int_at b 0);
            if sizeof_sockaddr_storage <? len then segv
            else
              addr ← wlift (bytes_at b 4 len);
              mret (if 4 + len =? wc_len c then 0 else -1, addr)
      | None => mret (-1, [])
      end)).

(** ** Sending and receiving *)

Record iovec := MkIov { iov_base : option (list Z); iov_len : Z }.

Definition iov_total (l : list iovec) : Z := foldr (λ v n, iov_len v + n) 0 l.

(** The data of the caller; [None] if a buffer is missing. *)
Fixpoint gather (l : list iovec) : res (option (list Z)) :=
  match l with
  | [] => Ok (Some [])
  | v :: l =>
      match iov_base v with
      | None => if 0 <? iov_len v then Ok None else gather l
      | Some _ =>
          match read_bytes (iov_base v) (iov_len v), gather l with
          | Ok b, Ok (Some r) => Ok (Some (b ++ r))
          | Ok _, r => r
          | _, _ => Segv
          end
      end
  end.

(** The message of a [sendmsg] call: [msg_name] of length [msg_namelen] may be
    absent.  The sizes are those of a message below 4 GB. *)
Definition fins_sendmsg (sk : option Z) (call_pid sk_flags msg_namelen : Z) (msg_name : option (list Z))
    (msg_flags : Z) (msg_control : list Z) (msg_iov : list iovec) : W outcome :=
  request sk call_pid SENDMSG_CALL (λ rc, rc) (mret (Built [])) (λ _,
    if 4294967296 <=? sizeof_hdr + 20 + Z.max 0 msg_namelen + Z.of_nat (length msg_control) + iov_total msg_iov
    then segv
    else
      name ← wlift (if 0 <? msg_namelen then read_bytes msg_name msg_namelen else Ok []);
      data ← wlift (gather msg_iov);
      match data with
      | None => mret (Bad (-1))
      | Some d =>
          mret (Built (le_bytes 4 sk_flags ++ le_bytes 4 msg_namelen ++ name ++ le_bytes 4 msg_flags
            ++ le_bytes 4 (Z.of_nat (length msg_control)) ++ msg_control ++ le_bytes 4 (iov_total msg_iov) ++ d))
      end).

Definition fins_sendmsg_woken := simple_woken SENDMSG_CALL.

Definition fins_recvmsg (sk : option Z) (call_pid sk_flags len msg_controllen flags : Z) : W outcome :=
  simple_request sk call_pid RECVMSG_CALL
    (le_bytes 4 sk_flags ++ le_bytes 4 (s32 len) ++ le_bytes 4 msg_controllen ++ le_bytes 4 flags).

(** What the caller of [recvmsg] finds in its [struct msghdr] and buffers. *)
Record recv_out := MkOut { ro_flags : Z; ro_name : list Z; ro_data : list (list Z); ro_control : list Z }.
Definition no_out : recv_out := MkOut 0 [] [] [].

(** The data goes to the buffers in turn; the result has the number of bytes
    copied, or none if a copy fails. *)
Fixpoint scatter (lens : list Z) (b : list Z) (ret : Z) : W (option (Z * list (list Z))) :=
  match lens with
  | [] => mret (Some (0, []))
  | n :: lens =>
      if ret <=? 0 then mret (Some (0, []))
      else
        let k := if n <? ret then n else ret in
        ok ← wask kernel_ok;
        d ← wlift (read_bytes (Some b) k);
        if negb ok then mret None
        else if n <? ret then
          r ← scatter lens (drop (Z.to_nat n) b) (ret - n);
          mret (match r with Some (m, ds) => Some (n + m, d :: ds) | None => None end)
        else mret (Some (ret, [d]))
  end.

(** A buffer of the caller, or one that is allocated ([None]). *)
Definition fill (room : option Z) (b : list Z) : W bool :=
  match room with
  | Some n => if n <? Z.of_nat (length b) then segv else mret true
  | None => wask kernel_ok
  end.

Definition recvmsg_eval (name_room control_room : option Z) (lens : list Z) (c : fins_wedge_call) (b : list Z)
    : W (Z * recv_out) :=
  n ← wlift (u32_at b 0);
  let namelen := if n =? 0 then sizeof_sockaddr_in else n in
  name ← wlift (bytes_at b 4 namelen);
  ok ← fill name_room name;
  if negb ok then mret (-ENOMEM, no_out)
  else
    let pt := 4 + namelen in
    buf_len ← wlift (u32_at b pt);
    r ← scatter lens (drop (Z.to_nat (pt + 4)) b) (s32 buf_len);
    match r with
    | None => mret (-1, MkOut (wc_msg c) name [] [])
    | Some (got, data) =>
        let pt := pt + 4 + got in
        k ← wlift (u32_at b pt);
        let clen := if CONTROL_LEN_MAX <? k then 0 else k in
        control ← wlift (bytes_at b (pt + 4) clen);
        ok ← fill control_room control;
        if negb ok then mret (-ENOMEM, MkOut (wc_msg c) name data [])
        else mret (if pt + 4 + clen =? wc_len c then s32 buf_len else -1, MkOut (wc_msg c) name data control)
    end.

Definition fins_recvmsg_woken (name_room control_room : option Z) (lens : list Z) (sock_index call_index : Z)
    (intr : bool) : W (Z * recv_out) :=
  woken sock_index call_index RECVMSG_CALL intr (-EINTR, no_out) (λ c,
    if wc_ret c =? ACK then
      match wc_buf c with
      | Some b =>
          if wc_len c <? 12 then mret (-1, no_out) else recvmsg_eval name_room control_room lens c b
      | None => mret (-1, no_out)
      end
    else if wc_ret c =? NACK then mret (if wc_msg c =? 0 then -1 else s32 (- wc_msg c), no_out)
    else mret (-1, no_out)).

(** ** The other calls *)

(** A socket that is being released is not found again; the result is 0 in
    every case, and the socket is removed. *)
Definition fins_release (sk : option Z) (call_pid : Z) : W outcome :=
  s ← get;
  if fins_daemon_pid s =? -1 then mret (Returned 0)
  else match sk with
  | None => mret (Returned 0)
  | Some sk =>
      let sock_id := get_unique_sock_id sk in
      sock_index ← wedge_sockets_find sock_id;
      if sock_index =? -1 then mret (Returned 0)
      else
        upd_wsock sock_index (set_ws_release_flag true) ;;
        threads_add sock_index RELEASE_CALL 1 ;;
        r ← open_call sock_id sock_index call_pid RELEASE_CALL (mret (Built [])) (λ p, mret (Built p));
        match r with
        | Sent call_index => mret (Waiting sock_index call_index)
        | Failed _ | Left _ => wedge_sockets_remove sock_id sock_index RELEASE_CALL ;; mret (Returned 0)
        end
  end.
Definition fins_release_woken (sock_id sock_index call_index : Z) (intr : bool) : W Z :=
  down_call call_index intr ;;
  upd_wcall call_index (set_wc_call_id NO_CALL) ;;
  wedge_sockets_remove sock_id sock_index RELEASE_CALL ;;
  mret 0.

Definition fins_poll (sk : option Z) (call_pid : Z) (table : option Z) : W outcome :=
  request sk call_pid POLL_CALL (λ _, 0) (mret (Built (le_bytes 4 (default 0 table)))) (λ p, mret (Built p)).

(** The events, and whether the caller is queued for a wake-up. *)
Definition fins_poll_woken (table : option Z) (sock_index call_index : Z) (intr : bool) : W (Z * bool) :=
  woken sock_index call_index POLL_CALL intr (0, false) (λ c,
    mret (if (wc_ret c =? ACK) && (wc_len c =? 0) && bool_decide (wc_buf c = None) then
            let rc := s32 (wc_msg c) in
            (rc, match table with Some events => Z.land events rc =? 0 | None => false end)
          else (0, false))).

Definition fins_shutdown (sk : option Z) (call_pid how : Z) : W outcome :=
  simple_request sk call_pid SHUTDOWN_CALL (le_bytes 4 how).
Definition fins_shutdown_woken := simple_woken SHUTDOWN_CALL.
Definition fins_socketpair : W outcome := mret (Returned (-1)).
Definition fins_mmap (sk : option Z) (call_pid : Z) : W outcome := simple_request sk call_pid MMAP_CALL [].
Definition fins_mmap_woken := simple_woken MMAP_CALL.
Definition fins_sendpage (sk : option Z) (call_pid : Z) : W outcome := simple_request sk call_pid SENDPAGE_CALL [].
Definition fins_sendpage_woken := simple_woken SENDPAGE_CALL.

(** Memory of the process: it may be out of its address space. *)
Definition from_user (bad : built) (k : W built) : W built :=
  ok ← wask kernel_ok; if (ok : bool) then k else mret bad.
Definition user_bytes (p mem : list Z) (n : Z) : W built :=
  from_user (Bad (-1))
    (mret (match read_bytes (Some mem) n with Ok b => Built (p ++ b) | _ => Bad (-1) end)).

(** A bad pointer to the length is not an error, and the entry is kept. *)
Definition fins_getsockopt (sk : option Z) (call_pid level optname optlen : Z) (optval : list Z) : W outcome :=
  request sk call_pid GETSOCKOPT_CALL (λ rc, rc)
    (from_user (BadKept 0)
       (mret (Built (le_bytes 4 level ++ le_bytes 4 optname ++ le_bytes 4 optlen))))
    (λ p,
      if 0 <? optlen then
        user_bytes p optval optlen
      else mret (Built p)).

(** The length and the value for the process. *)
Definition fins_getsockopt_woken (sock_index call_index : Z) (intr : bool) : W (Z * (Z * list Z)) :=
  woken sock_index call_index GETSOCKOPT_CALL intr (-EINTR, (0, [])) (λ c,
    with_ack c (λ rc, (rc, (0, []))) (
      match wc_buf c with
      | Some b =>
          if wc_len c <? 4 then mret (-1, (0, []))
          else
            len ← wlift (int_at b 0);
            ok1 ← wask kernel_ok;
            val ← wlift (if 0 <? len then bytes_at b 4 len else Ok []);
            ok2 ← (if 0 <? len then wask kernel_ok else mret true);
            mret (if (ok1 : bool) && (ok2 : bool) && (4 + Z.max 0 len =? wc_len c) then 0 else -1, (len, val))
      | None => mret (-1, (0, []))
      end)).

Definition fins_setsockopt (sk : option Z) (call_pid level optname optlen : Z) (optval : list Z) : W outcome :=
  request sk call_pid SETSOCKOPT_CALL (λ rc, rc)
    (mret (Built (le_bytes 4 level ++ le_bytes 4 optname ++ le_bytes 4 optlen)))
    (λ p, user_bytes p optval optlen).
Definition fins_setsockopt_woken := simple_woken SETSOCKOPT_CALL.

(** [ioctl] requests: [arg] is the [struct ifreq] of the process (16 bytes of name,
    24 of a union), or the length of a [struct ifconf].  A bad pointer leaves
    the function with the entry and the count of the thread kept. *)
Definition named (cmd : Z) : bool :=
  existsb (Z.eqb cmd) [SIOCGIFADDR; SIOCGIFDSTADDR; SIOCGIFBRDADDR; SIOCGIFNETMASK; SIOCGIFFLAGS; SIOCGIFMTU].
Definition bare_cmd (cmd : Z) : bool :=
  existsb (Z.eqb cmd) [FIONREAD; SIOCSIFFLAGS; TIOCOUTQ; SIOCADDRT; SIOCDELRT; SIOCSIFADDR; SIOCGSTAMP;
    SIOCSIFDSTADDR; SIOCSIFBRDADDR; SIOCSIFNETMASK].

Definition ioctl_message (cmd : Z) (ifc_len : option Z) (ifr : list Z) : W built :=
  let c := le_bytes 4 cmd in
  if cmd =? SIOCGIFCONF then
    from_user (BadReturn (-1)) (mret (Built (c ++ le_bytes 4 (default 0 ifc_len))))
  else if named cmd then
    from_user (BadReturn (-1)) (mret (Built (c ++ le_bytes 4 IFNAMSIZ ++ take (Z.to_nat IFNAMSIZ) ifr)))
  else if cmd =? SIOCGIFNAME then
    from_user (BadReturn (-1)) (mret (Built (c ++ le_bytes 4 IFNAMSIZ ++ take 4 (drop (Z.to_nat IFNAMSIZ) ifr))))
  else if bare_cmd cmd then mret (Built c)
  else mret (Bad (-1)).

(** Unlike the other calls it does not test that the socket has a [sk]. *)
Definition fins_ioctl (sk : option Z) (call_pid cmd : Z) (ifc_len : option Z) (ifr : list Z) : W outcome :=
  s ← get;
  match sk with
  | Some _ => request sk call_pid IOCTL_CALL (λ rc, rc) (ioctl_message cmd ifc_len ifr) (λ p, mret (Built p))
  | None => if fins_daemon_pid s =? -1 then mret (Returned (-1)) else segv
  end.

(** [struct ifreq] with the first bytes of its union replaced. *)
Definition put_union (b ifr : list Z) : list Z :=
  take (Z.to_nat IFNAMSIZ) ifr ++ b ++ drop (Z.to_nat IFNAMSIZ + length b) ifr.

(** Copies to the process: the result is an error if a copy fails. *)
Fixpoint to_user (n : nat) (rc : Z) : W Z :=
  match n with
  | O => mret rc
  | S n => ok ← wask kernel_ok; to_user n (if (ok : bool) then rc else -1)
  end.

Definition ioctl_eval (cmd : Z) (ifr : list Z) (c : fins_wedge_call) : W (Z * list Z) :=
  let bad := mret (-1, []) : W (Z * list Z) in
  let exact n (f : list Z → list Z) :=
    match wc_buf c with
    | Some b => if wc_len c =? n then rc ← to_user 1 0; mret (rc, f b) else bad
    | None => bad
    end in
  let counted copies :=
    match wc_buf c with
    | Some b =>
        if wc_len c <? 4 then bad
        else
          len ← wlift (int_at b 0);
          d ← wlift (bytes_at b 4 len);
          rc ← to_user copies 0;
          mret (if 4 + len =? wc_len c then rc else -1, d)
    | None => bad
    end in
  if cmd =? SIOCGIFCONF then counted 2%nat
  else if existsb (Z.eqb cmd) [SIOCGIFADDR; SIOCGIFDSTADDR; SIOCGIFBRDADDR; SIOCGIFNETMASK] then
    exact sizeof_sockaddr_in (λ b, put_union b ifr)
  else if cmd =? SIOCGIFNAME then
    exact sizeof_sockaddr_in (λ b, b ++ drop (Z.to_nat IFNAMSIZ) ifr)
  else if cmd =? FIONREAD then exact 4 (λ b, b)
  else if cmd =? SIOCGIFFLAGS then exact 4 (λ b, put_union (take 2 b) ifr)
  else if cmd =? SIOCGIFMTU then exact 4 (λ b, put_union b ifr)
  else if cmd =? SIOCGSTAMP then counted 1%nat
  else if existsb (Z.eqb cmd) [TIOCOUTQ; SIOCADDRT; SIOCDELRT; SIOCSIFADDR; SIOCSIFDSTADDR; SIOCSIFBRDADDR;
      SIOCSIFNETMASK] then
    mret (if (wc_len c =? 0) && bool_decide (wc_buf c = None) then 0 else -1, [])
  else bad.

Definition fins_ioctl_woken (cmd : Z) (ifr : list Z) (sock_index call_index : Z) (intr : bool) : W (Z * list Z) :=
  woken sock_index call_index IOCTL_CALL intr (-1, []) (λ c,
    with_ack c (λ rc, (rc, [])) (ioctl_eval cmd ifr c)).

(** ** Messages from the daemon *)

(** [struct daemon_to_wedge_hdr], as the daemon writes it into cleared memory:
    the identifier and the index are those of a call or of a socket. *)
Definition reply_bytes (m : wedge_msg) : list Z :=
  le_bytes 4 (w_call_type m) ++ le_bytes 4 0 ++ le_bytes 8 (w_id m) ++ le_bytes 4 (w_index m) ++
  le_bytes 4 (w_ret m) ++ le_bytes 4 (w_msg m) ++ le_bytes 4 0 ++ w_payload m.

(** The reply is stored in the entry of the call, and its thread woken. *)
Definition store_reply (id index ret msg : Z) (p : list Z) : W unit :=
  if (index =? -1) || (MAX_CALLS <? index) then mret tt
  else
    c ← get_wcall index;
    if negb (wc_call_id c =? id) then mret tt
    else
      let len := Z.of_nat (length p) in
      r ← (if len =? 0 then mret (None, true)
           else ok ← wask kernel_ok; mret (if (ok : bool) then Some p else None, ok) : W (option (list Z) * bool));
      upd_wcall index (λ c,
        MkWCall (wc_call_id c) (wc_call_type c) (wc_sock_id c) (wc_sock_index c) (S (wc_wait_sem c))
          (snd r) ret msg (fst r) len).

(** A poll event wakes the threads that sleep on the socket. *)
Definition poll_event (sock_id index ret msg : Z) : W unit :=
  if (index =? -1) || (MAX_SOCKETS <? index) then mret tt
  else
    x ← get_wsock index;
    if (ws_sock_id x =? sock_id) && (ret =? ACK)
    then wmod (λ s, set_w_woken (w_woken s ++ [(index, msg)]) s) else mret tt.

(** A message of type 0 has no effect but the tests. *)
Definition other_event (sock_id index : Z) : W unit :=
  if (index =? -1) || (MAX_SOCKETS <? index) then mret tt
  else
    x ← get_wsock index;
    if negb (ws_sock_id x =? sock_id) then mret tt else get_threads index 0 ;; mret tt.

Definition daemon_changes (pid : Z) : W unit :=
  wmod (set_fins_daemon_pid (-1)) ;;
  wedge_socket_remove_all ;; wedge_calls_remove_all ;;
  wmod (set_fins_daemon_pid pid).

Definition nl_data_ready (pid : Z) (buf : list Z) : W unit :=
  let len := Z.of_nat (length buf) in
  if pid =? -1 then mret tt
  else if sizeof_hdr <=? len then
    call_type ← wlift (u32_at buf 0);
    call_id ← wlift (u32_at buf 8);
    sock_id ← wlift (read_at buf 8 8);
    index ← wlift (int_at buf 16);
    ret ← wlift (u32_at buf 20);
    msg ← wlift (u32_at buf 24);
    if call_type =? 0 then other_event sock_id index
    else if call_type =? POLL_EVENT_CALL then poll_event sock_id index ret msg
    else if call_type <? MAX_CALL_TYPES then store_reply call_id index ret msg (drop (Z.to_nat sizeof_hdr) buf)
    else mret tt
  else if len =? 4 then
    reply_call ← wlift (u32_at buf 0);
    if reply_call =? DAEMON_START_CALL then daemon_changes pid
    else if reply_call =? DAEMON_STOP_CALL then daemon_changes (-1)
    else mret tt
  else mret tt.

Definition fins_stack_wedge_init : W unit :=
  wedge_calls_init ;; wedge_sockets_init ;; wmod (set_fins_daemon_pid (-1)).

End Wedge.
