(* ===== verification/Netlink.v ===== *)
(** * Messages between the wedge and the daemon

    The wedge cuts a message into parts for netlink ([nl_send]); the thread
    [wedge_to_daemon] of the daemon ([modules/daemon/daemon.c]) puts the parts
    together and hands the message to [daemon_out].  The theorems: what is sent
    arrives as it was, whatever its length; and a part that is lost. *)

From stdpp Require Import base list gmap strings.
From Stdlib Require Import ZArith Lia.
From S2P Require Import Prelude Queue Metadata Frame Module IPv4 Daemon DaemonUdp DaemonOut Wedge.
Open Scope Z_scope.
Open Scope fins_scope.

Definition NLMSG_NOOP := 1.
Definition NLMSG_ERROR := 2.
Definition NLMSG_OVERRUN := 4.

(** ** The receiving thread *)

(** The local variables of the thread: the message buffer, its announced length
    ([-1] before the first part), and the position behind the last part. *)
Record recv_state := MkRecv { msg_buf : option (list Z); msg_len : Z; msg_pt : option Z }.
Definition recv_idle : recv_state := MkRecv None (-1) None.

(** [memcpy] into a buffer at a position. *)
Definition write_bytes (buf : list Z) (pos : Z) (b : list Z) : res (list Z) :=
  if (pos <? 0) || (Z.of_nat (length buf) <? pos + Z.of_nat (length b)) then Segv
  else Ok (take (Z.to_nat pos) buf ++ b ++ drop (Z.to_nat pos + length b) buf).

(** One part: the new state, and [okFlag].  The header of the part is read
    without testing that the message holds it. *)
Definition recv_part (r : recv_state) (seq : Z) (data : list Z) : res (recv_state * bool) :=
  match u32_at data 0, int_at data 4, int_at data 8 with
  | Ok hl, Ok part_len, Ok pos =>
      if negb (msg_len r =? -1) && negb (u32 (msg_len r) =? hl) then Ok (r, false)
      else
        let len := if msg_len r =? -1 then s32 hl else msg_len r in
        let fresh := seq =? 0 in
        if fresh && (len <? 0) then Exit
        else
          let buf := if fresh then Some (replicate (Z.to_nat len) 0) else msg_buf r in
          let pt := if fresh then Some 0 else msg_pt r in
          match pt, buf with
          | None, _ => Ok (MkRecv buf len None, true)
          | Some _, None => Segv
          | Some _, Some b =>
              match bytes_at data sizeof_nl_hdr part_len with
              | Ok p =>
                  match write_bytes b pos p with
                  | Ok b' => Ok (MkRecv (Some b') len (Some (pos + part_len)), true)
                  | _ => Segv
                  end
              | _ => Segv
              end
          end
  | _, _, _ => Segv
  end.

(** The header at the front of a complete message. *)
Definition read_hdr (b : list Z) : res wedge_to_daemon_hdr :=
  match read_at b 0 8, int_at b 8, u32_at b 12, int_at b 16, u32_at b 20, int_at b 24 with
  | Ok sid, Ok si, Ok ct, Ok pid, Ok cid, Ok ci => Ok (MkHdr sid si ct pid cid ci)
  | _, _, _, _, _, _ => Segv
  end.

(** A netlink message: the next state, and the message it completes.  A message
    longer than the buffer is cut short by [recvfrom] and refused. *)
Definition recv_step (r : recv_state) (m : nl_msg)
    : res (recv_state * option (wedge_to_daemon_hdr * list Z)) :=
  if RECV_BUFFER_SIZE <? Z.of_nat (length (nl_data m)) then Ok (r, None)
  else if existsb (Z.eqb (nl_type m)) [NLMSG_NOOP; NLMSG_ERROR; NLMSG_OVERRUN] then Ok (r, None)
  else
    match recv_part r (nl_seq m) (nl_data m) with
    | Ok (r', ok) =>
        if ok && (nl_type m =? NLMSG_DONE) then
          match msg_buf r' with
          | Some b =>
              match read_hdr b with
              | Ok h =>
                  if msg_len r' <? sizeof_hdr then Segv
                  else Ok (recv_idle, Some (h, drop (Z.to_nat sizeof_hdr) b))
              | _ => Segv
              end
          | None => Segv
          end
        else Ok (r', None)
    | Segv => Segv
    | Exit => Exit
    | NoFuel => NoFuel
    end.

Section Receive.
Context {Q : Type} `{BoundedFifo Q finsFrame} `{DaemonEnv}.
Context (protos : Z → option (proto_ops Q)) (junk_addr : list Z).
Abbreviation ST := (mstate Q daemon_data) (only parsing).

(** The loop over the messages that arrive. *)
Fixpoint wedge_to_daemon (r : recv_state) (ms : list nl_msg) : M ST recv_state :=
  match ms with
  | [] => mret r
  | m :: ms =>
      x ← lift (recv_step r m);
      (match x.2 with Some (h, p) => daemon_out protos junk_addr h p | None => mret tt end) ;;
      wedge_to_daemon x.1 ms
  end.

End Receive.

(** ** The parts of a message *)

Fixpoint parts (fuel : nat) (len pos seq : Z) (rest : list Z) : list nl_msg :=
  match fuel with
  | O => []
  | S fuel =>
      if Z.of_nat (length rest) <=? PART_LEN
      then [MkNl NLMSG_DONE seq (part_hdr len (Z.of_nat (length rest)) pos ++ rest)]
      else MkNl 0 seq (part_hdr len PART_LEN pos ++ take (Z.to_nat PART_LEN) rest)
             :: parts fuel len (pos + PART_LEN) (u32 (seq + 1)) (drop (Z.to_nat PART_LEN) rest)
  end.
Definition message_parts (msg : list Z) : list nl_msg :=
  parts (S (length msg)) (Z.of_nat (length msg)) 0 0 msg.

Lemma PART_LEN_val : PART_LEN = 4084.
Proof. reflexivity. Qed.

Section Send.
Context `{WedgeEnv}.
Context (Hk : ∀ t, kernel_ok t = true).

Lemma wask_ok {A} (f : nat → A) s : wask f s = Ok (f (w_ticks s), set_w_ticks (S (w_ticks s)) s).
Proof. done. Qed.

(** The state but for what the kernel was asked and sent. *)
Definition same_tables (s s' : wedge_state) : Prop :=
  wedge_sockets s' = wedge_sockets s ∧ wedge_calls s' = wedge_calls s ∧ call_count s' = call_count s ∧
  fins_daemon_pid s' = fins_daemon_pid s ∧ w_woken s' = w_woken s.

Lemma nl_send_msg_ok seq type buf s :
  ∃ s', nl_send_msg seq type buf s = Ok (0, s') ∧ same_tables s s' ∧
    w_netlink s' = w_netlink s ++ [MkNl type seq buf].
Proof using Hk. unfold nl_send_msg. erewrite bind_ok; [|apply wask_ok]. rewrite Hk. cbn [negb].
  erewrite bind_ok; [|apply wask_ok]. rewrite Hk. by eexists. Qed.

Lemma send_parts_ok fuel len pos seq rest s :
  (length rest < fuel)%nat →
  ∃ s', send_parts fuel len pos seq rest s = Ok (0, s') ∧ same_tables s s' ∧
    w_netlink s' = w_netlink s ++ parts fuel len pos seq rest.
Proof using Hk.
  revert pos seq rest s. induction fuel as [|fuel IH]; intros pos seq rest s Hl; [lia|]. cbn [send_parts parts].
  pose proof PART_LEN_val as HP.
  destruct (Z.leb_spec (Z.of_nat (length rest)) PART_LEN) as [Hle|Hgt].
  - destruct (nl_send_msg_ok seq NLMSG_DONE (part_hdr len (Z.of_nat (length rest)) pos ++ rest) s) as (s' & E & T & N).
    rewrite (bind_ok _ _ _ _ _ E). by exists s'.
  - assert (length (take (Z.to_nat PART_LEN) rest) = Z.to_nat PART_LEN) as Ht by (rewrite length_take; lia).
    rewrite Ht, Z2Nat.id by lia.
    destruct (nl_send_msg_ok seq 0 (part_hdr len PART_LEN pos ++ take (Z.to_nat PART_LEN) rest) s) as (s1 & E & T & N).
    rewrite (bind_ok _ _ _ _ _ E). change (0 <? 0) with false. cbv iota.
    destruct (IH (pos + PART_LEN) (u32 (seq + 1)) (drop (Z.to_nat PART_LEN) rest) s1) as (s2 & E2 & T2 & N2).
    { rewrite length_drop. lia. }
    exists s2. split; [exact E2|]. split.
    + destruct T as (?&?&?&?&?), T2 as (?&?&?&?&?). split_and!; congruence.
    + by rewrite N2, N, <- app_assoc.
Qed.

Lemma nl_send_ok msg s :
  ∃ s', nl_send msg s = Ok (0, s') ∧ same_tables s s' ∧ w_netlink s' = w_netlink s ++ message_parts msg.
Proof using Hk.
  unfold nl_send. erewrite bind_ok; [|apply wask_ok]. rewrite Hk. cbn [negb].
  destruct (send_parts_ok (S (length msg)) (Z.of_nat (length msg)) 0 0 msg (set_w_ticks (S (w_ticks s)) s))
    as (s' & E & T & N); [lia|]. by exists s'.
Qed.

End Send.

(** ** Putting the parts together *)

(** Messages that only go through the state of the receiver. *)
Fixpoint recv_steps (r : recv_state) (ms : list nl_msg)
    : res (recv_state * list (wedge_to_daemon_hdr * list Z)) :=
  match ms with
  | [] => Ok (r, [])
  | m :: ms =>
      match recv_step r m with
      | Ok (r', out) =>
          match recv_steps r' ms with
          | Ok (r'', outs) => Ok (r'', option_list out ++ outs)
          | e => e
          end
      | Segv => Segv | Exit => Exit | NoFuel => NoFuel
      end
  end.

(** Numbers in messages. *)
Lemma le_bytes_mod n x : le_bytes n (x mod 256 ^ Z.of_nat n) = le_bytes n x.
Proof.
  revert x. induction n as [|n IH]; intros x; [done|]. cbn [le_bytes].
  rewrite Nat2Z.inj_succ, Z.pow_succ_r by lia.
  rewrite Z.rem_mul_r by (try apply Z.pow_nonzero; lia). pose proof (Z.mod_pos_bound x 256).
  rewrite (Z.mul_comm 256), Z_mod_plus_full, Z.mod_mod, Z_div_plus_full, Z.div_small, Z.add_0_l, IH by lia. done.
Qed.
Lemma le_bytes_4_u32 x : le_bytes 4 (u32 x) = le_bytes 4 x.
Proof. exact (le_bytes_mod 4 x). Qed.

Lemma u32_at_mid b1 b2 off x :
  off = Z.of_nat (length b1) → u32_at (b1 ++ le_bytes 4 x ++ b2) off = Ok (u32 x).
Proof. intros Ho. unfold u32_at. rewrite <- le_bytes_4_u32. apply (read_at_mid b1 b2 off 4); [done|apply u32_range]. Qed.

Lemma int_at_mid b1 b2 off x :
  off = Z.of_nat (length b1) → int_at (b1 ++ le_bytes 4 x ++ b2) off = Ok (s32 x).
Proof.
  intros ->. unfold int_at, get_int. rewrite Nat2Z.id, drop_app_length.
  pose proof (read_at_mid [] b2 0 4 (u32 x) eq_refl (u32_range x)) as E. rewrite le_bytes_4_u32 in E.
  change (read_at (le_bytes 4 x ++ b2) 0 4 = Ok (u32 x)) in E. rewrite E.
  f_equal. unfold s32, u32. f_equal. Z.div_mod_to_equations. lia.
Qed.

Lemma bytes_at_end b1 b off n :
  off = Z.of_nat (length b1) → n = Z.of_nat (length b) → bytes_at (b1 ++ b) off n = Ok b.
Proof.
  intros -> ->. unfold bytes_at. rewrite Nat2Z.id, drop_app_length, (proj2 (Z.ltb_ge _ _)) by lia. by apply read_bytes_all.
Qed.

Lemma s32_id x : -2147483648 ≤ x < 2147483648 → s32 x = x.
Proof. intros Hx. unfold s32. rewrite Z.mod_small; lia. Qed.

(** The receiver with the first [k] bytes of [msg]. *)
Definition received (msg : list Z) (k : nat) : recv_state :=
  MkRecv (Some (take k msg ++ replicate (length msg - k) 0)) (Z.of_nat (length msg)) (Some (Z.of_nat k)).

Lemma write_next msg k (p : list Z) r :
  drop k msg = p ++ r → (k ≤ length msg)%nat →
  write_bytes (take k msg ++ replicate (length msg - k) 0) (Z.of_nat k) p
  = Ok (take (k + length p) msg ++ replicate (length msg - (k + length p)) 0).
Proof.
  intros Hd Hk. assert (length msg = k + length p + length r)%nat as Hm.
  { rewrite <- (take_drop k msg) at 1. rewrite Hd, !length_app, length_take. lia. }
  unfold write_bytes. rewrite length_app, length_take, length_replicate.
  rewrite (proj2 (Z.ltb_ge (Z.of_nat k) 0)), (proj2 (Z.ltb_ge _ _)) by lia. simpl orb. cbv iota. f_equal.
  rewrite Nat2Z.id. assert (length (take k msg) = k) as Ht by (rewrite length_take; lia).
  rewrite take_app_length' by done. rewrite drop_app_ge by lia. rewrite Ht, drop_replicate.
  rewrite <- (take_drop k msg) at 3. rewrite Hd, (take_app_ge (take k msg)) by lia. rewrite Ht.
  replace (k + length p - k)%nat with (length p) by lia. rewrite take_app_length, <- app_assoc.
  do 3 f_equal. lia.
Qed.

Lemma part_hdr_reads len n pos p :
  n = Z.of_nat (length p) →
  let d := part_hdr len n pos ++ p in
  u32_at d 0 = Ok (u32 len) ∧ int_at d 4 = Ok (s32 n) ∧ int_at d 8 = Ok (s32 pos) ∧
  bytes_at d sizeof_nl_hdr n = Ok p.
Proof.
  intros Hn d. unfold d. rewrite (bytes_at_end (part_hdr len n pos)) by done. unfold part_hdr.
  rewrite <- !app_assoc. split_and!; [exact (u32_at_mid [] _ 0 len eq_refl)| | |done].
  - exact (int_at_mid (le_bytes 4 len) _ 4 n eq_refl).
  - rewrite (app_assoc (le_bytes 4 len)). exact (int_at_mid (le_bytes 4 len ++ le_bytes 4 n) _ 8 pos eq_refl).
Qed.

Lemma recv_part_next msg k seq (p r : list Z) :
  drop k msg = p ++ r → (k ≤ length msg)%nat → Z.of_nat (length msg) < 2147483648 →
  (if seq =? 0 then k = 0%nat else True) →
  ∀ st, st = received msg k ∨ (k = 0%nat ∧ seq = 0 ∧ st = recv_idle) →
  recv_part st seq (part_hdr (Z.of_nat (length msg)) (Z.of_nat (length p)) (Z.of_nat k) ++ p)
  = Ok (received msg (k + length p), true).
Proof.
  intros Hd Hk Hl Hseq st Hst. assert (length msg = k + length p + length r)%nat as Hm.
  { rewrite <- (take_drop k msg) at 1. rewrite Hd, !length_app, length_take. lia. }
  unfold recv_part. destruct (part_hdr_reads (Z.of_nat (length msg)) (Z.of_nat (length p)) (Z.of_nat k) p) as (-> & -> & -> & Hb);
    [done|]. rewrite (u32_small (Z.of_nat (length msg))) by (unfold is_u32; lia).
  rewrite !(s32_id (Z.of_nat (length p))), !(s32_id (Z.of_nat k)), !(s32_id (Z.of_nat (length msg))), Hb by lia.
  destruct Hst as [->|(-> & -> & ->)].
  - change (msg_len (received msg k)) with (Z.of_nat (length msg)). change (msg_pt (received msg k)) with (Some (Z.of_nat k)).
    change (msg_buf (received msg k)) with (Some (take k msg ++ replicate (length msg - k) 0)).
    rewrite (proj2 (Z.eqb_neq (Z.of_nat (length msg)) (-1))) by lia.
    rewrite (u32_small (Z.of_nat (length msg))), Z.eqb_refl by (unfold is_u32; lia). cbn [negb andb].
    rewrite (proj2 (Z.ltb_ge (Z.of_nat (length msg)) 0)), andb_false_r by lia.
    assert (write_bytes (take k msg ++ replicate (length msg - k) 0) (Z.of_nat k) p
      = Ok (take (k + length p) msg ++ replicate (length msg - (k + length p)) 0)) as Hw by by eapply write_next.
    destruct (seq =? 0).
    + subst k. rewrite Nat2Z.id. rewrite Nat.sub_0_r in Hw. simpl in Hw |- *. rewrite Hw. by rewrite Z.add_0_l.
    + cbn [msg_buf msg_pt]. rewrite Hw. unfold received. do 3 f_equal. f_equal. lia.
  - cbn [recv_idle msg_len msg_buf msg_pt]. change (-1 =? -1) with true. cbn [negb andb]. change (0 =? 0) with true.
    rewrite (proj2 (Z.ltb_ge (Z.of_nat (length msg)) 0)) by lia. cbn [andb]. rewrite Nat2Z.id.
    pose proof (write_next msg 0 p r Hd Hk) as Hw. rewrite Nat.sub_0_r in Hw. simpl in Hw |- *. rewrite Hw.
    by rewrite Z.add_0_l.
Qed.

Lemma recv_step_part st type seq d st' :
  Z.of_nat (length d) ≤ RECV_BUFFER_SIZE → type = 0 ∨ type = NLMSG_DONE → recv_part st seq d = Ok (st', true) →
  recv_step st (MkNl type seq d) =
    if type =? NLMSG_DONE then
      match msg_buf st' with
      | Some b =>
          match read_hdr b with
          | Ok h => if msg_len st' <? sizeof_hdr then Segv else Ok (recv_idle, Some (h, drop (Z.to_nat sizeof_hdr) b))
          | _ => Segv
          end
      | None => Segv
      end
    else Ok (st', None).
Proof.
  intros Hl Ht E. unfold recv_step. cbn [nl_data nl_type nl_seq].
  rewrite (proj2 (Z.ltb_ge _ _) Hl), E. by destruct Ht as [->| ->].
Qed.

Lemma part_hdr_length a b c : length (part_hdr a b c) = 12%nat.
Proof. reflexivity. Qed.

Lemma parts_fit fuel len pos seq rest :
  Forall (λ m, Z.of_nat (length (nl_data m)) ≤ RECV_BUFFER_SIZE) (parts fuel len pos seq rest).
Proof.
  pose proof PART_LEN_val. revert pos seq rest. induction fuel as [|fuel IH]; intros pos seq rest; cbn [parts]; [done|].
  destruct (Z.leb_spec (Z.of_nat (length rest)) PART_LEN); constructor; try done; cbn [nl_data];
    rewrite length_app, part_hdr_length; unfold RECV_BUFFER_SIZE; rewrite ?length_take; lia.
Qed.

(** From the first [k] bytes on. *)
Lemma recv_parts fuel msg h k seq st :
  read_hdr msg = Ok h → sizeof_hdr ≤ Z.of_nat (length msg) < 2147483648 →
  (k ≤ length msg)%nat → (length msg - k < fuel)%nat → 0 ≤ seq → Z.of_nat k = seq * PART_LEN →
  st = received msg k ∨ (k = 0%nat ∧ seq = 0 ∧ st = recv_idle) →
  recv_steps st (parts fuel (Z.of_nat (length msg)) (Z.of_nat k) seq (drop k msg))
  = Ok (recv_idle, [(h, drop (Z.to_nat sizeof_hdr) msg)]).
Proof.
  intros Hh Hl. pose proof PART_LEN_val as HP. unfold sizeof_hdr in Hl.
  revert k seq st. induction fuel as [|fuel IH]; intros k seq st Hk Hf Hs Hks Hst; [lia|]. cbn [parts].
  assert (if seq =? 0 then k = 0%nat else True) as Hseq by (destruct (Z.eqb_spec seq 0); [lia|done]).
  destruct (Z.leb_spec (Z.of_nat (length (drop k msg))) PART_LEN) as [Hle|Hgt].
  - cbn [recv_steps]. rewrite (recv_step_part _ _ _ _ (received msg (k + length (drop k msg)))); [| |by right|].
    + rewrite Z.eqb_refl. unfold received. rewrite length_drop. replace (k + (length msg - k))%nat with (length msg) by lia.
      cbn [msg_buf msg_len]. rewrite Nat.sub_diag, firstn_all, app_nil_r, Hh.
      unfold sizeof_hdr. by rewrite (proj2 (Z.ltb_ge _ _)) by lia.
    + rewrite length_app, part_hdr_length. unfold RECV_BUFFER_SIZE. lia.
    + eapply recv_part_next; [symmetry; apply app_nil_r|done|lia|done|done].
  - assert (length (take (Z.to_nat PART_LEN) (drop k msg)) = Z.to_nat PART_LEN) as Ht by (rewrite length_take; lia).
    rewrite length_drop in Hgt. cbn [recv_steps].
    rewrite (recv_step_part _ _ _ _ (received msg (k + Z.to_nat PART_LEN))); [| |by left|].
    + change (0 =? NLMSG_DONE) with false. cbv iota. rewrite drop_drop.
      replace (Z.of_nat k + PART_LEN) with (Z.of_nat (k + Z.to_nat PART_LEN)) by lia.
      rewrite (u32_small (seq + 1)) by (unfold is_u32; lia).
      rewrite (IH (k + Z.to_nat PART_LEN)%nat (seq + 1)); [done|lia..|by left].
    + rewrite length_app, part_hdr_length. unfold RECV_BUFFER_SIZE. lia.
    + replace PART_LEN with (Z.of_nat (length (take (Z.to_nat PART_LEN) (drop k msg)))) at 1 by lia.
      rewrite <- Ht at 3. eapply recv_part_next; [symmetry; apply take_drop|done|lia|done|done].
Qed.

(** ** The header *)

Record hdr_ok (h : wedge_to_daemon_hdr) : Prop := {
  ho_sock : 0 ≤ h_sock_id h < 256 ^ 8;
  ho_index : -2147483648 ≤ h_sock_index h < 2147483648;
  ho_type : is_u32 (h_call_type h);
  ho_pid : -2147483648 ≤ h_call_pid h < 2147483648;
  ho_id : is_u32 (h_call_id h);
  ho_cindex : -2147483648 ≤ h_call_index h < 2147483648
}.

Lemma hdr_bytes_length `{WedgeEnv} h : length junk_pad = 4%nat → length (hdr_bytes h) = 32%nat.
Proof. intros Hj. unfold hdr_bytes. rewrite !length_app, length_take, !le_bytes_length. lia. Qed.

Lemma read_hdr_bytes `{WedgeEnv} h p : hdr_ok h → read_hdr (hdr_bytes h ++ p) = Ok h.
Proof.
  intros [Hs Hi Ht Hp Hd Hc]. unfold read_hdr, hdr_bytes. rewrite <- !app_assoc.
  set (a := le_bytes 8 _). set (b := le_bytes 4 (h_sock_index h)). set (c := le_bytes 4 (h_call_type h)).
  set (d := le_bytes 4 (h_call_pid h)). set (e := le_bytes 4 (h_call_id h)).
  rewrite (read_at_mid [] _ 0 8 (h_sock_id h) eq_refl Hs : read_at (a ++ _) 0 8 = _).
  rewrite (int_at_mid a _ 8 (h_sock_index h) eq_refl), (app_assoc a b).
  rewrite (u32_at_mid (a ++ b) _ 12 (h_call_type h) eq_refl), (app_assoc (a ++ b) c).
  rewrite (int_at_mid ((a ++ b) ++ c) _ 16 (h_call_pid h) eq_refl), (app_assoc ((a ++ b) ++ c) d).
  rewrite (u32_at_mid (((a ++ b) ++ c) ++ d) _ 20 (h_call_id h) eq_refl), (app_assoc (((a ++ b) ++ c) ++ d) e).
  rewrite (int_at_mid ((((a ++ b) ++ c) ++ d) ++ e) _ 24 (h_call_index h) eq_refl).
  rewrite !s32_id, !u32_small by done. by destruct h.
Qed.

Lemma recv_message msg h :
  read_hdr msg = Ok h → sizeof_hdr ≤ Z.of_nat (length msg) < 2147483648 →
  recv_steps recv_idle (message_parts msg) = Ok (recv_idle, [(h, drop (Z.to_nat sizeof_hdr) msg)]).
Proof. intros Hh Hl. apply (recv_parts _ msg h 0 0); [done|done|lia|lia|lia|done|by right]. Qed.

Lemma recv_steps_app r ms r' outs ms' :
  recv_steps r ms = Ok (r', outs) →
  recv_steps r (ms ++ ms') =
    match recv_steps r' ms' with Ok (r'', outs') => Ok (r'', outs ++ outs') | e => e end.
Proof.
  revert r r' outs. induction ms as [|m ms IH]; intros r r' outs; simpl.
  - intros [= <- <-]. by destruct (recv_steps r ms') as [[? ?]| | |].
  - destruct (recv_step r m) as [[r1 o]| | |]; try done.
    destruct (recv_steps r1 ms) as [[r2 os]| | |] eqn:E; try done. intros [= <- <-].
    rewrite (IH r1 r2 os E). destruct (recv_steps r2 ms') as [[? ?]| | |]; try done. by rewrite <- app_assoc.
Qed.

(** A message of the wedge is put together again. *)
Lemma recv_sent `{WedgeEnv} h p :
  length junk_pad = 4%nat → hdr_ok h → sizeof_hdr + Z.of_nat (length p) < 2147483648 →
  recv_steps recv_idle (message_parts (hdr_bytes h ++ p)) = Ok (recv_idle, [(h, p)]).
Proof.
  intros Hj Hh Hl. unfold sizeof_hdr in Hl.
  assert (length (hdr_bytes h ++ p) = 32 + length p)%nat as Hlen by (by rewrite length_app, hdr_bytes_length).
  rewrite (recv_message _ h); [|by apply read_hdr_bytes|unfold sizeof_hdr; lia].
  by rewrite drop_app_length' by (rewrite hdr_bytes_length by done; reflexivity).
Qed.

(** ** Properties *)

(** Messages sent one after the other. *)
Fixpoint send_all `{WedgeEnv} (ms : list (wedge_to_daemon_hdr * list Z)) : M wedge_state unit :=
  match ms with
  | [] => mret tt
  | (h, p) :: ms => nl_send (hdr_bytes h ++ p) ;; send_all ms
  end.

(** C6: The messages of the wedge reach the daemon as they were sent: cut into as
    many parts as their length needs, the parts of any sequence of messages are
    put together again by the receiving thread into the same headers and
    contents, in the same order, and nothing else. *)
Theorem netlink_roundtrip `{WedgeEnv} ms s :
  (∀ t, kernel_ok t = true) → length junk_pad = 4%nat →
  Forall (λ m, hdr_ok m.1 ∧ sizeof_hdr + Z.of_nat (length m.2) < 2147483648) ms →
  ∃ s' sent, send_all ms s = Ok (tt, s') ∧ w_netlink s' = w_netlink s ++ sent ∧
    Forall (λ m, Z.of_nat (length (nl_data m)) ≤ RECV_BUFFER_SIZE) sent ∧
    recv_steps recv_idle sent = Ok (recv_idle, ms).
Proof.
  intros Hk Hj. revert s. induction ms as [|[h p] ms IH]; intros s Hms; simpl.
  - exists s, []. by rewrite app_nil_r.
  - apply Forall_cons in Hms as [[Hh Hl] Hms]. simpl in Hh, Hl. unfold sizeof_hdr in Hl.
    destruct (nl_send_ok Hk (hdr_bytes h ++ p) s) as (s1 & E1 & _ & N1). rewrite (bind_ok _ _ _ _ _ E1).
    destruct (IH s1 Hms) as (s2 & sent & E2 & N2 & F2 & R2). exists s2, (message_parts (hdr_bytes h ++ p) ++ sent).
    split_and!; [exact E2|by rewrite N2, N1, <- app_assoc| |].
    + apply Forall_app. split; [apply parts_fit|done].
    + rewrite (recv_steps_app _ _ recv_idle [(h, p)]); [by rewrite R2|]. by apply recv_sent.
Qed.

(** A kernel in which everything succeeds, with an empty wedge. *)
Definition demo_wedge_env : WedgeEnv :=
  {| kernel_ok := λ _, true; new_sk := λ t, 4096 + 64 * Z.of_nat t; junk_pad := [165; 165; 165; 165];
     sleep_rounds := 8; others_run := λ s, s |}.
Definition demo_wcall : fins_wedge_call := MkWCall NO_CALL 0 0 0 0 false 0 0 None 0.
Definition demo_wsocket : fins_wedge_socket := MkWSock NO_SOCK 0 [] false None.
Definition demo_wedge : wedge_state :=
  MkWState (replicate 100 demo_wsocket) (replicate 100 demo_wcall) 7 4000 [] [] 0.

(** Witness of C6: a small message and one of three parts. *)
Lemma netlink_roundtrip_witness :
  let ms := [(MkHdr 70 0 BIND_CALL 9 31 4, [1; 2; 3]); (MkHdr 70 0 SENDMSG_CALL (-9) 32 5, replicate 10000 255)] in
  ∃ s' sent, send_all (H := demo_wedge_env) ms demo_wedge = Ok (tt, s') ∧ w_netlink s' = sent ∧
    Forall (λ m, Z.of_nat (length (nl_data m)) ≤ RECV_BUFFER_SIZE) sent ∧
    recv_steps recv_idle sent = Ok (recv_idle, ms).
Proof.
  intros ms. apply (netlink_roundtrip (H := demo_wedge_env) ms demo_wedge); [done|done|].
  repeat constructor; try (vm_compute; intros; discriminate); done.
Defined.

(** A message of another length finds the receiver waiting for the rest of [msg]. *)
Lemma recv_blocked (msg : list Z) k (m : list Z) rest :
  (k ≤ length msg)%nat → Z.of_nat (length msg) < 2147483648 → 
  Z.of_nat (length m) < 4294967296 → length m ≠ length msg →
  ∀ fuel pos seq,
  recv_steps (received msg k) (parts fuel (Z.of_nat (length m)) pos seq rest) = Ok (received msg k, []).
Proof.
  intros Hk Hl Hm Hne fuel. revert rest. induction fuel as [|fuel IH]; intros rest pos seq; [done|].
  assert (∀ n p q, n = Z.of_nat (length p) →
    recv_part (received msg k) q (part_hdr (Z.of_nat (length m)) n pos ++ p) = Ok (received msg k, false)) as Hp.
  { intros n p q Hn. unfold recv_part. destruct (part_hdr_reads (Z.of_nat (length m)) n pos p Hn) as (-> & -> & -> & _).
    change (msg_len (received msg k)) with (Z.of_nat (length msg)). rewrite !u32_small by (unfold is_u32; lia).
    by rewrite (proj2 (Z.eqb_neq _ (-1))), (proj2 (Z.eqb_neq _ _)) by lia. }
  pose proof PART_LEN_val.
  assert (∀ t q d, Z.of_nat (length d) ≤ RECV_BUFFER_SIZE → t = 0 ∨ t = NLMSG_DONE →
    recv_part (received msg k) q d = Ok (received msg k, false) →
    recv_step (received msg k) (MkNl t q d) = Ok (received msg k, None)) as Hs.
  { intros t q d Hd Ht E. unfold recv_step. cbn [nl_data nl_type nl_seq].
    rewrite (proj2 (Z.ltb_ge _ _) Hd), E. by destruct Ht as [->| ->]. }
  cbn [parts]. destruct (Z.leb_spec (Z.of_nat (length rest)) PART_LEN); cbn [recv_steps].
  - rewrite Hs; [done| |by right|by apply Hp]. rewrite length_app, part_hdr_length. unfold RECV_BUFFER_SIZE. lia.
  - rewrite Hs; [by rewrite IH| |by left|apply Hp; rewrite length_take; lia].
    rewrite length_app, part_hdr_length, length_take. unfold RECV_BUFFER_SIZE. lia.
Qed.

(** C7: When the last part of a message is lost, the receiving thread keeps
    waiting for it: every later message of another length is refused, for
    ever. *)
Theorem netlink_lost_part (msg : list Z) k (ms : list (list Z)) :
  (k ≤ length msg)%nat → Z.of_nat (length msg) < 2147483648 →
  Forall (λ m, Z.of_nat (length m) < 4294967296 ∧ length m ≠ length msg) ms →
  recv_steps (received msg k) (concat (map message_parts ms)) = Ok (received msg k, []).
Proof.
  intros Hk Hl. induction ms as [|m ms IH]; intros Hms; [done|]. apply Forall_cons in Hms as [[Hm Hne] Hms].
  cbn [map concat]. rewrite (recv_steps_app _ _ (received msg k) []); [by rewrite IH|]. by apply recv_blocked.
Qed.

(** Witness of C7: after the first part of a message of 5000 bytes. *)
Lemma netlink_lost_part_witness :
  let big := replicate 5000 0 in
  recv_steps recv_idle (take 1 (message_parts big)) = Ok (received big 4084, []) ∧
  recv_steps (received big 4084) (concat (map message_parts [replicate 40 1; replicate 50 2]))
  = Ok (received big 4084, []).
Proof.
  intros big. split; [vm_compute; reflexivity|].
  apply netlink_lost_part; [vm_compute; lia|vm_compute; done|]. repeat constructor; vm_compute; discriminate.
Defined.
