(* ===== verification/WedgeCalls.v ===== *)
(** * Calls of applications that reach the daemon and return

    The first half of a call leaves a message for the daemon and an entry that
    waits; the reply of the daemon with the identifier of that entry wakes it;
    the second half returns what the reply says. *)

From stdpp Require Import base list gmap strings.
From Stdlib Require Import ZArith Lia.
From S2P Require Import Prelude Queue Metadata Frame Module IPv4 Daemon DaemonUdp DaemonOut DaemonFacts DaemonPorts Wedge Netlink.
Open Scope Z_scope.
Open Scope fins_scope.

Section Calls.
Context `{WedgeEnv}.
Context (Hk : ∀ t, kernel_ok t = true).

Lemma get_wsock_ok i x s : 0 ≤ i → wedge_sockets s !! Z.to_nat i = Some x → get_wsock i s = Ok (x, s).
Proof. intros Hi Hx. unfold get_wsock. erewrite bind_ok; [|done]. by rewrite (proj2 (Z.ltb_ge i 0) Hi), Hx. Qed.
Lemma get_wcall_ok i c s : 0 ≤ i → wedge_calls s !! Z.to_nat i = Some c → get_wcall i s = Ok (c, s).
Proof. intros Hi Hc. unfold get_wcall. erewrite bind_ok; [|done]. by rewrite (proj2 (Z.ltb_ge i 0) Hi), Hc. Qed.

Lemma upd_wsock_ok i f x s :
  0 ≤ i → wedge_sockets s !! Z.to_nat i = Some x →
  upd_wsock i f s = Ok (tt, set_wedge_sockets (<[Z.to_nat i := f x]> (wedge_sockets s)) s).
Proof. intros Hi Hx. unfold upd_wsock. by rewrite (bind_ok _ _ _ _ _ (get_wsock_ok i x s Hi Hx)). Qed.
Lemma upd_wcall_ok i f c s :
  0 ≤ i → wedge_calls s !! Z.to_nat i = Some c →
  upd_wcall i f s = Ok (tt, set_wedge_calls (<[Z.to_nat i := f c]> (wedge_calls s)) s).
Proof. intros Hi Hc. unfold upd_wcall. by rewrite (bind_ok _ _ _ _ _ (get_wcall_ok i c s Hi Hc)). Qed.

Definition bump (t n : Z) (x : fins_wedge_socket) : fins_wedge_socket :=
  set_ws_threads (<[Z.to_nat t := s32 (default 0 (ws_threads x !! Z.to_nat t) + n)]> (ws_threads x)) x.

Lemma threads_add_ok i t n x s :
  0 ≤ i → wedge_sockets s !! Z.to_nat i = Some x → is_Some (ws_threads x !! Z.to_nat t) →
  threads_add i t n s = Ok (tt, set_wedge_sockets (<[Z.to_nat i := bump t n x]> (wedge_sockets s)) s).
Proof.
  intros Hi Hx [k Hk']. unfold threads_add, get_threads.
  erewrite bind_ok; [|erewrite bind_ok; [|by apply get_wsock_ok]; rewrite Hk'; done].
  erewrite upd_wsock_ok by done. unfold bump. by rewrite Hk'.
Qed.

(** A socket that is ready for a call of some type, with the entry the call
    will get. *)
Record wready (s : wedge_state) (sk si ci t : Z) : Prop := {
  wr_pid : fins_daemon_pid s ≠ -1;
  wr_find : first_index (λ x, (ws_sock_id x =? u32 sk) && negb (ws_release_flag x)) (wedge_sockets s) 0 = si;
  wr_sock : ∃ x, 0 ≤ si ∧ wedge_sockets s !! Z.to_nat si = Some x ∧ is_Some (ws_threads x !! Z.to_nat t);
  wr_free : first_index (λ c, wc_call_id c =? NO_CALL) (wedge_calls s) 0 = ci;
  wr_call : ∃ c, 0 ≤ ci ∧ wedge_calls s !! Z.to_nat ci = Some c;
  wr_count : is_u32 (call_count s) ∧ call_count s ≠ NO_CALL
}.

(** The entry of a call that waits. *)
Definition wwaits (s : wedge_state) (sk si ci t id : Z) : Prop :=
  ∃ c, 0 ≤ ci ∧ wedge_calls s !! Z.to_nat ci = Some c ∧ wc_call_id c = id ∧ wc_wait_sem c = 0%nat ∧
    wc_reply c = false ∧ wc_call_type c = t ∧
  ∃ x, 0 ≤ si ∧ wedge_sockets s !! Z.to_nat si = Some x ∧ ws_sock_id x = u32 sk ∧
    is_Some (ws_threads x !! Z.to_nat t).

Lemma first_index_found {A} (test : A → bool) l i x :
  first_index test l 0 = i → 0 ≤ i → l !! Z.to_nat i = Some x → test x = true.
Proof.
  intros Hf Hi Hx. destruct (first_index_spec test l 0) as [[E _]|(l1 & y & l2 & -> & E & Hy & _)]; [lia|lia|].
  rewrite E, Z.add_0_l in Hf. subst i. rewrite Nat2Z.id, lookup_app_r, Nat.sub_diag in Hx by lia. by injection Hx as <-.
Qed.

Lemma calls_insert_ok id sid si t s ci c :
  first_index (λ c, wc_call_id c =? NO_CALL) (wedge_calls s) 0 = ci → 0 ≤ ci → wedge_calls s !! Z.to_nat ci = Some c →
  wedge_calls_insert id sid si t s =
    Ok (ci, set_wedge_calls (<[Z.to_nat ci := MkWCall id t sid si 0 false 0 (wc_msg c) (wc_buf c) (wc_len c)]> (wedge_calls s)) s).
Proof.
  intros Hf Hi Hc. unfold wedge_calls_insert. erewrite bind_ok; [|done]. rewrite Hf, (proj2 (Z.eqb_neq ci (-1))) by lia.
  erewrite bind_ok; [|by apply (upd_wcall_ok ci _ c)]. done.
Qed.

Lemma open_call_sends sid si pid t pre post p0 p s ci c :
  first_index (λ c, wc_call_id c =? NO_CALL) (wedge_calls s) 0 = ci → 0 ≤ ci → wedge_calls s !! Z.to_nat ci = Some c →
  (∀ s, pre s = Ok (Built p0, s)) → (∀ s, post p0 s = Ok (Built p, s)) →
  ∃ s', open_call sid si pid t pre post s = Ok (Sent ci, s') ∧
    wedge_sockets s' = wedge_sockets s ∧ fins_daemon_pid s' = fins_daemon_pid s ∧
    wedge_calls s' =
      <[Z.to_nat ci := MkWCall (call_count s) t sid si 0 false 0 (wc_msg c) (wc_buf c) (wc_len c)]> (wedge_calls s) ∧
    w_netlink s' = w_netlink s ++ message_parts (hdr_bytes (MkHdr sid si t pid (call_count s) ci) ++ p).
Proof using Hk.
  intros Hf Hi Hc Hpre Hpost. unfold open_call. erewrite bind_ok; [|done]. erewrite bind_ok; [|done].
  set (s1 := set_call_count _ s). rewrite (bind_ok _ _ _ _ _ (calls_insert_ok _ _ _ _ s1 ci c Hf Hi Hc)).
  rewrite (proj2 (Z.eqb_neq ci (-1))) by lia. set (s2 := set_wedge_calls _ s1).
  rewrite (bind_ok _ _ _ _ _ (Hpre s2)). erewrite bind_ok; [|apply wask_ok]. rewrite Hk. cbn [negb].
  set (s3 := set_w_ticks _ s2). rewrite (bind_ok _ _ _ _ _ (Hpost s3)).
  destruct (nl_send_ok Hk (hdr_bytes (MkHdr sid si t pid (call_count s) ci) ++ p) s3) as (s4 & E & (T1 & T2 & _ & T4 & _) & N).
  rewrite (bind_ok _ _ _ _ _ E). exists s4. split_and!; [done|by rewrite T1|by rewrite T4|by rewrite T2|by rewrite N].
Qed.

(** The first half: one message, and the entry waits. *)
Lemma request_sends sk pid t err pre post p0 p s si ci :
  wready s sk si ci t →
  (∀ s, pre s = Ok (Built p0, s)) → (∀ s, post p0 s = Ok (Built p, s)) →
  ∃ s', request (Some sk) pid t err pre post s = Ok (Waiting si ci, s') ∧
    w_netlink s' = w_netlink s ++ message_parts (hdr_bytes (MkHdr (u32 sk) si t pid (call_count s) ci) ++ p) ∧
    fins_daemon_pid s' = fins_daemon_pid s ∧ wwaits s' sk si ci t (call_count s).
Proof using Hk.
  intros [Hp Hf (x & Hi & Hx & Ht) Hc (c & Hci & Hcc) _] Hpre Hpost.
  pose proof (first_index_found _ _ _ _ Hf Hi Hx) as [Hid _]%andb_true_iff. apply Z.eqb_eq in Hid.
  unfold request. erewrite bind_ok; [|done]. rewrite (proj2 (Z.eqb_neq _ _) Hp). unfold get_unique_sock_id, wedge_sockets_find.
  erewrite bind_ok; [|erewrite bind_ok; [|done]; rewrite Hf; done]. rewrite (proj2 (Z.eqb_neq si (-1))) by lia.
  erewrite bind_ok; [|by apply (threads_add_ok si t 1 x)]. set (s1 := set_wedge_sockets _ s).
  destruct (open_call_sends (u32 sk) si pid t pre post p0 p s1 ci c) as (s2 & E & S & P & C & N); [done..|].
  rewrite (bind_ok _ _ _ _ _ E). exists s2. split_and!; [done|done|done|].
  exists (MkWCall (call_count s) t (u32 sk) si 0 false 0 (wc_msg c) (wc_buf c) (wc_len c)).
  split_and!; [done| |done..|].
  - rewrite C. apply list_lookup_insert_eq. by eapply lookup_lt_Some.
  - exists (bump t 1 x). split_and!; [done| |done|].
    + rewrite S. apply list_lookup_insert_eq. by eapply lookup_lt_Some.
    + unfold bump. cbn [set_ws_threads ws_threads]. apply lookup_lt_is_Some_2. rewrite length_insert. by apply lookup_lt_is_Some_1.
Qed.

(** ** The reply *)

Lemma reply_bytes_reads m :
  is_u32 (w_call_type m) → is_u32 (w_id m) → -2147483648 ≤ w_index m < 2147483648 → is_u32 (w_ret m) → is_u32 (w_msg m) →
  let b := reply_bytes m in
  Z.of_nat (length b) = sizeof_hdr + Z.of_nat (length (w_payload m)) ∧
  u32_at b 0 = Ok (w_call_type m) ∧ u32_at b 8 = Ok (w_id m) ∧ (∃ v, read_at b 8 8 = Ok v) ∧
  int_at b 16 = Ok (w_index m) ∧ u32_at b 20 = Ok (w_ret m) ∧ u32_at b 24 = Ok (w_msg m) ∧
  drop (Z.to_nat sizeof_hdr) b = w_payload m.
Proof.
  intros Ht Hi Hx Hr Hm b. unfold b, reply_bytes.
  assert (le_bytes 8 (w_id m) = le_bytes 4 (w_id m) ++ le_bytes 4 0) as E8.
  { unfold is_u32 in Hi. cbn [le_bytes app]. repeat f_equal; Z.div_mod_to_equations; lia. }
  rewrite E8.
  set (a := le_bytes 4 (w_call_type m)). set (z := le_bytes 4 0). set (d := le_bytes 4 (w_id m)).
  set (e := le_bytes 4 (w_index m)). set (f := le_bytes 4 (w_ret m)). set (g := le_bytes 4 (w_msg m)).
  split_and!.
  - rewrite !length_app. subst a z d e f g. rewrite !le_bytes_length. unfold sizeof_hdr. lia.
  - etransitivity; [exact (u32_at_mid [] _ 0 (w_call_type m) eq_refl)|by rewrite u32_small].
  - rewrite <- !app_assoc, (app_assoc a z). etransitivity; [exact (u32_at_mid (a ++ z) _ 8 (w_id m) eq_refl)|by rewrite u32_small].
  - exists (w_id m). fold d z in E8. rewrite <- E8, (app_assoc a z).
    apply (read_at_mid (a ++ z) _ 8 8 (w_id m) eq_refl). unfold is_u32 in Hi. lia.
  - rewrite <- !app_assoc, (app_assoc a z), (app_assoc (a ++ z) d), (app_assoc ((a ++ z) ++ d) z).
    etransitivity; [exact (int_at_mid (((a ++ z) ++ d) ++ z) _ 16 (w_index m) eq_refl)|by rewrite s32_id].
  - rewrite <- !app_assoc, (app_assoc a z), (app_assoc (a ++ z) d), (app_assoc ((a ++ z) ++ d) z), (app_assoc _ e).
    etransitivity; [exact (u32_at_mid ((((a ++ z) ++ d) ++ z) ++ e) _ 20 (w_ret m) eq_refl)|by rewrite u32_small].
  - rewrite <- !app_assoc, (app_assoc a z), (app_assoc (a ++ z) d), (app_assoc ((a ++ z) ++ d) z), (app_assoc _ e), (app_assoc _ f).
    etransitivity; [exact (u32_at_mid (((((a ++ z) ++ d) ++ z) ++ e) ++ f) _ 24 (w_msg m) eq_refl)|by rewrite u32_small].
  - reflexivity.
Qed.

Definition answered (m : wedge_msg) (c : fins_wedge_call) : fins_wedge_call :=
  MkWCall (wc_call_id c) (wc_call_type c) (wc_sock_id c) (wc_sock_index c) (S (wc_wait_sem c)) true (w_ret m) (w_msg m)
    (if decide (w_payload m = []) then None else Some (w_payload m)) (Z.of_nat (length (w_payload m))).

(** The reply of the daemon reaches the entry it is for. *)
Lemma reply_stored pid m s c :
  pid ≠ -1 → 0 < w_call_type m < POLL_EVENT_CALL → is_u32 (w_id m) → 0 ≤ w_index m ≤ MAX_CALLS →
  is_u32 (w_ret m) → is_u32 (w_msg m) →
  wedge_calls s !! Z.to_nat (w_index m) = Some c → wc_call_id c = w_id m →
  ∃ s', nl_data_ready pid (reply_bytes m) s = Ok (tt, s') ∧ wedge_sockets s' = wedge_sockets s ∧
    fins_daemon_pid s' = fins_daemon_pid s ∧ call_count s' = call_count s ∧
    wedge_calls s' = <[Z.to_nat (w_index m) := answered m c]> (wedge_calls s).
Proof using Hk.
  intros Hp Ht Hi Hx Hr Hm Hc Hid. unfold POLL_EVENT_CALL, MAX_CALLS in *.
  destruct (reply_bytes_reads m) as (L & R1 & R2 & [v R3] & R4 & R5 & R6 & D); [unfold is_u32; lia|done|lia|done|done|].
  unfold nl_data_ready. rewrite (proj2 (Z.eqb_neq _ _) Hp), L, (proj2 (Z.leb_le _ _)) by lia.
  rewrite R1, R2, R3, R4, R5, R6, D. do 6 (erewrite bind_ok; [|done]).
  unfold POLL_EVENT_CALL, MAX_CALL_TYPES.
  rewrite (proj2 (Z.eqb_neq (w_call_type m) 0)), (proj2 (Z.eqb_neq (w_call_type m) 21)), (proj2 (Z.ltb_lt _ _)) by lia.
  unfold store_reply, MAX_CALLS. rewrite (proj2 (Z.eqb_neq (w_index m) (-1))), (proj2 (Z.ltb_ge _ _)) by lia. cbn [orb].
  rewrite (bind_ok _ _ _ _ _ (get_wcall_ok _ c s (proj1 Hx) Hc)), Hid, Z.eqb_refl. cbn [negb]. unfold answered.
  destruct (decide (w_payload m = [])) as [->|Hne].
  - cbn [length]. change (Z.of_nat 0 =? 0) with true. cbv iota. erewrite bind_ok; [|done].
    rewrite (upd_wcall_ok _ _ c) by (done || lia). eexists. split; [done|]. by rewrite Hid.
  - rewrite (proj2 (Z.eqb_neq (Z.of_nat (length (w_payload m))) 0)) by (destruct (w_payload m); [done|simpl; lia]).
    erewrite bind_ok; [|erewrite bind_ok; [|apply wask_ok]; rewrite Hk; done].
    rewrite (upd_wcall_ok _ _ c) by (done || lia). eexists. split; [done|]. simpl. by rewrite Hid.
Qed.

(** ** The second half *)

Lemma woken_ok {A} si ci t (none a : A) k c x s :
  0 ≤ ci → wedge_calls s !! Z.to_nat ci = Some c → wc_reply c = true → wc_wait_sem c = 1%nat →
  0 ≤ si → wedge_sockets s !! Z.to_nat si = Some x → is_Some (ws_threads x !! Z.to_nat t) →
  (∀ s', wedge_calls s' !! Z.to_nat ci = Some (set_wc_wait_sem 0 c) → wedge_sockets s' = wedge_sockets s →
     ∃ s'', k (set_wc_wait_sem 0 c) s' = Ok (a, s'') ∧ wedge_calls s'' = wedge_calls s' ∧ wedge_sockets s'' = wedge_sockets s') →
  ∃ s', woken si ci t false none k s = Ok (a, s') ∧
    wedge_calls s' = <[Z.to_nat ci := set_wc_call_id NO_CALL (set_wc_wait_sem 0 c)]> (wedge_calls s) ∧
    wedge_sockets s' = <[Z.to_nat si := bump t (-1) x]> (wedge_sockets s).
Proof using.
  intros Hi Hc Hr Hw Hsi Hx Ht Hkk. pose proof (lookup_lt_Some _ _ _ Hc) as Hlt. unfold woken, down_call.
  erewrite bind_ok; [|erewrite bind_ok; [|by apply get_wcall_ok]; rewrite Hw; by apply upd_wcall_ok].
  set (s1 := set_wedge_calls _ s).
  assert (wedge_calls s1 !! Z.to_nat ci = Some (set_wc_wait_sem 0 c)) as Hc1 by by apply list_lookup_insert_eq.
  erewrite bind_ok; [|by apply get_wcall_ok]. change (wc_reply (set_wc_wait_sem 0 c)) with (wc_reply c). rewrite Hr.
  destruct (Hkk s1 Hc1 eq_refl) as (s2 & E & C2 & S2). rewrite (bind_ok _ _ _ _ _ E).
  erewrite bind_ok; [|apply upd_wcall_ok; [done|rewrite C2; exact Hc1]]. set (s3 := set_wedge_calls _ s2).
  erewrite bind_ok; [|apply (threads_add_ok si t (-1) x); [done|cbn; rewrite S2; exact Hx|done]].
  eexists. split; [done|]. split; cbn.
  - rewrite C2. unfold s1. cbn. by rewrite list_insert_insert_eq.
  - by rewrite S2.
Qed.

(** A positive answer without data: the call returns its value. *)
Lemma ack_returned t sk si ci id pid v s :
  wwaits s sk si ci t id → 0 < t < POLL_EVENT_CALL → ci ≤ MAX_CALLS → is_u32 id → pid ≠ -1 → 0 ≤ v < 2147483648 →
  ∃ s1 s2, nl_data_ready pid (reply_bytes (MkWedge t id ci DAEMON_ACK v [])) s = Ok (tt, s1) ∧
    simple_woken t si ci false s1 = Ok (v, s2).
Proof using Hk.
  intros (c & Hci & Hc & Hid & Hsem & Hrep & Htype & x & Hsi & Hx & Hxid & Hxt) Ht Hmax Hu Hp Hv.
  set (m := MkWedge t id ci DAEMON_ACK v []).
  destruct (reply_stored pid m s c) as (s1 & E1 & S1 & _ & _ & C1); try done; [unfold is_u32; cbn; lia|].
  destruct (woken_ok si ci t (-EINTR) v (λ c s, Ok (checkConfirmation c, s)) (answered m c) x s1) as (s2 & E2 & _);
    try done; [|cbn; by rewrite Hsem|by rewrite S1| |by exists s1, s2].
  - rewrite C1. apply list_lookup_insert_eq. by eapply lookup_lt_Some.
  - intros s' _ _. exists s'. split_and!; [|done|done]. unfold mret, M_ret, checkConfirmation. cbn.
    by rewrite s32_id by lia.
Qed.

End Calls.
