(* ===== verification/Sockets.v ===== *)
(** * Datagrams from application to application

    The compositions of the whole stack for UDP: a [sendmsg] call of an
    application goes through the wedge, the daemon, the UDP and the IPv4 module
    of its host; the packet crosses to the other host, and goes up through its
    IPv4 and UDP modules, its daemon and its wedge to the [recvmsg] call of the
    other application. *)

From stdpp Require Import base list gmap strings.
From Stdlib Require Import ZArith Lia.
From S2P Require Import Prelude Queue Metadata Frame Module IPv4 UDP Double Run Icmp IcmpFacts Ping Daemon DaemonUdp DaemonOut DaemonFacts DaemonPorts DaemonQueue Wedge Netlink WedgeCalls.
Open Scope Z_scope.
Open Scope fins_scope.

(** ** The wedge and the daemon *)

(** Bytes in the middle of a buffer. *)
Lemma bytes_at_mid b1 b b2 off n :
  off = Z.of_nat (length b1) → n = Z.of_nat (length b) → bytes_at (b1 ++ b ++ b2) off n = Ok b.
Proof.
  intros -> ->. unfold bytes_at. rewrite Nat2Z.id, drop_app_length, (proj2 (Z.ltb_ge _ _)) by lia.
  rewrite read_bytes_some by (rewrite length_app; lia). by rewrite Nat2Z.id, take_app_length.
Qed.

(** The messages of [sendmsg] and [recvmsg]. *)
Definition sendmsg_bytes (to : sockaddr) (flags : Z) (data : list Z) : list Z :=
  le_bytes 4 0 ++ le_bytes 4 sizeof_sockaddr_in ++ sockaddr_bytes to ++ le_bytes 4 flags ++ le_bytes 4 0
    ++ [] ++ le_bytes 4 (Z.of_nat (length data)) ++ data.
Definition recvmsg_bytes (len flags : Z) : list Z :=
  le_bytes 4 0 ++ le_bytes 4 (s32 len) ++ le_bytes 4 0 ++ le_bytes 4 flags.

Section WedgeSide.
Context `{WedgeEnv}.
Context (Hk : ∀ t, kernel_ok t = true).

Lemma sendmsg_sent sk pid flags to data s si ci :
  wready s sk si ci SENDMSG_CALL → Z.of_nat (length data) < 65536 →
  ∃ s', fins_sendmsg (Some sk) pid 0 sizeof_sockaddr_in (Some (sockaddr_bytes to)) flags []
          [MkIov (Some data) (Z.of_nat (length data))] s = Ok (Waiting si ci, s') ∧
    w_netlink s' = w_netlink s ++
      message_parts (hdr_bytes (MkHdr (u32 sk) si SENDMSG_CALL pid (call_count s) ci) ++ sendmsg_bytes to flags data) ∧
    fins_daemon_pid s' = fins_daemon_pid s ∧ wwaits s' sk si ci SENDMSG_CALL (call_count s).
Proof using Hk.
  intros Hr Hl. apply (request_sends Hk sk pid SENDMSG_CALL (λ rc, rc) _ _ [] (sendmsg_bytes to flags data) s si ci Hr); [done|].
  intros s0. unfold sizeof_hdr, sizeof_sockaddr_in. cbn [iov_total foldr iov_len length].
  rewrite (proj2 (Z.leb_gt _ _)) by lia. erewrite bind_ok; [|done].
  assert (gather [MkIov (Some data) (Z.of_nat (length data))] = Ok (Some data)) as Hg.
  { cbn [gather iov_base iov_len]. by rewrite read_bytes_all, app_nil_r. }
  rewrite Hg. erewrite bind_ok; [|done]. unfold sendmsg_bytes, mret, M_ret, sizeof_sockaddr_in. by rewrite Z.add_0_r.
Qed.

Lemma recvmsg_sent sk pid len flags s si ci :
  wready s sk si ci RECVMSG_CALL →
  ∃ s', fins_recvmsg (Some sk) pid 0 len 0 flags s = Ok (Waiting si ci, s') ∧
    w_netlink s' = w_netlink s ++
      message_parts (hdr_bytes (MkHdr (u32 sk) si RECVMSG_CALL pid (call_count s) ci) ++ recvmsg_bytes len flags) ∧
    fins_daemon_pid s' = fins_daemon_pid s ∧ wwaits s' sk si ci RECVMSG_CALL (call_count s).
Proof using Hk.
  intros Hr.
  by apply (request_sends Hk sk pid RECVMSG_CALL (λ rc, rc) _ _ (recvmsg_bytes len flags) (recvmsg_bytes len flags) s si ci Hr).
Qed.

(** The evaluation of an answer with a datagram of [d]. *)
Lemma recvmsg_eval_ok nr cr len c a d s :
  wc_len c = 28 + Z.of_nat (length d) → Z.of_nat (length d) ≤ len → Z.of_nat (length d) < 2147483648 →
  match nr with Some n => sizeof_sockaddr_in ≤ n | None => True end →
  match cr with Some n => 0 ≤ n | None => True end →
  ∃ s', recvmsg_eval nr cr [len] c
      (le_bytes 4 sizeof_sockaddr_in ++ sockaddr_bytes a ++ le_bytes 4 (Z.of_nat (length d)) ++ d ++ le_bytes 4 0) s
    = Ok ((Z.of_nat (length d), MkOut (wc_msg c) (sockaddr_bytes a) (if decide (d = []) then [] else [d]) []), s') ∧
    wedge_calls s' = wedge_calls s ∧ wedge_sockets s' = wedge_sockets s.
Proof using Hk.
  intros Hlen Hd Hd2 Hn Hc. set (n := Z.of_nat (length d)) in *.
  set (b := le_bytes 4 sizeof_sockaddr_in ++ _). unfold recvmsg_eval.
  assert (u32_at b 0 = Ok 16) as -> by exact (u32_at_mid [] _ 0 16 eq_refl). erewrite bind_ok; [|done]. cbn [Z.eqb].
  assert (bytes_at b 4 16 = Ok (sockaddr_bytes a)) as ->
    by exact (bytes_at_mid (le_bytes 4 sizeof_sockaddr_in) (sockaddr_bytes a) _ 4 16 eq_refl eq_refl).
  erewrite bind_ok; [|done].
  assert (∀ room q s0, match room with Some n => Z.of_nat (length q) ≤ n | None => True end →
    ∃ s1, fill room q s0 = Ok (true, s1) ∧ wedge_calls s1 = wedge_calls s0 ∧ wedge_sockets s1 = wedge_sockets s0) as Hfill.
  { intros room q s0 Hq. unfold fill. destruct room as [k|].
    - rewrite (proj2 (Z.ltb_ge _ _) Hq). by eexists.
    - rewrite wask_ok, Hk. by eexists. }
  destruct (Hfill nr (sockaddr_bytes a) s) as (s1 & E1 & C1 & S1); [by destruct nr|].
  rewrite (bind_ok _ _ _ _ _ E1). cbn [negb].
  assert (u32_at b (4 + 16) = Ok n) as ->.
  { unfold b. rewrite (app_assoc (le_bytes 4 sizeof_sockaddr_in)).
    etransitivity; [exact (u32_at_mid (le_bytes 4 sizeof_sockaddr_in ++ sockaddr_bytes a) _ 20 n eq_refl)|].
    by rewrite u32_small by (unfold is_u32, n; lia). }
  erewrite bind_ok; [|done]. rewrite s32_id by (unfold n; lia).
  assert (drop (Z.to_nat (4 + 16 + 4)) b = d ++ le_bytes 4 0) as -> by reflexivity.
  assert (∃ s2, scatter [len] (d ++ le_bytes 4 0) n s1 = Ok (Some (n, if decide (d = []) then [] else [d]), s2) ∧
    wedge_calls s2 = wedge_calls s1 ∧ wedge_sockets s2 = wedge_sockets s1) as (s2 & E2 & C2 & S2).
  { cbn [scatter]. destruct (decide (d = [])) as [->|Hne].
    - exists s1. unfold n. by cbn.
    - assert (0 < n) by (unfold n; destruct d; [done|simpl; lia]).
      rewrite (proj2 (Z.leb_gt _ _)), (proj2 (Z.ltb_ge _ _)) by lia. erewrite bind_ok; [|apply wask_ok]. rewrite Hk.
      assert (read_bytes (Some (d ++ le_bytes 4 0)) n = Ok d) as ->.
      { unfold read_bytes. rewrite (proj2 (Z.eqb_neq _ _)), (proj2 (Z.leb_le _ _)) by (rewrite ?length_app; unfold n in *; lia).
        unfold n. by rewrite Nat2Z.id, take_app_length. }
      erewrite bind_ok; [|done]. by eexists. }
  rewrite (bind_ok _ _ _ _ _ E2).
  assert (b = (le_bytes 4 sizeof_sockaddr_in ++ sockaddr_bytes a ++ le_bytes 4 n ++ d) ++ le_bytes 4 0 ++ []) as Eb.
  { unfold b. rewrite app_nil_r. by rewrite <- !app_assoc. }
  assert (Z.of_nat (length (le_bytes 4 sizeof_sockaddr_in ++ sockaddr_bytes a ++ le_bytes 4 n ++ d)) = 24 + n) as Hpl.
  { rewrite !length_app, !le_bytes_length. change (length (sockaddr_bytes a)) with 16%nat. unfold n. lia. }
  assert (u32_at b (4 + 16 + 4 + n) = Ok 0) as -> by (rewrite Eb; apply (u32_at_mid _ _ _ 0); lia).
  erewrite bind_ok; [|done]. change (CONTROL_LEN_MAX <? 0) with false. cbv iota.
  change (bytes_at b (4 + 16 + 4 + n + 4) 0) with (Ok (A := list Z) []).
  erewrite bind_ok; [|done]. destruct (Hfill cr [] s2) as (s3 & E3 & C3 & S3); [by destruct cr|].
  rewrite (bind_ok _ _ _ _ _ E3). cbn [negb]. exists s3. split_and!; [|congruence|congruence].
  rewrite Hlen. by rewrite (proj2 (Z.eqb_eq (4 + 16 + 4 + n + 4 + 0) (28 + n))) by lia.
Qed.

(** The reader of a call that waits. *)
Definition wreader (id ci len flags : Z) : reader := MkReader id ci len flags 0.

(** The reply with a datagram that fits wakes the call, which returns it. *)
Lemma recvmsg_returned nr cr sk si ci id len flags pid p s :
  wwaits s sk si ci RECVMSG_CALL id → ci ≤ MAX_CALLS → is_u32 id → pid ≠ -1 →
  p.2 ≠ [] → Z.of_nat (length p.2) ≤ len → Z.of_nat (length p.2) < 2147483648 →
  match nr with Some n => sizeof_sockaddr_in ≤ n | None => True end →
  match cr with Some n => 0 ≤ n | None => True end →
  ∃ s1 s2, nl_data_ready pid (reply_bytes (recv_msg (wreader id ci len flags) p)) s = Ok (tt, s1) ∧
    fins_recvmsg_woken nr cr [len] si ci false s1
      = Ok ((Z.of_nat (length p.2), MkOut 0 (sockaddr_bytes (netw_addr p.1)) [p.2] []), s2).
Proof using Hk.
  intros (c & Hci & Hc & Hid & Hsem & Hrep & Htype & x & Hsi & Hx & Hxid & Hxt) Hmax Hu Hp Hne Hlen Hlt Hn Hcr.
  set (m := recv_msg _ p). set (n := Z.of_nat (length p.2)) in *.
  assert (m = MkWedge RECVMSG_CALL id ci DAEMON_ACK 0
    (le_bytes 4 sizeof_sockaddr_in ++ sockaddr_bytes (netw_addr p.1) ++ le_bytes 4 n ++ p.2 ++ le_bytes 4 0)) as Em.
  { unfold m, recv_msg. cbn [r_buf r_id r_index wreader]. fold n. rewrite (proj2 (Z.ltb_ge _ _) Hlen).
    unfold n. by rewrite Nat2Z.id, firstn_all. }
  destruct (reply_stored Hk pid m s c) as (s1 & E1 & S1 & _ & _ & C1);
    rewrite ?Em; try done.
  rewrite Em in E1, C1. cbn [w_index] in C1.
  assert (Z.of_nat (length (w_payload m)) = 28 + n) as Hpl.
  { rewrite Em. cbn [w_payload]. rewrite !length_app, !le_bytes_length. change (length (sockaddr_bytes _)) with 16%nat.
    unfold n. lia. }
  rewrite <- Em in E1, C1. exists s1. unfold fins_recvmsg_woken.
  match goal with |- ∃ s2, _ ∧ woken _ _ _ _ ?none ?k _ = Ok (?r, _) =>
    destruct (woken_ok si ci RECVMSG_CALL none r k (answered m c) x s1) as (s2 & E2 & _);
      [exact Hci| | | |exact Hsi|rewrite S1; exact Hx|exact Hxt| |]
  end.
  - rewrite C1. apply list_lookup_insert_eq. by eapply lookup_lt_Some.
  - done.
  - cbn [answered wc_wait_sem]. by rewrite Hsem.
  - intros s' _ _. cbn [answered set_wc_wait_sem wc_ret wc_buf wc_len wc_msg]. rewrite Hpl.
    assert (w_payload m ≠ []) as Hne' by (intros E; rewrite E in Hpl; unfold n in Hpl; simpl in Hpl; lia).
    destruct (decide (w_payload m = [])) as [|_]; [done|].
    assert (w_ret m =? ACK = true) as -> by by rewrite Em. rewrite (proj2 (Z.ltb_ge _ _)) by (unfold n; lia).
    destruct (recvmsg_eval_ok nr cr len (set_wc_wait_sem 0 (answered m c)) (netw_addr p.1) p.2 s') as (s3 & E3 & C3 & S3);
      [done|done|done|done|done|].
    destruct (decide (p.2 = [])) as [|_]; [done|]. exists s3. split_and!; [|done|done].
    assert (wc_msg (set_wc_wait_sem 0 (answered m c)) = 0) as Hm0 by (change (w_msg m = 0); by rewrite Em).
    rewrite Hm0 in E3. etransitivity; [|exact E3].
    assert (∀ b b' c0 s0, b = b' → recvmsg_eval nr cr [len] c0 b s0 = recvmsg_eval nr cr [len] c0 b' s0) as Hb by congruence.
    apply Hb. by rewrite Em.
  - exists s2. split; [by rewrite <- Em|exact E2].
Qed.

End WedgeSide.

(** ** The daemon of the sender *)

(** The metadata of a datagram for [dip]:[dport]; ports and addresses in host
    order. *)
Definition send_meta (x : daemon_socket) (dip dport : Z) : metadata :=
  put_ints [("send_src_ipv4", addr4_get_ip (so_host_addr x)); ("send_src_port", addr4_get_port (so_host_addr x));
            ("send_dst_ipv4", dip); ("send_dst_port", dport); ("send_family", so_family x);
            ("send_ttl", so_opts x FIP_TTL); ("send_tos", so_opts x FIP_TOS)] [].
Definition send_frame (x : daemon_socket) (dip dport : Z) (data : list Z) : finsFrame :=
  MkFrame 0 (Some (send_meta x dip dport)) (Data (MkData DIR_DOWN (Z.of_nat (length data)) (Some data))).

(** A message for a socket of the daemon. *)
Record for_sock (d : daemon_data) (h : wedge_to_daemon_hdr) (t : Z) (x : daemon_socket) : Prop := {
  fs_call : 0 ≤ h_call_index h ≤ DAEMON_MAX_CALLS;
  fs_type : h_call_type h = t;
  fs_index : 0 ≤ h_sock_index h ≤ DAEMON_MAX_SOCKETS;
  fs_sock : sockets d !! Z.to_nat (h_sock_index h) = Some x;
  fs_id : so_sock_id x = h_sock_id h;
  fs_used : so_sock_id x ≠ NO_SOCK
}.

Lemma addr_of_bytes a : is_u16 (sin_family a) → is_u16 (sin_port a) → is_u32 (s_addr a) → addr_of (sockaddr_bytes a) = a.
Proof.
  intros Hf Hp Hs. unfold addr_of, sockaddr_bytes.
  assert (∀ k v r, 0 ≤ v < 256 ^ Z.of_nat k → le_value (take k (le_bytes k v ++ r)) = v) as E.
  { intros k v r Hv. rewrite take_app_length' by (by rewrite le_bytes_length). by rewrite le_value_bytes. }
  rewrite (E 2%nat (sin_family a)) by done. change (drop 2 (le_bytes 2 (sin_family a) ++ ?r)) with r.
  rewrite (E 2%nat (sin_port a)) by done. change (drop 4 (le_bytes 2 _ ++ le_bytes 2 _ ++ ?r)) with r.
  rewrite (E 4%nat (s_addr a)) by done. by destruct a.
Qed.

Section DaemonSide.
Context {Q : Type} `{BoundedFifo Q finsFrame} `{DaemonEnv}.
Abbreviation ST := (mstate Q daemon_data) (only parsing).
Context (protos : Z → option (proto_ops Q)) (junk_addr : list Z) (fl : list (Z * Z)).
Context (Hw : ∀ t, wedge_ok t = true).

Lemma rd_metas {B} (R : B → ST → Prop) xs n d kvs m (K : metadata → M ST B) :
  forallb (λ kv, int_key m kv.1) kvs = true →
  runs (rest fl xs n d) (K (put_ints kvs m)) R → runs (rest fl xs n d) (put_metas kvs m ≫= K) R.
Proof using.
  revert m. induction kvs as [|[k v] kvs IH]; intros m Hk HK; [exact HK|]. simpl in Hk. apply andb_true_iff in Hk as [Hk Hks].
  cbn [put_metas]. rewrite (write_int_ok _ _ _ Hk). apply IH; [|exact HK].
  apply forallb_forall. intros kv Hin. apply int_key_put. by eapply forallb_forall in Hks; [|exact Hin].
Qed.

(** The dispatch reaches the function for the call. *)
Lemma daemon_out_dispatch {t} xs n d h x f buf (R : unit → ST → Prop) :
  for_sock d h t x → 0 < t < MAX_CALL_TYPES → t ≠ SOCKET_CALL → call_outs protos junk_addr t = Some f →
  runs (rest fl xs n d) (f h buf) R → runs (rest fl xs n d) (daemon_out protos junk_addr h buf) R.
Proof using.
  intros [Hci Ht Hi Hx Hid Hu] Htr Hts Hf HR. unfold daemon_out.
  rewrite (proj2 (Z.ltb_ge _ _)), (proj2 (Z.ltb_ge DAEMON_MAX_CALLS _)) by lia. cbn [orb]. rewrite Ht.
  rewrite (proj2 (Z.eqb_neq t 0)), (proj2 (Z.leb_gt _ _)), (proj2 (Z.eqb_neq t SOCKET_CALL)) by (done || lia). cbn [orb].
  rewrite (proj2 (Z.ltb_ge _ _)), (proj2 (Z.ltb_ge DAEMON_MAX_SOCKETS _)) by lia. cbn [orb].
  eapply rd_sock; [lia|done|]. rewrite Hid, Z.eqb_refl. cbn [negb]. rewrite (proj2 (Z.eqb_neq _ _)) by congruence.
  by rewrite Hf.
Qed.

(** The unpacked arguments of a [sendmsg] call. *)
Lemma sendmsg_unpacked xs n d h x to flags data (R : unit → ST → Prop) :
  for_sock d h SENDMSG_CALL x → protos (so_ops x) = Some udp_ops →
  is_u16 (sin_family to) → is_u16 (sin_port to) → is_u32 (s_addr to) → is_u32 flags →
  data ≠ [] → Z.of_nat (length data) < 4294967296 →
  let x' := set_so_opts (put_opt FSO_TIMESTAMP (Z.lor (so_opts x FSO_TIMESTAMP) 0) (so_opts x)) x in
  runs (rest fl xs n (put_sock (h_sock_index h) x' d))
    (sendmsg_out_udp h (Z.of_nat (length data)) (Some data) flags sizeof_sockaddr_in to) R →
  runs (rest fl xs n d) (daemon_out protos junk_addr h (sendmsg_bytes to flags data)) R.
Proof using.
  intros Hfs Hp Hf Hpo Hs Hfl Hne Hl x' HR. pose proof Hfs as [_ _ [Hi _] Hx _ _].
  eapply daemon_out_dispatch; [exact Hfs|done|done|reflexivity|]. set (n0 := Z.of_nat (length data)) in *.
  set (a := le_bytes 4 0). set (b := le_bytes 4 sizeof_sockaddr_in). set (c := sockaddr_bytes to).
  set (e := le_bytes 4 flags). set (g := le_bytes 4 0). set (l := le_bytes 4 n0).
  assert (sendmsg_bytes to flags data = a ++ b ++ c ++ e ++ g ++ l ++ data) as -> by done.
  unfold sendmsg_out.
  eapply rest_lift; [exact (u32_at_mid [] _ 0 0 eq_refl)|].
  eapply rest_lift; [exact (int_at_mid a _ 4 sizeof_sockaddr_in eq_refl)|]. change (s32 sizeof_sockaddr_in) with 16.
  eapply rest_lift.
  { unfold addr_at. change (sizeof_sockaddr_storage <? 16) with false. cbv iota. rewrite (app_assoc a b).
    exact (bytes_at_mid (a ++ b) c _ 8 16 eq_refl eq_refl). }
  eapply rest_lift.
  { rewrite (app_assoc a b), (app_assoc (a ++ b) c). exact (u32_at_mid ((a ++ b) ++ c) _ 24 flags eq_refl). }
  eapply rest_lift.
  { rewrite (app_assoc a b), (app_assoc (a ++ b) c), (app_assoc _ e).
    exact (u32_at_mid (((a ++ b) ++ c) ++ e) _ 28 0 eq_refl). }
  change (u32 0) with 0. eapply rest_lift; [reflexivity|].
  eapply rest_lift.
  { rewrite (app_assoc a b), (app_assoc (a ++ b) c), (app_assoc _ e), (app_assoc _ g).
    exact (u32_at_mid ((((a ++ b) ++ c) ++ e) ++ g) _ 32 n0 eq_refl). }
  rewrite (u32_small n0) by (unfold is_u32, n0; lia). eapply rest_lift.
  { rewrite (app_assoc a b), (app_assoc (a ++ b) c), (app_assoc _ e), (app_assoc _ g), (app_assoc _ l).
    exact (bytes_at_end (((((a ++ b) ++ c) ++ e) ++ g) ++ l) data 36 n0 eq_refl eq_refl). }
  rewrite (proj2 (Z.eqb_eq (20 + 16 + 0 + n0) (Z.of_nat (length (a ++ b ++ c ++ e ++ g ++ l ++ data))))).
  2:{ rewrite !length_app. unfold a, b, c, e, g, l, n0. rewrite !le_bytes_length.
      change (length (sockaddr_bytes to)) with 16%nat. lia. }
  cbn [negb]. eapply rd_upd_sock; [done..|]. change (Z.land 0 TIMESTAMP_FLAGS) with 0. fold x'.
  unfold with_op, sock_ops. apply runs_assoc. eapply rd_sock; [done|by eapply sock_put|].
  change (so_ops x') with (so_ops x). rewrite Hp. apply runs_ret_bind. cbn [op_sendmsg_out udp_ops].
  unfold c. rewrite addr_of_bytes, (u32_small flags) by done.
  rewrite (proj2 (Z.eqb_neq n0 0)) by (unfold n0; destruct data; [done|simpl; lia]). exact HR.
Qed.

(** A socket that is bound to an address of the host. *)
Definition bound (x : daemon_socket) (ip port : Z) : Prop :=
  so_family x = AF_INET ∧ so_host_addr x = MkAddr AF_INET port ip ∧ ip ≠ DAEMON_ADDR_ANY ∧ is_u32 ip ∧ is_u16 port.

(** The address of a peer as an application writes it. *)
Definition peer_addr (ip port : Z) : sockaddr := MkAddr AF_INET (htons port) (htonl ip).

(** A [sendmsg] call of a bound socket sends one frame to the UDP module, and
    the caller is told the number of bytes. *)
Lemma sendmsg_runs xs n d h x udp sip sport dip dport flags data :
  for_sock d h SENDMSG_CALL x → protos (so_ops x) = Some udp_ops → bound x sip sport →
  (DAEMON_FLOW_UDP, udp) ∈ fl → is_u32 dip → is_u16 dport → is_u32 flags →
  data ≠ [] → Z.of_nat (length data) < 4294967296 →
  runs (rest fl xs (S n) d) (daemon_out protos junk_addr h (sendmsg_bytes (peer_addr dip dport) flags data))
    (λ _ s, ∃ d', rest fl (xs ++ [set_dest udp (send_frame x dip dport data)]) n d' s ∧
       wedge d' = wedge d ++ [MkWedge SENDMSG_CALL (h_call_id h) (h_call_index h) DAEMON_ACK
                                (Z.of_nat (length data)) []]).
Proof using Hw.
  intros Hfs Hp (Hfam & Hhost & Hip & Hsip & Hsport) Hin Hdip Hdport Hfl Hne Hl.
  pose proof Hfs as [_ Ht [Hi _] Hx _ _].
  apply (sendmsg_unpacked xs (S n) d h x (peer_addr dip dport) flags data); [done|done|done| | |done|done|done|];
    [apply htons_range|apply htonl_range|].
  set (x' := set_so_opts _ x). set (n0 := Z.of_nat (length data)) in *. unfold sendmsg_out_udp.
  rewrite (proj2 (Z.eqb_neq n0 0)) by (unfold n0; destruct data; [done|simpl; lia]).
  eapply rd_sock; [done|by eapply sock_put|].
  change (sin_family (peer_addr dip dport) =? AF_INET) with true. cbv iota. change (so_family x') with (so_family x).
  rewrite Hfam. change (AF_INET =? AF_UNSPEC) with false. change (AF_INET =? AF_INET) with true. cbn [negb andb].
  change (sizeof_sockaddr_in =? 0) with false. cbn [negb]. cbv iota beta.
  change (addr4_get_ip (peer_addr dip dport)) with (htonl dip). change (addr4_get_port (peer_addr dip dport)) with (htons dport).
  unfold ntohl, ntohs. rewrite htonl_htonl, htons_htons by done.
  change (so_host_addr x') with (so_host_addr x). rewrite Hhost. cbn [addr4_get_ip addr4_get_port s_addr sin_port].
  rewrite (proj2 (Z.eqb_neq sip DAEMON_ADDR_ANY)) by done.
  apply runs_assoc, runs_ret_bind, runs_ret_bind.
  apply rd_metas; [reflexivity|]. cbn [fst snd]. unfold send_datagram. eapply rd_sock; [done|by eapply sock_put|].
  apply rd_metas; [reflexivity|].
  assert (∀ m, m = send_meta x dip dport → MkFrame 0 (Some m) (Data (MkData DIR_DOWN n0 (Some data))) = send_frame x dip dport data) as Efr
    by by intros m ->.
  unfold daemon_fdf_to_switch. apply runs_assoc. rewrite Efr.
  2:{ unfold send_meta. rewrite Hhost. reflexivity. }
  eapply (rest_send fl _ _ _ _ (send_frame x dip dport data) DAEMON_FLOW_UDP udp); [|done|done|].
  { split; [done|]. eexists. split; [done|]. by apply put_ints_ok. }
  change (1 =? 0) with false. cbv iota. apply runs_assoc, runs_ret_bind, runs_ret_bind. apply runs_bind_r, (rd_ack fl _ _ _ _ Hw), runs_ret.
  eexists. split; [done|]. by rewrite Ht.
Qed.

End DaemonSide.

(** ** The stack of the sender *)

(** The packet of a datagram. *)
Definition udp_packet (sip dip t sport dport : Z) (data : list Z) : list Z :=
  packet_bytes (wire_header sip dip UDP_PT_UDP t (Z.of_nat (length data) + 8)) ++ UDP.dgram sip dip sport dport data.

Lemma read_put_int m k v : metadata_readFromElement (put_member m k (SInt v)) k = Some (VInt32 v).
Proof. unfold metadata_readFromElement. by rewrite get_put_same. Qed.

Lemma send_meta_reads x sip sport dip dport :
  bound x sip sport → is_u32 dip → is_u16 dport →
  let m := send_meta x dip dport in
  uout_meta m sip sport dip dport ∧
  out_meta (put_member m "send_protocol" (SInt 17)) UDP_PT_UDP sip dip (Some (u32 (so_opts x FIP_TTL))).
Proof.
  intros (Hfam & Hhost & Hip & Hsip & Hsport) Hdip Hdport m.
  assert (∀ y, is_u16 y → is_u32 y) as H16 by (unfold is_u16, is_u32; lia).
  assert (m = put_ints [("send_src_ipv4", sip); ("send_src_port", sport); ("send_dst_ipv4", dip); ("send_dst_port", dport);
    ("send_family", so_family x); ("send_ttl", so_opts x FIP_TTL); ("send_tos", so_opts x FIP_TOS)] []) as ->.
  { unfold m, send_meta. by rewrite Hhost. }
  cbn [put_ints foldl fst snd].
  split; split; try eexists; rewrite ?sread_put_other, ?read_put_other by done;
    rewrite ?read_put_same; rewrite ?s32_u32_small by auto; try done.
  by rewrite read_put_int, u32_s32.
Qed.

Section Stack.
Context {Q : Type} `{BoundedFifo Q finsFrame}.
Context (ip udp dae nic icmp addr peer : Z) (route : route_record).

(** A UDP module between the daemon and the IPv4 module of its host. *)
Definition uready : list finsFrame → nat → udp_data → mstate Q udp_data → Prop :=
  rest [(UDP_FLOW_IPV4, ip); (UDP_FLOW_DAEMON, dae)].

(** A datagram of a bound socket leaves the host as one packet. *)
Lemma dgram_leaves xs n d ys k u q junk now x t sport dport data :
  uready xs (S n) d u → sent_inv (sent_packet_list d) → ip_node nic icmp addr peer route ys (S k) q →
  bound x addr sport → so_opts x FIP_TTL = t → is_u8 t → is_u32 peer → is_u16 dport →
  is_bytes data → Z.of_nat (length data) + 28 < 65536 →
  ∃ u' f1 q' out,
    udp_out_fdf (set_dest udp (send_frame x peer dport data)) u = Ok (tt, u') ∧ bf_rep (outq u') (xs ++ [f1]) ∧
    destinationID f1 = ip ∧
    ipv4_out_fdf junk now f1 q = Ok (tt, q') ∧ bf_rep (outq q') (ys ++ [out]) ∧ destinationID out = nic ∧
    body out = Data (MkData DIR_DOWN (Z.of_nat (length data) + 28)
                       (Some (udp_packet addr peer t sport dport data))).
Proof.
  intros Hu Hsent Hq Hbound Ht Ht8 Hpeer Hdp Hb Hl.
  destruct (send_meta_reads x addr sport peer dport Hbound Hpeer Hdp) as [Hum Hom].
  pose proof Hbound as (_ & _ & _ & Haddr & Hsp).
  set (m := send_meta x peer dport) in *. set (f0 := set_dest udp (send_frame x peer dport data)).
  assert (meta_ok m = true) as Hmok by by apply put_ints_ok.
  pose proof (rs_md _ _ _ _ _ Hu) as Hmd. pose proof (rs_flow _ _ _ _ _ Hu UDP_FLOW_IPV4 ip) as Hfl.
  destruct (udp_out_ok f0 m (MkData DIR_DOWN (Z.of_nat (length data)) (Some data)) data addr sport peer dport u xs)
    as (u' & E & F & M & _); try done; [by apply read_bytes_all|lia|by rewrite Hmd|apply Hu| |].
  { rewrite Hfl by set_solver. eapply room_le; [|apply Hu]. simpl. lia. }
  rewrite Hfl in F by set_solver.
  set (fo := udp_out_frame f0 m DIR_DOWN addr sport peer dport data) in *.
  set (f1 := set_dest ip fo) in *. assert (length (UDP.dgram addr peer sport dport data) = length data + 8)%nat as Hdl.
  { apply Nat2Z.inj. rewrite dgram_length. lia. }
  destruct (ip_node_out nic icmp addr peer route ys k q junk now f1 (put_member m "send_protocol" (SInt 17)) DIR_DOWN
    (UDP.dgram addr peer sport dport data) UDP_PT_UDP (Some (u32 (so_opts x FIP_TTL)))) as (q' & Eq & Hq'); try done.
  { unfold f1, fo. cbn [udp_out_frame set_dest body]. rewrite !u16_small, Hdl by done. do 2 f_equal. lia. }
  { lia. }
  eexists u', f1, q', _. split_and!; [exact E|apply F|done|exact Eq|apply Hq'|done|].
  assert (out_ttl (Some (u32 (so_opts x FIP_TTL))) = t) as Hot.
  { unfold is_u8 in Ht8. cbn [out_ttl]. rewrite Ht, u32_small by (unfold is_u32; lia). by apply Z.mod_small. }
  cbn [set_dest out_frame body]. unfold udp_packet. rewrite Hot, Hdl, !Nat2Z.inj_add. change (u8 UDP_PT_UDP) with UDP_PT_UDP.
  do 2 f_equal. lia.
Qed.

End Stack.

(** ** The daemon of the receiver *)

Section Receiver.
Context {Q : Type} `{BoundedFifo Q finsFrame} `{DaemonEnv}.
Abbreviation ST := (mstate Q daemon_data) (only parsing).
Context (protos : Z → option (proto_ops Q)) (junk_addr : list Z) (fl : list (Z * Z)) (xs : list finsFrame) (n : nat).
Context (Hw : ∀ t, wedge_ok t = true).

(** The option [or_opt] sets to what it was. *)
Lemma idle_opts i d x :
  idle i d x →
  let x' := set_so_opts (put_opt FSO_TIMESTAMP (Z.lor (so_opts x FSO_TIMESTAMP) 0) (so_opts x)) x in
  idle i (put_sock i x' d) x' ∧ sview dmx (put_sock i x' d) = sview dmx d.
Proof.
  intros [Hi Hx Hb Hc Hd Hbuf Hf Hl] x'. split; [|by eapply view_put].
  split; try done; [by eapply sock_put|]. unfold bare, x', put_opt in *. cbn. by rewrite Z.lor_0_r.
Qed.

(** A [recvmsg] call on an idle socket waits. *)
Lemma recvmsg_runs i d x h len flags :
  idle i d x → for_sock d h RECVMSG_CALL x → h_sock_index h = i → h_call_index h < DAEMON_MAX_CALLS →
  protos (so_ops x) = Some udp_ops →
  0 ≤ len < 2147483648 → 0 ≤ flags < 2147483648 → has flags MSG_ERRQUEUE = false →
  runs (rest fl xs n d) (daemon_out protos junk_addr h (recvmsg_bytes len flags))
    (λ _, becomes fl xs n (sview dmx d) (wedge d) i (MkASock [] [wreader (h_call_id h) (h_call_index h) len flags] [])).
Proof using Hw.
  intros Hid Hfs Hi Hci Hp Hlen Hfl He. pose proof Hid as [Hi0 Hx _ _ _ _ _ _].
  eapply daemon_out_dispatch; [exact Hfs|done|done|reflexivity|].
  set (a := le_bytes 4 0). set (b := le_bytes 4 (s32 len)). set (c := le_bytes 4 0). set (e := le_bytes 4 flags).
  assert (recvmsg_bytes len flags = a ++ b ++ c ++ e ++ []) as -> by by rewrite app_nil_r.
  unfold recvmsg_out. eapply rest_lift; [exact (u32_at_mid [] _ 0 0 eq_refl)|].
  eapply rest_lift; [exact (int_at_mid a _ 4 (s32 len) eq_refl)|]. rewrite !s32_id by (rewrite ?s32_id; lia).
  eapply rest_lift; [rewrite (app_assoc a b); exact (u32_at_mid (a ++ b) _ 8 0 eq_refl)|].
  eapply rest_lift.
  { rewrite (app_assoc a b), (app_assoc (a ++ b) c). exact (int_at_mid ((a ++ b) ++ c) _ 12 flags eq_refl). }
  rewrite s32_id by lia. change (negb (16 =? Z.of_nat (length (a ++ b ++ c ++ e ++ [])))) with false. cbv iota.
  rewrite Hi. eapply rd_upd_sock; [done..|]. change (Z.land (u32 0) TIMESTAMP_FLAGS) with 0.
  destruct (idle_opts i d x Hid) as [Hid' Hv]. set (x' := set_so_opts _ x) in *. set (d' := put_sock i x' d) in *.
  unfold with_op, sock_ops. apply runs_assoc. rewrite Hi. eapply rd_sock; [done|apply Hid'|].
  change (so_ops x') with (so_ops x). rewrite Hp. apply runs_ret_bind. cbn [op_recvmsg_out udp_ops]. change (u32 0) with 0.
  rewrite <- Hv. apply (recvmsg_refines fl xs n Hw _ _ i d' (MkASock [] [] []) x' h (wreader (h_call_id h) (h_call_index h) len flags)).
  - exact (idle_usock i d' x' Hid').
  - split; try done; [apply Hfs| |]; cbn; lia.
  - right. destruct Hfs as [? _ _ _ _ _]. cbn. split_and!; [lia|lia|set_solver|done].
Qed.

(** What the UDP module hands up. *)
Record up_meta (m : metadata) (sip sport dip dport : Z) : Prop := {
  um_stamp : stamp_ok m = true;
  um_proto : secure_metadata_readFromElement m "recv_protocol" = Ok UDP_PT_UDP;
  um_family : secure_metadata_readFromElement m "recv_family" = Ok AF_INET;
  um_src : secure_metadata_readFromElement m "recv_src_ipv4" = Ok sip;
  um_dst : secure_metadata_readFromElement m "recv_dst_ipv4" = Ok dip;
  um_sport : secure_metadata_readFromElement m "recv_src_port" = Ok sport;
  um_dport : secure_metadata_readFromElement m "recv_dst_port" = Ok dport
}.

(** It reaches the socket. *)
Lemma received_runs V w0 i d a x ff m dir sip sport dip dport data :
  usock V w0 i d a x → metaData ff = Some m → up_meta m sip sport dip dport → is_u16 sport → is_u16 dport →
  body ff = Data (MkData dir (Z.of_nat (length data)) (Some data)) → data ≠ [] → Z.of_nat (length data) < 4294967296 →
  protos UDP_PT_UDP = Some udp_ops → may_arrive (MkAddr AF_INET sport sip, data) a →
  (∀ socks, dmx <$> socks = V → match_packet_addr4_udp socks sip sport dip dport = i) →
  runs (rest fl xs n d) (daemon_in_fdf protos ff)
    (λ _, becomes fl xs n V w0 i (a_arrive (MkAddr AF_INET sport sip, data) a)).
Proof using Hw.
  intros Hu Hm [Hst Hpr Hfam Hs Hd Hsp Hdp] Hsp16 Hdp16 Hb Hne Hl Hprot Hma Hmt.
  unfold daemon_in_fdf. eapply rest_read; [done|exact Hpr|]. eapply rest_read; [done|exact Hfam|].
  unfold frame_addrs. change (AF_INET =? AF_INET) with true. cbv iota.
  apply runs_assoc. eapply rest_read; [done|exact Hs|]. apply runs_assoc. eapply rest_read; [done|exact Hd|].
  apply runs_ret_bind. unfold to_proto. change (UDP_PT_UDP <? DAEMON_MAX_PROTOS) with true. cbv iota. rewrite Hprot.
  cbn [op_in_fdf udp_ops fst snd]. apply (in_fdf_refines fl xs n Hw V w0 i d a x); [done| |done].
  split; [by exists m, dir|done|done|]. exists m, sport, dport. rewrite !u16_small by done. split_and!; try done.
Qed.

End Receiver.

(** ** The stack of the receiver *)

(** The frame [ff], with metadata [m] of the interface, has the bytes of [out]. *)
Definition crosses_udp (out ff : finsFrame) (m : metadata) : Prop :=
  ∃ d, body out = Data d ∧ body ff = Data (MkData DIR_UP (pduLength d) (pdu d)) ∧
    metaData ff = Some m ∧ meta_ok m = true ∧ stamp_ok m = true ∧
    forallb (int_key m) (recv_keys ++ ["recv_src_port"; "recv_dst_port"]) = true.

Lemma stamp_put m k v : config_name_compare "recv_stamp" k = false → stamp_ok (put_member m k v) = stamp_ok m.
Proof. intros Hk. unfold stamp_ok. by rewrite read_put_other. Qed.

(** The metadata that the IPv4 and the UDP module have written. *)
Definition udp_recv_meta (m : metadata) (t sip sport dip dport : Z) : metadata :=
  put_member (put_member (put_member (recv_meta m UDP_PT_UDP AF_INET sip dip) "recv_ttl" (SInt (s32 t)))
    "recv_src_port" (SInt (s32 sport))) "recv_dst_port" (SInt (s32 dport)).

Lemma udp_recv_reads m t sip sport dip dport :
  stamp_ok m = true → is_u32 sip → is_u32 dip → is_u16 sport → is_u16 dport →
  up_meta (udp_recv_meta m t sip sport dip dport) sip sport dip dport.
Proof.
  intros Hst Hs Hd Hsp Hdp. assert (∀ y, is_u16 y → is_u32 y) as H16 by (unfold is_u16, is_u32; lia).
  unfold udp_recv_meta, recv_meta.
  split; rewrite ?stamp_put, ?sread_put_other by done; rewrite ?read_put_same; rewrite ?s32_u32_small by auto; done.
Qed.

Section StackUp.
Context {Q : Type} `{BoundedFifo Q finsFrame}.
Context (ip udp dae nic icmp addr peer : Z) (route : route_record).

Lemma dgram_arrives ys k q xs n d u out ff m t sport dport data :
  ip_node nic icmp addr peer route ys (S k) q → flow_dsts q IPV4_FLOW_UDP = [udp] →
  uready ip dae xs (S n) d u → crosses_udp out ff m →
  body out = Data (MkData DIR_DOWN (Z.of_nat (length data) + 28) (Some (udp_packet peer addr t sport dport data))) →
  is_u32 addr → is_u32 peer → is_u8 t → t ≠ 0 → is_u16 sport → is_u16 dport → is_bytes data →
  Z.of_nat (length data) + 28 < 65536 →
  ∃ q' f2 u' f3 m3,
    ipv4_in_fdf ff q = Ok (tt, q') ∧ bf_rep (outq q') (ys ++ [f2]) ∧ destinationID f2 = udp ∧
    udp_in_fdf f2 u = Ok (tt, u') ∧ bf_rep (outq u') (xs ++ [f3]) ∧ destinationID f3 = dae ∧
    metaData f3 = Some m3 ∧ up_meta m3 peer sport addr dport ∧
    body f3 = Data (MkData DIR_UP (Z.of_nat (length data)) (Some data)).
Proof.
  intros Hq Hfl Hu (dd & Hdd & Hb & Hm & Hok & Hst & Hk) Ho Ha Hp Ht Ht0 Hsp Hdp Hd Hl. rewrite Ho in Hdd. injection Hdd as <-.
  rewrite forallb_app in Hk. apply andb_true_iff in Hk as [Hk [K1 [K2 _]%andb_true_iff]%andb_true_iff].
  set (b := UDP.dgram peer addr sport dport data). assert (Z.of_nat (length b) = Z.of_nat (length data) + 8) as Hbl by apply dgram_length.
  destruct (wire_delivers ff m DIR_UP b peer addr UDP_PT_UDP t q ys) as (q' & E & F); try done.
  { rewrite Hb. cbn [pduLength pdu]. unfold udp_packet. fold b. rewrite Hbl. do 2 f_equal. lia. }
  { apply Forall_app. split; [apply udp_bytes_u8|done]. }
  { lia. }
  { apply Hq. }
  { by right. }
  { apply Hq. }
  { by eapply ip_node_any. }
  change (UDP_PT_UDP =? IP4_PT_TCP) with false in F. cbv iota in F. rewrite Hfl in F.
  set (m2 := put_member _ "recv_ttl" _) in F. set (f2 := MkFrame udp (Some m2) (Data (MkData DIR_UP (Z.of_nat (length b)) (Some b)))).
  pose proof (rs_flow _ _ _ _ _ Hu UDP_FLOW_DAEMON dae) as Hufl.
  destruct (dgram_delivered u xs f2 m2 DIR_UP data peer addr sport dport) as (u' & Eu & Fu); try done.
  { unfold m2. apply meta_ok_put; [|done..]. by apply recv_meta_ok. }
  { by repeat apply int_key_put. }
  { by repeat apply int_key_put. }
  { unfold m2, recv_meta. split; try eexists; rewrite ?sread_put_other by done; rewrite read_put_same;
      rewrite ?s32_u32_small by done; done. }
  { lia. }
  { unfold f2. cbn [body]. by rewrite Hbl. }
  { apply Hu. }
  { rewrite Hufl by set_solver. eapply room_le; [|apply Hu]. simpl. lia. }
  rewrite Hufl in Fu by set_solver.
  eexists q', f2, u', _, _. split_and!; [exact E|apply F|done|exact Eu|apply Fu|done|reflexivity|by apply udp_recv_reads|done].
Qed.

End StackUp.
