(* ===== verification/EndToEnd.v ===== *)
(** * A datagram from one application to another

    The whole stack: [sendmsg] on one host and [recvmsg] on another, through the
    wedge, the daemon, the UDP and the IPv4 module of both.  A frame that a
    module queues for another one is handed over by the switch as it is. *)

From stdpp Require Import base list gmap strings.
From Stdlib Require Import ZArith Lia.
From S2P Require Import Prelude Queue Metadata Frame Module IPv4 UDP Double Run Icmp IcmpFacts Ping Daemon DaemonUdp DaemonOut DaemonFacts DaemonPorts DaemonQueue Wedge Netlink WedgeCalls Sockets.
Open Scope Z_scope.
Open Scope fins_scope.

(** A call whose first half leaves the wedge in [w'] and whose message reaches
    the daemon as header [h] and arguments [p]. *)
Definition call_reaches (call : M wedge_state outcome) (w : wedge_state) (si ci : Z) (w' : wedge_state)
    (h : wedge_to_daemon_hdr) (p : list Z) : Prop :=
  ∃ parts, call w = Ok (Waiting si ci, w') ∧ w_netlink w' = w_netlink w ++ parts ∧
    recv_steps recv_idle parts = Ok (recv_idle, [(h, p)]).

(** The program on one host: the kernel module and three modules of the stack. *)
Record host (Q : Type) := MkHost {
  h_wedge : wedge_state; h_daemon : mstate Q daemon_data; h_udp : mstate Q udp_data; h_ip : mstate Q ipv4_data
}.
Arguments MkHost {Q}. Arguments h_wedge {Q}. Arguments h_daemon {Q}. Arguments h_udp {Q}. Arguments h_ip {Q}.

Section Hosts.
Context {Q : Type} `{BoundedFifo Q finsFrame} `{DaemonEnv} `{WedgeEnv}.
Context (protos : Z → option (proto_ops Q)) (junk_addr : list Z) (ip udp dae nic icmp : Z).

(** A host with address [addr] that reaches [peer]; an application with socket
    [sk], which is entry [i] of both tables, is about to make a call of type [t]
    that gets entry [c] of the call tables. *)
Record host_ok (h : host Q) (addr peer : Z) (route : route_record) (x : daemon_socket) (sk i c t : Z)
    (xd xu xi : list finsFrame) : Prop := {
  hk_wedge : wready (h_wedge h) sk i c t;
  hk_index : i ≤ DAEMON_MAX_SOCKETS;
  hk_call : c < DAEMON_MAX_CALLS;
  hk_daemon : rest [(DAEMON_FLOW_UDP, udp)] xd 1 (md (h_daemon h)) (h_daemon h);
  hk_sock : sockets (md (h_daemon h)) !! Z.to_nat i = Some x;
  hk_id : so_sock_id x = u32 sk;
  hk_ops : protos (so_ops x) = Some udp_ops;
  hk_udp : uready ip dae xu 1 (md (h_udp h)) (h_udp h);
  hk_sent : sent_inv (sent_packet_list (md (h_udp h)));
  hk_ip : ip_node nic icmp addr peer route xi 1 (h_ip h);
  hk_flow : flow_dsts (h_ip h) IPV4_FLOW_UDP = [udp]
}.

Lemma wready_hdr w sk i c t pid :
  wready w sk i c t → i ≤ DAEMON_MAX_SOCKETS → c < DAEMON_MAX_CALLS → is_u32 t → -2147483648 ≤ pid < 2147483648 →
  hdr_ok (MkHdr (u32 sk) i t pid (call_count w) c).
Proof.
  intros [_ _ (x & Hi & _) _ (y & Hc & _) [Hn _]] Hi' Hc' Ht Hp. unfold DAEMON_MAX_SOCKETS, DAEMON_MAX_CALLS in *.
  pose proof (u32_range sk) as Hu. unfold is_u32 in Hu. split; cbn; try done; lia.
Qed.

Lemma host_for_sock h addr peer route x sk i c t xd xu xi pid :
  host_ok h addr peer route x sk i c t xd xu xi →
  for_sock (md (h_daemon h)) (MkHdr (u32 sk) i t pid (call_count (h_wedge h)) c) t x.
Proof.
  intros [[_ _ (y & Hi & _) _ (z & Hc & _) _] Hi' Hc' _ Hx Hid _ _ _ _ _]. split; cbn; try done; try lia.
  rewrite Hid. pose proof (u32_range sk) as Hu. unfold is_u32, NO_SOCK in *. lia.
Qed.

Context (Hk : ∀ t, kernel_ok t = true) (Hw : ∀ t, wedge_ok t = true) (Hj : length junk_pad = 4%nat).

(** Host [h] sends. *)
Lemma host_sends h addr peer route x sk i c xd xu xi pid flags junk now dpid sport dport t data :
  host_ok h addr peer route x sk i c SENDMSG_CALL xd xu xi → bound x addr sport → so_opts x FIP_TTL = t → is_u8 t →
  is_u32 peer → is_u16 dport → is_u32 flags → -2147483648 ≤ pid < 2147483648 → dpid ≠ -1 →
  data ≠ [] → is_bytes data → Z.of_nat (length data) + 28 < 65536 →
  ∃ w1 hd p d1 f0 u1 f1 i1 out ack w2 w3,
    call_reaches (fins_sendmsg (Some sk) pid 0 sizeof_sockaddr_in (Some (sockaddr_bytes (peer_addr peer dport))) flags []
      [MkIov (Some data) (Z.of_nat (length data))]) (h_wedge h) i c w1 hd p ∧
    daemon_out protos junk_addr hd p (h_daemon h) = Ok (tt, d1) ∧
    bf_rep (outq d1) (xd ++ [f0]) ∧ destinationID f0 = udp ∧
    udp_out_fdf f0 (h_udp h) = Ok (tt, u1) ∧ bf_rep (outq u1) (xu ++ [f1]) ∧ destinationID f1 = ip ∧
    ipv4_out_fdf junk now f1 (h_ip h) = Ok (tt, i1) ∧ bf_rep (outq i1) (xi ++ [out]) ∧ destinationID out = nic ∧
    body out = Data (MkData DIR_DOWN (Z.of_nat (length data) + 28)
                       (Some (udp_packet addr peer t sport dport data))) ∧
    wedge (md d1) = wedge (md (h_daemon h)) ++ [ack] ∧
    nl_data_ready dpid (reply_bytes ack) w1 = Ok (tt, w2) ∧
    fins_sendmsg_woken i c false w2 = Ok (Z.of_nat (length data), w3).
Proof using Hk Hw Hj.
  intros Hh Hb Ht Ht8 Hp Hdp Hfl Hpid Hdpid Hne Hbd Hl. pose proof Hh as [Hwr Hi Hc Hd Hx Hid Hops Hu Hs Hip Hf].
  destruct (sendmsg_sent Hk sk pid flags (peer_addr peer dport) data (h_wedge h) i c Hwr) as (w1 & E & N & _ & W); [lia|].
  set (hd := MkHdr _ _ _ _ _ _) in N. set (p := sendmsg_bytes _ _ _) in N.
  assert (recv_steps recv_idle (message_parts (hdr_bytes hd ++ p)) = Ok (recv_idle, [(hd, p)])) as R.
  { apply recv_sent; [done|by apply wready_hdr|]. unfold p, sendmsg_bytes, sizeof_hdr.
    rewrite !length_app, !le_bytes_length. change (length (sockaddr_bytes _)) with 16%nat. cbn [length]. lia. }
  assert ((DAEMON_FLOW_UDP, udp) ∈ [(DAEMON_FLOW_UDP, udp)]) as Hin by by apply list_elem_of_singleton.
  assert (Z.of_nat (length data) < 4294967296) as Hl' by lia.
  pose proof (host_for_sock h addr peer route x sk i c SENDMSG_CALL xd xu xi pid Hh) as Hfs.
  pose proof (sendmsg_runs protos junk_addr [(DAEMON_FLOW_UDP, udp)] Hw xd 0 (md (h_daemon h)) hd x udp addr sport peer dport flags data
    Hfs Hops Hb Hin Hp Hdp Hfl Hne Hl') as Hrun.
  destruct (Hrun (h_daemon h) Hd) as ([] & d1 & E1 & d' & Hd1 & Hw1). fold p in E1. clear Hrun.
  destruct (dgram_leaves ip udp dae nic icmp addr peer route xu 0 (md (h_udp h)) xi 0 (h_udp h) (h_ip h) junk now x t sport dport data)
    as (u1 & f1 & i1 & out & Eu & Bu & Df1 & Ei & Bi & Do & Bo);
    [exact Hu|exact Hs|exact Hip|exact Hb|exact Ht|exact Ht8|exact Hp|exact Hdp|exact Hbd|exact Hl|].
  destruct (ack_returned Hk SENDMSG_CALL sk i c (call_count (h_wedge h)) dpid (Z.of_nat (length data)) w1 W) as (w2 & w3 & E2 & E3);
    [done|unfold DAEMON_MAX_CALLS, MAX_CALLS in *; lia|apply Hwr|done|lia|].
  eexists w1, hd, p, d1, _, u1, f1, i1, out, _, w2, w3.
  split_and!; [by exists (message_parts (hdr_bytes hd ++ p))|exact E1|apply Hd1|done|exact Eu|exact Bu|exact Df1|exact Ei|exact Bi|exact Do
    |exact Bo| |exact E2|exact E3].
  rewrite (rs_md _ _ _ _ _ Hd1). exact Hw1.
Qed.

(** An application of [h] waits for a datagram. *)
Lemma host_waits h addr peer route x sk i c xd xu xi pid len flags :
  host_ok h addr peer route x sk i c RECVMSG_CALL xd xu xi → idle i (md (h_daemon h)) x →
  -2147483648 ≤ pid < 2147483648 → 0 ≤ len < 2147483648 → 0 ≤ flags < 2147483648 → has flags MSG_ERRQUEUE = false →
  ∃ w1 hd p d1,
    call_reaches (fins_recvmsg (Some sk) pid 0 len 0 flags) (h_wedge h) i c w1 hd p ∧
    daemon_out protos junk_addr hd p (h_daemon h) = Ok (tt, d1) ∧
    becomes [(DAEMON_FLOW_UDP, udp)] xd 1 (sview dmx (md (h_daemon h))) (wedge (md (h_daemon h))) i
      (MkASock [] [wreader (call_count (h_wedge h)) c len flags] []) d1 ∧
    wwaits w1 sk i c RECVMSG_CALL (call_count (h_wedge h)).
Proof using Hk Hw Hj.
  intros Hh Hid Hpid Hlen Hfl He. pose proof Hh as [Hwr Hi Hc Hd Hx Hxid Hops Hu Hs Hip Hf].
  destruct (recvmsg_sent Hk sk pid len flags (h_wedge h) i c Hwr) as (w1 & E & N & _ & W).
  set (hd := MkHdr _ _ _ _ _ _) in N. set (p := recvmsg_bytes _ _) in N.
  assert (recv_steps recv_idle (message_parts (hdr_bytes hd ++ p)) = Ok (recv_idle, [(hd, p)])) as R.
  { apply recv_sent; [done|by apply wready_hdr|done]. }
  pose proof (host_for_sock h addr peer route x sk i c RECVMSG_CALL xd xu xi pid Hh) as Hfs.
  pose proof (recvmsg_runs protos junk_addr [(DAEMON_FLOW_UDP, udp)] xd 1 Hw i (md (h_daemon h)) x hd len flags
    Hid Hfs eq_refl Hc Hops Hlen Hfl He) as Hrun.
  destruct (Hrun (h_daemon h) Hd) as ([] & d1 & E1 & HB). clear Hrun. exists w1, hd, p, d1.
  split_and!; [by exists (message_parts (hdr_bytes hd ++ p))|exact E1|exact HB|exact W].
Qed.

(** The packet arrives, and the application gets the datagram. *)
Lemma host_receives h addr peer route x sk i c xd xu xi w1 d1 out ff m t len flags dpid nr cr sport dport data :
  host_ok h addr peer route x sk i c RECVMSG_CALL xd xu xi → protos UDP_PT_UDP = Some udp_ops →
  let V := sview dmx (md (h_daemon h)) in
  becomes [(DAEMON_FLOW_UDP, udp)] xd 1 V (wedge (md (h_daemon h))) i
    (MkASock [] [wreader (call_count (h_wedge h)) c len flags] []) d1 →
  wwaits w1 sk i c RECVMSG_CALL (call_count (h_wedge h)) →
  crosses_udp out ff m →
  body out = Data (MkData DIR_DOWN (Z.of_nat (length data) + 28) (Some (udp_packet peer addr t sport dport data))) →
  match_packet_addr4_udp (sockets (md (h_daemon h))) peer sport addr dport = i →
  is_u32 addr → is_u32 peer → is_u8 t → t ≠ 0 → is_u16 sport → is_u16 dport → dpid ≠ -1 →
  data ≠ [] → is_bytes data → Z.of_nat (length data) + 28 < 65536 → Z.of_nat (length data) ≤ len →
  match nr with Some n => sizeof_sockaddr_in ≤ n | None => True end →
  match cr with Some n => 0 ≤ n | None => True end →
  ∃ i1 f2 u1 f3 d2 reply w2 w3,
    ipv4_in_fdf ff (h_ip h) = Ok (tt, i1) ∧ bf_rep (outq i1) (xi ++ [f2]) ∧ destinationID f2 = udp ∧
    udp_in_fdf f2 (h_udp h) = Ok (tt, u1) ∧ bf_rep (outq u1) (xu ++ [f3]) ∧ destinationID f3 = dae ∧
    daemon_in_fdf protos f3 d1 = Ok (tt, d2) ∧ wedge (md d2) = wedge (md d1) ++ [reply] ∧
    nl_data_ready dpid (reply_bytes reply) w1 = Ok (tt, w2) ∧
    fins_recvmsg_woken nr cr [len] i c false w2
      = Ok ((Z.of_nat (length data), MkOut 0 (sockaddr_bytes (peer_addr peer sport)) [data] []), w3).
Proof using Hk Hw Hj.
  intros Hh Hpr V HB W Hcr Ho Hmt Ha Hp Ht Ht0 Hsp Hdp Hdpid Hne Hbd Hl Hlen Hnr Hc.
  pose proof Hh as [Hwr Hi Hci Hd Hx Hxid Hops Hu Hs Hip Hf].
  destruct (dgram_arrives ip udp dae nic icmp addr peer route xi 0 (h_ip h) xu 0 (md (h_udp h)) (h_udp h) out ff m t sport dport data
    Hip Hf Hu Hcr Ho Ha Hp Ht Ht0 Hsp Hdp Hbd Hl) as (i1 & f2 & u1 & f3 & m3 & Ei & Bi & D2 & Eu & Bu & D3 & M3 & U3 & B3).
  destruct HB as (d & y & Hd1 & Hus). set (r := wreader _ c len flags) in *. set (a := MkASock [] [r] []) in *.
  assert (∀ socks, dmx <$> socks = V → match_packet_addr4_udp socks peer sport addr dport = i) as Hv.
  { intros socks Hv. rewrite <- Hmt. by apply match_packet_view. }
  assert (Z.of_nat (length data) < 4294967296) as Hl' by lia.
  assert (may_arrive (MkAddr AF_INET sport peer, data) a) as Hma by by left.
  pose proof (received_runs protos [(DAEMON_FLOW_UDP, udp)] xd 1 Hw V _ i d a y f3 m3 DIR_UP peer sport addr dport data
    Hus M3 U3 Hsp Hdp B3 Hne Hl' Hpr Hma Hv) as Hrun.
  destruct (Hrun d1 Hd1) as ([] & d2 & E2 & d' & y' & Hd2 & Hus2). clear Hrun.
  destruct (recvmsg_returned Hk nr cr sk i c (call_count (h_wedge h)) len flags dpid (MkAddr AF_INET sport peer, data) w1 W)
    as (w2 & w3 & E3 & E4); [unfold DAEMON_MAX_CALLS, MAX_CALLS in *; lia|apply Hwr|done|done|done|cbn; lia|done|done|].
  eexists i1, f2, u1, f3, d2, _, w2, w3.
  split_and!; [exact Ei|exact Bi|exact D2|exact Eu|exact Bu|exact D3|exact E2| |exact E3|exact E4].
  rewrite (rs_md _ _ _ _ _ Hd2), (rs_md _ _ _ _ _ Hd1), (us_log _ _ _ _ _ _ Hus), (us_log _ _ _ _ _ _ Hus2).
  cbn [a a_log a_arrive a_readers]. by rewrite app_nil_r.
Qed.

End Hosts.

(** ** Property *)

(** C5: A datagram travels from application to application.  An application on
    host B waits in [recvmsg] on a UDP socket; one on host A calls [sendmsg] with
    the address of that socket.  The call goes through the wedge and the daemon
    of A as one message and one frame, through its UDP and IPv4 modules as one
    packet, and returns the number of bytes; when the packet arrives at B, its
    IPv4 module, UDP module and daemon hand it on, the wedge wakes the call of
    the application, and that call returns the bytes that were sent, their
    number, and the address and port of the sender.  Every step returns. *)
Theorem udp_end_to_end {Q} `{BoundedFifo Q finsFrame} `{DaemonEnv} `{WedgeEnv} (protos : Z → option (proto_ops Q))
    junk_addr ip udp dae nic icmp (a b : host Q) A B routeA routeB xA xB skA iA cA skB iB cB xdA xuA xiA xdB xuB xiB
    pidA pidB dpid flagsA flagsB len nr cr sport dport t data junk now :
  (∀ t, kernel_ok t = true) → (∀ t, wedge_ok t = true) → length junk_pad = 4%nat →
  protos UDP_PT_UDP = Some udp_ops →
  host_ok protos ip udp dae nic icmp a A B routeA xA skA iA cA SENDMSG_CALL xdA xuA xiA →
  host_ok protos ip udp dae nic icmp b B A routeB xB skB iB cB RECVMSG_CALL xdB xuB xiB →
  bound xA A sport → so_opts xA FIP_TTL = t → is_u8 t → t ≠ 0 →
  idle iB (md (h_daemon b)) xB →
  match_packet_addr4_udp (sockets (md (h_daemon b))) A sport B dport = iB →
  is_u32 B → is_u16 dport → is_u32 flagsA → 0 ≤ flagsB < 2147483648 → has flagsB MSG_ERRQUEUE = false →
  -2147483648 ≤ pidA < 2147483648 → -2147483648 ≤ pidB < 2147483648 → dpid ≠ -1 →
  data ≠ [] → is_bytes data → Z.of_nat (length data) + 28 < 65536 → Z.of_nat (length data) ≤ len < 2147483648 →
  match nr with Some n => sizeof_sockaddr_in ≤ n | None => True end →
  match cr with Some n => 0 ≤ n | None => True end →
  let n := Z.of_nat (length data) in
  ∃ wb1 hB pB db1,
    call_reaches (fins_recvmsg (Some skB) pidB 0 len 0 flagsB) (h_wedge b) iB cB wb1 hB pB ∧
    daemon_out protos junk_addr hB pB (h_daemon b) = Ok (tt, db1) ∧
  ∃ wa1 hA pA da1 f0 ua1 f1 ia1 out ack wa2 wa3,
    call_reaches (fins_sendmsg (Some skA) pidA 0 sizeof_sockaddr_in (Some (sockaddr_bytes (peer_addr B dport))) flagsA []
      [MkIov (Some data) n]) (h_wedge a) iA cA wa1 hA pA ∧
    daemon_out protos junk_addr hA pA (h_daemon a) = Ok (tt, da1) ∧
    bf_rep (outq da1) (xdA ++ [f0]) ∧ destinationID f0 = udp ∧
    udp_out_fdf f0 (h_udp a) = Ok (tt, ua1) ∧ bf_rep (outq ua1) (xuA ++ [f1]) ∧ destinationID f1 = ip ∧
    ipv4_out_fdf junk now f1 (h_ip a) = Ok (tt, ia1) ∧ bf_rep (outq ia1) (xiA ++ [out]) ∧ destinationID out = nic ∧
    wedge (md da1) = wedge (md (h_daemon a)) ++ [ack] ∧
    nl_data_ready dpid (reply_bytes ack) wa1 = Ok (tt, wa2) ∧ fins_sendmsg_woken iA cA false wa2 = Ok (n, wa3) ∧
  ∀ ff m, crosses_udp out ff m →
  ∃ ib1 f2 ub1 f3 db2 reply wb2 wb3,
    ipv4_in_fdf ff (h_ip b) = Ok (tt, ib1) ∧ bf_rep (outq ib1) (xiB ++ [f2]) ∧ destinationID f2 = udp ∧
    udp_in_fdf f2 (h_udp b) = Ok (tt, ub1) ∧ bf_rep (outq ub1) (xuB ++ [f3]) ∧ destinationID f3 = dae ∧
    daemon_in_fdf protos f3 db1 = Ok (tt, db2) ∧ wedge (md db2) = wedge (md db1) ++ [reply] ∧
    nl_data_ready dpid (reply_bytes reply) wb1 = Ok (tt, wb2) ∧
    fins_recvmsg_woken nr cr [len] iB cB false wb2
      = Ok ((n, MkOut 0 (sockaddr_bytes (peer_addr A sport)) [data] []), wb3).
Proof.
  intros Hk Hw Hj Hpr Ha Hb Hbound Httl Ht8 Ht0 Hidle Hmt HB Hdp HfA HfB He HpA HpB Hdpid Hne Hbd Hl [Hlen1 Hlen2] Hnr Hcr n.
  assert (0 ≤ len < 2147483648) as Hlen by lia. pose proof Hbound as (_ & _ & _ & HA & Hsp).
  destruct (host_waits protos junk_addr ip udp dae nic icmp Hk Hw Hj b B A routeB xB skB iB cB xdB xuB xiB pidB len flagsB
    Hb Hidle HpB Hlen HfB He) as (wb1 & hB & pB & db1 & R1 & E1 & B1 & W1).
  exists wb1, hB, pB, db1. split; [exact R1|]. split; [exact E1|].
  destruct (host_sends protos junk_addr ip udp dae nic icmp Hk Hw Hj a A B routeA xA skA iA cA xdA xuA xiA pidA flagsA junk now dpid
    sport dport t data Ha Hbound Httl Ht8 HB Hdp HfA HpA Hdpid Hne Hbd Hl)
    as (wa1 & hA & pA & da1 & f0 & ua1 & f1 & ia1 & out & ack & wa2 & wa3 & R2 & E2 & Q0 & D0 & Eu & Q1 & D1 & Ei & Q2 & D2 & Bo & Wl & Es & Er).
  exists wa1, hA, pA, da1, f0, ua1, f1, ia1, out, ack, wa2, wa3.
  split_and!; [exact R2|exact E2|exact Q0|exact D0|exact Eu|exact Q1|exact D1|exact Ei|exact Q2|exact D2|exact Wl|exact Es|exact Er|].
  intros ff m Hc.
  exact (host_receives protos ip udp dae nic icmp Hk Hw Hj b B A routeB xB skB iB cB xdB xuB xiB wb1 db1 out ff m t len flagsB dpid
    nr cr sport dport data Hb Hpr B1 W1 Hc Bo Hmt HB HA Ht8 Ht0 Hsp Hdp Hdpid Hne Hbd Hl Hlen1 Hnr Hcr).
Qed.

(** ** Two hosts on one network *)

#[local] Existing Instance demo_daemon_env.
#[local] Existing Instance demo_wedge_env.

(** A module whose four flows lead to the modules [a], [b], [c] and [e]. *)
Definition demo_node {D} (a b c e : Z) (d : D) : mstate (QueueRecord finsFrame) D :=
  MkSt (MkMod FMS_RUNNING 4 5 5 (init_queue 10) (init_queue 10))
    (MkTable (Some [1; 2; 3; 4]) 4 [MkFlow 1 1; MkFlow 2 2; MkFlow 3 3; MkFlow 4 4]) d
    (MkStore {[1 := MkLink 1 5 1 [a]; 2 := MkLink 2 5 1 [b]; 3 := MkLink 3 5 1 [c]; 4 := MkLink 4 5 1 [e]]} 5) [] 0.

Lemma demo_node_table {D} a b c e (d : D) : let s := demo_node a b c e d in table_ok (lcells (store s)) (mt s).
Proof.
  split; simpl; [lia| |].
  - intros l [= <-]. split; [repeat constructor; set_solver|].
    repeat constructor; (eexists; split; [vm_compute; reflexivity|simpl; lia]).
  - intros i f Hi Hf. exists [1; 2; 3; 4]. split; [done|].
    destruct i as [|[|[|[|i]]]]; try lia; injection Hf as <-; vm_compute; reflexivity.
Qed.

Lemma demo_node_room {D} a b c e (d : D) n : (n ≤ 10)%nat → room (demo_node a b c e d) [] n.
Proof. intros Hn. split; [apply create_qrep; lia|]. simpl. lia. Qed.

Lemma demo_node_single {D} a b c e (d : D) f : (length (flow_dsts (demo_node a b c e d) f) ≤ 1)%nat.
Proof.
  unfold flow_dsts. destruct (Z.leb_spec (flows_num (mt (demo_node a b c e d))) f) as [|Hf]; [simpl; lia|].
  simpl in Hf. destruct (Z.to_nat f) as [|[|[|[|i]]]] eqn:E; [vm_compute; lia..|].
  simpl. lia.
Qed.

(** Modules: 1 interface, 3 IPv4, 4 ICMP, 5 UDP, 6 TCP, 8 daemon. *)
Definition demo_app_wedge : wedge_state :=
  MkWState (<[0%nat := MkWSock 70 70 (replicate 22 0) false None]> (replicate 100 demo_wsocket)) (replicate 100 demo_wcall)
    7 4000 [] [] 0.
Definition demo_app_socket (ip port : Z) : daemon_socket :=
  set_so_host_addr (MkAddr AF_INET port ip)
    (set_so_family AF_INET (new_socket 70 SOCK_DGRAM IPPROTO_UDP IPPROTO_UDP free_socket)).
Definition demo_app_daemon (ip port : Z) : daemon_data := put_sock 0 (demo_app_socket ip port) demo_daemon_data.
Definition demo_host (ip port : Z) : host (QueueRecord finsFrame) :=
  MkHost demo_app_wedge (demo_node 4 6 5 0 (demo_app_daemon ip port))
    (demo_node 3 4 8 0 (MkUdp (MkUStats 0 0 0 0 0 0 0) []))
    (demo_node 1 4 6 5 (md (demo_ip_host ip))).

Lemma demo_app_ready t : 0 ≤ t < 22 → wready demo_app_wedge 70 0 0 t.
Proof.
  intros Ht. split; try done; try reflexivity.
  - eexists. split; [done|]. split; [reflexivity|]. apply lookup_lt_is_Some_2. cbn. lia.
  - by eexists.
Qed.

Lemma demo_host_ok ip peer port t :
  0 ≤ t < 22 → ours (md (demo_ip_host ip)) ip = true →
  find_first (ipv4_route_dst_test peer) (route_list demo_ipv4) = Some demo_route →
  loops_back (md (demo_ip_host ip)) demo_route (next_hop demo_route peer) = false →
  host_ok udp_only 3 5 8 1 4 (demo_host ip port) ip peer demo_route (demo_app_socket ip port) 70 0 0 t [] [] [].
Proof.
  intros Ht Ho Hr Hl. split; try done; [by apply demo_app_ready|..].
  - split; [done|apply demo_node_table|by apply demo_node_room; lia|]. by intros f dst [= -> ->]%list_elem_of_singleton.
  - split; [done|apply demo_node_table|by apply demo_node_room; lia|].
    intros f dst. rewrite !elem_of_cons, elem_of_nil. intros [[= -> ->]|[[= -> ->]|[]]]; reflexivity.
  - split; try done; [apply demo_node_table|by apply demo_node_room; lia|apply demo_node_single].
Qed.

(** Witness of C5: two bytes from port 5000 of 192.168.1.1 to port 6000 of
    192.168.1.2, where a buffer of 1500 bytes waits. *)
Lemma udp_end_to_end_witness :
  let a := demo_host 3232235777 5000 in
  let b := demo_host 3232235778 6000 in
  ∃ wb1 hB pB db1,
    call_reaches (fins_recvmsg (Some 70) 9 0 1500 0 0) (h_wedge b) 0 0 wb1 hB pB ∧
    daemon_out udp_only [] hB pB (h_daemon b) = Ok (tt, db1) ∧
  ∃ wa1 hA pA da1 f0 ua1 f1 ia1 out ack wa2 wa3,
    call_reaches (fins_sendmsg (Some 70) 8 0 sizeof_sockaddr_in
      (Some (sockaddr_bytes (peer_addr 3232235778 6000))) 0 [] [MkIov (Some [104; 105]) 2]) (h_wedge a) 0 0 wa1 hA pA ∧
    daemon_out udp_only [] hA pA (h_daemon a) = Ok (tt, da1) ∧
    bf_rep (outq da1) [f0] ∧ destinationID f0 = 5 ∧
    udp_out_fdf f0 (h_udp a) = Ok (tt, ua1) ∧ bf_rep (outq ua1) [f1] ∧ destinationID f1 = 3 ∧
    ipv4_out_fdf junk_packet 0 f1 (h_ip a) = Ok (tt, ia1) ∧ bf_rep (outq ia1) [out] ∧ destinationID out = 1 ∧
    wedge (md da1) = [ack] ∧
    nl_data_ready 4000 (reply_bytes ack) wa1 = Ok (tt, wa2) ∧
    fins_sendmsg_woken 0 0 false wa2 = Ok (2, wa3) ∧
  ∀ ff m, crosses_udp out ff m →
  ∃ ib1 f2 ub1 f3 db2 reply wb2 wb3,
    ipv4_in_fdf ff (h_ip b) = Ok (tt, ib1) ∧ bf_rep (outq ib1) [f2] ∧ destinationID f2 = 5 ∧
    udp_in_fdf f2 (h_udp b) = Ok (tt, ub1) ∧ bf_rep (outq ub1) [f3] ∧ destinationID f3 = 8 ∧
    daemon_in_fdf udp_only f3 db1 = Ok (tt, db2) ∧ wedge (md db2) = wedge (md db1) ++ [reply] ∧
    nl_data_ready 4000 (reply_bytes reply) wb1 = Ok (tt, wb2) ∧
    fins_recvmsg_woken None None [1500] 0 0 false wb2
      = Ok ((2, MkOut 0 (sockaddr_bytes (peer_addr 3232235777 5000)) [[104; 105]] []), wb3).
Proof.
  intros a b.
  refine (udp_end_to_end udp_only [] 3 5 8 1 4 a b 3232235777 3232235778
    demo_route demo_route (demo_app_socket 3232235777 5000) (demo_app_socket 3232235778 6000) 70 0 0 70 0 0 [] [] [] [] [] []
    8 9 4000 0 0 1500 None None 5000 6000 64 [104; 105] junk_packet 0 _ _ _ _ _ _ _ _ _ _ _ _ _ _ _ _ _ _ _ _ _ _ _ _ _ _);
    try done.
  - by apply demo_host_ok.
  - by apply demo_host_ok.
  - split; try done. by apply Forall_replicate.
  - repeat constructor; vm_compute; discriminate.
Defined.

(** ** Calls that the daemon does not see *)

(** C8: The call table of the wedge has 100 entries, that of the daemon 50.  A
    call that gets an entry above 50 of the wedge's table, because as many other
    calls wait, is sent to the daemon like any other; the daemon takes the
    message and does nothing at all: it sends no answer and stores nothing,
    while the thread of the application waits for the answer. *)
Theorem call_beyond_daemon_table {Q} `{BoundedFifo Q finsFrame} `{DaemonEnv} `{WedgeEnv}
    (protos : Z → option (proto_ops Q)) junk_addr w sk i c t pid b :
  (∀ t, kernel_ok t = true) → length junk_pad = 4%nat →
  wready w sk i c t → is_u32 t → i ≤ MAX_SOCKETS → DAEMON_MAX_CALLS < c ≤ MAX_CALLS → -2147483648 ≤ pid < 2147483648 →
  Z.of_nat (length b) < 65536 →
  ∃ w1 h, call_reaches (simple_request (Some sk) pid t b) w i c w1 h b ∧
    wwaits w1 sk i c t (call_count w) ∧
    ∀ s : mstate Q daemon_data, daemon_out protos junk_addr h b s = Ok (tt, s).
Proof.
  intros Hk Hj Hr Ht Hi Hc Hp Hb. unfold DAEMON_MAX_CALLS, MAX_CALLS, MAX_SOCKETS in *.
  destruct (request_sends Hk sk pid t (λ rc, rc) (λ s, Ok (Built b, s)) (λ p s, Ok (Built p, s)) b b w i c Hr) as (w1 & E & N & _ & W); try done.
  pose proof (wr_sock _ _ _ _ _ Hr) as (x & Hi0 & _). pose proof (proj1 (wr_count _ _ _ _ _ Hr)) as Hn.
  pose proof (u32_range sk) as Hu. set (h := MkHdr _ _ _ _ _ _) in N. exists w1, h. split_and!; [|done|].
  - exists (message_parts (hdr_bytes h ++ b)). split_and!; [exact E|exact N|]. apply recv_sent; [done| |unfold sizeof_hdr; lia].
    unfold is_u32 in *. split; cbn; unfold is_u32; lia.
  - intros s. unfold daemon_out. cbn [h h_call_index]. unfold DAEMON_MAX_CALLS.
    by rewrite (proj2 (Z.ltb_lt 50 c)), orb_true_r by lia.
Qed.

(** Fifty-one calls wait. *)
Definition demo_busy_wedge : wedge_state :=
  set_wedge_calls (replicate 51 (set_wc_call_id 3 demo_wcall) ++ replicate 49 demo_wcall) demo_app_wedge.

(** Witness of C8: a [listen] call that gets entry 51. *)
Lemma call_beyond_daemon_table_witness :
  ∃ w1 h, call_reaches (simple_request (Some 70) 9 LISTEN_CALL (le_bytes 4 5)) demo_busy_wedge 0 51 w1 h (le_bytes 4 5) ∧
    wwaits w1 70 0 51 LISTEN_CALL 7 ∧
    ∀ s : mstate (QueueRecord finsFrame) daemon_data, daemon_out udp_only [] h (le_bytes 4 5) s = Ok (tt, s).
Proof.
  apply (call_beyond_daemon_table udp_only [] demo_busy_wedge 70 0 51 LISTEN_CALL 9 (le_bytes 4 5)); try done.
  split; try done; try reflexivity.
  - eexists. split; [done|]. by split; [reflexivity|].
  - by eexists.
Defined.
