(* ===== verification/DaemonStream.v ===== *)
(** * A TCP socket as a stream of bytes

    What a connected socket promises: the bytes that the TCP module delivers
    reach the readers in order, each byte once, and the TCP module gets back
    as much window as was read.  The abstract socket has the bytes that wait,
    in the pieces in which they came, the readers that wait, and the answers
    given; the handlers of [DaemonTcp] and [DaemonTcpIn] refine it. *)

From stdpp Require Import base list gmap strings.
From Stdlib Require Import ZArith Lia.
From S2P Require Import Prelude Queue Metadata Frame Module IPv4 Double Run IcmpFacts Daemon DaemonUdp DaemonOut DaemonTcp DaemonTcpIn DaemonFacts DaemonPorts DaemonQueue Wedge WedgeCalls Sockets.
Open Scope Z_scope.
Open Scope fins_scope.

(** ** The abstract socket *)

(** What a reader was given: an address and bytes. *)
Record answer := MkAns { an_reader : reader; an_addr : sockaddr; an_bytes : list Z }.

Definition stream_msg (e : answer) : wedge_msg :=
  MkWedge RECVMSG_CALL (r_id (an_reader e)) (r_index (an_reader e)) DAEMON_ACK 0
    (le_bytes 4 sizeof_sockaddr_in ++ sockaddr_bytes (an_addr e)
     ++ le_bytes 4 (Z.of_nat (length (an_bytes e))) ++ an_bytes e ++ le_bytes 4 0).

Record tsock := MkTSock { t_chunks : list (list Z); t_readers : list reader; t_log : list answer }.

(** What a reader takes of a piece, and what it leaves. *)
Definition taken (r : reader) (c : list Z) : list Z := take (Z.to_nat (r_buf r)) c.
Definition kept (r : reader) (c : list Z) : list Z := drop (Z.to_nat (r_buf r)) c.
Definition put_chunk (c : list Z) (cs : list (list Z)) : list (list Z) :=
  match c with [] => cs | _ => c :: cs end.

(** A new piece goes to the readers in turn. *)
Fixpoint t_feed (rs : list reader) (cs : list (list Z)) (c : list Z) (addr : sockaddr) (lg : list answer) : tsock :=
  match rs with
  | [] => MkTSock (cs ++ [c]) [] lg
  | r :: rs =>
      let lg := lg ++ [MkAns r (netw_addr addr) (taken r c)] in
      match kept r c with
      | [] => MkTSock cs rs lg
      | c' => t_feed rs cs c' (netw_addr addr) lg
      end
  end.
Definition t_arrive (c : list Z) (addr : sockaddr) (a : tsock) : tsock :=
  t_feed (t_readers a) (t_chunks a) c addr (t_log a).
Definition t_recv (peer : sockaddr) (r : reader) (a : tsock) : tsock :=
  match t_chunks a with
  | [] => MkTSock [] (t_readers a ++ [r]) (t_log a)
  | c :: cs => MkTSock (put_chunk (kept r c) cs) (t_readers a) (t_log a ++ [MkAns r peer (taken r c)])
  end.

Lemma taken_kept r c : taken r c ++ kept r c = c.
Proof. apply take_drop. Qed.

Definition bytes_of (lg : list answer) : list Z := concat (an_bytes <$> lg).
Lemma bytes_snoc lg e : bytes_of (lg ++ [e]) = bytes_of lg ++ an_bytes e.
Proof. unfold bytes_of. rewrite fmap_app, concat_app. simpl. by rewrite app_nil_r. Qed.

(** [b] are the bytes that came and [rs] the readers that called: what the
    abstract socket makes of them. *)
Record stream_of (b : list Z) (rs : list reader) (a : tsock) : Prop := {
  so_bytes : bytes_of (t_log a) ++ concat (t_chunks a) = b;
  so_order : (an_reader <$> t_log a) ++ t_readers a = rs;
  so_wait : t_chunks a = [] ∨ t_readers a = [];
  so_pieces : Forall (λ c, c ≠ []) (t_chunks a);
  so_some : Forall (λ e, 0 < r_buf (an_reader e) → an_bytes e ≠ []) (t_log a)
}.

Lemma taken_some r c : c ≠ [] → 0 < r_buf r → taken r c ≠ [].
Proof. intros Hc Hr. unfold taken. destruct c; [done|]. destruct (Z.to_nat (r_buf r)) eqn:E; [lia|done]. Qed.

Lemma log_some lg r addr c :
  Forall (λ e, 0 < r_buf (an_reader e) → an_bytes e ≠ []) lg → c ≠ [] →
  Forall (λ e, 0 < r_buf (an_reader e) → an_bytes e ≠ []) (lg ++ [MkAns r addr (taken r c)]).
Proof. intros Hl Hc. apply Forall_app. split; [done|]. constructor; [|constructor]. simpl. by apply taken_some. Qed.

Lemma feed_stream rs c addr lg b0 rs0 :
  c ≠ [] → bytes_of lg = b0 → (an_reader <$> lg) ++ rs = rs0 →
  Forall (λ e, 0 < r_buf (an_reader e) → an_bytes e ≠ []) lg →
  stream_of (b0 ++ c) rs0 (t_feed rs [] c addr lg).
Proof.
  revert c addr lg b0 rs0. induction rs as [|r rs IH]; intros c addr lg b0 rs0 Hc <- <- Hs; cbn [t_feed app].
  - split; simpl; try done; [by rewrite app_nil_r|by right|by constructor].
  - assert ((an_reader <$> (lg ++ [MkAns r (netw_addr addr) (taken r c)])) ++ rs = (an_reader <$> lg) ++ r :: rs) as Er
      by (rewrite fmap_app, <- app_assoc; done).
    pose proof (taken_kept r c) as Etk. destruct (kept r c) as [|z c'] eqn:Ek.
    + split; simpl; [|done|by left|done|by apply log_some].
      rewrite app_nil_r in Etk. rewrite bytes_snoc. simpl. by rewrite app_nil_r, Etk.
    + replace (bytes_of lg ++ c) with ((bytes_of lg ++ taken r c) ++ z :: c') by (rewrite <- app_assoc, Etk; done).
      apply IH; [done| |exact Er|by apply log_some]. by rewrite bytes_snoc.
Qed.

Lemma arrive_stream b rs a c addr :
  stream_of b rs a → c ≠ [] → stream_of (b ++ c) rs (t_arrive c addr a).
Proof.
  intros [Hb Ho Hw Hp Hs] Hc. unfold t_arrive. destruct Hw as [E|E]; rewrite E in *.
  - apply feed_stream; try done. by rewrite app_nil_r in Hb.
  - cbn [t_feed]. split; simpl; try done.
    + rewrite concat_app. simpl. by rewrite app_nil_r, app_assoc, Hb.
    + by right.
    + apply Forall_app. split; [done|]. by constructor.
Qed.

Lemma recv_stream b rs a peer r :
  stream_of b rs a → stream_of b (rs ++ [r]) (t_recv peer r a).
Proof.
  intros [Hb Ho Hw Hp Hs]. unfold t_recv. destruct (t_chunks a) as [|c cs] eqn:E.
  - split; simpl; try done; [by rewrite app_assoc, Ho|by left].
  - destruct Hw as [?|Er]; [done|]. apply Forall_cons in Hp as [Hc Hp]. rewrite Er, app_nil_r in Ho.
    split; simpl; [| | by right| |].
    + rewrite bytes_snoc, <- app_assoc. simpl. rewrite <- Hb. f_equal. simpl.
      assert (c ++ concat cs = taken r c ++ kept r c ++ concat cs) as -> by (rewrite app_assoc, taken_kept; done).
      f_equal. by destruct (kept r c).
    + by rewrite Er, app_nil_r, fmap_app, Ho.
    + by destruct (kept r c) eqn:Ek; simpl; [|constructor].
    + by apply log_some.
Qed.

(** ** The representation *)

Definition has_main (d : daemon_data) : Prop :=
  ∃ f l, d_if_main d = Some f ∧ addr_list f = Some l.

(** Socket [i], seen as [x], is connected and open for reading, and the readers [rs] wait on it; [V]
    is the view of all sockets. *)
Record attached (V : list (Z * Z * Z * sockaddr * sockaddr)) (i : Z) (d : daemon_data)
    (rs : list reader) (x : daemon_socket) : Prop := {
  at_i : 0 ≤ i;
  at_sock : sockets d !! Z.to_nat i = Some x;
  at_view : sview dmx d = V;
  at_bare : bare x = true;
  at_state : so_state x = SS_CONNECTED;
  at_open : has (so_status x) DAEMON_STATUS_RD = true;
  at_main : has_main d;
  at_calls : so_call_list x = map (λ r, CArr (r_index r)) rs;
  at_nodup : NoDup (r_index <$> rs);
  at_readers : Forall (waits d i) rs;
  at_free : ∀ j c, calls d !! j = Some c →
    c_alloc c = false ∧ (Z.of_nat j ∉ r_index <$> rs → c_id c = NO_CALL);
  at_table : Z.of_nat (length (calls d)) = DAEMON_MAX_CALLS
}.

(** A socket that differs in what no reader sees. *)
Definition alike (x y : daemon_socket) : Prop :=
  dmx y = dmx x ∧ bare y = bare x ∧ so_state y = so_state x ∧ so_status y = so_status x.

Lemma sview_set i x y d d' :
  sockets d !! Z.to_nat i = Some x → dmx y = dmx x → sockets d' = <[Z.to_nat i := y]> (sockets d) →
  sview dmx d' = sview dmx d.
Proof.
  intros Hx Hy E. unfold sview. rewrite E, list_fmap_insert, Hy. apply list_insert_id. by rewrite list_lookup_fmap, Hx.
Qed.

Section Attached.
Context (V : list (Z * Z * Z * sockaddr * sockaddr)) (i : Z) (d : daemon_data) (x : daemon_socket).

Lemma attached_set rs y d' :
  attached V i d rs x → alike x y → so_call_list y = so_call_list x →
  sockets d' = <[Z.to_nat i := y]> (sockets d) → calls d' = calls d → d_if_main d' = d_if_main d →
  attached V i d' rs y.
Proof.
  intros [Hi Hx Hv Hb Hst Hrd Hm Hc Hn Hr Hf Ht] (Hd & Hbr & Hs & Hsu) Hcl Es Ec Em. split; try done.
  - rewrite Es. apply list_lookup_insert_eq. by eapply lookup_lt_Some.
  - rewrite <- Hv. by eapply sview_set.
  - by rewrite Hbr.
  - by rewrite Hs.
  - by rewrite Hsu.
  - destruct Hm as (f & l & ? & ?). exists f, l. by rewrite Em.
  - by rewrite Hcl.
  - eapply Forall_impl; [exact Hr|]. intros r. unfold waits. by rewrite Ec.
  - by rewrite Ec.
  - by rewrite Ec.
Qed.

(** The first reader is served and leaves the list and the table. *)
Lemma attached_served r rs y c d' :
  attached V i d (r :: rs) x → alike x y → so_call_list y = delete 0%nat (so_call_list x) →
  calls d !! Z.to_nat (r_index r) = Some c →
  sockets d' = <[Z.to_nat i := y]> (sockets d) →
  calls d' = <[Z.to_nat (r_index r) := stop_call (set_c_id NO_CALL c)]> (calls d) →
  d_if_main d' = d_if_main d → attached V i d' rs y.
Proof.
  intros [Hi Hx Hv Hb Hst Hrd Hm Hc Hn Hr Hf Ht] (Hd & Hbr & Hs & Hsu) Hcl Hcr Es Ec Em. simpl in Hn.
  apply NoDup_cons in Hn as [Hnin Hn]. apply Forall_cons in Hr as [(Hi0 & _) Hr]. split; try done.
  - rewrite Es. apply list_lookup_insert_eq. by eapply lookup_lt_Some.
  - rewrite <- Hv. by eapply sview_set.
  - by rewrite Hbr.
  - by rewrite Hs.
  - by rewrite Hsu.
  - destruct Hm as (f & l & ? & ?). exists f, l. by rewrite Em.
  - by rewrite Hcl, Hc.
  - eapply Forall_impl; [apply Forall_and; split; [exact Hr|apply Forall_forall; intros z Hz; exact Hz]|].
    intros z ((H1 & H2 & H3 & c' & Hc' & Hic) & Hz). split_and!; try done. exists c'. split; [|done].
    rewrite Ec, list_lookup_insert_ne; [done|]. intros Heq%Z2Nat.inj; [|done|done]. apply Hnin. rewrite Heq.
    by apply list_elem_of_fmap_2.
  - intros j c'. rewrite Ec. intros [(<- & <- & _)|(Hj & Hc')]%list_lookup_insert_Some.
    + destruct (Hf _ _ Hcr) as [Ha _]. by split.
    + destruct (Hf _ _ Hc') as [Ha Hid]. split; [done|]. intros Hnot. apply Hid. intros [Hj'|Hj']%elem_of_cons; [|done].
      apply Hj. lia.
  - by rewrite Ec, length_insert.
Qed.

(** A reader that waits from now on. *)
Lemma attached_waits rs y h r t c0 d' :
  attached V i d rs x → alike x y → so_call_list y = so_call_list x ++ [CArr (r_index r)] →
  calls_recv i h r → 0 ≤ r_index r → calls d !! Z.to_nat (r_index r) = Some c0 → r_index r ∉ r_index <$> rs →
  sockets d' = <[Z.to_nat i := y]> (sockets d) →
  calls d' = <[Z.to_nat (r_index r) := waiting_call i h r t c0]> (calls d) →
  d_if_main d' = d_if_main d → attached V i d' (rs ++ [r]) y.
Proof.
  intros [Hi Hx Hv Hb Hst Hrd Hm Hc Hn Hr Hf Ht] (Hd & Hbr & Hs & Hsu) Hcl Hcr H0i Hc0 Hnin Es Ec Em. split; try done.
  - rewrite Es. apply list_lookup_insert_eq. by eapply lookup_lt_Some.
  - rewrite <- Hv. by eapply sview_set.
  - by rewrite Hbr.
  - by rewrite Hs.
  - by rewrite Hsu.
  - destruct Hm as (f & l & ? & ?). exists f, l. by rewrite Em.
  - by rewrite Hcl, Hc, map_app.
  - rewrite fmap_app. apply NoDup_app. split_and!; [done| |apply NoDup_singleton].
    intros z Hz ->%list_elem_of_singleton. done.
  - apply Forall_app. split.
    + eapply Forall_impl; [apply Forall_and; split; [exact Hr|apply Forall_forall; intros z Hz; exact Hz]|].
      intros z ((H1 & H2 & H3 & c' & Hc' & Hic) & Hz). split_and!; try done. exists c'. split; [|done].
      rewrite Ec, list_lookup_insert_ne; [done|]. intros Heq%Z2Nat.inj; [|done|done]. apply Hnin. rewrite Heq.
      by apply list_elem_of_fmap_2.
    + constructor; [|constructor]. split_and!; [done|apply Hcr|apply Hcr|]. eexists. rewrite Ec. split.
      * apply list_lookup_insert_eq. by eapply lookup_lt_Some.
      * done.
  - intros j c'. rewrite Ec. intros [(<- & <- & _)|(Hj & Hc')]%list_lookup_insert_Some.
    + destruct (Hf _ _ Hc0) as [Ha _]. split; [done|]. intros Hnot. exfalso. apply Hnot.
      rewrite fmap_app, Z2Nat.id by done. set_solver.
    + destruct (Hf _ _ Hc') as [Ha Hid]. split; [done|]. intros Hnot. apply Hid. rewrite fmap_app in Hnot. set_solver.
  - by rewrite Ec, length_insert.
Qed.

End Attached.

(** A stored frame whose bytes from its position on are [c]. *)
Definition keeps_bytes (st : daemon_store) (c : list Z) : Prop :=
  c ≠ [] ∧ sin_family (st_addr st) = AF_INET ∧ 0 ≤ st_pos st ∧
  ∃ m dir b, metaData (st_ff st) = Some m ∧ stamp_ok m = true ∧
    body (st_ff st) = Data (MkData dir (Z.of_nat (length b)) (Some b)) ∧
    Z.of_nat (length b) < 2147483648 ∧ drop (Z.to_nat (st_pos st)) b = c.

Definition size (cs : list (list Z)) : Z := Z.of_nat (length (concat cs)).

Record tsk (V : list (Z * Z * Z * sockaddr * sockaddr)) (w0 : list wedge_msg) (i : Z)
    (d : daemon_data) (a : tsock) (x : daemon_socket) : Prop := {
  tk_at : attached V i d (t_readers a) x;
  tk_data : Forall2 keeps_bytes (so_data_list x) (t_chunks a);
  tk_buf : so_data_buf x = size (t_chunks a);
  tk_size : size (t_chunks a) < 2147483648;
  tk_one : t_chunks a = [] ∨ t_readers a = [];
  tk_log : wedge d = w0 ++ map stream_msg (t_log a)
}.

(** The window that a frame to the TCP module [tcp] gives back for an answer. *)
Definition returns_window (tcp : Z) (ff : finsFrame) (e : answer) : Prop :=
  destinationID ff = tcp ∧ ∃ m c, metaData ff = Some m ∧ body ff = Ctrl c ∧
    opcode c = CTRL_SET_PARAM ∧ param_id c = DAEMON_SET_PARAM_TCP_HOST_WINDOW ∧
    secure_metadata_readFromElement m "value" = Ok (Z.of_nat (length (an_bytes e))).

(** ** Steps *)

Section Stream.
Context {Q : Type} `{BoundedFifo Q finsFrame} `{DaemonEnv} `{DaemonTcpEnv}.
Abbreviation ST := (mstate Q daemon_data) (only parsing).
Context (fl : list (Z * Z)) (tcp : Z).
Context (Htcp : (DAEMON_FLOW_TCP, tcp) ∈ fl) (Hw : ∀ t, wedge_ok t = true).

Section Steps.
Context {B : Type} (R : B → ST → Prop) (xs : list finsFrame) (n : nat) (d : daemon_data).

Lemma rd_host_metas x m (K : metadata → M ST B) :
  has_main d → forallb (int_key m) ["host_ip"; "host_port"] = true →
  (∀ ip, runs (rest fl xs n d) (K (put_ints [("host_ip", ip); ("host_port", addr4_get_port (so_host_addr x))] m)) R) →
  runs (rest fl xs n d) (host_metas x m ≫= K) R.
Proof.
  intros (f & l & Hf & Hl) Hk HK. simpl in Hk.
  assert (∀ ip, runs (rest fl xs n d)
    (put_metas [("host_ip", ip); ("host_port", addr4_get_port (so_host_addr x))] m ≫= K) R) as Hp.
  { intros ip. apply rd_metas; [exact Hk|]. apply HK. }
  unfold host_metas, host_or_main. apply runs_assoc.
  destruct (addr4_get_ip (so_host_addr x) =? DAEMON_ADDR_ANY); [|by apply runs_ret_bind].
  apply runs_assoc. unfold main_ip. apply runs_assoc, rest_get. intros s Hs. rewrite (rs_md _ _ _ _ _ Hs), Hf, Hl.
  by apply runs_ret_bind, runs_ret_bind.
Qed.

Lemma rd_rem_metas x m (K : metadata → M ST B) :
  so_state x = SS_CONNECTED → forallb (int_key m) ["rem_ip"; "rem_port"] = true →
  runs (rest fl xs n d) (K (put_ints [("rem_ip", addr4_get_ip (so_rem_addr x)); ("rem_port", addr4_get_port (so_rem_addr x))] m)) R →
  runs (rest fl xs n d) (rem_metas x m ≫= K) R.
Proof. intros Hs Hk HK. unfold rem_metas. rewrite Hs. simpl in Hk. apply rd_metas; [exact Hk|exact HK]. Qed.

Lemma rd_window m (e : answer) (K : unit → M ST B) :
  meta_ok m = true → secure_metadata_readFromElement m "value" = Ok (Z.of_nat (length (an_bytes e))) →
  (∀ ff, returns_window tcp ff e → runs (rest fl (xs ++ [ff]) n (tick d)) (K tt) R) →
  runs (rest fl xs (S n) d) (send_host_window m ≫= K) R.
Proof using Htcp.
  intros Hm Hv HK. unfold send_host_window, next_serial. apply runs_assoc, rd_ask. apply runs_assoc.
  unfold daemon_fcf_to_switch. apply runs_assoc, rest_get. intros s _. cbv zeta. apply runs_assoc.
  eapply (rest_send fl _ _ _ _ _ DAEMON_FLOW_TCP tcp); [|done|exact Htcp|].
  { split; [done|]. eexists. by split. }
  change (1 =? 0) with false. cbv iota. apply runs_assoc, runs_ret_bind, runs_ret_bind, runs_ret_bind.
  apply HK. split; [done|]. do 2 eexists. by split_and!.
Qed.

(** Nobody polls among the readers. *)
Lemma rd_poll_each i rs j flags (K : unit → M ST B) :
  Forall (waits d i) rs →
  runs (rest fl xs n d) (K tt) R →
  runs (rest fl xs n d) (poll_in_each i j (map (λ r, CArr (r_index r)) rs) flags ≫= K) R.
Proof.
  intros Hr HK. revert j. induction Hr as [|r rs (H0i & _ & _ & c & Hc & Hic) _ IH]; intros j; cbn [map poll_in_each].
  - by apply runs_ret_bind.
  - apply runs_assoc. unfold poll_in_udp. apply runs_assoc, rest_get. intros s Hs. apply runs_assoc.
    eapply rest_lift; [rewrite (rs_md _ _ _ _ _ Hs); simpl; rewrite Hc; reflexivity|].
    rewrite (ic_type _ _ _ Hic). cbn [negb]. apply runs_ret_bind. apply IH.
Qed.

End Steps.

Lemma taken_len r c :
  0 ≤ r_buf r →
  Z.of_nat (length (taken r c)) = (if r_buf r <? Z.of_nat (length c) then r_buf r else Z.of_nat (length c)).
Proof. intros Hr. unfold taken. rewrite length_take. destruct (Z.ltb_spec (r_buf r) (Z.of_nat (length c))); lia. Qed.

Lemma read_taken r c :
  0 ≤ r_buf r → c ≠ [] → read_bytes (Some c) (Z.of_nat (length (taken r c))) = Ok (taken r c).
Proof.
  intros Hr Hc. unfold read_bytes. destruct (Z.eqb_spec (Z.of_nat (length (taken r c))) 0) as [E|E].
  - destruct (taken r c); [done|simpl in E; lia].
  - rewrite (proj2 (Z.leb_le _ _)) by (unfold taken; rewrite length_take; lia). f_equal.
    unfold taken. rewrite length_take, Nat2Z.id. destruct (decide (Z.to_nat (r_buf r) ≤ length c)%nat).
    + f_equal. lia.
    + rewrite Nat.min_r by lia. rewrite !take_ge by lia. done.
Qed.

(** The value that the TCP module reads. *)
Lemma value_back k : 0 ≤ k < 2147483648 → u32 (s32 k) = k.
Proof. intros Hk. rewrite s32_small by done. apply u32_small. unfold is_u32. lia. Qed.

(** Positions in a frame. *)
Lemma dropped_len (b : list Z) pos :
  0 ≤ pos → drop (Z.to_nat pos) b ≠ [] → Z.of_nat (length b) < 2147483648 →
  u32 (Z.of_nat (length b) - pos) = Z.of_nat (length (drop (Z.to_nat pos) b)).
Proof.
  intros Hp Hne Hl. rewrite length_drop. destruct (decide (length b ≤ Z.to_nat pos)%nat) as [Hge|].
  - exfalso. apply Hne. by apply drop_ge.
  - rewrite u32_small; [lia|]. unfold is_u32. lia.
Qed.

Lemma next_pos (b : list Z) pos r :
  let c := drop (Z.to_nat pos) b in
  let p := u32 (pos + Z.of_nat (length (taken r c))) in
  0 ≤ pos → c ≠ [] → Z.of_nat (length b) < 2147483648 → 0 ≤ r_buf r →
  0 ≤ p ∧ drop (Z.to_nat p) b = kept r c ∧ (p =? Z.of_nat (length b)) = bool_decide (kept r c = []).
Proof.
  intros c p Hp Hne Hl Hr. pose proof (dropped_len b pos Hp Hne Hl) as Eu. fold c in Eu.
  assert (Z.to_nat pos < length b)%nat as Hlt.
  { destruct (decide (length b ≤ Z.to_nat pos)%nat) as [Hge|]; [|lia]. exfalso. apply Hne. by apply drop_ge. }
  rewrite u32_small in Eu by (unfold is_u32; lia).
  pose proof (taken_kept r c) as Etk. apply (f_equal length) in Etk. rewrite length_app in Etk.
  assert (p = pos + Z.of_nat (length (taken r c))) as Ep by (apply u32_small; unfold is_u32; lia).
  rewrite Ep. split_and!; [lia| |].
  - rewrite Z2Nat.inj_add, Nat2Z.id, <- drop_drop by lia. fold c. unfold kept, taken. rewrite length_take.
    destruct (decide (Z.to_nat (r_buf r) ≤ length c)%nat); [by rewrite Nat.min_l by lia|].
    rewrite Nat.min_r, !drop_ge by lia. done.
  - destruct (kept r c) as [|z c'] eqn:Ek; simpl in Etk; [apply Z.eqb_eq|apply Z.eqb_neq]; lia.
Qed.

(** ** Data that arrives *)

Context (V : list (Z * Z * Z * sockaddr * sockaddr)) (w0 : list wedge_msg) (i : Z) (xs0 : list finsFrame).

(** The first reader takes its part of [b]. *)
Lemma recv_in_runs {B} (R : B → ST → Prop) xs n d rs r x c m b addr (K : Z * sockaddr → M ST B) :
  attached V i d (r :: rs) x → calls d !! Z.to_nat (r_index r) = Some c → is_call i r c →
  stamp_ok m = true → b ≠ [] → Z.of_nat (length b) < 2147483648 → sin_family addr = AF_INET →
  let e := MkAns r (netw_addr addr) (taken r b) in
  (∀ d' t ff, attached V i d' rs (set_so_stamp t (set_so_call_list (delete 0%nat (so_call_list x)) x)) →
     wedge d' = wedge d ++ [stream_msg e] → returns_window tcp ff e →
     runs (rest fl (xs ++ [ff]) n d') (K (Z.of_nat (length (taken r b)), netw_addr addr)) R) →
  runs (rest fl xs (S n) (put_sock i (set_so_call_list (delete 0%nat (so_call_list x)) x) d))
    (recvmsg_in_tcp_fdf c m (Z.of_nat (length b)) (Some b) addr 0 ≫= K) R.
Proof using Htcp Hw.
  intros Hat Hc Hic Hst Hb Hlen Hfam e HK. pose proof (at_i _ _ _ _ _ Hat) as Hi.
  pose proof (at_sock _ _ _ _ _ Hat) as Hx. pose proof (at_readers _ _ _ _ _ Hat) as Hr.
  apply Forall_cons in Hr as [(H0i & Hb0 & _) _].
  set (x1 := set_so_call_list _ x) in *. set (d1 := put_sock i x1 d).
  pose proof (sock_put i x x1 d Hx) as Hx1.
  unfold recvmsg_in_tcp_fdf. rewrite (ic_sock _ _ _ Hic), (ic_buf _ _ _ Hic).
  apply runs_assoc. eapply rd_stamp; [done|exact Hx1|done|]. intros t k. cbv zeta.
  rewrite <- (taken_len r b Hb0). rewrite Hfam. change (AF_INET =? AF_INET) with true. cbv iota.
  set (x2 := set_so_stamp t x1). set (d2 := put_sock i x2 (set_ticks k d1)).
  assert (sockets d2 !! Z.to_nat i = Some x2) as Hx2 by (by apply (sock_put i x1)).
  apply runs_assoc. eapply rd_control; [done|exact Hx2|by rewrite <- (at_bare _ _ _ _ _ Hat)|].
  apply runs_assoc. eapply rd_recvmsg; [done|by apply read_taken|]. cbv iota. apply runs_assoc, runs_ret_bind.
  rewrite (ic_type _ _ _ Hic), (ic_id _ _ _ Hic), (ic_index _ _ _ Hic). change (MkWedge _ _ _ _ _ _) with (stream_msg e).
  unfold daemon_calls_remove. apply runs_assoc. eapply rd_upd_call; [done|exact Hc|].
  set (d3 := put_call _ _ _). apply runs_assoc. eapply rd_sock; [done|exact Hx2|].
  assert (attached V i d3 rs x2) as Hat3.
  { eapply (attached_served V i d x r rs x2 c); try done. simpl. by rewrite list_insert_insert_eq. }
  pose proof (at_main _ _ _ _ _ Hat3) as Hm3. pose proof (at_state _ _ _ _ _ Hat3) as Hs3.
  apply runs_assoc, rd_metas; [reflexivity|]. apply runs_assoc, rd_host_metas; [done|reflexivity|]. intros ip.
  apply runs_assoc, rd_rem_metas; [done|reflexivity|]. apply runs_assoc.
  eapply (rd_window _ _ _ _ _ e).
  - repeat (apply put_ints_ok; [|reflexivity]). reflexivity.
  - etransitivity; [|apply (f_equal Ok), value_back; unfold e; simpl; rewrite taken_len by done; case_match; lia].
    reflexivity.
  - intros ff Hff. apply runs_ret_bind. apply (HK (tick d3) t ff); [|done|done].
    eapply (attached_set V i d3 x2); try done. simpl. by rewrite !list_insert_insert_eq.
Qed.

(** The state after a step is one of the abstract socket [a]; there is room for
    the windows of the readers that wait and of [k] more. *)
Definition streams (k : nat) (a : tsock) (s : ST) : Prop :=
  ∃ d x ys, rest fl (xs0 ++ ys) (length (t_readers a) + k) d s ∧ tsk V w0 i d a x ∧
    Forall2 (returns_window tcp) ys (t_log a).

Lemma tsk_tick d a x : tsk V w0 i d a x → tsk V w0 i (tick d) a x.
Proof.
  intros [Hat ? ? ? ? ?]. split; try done. eapply (attached_set V i d x); try done.
  simpl. symmetry. apply list_insert_id, Hat.
Qed.

Lemma find_first_reader d rs r x flag :
  attached V i d (r :: rs) x →
  ∃ c, calls d !! Z.to_nat (r_index r) = Some c ∧ is_call i r c ∧
    (flag = false → find_call (calls d) (daemon_call_recvmsg_test flag) (so_call_list x)
                    = Ok (Some (O, CArr (r_index r), c))).
Proof.
  intros Hat. pose proof (at_readers _ _ _ _ _ Hat) as Hr. apply Forall_cons in Hr as [(H0i & Hb0 & Hfl & c & Hcc & Hic) _].
  exists c. split_and!; try done. intros ->. rewrite (at_calls _ _ _ _ _ Hat). simpl. rewrite Hcc.
  unfold daemon_call_recvmsg_test. rewrite (ic_type _ _ _ Hic), (ic_flags _ _ _ Hic), Hfl. reflexivity.
Qed.

(** The readers take what they can; the rest is left from a position on. *)
Lemma feed_runs rs fuel ff m dir b d x cs lg ys k addr pos :
  (length rs < fuel)%nat →
  body ff = Data (MkData dir (Z.of_nat (length b)) (Some b)) → stamp_ok m = true →
  Z.of_nat (length b) < 2147483648 → 0 ≤ pos → drop (Z.to_nat pos) b ≠ [] → sin_family addr = AF_INET →
  tsk V w0 i d (MkTSock cs rs lg) x → Forall2 (returns_window tcp) ys lg →
  let a' := t_feed rs cs (drop (Z.to_nat pos) b) addr lg in
  runs (rest fl (xs0 ++ ys) (length rs + k) d)
    (feed_readers fuel i ff m (Z.of_nat (length b)) (Some b) pos addr)
    (λ res s, match res with
     | None => streams k a' s
     | Some pos' => ∃ lg', a' = MkTSock (cs ++ [drop (Z.to_nat pos') b]) [] lg' ∧ 0 ≤ pos' ∧
         drop (Z.to_nat pos') b ≠ [] ∧ streams k (MkTSock cs [] lg') s
     end).
Proof using Htcp Hw.
  revert fuel d x lg ys addr pos. induction rs as [|r rs IH]; intros fuel d x lg ys addr pos Hfu Hb Hst Hlen Hp Hne Hfam Hk Hys a';
    (destruct fuel as [|fuel]; [simpl in Hfu; lia|]); cbn [feed_readers]; pose proof (tk_at _ _ _ _ _ _ Hk) as Hat;
    simpl in Hat; unfold find_reader.
  - apply runs_assoc, rest_get. intros s Hs. apply runs_assoc. eapply rd_sock; [apply Hat|apply Hat|].
    eapply rest_lift; [rewrite (at_calls _ _ _ _ _ Hat); reflexivity|]. cbv iota. apply runs_ret. intros s1 Hs1.
    exists lg. split_and!; try done. by exists d, x, ys.
  - destruct (find_first_reader d rs r x false Hat) as (c & Hcc & Hic & Hfind).
    apply runs_assoc, rest_get. intros s Hs. apply runs_assoc. eapply rd_sock; [apply Hat|apply Hat|].
    rewrite (rs_md _ _ _ _ _ Hs). eapply rest_lift; [by apply Hfind|]. cbv iota.
    eapply rd_upd_sock; [apply Hat|apply Hat|]. set (c0 := drop (Z.to_nat pos) b) in *.
    rewrite (dropped_len b pos) by done.
    assert (length c0 ≤ length b)%nat as Hcb by (unfold c0; rewrite length_drop; lia).
    cbn [from_pos]. fold c0.
    eapply (recv_in_runs _ _ (length rs + k) d rs r x c m c0); try done; [lia|].
    intros d' t ff' Hat' Hwd Hff'. cbv zeta. cbn [fst snd].
    pose proof (at_readers _ _ _ _ _ Hat) as Hr. apply Forall_cons in Hr as [(_ & Hb0 & _) _].
    assert (cs = []) as -> by (destruct (tk_one _ _ _ _ _ _ Hk) as [?|?]; done).
    set (e := MkAns r (netw_addr addr) (taken r c0)) in *.
    assert (tsk V w0 i d' (MkTSock [] rs (lg ++ [e])) (set_so_stamp t (set_so_call_list (delete 0%nat (so_call_list x)) x))) as Hk'.
    { destruct Hk as [_ Hd Hbf Hsz _ Hl]. split; try done; [by left|]. simpl in *. by rewrite Hwd, Hl, map_app, app_assoc. }
    assert (Forall2 (returns_window tcp) (ys ++ [ff']) (lg ++ [e])) as Hys' by (apply Forall2_app; auto).
    destruct (next_pos b pos r Hp Hne Hlen Hb0) as (Hp' & Edrop & Eall). fold c0 in Hp', Edrop, Eall. rewrite Eall.
    unfold a'. cbn [t_feed]. fold e. destruct (kept r c0) as [|z c'] eqn:Ek.
    + rewrite bool_decide_true by done. apply rest_free; [by rewrite Hb|].
      apply runs_ret. intros s1 Hs1. rewrite <- app_assoc in Hs1. by exists d', (set_so_stamp t (set_so_call_list (delete 0%nat (so_call_list x)) x)), (ys ++ [ff']).
    + rewrite bool_decide_false by done. rewrite <- Edrop, <- app_assoc.
      eapply IH; try done; [simpl in Hfu; lia|by rewrite Edrop].
Qed.

(** Bytes [c] for the socket. *)
Record brings (ff : finsFrame) (src dst : sockaddr) (c : list Z) : Prop := {
  br_some : c ≠ [];
  br_len : Z.of_nat (length c) < 2147483648;
  br_src : sin_family src = AF_INET;
  br_dst : sin_family dst = AF_INET;
  br_frame : ∃ m dir sp dp, metaData ff = Some m ∧ long_key m "recv_stamp" = true ∧
    body ff = Data (MkData dir (Z.of_nat (length c)) (Some c)) ∧
    secure_metadata_readFromElement m "recv_src_port" = Ok sp ∧
    secure_metadata_readFromElement m "recv_dst_port" = Ok dp ∧
    (∀ socks, dmx <$> socks = V →
       match_conn_or_stub socks (addr4_get_ip src) (u16 sp) (addr4_get_ip dst) (u16 dp) = i)
}.

(** The socket takes bytes that arrive. *)
Definition may_take (c : list Z) (a : tsock) : Prop :=
  size (t_chunks a) + Z.of_nat (length c) < 2147483648 ∧ Z.of_nat (length (t_chunks a)) < STORE_LIST_MAX.

Lemma size_snoc cs c : size (cs ++ [c]) = size cs + Z.of_nat (length c).
Proof. unfold size. rewrite concat_app, length_app. simpl. rewrite app_nil_r. lia. Qed.
Lemma size_cons c cs : size (c :: cs) = Z.of_nat (length c) + size cs.
Proof. unfold size. simpl. rewrite length_app. lia. Qed.
Lemma size_nonneg cs : 0 ≤ size cs.
Proof. unfold size. lia. Qed.

(** What no reader took is stored. *)
Lemma tsk_stored d cs lg x st c :
  tsk V w0 i d (MkTSock cs [] lg) x → keeps_bytes st c → size cs + Z.of_nat (length c) < 2147483648 →
  let x' := set_so_data_buf (s32 (so_data_buf x + Z.of_nat (length c)))
              (set_so_data_list (so_data_list x ++ [st]) x) in
  tsk V w0 i (put_sock i x' d) (MkTSock (cs ++ [c]) [] lg) x'.
Proof.
  intros [Hat Hd Hbf Hsz Ho Hl] Hst Hle x'. simpl in *. pose proof (size_nonneg cs). split; simpl; try done.
  - by eapply attached_set.
  - apply Forall2_app; [done|]. by constructor.
  - rewrite Hbf, size_snoc. apply s32_small. lia.
  - by rewrite size_snoc.
  - by right.
Qed.

Lemma in_fdf_streams d a x ys k ff src dst c :
  tsk V w0 i d a x → Forall2 (returns_window tcp) ys (t_log a) → brings ff src dst c → may_take c a →
  runs (rest fl (xs0 ++ ys) (length (t_readers a) + k) d) (daemon_in_fdf_tcp ff AF_INET src dst)
    (λ _, streams k (t_arrive c dst a)).
Proof using Htcp Hw.
  intros Hk Hys [Hne Hlen Hsrc Hdst (m & dir & sp & dp & Hm & Hlk & Hb & Hsp & Hdp & Hmt)] [Hsz Hroom].
  pose proof (tk_at _ _ _ _ _ _ Hk) as Hat. destruct a as [cs rs lg]. simpl in *.
  unfold daemon_in_fdf_tcp. eapply rest_read; [done..|]. eapply rest_read; [done..|].
  change (AF_INET =? AF_INET) with true. cbv iota zeta. apply rest_get. intros s Hs.
  rewrite (rs_md _ _ _ _ _ Hs), (Hmt (sockets d)) by apply Hat.
  rewrite (proj2 (Z.eqb_neq i (-1))) by (pose proof (at_i _ _ _ _ _ Hat); lia).
  unfold stamp_frame. apply runs_assoc, rd_ask. set (t := timeofday (ticks d)).
  eapply rest_write_long; [done..|]. set (m' := put_member m "recv_stamp" (SInt64 t.1)).
  set (ff' := set_meta (Some m') ff).
  assert (stamp_ok m' = true) as Hst' by (unfold stamp_ok, m', metadata_readFromElement; by rewrite get_put_same).
  pose proof (tsk_tick _ _ _ Hk) as Hk1.
  pose proof (tk_at _ _ _ _ _ _ Hk1) as Hat1. simpl in Hat1.
  eapply rd_sock; [apply Hat1|apply Hat1|]. rewrite (at_calls _ _ _ _ _ Hat1).
  apply rd_poll_each; [apply Hat1|]. eapply (rest_data _ _ _ _ _ ff'); [exact Hb|]. eapply rest_meta; [reflexivity|].
  cbn [pduLength pdu]. rewrite length_map.
  eapply runs_bind; [eapply (feed_runs rs _ ff' m' dir c (tick d) x cs lg ys k dst 0); try done; lia|].
  change (drop (Z.to_nat 0) c) with c. unfold t_arrive. simpl t_readers. simpl t_chunks. simpl t_log.
  intros [pos|] s1; [|intros Hs1; exists tt, s1; by split].
  intros (lg' & -> & Hp & Hd & d2 & x2 & ys2 & Hs2 & Hk2 & Hw2). simpl in Hs2.
  pose proof (tk_at _ _ _ _ _ _ Hk2) as Hat2. simpl in Hat2.
  refine ((_ : runs (rest fl (xs0 ++ ys2) k d2) _ _) s1 Hs2).
  eapply rd_sock; [apply Hat2|apply Hat2|]. pose proof (Forall2_length _ _ _ (tk_data _ _ _ _ _ _ Hk2)) as El.
  simpl in El. rewrite El, (proj2 (Z.ltb_lt _ _) Hroom). rewrite dropped_len by done.
  apply runs_bind_r. eapply rd_upd_sock; [apply Hat2|apply Hat2|]. apply runs_ret. intros s3 Hs3.
  do 3 eexists. split_and!; [exact Hs3| |exact Hw2]. apply tsk_stored; [done| |].
  - split_and!; try done. exists m', dir, c. done.
  - rewrite length_drop. lia.
Qed.

(** ** Reading *)

(** The other end of the connection, as the answers name it. *)
Definition peer_in : sockaddr :=
  match V !! Z.to_nat i with
  | Some (_, _, _, _, rem) => MkAddr AF_INET (htons (addr4_get_port rem)) (htonl (addr4_get_ip rem))
  | None => MkAddr 0 0 0
  end.
Lemma peer_of d rs x :
  attached V i d rs x →
  MkAddr AF_INET (htons (addr4_get_port (so_rem_addr x))) (htonl (addr4_get_ip (so_rem_addr x))) = peer_in.
Proof.
  intros Hat. unfold peer_in. rewrite <- (at_view _ _ _ _ _ Hat). unfold sview.
  by rewrite list_lookup_fmap, (at_sock _ _ _ _ _ Hat).
Qed.

(** The front piece without what was taken of it. *)
Lemma tsk_read d x d' y c cs lg r st l b dir m pos :
  tsk V w0 i d (MkTSock (c :: cs) [] lg) x → so_data_list x = st :: l → 0 ≤ r_buf r → 0 ≤ pos →
  metaData (st_ff st) = Some m → stamp_ok m = true →
  body (st_ff st) = Data (MkData dir (Z.of_nat (length b)) (Some b)) → Z.of_nat (length b) < 2147483648 →
  drop (Z.to_nat pos) b = kept r c → alike x y → so_call_list y = so_call_list x →
  so_data_buf y = size cs + Z.of_nat (length (kept r c)) →
  so_data_list y = (match kept r c with [] => l | _ => MkStored peer_in (st_ff st) pos :: l end) →
  sockets d' = <[Z.to_nat i := y]> (sockets d) → calls d' = calls d → d_if_main d' = d_if_main d →
  wedge d' = wedge d ++ [stream_msg (MkAns r peer_in (taken r c))] →
  tsk V w0 i d' (MkTSock (put_chunk (kept r c) cs) [] (lg ++ [MkAns r peer_in (taken r c)])) y.
Proof.
  intros [Hat Hd Hbf Hsz Ho Hl] Hdl Hr Hp Hm Hst Hb Hlen Hdrop Hal Hcl Hby Hdy Es Ec Em Ew. simpl in *.
  rewrite Hdl in Hd. apply Forall2_cons in Hd as [_ Hd]. rewrite size_cons in Hsz.
  assert (length (kept r c) ≤ length c)%nat by (unfold kept; rewrite length_drop; lia).
  assert (size (put_chunk (kept r c) cs) = size cs + Z.of_nat (length (kept r c))) as Hs.
  { destruct (kept r c); cbn [put_chunk]; [simpl; lia|]. rewrite size_cons. lia. }
  split; simpl.
  - by eapply attached_set.
  - rewrite Hdy. destruct (kept r c) eqn:Ek; [done|]. simpl. constructor; [|done].
    split_and!; [done| |done|].
    + simpl. unfold peer_in. rewrite <- (at_view _ _ _ _ _ Hat). unfold sview. by rewrite list_lookup_fmap, (at_sock _ _ _ _ _ Hat).
    + exists m, dir, b. by split_and!.
  - by rewrite Hby, Hs.
  - rewrite Hs. lia.
  - by right.
  - by rewrite Ew, Hl, map_app, app_assoc.
Qed.

(** The front frame answers the call. *)
Lemma store_runs {B} (R : B → ST → Prop) xs n d x c cs lg h r st l m dir b (K : Z → M ST B) :
  tsk V w0 i d (MkTSock (c :: cs) [] lg) x → so_data_list x = st :: l → calls_recv i h r →
  0 ≤ st_pos st → metaData (st_ff st) = Some m → stamp_ok m = true →
  body (st_ff st) = Data (MkData dir (Z.of_nat (length b)) (Some b)) → Z.of_nat (length b) < 2147483648 →
  drop (Z.to_nat (st_pos st)) b = c → c ≠ [] →
  let x1 := set_so_data_buf (s32 (so_data_buf x - Z.of_nat (length c))) (set_so_data_list l x) in
  (∀ d' y, tsk V w0 i d' (t_recv peer_in r (MkTSock (c :: cs) [] lg)) y →
     runs (rest fl xs n d') (K (Z.of_nat (length (taken r c)))) R) →
  runs (rest fl xs n (put_sock i x1 d))
    (recvmsg_store h (MkStored peer_in (st_ff st) (st_pos st)) (Z.of_nat (length b), Some b)
       (r_buf r) (r_ctl r) (r_flags r) ≫= K) R.
Proof using Hw.
  intros Hk Hdl [Ht Hid Hix Hsi Hbf Hfl Hnd] Hpos Hm Hst Hb Hlen Hdrop Hne x1 HK.
  pose proof (tk_at _ _ _ _ _ _ Hk) as Hat. simpl in Hat.
  pose proof (at_i _ _ _ _ _ Hat) as Hi. pose proof (at_sock _ _ _ _ _ Hat) as Hx. pose proof (sock_put i x x1 d Hx) as Hx1.
  pose proof (tk_buf _ _ _ _ _ _ Hk) as Hbuf. pose proof (tk_size _ _ _ _ _ _ Hk) as Hsz. pose proof (size_nonneg cs) as Hcs.
  simpl in Hbuf, Hsz. rewrite size_cons in Hbuf, Hsz. subst c. set (c := drop _ b) in *.
  unfold recvmsg_store. rewrite Hsi. cbv zeta. cbn [st_ff st_pos st_addr fst snd].
  apply runs_assoc. eapply rest_meta; [done|]. apply runs_assoc. eapply rd_stamp; [done|exact Hx1|done|]. intros t q.
  set (x2 := set_so_stamp t x1). set (d2 := put_sock i x2 (set_ticks q (put_sock i x1 d))).
  assert (sockets d2 !! Z.to_nat i = Some x2) as Hx2 by (by apply (sock_put i x1)).
  rewrite (dropped_len b (st_pos st)), u32_small by done. fold c. rewrite <- (taken_len r c) by lia. cbn [from_pos]. fold c.
  apply runs_assoc. eapply rd_control; [done|exact Hx2|by rewrite <- (at_bare _ _ _ _ _ Hat)|].
  apply runs_assoc. eapply rd_recvmsg; [done|apply read_taken; [lia|done]|]. cbv iota. apply runs_assoc, runs_ret_bind.
  rewrite Ht, Hid, Hix. set (e := MkAns r peer_in (taken r c)). change (MkWedge _ _ _ _ _ _) with (stream_msg e).
  destruct (next_pos b (st_pos st) r Hpos Hne Hlen) as (Hp' & Edrop & Eall); [lia|]. fold c in Hp', Edrop, Eall.
  set (pos := u32 _) in *. pose proof (taken_kept r c) as Etk. apply (f_equal length) in Etk. rewrite length_app in Etk.
  assert (so_data_buf x2 = size cs) as Hb2 by (simpl; rewrite s32_small; lia).
  destruct (Z.eqb_spec (Z.of_nat (length (taken r c))) (Z.of_nat (length c))) as [E|E]; apply runs_assoc.
  - unfold daemon_store_free. apply rest_free; [simpl; by rewrite Hb|]. apply runs_ret_bind. apply (HK _ x2).
    assert (kept r c = []) as Ek by (destruct (kept r c); [done|simpl in Etk; lia]).
    eapply (tsk_read d x _ x2 c cs lg r st l b dir m pos); try done; rewrite ?Ek; try (simpl length; lia || done).
    simpl. by rewrite list_insert_insert_eq.
  - eapply rd_upd_sock; [done|exact Hx2|]. apply runs_ret_bind.
    match goal with |- runs (rest _ _ _ (put_sock i ?y _)) _ _ => apply (HK _ y); set (y3 := y) end.
    assert (kept r c ≠ []) as Hkne by (intros Ek; rewrite Ek in Etk; simpl in Etk; lia).
    eapply (tsk_read d x _ y3 c cs lg r st l b dir m pos); try done; try lia.
    + unfold y3. cbn [so_data_buf set_so_data_buf]. rewrite Hb2, dropped_len, Edrop by (done || by rewrite Edrop).
      apply s32_small. lia.
    + by destruct (kept r c).
    + simpl. by rewrite !list_insert_insert_eq.
Qed.

Lemma recv_takes d x ys k c cs rs lg h r :
  tsk V w0 i d (MkTSock (c :: cs) rs lg) x → Forall2 (returns_window tcp) ys lg → calls_recv i h r →
  runs (rest fl (xs0 ++ ys) (length rs + S k) d) (recvmsg_out_tcp h (r_buf r) (r_ctl r) (r_flags r))
    (λ _, streams k (t_recv peer_in r (MkTSock (c :: cs) rs lg))).
Proof using Htcp Hw.
  intros Hk Hys Hcr. pose proof Hcr as [_ _ _ Hsi Hbf _ Hnd]. pose proof (tk_at _ _ _ _ _ _ Hk) as Hat. simpl in Hat.
  destruct (tk_one _ _ _ _ _ _ Hk) as [?|Er]; [done|]. simpl in Er. subst rs.
  pose proof (at_i _ _ _ _ _ Hat) as Hi. pose proof (at_sock _ _ _ _ _ Hat) as Hx.
  pose proof (tk_data _ _ _ _ _ _ Hk) as Hd. simpl in Hd.
  apply Forall2_cons_inv_r in Hd as (st & l & (Hne & Hfam & Hpos & m & dir & b & Hm & Hst & Hb & Hlen & Hdrop) & _ & Hdl).
  pose proof (tk_buf _ _ _ _ _ _ Hk) as Hbuf. simpl in Hbuf. rewrite size_cons in Hbuf. pose proof (size_nonneg cs) as Hcs.
  pose proof (tk_size _ _ _ _ _ _ Hk) as Hsz. simpl in Hsz. rewrite size_cons in Hsz.
  assert (0 < Z.of_nat (length c)) as Hc0 by (destruct c; [done|simpl; lia]).
  unfold recvmsg_out_tcp. rewrite Hsi. cbv zeta. eapply rd_sock; [done..|]. rewrite (at_state _ _ _ _ _ Hat).
  change (negb (SS_CONNECTED =? SS_CONNECTING) && negb (SS_CONNECTED =? SS_CONNECTED)) with false. cbv iota.
  rewrite Hnd, (proj2 (Z.ltb_lt _ _)) by lia. rewrite Hdl. unfold stored_data. apply runs_assoc.
  eapply rest_data; [done|]. apply runs_ret_bind. cbn [fst snd pduLength pdu].
  eapply rd_upd_sock; [done..|]. rewrite Hfam. change (AF_INET =? AF_INET) with true. cbv iota.
  rewrite (dropped_len b (st_pos st)), Hdrop by (done || by rewrite Hdrop).
  apply rd_host_metas; [apply Hat|reflexivity|]. intros ip. apply rd_metas; [reflexivity|].
  rewrite (peer_of _ _ _ Hat). eapply store_runs; try done. intros d4 y Hk4.
  apply rd_metas; [reflexivity|]. apply runs_bind_r. eapply (rd_window _ _ _ _ _ (MkAns r peer_in (taken r c))).
  - repeat (apply put_ints_ok; [|reflexivity]). reflexivity.
  - etransitivity; [|apply (f_equal Ok), value_back; simpl; rewrite taken_len by lia; case_match; lia]. reflexivity.
  - intros ff Hff. apply runs_ret. intros s Hs. exists (tick d4), y, (ys ++ [ff]). rewrite app_assoc.
    split_and!; [exact Hs|by apply tsk_tick|apply Forall2_app; auto].
Qed.

Lemma recv_waits d x ys k rs lg h r :
  tsk V w0 i d (MkTSock [] rs lg) x → Forall2 (returns_window tcp) ys lg → calls_recv i h r →
  0 ≤ r_index r < DAEMON_MAX_CALLS → r_index r ∉ r_index <$> rs → Z.of_nat (length rs) < DAEMON_CALL_LIST_MAX →
  runs (rest fl (xs0 ++ ys) (length rs + S k) d) (recvmsg_out_tcp h (r_buf r) (r_ctl r) (r_flags r))
    (λ _, streams k (t_recv peer_in r (MkTSock [] rs lg))).
Proof.
  intros Hk Hys Hcr [H0i Hlt] Hnin Hlen. pose proof Hcr as [Ht Hid Hix Hsi Hbf Hfl Hnd].
  pose proof (tk_at _ _ _ _ _ _ Hk) as Hat. simpl in Hat. pose proof Hat as [Hi Hx _ _ Hst Hrd _ Hc _ _ Hf Htab].
  destruct (lookup_lt_is_Some_2 (calls d) (Z.to_nat (r_index r))) as [c0 Hc0]; [lia|].
  destruct (Hf _ _ Hc0) as [_ Hfree]. rewrite Z2Nat.id in Hfree by done. specialize (Hfree Hnin).
  unfold recvmsg_out_tcp. rewrite Hsi. cbv zeta. eapply rd_sock; [done..|]. rewrite Hst.
  change (negb (SS_CONNECTED =? SS_CONNECTING) && negb (SS_CONNECTED =? SS_CONNECTED)) with false. cbv iota.
  rewrite Hnd, (tk_buf _ _ _ _ _ _ Hk), Hrd. change (0 <? size (t_chunks (MkTSock [] rs lg))) with false. cbn [negb].
  unfold recvmsg_wait. rewrite Hsi, Hix, Hid, Ht. eapply rd_sock; [done..|].
  rewrite Hc, length_map, (proj2 (Z.ltb_lt _ _) Hlen). unfold daemon_calls_insert.
  apply runs_assoc. eapply rd_call; [done..|]. rewrite Hfree, Z.eqb_refl. apply runs_assoc, runs_ret_bind.
  eapply rd_upd_call; [done..|].
  assert (∀ j c e, calls e !! Z.to_nat j = Some c → ∀ c', calls (put_call j c' e) !! Z.to_nat j = Some c') as Hput.
  { intros j c e He c'. simpl. apply list_lookup_insert_eq. by eapply lookup_lt_Some. }
  eapply rd_upd_call; [done|by eapply Hput|]. rewrite !u32_small by done.
  eapply rd_upd_sock; [done|exact Hx|].
  assert (∀ s d' t, rest fl (xs0 ++ ys) (length rs + S k) d' s →
    sockets d' = <[Z.to_nat i := set_so_call_list (so_call_list x ++ [CArr (r_index r)]) x]> (sockets d) →
    calls d' = <[Z.to_nat (r_index r) := waiting_call i h r t c0]> (calls d) → d_if_main d' = d_if_main d →
    wedge d' = wedge d → streams k (t_recv peer_in r (MkTSock [] rs lg)) s) as Hend.
  { intros s d' t Hs E1 E2 E3 E4. exists d', (set_so_call_list (so_call_list x ++ [CArr (r_index r)]) x), ys. split_and!; [|destruct Hk as [_ ? ? ? ? Hl]; split|done].
    - simpl. rewrite length_app. simpl. by replace (length rs + 1 + k)%nat with (length rs + S k)%nat by lia.
    - by eapply (attached_waits V i d x rs _ h r t c0).
    - done.
    - done.
    - done.
    - by left.
    - by rewrite E4. }
  destruct (has (r_flags r) MSG_DONTWAIT).
  - rewrite block_timer. eapply rest_lift; [done|]. apply runs_bind_r. eapply rd_upd_call; [done| |].
    { eapply Hput. by eapply Hput. }
    apply runs_ret. intros s2 Hs2. eapply (Hend s2 _ (Some (0, 500000000)) Hs2); try done. simpl. by rewrite !list_insert_insert_eq.
  - apply runs_ret. intros s2 Hs2. eapply (Hend s2 _ (c_timer c0) Hs2); try done. simpl. by rewrite !list_insert_insert_eq.
Qed.

(** The socket takes a call. *)
Definition may_read (r : reader) (a : tsock) : Prop :=
  t_chunks a ≠ [] ∨
  0 ≤ r_index r < DAEMON_MAX_CALLS ∧ r_index r ∉ r_index <$> t_readers a ∧
  Z.of_nat (length (t_readers a)) < DAEMON_CALL_LIST_MAX.

(** ** Sequences of events *)

Inductive stream_event :=
| TData (ff : finsFrame) (src dst : sockaddr) (c : list Z)
| TRead (h : wedge_to_daemon_hdr) (r : reader).

Definition stream_step (e : stream_event) : M ST unit :=
  match e with
  | TData ff src dst c => daemon_in_fdf_tcp ff AF_INET src dst
  | TRead h r => recvmsg_out_tcp h (r_buf r) (r_ctl r) (r_flags r)
  end.
Fixpoint stream_steps (es : list stream_event) : M ST unit :=
  match es with
  | [] => mret tt
  | e :: es => stream_step e ;; stream_steps es
  end.
Definition t_step (a : tsock) (e : stream_event) : tsock :=
  match e with TData _ _ dst c => t_arrive c dst a | TRead _ r => t_recv peer_in r a end.

(** The bytes and the calls of a sequence, in order. *)
Definition sent_bytes (es : list stream_event) : list Z :=
  concat (omap (λ e, match e with TData _ _ _ c => Some c | _ => None end) es).
Definition reads (es : list stream_event) : list reader :=
  omap (λ e, match e with TRead _ r => Some r | _ => None end) es.

(** The events are about this socket, and it has room for them. *)
Definition stream_ok (e : stream_event) : Prop :=
  match e with TData ff src dst c => brings ff src dst c | TRead h r => calls_recv i h r end.
Fixpoint may_stream (es : list stream_event) (a : tsock) : Prop :=
  match es with
  | [] => True
  | e :: es => match e with TData _ _ _ c => may_take c a | TRead _ r => may_read r a end ∧ may_stream es (t_step a e)
  end.

Lemma stream_steps_refine es d a x ys :
  tsk V w0 i d a x → Forall2 (returns_window tcp) ys (t_log a) → Forall stream_ok es → may_stream es a →
  runs (rest fl (xs0 ++ ys) (length (t_readers a) + length (reads es)) d) (stream_steps es)
    (λ _, streams 0 (foldl t_step a es)).
Proof using Htcp Hw.
  revert d a x ys. induction es as [|e es IH]; intros d a x ys Hk Hys He Hm.
  - apply runs_ret. intros s Hs. by exists d, x, ys.
  - apply Forall_cons in He as [He Hes]. destruct Hm as [Hm Hms]. cbn [stream_steps foldl].
    eapply (runs_bind _ _ _ (λ _, streams (length (reads es)) (t_step a e))).
    + destruct e as [ff src dst c|h r]; simpl in *.
      * by eapply in_fdf_streams.
      * destruct a as [[|c cs] rs lg]; [|by eapply recv_takes].
        destruct Hm as [?|(H1' & H2 & H3)]; [done|]. by eapply recv_waits.
    + intros _ s (d' & x' & ys' & Hs & Hk' & Hw'). by eapply (IH d').
Qed.

Lemma steps_stream es b rs a :
  stream_of b rs a → Forall stream_ok es → stream_of (b ++ sent_bytes es) (rs ++ reads es) (foldl t_step a es).
Proof.
  revert b rs a. induction es as [|e es IH]; intros b rs a Ha He; cbn [foldl].
  - unfold sent_bytes, reads. simpl. by rewrite !app_nil_r.
  - apply Forall_cons in He as [He Hes]. destruct e as [ff src dst c|h r].
    + replace (b ++ sent_bytes (TData ff src dst c :: es)) with ((b ++ c) ++ sent_bytes es)
        by (unfold sent_bytes; simpl; by rewrite app_assoc).
      apply IH; [|done]. apply arrive_stream; [done|apply He].
    + replace (rs ++ reads (TRead h r :: es)) with ((rs ++ [r]) ++ reads es) by (unfold reads; simpl; by rewrite <- app_assoc).
      change (sent_bytes (TRead h r :: es)) with (sent_bytes es). apply IH; [|done]. by apply recv_stream.
Qed.

End Stream.

(** A connected socket with nothing stored and nobody waiting. *)
Record connected (i : Z) (d : daemon_data) (x : daemon_socket) : Prop := {
  co_idle : idle i d x;
  co_state : so_state x = SS_CONNECTED;
  co_open : has (so_status x) DAEMON_STATUS_RD = true;
  co_main : has_main d
}.

Lemma connected_tsk i d x : connected i d x → tsk (sview dmx d) (wedge d) i d (MkTSock [] [] []) x.
Proof.
  intros [[Hi Hx Hb Hc Hd Hbuf Hf Hl] Hs Ho Hm]. split; simpl; try done.
  - split; try done; [constructor|]. intros j c Hj. eapply Forall_lookup_1 in Hf as [Ha Hid]; [|exact Hj]. done.
  - by rewrite Hd.
  - by left.
  - by rewrite app_nil_r.
Qed.

(** C10: Whatever the order in which the TCP module delivers data to a connected
    socket and [recvmsg] calls are made on it (within its limits), the daemon
    returns from each event.  The wedge receives one answer per call, in the
    order of the calls; the bytes of the answers, followed by those still
    stored, are the bytes delivered, so that none is lost, duplicated or
    reordered; no call waits while bytes are stored, and no call with a buffer
    gets an empty answer (which means the end of the stream); and for each
    answer the TCP module is told the number of bytes read. *)
Theorem tcp_socket_stream {Q} `{BoundedFifo Q finsFrame} `{DaemonEnv} `{DaemonTcpEnv}
    fl tcp xs i d x es (s : mstate Q daemon_data) :
  (∀ t, wedge_ok t = true) → (DAEMON_FLOW_TCP, tcp) ∈ fl →
  rest fl xs (length (reads es)) d s → connected i d x →
  Forall (stream_ok (sview dmx d) i) es → may_stream (sview dmx d) i es (MkTSock [] [] []) →
  ∃ s' d' ys ans left waiting, stream_steps es s = Ok (tt, s') ∧
    rest fl (xs ++ ys) (length waiting) d' s' ∧
    wedge d' = wedge d ++ map stream_msg ans ∧
    (an_reader <$> ans) ++ waiting = reads es ∧
    bytes_of ans ++ left = sent_bytes es ∧
    (left = [] ∨ waiting = []) ∧
    Forall (λ e, 0 < r_buf (an_reader e) → an_bytes e ≠ []) ans ∧
    Forall2 (returns_window tcp) ys ans.
Proof.
  intros Hw Htcp Hs Hc He Hm. set (a0 := MkTSock [] [] []).
  assert (rest fl (xs ++ []) (length (t_readers a0) + length (reads es)) d s) as Hs' by by rewrite app_nil_r.
  pose proof (stream_steps_refine fl tcp Htcp Hw _ _ i xs es d a0 x [] (connected_tsk i d x Hc) (Forall2_nil_2 _ _ _) He Hm s Hs') as Hrun.
  destruct Hrun as ([] & s' & E & d' & x' & ys & Hs1 & Hk & Hys).
  assert (stream_of [] [] a0) as Hso by (split; simpl; try done; by left).
  destruct (steps_stream (sview dmx d) i es [] [] a0 Hso He) as [Hb Ho Hwt Hp Hsm]. simpl in Hb, Ho.
  set (a := foldl _ a0 es) in *. exists s', d', ys, (t_log a), (concat (t_chunks a)), (t_readers a).
  rewrite Nat.add_0_r in Hs1. split_and!; try done; [apply Hk|].
  destruct Hwt as [->|?]; [by left|by right].
Qed.

(** A daemon with one socket, 192.168.1.1 port 5000, connected to 10.0.0.1
    port 80. *)
Definition demo_tcp_socket : daemon_socket :=
  set_so_rem_addr (MkAddr AF_INET 80 167772161) (set_so_host_addr (MkAddr AF_INET 5000 3232235777)
    (set_so_state SS_CONNECTED (set_so_family AF_INET (new_socket 71 SOCK_STREAM IPPROTO_TCP IPPROTO_TCP free_socket)))).
Definition demo_stream_data : daemon_data := put_sock 0 demo_tcp_socket demo_daemon_data.
Definition demo_stream : mstate (QueueRecord finsFrame) daemon_data := set_md demo_stream_data demo_daemon.
Definition demo_tcp_env : DaemonTcpEnv :=
  {| serial_of n := 1000 + Z.of_nat n; behind_host_port := 0; behind_rem_port := 0; junk_sockaddr := replicate 16 0 |}.

Lemma demo_stream_rest : rest [(DAEMON_FLOW_TCP, 6)] [] 3 demo_stream_data demo_stream.
Proof.
  pose proof demo_bound_rest as [_ Ht _ _]. split; [done|exact Ht| |].
  - split; [exact demo_rep|]. vm_compute. discriminate.
  - intros f dst [= -> ->]%list_elem_of_singleton. vm_compute. reflexivity.
Qed.
Lemma demo_stream_connected : connected 0 demo_stream_data demo_tcp_socket.
Proof. split; try done; [split; try done; by apply Forall_replicate|]. by exists demo_if, (default [] (addr_list demo_if)). Qed.

(** Data from 10.0.0.1: the TCP module names its own host as the source. *)
Definition demo_tcp_meta : metadata :=
  [("recv_protocol", SInt 6); ("recv_family", SInt 2); ("recv_src_ipv4", SInt (s32 3232235777));
   ("recv_dst_ipv4", SInt 167772161); ("recv_src_port", SInt 5000); ("recv_dst_port", SInt 80)].
Definition demo_data (b : list Z) : stream_event :=
  TData (MkFrame 1 (Some demo_tcp_meta) (Data (MkData DIR_UP (Z.of_nat (length b)) (Some b))))
    (MkAddr AF_INET 0 3232235777) (MkAddr AF_INET 0 167772161) b.
Definition demo_tread (id k n : Z) : stream_event :=
  TRead (MkHdr 71 0 RECVMSG_CALL 9 id k) (MkReader id k n 0 0).

Lemma match_stub_view l l' a b c e :
  dmx <$> l = dmx <$> l' → match_conn_or_stub l a b c e = match_conn_or_stub l' a b c e.
Proof.
  intros Hl.
  assert (∀ h hp r rp, match_conn_addr4_tcp l h hp r rp = match_conn_addr4_tcp l' h hp r rp) as Hc.
  { intros h hp r rp. apply (first_index_view dmx); [|done]. intros x y [= E1 E2 E3 E4 E5].
    unfold tcp_inet. by rewrite E1, E2, E3, E4, E5. }
  unfold match_conn_or_stub. by rewrite !Hc.
Qed.
Lemma demo_data_ok b :
  b ≠ [] → Z.of_nat (length b) < 2147483648 → stream_ok (sview dmx demo_stream_data) 0 (demo_data b).
Proof.
  intros Hb Hl. split; try done. exists demo_tcp_meta, DIR_UP, 5000, 80. split_and!; [reflexivity..|]. intros socks Hv.
  rewrite (match_stub_view socks (sockets demo_stream_data)) by exact Hv. vm_compute. reflexivity.
Qed.
Lemma demo_tread_ok id k n : 0 ≤ n < 4294967296 → stream_ok (sview dmx demo_stream_data) 0 (demo_tread id k n).
Proof. intros Hn. by split. Qed.

(** Witness of C10: a reader of 2 bytes waits, 3 bytes and 1 byte come, two
    others read. *)
Lemma tcp_socket_stream_witness :
  let es := [demo_tread 31 4 2; demo_data [1; 2; 3]; demo_data [4]; demo_tread 32 5 100; demo_tread 33 6 100] in
  sent_bytes es = [1; 2; 3; 4] ∧
  ∃ s' d' ys ans left waiting,
    stream_steps (H0 := demo_daemon_env) (H1 := demo_tcp_env) es demo_stream = Ok (tt, s') ∧
    rest [(DAEMON_FLOW_TCP, 6)] ([] ++ ys) (length waiting) d' s' ∧
    wedge d' = wedge demo_stream_data ++ map stream_msg ans ∧
    (an_reader <$> ans) ++ waiting = reads es ∧
    bytes_of ans ++ left = sent_bytes es ∧
    (left = [] ∨ waiting = []) ∧
    Forall (λ e, 0 < r_buf (an_reader e) → an_bytes e ≠ []) ans ∧
    Forall2 (returns_window 6) ys ans.
Proof.
  intros es. split; [reflexivity|].
  apply (tcp_socket_stream (H0 := demo_daemon_env) (H1 := demo_tcp_env) [(DAEMON_FLOW_TCP, 6)] 6 [] 0
           demo_stream_data demo_tcp_socket es demo_stream).
  - done.
  - by apply list_elem_of_singleton.
  - exact demo_stream_rest.
  - exact demo_stream_connected.
  - repeat (constructor; [first [by apply demo_tread_ok|by apply demo_data_ok]|]). constructor.
  - split; [right; split; [done|split; [set_solver|done]]|]. split; [done|]. split; [done|].
    split; [by left|]. split; [by left|done].
Defined.

(** When a segment is shared by two readers that wait, both are answered,
    but only the first with the address in network order: the second gets the
    same address turned twice, that is, in host order. *)
Theorem tcp_second_reader_address {Q} `{BoundedFifo Q finsFrame} `{DaemonEnv} `{DaemonTcpEnv}
    fl tcp V w0 i d x xs ff src dst c r1 r2 (s : mstate Q daemon_data) :
  (∀ t, wedge_ok t = true) → (DAEMON_FLOW_TCP, tcp) ∈ fl →
  rest fl xs 2 d s → tsk V w0 i d (MkTSock [] [r1; r2] []) x →
  brings V i ff src dst c → 0 ≤ sin_port dst < 65536 → is_u32 (s_addr dst) →
  0 ≤ r_buf r1 < Z.of_nat (length c) → Z.of_nat (length c) ≤ r_buf r1 + r_buf r2 →
  ∃ s' d', daemon_in_fdf_tcp ff AF_INET src dst s = Ok (tt, s') ∧ md s' = d' ∧
    wedge d' = w0 ++ [stream_msg (MkAns r1 (netw_addr dst) (taken r1 c)); stream_msg (MkAns r2 dst (kept r1 c))].
Proof.
  intros Hw Htcp Hs Hk Hbr Hport Hip Hr1 Hr2.
  assert (may_take c (MkTSock [] [r1; r2] [])) as Hmt by (split; [pose proof (br_len _ _ _ _ _ _ Hbr); simpl; unfold size; simpl; lia|done]).
  assert (rest fl (xs ++ []) (length (t_readers (MkTSock [] [r1; r2] [])) + 0) d s) as Hs' by by rewrite app_nil_r.
  destruct (in_fdf_streams fl tcp Htcp Hw V w0 i xs d _ x [] 0 ff src dst c Hk (Forall2_nil_2 _ _ _) Hbr Hmt s Hs')
    as ([] & s' & E & d' & x' & ys & Hs1 & Hk' & _).
  exists s', d'. split_and!; [done|apply Hs1|]. rewrite (tk_log _ _ _ _ _ _ Hk'). f_equal.
  assert (netw_addr (netw_addr dst) = dst) as Hnn.
  { destruct dst as [f p a]. unfold netw_addr. cbn [sin_family sin_port s_addr] in *.
    by rewrite htons_htons, htonl_htonl by done. }
  assert (length (kept r1 c) = length c - Z.to_nat (r_buf r1))%nat as El by (unfold kept; by rewrite length_drop).
  unfold t_arrive. cbn [t_readers t_chunks t_log t_feed app]. destruct (kept r1 c) as [|z c'] eqn:Ek; [simpl in El; lia|].
  cbn [t_feed]. rewrite Hnn.
  assert (kept r2 (z :: c') = []) as -> by (unfold kept; apply drop_ge; lia).
  assert (taken r2 (z :: c') = z :: c') as -> by (unfold taken; apply take_ge; lia). reflexivity.
Qed.

(** An instance: readers of 2 and 10 bytes share three bytes from 10.0.0.1. *)
Lemma tcp_second_reader_address_witness :
  let ff := MkFrame 1 (Some demo_tcp_meta) (Data (MkData DIR_UP 3 (Some [1; 2; 3]))) in
  let dst := MkAddr AF_INET 0 167772161 in
  ∃ s s' d', daemon_in_fdf_tcp (H0 := demo_daemon_env) (H1 := demo_tcp_env) ff AF_INET (MkAddr AF_INET 0 3232235777) dst s
      = Ok (tt, s') ∧ md s' = d' ∧
    wedge d' = [] ++ [stream_msg (MkAns (MkReader 31 4 2 0 0) (MkAddr AF_INET 0 16777226) [1; 2]);
                      stream_msg (MkAns (MkReader 32 5 10 0 0) (MkAddr AF_INET 0 167772161) [3])].
Proof.
  intros ff dst. set (es := [demo_tread 31 4 2; demo_tread 32 5 10]).
  assert (rest [(DAEMON_FLOW_TCP, 6)] ([] ++ []) (0 + 2) demo_stream_data demo_stream) as Hs
    by (apply (rest_le _ _ 3); [lia|exact demo_stream_rest]).
  destruct (stream_steps_refine (H0 := demo_daemon_env) (H1 := demo_tcp_env) [(DAEMON_FLOW_TCP, 6)] 6
    (proj2 (list_elem_of_singleton _ _) eq_refl) (λ _, eq_refl) (sview dmx demo_stream_data) [] 0 [] es demo_stream_data
    (MkTSock [] [] []) demo_tcp_socket [] (connected_tsk _ _ _ demo_stream_connected) (Forall2_nil_2 _ _ _)) with (s := demo_stream)
    as ([] & s & _ & d & x & ys & Hs1 & Hk & Hys).
  - repeat (constructor; [by apply demo_tread_ok|]). constructor.
  - split; [right; split; [done|split; [set_solver|done]]|]. split; [right; split; [done|split; [set_solver|done]]|done].
  - exact Hs.
  - inversion Hys; subst. exists s.
    apply (tcp_second_reader_address (H0 := demo_daemon_env) (H1 := demo_tcp_env) [(DAEMON_FLOW_TCP, 6)] 6
      (sview dmx demo_stream_data) [] 0 d x [] ff (MkAddr AF_INET 0 3232235777) dst [1; 2; 3] (MkReader 31 4 2 0 0) (MkReader 32 5 10 0 0) s).
    + done.
    + by apply list_elem_of_singleton.
    + exact Hs1.
    + exact Hk.
    + by apply (demo_data_ok [1; 2; 3]).
    + done.
    + done.
    + done.
    + done.
Defined.
