(* ===== verification/DaemonConnect.v ===== *)
(** * Requests of TCP sockets and their replies

    A [connect] call on a TCP socket becomes a request to the TCP module, and
    the call waits until the reply arrives; then the call is answered once,
    and neither the table nor the socket keeps anything of it.  The last part
    shows where that fails: a call that a shutdown has answered stays in the
    table, and its timer answers it again. *)

From stdpp Require Import base list gmap strings.
From Stdlib Require Import ZArith Lia.
From S2P Require Import Prelude Queue Metadata Frame Module IPv4 Double Run IcmpFacts Daemon DaemonUdp DaemonOut DaemonTcp DaemonTcpIn DaemonFacts DaemonPorts DaemonQueue Wedge WedgeCalls Sockets DaemonStream.
Open Scope Z_scope.
Open Scope fins_scope.

Lemma first_index_unique {A} (test : A → bool) l j x :
  l !! j = Some x → test x = true →
  (∀ k y, l !! k = Some y → k ≠ j → test y = false) → first_index test l 0 = Z.of_nat j.
Proof.
  intros Hj Hx Hu. destruct (first_index_spec test l 0) as [[_ Hn]|(l1 & y & l2 & -> & -> & Hy & _)]; [lia| |].
  - eapply Forall_lookup_1 in Hn; [|exact Hj]. congruence.
  - destruct (decide (length l1 = j)) as [<-|Hne]; [lia|].
    rewrite (Hu (length l1) y) in Hy; [done| |done]. by rewrite lookup_app_r, Nat.sub_diag by lia.
Qed.

(** The socket of a [connect] call and the place of the call in the table. *)
Record may_connect (d : daemon_data) (h : wedge_to_daemon_hdr) (x : daemon_socket) (c0 : daemon_call) (serial : Z) : Prop := {
  mc_type : h_call_type h = CONNECT_CALL;
  mc_i : 0 ≤ h_sock_index h;
  mc_sock : sockets d !! Z.to_nat (h_sock_index h) = Some x;
  mc_id : so_sock_id x = h_sock_id h;
  mc_ops : so_ops x = IPPROTO_TCP;
  mc_family : so_family x = AF_INET;
  mc_state : so_state x = SS_UNCONNECTED;
  mc_error : so_error_call x ≠ CONNECT_CALL;
  mc_calls : so_call_list x = [];
  mc_main : has_main d;
  mc_j : 0 ≤ h_call_index h;
  mc_call : calls d !! Z.to_nat (h_call_index h) = Some c0;
  mc_free : c_id c0 = NO_CALL ∧ c_alloc c0 = false;
  mc_cid : h_call_id h ≠ NO_CALL;
  (* no other call waits for a reply with this number *)
  mc_serial : Forall (λ c, c_id c = NO_CALL ∨ c_serial c ≠ serial) (calls d);
  mc_expired : Forall (λ c, c_serial c ≠ serial) (expired_call_list d)
}.

(** The socket while it connects to [addr]. *)
Definition connecting (addr : sockaddr) (x : daemon_socket) : daemon_socket :=
  set_so_rem_addr (addr4_set_port (ntohs (addr4_get_port addr)) (addr4_set_ip (ntohl (addr4_get_ip addr)) (so_rem_addr x)))
    (set_so_listening 0 (set_so_state SS_CONNECTING x)).
(** The entry of the table while the call waits. *)
Definition connect_call (h : wedge_to_daemon_hdr) (serial flags : Z) (c0 : daemon_call) : daemon_call :=
  MkCall (h_sock_id h) (h_sock_index h) CONNECT_CALL (h_call_pid h) (h_call_id h) (h_call_index h) (c_alloc c0)
    serial 0 (u32 flags) 0 1 0 0 (c_timer c0) (c_to_flag c0).

Section Connect.
Context {Q : Type} `{BoundedFifo Q finsFrame} `{DaemonEnv} `{DaemonTcpEnv}.
Abbreviation ST := (mstate Q daemon_data) (only parsing).
Context (fl : list (Z * Z)) (tcp : Z).
Context (Htcp : (DAEMON_FLOW_TCP, tcp) ∈ fl) (Hw : ∀ t, wedge_ok t = true).
Context (protos : Z → option (proto_ops Q)) (Hp : protos IPPROTO_TCP = Some tcp_ops).

(** A request to the TCP module. *)
Definition asks_tcp (serial opcode' param : Z) (ff : finsFrame) : Prop :=
  destinationID ff = tcp ∧ ∃ m c, metaData ff = Some m ∧ body ff = Ctrl c ∧
    serial_num c = serial ∧ opcode c = opcode' ∧ param_id c = param.

Lemma rd_fcf {B} (R : B → ST → Prop) xs n d m serial op param (K : Z → M ST B) :
  meta_ok m = true →
  (∀ ff, asks_tcp serial op param ff → metaData ff = Some m → runs (rest fl (xs ++ [ff]) n d) (K 1) R) →
  runs (rest fl xs (S n) d) (daemon_fcf_to_switch DAEMON_FLOW_TCP m serial op param ≫= K) R.
Proof using Htcp.
  intros Hm HK. unfold daemon_fcf_to_switch. apply runs_assoc, rest_get. intros s _. cbv zeta. apply runs_assoc.
  eapply (rest_send fl _ _ _ _ _ DAEMON_FLOW_TCP tcp); [|done|exact Htcp|].
  { split; [done|]. eexists. by split. }
  change (1 =? 0) with false. cbv iota. apply runs_assoc, runs_ret_bind, runs_ret_bind.
  apply HK; [|done]. split; [done|]. do 2 eexists. by split_and!.
Qed.

Lemma rd_host_ip {B} (R : B → ST → Prop) xs n d ip (K : Z → M ST B) :
  has_main d → (∀ v, runs (rest fl xs n d) (K v) R) → runs (rest fl xs n d) (host_or_main ip ≫= K) R.
Proof.
  intros (f & l & Hf & Hl) HK. unfold host_or_main. destruct (ip =? DAEMON_ADDR_ANY); [|by apply runs_ret_bind].
  apply runs_assoc. unfold main_ip. apply runs_assoc, rest_get. intros s Hs. rewrite (rs_md _ _ _ _ _ Hs), Hf, Hl.
  by apply runs_ret_bind, runs_ret_bind.
Qed.

(** The call leads to a request and waits. *)
Definition requested (d : daemon_data) (h : wedge_to_daemon_hdr) (x : daemon_socket) (c0 : daemon_call)
    (serial flags : Z) (addr : sockaddr) (d' : daemon_data) : Prop :=
  sockets d' = <[Z.to_nat (h_sock_index h) := set_so_call_list [CArr (h_call_index h)] (connecting addr x)]> (sockets d) ∧
  calls d' = <[Z.to_nat (h_call_index h) := connect_call h serial flags c0]> (calls d) ∧
  expired_call_list d' = expired_call_list d ∧ wedge d' = wedge d.

Lemma connect_out_runs xs n d h x c0 addr flags :
  may_connect d h x c0 (serial_of (ticks d)) → sin_family addr = AF_INET → has flags NONBLOCK = false →
  runs (rest fl xs (S n) d) (connect_out_tcp h addr flags)
    (λ _ s, ∃ d' ff, rest fl (xs ++ [ff]) n d' s ∧ requested d h x c0 (serial_of (ticks d)) flags addr d' ∧
       asks_tcp (serial_of (ticks d)) CTRL_EXEC DAEMON_EXEC_TCP_CONNECT ff).
Proof using Htcp.
  intros [Ht Hi Hx _ _ Hfam Hst Herr Hcl Hmain Hj Hc [Hfree Halloc] _ _ _] Haf Hnb.
  unfold connect_out_tcp. eapply rd_sock; [done..|]. rewrite Hst, Ht.
  change (SS_UNCONNECTED =? SS_CONNECTING) with false. change (SS_UNCONNECTED =? SS_CONNECTED) with false.
  change (SS_UNCONNECTED =? SS_UNCONNECTED) with true. cbn [negb].
  rewrite (proj2 (Z.eqb_neq _ _) Herr), Haf, Hfam. change (AF_INET =? AF_INET) with true. change (AF_INET =? AF_UNSPEC) with false. cbn [negb andb].
  unfold connect_start. eapply rd_upd_sock; [done..|]. cbv beta. change (set_so_rem_addr _ _) with (connecting addr x).
  set (d1 := put_sock _ _ d). pose proof (sock_put (h_sock_index h) x (connecting addr x) d Hx) as Hx1. fold d1 in Hx1.
  unfold connect_bind. apply runs_assoc. eapply rd_sock; [done|exact Hx1|].
  change (so_family (connecting addr x)) with (so_family x). rewrite Hfam. change (AF_INET =? AF_UNSPEC) with false.
  cbv iota. apply runs_ret_bind. apply rd_host_ip; [exact Hmain|]. intros ip. apply rd_metas; [reflexivity|].
  eapply rd_sock; [done|exact Hx1|]. apply rd_metas; [reflexivity|]. unfold next_serial. apply rd_ask.
  change (ticks d1) with (ticks d). eapply rd_fcf.
  { repeat (apply put_ints_ok; [|reflexivity]). reflexivity. }
  intros ff Hff _. unfold wait_sent. change (0 <? 1) with true. cbv iota. unfold wait_call. rewrite Ht.
  eapply rd_sock; [done|exact Hx1|]. change (so_call_list (connecting addr x)) with (so_call_list x). rewrite Hcl.
  change (Z.of_nat (length []) <? DAEMON_CALL_LIST_MAX) with true. cbv iota.
  unfold daemon_calls_insert. apply runs_assoc. eapply rd_call; [done|exact Hc|]. rewrite Hfree, Z.eqb_refl.
  apply runs_assoc, runs_ret_bind. eapply rd_upd_call; [done|exact Hc|].
  eapply rd_upd_call; [done|apply list_lookup_insert_eq; by eapply lookup_lt_Some|].
  eapply rd_upd_sock; [done|exact Hx1|]. rewrite Hnb. apply runs_ret. intros s Hs.
  do 2 eexists. split_and!; [exact Hs| |exact Hff]. split_and!; simpl; rewrite ?list_insert_insert_eq; try done.
  by rewrite Hcl.
Qed.

(** The reply of the TCP module. *)
Record replies (serial : Z) (ff : finsFrame) (c : finsCtrlFrame) (ret_msg : Z) : Prop := {
  rp_body : body ff = Ctrl c;
  rp_serial : serial_num c = serial;
  rp_param : param_id c = DAEMON_EXEC_TCP_CONNECT;
  rp_msg : ∃ m, metaData ff = Some m ∧ secure_metadata_readFromElement m "ret_msg" = Ok ret_msg
}.

Lemma take_expired_none serial l : Forall (λ c, c_serial c ≠ serial) l → take_expired serial l = None.
Proof.
  induction 1 as [|c l Hc _ IH]; [done|]. simpl. unfold daemon_call_serial_test.
  by rewrite (proj2 (Z.eqb_neq _ _) Hc), IH.
Qed.

(** What the reply makes of the socket. *)
Definition connect_done (ok : bool) (ret_msg : Z) (x : daemon_socket) : daemon_socket :=
  if ok then set_so_state SS_CONNECTED x
  else set_so_rem_addr (addr4_set_port 0 (addr4_set_ip 0 (so_rem_addr x)))
         (set_so_error ret_msg CONNECT_CALL (set_so_state SS_UNCONNECTED x)).

(** The answer to the call. *)
Definition connect_answer (h : wedge_to_daemon_hdr) (ok : bool) (ret_msg : Z) : wedge_msg :=
  MkWedge CONNECT_CALL (h_call_id h) (h_call_index h) (if ok then DAEMON_ACK else DAEMON_NACK)
    (if ok then ret_msg else ECONNREFUSED) [].

Lemma rd_call_ack {B} (R : B → ST → Prop) xs n d c v (K : unit → M ST B) :
  runs (rest fl xs n (told (MkWedge (c_type c) (c_id c) (c_index c) DAEMON_ACK v []) d)) (K tt) R →
  runs (rest fl xs n d) (ack_call c v ≫= K) R.
Proof using Hw. intros HK. unfold ack_call, ack_send. do 2 apply runs_assoc. by apply rd_wedge. Qed.
Lemma rd_call_nack {B} (R : B → ST → Prop) xs n d c v (K : unit → M ST B) :
  runs (rest fl xs n (told (MkWedge (c_type c) (c_id c) (c_index c) DAEMON_NACK v []) d)) (K tt) R →
  runs (rest fl xs n d) (nack_call c v ≫= K) R.
Proof using Hw. intros HK. unfold nack_call, nack_send. do 2 apply runs_assoc. by apply rd_wedge. Qed.

(** The waiting call is found by its number and leaves the table. *)
Lemma reply_taken xs n d d0 h x c0 serial flags addr ff c ret_msg (R : unit → ST → Prop) :
  may_connect d h x c0 serial → requested d h x c0 serial flags addr d0 → replies serial ff c ret_msg →
  let cw := set_c_alloc true (connect_call h serial flags c0) in
  let d1 := put_sock (h_sock_index h) (set_so_call_list [] (connecting addr x))
              (put_call (h_call_index h) (stop_call (set_c_id NO_CALL (connect_call h serial flags c0))) d0) in
  runs (rest fl xs n d1) (connect_in_tcp ff cw) R → runs (rest fl xs n d0) (daemon_exec_reply protos ff) R.
Proof using Hp.
  intros [Ht Hi Hx Hsid Hops Hfam Hst _ Hcl _ Hj Hc _ Hcid Hser Hexp] (Es & Ec & Ee & _) [Hb Hsn Hpm _] cw d1 HR.
  unfold daemon_exec_reply. eapply rest_ctrl; [exact Hb|]. apply rest_get. intros s Hs. rewrite (rs_md _ _ _ _ _ Hs), Hsn.
  rewrite take_expired_none by by rewrite Ee. unfold daemon_calls_find. apply runs_assoc, rest_get. intros s1 Hs1.
  rewrite (rs_md _ _ _ _ _ Hs1).
  assert (calls d0 !! Z.to_nat (h_call_index h) = Some (connect_call h serial flags c0)) as Hc1.
  { rewrite Ec. apply list_lookup_insert_eq. by eapply lookup_lt_Some. }
  rewrite (first_index_unique _ _ (Z.to_nat (h_call_index h)) _ Hc1), Z2Nat.id; [|done| |].
  2:{ simpl. by rewrite (proj2 (Z.eqb_neq _ _) Hcid), Z.eqb_refl. }
  2:{ intros k y Hy Hk. rewrite Ec, list_lookup_insert_ne in Hy by done.
      eapply Forall_lookup_1 in Hser as [E|E]; [| |exact Hy].
      - by rewrite E.
      - by rewrite (proj2 (Z.eqb_neq _ _) E), andb_false_r. }
  apply runs_ret_bind. rewrite (proj2 (Z.eqb_neq _ _)) by lia. unfold take_call. eapply rd_call; [done|exact Hc1|]. cbv zeta.
  unfold daemon_calls_remove. eapply rd_upd_call; [done|exact Hc1|].
  assert (sockets d0 !! Z.to_nat (h_sock_index h) = Some (set_so_call_list [CArr (h_call_index h)] (connecting addr x))) as Hx1.
  { rewrite Es. apply list_lookup_insert_eq. by eapply lookup_lt_Some. }
  eapply rd_sock; [done|exact Hx1|]. rewrite (proj2 (Z.eqb_eq _ _)) by exact Hsid. cbn [negb].
  eapply rd_upd_sock; [done|exact Hx1|]. cbv beta. simpl remove_arr. rewrite Z.eqb_refl.
  unfold call_reply. change (existsb _ _) with true. cbv iota. unfold sock_ops. apply runs_assoc.
  eapply rd_sock; [done|by eapply sock_put|]. change (so_ops _) with (so_ops x). rewrite Hops, Hp. apply runs_ret_bind.
  exact HR.
Qed.

Lemma connect_in_runs xs n d h x c serial flags c0 ff ctrl ret_msg :
  0 ≤ h_sock_index h → sockets d !! Z.to_nat (h_sock_index h) = Some x →
  c = set_c_alloc true (connect_call h serial flags c0) → replies serial ff ctrl ret_msg →
  runs (rest fl xs n d) (connect_in_tcp ff c)
    (λ _ s, ∃ d', rest fl xs n d' s ∧
       sockets d' = <[Z.to_nat (h_sock_index h) := connect_done (ret_val ctrl =? FCF_TRUE) ret_msg x]> (sockets d) ∧
       calls d' = calls d ∧ wedge d' = wedge d ++ [connect_answer h (ret_val ctrl =? FCF_TRUE) ret_msg]).
Proof using Hw.
  intros Hi Hx -> [Hb _ Hpm (m & Hm & Hr)]. unfold connect_in_tcp, expect_param. eapply rest_ctrl; [exact Hb|].
  rewrite Hpm. change (existsb _ _) with true. cbv iota. eapply rest_read; [exact Hm|exact Hr|]. unfold connect_done, connect_answer.
  destruct (ret_val ctrl =? FCF_TRUE); apply runs_assoc.
  - eapply rd_upd_sock; [done..|]. apply rd_call_ack, runs_bind_r, rest_free; [by rewrite Hb|]. apply runs_ret. intros s Hs.
    eexists. by split_and!.
  - unfold connect_failed. eapply rd_upd_sock; [done..|]. apply rd_call_nack, runs_bind_r, rest_free; [by rewrite Hb|].
    apply runs_ret. intros s Hs. eexists. by split_and!.
Qed.

(** The reply answers the call, and nothing of the call is left. *)
Lemma reply_runs xs n d d1 h x c0 serial flags addr ff c ret_msg :
  may_connect d h x c0 serial → requested d h x c0 serial flags addr d1 → replies serial ff c ret_msg →
  let ok := ret_val c =? FCF_TRUE in
  runs (rest fl xs n d1) (daemon_exec_reply protos ff)
    (λ _ s, ∃ d2 c2, rest fl xs n d2 s ∧ wedge d2 = wedge d ++ [connect_answer h ok ret_msg] ∧
       sockets d2 = <[Z.to_nat (h_sock_index h) := connect_done ok ret_msg (connecting addr x)]> (sockets d) ∧
       calls d2 = <[Z.to_nat (h_call_index h) := c2]> (calls d) ∧ c_id c2 = NO_CALL).
Proof using Hw Hp.
  intros Hmc Hrq Hrp ok. pose proof Hrq as (Es & Ec & Ee & Ew).
  assert (set_so_call_list [] (connecting addr x) = connecting addr x) as Ex.
  { pose proof (mc_calls _ _ _ _ _ Hmc) as Hcl. destruct x. simpl in Hcl. by subst. }
  assert (sockets d1 !! Z.to_nat (h_sock_index h) = Some (set_so_call_list [CArr (h_call_index h)] (connecting addr x))) as Hx1.
  { rewrite Es. apply list_lookup_insert_eq. eapply lookup_lt_Some, Hmc. }
  eapply reply_taken; [done..|]. cbv zeta. rewrite Ex. eapply runs_post.
  - eapply (connect_in_runs _ _ _ h (connecting addr x)); [apply Hmc| |reflexivity|exact Hrp].
    simpl. apply list_lookup_insert_eq. by eapply lookup_lt_Some.
  - intros [] s (d2 & Hs2 & Es2 & Ec2 & Ew2). do 2 eexists. split_and!; [exact Hs2| | | |].
    + rewrite Ew2. simpl. by rewrite Ew.
    + rewrite Es2. simpl. by rewrite Es, !list_insert_insert_eq.
    + rewrite Ec2. simpl. by rewrite Ec, list_insert_insert_eq.
    + done.
Qed.

End Connect.

(** C11: A blocking [connect] on a bound TCP socket sends one request to the TCP
    module, under a fresh number, and no answer to the application; the reply
    with that number is then turned into the only answer, the socket is
    connected to the address or, after a refusal, unconnected with the error
    kept for later, and the call has left the table and the socket. *)
Theorem tcp_connect_answered {Q} `{BoundedFifo Q finsFrame} `{DaemonEnv} `{DaemonTcpEnv}
    fl tcp (protos : Z → option (proto_ops Q)) xs n d h x c0 addr flags (s : mstate Q daemon_data) :
  (∀ t, wedge_ok t = true) → (DAEMON_FLOW_TCP, tcp) ∈ fl → protos IPPROTO_TCP = Some tcp_ops →
  rest fl xs (S n) d s → may_connect d h x c0 (serial_of (ticks d)) →
  sin_family addr = AF_INET → has flags NONBLOCK = false →
  ∃ s1 d1 ff, connect_out_tcp h addr flags s = Ok (tt, s1) ∧ rest fl (xs ++ [ff]) n d1 s1 ∧
    asks_tcp tcp (serial_of (ticks d)) CTRL_EXEC DAEMON_EXEC_TCP_CONNECT ff ∧ wedge d1 = wedge d ∧
    ∀ reply c ret_msg, replies (serial_of (ticks d)) reply c ret_msg →
      let ok := ret_val c =? FCF_TRUE in
      ∃ s2 d2 c2, daemon_exec_reply protos reply s1 = Ok (tt, s2) ∧ rest fl (xs ++ [ff]) n d2 s2 ∧
        wedge d2 = wedge d ++ [connect_answer h ok ret_msg] ∧
        sockets d2 = <[Z.to_nat (h_sock_index h) := connect_done ok ret_msg (connecting addr x)]> (sockets d) ∧
        calls d2 = <[Z.to_nat (h_call_index h) := c2]> (calls d) ∧ c_id c2 = NO_CALL.
Proof.
  intros Hw Htcp Hp Hs Hmc Haf Hnb.
  destruct (connect_out_runs fl tcp Htcp xs n d h x c0 addr flags Hmc Haf Hnb s Hs) as ([] & s1 & E & d1 & ff & Hs1 & Hrq & Hask).
  exists s1, d1, ff. split_and!; [done..|apply Hrq|]. intros reply c ret_msg Hrp ok.
  destruct (reply_runs fl Hw protos Hp (xs ++ [ff]) n d d1 h x c0 _ flags addr reply c ret_msg Hmc Hrq Hrp s1 Hs1)
    as ([] & s2 & E2 & d2 & c2 & Hs2 & Hrest).
  exists s2, d2, c2. by split_and!; [..|apply Hrest|apply Hrest|apply Hrest|apply Hrest].
Qed.

(** ** A concrete daemon *)

#[local] Existing Instance demo_daemon_env.
#[local] Existing Instance demo_tcp_env.

Definition tcp_only {Q} `{BoundedFifo Q finsFrame} `{DaemonEnv} `{DaemonTcpEnv} (i : Z) : option (proto_ops Q) :=
  if i =? IPPROTO_TCP then Some tcp_ops else None.

(** A socket bound to port 5000. *)
Definition demo_bound_socket : daemon_socket :=
  set_so_host_addr (MkAddr AF_INET 5000 3232235777)
    (set_so_family AF_INET (new_socket 71 SOCK_STREAM IPPROTO_TCP IPPROTO_TCP free_socket)).
Definition demo_tcp_data : daemon_data := put_sock 0 demo_bound_socket demo_daemon_data.
Definition demo_connect_hdr : wedge_to_daemon_hdr := MkHdr 71 0 CONNECT_CALL 9 31 4.
Definition demo_peer : sockaddr := MkAddr AF_INET (htons 80) (htonl 167772161).
Definition demo_connect_reply (ret_val : Z) : finsFrame :=
  MkFrame 1 (Some [("ret_msg", SInt 0)]) (Ctrl (MkCtrl 6 1000 CTRL_EXEC_REPLY DAEMON_EXEC_TCP_CONNECT ret_val 0 CNull)).

Lemma demo_may_connect : may_connect demo_tcp_data demo_connect_hdr demo_bound_socket free_call 1000.
Proof.
  split; try done.
  - by exists demo_if, (default [] (addr_list demo_if)).
  - apply Forall_replicate. by left.
Qed.

(** Witness of C11: the TCP module accepts. *)
Lemma tcp_connect_answered_witness :
  ∃ s1 d1 ff, connect_out_tcp demo_connect_hdr demo_peer 0
      (set_md demo_tcp_data demo_daemon) = Ok (tt, s1) ∧ rest [(DAEMON_FLOW_TCP, 6)] ([] ++ [ff]) 2 d1 s1 ∧
    asks_tcp 6 1000 CTRL_EXEC DAEMON_EXEC_TCP_CONNECT ff ∧ wedge d1 = [] ∧
    ∃ s2 d2 c2, daemon_exec_reply tcp_only (demo_connect_reply FCF_TRUE) s1
        = Ok (tt, s2) ∧ rest [(DAEMON_FLOW_TCP, 6)] ([] ++ [ff]) 2 d2 s2 ∧
      wedge d2 = [] ++ [MkWedge CONNECT_CALL 31 4 DAEMON_ACK 0 []] ∧
      sockets d2 = <[0%nat := connect_done true 0 (connecting demo_peer demo_bound_socket)]> (sockets demo_tcp_data) ∧
      calls d2 = <[4%nat := c2]> (calls demo_tcp_data) ∧ c_id c2 = NO_CALL.
Proof.
  assert (rest [(DAEMON_FLOW_TCP, 6)] [] 3 demo_tcp_data (set_md demo_tcp_data demo_daemon)) as Hs
    by exact (rest_set _ _ _ _ _ _ demo_stream_rest).
  destruct (tcp_connect_answered (H0 := demo_daemon_env) (H1 := demo_tcp_env) [(DAEMON_FLOW_TCP, 6)] 6
    tcp_only [] 2 demo_tcp_data demo_connect_hdr demo_bound_socket free_call
    demo_peer 0 (set_md demo_tcp_data demo_daemon) (λ _, eq_refl) (proj2 (list_elem_of_singleton _ _) eq_refl) eq_refl
    Hs demo_may_connect eq_refl eq_refl)
    as (s1 & d1 & ff & E & Hs1 & Hask & Ew & Hr).
  exists s1, d1, ff. split_and!; [done..|]. apply (Hr (demo_connect_reply FCF_TRUE) (MkCtrl 6 1000 CTRL_EXEC_REPLY DAEMON_EXEC_TCP_CONNECT FCF_TRUE 0 CNull) 0).
  split; try done. by exists [("ret_msg", SInt 0)].
Defined.

(** ** Calls that are answered twice *)

(** The alert with which the TCP module announces that the other end closed. *)
Definition demo_shutdown : finsFrame :=
  MkFrame 1 (Some [("protocol", SInt 6); ("ret_msg", SInt DAEMON_STATUS_RD); ("family", SInt AF_INET);
                   ("state", SInt SS_CONNECTED); ("host_ip", SInt (s32 3232235777)); ("host_port", SInt 5000);
                   ("rem_ip", SInt 167772161); ("rem_port", SInt 80)])
    (Ctrl (MkCtrl 6 0 CTRL_ALERT DAEMON_ALERT_SHUTDOWN 0 0 CNull)).

(** A reader that must not block waits; the other end closes; the timer of the
    call fires. *)
Definition demo_eof_run : M (mstate (QueueRecord finsFrame) daemon_data) unit :=
  recvmsg_out_tcp (MkHdr 71 0 RECVMSG_CALL 9 31 4) 100 0 MSG_DONTWAIT ;;
  daemon_fcf tcp_only demo_shutdown ;;
  call_expires 4 ;;
  daemon_interrupt tcp_only.

(** The call with identifier 31 gets the end of the stream and then [EAGAIN]. *)
Lemma tcp_eof_answered_twice :
  match demo_eof_run demo_stream with
  | Ok (_, s) => map (λ w, (w_id w, w_ret w, w_msg w)) (wedge (md s)) = [(31, DAEMON_ACK, 0); (31, DAEMON_NACK, EAGAIN)]
  | _ => False
  end.
Proof. vm_compute. reflexivity. Qed.
